(* ===== verification/_CoqProject ===== *)
-Q . S2P
Prelude.v
Ies.v
PwrSeqCmd.v
PwrFlow8188F.v
EzConfigVars.v
EzCountry.v
EzMac.v
EzPreinit.v
EzCalib.v
EzSc.v
Ie.v
IeSec.v
Wps.v
ElemParse.v
Reorder.v
Crc32.v
Arc4.v
Sec.v
Acl.v
Wep.v
Words.v
Michael.v
TkipKey.v
Tkip.v
Aes.v
Modes.v
Ccm.v
Gf128.v
Omac.v
Gcm.v
Ccmp.v
Gcmp.v
SwCrypt.v
Bip.v
BipAes.v
RecvFrame.v
RecvPn.v
Defrag.v
RecvMpdu.v
TkipCm.v
StaTable.v
RecvValid.v
RecvPath.v
TxFrame.v
Trip.v
