(* ===== verification/Prelude.v ===== *)
(** * The RTL8188FU driver: a verification library

    The repository is a Linux driver for the RTL8188F USB Wi-Fi chip with the extensions an
    IP camera needs ("EZVIZ": start-up from a configuration file, smart configuration by probe
    requests, calibration ioctls). It is written in C; the definitions here follow the C
    functions branch by branch and keep their names.

    ** How C is modelled

    - A [w]-bit integer is a [Z]; wrap-around is written out ([u8], [u16], [u32], [u64],
      [s32]) where the code can reach it.
    - A buffer is a list of bytes. A pointer into it is an offset, NULL is [None]. Reads and
      writes ([rd], [wr], [rdn], [wrn], [memcmp_eq]) are bounds-checked: a function returns
      [Ok] with its results, or the [fault] at which the C program leaves defined
      behaviour. ([Elsewhere] is none: there control passes to code that is not modelled; it
      occurs in [RecvValid] and [RecvPath] only.) A theorem that a function returns [Ok] is therefore a
      memory-safety theorem, and the theorems named [.._iff] give the exact inputs that break it.
    - Output parameters and the objects a function changes are results; static state is
      a record passed through.
    - A loop is [loop step fuel]: [step] is the C loop body. [FuelOut] has no counterpart in C;
      each call passes fuel that covers the loop (usually one more than the length of
      the text scanned), and the theorems exclude [FuelOut], by [loop_spec] and a
      measure. Where the C loop does not end ([Wps]) the theorem says for every fuel when.
      Loops over a counter are structural.
    - [size_t] is unsigned with 32 bits. Whether an allocation succeeds is an argument; where its bytes
      matter, the allocator is one.
    - Code outside the repository (the kernel's file, user-memory and timer calls, the chip's
      registers, the efuse) is a parameter or a class.

    ** The files

    - [Prelude]: integers, the result monad, buffers, loops, tactics.
    - [Ies]: the format the element routines share: [enc] writes elements as bytes.
    - [PwrSeqCmd]: [hal/HalPwrSeqCmd.c], the interpreter of power sequences: command filter,
      masked write, polling. It ends; which polls succeed; how many registers it reads;
      a write changes the masked bits only.
    - [PwrFlow8188F]: the tables of [include/Hal8188FPwrSeq.h] and the flows of
      [hal/rtl8188f/Hal8188FPwrSeq.c], run by the interpreter: no flow faults on
      any chip; the polls of a flow share one budget.
    - [EzConfigVars], [EzCountry], [EzMac], [EzPreinit]: the start-up part of
      [os_dep/linux/ez_wifi_config.c]. [process_config_vars] scans the configuration text;
      [ez_set_country] maps a code to a channel plan; [ez_mac2u8] parses an address;
      [ez_wifi_preinit] ties them together, with every allocation and open file accounted for.
    - [EzCalib]: the ioctls of the same file over an abstract efuse (class [Efuse]).
    - [EzSc]: [os_dep/linux/ez_sc.c]: the static state is a record; probe requests, probe
      responses and ioctls are operations on it, and events of the sequences that [ez_run] executes.
      Handshake theorems run the ioctls and the frame handlers in sequence.
    - [Ie]: [core/rtw_ieee80211.c], first part: searching, removing, replacing and
      building elements, rate filters, the beacon of an ad hoc network.
    - [IeSec]: the WPA and RSN part: suite tables, parsers, collection from a beacon.
    - [Wps]: the WPS part and the extended capabilities.
    - [ElemParse]: [rtw_ieee802_11_parse_elems] and the choice of the station's address.
    - [Reorder]: the receive reordering window of [core/rtw_recv.c], with an abstract
      receiver of unbounded sequence numbers that it refines.
    - [Crc32], [Arc4], [Sec], [Wep], [Michael], [TkipKey], [Tkip]: software encryption in
      [core/rtw_security.c]: the checksum, proved to be division by the CRC-32 polynomial; RC4; what the
      ciphers share (attributes, the loop over fragments, counters); WEP; the Michael
      code; the two phases of TKIP key mixing; TKIP.
    - [Words], [Aes], [Modes], [Ccm], [Gf128], [Omac], [Gcm]: the AES of [core/crypto]: the cipher by
      tables, proved to be FIPS 197; what the modes share; CCM; the field of 2^128 elements, its
      polynomials and bytes; CMAC; GCM and GMAC.
    - [Ccmp], [Gcmp], [SwCrypt]: the ciphers of frames over them ([core/crypto/ccmp.c], [gcmp.c],
      [core/rtw_swcrypto.c]) and the entry points of [core/rtw_security.c], which choose the key.
    - [Bip], [BipAes]: protection of broadcast management frames, over message authentication codes
      given by an interface (class [MacPrims]); and the interface implemented by [Omac] and [Gcm].
    - [RecvFrame]: a received frame as a window of a buffer, with the four moves of its ends, the
      LLC parser and the step from an 802.11 to an Ethernet header.
    - [RecvPn]: packet numbers and duplicates: the two replay checks, whose rule is not quite the one their
      comment gives, and [recv_decache].
    - [Defrag]: the pool of received frames, reassembly and the Michael check.
    - [RecvMpdu]: A-MSDU subframes and the delivery to the network stack, on a station.
    - [StaTable]: [core/rtw_sta_mgt.c], the table of stations: hash buckets over a pool of records, release
      with the received frames a station holds, association ids. It refines a set of addresses.
    - [Acl]: the access control lists of [core/rtw_ap.c], which refine one bounded set of addresses per period.
    - [RecvValid]: validation of data frames (management and control frames lead [Elsewhere]): header, addresses, transmitter, duplicates, cipher, the rule against
      plain frames; what a station accepts, exactly.
    - [RecvPath]: the receive path as a whole: [rtw_recv_entry], [recv_func] and its two halves, decryption, the
      controlled port, delivery (not on an access point, which forwards). No buffer of the pool is lost on it; what a
      blocked port lets through.
    - [TxFrame]: data frames to send, from [core/rtw_xmit.c]: cipher and packet number ([update_attrib_sec_info]), header
      ([rtw_make_wlanhdr]), fragments, Michael code and software encryption ([rtw_xmitframe_coalesce]).
    - [Trip]: sending and receiving together: what an access point seals, a station with the same key delivers.
    - [TkipCm]: the TKIP countermeasures, over a tick counter of 32 bits (class [Jiffies]).

    ** How the parts meet

    [IeSec] and [Wps] call the searches of [Ie]; [Wps] also its editing routines. [EzPreinit]
    calls the scanner, the country table and the address parser. [PwrFlow8188F] runs its tables
    through [PwrSeqCmd]. [ElemParse], [Ie], [IeSec], [Wps] and [EzSc] state their theorems over the
    element format of [Ies]. A frame passes [Reorder] before any of its content is parsed. [Wep], [Tkip] and
    [SwCrypt] share the attributes, counters and loop over fragments of [Sec]; [SwCrypt] runs one entry
    point over a record of cipher operations, with [Ccmp] and [Gcmp] as instances. [Ccm], [Gcm] and [Omac]
    use the cipher only through [CipherOk] of [Modes]. [StaTable] owns the windows of [Reorder] and the fragment
    queues of [Defrag], and gives their frames back to the pool of [Defrag]. [RecvPath] runs a frame through [RecvValid],
    the cipher its attributes name, [Defrag], the controlled port, [Reorder] and [RecvMpdu], over one state: the station table, the
    pool, the frames in windows and those that wait for the key. [TxFrame] looks stations up in [StaTable] and runs the routines of [Wep],
    [Michael], [Tkip] and [SwCrypt] on the buffer it filled. [Trip] has no definitions of code: its theorem puts [TxFrame] and
    [RecvPath] one behind the other.

    ** What the groups of theorems show

    - Equivalence: the cipher by tables is AES, the CRC by table is polynomial division, CMAC, GHASH and
      Michael are their definitions; CCMP and GCMP frames open to what was sealed and to nothing else.
    - Functional: the searches return the first (or, where the code keeps overwriting,
      the last) element; removal and replacement are exactly those on lists of elements; the
      parsers invert the encoders ([.._roundtrip]); a packet that one driver sends is the packet the other hands up.
    - Order and liveness: frames are handed on in strictly increasing order and none waits for
      ever; loops end.
    - Safety and bounds: on arbitrary bytes the parsers stay inside the block, or the
      exact condition under which they do not.
    - Errors: a search loop that a received frame can make endless, buffers that are
      written past their end, a leak; each is stated as a theorem about the code as it is.

    ** Bounds and fuel

    Element bodies are below 256 bytes and blocks below [2^31], as [elem_ok] and the theorems
    state; [process_config_vars] works on texts up to 65536 bytes (its buffer has 4096).
    Sequence numbers have 12 bits; a received frame is taken to be within half the number space of
    the window start, which is what the code's comparison can tell apart.

    ** What is not modelled

    Received management and control frames, forwarding by an access point. Of the transmit path the queues, buffers and descriptors, the choice of rates and
    protection, and management frames; the MLME, AP, P2P and TDLS state machines, power saving, channel plans and the efuse
    format; SHA-256 and AES-SIV; the HAL and PHYDM register sequences, whose behaviour is
    the chip's; generated tables and firmware; the Linux glue; debugging output. Mesh, WAPI and TDLS branches
    are left out of the receive path. Locks are modelled by the atomicity of the operations they
    guard. Of the station table the transmit queues, MAC ids and the session tracker are left. The
    P2P and WFD elements, [core/rtw_rm_fsm.c], the efuse packets and [core/rtw_chplan.c] would come next. *)
From Stdlib Require Import ZArith Lia Bool Ascii String.
From stdpp Require Import base option list numbers.

(** ** Machine integers: a [w]-bit value is a [Z], wrap-around written out *)

Declare Scope c_scope.
Delimit Scope c_scope with C.

Local Open Scope Z_scope.

Definition u8 (z : Z) : Z := z mod 2 ^ 8.
Definition u16 (z : Z) : Z := z mod 2 ^ 16.
Definition u32 (z : Z) : Z := z mod 2 ^ 32.
Definition u64 (z : Z) : Z := z mod 2 ^ 64.
Definition s8 (z : Z) : Z := (z + 2 ^ 7) mod 2 ^ 8 - 2 ^ 7.
Definition s32 (z : Z) : Z := (z + 2 ^ 31) mod 2 ^ 32 - 2 ^ 31.
Definition s64 (z : Z) : Z := (z + 2 ^ 63) mod 2 ^ 64 - 2 ^ 63.
Definition BIT (n : Z) : Z := Z.shiftl 1 n.

Notation "x & y" := (Z.land x y) (at level 40, left associativity) : c_scope.
Notation "x .| y" := (Z.lor x y) (at level 50, left associativity) : c_scope.
Notation "~~ x" := (Z.lnot x) (at level 35, right associativity) : c_scope.

Definition is_byte (z : Z) : Prop := 0 <= z < 256.
Definition bytes (l : list Z) : Prop := Forall is_byte l.

Definition is_byteb (z : Z) : bool := (0 <=? z) && (z <? 256).

Lemma is_byteb_spec z : is_byteb z = true <-> is_byte z.
Proof. unfold is_byteb, is_byte. lia. Qed.

Lemma bytes_by_compute l : forallb is_byteb l = true -> bytes l.
Proof.
  unfold bytes. rewrite List.forallb_forall. intros H.
  apply List.Forall_forall. intros x Hx. apply is_byteb_spec. auto.
Qed.

Lemma u8_range z : is_byte (u8 z).
Proof. unfold is_byte, u8. apply Z.mod_pos_bound. lia. Qed.

Lemma u8_small z : is_byte z -> u8 z = z.
Proof. unfold is_byte, u8. intros. apply Z.mod_small. lia. Qed.

Lemma u16_range z : 0 <= u16 z < 65536.
Proof. apply Z.mod_pos_bound. lia. Qed.

Lemma u16_small z : 0 <= z < 65536 -> u16 z = z.
Proof. intros. apply Z.mod_small. lia. Qed.

Lemma u32_range z : 0 <= u32 z < 4294967296.
Proof. apply Z.mod_pos_bound. lia. Qed.

Lemma u32_small z : 0 <= z < 4294967296 -> u32 z = z.
Proof. intros. apply Z.mod_small. lia. Qed.

Lemma land_byte x y : is_byte x -> is_byte (Z.land x y).
Proof.
  unfold is_byte. intros [H1 H2]. split.
  - apply Z.land_nonneg. lia.
  - destruct (Z.eq_dec (Z.land x y) 0) as [->|Hne]; [lia|].
    assert (0 <= Z.land x y) by (apply Z.land_nonneg; lia).
    change 256 with (2 ^ 8). apply Z.log2_lt_pow2; [lia|].
    destruct (Z.eq_dec x 0) as [->|Hx]; [rewrite Z.land_0_l in Hne; lia|].
    assert (Z.log2 x < 8) by (apply Z.log2_lt_pow2; lia).
    destruct (Z.le_gt_cases 8 (Z.log2 (Z.land x y))) as [Hge|]; [|lia].
    assert (Hb : Z.testbit (Z.land x y) (Z.log2 (Z.land x y)) = true)
      by (apply Z.bit_log2; lia).
    rewrite Z.land_spec in Hb. apply andb_true_iff in Hb as [Hb _].
    rewrite Z.bits_above_log2 in Hb by lia. discriminate.
Qed.

Lemma land_byte_r x y : is_byte y -> is_byte (Z.land x y).
Proof. rewrite Z.land_comm. apply land_byte. Qed.

Lemma lor_byte x y : is_byte x -> is_byte y -> is_byte (Z.lor x y).
Proof.
  unfold is_byte. intros [] []. split; [apply Z.lor_nonneg; lia|].
  destruct (Z.eq_dec (Z.lor x y) 0) as [->|]; [lia|].
  assert (0 <= Z.lor x y) by (apply Z.lor_nonneg; lia).
  change 256 with (2 ^ 8). apply Z.log2_lt_pow2; [lia|].
  rewrite Z.log2_lor by lia.
  destruct (Z.eq_dec x 0) as [->|], (Z.eq_dec y 0) as [->|]; simpl; try lia;
    try (apply Z.max_lub_lt); try (apply Z.log2_lt_pow2; lia); try lia;
    simpl; lia.
Qed.

(** The bits of a [w]-bit value, and back. *)
Lemma testbit_above w x n : 0 <= x < 2 ^ w -> w <= n -> Z.testbit x n = false.
Proof.
  intros [H0 H1] Hn. destruct (Z.eq_dec x 0) as [->|]; [apply Z.bits_0|].
  apply Z.bits_above_log2; [lia|]. assert (Z.log2 x < w) by (apply Z.log2_lt_pow2; lia). lia.
Qed.

Lemma below_pow2 w x : 0 <= w -> 0 <= x -> (forall n, w <= n -> Z.testbit x n = false) -> 0 <= x < 2 ^ w.
Proof.
  intros Hw H0 H. split; [done|]. destruct (Z.lt_ge_cases x (2 ^ w)) as [|Hge]; [done|]. exfalso.
  assert (0 < 2 ^ w) by (apply Z.pow_pos_nonneg; lia).
  assert (w <= Z.log2 x) by (apply Z.log2_le_pow2; lia).
  specialize (H (Z.log2 x)). rewrite Z.bit_log2 in H by lia. discriminate H. done.
Qed.

Lemma lxor_below w x y : 0 <= w -> 0 <= x < 2 ^ w -> 0 <= y < 2 ^ w -> 0 <= Z.lxor x y < 2 ^ w.
Proof.
  intros Hw Hx Hy. apply below_pow2; [done | apply Z.lxor_nonneg; lia |].
  intros n Hn. rewrite Z.lxor_spec, !(testbit_above w) by done. done.
Qed.

Lemma lor_below w x y : 0 <= w -> 0 <= x < 2 ^ w -> 0 <= y < 2 ^ w -> 0 <= Z.lor x y < 2 ^ w.
Proof.
  intros Hw Hx Hy. apply below_pow2; [done | apply Z.lor_nonneg; lia |].
  intros n Hn. rewrite Z.lor_spec, !(testbit_above w) by done. done.
Qed.

Lemma lxor_byte x y : is_byte x -> is_byte y -> is_byte (Z.lxor x y).
Proof. apply (lxor_below 8). lia. Qed.

Lemma byte_testbit_above x n : is_byte x -> 8 <= n -> Z.testbit x n = false.
Proof. apply (testbit_above 8). Qed.

Lemma lxor_cancel_r x y b : Z.lxor x b = Z.lxor y b -> x = y.
Proof.
  intros E. apply (f_equal (fun z => Z.lxor z b)) in E. cbv beta in E.
  rewrite !Z.lxor_assoc, !Z.lxor_nilpotent, !Z.lxor_0_r in E. done.
Qed.

Lemma land_ff_mod x : Z.land x 0xff = x mod 256.
Proof. change 0xff with (Z.ones 8). rewrite Z.land_ones by lia. done. Qed.

(** Bits that do not meet: [|] is addition. *)
Lemma lor_shiftl_add x b k : 0 <= k -> 0 <= x < 2 ^ k -> Z.lor x (Z.shiftl b k) = x + b * 2 ^ k.
Proof.
  intros Hk Hx. assert (H : Z.land x (Z.shiftl b k) = 0).
  { apply Z.bits_inj'. intros n Hn. rewrite Z.land_spec, Z.bits_0. destruct (Z.ltb_spec n k).
    - rewrite Z.shiftl_spec_low by done. apply andb_false_r.
    - rewrite (testbit_above k x n) by done. done. }
  rewrite <- Z.lxor_lor, <- Z.add_nocarry_lxor by done. rewrite Z.shiftl_mul_pow2 by done. done.
Qed.

Create HintDb cbytes.
#[export] Hint Resolve u8_range land_byte land_byte_r lor_byte lxor_byte : cbytes.

(** ** Faults and the result monad

    A C function is total here: it returns its value, or the fault at which the
    C program leaves defined behaviour. [BadPtr] is an access
    through, or a free of, a pointer that is not a live block. Two constructors are no fault of the C
    program: [Elsewhere], where control passes to code that is not modelled, and [FuelOut], a loop that ran
    out of fuel, which theorems exclude. *)

Inductive fault : Type :=
| OobRead
| OobWrite
| NullDeref
| BadPtr
| Elsewhere
| FuelOut.

#[export] Instance fault_eq_dec : EqDecision fault.
Proof. solve_decision. Defined.

Inductive res (A : Type) : Type :=
| Ok (a : A)
| Fault (f : fault).
Arguments Ok {A} _.
Arguments Fault {A} _.

#[export] Instance res_eq_dec `{EqDecision A} : EqDecision (res A).
Proof. solve_decision. Defined.

Definition bind {A B} (m : res A) (f : A -> res B) : res B :=
  match m with Ok a => f a | Fault e => Fault e end.

Notation "x <- m ;; k" := (bind m (fun x => k))
  (at level 20, m at level 99, k at level 200) : c_scope.
Notation "' p <- m ;; k" := (bind m (fun x => match x with p => k end))
  (at level 20, p pattern, m at level 99, k at level 200) : c_scope.
#[global] Open Scope c_scope.

Lemma bind_Ok {A B} (m : res A) (f : A -> res B) (b : B) :
  bind m f = Ok b <-> exists a, m = Ok a /\ f a = Ok b.
Proof.
  destruct m as [a|e]; simpl; split.
  - eauto.
  - intros (a' & [= <-] & H). exact H.
  - discriminate.
  - intros (a' & [=] & _).
Qed.

Lemma bind_assoc {A B D} (m : res A) (f : A -> res B) (g : B -> res D) :
  bind (bind m f) g = bind m (fun x => bind (f x) g).
Proof. destruct m; reflexivity. Qed.

(** Inverts every [bind _ _ = Ok _] in the context. *)
Ltac res_inv :=
  repeat match goal with
  | H : bind _ _ = Ok _ |- _ =>
      let a := fresh "a" in let Ha := fresh "Ha" in
      apply bind_Ok in H as (a & Ha & H)
  | H : Ok _ = Ok _ |- _ => injection H; clear H; intros; subst
  | H : Fault _ = Ok _ |- _ => discriminate H
  | H : Ok _ = Fault _ |- _ => discriminate H
  end.

(** ** Buffers: bounds-checked reads and writes of a [list Z] *)

Definition zlen {A} (b : list A) : Z := Z.of_nat (length b).

Definition rd {A} (b : list A) (i : Z) : res A :=
  if i <? 0 then Fault OobRead
  else match b !! Z.to_nat i with Some v => Ok v | None => Fault OobRead end.

Definition wr {A} (b : list A) (i : Z) (v : A) : res (list A) :=
  if (0 <=? i) && (i <? zlen b) then Ok (<[Z.to_nat i := v]> b)
  else Fault OobWrite.

(** [n] bytes from offset [i] (memcpy's source, memcmp's operand) *)
Definition rdn {A} (b : list A) (i n : Z) : res (list A) :=
  if (0 <=? i) && (0 <=? n) && (i + n <=? zlen b)
  then Ok (take (Z.to_nat n) (drop (Z.to_nat i) b)) else Fault OobRead.

(** memcpy of [src] to offset [i] *)
Definition wrn {A} (b : list A) (i : Z) (src : list A) : res (list A) :=
  if (0 <=? i) && (i + zlen src <=? zlen b)
  then Ok (take (Z.to_nat i) b ++ src ++ drop (Z.to_nat i + length src) b)
  else Fault OobWrite.

Definition list_eqb (a b : list Z) : bool := bool_decide (a = b).

(** [!memcmp(&b[i], pat, strlen(pat))] *)
Definition memeq (b : list Z) (i : Z) (pat : list Z) : res bool :=
  s <- rdn b i (zlen pat) ;; Ok (list_eqb s pat).

(** [memcmp(&b[i], pat, strlen(pat)) == 0] as [lib/string.c] runs it: byte by byte,
    stopping at the first difference, so that only the bytes it needs are read. *)
Fixpoint memcmp_l (b pat : list Z) {struct pat} : res bool :=
  match pat with
  | [] => Ok true
  | p :: pat' =>
      match b with
      | [] => Fault OobRead
      | c :: b' => if c =? p then memcmp_l b' pat' else Ok false
      end
  end.

Definition memcmp_eq (b : list Z) (i : Z) (pat : list Z) : res bool :=
  memcmp_l (drop (Z.to_nat i) b) pat.

(** [pat] is a prefix of [b] *)
Fixpoint is_prefix (pat b : list Z) {struct pat} : bool :=
  match pat, b with
  | [], _ => true
  | p :: pat', c :: b' => (c =? p) && is_prefix pat' b'
  | _ :: _, [] => false
  end.

Definition zeros (n : nat) : list Z := replicate n 0.

(** A byte of a list that is long enough. *)
Definition byte_at (l : list Z) (i : Z) : Z := default 0 (l !! Z.to_nat i).

Fixpoint bytes_of (s : string) : list Z :=
  match s with
  | EmptyString => []
  | String a s' => Z.of_N (N_of_ascii a) :: bytes_of s'
  end.

Arguments bytes_of s%_string_scope.

(** A C string inside a buffer: the bytes before the first NUL. *)
Fixpoint cstr (b : list Z) : list Z :=
  match b with
  | [] => []
  | c :: b' => if c =? 0 then [] else c :: cstr b'
  end.

Lemma zlen_nonneg {A} (b : list A) : 0 <= zlen b.
Proof. unfold zlen. lia. Qed.

Lemma zlen_app {A} (a b : list A) : zlen (a ++ b) = zlen a + zlen b.
Proof. unfold zlen. rewrite length_app. lia. Qed.

Lemma zlen_cons {A} (x : A) b : zlen (x :: b) = 1 + zlen b.
Proof. unfold zlen. cbn [length]. lia. Qed.

Lemma zlen_nil {A} : zlen (@nil A) = 0.
Proof. reflexivity. Qed.

Lemma rd_Ok {A} (b : list A) i v : rd b i = Ok v <-> 0 <= i /\ b !! Z.to_nat i = Some v.
Proof.
  unfold rd. case_match.
  - split; [discriminate | lia].
  - case_match; (split; [intros [= <-] | intros [_ [= ->]]]); try done.
    split; [lia | done].
Qed.

Lemma rd_in {A} (b : list A) i : 0 <= i < zlen b -> exists v, rd b i = Ok v.
Proof.
  unfold zlen. intros H.
  destruct (lookup_lt_is_Some_2 b (Z.to_nat i)) as [v Hv]; [lia|].
  exists v. apply rd_Ok. split; [lia | done].
Qed.

Lemma rd_oob {A} (b : list A) i : ~ (0 <= i < zlen b) -> rd b i = Fault OobRead.
Proof.
  unfold rd, zlen. intros H. case_match; [done|].
  rewrite lookup_ge_None_2 by lia. done.
Qed.

Lemma rd_cases {A} (b : list A) i : (exists v, rd b i = Ok v) \/ rd b i = Fault OobRead.
Proof. unfold rd. case_match; [auto|]. case_match; eauto. Qed.

Lemma rd_app_l {A} (a b : list A) i : 0 <= i < zlen a -> rd (a ++ b) i = rd a i.
Proof.
  unfold rd, zlen. intros H. case_match; [done|].
  rewrite lookup_app_l by lia. done.
Qed.

Lemma rd_app_r {A} (a b : list A) i : zlen a <= i -> rd (a ++ b) i = rd b (i - zlen a).
Proof.
  unfold rd, zlen. intros H. rewrite (proj2 (Z.ltb_ge i 0)) by lia.
  rewrite (proj2 (Z.ltb_ge (i - _) 0)) by lia. rewrite lookup_app_r by lia.
  replace (Z.to_nat (i - Z.of_nat (length a))) with (Z.to_nat i - length a)%nat by lia.
  done.
Qed.

Lemma rd_byte b i v : bytes b -> rd b i = Ok v -> is_byte v.
Proof.
  intros Hb [_ H]%rd_Ok. unfold bytes in Hb.
  rewrite Forall_lookup in Hb. eauto.
Qed.

Lemma wr_in {A} (b : list A) i v :
  0 <= i < zlen b -> wr b i v = Ok (<[Z.to_nat i := v]> b).
Proof. unfold wr. intros. replace (_ && _) with true by lia. done. Qed.

Lemma wr_oob {A} (b : list A) i v : ~ (0 <= i < zlen b) -> wr b i v = Fault OobWrite.
Proof. unfold wr. intros. replace (_ && _) with false by lia. done. Qed.

Lemma wr_zlen {A} (b b' : list A) i v : wr b i v = Ok b' -> zlen b' = zlen b.
Proof.
  unfold wr. case_match; [|discriminate]. intros [= <-].
  unfold zlen. rewrite length_insert. done.
Qed.

Lemma rdn_in {A} (b : list A) i n :
  0 <= i -> 0 <= n -> i + n <= zlen b ->
  rdn b i n = Ok (take (Z.to_nat n) (drop (Z.to_nat i) b)).
Proof. unfold rdn. intros. replace (_ && _ && _) with true by lia. done. Qed.

Lemma rdn_oob {A} (b : list A) i n : zlen b < i + n -> rdn b i n = Fault OobRead.
Proof. unfold rdn. intros. replace (_ && _ && _) with false by lia. done. Qed.

Lemma rdn_zlen {A} (b s : list A) i n : rdn b i n = Ok s -> zlen s = n.
Proof.
  unfold rdn. case_match eqn:E; [|discriminate]. intros [= <-].
  unfold zlen in *. rewrite length_take, length_drop. lia.
Qed.

Lemma rdn_app {A} (a s c : list A) : rdn (a ++ s ++ c) (zlen a) (zlen s) = Ok s.
Proof.
  rewrite rdn_in; rewrite ?zlen_app; unfold zlen; try lia.
  rewrite !Nat2Z.id. rewrite drop_app_length, take_app_length. done.
Qed.

(** The first bytes of a part in the middle of a buffer. *)
Lemma rdn_part {A} (a s c : list A) k :
  0 <= k <= zlen s -> rdn (a ++ s ++ c) (zlen a) k = Ok (take (Z.to_nat k) s).
Proof.
  intros Hk. rewrite rdn_in; rewrite ?zlen_app; unfold zlen in *; try lia.
  rewrite Nat2Z.id, drop_app_length, take_app_le by lia. done.
Qed.

Lemma wrn_in {A} (b : list A) i src :
  0 <= i -> i + zlen src <= zlen b ->
  wrn b i src = Ok (take (Z.to_nat i) b ++ src ++ drop (Z.to_nat i + length src) b).
Proof. unfold wrn. intros. replace (_ && _) with true by lia. done. Qed.

Lemma wrn_oob {A} (b : list A) i src : zlen b < i + zlen src -> wrn b i src = Fault OobWrite.
Proof. unfold wrn. intros. replace (_ && _) with false by lia. done. Qed.

Lemma wrn_zlen {A} (b b' : list A) i src : wrn b i src = Ok b' -> zlen b' = zlen b.
Proof.
  unfold wrn. case_match eqn:E; [|discriminate]. intros [= <-].
  unfold zlen in *. rewrite !length_app, length_take, length_drop. lia.
Qed.

Lemma memeq_Ok b i pat r :
  memeq b i pat = Ok r ->
  r = true <-> rdn b i (zlen pat) = Ok pat.
Proof.
  unfold memeq. intros H. res_inv. rewrite Ha. unfold list_eqb.
  rewrite bool_decide_eq_true. split; [by intros -> | by intros [= ->]].
Qed.

Lemma memeq_in b i pat :
  0 <= i -> i + zlen pat <= zlen b -> exists r, memeq b i pat = Ok r.
Proof.
  intros. unfold memeq. rewrite rdn_in; [|lia|apply zlen_nonneg|done]. eauto.
Qed.

Lemma memcmp_l_prefix b pat r : memcmp_l b pat = Ok r -> r = is_prefix pat b.
Proof.
  revert b. induction pat as [|p pat IH]; intros b; simpl.
  { intros [= <-]. destruct b; done. }
  destruct b as [|c b]; [done|]. destruct (c =? p); simpl; [apply IH | by intros [= <-]].
Qed.

(** A sentinel that does not occur in the pattern keeps memcmp inside the buffer. *)
Lemma memcmp_l_sentinel a z c pat :
  ~ In z pat -> memcmp_l (a ++ z :: c) pat = Ok (is_prefix pat a).
Proof.
  revert a. induction pat as [|p pat IH]; intros a Hz; [done|]. simpl in Hz.
  destruct a as [|x a]; simpl.
  - destruct (Z.eqb_spec z p); [subst; tauto | done].
  - destruct (x =? p); simpl; [apply IH; tauto | done].
Qed.

Lemma is_prefix_app pat b : is_prefix pat (pat ++ b) = true.
Proof. induction pat as [|p pat IH]; simpl; [done|]. rewrite Z.eqb_refl. done. Qed.

Lemma is_prefix_spec pat b : is_prefix pat b = true <-> exists t, b = pat ++ t.
Proof.
  split.
  - revert b. induction pat as [|p pat IH]; intros b H; [exists b; done|].
    destruct b as [|c b]; [done|]. simpl in H.
    apply andb_true_iff in H as [->%Z.eqb_eq [t ->]%IH]. exists t. done.
  - intros [t ->]. apply is_prefix_app.
Qed.

Lemma is_prefix_length pat b : is_prefix pat b = true -> (length pat <= length b)%nat.
Proof. intros [t ->]%is_prefix_spec. rewrite length_app. lia. Qed.

Lemma drop_zlen_app {A} (a b : list A) : drop (Z.to_nat (zlen a)) (a ++ b) = b.
Proof. unfold zlen. rewrite Nat2Z.id. apply drop_app_length. Qed.

Lemma rd_mid {A} (a : list A) c b : rd (a ++ c :: b) (zlen a) = Ok c.
Proof.
  rewrite rd_app_r by lia. rewrite Z.sub_diag. done.
Qed.

(** With enough bytes in the block memcmp is a prefix test. *)
Lemma memcmp_l_long b pat :
  (length pat <= length b)%nat -> memcmp_l b pat = Ok (is_prefix pat b).
Proof.
  revert b. induction pat as [|p pat IH]; intros b Hb; [done|].
  destruct b as [|c b]; simpl in *; [lia|]. destruct (c =? p); [apply IH; lia | done].
Qed.

Lemma rdn_prefix (a b : list Z) n : zlen a = n -> rdn (a ++ b) 0 n = Ok a.
Proof.
  intros <-. pose proof (zlen_nonneg a). pose proof (zlen_nonneg b).
  rewrite rdn_in; [|lia | lia | rewrite zlen_app; lia].
  change (drop (Z.to_nat 0) ?x) with x. unfold zlen. rewrite Nat2Z.id, take_app_length. done.
Qed.

Lemma wrn_prefix (dst src : list Z) : zlen src <= zlen dst -> wrn dst 0 src = Ok (src ++ drop (length src) dst).
Proof. intros H. rewrite wrn_in by (done || lia). done. Qed.

Lemma rdn_bytes b i n r : bytes b -> rdn b i n = Ok r -> bytes r.
Proof.
  unfold rdn, bytes. intros Hb H. case_match; [|discriminate]. injection H as <-.
  apply Forall_take, Forall_drop. done.
Qed.

Lemma zlen_zeros n : zlen (zeros n) = Z.of_nat n.
Proof. unfold zlen, zeros. rewrite length_replicate. done. Qed.

Lemma wrn_app {A} (a x c y : list A) :
  zlen x = zlen y -> wrn (a ++ x ++ c) (zlen a) y = Ok (a ++ y ++ c).
Proof.
  intros H. pose proof (zlen_nonneg c). pose proof (zlen_nonneg a).
  rewrite wrn_in by (rewrite ?zlen_app; lia).
  unfold zlen in *. rewrite !Nat2Z.id, take_app_length, <- drop_drop, drop_app_length.
  replace (length y) with (length x) by lia. rewrite drop_app_length. done.
Qed.

Lemma wr_mid {A} (a : list A) x c y : wr (a ++ x :: c) (zlen a) y = Ok (a ++ y :: c).
Proof.
  rewrite wr_in by (pose proof (zlen_nonneg c); rewrite zlen_app, zlen_cons; pose proof (zlen_nonneg a); lia).
  unfold zlen. rewrite Nat2Z.id. rewrite <- (Nat.add_0_r (length a)) at 1. rewrite insert_app_r. done.
Qed.

(** The same at an offset that is only equal to the length. *)
Lemma rd_off {A} (pre : list A) x post p : p = zlen pre -> rd (pre ++ x :: post) p = Ok x.
Proof. intros ->. apply rd_mid. Qed.

Lemma rdn_off {A} (pre s post : list A) p n : p = zlen pre -> n = zlen s -> rdn (pre ++ s ++ post) p n = Ok s.
Proof. intros -> ->. apply rdn_app. Qed.

Lemma wrn_off {A} (pre old post s : list A) p : p = zlen pre -> length s = length old -> wrn (pre ++ old ++ post) p s = Ok (pre ++ s ++ post).
Proof. intros -> H. apply wrn_app. unfold zlen. rewrite H. done. Qed.

Lemma wr_off {A} (pre : list A) x y post p : p = zlen pre -> wr (pre ++ x :: post) p y = Ok (pre ++ y :: post).
Proof. intros ->. apply wr_mid. Qed.

(** A test of a byte, by running it on all of them. *)
Lemma all_bytes (P : Z -> bool) : forallb (fun i => P (Z.of_nat i)) (seq 0 256) = true -> forall x, is_byte x -> P x = true.
Proof.
  intros H x Hx. rewrite List.forallb_forall in H. unfold is_byte in Hx.
  rewrite <- (Z2Nat.id x) by lia. apply H, List.in_seq. lia.
Qed.

Lemma byte_at_byte l i : bytes l -> is_byte (byte_at l i).
Proof.
  intros Hl. unfold byte_at. destruct (l !! Z.to_nat i) as [b|] eqn:E; cbn [from_option id].
  - unfold bytes in Hl. rewrite Forall_lookup in Hl. eauto.
  - unfold is_byte. lia.
Qed.

Lemma rd_part a iv b i : 0 <= i < zlen iv -> rd (a ++ iv ++ b) (zlen a + i) = Ok (byte_at iv i).
Proof.
  intros Hi. rewrite rd_app_r by lia. replace (zlen a + i - zlen a) with i by lia. rewrite rd_app_l by lia.
  destruct (rd_in iv i Hi) as [v Hv]. rewrite Hv. f_equal. apply rd_Ok in Hv as [_ Hv].
  unfold byte_at. rewrite Hv. done.
Qed.

(** Taking one element out of a list without repetition. *)
Lemma filter_notin (s : nat) (l : list nat) : s ∉ l -> filter (.≠ s) l = l.
Proof.
  induction l as [|x l IH]; intros H; [done|]. rewrite filter_cons. apply not_elem_of_cons in H as [Hne Hl].
  rewrite decide_True by congruence. rewrite IH by done. done.
Qed.

Lemma filter_zlen_in (s : nat) (l : list nat) : NoDup l -> s ∈ l -> zlen (filter (.≠ s) l) = zlen l - 1.
Proof.
  induction l as [|x l IH]; intros Hn Hs; [apply elem_of_nil in Hs; done|]. apply list.NoDup_cons in Hn as [Hx Hn].
  rewrite filter_cons, zlen_cons. apply elem_of_cons in Hs as [->|Hs].
  - rewrite decide_False by auto. rewrite filter_notin by done. lia.
  - rewrite decide_True by congruence. rewrite zlen_cons, IH by done. lia.
Qed.

Lemma zlen_length {A} (l : list A) n : zlen l = Z.of_nat n -> length l = n.
Proof. unfold zlen. lia. Qed.

(** ** Loops

    [loop step] runs a C loop body: [inl s'] goes round again, [inr r] leaves
    the loop. [loop_spec] is the one rule the components use: an invariant and
    a measure give the postcondition of the result, and so the absence of
    [FuelOut] when the postcondition excludes it. *)

Section Loop.
  Context {St R : Type} (step : St -> res (St + R)).

Fixpoint loop (fuel : nat) (s : St) : res R :=
  match fuel with
  | O => Fault FuelOut
  | S fuel' =>
      match step s with
      | Fault f => Fault f
      | Ok (inl s') => loop fuel' s'
      | Ok (inr r) => Ok r
      end
  end.

Lemma loop_S fuel s :
  loop (S fuel) s =
    match step s with
    | Fault f => Fault f
    | Ok (inl s') => loop fuel s'
    | Ok (inr r) => Ok r
    end.
Proof. done. Qed.

Lemma loop_spec (I : St -> Prop) (Q : res R -> Prop) (m : St -> Z) :
  (forall s, I s ->
     match step s with
     | Ok (inl s') => I s' /\ 0 <= m s' < m s
     | Ok (inr r) => Q (Ok r)
     | Fault f => Q (Fault f)
     end) ->
  forall fuel s, I s -> m s < Z.of_nat fuel -> 0 <= m s -> Q (loop fuel s).
Proof.
  intros Hstep. induction fuel as [|fuel IH]; intros s Hs Hm Hpos; [lia|].
  simpl. specialize (Hstep s Hs). destruct (step s) as [[s'|r]|f]; try done.
  destruct Hstep as [Hs' Hlt]. apply IH; [done | lia | lia].
Qed.

(** [turns s n s']: [n] turns of the loop lead from [s] to [s']. *)
Inductive turns : St -> nat -> St -> Prop :=
| turns_O s : turns s 0 s
| turns_S s s1 s2 n : step s = Ok (inl s1) -> turns s1 n s2 -> turns s (S n) s2.

Lemma turns_trans s1 n s2 m s3 :
  turns s1 n s2 -> turns s2 m s3 -> turns s1 (n + m) s3.
Proof. induction 1; simpl; [done|]. intros. econstructor; eauto. Qed.

Lemma turns_one s s' : step s = Ok (inl s') -> turns s 1 s'.
Proof. intros. econstructor; [done | constructor]. Qed.

Lemma loop_turns s n s' : turns s n s' -> forall fuel, loop (n + fuel) s = loop fuel s'.
Proof. induction 1 as [|s s1 s2 n Hs H IH]; intros fuel; simpl; [done|]. rewrite Hs. apply IH. Qed.

(** More fuel never changes a result. *)
Lemma loop_mono fuel fuel' s r :
  (fuel <= fuel')%nat -> loop fuel s = r -> r <> Fault FuelOut -> loop fuel' s = r.
Proof.
  revert fuel' s. induction fuel as [|fuel IH]; intros fuel' s Hle Hr Hne.
  - simpl in Hr. congruence.
  - destruct fuel' as [|fuel']; [lia|]. simpl in *.
    destruct (step s) as [[s'|]|]; try done. apply IH; [lia | done | done].
Qed.
End Loop.

(** [for (i = i0; i < i0 + n; i++)] with a body that does not leave the loop. *)
Section For.
  Context {St : Type} (f : Z -> St -> res St).

Fixpoint for_up (n : nat) (i : Z) (s : St) : res St :=
  match n with
  | O => Ok s
  | S n => s <- f i s ;; for_up n (i + 1) s
  end.

Lemma for_up_spec (I : Z -> St -> Prop) n : forall i s,
  (forall j s, i <= j < i + Z.of_nat n -> I j s -> exists s', f j s = Ok s' /\ I (j + 1) s') ->
  I i s -> exists s', for_up n i s = Ok s' /\ I (i + Z.of_nat n) s'.
Proof.
  induction n as [|n IH]; intros i s Hf Hs.
  { exists s. replace (i + Z.of_nat 0) with i by lia. done. }
  destruct (Hf i s ltac:(lia) Hs) as (s1 & E & H1). cbn [for_up]. rewrite E. cbn [bind].
  destruct (IH (i + 1) s1) as (s2 & E2 & H2); [intros; apply Hf; [lia | done] | done |].
  exists s2. split; [done|]. replace (i + Z.of_nat (S n)) with (i + 1 + Z.of_nat n) by lia. done.
Qed.
End For.

(** ** Automation *)

(** Splits every boolean test of the goal and the context and closes the
    arithmetic. *)
Ltac cases :=
  repeat (case_match; try lia; simplify_eq/=; try done; try lia).

(** Linear arithmetic over the lengths of appended lists. *)
Ltac zlia :=
  unfold zlen in *;
  repeat match goal with
  | H : context [length (_ ++ _)] |- _ => rewrite length_app in H
  | |- context [length (_ ++ _)] => rewrite length_app
  end;
  cbn [length] in *; lia.
