(* ===== verification/Ies.v ===== *)
(** * Information elements

    The format the element routines of the driver walk over: an identifier byte, a
    length byte and that many bytes, repeated. [enc] writes a list of elements;
    the specifications of the routines are stated over such lists. *)
From Stdlib Require Import ZArith Lia Bool.
From stdpp Require Import base option list numbers.
From S2P Require Import Prelude.
Local Open Scope Z_scope.

Definition elem : Type := Z * list Z.

Definition enc1 (e : elem) : list Z := fst e :: zlen (snd e) :: snd e.

Fixpoint enc (es : list elem) : list Z :=
  match es with [] => [] | e :: es' => enc1 e ++ enc es' end.

(** An identifier and a body that their bytes can express. *)
Definition elem_ok (e : elem) : Prop := is_byte (fst e) /\ zlen (snd e) < 256 /\ bytes (snd e).

Lemma enc_app a b : enc (a ++ b) = enc a ++ enc b.
Proof. induction a as [|e a IH]; [done|]. cbn [app enc]. rewrite IH, app_assoc. done. Qed.

Lemma zlen_enc1 e : zlen (enc1 e) = 2 + zlen (snd e).
Proof. unfold enc1. rewrite !zlen_cons. lia. Qed.

Lemma zlen_enc_cons e es : zlen (enc (e :: es)) = 2 + zlen (snd e) + zlen (enc es).
Proof. cbn [enc]. rewrite zlen_app, zlen_enc1. lia. Qed.

(** The three reads at the start of an element. *)
Lemma rd_id pre e es post : rd (pre ++ enc (e :: es) ++ post) (zlen pre) = Ok (fst e).
Proof. cbn [enc enc1 app]. apply rd_mid. Qed.

Lemma rd_len pre e es post :
  rd (pre ++ enc (e :: es) ++ post) (zlen pre + 1) = Ok (zlen (snd e)).
Proof.
  cbn [enc]. unfold enc1. rewrite <- !app_assoc. cbn [app].
  replace (zlen pre + 1) with (zlen (pre ++ [fst e])) by (rewrite zlen_app; done).
  replace (pre ++ fst e :: zlen (snd e) :: snd e ++ enc es ++ post)
    with ((pre ++ [fst e]) ++ zlen (snd e) :: snd e ++ enc es ++ post)
    by (rewrite <- app_assoc; done).
  apply rd_mid.
Qed.

Lemma drop_body pre e es post :
  drop (Z.to_nat (zlen pre + 2)) (pre ++ enc (e :: es) ++ post) = snd e ++ enc es ++ post.
Proof.
  cbn [enc]. unfold enc1. rewrite <- !app_assoc. cbn [app].
  replace (zlen pre + 2) with (zlen (pre ++ [fst e; zlen (snd e)])) by (rewrite zlen_app; done).
  replace (pre ++ fst e :: zlen (snd e) :: snd e ++ enc es ++ post)
    with ((pre ++ [fst e; zlen (snd e)]) ++ snd e ++ enc es ++ post)
    by (rewrite <- app_assoc; done).
  apply drop_zlen_app.
Qed.

Lemma rdn_body pre e es post :
  rdn (pre ++ enc (e :: es) ++ post) (zlen pre + 2) (zlen (snd e)) = Ok (snd e).
Proof.
  pose proof (zlen_nonneg pre). pose proof (zlen_nonneg (snd e)).
  rewrite rdn_in.
  - rewrite drop_body. unfold zlen. rewrite Nat2Z.id. rewrite take_app_length. done.
  - lia.
  - lia.
  - rewrite !zlen_app, zlen_enc_cons. pose proof (zlen_nonneg (enc es)).
    pose proof (zlen_nonneg post). lia.
Qed.

Lemma enc_shift pre e es post :
  pre ++ enc (e :: es) ++ post = (pre ++ enc1 e) ++ enc es ++ post.
Proof. cbn [enc]. rewrite <- !app_assoc. done. Qed.
