(* ===== verification/PwrSeqCmd.v ===== *)
(** * Hardware power sequences: the command interpreter

    Models [hal/HalPwrSeqCmd.c]: [HalPwrSeqCmdParsing] walks an array of
    [WLAN_PWR_CFG] commands (register writes, polls, delays, end) and drives the
    chip through a power-state transition. The chip itself is a parameter, a
    [platform]: what its registers answer, what a write or a delay does to it,
    and what [rtw_hal_get_hwreg(HW_VAR_PWR_CMD)] reports. The tables this
    interpreter runs for the RTL8188F are in [PwrFlow8188F]. The configuration is
    the repository's: neither CONFIG_SDIO_HCI nor CONFIG_GSPI_HCI. *)
From Stdlib Require Import ZArith Lia Bool.
From stdpp Require Import base option list numbers.
From S2P Require Import Prelude.
Local Open Scope Z_scope.

(* src: include/HalPwrSeqCmd.h:23-50 PWR_CMD_xxx *)
Definition PWR_CMD_READ := 0x00.
Definition PWR_CMD_WRITE := 0x01.
Definition PWR_CMD_POLLING := 0x02.
Definition PWR_CMD_DELAY := 0x03.
Definition PWR_CMD_END := 0x04.

Definition PWR_BASEADDR_MAC := 0x00.
Definition PWR_BASEADDR_USB := 0x01.
Definition PWR_BASEADDR_PCIE := 0x02.
Definition PWR_BASEADDR_SDIO := 0x03.

Definition PWR_INTF_SDIO_MSK := BIT 0.
Definition PWR_INTF_USB_MSK := BIT 1.
Definition PWR_INTF_PCI_MSK := BIT 2.
Definition PWR_INTF_ALL_MSK := 0x0F.
Definition PWR_FAB_ALL_MSK := 0x0F.
Definition PWR_CUT_ALL_MSK := 0xFF.

Definition PWRSEQ_DELAY_US := 0.
Definition PWRSEQ_DELAY_MS := 1.

(* src: include/HalPwrSeqCmd.h:98-107 WLAN_PWR_CFG *)
Record WLAN_PWR_CFG : Type := mkCfg {
  offset : Z;
  cut_msk : Z;
  fab_msk : Z;
  interface_msk : Z;
  base : Z;
  cmd : Z;
  msk : Z;
  value : Z;
}.

(** What the interpreter calls outside this file. *)
Record platform (HW : Type) : Type := {
  read8 : Z -> HW -> Z * HW;         (** [rtw_read8] *)
  write8 : Z -> Z -> HW -> HW;       (** [rtw_write8] *)
  udelay : Z -> HW -> HW;            (** [rtw_udelay_os] *)
  get_pwr_cmd : Z -> HW -> Z * HW;   (** [rtw_hal_get_hwreg(HW_VAR_PWR_CMD, &b)] *)
  is_8723DE : bool;                  (** [IS_HARDWARE_TYPE_8723DE] *)
}.
Arguments read8 {HW}. Arguments write8 {HW}. Arguments udelay {HW}.
Arguments get_pwr_cmd {HW}. Arguments is_8723DE {HW}.

(** ** The interpreter *)

Section Interp.
  Context {HW : Type} (P : platform HW).

(** The locals of [HalPwrSeqCmdParsing] that live across commands, and the chip. *)
(* src: hal/HalPwrSeqCmd.c:50-58 HalPwrSeqCmdParsing locals *)
Record pstate : Type := mkP {
  hw : HW;
  pollingCount : Z;
  maxPollingCnt : Z;
  flag : Z;
  bHWICSupport : Z;
}.

Definition init_pstate (h : HW) : pstate := mkP h 0 5000 0 0.

(** The command is for this FAB, cut and interface. *)
(* src: hal/HalPwrSeqCmd.c:64-67 HalPwrSeqCmdParsing *)
Definition cfg_match (CutVersion FabVersion InterfaceType : Z) (c : WLAN_PWR_CFG) : bool :=
  negb (Z.land (fab_msk c) FabVersion =? 0) &&
  negb (Z.land (cut_msk c) CutVersion =? 0) &&
  negb (Z.land (interface_msk c) InterfaceType =? 0).

Definition read_u8 (off : Z) (h : HW) : Z * HW :=
  let '(v, h') := read8 P off h in (u8 v, h').

(** [write8(off, f(read8(off)))] *)
Definition rmw (off : Z) (f : Z -> Z) (h : HW) : HW :=
  let '(v, h') := read_u8 off h in write8 P off (u8 (f v)) h'.

(** [value & ~msk | (cfg.value & msk)] *)
(* src: hal/HalPwrSeqCmd.c:98-99 HalPwrSeqCmdParsing *)
Definition masked (c : WLAN_PWR_CFG) (v : Z) : Z :=
  Z.lor (u8 (Z.land v (Z.lnot (msk c)))) (Z.land (value c) (msk c)).

(** PWR_CMD_WRITE *)
(* src: hal/HalPwrSeqCmd.c:72-105 HalPwrSeqCmdParsing *)
Definition do_write (c : WLAN_PWR_CFG) (s : pstate) : pstate :=
  mkP (rmw (offset c) (masked c) (hw s))
      (pollingCount s) (maxPollingCnt s) (flag s) (bHWICSupport s).

(** The PCIe workaround of a timed-out poll: toggle 0x04[3]. *)
(* src: hal/HalPwrSeqCmd.c:144-151 HalPwrSeqCmdParsing *)
Definition toggle_04_3 (h : HW) : HW :=
  let h1 := if is_8723DE P then rmw 0x40 (fun v => Z.land v (Z.lnot (BIT 3))) h else h in
  let h2 := rmw 0x04 (fun v => Z.lor v (BIT 3)) h1 in
  let h3 := rmw 0x04 (fun v => Z.land v (Z.lnot (BIT 3))) h2 in
  if is_8723DE P then rmw 0x40 (fun v => Z.lor v (BIT 3)) h3 else h3.

(** [value == (cfg.value & msk)] with [value] already masked *)
Definition poll_hit (c : WLAN_PWR_CFG) (v : Z) : bool :=
  Z.land v (msk c) =? Z.land (value c) (msk c).

(** One turn of the [do ... while (!bPollingBit)] loop. *)
(* src: hal/HalPwrSeqCmd.c:123-160 HalPwrSeqCmdParsing *)
Definition poll_turn (c : WLAN_PWR_CFG) (s : pstate) : res (pstate + (pstate * bool)) :=
  let '(v, h1) := read_u8 (offset c) (hw s) in
  let bPollingBit := poll_hit c v in
  let h2 := if bPollingBit then h1 else udelay P 10 h1 in
  let count' := u32 (pollingCount s + 1) in
  if maxPollingCnt s <? pollingCount s then
    if negb (bHWICSupport s =? 0) && (offset c =? 0x06) && (flag s =? 0) then
      let s' := mkP (toggle_04_3 h2) 0 (maxPollingCnt s) 1 (bHWICSupport s) in
      if bPollingBit then Ok (inr (s', true)) else Ok (inl s')
    else
      Ok (inr (mkP h2 count' (maxPollingCnt s) (flag s) (bHWICSupport s), false))
  else
    let s' := mkP h2 count' (maxPollingCnt s) (flag s) (bHWICSupport s) in
    if bPollingBit then Ok (inr (s', true)) else Ok (inl s').

(** Two rounds of at most 100002 turns: [poll_total] shows it is enough. *)
Definition poll_fuel : nat := Z.to_nat 200010.

Lemma poll_fuel_val : Z.of_nat poll_fuel = 200010.
Proof. reflexivity. Qed.

#[global] Opaque poll_fuel.

(** PWR_CMD_POLLING *)
(* src: hal/HalPwrSeqCmd.c:107-162 HalPwrSeqCmdParsing *)
Definition do_polling (c : WLAN_PWR_CFG) (s : pstate) : res (pstate * bool) :=
  let '(b, h1) := get_pwr_cmd P (bHWICSupport s) (hw s) in
  let ic := u8 b in
  let s' :=
    if negb (ic =? 0) && (offset c =? 0x06)
    then mkP h1 (pollingCount s) 100000 0 ic
    else mkP h1 (pollingCount s) 5000 (flag s) ic in
  loop (poll_turn c) poll_fuel s'.

(** PWR_CMD_DELAY *)
(* src: hal/HalPwrSeqCmd.c:164-169 HalPwrSeqCmdParsing *)
Definition do_delay (c : WLAN_PWR_CFG) (s : pstate) : pstate :=
  let us := if value c =? PWRSEQ_DELAY_US then offset c else offset c * 1000 in
  mkP (udelay P us (hw s)) (pollingCount s) (maxPollingCnt s) (flag s) (bHWICSupport s).

(** The [switch] on the command; [Some b] is [return b]. *)
(* src: hal/HalPwrSeqCmd.c:68-179 HalPwrSeqCmdParsing *)
Definition exec_cmd (c : WLAN_PWR_CFG) (s : pstate) : res (pstate * option bool) :=
  if cmd c =? PWR_CMD_READ then Ok (s, None)
  else if cmd c =? PWR_CMD_WRITE then Ok (do_write c s, None)
  else if cmd c =? PWR_CMD_POLLING then
    '(s', ok) <- do_polling c s ;;
    Ok (s', if ok then None else Some false)
  else if cmd c =? PWR_CMD_DELAY then Ok (do_delay c s, None)
  else if cmd c =? PWR_CMD_END then Ok (s, Some true)
  else Ok (s, None).

Section Run.
  Context (CutVersion FabVersion InterfaceType : Z).

(** One turn of the outer loop, at [AryIdx]. *)
(* src: hal/HalPwrSeqCmd.c:60-183 HalPwrSeqCmdParsing *)
Definition cmd_turn (PwrSeqCmd : list WLAN_PWR_CFG) (st : Z * pstate)
    : res ((Z * pstate) + (pstate * bool)) :=
  let '(AryIdx, s) := st in
  c <- rd PwrSeqCmd AryIdx ;;
  if cfg_match CutVersion FabVersion InterfaceType c then
    '(s', r) <- exec_cmd c s ;;
    match r with
    | Some b => Ok (inr (s', b))
    | None => Ok (inl (AryIdx + 1, s'))
    end
  else Ok (inl (AryIdx + 1, s)).

Definition parse_run (PwrSeqCmd : list WLAN_PWR_CFG) (s : pstate) : res (pstate * bool) :=
  loop (cmd_turn PwrSeqCmd) (S (length PwrSeqCmd)) (0, s).

(* src: hal/HalPwrSeqCmd.c:43-185 HalPwrSeqCmdParsing *)
Definition HalPwrSeqCmdParsing (PwrSeqCmd : list WLAN_PWR_CFG) (h : HW) : res (bool * HW) :=
  '(s, b) <- parse_run PwrSeqCmd (init_pstate h) ;;
  Ok (b, hw s).

End Run.
End Interp.
Arguments pstate HW : clear implicits.

(** ** Polling *)

Section Polling.
  Context {HW : Type} (P : platform HW).

(** [pollingCount] stays within what two rounds of polling can reach. *)
Definition count_ok (s : pstate HW) : Prop := 0 <= pollingCount s <= 100002.

Definition poll_inv (s : pstate HW) : Prop :=
  0 <= pollingCount s <= 100001 /\ 0 <= maxPollingCnt s <= 100000.

Definition poll_measure (s : pstate HW) : Z :=
  Z.max 0 (maxPollingCnt s + 1 - pollingCount s) + 1 +
  (if flag s =? 0 then maxPollingCnt s + 3 else 0).

Lemma poll_turn_step c s :
  poll_inv s ->
  match poll_turn P c s with
  | Ok (inl s') => poll_inv s' /\ 0 <= poll_measure s' < poll_measure s
  | Ok (inr (s', true)) => poll_inv s'
  | Ok (inr (s', false)) => count_ok s'
  | Fault _ => False
  end.
Proof.
  unfold poll_inv, poll_measure, poll_turn, count_ok. intros [Hp Hm].
  destruct (read_u8 P (offset c) (hw s)) as [v h1].
  destruct (Z.ltb_spec (maxPollingCnt s) (pollingCount s)) as [Hgt|Hle].
  - destruct (negb (bHWICSupport s =? 0) && (offset c =? 6) && (flag s =? 0)) eqn:E.
    + assert (Hf : (flag s =? 0) = true) by lia. rewrite Hf.
      destruct (poll_hit c v); simpl; lia.
    + simpl. rewrite u32_small by lia. lia.
  - destruct (poll_hit c v); simpl; rewrite u32_small by lia; destruct (flag s =? 0); lia.
Qed.

Lemma poll_loop_total c s :
  poll_inv s ->
  exists s' b, loop (poll_turn P c) poll_fuel s = Ok (s', b) /\ count_ok s' /\
               (b = true -> poll_inv s').
Proof.
  intros Hs.
  refine (loop_spec (poll_turn P c) poll_inv
    (fun r => exists s' b, r = Ok (s', b) /\ count_ok s' /\ (b = true -> poll_inv s'))
    poll_measure _ poll_fuel s Hs _ _).
  - intros t Ht. pose proof (poll_turn_step c t Ht) as H.
    destruct (poll_turn P c t) as [[t'|[t' b]]|f]; [done| |done].
    exists t', b. split; [done|]. unfold count_ok, poll_inv in *. destruct b; [|done].
    split; [lia | done].
  - rewrite poll_fuel_val. unfold poll_measure, poll_inv in *. destruct (flag s =? 0); lia.
  - unfold poll_measure, poll_inv in *. destruct (flag s =? 0); lia.
Qed.

(** What the [k]-th poll of a register reads when the [k] before it missed. *)
Fixpoint after_misses (off : Z) (k : nat) (h : HW) : HW :=
  match k with
  | O => h
  | S k' => after_misses off k' (udelay P 10 (snd (read_u8 P off h)))
  end.

Definition nth_hit (c : WLAN_PWR_CFG) (k : nat) (h : HW) : bool :=
  poll_hit c (fst (read_u8 P (offset c) (after_misses (offset c) k h))).

(** The chip has no polling workaround armed for this command. *)
Definition no_retry (c : WLAN_PWR_CFG) (s : pstate HW) : Prop :=
  bHWICSupport s = 0 \/ offset c <> 6.

Lemma no_retry_false c s :
  no_retry c s -> negb (bHWICSupport s =? 0) && (offset c =? 6) && (flag s =? 0) = false.
Proof. unfold no_retry. lia. Qed.

(** A poll that hits at its [n]-th read, within the remaining budget. *)
Lemma poll_loop_hit c n : forall fuel s,
  no_retry c s -> poll_inv s ->
  (forall k, (k < n)%nat -> nth_hit c k (hw s) = false) ->
  nth_hit c n (hw s) = true ->
  pollingCount s + Z.of_nat n <= maxPollingCnt s ->
  (n < fuel)%nat ->
  loop (poll_turn P c) fuel s =
    Ok (mkP (snd (read_u8 P (offset c) (after_misses (offset c) n (hw s))))
            (pollingCount s + Z.of_nat n + 1) (maxPollingCnt s) (flag s) (bHWICSupport s),
        true).
Proof.
  induction n as [|n IH]; intros fuel s Hnr Hinv Hmiss Hhit Hbud Hfuel.
  - destruct fuel as [|fuel]; [lia|]. unfold nth_hit in Hhit. simpl in *.
    unfold poll_turn, poll_inv in *. destruct (read_u8 P (offset c) (hw s)) as [v h1].
    simpl in *. rewrite Hhit. rewrite (proj2 (Z.ltb_ge _ _)) by lia.
    rewrite u32_small by lia. repeat f_equal. lia.
  - destruct fuel as [|fuel]; [lia|]. unfold poll_inv in *. cbn [loop].
    assert (H0 : nth_hit c 0 (hw s) = false) by (apply Hmiss; lia).
    unfold poll_turn at 1. unfold nth_hit in H0. simpl in H0.
    destruct (read_u8 P (offset c) (hw s)) as [v h1] eqn:Er. simpl in H0.
    rewrite H0. rewrite (proj2 (Z.ltb_ge _ _)) by lia. rewrite u32_small by lia.
    rewrite IH.
    + cbn [after_misses hw pollingCount maxPollingCnt flag bHWICSupport].
      rewrite Er. do 3 f_equal. lia.
    + exact Hnr.
    + simpl. lia.
    + intros k Hk. specialize (Hmiss (S k) ltac:(lia)). unfold nth_hit in *.
      cbn [after_misses] in Hmiss. rewrite Er in Hmiss. exact Hmiss.
    + unfold nth_hit in *. cbn [after_misses] in Hhit. rewrite Er in Hhit. exact Hhit.
    + simpl. lia.
    + lia.
Qed.

(** A poll whose first [maxPollingCnt - pollingCount + 1] reads all miss fails,
    whatever the read after them says. *)
Lemma poll_loop_timeout c n : forall fuel s,
  no_retry c s -> poll_inv s ->
  (forall k, (k < n)%nat -> nth_hit c k (hw s) = false) ->
  pollingCount s + Z.of_nat n = Z.max (pollingCount s) (maxPollingCnt s + 1) ->
  (n < fuel)%nat ->
  exists s', loop (poll_turn P c) fuel s = Ok (s', false).
Proof.
  induction n as [|n IH]; intros fuel s Hnr Hinv Hmiss Hbud Hfuel.
  - destruct fuel as [|fuel]; [lia|]. cbn [loop]. unfold poll_turn.
    destruct (read_u8 P (offset c) (hw s)) as [v h1].
    rewrite (proj2 (Z.ltb_lt _ _)) by lia. rewrite no_retry_false by done. eauto.
  - destruct fuel as [|fuel]; [lia|]. unfold poll_inv in *. cbn [loop].
    assert (H0 : nth_hit c 0 (hw s) = false) by (apply Hmiss; lia).
    unfold poll_turn at 1. unfold nth_hit in H0. simpl in H0.
    destruct (read_u8 P (offset c) (hw s)) as [v h1] eqn:Er. simpl in H0.
    rewrite H0. rewrite (proj2 (Z.ltb_ge _ _)) by lia. rewrite u32_small by lia.
    apply IH; try done; simpl; try lia.
    intros k Hk. specialize (Hmiss (S k) ltac:(lia)). unfold nth_hit in *.
    cbn [after_misses] in Hmiss. rewrite Er in Hmiss. exact Hmiss.
Qed.

(** Either one of the first [n] reads hits, and there is a first one, or none does. *)
Lemma first_hit c h n :
  (exists k, (k < n)%nat /\ nth_hit c k h = true /\
             forall j, (j < k)%nat -> nth_hit c j h = false) \/
  (forall k, (k < n)%nat -> nth_hit c k h = false).
Proof.
  induction n as [|n [(k & Hk & Hh & Hj)|Hno]].
  - right. lia.
  - left. exists k. split; [lia | done].
  - destruct (nth_hit c n h) eqn:E.
    + left. exists n. auto.
    + right. intros k Hk. destruct (decide (k = n)) as [->|]; [done|]. apply Hno. lia.
Qed.

(** The exact outcome of a poll: it returns, and it succeeds exactly when one of
    the reads left in the call's budget hits. *)
Lemma poll_loop_iff c s :
  no_retry c s -> poll_inv s ->
  exists s' b, loop (poll_turn P c) poll_fuel s = Ok (s', b) /\
    (b = true <-> exists k, pollingCount s + Z.of_nat k <= maxPollingCnt s /\
                            nth_hit c k (hw s) = true).
Proof.
  intros Hnr Hinv.
  set (n := Z.to_nat (maxPollingCnt s + 1 - pollingCount s)).
  destruct (first_hit c (hw s) n) as [(k & Hk & Hh & Hj)|Hno].
  - eexists _, true. split.
    + apply (poll_loop_hit c k); [done | done | exact Hj | exact Hh | lia |].
      apply Nat2Z.inj_lt. rewrite poll_fuel_val. unfold poll_inv in *. lia.
    + split; [|done]. intros _. exists k. split; [lia | done].
  - destruct (poll_loop_timeout c n poll_fuel s) as [s' Hs']; [done | done | done | |  |].
    + unfold poll_inv in Hinv. lia.
    + apply Nat2Z.inj_lt. rewrite poll_fuel_val. unfold poll_inv in *. lia.
    + exists s', false. split; [done|]. split; [done|].
      intros (k & Hk & Hh). rewrite Hno in Hh by lia. done.
Qed.
End Polling.

(** ** The interpreter as a fold over the commands *)

Section Fold.
  Context {HW : Type} (P : platform HW) (cut fab intf : Z).

(** The reference semantics: the commands in order, unmatched ones skipped; a
    sequence with no matching end command is run past its last element. *)
Fixpoint run_cmds (l : list WLAN_PWR_CFG) (s : pstate HW) : res (pstate HW * bool) :=
  match l with
  | [] => Fault OobRead
  | c :: l' =>
      if cfg_match cut fab intf c then
        '(s', r) <- exec_cmd P c s ;;
        match r with Some b => Ok (s', b) | None => run_cmds l' s' end
      else run_cmds l' s
  end.

Lemma cmd_loop_run arr : forall fuel i s,
  (length arr - i < fuel)%nat -> (i <= length arr)%nat ->
  loop (cmd_turn P cut fab intf arr) fuel (Z.of_nat i, s) = run_cmds (drop i arr) s.
Proof.
  induction fuel as [|fuel IH]; intros i s Hf Hi; [lia|]. cbn [loop]. unfold cmd_turn at 1.
  destruct (arr !! i) as [c|] eqn:Ec.
  - rewrite (drop_S _ c) by done.
    assert (Hlt := lookup_lt_Some _ _ _ Ec).
    replace (rd arr (Z.of_nat i)) with (Ok c)
      by (symmetry; apply rd_Ok; rewrite Nat2Z.id; split; [lia | done]).
    cbn [bind run_cmds]. replace (Z.of_nat i + 1) with (Z.of_nat (S i)) by lia.
    destruct (cfg_match cut fab intf c); [|apply IH; lia].
    destruct (exec_cmd P c s) as [[s' [b|]]|f]; cbn [bind]; try done. apply IH; lia.
  - apply lookup_ge_None in Ec. rewrite rd_oob by (unfold zlen; lia).
    rewrite drop_ge by lia. done.
Qed.

Lemma parse_run_fold arr s : parse_run P cut fab intf arr s = run_cmds arr s.
Proof. unfold parse_run. apply (cmd_loop_run arr _ 0); lia. Qed.

Lemma run_cmds_filter l s :
  run_cmds l s = run_cmds (List.filter (cfg_match cut fab intf) l) s.
Proof.
  revert s. induction l as [|c l IH]; intros s; [done|]. cbn [run_cmds List.filter].
  destruct (cfg_match cut fab intf c) eqn:E; [|apply IH]. cbn [run_cmds]. rewrite E.
  destruct (exec_cmd P c s) as [[s' [b|]]|f]; cbn [bind]; done || apply IH.
Qed.

Lemma exec_cmd_total c s :
  poll_inv s ->
  exists s' r, exec_cmd P c s = Ok (s', r) /\ (r = None -> poll_inv s').
Proof.
  intros Hs. unfold exec_cmd.
  destruct (cmd c =? PWR_CMD_READ); [eauto|].
  destruct (cmd c =? PWR_CMD_WRITE); [eauto|].
  destruct (cmd c =? PWR_CMD_POLLING).
  - unfold do_polling. destruct (get_pwr_cmd P (bHWICSupport s) (hw s)) as [b h1].
    match goal with |- context [loop _ _ ?t] => destruct (poll_loop_total P c t) as (s' & b' & E & Hc & Hi) end.
    + unfold poll_inv in *. destruct (_ && _); simpl; lia.
    + rewrite E. cbn [bind]. eexists _, _. split; [done|]. destruct b'; [auto | done].
  - destruct (cmd c =? PWR_CMD_DELAY); [eauto|].
    destruct (cmd c =? PWR_CMD_END); eauto.
Qed.

Lemma run_cmds_total l s :
  poll_inv s ->
  List.existsb (fun c => cfg_match cut fab intf c && (cmd c =? PWR_CMD_END)) l = true ->
  exists s' b, run_cmds l s = Ok (s', b).
Proof.
  revert s. induction l as [|c l IH]; intros s Hs Hend; [done|]. cbn [run_cmds].
  cbn [List.existsb] in Hend. destruct (cfg_match cut fab intf c); [|auto].
  destruct (Z.eqb_spec (cmd c) PWR_CMD_END) as [He|He].
  - unfold exec_cmd. rewrite He. cbn. eauto.
  - destruct (exec_cmd_total c s Hs) as (s' & r & E & Hr). rewrite E. cbn [bind].
    destruct r as [b|]; [eauto|]. apply IH; auto.
Qed.

Lemma init_poll_inv (h : HW) : poll_inv (init_pstate h).
Proof. unfold poll_inv. simpl. lia. Qed.
End Fold.

(** ** Counting the register reads of a call *)

Section Count.
  Context {HW : Type} (P : platform HW).

(** [P] with a counter of its register reads. *)
Definition counting : platform (HW * Z) := {|
  read8 off h := let '(v, h') := read8 P off (fst h) in (v, (h', snd h + 1));
  write8 off v h := (write8 P off v (fst h), snd h);
  udelay us h := (udelay P us (fst h), snd h);
  get_pwr_cmd b h := let '(v, h') := get_pwr_cmd P b (fst h) in (v, (h', snd h));
  is_8723DE := is_8723DE P;
|}.

Definition reads (s : pstate (HW * Z)) : Z := snd (hw s).

(** The chip never reports the PCIe polling workaround. *)
Definition no_hwic : Prop := forall b h, u8 (fst (get_pwr_cmd P b h)) = 0.

Context (Hno : no_hwic).

Definition budget_inv (s : pstate (HW * Z)) : Prop :=
  0 <= pollingCount s <= 5001 /\ bHWICSupport s = 0 /\ maxPollingCnt s = 5000.

Lemma read_u8_counting off h :
  snd (snd (read_u8 counting off h)) = snd h + 1.
Proof. unfold read_u8. simpl. destruct (read8 P off (fst h)). done. Qed.

Lemma poll_turn_counts c s :
  budget_inv s ->
  match poll_turn counting c s with
  | Ok (inl s') => budget_inv s' /\ reads s' - pollingCount s' = reads s - pollingCount s
  | Ok (inr (s', b)) =>
      reads s' - pollingCount s' = reads s - pollingCount s /\
      0 <= pollingCount s' <= 5002 /\ (b = true -> budget_inv s')
  | Fault _ => False
  end.
Proof.
  unfold budget_inv, poll_turn, reads. intros (Hp & Hb & Hm). rewrite Hb, Hm.
  pose proof (read_u8_counting (offset c) (hw s)) as Hc.
  destruct (read_u8 counting (offset c) (hw s)) as [v h1]. simpl in Hc.
  rewrite u32_small by lia. cbn [Z.eqb negb andb].
  destruct (Z.ltb_spec 5000 (pollingCount s)), (poll_hit c v); simpl; lia.
Qed.

Lemma poll_loop_counts c fuel : forall s s' b,
  budget_inv s -> loop (poll_turn counting c) fuel s = Ok (s', b) ->
  reads s' - pollingCount s' = reads s - pollingCount s /\
  0 <= pollingCount s' <= 5002 /\ (b = true -> budget_inv s').
Proof.
  induction fuel as [|fuel IH]; intros s s' b Hs H; [discriminate|]. cbn [loop] in H.
  pose proof (poll_turn_counts c s Hs) as Ht.
  destruct (poll_turn counting c s) as [[t|[t b']]|f]; [| |done].
  - destruct Ht as [Ht Heq]. apply IH in H; [|done]. rewrite <- Heq. exact H.
  - injection H as -> ->. done.
Qed.

Lemma rmw_counting off f h : snd (rmw counting off f h) = snd h + 1.
Proof.
  unfold rmw. pose proof (read_u8_counting off h) as H.
  destruct (read_u8 counting off h) as [v h']. simpl in *. lia.
Qed.

(** A command reads at most one register more than it counts as polls. *)
Lemma exec_cmd_counts c s s' r :
  budget_inv s -> exec_cmd counting c s = Ok (s', r) ->
  reads s' - pollingCount s' <= reads s - pollingCount s + 1 /\
  0 <= pollingCount s' <= 5002 /\ (r <> Some false -> budget_inv s').
Proof.
  unfold budget_inv. intros Hs. unfold exec_cmd.
  destruct (cmd c =? PWR_CMD_READ); [intros [= <- <-]; split_and!; intros; lia|].
  destruct (cmd c =? PWR_CMD_WRITE).
  { intros [= <- <-]. unfold do_write, reads. simpl hw. rewrite rmw_counting.
    simpl. split_and!; intros; lia. }
  destruct (cmd c =? PWR_CMD_POLLING).
  - unfold do_polling. intros H. res_inv. destruct a as [t b]. injection H as <- <-.
    pose proof (Hno (bHWICSupport s) (fst (hw s))) as Hn. simpl in Ha.
    destruct (get_pwr_cmd P (bHWICSupport s) (fst (hw s))) as [vb h1]. simpl in Hn.
    rewrite Hn in Ha. cbn [Z.eqb negb andb] in Ha.
    apply poll_loop_counts in Ha; [|unfold budget_inv; simpl; lia].
    unfold reads, budget_inv in *. simpl in Ha. destruct Ha as (? & ? & Hb).
    destruct b; [destruct (Hb eq_refl)|]; split_and!; intros; try done; lia.
  - destruct (cmd c =? PWR_CMD_DELAY).
    { intros [= <- <-]. unfold do_delay, reads. simpl. split_and!; intros; lia. }
    destruct (cmd c =? PWR_CMD_END); intros [= <- <-]; split_and!; intros; lia.
Qed.

Lemma run_cmds_counts cut fab intf l : forall s s' b,
  budget_inv s -> run_cmds counting cut fab intf l s = Ok (s', b) ->
  reads s' - pollingCount s' <= reads s - pollingCount s + zlen l /\
  0 <= pollingCount s' <= 5002.
Proof.
  induction l as [|c l IH]; intros s s' b Hs H; [discriminate|]. cbn [run_cmds] in H.
  rewrite zlen_cons. destruct (cfg_match cut fab intf c).
  - res_inv. destruct a as [t r]. apply exec_cmd_counts in Ha as (H1 & H2 & H3); [|done].
    pose proof (zlen_nonneg l). destruct r as [b'|].
    + injection H as -> ->. lia.
    + apply IH in H; [lia|]. apply H3. discriminate.
  - apply IH in H; [lia | done].
Qed.
End Count.

(** ** Properties *)

Lemma power_sequence_terminates_aux {HW} (P : platform HW) cut fab intf arr h :
  List.existsb (fun c => cfg_match cut fab intf c && (cmd c =? PWR_CMD_END)) arr = true ->
  exists b h', HalPwrSeqCmdParsing P cut fab intf arr h = Ok (b, h').
Proof.
  intros Hend. unfold HalPwrSeqCmdParsing. rewrite parse_run_fold.
  destruct (run_cmds_total P cut fab intf arr (init_pstate h) (init_poll_inv h) Hend)
    as (s & b & ->).
  eexists _, _. done.
Qed.

(** C16: A sequence that holds an end command for this FAB, cut and interface always
    returns: whatever the chip answers, the interpreter neither runs past the
    array nor polls forever. *)
Theorem power_sequence_terminates {HW} (P : platform HW) cut fab intf arr h
    (Hend : List.existsb (fun c => cfg_match cut fab intf c && (cmd c =? PWR_CMD_END)) arr = true) :
  exists b h', HalPwrSeqCmdParsing P cut fab intf arr h = Ok (b, h').
Proof.
  apply power_sequence_terminates_aux. exact Hend.
Qed.

(** Commands for another FAB, cut or interface have no effect: a sequence and the
    sublist of its commands that match behave the same on every chip. *)
Theorem power_sequence_ignores_unmatched {HW} (P : platform HW) cut fab intf arr h :
  HalPwrSeqCmdParsing P cut fab intf arr h =
  HalPwrSeqCmdParsing P cut fab intf (List.filter (cfg_match cut fab intf) arr) h.
Proof.
  unfold HalPwrSeqCmdParsing. rewrite !parse_run_fold, run_cmds_filter. done.
Qed.

(** A polling command (without the PCIe workaround) always returns, and succeeds
    exactly when one of the reads left in the call's budget of 5001 shows the
    awaited bits; the polls of earlier commands of the same call have used the
    budget up, and a hit on the read after the last one counts as a timeout. *)
Theorem polling_succeeds_iff {HW} (P : platform HW) c (s : pstate HW)
    (Hnr : u8 (fst (get_pwr_cmd P (bHWICSupport s) (hw s))) = 0 \/ offset c <> 6)
    (Hcount : 0 <= pollingCount s <= 100001) :
  exists s' b, do_polling P c s = Ok (s', b) /\
    (b = true <-> exists k, pollingCount s + Z.of_nat k <= 5000 /\
       nth_hit P c k (snd (get_pwr_cmd P (bHWICSupport s) (hw s))) = true).
Proof.
  unfold do_polling. destruct (get_pwr_cmd P (bHWICSupport s) (hw s)) as [b h1]. simpl in *.
  replace (negb (u8 b =? 0) && (offset c =? 6)) with false by lia.
  apply (poll_loop_iff P c (mkP h1 (pollingCount s) 5000 (flag s) (u8 b))).
  - unfold no_retry. simpl. tauto.
  - unfold poll_inv. simpl. lia.
Qed.

(** On a chip that never asks for the PCIe workaround a whole call reads at most
    5002 registers more than it has commands, whatever the chip answers. *)
Theorem power_sequence_reads_bounded {HW} (P : platform HW) cut fab intf arr h
    (Hno : no_hwic P)
    (Hend : List.existsb (fun c => cfg_match cut fab intf c && (cmd c =? PWR_CMD_END)) arr = true) :
  exists b h' n, HalPwrSeqCmdParsing (counting P) cut fab intf arr (h, 0) = Ok (b, (h', n)) /\
                 n <= 5002 + zlen arr.
Proof.
  unfold HalPwrSeqCmdParsing. rewrite parse_run_fold.
  destruct (run_cmds_total (counting P) cut fab intf arr (init_pstate (h, 0))
              (init_poll_inv (h, 0)) Hend) as (s & b & E).
  rewrite E. cbn [bind]. exists b, (fst (hw s)), (snd (hw s)).
  split; [destruct (hw s); done|].
  apply run_cmds_counts in E; [|done|]; unfold reads, budget_inv in *; simpl in *; lia.
Qed.

(** A write command reads its register once and writes back the value whose masked
    bits are the command's and whose other bits are the ones read. *)
Theorem write_changes_only_masked_bits {HW} (P : platform HW) c (s : pstate HW)
    (Hm : is_byte (msk c)) (Hv : is_byte (value c)) :
  exists v w, read_u8 P (offset c) (hw s) = (v, snd (read_u8 P (offset c) (hw s))) /\
    hw (do_write P c s) = write8 P (offset c) w (snd (read_u8 P (offset c) (hw s))) /\
    is_byte w /\
    forall i, 0 <= i -> Z.testbit w i = if Z.testbit (msk c) i then Z.testbit (value c) i
                                        else Z.testbit v i.
Proof.
  destruct (read_u8 P (offset c) (hw s)) as [v h1] eqn:E.
  assert (Hb : is_byte v).
  { unfold read_u8 in E. destruct (read8 P (offset c) (hw s)). injection E as <- _.
    apply u8_range. }
  assert (Hw : is_byte (masked c v)) by (unfold masked; auto with cbytes).
  exists v, (masked c v). split; [done|]. unfold do_write, rmw. simpl hw. rewrite E. simpl.
  rewrite (u8_small (masked c v)) by done. split; [done|]. split; [done|].
  intros i Hi. unfold masked. rewrite u8_small by auto with cbytes.
  rewrite Z.lor_spec, !Z.land_spec, Z.lnot_spec by done.
  destruct (Z.testbit (msk c) i), (Z.testbit v i), (Z.testbit (value c) i); done.
Qed.

(** A chip of one register for the witnesses: it reads the state, a write sets it. *)
Definition one_reg : platform Z := {|
  read8 _ h := (h, h); write8 _ v _ := v; udelay _ h := h; get_pwr_cmd b h := (b, h);
  is_8723DE := false |}.

Definition demo_cfgs : list WLAN_PWR_CFG := [
  mkCfg 5 0xFF 15 15 0 PWR_CMD_WRITE 2 2;
  mkCfg 5 0xFF 15 15 0 PWR_CMD_POLLING 2 2;
  mkCfg 0xFFFF 0xFF 15 15 0 PWR_CMD_END 0 0 ].

Lemma power_sequence_terminates_witness :
  exists b h', HalPwrSeqCmdParsing one_reg 255 15 2 demo_cfgs 0 = Ok (b, h').
Proof. apply power_sequence_terminates. vm_compute. reflexivity. Defined.

Lemma polling_succeeds_iff_witness :
  exists s' b, do_polling one_reg (mkCfg 5 0xFF 15 15 0 PWR_CMD_POLLING 2 2)
                 (init_pstate 2) = Ok (s', b) /\
    (b = true <-> exists k, 0 + Z.of_nat k <= 5000 /\
       nth_hit one_reg (mkCfg 5 0xFF 15 15 0 PWR_CMD_POLLING 2 2) k 2 = true).
Proof.
  apply (polling_succeeds_iff one_reg (mkCfg 5 0xFF 15 15 0 PWR_CMD_POLLING 2 2) (init_pstate 2)).
  - left. reflexivity.
  - simpl. lia.
Defined.

Lemma power_sequence_reads_bounded_witness :
  exists b h' n,
    HalPwrSeqCmdParsing
      (counting {| read8 _ h := (h, h); write8 _ v _ := v; udelay _ h := h;
                   get_pwr_cmd _ h := (0, h); is_8723DE := false |})
      255 15 2 demo_cfgs (0, 0) = Ok (b, (h', n)) /\ n <= 5002 + zlen demo_cfgs.
Proof.
  apply power_sequence_reads_bounded.
  - intros b h. reflexivity.
  - vm_compute. reflexivity.
Defined.

Lemma write_changes_only_masked_bits_witness :
  exists v w, read_u8 one_reg 5 0x81 = (v, snd (read_u8 one_reg 5 0x81)) /\
    hw (do_write one_reg (mkCfg 5 0xFF 15 15 0 PWR_CMD_WRITE 3 2) (init_pstate 0x81))
      = write8 one_reg 5 w (snd (read_u8 one_reg 5 0x81)) /\
    is_byte w /\
    forall i, 0 <= i -> Z.testbit w i = if Z.testbit 3 i then Z.testbit 2 i else Z.testbit v i.
Proof.
  apply (write_changes_only_masked_bits one_reg (mkCfg 5 0xFF 15 15 0 PWR_CMD_WRITE 3 2)
           (init_pstate 0x81)); unfold is_byte; simpl; lia.
Defined.
