(* ===== verification/PwrFlow8188F.v ===== *)
(** * The RTL8188F's power sequences

    The command tables of [include/Hal8188FPwrSeq.h] and the flows
    [hal/rtl8188f/Hal8188FPwrSeq.c] builds from them, run by the interpreter of
    [PwrSeqCmd]. A C array is declared longer than its initialiser: the zero
    elements after the end command are never reached and are left out. *)
From Stdlib Require Import ZArith Lia Bool.
From stdpp Require Import base option list numbers.
From S2P Require Import Prelude PwrSeqCmd.
Local Open Scope Z_scope.

(* src: include/Hal8188FPwrSeq.h:54-63 RTL8188F_TRANS_CARDEMU_TO_ACT *)
Definition RTL8188F_TRANS_CARDEMU_TO_ACT : list WLAN_PWR_CFG := [
  mkCfg 0x0005 PWR_CUT_ALL_MSK PWR_FAB_ALL_MSK PWR_INTF_ALL_MSK PWR_BASEADDR_MAC PWR_CMD_WRITE (BIT 2) 0;
  mkCfg 0x0006 PWR_CUT_ALL_MSK PWR_FAB_ALL_MSK PWR_INTF_ALL_MSK PWR_BASEADDR_MAC PWR_CMD_POLLING (BIT 1) (BIT 1);
  mkCfg 0x0005 PWR_CUT_ALL_MSK PWR_FAB_ALL_MSK PWR_INTF_ALL_MSK PWR_BASEADDR_MAC PWR_CMD_WRITE (BIT 7) 0;
  mkCfg 0x0005 PWR_CUT_ALL_MSK PWR_FAB_ALL_MSK PWR_INTF_ALL_MSK PWR_BASEADDR_MAC PWR_CMD_WRITE (BIT 3) 0;
  mkCfg 0x0005 PWR_CUT_ALL_MSK PWR_FAB_ALL_MSK PWR_INTF_ALL_MSK PWR_BASEADDR_MAC PWR_CMD_WRITE (BIT 0) (BIT 0);
  mkCfg 0x0005 PWR_CUT_ALL_MSK PWR_FAB_ALL_MSK PWR_INTF_ALL_MSK PWR_BASEADDR_MAC PWR_CMD_POLLING (BIT 0) 0;
  mkCfg 0x0027 PWR_CUT_ALL_MSK PWR_FAB_ALL_MSK PWR_INTF_ALL_MSK PWR_BASEADDR_MAC PWR_CMD_WRITE 0xff 0x35
].

(* src: include/Hal8188FPwrSeq.h:65-72 RTL8188F_TRANS_ACT_TO_CARDEMU *)
Definition RTL8188F_TRANS_ACT_TO_CARDEMU : list WLAN_PWR_CFG := [
  mkCfg 0x001F PWR_CUT_ALL_MSK PWR_FAB_ALL_MSK PWR_INTF_ALL_MSK PWR_BASEADDR_MAC PWR_CMD_WRITE 0xFF 0;
  mkCfg 0x004E PWR_CUT_ALL_MSK PWR_FAB_ALL_MSK PWR_INTF_ALL_MSK PWR_BASEADDR_MAC PWR_CMD_WRITE (BIT 7) 0;
  mkCfg 0x0027 PWR_CUT_ALL_MSK PWR_FAB_ALL_MSK PWR_INTF_ALL_MSK PWR_BASEADDR_MAC PWR_CMD_WRITE 0xff 0x34;
  mkCfg 0x0005 PWR_CUT_ALL_MSK PWR_FAB_ALL_MSK PWR_INTF_ALL_MSK PWR_BASEADDR_MAC PWR_CMD_WRITE (BIT 1) (BIT 1);
  mkCfg 0x0005 PWR_CUT_ALL_MSK PWR_FAB_ALL_MSK PWR_INTF_ALL_MSK PWR_BASEADDR_MAC PWR_CMD_POLLING (BIT 1) 0
].

(* src: include/Hal8188FPwrSeq.h:74-81 RTL8188F_TRANS_CARDEMU_TO_SUS *)
Definition RTL8188F_TRANS_CARDEMU_TO_SUS : list WLAN_PWR_CFG := [
  mkCfg 0x0007 PWR_CUT_ALL_MSK PWR_FAB_ALL_MSK PWR_INTF_SDIO_MSK PWR_BASEADDR_MAC PWR_CMD_WRITE 0xFF 0x00;
  mkCfg 0x0005 PWR_CUT_ALL_MSK PWR_FAB_ALL_MSK (Z.lor PWR_INTF_USB_MSK PWR_INTF_SDIO_MSK) PWR_BASEADDR_MAC PWR_CMD_WRITE (Z.lor (BIT 3) (BIT 4)) (BIT 3);
  mkCfg 0x0086 PWR_CUT_ALL_MSK PWR_FAB_ALL_MSK PWR_INTF_SDIO_MSK PWR_BASEADDR_SDIO PWR_CMD_WRITE (BIT 0) (BIT 0);
  mkCfg 0x0086 PWR_CUT_ALL_MSK PWR_FAB_ALL_MSK PWR_INTF_SDIO_MSK PWR_BASEADDR_SDIO PWR_CMD_POLLING (BIT 1) 0;
  mkCfg 0x00C4 PWR_CUT_ALL_MSK PWR_FAB_ALL_MSK PWR_INTF_USB_MSK PWR_BASEADDR_MAC PWR_CMD_WRITE (BIT 4) (BIT 4)
].

(* src: include/Hal8188FPwrSeq.h:83-89 RTL8188F_TRANS_SUS_TO_CARDEMU *)
Definition RTL8188F_TRANS_SUS_TO_CARDEMU : list WLAN_PWR_CFG := [
  mkCfg 0x0086 PWR_CUT_ALL_MSK PWR_FAB_ALL_MSK PWR_INTF_SDIO_MSK PWR_BASEADDR_SDIO PWR_CMD_WRITE (BIT 0) 0;
  mkCfg 0x0086 PWR_CUT_ALL_MSK PWR_FAB_ALL_MSK PWR_INTF_SDIO_MSK PWR_BASEADDR_SDIO PWR_CMD_POLLING (BIT 1) (BIT 1);
  mkCfg 0x0005 PWR_CUT_ALL_MSK PWR_FAB_ALL_MSK PWR_INTF_ALL_MSK PWR_BASEADDR_MAC PWR_CMD_WRITE (Z.lor (BIT 3) (BIT 4)) 0;
  mkCfg 0x00C4 PWR_CUT_ALL_MSK PWR_FAB_ALL_MSK PWR_INTF_USB_MSK PWR_BASEADDR_MAC PWR_CMD_WRITE (BIT 4) 0
].

(* src: include/Hal8188FPwrSeq.h:91-98 RTL8188F_TRANS_CARDEMU_TO_CARDDIS *)
Definition RTL8188F_TRANS_CARDEMU_TO_CARDDIS : list WLAN_PWR_CFG := [
  mkCfg 0x0007 PWR_CUT_ALL_MSK PWR_FAB_ALL_MSK PWR_INTF_SDIO_MSK PWR_BASEADDR_MAC PWR_CMD_WRITE 0xFF 0x00;
  mkCfg 0x0005 PWR_CUT_ALL_MSK PWR_FAB_ALL_MSK (Z.lor PWR_INTF_USB_MSK PWR_INTF_SDIO_MSK) PWR_BASEADDR_MAC PWR_CMD_WRITE (Z.lor (BIT 3) (BIT 4)) (BIT 3);
  mkCfg 0x0086 PWR_CUT_ALL_MSK PWR_FAB_ALL_MSK PWR_INTF_SDIO_MSK PWR_BASEADDR_SDIO PWR_CMD_WRITE (BIT 0) (BIT 0);
  mkCfg 0x0086 PWR_CUT_ALL_MSK PWR_FAB_ALL_MSK PWR_INTF_SDIO_MSK PWR_BASEADDR_SDIO PWR_CMD_POLLING (BIT 1) 0;
  mkCfg 0x00C4 PWR_CUT_ALL_MSK PWR_FAB_ALL_MSK PWR_INTF_USB_MSK PWR_BASEADDR_MAC PWR_CMD_WRITE (BIT 4) (BIT 4)
].

(* src: include/Hal8188FPwrSeq.h:100-106 RTL8188F_TRANS_CARDDIS_TO_CARDEMU *)
Definition RTL8188F_TRANS_CARDDIS_TO_CARDEMU : list WLAN_PWR_CFG := [
  mkCfg 0x0086 PWR_CUT_ALL_MSK PWR_FAB_ALL_MSK PWR_INTF_SDIO_MSK PWR_BASEADDR_SDIO PWR_CMD_WRITE (BIT 0) 0;
  mkCfg 0x0086 PWR_CUT_ALL_MSK PWR_FAB_ALL_MSK PWR_INTF_SDIO_MSK PWR_BASEADDR_SDIO PWR_CMD_POLLING (BIT 1) (BIT 1);
  mkCfg 0x0005 PWR_CUT_ALL_MSK PWR_FAB_ALL_MSK PWR_INTF_ALL_MSK PWR_BASEADDR_MAC PWR_CMD_WRITE (Z.lor (BIT 3) (BIT 4)) 0;
  mkCfg 0x00C4 PWR_CUT_ALL_MSK PWR_FAB_ALL_MSK PWR_INTF_USB_MSK PWR_BASEADDR_MAC PWR_CMD_WRITE (BIT 4) 0
].

(* src: include/Hal8188FPwrSeq.h:109-113 RTL8188F_TRANS_CARDEMU_TO_PDN *)
Definition RTL8188F_TRANS_CARDEMU_TO_PDN : list WLAN_PWR_CFG := [
  mkCfg 0x0006 PWR_CUT_ALL_MSK PWR_FAB_ALL_MSK PWR_INTF_ALL_MSK PWR_BASEADDR_MAC PWR_CMD_WRITE (BIT 0) 0;
  mkCfg 0x0005 PWR_CUT_ALL_MSK PWR_FAB_ALL_MSK PWR_INTF_ALL_MSK PWR_BASEADDR_MAC PWR_CMD_WRITE (BIT 7) (BIT 7)
].

(* src: include/Hal8188FPwrSeq.h:115-118 RTL8188F_TRANS_PDN_TO_CARDEMU *)
Definition RTL8188F_TRANS_PDN_TO_CARDEMU : list WLAN_PWR_CFG := [
  mkCfg 0x0005 PWR_CUT_ALL_MSK PWR_FAB_ALL_MSK PWR_INTF_ALL_MSK PWR_BASEADDR_MAC PWR_CMD_WRITE (BIT 7) 0
].

(* src: include/Hal8188FPwrSeq.h:120-133 RTL8188F_TRANS_ACT_TO_LPS *)
Definition RTL8188F_TRANS_ACT_TO_LPS : list WLAN_PWR_CFG := [
  mkCfg 0x0139 PWR_CUT_ALL_MSK PWR_FAB_ALL_MSK PWR_INTF_ALL_MSK PWR_BASEADDR_MAC PWR_CMD_WRITE (BIT 0) (BIT 0);
  mkCfg 0x0522 PWR_CUT_ALL_MSK PWR_FAB_ALL_MSK PWR_INTF_ALL_MSK PWR_BASEADDR_MAC PWR_CMD_WRITE 0xFF 0xFF;
  mkCfg 0x05F8 PWR_CUT_ALL_MSK PWR_FAB_ALL_MSK PWR_INTF_ALL_MSK PWR_BASEADDR_MAC PWR_CMD_POLLING 0xFF 0;
  mkCfg 0x05F9 PWR_CUT_ALL_MSK PWR_FAB_ALL_MSK PWR_INTF_ALL_MSK PWR_BASEADDR_MAC PWR_CMD_POLLING 0xFF 0;
  mkCfg 0x05FA PWR_CUT_ALL_MSK PWR_FAB_ALL_MSK PWR_INTF_ALL_MSK PWR_BASEADDR_MAC PWR_CMD_POLLING 0xFF 0;
  mkCfg 0x0002 PWR_CUT_ALL_MSK PWR_FAB_ALL_MSK PWR_INTF_ALL_MSK PWR_BASEADDR_MAC PWR_CMD_WRITE (BIT 0) 0;
  mkCfg 0x0002 PWR_CUT_ALL_MSK PWR_FAB_ALL_MSK PWR_INTF_ALL_MSK PWR_BASEADDR_MAC PWR_CMD_DELAY 0 PWRSEQ_DELAY_US;
  mkCfg 0x0002 PWR_CUT_ALL_MSK PWR_FAB_ALL_MSK PWR_INTF_ALL_MSK PWR_BASEADDR_MAC PWR_CMD_WRITE (BIT 1) 0;
  mkCfg 0x0100 PWR_CUT_ALL_MSK PWR_FAB_ALL_MSK PWR_INTF_ALL_MSK PWR_BASEADDR_MAC PWR_CMD_WRITE 0xFF 0x3F;
  mkCfg 0x0101 PWR_CUT_ALL_MSK PWR_FAB_ALL_MSK PWR_INTF_ALL_MSK PWR_BASEADDR_MAC PWR_CMD_WRITE (BIT 1) 0;
  mkCfg 0x0553 PWR_CUT_ALL_MSK PWR_FAB_ALL_MSK PWR_INTF_ALL_MSK PWR_BASEADDR_MAC PWR_CMD_WRITE (BIT 5) (BIT 5)
].

(* src: include/Hal8188FPwrSeq.h:136-149 RTL8188F_TRANS_LPS_TO_ACT *)
Definition RTL8188F_TRANS_LPS_TO_ACT : list WLAN_PWR_CFG := [
  mkCfg 0x0080 PWR_CUT_ALL_MSK PWR_FAB_ALL_MSK PWR_INTF_SDIO_MSK PWR_BASEADDR_SDIO PWR_CMD_WRITE 0xFF 0x84;
  mkCfg 0xFE58 PWR_CUT_ALL_MSK PWR_FAB_ALL_MSK PWR_INTF_USB_MSK PWR_BASEADDR_MAC PWR_CMD_WRITE 0xFF 0x84;
  mkCfg 0x0002 PWR_CUT_ALL_MSK PWR_FAB_ALL_MSK PWR_INTF_ALL_MSK PWR_BASEADDR_MAC PWR_CMD_DELAY 0 PWRSEQ_DELAY_MS;
  mkCfg 0x0002 PWR_CUT_ALL_MSK PWR_FAB_ALL_MSK PWR_INTF_ALL_MSK PWR_BASEADDR_MAC PWR_CMD_DELAY 0 PWRSEQ_DELAY_MS;
  mkCfg 0x0027 PWR_CUT_ALL_MSK PWR_FAB_ALL_MSK PWR_INTF_ALL_MSK PWR_BASEADDR_MAC PWR_CMD_WRITE 0xff 0x35;
  mkCfg 0x0109 PWR_CUT_ALL_MSK PWR_FAB_ALL_MSK PWR_INTF_ALL_MSK PWR_BASEADDR_MAC PWR_CMD_POLLING (BIT 7) 0;
  mkCfg 0x002B PWR_CUT_ALL_MSK PWR_FAB_ALL_MSK PWR_INTF_ALL_MSK PWR_BASEADDR_MAC PWR_CMD_WRITE 0x1c 0x1c;
  mkCfg 0x0101 PWR_CUT_ALL_MSK PWR_FAB_ALL_MSK PWR_INTF_ALL_MSK PWR_BASEADDR_MAC PWR_CMD_WRITE (BIT 1) (BIT 1);
  mkCfg 0x0100 PWR_CUT_ALL_MSK PWR_FAB_ALL_MSK PWR_INTF_ALL_MSK PWR_BASEADDR_MAC PWR_CMD_WRITE 0xFF 0xFF;
  mkCfg 0x0002 PWR_CUT_ALL_MSK PWR_FAB_ALL_MSK PWR_INTF_ALL_MSK PWR_BASEADDR_MAC PWR_CMD_WRITE (Z.lor (BIT 1) (BIT 0)) (Z.lor (BIT 1) (BIT 0));
  mkCfg 0x0522 PWR_CUT_ALL_MSK PWR_FAB_ALL_MSK PWR_INTF_ALL_MSK PWR_BASEADDR_MAC PWR_CMD_WRITE 0xFF 0
].

(* src: include/Hal8188FPwrSeq.h:152-174 RTL8188F_TRANS_ACT_TO_SWLPS *)
Definition RTL8188F_TRANS_ACT_TO_SWLPS : list WLAN_PWR_CFG := [
  mkCfg 0x0139 PWR_CUT_ALL_MSK PWR_FAB_ALL_MSK PWR_INTF_ALL_MSK PWR_BASEADDR_MAC PWR_CMD_WRITE (BIT 0) (BIT 0);
  mkCfg 0x0522 PWR_CUT_ALL_MSK PWR_FAB_ALL_MSK PWR_INTF_ALL_MSK PWR_BASEADDR_MAC PWR_CMD_WRITE 0xFF 0xFF;
  mkCfg 0x05F8 PWR_CUT_ALL_MSK PWR_FAB_ALL_MSK PWR_INTF_ALL_MSK PWR_BASEADDR_MAC PWR_CMD_POLLING 0xFF 0;
  mkCfg 0x05F9 PWR_CUT_ALL_MSK PWR_FAB_ALL_MSK PWR_INTF_ALL_MSK PWR_BASEADDR_MAC PWR_CMD_POLLING 0xFF 0;
  mkCfg 0x05FA PWR_CUT_ALL_MSK PWR_FAB_ALL_MSK PWR_INTF_ALL_MSK PWR_BASEADDR_MAC PWR_CMD_POLLING 0xFF 0;
  mkCfg 0x0002 PWR_CUT_ALL_MSK PWR_FAB_ALL_MSK PWR_INTF_ALL_MSK PWR_BASEADDR_MAC PWR_CMD_WRITE (BIT 0) 0;
  mkCfg 0x0002 PWR_CUT_ALL_MSK PWR_FAB_ALL_MSK PWR_INTF_ALL_MSK PWR_BASEADDR_MAC PWR_CMD_DELAY 0 PWRSEQ_DELAY_US;
  mkCfg 0x0002 PWR_CUT_ALL_MSK PWR_FAB_ALL_MSK PWR_INTF_ALL_MSK PWR_BASEADDR_MAC PWR_CMD_WRITE (BIT 1) 0;
  mkCfg 0x0100 PWR_CUT_ALL_MSK PWR_FAB_ALL_MSK PWR_INTF_ALL_MSK PWR_BASEADDR_MAC PWR_CMD_WRITE 0xFF 0x3F;
  mkCfg 0x0101 PWR_CUT_ALL_MSK PWR_FAB_ALL_MSK PWR_INTF_ALL_MSK PWR_BASEADDR_MAC PWR_CMD_WRITE (BIT 1) 0;
  mkCfg 0x0553 PWR_CUT_ALL_MSK PWR_FAB_ALL_MSK PWR_INTF_ALL_MSK PWR_BASEADDR_MAC PWR_CMD_WRITE (BIT 5) (BIT 5);
  mkCfg 0x002b PWR_CUT_ALL_MSK PWR_FAB_ALL_MSK PWR_INTF_ALL_MSK PWR_BASEADDR_MAC PWR_CMD_WRITE 0x1C 0x00;
  mkCfg 0x0027 PWR_CUT_ALL_MSK PWR_FAB_ALL_MSK PWR_INTF_ALL_MSK PWR_BASEADDR_MAC PWR_CMD_WRITE 0xff 0x34;
  mkCfg 0x0093 PWR_CUT_ALL_MSK PWR_FAB_ALL_MSK PWR_INTF_SDIO_MSK PWR_BASEADDR_MAC PWR_CMD_WRITE 0xff 0x00;
  mkCfg 0x0093 PWR_CUT_ALL_MSK PWR_FAB_ALL_MSK PWR_INTF_USB_MSK PWR_BASEADDR_MAC PWR_CMD_WRITE 0xff 0x83;
  mkCfg 0x00C4 PWR_CUT_ALL_MSK PWR_FAB_ALL_MSK PWR_INTF_ALL_MSK PWR_BASEADDR_MAC PWR_CMD_WRITE (BIT 5) 0;
  mkCfg 0x00C4 PWR_CUT_ALL_MSK PWR_FAB_ALL_MSK PWR_INTF_ALL_MSK PWR_BASEADDR_MAC PWR_CMD_WRITE (BIT 7) (BIT 7);
  mkCfg 0x00a7 PWR_CUT_ALL_MSK PWR_FAB_ALL_MSK PWR_INTF_SDIO_MSK PWR_BASEADDR_MAC PWR_CMD_WRITE 0xff 0xe0;
  mkCfg 0x00a7 PWR_CUT_ALL_MSK PWR_FAB_ALL_MSK PWR_INTF_USB_MSK PWR_BASEADDR_MAC PWR_CMD_WRITE 0xff 0xe4;
  mkCfg 0x0090 PWR_CUT_ALL_MSK PWR_FAB_ALL_MSK PWR_INTF_ALL_MSK PWR_BASEADDR_MAC PWR_CMD_WRITE (BIT 0) (BIT 0)
].

(* src: include/Hal8188FPwrSeq.h:177-193 RTL8188F_TRANS_SWLPS_TO_ACT *)
Definition RTL8188F_TRANS_SWLPS_TO_ACT : list WLAN_PWR_CFG := [
  mkCfg 0x0109 PWR_CUT_ALL_MSK PWR_FAB_ALL_MSK PWR_INTF_SDIO_MSK PWR_BASEADDR_MAC PWR_CMD_WRITE (BIT 7) 0;
  mkCfg 0x0101 PWR_CUT_ALL_MSK PWR_FAB_ALL_MSK PWR_INTF_SDIO_MSK PWR_BASEADDR_MAC PWR_CMD_WRITE (BIT 1) (BIT 1);
  mkCfg 0x0100 PWR_CUT_ALL_MSK PWR_FAB_ALL_MSK PWR_INTF_SDIO_MSK PWR_BASEADDR_MAC PWR_CMD_WRITE 0xFF 0xFF;
  mkCfg 0x06B7 PWR_CUT_ALL_MSK PWR_FAB_ALL_MSK PWR_INTF_SDIO_MSK PWR_BASEADDR_MAC PWR_CMD_WRITE 0xFF 0x09;
  mkCfg 0x06B4 PWR_CUT_ALL_MSK PWR_FAB_ALL_MSK PWR_INTF_SDIO_MSK PWR_BASEADDR_MAC PWR_CMD_WRITE 0xFF 0x86;
  mkCfg 0x0080 PWR_CUT_ALL_MSK PWR_FAB_ALL_MSK PWR_INTF_SDIO_MSK PWR_BASEADDR_MAC PWR_CMD_WRITE (BIT 1) (BIT 1);
  mkCfg 0x001D PWR_CUT_ALL_MSK PWR_FAB_ALL_MSK PWR_INTF_SDIO_MSK PWR_BASEADDR_MAC PWR_CMD_WRITE (BIT 0) 0;
  mkCfg 0x0003 PWR_CUT_ALL_MSK PWR_FAB_ALL_MSK PWR_INTF_SDIO_MSK PWR_BASEADDR_MAC PWR_CMD_WRITE (BIT 2) 0;
  mkCfg 0x001D PWR_CUT_ALL_MSK PWR_FAB_ALL_MSK PWR_INTF_SDIO_MSK PWR_BASEADDR_MAC PWR_CMD_WRITE (BIT 0) (BIT 0);
  mkCfg 0x0003 PWR_CUT_ALL_MSK PWR_FAB_ALL_MSK PWR_INTF_SDIO_MSK PWR_BASEADDR_MAC PWR_CMD_WRITE (BIT 2) (BIT 2);
  mkCfg 0x0080 PWR_CUT_ALL_MSK PWR_FAB_ALL_MSK PWR_INTF_SDIO_MSK PWR_BASEADDR_MAC PWR_CMD_POLLING (BIT 7) (BIT 7);
  mkCfg 0x0080 PWR_CUT_ALL_MSK PWR_FAB_ALL_MSK PWR_INTF_SDIO_MSK PWR_BASEADDR_MAC PWR_CMD_POLLING (BIT 6) (BIT 6);
  mkCfg 0x0002 PWR_CUT_ALL_MSK PWR_FAB_ALL_MSK PWR_INTF_SDIO_MSK PWR_BASEADDR_MAC PWR_CMD_WRITE (BIT 0) (BIT 0);
  mkCfg 0x0522 PWR_CUT_ALL_MSK PWR_FAB_ALL_MSK PWR_INTF_SDIO_MSK PWR_BASEADDR_MAC PWR_CMD_WRITE 0xFF 0
].

(* src: include/Hal8188FPwrSeq.h:195-198 RTL8188F_TRANS_END *)
Definition RTL8188F_TRANS_END : list WLAN_PWR_CFG := [
  mkCfg 0xFFFF PWR_CUT_ALL_MSK PWR_FAB_ALL_MSK PWR_INTF_ALL_MSK 0 PWR_CMD_END 0 0
].

(* src: hal/rtl8188f/Hal8188FPwrSeq.c:24-27 rtl8188F_power_on_flow *)
Definition rtl8188F_power_on_flow : list WLAN_PWR_CFG :=
  RTL8188F_TRANS_CARDEMU_TO_ACT ++ RTL8188F_TRANS_END.

(* src: hal/rtl8188f/Hal8188FPwrSeq.c:30-33 rtl8188F_radio_off_flow *)
Definition rtl8188F_radio_off_flow : list WLAN_PWR_CFG :=
  RTL8188F_TRANS_ACT_TO_CARDEMU ++ RTL8188F_TRANS_END.

(* src: hal/rtl8188f/Hal8188FPwrSeq.c:36-40 rtl8188F_card_disable_flow *)
Definition rtl8188F_card_disable_flow : list WLAN_PWR_CFG :=
  RTL8188F_TRANS_ACT_TO_CARDEMU ++ RTL8188F_TRANS_CARDEMU_TO_CARDDIS ++ RTL8188F_TRANS_END.

(* src: hal/rtl8188f/Hal8188FPwrSeq.c:43-47 rtl8188F_card_enable_flow *)
Definition rtl8188F_card_enable_flow : list WLAN_PWR_CFG :=
  RTL8188F_TRANS_CARDDIS_TO_CARDEMU ++ RTL8188F_TRANS_CARDEMU_TO_ACT ++ RTL8188F_TRANS_END.

(* src: hal/rtl8188f/Hal8188FPwrSeq.c:50-54 rtl8188F_suspend_flow *)
Definition rtl8188F_suspend_flow : list WLAN_PWR_CFG :=
  RTL8188F_TRANS_ACT_TO_CARDEMU ++ RTL8188F_TRANS_CARDEMU_TO_SUS ++ RTL8188F_TRANS_END.

(* src: hal/rtl8188f/Hal8188FPwrSeq.c:57-61 rtl8188F_resume_flow *)
Definition rtl8188F_resume_flow : list WLAN_PWR_CFG :=
  RTL8188F_TRANS_SUS_TO_CARDEMU ++ RTL8188F_TRANS_CARDEMU_TO_ACT ++ RTL8188F_TRANS_END.

(* src: hal/rtl8188f/Hal8188FPwrSeq.c:66-70 rtl8188F_hwpdn_flow *)
Definition rtl8188F_hwpdn_flow : list WLAN_PWR_CFG :=
  RTL8188F_TRANS_ACT_TO_CARDEMU ++ RTL8188F_TRANS_CARDEMU_TO_PDN ++ RTL8188F_TRANS_END.

(* src: hal/rtl8188f/Hal8188FPwrSeq.c:73-77 rtl8188F_enter_lps_flow *)
Definition rtl8188F_enter_lps_flow : list WLAN_PWR_CFG :=
  RTL8188F_TRANS_ACT_TO_LPS ++ RTL8188F_TRANS_END.

(* src: hal/rtl8188f/Hal8188FPwrSeq.c:80-84 rtl8188F_leave_lps_flow *)
Definition rtl8188F_leave_lps_flow : list WLAN_PWR_CFG :=
  RTL8188F_TRANS_LPS_TO_ACT ++ RTL8188F_TRANS_END.

(* src: hal/rtl8188f/Hal8188FPwrSeq.c:87-91 rtl8188F_enter_swlps_flow *)
Definition rtl8188F_enter_swlps_flow : list WLAN_PWR_CFG :=
  RTL8188F_TRANS_ACT_TO_SWLPS ++ RTL8188F_TRANS_END.

(* src: hal/rtl8188f/Hal8188FPwrSeq.c:94-98 rtl8188F_leave_swlps_flow *)
Definition rtl8188F_leave_swlps_flow : list WLAN_PWR_CFG :=
  RTL8188F_TRANS_SWLPS_TO_ACT ++ RTL8188F_TRANS_END.

(** The flows with the number of elements their arrays are declared with. *)
Definition flows : list (list WLAN_PWR_CFG * Z) := [
  (rtl8188F_power_on_flow, 14);
  (rtl8188F_radio_off_flow, 16);
  (rtl8188F_card_disable_flow, 31);
  (rtl8188F_card_enable_flow, 31);
  (rtl8188F_suspend_flow, 30);
  (rtl8188F_resume_flow, 30);
  (rtl8188F_hwpdn_flow, 31);
  (rtl8188F_enter_lps_flow, 12);
  (rtl8188F_leave_lps_flow, 14);
  (rtl8188F_enter_swlps_flow, 22);
  (rtl8188F_leave_swlps_flow, 15)
].

(** The driver's call: every cut and FAB, USB interface. *)
(* src: hal/rtl8188f/usb/usb_halinit.c:141-142 _InitPowerOn_8188FU *)
Definition run_usb {HW} (P : platform HW) (flow : list WLAN_PWR_CFG) (h : HW) : res (bool * HW) :=
  HalPwrSeqCmdParsing P PWR_CUT_ALL_MSK PWR_FAB_ALL_MSK PWR_INTF_USB_MSK flow h.

Definition usb_match (c : WLAN_PWR_CFG) : bool :=
  cfg_match PWR_CUT_ALL_MSK PWR_FAB_ALL_MSK PWR_INTF_USB_MSK c.

(** What the USB driver may execute: an end command, or one of the MAC's registers
    with a 16-bit address, and never the SDIO-local ones. *)
Definition usb_safe (c : WLAN_PWR_CFG) : bool :=
  negb (usb_match c) ||
  ((base c =? PWR_BASEADDR_MAC) && (0 <=? offset c) && (offset c <? 65536) &&
   (0 <=? msk c) && (msk c <? 256) && (0 <=? value c) && (value c <? 256)).

Definition flow_ok (f : list WLAN_PWR_CFG * Z) : bool :=
  (zlen (fst f) <=? snd f) && forallb usb_safe (fst f) &&
  List.existsb (fun c => usb_match c && (cmd c =? PWR_CMD_END)) (fst f).

(** Every flow fits its declared array, runs on USB only commands on the MAC's own
    register space, and returns on every chip. *)
Theorem usb_flows_are_safe :
  Forall (fun f => zlen (fst f) <= snd f /\
            Forall (fun c => usb_match c = true -> base c = PWR_BASEADDR_MAC /\
                               0 <= offset c < 65536 /\ is_byte (msk c) /\ is_byte (value c))
                   (fst f) /\
            forall HW (P : platform HW) h, exists b h', run_usb P (fst f) h = Ok (b, h'))
         flows.
Proof.
  assert (H : forallb flow_ok flows = true) by (vm_compute; reflexivity).
  rewrite List.forallb_forall in H. apply List.Forall_forall. intros f Hf.
  specialize (H f Hf). unfold flow_ok in H.
  apply andb_true_iff in H as [[Hlen Hsafe]%andb_true_iff Hend].
  split; [lia|]. split.
  - rewrite List.forallb_forall in Hsafe. apply List.Forall_forall. intros c Hc Hm.
    specialize (Hsafe c Hc). unfold usb_safe, is_byte in *. rewrite Hm in Hsafe. lia.
  - intros HW P h. apply power_sequence_terminates_aux. exact Hend.
Qed.

(** A chip whose ready bit 0x06[1] shows after 3000 polls and whose self-clearing bit
    0x05[0] falls after 3000 more: the state counts the reads of the two registers. *)
Definition slow_chip : platform (Z * Z) := {|
  read8 off h :=
    if off =? 0x06 then ((if 3000 <=? fst h then 2 else 0), (fst h + 1, snd h))
    else if off =? 0x05 then ((if 3000 <=? snd h then 0 else 1), (fst h, snd h + 1))
    else (0, h);
  write8 _ _ h := h; udelay _ h := h; get_pwr_cmd _ h := (0, h); is_8723DE := false |}.

Definition wait_power_ready : WLAN_PWR_CFG :=
  mkCfg 0x0006 PWR_CUT_ALL_MSK PWR_FAB_ALL_MSK PWR_INTF_ALL_MSK PWR_BASEADDR_MAC PWR_CMD_POLLING (BIT 1) (BIT 1).
Definition wait_mac_on : WLAN_PWR_CFG :=
  mkCfg 0x0005 PWR_CUT_ALL_MSK PWR_FAB_ALL_MSK PWR_INTF_ALL_MSK PWR_BASEADDR_MAC PWR_CMD_POLLING (BIT 0) 0.

Definition succeeds (r : res (bool * (Z * Z))) : option bool :=
  match r with Ok (b, _) => Some b | Fault _ => None end.

Definition alone (c : WLAN_PWR_CFG) : option bool :=
  succeeds ('(s, b) <- do_polling slow_chip c (init_pstate (0, 0)) ;; Ok (b, hw s)).

(** The two polls of the power-on flow share one budget: a chip that answers each of
    them well inside the 5000 polls a command may take, so that each succeeds on its
    own, still fails the flow. *)
Theorem power_on_polls_share_a_budget :
  In wait_power_ready rtl8188F_card_enable_flow /\
  In wait_mac_on rtl8188F_card_enable_flow /\
  alone wait_power_ready = Some true /\ alone wait_mac_on = Some true /\
  succeeds (run_usb slow_chip rtl8188F_card_enable_flow (0, 0)) = Some false.
Proof.
  split; [vm_compute; tauto|]. split; [vm_compute; tauto|].
  split; [vm_compute; reflexivity|]. split; vm_compute; reflexivity.
Qed.
