(* ===== verification/EzConfigVars.v ===== *)
(** * Reading a variable out of /home/config.txt

    Models [process_config_vars] of [os_dep/linux/ez_wifi_config.c]: the scanner
    that copies the value of a variable ("ccode=", "mac_addr=") out of the
    configuration file's text. The C locals are the fields of [pcv]; the file's
    buffer and the output buffer are byte lists, and every access to them is
    checked. *)
From Stdlib Require Import ZArith Lia Bool String.
From stdpp Require Import base option list numbers.
From S2P Require Import Prelude.
Local Open Scope Z_scope.

Definition CR := 13.
Definition LF := 10.
Definition TAB := 9.
Definition SPACE := 32.
Definition HASH := 35.
Definition BACKSLASH := 92.

(* src: os_dep/linux/ez_wifi_config.c:166-174 process_config_vars locals *)
Record pcv : Type := mkPcv {
  pos : Z;
  n_ : Z;          (** [n] *)
  m_ : bool;       (** [m], a [_Bool] *)
  end_ : Z;        (** [end] *)
  i_ : Z;
  j_ : Z;
  pick : list Z;
}.

Section Scan.
  Context (buf : list Z) (len : Z) (var : list Z).

Definition next_turn (s : pcv) : res (pcv + (Z * list Z)) :=
  Ok (inl (mkPcv (pos s) (n_ s) (m_ s) (end_ s) (u32 (i_ s + 1)) (j_ s) (pick s))).

(** [zero_pos: pos = 0] and the loop's [i++] *)
Definition zero_pos (s : pcv) : res (pcv + (Z * list Z)) :=
  next_turn (mkPcv 0 (n_ s) (m_ s) (end_ s) (i_ s) (j_ s) (pick s)).

(** The tail of the body: append [buf[i]] unless it is a tab or a repeated space. *)
(* src: os_dep/linux/ez_wifi_config.c:227-243 process_config_vars *)
Definition store (s : pcv) : res (pcv + (Z * list Z)) :=
  c <- rd buf (i_ s) ;;
  if c =? TAB then zero_pos (mkPcv (pos s) (n_ s) true (end_ s) (i_ s) (j_ s) (pick s))
  else
    dup <- (if j_ s =? 0 then Ok false
            else last <- rd (pick s) (j_ s - 1) ;; Ok ((last =? SPACE) && (c =? SPACE))) ;;
    if dup
    then zero_pos (mkPcv (pos s) (n_ s) true (end_ s) (i_ s) (j_ s) (pick s))
    else
      pick' <- wr (pick s) (j_ s) c ;;
      zero_pos (mkPcv (pos s) (n_ s) true (end_ s) (i_ s) (j_ s + 1) pick').

(** One turn of the [for] loop, its test included. *)
(* src: os_dep/linux/ez_wifi_config.c:176-244 process_config_vars *)
Definition scan_turn (s : pcv) : res (pcv + (Z * list Z)) :=
  if negb (i_ s <? len) then Ok (inr (j_ s, pick s)) else
  c <- rd buf (i_ s) ;;
  if c =? CR then next_turn s
  else if negb (Z.lor (Z.lor (pos s) (n_ s)) (Z.land (pos s) (n_ s)) =? 0) then
    if c =? LF then
      if negb (n_ s =? 0)
      then next_turn (mkPcv 0 0 (m_ s) (end_ s) (i_ s) (j_ s) (pick s))
      else next_turn (mkPcv (n_ s) (n_ s) (m_ s) 0 (i_ s) (j_ s) (pick s))
    else next_turn s
  else if c =? HASH then next_turn (mkPcv 1 0 (m_ s) (end_ s) (i_ s) (j_ s) (pick s))
  else if c =? BACKSLASH then zero_pos (mkPcv (pos s) 1 (m_ s) (end_ s) (i_ s) (j_ s) (pick s))
  else if c =? LF then zero_pos (mkPcv (pos s) 0 (m_ s) 0 (i_ s) (j_ s) (pick s))
  else
    eq <- memcmp_eq buf (i_ s) var ;;
    if (end_ s =? 0) && eq then
      store (mkPcv (pos s) (n_ s) (m_ s) (zlen var) (u32 (i_ s + zlen var)) 0 (pick s))
    else
      let skip := (end_ s =? 0) && m_ s in
      if skip then zero_pos (mkPcv (pos s) (n_ s) false 0 (i_ s) (j_ s) (pick s))
      else
        let s' := mkPcv (pos s) (n_ s) (m_ s) (end_ s + 1) (i_ s) (j_ s) (pick s) in
        if negb (m_ s) then zero_pos s' else store s'.

(** Returns the number of bytes copied and the output buffer. *)
(* src: os_dep/linux/ez_wifi_config.c:166-247 process_config_vars *)
Definition process_config_vars (out : list Z) : res (Z * list Z) :=
  loop scan_turn (Z.to_nat (len + 2)) (mkPcv 0 0 false 0 0 0 out).
End Scan.

(** ** Memory safety and termination *)

Section Safety.
  Context (buf : list Z) (len : Z) (var : list Z) (cap : Z).
  Context (Hlen : 0 <= len < zlen buf) (Hbuf : zlen buf <= 65536).
  Context (Hvar : 1 <= zlen var <= 64) (Hnul : ~ In 0 var).
  Context (Hterm : rd buf len = Ok 0) (Hcap : len <= cap).

Definition pcv_inv (s : pcv) : Prop :=
  0 <= i_ s <= len + 1 /\ 0 <= j_ s <= i_ s /\ j_ s <= len /\ zlen (pick s) = cap /\
  0 <= end_ s.

Lemma split_at_len i :
  0 <= i <= len ->
  exists a c, drop (Z.to_nat i) buf = a ++ 0 :: c /\ zlen a = len - i.
Proof.
  intros Hi. apply rd_Ok in Hterm as [_ Ht].
  exists (take (Z.to_nat (len - i)) (drop (Z.to_nat i) buf)),
         (drop (S (Z.to_nat (len - i))) (drop (Z.to_nat i) buf)).
  rewrite <- (drop_S _ 0).
  - rewrite take_drop. split; [done|]. unfold zlen in *.
    rewrite length_take, length_drop. lia.
  - rewrite lookup_drop. replace (Z.to_nat i + Z.to_nat (len - i))%nat with (Z.to_nat len) by lia.
    done.
Qed.

(** A match ends at [len] at the latest: the terminating NUL is not in the name. *)
Lemma memcmp_var i :
  0 <= i < len ->
  exists b, memcmp_eq buf i var = Ok b /\ (b = true -> i + zlen var <= len).
Proof.
  intros Hi. destruct (split_at_len i) as (a & c & E & Ha); [lia|].
  exists (is_prefix var a). unfold memcmp_eq. rewrite E, memcmp_l_sentinel by done.
  split; [done|]. intros H%is_prefix_length. unfold zlen in *. lia.
Qed.

Lemma store_inv s :
  0 <= i_ s <= len -> 0 <= j_ s <= i_ s -> j_ s < len -> zlen (pick s) = cap -> 0 <= end_ s ->
  exists s', store buf s = Ok (inl s') /\ pcv_inv s' /\ i_ s' = i_ s + 1.
Proof.
  intros Hi Hj Hjl Hp He. unfold store, zero_pos, next_turn, pcv_inv.
  destruct (rd_in buf (i_ s)) as [c Hc]; [lia|]. rewrite Hc. cbn [bind].
  destruct (c =? TAB).
  { eexists. split; [done|]. simpl. rewrite u32_small by lia. lia. }
  destruct (Z.eqb_spec (j_ s) 0) as [E|E]; cbn [bind].
  - rewrite wr_in by lia. cbn [bind]. eexists. split; [done|]. simpl.
    rewrite u32_small by lia. unfold zlen in *. rewrite length_insert. lia.
  - destruct (rd_in (pick s) (j_ s - 1)) as [l Hl]; [lia|]. rewrite Hl. cbn [bind].
    destruct ((l =? SPACE) && (c =? SPACE)).
    + eexists. split; [done|]. simpl. rewrite u32_small by lia. lia.
    + rewrite wr_in by lia. cbn [bind]. eexists. split; [done|]. simpl.
      rewrite u32_small by lia. unfold zlen in *. rewrite length_insert. lia.
Qed.

Definition turn_ok (i : Z) (r : res (pcv + (Z * list Z))) : Prop :=
  match r with
  | Ok (inl s') => pcv_inv s' /\ 0 <= len + 1 - i_ s' < len + 1 - i
  | Ok (inr (j, out)) => 0 <= j <= len /\ zlen out = cap
  | Fault _ => False
  end.

Lemma scan_turn_inv s : pcv_inv s -> turn_ok (i_ s) (scan_turn buf len var s).
Proof.
  intros (Hi & Hj & Hjl & Hp & He). unfold scan_turn.
  destruct (Z.ltb_spec (i_ s) len) as [Hlt|Hge]; cbn [negb]; [|simpl; lia].
  destruct (rd_in buf (i_ s)) as [c Hc]; [lia|]. rewrite Hc. cbn [bind].
  assert (Hu : u32 (i_ s + 1) = i_ s + 1) by (apply u32_small; lia).
  assert (Hnext : forall p n m e, 0 <= e ->
    turn_ok (i_ s) (next_turn (mkPcv p n m e (i_ s) (j_ s) (pick s)))).
  { intros. unfold turn_ok, next_turn, pcv_inv. cbn -[u32]. rewrite Hu. lia. }
  assert (Hself : turn_ok (i_ s) (next_turn s)) by (destruct s; apply Hnext; done).
  destruct (memcmp_var (i_ s)) as (b & -> & Hb); [lia|]. cbn [bind].
  unfold zero_pos. repeat match goal with
  | |- turn_ok _ (if ?b then _ else _) => destruct b eqn:?
  end; try done; try (apply Hnext; simpl; lia).
  - destruct (store_inv (mkPcv (pos s) (n_ s) (m_ s) (zlen var) (u32 (i_ s + zlen var)) 0 (pick s)))
      as (s' & -> & Hs' & Hi'); simpl; rewrite ?u32_small by lia; try lia.
    + destruct b; lia.
    + simpl in Hi'. rewrite u32_small in Hi' by lia. split; [done|].
      unfold pcv_inv in Hs'. lia.
  - destruct (store_inv (mkPcv (pos s) (n_ s) (m_ s) (end_ s + 1) (i_ s) (j_ s) (pick s)))
      as (s' & -> & Hs' & Hi'); simpl; try lia.
    simpl in Hi'. split; [done|]. unfold pcv_inv in Hs'. lia.
Qed.

Lemma process_config_vars_safe out :
  zlen out = cap ->
  exists j out', process_config_vars buf len var out = Ok (j, out') /\ 0 <= j <= len /\
                 zlen out' = cap.
Proof.
  intros Hout. unfold process_config_vars.
  refine (loop_spec (scan_turn buf len var) pcv_inv
            (fun r => exists j o, r = Ok (j, o) /\ 0 <= j <= len /\ zlen o = cap)
            (fun s => len + 1 - i_ s) _ _ _ _ _ _).
  - intros s Hs. pose proof (scan_turn_inv s Hs) as H. unfold turn_ok in H.
    destruct (scan_turn buf len var s) as [[s'|[j o]]|f]; [done| |done]. eauto.
  - unfold pcv_inv. simpl. lia.
  - simpl. lia.
  - simpl. lia.
Qed.
End Safety.

(** ** What is copied: the file as a list of lines *)

(** A byte the scanner treats as ordinary text. *)
Definition plain_char (c : Z) : bool :=
  negb (c =? CR) && negb (c =? LF) && negb (c =? HASH) && negb (c =? BACKSLASH).

Definition plain (l : list Z) : bool := forallb plain_char l.

(** A line whose first byte is [#]; its terminator is not part of it. *)
Definition comment (l : list Z) : bool :=
  match l with c :: t => (c =? HASH) && forallb (fun x => negb (x =? LF)) t | [] => false end.

(** A line that the scan for [var] leaves alone, wherever it stands. The tail
    matters because the first byte of the first non-empty line after a match is
    consumed before names are looked for again. *)
Definition other_line (var l : list Z) : bool :=
  comment l || (plain l && negb (is_prefix var l) && negb (is_prefix var (tail l))).

Fixpoint unlines (ls : list (list Z)) : list Z :=
  match ls with [] => [] | l :: ls' => l ++ LF :: unlines ls' end.

(** No tab, no two spaces in a row: a value that is copied as it stands. *)
Fixpoint tidy (last : Z) (v : list Z) : bool :=
  match v with
  | [] => true
  | c :: v' => plain_char c && negb (c =? TAB) &&
               negb ((last =? SPACE) && (c =? SPACE)) && tidy c v'
  end.

Section Lines.
  Context (buf : list Z) (len : Z) (var : list Z).
  Context (Hlen : 0 <= len <= zlen buf) (Hbuf : zlen buf <= 65536).
  Context (Hvar : 1 <= zlen var) (Hlf : ~ In LF var).

Abbreviation run := (turns (scan_turn buf len var)).

Lemma plain_char_spec c :
  plain_char c = true <-> c <> CR /\ c <> LF /\ c <> HASH /\ c <> BACKSLASH.
Proof. unfold plain_char, CR, LF, HASH, BACKSLASH. lia. Qed.

(** The turn at an ordinary byte, with the name comparison resolved. *)
Lemma scan_plain a l c r m e j out b :
  buf = a ++ (c :: l) ++ LF :: r -> zlen a < len -> plain_char c = true ->
  b = (e =? 0) && is_prefix var (c :: l) ->
  scan_turn buf len var (mkPcv 0 0 m e (zlen a) j out) =
    if b then store buf (mkPcv 0 0 m (zlen var) (u32 (zlen a + zlen var)) 0 out)
    else if (e =? 0) && m then Ok (inl (mkPcv 0 0 false 0 (zlen a + 1) j out))
    else if negb m then Ok (inl (mkPcv 0 0 m (e + 1) (zlen a + 1) j out))
    else store buf (mkPcv 0 0 m (e + 1) (zlen a) j out).
Proof.
  intros Hb Ha Hc ->. pose proof (zlen_nonneg a). unfold scan_turn.
  cbn [i_ pos n_ m_ end_ j_ pick]. rewrite (proj2 (Z.ltb_lt _ _)) by done. cbn [negb].
  assert (Hrd : rd buf (zlen a) = Ok c) by (rewrite Hb; apply rd_mid). rewrite Hrd.
  cbn [bind Z.lor Z.land Z.eqb negb]. apply plain_char_spec in Hc as (? & ? & ? & ?).
  rewrite (proj2 (Z.eqb_neq c CR)), (proj2 (Z.eqb_neq c HASH)),
    (proj2 (Z.eqb_neq c BACKSLASH)), (proj2 (Z.eqb_neq c LF)) by done.
  unfold memcmp_eq. rewrite Hb, drop_zlen_app, memcmp_l_sentinel by done. cbn [bind].
  destruct ((e =? 0) && is_prefix var (c :: l)); [done|].
  unfold zero_pos, next_turn. cbn [i_ pos n_ m_ end_ j_ pick].
  rewrite u32_small by lia. done.
Qed.

Lemma scan_lf a r m e j out :
  buf = a ++ LF :: r -> zlen a < len ->
  scan_turn buf len var (mkPcv 0 0 m e (zlen a) j out) =
    Ok (inl (mkPcv 0 0 m 0 (zlen a + 1) j out)).
Proof.
  intros Hb Ha. pose proof (zlen_nonneg a). unfold scan_turn.
  cbn [i_ pos n_ m_ end_ j_ pick]. rewrite (proj2 (Z.ltb_lt _ _)) by done. cbn [negb].
  rewrite Hb at 1. rewrite rd_mid.
  cbn [bind Z.lor Z.land Z.eqb negb]. unfold zero_pos, next_turn. cbn -[u32].
  rewrite u32_small by lia. done.
Qed.

(** The text of a line the scanner is past the start of. *)
Lemma run_rest l : forall a r e j out,
  buf = a ++ l ++ LF :: r -> zlen a + zlen l < len -> plain l = true -> 1 <= e ->
  run (mkPcv 0 0 false e (zlen a) j out) (length l)
      (mkPcv 0 0 false (e + zlen l) (zlen a + zlen l) j out).
Proof.
  induction l as [|c l IH]; intros a r e j out Hb Ha Hl He.
  - change (zlen (@nil Z)) with 0. rewrite !Z.add_0_r. constructor.
  - cbn [plain forallb] in Hl. apply andb_true_iff in Hl as [Hc Hl].
    rewrite zlen_cons in Ha |- *. pose proof (zlen_nonneg l).
    eapply turns_S.
    + rewrite (scan_plain a l c r false e j out false) by (done || lia).
      rewrite andb_false_r. cbn [negb]. done.
    + replace (zlen a + 1) with (zlen (a ++ [c])) by (rewrite zlen_app; done).
      replace (e + (1 + zlen l)) with (e + 1 + zlen l) by lia.
      replace (zlen a + (1 + zlen l)) with (zlen (a ++ [c]) + zlen l)
        by (rewrite zlen_app, zlen_cons, zlen_nil; lia).
      apply (IH (a ++ [c]) r); [|rewrite zlen_app, zlen_cons, zlen_nil; lia|done|lia].
      rewrite <- app_assoc. exact Hb.
Qed.

(** A whole plain line that does not start with the name, not capturing. *)
Lemma run_idle_line l a r j out :
  buf = a ++ l ++ LF :: r -> zlen a + zlen l < len -> plain l = true ->
  is_prefix var l = false ->
  run (mkPcv 0 0 false 0 (zlen a) j out) (length l + 1)
      (mkPcv 0 0 false 0 (zlen a + zlen l + 1) j out).
Proof.
  intros Hb Ha Hl Hp. destruct l as [|c l].
  - change (zlen (@nil Z)) with 0. rewrite Z.add_0_r. apply turns_one. apply (scan_lf a r); [done | zlia].
  - cbn [plain forallb] in Hl. apply andb_true_iff in Hl as [Hc Hl].
    rewrite zlen_cons in Ha |- *. pose proof (zlen_nonneg l). eapply turns_S.
    + rewrite (scan_plain a l c r false 0 j out false) by (done || lia || by rewrite Hp).
      cbn [Z.eqb andb negb]. done.
    + replace (zlen a + 1) with (zlen (a ++ [c])) by (rewrite zlen_app; done).
      assert (Hb' : buf = (a ++ [c]) ++ l ++ LF :: r) by (rewrite <- app_assoc; exact Hb).
      assert (Hz : zlen (a ++ [c]) = zlen a + 1) by (rewrite zlen_app; done).
      eapply turns_trans.
      * apply (run_rest l (a ++ [c]) r 1 j out Hb'); [lia | done | lia].
      * apply turns_one. rewrite (app_assoc (a ++ [c]) l (LF :: r)) in Hb'.
        replace (zlen (a ++ [c]) + zlen l) with (zlen ((a ++ [c]) ++ l)) by (rewrite zlen_app; lia).
        rewrite (scan_lf ((a ++ [c]) ++ l) r) by (done || rewrite zlen_app; lia).
        do 3 f_equal. rewrite !zlen_app, zlen_cons, zlen_nil. lia.
Qed.

(** The turn at a byte inside a comment. *)
Lemma scan_in_comment a c r m e j out :
  buf = a ++ c :: r -> zlen a < len ->
  scan_turn buf len var (mkPcv 1 0 m e (zlen a) j out) =
    Ok (inl (if c =? LF then mkPcv 0 0 m 0 (zlen a + 1) j out
             else mkPcv 1 0 m e (zlen a + 1) j out)).
Proof.
  intros Hb Ha. pose proof (zlen_nonneg a). unfold scan_turn.
  cbn [i_ pos n_ m_ end_ j_ pick]. rewrite (proj2 (Z.ltb_lt _ _)) by done. cbn [negb].
  rewrite Hb at 1. rewrite rd_mid. cbn [bind Z.lor Z.land Z.eqb negb].
  unfold next_turn. cbn [i_ pos n_ m_ end_ j_ pick]. rewrite u32_small by lia.
  destruct (Z.eqb_spec c CR) as [->|]; [done|]. destruct (c =? LF); done.
Qed.

Lemma run_comment_text l : forall a r m e j out,
  buf = a ++ l ++ LF :: r -> zlen a + zlen l < len ->
  forallb (fun x => negb (x =? LF)) l = true ->
  run (mkPcv 1 0 m e (zlen a) j out) (length l + 1)
      (mkPcv 0 0 m 0 (zlen a + zlen l + 1) j out).
Proof.
  induction l as [|c l IH]; intros a r m e j out Hb Ha Hl.
  - replace (zlen a + zlen [] + 1) with (zlen a + 1) by zlia. apply turns_one.
    rewrite (scan_in_comment a LF r) by (done || zlia). done.
  - cbn [forallb] in Hl. apply andb_true_iff in Hl as [Hc%negb_true_iff Hl].
    eapply turns_S.
    + rewrite (scan_in_comment a c (l ++ LF :: r)) by (done || zlia). rewrite Hc. done.
    + replace (zlen a + 1) with (zlen (a ++ [c])) by zlia.
      replace (zlen a + zlen (c :: l) + 1) with (zlen (a ++ [c]) + zlen l + 1) by zlia.
      apply (IH (a ++ [c]) r); [rewrite <- app_assoc; exact Hb | zlia | done].
Qed.

Lemma run_comment_line l a r m j out :
  buf = a ++ l ++ LF :: r -> zlen a + zlen l < len -> comment l = true ->
  run (mkPcv 0 0 m 0 (zlen a) j out) (length l + 1)
      (mkPcv 0 0 m 0 (zlen a + zlen l + 1) j out).
Proof.
  intros Hb Ha Hl. destruct l as [|c l]; [done|]. cbn [comment] in Hl.
  apply andb_true_iff in Hl as [->%Z.eqb_eq Hl]. pose proof (zlen_nonneg a).
  eapply turns_S.
  - unfold scan_turn. cbn [i_ pos n_ m_ end_ j_ pick].
    rewrite (proj2 (Z.ltb_lt _ _)) by zlia. cbn [negb].
    rewrite Hb at 1. cbn [app]. rewrite rd_mid. cbn [bind Z.lor Z.land Z.eqb negb].
    unfold next_turn. cbn -[u32]. rewrite u32_small by zlia. done.
  - replace (zlen a + 1) with (zlen (a ++ [HASH])) by zlia.
    replace (zlen a + zlen (HASH :: l) + 1) with (zlen (a ++ [HASH]) + zlen l + 1) by zlia.
    apply (run_comment_text l (a ++ [HASH]) r); [rewrite <- app_assoc; exact Hb | zlia | done].
Qed.

(** Lines before the match: the scanner is not capturing and stays so. *)
Lemma run_before ls : forall a r j out,
  buf = a ++ unlines ls ++ r -> zlen a + zlen (unlines ls) <= len ->
  Forall (fun l => other_line var l = true) ls ->
  run (mkPcv 0 0 false 0 (zlen a) j out) (length (unlines ls))
      (mkPcv 0 0 false 0 (zlen a + zlen (unlines ls)) j out).
Proof.
  induction ls as [|l ls IH]; intros a r j out Hb Ha Hls.
  - cbn [unlines] in *. replace (zlen a + zlen []) with (zlen a) by zlia. constructor.
  - inversion_clear Hls as [|? ? Hl Hls']. cbn [unlines] in *.
    assert (Hb' : buf = a ++ l ++ LF :: (unlines ls ++ r)) by (rewrite Hb, <- app_assoc; done).
    replace (length (l ++ LF :: unlines ls)) with ((length l + 1) + length (unlines ls))%nat
      by (rewrite length_app; cbn [length]; lia).
    eapply turns_trans.
    + instantiate (1 := mkPcv 0 0 false 0 (zlen a + zlen l + 1) j out).
      unfold other_line in Hl. apply orb_true_iff in Hl as [Hc|Hp].
      * apply (run_comment_line l a _ false j out Hb'); [zlia | done].
      * apply andb_true_iff in Hp as [[Hp Hx%negb_true_iff]%andb_true_iff _].
        apply (run_idle_line l a _ j out Hb'); [zlia | done | done].
    + replace (zlen a + zlen l + 1) with (zlen (a ++ l ++ [LF])) by zlia.
      replace (zlen a + zlen (l ++ LF :: unlines ls))
        with (zlen (a ++ l ++ [LF]) + zlen (unlines ls)) by zlia.
      apply (IH (a ++ l ++ [LF]) r); [|zlia|done].
      rewrite Hb'. rewrite <- !app_assoc. done.
Qed.

(** Lines after the match: the scanner drops out of capturing at the first byte of
    the first non-empty plain line. *)
Lemma run_after ls : forall a r m j out,
  buf = a ++ unlines ls ++ r -> zlen a + zlen (unlines ls) <= len ->
  Forall (fun l => other_line var l = true) ls ->
  exists m', run (mkPcv 0 0 m 0 (zlen a) j out) (length (unlines ls))
                 (mkPcv 0 0 m' 0 (zlen a + zlen (unlines ls)) j out).
Proof.
  induction ls as [|l ls IH]; intros a r m j out Hb Ha Hls.
  - exists m. cbn [unlines] in *. replace (zlen a + zlen []) with (zlen a) by zlia. constructor.
  - inversion_clear Hls as [|? ? Hl Hls']. cbn [unlines] in *.
    assert (Hb' : buf = a ++ l ++ LF :: (unlines ls ++ r)) by (rewrite Hb, <- app_assoc; done).
    assert (Hline : exists m1, run (mkPcv 0 0 m 0 (zlen a) j out) (length l + 1)
                                   (mkPcv 0 0 m1 0 (zlen a + zlen l + 1) j out)).
    { unfold other_line in Hl. apply orb_true_iff in Hl as [Hc|Hp].
      - exists m. apply (run_comment_line l a _ m j out Hb'); [zlia | done].
      - apply andb_true_iff in Hp as [[Hp Hx%negb_true_iff]%andb_true_iff Ht%negb_true_iff].
        destruct m; [|exists false; apply (run_idle_line l a _ j out Hb'); [zlia | done | done]].
        destruct l as [|c l].
        + exists true. replace (zlen a + zlen [] + 1) with (zlen a + 1) by zlia.
          apply turns_one. apply (scan_lf a (unlines ls ++ r)); [done | zlia].
        + exists false. cbn [plain forallb] in Hp. apply andb_true_iff in Hp as [Hc Hp].
          eapply turns_S.
          * rewrite (scan_plain a l c _ true 0 j out false Hb') by (done || zlia || by rewrite Hx).
            cbn [Z.eqb andb negb]. done.
          * replace (zlen a + 1) with (zlen (a ++ [c])) by zlia.
            replace (zlen a + zlen (c :: l) + 1) with (zlen (a ++ [c]) + zlen l + 1) by zlia.
            apply (run_idle_line l (a ++ [c]) (unlines ls ++ r));
              [rewrite <- app_assoc; exact Hb' | zlia | done | exact Ht]. }
    destruct Hline as [m1 H1].
    destruct (IH (a ++ l ++ [LF]) r m1 j out) as [m2 H2]; [|zlia|done|].
    { rewrite Hb'. rewrite <- !app_assoc. done. }
    exists m2.
    replace (length (l ++ LF :: unlines ls)) with ((length l + 1) + length (unlines ls))%nat
      by (rewrite length_app; cbn [length]; lia).
    eapply turns_trans; [exact H1|].
    replace (zlen a + zlen l + 1) with (zlen (a ++ l ++ [LF])) by zlia.
    replace (zlen a + zlen (l ++ LF :: unlines ls))
      with (zlen (a ++ l ++ [LF]) + zlen (unlines ls)) by zlia.
    exact H2.
Qed.

(** Appending to the output buffer. *)
Lemma store_append a c r m e st x o :
  buf = a ++ c :: r -> zlen a < len -> c <> TAB ->
  (forall st' l, st = st' ++ [l] -> ((l =? SPACE) && (c =? SPACE)) = false) ->
  store buf (mkPcv 0 0 m e (zlen a) (zlen st) (st ++ x :: o)) =
    Ok (inl (mkPcv 0 0 true e (zlen a + 1) (zlen st + 1) ((st ++ [c]) ++ o))).
Proof.
  intros Hb Ha Hc Hst. pose proof (zlen_nonneg a). unfold store.
  cbn [i_ pos n_ m_ end_ j_ pick]. rewrite Hb at 1. rewrite rd_mid. cbn [bind].
  rewrite (proj2 (Z.eqb_neq c TAB)) by done.
  assert (Hdup : (if zlen st =? 0 then Ok false
    else last <- rd (st ++ x :: o) (zlen st - 1) ;; Ok ((last =? SPACE) && (c =? SPACE)))
    = Ok false).
  { destruct (Z.eqb_spec (zlen st) 0) as [E|E]; [done|].
    destruct st as [|l st' _] using rev_ind; [done|].
    rewrite <- app_assoc. replace (zlen (st' ++ [l]) - 1) with (zlen st') by zlia.
    cbn [app]. rewrite rd_mid. cbn [bind]. f_equal. exact (Hst st' l eq_refl). }
  rewrite Hdup. cbn [bind]. rewrite wr_in by zlia. cbn [bind].
  replace (Z.to_nat (zlen st)) with (length st + 0)%nat by zlia.
  rewrite insert_app_r. cbn [insert list_insert].
  unfold zero_pos, next_turn. cbn [i_ pos n_ m_ end_ j_ pick].
  rewrite u32_small by zlia. rewrite <- app_assoc. done.
Qed.

Lemma run_value v : forall a r e st l o,
  buf = a ++ v ++ LF :: r -> zlen a + zlen v < len -> tidy l v = true -> 1 <= e ->
  (length v <= length o)%nat ->
  run (mkPcv 0 0 true e (zlen a) (zlen (st ++ [l])) ((st ++ [l]) ++ o)) (length v)
      (mkPcv 0 0 true (e + zlen v) (zlen a + zlen v) (zlen ((st ++ [l]) ++ v))
             (((st ++ [l]) ++ v) ++ drop (length v) o)).
Proof.
  induction v as [|c v IH]; intros a r e st l o Hb Ha Hv He Ho.
  - replace (e + zlen []) with e by zlia. replace (zlen a + zlen []) with (zlen a) by zlia.
    rewrite app_nil_r. constructor.
  - cbn [tidy] in Hv. apply andb_true_iff in Hv as [[[Hc Ht]%andb_true_iff Hd]%andb_true_iff Hv].
    destruct o as [|x o]; [simpl in Ho; lia|].
    eapply turns_S.
    + rewrite (scan_plain a v c r true e _ _ false) by (done || zlia).
      replace ((e =? 0) && true) with false by lia. cbn [negb].
      rewrite (store_append a c (v ++ LF :: r)); [done|done|zlia| |].
      * apply negb_true_iff, Z.eqb_neq in Ht. done.
      * intros st' l' Hst. apply app_inj_tail in Hst as [_ <-]. apply negb_true_iff. done.
    + replace (zlen a + 1) with (zlen (a ++ [c])) by zlia.
      replace (zlen (st ++ [l]) + 1) with (zlen ((st ++ [l]) ++ [c])) by zlia.
      replace (e + zlen (c :: v)) with (e + 1 + zlen v) by zlia.
      replace (zlen a + zlen (c :: v)) with (zlen (a ++ [c]) + zlen v) by zlia.
      replace ((st ++ [l]) ++ c :: v) with (((st ++ [l]) ++ [c]) ++ v)
        by (rewrite <- app_assoc; done).
      cbn [length drop].
      apply (IH (a ++ [c]) r); [rewrite <- app_assoc; exact Hb | zlia | done | lia |].
      simpl in Ho. lia.
Qed.

(** The turn at the name: its value's first byte is stored. *)
Lemma scan_match a v1 r m j x o :
  buf = a ++ var ++ v1 :: r -> zlen a + zlen var < len -> forallb plain_char var = true ->
  plain_char v1 = true -> v1 <> TAB ->
  (exists l r', var ++ v1 :: r = l ++ LF :: r' /\ is_prefix var l = true) ->
  scan_turn buf len var (mkPcv 0 0 m 0 (zlen a) j (x :: o)) =
    Ok (inl (mkPcv 0 0 true (zlen var) (zlen (a ++ var) + 1) 1 (v1 :: o))).
Proof.
  intros Hb Ha Hvp Hv1 Htab (l & r' & Hl & Hp).
  assert (exists c0 vt, var = c0 :: vt) as (c0 & vt & Ev).
  { clear -Hvar. destruct var as [|c0 vt]; [unfold zlen in Hvar; simpl in Hvar; lia | eauto]. }
  destruct l as [|c l]; [rewrite Ev in Hp; done|].
  rewrite Ev in Hl, Hvp. injection Hl as <- Hl.
  cbn [forallb] in Hvp. apply andb_true_iff in Hvp as [Hc0 _].
  pose proof (zlen_nonneg a).
  rewrite (scan_plain a l c0 r' m 0 j (x :: o) true).
  - rewrite u32_small by zlia. replace (zlen a + zlen var) with (zlen (a ++ var)) by zlia.
    assert (Hb' : buf = (a ++ var) ++ v1 :: r) by (rewrite <- app_assoc; exact Hb).
    apply (store_append (a ++ var) v1 r m (zlen var) [] x o Hb'); [zlia | done |].
    intros st' l0 Hst. destruct st'; discriminate.
  - rewrite Hb, Ev. cbn [app]. rewrite Hl. done.
  - zlia.
  - done.
  - rewrite Hp. done.
Qed.
End Lines.


(** A configuration file that sets [var] to [v] once, among other lines. *)
Definition config_text (var v : list Z) (pre post : list (list Z)) : list Z :=
  unlines pre ++ var ++ v ++ LF :: unlines post.

Record config_ok (var v : list Z) (pre post : list (list Z)) (tl out : list Z) : Prop := {
  co_small : zlen (config_text var v pre post ++ 0 :: tl) <= 65536;
  co_var : forallb plain_char var = true /\ 1 <= zlen var;
  co_value : tidy 0 v = true /\ 1 <= zlen v;
  co_pre : Forall (fun l => other_line var l = true) pre;
  co_post : Forall (fun l => other_line var l = true) post;
  co_out : zlen v <= zlen out;
}.

Lemma plain_no_lf l : forallb plain_char l = true -> ~ In LF l.
Proof.
  rewrite List.forallb_forall. intros H Hin. apply H, plain_char_spec in Hin. tauto.
Qed.

Lemma unlines_app a b : unlines (a ++ b) = unlines a ++ unlines b.
Proof. induction a as [|l a IH]; simpl; [done|]. rewrite IH, <- app_assoc. done. Qed.

(** From the match to the end of the value's line. *)
Lemma run_captured buf len var v a r m j out :
  0 <= len <= zlen buf -> zlen buf <= 65536 -> 1 <= zlen var -> 1 <= zlen v ->
  buf = a ++ var ++ v ++ LF :: r -> zlen a + zlen var + zlen v < len ->
  forallb plain_char var = true -> tidy 0 v = true -> zlen v <= zlen out ->
  exists k, turns (scan_turn buf len var) (mkPcv 0 0 m 0 (zlen a) j out) k
              (mkPcv 0 0 true 0 (zlen a + zlen var + zlen v + 1) (zlen v)
                     (v ++ drop (length v) out)) /\ (k <= length v + 1)%nat.
Proof.
  intros Hlen Hbuf Hvar Hv1 Hb Ha Hvp Hv Hout. assert (Hlf := plain_no_lf var Hvp).
  destruct v as [|c v]; [zlia|]. destruct out as [|x o]; [zlia|].
  cbn [tidy] in Hv. apply andb_true_iff in Hv as [[[Hc Ht]%andb_true_iff _]%andb_true_iff Hv].
  exists (1 + (length v + 1))%nat. split; [|simpl; lia].
  assert (Hb1 : buf = (a ++ var ++ [c]) ++ v ++ LF :: r) by (rewrite Hb, <- !app_assoc; done).
  assert (Hb2 : buf = (a ++ var ++ c :: v) ++ LF :: r) by (rewrite Hb, <- !app_assoc; done).
  eapply turns_trans; [apply turns_one|eapply turns_trans; [|apply turns_one]].
  - apply (scan_match buf len var Hlen Hbuf Hvar Hlf a c (v ++ LF :: r) m j x o).
    + exact Hb.
    + zlia.
    + exact Hvp.
    + exact Hc.
    + apply negb_true_iff, Z.eqb_neq in Ht. exact Ht.
    + exists (var ++ c :: v), r. split; [rewrite <- app_assoc; done | apply is_prefix_app].
  - replace (zlen (a ++ var) + 1) with (zlen (a ++ var ++ [c])) by zlia.
    change 1 with (zlen ([] ++ [c])). change (c :: o) with (([] ++ [c]) ++ o).
    apply (run_value buf len var Hlen Hbuf Hlf v (a ++ var ++ [c]) r _ [] c o Hb1).
    + zlia.
    + exact Hv.
    + exact Hvar.
    + zlia.
  - replace (zlen (a ++ var ++ [c]) + zlen v) with (zlen (a ++ var ++ c :: v)) by zlia.
    rewrite (scan_lf buf len var Hlen Hbuf _ r) by (exact Hb2 || zlia).
    do 3 f_equal; [zlia].
Qed.

(** A run of turns that consumes the text ends the call. *)
Lemma process_of_turns buf len var out k s :
  0 <= len ->
  turns (scan_turn buf len var) (mkPcv 0 0 false 0 0 0 out) k s ->
  (k <= Z.to_nat len)%nat -> len <= i_ s ->
  process_config_vars buf len var out = Ok (j_ s, pick s).
Proof.
  intros Hlen Ht Hk Hi. unfold process_config_vars.
  replace (Z.to_nat (len + 2)) with (k + S (Z.to_nat len + 1 - k))%nat by lia.
  rewrite (loop_turns _ _ _ _ Ht). cbn [loop]. unfold scan_turn.
  rewrite (proj2 (Z.ltb_ge _ _)) by done. done.
Qed.

(** ** Properties *)

Lemma process_config_vars_found var v pre post tl out :
  config_ok var v pre post tl out ->
  process_config_vars (config_text var v pre post ++ 0 :: tl)
                      (zlen (config_text var v pre post)) var out
  = Ok (zlen v, v ++ drop (length v) out).
Proof.
  intros Hok.
  destruct Hok as [Hs [Hvp Hvar] [Hv Hv1] Hpre Hpost Hout].
  set (buf := config_text var v pre post ++ 0 :: tl) in *.
  set (len := zlen (config_text var v pre post)).
  assert (Hlf := plain_no_lf var Hvp).
  assert (Hlen : 0 <= len <= zlen buf) by (unfold len, buf; zlia).
  assert (Hl : len = zlen (unlines pre) + zlen var + zlen v + 1 + zlen (unlines post))
    by (unfold len, config_text; zlia).
  assert (Hb : buf = unlines pre ++ var ++ v ++ LF :: (unlines post ++ 0 :: tl))
    by (unfold buf, config_text; rewrite <- !app_assoc; done).
  pose proof (zlen_nonneg (unlines pre)). pose proof (zlen_nonneg (unlines post)).
  pose proof (run_before buf len var Hlen Hs Hlf pre []
                (var ++ v ++ LF :: (unlines post ++ 0 :: tl)) 0 out Hb
                ltac:(zlia) Hpre) as H1.
  destruct (run_captured buf len var v (unlines pre) (unlines post ++ 0 :: tl) false 0 out)
    as (k & H2 & Hk); try done; [lia|].
  destruct (run_after buf len var Hlen Hs Hlf post (unlines pre ++ var ++ v ++ [LF])
              (0 :: tl) true (zlen v) (v ++ drop (length v) out)) as [m' H3];
    [rewrite Hb, <- !app_assoc; done | zlia | done |].
  replace (zlen (unlines pre ++ var ++ v ++ [LF]))
    with (zlen (unlines pre) + zlen var + zlen v + 1) in H3 by zlia.
  apply (process_of_turns buf len var out _ (mkPcv 0 0 m' 0 _ (zlen v) (v ++ drop (length v) out))
           (proj1 Hlen) (turns_trans _ _ _ _ _ _ H1 (turns_trans _ _ _ _ _ _ H2 H3))).
  - clear -Hl Hk. unfold zlen in *. lia.
  - simpl i_. lia.
Qed.

(** A configuration file that sets the variable once, amid comments, blank lines and
    lines for other variables, yields exactly that value: its length is returned and
    its bytes are the start of the output buffer, whose other bytes are untouched. *)
Theorem config_value_found var v pre post tl out (Hok : config_ok var v pre post tl out) :
  process_config_vars (config_text var v pre post ++ 0 :: tl)
                      (zlen (config_text var v pre post)) var out
  = Ok (zlen v, v ++ drop (length v) out).
Proof. apply process_config_vars_found. done. Qed.

Lemma config_value_found_witness :
  process_config_vars
    (config_text (bytes_of "ccode=") (bytes_of "DE") [bytes_of "# camera"; bytes_of "fps=25"] [[]; bytes_of "mac=1"]
       ++ 0 :: zeros 8)
    (zlen (config_text (bytes_of "ccode=") (bytes_of "DE") [bytes_of "# camera"; bytes_of "fps=25"] [[]; bytes_of "mac=1"]))
    (bytes_of "ccode=") (zeros 16) = Ok (2, bytes_of "DE" ++ zeros 14).
Proof.
  apply (config_value_found (bytes_of "ccode=") (bytes_of "DE")
           [bytes_of "# camera"; bytes_of "fps=25"] [[]; bytes_of "mac=1"] (zeros 8) (zeros 16)).
  split; try (vm_compute; repeat constructor; discriminate).
Defined.

(** A file without the variable yields length 0 and leaves the output buffer as it
    was. *)
Theorem config_value_missing var ls tl out
    (Hs : zlen (unlines ls ++ 0 :: tl) <= 65536)
    (Hvp : forallb plain_char var = true) (Hvar : 1 <= zlen var)
    (Hls : Forall (fun l => other_line var l = true) ls) :
  process_config_vars (unlines ls ++ 0 :: tl) (zlen (unlines ls)) var out = Ok (0, out).
Proof.
  assert (Hlf := plain_no_lf var Hvp). pose proof (zlen_nonneg (unlines ls)).
  pose proof (run_before (unlines ls ++ 0 :: tl) (zlen (unlines ls)) var ltac:(zlia) Hs Hlf
                ls [] (0 :: tl) 0 out eq_refl ltac:(zlia) Hls) as H1.
  apply (process_of_turns _ _ var out _ _ H H1); [clear; unfold zlen; lia | simpl; zlia].
Qed.

Lemma config_value_missing_witness :
  process_config_vars (unlines [bytes_of "fps=25"] ++ 0 :: []) (zlen (unlines [bytes_of "fps=25"]))
    (bytes_of "ccode=") (zeros 4) = Ok (0, zeros 4).
Proof.
  apply config_value_missing; try (vm_compute; repeat constructor; discriminate).
Defined.

(** Scanning any NUL-terminated text of at most the output buffer's length returns,
    reads and writes only inside the two buffers, and copies at most as many bytes
    as the text has. *)
Theorem config_scan_is_safe buf len var out
    (Hlen : 0 <= len < zlen buf) (Hbuf : zlen buf <= 65536)
    (Hvar : 1 <= zlen var <= 64) (Hnul : ~ In 0 var)
    (Hterm : rd buf len = Ok 0) (Hcap : len <= zlen out) :
  exists j out', process_config_vars buf len var out = Ok (j, out') /\ 0 <= j <= len /\
                 zlen out' = zlen out.
Proof. apply (process_config_vars_safe buf len var (zlen out)); done. Qed.

Lemma config_scan_is_safe_witness :
  exists j out', process_config_vars (bytes_of "a\b=1" ++ [0]) 5 (bytes_of "b=") (zeros 5) = Ok (j, out')
    /\ 0 <= j <= 5 /\ zlen out' = 5.
Proof.
  apply (config_scan_is_safe (bytes_of "a\b=1" ++ [0]) 5 (bytes_of "b=") (zeros 5));
    [vm_compute; split; congruence | vm_compute; discriminate | vm_compute; split; congruence
    | vm_compute; intuition discriminate | reflexivity | vm_compute; discriminate].
Defined.

(** The driver's sizes: a 4096-byte file buffer and a 1024-byte value buffer. *)
(* src: os_dep/linux/ez_wifi_config.c:33-34 EZ_CONFIG_BUF_SIZE EZ_PICK_BUF_SIZE *)
Definition EZ_CONFIG_BUF_SIZE := 4096.
Definition EZ_PICK_BUF_SIZE := 1024.

Definition long_value_file : list Z := bytes_of "ccode=" ++ replicate 1025 65.

(** A configuration line whose value is longer than the value buffer makes the
    scanner write past the end of that buffer: nothing bounds [j]. *)
Theorem config_value_overflow :
  process_config_vars (long_value_file ++ zeros (Z.to_nat (EZ_CONFIG_BUF_SIZE - zlen long_value_file)))
    (zlen long_value_file) (bytes_of "ccode=") (zeros (Z.to_nat EZ_PICK_BUF_SIZE)) = Fault OobWrite.
Proof. vm_compute. reflexivity. Qed.
