(* ===== verification/EzCountry.v ===== *)
(** * Country codes and the channel plan

    Models the country tables of [os_dep/linux/ez_wifi_config.c], the
    [woal_is_*_country] lookups and [ez_set_country], which chooses the module
    parameter [rtw_channel_plan]. The messages the lookups print are left out. *)
From Stdlib Require Import ZArith Lia Bool String.
From stdpp Require Import base option list numbers.
From S2P Require Import Prelude.
Local Open Scope Z_scope.

(** A C string literal "AA\0BB\0CC": each code and its terminating NUL. *)
Definition ctable (codes : list string) : list Z :=
  List.flat_map (fun s => bytes_of s ++ [0]) codes.

(* src: os_dep/linux/ez_wifi_config.c:48-49 us_country_code_table *)
Definition us_country_code_table : list Z := ctable ([
  "US"; "CA"; "MX"; "TW"; "VI"; "DO"; "GT" ]%string).

(* src: os_dep/linux/ez_wifi_config.c:51-53 br_country_code_table *)
Definition br_country_code_table : list Z := ctable ([
  "BR"; "CO"; "BB"; "CR"; "EC"; "UY"; "BM"; "DM"; "GY"; "HT"; "TT"; "NI"; "HN"; "PA"; "VE"; "PY";
  "BS"; "FM"; "GD"; "JM"; "PW"; "SV"; "VU"; "CL"; "AR"; "IN"; "PK" ]%string).

(* src: os_dep/linux/ez_wifi_config.c:55-62 etsi_country_code_table *)
Definition etsi_country_code_table : list Z := ctable ([
  "AT"; "BE"; "BG"; "CY"; "CZ"; "DE"; "DK"; "EE"; "ES"; "FI"; "FR"; "GB"; "GR"; "HR"; "HU"; "IE";
  "IT"; "LU"; "MT"; "NL"; "PL"; "PT"; "RO"; "SE"; "SI"; "SK"; "TR"; "LV"; "LT"; "KW"; "KZ"; "LB";
  "AD"; "AM"; "AZ"; "BD"; "GE"; "HK"; "KG"; "LK"; "MD"; "MN"; "MP"; "MR"; "NA"; "PG"; "TD"; "TJ";
  "TM"; "UZ"; "ZW"; "IR"; "OM"; "SG"; "TH"; "VN"; "ZA"; "JO"; "BY"; "RU"; "IL"; "SA"; "IQ"; "AG";
  "AL"; "AO"; "BA"; "BJ"; "BZ"; "CH"; "CM"; "CV"; "FJ"; "GA"; "IS"; "KH"; "KI"; "KN"; "LA"; "LC";
  "LI"; "LY"; "MC"; "MK"; "ML"; "MO"; "MV"; "MZ"; "NO"; "NP"; "RS"; "SC"; "SM"; "SN"; "SZ"; "TG";
  "TN"; "TZ"; "UG"; "VA"; "VC"; "WS"; "YE"; "ZM"; "AU"; "MY"; "PH"; "ID"; "AE"; "KR"; "NZ"; "KE";
  "LS"; "EG"; "UA"; "MA"; "QA"; "EU" ]%string).

(* src: os_dep/linux/ez_wifi_config.c:64-67 eu_country_code_table *)
Definition eu_country_code_table : list Z := ctable ([
  "AT"; "BE"; "BG"; "CY"; "CZ"; "DE"; "DK"; "EE"; "ES"; "FI"; "FR"; "GB"; "GR"; "HR"; "HU"; "IE";
  "IT"; "LU"; "MT"; "NL"; "PL"; "PT"; "RO"; "SE"; "SI"; "SK"; "TR"; "LV"; "LT"; "EU"; "NO"; "AD";
  "CH"; "IS"; "MC"; "MK" ]%string).

(* src: os_dep/linux/ez_wifi_config.c:69-74 apec_country_code_table *)
Definition apec_country_code_table : list Z := ctable ([
  "KW"; "KZ"; "LB"; "AD"; "AM"; "AZ"; "BD"; "GE"; "HK"; "KG"; "LK"; "MD"; "MN"; "MP"; "MR"; "NA";
  "PG"; "TD"; "TJ"; "TM"; "UZ"; "ZW"; "IR"; "OM"; "SG"; "TH"; "VN"; "ZA"; "JO"; "BY"; "RU"; "IL";
  "SA"; "IQ"; "AG"; "AL"; "AO"; "BA"; "BJ"; "BZ"; "CH"; "CM"; "CV"; "FJ"; "GA"; "IS"; "KH"; "KI";
  "KN"; "LA"; "LC"; "LI"; "LY"; "MC"; "MK"; "ML"; "MO"; "MV"; "MZ"; "NO"; "NP"; "RS"; "SC"; "SM";
  "SN"; "SZ"; "TG"; "TN"; "TZ"; "UG"; "VA"; "VC"; "WS"; "YE"; "ZM"; "AU"; "MY"; "PH"; "ID"; "AE";
  "KR" ]%string).

(* src: os_dep/linux/ez_wifi_config.c:76-77 jp_country_code_table *)
Definition jp_country_code_table : list Z := ctable ([
  "JP" ]%string).

(* src: os_dep/linux/ez_wifi_config.c:79-82 other_country_code_table *)
Definition other_country_code_table : list Z := ctable ([
  "CN"; "AF"; "BF"; "BH"; "BI"; "BN"; "BO"; "BT"; "BW"; "CD"; "CF"; "CG"; "CI"; "CK"; "CU"; "DJ";
  "DZ"; "ER"; "ET"; "GH"; "GM"; "GN"; "GQ"; "GW"; "KM"; "KP"; "LR"; "MG"; "MH"; "MM"; "MU"; "NE";
  "NG"; "NR"; "NU"; "PS"; "RW"; "SB"; "SD"; "SL"; "SO"; "ST"; "SY"; "TO"; "TP"; "TV" ]%string).

(** The loop the seven [woal_is_*_country] functions share: the table in steps of
    three, [memcmp] of two bytes. The index is [int] and the bound [sizeof]. *)
Definition woal_turn (tbl cc : list Z) (i : Z) : res (Z + bool) :=
  if negb (i <? zlen tbl) then Ok (inr false)
  else
    entry <- rdn tbl i 2 ;;
    eq <- memcmp_l cc entry ;;
    if eq then Ok (inr true) else Ok (inl (i + 3)).

Definition woal_is_country (tbl cc : list Z) : res bool :=
  loop (woal_turn tbl cc) (S (List.length tbl)) 0.

(* src: os_dep/linux/ez_wifi_config.c:282-294 woal_is_us_country *)
Definition woal_is_us_country := woal_is_country us_country_code_table.
(* src: os_dep/linux/ez_wifi_config.c:296-308 woal_is_br_country *)
Definition woal_is_br_country := woal_is_country br_country_code_table.
(* src: os_dep/linux/ez_wifi_config.c:310-322 woal_is_etsi_country *)
Definition woal_is_etsi_country := woal_is_country etsi_country_code_table.
(* src: os_dep/linux/ez_wifi_config.c:324-336 woal_is_eu_country *)
Definition woal_is_eu_country := woal_is_country eu_country_code_table.
(* src: os_dep/linux/ez_wifi_config.c:338-350 woal_is_apec_country *)
Definition woal_is_apec_country := woal_is_country apec_country_code_table.
(* src: os_dep/linux/ez_wifi_config.c:352-364 woal_is_jp_country *)
Definition woal_is_jp_country := woal_is_country jp_country_code_table.
(* src: os_dep/linux/ez_wifi_config.c:366-378 woal_is_other_country *)
Definition woal_is_other_country := woal_is_country other_country_code_table.

(** The new value of [rtw_channel_plan]; [None] is the NULL pointer. *)
(* src: os_dep/linux/ez_wifi_config.c:380-404 ez_set_country *)
Definition ez_set_country (country_code : option (list Z)) (rtw_channel_plan : Z) : res Z :=
  match country_code with
  | None => Ok rtw_channel_plan
  | Some cc =>
      us <- woal_is_us_country cc ;;
      if us then Ok 0x43
      else
        eu <- woal_is_eu_country cc ;;
        if eu then Ok 0x42
        else
          jp <- woal_is_jp_country cc ;;
          if jp then Ok 0x37 else Ok 0x62
  end.

(** ** Lookup *)

(** The codes of a table, as pairs of bytes. *)
Fixpoint entries (tbl : list Z) : list (Z * Z) :=
  match tbl with
  | a :: b :: _ :: tbl' => (a, b) :: entries tbl'
  | _ => []
  end.

Definition in_table (a b : Z) (tbl : list Z) : bool :=
  List.existsb (fun e => (a =? fst e) && (b =? snd e)) (entries tbl).

(** Whole entries of three bytes. *)
Fixpoint whole (tbl : list Z) : bool :=
  match tbl with
  | [] => true
  | _ :: _ :: _ :: tbl' => whole tbl'
  | _ => false
  end.

Lemma woal_loop a b rest tbl : forall pre fuel,
  whole tbl = true -> (List.length tbl < fuel)%nat ->
  loop (woal_turn (pre ++ tbl) (a :: b :: rest)) fuel (zlen pre) = Ok (in_table a b tbl).
Proof.
  remember (List.length tbl) as n eqn:Hn. assert (Hle : (List.length tbl <= n)%nat) by lia.
  clear Hn. revert tbl Hle. induction n as [n IH] using lt_wf_ind.
  intros tbl Hle pre fuel Hw Hf. destruct fuel as [|fuel]; [lia|]. cbn [loop].
  destruct tbl as [|x [|y [|z t]]]; try done.
  - unfold woal_turn. rewrite app_nil_r, (proj2 (Z.ltb_ge _ _)) by lia. done.
  - unfold woal_turn at 1. rewrite (proj2 (Z.ltb_lt _ _)) by zlia. cbn [negb].
    replace (pre ++ x :: y :: z :: t) with (pre ++ [x; y] ++ (z :: t)) by done.
    change 2 with (zlen [x; y]) at 1. rewrite rdn_app. cbn [bind memcmp_l].
    unfold in_table. cbn [entries List.existsb fst snd].
    destruct (a =? x); cbn [andb orb].
    + destruct (b =? y); cbn [bind]; [done|].
      replace (zlen pre + 3) with (zlen (pre ++ [x; y; z])) by zlia.
      replace (pre ++ [x; y] ++ z :: t) with ((pre ++ [x; y; z]) ++ t) by (rewrite <- app_assoc; done).
      apply (IH (List.length t)); simpl in *; [lia | lia | done | lia].
    + cbn [bind]. replace (zlen pre + 3) with (zlen (pre ++ [x; y; z])) by zlia.
      replace (pre ++ [x; y] ++ z :: t) with ((pre ++ [x; y; z]) ++ t) by (rewrite <- app_assoc; done).
      apply (IH (List.length t)); simpl in *; [lia | lia | done | lia].
Qed.

Lemma woal_is_country_spec a b rest tbl :
  whole tbl = true -> woal_is_country tbl (a :: b :: rest) = Ok (in_table a b tbl).
Proof. intros H. apply (woal_loop a b rest tbl []); [done | lia]. Qed.

(** The plan a two-letter code selects. *)
Definition plan_of (a b : Z) : Z :=
  if in_table a b us_country_code_table then 0x43
  else if in_table a b eu_country_code_table then 0x42
  else if in_table a b jp_country_code_table then 0x37
  else 0x62.

Lemma ez_set_country_plan a b rest plan :
  ez_set_country (Some (a :: b :: rest)) plan = Ok (plan_of a b).
Proof.
  unfold ez_set_country, plan_of, woal_is_us_country, woal_is_eu_country, woal_is_jp_country.
  rewrite !woal_is_country_spec by (vm_compute; reflexivity). cbn [bind].
  destruct (in_table a b us_country_code_table); [done|].
  destruct (in_table a b eu_country_code_table); [done|].
  destruct (in_table a b jp_country_code_table); done.
Qed.

(** ** Properties *)

Definition disjoint (t1 t2 : list Z) : bool :=
  forallb (fun e => negb (in_table (fst e) (snd e) t2)) (entries t1).

(** Selecting a country reads only the first two bytes of the code, never leaves the
    tables, and gives plan 0x43, 0x42 or 0x37 to the codes of the US, EU and JP
    tables and 0x62 to every other; the three tables share no code, so the order of
    the tests does not matter; a NULL code changes nothing. *)
Theorem set_country_selects_plan a b rest plan :
  ez_set_country (Some (a :: b :: rest)) plan = Ok (plan_of a b) /\
  ez_set_country None plan = Ok plan /\
  (in_table a b us_country_code_table = true <-> plan_of a b = 0x43) /\
  (in_table a b eu_country_code_table = true <-> plan_of a b = 0x42) /\
  (in_table a b jp_country_code_table = true <-> plan_of a b = 0x37) /\
  (plan_of a b = 0x62 <->
     woal_is_us_country (a :: b :: rest) = Ok false /\
     woal_is_eu_country (a :: b :: rest) = Ok false /\
     woal_is_jp_country (a :: b :: rest) = Ok false).
Proof.
  assert (D : forall t1 t2, disjoint t1 t2 = true ->
    in_table a b t1 = true -> in_table a b t2 = true -> False).
  { intros t1 t2 Hd H1 H2. unfold disjoint in Hd. rewrite List.forallb_forall in Hd.
    unfold in_table in H1. apply List.existsb_exists in H1 as ([x y] & Hin & Heq).
    apply Hd in Hin. simpl in *. assert (x = a /\ y = b) as [-> ->] by lia.
    rewrite H2 in Hin. discriminate. }
  assert (Due := D us_country_code_table eu_country_code_table eq_refl).
  assert (Duj := D us_country_code_table jp_country_code_table eq_refl).
  assert (Dej := D eu_country_code_table jp_country_code_table eq_refl).
  rewrite ez_set_country_plan. unfold woal_is_us_country, woal_is_eu_country, woal_is_jp_country.
  rewrite !woal_is_country_spec by (vm_compute; reflexivity). unfold plan_of.
  destruct (in_table a b us_country_code_table), (in_table a b eu_country_code_table),
    (in_table a b jp_country_code_table); try (exfalso; auto; fail);
    repeat split; try done; intros; try congruence; intuition congruence.
Qed.
