(* ===== verification/EzMac.v ===== *)
(** * MAC address text

    Models [ez_hexval], [ez_atox], [ez_strsep] and [ez_mac2u8] of
    [os_dep/linux/ez_wifi_config.c]. A [char *] is an offset into a byte list;
    [ez_strsep] edits the buffer in place, so it returns the new buffer. The block
    [kmalloc] returns to [ez_mac2u8] is a parameter: the copied text fills all of it
    but the last byte, which keeps whatever the block held. [char] is unsigned, as
    on the driver's ARM target; the tests below compare with ASCII only. *)
From Stdlib Require Import ZArith Lia Bool String.
From stdpp Require Import base option list numbers.
From S2P Require Import Prelude.
Local Open Scope Z_scope.

(* src: os_dep/linux/ez_wifi_config.c:545-555 ez_hexval *)
Definition ez_hexval (c : Z) : Z :=
  if (48 <=? c) && (c <=? 57) then c - 48
  else if (65 <=? c) && (c <=? 70) then c - 65 + 10
  else if (97 <=? c) && (c <=? 102) then c - 97 + 10
  else 0.

(** The loop test of [ez_atox]. *)
(* src: os_dep/linux/ez_wifi_config.c:568-569 ez_atox *)
Definition atox_digit (c : Z) : bool :=
  ((48 <=? c) && (c <=? 57)) ||
  ((65 <=? Z.land c (Z.lnot 0x20)) && (Z.land c (Z.lnot 0x20) <=? 70)).

(* src: os_dep/linux/ez_wifi_config.c:564-575 ez_atox *)
Definition ez_atox (buf : list Z) (s : Z) : res Z :=
  loop (fun st : Z * Z =>
          let '(s, val) := st in
          c <- rd buf s ;;
          if atox_digit c then Ok (inl (s + 1, s32 (val * 16 + ez_hexval c)))
          else Ok (inr val))
       (S (List.length buf)) (s, 0).

(** [strlen(&buf[i])] *)
Definition c_strlen (buf : list Z) (i : Z) : res Z :=
  loop (fun n => c <- rd buf (i + n) ;; if c =? 0 then Ok (inr n) else Ok (inl (n + 1)))
       (S (List.length buf)) 0.

(** [memmove(q, q + 1, strlen(q))] *)
Definition drop_char (buf : list Z) (q : Z) : res (list Z) :=
  n <- c_strlen buf q ;;
  t <- rdn buf (q + 1) n ;;
  wrn buf q t.

(** One turn of the [for (;;)] loop at [p], for the token that starts at [s]. *)
(* src: os_dep/linux/ez_wifi_config.c:589-627 ez_strsep *)
Definition strsep_turn (s delim esc : Z) (st : Z * list Z)
    : res ((Z * list Z) + (option Z * option Z * list Z)) :=
  let '(q, buf) := st in
  c <- rd buf q ;;
  if c =? 0 then Ok (inr (Some s, None, buf))
  else
    escaped <- (if c =? esc
                then c1 <- rd buf (q + 1) ;; Ok ((c1 =? esc) || (c1 =? delim))
                else Ok false) ;;
    if escaped then
      buf' <- drop_char buf q ;; Ok (inl (q + 1, buf'))
    else if c =? delim then
      buf' <- wr buf q 0 ;; Ok (inr (Some s, Some (q + 1), buf'))
    else Ok (inl (q + 1, buf)).

(** The token, the rest pointer and the edited buffer. *)
(* src: os_dep/linux/ez_wifi_config.c:577-628 ez_strsep *)
Definition ez_strsep (buf : list Z) (stringp : option Z) (delim esc : Z)
    : res (option Z * option Z * list Z) :=
  match stringp with
  | None => Ok (None, None, buf)
  | Some s =>
      c <- rd buf s ;;
      if c =? 0 then Ok (None, Some s, buf)
      else loop (strsep_turn s delim esc) (S (List.length buf)) (s, buf)
  end.

(** One turn of the [do ... while (i != 6)] loop. *)
(* src: os_dep/linux/ez_wifi_config.c:647-652 ez_mac2u8 *)
Definition mac_turn (st : Z * option Z * list Z * list Z)
    : res ((Z * option Z * list Z * list Z) + list Z) :=
  let '(i, p, buf, mac) := st in
  '(sep, p', buf') <- ez_strsep buf p 58 47 ;;
  mac' <- (match sep with
           | Some s => v <- ez_atox buf' s ;; wr mac i (u8 v)
           | None => Ok mac
           end) ;;
  if i + 1 =? 6 then Ok (inr mac') else Ok (inl (i + 1, p', buf', mac')).

(** [block] is the byte the fresh block ends with, [None] a failed allocation. *)
(* src: os_dep/linux/ez_wifi_config.c:630-655 ez_mac2u8 *)
Definition ez_mac2u8 (mac : list Z) (s : option (list Z)) (block : option Z) : res (list Z) :=
  match s, block with
  | None, _ => Ok mac
  | _, None => Ok mac
  | Some text, Some junk => loop mac_turn 6 (0, Some 0, text ++ [junk], mac)
  end.

(** ** Fields *)

Definition COLON := 58.
Definition SLASH := 47.

(** The value of a field of hexadecimal digits, before truncation. *)
Fixpoint hexvalue (acc : Z) (f : list Z) : Z :=
  match f with [] => acc | c :: f' => hexvalue (s32 (acc * 16 + ez_hexval c)) f' end.

Definition hexfield (f : list Z) : bool :=
  forallb (fun c => is_byteb c && atox_digit c) f && negb (list_eqb f []).

Lemma atox_digit_not c : atox_digit c = true -> is_byteb c = true -> c <> 0 /\ c <> COLON /\ c <> SLASH.
Proof.
  intros H _. repeat split; intros ->; vm_compute in H; discriminate.
Qed.

Lemma atox_field f : forall a c r fuel acc,
  forallb atox_digit f = true -> atox_digit c = false -> (List.length f < fuel)%nat ->
  loop (fun st : Z * Z =>
          let '(s, val) := st in
          c <- rd (a ++ f ++ c :: r) s ;;
          if atox_digit c then Ok (inl (s + 1, s32 (val * 16 + ez_hexval c)))
          else Ok (inr val)) fuel (zlen a, acc) = Ok (hexvalue acc f).
Proof.
  induction f as [|d f IH]; intros a c r fuel acc Hf Hc Hfuel;
    (destruct fuel as [|fuel]; [simpl in Hfuel; lia|]); cbn [loop app hexvalue].
  - rewrite rd_mid. cbn [bind]. rewrite Hc. done.
  - rewrite rd_mid. cbn [bind]. cbn [forallb] in Hf. apply andb_true_iff in Hf as [Hd Hf].
    rewrite Hd. replace (zlen a + 1) with (zlen (a ++ [d])) by zlia.
    replace (a ++ d :: f ++ c :: r) with ((a ++ [d]) ++ f ++ c :: r) by (rewrite <- app_assoc; done).
    apply IH; [done | done | simpl in Hfuel; lia].
Qed.

Lemma ez_atox_field a f c r :
  forallb atox_digit f = true -> atox_digit c = false ->
  ez_atox (a ++ f ++ c :: r) (zlen a) = Ok (hexvalue 0 f).
Proof.
  intros. unfold ez_atox. apply (atox_field f a c r); [done | done|].
  rewrite !length_app. lia.
Qed.

(** Bytes [ez_strsep] walks over. *)
Definition ordinary (c : Z) : bool :=
  negb (c =? 0) && negb (c =? COLON) && negb (c =? SLASH).

Lemma strsep_walk s f : forall a r fuel,
  forallb ordinary f = true ->
  loop (strsep_turn s COLON SLASH) (List.length f + fuel) (zlen a, a ++ f ++ r) =
  loop (strsep_turn s COLON SLASH) fuel (zlen a + zlen f, a ++ f ++ r).
Proof.
  induction f as [|c f IH]; intros a r fuel Hf.
  - replace (zlen a + zlen []) with (zlen a) by zlia. done.
  - cbn [forallb] in Hf. apply andb_true_iff in Hf as [Hc Hf]. unfold ordinary in Hc.
    cbn [List.length Nat.add loop]. unfold strsep_turn at 1. cbn [app]. rewrite rd_mid.
    cbn [bind]. replace (c =? 0) with false by lia. replace (c =? SLASH) with false by lia.
    cbn [bind]. replace (c =? COLON) with false by lia.
    replace (zlen a + 1) with (zlen (a ++ [c])) by zlia.
    replace (zlen a + zlen (c :: f)) with (zlen (a ++ [c]) + zlen f) by zlia.
    replace (a ++ c :: f ++ r) with ((a ++ [c]) ++ f ++ r) by (rewrite <- app_assoc; done).
    apply IH. done.
Qed.

Lemma strsep_stop s a d r :
  d = COLON \/ d = 0 ->
  strsep_turn s COLON SLASH (zlen a, a ++ d :: r) =
    Ok (inr (Some s, (if d =? 0 then None else Some (zlen a + 1)), a ++ 0 :: r)).
Proof.
  intros Hd. unfold strsep_turn. rewrite rd_mid. cbn [bind].
  destruct Hd as [-> | ->]; [|done]. cbn [COLON SLASH Z.eqb Pos.eqb bind].
  rewrite wr_in by zlia. cbn [bind]. unfold zlen. rewrite Nat2Z.id.
  rewrite <- (Nat.add_0_r (List.length a)) at 2. rewrite insert_app_r. done.
Qed.

(** The token [f] at [a], up to the delimiter or the end of the string. *)
Lemma strsep_token a f d r :
  forallb ordinary f = true -> f <> [] -> d = COLON \/ d = 0 ->
  ez_strsep (a ++ f ++ d :: r) (Some (zlen a)) COLON SLASH =
    Ok (Some (zlen a), (if d =? 0 then None else Some (zlen a + zlen f + 1)),
        a ++ f ++ 0 :: r).
Proof.
  intros Hf Hne Hd. unfold ez_strsep. destruct f as [|c f]; [done|].
  cbn [app]. rewrite rd_mid. cbn [bind].
  assert (Hc : ordinary c = true) by (cbn [forallb] in Hf; apply andb_true_iff in Hf; tauto).
  unfold ordinary in Hc. replace (c =? 0) with false by lia.
  replace (S (List.length (a ++ c :: f ++ d :: r)))
    with (List.length (c :: f) + S (List.length a + S (List.length r)))%nat
    by (rewrite !length_app; cbn [List.length]; rewrite !length_app; cbn [List.length]; lia).
  change (a ++ c :: f ++ d :: r) with (a ++ (c :: f) ++ d :: r).
  rewrite (strsep_walk (zlen a) (c :: f) a (d :: r) _ Hf). cbn [loop].
  replace (zlen a + zlen (c :: f)) with (zlen (a ++ c :: f)) by zlia.
  replace (a ++ (c :: f) ++ d :: r) with ((a ++ c :: f) ++ d :: r) by (rewrite <- app_assoc; done).
  rewrite strsep_stop by done. rewrite <- app_assoc. done.
Qed.

(** A last byte that does not end the string: the scan leaves the block. *)
Lemma strsep_overrun a f d :
  forallb ordinary f = true -> f <> [] -> d <> COLON -> d <> 0 ->
  ez_strsep (a ++ f ++ [d]) (Some (zlen a)) COLON SLASH = Fault OobRead.
Proof.
  intros Hf Hne Hd Hd0. unfold ez_strsep. destruct f as [|c f]; [done|].
  cbn [app]. rewrite rd_mid. cbn [bind].
  assert (Hc : ordinary c = true) by (cbn [forallb] in Hf; apply andb_true_iff in Hf; tauto).
  unfold ordinary in Hc. replace (c =? 0) with false by lia.
  replace (S (List.length (a ++ c :: f ++ [d])))
    with (List.length (c :: f) + S (S (List.length a)))%nat
    by (rewrite !length_app; cbn [List.length]; rewrite !length_app; cbn [List.length]; lia).
  change (a ++ c :: f ++ [d]) with (a ++ (c :: f) ++ [d]).
  rewrite (strsep_walk (zlen a) (c :: f) a [d] _ Hf). cbn [loop].
  replace (zlen a + zlen (c :: f)) with (zlen (a ++ c :: f)) by zlia.
  replace (a ++ (c :: f) ++ [d]) with ((a ++ c :: f) ++ [d]) by (rewrite <- app_assoc; done).
  unfold strsep_turn at 1. rewrite rd_mid. cbn [bind].
  replace (d =? 0) with false by lia. destruct (d =? SLASH).
  - rewrite rd_oob by zlia. done.
  - cbn [bind]. replace (d =? COLON) with false by lia.
    unfold strsep_turn. rewrite rd_oob by zlia. done.
Qed.

Fixpoint join (fs : list (list Z)) : list Z :=
  match fs with
  | [] => []
  | [f] => f
  | f :: fs' => f ++ COLON :: join fs'
  end.

(** [mac[i..] = vs] *)
Fixpoint fill (i : nat) (vs mac : list Z) : list Z :=
  match vs with [] => mac | v :: vs' => fill (S i) vs' (<[i := v]> mac) end.

Definition field_value (f : list Z) : Z := u8 (hexvalue 0 f).

Lemma hexfield_spec f :
  hexfield f = true -> forallb atox_digit f = true /\ forallb ordinary f = true /\ f <> [].
Proof.
  unfold hexfield. intros [H Hne]%andb_true_iff. split_and!.
  - rewrite List.forallb_forall in *. intros c Hc%H. apply andb_true_iff in Hc. tauto.
  - rewrite List.forallb_forall in *. intros c Hc%H. apply andb_true_iff in Hc as [Hb Ha].
    destruct (atox_digit_not c Ha Hb) as (? & ? & ?). unfold ordinary. lia.
  - intros ->. done.
Qed.

Lemma mac_loop fs : forall i a d mac,
  Forall (fun f => hexfield f = true) fs -> fs <> [] ->
  (i + List.length fs = 6)%nat -> (6 <= List.length mac)%nat ->
  loop mac_turn (List.length fs) (Z.of_nat i, Some (zlen a), a ++ join fs ++ [d], mac) =
  if (d =? 0) || (d =? COLON) then Ok (fill i (map field_value fs) mac) else Fault OobRead.
Proof.
  induction fs as [|f fs IH]; intros i a d mac Hfs Hne Hi Hmac; [done|].
  inversion_clear Hfs as [|? ? Hf Hfs']. apply hexfield_spec in Hf as (Hx & Ho & Hf).
  cbn [List.length] in *. assert (Hwr : forall v, wr mac (Z.of_nat i) v = Ok (<[i := v]> mac)).
  { intros v. rewrite wr_in by (simpl in Hi; unfold zlen; lia). rewrite Nat2Z.id. done. }
  cbn [loop map fill]. unfold mac_turn at 1. change 58 with COLON. change 47 with SLASH.
  destruct fs as [|g fs].
  - cbn [join List.length]. assert (i = 5)%nat as -> by (simpl in Hi; lia).
    destruct (Z.eqb_spec d 0) as [->|Hd0]; [|destruct (Z.eqb_spec d COLON) as [->|Hdc]];
      cbn [orb].
    + rewrite (strsep_token a f 0 []) by tauto. cbn [bind Z.eqb].
      rewrite ez_atox_field by done. cbn [bind]. rewrite Hwr. done.
    + rewrite (strsep_token a f COLON []) by tauto. cbn [bind].
      rewrite ez_atox_field by done. cbn [bind]. rewrite Hwr. done.
    + rewrite strsep_overrun by done. done.
  - change (join (f :: g :: fs)) with (f ++ COLON :: join (g :: fs)).
    replace (a ++ (f ++ COLON :: join (g :: fs)) ++ [d])
      with (a ++ f ++ COLON :: (join (g :: fs) ++ [d])) by (rewrite <- app_assoc; done).
    rewrite strsep_token by tauto. cbn [bind COLON Z.eqb].
    rewrite ez_atox_field by done. cbn [bind]. rewrite Hwr. cbn [bind].
    replace (Z.of_nat i + 1 =? 6) with false by (simpl in Hi; lia).
    replace (Z.of_nat i + 1) with (Z.of_nat (S i)) by lia.
    replace (zlen a + zlen f + 1) with (zlen (a ++ f ++ [0])) by zlia.
    replace (a ++ f ++ 0 :: join (g :: fs) ++ [d])
      with ((a ++ f ++ [0]) ++ join (g :: fs) ++ [d]) by (rewrite <- !app_assoc; done).
    apply IH; [done | done | simpl in *; lia | rewrite length_insert; lia].
Qed.

(** "xx" in lower case *)
Definition hexchar (d : Z) : Z := if d <? 10 then 48 + d else 87 + d.
Definition hex2 (b : Z) : list Z := [hexchar (b / 16); hexchar (b mod 16)].

Lemma hex2_field b :
  is_byte b -> hexfield (hex2 b) = true /\ field_value (hex2 b) = b.
Proof.
  intros Hb.
  pose proof (all_bytes (fun b => hexfield (hex2 b) && (field_value (hex2 b) =? b))
                eq_refl b Hb) as H.
  cbv beta in H. apply andb_true_iff in H as [H1 H2]. split; [done | lia].
Qed.

Lemma ez_mac2u8_fields fs mac junk :
  Forall (fun f => hexfield f = true) fs -> List.length fs = 6%nat ->
  (6 <= List.length mac)%nat ->
  ez_mac2u8 mac (Some (join fs)) (Some junk) =
    if (junk =? 0) || (junk =? COLON)
    then Ok (map field_value fs ++ drop 6 mac) else Fault OobRead.
Proof.
  intros Hfs H6 Hmac. unfold ez_mac2u8. rewrite <- H6.
  change (Some 0) with (Some (zlen (@nil Z))). change 0 with (Z.of_nat 0) at 1.
  change (join fs ++ [junk]) with ([] ++ join fs ++ [junk]).
  rewrite mac_loop by (done || (destruct fs; [discriminate | done])).
  destruct ((junk =? 0) || (junk =? COLON)); [|done]. f_equal.
  do 6 (destruct fs as [|? fs]; [discriminate|]). destruct fs; [|discriminate].
  do 6 (destruct mac as [|? mac]; [simpl in Hmac; lia|]). done.
Qed.

(** ** Properties *)

(** Six hexadecimal fields separated by colons give the six bytes of the address, each
    field modulo 256; but only when the byte that follows the copied text in the fresh
    block happens to be a NUL or a colon. [ez_mac2u8] copies [strlen(s)] bytes, not the
    terminator, and with any other byte there the parser reads past the block. *)
Theorem mac_fields_parse fs mac junk
    (Hfs : Forall (fun f => hexfield f = true) fs) (H6 : List.length fs = 6%nat)
    (Hmac : (6 <= List.length mac)%nat) :
  ez_mac2u8 mac (Some (join fs)) (Some junk) =
    if (junk =? 0) || (junk =? COLON)
    then Ok (map field_value fs ++ drop 6 mac) else Fault OobRead.
Proof. apply ez_mac2u8_fields; done. Qed.

Lemma mac_fields_parse_witness :
  ez_mac2u8 (zeros 6) (Some (join (map hex2 [0; 18; 52; 86; 120; 154]))) (Some 65) = Fault OobRead.
Proof.
  apply (mac_fields_parse (map hex2 [0; 18; 52; 86; 120; 154]) (zeros 6) 65).
  - repeat constructor.
  - reflexivity.
  - vm_compute. lia.
Defined.

(** Round trip: printing six bytes as "xx:xx:xx:xx:xx:xx" and parsing the text gives
    the bytes back, when the block's last byte is the missing terminator. *)
Theorem mac_text_roundtrip bs mac
    (Hbs : bytes bs) (H6 : List.length bs = 6%nat) (Hmac : (6 <= List.length mac)%nat) :
  ez_mac2u8 mac (Some (join (map hex2 bs))) (Some 0) = Ok (bs ++ drop 6 mac).
Proof.
  rewrite ez_mac2u8_fields; [cbn [Z.eqb orb]; f_equal; f_equal | | by rewrite length_map | done].
  - rewrite List.map_map. rewrite <- List.map_id. apply List.map_ext_in. intros b Hb.
    apply hex2_field. unfold bytes in Hbs. rewrite List.Forall_forall in Hbs. auto.
  - apply List.Forall_forall. intros f Hf. apply List.in_map_iff in Hf as (b & <- & Hb).
    apply hex2_field. unfold bytes in Hbs. rewrite List.Forall_forall in Hbs. auto.
Qed.

Lemma mac_text_roundtrip_witness :
  ez_mac2u8 (zeros 6) (Some (join (map hex2 [0; 18; 52; 171; 205; 239]))) (Some 0)
    = Ok ([0; 18; 52; 171; 205; 239] ++ []).
Proof.
  apply (mac_text_roundtrip [0; 18; 52; 171; 205; 239] (zeros 6)).
  - apply bytes_by_compute. reflexivity.
  - reflexivity.
  - vm_compute. lia.
Defined.
