(* ===== verification/EzPreinit.v ===== *)
(** * Start-up: country and MAC address from the configuration file

    Models [ez_wifi_preinit], [ez_get_mac_addr] and the [ez_os_*] file helpers of
    [os_dep/linux/ez_wifi_config.c] over an explicit heap and table of open files.
    The kernel ([filp_open], [kmalloc], [kernel_read]) is a parameter, consulted with
    a call counter, so that any call may fail. [printk] has no effect on the state. *)
From Stdlib Require Import ZArith Lia Bool String.
From stdpp Require Import base option list numbers gmap fin_maps.
From S2P Require Import Prelude EzConfigVars EzCountry.
Local Open Scope Z_scope.

(** A [char *]: NULL, a heap block, or a string literal. *)
Inductive cptr : Type :=
| Null
| Heap (id : nat)
| Lit (text : list Z).

(** What the state of the module and of the kernel objects it holds is made of. *)
(* src: os_dep/linux/ez_wifi_config.c:29-30 rtw_channel_plan rtw_initmac *)
Record kst : Type := mkKst {
  heap : gmap nat (list Z);      (** live [kmalloc] blocks *)
  files : gmap nat Z;            (** open files: [f_pos] *)
  tick : nat;                    (** kernel calls so far *)
  rtw_channel_plan : Z;
  rtw_initmac : bool;            (** [rtw_initmac == ez_mac_addr] *)
  ez_mac_addr : list Z;          (** [u8 ez_mac_addr[17]] *)
}.

Definition KM (A : Type) : Type := kst -> res (A * kst).
Definition kret {A} (a : A) : KM A := fun s => Ok (a, s).
Definition kbind {A B} (m : KM A) (f : A -> KM B) : KM B :=
  fun s => match m s with Ok (a, s') => f a s' | Fault e => Fault e end.
Definition kfault {A} (e : fault) : KM A := fun _ => Fault e.
Definition klift {A} (m : res A) : KM A := fun s => x <- m ;; Ok (x, s).
Notation "x <~ m ;; k" := (kbind m (fun x => k))
  (at level 20, m at level 99, k at level 200) : c_scope.
Notation "' p <~ m ;; k" := (kbind m (fun x => match x with p => k end))
  (at level 20, p pattern, m at level 99, k at level 200) : c_scope.

Definition set_heap (h : gmap nat (list Z)) (s : kst) : kst :=
  mkKst h (files s) (tick s) (rtw_channel_plan s) (rtw_initmac s) (ez_mac_addr s).
Definition set_files (f : gmap nat Z) (s : kst) : kst :=
  mkKst (heap s) f (tick s) (rtw_channel_plan s) (rtw_initmac s) (ez_mac_addr s).
Definition set_plan (p : Z) (s : kst) : kst :=
  mkKst (heap s) (files s) (tick s) p (rtw_initmac s) (ez_mac_addr s).
Definition set_mac (m : list Z) (s : kst) : kst :=
  mkKst (heap s) (files s) (tick s) (rtw_channel_plan s) true m.
Definition step_tick (s : kst) : kst :=
  mkKst (heap s) (files s) (S (tick s)) (rtw_channel_plan s) (rtw_initmac s) (ez_mac_addr s).

(** The kernel as the module sees it, at the [n]-th call: does [filp_open] succeed, the
    block [kmalloc] returns (its old contents), what [kernel_read] returns, leaves in the
    buffer and adds to the file position. *)
Record kernel : Type := mkKernel {
  opens : nat -> bool;
  kmallocs : nat -> Z -> option (list Z);
  kernel_read : nat -> list Z -> Z -> Z -> Z * list Z * Z;
}.

Section Preinit.
  Context (K : kernel).

Definition load (p : cptr) : KM (list Z) := fun s =>
  match p with
  | Null => Fault NullDeref
  | Lit t => Ok (t, s)
  | Heap id => match heap s !! id with Some b => Ok (b, s) | None => Fault BadPtr end
  end.

Definition store_block (p : cptr) (b : list Z) : KM unit := fun s =>
  match p with
  | Null => Fault NullDeref
  | Lit _ => Fault BadPtr
  | Heap id => match heap s !! id with
               | Some _ => Ok (tt, set_heap (<[id := b]> (heap s)) s)
               | None => Fault BadPtr
               end
  end.

Definition kmalloc (size : Z) : KM cptr := fun s =>
  match kmallocs K (tick s) size with
  | Some b => Ok (Heap (tick s), step_tick (set_heap (<[tick s := b]> (heap s)) s))
  | None => Ok (Null, step_tick s)
  end.

(** [kfree(NULL)] does nothing; freeing a literal or a dead block is a fault. *)
Definition kfree (p : cptr) : KM unit := fun s =>
  match p with
  | Null => Ok (tt, s)
  | Lit _ => Fault BadPtr
  | Heap id => match heap s !! id with
               | Some _ => Ok (tt, set_heap (delete id (heap s)) s)
               | None => Fault BadPtr
               end
  end.

(* src: os_dep/linux/ez_wifi_config.c:263-274 ez_os_open_image *)
Definition ez_os_open_image : KM (option nat) := fun s =>
  if opens K (tick s)
  then Ok (Some (tick s), step_tick (set_files (<[tick s := 0]> (files s)) s))
  else Ok (None, step_tick s).

(* src: os_dep/linux/ez_wifi_config.c:276-280 ez_os_close_image *)
Definition ez_os_close_image (fp : option nat) : KM unit := fun s =>
  match fp with
  | None => Ok (tt, s)
  | Some f => match files s !! f with
              | Some _ => Ok (tt, set_files (delete f (files s)) s)
              | None => Fault BadPtr
              end
  end.

(** [kernel_read] advances [f_pos] and the caller adds [ret] once more. *)
(* src: os_dep/linux/ez_wifi_config.c:249-261 ez_os_get_image_block *)
Definition ez_os_get_image_block (buffer : cptr) (size : Z) (fp : option nat) : KM Z :=
  match fp with
  | None => kret 0
  | Some f => fun s =>
      match files s !! f with
      | None => Fault BadPtr
      | Some f_pos =>
          (b <~ load buffer ;; fun s =>
           let '(ret, b', f_pos1) := kernel_read K (tick s) b size f_pos in
           let f_pos2 := if 0 <? ret then f_pos1 + ret else f_pos1 in
           (_ <~ store_block buffer b' ;;
            fun s => Ok (ret, step_tick (set_files (<[f := f_pos2]> (files s)) s))) s) s
      end
  end.

(** [buf[len] = '\0'; memset(pick, 0, 1024); process_config_vars(buf, len, pick, var)] *)
Definition pick_var (buf pick : cptr) (len : Z) (var : string) : KM Z :=
  b <~ load buf ;;
  b' <~ klift (wr b len 0) ;;
  _ <~ store_block buf b' ;;
  p <~ load pick ;;
  p' <~ klift (wrn p 0 (zeros (Z.to_nat EZ_PICK_BUF_SIZE))) ;;
  '(n, p'') <~ klift (process_config_vars b' len (bytes_of var) p') ;;
  _ <~ store_block pick p'' ;;
  kret n.

(** [memset(ez_mac_addr, 0, 17); memcpy(ez_mac_addr, pick, 17); rtw_initmac = ez_mac_addr] *)
(* src: os_dep/linux/ez_wifi_config.c:698-701 ez_get_mac_addr *)
Definition install_mac (pick : cptr) : KM unit :=
  p <~ load pick ;; fun s =>
  src <- rdn p 0 17 ;;
  m0 <- wrn (ez_mac_addr s) 0 (zeros (List.length (ez_mac_addr s))) ;;
  m <- wrn m0 0 src ;;
  Ok (tt, set_mac m s).

(** From the read on. *)
(* src: os_dep/linux/ez_wifi_config.c:687-709 ez_get_mac_addr *)
Definition mac_from_file (fp : option nat) (buf pick : cptr) : KM Z :=
  len <~ ez_os_get_image_block buf EZ_CONFIG_BUF_SIZE fp ;;
  if (0 <? len) && (len <? EZ_CONFIG_BUF_SIZE) then
    n <~ pick_var buf pick len "mac_addr=" ;;
    if negb (n =? 17) then kret 0
    else _ <~ install_mac pick ;; kret 0
  else kret (-1).

(* src: os_dep/linux/ez_wifi_config.c:657-718 ez_get_mac_addr *)
Definition ez_get_mac_addr : KM Z :=
  fp <~ ez_os_open_image ;;
  match fp with
  | None => kret (-1)
  | Some _ =>
      buf <~ kmalloc EZ_CONFIG_BUF_SIZE ;;
      ret <~ (match buf with
              | Null => kret (-1)
              | _ =>
                  pick <~ kmalloc EZ_PICK_BUF_SIZE ;;
                  ret <~ (match pick with
                          | Null => kret (-1)
                          | _ => ret <~ mac_from_file fp buf pick ;;
                                 _ <~ kfree pick ;; kret ret
                          end) ;;
                  _ <~ kfree buf ;; kret ret
              end) ;;
      _ <~ ez_os_close_image fp ;;
      kret ret
  end.

Definition set_country (p : cptr) : KM unit :=
  cc <~ match p with Null => kret None | _ => b <~ load p ;; kret (Some b) end ;;
  fun s => plan <- ez_set_country cc (rtw_channel_plan s) ;; Ok (tt, set_plan plan s).

Definition CN : cptr := Lit (bytes_of "CN" ++ [0]).

(** [free_buf:] *)
(* src: os_dep/linux/ez_wifi_config.c:493-499 ez_wifi_preinit *)
Definition free_buf (fp : option nat) (buf : cptr) (ret : Z) : KM Z :=
  _ <~ (match buf with Null => kret tt | _ => kfree buf end) ;;
  _ <~ ez_os_close_image fp ;;
  kret ret.

(** [free_pick:] *)
(* src: os_dep/linux/ez_wifi_config.c:487-499 ez_wifi_preinit *)
Definition free_pick (fp : option nat) (buf : cptr) (ret : Z) : KM Z :=
  _ <~ kfree Null ;; free_buf fp buf ret.

(** [set_default:] *)
(* src: os_dep/linux/ez_wifi_config.c:481-499 ez_wifi_preinit *)
Definition set_default (fp : option nat) (buf pick : cptr) : KM Z :=
  _ <~ set_country CN ;;
  match pick with
  | Null => free_buf fp buf (-1)
  | _ => free_pick fp buf (-1)
  end.

(** From the read to the last [goto free_pick]: the new [pick] and [ret]. *)
(* src: os_dep/linux/ez_wifi_config.c:453-474 ez_wifi_preinit *)
Definition country_from_file (fp : option nat) (buf pick : cptr) : KM (cptr * Z) :=
  len <~ ez_os_get_image_block buf EZ_CONFIG_BUF_SIZE fp ;;
  if (0 <? len) && (len <? EZ_CONFIG_BUF_SIZE) then
    len <~ pick_var buf pick len "ccode=" ;;
    if negb (len =? 0) then
      let pick := if negb (len =? 2) then CN else pick in
      _ <~ set_country pick ;; kret (pick, 0)
    else kret (pick, -1)
  else kret (pick, -1).

(* src: os_dep/linux/ez_wifi_config.c:419-500 ez_wifi_preinit *)
Definition ez_wifi_preinit : KM Z :=
  fp <~ ez_os_open_image ;;
  match fp with
  | None => set_default fp Null Null
  | Some _ =>
      buf <~ kmalloc EZ_CONFIG_BUF_SIZE ;;
      match buf with
      | Null => set_default fp buf Null
      | _ =>
          pick <~ kmalloc EZ_PICK_BUF_SIZE ;;
          match pick with
          | Null => set_default fp buf pick
          | _ =>
              '(pick, ret) <~ country_from_file fp buf pick ;;
              _ <~ ez_get_mac_addr ;;
              if ret =? 0 then free_pick fp buf ret else set_default fp buf pick
          end
      end
  end.
End Preinit.

(** ** Documented behaviour of the kernel *)

Record kernel_ok (K : kernel) : Prop := {
  kmalloc_size : forall n size b, kmallocs K n size = Some b -> zlen b = size;
  read_keeps_buffer : forall n b size pos ret b' pos',
    kernel_read K n b size pos = (ret, b', pos') -> zlen b' = zlen b;
}.

(** No read of the configuration file returns more than [max] bytes. *)
Definition reads_at_most (K : kernel) (max : Z) : Prop :=
  forall n b size pos ret b' pos', kernel_read K n b size pos = (ret, b', pos') -> ret <= max.

(** Live identifiers are in the past, and [ez_mac_addr] has its 17 bytes. *)
Record kst_ok (s : kst) : Prop := {
  heap_past : forall id b, heap s !! id = Some b -> (id < tick s)%nat;
  files_past : forall f p, files s !! f = Some p -> (f < tick s)%nat;
  mac_size : zlen (ez_mac_addr s) = 17;
}.

(** ** Total correctness of a kernel computation *)

Definition wp {A} (m : KM A) (Q : A -> kst -> Prop) (s : kst) : Prop :=
  exists a s', m s = Ok (a, s') /\ Q a s'.

Lemma wp_ret {A} (a : A) (Q : A -> kst -> Prop) s : Q a s -> wp (kret a) Q s.
Proof. intros H. exists a, s. done. Qed.

Lemma wp_bind {A B} (m : KM A) (k : A -> KM B) Q s :
  wp m (fun a s' => wp (k a) Q s') s -> wp (kbind m k) Q s.
Proof. intros (a & s' & E & b & s'' & E' & H). exists b, s''. unfold kbind. rewrite E. done. Qed.

Lemma wp_mono {A} (m : KM A) (P Q : A -> kst -> Prop) s :
  wp m P s -> (forall a s', P a s' -> Q a s') -> wp m Q s.
Proof. intros (a & s' & E & H) HPQ. exists a, s'. auto. Qed.

Lemma wp_eq {A} (m : KM A) (Q : A -> kst -> Prop) s a s' :
  m s = Ok (a, s') -> Q a s' -> wp m Q s.
Proof. intros. exists a, s'. done. Qed.

Section KernelCalls.
  Context (K : kernel).

Lemma wp_open (Q : option nat -> kst -> Prop) s :
  (if opens K (tick s)
   then Q (Some (tick s)) (step_tick (set_files (<[tick s := 0]> (files s)) s))
   else Q None (step_tick s)) ->
  wp (ez_os_open_image K) Q s.
Proof. unfold wp, ez_os_open_image. destruct (opens _ _); eauto. Qed.

Lemma wp_kmalloc size (Q : cptr -> kst -> Prop) s :
  (forall b, kmallocs K (tick s) size = Some b ->
     Q (Heap (tick s)) (step_tick (set_heap (<[tick s := b]> (heap s)) s))) ->
  (kmallocs K (tick s) size = None -> Q Null (step_tick s)) ->
  wp (kmalloc K size) Q s.
Proof. unfold wp, kmalloc. destruct (kmallocs _ _ _); eauto. Qed.

Lemma wp_kfree id b (Q : unit -> kst -> Prop) s :
  heap s !! id = Some b -> Q tt (set_heap (delete id (heap s)) s) -> wp (kfree (Heap id)) Q s.
Proof. unfold wp, kfree. intros ->. eauto. Qed.

Lemma wp_close f p (Q : unit -> kst -> Prop) s :
  files s !! f = Some p -> Q tt (set_files (delete f (files s)) s) ->
  wp (ez_os_close_image (Some f)) Q s.
Proof. unfold wp, ez_os_close_image. intros ->. eauto. Qed.
End KernelCalls.

(** Equality of maps built from inserts and deletes at the keys [i] and [j]. *)
Ltac map_at i j :=
  apply map_eq; intros ?k; destruct (decide (k = i)) as [->|]; [|destruct (decide (k = j)) as [->|]];
  simplify_map_eq; try done; try (symmetry; done).

Section PreinitSpec.
  Context (K : kernel).

Lemma image_block_eq s f pos id b size ret b' pos1 :
  files s !! f = Some pos -> heap s !! id = Some b ->
  kernel_read K (tick s) b size pos = (ret, b', pos1) ->
  ez_os_get_image_block K (Heap id) size (Some f) s =
    Ok (ret, step_tick (set_files (<[f := if 0 <? ret then pos1 + ret else pos1]> (files s))
                          (set_heap (<[id := b']> (heap s)) s))).
Proof.
  intros Hf Hh Hr. unfold ez_os_get_image_block, kbind, load, store_block.
  rewrite Hf, Hh, Hr, Hh. done.
Qed.

Lemma pick_var_eq s bi pi b p len var n p' :
  bi <> pi -> heap s !! bi = Some b -> heap s !! pi = Some p ->
  zlen p = EZ_PICK_BUF_SIZE -> 0 <= len < zlen b ->
  process_config_vars (<[Z.to_nat len := 0]> b) len (bytes_of var)
    (zeros (Z.to_nat EZ_PICK_BUF_SIZE)) = Ok (n, p') ->
  pick_var (Heap bi) (Heap pi) len var s =
    Ok (n, set_heap (<[pi := p']> (<[bi := <[Z.to_nat len := 0]> b]> (heap s))) s).
Proof.
  intros Hne Hb Hp Hlen Hl Hpc. unfold pick_var, kbind, load, klift, store_block, kret.
  rewrite Hb, wr_in by done. cbn [bind]. rewrite Hb. cbn [heap set_heap].
  rewrite lookup_insert_ne, Hp by done.
  rewrite wrn_in by (rewrite ?zlen_zeros; unfold EZ_PICK_BUF_SIZE in *; lia). cbn [bind].
  change (Z.to_nat 0) with 0%nat. rewrite take_0, drop_ge.
  - cbn [app]. rewrite app_nil_r, Hpc. cbn [bind heap set_heap].
    rewrite lookup_insert_ne, Hp by done. done.
  - unfold zeros, zlen, EZ_PICK_BUF_SIZE in *. rewrite length_replicate. lia.
Qed.

(** The scan of a file of at most the value buffer's size never faults. *)
Lemma pick_var_safe s bi pi b p len var :
  bi <> pi -> heap s !! bi = Some b -> heap s !! pi = Some p ->
  zlen b = EZ_CONFIG_BUF_SIZE -> zlen p = EZ_PICK_BUF_SIZE -> 0 <= len <= EZ_PICK_BUF_SIZE ->
  1 <= zlen (bytes_of var) <= 64 -> ~ In 0 (bytes_of var) ->
  exists n b' p', zlen b' = zlen b /\ zlen p' = zlen p /\
    pick_var (Heap bi) (Heap pi) len var s =
      Ok (n, set_heap (<[pi := p']> (<[bi := b']> (heap s))) s).
Proof.
  unfold EZ_CONFIG_BUF_SIZE. intros Hne Hb Hp Hbl Hpl Hlen Hv Hnul.
  assert (Hp1 : EZ_PICK_BUF_SIZE = 1024) by done.
  assert (Hlb : zlen (<[Z.to_nat len := 0]> b) = zlen b)
    by (unfold zlen; rewrite length_insert; done).
  assert (Hat : rd (<[Z.to_nat len := 0]> b) len = Ok 0).
  { apply rd_Ok. split; [lia|]. apply list_lookup_insert_eq. unfold zlen in Hbl. lia. }
  pose (b1 := <[Z.to_nat len := 0]> b). fold b1 in Hlb, Hat.
  destruct (process_config_vars_safe b1 len (bytes_of var)
              EZ_PICK_BUF_SIZE ltac:(lia) ltac:(lia) Hv Hnul Hat ltac:(lia)
              (zeros (Z.to_nat EZ_PICK_BUF_SIZE))) as (n & p' & Hpc & _ & Hp').
  { rewrite zlen_zeros. lia. }
  exists n, b1, p'. split_and!; [done | lia|].
  apply (pick_var_eq s bi pi b p); try done. lia.
Qed.

(** ** Resource accounting *)

Context (HK : kernel_ok K) (Hmax : reads_at_most K EZ_PICK_BUF_SIZE).

(** [s'] is [s] with other contents in the two buffers and another file position. *)
Record touched (f bi pi : nat) (s s' : kst) : Prop := {
  t_heap : exists b' p', zlen b' = EZ_CONFIG_BUF_SIZE /\ zlen p' = EZ_PICK_BUF_SIZE /\
             heap s' = <[pi := p']> (<[bi := b']> (heap s));
  t_files : exists pos', files s' = <[f := pos']> (files s);
  t_tick : (tick s <= tick s')%nat;
  t_mac : zlen (ez_mac_addr s') = 17;
}.

(** What a reader of the file needs: its position and its two buffers. *)
Record ready (f bi pi : nat) (s : kst) : Prop := {
  r_ne : bi <> pi;
  r_file : exists pos, files s !! f = Some pos;
  r_buf : exists b, heap s !! bi = Some b /\ zlen b = EZ_CONFIG_BUF_SIZE;
  r_pick : exists p, heap s !! pi = Some p /\ zlen p = EZ_PICK_BUF_SIZE;
  r_mac : zlen (ez_mac_addr s) = 17;
}.

Lemma image_block_spec f bi pi s :
  ready f bi pi s ->
  wp (ez_os_get_image_block K (Heap bi) EZ_CONFIG_BUF_SIZE (Some f))
     (fun ret s' => ret <= EZ_PICK_BUF_SIZE /\ touched f bi pi s s' /\ ready f bi pi s' /\
        rtw_channel_plan s' = rtw_channel_plan s) s.
Proof.
  intros [Hne [pos Hf] (b & Hb & Hbl) (p & Hp & Hpl) Hm].
  destruct (kernel_read K (tick s) b EZ_CONFIG_BUF_SIZE pos) as [[ret b'] pos1] eqn:Hr.
  assert (Hbl' := read_keeps_buffer K HK _ _ _ _ _ _ _ Hr). rewrite Hbl in Hbl'.
  eapply wp_eq; [by eapply image_block_eq|].
  split_and!; [by eapply Hmax | constructor | constructor | done]; simpl; eauto.
  - exists b', p. split_and!; [done..|]. map_at bi pi.
  - rewrite lookup_insert_eq. eauto.
  - exists b'. rewrite lookup_insert_eq. done.
  - exists p. rewrite lookup_insert_ne by done. done.
Qed.

Lemma touched_trans f bi pi s1 s2 s3 :
  touched f bi pi s1 s2 -> touched f bi pi s2 s3 -> touched f bi pi s1 s3.
Proof.
  intros [(b1 & p1 & _ & _ & H1) [q1 F1] T1 _] [(b2 & p2 & Lb & Lp & H2) [q2 F2] T2 M2].
  constructor; [|exists q2|lia|done].
  - exists b2, p2. split_and!; [done..|]. rewrite H2, H1. map_at pi bi.
  - rewrite F2, F1. map_at f f.
Qed.

Lemma pick_var_spec f bi pi s len var :
  ready f bi pi s -> 0 < len <= EZ_PICK_BUF_SIZE ->
  1 <= zlen (bytes_of var) <= 64 -> ~ In 0 (bytes_of var) ->
  wp (pick_var (Heap bi) (Heap pi) len var)
     (fun n s' => touched f bi pi s s' /\ ready f bi pi s' /\
        rtw_channel_plan s' = rtw_channel_plan s) s.
Proof.
  intros [Hne [pos Hf] (b & Hb & Hbl) (p & Hp & Hpl) Hm] Hlen Hv Hnul.
  destruct (pick_var_safe s bi pi b p len var Hne Hb Hp Hbl Hpl ltac:(lia) Hv Hnul)
    as (n & b' & p' & Hb' & Hp' & E).
  eapply wp_eq; [exact E|]. split_and!; [constructor | constructor | done]; simpl; eauto.
  - exists b', p'. split_and!; [lia | lia | done].
  - exists pos. map_at f f.
  - exists b'. rewrite lookup_insert_ne, lookup_insert_eq by done. split; [done | lia].
  - exists p'. rewrite lookup_insert_eq. split; [done | lia].
Qed.

Lemma install_mac_eq s pi p :
  heap s !! pi = Some p -> zlen p = EZ_PICK_BUF_SIZE -> zlen (ez_mac_addr s) = 17 ->
  install_mac (Heap pi) s = Ok (tt, set_mac (take 17 p) s).
Proof.
  unfold EZ_PICK_BUF_SIZE. intros Hp Hpl Hm. unfold install_mac, kbind, load. rewrite Hp.
  rewrite rdn_in by lia. cbn [bind].
  rewrite wrn_in by (rewrite ?zlen_zeros; unfold zlen in *; lia). cbn [bind].
  change (Z.to_nat 0) with 0%nat. rewrite take_0, drop_ge by (unfold zeros; rewrite length_replicate; lia).
  change (Z.to_nat 17) with 17%nat. change (drop 0 p) with p.
  assert (Hs : zlen (take 17 p) = 17) by (unfold zlen in *; rewrite length_take; lia).
  rewrite wrn_in.
  - cbn [bind]. rewrite drop_ge; [rewrite take_0, app_nil_r; done|].
    unfold zlen, zeros in *. rewrite !length_app, length_replicate. simpl. lia.
  - lia.
  - rewrite Hs. unfold zlen, zeros in *. rewrite !length_app, length_replicate. simpl. lia.
Qed.

Ltac name_side := vm_compute; first [by intuition discriminate | split; discriminate].

Lemma mac_from_file_spec f bi pi s :
  ready f bi pi s ->
  wp (mac_from_file K (Some f) (Heap bi) (Heap pi))
     (fun ret s' => touched f bi pi s s' /\ rtw_channel_plan s' = rtw_channel_plan s) s.
Proof.
  intros Hs. apply wp_bind. eapply wp_mono; [by apply image_block_spec|].
  intros len s1 (Hlen & Ht1 & Hr1 & Hp1). destruct ((0 <? len) && _) eqn:E; [|by apply wp_ret].
  apply wp_bind. eapply wp_mono; [apply (pick_var_spec f); [done | lia | name_side | name_side]|].
  intros n s2 (Ht2 & Hr2 & Hp2). assert (Ht := touched_trans _ _ _ _ _ _ Ht1 Ht2).
  destruct (n =? 17); cbn [negb]; [|apply wp_ret; split; [done | congruence]].
  apply wp_bind. destruct Hr2 as [_ _ _ (p & Hp & Hpl) Hm].
  eapply wp_eq; [by eapply install_mac_eq|]. apply wp_ret. split; [|simpl; congruence].
  destruct Ht. constructor; simpl; try done.
  unfold zlen, EZ_PICK_BUF_SIZE in *. rewrite length_take. lia.
Qed.

(** Opening, the two allocations, and what is live between them. *)
Lemma fresh_block s id b : kst_ok s -> heap s !! id = Some b -> id <> tick s.
Proof. intros Hs H%(heap_past s Hs). lia. Qed.

Lemma kst_ok_fresh s n : kst_ok s -> (tick s <= n)%nat -> heap s !! n = None /\ files s !! n = None.
Proof.
  intros Hs Hn. split.
  - destruct (heap s !! n) eqn:E; [apply (heap_past s Hs) in E; lia | done].
  - destruct (files s !! n) eqn:E; [apply (files_past s Hs) in E; lia | done].
Qed.

(** The state with the file open and both buffers allocated. *)
Definition opened (s : kst) (b p : list Z) : kst :=
  let t := tick s in
  mkKst (<[S (S t) := p]> (<[S t := b]> (heap s))) (<[t := 0]> (files s)) (S (S (S t)))
    (rtw_channel_plan s) (rtw_initmac s) (ez_mac_addr s).

Lemma opened_ready s b p :
  kst_ok s -> zlen b = EZ_CONFIG_BUF_SIZE -> zlen p = EZ_PICK_BUF_SIZE ->
  ready (tick s) (S (tick s)) (S (S (tick s))) (opened s b p) /\ kst_ok (opened s b p).
Proof.
  intros Hs Hb Hp. split.
  - constructor; simpl; [lia | | | | by apply mac_size].
    + exists 0. apply lookup_insert_eq.
    + exists b. rewrite lookup_insert_ne, lookup_insert_eq by lia. done.
    + exists p. rewrite lookup_insert_eq. done.
  - constructor; simpl; [| | by apply mac_size].
    + intros id c Hi. destruct (decide (id = S (S (tick s)))); [lia|].
      destruct (decide (id = S (tick s))); [lia|]. simplify_map_eq.
      apply (heap_past s Hs) in Hi. lia.
    + intros g c Hi. destruct (decide (g = tick s)); [lia|]. simplify_map_eq.
      apply (files_past s Hs) in Hi. lia.
Qed.

(** The frees and the close at the end of [ez_get_mac_addr]. *)
Lemma mac_cleanup s b p s1 ret (Q : Z -> kst -> Prop) :
  let t := tick s in
  kst_ok s -> touched t (S t) (S (S t)) (opened s b p) s1 ->
  Q ret (mkKst (heap s) (files s) (tick s1) (rtw_channel_plan s1) (rtw_initmac s1) (ez_mac_addr s1)) ->
  wp (_ <~ kfree (Heap (S (S t))) ;; kret ret)
     (fun a s' => wp (_ <~ kfree (Heap (S t)) ;; kret a)
       (fun a s' => wp (_ <~ ez_os_close_image (Some t) ;; kret a) Q s') s') s1.
Proof.
  intros t Hs [(b' & p' & _ & _ & H1) [q F1] T1 M1] HQ.
  destruct (kst_ok_fresh s t Hs ltac:(lia)) as [_ Hft].
  destruct (kst_ok_fresh s (S t) Hs ltac:(lia)) as [Hh1 _].
  destruct (kst_ok_fresh s (S (S t)) Hs ltac:(lia)) as [Hh2 _]. simpl in H1, F1.
  apply wp_bind. eapply wp_kfree; [rewrite H1; apply lookup_insert_eq|]. apply wp_ret, wp_bind.
  eapply (wp_kfree _ b'); [simpl; rewrite H1; fold t; simplify_map_eq; done|].
  apply wp_ret, wp_bind. eapply wp_close; [simpl; rewrite F1; apply lookup_insert_eq|].
  apply wp_ret. eapply eq_ind; [exact HQ|]. cbv [set_files set_heap heap files]. f_equal.
  - fold (heap s) (heap s1). rewrite H1. fold t. map_at (S t) (S (S t)).
  - fold (files s) (files s1). rewrite F1. fold t. map_at t t.
Qed.

Lemma ez_get_mac_addr_spec s :
  kst_ok s ->
  wp (ez_get_mac_addr K)
     (fun _ s' => heap s' = heap s /\ files s' = files s /\ zlen (ez_mac_addr s') = 17 /\
        rtw_channel_plan s' = rtw_channel_plan s) s.
Proof.
  intros Hs. pose proof (mac_size s Hs) as Hm. set (t := tick s).
  destruct (kst_ok_fresh s t Hs ltac:(lia)) as [_ Hft].
  destruct (kst_ok_fresh s (S t) Hs ltac:(lia)) as [Hh1 _].
  destruct (kst_ok_fresh s (S (S t)) Hs ltac:(lia)) as [Hh2 _].
  apply wp_bind, wp_open. fold t. destruct (opens K t); [|by apply wp_ret].
  apply wp_bind, wp_kmalloc; simpl; fold t.
  2:{ intros _. apply wp_bind, wp_ret, wp_bind. eapply wp_close; [apply lookup_insert_eq|].
      apply wp_ret. simpl. split_and!; try done. map_at t t. }
  intros b Eb%(kmalloc_size K HK). apply wp_bind, wp_bind, wp_kmalloc; simpl; fold t.
  2:{ intros _. apply wp_bind, wp_ret, wp_bind. eapply wp_kfree; [apply lookup_insert_eq|].
      apply wp_ret, wp_bind. eapply wp_close; [apply lookup_insert_eq|].
      apply wp_ret. simpl. split_and!; try done; [map_at (S t) (S t) | map_at t t]. }
  intros p Ep%(kmalloc_size K HK). apply wp_bind, wp_bind.
  eapply wp_mono; [apply (mac_from_file_spec t (S t) (S (S t)) (opened s b p))|].
  { by apply opened_ready. }
  intros ret s1 [Ht P1]. apply (mac_cleanup s b p); try done. destruct Ht. simpl. done.
Qed.

Lemma country_from_file_spec f bi pi s :
  ready f bi pi s ->
  wp (country_from_file K (Some f) (Heap bi) (Heap pi))
     (fun '(pk, ret) s' => touched f bi pi s s' /\ pk <> Null /\ (ret = 0 \/ ret = -1)) s.
Proof.
  intros Hs. apply wp_bind. eapply wp_mono; [by apply image_block_spec|].
  intros len s1 (Hlen & Ht1 & Hr1 & _). destruct ((0 <? len) && _) eqn:E.
  2:{ apply wp_ret. split_and!; auto. }
  apply wp_bind. eapply wp_mono; [apply (pick_var_spec f); [done | lia | name_side | name_side]|].
  intros n s2 (Ht2 & Hr2 & _). assert (Ht := touched_trans _ _ _ _ _ _ Ht1 Ht2).
  destruct (n =? 0) eqn:En; cbn [negb]. { apply wp_ret. split_and!; auto. }
  set (pk := if negb (n =? 2) then CN else Heap pi).
  assert (Hset : exists plan, set_country pk s2 = Ok (tt, set_plan plan s2)).
  { unfold pk. destruct (negb _).
    - eexists. reflexivity.
    - destruct Hr2 as [_ _ _ (p & Hp & Hpl) _]. unfold EZ_PICK_BUF_SIZE in Hpl.
      destruct p as [|x [|y p]]; [discriminate | discriminate |].
      exists (plan_of x y). unfold set_country, kbind, load, kret. rewrite Hp.
      rewrite ez_set_country_plan. done. }
  destruct Hset as [plan Hset]. apply wp_bind. eapply wp_eq; [done|]. apply wp_ret.
  split_and!; [destruct Ht; by constructor | | auto].
  unfold pk. by destruct (negb _).
Qed.
(** What [ez_wifi_preinit] leaves behind: open files as before, and on the heap at most
    one block more, of the value buffer's size. *)
Definition clean (leak : bool) (s : kst) (ret : Z) (s' : kst) : Prop :=
  files s' = files s /\ (ret = 0 \/ ret = -1) /\
  (ret = -1 -> rtw_channel_plan s' = plan_of 67 78) /\
  if leak
  then exists id b, heap s !! id = None /\ zlen b = EZ_PICK_BUF_SIZE /\ heap s' = <[id := b]> (heap s)
  else heap s' = heap s /\ ret = -1.

Lemma set_default_null_spec f pos s0 s :
  files s !! f = Some pos -> files s0 = delete f (files s) -> heap s0 = heap s ->
  wp (set_default (Some f) Null Null) (clean false s0) s.
Proof.
  intros Hf Hf0 Hh. apply wp_bind. eapply wp_eq; [done|]. apply wp_bind, wp_ret, wp_bind.
  eapply wp_close; [done|]. apply wp_ret. unfold clean. simpl. split_and!; auto.
Qed.

Lemma touched_kst_ok f bi pi s s' :
  kst_ok s -> touched f bi pi s s' -> ready f bi pi s -> kst_ok s'.
Proof.
  intros [H1 H2 H3] [(b' & p' & _ & _ & Hh) [q Hf] Ht Hm] [_ [? Hrf] (? & Hrb & _) (? & Hrp & _) _].
  constructor; [| |done].
  - intros id b. rewrite Hh. intros Hi.
    destruct (decide (id = pi)) as [->|]; [apply H1 in Hrp; lia|].
    destruct (decide (id = bi)) as [->|]; [apply H1 in Hrb; lia|].
    simplify_map_eq. apply H1 in Hi. lia.
  - intros g p. rewrite Hf. intros Hi.
    destruct (decide (g = f)) as [->|]; [apply H2 in Hrf; lia|].
    simplify_map_eq. apply H2 in Hi. lia.
Qed.

(** The last step, from a state that differs from [opened] in contents only. *)
Lemma preinit_end s b p s1 pk ret :
  kst_ok s -> pk <> Null -> ret = 0 \/ ret = -1 ->
  (exists b' p', zlen b' = EZ_CONFIG_BUF_SIZE /\ zlen p' = EZ_PICK_BUF_SIZE /\
     heap s1 = <[S (S (tick s)) := p']> (<[S (tick s) := b']> (heap (opened s b p)))) ->
  (exists q, files s1 = <[tick s := q]> (files (opened s b p))) ->
  wp (if ret =? 0 then free_pick (Some (tick s)) (Heap (S (tick s))) ret
      else set_default (Some (tick s)) (Heap (S (tick s))) pk) (clean true s) s1.
Proof.
  intros Hs Hpk Hret (b' & p' & _ & Hp' & Hh) [q Hf]. set (t := tick s) in *.
  destruct (kst_ok_fresh s t Hs ltac:(lia)) as [_ Hft].
  destruct (kst_ok_fresh s (S t) Hs ltac:(lia)) as [Hh1 _].
  destruct (kst_ok_fresh s (S (S t)) Hs ltac:(lia)) as [Hh2 _].
  assert (Hend : forall s1 r, heap s1 = <[S (S t) := p']> (<[S t := b']> (heap (opened s b p))) ->
    files s1 = <[t := q]> (files (opened s b p)) -> r = 0 \/ r = -1 ->
    (r = -1 -> rtw_channel_plan s1 = plan_of 67 78) ->
    wp (free_buf (Some t) (Heap (S t)) r) (clean true s) s1).
  { clear s1 Hh Hf. intros s1 r Hh Hf Hr Hplan. apply wp_bind.
    eapply (wp_kfree _ b'). { rewrite Hh. simplify_map_eq. done. }
    apply wp_bind. eapply (wp_close _ q). { simpl. rewrite Hf. apply lookup_insert_eq. }
    apply wp_ret. unfold clean. simpl. split_and!; try done.
    - rewrite Hf. simpl. fold t. map_at t t.
    - exists (S (S t)), p'. split_and!; [done | done|]. rewrite Hh. simpl. fold t.
      map_at (S t) (S (S t)). }
  destruct (ret =? 0) eqn:E.
  - apply wp_bind. eapply wp_eq; [done|]. apply Hend; try done. lia.
  - apply wp_bind. eapply wp_eq; [done|].
    destruct pk; [done|..]; apply wp_bind; (eapply wp_eq; [done|]);
      apply Hend; try done; simpl; auto.
Qed.

(** All the calls before the first fallible use of the buffers succeed. *)
Definition buffers_allocated (s : kst) : bool :=
  opens K (tick s) &&
  match kmallocs K (S (tick s)) EZ_CONFIG_BUF_SIZE with
  | Some _ => match kmallocs K (S (S (tick s))) EZ_PICK_BUF_SIZE with Some _ => true | None => false end
  | None => false
  end.

Lemma ez_wifi_preinit_clean s :
  kst_ok s -> wp (ez_wifi_preinit K) (clean (buffers_allocated s) s) s.
Proof.
  intros Hs. set (t := tick s). unfold buffers_allocated. fold t.
  destruct (kst_ok_fresh s t Hs ltac:(lia)) as [_ Hft].
  destruct (kst_ok_fresh s (S t) Hs ltac:(lia)) as [Hh1 _].
  apply wp_bind, wp_open. fold t. destruct (opens K t); cbn [andb].
  2:{ eapply wp_eq; [done|]. unfold clean. simpl. auto. }
  apply wp_bind, wp_kmalloc; simpl; fold t.
  2:{ intros ->. eapply wp_mono; [eapply (set_default_null_spec t 0 s)|done];
      simpl; [apply lookup_insert_eq | map_at t t | done]. }
  intros b Eb. rewrite Eb. apply (kmalloc_size K HK) in Eb.
  apply wp_bind, wp_kmalloc; simpl; fold t.
  2:{ intros ->. apply wp_bind. eapply wp_eq; [done|]. apply wp_bind.
      eapply wp_kfree; [apply lookup_insert_eq|]. apply wp_bind.
      eapply wp_close; [apply lookup_insert_eq|]. apply wp_ret. unfold clean. simpl.
      split_and!; auto; [map_at t t | map_at (S t) (S t)]. }
  intros p Ep. rewrite Ep. apply (kmalloc_size K HK) in Ep.
  destruct (opened_ready s b p Hs Eb Ep) as [Hr Ho]. fold t in Hr.
  apply wp_bind. eapply wp_mono; [by apply (country_from_file_spec t _ _ (opened s b p))|].
  intros [pk ret] s1 (Ht & Hpk & Hret). assert (Hs1 := touched_kst_ok _ _ _ _ _ Ho Ht Hr).
  destruct Ht as [Hh Hf _ _].
  apply wp_bind. eapply wp_mono; [by apply ez_get_mac_addr_spec|].
  intros r2 s2 (Hh2 & Hf2 & _ & _). apply (preinit_end s b p); fold t; try done.
  - rewrite Hh2. done.
  - rewrite Hf2. done.
Qed.
End PreinitSpec.

(** ** A configuration file that is there *)

(** [text] sets [var] to [v] on one line, and nothing else in it disturbs the scan. *)
Definition sets (text : list Z) (var : string) (v : list Z) : Prop :=
  exists pre post, text = config_text (bytes_of var) v pre post /\
    forallb plain_char (bytes_of var) = true /\ 1 <= zlen (bytes_of var) /\
    tidy 0 v = true /\ 1 <= zlen v <= EZ_PICK_BUF_SIZE /\
    Forall (fun l => other_line (bytes_of var) l = true) pre /\
    Forall (fun l => other_line (bytes_of var) l = true) post.

(** Every kernel call succeeds and every read from the start returns [text]. *)
Record serves (K : kernel) (text : list Z) : Prop := {
  sv_opens : forall n, opens K n = true;
  sv_kmallocs : forall n size, 0 <= size -> exists b, kmallocs K n size = Some b;
  sv_reads : forall n b size, zlen text <= zlen b -> exists pos',
    kernel_read K n b size 0 = (zlen text, text ++ drop (length text) b, pos');
}.

Section Served.
  Context (K : kernel) (HK : kernel_ok K) (text : list Z) (Hserve : serves K text).
  Context (Htext : 0 < zlen text < EZ_CONFIG_BUF_SIZE).

Lemma served_read f bi pi s :
  ready f bi pi s -> files s !! f = Some 0 ->
  wp (ez_os_get_image_block K (Heap bi) EZ_CONFIG_BUF_SIZE (Some f))
     (fun ret s' => ret = zlen text /\ touched f bi pi s s' /\ ready f bi pi s' /\
        rtw_channel_plan s' = rtw_channel_plan s /\
        exists c old, heap s' !! bi = Some (text ++ c :: old)) s.
Proof.
  intros [Hne _ (b & Hb & Hbl) (p & Hp & Hpl) Hm] Hf.
  destruct (sv_reads K text Hserve (tick s) b EZ_CONFIG_BUF_SIZE ltac:(lia)) as [pos1 Hr].
  assert (Hbl' := read_keeps_buffer K HK _ _ _ _ _ _ _ Hr). rewrite Hbl in Hbl'.
  eapply wp_eq; [by eapply image_block_eq|].
  split_and!; [done | constructor | constructor | done |]; simpl; eauto.
  - exists (text ++ drop (length text) b), p. split_and!; [done..|]. map_at bi pi.
  - rewrite lookup_insert_eq. eauto.
  - exists (text ++ drop (length text) b). rewrite lookup_insert_eq. done.
  - exists p. rewrite lookup_insert_ne by done. done.
  - destruct (drop (length text) b) as [|c old] eqn:Ed.
    + rewrite app_nil_r in Hbl'. lia.
    + exists c, old. rewrite lookup_insert_eq. done.
Qed.

Lemma pick_var_sets f bi pi s var v c old :
  ready f bi pi s -> heap s !! bi = Some (text ++ c :: old) -> sets text var v ->
  wp (pick_var (Heap bi) (Heap pi) (zlen text) var)
     (fun n s' => n = zlen v /\ touched f bi pi s s' /\ ready f bi pi s' /\
        rtw_channel_plan s' = rtw_channel_plan s /\
        heap s' !! pi = Some (v ++ drop (length v) (zeros (Z.to_nat EZ_PICK_BUF_SIZE)))) s.
Proof.
  intros [Hne [pos Hf] (b & Hb & Hbl) (p & Hp & Hpl) Hm] Hh
         (pre & post & -> & Hpc & Hv1 & Htidy & Hv & Hpre & Hpost).
  simplify_eq.
  set (txt := config_text (bytes_of var) v pre post) in *.
  set (q := v ++ drop (length v) (zeros (Z.to_nat EZ_PICK_BUF_SIZE))).
  assert (Hq : zlen q = EZ_PICK_BUF_SIZE).
  { unfold q. pose proof (zlen_zeros (Z.to_nat EZ_PICK_BUF_SIZE)) as Hz. unfold zlen in *.
    rewrite length_app, length_drop. unfold EZ_PICK_BUF_SIZE in *. lia. }
  assert (Hins : <[Z.to_nat (zlen txt) := 0]> (txt ++ c :: old) = txt ++ 0 :: old).
  { unfold zlen. rewrite Nat2Z.id. rewrite <- (Nat.add_0_r (length txt)) at 1.
    rewrite insert_app_r. done. }
  assert (Hl : zlen (txt ++ 0 :: old) = EZ_CONFIG_BUF_SIZE) by (rewrite <- Hbl; zlia).
  eapply wp_eq.
  { apply (pick_var_eq s bi pi (txt ++ c :: old) p); try done.
    - split; [lia | zlia].
    - rewrite Hins. apply process_config_vars_found. constructor.
      + fold txt. rewrite Hl. vm_compute. discriminate.
      + done.
      + split; [done | lia].
      + done.
      + done.
      + rewrite zlen_zeros. lia. }
  rewrite Hins. fold q. split_and!; [done | constructor | constructor | done |]; simpl; eauto.
  - exists pos. map_at f f.
  - exists (txt ++ 0 :: old). rewrite lookup_insert_ne, lookup_insert_eq by done. done.
  - exists q. rewrite lookup_insert_eq. done.
  - apply lookup_insert_eq.
Qed.

Lemma text_len_ok : (0 <? zlen text) && (zlen text <? EZ_CONFIG_BUF_SIZE) = true.
Proof. lia. Qed.

Lemma mac_from_file_good f bi pi s mac :
  ready f bi pi s -> files s !! f = Some 0 -> sets text "mac_addr=" mac -> zlen mac = 17 ->
  wp (mac_from_file K (Some f) (Heap bi) (Heap pi))
     (fun ret s' => touched f bi pi s s' /\ rtw_initmac s' = true /\ ez_mac_addr s' = mac /\
        rtw_channel_plan s' = rtw_channel_plan s) s.
Proof.
  intros Hr Hf Hsets H17. apply wp_bind. eapply wp_mono; [by apply served_read|].
  intros len s1 (-> & Ht1 & Hr1 & Hpl1 & c & old & Hb1). rewrite text_len_ok.
  apply wp_bind. eapply wp_mono; [by eapply (pick_var_sets f)|].
  intros n s2 (-> & Ht2 & Hr2 & Hpl2 & Hp2). rewrite H17. cbn [Z.eqb Pos.eqb negb].
  assert (Ht := touched_trans _ _ _ _ _ _ Ht1 Ht2).
  assert (Htake : take 17 (mac ++ drop (length mac) (zeros (Z.to_nat EZ_PICK_BUF_SIZE))) = mac).
  { rewrite take_app_le by (unfold zlen in H17; lia). apply take_ge. unfold zlen in H17. lia. }
  apply wp_bind. destruct (r_pick _ _ _ _ Hr2) as (p & Hp & Hpl). simplify_eq.
  eapply wp_eq; [eapply install_mac_eq; [exact Hp2 | | by apply (r_mac f bi pi)]|].
  { congruence. }
  apply wp_ret. rewrite Htake. split_and!; [destruct Ht; constructor; done | done | done | simpl; congruence].
Qed.

Lemma country_from_file_good f bi pi s a b :
  ready f bi pi s -> files s !! f = Some 0 -> sets text "ccode=" [a; b] ->
  wp (country_from_file K (Some f) (Heap bi) (Heap pi))
     (fun '(pk, ret) s' => touched f bi pi s s' /\ pk = Heap pi /\ ret = 0 /\
        rtw_channel_plan s' = plan_of a b) s.
Proof.
  intros Hr Hf Hsets. apply wp_bind. eapply wp_mono; [by apply served_read|].
  intros len s1 (-> & Ht1 & Hr1 & Hpl1 & c & old & Hb1). rewrite text_len_ok.
  apply wp_bind. eapply wp_mono; [by eapply (pick_var_sets f)|].
  intros n s2 (-> & Ht2 & Hr2 & Hpl2 & Hp2). change (zlen [a; b]) with 2. cbn [Z.eqb Pos.eqb negb].
  assert (Ht := touched_trans _ _ _ _ _ _ Ht1 Ht2).
  apply wp_bind. eapply wp_eq.
  - unfold set_country, kbind, load, kret. rewrite Hp2. cbn [app].
    rewrite ez_set_country_plan. done.
  - apply wp_ret. split_and!; try done. destruct Ht. constructor; done.
Qed.

Lemma ez_get_mac_addr_good s mac :
  kst_ok s -> sets text "mac_addr=" mac -> zlen mac = 17 ->
  wp (ez_get_mac_addr K)
     (fun _ s' => heap s' = heap s /\ files s' = files s /\ rtw_initmac s' = true /\
        ez_mac_addr s' = mac /\ rtw_channel_plan s' = rtw_channel_plan s) s.
Proof.
  intros Hs Hsets H17. apply wp_bind, wp_open. rewrite (sv_opens _ _ Hserve).
  apply wp_bind, wp_kmalloc; simpl.
  2:{ destruct (sv_kmallocs _ _ Hserve (S (tick s)) EZ_CONFIG_BUF_SIZE ltac:(done)) as [b ->]. done. }
  intros b Eb%(kmalloc_size K HK). apply wp_bind, wp_bind, wp_kmalloc; simpl.
  2:{ destruct (sv_kmallocs _ _ Hserve (S (S (tick s))) EZ_PICK_BUF_SIZE ltac:(done)) as [p ->]. done. }
  intros p Ep%(kmalloc_size K HK). apply wp_bind, wp_bind.
  eapply wp_mono; [apply (mac_from_file_good (tick s) _ _ (opened s b p) mac)|]; try done.
  { by apply opened_ready. } { apply lookup_insert_eq. }
  intros ret s1 (Ht & Hi & Hm & Hp). by apply (mac_cleanup s b p).
Qed.

Lemma ez_wifi_preinit_good s a b mac :
  kst_ok s -> sets text "ccode=" [a; b] -> sets text "mac_addr=" mac -> zlen mac = 17 ->
  wp (ez_wifi_preinit K)
     (fun ret s' => ret = 0 /\ rtw_channel_plan s' = plan_of a b /\ rtw_initmac s' = true /\
        ez_mac_addr s' = mac /\ files s' = files s) s.
Proof.
  intros Hs Hcc Hsets H17. apply wp_bind, wp_open. rewrite (sv_opens _ _ Hserve).
  apply wp_bind, wp_kmalloc; simpl.
  2:{ destruct (sv_kmallocs _ _ Hserve (S (tick s)) EZ_CONFIG_BUF_SIZE ltac:(done)) as [c ->]. done. }
  intros c Ec%(kmalloc_size K HK). apply wp_bind, wp_kmalloc; simpl.
  2:{ destruct (sv_kmallocs _ _ Hserve (S (S (tick s))) EZ_PICK_BUF_SIZE ltac:(done)) as [p ->]. done. }
  intros p Ep%(kmalloc_size K HK). destruct (opened_ready s c p Hs Ec Ep) as [Hr Ho].
  apply wp_bind. eapply wp_mono; [by apply (country_from_file_good (tick s) _ _ (opened s c p) a b);
    try done; apply lookup_insert_eq|].
  intros [pk ret] s1 (Ht & -> & -> & Hplan). assert (Hs1 := touched_kst_ok _ _ _ _ _ Ho Ht Hr).
  apply wp_bind. eapply wp_mono; [by apply (ez_get_mac_addr_good s1 mac)|].
  intros r2 s2 (Hh2 & Hf2 & Hi & Hm & Hp2). destruct Ht as [(b' & p' & _ & _ & Hh) [q Hf] _ _].
  apply wp_bind. eapply wp_eq; [done|]. apply wp_bind.
  eapply (wp_kfree _ b'). { rewrite Hh2, Hh. simplify_map_eq. done. }
  apply wp_bind. eapply (wp_close _ q). { simpl. rewrite Hf2, Hf. apply lookup_insert_eq. }
  apply wp_ret. simpl. split_and!; try done; [congruence|]. rewrite Hf2, Hf. simpl.
  destruct (kst_ok_fresh s (tick s) Hs ltac:(lia)) as [_ Hft]. map_at (tick s) (tick s).
Qed.
End Served.

(** ** A kernel that serves a file *)

Definition served_kernel (text : list Z) : kernel :=
  mkKernel (fun _ => true)
    (fun _ size => if size <? 0 then None else Some (replicate (Z.to_nat size) 170))
    (fun _ b _ pos =>
       if (pos =? 0) && (zlen text <=? zlen b)
       then (zlen text, text ++ drop (length text) b, zlen text) else (0, b, pos)).

Definition boot : kst := mkKst ∅ ∅ 0 255 false (zeros 17).

Lemma served_kernel_ok text : kernel_ok (served_kernel text).
Proof.
  constructor; simpl.
  - intros _ size b H. case_match; [discriminate|]. injection H as <-.
    unfold zlen. rewrite length_replicate. lia.
  - intros _ b _ pos ret b' pos' H. case_match; injection H as <- <- <-; [|done].
    unfold zlen in *. rewrite length_app, length_drop. lia.
Qed.

Lemma served_kernel_serves text : serves (served_kernel text) text.
Proof.
  constructor; simpl.
  - done.
  - intros n size Hsize. rewrite (proj2 (Z.ltb_ge _ _)) by done. eauto.
  - intros _ b _ H. rewrite (proj2 (Z.leb_le _ _)) by done. eauto.
Qed.

Lemma boot_ok : kst_ok boot.
Proof. constructor; simpl; [| |done]; intros ?? H; rewrite lookup_empty in H; done. Qed.

(** ** Properties *)

(** Whatever the kernel refuses, start-up runs to its end without touching memory it
    does not own: every file it opened is closed and both 4096-byte buffers are freed.
    One block is left on the heap exactly when all three calls succeeded: the 1024-byte
    value buffer, which [kfree(NULL)] does not free. The result is 0 or -1, and with -1
    the channel plan is the one of "CN". Reads are bounded by the value buffer's size:
    a longer file can overflow it. *)
Theorem preinit_leaks_only_pick K s
    (HK : kernel_ok K) (Hmax : reads_at_most K EZ_PICK_BUF_SIZE) (Hs : kst_ok s) :
  exists ret s', ez_wifi_preinit K s = Ok (ret, s') /\ clean (buffers_allocated K s) s ret s'.
Proof. apply ez_wifi_preinit_clean; done. Qed.

Lemma preinit_leaks_only_pick_witness :
  exists ret s', ez_wifi_preinit (served_kernel (bytes_of "x=1")) boot = Ok (ret, s') /\
    clean true boot ret s'.
Proof.
  apply (preinit_leaks_only_pick (served_kernel (bytes_of "x=1")) boot).
  - apply served_kernel_ok.
  - intros n b size pos ret b' pos' H. simpl in H. case_match; injection H as <- _ _; vm_compute; discriminate.
  - apply boot_ok.
Defined.

(** A readable configuration file that sets a two-letter country and a 17-byte MAC
    address takes effect: start-up returns 0, the channel plan is the country's, and
    [rtw_initmac] points at [ez_mac_addr], which holds the address. The array has 17
    bytes, so the address fills it and no terminator follows. *)
Theorem preinit_applies_config K text s a b mac
    (HK : kernel_ok K) (Hserve : serves K text) (Hs : kst_ok s)
    (Htext : 0 < zlen text < EZ_CONFIG_BUF_SIZE)
    (Hcc : sets text "ccode=" [a; b]) (Hmac : sets text "mac_addr=" mac) (H17 : zlen mac = 17) :
  exists s', ez_wifi_preinit K s = Ok (0, s') /\ rtw_channel_plan s' = plan_of a b /\
    rtw_initmac s' = true /\ ez_mac_addr s' = mac /\ files s' = files s.
Proof.
  destruct (ez_wifi_preinit_good K HK text Hserve Htext s a b mac Hs Hcc Hmac H17)
    as (ret & s' & E & -> & H). exists s'. done.
Qed.

Definition demo_text : list Z :=
  unlines [bytes_of "# camera"; bytes_of "ccode=US"; bytes_of "mac_addr=00:e0:4c:01:02:03"].

Lemma preinit_applies_config_witness :
  exists s', ez_wifi_preinit (served_kernel demo_text) boot = Ok (0, s') /\
    rtw_channel_plan s' = 0x43 /\ rtw_initmac s' = true /\
    ez_mac_addr s' = bytes_of "00:e0:4c:01:02:03" /\ files s' = ∅.
Proof.
  apply (preinit_applies_config (served_kernel demo_text) demo_text boot 85 83
           (bytes_of "00:e0:4c:01:02:03")).
  - apply served_kernel_ok.
  - apply served_kernel_serves.
  - apply boot_ok.
  - vm_compute. split; reflexivity.
  - exists [bytes_of "# camera"], [bytes_of "mac_addr=00:e0:4c:01:02:03"].
    split_and!; try (vm_compute; repeat constructor; discriminate).
  - exists [bytes_of "# camera"; bytes_of "ccode=US"], [].
    split_and!; try (vm_compute; repeat constructor; discriminate).
  - reflexivity.
Defined.
