(* ===== verification/EzCalib.v ===== *)
(** * Version, signal strength and RF calibration ioctls

    Models the ioctl handlers of [os_dep/linux/ez_wifi_config.c] that report the
    driver's version, the signal strength and the state of the efuse. The efuse, the
    user's memory and the receiver's statistics are the interface [Efuse] and
    arguments; a handler returns its result and the bytes it hands to
    [copy_to_user]. *)
From Stdlib Require Import ZArith Lia Bool String.
From stdpp Require Import base option list numbers.
From S2P Require Import Prelude.
Local Open Scope Z_scope.

(** What the handlers need of the efuse: a masked read that reports failure and leaves
    the caller's buffer as long as it was, and the two sizes. *)
Class Efuse : Type := {
  mask_map_read : Z -> Z -> list Z -> bool * list Z;   (** [addr cnts data] *)
  current_size : Z;
  max_size : Z;
  mask_map_read_length : forall addr cnts data,
    length (snd (mask_map_read addr cnts data)) = length data;
}.

(* src: os_dep/linux/ez_wifi_config.c:36-46 EZ_EFUSE_MAC_ADDR *)
Definition EZ_EFUSE_MAC_ADDR := 0xD7.
Definition EZ_EFUSE_MAC_LEN := 6%nat.
Definition EZ_RF_POWER_INIDEX_ADDR := 0x10.
Definition EZ_RF_POWER_INIDEX_LEN := 12%nat.
Definition EZ_RF_CRYSTAL_CALIBRATION := 0xB9.
Definition EZ_RF_CRYSTAL_THERMAL_METER := 0xBA.

(* src: os_dep/linux/ez_wifi_config.c:93-95 invalid_efuse_data1 *)
Definition invalid_efuse_data1 : list Z := replicate 10 0xff.
(* src: os_dep/linux/ez_wifi_config.c:97-99 invalid_efuse_data2 *)
Definition invalid_efuse_data2 : list Z := replicate 10 0.

(** ** Version *)

(* src: os_dep/linux/ez_wifi_config.c:721-725 ez_GetMaskBit *)
Definition ez_GetMaskBit : Z := 0x9F.

(* src: os_dep/linux/ez_wifi_config.c:38 EZ_WIFI_VERSION *)
Definition EZ_WIFI_VERSION : list Z := bytes_of "-SN215081-Release_231225".

(** The two [memcpy]s of a case: six bytes, then the version and its terminator. *)
Definition put_version (version : list Z) (prefix : string) : res (list Z) :=
  v <- wrn version 0 (bytes_of prefix) ;; wrn v 6 (EZ_WIFI_VERSION ++ [0]).

(* src: os_dep/linux/ez_wifi_config.c:727-758 ez_GetWiFiVersion *)
Definition ez_GetWiFiVersion (maskbit : Z) (version : list Z) : res (list Z) :=
  if (maskbit =? 0x00) || (maskbit =? 0x80) then put_version version "0.0.0_"
  else if maskbit =? 0x87 then put_version version "1.0.0_"
  else if maskbit =? 0x8F then put_version version "1.0.1_"
  else if maskbit =? 0x97 then put_version version "1.0.2_"
  else if maskbit =? 0x9F then put_version version "1.0.3_"
  else Ok version.

(** An ioctl's [struct iwreq]: is the user pointer set, and the length. *)
Record iwreq : Type := mkIwreq { has_pointer : bool; length_ : Z }.

Section Handlers.
  (** [copy_to_user]: how many of the bytes were not copied. *)
  Context (copy_to_user : list Z -> Z).

(** The handler's result and what it hands to the user, if anything. *)
Definition reply : Type := Z * option (list Z).

(* src: os_dep/linux/ez_wifi_config.c:760-794 ez_wifi_func_poll_ioctl_handle *)
Definition ez_wifi_func_poll_ioctl_handle (dev : bool) (rq : option iwreq) : res reply :=
  match dev, rq with
  | true, Some wrq =>
      if has_pointer wrq then
        version <- ez_GetWiFiVersion ez_GetMaskBit (zeros 32) ;;
        let len := length_ wrq in
        let strlen := zlen (cstr version) in
        out <- (if len <? strlen then rdn version 0 (u8 len) else rdn version 0 (u8 strlen)) ;;
        Ok (copy_to_user out, Some out)
      else Ok (-1, None)
  | _, _ => Ok (-1, None)
  end.

(** ** Signal strength *)

(** [struct ez_rssi_per_ant] as bytes, signed fields by value. *)
(* src: os_dep/linux/ez_wifi_config.c:84-89 struct ez_rssi_per_ant *)
Record ez_rssi_per_ant : Type := mkRssi {
  Valid : Z; Rssi_ANT0 : Z; Rssi_ANT1 : Z; Rssi_AVG : Z
}.

(* src: os_dep/linux/ez_wifi_config.c:502-543 ez_read_rssi_per_ant_ioctl *)
Definition ez_read_rssi_per_ant_ioctl (dev : bool) (rq : option iwreq)
    (recv_rssi rssi_a rssi_b : Z) : Z * option ez_rssi_per_ant :=
  match dev, rq with
  | true, Some wrq =>
      if has_pointer wrq then
        let rssi := mkRssi 1 (s8 (rssi_a - 100)) (s8 (rssi_a - 100)) recv_rssi in
        (copy_to_user [Valid rssi; u8 (Rssi_ANT0 rssi); u8 (Rssi_ANT1 rssi); u8 (Rssi_AVG rssi)],
         Some rssi)
      else (-1, None)
  | _, _ => (-1, None)
  end.

End Handlers.

(** ** RF calibration *)

Section Calibration.
  Context {E : Efuse}.

(** The result and the buffer; [None] is the NULL pointer. *)
(* src: os_dep/linux/ez_wifi_config.c:799-812 ez_read_efuse *)
Definition ez_read_efuse (addr cnts : Z) (data : option (list Z)) : Z * option (list Z) :=
  match data with
  | None => (-1, None)
  | Some d =>
      let '(ok, d') := mask_map_read addr cnts d in
      if ok then (0, Some d') else (-1, Some d')
  end.

(** A read into a local array. *)
Definition read_local (addr : Z) (init : list Z) : Z * list Z :=
  match ez_read_efuse addr (zlen init) (Some init) with
  | (ret, Some d) => (ret, d)
  | (ret, None) => (ret, init)
  end.

(* src: os_dep/linux/ez_wifi_config.c:819-842 ez_read_efuse_mac *)
Definition ez_read_efuse_mac : Z :=
  let '(ret, efuse_mac) := read_local EZ_EFUSE_MAC_ADDR (replicate EZ_EFUSE_MAC_LEN 0) in
  if negb (ret =? 0) then -1
  else if list_eqb efuse_mac (take EZ_EFUSE_MAC_LEN invalid_efuse_data1)
          || list_eqb efuse_mac (take EZ_EFUSE_MAC_LEN invalid_efuse_data2)
  then -1
  else ret.

(** The loop over the power indices: is any of them blank? *)
(* src: os_dep/linux/ez_wifi_config.c:861-867 ez_read_efuse_rf *)
Fixpoint blank_index (efuse_rf_data : list Z) : bool :=
  match efuse_rf_data with
  | [] => false
  | d :: rest => if d =? 0xFF then true else blank_index rest
  end.

(* src: os_dep/linux/ez_wifi_config.c:844-892 ez_read_efuse_rf *)
Definition ez_read_efuse_rf : Z :=
  let '(ret, efuse_rf_data) :=
    read_local EZ_RF_POWER_INIDEX_ADDR (replicate EZ_RF_POWER_INIDEX_LEN 0xFF) in
  if negb (ret =? 0) then -1
  else if blank_index efuse_rf_data then -1
  else
    let '(ret, crystal_cali) := read_local EZ_RF_CRYSTAL_CALIBRATION [0xFF] in
    if negb (ret =? 0) then -1
    else if list_eqb crystal_cali [0xFF] then -1
    else
      let '(ret, thermal_meter) := read_local EZ_RF_CRYSTAL_THERMAL_METER [0xFF] in
      if negb (ret =? 0) then -1
      else if list_eqb thermal_meter [0xFF] then -1
      else ret.

(* src: os_dep/linux/ez_wifi_config.c:894-908 ez_read_eFuse_free_block *)
Definition ez_read_eFuse_free_block : Z :=
  if max_size - current_size <=? 0 then -1 else 0.

(** [dev] is NULL or carries the adapter, which may itself be NULL. The code takes the
    adapter out of [dev] before it tests anything. *)
(* src: os_dep/linux/ez_wifi_config.c:910-954 ez_wifi_module_rf_calibration_check_ioctl *)
Definition ez_wifi_module_rf_calibration_check_ioctl (copy_to_user : list Z -> Z)
    (dev : option bool) (rq : option iwreq) : res reply :=
  match dev with
  | None => Fault NullDeref
  | Some padapter =>
      match padapter, rq with
      | true, Some wrq =>
          if negb (has_pointer wrq) then Ok (-1, None)
          else
            let efuse_mac_ret := ez_read_efuse_mac in
            let efuse_rf_ret := ez_read_efuse_rf in
            let free_block_ret := ez_read_eFuse_free_block in
            let r :=
              if (efuse_mac_ret =? -1) && (efuse_rf_ret =? -1) then 3
              else if efuse_rf_ret =? -1 then 2
              else if efuse_mac_ret =? -1 then 1
              else 0 in
            let r := if free_block_ret =? -1 then 4 else r in
            let out := [r; 0; 0; 0] in
            Ok (copy_to_user out, Some out)
      | _, _ => Ok (-1, None)
      end
  end.

(** ** What the calibration result means *)

(** The efuse holds no usable MAC address. *)
Definition mac_missing : Prop :=
  let '(ok, mac) := mask_map_read EZ_EFUSE_MAC_ADDR 6 (replicate 6 0) in
  ok = false \/ (forall b, In b mac -> b = 0xFF) \/ (forall b, In b mac -> b = 0).

Definition unread_or_blank (addr n : Z) : Prop :=
  let '(ok, d) := mask_map_read addr n (replicate (Z.to_nat n) 0xFF) in
  ok = false \/ In 0xFF d.

(** Some RF parameter was never written. *)
Definition rf_missing : Prop :=
  unread_or_blank EZ_RF_POWER_INIDEX_ADDR 12 \/
  unread_or_blank EZ_RF_CRYSTAL_CALIBRATION 1 \/
  unread_or_blank EZ_RF_CRYSTAL_THERMAL_METER 1.

Lemma blank_index_spec l : blank_index l = true <-> In 0xFF l.
Proof.
  induction l as [|d l IH]; simpl; [done|]. destruct (Z.eqb_spec d 0xFF) as [->|Hd]; [tauto|].
  rewrite IH. split; [tauto | intros [|]; congruence || done].
Qed.

Lemma all_equal (l : list Z) n v :
  List.length l = n -> l = replicate n v <-> (forall b, In b l -> b = v).
Proof.
  revert n. induction l as [|x l IH]; intros n <-; cbn; [tauto|].
  split.
  - intros [= -> Hr] b [<-|Hb]; [done|]. by apply (IH (List.length l)).
  - intros H. rewrite (H x) by auto. f_equal. apply IH; auto.
Qed.

Lemma ez_read_efuse_mac_spec :
  (ez_read_efuse_mac = -1 <-> mac_missing) /\ (ez_read_efuse_mac = -1 \/ ez_read_efuse_mac = 0).
Proof.
  unfold ez_read_efuse_mac, read_local, ez_read_efuse, mac_missing, list_eqb.
  pose proof (mask_map_read_length EZ_EFUSE_MAC_ADDR 6 (replicate 6 0)) as Hl.
  change (zlen (replicate EZ_EFUSE_MAC_LEN 0)) with 6. unfold EZ_EFUSE_MAC_LEN.
  destruct (mask_map_read _ _ _) as [ok mac]. simpl in Hl.
  change (take 6 invalid_efuse_data1) with (replicate 6 0xFF).
  change (take 6 invalid_efuse_data2) with (replicate 6 0).
  rewrite <- !(all_equal mac 6) by done.
  destruct ok; cbn [Z.eqb negb]; [|tauto].
  destruct (bool_decide_reflect (mac = replicate 6 0xFF)),
    (bool_decide_reflect (mac = replicate 6 0)); cbn [orb]; intuition congruence.
Qed.

(** One parameter, up to its test. *)
Lemma blank_byte (addr : Z) :
  let '(ok, d) := mask_map_read addr 1 [0xFF] in d = [0xFF] <-> In 0xFF d.
Proof.
  pose proof (mask_map_read_length addr 1 [0xFF]) as Hl.
  destruct (mask_map_read _ _ _) as [ok [|x [|]]]; try done. simpl.
  intuition congruence.
Qed.

Lemma ez_read_efuse_rf_spec :
  (ez_read_efuse_rf = -1 <-> rf_missing) /\ (ez_read_efuse_rf = -1 \/ ez_read_efuse_rf = 0).
Proof.
  unfold ez_read_efuse_rf, read_local, ez_read_efuse, rf_missing, unread_or_blank, list_eqb.
  change (zlen (replicate EZ_RF_POWER_INIDEX_LEN 0xFF)) with 12.
  change (zlen [0xFF]) with 1. change (replicate (Z.to_nat 12) 0xFF) with (replicate EZ_RF_POWER_INIDEX_LEN 0xFF).
  change (replicate (Z.to_nat 1) 0xFF) with [0xFF].
  pose proof (blank_byte EZ_RF_CRYSTAL_CALIBRATION) as H2.
  pose proof (blank_byte EZ_RF_CRYSTAL_THERMAL_METER) as H3.
  destruct (mask_map_read EZ_RF_POWER_INIDEX_ADDR _ _) as [[|] d1];
    destruct (mask_map_read EZ_RF_CRYSTAL_CALIBRATION _ _) as [[|] d2];
    destruct (mask_map_read EZ_RF_CRYSTAL_THERMAL_METER _ _) as [[|] d3];
    cbn [Z.eqb negb]; rewrite <- ?(blank_index_spec d1), <- H2, <- H3;
    destruct (blank_index d1); try tauto;
    destruct (bool_decide_reflect (d2 = [0xFF])); try tauto;
    destruct (bool_decide_reflect (d3 = [0xFF])); intuition congruence.
Qed.
End Calibration.

(** ** Properties *)

Definition version_text : list Z := bytes_of "1.0.3_-SN215081-Release_231225".

(** The version reply: for every mask the text fits the 32-byte local with its
    terminator; the user gets its first [length] bytes, at most 30, and never the
    terminator. *)
Theorem version_reply_fits copy_to_user maskbit len (Hlen : 0 <= len) :
  (exists v, ez_GetWiFiVersion maskbit (zeros 32) = Ok v /\ zlen v = 32) /\
  ez_wifi_func_poll_ioctl_handle copy_to_user true (Some (mkIwreq true len)) =
    let out := take (Z.to_nat (Z.min len 30)) version_text in Ok (copy_to_user out, Some out).
Proof.
  split.
  - unfold ez_GetWiFiVersion. repeat case_match; eexists; split; reflexivity.
  - unfold ez_wifi_func_poll_ioctl_handle. cbn [has_pointer length_].
    replace (ez_GetWiFiVersion ez_GetMaskBit (zeros 32)) with (Ok (version_text ++ [0; 0])) by done.
    cbn [bind]. change (zlen (cstr (version_text ++ [0; 0]))) with 30.
    destruct (Z.ltb_spec len 30).
    + rewrite u8_small by (unfold is_byte; lia). rewrite rdn_in by (try change (zlen (_ ++ _)) with 32; lia).
      cbn [bind]. change (drop (Z.to_nat 0) (version_text ++ [0; 0])) with (version_text ++ [0; 0]).
      rewrite Z.min_l by lia. rewrite take_app_le; [done|].
      change (length version_text) with 30%nat. lia.
    + rewrite Z.min_r by lia. done.
Qed.

Lemma version_reply_fits_witness :
  (exists v, ez_GetWiFiVersion 7 (zeros 32) = Ok v /\ zlen v = 32) /\
  ez_wifi_func_poll_ioctl_handle zlen true (Some (mkIwreq true 5)) = Ok (5, Some (bytes_of "1.0.3")).
Proof. apply (version_reply_fits zlen 7 5). lia. Defined.

(** The calibration code handed to the user is 4 when the efuse has no free byte;
    otherwise 3, 2, 1 or 0 for a missing MAC address and RF data, missing RF data, a
    missing MAC address, nothing missing. A NULL device faults before the handler's own
    check of it; a NULL adapter, request or pointer gives -1. *)
Theorem calibration_code {E : Efuse} copy_to_user rq :
  ez_wifi_module_rf_calibration_check_ioctl copy_to_user None rq = Fault NullDeref /\
  ez_wifi_module_rf_calibration_check_ioctl copy_to_user (Some false) rq = Ok (-1, None) /\
  forall wrq, exists r,
    ez_wifi_module_rf_calibration_check_ioctl copy_to_user (Some true) (Some wrq) =
      (if has_pointer wrq then Ok (copy_to_user [r; 0; 0; 0], Some [r; 0; 0; 0])
       else Ok (-1, None)) /\
    (r = 4 <-> max_size <= current_size) /\
    (current_size < max_size ->
       (r = 3 <-> mac_missing /\ rf_missing) /\ (r = 2 <-> ~ mac_missing /\ rf_missing) /\
       (r = 1 <-> mac_missing /\ ~ rf_missing) /\ (r = 0 <-> ~ mac_missing /\ ~ rf_missing)).
Proof.
  split_and!; [done | done|]. intros wrq. unfold ez_wifi_module_rf_calibration_check_ioctl.
  destruct (@ez_read_efuse_mac_spec E) as [Em Hm].
  destruct (@ez_read_efuse_rf_spec E) as [Er Hr].
  unfold ez_read_eFuse_free_block. eexists. split.
  { destruct (has_pointer wrq); reflexivity. }
  destruct (Z.leb_spec (max_size - current_size) 0);
    destruct Hm as [Hm | Hm], Hr as [Hr | Hr]; rewrite Hm in Em |- *; rewrite Hr in Er |- *;
    cbn; intuition (try lia; try congruence).
Qed.

(** An efuse with a MAC address, RF data and free space. *)
Definition demo_efuse : Efuse.
Proof.
  refine {| mask_map_read := fun addr cnts data => (true, map (fun _ => 7) data);
            current_size := 100; max_size := 512 |}.
  intros. simpl. apply length_map.
Defined.

Lemma calibration_code_witness :
  exists r, ez_wifi_module_rf_calibration_check_ioctl (E := demo_efuse) (fun _ => 0) (Some true)
      (Some (mkIwreq true 4)) = Ok (0, Some [r; 0; 0; 0]) /\ (r = 4 <-> 512 <= 100).
Proof.
  destruct (proj2 (proj2 (calibration_code (E := demo_efuse) (fun _ => 0) None)) (mkIwreq true 4))
    as (r & H & H4 & _). exists r. exact (conj H H4).
Defined.
