(* ===== verification/EzSc.v ===== *)
(** * Smart configuration and device discovery

    Models [os_dep/linux/ez_sc.c] and its callers in [core/rtw_mlme_ext.c] and
    [os_dep/linux/ioctl_linux.c]: the vendor element carried by probe frames, the
    handlers of received probe requests and responses, and the ioctls of the
    configuration program. The file's globals are the record [ez_state]; a handler is
    a function from the state to its result and the new state. User memory is the
    parameter [copy_from_user]; what is handed to the user is logged. *)
From Stdlib Require Import ZArith Lia Bool String.
From stdpp Require Import base option list numbers.
From S2P Require Import Prelude Ies.
Local Open Scope Z_scope.

(** ** Data *)

Definition EZ_SYNC_CODE_LEN := 5.
Definition EZ_VALUE_LEN := 32.
Definition EZ_NEW_SC_BUF_LEN := 512.
Definition EZ_DEVICE_SN_LEN := 9.
Definition EZ_DEVICE_INFO_LEN := 41.
Definition WLAN_MAX_VENDOR_IE_LEN := 255.

(** The element of a probe frame; [__attribute__((packed))], 42 bytes. *)
(* src: include/ez_wifi.h:19-26 struct ez_probe_t *)
Record ez_probe_t : Type := mkProbe {
  element : Z;
  element_len : Z;
  sync : list Z;
  id : Z;
  plen : Z;         (** [len] *)
  value : list Z;
}.

(* src: include/ez_wifi.h:31-36 struct ez_new_sc_t *)
Record ez_new_sc_t : Type := mkNewSc {
  enable : Z;
  done_ : Z;
  buf_ : list Z;
  len_ : Z;
}.

(* src: os_dep/linux/ez_sc.c:24-31 globals *)
Record ez_state : Type := mkEz {
  err_status : Z;                  (** [s8] *)
  smart_flg : Z;
  scan_flag : Z;
  ez_new_sc : ez_new_sc_t;
  DeviceInfo : list Z;
  probe_resp_t : ez_probe_t;
  probe_req_t : ez_probe_t;
  vendor_ie : list Z;              (** [mlmepriv.vendor_ie], its five rows in one block *)
  vendor_ielen : Z;
  vendor_ie_mask : Z;
  scans : nat;                     (** calls of [rtw_set_802_11_bssid_list_scan] *)
  to_user : list (Z * list Z);     (** what [copy_to_user] was given: address, bytes *)
}.

Definition set_err (v : Z) (s : ez_state) : ez_state :=
  mkEz v (smart_flg s) (scan_flag s) (ez_new_sc s) (DeviceInfo s) (probe_resp_t s)
    (probe_req_t s) (vendor_ie s) (vendor_ielen s) (vendor_ie_mask s) (scans s) (to_user s).
Definition set_smart (v : Z) (s : ez_state) : ez_state :=
  mkEz (err_status s) v (scan_flag s) (ez_new_sc s) (DeviceInfo s) (probe_resp_t s)
    (probe_req_t s) (vendor_ie s) (vendor_ielen s) (vendor_ie_mask s) (scans s) (to_user s).
Definition set_scan (v : Z) (s : ez_state) : ez_state :=
  mkEz (err_status s) (smart_flg s) v (ez_new_sc s) (DeviceInfo s) (probe_resp_t s)
    (probe_req_t s) (vendor_ie s) (vendor_ielen s) (vendor_ie_mask s) (scans s) (to_user s).
Definition set_new_sc (v : ez_new_sc_t) (s : ez_state) : ez_state :=
  mkEz (err_status s) (smart_flg s) (scan_flag s) v (DeviceInfo s) (probe_resp_t s)
    (probe_req_t s) (vendor_ie s) (vendor_ielen s) (vendor_ie_mask s) (scans s) (to_user s).
Definition set_device (v : list Z) (s : ez_state) : ez_state :=
  mkEz (err_status s) (smart_flg s) (scan_flag s) (ez_new_sc s) v (probe_resp_t s)
    (probe_req_t s) (vendor_ie s) (vendor_ielen s) (vendor_ie_mask s) (scans s) (to_user s).
Definition set_resp (v : ez_probe_t) (s : ez_state) : ez_state :=
  mkEz (err_status s) (smart_flg s) (scan_flag s) (ez_new_sc s) (DeviceInfo s) v
    (probe_req_t s) (vendor_ie s) (vendor_ielen s) (vendor_ie_mask s) (scans s) (to_user s).
Definition set_req (v : ez_probe_t) (s : ez_state) : ez_state :=
  mkEz (err_status s) (smart_flg s) (scan_flag s) (ez_new_sc s) (DeviceInfo s) (probe_resp_t s)
    v (vendor_ie s) (vendor_ielen s) (vendor_ie_mask s) (scans s) (to_user s).
Definition set_vendor (ie : list Z) (len mask : Z) (s : ez_state) : ez_state :=
  mkEz (err_status s) (smart_flg s) (scan_flag s) (ez_new_sc s) (DeviceInfo s) (probe_resp_t s)
    (probe_req_t s) ie len mask (scans s) (to_user s).
Definition start_scan (s : ez_state) : ez_state :=
  mkEz (err_status s) (smart_flg s) (scan_flag s) (ez_new_sc s) (DeviceInfo s) (probe_resp_t s)
    (probe_req_t s) (vendor_ie s) (vendor_ielen s) (vendor_ie_mask s) (S (scans s)) (to_user s).
Definition log_user (addr : Z) (b : list Z) (s : ez_state) : ez_state :=
  mkEz (err_status s) (smart_flg s) (scan_flag s) (ez_new_sc s) (DeviceInfo s) (probe_resp_t s)
    (probe_req_t s) (vendor_ie s) (vendor_ielen s) (vendor_ie_mask s) (scans s)
    (to_user s ++ [(addr, b)]).

Definition lo (v : Z) : Z := v mod 256.
Definition hi (v : Z) : Z := v / 256 mod 256.
Definition le16 (a b : Z) : Z := a + 256 * b.

(** The struct's bytes in memory, little endian, and back. *)
Definition probe_bytes (p : ez_probe_t) : list Z :=
  [element p; element_len p] ++ sync p ++ [lo (id p); hi (id p); plen p] ++ value p.

Definition probe_of_bytes (b : list Z) : ez_probe_t :=
  match b with
  | e :: l :: s0 :: s1 :: s2 :: s3 :: s4 :: i0 :: i1 :: n :: v =>
      mkProbe e l [s0; s1; s2; s3; s4] (le16 i0 i1) n v
  | _ => mkProbe 0 0 [] 0 0 []
  end.

Definition SIZEOF_PROBE := 42.
Definition probe0 : ez_probe_t := mkProbe 0 0 (zeros 5) 0 0 (zeros 32).
Definition new_sc0 : ez_new_sc_t := mkNewSc 0 0 (zeros 512) 0.

(* src: os_dep/linux/ez_sc.c:33-33 ez_sync_code *)
Definition ez_sync_code : list Z := bytes_of "EZVIZ".

(** ** Small accessors *)

(* src: os_dep/linux/ez_sc.c:35-39 ez_set_join_fail_reason *)
Definition ez_set_join_fail_reason (result : Z) (s : ez_state) : Z * ez_state :=
  (result, set_err (s8 result) s).
(* src: os_dep/linux/ez_sc.c:41-44 ez_get_join_fail_reason *)
Definition ez_get_join_fail_reason (s : ez_state) : Z := err_status s.
(* src: os_dep/linux/ez_sc.c:46-50 set_smartconfig_flag *)
Definition set_smartconfig_flag (flag : Z) (s : ez_state) : Z * ez_state := (0, set_smart flag s).
(* src: os_dep/linux/ez_sc.c:52-55 check_scan_flag *)
Definition check_scan_flag (s : ez_state) : Z := scan_flag s.
(* src: os_dep/linux/ez_sc.c:109-113 set_scan_flag *)
Definition set_scan_flag (flag : Z) (s : ez_state) : Z * ez_state :=
  (0, set_scan (if flag =? 0 then 0 else 1) s).

(** [null_sn] is never written: nine zero bytes. *)
(* src: os_dep/linux/ez_sc.c:373-376 check_sn_valid *)
Definition check_sn_valid (s : ez_state) : bool :=
  negb (list_eqb (take 9 (DeviceInfo s)) (zeros 9)).

(** ** Looking for the element *)

(* src: os_dep/linux/ez_sc.c:69-83 check_probe_sync_EID *)
Definition eid_turn (sn_valid : bool) (buf : list Z) (len : Z) (i : Z) : res (Z + Z) :=
  if negb (i <? len - 2) then Ok (inr 0)
  else
    c <- rd buf i ;;
    found <- (if if sn_valid then (c =? 207) || (c =? 209) else c =? 207
              then memcmp_eq buf (i + 2) ez_sync_code
              else Ok false) ;;
    if found then Ok (inr i)
    else n <- rd buf (i + 1) ;; Ok (inl (i + (n + 2))).

(** [None] is a NULL buffer. *)
(* src: os_dep/linux/ez_sc.c:57-86 check_probe_sync_EID *)
Definition check_probe_sync_EID (s : ez_state) (buf : option (list Z)) (len : Z) : res Z :=
  match buf with
  | None => Ok (-1)
  | Some buf => loop (eid_turn (check_sn_valid s) buf len) (S (Z.to_nat len)) 0
  end.

(* src: os_dep/linux/ez_sc.c:392-398 check_probe_sync_eid208 *)
Definition eid208_turn (buf : list Z) (len : Z) (i : Z) : res (Z + Z) :=
  if negb (i <? len - 8) then Ok (inr 0)
  else
    c <- rd buf i ;;
    found <- (if c =? 208 then memcmp_eq buf (i + 2) ez_sync_code else Ok false) ;;
    if found then Ok (inr i) else Ok (inl (i + 1)).

(* src: os_dep/linux/ez_sc.c:384-401 check_probe_sync_eid208 *)
Definition check_probe_sync_eid208 (buf : option (list Z)) (len : Z) : res Z :=
  match buf with
  | None => Ok (-1)
  | Some buf => loop (eid208_turn buf len) (S (Z.to_nat len)) 0
  end.

(** ** Received frames *)

(** [buf = pframe + 24]: the bytes of the frame's block after the MAC header. *)
Definition after_header (frame : list Z) : list Z := drop 24 frame.

(* src: os_dep/linux/ez_sc.c:88-107 ez_probe_req_handler *)
Definition ez_probe_req_handler (pframe : list Z) (len : Z) (s : ez_state) : res (Z * ez_state) :=
  let buf := after_header pframe in
  offset <- check_probe_sync_EID s (Some buf) (len - 24) ;;
  if 0 <? offset then
    ie_len <- rd buf (offset + 1) ;;
    ie <- rdn buf (offset + 2) ie_len ;;
    b <- wrn (buf_ (ez_new_sc s)) 0 ie ;;
    Ok (0, set_new_sc (mkNewSc (enable (ez_new_sc s)) 1 b ie_len) s)
  else Ok (0, s).

(* src: os_dep/linux/ez_sc.c:239-272 rtw_ezviz_ie_set *)
Definition rtw_ezviz_ie_set (mask : Z) (ie : list Z) (ielen : Z) (s : ez_state)
    : res (Z * ez_state) :=
  if mask =? 0 then
    v <- wrn (vendor_ie s) 0 (zeros (Z.to_nat (4 * WLAN_MAX_VENDOR_IE_LEN))) ;;
    Ok (-14, set_vendor v 0 0 s)
  else
    src <- rdn ie 0 ielen ;;
    v <- wrn (vendor_ie s) 0 src ;;
    Ok (0, set_vendor v ielen mask s).

(* src: os_dep/linux/ez_sc.c:406-432 ez_probe_response_eid208_handler *)
Definition ez_probe_response_eid208_handler (pframe : option (list Z)) (len : Z) (s : ez_state)
    : res (Z * ez_state) :=
  if negb (plen (probe_resp_t s) =? 0) then Ok (0, s)
  else
    match pframe with
    | None => Ok (-1, s)
    | Some f =>
        if len <=? 23 then Ok (-1, s)
        else
          let buf := after_header f in
          offset <- check_probe_sync_eid208 (Some buf) (len - 24) ;;
          if 0 <? offset then
            b <- rdn buf offset SIZEOF_PROBE ;;
            Ok (offset, set_resp (probe_of_bytes b) s)
          else Ok (offset, s)
    end.

(** The answer to an inquiry after the join-failure reason: the reason is appended as
    the sub-element 0x6994. *)
(* src: os_dep/linux/ez_sc.c:457-469 ez_probe_requst_eid208_handler *)
Definition append_reason (p : ez_probe_t) (err : Z) : res ez_probe_t :=
  v <- wrn (value p) (plen p) [lo 0x6994; hi 0x6994; 1; u8 err] ;;
  Ok (mkProbe (element p) (u8 (element_len p + 4)) (sync p) 0x6993 (plen p) v).

(* src: os_dep/linux/ez_sc.c:437-481 ez_probe_requst_eid208_handler *)
Definition ez_probe_requst_eid208_handler (pframe : option (list Z)) (len : Z) (s : ez_state)
    : res (Z * ez_state) :=
  match pframe with
  | None => Ok (-1, s)
  | Some f =>
      if len <=? 23 then Ok (-1, s)
      else
        let buf := after_header f in
        offset <- check_probe_sync_eid208 (Some buf) (len - 24) ;;
        if offset <=? 0 then Ok (offset, s)
        else
          b <- rdn buf offset SIZEOF_PROBE ;;
          let p := probe_of_bytes b in
          let s := set_resp p s in
          if negb (list_eqb (take 9 (value p)) (take 9 (DeviceInfo s))) then Ok (0, s)
          else if id p =? 0x6990 then
            Ok (offset, set_resp (mkProbe (element p) (element_len p) (sync p) 0x6991 (plen p)
                                    (value p)) s)
          else if id p =? 0x6992 then
            if err_status s =? 0 then Ok (0, s)
            else p' <- append_reason p (err_status s) ;; Ok (offset, set_resp p' s)
          else Ok (offset, s)
  end.

(** The driver's own part of [OnProbeReq]. [len - WLAN_HDR_A3_LEN] is unsigned. *)
(* src: core/rtw_mlme_ext.c:1189-1202 OnProbeReq *)
Definition ez_on_probe_req (pframe : list Z) (len : Z) (s : ez_state) : res ez_state :=
  s <- (if negb (enable (ez_new_sc s) =? 0) && ((done_ (ez_new_sc s) =? 0) && (255 <? u32 (len - 24)))
        then '(_, s') <- ez_probe_req_handler pframe len s ;; Ok s'
        else Ok s) ;;
  '(ez_ret, s) <- ez_probe_requst_eid208_handler (Some pframe) len s ;;
  if 0 <? ez_ret then
    '(_, s) <- rtw_ezviz_ie_set (BIT 2) (probe_bytes (probe_resp_t s))
                 (u8 (element_len (probe_resp_t s) + 2)) s ;;
    Ok s
  else if negb (vendor_ielen s =? 0) then
    '(_, s) <- rtw_ezviz_ie_set (BIT 2) [] 0 s ;; Ok s
  else Ok s.

(* src: core/rtw_mlme_ext.c:1292-1294 OnProbeRsp *)
Definition ez_on_probe_rsp (pframe : list Z) (len : Z) (s : ez_state) : res ez_state :=
  '(_, s') <- ez_probe_response_eid208_handler (Some pframe) len s ;; Ok s'.

(** What row 0 contributes to a management frame of the type [bit]. *)
(* src: core/rtw_mlme_ext.c:3452-3467 rtw_build_vendor_ie *)
Definition built_ie (bit : Z) (s : ez_state) : res (list Z) :=
  if (0 <? vendor_ielen s) && negb (Z.land (vendor_ie_mask s) bit =? 0)
  then rdn (vendor_ie s) 0 (vendor_ielen s) else Ok [].

(** ** ioctls *)

(** [struct iw_point]: the user pointer, 0 for NULL, and the 16-bit length. *)
Record iw_point : Type := mkIw { pointer : Z; length_ : Z }.

Definition le32 (b : list Z) : Z :=
  match b with
  | [a; b; c; d] => a + 256 * b + 65536 * c + 16777216 * d
  | _ => 0
  end.

(* src: include/ez_wifi_fn.h:17-32 enum ez_new_sc_cmd *)
Definition NEW_SC_INIT := 0.
Definition NEW_SC_DEINIT := 1.
Definition NEW_SC_POLL_RESULT := 2.
Definition NEW_SC_GET_RESULTS := 3.
Definition NEW_SC_SET_REASON := 4.
Definition SCAN_IDLE := 0.
Definition TRIG_SCAN_DEVICE := 1.
Definition POLL_DEVICE := 2.
Definition TRIG_SCAN_REASON := 3.
Definition POLL_REASON := 4.

(* src: include/ez_wifi_fn.h:35-43 enum ez_ioctl_cmd *)
Definition EZ_NEW_SMART_CONFIG_IO := 0x8BF5.
Definition EZ_IOCTL_SET_NEW_SC := 0x8C05.
Definition EZ_IOCTL_DEVINFO_IO := 0x8C07.
Definition EZ_IOCTL_SCAN_IO := 0x8C08.

Section Ioctl.
  (** [copy_from_user addr n]: the [n] bytes of the destination and how many of them
      were not copied; [copy_to_user addr bytes]: how many were not copied. *)
  Context (copy_from_user : Z -> Z -> list Z * Z) (copy_to_user : Z -> list Z -> Z).

Definition put_user (addr : Z) (b : list Z) (s : ez_state) : Z * ez_state :=
  (copy_to_user addr b, log_user addr b s).

(* src: os_dep/linux/ez_sc.c:153-209 ez_set_new_sc *)
Definition ez_set_new_sc (iwp : iw_point) (s : ez_state) : res (Z * ez_state) :=
  let '(sc_cmd, nleft) := copy_from_user (pointer iwp) 8 in
  if negb (nleft =? 0) then Ok (-14, s)
  else
    let cmd := s32 (le32 (take 4 sc_cmd)) in
    let sc := ez_new_sc s in
    if cmd =? NEW_SC_INIT then Ok (0, set_err 0 (set_new_sc (mkNewSc 1 0 (zeros 512) 0) s))
    else if cmd =? NEW_SC_DEINIT then Ok (0, set_err 0 (set_new_sc new_sc0 s))
    else if cmd =? NEW_SC_POLL_RESULT then
      Ok (if done_ sc =? 0 then 0 else 308,
          set_new_sc (mkNewSc (enable sc) 0 (buf_ sc) (len_ sc)) s)
    else if cmd =? NEW_SC_GET_RESULTS then
      let '(a, r1) := copy_from_user (pointer iwp + 4) 4 in
      let addr := le32 a in
      out <- rdn (buf_ sc) 0 (len_ sc) ;;
      let '(r2, s) := put_user (u32 (addr + 8)) out s in
      let '(r3, s) := put_user addr [lo (len_ sc); hi (len_ sc)] s in
      Ok (Z.lor (Z.lor r1 r2) r3, set_new_sc (mkNewSc (enable sc) 0 (buf_ sc) (len_ sc)) s)
    else if cmd =? NEW_SC_SET_REASON then
      let '(a, r1) := copy_from_user (pointer iwp + 4) 4 in
      let '(b, r2) := copy_from_user (le32 a) 8 in
      reason <- rd b 2 ;;
      Ok (Z.lor r1 r2, set_err (s8 reason) s)
    else Ok (-22, s).

(* src: os_dep/linux/ez_sc.c:211-237 ez_new_sc_ioctl *)
Definition ez_new_sc_ioctl (dev : bool) (rq : option iw_point) (s : ez_state) : res (Z * ez_state) :=
  match dev, rq with
  | true, Some iwp => ez_set_new_sc iwp s
  | _, _ => Ok (-1, s)
  end.

(** The result is the [u16] [ret]. *)
(* src: os_dep/linux/ez_sc.c:277-317 ez_new_sc_ioctl_handle *)
Definition ez_new_sc_ioctl_handle (dev : bool) (rq : option iw_point) (s : ez_state)
    : res (Z * ez_state) :=
  match dev, rq with
  | true, Some iwp =>
      if pointer iwp =? 0 then Ok (-14, s)
      else
        let buf_len := length_ iwp in
        let sc := ez_new_sc s in
        let s := set_new_sc (mkNewSc (enable sc) (done_ sc) (zeros 512) (len_ sc)) s in
        if EZ_NEW_SC_BUF_LEN <? buf_len then Ok (-14, s)
        else
          let '(d, nleft) := copy_from_user (pointer iwp) buf_len in
          b <- wrn (zeros 512) 0 d ;;
          let ret := u16 nleft in
          if ret =? 0 then
            let s := set_new_sc (mkNewSc (enable sc) (done_ sc) b (u16 buf_len)) s in
            '(_, s) <- rtw_ezviz_ie_set (BIT 1) b (u8 buf_len) s ;;
            Ok (ret, set_smart 1 (start_scan s))
          else Ok (ret, set_new_sc (mkNewSc (enable sc) (done_ sc) b (len_ sc)) s)
  | _, _ => Ok (-14, s)
  end.

(* src: os_dep/linux/ez_sc.c:324-371 ez_device_info_ioctl_handle *)
Definition ez_device_info_ioctl_handle (dev : bool) (rq : option iw_point) (s : ez_state)
    : res (Z * ez_state) :=
  match dev, rq with
  | true, Some iwp =>
      if pointer iwp =? 0 then Ok (1, s)
      else
        let len := length_ iwp in
        let info := zeros 41 in
        if len <=? 8 then Ok (0, set_device info s)
        else
          let '(sn, ret) := copy_from_user (pointer iwp) EZ_DEVICE_SN_LEN in
          info <- wrn info 0 sn ;;
          if negb (ret =? 0) then Ok (ret, set_device info s)
          else if len - EZ_DEVICE_SN_LEN =? 0 then Ok (0, set_device info s)
          else
            let '(model, ret) :=
              copy_from_user (pointer iwp + EZ_DEVICE_SN_LEN) (len - EZ_DEVICE_SN_LEN) in
            info <- wrn info EZ_DEVICE_SN_LEN model ;;
            Ok (ret, set_device info s)
  | _, _ => Ok (2, s)
  end.

(** [TRIG_SCAN_DEVICE] and [TRIG_SCAN_REASON]; they differ in the [id] only. *)
(* src: os_dep/linux/ez_sc.c:525-557 ez_scan_device_ioctl_handle *)
Definition trig_scan (id' : Z) (sc_len : Z) (sc_value : list Z) (s : ez_state) : res (Z * ez_state) :=
  let q := probe_req_t s in
  let q := mkProbe 208 (u8 (sc_len + 8)) (bytes_of "EZVIZ") id' (plen q) (value q) in
  q <- (if negb (sc_len =? 0) then
          src <- rdn sc_value 0 sc_len ;;
          v <- wrn (value q) 0 src ;;
          Ok (mkProbe (element q) (element_len q) (sync q) (id q) sc_len v)
        else Ok q) ;;
  let s := set_req q s in
  if plen q =? 0 then Ok (0, s)
  else
    let s := set_resp probe0 s in
    '(ret, s) <- rtw_ezviz_ie_set (BIT 1) (probe_bytes q) (u8 (element_len q + 2)) s ;;
    Ok (ret, set_scan 1 (start_scan s)).

(** The value field of the reply to [POLL_REASON]. *)
(* src: os_dep/linux/ez_sc.c:600-613 ez_scan_device_ioctl_handle *)
Definition poll_reason (sc_value : list Z) (s : ez_state) : res (Z * list Z) :=
  let p := probe_resp_t s in
  reason <- rdn (value p) (plen p) 4 ;;
  match reason with
  | [t0; t1; n; v] =>
      if le16 t0 t1 =? 0x6994 then
        src <- rdn [v] 0 n ;;
        sv <- wrn sc_value 0 src ;;
        Ok (n, sv)
      else sv <- wr sc_value 0 0xff ;; Ok (1, sv)
  | _ => Fault OobRead
  end.

(* src: os_dep/linux/ez_sc.c:499-624 ez_scan_device_ioctl_handle *)
Definition ez_scan_device_ioctl_handle (dev : bool) (rq : option iw_point) (s : ez_state)
    : res (Z * ez_state) :=
  match dev, rq with
  | true, Some iwp =>
      let '(sc, nleft) := copy_from_user (pointer iwp) 34 in
      if negb (nleft =? 0) then Ok (-1, s)
      else
        match sc with
        | sc_cmd :: sc_len :: sc_value =>
            if sc_cmd =? SCAN_IDLE then Ok (0, set_resp probe0 (set_req probe0 s))
            else if sc_cmd =? TRIG_SCAN_DEVICE then trig_scan 0x6990 sc_len sc_value s
            else if sc_cmd =? POLL_DEVICE then
              let p := probe_resp_t s in
              src <- rdn (value p) 0 (plen p) ;;
              sv <- wrn sc_value 0 src ;;
              Ok (put_user (pointer iwp) (sc_cmd :: plen p :: sv) s)
            else if sc_cmd =? TRIG_SCAN_REASON then trig_scan 0x6992 sc_len sc_value s
            else if sc_cmd =? POLL_REASON then
              '(n, sv) <- poll_reason sc_value s ;;
              Ok (put_user (pointer iwp) (sc_cmd :: n :: sv) s)
            else Ok (-3, s)
        | _ => Fault OobRead
        end
  | _, _ => Ok (-1, s)
  end.

(** The interface type of the device, as far as the dispatch looks at it. *)
Inductive iftype : Type := AP | STATION | OtherType.

(** The dispatch of [rtw_ioctl]; [None]: the command is not one of this file's. *)
(* src: os_dep/linux/ioctl_linux.c:13120-13141 rtw_ioctl *)
Definition ez_ioctl (cmd : Z) (ift : iftype) (rq : option iw_point) (s : ez_state)
    : option (res (Z * ez_state)) :=
  if cmd =? EZ_NEW_SMART_CONFIG_IO then
    Some (match ift with AP => ez_new_sc_ioctl true rq s | _ => Ok (22, s) end)
  else if cmd =? EZ_IOCTL_SET_NEW_SC then
    Some (match ift with STATION => ez_new_sc_ioctl_handle true rq s | _ => Ok (22, s) end)
  else if cmd =? EZ_IOCTL_SCAN_IO then
    Some (match ift with STATION => ez_scan_device_ioctl_handle true rq s | _ => Ok (22, s) end)
  else if cmd =? EZ_IOCTL_DEVINFO_IO then Some (ez_device_info_ioctl_handle true rq s)
  else None.
End Ioctl.

(** ** The search over elements *)

(** Is the element a carrier of the payload? The comparison runs on past the body. *)
Definition carries (sn_valid : bool) (e : elem) (rest : list Z) : bool :=
  (if sn_valid then (fst e =? 207) || (fst e =? 209) else fst e =? 207) &&
  is_prefix ez_sync_code (snd e ++ rest).

(** The offset of the first carrier, 0 when there is none; a last element without a
    body is not looked at. *)
Fixpoint first_carrier (sn_valid : bool) (off : Z) (es : list elem) (pad : list Z) : Z :=
  match es with
  | [] => 0
  | e :: es' =>
      if (zlen (enc (e :: es')) <=? 2) then 0
      else if carries sn_valid e (enc es' ++ pad) then off
      else first_carrier sn_valid (off + zlen (enc1 e)) es' pad
  end.

Lemma check_probe_sync_EID_loop sn es : forall pre pad fuel,
  Forall elem_ok es -> 5 <= zlen pad -> zlen (enc es) < Z.of_nat fuel ->
  loop (eid_turn sn (pre ++ enc es ++ pad) (zlen (pre ++ enc es))) fuel (zlen pre) =
    Ok (first_carrier sn (zlen pre) es pad).
Proof.
  induction es as [|e es IH]; intros pre pad fuel Hes Hpad Hfuel;
    (destruct fuel as [|fuel]; [unfold zlen in Hfuel; lia|]).
  - cbn [loop]. unfold eid_turn. rewrite (proj2 (Z.ltb_ge _ _)) by (simpl; rewrite app_nil_r; lia).
    done.
  - inversion_clear Hes as [|? ? He Hes']. cbn [loop first_carrier]. unfold eid_turn at 1.
    pose proof (zlen_nonneg (enc es)). pose proof (zlen_nonneg (snd e)).
    rewrite zlen_app, zlen_enc_cons in *.
    destruct (Z.leb_spec (2 + zlen (snd e) + zlen (enc es)) 2).
    + rewrite (proj2 (Z.ltb_ge _ _)) by lia. done.
    + rewrite (proj2 (Z.ltb_lt _ _)) by lia. cbn [negb]. rewrite rd_id. cbn [bind].
      assert (Hm : memcmp_eq (pre ++ enc (e :: es) ++ pad) (zlen pre + 2) ez_sync_code =
                   Ok (is_prefix ez_sync_code (snd e ++ enc es ++ pad))).
      { unfold memcmp_eq. rewrite drop_body. apply memcmp_l_long. change (length ez_sync_code) with 5%nat.
        unfold zlen in Hpad. rewrite !length_app. lia. }
      unfold carries. destruct (if sn then _ else _); cbn [andb]; [rewrite Hm; cbn [bind];
        destruct (is_prefix _ _); [done|] | cbn [bind]];
        (rewrite rd_len; cbn [bind]; rewrite enc_shift;
         replace (zlen pre + (zlen (snd e) + 2)) with (zlen (pre ++ enc1 e))
           by (rewrite zlen_app, zlen_enc1; lia);
         replace (zlen pre + zlen (enc1 e)) with (zlen (pre ++ enc1 e)) by (rewrite zlen_app; lia);
         replace (zlen pre + (2 + zlen (snd e) + zlen (enc es))) with (zlen ((pre ++ enc1 e) ++ enc es))
           by (rewrite !zlen_app, zlen_enc1; lia);
         apply IH; [done | done | lia]).
Qed.

Lemma check_probe_sync_EID_spec s es pad :
  Forall elem_ok es -> 5 <= zlen pad ->
  check_probe_sync_EID s (Some (enc es ++ pad)) (zlen (enc es)) =
    Ok (first_carrier (check_sn_valid s) 0 es pad).
Proof.
  intros. apply (check_probe_sync_EID_loop (check_sn_valid s) es []); [done | done|].
  pose proof (zlen_nonneg (enc es)). lia.
Qed.

(** ** The search for the 208 element *)

(** The element's first byte and, two bytes on, the sync code. *)
Definition is208 (l : list Z) : bool :=
  match l with c :: _ :: t => (c =? 208) && is_prefix ez_sync_code t | _ => false end.

Definition at208 (buf : list Z) (i : Z) : bool := is208 (drop (Z.to_nat i) buf).

Lemma eid208_turn_in buf len i :
  0 <= i < len - 8 -> len <= zlen buf ->
  eid208_turn buf len i = Ok (if at208 buf i then inr i else inl (i + 1)).
Proof.
  intros Hi Hlen. unfold eid208_turn, at208. rewrite (proj2 (Z.ltb_lt _ _)) by lia. cbn [negb].
  unfold memcmp_eq. replace (Z.to_nat (i + 2)) with (Z.to_nat i + 2)%nat by lia.
  rewrite <- drop_drop. assert (Hl : (8 <= length (drop (Z.to_nat i) buf))%nat).
  { unfold zlen in Hlen. rewrite length_drop. lia. }
  destruct (drop (Z.to_nat i) buf) as [|c [|d t]] eqn:E; simpl in Hl; [lia | lia |].
  assert (Hr : rd buf i = Ok c).
  { apply rd_Ok. split; [lia|]. rewrite <- (Nat.add_0_r (Z.to_nat i)), <- lookup_drop, E. done. }
  rewrite Hr. cbn [bind drop is208]. change (drop 0 t) with t.
  destruct (c =? 208); cbn [andb]; [|done].
  rewrite memcmp_l_long by (change (length ez_sync_code) with 5%nat; lia).
  cbn [bind]. by destruct (is_prefix _ _).
Qed.

Lemma check_probe_sync_eid208_spec buf len :
  0 <= len <= zlen buf ->
  exists r, check_probe_sync_eid208 (Some buf) len = Ok r /\
    ((0 <= r < len - 8 /\ at208 buf r = true /\ forall k, 0 <= k < r -> at208 buf k = false) \/
     (r = 0 /\ forall k, 0 <= k < len - 8 -> at208 buf k = false)).
Proof.
  intros Hlen. unfold check_probe_sync_eid208.
  refine (loop_spec (eid208_turn buf len)
            (fun i => 0 <= i /\ forall k, 0 <= k < i -> at208 buf k = false)
            (fun r => exists r', r = Ok r' /\ _) (fun i => Z.max 0 (len - i)) _ _ _ _ _ _); cbn beta.
  - intros i [Hi Hq]. destruct (Z.ltb_spec i (len - 8)) as [Hlt|Hge].
    + rewrite eid208_turn_in by lia. destruct (at208 buf i) eqn:Ea.
      * exists i. split; [done|]. left. split_and!; [lia | lia | done | done].
      * split; [split; [lia|] | lia]. intros k Hk. destruct (decide (k = i)) as [->|]; [done|].
        apply Hq. lia.
    + unfold eid208_turn. rewrite (proj2 (Z.ltb_ge _ _)) by lia. cbn [negb].
      exists 0. split; [done|]. right. split; [done|]. intros k Hk. apply Hq. lia.
  - split; [lia|]. intros. lia.
  - lia.
  - lia.
Qed.

(** A carrier at [zlen pre] with nothing that looks like one before it is found. *)
Lemma check_probe_sync_eid208_at pre b len :
  (forall k, 0 <= k < zlen pre -> at208 (pre ++ b) k = false) -> is208 b = true ->
  zlen pre + 8 < len <= zlen (pre ++ b) ->
  check_probe_sync_eid208 (Some (pre ++ b)) len = Ok (zlen pre).
Proof.
  intros Hq Hb Hlen. pose proof (zlen_nonneg pre).
  assert (Hat : at208 (pre ++ b) (zlen pre) = true) by (unfold at208; rewrite drop_zlen_app; done).
  destruct (check_probe_sync_eid208_spec (pre ++ b) len ltac:(lia))
    as (r & E & [(Hr & Ha & Hf) | (-> & Hf)]).
  - rewrite E. f_equal. destruct (Z.lt_total r (zlen pre)) as [Hlt|[Heq|Hgt]]; [|done|].
    + rewrite Hq in Ha by lia. done.
    + rewrite Hf in Hat by lia. done.
  - rewrite Hf in Hat by lia. done.
Qed.

(** ** The invariant of the globals *)

Record probe_ok (p : ez_probe_t) : Prop := {
  pk_sync : length (sync p) = 5%nat;
  pk_value : length (value p) = 32%nat;
  pk_len : is_byte (plen p);
  pk_elen : is_byte (element_len p);
}.

Record ez_ok (s : ez_state) : Prop := {
  ok_buf : zlen (buf_ (ez_new_sc s)) = EZ_NEW_SC_BUF_LEN;
  ok_len : 0 <= len_ (ez_new_sc s) <= EZ_NEW_SC_BUF_LEN;
  ok_info : zlen (DeviceInfo s) = EZ_DEVICE_INFO_LEN;
  ok_vendor : zlen (vendor_ie s) = 5 * WLAN_MAX_VENDOR_IE_LEN;
  ok_vlen : 0 <= vendor_ielen s <= WLAN_MAX_VENDOR_IE_LEN;
  ok_resp : probe_ok (probe_resp_t s);
  ok_req : probe_ok (probe_req_t s);
}.

Lemma probe0_ok : probe_ok probe0.
Proof. constructor; done. Qed.

Lemma probe_of_bytes_ok b :
  bytes b -> zlen b = SIZEOF_PROBE -> probe_ok (probe_of_bytes b).
Proof.
  intros Hb Hl. apply (zlen_length _ 42) in Hl.
  do 10 (destruct b as [|?z b]; [discriminate|]). simpl.
  unfold bytes in Hb. repeat match goal with H : Forall _ (_ :: _) |- _ => inversion_clear H end.
  constructor; simpl in *; [done | lia | done | done].
Qed.

Lemma rtw_ezviz_ie_set_ok mask ie ielen s r s' :
  rtw_ezviz_ie_set mask ie ielen s = Ok (r, s') -> 0 <= ielen <= WLAN_MAX_VENDOR_IE_LEN ->
  ez_ok s -> ez_ok s'.
Proof.
  unfold rtw_ezviz_ie_set. intros H Hl []. destruct (mask =? 0); res_inv; constructor; simpl; auto;
    try (unfold WLAN_MAX_VENDOR_IE_LEN; lia);
    match goal with H : wrn _ _ _ = Ok _ |- _ => rewrite (wrn_zlen _ _ _ _ H) end; done.
Qed.

Lemma u8_le_vendor z : 0 <= u8 z <= WLAN_MAX_VENDOR_IE_LEN.
Proof. pose proof (u8_range z) as H. unfold is_byte in H. unfold WLAN_MAX_VENDOR_IE_LEN. lia. Qed.

#[local] Hint Resolve u8_le_vendor probe0_ok : core.

Lemma ez_probe_req_handler_ok f len s r s' :
  bytes f -> ez_probe_req_handler f len s = Ok (r, s') -> ez_ok s -> ez_ok s'.
Proof.
  unfold ez_probe_req_handler. intros Hf H Hok. res_inv. destruct (0 <? a); res_inv; [|done].
  assert (is_byte a0) as Hby by (eapply rd_byte; [|done]; by apply Forall_drop).
  destruct Hok. constructor; simpl; auto.
  - by rewrite (wrn_zlen _ _ _ _ Ha2).
  - unfold is_byte in Hby. unfold EZ_NEW_SC_BUF_LEN. lia.
Qed.

Lemma set_resp_ok p s : probe_ok p -> ez_ok s -> ez_ok (set_resp p s).
Proof. intros ? []. constructor; done. Qed.

Lemma response_handler_ok f len s r s' :
  bytes f -> ez_probe_response_eid208_handler (Some f) len s = Ok (r, s') -> ez_ok s -> ez_ok s'.
Proof.
  unfold ez_probe_response_eid208_handler. intros Hf H Hok.
  destruct (negb _); [res_inv; done|]. destruct (len <=? 23); [res_inv; done|].
  res_inv. destruct (0 <? a); res_inv; [|done].
  apply set_resp_ok; [|done]. apply probe_of_bytes_ok; [|by eapply rdn_zlen].
  eapply rdn_bytes; [|done]. by apply Forall_drop.
Qed.

Lemma append_reason_ok p err p' : append_reason p err = Ok p' -> probe_ok p -> probe_ok p'.
Proof.
  unfold append_reason. intros H []. res_inv. constructor; simpl; auto.
  - apply wrn_zlen in Ha. unfold zlen in Ha. lia.
  - apply u8_range.
Qed.

Lemma requst_handler_ok f len s r s' :
  bytes f -> ez_probe_requst_eid208_handler (Some f) len s = Ok (r, s') -> ez_ok s -> ez_ok s'.
Proof.
  unfold ez_probe_requst_eid208_handler. intros Hf H Hok.
  destruct (len <=? 23); [res_inv; done|]. res_inv. destruct (a <=? 0); [res_inv; done|]. res_inv.
  assert (Hp : probe_ok (probe_of_bytes a0)).
  { apply probe_of_bytes_ok; [|by eapply rdn_zlen]. eapply rdn_bytes; [|done]. by apply Forall_drop. }
  assert (Hs := set_resp_ok _ _ Hp Hok). cbn zeta in H.
  destruct (negb _); [res_inv; done|].
  destruct (id _ =? 0x6990). { res_inv. apply set_resp_ok; [|done]. destruct Hp. by constructor. }
  destruct (id _ =? 0x6992); [|res_inv; done].
  destruct (err_status _ =? 0); [res_inv; done|]. res_inv.
  apply set_resp_ok; [|done]. by eapply append_reason_ok.
Qed.

(** [res_inv] for handlers that return pairs. *)
Ltac ez_inv :=
  repeat (res_inv; cbn beta iota in *; res_inv; match goal with
                   | p : _ * ez_state |- _ => destruct p
                   | p : Z * list Z |- _ => destruct p
                   end; cbn beta iota in *);
  res_inv.

Lemma ez_on_probe_req_ok f len s s' :
  bytes f -> ez_on_probe_req f len s = Ok s' -> ez_ok s -> ez_ok s'.
Proof.
  unfold ez_on_probe_req. intros Hf H Hok. res_inv.
  assert (ez_ok a) as Hok1.
  { destruct (negb _ && _); ez_inv; [|done]. by eapply ez_probe_req_handler_ok. }
  destruct a0 as [r s2]. apply requst_handler_ok in Ha0; [|done|done].
  destruct (0 <? r); [|destruct (negb (vendor_ielen s2 =? 0))]; ez_inv; try done;
    (eapply rtw_ezviz_ie_set_ok; [exact Ha1 | auto | done]).
  unfold WLAN_MAX_VENDOR_IE_LEN. lia.
Qed.

(** ** ioctls keep the invariant *)

Section Steps.
  Context (cfu : Z -> Z -> list Z * Z) (ctu : Z -> list Z -> Z).

(** The destination of [copy_from_user] has the length asked for, and holds bytes. *)
Definition user_ok : Prop :=
  forall a n, 0 <= n -> zlen (fst (cfu a n)) = n /\ bytes (fst (cfu a n)).

Context (Hcfu : user_ok).

Lemma user_len a n d r : cfu a n = (d, r) -> 0 <= n -> zlen d = n /\ bytes d.
Proof. intros E Hn. specialize (Hcfu a n Hn). rewrite E in Hcfu. done. Qed.

Lemma set_new_sc_ok v s :
  zlen (buf_ v) = EZ_NEW_SC_BUF_LEN -> 0 <= len_ v <= EZ_NEW_SC_BUF_LEN ->
  ez_ok s -> ez_ok (set_new_sc v s).
Proof. intros ?? []. constructor; done. Qed.

Lemma log_user_ok a b s : ez_ok s -> ez_ok (log_user a b s).
Proof. intros []. constructor; done. Qed.

Lemma set_err_ok v s : ez_ok s -> ez_ok (set_err v s).
Proof. intros []. constructor; done. Qed.

Lemma set_device_ok v s : zlen v = EZ_DEVICE_INFO_LEN -> ez_ok s -> ez_ok (set_device v s).
Proof. intros ? []. constructor; done. Qed.

#[local] Hint Resolve set_new_sc_ok log_user_ok set_err_ok ok_buf ok_len set_resp_ok : core.

Lemma ez_set_new_sc_ok iwp s r s' :
  ez_set_new_sc cfu ctu iwp s = Ok (r, s') -> ez_ok s -> ez_ok s'.
Proof.
  unfold ez_set_new_sc. intros H Hok.
  assert (0 <= 0 <= EZ_NEW_SC_BUF_LEN) by (unfold EZ_NEW_SC_BUF_LEN; lia).
  destruct (cfu _ 8) as [c left8]. destruct (negb _); [res_inv; done|].
  destruct (s32 _ =? NEW_SC_INIT). { res_inv. apply set_err_ok, set_new_sc_ok; done. }
  destruct (s32 _ =? NEW_SC_DEINIT). { res_inv. apply set_err_ok, set_new_sc_ok; done. }
  destruct (s32 _ =? NEW_SC_POLL_RESULT). { res_inv. apply set_new_sc_ok; cbn [buf_ len_]; auto. }
  destruct (s32 _ =? NEW_SC_GET_RESULTS).
  { destruct (cfu _ 4). unfold put_user in H. res_inv. apply set_new_sc_ok; cbn [buf_ len_]; auto. }
  destruct (s32 _ =? NEW_SC_SET_REASON); [|res_inv; done].
  destruct (cfu _ 4) as [d r1]. destruct (cfu _ 8). res_inv. auto.
Qed.

(** Reading the results never leaves the buffer, and no command faults. *)
Lemma ez_set_new_sc_total iwp s : ez_ok s -> exists r s', ez_set_new_sc cfu ctu iwp s = Ok (r, s').
Proof.
  intros Hok. unfold ez_set_new_sc.
  destruct (cfu (pointer iwp) 8) as [c l8]. destruct (negb _); [eauto|].
  destruct (s32 _ =? NEW_SC_INIT); [eauto|]. destruct (s32 _ =? NEW_SC_DEINIT); [eauto|].
  destruct (s32 _ =? NEW_SC_POLL_RESULT); [eauto|]. destruct (s32 _ =? NEW_SC_GET_RESULTS).
  - destruct (cfu _ 4) as [a r1]. destruct (ok_len s Hok). rewrite rdn_in; [|lia|lia|].
    + unfold put_user. cbn [bind]. eauto.
    + rewrite (ok_buf s Hok). lia.
  - destruct (s32 _ =? NEW_SC_SET_REASON); [|eauto].
    destruct (cfu _ 4) as [a r1]. destruct (cfu (le32 a) 8) as [b r2] eqn:Eb.
    apply user_len in Eb as [Hb _]; [|lia]. destruct (rd_in b 2) as [v ->]; [lia|].
    cbn [bind]. eauto.
Qed.

Definition iw_ok (iwp : iw_point) : Prop := 0 <= length_ iwp < 65536.

Lemma ez_new_sc_ioctl_handle_ok dev iwp s r s' :
  iw_ok iwp -> ez_new_sc_ioctl_handle cfu dev (Some iwp) s = Ok (r, s') -> ez_ok s -> ez_ok s'.
Proof.
  unfold ez_new_sc_ioctl_handle, iw_ok. intros Hl H Hok. destruct dev; [|res_inv; done].
  destruct (pointer iwp =? 0); [res_inv; done|]. cbn zeta in H.
  assert (Hz : zlen (zeros 512) = EZ_NEW_SC_BUF_LEN) by done.
  assert (Hok1 : ez_ok (set_new_sc (mkNewSc (enable (ez_new_sc s)) (done_ (ez_new_sc s))
                                     (zeros 512) (len_ (ez_new_sc s))) s))
    by (apply set_new_sc_ok; cbn [buf_ len_]; auto).
  destruct (Z.ltb_spec EZ_NEW_SC_BUF_LEN (length_ iwp)); [res_inv; done|].
  destruct (cfu _ _) as [d nleft]. res_inv. apply wrn_zlen in Ha. rewrite Hz in Ha.
  destruct (u16 nleft =? 0); ez_inv.
  - apply rtw_ezviz_ie_set_ok in Ha0; [destruct Ha0; constructor; done | auto|].
    apply set_new_sc_ok; cbn [buf_ len_]; [done | | done]. rewrite u16_small by lia. lia.
  - apply set_new_sc_ok; cbn [buf_ len_]; auto.
Qed.

(** The new configuration fits the globals. *)
Lemma ez_new_sc_ioctl_handle_total dev iwp s :
  iw_ok iwp -> ez_ok s -> exists r s', ez_new_sc_ioctl_handle cfu dev (Some iwp) s = Ok (r, s').
Proof.
  unfold ez_new_sc_ioctl_handle, iw_ok. intros Hl Hok. destruct dev; [|eauto]. destruct (pointer iwp =? 0); [eauto|]. cbv zeta.
  destruct (Z.ltb_spec EZ_NEW_SC_BUF_LEN (length_ iwp)) as [|Hle]; [eauto|]. unfold EZ_NEW_SC_BUF_LEN in Hle.
  destruct (cfu _ _) as [d nleft] eqn:Ed. apply user_len in Ed as [Hd _]; [|lia]. assert (Hz : zlen (zeros 512) = 512) by done.
  destruct (wrn (zeros 512) 0 d) as [b|] eqn:Ew; [|rewrite wrn_in in Ew by lia; discriminate]. cbn [bind].
  destruct (u16 nleft =? 0); [|eauto]. unfold rtw_ezviz_ie_set. change (BIT 1 =? 0) with false. cbv iota.
  pose proof (u8_le_vendor (length_ iwp)) as H8. unfold WLAN_MAX_VENDOR_IE_LEN in H8. apply wrn_zlen in Ew.
  destruct (rdn b 0 (u8 (length_ iwp))) as [src|] eqn:Er; [|rewrite rdn_in in Er by lia; discriminate]. apply rdn_zlen in Er. cbn [bind vendor_ie set_new_sc].
  pose proof (ok_vendor s Hok) as Hv. unfold WLAN_MAX_VENDOR_IE_LEN in Hv. rewrite wrn_in by lia. cbn [bind]. eauto.
Qed.

Lemma ez_device_info_ioctl_handle_ok dev iwp s r s' :
  ez_device_info_ioctl_handle cfu dev (Some iwp) s = Ok (r, s') -> ez_ok s -> ez_ok s'.
Proof.
  unfold ez_device_info_ioctl_handle. intros H Hok. destruct dev; [|res_inv; done].
  destruct (pointer iwp =? 0); [res_inv; done|]. cbn zeta in H.
  assert (Hz : zlen (zeros 41) = EZ_DEVICE_INFO_LEN) by done.
  destruct (length_ iwp <=? 8). { res_inv. by apply set_device_ok. }
  destruct (cfu _ EZ_DEVICE_SN_LEN) as [sn r1]. res_inv. apply wrn_zlen in Ha. rewrite Hz in Ha.
  destruct (negb _). { res_inv. by apply set_device_ok. }
  destruct (_ =? 0). { res_inv. by apply set_device_ok. }
  destruct (cfu _ _) as [m r2]. res_inv. apply wrn_zlen in Ha0. apply set_device_ok; [congruence|done].
Qed.

Lemma trig_scan_ok id' n v s r s' :
  is_byte n -> trig_scan id' n v s = Ok (r, s') -> ez_ok s -> ez_ok s'.
Proof.
  unfold trig_scan. intros Hn H Hok. cbn zeta in H. res_inv.
  assert (Hq : probe_ok a).
  { destruct (ok_req s Hok). destruct (negb _); res_inv; constructor; simpl; auto using u8_range.
    apply wrn_zlen in Ha1. unfold zlen in Ha1. simpl in Ha1. lia. }
  assert (Hs : ez_ok (set_req a s)) by (destruct Hok; by constructor).
  destruct (plen a =? 0); [res_inv; done|]. ez_inv.
  apply rtw_ezviz_ie_set_ok in Ha0; [destruct Ha0; constructor; done | auto|].
  apply set_resp_ok; auto.
Qed.

Lemma ez_scan_device_ioctl_handle_ok dev iwp s r s' :
  ez_scan_device_ioctl_handle cfu ctu dev (Some iwp) s = Ok (r, s') -> ez_ok s -> ez_ok s'.
Proof.
  unfold ez_scan_device_ioctl_handle. intros H Hok. destruct dev; [|res_inv; done].
  destruct (cfu _ 34) as [sc nleft] eqn:Ec. destruct (negb _); [res_inv; done|].
  apply user_len in Ec as [_ Hb]; [|lia].
  destruct sc as [|c [|n v]]; [res_inv | res_inv|].
  inversion_clear Hb as [|? ? _ Hb']. inversion_clear Hb' as [|? ? Hn _].
  destruct (c =? SCAN_IDLE).
  { res_inv. apply set_resp_ok; [done|]. destruct Hok; constructor; simpl; auto. }
  destruct (c =? TRIG_SCAN_DEVICE); [by eapply trig_scan_ok|].
  destruct (c =? POLL_DEVICE). { unfold put_user in H. cbn zeta in H. res_inv. auto. }
  destruct (c =? TRIG_SCAN_REASON); [by eapply trig_scan_ok|].
  destruct (c =? POLL_REASON); [|res_inv; done].
  unfold put_user in H. ez_inv. auto.
Qed.
End Steps.

(** What the world can do: frames arrive, ioctls are issued, a join fails, a flag is set. *)
Inductive ez_event : Type :=
| EvProbeReq (f : list Z) (len : Z)
| EvProbeRsp (f : list Z) (len : Z)
| EvIoctl (cfu : Z -> Z -> list Z * Z) (ctu : Z -> list Z -> Z) (cmd : Z) (ift : iftype) (iwp : iw_point)
| EvJoinFail (result : Z)
| EvSmart (flag : Z)
| EvScan (flag : Z).

(** Frames are bytes; the user's memory and length are what the kernel passes. *)
Definition event_ok (e : ez_event) : Prop :=
  match e with
  | EvProbeReq f _ | EvProbeRsp f _ => bytes f
  | EvIoctl cfu _ _ _ iwp => user_ok cfu /\ iw_ok iwp
  | _ => True
  end.

(** An ioctl that is not one of these commands leaves the globals alone. *)
Definition ez_exec (e : ez_event) (s : ez_state) : res ez_state :=
  match e with
  | EvProbeReq f len => ez_on_probe_req f len s
  | EvProbeRsp f len => ez_on_probe_rsp f len s
  | EvIoctl cfu ctu cmd ift iwp =>
      match ez_ioctl cfu ctu cmd ift (Some iwp) s with
      | Some (Ok (_, s)) => Ok s
      | Some (Fault e) => Fault e
      | None => Ok s
      end
  | EvJoinFail result => Ok (snd (ez_set_join_fail_reason result s))
  | EvSmart flag => Ok (snd (set_smartconfig_flag flag s))
  | EvScan flag => Ok (snd (set_scan_flag flag s))
  end.

Fixpoint ez_run (evs : list ez_event) (s : ez_state) : res ez_state :=
  match evs with
  | [] => Ok s
  | e :: evs => s <- ez_exec e s ;; ez_run evs s
  end.

(** The events that can read or write outside a global or the frame: a frame, and two ioctls, device information and scan. *)
Definition may_overrun (e : ez_event) : bool :=
  match e with
  | EvProbeReq _ _ | EvProbeRsp _ _ => true
  | EvIoctl _ _ cmd STATION _ => (cmd =? EZ_IOCTL_DEVINFO_IO) || (cmd =? EZ_IOCTL_SCAN_IO)
  | EvIoctl _ _ cmd _ _ => cmd =? EZ_IOCTL_DEVINFO_IO
  | _ => false
  end.

(** The globals of a driver just loaded. *)
Definition ez_init : ez_state :=
  mkEz 0 0 0 new_sc0 (zeros 41) probe0 probe0 (zeros 1275) 0 0 0 [].

Lemma ez_init_ok : ez_ok ez_init.
Proof.
  constructor; try done; simpl; unfold EZ_NEW_SC_BUF_LEN, WLAN_MAX_VENDOR_IE_LEN; try lia;
    apply probe0_ok.
Qed.

Lemma ez_exec_ok e s s' : event_ok e -> ez_exec e s = Ok s' -> ez_ok s -> ez_ok s'.
Proof.
  intros He H Hok. destruct e as [f len|f len|cfu ctu cmd ift iwp|result|flag|flag]; cbn [ez_exec event_ok] in *.
  - by eapply ez_on_probe_req_ok.
  - unfold ez_on_probe_rsp in H. ez_inv. by eapply response_handler_ok.
  - destruct He as [Hu Hi]. destruct (ez_ioctl _ _ _ _ _ _) as [[[r s1]|f]|] eqn:E; simplify_eq; [|done]. unfold ez_ioctl in E.
    destruct (cmd =? _). { destruct ift; simplify_eq; [|done..]. by eapply ez_set_new_sc_ok. }
    destruct (cmd =? _). { destruct ift; simplify_eq; [done| |done]. by eapply ez_new_sc_ioctl_handle_ok. }
    destruct (cmd =? _). { destruct ift; simplify_eq; [done| |done]. by eapply ez_scan_device_ioctl_handle_ok. }
    destruct (cmd =? _); [|discriminate]. simplify_eq. by eapply ez_device_info_ioctl_handle_ok.
  - injection H as <-. by apply set_err_ok.
  - injection H as <-. destruct Hok; constructor; done.
  - injection H as <-. destruct Hok; constructor; done.
Qed.

(** The others never fault. *)
Lemma ez_exec_faults e s f : event_ok e -> ez_ok s -> ez_exec e s = Fault f -> may_overrun e = true.
Proof.
  intros He Hok H. destruct e as [| |cfu ctu cmd ift iwp| | |]; cbn [ez_exec may_overrun event_ok] in *; try done. destruct He as [Hu Hi].
  destruct (ez_set_new_sc_total cfu ctu Hu iwp s Hok) as (r1 & s1 & E1).
  destruct (ez_new_sc_ioctl_handle_total cfu Hu true iwp s Hi Hok) as (r2 & s2 & E2).
  change (ez_set_new_sc cfu ctu iwp s) with (ez_new_sc_ioctl cfu ctu true (Some iwp) s) in E1. unfold ez_ioctl in H. rewrite E1, E2 in H.
  destruct (cmd =? EZ_NEW_SMART_CONFIG_IO); [destruct ift; done|]. destruct (cmd =? EZ_IOCTL_SET_NEW_SC); [destruct ift; done|].
  destruct (cmd =? EZ_IOCTL_SCAN_IO); [destruct ift; [done | apply orb_true_r | done]|].
  destruct (cmd =? EZ_IOCTL_DEVINFO_IO); [destruct ift; done | done].
Qed.

Lemma ez_run_ok evs : forall s, Forall event_ok evs -> ez_ok s ->
  match ez_run evs s with
  | Ok s' => ez_ok s'
  | Fault f => exists pre e post s1, evs = pre ++ e :: post /\ ez_run pre s = Ok s1 /\ ez_ok s1 /\ ez_exec e s1 = Fault f /\ may_overrun e = true
  end.
Proof.
  induction evs as [|e evs IH]; intros s He Hok; cbn [ez_run]; [done|]. apply Forall_cons_iff in He as [He Hevs].
  destruct (ez_exec e s) as [s1|f] eqn:E; cbn [bind].
  - specialize (IH s1 Hevs (ez_exec_ok e s s1 He E Hok)). destruct (ez_run evs s1) as [s2|f]; [done|].
    destruct IH as (pre & x & post & s2 & -> & R & Ok2 & X & M). exists (e :: pre), x, post, s2. cbn [ez_run app]. rewrite E. done.
  - exists [], e, evs, s. split; [done|]. split; [done|]. split; [done|]. split; [done|]. apply (ez_exec_faults e s f He Hok E).
Qed.

(** ** The discovery handshake *)

(** The element of a message [id'] with a value [v]. *)
Definition probe_ie (id' : Z) (v : list Z) : list Z :=
  [208; zlen v + 8] ++ bytes_of "EZVIZ" ++ [lo id'; hi id'; zlen v] ++ v.

Lemma zlen_probe_ie id' v : zlen (probe_ie id' v) = zlen v + 10.
Proof. unfold probe_ie. rewrite !zlen_app. change (zlen (bytes_of "EZVIZ")) with 5. unfold zlen. simpl. lia. Qed.

(** Installing a vendor element and sending it. *)
Lemma ie_set_built mask bit ie rest n s :
  ez_ok s -> zlen ie = n -> 0 < n <= 255 -> Z.land mask bit <> 0 -> mask <> 0 ->
  exists s', rtw_ezviz_ie_set mask (ie ++ rest) n s = Ok (0, s') /\
    s' = set_vendor (ie ++ drop (length ie) (vendor_ie s)) n mask s /\
    built_ie bit s' = Ok ie.
Proof.
  intros Hok Hn Hr Hb Hm. eexists. unfold rtw_ezviz_ie_set.
  rewrite (proj2 (Z.eqb_neq mask 0)) by done. rewrite rdn_prefix by done. cbn [bind].
  rewrite wrn_prefix.
  - cbn [bind]. split; [done|]. split; [done|]. unfold built_ie. cbn [vendor_ielen set_vendor vendor_ie_mask vendor_ie].
    rewrite (proj2 (Z.ltb_lt 0 n)) by lia. rewrite (proj2 (Z.eqb_neq _ 0)) by done.
    cbn [andb negb]. apply rdn_prefix. done.
  - rewrite (ok_vendor s Hok). unfold WLAN_MAX_VENDOR_IE_LEN. lia.
Qed.

(** The element of a trigger ioctl, as it goes on the air. *)
Lemma trig_scan_built id' v junk s :
  ez_ok s -> 0 < zlen v <= 32 ->
  exists s', trig_scan id' (zlen v) (v ++ junk) s = Ok (0, s') /\
    built_ie (BIT 1) s' = Ok (probe_ie id' v) /\ probe_resp_t s' = probe0 /\
    scan_flag s' = 1 /\ scans s' = S (scans s).
Proof.
  intros Hok Hv. unfold trig_scan. cbn [plen value].
  rewrite (proj2 (Z.eqb_neq (zlen v) 0)) by lia. cbn [negb]. rewrite rdn_prefix by done. cbn [bind].
  destruct (ok_req s Hok) as [_ Hvl _ _].
  rewrite wrn_prefix by (unfold zlen in *; lia). cbn [bind element element_len sync id plen value].
  rewrite (proj2 (Z.eqb_neq (zlen v) 0)) by lia.
  rewrite (u8_small (zlen v + 8)) by (unfold is_byte; lia).
  set (q := mkProbe 208 _ _ id' (zlen v) _). set (s1 := set_resp probe0 (set_req q s)).
  assert (Hok1 : ez_ok s1).
  { apply set_resp_ok; [done|]. destruct Hok as [? ? ? ? ? ? [? ? ? ?]]. constructor; try done.
    constructor; [done | | | simpl; unfold is_byte; lia].
    - simpl. rewrite length_app, length_drop. unfold zlen in Hv. lia.
    - simpl. unfold is_byte. lia. }
  assert (Hq : probe_bytes q = probe_ie id' v ++ drop (length v) (value (probe_req_t s))).
  { unfold q, probe_bytes, probe_ie. rewrite <- !app_assoc. done. }
  destruct (ie_set_built (BIT 1) (BIT 1) (probe_ie id' v) (drop (length v) (value (probe_req_t s)))
              (zlen v + 10) s1 Hok1) as (s2 & E & -> & Hb); try done; [apply zlen_probe_ie | lia|].
  rewrite Hq. change (element_len q) with (zlen v + 8).
  rewrite u8_small by (unfold is_byte; lia). replace (zlen v + 8 + 2) with (zlen v + 10) by lia.
  rewrite E. cbn [bind]. eexists. split; [done|]. done.
Qed.

Lemma after_header_app hdr b : zlen hdr = 24 -> after_header (hdr ++ b) = b.
Proof. intros H. unfold after_header. replace 24%nat with (length hdr) by (unfold zlen in H; lia). apply drop_app_length. Qed.

(** A probe frame that carries the block [b], with nothing like a 208 element before it. *)
Record carried (f pre b : list Z) : Prop := {
  cf_frame : exists hdr post, zlen hdr = 24 /\ f = hdr ++ pre ++ b ++ post;
  cf_pre : 0 < zlen pre;
  cf_quiet : forall k, 0 <= k < zlen pre -> at208 (after_header f) k = false;
  cf_size : zlen b = SIZEOF_PROBE;
  cf_208 : is208 b = true;
}.

Lemma carried_found f pre b :
  carried f pre b ->
  check_probe_sync_eid208 (Some (after_header f)) (zlen f - 24) = Ok (zlen pre) /\
  rdn (after_header f) (zlen pre) SIZEOF_PROBE = Ok b /\ 23 < zlen f.
Proof.
  intros [(hdr & post & Hh & ->) Hp Hq Hb H208]. rewrite after_header_app in * by done.
  unfold SIZEOF_PROBE in *. pose proof (zlen_nonneg post).
  rewrite !zlen_app. split_and!; [|rewrite <- Hb; apply rdn_app | lia].
  apply check_probe_sync_eid208_at; [done | | rewrite !zlen_app; lia].
  destruct b as [|c [|d t]]; [done | done |]. cbn [is208 app] in H208 |- *.
  apply andb_true_iff in H208 as [-> H2]. apply is_prefix_spec in H2 as [t' ->].
  rewrite <- app_assoc. apply is_prefix_app.
Qed.

Lemma response_handler_carried f pre b s :
  carried f pre b -> plen (probe_resp_t s) = 0 ->
  ez_probe_response_eid208_handler (Some f) (zlen f) s = Ok (zlen pre, set_resp (probe_of_bytes b) s).
Proof.
  intros Hc Hp. destruct (carried_found f pre b Hc) as (E & Er & Hl).
  unfold ez_probe_response_eid208_handler. rewrite Hp. cbn [Z.eqb negb].
  rewrite (proj2 (Z.leb_gt _ _)) by lia. rewrite E. cbn [bind].
  rewrite (proj2 (Z.ltb_lt 0 _)) by apply (cf_pre f pre b Hc). rewrite Er. done.
Qed.

Lemma requst_handler_carried f pre b s :
  carried f pre b ->
  ez_probe_requst_eid208_handler (Some f) (zlen f) s =
    let p := probe_of_bytes b in
    let s := set_resp p s in
    if negb (list_eqb (take 9 (value p)) (take 9 (DeviceInfo s))) then Ok (0, s)
    else if id p =? 0x6990 then
      Ok (zlen pre, set_resp (mkProbe (element p) (element_len p) (sync p) 0x6991 (plen p)
                                (value p)) s)
    else if id p =? 0x6992 then
      if err_status s =? 0 then Ok (0, s)
      else p' <- append_reason p (err_status s) ;; Ok (zlen pre, set_resp p' s)
    else Ok (zlen pre, s).
Proof.
  intros Hc. destruct (carried_found f pre b Hc) as (E & Er & Hl).
  unfold ez_probe_requst_eid208_handler. rewrite (proj2 (Z.leb_gt _ _)) by lia.
  rewrite E. cbn [bind]. rewrite (proj2 (Z.leb_gt _ _)) by apply (cf_pre f pre b Hc).
  rewrite Er. done.
Qed.

Lemma probe_of_ie id' v fill :
  0 <= id' < 65536 -> probe_of_bytes (probe_ie id' v ++ fill) =
    mkProbe 208 (zlen v + 8) (bytes_of "EZVIZ") id' (zlen v) (v ++ fill).
Proof.
  intros Hid. unfold probe_ie. rewrite <- !app_assoc. simpl. f_equal. unfold le16, lo, hi.
  rewrite (Z.mod_small (id' / 256)); [|split; [apply Z.div_pos; lia | apply Z.div_lt_upper_bound; lia]].
  pose proof (Z.div_mod id' 256). lia.
Qed.

(** The value field of a message with a nine-byte serial number. *)
Lemma take9 (sn fill : list Z) : zlen sn = 9 -> take 9 (sn ++ fill) = sn.
Proof. intros H. replace 9%nat with (length sn) by (unfold zlen in H; lia). apply take_app_length. Qed.

(** The device's answer to an inquiry that carries its serial number. *)
Lemma inquiry_answered f pre sn fill s :
  ez_ok s -> enable (ez_new_sc s) = 0 -> zlen sn = 9 -> take 9 (DeviceInfo s) = sn ->
  carried f pre (probe_ie 0x6990 sn ++ fill) ->
  exists s', ez_on_probe_req f (zlen f) s = Ok s' /\ built_ie (BIT 2) s' = Ok (probe_ie 0x6991 sn).
Proof.
  intros Hok He Hsn Hd Hc. unfold ez_on_probe_req. rewrite He. cbn [Z.eqb negb andb bind].
  rewrite (requst_handler_carried f pre _ s Hc). cbv zeta.
  rewrite probe_of_ie by lia. cbn [value set_resp DeviceInfo id plen element element_len sync].
  rewrite take9, Hd by done. unfold list_eqb. rewrite bool_decide_eq_true_2 by done.
  cbn [negb Z.eqb Pos.eqb bind]. rewrite (proj2 (Z.ltb_lt 0 _)) by apply (cf_pre _ _ _ Hc).
  set (p := mkProbe 208 _ _ 0x6991 _ _).
  assert (Hp : probe_bytes p = probe_ie 0x6991 sn ++ fill).
  { unfold p, probe_bytes, probe_ie. cbn [element element_len sync id plen value].
    rewrite <- !app_assoc. done. }
  destruct (ie_set_built (BIT 2) (BIT 2) (probe_ie 0x6991 sn) fill 19 (set_resp p s))
    as (s2 & E & _ & Hb); try done; [|rewrite zlen_probe_ie; lia|].
  { apply set_resp_ok; [|done]. assert (Hs := cf_size _ _ _ Hc).
    rewrite zlen_app, zlen_probe_ie in Hs. unfold SIZEOF_PROBE in Hs.
    constructor; simpl; [done | | unfold is_byte; lia..].
    rewrite length_app. unfold zlen in *. lia. }
  cbn [probe_resp_t set_resp] in *. fold (set_resp p s). rewrite Hp. unfold p at 1.
  cbn [element_len]. rewrite Hsn. change (u8 (9 + 8 + 2)) with 19.
  change (set_resp p (set_resp _ s)) with (set_resp p s). rewrite E. cbn [bind]. eauto.
Qed.

(** The same for the inquiry after the reason of a failed join. *)
Definition reason_ie (sn : list Z) (err : Z) : list Z :=
  [208; 21] ++ bytes_of "EZVIZ" ++ [0x93; 0x69; 9] ++ sn ++ [0x94; 0x69; 1; u8 err].

Lemma reason_answered f pre sn fill s :
  ez_ok s -> enable (ez_new_sc s) = 0 -> zlen sn = 9 -> take 9 (DeviceInfo s) = sn ->
  err_status s <> 0 -> carried f pre (probe_ie 0x6992 sn ++ fill) ->
  exists s', ez_on_probe_req f (zlen f) s = Ok s' /\
    built_ie (BIT 2) s' = Ok (reason_ie sn (err_status s)).
Proof.
  intros Hok He Hsn Hd Herr Hc. unfold ez_on_probe_req. rewrite He. cbn [Z.eqb negb andb bind].
  assert (Hfill : zlen fill = 23).
  { assert (Hs := cf_size _ _ _ Hc). rewrite zlen_app, zlen_probe_ie in Hs.
    unfold SIZEOF_PROBE in Hs. lia. }
  rewrite (requst_handler_carried f pre _ s Hc). cbv zeta.
  rewrite probe_of_ie by lia.
  cbn [value set_resp DeviceInfo id plen element element_len sync err_status].
  rewrite take9, Hd by done. unfold list_eqb. rewrite bool_decide_eq_true_2 by done.
  cbn [negb Z.eqb Pos.eqb bind]. rewrite (proj2 (Z.eqb_neq _ 0)) by done.
  unfold append_reason. cbn [value plen element element_len sync].
  rewrite wrn_in by (rewrite ?zlen_app; change (zlen [_; _; _; _]) with 4; lia).
  cbn [bind]. rewrite (proj2 (Z.ltb_lt 0 _)) by apply (cf_pre _ _ _ Hc).
  replace (Z.to_nat (zlen sn)) with (length sn) by (unfold zlen; lia).
  rewrite take_app_length, <- drop_drop, drop_app_length. cbn [length]. rewrite Hsn. change (u8 (9 + 8 + 4)) with 21.
  set (p := mkProbe 208 21 _ 0x6993 9 _).
  assert (Hp : probe_bytes p = reason_ie sn (err_status s) ++ drop 4 fill).
  { unfold p, probe_bytes, reason_ie. cbn [element element_len sync id plen value].
    rewrite <- !app_assoc. done. }
  destruct (ie_set_built (BIT 2) (BIT 2) (reason_ie sn (err_status s)) (drop 4 fill) 23 (set_resp p s))
    as (s2 & E & _ & Hb); try done.
  { apply set_resp_ok; [|done]. constructor; simpl; [done | | unfold is_byte; lia..].
    rewrite length_app. cbn [length]. rewrite length_drop. unfold zlen in *. lia. }
  { unfold reason_ie. rewrite !zlen_app, Hsn. done. }
  cbn [probe_resp_t set_resp] in *. rewrite Hp. change (element_len p) with 21.
  change (u8 (21 + 2)) with 23.
  change (set_resp p (set_resp _ s)) with (set_resp p s). rewrite E. cbn [bind]. eauto.
Qed.

(** What a response with the element leaves for the poll ioctls. *)
Lemma response_kept f pre b s :
  carried f pre b -> plen (probe_resp_t s) = 0 ->
  ez_on_probe_rsp f (zlen f) s = Ok (set_resp (probe_of_bytes b) s).
Proof.
  intros Hc Hp. unfold ez_on_probe_rsp. rewrite (response_handler_carried f pre b s Hc Hp). done.
Qed.

(** ** Capturing a payload *)

(** No element of [es1] is taken for the carrier; [tl] follows them. *)
Fixpoint no_carrier (sn : bool) (es1 : list elem) (tl : list Z) : bool :=
  match es1 with
  | [] => true
  | e :: es' => negb (carries sn e (enc es' ++ tl)) && no_carrier sn es' tl
  end.

Lemma first_carrier_at sn es1 e es2 pad : forall off,
  no_carrier sn es1 (enc (e :: es2) ++ pad) = true ->
  carries sn e (enc es2 ++ pad) = true -> 0 < zlen (snd e) ->
  first_carrier sn off (es1 ++ e :: es2) pad = off + zlen (enc es1).
Proof.
  induction es1 as [|d es1 IH]; intros off Hq Hc Hb; cbn [app first_carrier].
  - rewrite zlen_enc_cons. pose proof (zlen_nonneg (enc es2)).
    rewrite (proj2 (Z.leb_gt _ _)) by lia. rewrite Hc. change (zlen (enc [])) with 0. lia.
  - cbn [no_carrier] in Hq. apply andb_true_iff in Hq as [Hd Hq].
    rewrite zlen_enc_cons, enc_app, zlen_app, zlen_enc_cons.
    pose proof (zlen_nonneg (snd d)). pose proof (zlen_nonneg (enc es1)).
    pose proof (zlen_nonneg (enc es2)). rewrite (proj2 (Z.leb_gt _ _)) by lia.
    rewrite <- app_assoc. replace (carries sn d _) with false by (symmetry; apply negb_true_iff; done).
    rewrite IH by done. rewrite zlen_enc_cons, zlen_enc1. lia.
Qed.

Lemma capture hdr es1 e es2 pad s :
  ez_ok s -> zlen hdr = 24 -> Forall elem_ok (es1 ++ e :: es2) -> es1 <> [] -> 5 <= zlen pad ->
  no_carrier (check_sn_valid s) es1 (enc (e :: es2) ++ pad) = true ->
  carries (check_sn_valid s) e (enc es2 ++ pad) = true -> 0 < zlen (snd e) ->
  ez_probe_req_handler (hdr ++ enc (es1 ++ e :: es2) ++ pad)
      (24 + zlen (enc (es1 ++ e :: es2))) s =
    Ok (0, set_new_sc (mkNewSc (enable (ez_new_sc s)) 1
                         (snd e ++ drop (length (snd e)) (buf_ (ez_new_sc s))) (zlen (snd e))) s).
Proof.
  intros Hok Hh Hes Hne Hpad Hq Hc Hb. unfold ez_probe_req_handler.
  rewrite after_header_app by done. replace (24 + _ - 24) with (zlen (enc (es1 ++ e :: es2))) by lia.
  rewrite check_probe_sync_EID_spec by done. cbn [bind].
  rewrite first_carrier_at by done. rewrite Z.add_0_l.
  assert (0 < zlen (enc es1)).
  { destruct es1 as [|d es1]; [done|]. rewrite zlen_enc_cons.
    pose proof (zlen_nonneg (snd d)). pose proof (zlen_nonneg (enc es1)). lia. }
  rewrite (proj2 (Z.ltb_lt _ _)) by done. rewrite enc_app, <- app_assoc.
  rewrite rd_len. cbn [bind]. rewrite rdn_body. cbn [bind].
  apply Forall_app in Hes as [_ Hes]. inversion_clear Hes as [|? ? (_ & Hl & _) _].
  rewrite wrn_in; [|lia | rewrite (ok_buf s Hok); unfold EZ_NEW_SC_BUF_LEN; lia].
  cbn [bind]. done.
Qed.

(** The user asks for the command [cmd]. *)
Definition asks (cfu : Z -> Z -> list Z * Z) (iwp : iw_point) (cmd : Z) : Prop :=
  exists w, cfu (pointer iwp) 8 = (w, 0) /\ s32 (le32 (take 4 w)) = cmd.

Lemma poll_result cfu ctu iwp s :
  asks cfu iwp NEW_SC_POLL_RESULT ->
  ez_set_new_sc cfu ctu iwp s =
    Ok (if done_ (ez_new_sc s) =? 0 then 0 else 308,
        set_new_sc (mkNewSc (enable (ez_new_sc s)) 0 (buf_ (ez_new_sc s)) (len_ (ez_new_sc s))) s).
Proof. intros (w & E & Hc). unfold ez_set_new_sc. rewrite E, Hc. done. Qed.

(** ** Properties *)

(** C17: Let any sequence of events happen to a driver just loaded: received probe requests and responses of any bytes, ioctls with any user
    memory, failed joins, flags. Either it runs to its end; then the globals keep their bounds (the payload's length is at most its
    buffer's 512 bytes, the vendor element's at most 255), and the smart-configuration ioctl, whatever the user passes then, runs to its end and
    keeps them: reading the results stays inside the buffer. Or the sequence ends early, at an event that reads or writes outside a
    global or the frame, up to which the globals kept their bounds; that event is a received frame, a device-information
    ioctl, or a scan ioctl on a station; no other ioctl, not that of the smart configuration, faults. *)
Theorem sc_ioctl_never_faults evs : Forall event_ok evs ->
  match ez_run evs ez_init with
  | Ok s => ez_ok s /\ forall cfu ctu iwp, user_ok cfu -> exists r s', ez_set_new_sc cfu ctu iwp s = Ok (r, s') /\ ez_ok s'
  | Fault f => exists pre e post s, evs = pre ++ e :: post /\ ez_run pre ez_init = Ok s /\ ez_ok s /\ ez_exec e s = Fault f /\ may_overrun e = true
  end.
Proof.
  intros He. pose proof (ez_run_ok evs ez_init He ez_init_ok) as H. destruct (ez_run evs ez_init) as [s|f]; [|exact H].
  split; [exact H|]. intros cfu ctu iwp Hu. destruct (ez_set_new_sc_total cfu ctu Hu iwp s H) as (r & s' & E).
  exists r, s'. split; [exact E|]. apply (ez_set_new_sc_ok cfu ctu iwp s r s' E H).
Qed.

Definition demo_user (mem : list Z) (a n : Z) : list Z * Z :=
  (take (Z.to_nat n) (drop (Z.to_nat a) mem ++ zeros (Z.to_nat n)), 0).

Lemma demo_user_ok mem : bytes mem -> user_ok (demo_user mem).
Proof.
  intros Hm a n Hn. unfold demo_user, zlen, zeros, bytes. simpl. split.
  - rewrite length_take, length_app, length_replicate. lia.
  - apply Forall_take, Forall_app. split; [by apply Forall_drop|].
    apply Forall_replicate. unfold is_byte. lia.
Qed.

(** The smart configuration is started, a probe request with a payload comes in, the payload is read; and a device-information ioctl
    that is too long. *)
Definition demo_request : list Z := zeros 24 ++ enc [(0, []); (207, bytes_of "EZVIZ{ssid}"); (221, zeros 250)].
Definition demo_capture : list ez_event :=
  [EvIoctl (demo_user [0]) (fun _ _ => 0) EZ_NEW_SMART_CONFIG_IO AP (mkIw 0 8); EvProbeReq demo_request (zlen demo_request);
   EvIoctl (demo_user [3; 0; 0; 0; 64]) (fun _ _ => 0) EZ_NEW_SMART_CONFIG_IO AP (mkIw 0 8)].
Definition demo_too_long : list ez_event := [EvIoctl (demo_user [1; 65; 66]) (fun _ _ => 0) EZ_IOCTL_DEVINFO_IO AP (mkIw 1 60)].

Lemma sc_ioctl_never_faults_witness :
  (exists s, ez_run demo_capture ez_init = Ok s /\ len_ (ez_new_sc s) = 11 /\ to_user s = [(72, bytes_of "EZVIZ{ssid}"); (64, [11; 0])] /\
     exists r s', ez_set_new_sc (demo_user [2]) (fun _ _ => 0) (mkIw 0 8) s = Ok (r, s') /\ ez_ok s') /\
  (exists pre e post s, demo_too_long = pre ++ e :: post /\ ez_run pre ez_init = Ok s /\ ez_ok s /\ ez_exec e s = Fault OobWrite /\ may_overrun e = true).
Proof.
  assert (Hu : forall m, bytes m -> user_ok (demo_user m)) by apply demo_user_ok.
  split.
  - assert (E : exists s, ez_run demo_capture ez_init = Ok s /\ len_ (ez_new_sc s) = 11 /\ to_user s = [(72, bytes_of "EZVIZ{ssid}"); (64, [11; 0])])
      by (eexists; split; [vm_compute; reflexivity | split; vm_compute; reflexivity]).
    destruct E as (s & E & E1 & E2). exists s. split; [exact E|]. split; [exact E1|]. split; [exact E2|].
    pose proof (sc_ioctl_never_faults demo_capture) as H. rewrite E in H. destruct H as [_ H].
    + apply List.Forall_cons; [split; [apply Hu, bytes_by_compute; reflexivity | split; [discriminate | reflexivity]]|].
      apply List.Forall_cons; [apply bytes_by_compute; reflexivity|].
      apply List.Forall_cons; [split; [apply Hu, bytes_by_compute; reflexivity | split; [discriminate | reflexivity]] | apply List.Forall_nil].
    + apply H, Hu, bytes_by_compute. reflexivity.
  - assert (E : ez_run demo_too_long ez_init = Fault OobWrite) by (vm_compute; reflexivity).
    pose proof (sc_ioctl_never_faults demo_too_long) as H. rewrite E in H. apply H.
    apply List.Forall_cons; [split; [apply Hu, bytes_by_compute; reflexivity | split; [discriminate | reflexivity]] | apply List.Forall_nil].
Defined.

(** A probe request whose elements include one with identifier 207 (209 counts too
    once a serial number is set) and a body that starts with "EZVIZ", not as the first
    element and with no such element before it, is captured: the body becomes the
    payload, the next poll reports 308 and the one after that 0, and the results handed
    to the user are exactly the body and its length. *)
Theorem capture_delivers_payload hdr es1 e es2 pad s cfu ctu iwp cfu2 iwp2 a4
    (Hs : ez_ok s) (Hh : zlen hdr = 24) (Hes : Forall elem_ok (es1 ++ e :: es2))
    (Hne : es1 <> []) (Hpad : 5 <= zlen pad)
    (Hq : no_carrier (check_sn_valid s) es1 (enc (e :: es2) ++ pad) = true)
    (Hc : carries (check_sn_valid s) e (enc es2 ++ pad) = true) (Hb : 0 < zlen (snd e))
    (Hpoll : asks cfu iwp NEW_SC_POLL_RESULT)
    (Hget : asks cfu2 iwp2 NEW_SC_GET_RESULTS) (Ha : cfu2 (pointer iwp2 + 4) 4 = (a4, 0)) :
  exists s1 s2 s3 s4 r4,
    ez_probe_req_handler (hdr ++ enc (es1 ++ e :: es2) ++ pad)
      (24 + zlen (enc (es1 ++ e :: es2))) s = Ok (0, s1) /\
    ez_set_new_sc cfu ctu iwp s1 = Ok (308, s2) /\
    ez_set_new_sc cfu ctu iwp s2 = Ok (0, s3) /\
    ez_set_new_sc cfu2 ctu iwp2 s1 = Ok (r4, s4) /\
    to_user s4 = to_user s ++ [(u32 (le32 a4 + 8), snd e); (le32 a4, [zlen (snd e); 0])].
Proof.
  assert (Hl : zlen (snd e) < 256).
  { apply Forall_app in Hes as [_ Hes]. inversion_clear Hes as [|? ? (_ & Hl & _) _]. done. }
  pose proof (zlen_nonneg (snd e)) as Hl0.
  rewrite capture by done. do 5 eexists. split; [done|].
  rewrite poll_result by done. split; [reflexivity|]. rewrite poll_result by done. split; [reflexivity|].
  destruct Hget as (w & E & Hcmd). unfold ez_set_new_sc. rewrite E, Hcmd, Ha.
  cbn [Z.eqb negb NEW_SC_INIT NEW_SC_DEINIT NEW_SC_POLL_RESULT NEW_SC_GET_RESULTS Pos.eqb
       ez_new_sc set_new_sc buf_ len_].
  rewrite rdn_in; [|lia | lia | rewrite zlen_app; pose proof (zlen_nonneg (drop (length (snd e)) (buf_ (ez_new_sc s)))); lia].
  change (drop (Z.to_nat 0) ?x) with x. unfold zlen at 1. rewrite Nat2Z.id, take_app_length.
  unfold put_user. cbn [bind]. split; [done|]. simpl. rewrite <- app_assoc. cbn [app].
  replace (lo (zlen (snd e))) with (zlen (snd e)) by (unfold lo; rewrite Z.mod_small; lia).
  replace (hi (zlen (snd e))) with 0 by (unfold hi; rewrite Z.div_small by lia; done). done.
Qed.

Definition demo_carrier : elem := (207, bytes_of "EZVIZ{ssid}").

Lemma capture_delivers_payload_witness :
  exists s1 s2 s3 s4 r4,
    ez_probe_req_handler (zeros 24 ++ enc ([(0, [])] ++ demo_carrier :: []) ++ zeros 5)
        (24 + zlen (enc ([(0, [])] ++ demo_carrier :: []))) ez_init = Ok (0, s1) /\
    ez_set_new_sc (demo_user [2]) (fun _ _ => 0) (mkIw 0 0) s1 = Ok (308, s2) /\
    ez_set_new_sc (demo_user [2]) (fun _ _ => 0) (mkIw 0 0) s2 = Ok (0, s3) /\
    ez_set_new_sc (demo_user [3; 0; 0; 0; 64]) (fun _ _ => 0) (mkIw 0 0) s1 = Ok (r4, s4) /\
    to_user s4 = to_user ez_init ++ [(u32 (le32 [64; 0; 0; 0] + 8), snd demo_carrier);
                                     (le32 [64; 0; 0; 0], [zlen (snd demo_carrier); 0])].
Proof.
  apply (capture_delivers_payload (zeros 24) [(0, [])] demo_carrier [] (zeros 5)
           ez_init (demo_user [2]) (fun _ _ => 0) (mkIw 0 0) (demo_user [3; 0; 0; 0; 64]) (mkIw 0 0)
           [64; 0; 0; 0]).
  - apply ez_init_ok.
  - reflexivity.
  - repeat constructor; vm_compute; congruence.
  - discriminate.
  - vm_compute. discriminate.
  - reflexivity.
  - reflexivity.
  - reflexivity.
  - eexists; split; reflexivity.
  - eexists; split; reflexivity.
  - reflexivity.
Defined.

(** Discovery between two devices, over the whole path. A program asks device A to look
    for a serial number; the element A then sends, received by the device B that has that
    number, makes B answer with its own element; when A receives the answer, the next poll
    hands the program the serial number and its length. The frames may carry anything else
    around the elements that does not look like one. *)
Theorem discovery_handshake cfu ctu iwp sA sB sn junk fq pre1 fill1 fr pre2 fill2 cfu2 iwp2 b v
    (HA : ez_ok sA) (HB : ez_ok sB) (Hsn : zlen sn = 9) (HD : take 9 (DeviceInfo sB) = sn)
    (He : enable (ez_new_sc sB) = 0)
    (Htrig : cfu (pointer iwp) 34 = ([TRIG_SCAN_DEVICE; 9] ++ sn ++ junk, 0))
    (Hq : carried fq pre1 (probe_ie 0x6990 sn ++ fill1))
    (Hr : carried fr pre2 (probe_ie 0x6991 sn ++ fill2))
    (Hpoll : cfu2 (pointer iwp2) 34 = ([POLL_DEVICE; b] ++ v, 0)) (Hv : zlen v = 32) :
  exists sA1 sB1 sA2 sA3 r,
    ez_scan_device_ioctl_handle cfu ctu true (Some iwp) sA = Ok (0, sA1) /\
    built_ie (BIT 1) sA1 = Ok (probe_ie 0x6990 sn) /\
    ez_on_probe_req fq (zlen fq) sB = Ok sB1 /\
    built_ie (BIT 2) sB1 = Ok (probe_ie 0x6991 sn) /\
    ez_on_probe_rsp fr (zlen fr) sA1 = Ok sA2 /\
    ez_scan_device_ioctl_handle cfu2 ctu true (Some iwp2) sA2 = Ok (r, sA3) /\
    to_user sA3 = to_user sA2 ++ [(pointer iwp2, [POLL_DEVICE; 9] ++ sn ++ drop 9 v)].
Proof.
  destruct (trig_scan_built 0x6990 sn junk sA HA ltac:(lia)) as (sA1 & E1 & B1 & P1 & _ & _).
  destruct (inquiry_answered fq pre1 sn fill1 sB HB He Hsn HD Hq) as (sB1 & E2 & B2).
  do 5 eexists. split; [|split; [exact B1|split; [exact E2|split; [exact B2|]]]].
  { unfold ez_scan_device_ioctl_handle. rewrite Htrig. cbn [app]. rewrite <- Hsn. exact E1. }
  split; [apply (response_kept fr pre2 _ sA1 Hr); rewrite P1; done|].
  unfold ez_scan_device_ioctl_handle. rewrite Hpoll. cbn [app negb Z.eqb].
  rewrite probe_of_ie by lia. cbn [plen value probe_resp_t set_resp].
  rewrite rdn_prefix by done. cbn [bind]. rewrite wrn_prefix by lia. cbn [bind put_user].
  split; [reflexivity|]. cbn [to_user log_user set_resp]. rewrite Hsn.
  replace (length sn) with 9%nat by (unfold zlen in Hsn; lia). done.
Qed.

Definition demo_sn : list Z := bytes_of "C12345678".
Definition demo_device (err : Z) : ez_state :=
  set_err err (set_device (demo_sn ++ zeros 32) ez_init).
Definition demo_frame (ie : list Z) : list Z := zeros 24 ++ [0; 0] ++ ie ++ zeros 42.

Lemma demo_carried b :
  is208 b = true -> zlen b = 42 -> (forall x, at208 (0 :: 0 :: b ++ zeros 42) x = true -> x <> 0 /\ x <> 1) ->
  carried (demo_frame b) [0; 0] b.
Proof.
  intros Hb Hl Hq. constructor; try done.
  - exists (zeros 24), (zeros 42). split; done.
  - intros k Hk. unfold demo_frame. rewrite after_header_app by done. cbn [app].
    destruct (at208 _ k) eqn:E; [|done]. apply Hq in E. simpl in Hk. change (zlen [0; 0]) with 2 in Hk. lia.
Qed.

Lemma demo_device_ok err : ez_ok (demo_device err).
Proof. apply set_err_ok, set_device_ok; [done|]. apply ez_init_ok. Qed.

Lemma discovery_handshake_witness :
  exists sA1 sB1 sA2 sA3 r,
    ez_scan_device_ioctl_handle (demo_user ([1; 9] ++ demo_sn ++ zeros 23)) (fun _ _ => 0) true
      (Some (mkIw 0 34)) ez_init = Ok (0, sA1) /\
    built_ie (BIT 1) sA1 = Ok (probe_ie 0x6990 demo_sn) /\
    ez_on_probe_req (demo_frame (probe_ie 0x6990 demo_sn ++ zeros 23)) (zlen (demo_frame (probe_ie 0x6990 demo_sn ++ zeros 23))) (demo_device 0) = Ok sB1 /\
    built_ie (BIT 2) sB1 = Ok (probe_ie 0x6991 demo_sn) /\
    ez_on_probe_rsp (demo_frame (probe_ie 0x6991 demo_sn ++ zeros 23)) (zlen (demo_frame (probe_ie 0x6991 demo_sn ++ zeros 23))) sA1 = Ok sA2 /\
    ez_scan_device_ioctl_handle (demo_user [2]) (fun _ _ => 0) true (Some (mkIw 0 34)) sA2 = Ok (r, sA3) /\
    to_user sA3 = to_user sA2 ++ [(pointer (mkIw 0 34), [POLL_DEVICE; 9] ++ demo_sn ++ drop 9 (zeros 32))].
Proof.
  apply (discovery_handshake (demo_user ([1; 9] ++ demo_sn ++ zeros 23)) (fun _ _ => 0) (mkIw 0 34)
           ez_init (demo_device 0) demo_sn (zeros 23)
           (demo_frame (probe_ie 0x6990 demo_sn ++ zeros 23)) [0; 0] (zeros 23)
           (demo_frame (probe_ie 0x6991 demo_sn ++ zeros 23)) [0; 0] (zeros 23)
           (demo_user [2]) (mkIw 0 34) 0 (zeros 32)); try reflexivity.
  - apply ez_init_ok.
  - apply demo_device_ok.
  - apply demo_carried; [done | done|]. intros x Hx. split; intros ->; discriminate Hx.
  - apply demo_carried; [done | done|]. intros x Hx. split; intros ->; discriminate Hx.
Defined.

(** The same path for the reason of a failed join: B, whose last join failed with [err],
    answers the inquiry 0x6992 with its serial number followed by the sub-element 0x6994,
    and A's poll hands the program the byte of [err]. *)
Theorem reason_handshake cfu ctu iwp sA sB sn junk fq pre1 fill1 fr pre2 fill2 cfu2 iwp2 b v
    (HA : ez_ok sA) (HB : ez_ok sB) (Hsn : zlen sn = 9) (HD : take 9 (DeviceInfo sB) = sn)
    (He : enable (ez_new_sc sB) = 0) (Herr : err_status sB <> 0)
    (Htrig : cfu (pointer iwp) 34 = ([TRIG_SCAN_REASON; 9] ++ sn ++ junk, 0))
    (Hq : carried fq pre1 (probe_ie 0x6992 sn ++ fill1))
    (Hr : carried fr pre2 (reason_ie sn (err_status sB) ++ fill2))
    (Hpoll : cfu2 (pointer iwp2) 34 = ([POLL_REASON; b] ++ v, 0)) (Hv : zlen v = 32) :
  exists sA1 sB1 sA2 sA3 r,
    ez_scan_device_ioctl_handle cfu ctu true (Some iwp) sA = Ok (0, sA1) /\
    built_ie (BIT 1) sA1 = Ok (probe_ie 0x6992 sn) /\
    ez_on_probe_req fq (zlen fq) sB = Ok sB1 /\
    built_ie (BIT 2) sB1 = Ok (reason_ie sn (err_status sB)) /\
    ez_on_probe_rsp fr (zlen fr) sA1 = Ok sA2 /\
    ez_scan_device_ioctl_handle cfu2 ctu true (Some iwp2) sA2 = Ok (r, sA3) /\
    to_user sA3 =
      to_user sA2 ++ [(pointer iwp2, [POLL_REASON; 1; u8 (err_status sB)] ++ drop 1 v)].
Proof.
  destruct (trig_scan_built 0x6992 sn junk sA HA ltac:(lia)) as (sA1 & E1 & B1 & P1 & _ & _).
  destruct (reason_answered fq pre1 sn fill1 sB HB He Hsn HD Herr Hq) as (sB1 & E2 & B2).
  do 5 eexists. split; [|split; [exact B1|split; [exact E2|split; [exact B2|]]]].
  { unfold ez_scan_device_ioctl_handle. rewrite Htrig. cbn [app]. rewrite <- Hsn. exact E1. }
  split; [apply (response_kept fr pre2 _ sA1 Hr); rewrite P1; done|].
  unfold ez_scan_device_ioctl_handle. rewrite Hpoll. cbn [app negb Z.eqb].
  assert (Hp : probe_of_bytes (reason_ie sn (err_status sB) ++ fill2) =
    mkProbe 208 21 (bytes_of "EZVIZ") 0x6993 9 (sn ++ [0x94; 0x69; 1; u8 (err_status sB)] ++ fill2)).
  { unfold reason_ie. rewrite <- !app_assoc. done. }
  rewrite Hp. unfold poll_reason. cbn [plen value probe_resp_t set_resp].
  assert (Hrd : rdn (sn ++ [0x94; 0x69; 1; u8 (err_status sB)] ++ fill2) 9 4 =
                Ok [0x94; 0x69; 1; u8 (err_status sB)]) by (rewrite <- Hsn; apply rdn_app).
  assert (Hw : wrn v 0 [u8 (err_status sB)] = Ok ([u8 (err_status sB)] ++ drop 1 v))
    by (rewrite wrn_prefix by (rewrite Hv; done); done).
  rewrite Hrd. cbn [bind POLL_REASON SCAN_IDLE TRIG_SCAN_DEVICE POLL_DEVICE TRIG_SCAN_REASON Z.eqb Pos.eqb].
  change (le16 148 105 =? 0x6994) with true. cbn match.
  change (rdn [u8 (err_status sB)] 0 1) with (Ok [u8 (err_status sB)]). cbn [bind].
  rewrite Hw. cbn [bind]. split; [reflexivity|]. done.
Qed.

Lemma reason_handshake_witness :
  exists sA1 sB1 sA2 sA3 r,
    ez_scan_device_ioctl_handle (demo_user ([3; 9] ++ demo_sn ++ zeros 23)) (fun _ _ => 0) true
      (Some (mkIw 0 34)) ez_init = Ok (0, sA1) /\
    built_ie (BIT 1) sA1 = Ok (probe_ie 0x6992 demo_sn) /\
    ez_on_probe_req (demo_frame (probe_ie 0x6992 demo_sn ++ zeros 23)) (zlen (demo_frame (probe_ie 0x6992 demo_sn ++ zeros 23))) (demo_device (-4)) = Ok sB1 /\
    built_ie (BIT 2) sB1 = Ok (reason_ie demo_sn (err_status (demo_device (-4)))) /\
    ez_on_probe_rsp (demo_frame (reason_ie demo_sn (err_status (demo_device (-4))) ++ zeros 19)) (zlen (demo_frame (reason_ie demo_sn (err_status (demo_device (-4))) ++ zeros 19))) sA1 = Ok sA2 /\
    ez_scan_device_ioctl_handle (demo_user [4]) (fun _ _ => 0) true (Some (mkIw 0 34)) sA2 = Ok (r, sA3) /\
    to_user sA3 = to_user sA2 ++ [(pointer (mkIw 0 34), [POLL_REASON; 1; u8 (err_status (demo_device (-4)))] ++ drop 1 (zeros 32))].
Proof.
  apply (reason_handshake (demo_user ([3; 9] ++ demo_sn ++ zeros 23)) (fun _ _ => 0) (mkIw 0 34)
           ez_init (demo_device (-4)) demo_sn (zeros 23)
           (demo_frame (probe_ie 0x6992 demo_sn ++ zeros 23)) [0; 0] (zeros 23)
           (demo_frame (reason_ie demo_sn (err_status (demo_device (-4))) ++ zeros 19)) [0; 0] (zeros 19)
           (demo_user [4]) (mkIw 0 34) 0 (zeros 32)); try reflexivity.
  - apply ez_init_ok.
  - apply demo_device_ok.
  - vm_compute. discriminate.
  - apply demo_carried; [done | done|]. intros x Hx. split; intros ->; discriminate Hx.
  - apply demo_carried; [done | done|]. intros x Hx. split; intros ->; discriminate Hx.
Defined.

(** Which received elements corrupt memory. A probe request whose 208 element names this
    device's serial number and asks for the join-failure reason writes four bytes at
    [value[len]] with the sender's own [len]: outside the element exactly when that length
    exceeds 28 and a failure is recorded. No other element makes the handler fault. *)
Theorem reason_inquiry_overflow_iff f pre b s (Hc : carried f pre b) (Hb : bytes b) :
  (exists e, ez_probe_requst_eid208_handler (Some f) (zlen f) s = Fault e) <->
  id (probe_of_bytes b) = 0x6992 /\
  take 9 (value (probe_of_bytes b)) = take 9 (DeviceInfo s) /\
  err_status s <> 0 /\ 28 < plen (probe_of_bytes b).
Proof.
  rewrite (requst_handler_carried f pre b s Hc). cbv zeta.
  destruct (probe_of_bytes_ok b Hb (cf_size _ _ _ Hc)) as [_ Hv Hp _].
  set (p := probe_of_bytes b) in *. cbn [DeviceInfo set_resp err_status]. unfold list_eqb.
  destruct (bool_decide_reflect (take 9 (value p) = take 9 (DeviceInfo s))) as [He|He]; cbn [negb].
  2:{ split; [intros [? [=]] | tauto]. }
  destruct (Z.eqb_spec (id p) 0x6990) as [E0|E0]; [split; [intros [? [=]] | lia]|].
  destruct (Z.eqb_spec (id p) 0x6992) as [E2|E2]; [|split; [intros [? [=]] | lia]].
  destruct (Z.eqb_spec (err_status s) 0) as [Er|Er]; [split; [intros [? [=]] | lia]|].
  assert (Hzv : zlen (value p) = 32) by (unfold zlen; lia). unfold is_byte in Hp.
  unfold append_reason. destruct (Z.ltb_spec 28 (plen p)).
  - rewrite wrn_oob by (change (zlen [_; _; _; _]) with 4; lia). split; [auto|]. intros _.
    exists OobWrite. done.
  - rewrite wrn_in by (change (zlen [_; _; _; _]) with 4; lia). split; [intros [? [=]] | lia].
Qed.

Definition evil_ie : list Z :=
  [208; 40] ++ bytes_of "EZVIZ" ++ [0x92; 0x69; 200] ++ demo_sn ++ zeros 23.

Lemma reason_inquiry_overflow_iff_witness :
  (exists e, ez_probe_requst_eid208_handler (Some (demo_frame evil_ie)) (zlen (demo_frame evil_ie))
     (demo_device (-4)) = Fault e) <->
  id (probe_of_bytes evil_ie) = 0x6992 /\
  take 9 (value (probe_of_bytes evil_ie)) = take 9 (DeviceInfo (demo_device (-4))) /\
  -4 <> 0 /\ 28 < 200.
Proof.
  apply (reason_inquiry_overflow_iff (demo_frame evil_ie) [0; 0] evil_ie (demo_device (-4))).
  - apply demo_carried; [done | done|]. intros x Hx. split; intros ->; discriminate Hx.
  - apply bytes_by_compute. reflexivity.
Defined.

(** The device-information ioctl checks that the serial number is there but not how
    much follows it: with complete user memory it writes outside the 41-byte record
    exactly when the user's length exceeds 41. *)
Theorem device_info_overflow_iff cfu iwp s
    (Hu : user_ok cfu) (Hfull : forall a n, snd (cfu a n) = 0) (Hp : pointer iwp <> 0) :
  (exists e, ez_device_info_ioctl_handle cfu true (Some iwp) s = Fault e) <-> 41 < length_ iwp.
Proof.
  unfold ez_device_info_ioctl_handle. rewrite (proj2 (Z.eqb_neq _ 0)) by done. cbv zeta.
  destruct (Z.leb_spec (length_ iwp) 8); [split; [intros [? [=]] | lia]|].
  destruct (cfu (pointer iwp) EZ_DEVICE_SN_LEN) as [sn r1] eqn:E1.
  destruct (user_len cfu Hu _ _ _ _ E1) as [Hl1 _]; [done|].
  assert (H1 := Hfull (pointer iwp) EZ_DEVICE_SN_LEN). rewrite E1 in H1. cbn in H1. subst r1.
  unfold EZ_DEVICE_SN_LEN in *. assert (Hz : zlen (zeros 41) = 41) by done.
  destruct (wrn (zeros 41) 0 sn) as [info|] eqn:Ew.
  2:{ rewrite wrn_in in Ew by lia. discriminate. }
  assert (Hi := wrn_zlen _ _ _ _ Ew). cbn [bind Z.eqb negb].
  destruct (Z.eqb_spec (length_ iwp - 9) 0); [split; [intros [? [=]] | lia]|].
  destruct (cfu (pointer iwp + 9) _) as [m r2] eqn:E2.
  destruct (user_len cfu Hu _ _ _ _ E2) as [Hl2 _]; [lia|].
  destruct (Z.leb_spec (length_ iwp) 41).
  - rewrite wrn_in by lia. split; [intros [? [=]] | lia].
  - rewrite wrn_oob by lia. split; [auto|]. exists OobWrite. done.
Qed.

Lemma device_info_overflow_iff_witness :
  (exists e, ez_device_info_ioctl_handle (demo_user [65; 66]) true (Some (mkIw 1 60)) ez_init = Fault e)
  <-> 41 < 60.
Proof.
  apply device_info_overflow_iff.
  - apply demo_user_ok, bytes_by_compute. reflexivity.
  - reflexivity.
  - discriminate.
Defined.

(** What the last received element and the user's command may not be. *)
Definition scan_bad (p : ez_probe_t) (cmd n : Z) : Prop :=
  ((cmd = TRIG_SCAN_DEVICE \/ cmd = TRIG_SCAN_REASON) /\ 32 < n) \/
  (cmd = POLL_DEVICE /\ 32 < plen p) \/
  (cmd = POLL_REASON /\
     (28 < plen p \/
      exists t0 t1 m v, rdn (value p) (plen p) 4 = Ok [t0; t1; m; v] /\ le16 t0 t1 = 0x6994 /\
                        ~ 0 <= m <= 1)).

Lemma trig_scan_faults_iff id' n v s :
  ez_ok s -> zlen v = 32 -> is_byte n ->
  (exists e, trig_scan id' n v s = Fault e) <-> 32 < n.
Proof.
  intros Hok Hv Hn. unfold is_byte in Hn. destruct (Z.ltb_spec 32 n) as [Hlt|Hge].
  - split; [done|]. intros _. exists OobRead. unfold trig_scan. cbn [plen value].
    rewrite (proj2 (Z.eqb_neq n 0)) by lia. cbn [negb]. rewrite rdn_oob by lia. done.
  - split; [|lia]. intros [e He]. exfalso. destruct (ok_req s Hok) as [Hsy Hvl Hpl _].
    destruct (Z.eqb_spec n 0) as [->|Hne].
    + unfold trig_scan in He. cbn [plen value Z.eqb negb bind element_len sync element id] in He.
      destruct (Z.eqb_spec (plen (probe_req_t s)) 0); [discriminate|].
      change (u8 (u8 (0 + 8) + 2)) with 10 in He. unfold rtw_ezviz_ie_set in He.
      change (BIT 1 =? 0) with false in He. cbn match in He.
      assert (Hl : zlen (value (probe_req_t s)) = 32) by (unfold zlen; lia).
      rewrite rdn_in in He; [|lia|lia|].
      2:{ unfold probe_bytes. cbn [element element_len sync id plen value].
          rewrite !zlen_app, Hl. change (zlen (bytes_of "EZVIZ")) with 5. unfold zlen. simpl. lia. }
      cbn [bind] in He. rewrite wrn_in in He; [discriminate | lia|].
      cbn [vendor_ie set_resp set_req]. rewrite (ok_vendor s Hok). unfold zlen.
      rewrite length_take. unfold WLAN_MAX_VENDOR_IE_LEN. lia.
    + replace v with (take (Z.to_nat n) v ++ drop (Z.to_nat n) v) in He by apply take_drop.
      assert (Hz : zlen (take (Z.to_nat n) v) = n) by (unfold zlen in *; rewrite length_take; lia).
      destruct (trig_scan_built id' (take (Z.to_nat n) v) (drop (Z.to_nat n) v) s Hok)
        as (s' & E & _); [lia|]. rewrite Hz in E. congruence.
Qed.

(** The discovery ioctl faults in exactly these cases: a trigger whose user-supplied
    length exceeds the 32-byte value, a poll after an element whose sender gave a length
    above 32, a reason poll after one above 28 or with a sub-element longer than one byte.
    Every other command returns. *)
Theorem scan_ioctl_faults_iff cfu ctu iwp s cmd n v
    (Hok : ez_ok s) (Hread : cfu (pointer iwp) 34 = (cmd :: n :: v, 0))
    (Hv : zlen v = 32) (Hn : is_byte n) :
  (exists e, ez_scan_device_ioctl_handle cfu ctu true (Some iwp) s = Fault e) <->
  scan_bad (probe_resp_t s) cmd n.
Proof.
  unfold ez_scan_device_ioctl_handle, scan_bad. rewrite Hread. cbn [Z.eqb negb].
  destruct (ok_resp s Hok) as [_ Hvl Hpl _]. unfold is_byte in Hpl.
  assert (Hz : zlen (value (probe_resp_t s)) = 32) by (unfold zlen; lia).
  unfold SCAN_IDLE, TRIG_SCAN_DEVICE, TRIG_SCAN_REASON, POLL_DEVICE, POLL_REASON in *.
  destruct (Z.eqb_spec cmd 0); [split; [intros [? [=]] | lia]|].
  destruct (Z.eqb_spec cmd 1) as [->|]; [rewrite trig_scan_faults_iff by done; lia|].
  destruct (Z.eqb_spec cmd 2) as [->|].
  { destruct (Z.ltb_spec 32 (plen (probe_resp_t s))).
    - rewrite rdn_oob by lia. split; [auto|]. exists OobRead. done.
    - rewrite rdn_in by lia. cbn [bind]. rewrite wrn_in; [|lia|].
      + split; [intros [? [=]] | lia].
      + unfold zlen in *. rewrite length_take. lia. }
  destruct (Z.eqb_spec cmd 3) as [->|]; [rewrite trig_scan_faults_iff by done; lia|].
  destruct (Z.eqb_spec cmd 4) as [->|]; [|split; [intros [? [=]] | lia]].
  unfold poll_reason. destruct (Z.ltb_spec 28 (plen (probe_resp_t s))).
  { rewrite rdn_oob by lia. split; [auto|]. exists OobRead. done. }
  destruct (rdn (value (probe_resp_t s)) (plen (probe_resp_t s)) 4) as [r|] eqn:Er.
  2:{ rewrite rdn_in in Er by lia. discriminate. }
  assert (Hr := rdn_zlen _ _ _ _ Er). cbn [bind].
  do 4 (destruct r as [|?x r]; [discriminate|]). destruct r; [|exfalso; unfold zlen in Hr; simpl in Hr; lia].
  destruct (Z.eqb_spec (le16 x x0) 0x6994) as [E|E].
  - destruct (decide (0 <= x1 <= 1)) as [Hx|Hx].
    + rewrite rdn_in by (change (zlen [x2]) with 1; lia). cbn [bind].
      rewrite wrn_in; [|lia | unfold zlen in *; rewrite length_take; cbn [length drop]; lia].
      split; [intros [? [=]]|]. intros [?|[?|(_ & [?|(t0 & t1 & m & w & [= <- <- <- <-] & _ & Hm)])]]; lia.
    + unfold rdn at 1. replace (_ && _ && _) with false by (change (zlen [x2]) with 1; lia).
      split; [|intros _; exists OobRead; done]. intros _. right. right. split; [done|]. right. eauto 10.
  - rewrite wr_in by lia. cbn [bind]. split; [intros [? [=]]|].
    intros [?|[?|(_ & [?|(t0 & t1 & m & w & [= <- <- <- <-] & E' & Hm)])]]; lia.
Qed.

Lemma scan_ioctl_faults_iff_witness :
  (exists e, ez_scan_device_ioctl_handle (demo_user [1; 33]) (fun _ _ => 0) true (Some (mkIw 0 34))
     ez_init = Fault e) <-> scan_bad probe0 1 33.
Proof.
  apply (scan_ioctl_faults_iff (demo_user [1; 33]) (fun _ _ => 0) (mkIw 0 34) ez_init 1 33 (zeros 32)).
  - apply ez_init_ok.
  - reflexivity.
  - reflexivity.
  - split; [discriminate | reflexivity].
Defined.
