(* ===== verification/Ie.v ===== *)
(** * Building, finding and editing information elements

    Models the first part of [core/rtw_ieee80211.c] (rates, the [rtw_set_*] builders,
    [rtw_get_ie], [rtw_get_ie_ex], [rtw_ies_update_ie], [rtw_ies_remove_ie], the rate
    filters and [rtw_generate_ie]) with the rate tests of [core/rtw_wlan_util.c].
    A pointer into a block is an offset into its bytes; [NULL] is [None]. The
    specifications are over lists of elements ([Ies]). *)
From Stdlib Require Import ZArith Lia Bool String.
From stdpp Require Import base option list numbers.
From S2P Require Import Prelude Ies.
Local Open Scope Z_scope.

(** ** Rates *)

(* src: core/rtw_ieee80211.c:69-74 WIFI_CCKRATES *)
Definition WIFI_CCKRATES : list Z := [0x82; 0x84; 0x8B; 0x96].
(* src: core/rtw_ieee80211.c:76-85 WIFI_OFDMRATES *)
Definition WIFI_OFDMRATES : list Z := [0x0C; 0x12; 0x18; 0x24; 0x30; 0x48; 0x60; 0x6C].
(* src: core/rtw_wlan_util.c:53-56 rtw_basic_rate_ofdm *)
Definition rtw_basic_rate_ofdm : list Z := [0x8C; 0x98; 0xB0].

Definition same_rate (r v : Z) : bool := Z.land v 0x7F =? Z.land r 0x7F.

(* src: core/rtw_wlan_util.c:73-81 rtw_is_cck_rate *)
Definition rtw_is_cck_rate (r : Z) : bool := existsb (same_rate r) WIFI_CCKRATES.
(* src: core/rtw_wlan_util.c:84-92 rtw_is_ofdm_rate *)
Definition rtw_is_ofdm_rate (r : Z) : bool := existsb (same_rate r) WIFI_OFDMRATES.
(* src: core/rtw_wlan_util.c:106-114 rtw_is_basic_rate_ofdm *)
Definition rtw_is_basic_rate_ofdm (r : Z) : bool := existsb (same_rate r) rtw_basic_rate_ofdm.

Definition dot11_rate_table : list Z := [2; 4; 11; 22; 12; 18; 24; 36; 48; 72; 96; 108; 0].

(* src: core/rtw_ieee80211.c:181-192 rtw_get_bit_value_from_ieee_value *)
Definition rtw_get_bit_value_from_ieee_value (val : Z) : res Z :=
  loop (fun i => v <- rd dot11_rate_table i ;;
                 if v =? 0 then Ok (inr 0)
                 else if v =? val then Ok (inr (BIT i)) else Ok (inl (i + 1))) 14 0.

Definition cck7 (r : Z) : bool :=
  (Z.land r 0x7f =? 2) || (Z.land r 0x7f =? 4) || (Z.land r 0x7f =? 11) || (Z.land r 0x7f =? 22).

(* src: core/rtw_ieee80211.c:193-205 rtw_get_cckrate_size *)
Definition rtw_get_cckrate_size (rate : list Z) (rate_length : Z) : res Z :=
  loop (fun i => if negb (i <? rate_length) then Ok (inr i)
                 else r <- rd rate i ;; if cck7 r then Ok (inl (i + 1)) else Ok (inr i))
       (S (Z.to_nat rate_length)) 0.

(* src: core/rtw_ieee80211.c:207-219 rtw_is_cckrates_included *)
Definition rtw_is_cckrates_included (rate : list Z) : res bool :=
  loop (fun i => r <- rd rate i ;;
                 if r =? 0 then Ok (inr false)
                 else if cck7 r then Ok (inr true) else Ok (inl (i + 1)))
       (S (length rate)) 0.

(* src: core/rtw_ieee80211.c:221-236 rtw_is_cckratesonly_included *)
Definition rtw_is_cckratesonly_included (rate : list Z) : res bool :=
  loop (fun i => r <- rd rate i ;;
                 if r =? 0 then Ok (inr true)
                 else if negb (cck7 r) then Ok (inr false) else Ok (inl (i + 1)))
       (S (length rate)) 0.

(* src: include/ieee80211.h:272-300 enum NETWORK_TYPE *)
Definition WIRELESS_INVALID := 0.
Definition WIRELESS_11B := 1.
Definition WIRELESS_11G := 2.
Definition WIRELESS_11A := 4.
Definition WIRELESS_11_24N := 8.
Definition WIRELESS_11_5N := 16.
Definition WIRELESS_11AC := 32.
Definition WIRELESS_11BG := 3.
Definition WIRELESS_11G_24N := 10.
Definition WIRELESS_11A_5N := 20.
Definition WIRELESS_11BG_24N := 11.
Definition WIRELESS_11_5AC := 36.
Definition WIRELESS_11ABGN := 31.
Definition WIRELESS_MODE_MAX := 63.

(* src: core/rtw_ieee80211.c:238-254 rtw_check_network_type *)
Definition rtw_check_network_type (rate : list Z) (channel : Z) : res Z :=
  if 14 <? channel then
    c <- rtw_is_cckrates_included rate ;;
    if c : bool then Ok WIRELESS_INVALID else Ok WIRELESS_11A
  else
    o <- rtw_is_cckratesonly_included rate ;;
    if o : bool then Ok WIRELESS_11B
    else c <- rtw_is_cckrates_included rate ;;
         if c : bool then Ok WIRELESS_11BG else Ok WIRELESS_11G.

(** ** Builders

    Each returns the block, the offset after what it wrote and the frame length. *)

(* src: core/rtw_ieee80211.c:256-262 rtw_set_fixed_ie *)
Definition rtw_set_fixed_ie (b : list Z) (pbuf len : Z) (source : list Z) (frlen : Z)
    : res (list Z * Z * Z) :=
  src <- rdn source 0 len ;;
  b <- wrn b pbuf src ;;
  Ok (b, pbuf + len, u32 (frlen + len)).

(** [frlen] is optional. *)
(* src: core/rtw_ieee80211.c:264-285 rtw_set_ie *)
Definition rtw_set_ie (b : list Z) (pbuf index len : Z) (source : list Z) (frlen : option Z)
    : res (list Z * Z * option Z) :=
  b <- wr b pbuf (u8 index) ;;
  b <- wr b (pbuf + 1) (u8 len) ;;
  b <- (if 0 <? len then src <- rdn source 0 len ;; wrn b (pbuf + 2) src else Ok b) ;;
  Ok (b, pbuf + len + 2, option_map (fun f => u32 (f + (len + 2))) frlen).

(* src: core/rtw_ieee80211.c:287-294 rtw_set_ie_tpc_report *)
Definition rtw_set_ie_tpc_report (b : list Z) (pbuf : Z) (frlen : option Z) (tx_power link_margin : Z) :=
  rtw_set_ie b pbuf 35 2 [tx_power; link_margin] frlen.

(* src: core/rtw_ieee80211.c:296-305 rtw_set_ie_ch_switch *)
Definition rtw_set_ie_ch_switch (b : list Z) (pbuf : Z) (frlen : option Z) (ch_switch_mode new_ch ch_switch_cnt : Z) :=
  rtw_set_ie b pbuf 37 3 [ch_switch_mode; new_ch; ch_switch_cnt] frlen.

Definition SCN := 0.
Definition SCA := 1.
Definition SCB := 3.
Definition HAL_PRIME_CHNL_OFFSET_DONT_CARE := 0.
Definition HAL_PRIME_CHNL_OFFSET_LOWER := 1.
Definition HAL_PRIME_CHNL_OFFSET_UPPER := 2.

(* src: core/rtw_ieee80211.c:307-317 secondary_ch_offset_to_hal_ch_offset *)
Definition secondary_ch_offset_to_hal_ch_offset (ch_offset : Z) : Z :=
  if ch_offset =? SCN then HAL_PRIME_CHNL_OFFSET_DONT_CARE
  else if ch_offset =? SCA then HAL_PRIME_CHNL_OFFSET_LOWER
  else if ch_offset =? SCB then HAL_PRIME_CHNL_OFFSET_UPPER
  else HAL_PRIME_CHNL_OFFSET_DONT_CARE.

(* src: core/rtw_ieee80211.c:319-329 hal_ch_offset_to_secondary_ch_offset *)
Definition hal_ch_offset_to_secondary_ch_offset (ch_offset : Z) : Z :=
  if ch_offset =? HAL_PRIME_CHNL_OFFSET_DONT_CARE then SCN
  else if ch_offset =? HAL_PRIME_CHNL_OFFSET_LOWER then SCA
  else if ch_offset =? HAL_PRIME_CHNL_OFFSET_UPPER then SCB
  else SCN.

(* src: core/rtw_ieee80211.c:331-334 rtw_set_ie_secondary_ch_offset *)
Definition rtw_set_ie_secondary_ch_offset (b : list Z) (pbuf : Z) (frlen : option Z) (secondary_ch_offset : Z) :=
  rtw_set_ie b pbuf 62 1 [secondary_ch_offset] frlen.

(* src: core/rtw_ieee80211.c:336-347 rtw_set_ie_mesh_ch_switch_parm *)
Definition rtw_set_ie_mesh_ch_switch_parm (b : list Z) (pbuf : Z) (frlen : option Z) (ttl flags reason precedence : Z) :=
  rtw_set_ie b pbuf 0x118 6
    [ttl; flags; reason mod 256; reason / 256; precedence mod 256; precedence / 256] frlen.

(** ** Searches *)

(** One turn at [p], [i] bytes into the search; the element is returned with the
    length of its body. *)
(* src: core/rtw_ieee80211.c:363-374 rtw_get_ie *)
Definition get_ie_turn (b : list Z) (index limit : Z) (st : Z * Z)
    : res ((Z * Z) + option (Z * Z)) :=
  let '(p, i) := st in
  c <- rd b p ;;
  if c =? index then n <- rd b (p + 1) ;; Ok (inr (Some (p, n)))
  else
    tmp <- rd b (p + 1) ;;
    if limit <=? i + (tmp + 2) then Ok (inr None)
    else Ok (inl (p + (tmp + 2), i + (tmp + 2))).

(** [None] is NULL. When nothing is found [*len] is 0, or untouched if [limit < 1]. *)
(* src: core/rtw_ieee80211.c:352-376 rtw_get_ie *)
Definition rtw_get_ie (b : list Z) (pbuf index limit : Z) : res (option (Z * Z)) :=
  if limit <? 1 then Ok None
  else loop (get_ie_turn b index limit) (Z.to_nat limit) (pbuf, 0).

(** [oui] is NULL or the bytes compared after the header. *)
(* src: core/rtw_ieee80211.c:404-420 rtw_get_ie_ex *)
Definition get_ie_ex_turn (b : list Z) (in_ie in_len eid : Z) (oui : option (list Z)) (cnt : Z)
    : res (Z + option (Z * Z)) :=
  if negb (cnt <? in_len) then Ok (inr None)
  else
    c <- rd b (in_ie + cnt) ;;
    hit <- (if eid =? c
            then match oui with
                 | None => Ok true
                 | Some o => memcmp_eq b (in_ie + cnt + 2) o
                 end
            else Ok false) ;;
    n <- rd b (in_ie + cnt + 1) ;;
    if hit : bool then Ok (inr (Some (in_ie + cnt, u32 (n + 2))))
    else Ok (inl (u32 (cnt + (n + 2)))).

(** The offset of the element and the length of the whole of it, for callers that ask for
    [ielen]. [ie] is NULL or the buffer the element is copied to. *)
(* src: core/rtw_ieee80211.c:390-423 rtw_get_ie_ex *)
Definition rtw_get_ie_ex (b : list Z) (in_ie : option Z) (in_len eid : Z) (oui : option (list Z))
    (ie : option (list Z)) : res (option (Z * Z) * option (list Z)) :=
  match in_ie with
  | None => Ok (None, ie)
  | Some p =>
      if in_len <=? 0 then Ok (None, ie)
      else
        r <- loop (get_ie_ex_turn b p in_len eid oui) (S (Z.to_nat in_len)) 0 ;;
        match r, ie with
        | Some (off, n), Some out =>
            src <- rdn b off n ;; out <- wrn out 0 src ;; Ok (r, Some out)
        | _, _ => Ok (r, ie)
        end
  end.

(** ** Editing in place *)

Definition _SUCCESS := 1.
Definition _FAIL := 0.

(** [backup] tells whether [rtw_malloc] succeeds. *)
(* src: core/rtw_ieee80211.c:436-478 rtw_ies_update_ie *)
Definition rtw_ies_update_ie (backup : bool) (ies : list Z) (ies_len ies_offset eid : Z)
    (content : list Z) (content_len : Z) : res (Z * list Z * Z) :=
  if (ies_len =? 0) || (ies_len <=? ies_offset) then Ok (_FAIL, ies, ies_len)
  else
    let start := ies_offset in
    let search_len := ies_len - ies_offset in
    r <- rtw_get_ie ies start eid search_len ;;
    match r with
    | Some (target_ie, target_ielen) =>
        if target_ielen =? 0 then Ok (_FAIL, ies, ies_len)
        else
          let grow := negb (target_ielen =? content_len) in
          let remain := target_ie + 2 + target_ielen in
          let remain_len := u32 (search_len - (remain - start)) in
          if grow && negb backup then Ok (_FAIL, ies, ies_len)
          else
            saved <- (if grow then rdn ies remain remain_len else Ok []) ;;
            new <- rdn content 0 content_len ;;
            ies <- wrn ies (target_ie + 2) new ;;
            ies <- wr ies (target_ie + 1) content_len ;;
            if grow then
              ies <- wrn ies (target_ie + 2 + content_len) saved ;;
              Ok (_SUCCESS, ies, u32 (ies_len + (content_len - target_ielen)))
            else Ok (_SUCCESS, ies, ies_len)
    | None => Ok (_FAIL, ies, ies_len)
    end.

(** The state of the loop: the block, [*ies_len], [start], [search_len], [ret]. *)
(* src: core/rtw_ieee80211.c:505-519 rtw_ies_remove_ie *)
Definition remove_turn (eid : Z) (oui : option (list Z)) (st : list Z * Z * Z * Z * Z)
    : res ((list Z * Z * Z * Z * Z) + (Z * list Z * Z)) :=
  let '(ies, ies_len, start, search_len, ret) := st in
  '(r, _) <- rtw_get_ie_ex ies (Some start) search_len eid oui None ;;
  match r with
  | Some (target_ie, target_ielen) =>
      if target_ielen =? 0 then Ok (inr (ret, ies, ies_len))
      else
        let remain := target_ie + target_ielen in
        let remain_len := u32 (search_len - (remain - start)) in
        src <- rdn ies remain remain_len ;;
        ies <- wrn ies target_ie src ;;
        Ok (inl (ies, u32 (ies_len - target_ielen), target_ie, remain_len, _SUCCESS))
  | None => Ok (inr (ret, ies, ies_len))
  end.

(* src: core/rtw_ieee80211.c:491-522 rtw_ies_remove_ie *)
Definition rtw_ies_remove_ie (ies : list Z) (ies_len offset eid : Z) (oui : option (list Z))
    : res (Z * list Z * Z) :=
  if ies_len <=? offset then Ok (_FAIL, ies, ies_len)
  else loop (remove_turn eid oui) (S (Z.to_nat ies_len)) (ies, ies_len, offset, ies_len - offset, _FAIL).

(** ** A network's rates *)

Definition _BEACON_IE_OFFSET_ := 12.
Definition NDIS_802_11_LENGTH_RATES_EX := 16.

(** What these functions use of [WLAN_BSSID_EX]. *)
Record WLAN_BSSID_EX : Type := mkBss {
  IEs : list Z;
  IELength : Z;
  SupportedRates : list Z;
  DSConfig : Z;
  BeaconPeriod : Z;
  ATIMWindow : Z;
  Privacy : Z;
  Ssid : list Z;
  SsidLength : Z;
}.

Definition set_IEs (ies : list Z) (len : Z) (n : WLAN_BSSID_EX) : WLAN_BSSID_EX :=
  mkBss ies len (SupportedRates n) (DSConfig n) (BeaconPeriod n) (ATIMWindow n) (Privacy n)
    (Ssid n) (SsidLength n).
Definition set_rates (r : list Z) (n : WLAN_BSSID_EX) : WLAN_BSSID_EX :=
  mkBss (IEs n) (IELength n) r (DSConfig n) (BeaconPeriod n) (ATIMWindow n) (Privacy n)
    (Ssid n) (SsidLength n).

(* src: core/rtw_ieee80211.c:524-551 rtw_set_supported_rate *)
Definition rtw_set_supported_rate (rates : list Z) (mode : Z) : res (list Z) :=
  r <- wrn rates 0 (zeros 16) ;;
  if mode =? WIRELESS_11B then wrn r 0 WIFI_CCKRATES
  else if existsb (Z.eqb mode) [WIRELESS_11G; WIRELESS_11A; WIRELESS_11_5N; WIRELESS_11A_5N;
                                WIRELESS_11_5AC]
  then wrn r 0 WIFI_OFDMRATES
  else if existsb (Z.eqb mode) [WIRELESS_11BG; WIRELESS_11G_24N; WIRELESS_11_24N; WIRELESS_11BG_24N]
  then r <- wrn r 0 WIFI_CCKRATES ;; wrn r 4 WIFI_OFDMRATES
  else Ok r.

Inductive section : Type := CCK | OFDM.

(** One rate of the loop: kept, with the basic bit for the basic OFDM rates. *)
(* src: core/rtw_ieee80211.c:564-570 rtw_filter_suppport_rateie *)
Definition filter_rate (keep : section) (r : Z) : option Z :=
  if match keep with CCK => rtw_is_cck_rate r | OFDM => rtw_is_ofdm_rate r end
  then Some (if rtw_is_basic_rate_ofdm r then Z.lor r 0x80 else r) else None.

(** [new_rate] has 16 bytes; [idx] is a [u8]. *)
(* src: core/rtw_ieee80211.c:564-570 rtw_filter_suppport_rateie *)
Fixpoint filter_rates (keep : section) (rates new_rate : list Z) (idx : Z) : res (list Z * Z) :=
  match rates with
  | [] => Ok (new_rate, idx)
  | r :: rest =>
      match filter_rate keep r with
      | None => filter_rates keep rest new_rate idx
      | Some v => nr <- wr new_rate idx v ;; filter_rates keep rest nr (u8 (idx + 1))
      end
  end.

(* src: core/rtw_ieee80211.c:553-579 rtw_filter_suppport_rateie *)
Definition rtw_filter_suppport_rateie (n : WLAN_BSSID_EX) (keep : section) : res WLAN_BSSID_EX :=
  r <- rtw_get_ie (IEs n) _BEACON_IE_OFFSET_ 1 (s32 (IELength n - _BEACON_IE_OFFSET_)) ;;
  match r with
  | None => Ok n
  | Some (p, ie_orilen) =>
      rates <- rdn (IEs n) (p + 2) ie_orilen ;;
      '(new_rate, idx) <- filter_rates keep rates (zeros 16) 0 ;;
      ies <- wr (IEs n) (p + 1) idx ;;
      src <- rdn new_rate 0 idx ;;
      ies <- wrn ies (p + 2) src ;;
      let remain := p + 2 + ie_orilen in
      let remain_len := u32 (IELength n - remain) in
      rest <- rdn ies remain remain_len ;;
      ies <- wrn ies (p + 2 + idx) rest ;;
      Ok (set_IEs ies (u32 (IELength n - (ie_orilen - idx))) n)
  end.

(* src: core/rtw_ieee80211.c:589-623 rtw_update_rate_bymode *)
Definition rtw_update_rate_bymode (n : WLAN_BSSID_EX) (mode : Z) : res (Z * WLAN_BSSID_EX) :=
  let network_ielen := IELength n in
  '(network_type, n) <-
    (if mode =? WIRELESS_11B then
       n <- rtw_filter_suppport_rateie n CCK ;;
       r <- rtw_get_ie (IEs n) _BEACON_IE_OFFSET_ 50 (s32 (IELength n - _BEACON_IE_OFFSET_)) ;;
       match r with
       | None => Ok (WIRELESS_11B, n)
       | Some (_, ie_len) =>
           '(_, ies, _) <- rtw_ies_remove_ie (IEs n) network_ielen _BEACON_IE_OFFSET_ 50 None ;;
           Ok (WIRELESS_11B, set_IEs ies (u32 (IELength n - ie_len)) n)
       end
     else if 14 <? DSConfig n then
       n <- rtw_filter_suppport_rateie n OFDM ;; Ok (WIRELESS_11A, n)
     else if Z.land mode WIRELESS_11B =? 0 then
       n <- rtw_filter_suppport_rateie n OFDM ;; Ok (WIRELESS_11G, n)
     else Ok (WIRELESS_11BG, n)) ;;
  rates <- rtw_set_supported_rate (SupportedRates n) network_type ;;
  Ok (network_type, set_rates rates n).

(* src: core/rtw_ieee80211.c:625-638 rtw_get_rateset_len *)
Definition rtw_get_rateset_len (rateset : list Z) : res Z :=
  loop (fun i => r <- rd rateset i ;;
                 if r =? 0 then Ok (inr i) else if 12 <? i then Ok (inr i) else Ok (inl (i + 1)))
       15 0.

(* src: core/rtw_ieee80211.c:675-686 rtw_generate_ie *)
Definition ibss_mode (reg_mode dsconfig : Z) : Z :=
  if reg_mode =? WIRELESS_11ABGN then if 14 <? dsconfig then WIRELESS_11A_5N else WIRELESS_11BG_24N
  else if reg_mode =? WIRELESS_MODE_MAX then if 14 <? dsconfig then WIRELESS_11_5AC else WIRELESS_11BG_24N
  else reg_mode.

(** [pregistrypriv]'s [wireless_mode] and [preamble] are arguments; [dev_network] is [n].
    The result is the length and the network. *)
(* src: core/rtw_ieee80211.c:640-724 rtw_generate_ie *)
Definition rtw_generate_ie (reg_mode : Z) (short_preamble : bool) (n : WLAN_BSSID_EX)
    : res (Z * WLAN_BSSID_EX) :=
  let capab := Z.lor (Z.lor 2 (if short_preamble then 32 else 0)) (if Privacy n =? 0 then 0 else 16) in
  b <- wrn (IEs n) 8 [BeaconPeriod n mod 256; BeaconPeriod n / 256 mod 256] ;;
  b <- wrn b 10 [capab; 0] ;;
  '(b, ie, sz) <- rtw_set_ie b 12 0 (SsidLength n) (Ssid n) (Some 12) ;;
  rates <- rtw_set_supported_rate (SupportedRates n) (ibss_mode reg_mode (DSConfig n)) ;;
  rateLen <- rtw_get_rateset_len rates ;;
  '(b, ie, sz) <- rtw_set_ie b ie 1 (if 8 <? rateLen then 8 else rateLen) rates sz ;;
  '(b, ie, sz) <- rtw_set_ie b ie 3 1 [DSConfig n mod 256] sz ;;
  '(b, ie, sz) <- rtw_set_ie b ie 6 2 [ATIMWindow n mod 256; ATIMWindow n / 256 mod 256] sz ;;
  '(b, ie, sz) <- (if 8 <? rateLen
                   then rtw_set_ie b ie 50 (rateLen - 8) (drop 8 rates) sz
                   else Ok (b, ie, sz)) ;;
  Ok (default 0 sz, set_rates rates (set_IEs b (IELength n) n)).

(** ** Searches over well-formed elements *)

(** Offset and body length of the first element with identifier [index]. *)
Fixpoint find_ie (off index : Z) (es : list elem) : option (Z * Z) :=
  match es with
  | [] => None
  | e :: es' =>
      if fst e =? index then Some (off, zlen (snd e))
      else find_ie (off + zlen (enc1 e)) index es'
  end.

Lemma get_ie_loop index es : forall pre post i fuel,
  es <> [] -> (length es <= fuel)%nat ->
  loop (get_ie_turn (pre ++ enc es ++ post) index (i + zlen (enc es))) fuel (zlen pre, i) =
    Ok (find_ie (zlen pre) index es).
Proof.
  induction es as [|e es IH]; intros pre post i fuel Hne Hf; [done|].
  destruct fuel as [|fuel]; [simpl in Hf; lia|]. cbn [loop find_ie]. unfold get_ie_turn at 1.
  rewrite rd_id. cbn [bind]. rewrite rd_len. cbn [bind].
  destruct (fst e =? index); [done|]. rewrite zlen_enc_cons.
  destruct es as [|e' es].
  - change (zlen (enc [])) with 0. rewrite (proj2 (Z.leb_le _ _)) by lia. done.
  - rewrite (proj2 (Z.leb_gt _ _)).
    2:{ rewrite zlen_enc_cons. pose proof (zlen_nonneg (snd e')). pose proof (zlen_nonneg (enc es)). lia. }
    rewrite enc_shift. replace (zlen pre + (zlen (snd e) + 2)) with (zlen (pre ++ enc1 e))
      by (rewrite zlen_app, zlen_enc1; lia).
    replace (i + (2 + zlen (snd e) + zlen (enc (e' :: es))))
      with (i + (zlen (snd e) + 2) + zlen (enc (e' :: es))) by lia.
    rewrite IH; [|done | simpl in *; lia]. rewrite zlen_app. done.
Qed.

Lemma length_enc es : (2 * length es <= length (enc es))%nat.
Proof. induction es as [|e es IH]; [done|]. cbn [enc length]. rewrite length_app. unfold enc1. cbn [length]. lia. Qed.

Lemma enc_fuel es k : 0 <= k -> (length es <= Z.to_nat (k + zlen (enc es)))%nat.
Proof. pose proof (length_enc es). unfold zlen. lia. Qed.

Lemma rtw_get_ie_enc pre es post index :
  rtw_get_ie (pre ++ enc es ++ post) (zlen pre) index (zlen (enc es)) =
    Ok (find_ie (zlen pre) index es).
Proof.
  unfold rtw_get_ie. destruct es as [|e es]; [done|].
  rewrite (proj2 (Z.ltb_ge _ _)).
  - apply (get_ie_loop index (e :: es) pre post 0); [done|].
    pose proof (length_enc (e :: es)). unfold zlen. lia.
  - rewrite zlen_enc_cons. pose proof (zlen_nonneg (snd e)). pose proof (zlen_nonneg (enc es)). lia.
Qed.

(** An element found is an element of the list, and none before it has the identifier. *)
Lemma find_ie_spec index es : forall off,
  match find_ie off index es with
  | Some (o, n) => exists a e b, es = a ++ e :: b /\ fst e = index /\ n = zlen (snd e) /\
                     o = off + zlen (enc a) /\ Forall (fun x => fst x <> index) a
  | None => Forall (fun x => fst x <> index) es
  end.
Proof.
  induction es as [|e es IH]; intros off; cbn [find_ie]; [done|].
  destruct (Z.eqb_spec (fst e) index) as [He|He].
  - exists [], e, es. split_and!; try done. change (zlen (enc [])) with 0. lia.
  - specialize (IH (off + zlen (enc1 e))). destruct (find_ie _ _ _) as [[o n]|]; [|by constructor].
    destruct IH as (a & d & b & -> & Hd & -> & -> & Ha). exists (e :: a), d, b.
    split_and!; try done; [|by constructor]. cbn [enc]. rewrite zlen_app. lia.
Qed.

Lemma find_ie_at index a e b : forall off,
  Forall (fun x : elem => fst x <> index) a -> fst e = index ->
  find_ie off index (a ++ e :: b) = Some (off + zlen (enc a), zlen (snd e)).
Proof.
  induction a as [|x a IH]; intros off Ha He; cbn [app find_ie].
  - rewrite (proj2 (Z.eqb_eq _ _) He). change (zlen (enc [])) with 0. rewrite Z.add_0_r. done.
  - inversion_clear Ha as [|? ? Hx Ha']. rewrite (proj2 (Z.eqb_neq _ _) Hx).
    rewrite IH by done. cbn [enc]. rewrite zlen_app. f_equal. f_equal. lia.
Qed.

(** ** The search with an OUI *)

Definition hits (eid : Z) (oui : option (list Z)) (e : elem) : bool :=
  (fst e =? eid) && match oui with None => true | Some o => is_prefix o (snd e) end.

(** The bodies compared with [oui] are at least as long. *)
Definition oui_fits (eid : Z) (oui : option (list Z)) (es : list elem) : Prop :=
  match oui with
  | None => True
  | Some o => Forall (fun e => fst e = eid -> zlen o <= zlen (snd e)) es
  end.

Fixpoint find_ex (off eid : Z) (oui : option (list Z)) (es : list elem) : option (Z * Z) :=
  match es with
  | [] => None
  | e :: es' =>
      if hits eid oui e then Some (off, zlen (enc1 e))
      else find_ex (off + zlen (enc1 e)) eid oui es'
  end.

Lemma is_prefix_fit o body rest :
  (length o <= length body)%nat -> is_prefix o (body ++ rest) = is_prefix o body.
Proof.
  revert body. induction o as [|x o IH]; intros body H; [by destruct body|].
  destruct body as [|y body]; [simpl in H; lia|]. simpl in *. rewrite IH by lia. done.
Qed.

Lemma get_ie_ex_hit eid oui e es pre post in_ie cnt :
  oui_fits eid oui (e :: es) -> zlen pre = in_ie + cnt ->
  (if eid =? fst e
   then match oui with
        | None => Ok true
        | Some o => memcmp_eq (pre ++ enc (e :: es) ++ post) (in_ie + cnt + 2) o
        end
   else Ok false) = Ok (hits eid oui e).
Proof.
  intros Hfit Hp. unfold hits. rewrite (Z.eqb_sym eid). destruct (Z.eqb_spec (fst e) eid) as [He|]; [|done].
  destruct oui as [o|]; [|done]. inversion_clear Hfit as [|? ? Hl _].
  specialize (Hl He). unfold memcmp_eq. rewrite <- Hp, drop_body.
  rewrite memcmp_l_long by (rewrite length_app; unfold zlen in Hl; lia).
  rewrite is_prefix_fit by (unfold zlen in Hl; lia). done.
Qed.

Lemma get_ie_ex_loop eid oui in_ie es : forall pre post cnt fuel,
  oui_fits eid oui es -> Forall elem_ok es -> zlen pre = in_ie + cnt -> 0 <= cnt ->
  cnt + zlen (enc es) < 2 ^ 31 -> (length es < fuel)%nat ->
  loop (get_ie_ex_turn (pre ++ enc es ++ post) in_ie (cnt + zlen (enc es)) eid oui) fuel cnt =
    Ok (find_ex (zlen pre) eid oui es).
Proof.
  induction es as [|e es IH]; intros pre post cnt fuel Hfit Hes Hp Hc Hb Hf;
    (destruct fuel as [|fuel]; [simpl in Hf; lia|]); cbn [loop find_ex]; unfold get_ie_ex_turn at 1.
  - rewrite (proj2 (Z.ltb_ge _ _)); [done|]. change (zlen (enc [])) with 0. lia.
  - inversion_clear Hes as [|? ? (_ & Hl & _) Hes'].
    pose proof (zlen_nonneg (snd e)). pose proof (zlen_nonneg (enc es)). rewrite zlen_enc_cons in *.
    rewrite (proj2 (Z.ltb_lt _ _)) by lia. cbn [negb]. rewrite <- Hp, rd_id. cbn [bind].
    rewrite Hp, (get_ie_ex_hit _ _ _ _ _ _ _ _ Hfit Hp). cbn [bind]. rewrite <- Hp, rd_len. cbn [bind].
    destruct (hits eid oui e).
    + rewrite u32_small by lia. rewrite zlen_enc1, Z.add_comm. done.
    + rewrite u32_small by lia. rewrite enc_shift.
      replace (cnt + (2 + zlen (snd e) + zlen (enc es)))
        with (cnt + (zlen (snd e) + 2) + zlen (enc es)) by lia.
      rewrite IH; [rewrite zlen_app; done | | done | | lia | lia | simpl in Hf; lia].
      * destruct oui; [|done]. by inversion_clear Hfit.
      * rewrite zlen_app, zlen_enc1. lia.
Qed.

Lemma rtw_get_ie_ex_enc pre es post eid oui :
  oui_fits eid oui es -> Forall elem_ok es -> zlen (enc es) < 2 ^ 31 ->
  rtw_get_ie_ex (pre ++ enc es ++ post) (Some (zlen pre)) (zlen (enc es)) eid oui None =
    Ok (find_ex (zlen pre) eid oui es, None).
Proof.
  intros Hfit Hes Hb. unfold rtw_get_ie_ex. destruct es as [|e es]; [done|].
  assert (0 < zlen (enc (e :: es))).
  { rewrite zlen_enc_cons. pose proof (zlen_nonneg (snd e)). pose proof (zlen_nonneg (enc es)). lia. }
  rewrite (proj2 (Z.leb_gt _ _)) by lia.
  pose proof (get_ie_ex_loop eid oui (zlen pre) (e :: es) pre post 0 (S (Z.to_nat (zlen (enc (e :: es))))))
    as H1. rewrite Z.add_0_l in H1. rewrite H1; try done; try lia.
  - cbn [bind]. destruct (find_ex _ _ _ _) as [[? ?]|]; done.
  - pose proof (length_enc (e :: es)). unfold zlen. lia.
Qed.

(** ** Removing *)

Definition kept (eid : Z) (oui : option (list Z)) (es : list elem) : list elem :=
  List.filter (fun e => negb (hits eid oui e)) es.

Lemma find_ex_spec eid oui es : forall off,
  match find_ex off eid oui es with
  | Some (o, n) => exists a e b, es = a ++ e :: b /\ hits eid oui e = true /\ n = zlen (enc1 e) /\
                     o = off + zlen (enc a) /\ kept eid oui a = a
  | None => kept eid oui es = es /\ existsb (hits eid oui) es = false
  end.
Proof.
  induction es as [|e es IH]; intros off; cbn [find_ex]; [done|].
  cbn [existsb]. unfold kept in *. cbn [List.filter]. destruct (hits eid oui e) eqn:He; cbn [negb orb].
  - exists [], e, es. split_and!; try done. change (zlen (enc [])) with 0. lia.
  - specialize (IH (off + zlen (enc1 e))). destruct (find_ex _ _ _ _) as [[o n]|].
    + destruct IH as (a & d & b & -> & Hd & -> & -> & Ha). exists (e :: a), d, b.
      split_and!; try done; [cbn [enc]; rewrite zlen_app; lia|].
      cbn [List.filter]. rewrite He. cbn [negb]. by rewrite Ha.
    + destruct IH as [-> ->]. done.
Qed.

Lemma zlen_kept eid oui es : zlen (enc (kept eid oui es)) <= zlen (enc es).
Proof.
  induction es as [|e es IH]; [done|]. unfold kept in *. cbn [List.filter].
  rewrite zlen_enc_cons. destruct (negb _); [rewrite zlen_enc_cons; lia | pose proof (zlen_nonneg (snd e)); lia].
Qed.

Lemma oui_fits_app_r eid oui a b : oui_fits eid oui (a ++ b) -> oui_fits eid oui b.
Proof. destruct oui; [|done]. cbn. intros H%Forall_app. tauto. Qed.

Lemma oui_fits_tail eid oui e b : oui_fits eid oui (e :: b) -> oui_fits eid oui b.
Proof. apply (oui_fits_app_r eid oui [e] b). Qed.

(** The first [n] bytes of a block that is [k + n] long, and the rest. *)
Lemma split_block (x y : list Z) : exists u v, x ++ y = u ++ v /\ zlen u = zlen y /\ zlen v = zlen x.
Proof.
  exists (take (length y) (x ++ y)), (drop (length y) (x ++ y)). rewrite take_drop.
  unfold zlen. rewrite length_take, length_drop, length_app. split_and!; [done | lia | lia].
Qed.

(** A turn that finds [e] moves what follows it down and leaves [j] behind. *)
Lemma remove_turn_hit eid oui a e b pre post ies_len ret :
  find_ex (zlen pre) eid oui (a ++ e :: b) = Some (zlen pre + zlen (enc a), zlen (enc1 e)) ->
  oui_fits eid oui (a ++ e :: b) -> Forall elem_ok (a ++ e :: b) ->
  zlen (enc (a ++ e :: b)) <= ies_len < 2 ^ 31 ->
  exists j, zlen j = zlen (enc1 e) /\
    remove_turn eid oui (pre ++ enc (a ++ e :: b) ++ post, ies_len, zlen pre, zlen (enc (a ++ e :: b)), ret) =
      Ok (inl ((pre ++ enc a) ++ enc b ++ j ++ post, ies_len - zlen (enc1 e), zlen (pre ++ enc a),
               zlen (enc b), _SUCCESS)).
Proof.
  intros Hf Hfit Hes Hb. unfold remove_turn. rewrite rtw_get_ie_ex_enc by (done || lia). cbn [bind].
  rewrite Hf. rewrite enc_app, zlen_app, zlen_enc_cons in *. rewrite zlen_enc1.
  pose proof (zlen_nonneg (enc a)). pose proof (zlen_nonneg (snd e)). pose proof (zlen_nonneg (enc b)).
  rewrite (proj2 (Z.eqb_neq _ 0)) by lia.
  replace (zlen (enc a) + (2 + zlen (snd e) + zlen (enc b)) - (zlen pre + zlen (enc a) +
      (2 + zlen (snd e)) - zlen pre)) with (zlen (enc b)) by lia.
  rewrite !u32_small by lia. replace (zlen pre + zlen (enc a) + (2 + zlen (snd e)))
    with (zlen ((pre ++ enc a) ++ enc1 e)) by (rewrite !zlen_app, zlen_enc1; lia).
  replace (pre ++ (enc a ++ enc (e :: b)) ++ post) with (((pre ++ enc a) ++ enc1 e) ++ enc b ++ post)
    by (cbn [enc]; rewrite <- !app_assoc; done).
  rewrite rdn_app. cbn [bind].
  destruct (split_block (enc1 e) (enc b)) as (u & j & Huj & Hu & Hj). exists j.
  rewrite zlen_enc1 in Hj. split; [done|].
  replace (((pre ++ enc a) ++ enc1 e) ++ enc b ++ post) with ((pre ++ enc a) ++ u ++ (j ++ post)).
  - replace (zlen pre + zlen (enc a)) with (zlen (pre ++ enc a)) by (rewrite zlen_app; done).
    rewrite wrn_app by done. done.
  - rewrite <- !app_assoc. rewrite (app_assoc (enc1 e)), Huj, <- !app_assoc. done.
Qed.

Lemma remove_loop eid oui : forall n es pre post ies_len ret,
  (length es <= n)%nat -> oui_fits eid oui es -> Forall elem_ok es ->
  zlen (enc es) <= ies_len < 2 ^ 31 ->
  exists junk, zlen junk = zlen (enc es) - zlen (enc (kept eid oui es)) /\
    loop (remove_turn eid oui) (S n) (pre ++ enc es ++ post, ies_len, zlen pre, zlen (enc es), ret) =
      Ok (if existsb (hits eid oui) es then _SUCCESS else ret,
          pre ++ enc (kept eid oui es) ++ junk ++ post,
          ies_len - (zlen (enc es) - zlen (enc (kept eid oui es)))).
Proof.
  induction n as [|n IH]; intros es pre post ies_len ret Hn Hfit Hes Hlen; rewrite loop_S;
    pose proof (find_ex_spec eid oui es (zlen pre)) as Hf; destruct (find_ex _ _ _ _) as [[o k]|] eqn:E.
  - destruct Hf as (a & e & b & -> & _). rewrite length_app in Hn. simpl in Hn. lia.
  - unfold remove_turn. rewrite rtw_get_ie_ex_enc, E by (done || lia). destruct Hf as [-> ->].
    exists []. rewrite Z.sub_diag, Z.sub_0_r. done.
  - destruct Hf as (a & e & b & -> & He & -> & -> & Ha).
    assert (Hk : kept eid oui (a ++ e :: b) = a ++ kept eid oui b).
    { unfold kept in *. rewrite List.filter_app, Ha. simpl. rewrite He. done. }
    destruct (remove_turn_hit eid oui a e b pre post ies_len ret E Hfit Hes Hlen) as (j & Hj & ->).
    apply Forall_app in Hes as [_ Hes]. inversion_clear Hes as [|? ? _ Hes'].
    rewrite enc_app, zlen_app, zlen_enc_cons in Hlen. rewrite length_app in Hn. simpl in Hn.
    pose proof (zlen_nonneg (enc a)). pose proof (zlen_nonneg (snd e)). pose proof (zlen_nonneg (enc b)).
    apply oui_fits_app_r, oui_fits_tail in Hfit. rewrite zlen_enc1 in *.
    destruct (IH b (pre ++ enc a) (j ++ post) (ies_len - (2 + zlen (snd e))) _SUCCESS)
      as (junk & Hjk & ->); [lia | done | done | lia |].
    exists (junk ++ j). rewrite Hk, !enc_app, !zlen_app, zlen_enc_cons, Hj. split; [lia|].
    rewrite existsb_app. cbn [existsb]. rewrite He, orb_true_r. rewrite <- !app_assoc. f_equal.
    f_equal; [|lia]. by destruct (existsb _ b).
  - unfold remove_turn. rewrite rtw_get_ie_ex_enc, E by (done || lia). destruct Hf as [-> ->].
    exists []. rewrite Z.sub_diag, Z.sub_0_r. done.
Qed.

(** ** Replacing *)

Lemma take_split (n : Z) (l : list Z) :
  0 <= n <= zlen l -> exists u v, l = u ++ v /\ zlen u = n /\ zlen v = zlen l - n.
Proof.
  intros H. exists (take (Z.to_nat n) l), (drop (Z.to_nat n) l). rewrite take_drop.
  unfold zlen in *. rewrite length_take, length_drop. split_and!; [done | lia | lia].
Qed.

(** The three writes of an update, on the block around the element. *)
Definition update_block (h : list Z) (old_len : Z) (rest new saved : list Z) (grow : bool) : res (list Z) :=
  b <- wrn (h ++ old_len :: rest) (zlen h + 1) new ;;
  b <- wr b (zlen h) (zlen new) ;;
  if grow then wrn b (zlen h + 1 + zlen new) saved else Ok b.

Lemma update_block_grow h old_len old tl post new :
  update_block h old_len (old ++ tl ++ post) new tl true =
    if zlen new <=? zlen old + zlen post
    then Ok (h ++ zlen new :: new ++ tl ++ drop (Z.to_nat (zlen new + zlen tl)) (old ++ tl ++ post))
    else Fault OobWrite.
Proof.
  unfold update_block. pose proof (zlen_nonneg h). pose proof (zlen_nonneg new).
  pose proof (zlen_nonneg tl). pose proof (zlen_nonneg old). pose proof (zlen_nonneg post).
  set (rest := old ++ tl ++ post). assert (Hr : zlen rest = zlen old + zlen tl + zlen post)
    by (unfold rest; rewrite !zlen_app; lia).
  replace (zlen h + 1) with (zlen (h ++ [old_len])) by (rewrite zlen_app; done).
  replace (h ++ old_len :: rest) with ((h ++ [old_len]) ++ rest) by (rewrite <- app_assoc; done).
  destruct (Z.leb_spec (zlen new) (zlen old + zlen post)) as [Hle|Hgt].
  - destruct (take_split (zlen new) rest ltac:(lia)) as (u & w & Huw & Hu & Hw).
    destruct (take_split (zlen tl) w ltac:(lia)) as (u2 & v & Huv & Hu2 & Hv).
    rewrite Huw, wrn_app by done. cbn [bind]. rewrite <- app_assoc. cbn [app].
    rewrite wr_mid. cbn [bind]. rewrite Huv.
    replace (h ++ zlen new :: new ++ u2 ++ v) with ((h ++ zlen new :: new) ++ u2 ++ v)
      by (rewrite <- app_assoc; done).
    replace (zlen (h ++ [old_len]) + zlen new) with (zlen (h ++ zlen new :: new)) by zlia.
    rewrite wrn_app by done. rewrite <- app_assoc. f_equal. f_equal. cbn [app]. f_equal. f_equal. f_equal.
    replace (Z.to_nat (zlen new + zlen tl)) with (length (u ++ u2)) by (unfold zlen in *; rewrite length_app; lia).
    rewrite app_assoc, drop_app_length. done.
  - destruct (Z.leb_spec (zlen new) (zlen rest)).
    + destruct (take_split (zlen new) rest ltac:(lia)) as (u & w & Huw & Hu & Hw).
      rewrite Huw, wrn_app by done. cbn [bind]. rewrite <- app_assoc. cbn [app]. rewrite wr_mid. cbn [bind].
      rewrite wrn_oob; [done|]. rewrite !zlen_app, zlen_cons, zlen_app. change (zlen [old_len]) with 1. lia.
    + rewrite wrn_oob; [done|]. rewrite !zlen_app. lia.
Qed.

Lemma update_spec pre a eid old b post new :
  Forall (fun x : elem => fst x <> eid) a -> old <> [] -> zlen old < 256 ->
  zlen pre + zlen (enc (a ++ (eid, old) :: b)) < 2 ^ 31 -> zlen new < 256 ->
  exists junk,
  rtw_ies_update_ie true (pre ++ enc (a ++ (eid, old) :: b) ++ post)
      (zlen pre + zlen (enc (a ++ (eid, old) :: b))) (zlen pre) eid new (zlen new) =
    if zlen new <=? zlen old + zlen post
    then Ok (_SUCCESS, pre ++ enc (a ++ (eid, new) :: b) ++ junk,
             zlen pre + zlen (enc (a ++ (eid, new) :: b)))
    else Fault OobWrite.
Proof.
  intros Ha Hold Hl Hb Hn.
  pose proof (zlen_nonneg pre). pose proof (zlen_nonneg new). pose proof (zlen_nonneg (enc a)).
  pose proof (zlen_nonneg (enc b)). pose proof (zlen_nonneg post).
  assert (0 < zlen old) by (destruct old; [done | rewrite zlen_cons; pose proof (zlen_nonneg old); lia]).
  set (es := a ++ (eid, old) :: b). assert (Hes : zlen (enc es) = zlen (enc a) + (2 + zlen old + zlen (enc b)))
    by (unfold es; rewrite enc_app, zlen_app, zlen_enc_cons; done).
  fold es in Hb. exists (if zlen old =? zlen new then post
                        else drop (Z.to_nat (zlen new + zlen (enc b))) (old ++ enc b ++ post)).
  unfold rtw_ies_update_ie. rewrite (proj2 (Z.eqb_neq _ 0)), (proj2 (Z.leb_gt _ _)) by lia. cbn [orb].
  replace (zlen pre + zlen (enc es) - zlen pre) with (zlen (enc es)) by lia.
  rewrite rtw_get_ie_enc. unfold es at 1. rewrite find_ie_at by done. cbn [bind snd].
  rewrite (proj2 (Z.eqb_neq (zlen old) 0)) by lia. rewrite andb_false_r.
  replace (zlen (enc es) - (zlen pre + zlen (enc a) + 2 + zlen old - zlen pre)) with (zlen (enc b)) by lia.
  rewrite u32_small by lia.
  set (h := pre ++ enc a ++ [eid]).
  assert (Hh : zlen pre + zlen (enc a) + 1 = zlen h) by (unfold h; rewrite !zlen_app; change (zlen [eid]) with 1; lia).
  assert (Hblk : pre ++ enc es ++ post = h ++ zlen old :: old ++ enc b ++ post).
  { unfold h, es. rewrite enc_app. cbn [enc]. unfold enc1. cbn [fst snd]. rewrite <- !app_assoc. done. }
  rewrite Hblk.
  assert (Hsav : rdn (h ++ zlen old :: old ++ enc b ++ post) (zlen pre + zlen (enc a) + 2 + zlen old) (zlen (enc b)) = Ok (enc b)).
  { replace (zlen pre + zlen (enc a) + 2 + zlen old) with (zlen (h ++ zlen old :: old)) by zlia.
    replace (h ++ zlen old :: old ++ enc b ++ post) with ((h ++ zlen old :: old) ++ enc b ++ post)
      by (rewrite <- app_assoc; done). apply rdn_app. }
  assert (Hnew : rdn new 0 (zlen new) = Ok new)
    by (rewrite <- (app_nil_r new) at 1; apply rdn_prefix; done).
  rewrite Hnew. replace (zlen pre + zlen (enc a) + 2) with (zlen h + 1) by lia. rewrite Hh.
  assert (Hout : forall x, h ++ zlen new :: new ++ enc b ++ x = pre ++ enc (a ++ (eid, new) :: b) ++ x).
  { intros x. unfold h. rewrite enc_app. cbn [enc]. unfold enc1. cbn [fst snd].
    rewrite <- !app_assoc. done. }
  assert (Hlen : zlen (enc (a ++ (eid, new) :: b)) = zlen (enc es) + (zlen new - zlen old))
    by (rewrite Hes, enc_app, zlen_app, zlen_enc_cons; cbn [snd]; lia).
  destruct (Z.eqb_spec (zlen old) (zlen new)) as [Heq|Hne]; cbn [negb andb bind].
  - rewrite (proj2 (Z.leb_le _ _)) by lia.
    replace (h ++ zlen old :: old ++ enc b ++ post) with ((h ++ [zlen old]) ++ old ++ enc b ++ post)
      by (rewrite <- app_assoc; done).
    replace (zlen h + 1) with (zlen (h ++ [zlen old])) by zlia.
    rewrite wrn_app by done. cbn [bind]. rewrite <- app_assoc. cbn [app]. rewrite wr_mid. cbn [bind].
    rewrite Hout, Hlen. do 3 f_equal. lia.
  - transitivity (ies <- update_block h (zlen old) (old ++ enc b ++ post) new (enc b) true ;;
                  Ok (_SUCCESS, ies, u32 (zlen pre + zlen (enc es) + (zlen new - zlen old)))).
    { unfold update_block. replace (zlen pre + zlen (enc a) + 2) with (zlen h + 1) in Hsav by lia.
      rewrite Hsav. cbn [bind]. rewrite !bind_assoc. destruct (wrn _ _ new); [|done]. cbn [bind].
      by rewrite bind_assoc. }
    rewrite update_block_grow. destruct (_ <=? _); [|done]. cbn [bind]. rewrite Hout, Hlen.
    rewrite u32_small by lia. do 2 f_equal. lia.
Qed.

(** ** Building *)

Lemma rtw_set_ie_app pre x post id src ex fr :
  zlen x = zlen src + 2 -> is_byte id -> zlen src < 256 ->
  rtw_set_ie (pre ++ x ++ post) (zlen pre) id (zlen src) (src ++ ex) fr =
    Ok (pre ++ enc1 (id, src) ++ post, zlen (pre ++ enc1 (id, src)),
        option_map (fun f => u32 (f + (zlen src + 2))) fr).
Proof.
  intros Hx Hid Hl. pose proof (zlen_nonneg src). unfold rtw_set_ie.
  destruct x as [|x0 [|x1 x]]; [change (zlen []) with 0 in Hx; lia | change (zlen [x0]) with 1 in Hx; lia|].
  rewrite !zlen_cons in Hx. cbn [app]. rewrite wr_mid. cbn [bind].
  replace (zlen pre + 1) with (zlen (pre ++ [u8 id])) by zlia.
  replace (pre ++ u8 id :: x1 :: x ++ post) with ((pre ++ [u8 id]) ++ x1 :: x ++ post)
    by (rewrite <- app_assoc; done).
  rewrite wr_mid. cbn [bind]. rewrite !u8_small by (done || (unfold is_byte; lia)).
  unfold enc1. cbn [fst snd].
  assert (Hend : zlen pre + zlen src + 2 = zlen (pre ++ id :: zlen src :: src)) by zlia. rewrite Hend.
  destruct (Z.ltb_spec 0 (zlen src)).
  - rewrite rdn_prefix by done. cbn [bind]. replace (zlen pre + 2) with (zlen (pre ++ [id; zlen src])) by zlia.
    replace ((pre ++ [id]) ++ zlen src :: x ++ post) with ((pre ++ [id; zlen src]) ++ x ++ post)
      by (rewrite <- !app_assoc; done).
    rewrite wrn_app by lia. cbn [bind]. rewrite <- app_assoc. done.
  - destruct src; [|rewrite zlen_cons in *; pose proof (zlen_nonneg src); lia].
    destruct x; [|rewrite zlen_cons in Hx; change (zlen []) with 0 in Hx; pose proof (zlen_nonneg x); lia].
    cbn [bind]. rewrite <- app_assoc. done.
Qed.

(** The same with room [w] at the target. *)
Lemma rtw_set_ie_room pre w id src ex f :
  zlen src + 2 <= zlen w -> is_byte id -> zlen src < 256 ->
  exists w', zlen w' = zlen w - zlen (enc1 (id, src)) /\
    rtw_set_ie (pre ++ w) (zlen pre) id (zlen src) (src ++ ex) (Some f) =
      Ok ((pre ++ enc1 (id, src)) ++ w', zlen (pre ++ enc1 (id, src)),
          Some (u32 (f + zlen (enc1 (id, src))))).
Proof.
  intros Hw Hid Hl. pose proof (zlen_nonneg src).
  destruct (take_split (zlen src + 2) w ltac:(lia)) as (x & w' & -> & Hx & Hw').
  exists w'. rewrite zlen_enc1. cbn [snd]. split; [lia|].
  rewrite rtw_set_ie_app by done. rewrite <- app_assoc. cbn [option_map]. do 4 f_equal. lia.
Qed.

(** The rates of a mode. *)
Definition mode_rates (mode : Z) : list Z :=
  if mode =? WIRELESS_11B then WIFI_CCKRATES
  else if existsb (Z.eqb mode) [WIRELESS_11G; WIRELESS_11A; WIRELESS_11_5N; WIRELESS_11A_5N;
                                WIRELESS_11_5AC] then WIFI_OFDMRATES
  else if existsb (Z.eqb mode) [WIRELESS_11BG; WIRELESS_11G_24N; WIRELESS_11_24N; WIRELESS_11BG_24N]
  then WIFI_CCKRATES ++ WIFI_OFDMRATES
  else [].

Lemma rtw_set_supported_rate_spec rates mode :
  zlen rates = 16 ->
  rtw_set_supported_rate rates mode =
    Ok (mode_rates mode ++ zeros (16 - length (mode_rates mode))).
Proof.
  intros H. unfold rtw_set_supported_rate, mode_rates.
  rewrite wrn_prefix by (rewrite zlen_zeros; lia). cbn [bind].
  rewrite drop_ge by (unfold zeros; rewrite length_replicate; unfold zlen in H; lia).
  rewrite app_nil_r. destruct (mode =? _); [done|].
  destruct (existsb _ _); [done|]. destruct (existsb _ _); done.
Qed.

Lemma mode_rates_cases mode :
  mode_rates mode = WIFI_CCKRATES \/ mode_rates mode = WIFI_OFDMRATES \/
  mode_rates mode = WIFI_CCKRATES ++ WIFI_OFDMRATES \/ mode_rates mode = [].
Proof. unfold mode_rates. repeat case_match; auto. Qed.

(** The elements [rtw_generate_ie] writes. *)
Definition gen_elems (mode : Z) (n : WLAN_BSSID_EX) (ssid : list Z) : list elem :=
  [(0, ssid); (1, take 8 (mode_rates mode)); (3, [DSConfig n mod 256]);
   (6, [ATIMWindow n mod 256; ATIMWindow n / 256 mod 256])] ++
  (if 8 <? zlen (mode_rates mode) then [(50, drop 8 (mode_rates mode))] else []).

Definition gen_capab (short_preamble : bool) (n : WLAN_BSSID_EX) : Z :=
  2 + (if short_preamble then 32 else 0) + (if Privacy n =? 0 then 0 else 16).

Lemma rateset_len mode :
  rtw_get_rateset_len (mode_rates mode ++ zeros (16 - length (mode_rates mode))) =
    Ok (zlen (mode_rates mode)).
Proof. destruct (mode_rates_cases mode) as [-> | [-> | [-> | ->]]]; reflexivity. Qed.

(** The rates element, and the extended one if there is more than fits in it. *)
Lemma rates_element mode (rs := mode_rates mode) :
  exists ex, rs ++ zeros (16 - length rs) = take 8 rs ++ ex /\
    (if 8 <? zlen rs then 8 else zlen rs) = zlen (take 8 rs) /\
    ((8 <? zlen rs) = true ->
       drop 8 (rs ++ zeros (16 - length rs)) = drop 8 rs ++ zeros 4 /\ zlen rs - 8 = zlen (drop 8 rs)).
Proof.
  exists (drop (length (take 8 rs)) (rs ++ zeros (16 - length rs))). unfold rs.
  destruct (mode_rates_cases mode) as [-> | [-> | [-> | ->]]]; split_and!; done.
Qed.

(** The fixed fields after the timestamp. *)
Lemma generate_header (ies : list Z) y0 y1 z0 z1 :
  12 <= zlen ies ->
  exists w, zlen w = zlen ies - 12 /\
    (b <- wrn ies 8 [y0; y1] ;; wrn b 10 [z0; z1]) = Ok ((take 8 ies ++ [y0; y1; z0; z1]) ++ w).
Proof.
  intros H. destruct (take_split 8 ies ltac:(lia)) as (t & w & -> & Ht & Hw).
  replace (take 8 (t ++ w)) with t.
  2:{ replace 8%nat with (length t) by (unfold zlen in Ht; lia). rewrite take_app_length. done. }
  destruct (take_split 4 w ltac:(lia)) as (c & w' & -> & Hc & Hw').
  exists w'. split; [rewrite !zlen_app in *; lia|].
  apply (zlen_length _ 4) in Hc. do 4 (destruct c as [|?c c]; [discriminate|]). destruct c; [|discriminate].
  pose proof (wrn_app t [c0; c1] ([c2; c3] ++ w') [y0; y1] eq_refl) as E1. rewrite Ht in E1.
  cbn [app] in *. rewrite E1. cbn [bind].
  pose proof (wrn_app (t ++ [y0; y1]) [c2; c3] w' [z0; z1] eq_refl) as E2.
  rewrite zlen_app, Ht, <- !app_assoc in E2. cbn [app] in E2. change (8 + zlen [y0; y1]) with 10 in E2.
  rewrite E2, <- app_assoc. done.
Qed.

(** Writing several elements one after the other. *)
Fixpoint set_ies (b : list Z) (p : Z) (sz : Z) (es : list elem) : res (list Z * Z * option Z) :=
  match es with
  | [] => Ok (b, p, Some sz)
  | e :: es' =>
      '(b, p, sz) <- rtw_set_ie b p (fst e) (zlen (snd e)) (snd e) (Some sz) ;;
      set_ies b p (default 0 sz) es'
  end.

Lemma set_ies_room es : forall pre w f,
  zlen (enc es) <= zlen w -> Forall (fun e => is_byte (fst e) /\ zlen (snd e) < 256) es ->
  0 <= f -> f + zlen (enc es) < 2 ^ 32 ->
  exists w', zlen w' = zlen w - zlen (enc es) /\
    set_ies (pre ++ w) (zlen pre) f es =
      Ok ((pre ++ enc es) ++ w', zlen (pre ++ enc es), Some (f + zlen (enc es))).
Proof.
  induction es as [|e es IH]; intros pre w f Hw Hes Hf Hb; cbn [set_ies].
  - exists w. change (zlen (enc [])) with 0 in *. rewrite app_nil_r, Z.add_0_r. split; [lia | done].
  - inversion_clear Hes as [|? ? [Hid Hl] Hes']. pose proof (zlen_nonneg (enc es)).
    pose proof (zlen_nonneg (snd e)). rewrite zlen_enc_cons in *.
    destruct (rtw_set_ie_room pre w (fst e) (snd e) [] f) as (w1 & Hw1 & E); [lia | done | done |].
    rewrite app_nil_r in E. rewrite E. cbn [bind default]. rewrite zlen_enc1 in *. cbn [snd] in *.
    rewrite u32_small by lia. destruct e as [id body]. cbn [fst snd] in *.
    destruct (IH (pre ++ enc1 (id, body)) w1 (f + (2 + zlen body))) as (w2 & Hw2 & E2); [lia | done | lia | lia |].
    exists w2. split; [lia|]. cbn [enc]. unfold Datatypes.id. rewrite E2, <- !app_assoc. do 3 f_equal. lia.
Qed.

(** Only the first [len] bytes of the source matter. *)
Lemma rtw_set_ie_src b p id src ex fr :
  rtw_set_ie b p id (zlen src) (src ++ ex) fr = rtw_set_ie b p id (zlen src) src fr.
Proof.
  assert (H : rdn src 0 (zlen src) = Ok src)
    by (rewrite <- (app_nil_r src) at 1; apply rdn_prefix; done).
  unfold rtw_set_ie. rewrite H, rdn_prefix by done. done.
Qed.

Lemma set_ie_len b p id len src f b' p' :
  rtw_set_ie b p id len src (Some f) <> Ok (b', p', None).
Proof. unfold rtw_set_ie. intros H. res_inv. simplify_eq. Qed.

(** After the fixed fields the function writes [gen_elems], one after the other. *)
Lemma generate_elements b mode n ssid ex :
  Ssid n = ssid ++ ex ->
  ('(b, ie, sz) <- rtw_set_ie b 12 0 (zlen ssid) (Ssid n) (Some 12) ;;
   rateLen <- rtw_get_rateset_len (mode_rates mode ++ zeros (16 - length (mode_rates mode))) ;;
   '(b, ie, sz) <- rtw_set_ie b ie 1 (if 8 <? rateLen then 8 else rateLen)
                     (mode_rates mode ++ zeros (16 - length (mode_rates mode))) sz ;;
   '(b, ie, sz) <- rtw_set_ie b ie 3 1 [DSConfig n mod 256] sz ;;
   '(b, ie, sz) <- rtw_set_ie b ie 6 2 [ATIMWindow n mod 256; ATIMWindow n / 256 mod 256] sz ;;
   (if 8 <? rateLen
    then rtw_set_ie b ie 50 (rateLen - 8)
           (drop 8 (mode_rates mode ++ zeros (16 - length (mode_rates mode)))) sz
    else Ok (b, ie, sz))) =
  set_ies b 12 12 (gen_elems mode n ssid).
Proof.
  intros Hs. rewrite rateset_len, Hs, rtw_set_ie_src.
  destruct (rates_element mode) as (rex & Hrex & Hr8 & Hext). unfold gen_elems. cbn [app set_ies fst snd].
  destruct (rtw_set_ie b 12 0 _ _ _) as [[[b1 p1] [f1|]]|] eqn:E0; try done;
    [|by apply set_ie_len in E0]. cbn [bind default]. unfold Datatypes.id.
  rewrite Hr8, Hrex, rtw_set_ie_src.
  destruct (rtw_set_ie b1 p1 1 _ _ _) as [[[b2 p2] [f2|]]|] eqn:E1; try done;
    [|by apply set_ie_len in E1]. cbn [bind].
  change (zlen [DSConfig n mod 256]) with 1.
  destruct (rtw_set_ie b2 p2 3 _ _ _) as [[[b3 p3] [f3|]]|] eqn:E2; try done;
    [|by apply set_ie_len in E2]. cbn [bind].
  change (zlen [_; _]) with 2.
  destruct (rtw_set_ie b3 p3 6 _ _ _) as [[[b4 p4] [f4|]]|] eqn:E3; try done;
    [|by apply set_ie_len in E3]. cbn [bind].
  destruct (8 <? zlen (mode_rates mode)) eqn:E8; [|done]. cbn [set_ies fst snd].
  rewrite <- Hrex. destruct (Hext eq_refl) as [-> ->]. rewrite rtw_set_ie_src.
  destruct (rtw_set_ie b4 p4 50 _ _ _) as [[[b5 p5] [f5|]]|] eqn:E5; try done.
  by apply set_ie_len in E5.
Qed.

Lemma gen_elems_ok mode n ssid :
  zlen ssid < 256 -> Forall (fun e : elem => is_byte (fst e) /\ zlen (snd e) < 256) (gen_elems mode n ssid).
Proof.
  intros H. assert (H8 : zlen (take 8 (mode_rates mode)) <= 8) by (unfold zlen; rewrite length_take; lia).
  unfold gen_elems. apply Forall_app. split.
  - repeat constructor; simpl; try lia; unfold zlen; simpl; lia.
  - destruct (mode_rates_cases mode) as [-> | [-> | [-> | ->]]]; repeat constructor; done.
Qed.

Lemma rtw_generate_ie_spec reg_mode short n ssid ex mode :
  mode = ibss_mode reg_mode (DSConfig n) ->
  Ssid n = ssid ++ ex -> SsidLength n = zlen ssid -> zlen ssid < 256 ->
  zlen (SupportedRates n) = 16 ->
  12 + zlen (enc (gen_elems mode n ssid)) <= zlen (IEs n) < 2 ^ 31 ->
  exists w n',
    rtw_generate_ie reg_mode short n = Ok (12 + zlen (enc (gen_elems mode n ssid)), n') /\
    IEs n' = (take 8 (IEs n) ++
             [BeaconPeriod n mod 256; BeaconPeriod n / 256 mod 256; gen_capab short n; 0]) ++
             enc (gen_elems mode n ssid) ++ w /\
    SupportedRates n' = mode_rates mode ++ zeros (16 - length (mode_rates mode)).
Proof.
  intros Hm Hs Hsl Hssid Hr Hroom. pose proof (zlen_nonneg (enc (gen_elems mode n ssid))).
  destruct (generate_header (IEs n) (BeaconPeriod n mod 256) (BeaconPeriod n / 256 mod 256)
              (gen_capab short n) 0) as (w & Hw & E1); [lia|].
  set (pre := take 8 (IEs n) ++ _) in *.
  assert (Hpre : zlen pre = 12).
  { unfold pre. rewrite zlen_app. unfold zlen in *. rewrite length_take. cbn [length]. lia. }
  destruct (set_ies_room (gen_elems mode n ssid) pre w 12) as (w2 & _ & E2);
    [lia | by apply gen_elems_ok | lia | lia |].
  rewrite Hpre, <- (generate_elements _ mode n ssid ex Hs) in E2.
  unfold rtw_generate_ie. rewrite <- Hm, Hsl.
  replace (Z.lor (Z.lor 2 _) _) with (gen_capab short n)
    by (unfold gen_capab; destruct short, (Privacy n =? 0); reflexivity).
  exists w2. rewrite rtw_set_supported_rate_spec by done. cbn [bind].
  destruct (wrn (IEs n) 8 _) as [b0|]; [|discriminate]. cbn [bind] in E1 |- *. rewrite E1. cbn [bind].
  destruct (rtw_set_ie (pre ++ w) 12 0 _ _ _) as [[[b1 p1] f1]|]; [|discriminate]. cbn [bind] in E2 |- *.
  destruct (rtw_get_rateset_len _) as [rl|]; [|discriminate]. cbn [bind] in E2 |- *.
  destruct (rtw_set_ie b1 p1 1 _ _ _) as [[[b2 p2] f2]|]; [|discriminate]. cbn [bind] in E2 |- *.
  destruct (rtw_set_ie b2 p2 3 _ _ _) as [[[b3 p3] f3]|]; [|discriminate]. cbn [bind] in E2 |- *.
  destruct (rtw_set_ie b3 p3 6 _ _ _) as [[[b4 p4] f4]|]; [|discriminate]. cbn [bind] in E2 |- *.
  rewrite E2. cbn [bind]. eexists. split; [done|]. split; [simpl; rewrite <- app_assoc; done | done].
Qed.

(** ** Filtering the rates *)

Fixpoint kept_rates (keep : section) (rates : list Z) : list Z :=
  match rates with
  | [] => []
  | r :: rest =>
      match filter_rate keep r with
      | Some v => v :: kept_rates keep rest
      | None => kept_rates keep rest
      end
  end.

Lemma filter_rates_spec keep rates : forall done room,
  zlen done + zlen room = 16 ->
  filter_rates keep rates (done ++ room) (zlen done) =
    if zlen (kept_rates keep rates) <=? zlen room
    then Ok ((done ++ kept_rates keep rates) ++ drop (length (kept_rates keep rates)) room,
             zlen done + zlen (kept_rates keep rates))
    else Fault OobWrite.
Proof.
  induction rates as [|r rates IH]; intros done room H; cbn [filter_rates kept_rates].
  - pose proof (zlen_nonneg room). rewrite (proj2 (Z.leb_le _ _)) by (change (zlen []) with 0; lia).
    change (zlen []) with 0. rewrite app_nil_r, Z.add_0_r. done.
  - destruct (filter_rate keep r) as [v|]; [|by apply IH].
    pose proof (zlen_nonneg done). pose proof (zlen_nonneg (kept_rates keep rates)) as Hk.
    destruct room as [|x room].
    + rewrite wr_oob by (rewrite app_nil_r; lia). rewrite (proj2 (Z.leb_gt _ _)); [done|].
      rewrite zlen_cons. change (zlen []) with 0. lia.
    + rewrite wr_mid. cbn [bind]. pose proof (zlen_nonneg room). rewrite zlen_cons in H.
      rewrite u8_small by (unfold is_byte; lia).
      replace (done ++ v :: room) with ((done ++ [v]) ++ room) by (rewrite <- app_assoc; done).
      replace (zlen done + 1) with (zlen (done ++ [v])) by zlia.
      rewrite IH by (rewrite zlen_app; change (zlen [v]) with 1; lia).
      rewrite !zlen_cons, zlen_app. change (zlen [v]) with 1.
      destruct (Z.leb_spec (zlen (kept_rates keep rates)) (zlen room)) as [Hle|Hgt].
      * rewrite (proj2 (Z.leb_le _ _)) by lia. rewrite <- !app_assoc. cbn [app length drop].
        do 2 f_equal. lia.
      * rewrite (proj2 (Z.leb_gt _ _)) by lia. done.
Qed.

Lemma kept_rates_length keep rates : (length (kept_rates keep rates) <= length rates)%nat.
Proof. induction rates as [|r rates IH]; cbn; [lia|]. case_match; cbn; lia. Qed.

(** Filtering the rates element of a network whose elements are [a ++ (1, rates) :: b]. *)
Lemma filter_rateie_spec n hdr a rates b post keep :
  IEs n = hdr ++ enc (a ++ (1, rates) :: b) ++ post -> zlen hdr = 12 ->
  IELength n = 12 + zlen (enc (a ++ (1, rates) :: b)) -> IELength n < 2 ^ 31 ->
  Forall (fun x : elem => fst x <> 1) a -> zlen rates < 256 ->
  exists junk, zlen junk = zlen post + (zlen rates - zlen (kept_rates keep rates)) /\
  rtw_filter_suppport_rateie n keep =
    if zlen (kept_rates keep rates) <=? 16
    then Ok (set_IEs (hdr ++ enc (a ++ (1, kept_rates keep rates) :: b) ++ junk)
               (12 + zlen (enc (a ++ (1, kept_rates keep rates) :: b))) n)
    else Fault OobWrite.
Proof.
  intros Hie Hh Hlen Hb Ha Hr. set (es := a ++ (1, rates) :: b) in *.
  set (k := kept_rates keep rates). assert (Hk := kept_rates_length keep rates). fold k in Hk.
  pose proof (zlen_nonneg (enc a)). pose proof (zlen_nonneg (enc b)). pose proof (zlen_nonneg k).
  assert (Hkr : zlen k <= zlen rates) by (unfold zlen; lia).
  assert (Hes : zlen (enc es) = zlen (enc a) + (2 + zlen rates + zlen (enc b)))
    by (unfold es; rewrite enc_app, zlen_app, zlen_enc_cons; done).
  destruct (take_split (zlen k) rates ltac:(lia)) as (r1 & r2 & Hr12 & Hr1 & Hr2).
  destruct (split_block r2 (enc b)) as (u & v & Huv & Hu & Hv).
  exists (v ++ post). split; [rewrite zlen_app; lia|].
  unfold rtw_filter_suppport_rateie. change _BEACON_IE_OFFSET_ with 12.
  replace (s32 (IELength n - 12)) with (zlen (enc es)) by (unfold s32; rewrite Z.mod_small; lia).
  rewrite Hie. rewrite <- Hh at 1. rewrite rtw_get_ie_enc. unfold es at 1.
  rewrite find_ie_at by done. cbn [bind snd].
  set (h := hdr ++ enc a ++ [1]).
  assert (Hp : zlen hdr + zlen (enc a) + 1 = zlen h)
    by (unfold h; rewrite !zlen_app; change (zlen [1]) with 1; lia).
  assert (Hblk : forall l x, hdr ++ enc (a ++ (1, l) :: b) ++ x = h ++ zlen l :: l ++ enc b ++ x).
  { intros l x. unfold h. rewrite enc_app. cbn [enc]. unfold enc1. cbn [fst snd].
    rewrite <- !app_assoc. done. }
  unfold es. rewrite Hblk. replace (zlen hdr + zlen (enc a) + 2) with (zlen h + 1) by lia. rewrite Hp.
  assert (Hrd : forall y, rdn (h ++ y :: rates ++ enc b ++ post) (zlen h + 1) (zlen rates) = Ok rates).
  { intros y. replace (zlen h + 1) with (zlen (h ++ [y])) by zlia.
    replace (h ++ y :: rates ++ enc b ++ post) with ((h ++ [y]) ++ rates ++ enc b ++ post)
      by (rewrite <- app_assoc; done). apply rdn_app. }
  rewrite Hrd. cbn [bind]. 
  pose proof (filter_rates_spec keep rates [] (zeros 16) eq_refl) as Hfr. cbn [app] in Hfr.
  change (zlen (@nil Z)) with 0 in Hfr. fold k in Hfr. rewrite Hfr.
  change (zlen (zeros 16)) with 16. destruct (Z.leb_spec (zlen k) 16); [|done]. cbn [bind].
  rewrite Z.add_0_l, wr_mid. cbn [bind].
  rewrite rdn_prefix by done. cbn [bind].
  replace (zlen h + 1) with (zlen (h ++ [zlen k])) by zlia.
  replace (h ++ zlen k :: rates ++ enc b ++ post) with ((h ++ [zlen k]) ++ r1 ++ r2 ++ enc b ++ post)
    by (rewrite Hr12, <- !app_assoc; done).
  rewrite wrn_app by done. cbn [bind].
  replace (u32 (IELength n - (zlen (h ++ [zlen k]) + zlen rates))) with (zlen (enc b)).
  2:{ rewrite zlen_app. change (zlen [zlen k]) with 1. rewrite u32_small; lia. }
  replace ((h ++ [zlen k]) ++ k ++ r2 ++ enc b ++ post)
    with (((h ++ [zlen k]) ++ k ++ r2) ++ enc b ++ post) by (rewrite <- !app_assoc; done).
  replace (zlen (h ++ [zlen k]) + zlen rates) with (zlen ((h ++ [zlen k]) ++ k ++ r2))
    by (rewrite !zlen_app; lia).
  rewrite rdn_app. cbn [bind].
  replace (((h ++ [zlen k]) ++ k ++ r2) ++ enc b ++ post) with (((h ++ [zlen k]) ++ k) ++ u ++ v ++ post)
    by (rewrite <- !app_assoc, (app_assoc r2 (enc b) post), Huv, <- !app_assoc; done).
  replace (zlen (h ++ [zlen k]) + zlen k) with (zlen ((h ++ [zlen k]) ++ k)) by (rewrite zlen_app; done).
  rewrite wrn_app by done. cbn [bind]. rewrite Hblk. rewrite u32_small by lia.
  do 2 f_equal; [rewrite <- !app_assoc; done|].
  rewrite Hlen, Hes, enc_app, zlen_app, zlen_enc_cons. cbn [snd]. lia.
Qed.

(** ** A network in 802.11b mode *)

Lemma update_rate_bymode_b_spec n hdr a rates b x c post :
  IEs n = hdr ++ enc (a ++ (1, rates) :: b ++ (50, x) :: c) ++ post -> zlen hdr = 12 ->
  IELength n = 12 + zlen (enc (a ++ (1, rates) :: b ++ (50, x) :: c)) -> IELength n < 2 ^ 31 ->
  Forall (fun e : elem => fst e <> 1) a ->
  Forall (fun e : elem => fst e <> 50) (a ++ (1, rates) :: b) ->
  Forall (fun e : elem => fst e <> 50) c -> Forall elem_ok (a ++ (1, rates) :: b ++ (50, x) :: c) ->
  kept_rates CCK rates = rates -> zlen rates <= 16 -> zlen (SupportedRates n) = 16 ->
  exists n', rtw_update_rate_bymode n WIRELESS_11B = Ok (WIRELESS_11B, n') /\
    (exists junk, IEs n' = hdr ++ enc (a ++ (1, rates) :: b ++ c) ++ junk) /\
    IELength n' = 12 + zlen (enc (a ++ (1, rates) :: b ++ c)) + 2.
Proof.
  intros Hie Hh Hlen Hlt Ha Hab Hc Hok Hk Hr16 Hsr.
  destruct (filter_rateie_spec n hdr a rates (b ++ (50, x) :: c) post CCK) as (j & Hj & Hf); try done.
  { apply Forall_app in Hok as [_ Hok]. by inversion_clear Hok as [|? ? (_ & ? & _) _]. }
  rewrite Hk in Hf, Hj. rewrite (proj2 (Z.leb_le _ _)) in Hf by lia.
  set (es1 := a ++ (1, rates) :: b) in *.
  assert (Hes : a ++ (1, rates) :: b ++ (50, x) :: c = es1 ++ (50, x) :: c)
    by (unfold es1; rewrite <- app_assoc; done).
  rewrite Hes in *. replace (a ++ (1, rates) :: b ++ c) with (es1 ++ c)
    by (unfold es1; rewrite <- app_assoc; done).
  unfold rtw_update_rate_bymode. rewrite Z.eqb_refl, Hf. cbn [bind IEs IELength set_IEs].
  pose proof (zlen_nonneg (enc (es1 ++ (50, x) :: c))).
  replace (s32 _) with (zlen (enc (es1 ++ (50, x) :: c))).
  2:{ unfold s32, _BEACON_IE_OFFSET_. rewrite Z.mod_small; lia. }
  change _BEACON_IE_OFFSET_ with 12.
  pose proof (rtw_get_ie_enc hdr (es1 ++ (50, x) :: c) j 50) as Hg. rewrite Hh in Hg.
  rewrite Hg, find_ie_at by done. cbn [bind snd]. unfold rtw_ies_remove_ie. rewrite Hlen.
  assert (zlen (enc (es1 ++ (50, x) :: c)) = zlen (enc es1) + (2 + zlen x + zlen (enc c)))
    by (rewrite enc_app, zlen_app, zlen_enc_cons; done).
  pose proof (zlen_nonneg (enc es1)). pose proof (zlen_nonneg x). pose proof (zlen_nonneg (enc c)).
  rewrite (proj2 (Z.leb_gt _ _)) by lia.
  replace (12 + zlen (enc (es1 ++ (50, x) :: c)) - 12) with (zlen (enc (es1 ++ (50, x) :: c))) by lia.
  pose proof (enc_fuel (es1 ++ (50, x) :: c) 12 ltac:(lia)) as Hfuel.
  destruct (remove_loop 50 None _ _ hdr j (12 + zlen (enc (es1 ++ (50, x) :: c))) _FAIL Hfuel I Hok)
    as (junk & Hjk & E); [lia|]. rewrite Hh in E. rewrite E. cbn [bind].
  assert (Hkept : forall l, Forall (fun e : elem => fst e <> 50) l -> kept 50 None l = l).
  { intros l Hl. unfold kept. induction Hl as [|e l He _ IHl]; [done|]. cbn [List.filter]. unfold hits at 1.
    rewrite (proj2 (Z.eqb_neq _ _)) by done. cbn [andb negb]. by rewrite IHl. }
  replace (kept 50 None (es1 ++ (50, x) :: c)) with (es1 ++ c).
  2:{ transitivity (kept 50 None es1 ++ kept 50 None c).
      - rewrite !Hkept by done. done.
      - unfold kept. rewrite List.filter_app. done. }
  cbn [SupportedRates set_IEs]. rewrite rtw_set_supported_rate_spec by done. cbn [bind].
  eexists. split; [done|]. cbn [IEs IELength set_rates set_IEs].
  split; [eexists; done|]. rewrite u32_small by lia. rewrite !enc_app, !zlen_app, !zlen_enc_cons in *. cbn [snd]. lia.
Qed.

(** ** Network type *)

Lemma cck_included rs tl :
  Forall (fun r => r <> 0) rs -> rtw_is_cckrates_included (rs ++ 0 :: tl) = Ok (existsb cck7 rs).
Proof.
  intros Hrs. unfold rtw_is_cckrates_included.
  enough (H : forall pre fuel, (length rs < fuel)%nat ->
    loop (fun i => r <- rd (pre ++ rs ++ 0 :: tl) i ;;
                   if r =? 0 then Ok (inr false)
                   else if cck7 r then Ok (inr true) else Ok (inl (i + 1))) fuel (zlen pre) =
      Ok (existsb cck7 rs)) by (apply (H []); rewrite length_app; simpl; lia).
  induction Hrs as [|r rs Hr _ IH]; intros pre fuel Hf; (destruct fuel as [|fuel]; [simpl in Hf; lia|]);
    cbn [app]; rewrite loop_S, rd_mid; cbn [bind]; [done|].
  rewrite (proj2 (Z.eqb_neq r 0)) by done. cbn [existsb]. destruct (cck7 r); [done|]. cbn [orb].
  replace (pre ++ r :: rs ++ 0 :: tl) with ((pre ++ [r]) ++ rs ++ 0 :: tl) by (rewrite <- app_assoc; done).
  replace (zlen pre + 1) with (zlen (pre ++ [r])) by zlia. apply IH. simpl in Hf. lia.
Qed.

Lemma cck_only rs tl :
  Forall (fun r => r <> 0) rs -> rtw_is_cckratesonly_included (rs ++ 0 :: tl) = Ok (forallb cck7 rs).
Proof.
  intros Hrs. unfold rtw_is_cckratesonly_included.
  enough (H : forall pre fuel, (length rs < fuel)%nat ->
    loop (fun i => r <- rd (pre ++ rs ++ 0 :: tl) i ;;
                   if r =? 0 then Ok (inr true)
                   else if negb (cck7 r) then Ok (inr false) else Ok (inl (i + 1))) fuel (zlen pre) =
      Ok (forallb cck7 rs)) by (apply (H []); rewrite length_app; simpl; lia).
  induction Hrs as [|r rs Hr _ IH]; intros pre fuel Hf; (destruct fuel as [|fuel]; [simpl in Hf; lia|]);
    cbn [app]; rewrite loop_S, rd_mid; cbn [bind]; [done|].
  rewrite (proj2 (Z.eqb_neq r 0)) by done. cbn [forallb]. destruct (cck7 r); [|done]. cbn [andb negb].
  replace (pre ++ r :: rs ++ 0 :: tl) with ((pre ++ [r]) ++ rs ++ 0 :: tl) by (rewrite <- app_assoc; done).
  replace (zlen pre + 1) with (zlen (pre ++ [r])) by zlia. apply IH. simpl in Hf. lia.
Qed.

(** ** Properties *)

(** Over well-formed elements, wherever they lie in the block, the search returns the
    first element with the identifier and the length of its body, which lies inside the
    elements, or nothing when no element has it. It always returns. *)
Theorem get_ie_finds_first pre es post index :
  exists r, rtw_get_ie (pre ++ enc es ++ post) (zlen pre) index (zlen (enc es)) = Ok r /\
    match r with
    | Some (o, n) =>
        exists a e b, es = a ++ e :: b /\ fst e = index /\ Forall (fun x => fst x <> index) a /\
          o = zlen pre + zlen (enc a) /\ n = zlen (snd e) /\
          rdn (pre ++ enc es ++ post) (o + 2) n = Ok (snd e)
    | None => Forall (fun x => fst x <> index) es
    end.
Proof.
  rewrite rtw_get_ie_enc. eexists. split; [done|]. pose proof (find_ie_spec index es (zlen pre)) as H.
  destruct (find_ie _ _ _) as [[o n]|]; [|done]. destruct H as (a & e & b & -> & He & -> & -> & Ha).
  exists a, e, b. split_and!; try done.
  rewrite enc_app, <- app_assoc, (app_assoc pre), <- zlen_app. apply rdn_body.
Qed.

(** Over arbitrary bytes the search ends and returns an offset below the limit at which
    the identifier stands, if the block has at least one byte more than the limit; the
    length byte of a last element that is cut short is read from there. Without that byte
    it reads outside the block. *)
Theorem get_ie_stays_near_limit b pbuf index limit
    (Hb : bytes b) (Hp : 0 <= pbuf) (Hlim : 1 <= limit) (Hroom : pbuf + limit + 1 <= zlen b) :
  (exists r, rtw_get_ie b pbuf index limit = Ok r /\
     forall o n, r = Some (o, n) -> pbuf <= o < pbuf + limit /\ rd b o = Ok index) /\
  rtw_get_ie [index] 0 index 1 = Fault OobRead.
Proof.
  split.
  2:{ unfold rtw_get_ie. change (1 <? 1) with false. change (Z.to_nat 1) with 1%nat.
      rewrite loop_S. unfold get_ie_turn. change (rd [index] 0) with (Ok index). cbn [bind].
      rewrite Z.eqb_refl. done. }
  unfold rtw_get_ie. rewrite (proj2 (Z.ltb_ge _ _)) by lia.
  refine (loop_spec (get_ie_turn b index limit) (fun '(p, i) => p = pbuf + i /\ 0 <= i < limit)
            (fun r => exists r', r = Ok r' /\ _) (fun '(p, i) => limit - i - 1) _ _ _ _ _ _);
    cbn beta; [|lia..].
  intros [p i] [-> Hi]. unfold get_ie_turn.
  destruct (rd_in b (pbuf + i)) as [c Hc]; [lia|]. rewrite Hc. cbn [bind].
  destruct (rd_in b (pbuf + i + 1)) as [n Hn]; [lia|]. rewrite Hn. cbn [bind].
  assert (Hnb := rd_byte b _ _ Hb Hn). unfold is_byte in Hnb.
  destruct (Z.eqb_spec c index) as [->|Hne].
  - eexists. split; [done|]. intros o m [= <- <-]. split; [lia | done].
  - destruct (Z.leb_spec limit (i + (n + 2))); [eexists; split; [done|]; discriminate | lia].
Qed.

Lemma get_ie_stays_near_limit_witness :
  (exists r, rtw_get_ie [0; 9; 1; 0; 0] 0 1 4 = Ok r /\
     forall o n, r = Some (o, n) -> 0 <= o < 0 + 4 /\ rd [0; 9; 1; 0; 0] o = Ok 1) /\
  rtw_get_ie [1] 0 1 1 = Fault OobRead.
Proof.
  apply (get_ie_stays_near_limit [0; 9; 1; 0; 0] 0 1 4);
    [apply bytes_by_compute; reflexivity | lia | lia | vm_compute; discriminate].
Defined.

(** Removing takes out every element that matches identifier and OUI and no other, keeps
    the order of the rest, and leaves the new length of the elements; it reports success
    exactly when something matched, and never reads or writes outside the block. *)
Theorem remove_ie_removes_all pre es post eid oui
    (Hfit : oui_fits eid oui es) (Hes : Forall elem_ok es) (Hb : zlen pre + zlen (enc es) < 2 ^ 31) :
  exists junk,
    rtw_ies_remove_ie (pre ++ enc es ++ post) (zlen pre + zlen (enc es)) (zlen pre) eid oui =
      Ok (if existsb (hits eid oui) es then _SUCCESS else _FAIL,
          pre ++ enc (kept eid oui es) ++ junk ++ post,
          zlen pre + zlen (enc (kept eid oui es))).
Proof.
  unfold rtw_ies_remove_ie. pose proof (zlen_nonneg pre). pose proof (zlen_nonneg (enc es)).
  destruct (Z.leb_spec (zlen pre + zlen (enc es)) (zlen pre)).
  - destruct es as [|e es]; [exists []; reflexivity|].
    rewrite zlen_enc_cons in *. pose proof (zlen_nonneg (snd e)). pose proof (zlen_nonneg (enc es)). lia.
  - replace (zlen pre + zlen (enc es) - zlen pre) with (zlen (enc es)) by lia.
    destruct (remove_loop eid oui _ es pre post (zlen pre + zlen (enc es)) _FAIL
                (enc_fuel es (zlen pre) (zlen_nonneg pre)) Hfit Hes) as (junk & Hj & E); [lia|].
    exists junk. rewrite E. do 2 f_equal. lia.
Qed.

Lemma remove_ie_removes_all_witness :
  exists junk,
    rtw_ies_remove_ie ([9] ++ enc [(221, [0; 80]); (1, [2]); (221, [0; 15])] ++ [7])
      (zlen [9] + zlen (enc [(221, [0; 80]); (1, [2]); (221, [0; 15])])) (zlen [9]) 221 None =
    Ok (1, [9] ++ enc [(1, [2])] ++ junk ++ [7], zlen [9] + zlen (enc [(1, [2])])).
Proof.
  apply (remove_ie_removes_all [9] [(221, [0; 80]); (1, [2]); (221, [0; 15])] [7] 221 None).
  - exact I.
  - repeat constructor; vm_compute; congruence.
  - vm_compute. reflexivity.
Defined.

(** Updating replaces the body of the first element with the identifier, if that body is
    not empty, moves what follows it and adjusts the length. It does not look at the room
    in the block: it writes outside it exactly when the new body is longer than the old
    one by more than what lies behind the elements. *)
Theorem update_ie_replaces pre a eid old b post new
    (Ha : Forall (fun x : elem => fst x <> eid) a) (Hold : old <> []) (Hl : zlen old < 256)
    (Hb : zlen pre + zlen (enc (a ++ (eid, old) :: b)) < 2 ^ 31) (Hn : zlen new < 256) :
  exists junk,
  rtw_ies_update_ie true (pre ++ enc (a ++ (eid, old) :: b) ++ post)
      (zlen pre + zlen (enc (a ++ (eid, old) :: b))) (zlen pre) eid new (zlen new) =
    if zlen new <=? zlen old + zlen post
    then Ok (_SUCCESS, pre ++ enc (a ++ (eid, new) :: b) ++ junk,
             zlen pre + zlen (enc (a ++ (eid, new) :: b)))
    else Fault OobWrite.
Proof. by apply update_spec. Qed.

Lemma update_ie_replaces_witness :
  exists junk,
  rtw_ies_update_ie true ([9] ++ enc ([(0, [65])] ++ (3, [1]) :: [(5, [0; 1])]) ++ [7; 7])
      (zlen [9] + zlen (enc ([(0, [65])] ++ (3, [1]) :: [(5, [0; 1])]))) (zlen [9]) 3 [11; 12] 2 =
    Ok (1, [9] ++ enc ([(0, [65])] ++ (3, [11; 12]) :: [(5, [0; 1])]) ++ junk,
        zlen [9] + zlen (enc ([(0, [65])] ++ (3, [11; 12]) :: [(5, [0; 1])]))).
Proof.
  apply (update_ie_replaces [9] [(0, [65])] 3 [1] [(5, [0; 1])] [7; 7] [11; 12]);
    [repeat constructor; discriminate | discriminate | reflexivity | reflexivity | reflexivity].
Defined.

(** The IBSS beacon body: after the untouched timestamp come interval and capabilities
    and then well-formed elements: SSID, up to eight rates of the mode, channel, ATIM
    window and, for the modes with twelve rates, the other four. The result is the length
    of all of it. *)
Theorem generate_ie_well_formed reg_mode short n ssid ex
    (Hs : Ssid n = ssid ++ ex) (Hsl : SsidLength n = zlen ssid) (Hssid : zlen ssid < 256)
    (Hr : zlen (SupportedRates n) = 16)
    (Hroom : 12 + zlen (enc (gen_elems (ibss_mode reg_mode (DSConfig n)) n ssid)) <= zlen (IEs n) < 2 ^ 31) :
  let es := gen_elems (ibss_mode reg_mode (DSConfig n)) n ssid in
  exists w n',
    rtw_generate_ie reg_mode short n = Ok (12 + zlen (enc es), n') /\
    IEs n' = (take 8 (IEs n) ++
             [BeaconPeriod n mod 256; BeaconPeriod n / 256 mod 256; gen_capab short n; 0]) ++
             enc es ++ w.
Proof.
  destruct (rtw_generate_ie_spec reg_mode short n ssid ex _ eq_refl Hs Hsl Hssid Hr Hroom)
    as (w & n' & E & H & _). exists w, n'. done.
Qed.

Definition demo_bss : WLAN_BSSID_EX :=
  mkBss (zeros 64) 0 (zeros 16) 6 100 0 0 (bytes_of "cam" ++ zeros 29) 3.

Lemma generate_ie_well_formed_witness :
  exists w n',
    rtw_generate_ie 31 true demo_bss = Ok (12 + zlen (enc (gen_elems 11 demo_bss (bytes_of "cam"))), n') /\
    IEs n' = (take 8 (IEs demo_bss) ++ [100; 0; 34; 0]) ++ enc (gen_elems 11 demo_bss (bytes_of "cam")) ++ w.
Proof.
  apply (generate_ie_well_formed 31 true demo_bss (bytes_of "cam") (zeros 29));
    [reflexivity | reflexivity | reflexivity | reflexivity | vm_compute; split; congruence].
Defined.

(** Filtering keeps the rates of the chosen kind, in order, with the basic bit set on
    the basic OFDM rates, shrinks the element and moves the rest up; but its local array
    has 16 bytes and an element can carry more: with more than 16 rates to keep it writes
    outside the array. *)
Theorem filter_rates_overflow_iff n hdr a rates b post keep
    (Hie : IEs n = hdr ++ enc (a ++ (1, rates) :: b) ++ post) (Hh : zlen hdr = 12)
    (Hlen : IELength n = 12 + zlen (enc (a ++ (1, rates) :: b))) (Hb : IELength n < 2 ^ 31)
    (Ha : Forall (fun x : elem => fst x <> 1) a) (Hr : zlen rates < 256) :
  exists junk, rtw_filter_suppport_rateie n keep =
    if zlen (kept_rates keep rates) <=? 16
    then Ok (set_IEs (hdr ++ enc (a ++ (1, kept_rates keep rates) :: b) ++ junk)
               (12 + zlen (enc (a ++ (1, kept_rates keep rates) :: b))) n)
    else Fault OobWrite.
Proof.
  destruct (filter_rateie_spec n hdr a rates b post keep Hie Hh Hlen Hb Ha Hr) as (junk & _ & E).
  exists junk. done.
Qed.

Definition many_rates : list Z := replicate 17 2.
Definition many_bss : WLAN_BSSID_EX :=
  mkBss (zeros 12 ++ enc [(1, many_rates)] ++ []) 31 (zeros 16) 6 100 0 0 [] 0.

Lemma filter_rates_overflow_iff_witness :
  exists junk : list Z, rtw_filter_suppport_rateie many_bss CCK = Fault OobWrite.
Proof.
  apply (filter_rates_overflow_iff many_bss (zeros 12) [] many_rates [] [] CCK);
    [reflexivity | reflexivity | reflexivity | reflexivity | constructor | reflexivity].
Defined.

(** In 802.11b mode the extended-rates element is removed but only its body is taken off
    the length: two bytes of an element that is no longer there stay counted at the end. *)
Theorem mode_b_length_two_too_long n hdr a rates b x c post
    (Hie : IEs n = hdr ++ enc (a ++ (1, rates) :: b ++ (50, x) :: c) ++ post) (Hh : zlen hdr = 12)
    (Hlen : IELength n = 12 + zlen (enc (a ++ (1, rates) :: b ++ (50, x) :: c)))
    (Hlt : IELength n < 2 ^ 31) (Ha : Forall (fun e : elem => fst e <> 1) a)
    (Hab : Forall (fun e : elem => fst e <> 50) (a ++ (1, rates) :: b))
    (Hc : Forall (fun e : elem => fst e <> 50) c)
    (Hok : Forall elem_ok (a ++ (1, rates) :: b ++ (50, x) :: c))
    (Hk : kept_rates CCK rates = rates) (Hr16 : zlen rates <= 16) (Hsr : zlen (SupportedRates n) = 16) :
  exists n', rtw_update_rate_bymode n WIRELESS_11B = Ok (WIRELESS_11B, n') /\
    (exists junk, IEs n' = hdr ++ enc (a ++ (1, rates) :: b ++ c) ++ junk) /\
    IELength n' = 12 + zlen (enc (a ++ (1, rates) :: b ++ c)) + 2.
Proof. by apply (update_rate_bymode_b_spec n hdr a rates b x c post). Qed.

Definition b_bss : WLAN_BSSID_EX :=
  mkBss (zeros 12 ++ enc ([] ++ (1, [0x82; 0x84]) :: [] ++ (50, [12]) :: [(3, [6])]) ++ []) 22
    (zeros 16) 6 100 0 0 [] 0.

Lemma mode_b_length_two_too_long_witness :
  exists n', rtw_update_rate_bymode b_bss WIRELESS_11B = Ok (WIRELESS_11B, n') /\
    (exists junk, IEs n' = zeros 12 ++ enc ([] ++ (1, [0x82; 0x84]) :: [] ++ [(3, [6])]) ++ junk) /\
    IELength n' = 12 + zlen (enc ([] ++ (1, [0x82; 0x84]) :: [] ++ [(3, [6])])) + 2.
Proof.
  apply (mode_b_length_two_too_long b_bss (zeros 12) [] [0x82; 0x84] [] [12] [(3, [6])] []);
    try reflexivity; try (vm_compute; discriminate);
    repeat constructor; vm_compute; congruence.
Defined.

(** The network type of a NUL-terminated rate list: above channel 14, A without 802.11b
    rates and invalid with one; otherwise B if all are 802.11b rates, BG if some are,
    G if none. *)
Theorem network_type_by_rates rs tl channel (Hrs : Forall (fun r => r <> 0) rs) :
  rtw_check_network_type (rs ++ 0 :: tl) channel =
    Ok (if 14 <? channel then if existsb cck7 rs then WIRELESS_INVALID else WIRELESS_11A
        else if forallb cck7 rs then WIRELESS_11B
        else if existsb cck7 rs then WIRELESS_11BG else WIRELESS_11G).
Proof.
  unfold rtw_check_network_type. rewrite cck_included, cck_only by done. cbn [bind].
  destruct (14 <? channel), (existsb cck7 rs), (forallb cck7 rs); done.
Qed.

Lemma network_type_by_rates_witness :
  rtw_check_network_type ([0x82; 12] ++ 0 :: []) 6 = Ok WIRELESS_11BG.
Proof. apply (network_type_by_rates [0x82; 12] [] 6). repeat constructor; discriminate. Defined.
