(* ===== verification/IeSec.v ===== *)
(** * WPA and RSN elements

    Models the security part of [core/rtw_ieee80211.c]: the cipher and AKM tables,
    [rtw_get_wpa_ie], [rtw_parse_wpa_ie], [rtw_rsne_info_parse], [rtw_parse_wpa2_ie],
    [rtw_get_wapi_ie] and [rtw_get_sec_ie]. A pointer is an offset into the block, NULL is
    [None]; output parameters are results. *)
From Stdlib Require Import ZArith Lia Bool.
From stdpp Require Import base option list numbers.
From S2P Require Import Prelude Ies Ie.
Local Open Scope Z_scope.

(** ** Suites *)

Definition suite_table : Type := list (list Z * Z).

(* src: core/rtw_ieee80211.c:26-33 WPA_CIPHER_SUITE *)
Definition wpa_ciphers : suite_table :=
  [([0x00; 0x50; 0xf2; 0], BIT 0); ([0x00; 0x50; 0xf2; 1], BIT 1);
   ([0x00; 0x50; 0xf2; 2], BIT 3); ([0x00; 0x50; 0xf2; 4], BIT 4);
   ([0x00; 0x50; 0xf2; 5], BIT 2)].

(* src: core/rtw_ieee80211.c:36-48 RSN_CIPHER_SUITE *)
Definition rsn_ciphers : suite_table :=
  [([0x00; 0x0f; 0xac; 0], BIT 0); ([0x00; 0x0f; 0xac; 1], BIT 1);
   ([0x00; 0x0f; 0xac; 2], BIT 3); ([0x00; 0x0f; 0xac; 4], BIT 4);
   ([0x00; 0x0f; 0xac; 8], BIT 5); ([0x00; 0x0f; 0xac; 9], BIT 6);
   ([0x00; 0x0f; 0xac; 10], BIT 7); ([0x00; 0x0f; 0xac; 5], BIT 2);
   ([0x00; 0x0f; 0xac; 6], BIT 8); ([0x00; 0x0f; 0xac; 11], BIT 9);
   ([0x00; 0x0f; 0xac; 12], BIT 10); ([0x00; 0x0f; 0xac; 13], BIT 11)].

(* src: core/rtw_ieee80211.c:50-64 WLAN_AKM *)
Definition akm_suites : suite_table :=
  [([0x00; 0x0f; 0xac; 1], BIT 0); ([0x00; 0x0f; 0xac; 2], BIT 1);
   ([0x00; 0x0f; 0xac; 3], BIT 2); ([0x00; 0x0f; 0xac; 4], BIT 3);
   ([0x00; 0x0f; 0xac; 5], BIT 4); ([0x00; 0x0f; 0xac; 6], BIT 5);
   ([0x00; 0x0f; 0xac; 7], BIT 6); ([0x00; 0x0f; 0xac; 8], BIT 7);
   ([0x00; 0x0f; 0xac; 9], BIT 8); ([0x00; 0x0f; 0xac; 11], BIT 9);
   ([0x00; 0x0f; 0xac; 12], BIT 10); ([0x00; 0x0f; 0xac; 14], BIT 11);
   ([0x00; 0x0f; 0xac; 15], BIT 12); ([0x00; 0x0f; 0xac; 16], BIT 13);
   ([0x00; 0x0f; 0xac; 17], BIT 14)].

(** The chain of comparisons the three functions consist of. *)
Fixpoint suite_at (tbl : suite_table) (b : list Z) (s : Z) : res Z :=
  match tbl with
  | [] => Ok 0
  | (sel, v) :: rest =>
      eq <- memcmp_eq b s sel ;;
      if eq : bool then Ok v else suite_at rest b s
  end.

(* src: core/rtw_ieee80211.c:785-799 rtw_get_wpa_cipher_suite *)
Definition rtw_get_wpa_cipher_suite : list Z -> Z -> res Z := suite_at wpa_ciphers.
(* src: core/rtw_ieee80211.c:801-828 rtw_get_rsn_cipher_suite *)
Definition rtw_get_rsn_cipher_suite : list Z -> Z -> res Z := suite_at rsn_ciphers.
(* src: core/rtw_ieee80211.c:830-864 rtw_get_akm_suite_bitmap *)
Definition rtw_get_akm_suite_bitmap : list Z -> Z -> res Z := suite_at akm_suites.

(** [RTW_GET_LE16] *)
Definition get_le16 (b : list Z) (p : Z) : res Z :=
  lo <- rd b p ;; hi <- rd b (p + 1) ;; Ok (hi * 256 + lo).

(** The loop [for (i = 0; i < cnt; i++) acc |= f(pos + 4 * i)]. *)
Fixpoint or_suites (tbl : suite_table) (b : list Z) (pos : Z) (cnt : nat) (acc : Z) : res Z :=
  match cnt with
  | O => Ok acc
  | S cnt => v <- suite_at tbl b pos ;; or_suites tbl b (pos + 4) cnt (Z.lor acc v)
  end.

(** ** WPA *)

Definition wpa_oui_type : list Z := [0x00; 0x50; 0xf2; 0x01].

(** The state is [pbuf] and [limit_new]. *)
(* src: core/rtw_ieee80211.c:734-770 rtw_get_wpa_ie *)
Definition wpa_ie_turn (b : list Z) (pie limit : Z) (st : Z * Z) : res ((Z * Z) + option (Z * Z)) :=
  let '(pbuf, limit_new) := st in
  r <- rtw_get_ie b pbuf 0xdd limit_new ;;
  match r with
  | None => Ok (inr None)
  | Some (p, len) =>
      oui <- memcmp_eq b (p + 2) wpa_oui_type ;;
      ok <- (if oui : bool then val16 <- get_le16 b (p + 6) ;; Ok (val16 =? 1) else Ok false) ;;
      if ok : bool then Ok (inr (Some (p, len)))
      else
        let limit_new := limit - (p - pie) - 2 - len in
        if limit_new <=? 0 then Ok (inr None) else Ok (inl (p + (2 + len), limit_new))
  end.

(* src: core/rtw_ieee80211.c:726-776 rtw_get_wpa_ie *)
Definition rtw_get_wpa_ie (b : list Z) (pie limit : Z) : res (option (Z * Z)) :=
  loop (wpa_ie_turn b pie limit) (S (Z.to_nat limit)) (pie, limit).

(* src: core/rtw_ieee80211.c:778-783 rtw_get_wpa2_ie *)
Definition rtw_get_wpa2_ie (b : list Z) (pie limit : Z) : res (option (Z * Z)) :=
  rtw_get_ie b pie 0x30 limit.

(** What the caller's variables become: [None] is a variable left as it was. *)
Record wpa_info : Type := mkWpa { group_cipher : option Z; pairwise_cipher : Z; akm : option Z }.

(** The tail of the parser, from the AKM suite on. *)
(* src: core/rtw_ieee80211.c:926-935 rtw_parse_wpa_ie *)
Definition wpa_akm (b : list Z) (pos left : Z) (want_akm : bool) (i : wpa_info) : res (Z * wpa_info) :=
  if want_akm && (6 <=? left) then
    eq <- memcmp_eq b (pos + 2) [0x00; 0x50; 0xf2; 1] ;;
    Ok (_SUCCESS, if eq : bool then mkWpa (group_cipher i) (pairwise_cipher i) (Some (BIT 0)) else i)
  else Ok (_SUCCESS, i).

(* src: core/rtw_ieee80211.c:904-924 rtw_parse_wpa_ie *)
Definition wpa_pairwise (b : list Z) (pos left : Z) (want_akm : bool) (i : wpa_info) : res (Z * wpa_info) :=
  if 2 <=? left then
    count <- get_le16 b pos ;;
    let pos := pos + 2 in
    let left := left - 2 in
    if (count =? 0) || (left <? count * 4) then Ok (_FAIL, i)
    else
      pw <- or_suites wpa_ciphers b pos (Z.to_nat count) (pairwise_cipher i) ;;
      wpa_akm b (pos + 4 * count) (left - 4 * count) want_akm (mkWpa (group_cipher i) pw (akm i))
  else if left =? 1 then Ok (_FAIL, i)
  else wpa_akm b pos left want_akm i.

(* src: core/rtw_ieee80211.c:866-937 rtw_parse_wpa_ie *)
Definition rtw_parse_wpa_ie (b : list Z) (wpa_ie wpa_ie_len : Z) (want_akm : bool) (pairwise : Z)
    : res (Z * wpa_info) :=
  let i := mkWpa None pairwise None in
  if wpa_ie_len <=? 0 then Ok (_FAIL, i)
  else
    id <- rd b wpa_ie ;;
    if negb (id =? 0xdd) then Ok (_FAIL, i) else
    l <- rd b (wpa_ie + 1) ;;
    if negb (l =? u8 (wpa_ie_len - 2)) then Ok (_FAIL, i) else
    oui <- memcmp_eq b (wpa_ie + 2) wpa_oui_type ;;
    if negb oui then Ok (_FAIL, i) else
    let pos := wpa_ie + 8 in
    let left := wpa_ie_len - 8 in
    if 4 <=? left then
      g <- rtw_get_wpa_cipher_suite b pos ;;
      wpa_pairwise b (pos + 4) (left - 4) want_akm (mkWpa (Some g) pairwise None)
    else if 0 <? left then Ok (_FAIL, i)
    else wpa_pairwise b pos left want_akm i.

(** ** RSN *)

(* src: include/ieee80211.h:1921-1933 struct rsne_info *)
Record rsne_info : Type := mkRsne {
  gcs : option Z;
  pcs_cnt : Z; pcs_list : option Z;
  akm_cnt : Z; akm_list : option Z;
  cap : option Z;
  pmkid_cnt : Z; pmkid_list : option Z;
  gmcs : option Z;
  err : Z;
}.

Definition rsne0 : rsne_info := mkRsne None 0 None 0 None None 0 None None 0.

Definition set_gcs p i := mkRsne (Some p) (pcs_cnt i) (pcs_list i) (akm_cnt i) (akm_list i) (cap i) (pmkid_cnt i) (pmkid_list i) (gmcs i) (err i).
Definition set_pcs n p i := mkRsne (gcs i) n (Some p) (akm_cnt i) (akm_list i) (cap i) (pmkid_cnt i) (pmkid_list i) (gmcs i) (err i).
Definition set_akm n p i := mkRsne (gcs i) (pcs_cnt i) (pcs_list i) n (Some p) (cap i) (pmkid_cnt i) (pmkid_list i) (gmcs i) (err i).
Definition set_cap p i := mkRsne (gcs i) (pcs_cnt i) (pcs_list i) (akm_cnt i) (akm_list i) (Some p) (pmkid_cnt i) (pmkid_list i) (gmcs i) (err i).
Definition set_pmkid n p i := mkRsne (gcs i) (pcs_cnt i) (pcs_list i) (akm_cnt i) (akm_list i) (cap i) n (Some p) (gmcs i) (err i).
Definition set_gmcs p i := mkRsne (gcs i) (pcs_cnt i) (pcs_list i) (akm_cnt i) (akm_list i) (cap i) (pmkid_cnt i) (pmkid_list i) (Some p) (err i).
Definition set_err i := mkRsne (gcs i) (pcs_cnt i) (pcs_list i) (akm_cnt i) (akm_list i) (cap i) (pmkid_cnt i) (pmkid_list i) (gmcs i) 1.

Section Rsne.
  Context (b : list Z) (ie ie_len : Z).

Abbreviation end_ := (ie + ie_len).

(** [goto err] and [goto exit] *)
Definition rsne_err (i : rsne_info) : res (Z * rsne_info) := Ok (_FAIL, set_err i).
Definition rsne_exit (i : rsne_info) : res (Z * rsne_info) := Ok (_SUCCESS, i).

(** [n] more bytes, or the element ends here, or it is malformed. *)
Definition need (pos n : Z) (i : rsne_info) (k : res (Z * rsne_info)) : res (Z * rsne_info) :=
  if end_ <? pos + n then if negb (end_ =? pos) then rsne_err i else rsne_exit i
  else k.

(* src: core/rtw_ieee80211.c:1026-1032 rtw_rsne_info_parse *)
Definition parse_gmcs (pos : Z) (i : rsne_info) : res (Z * rsne_info) :=
  need pos 4 i (rsne_exit (set_gmcs pos i)).

(* src: core/rtw_ieee80211.c:1012-1024 rtw_rsne_info_parse *)
Definition parse_pmkid (pos : Z) (i : rsne_info) : res (Z * rsne_info) :=
  need pos 2 i
    (cnt <- get_le16 b pos ;;
     let pos := pos + 2 in
     if end_ <? pos + 16 * cnt then rsne_err i
     else parse_gmcs (pos + 16 * cnt) (set_pmkid cnt pos i)).

(* src: core/rtw_ieee80211.c:1003-1010 rtw_rsne_info_parse *)
Definition parse_cap (pos : Z) (i : rsne_info) : res (Z * rsne_info) :=
  need pos 2 i (parse_pmkid (pos + 2) (set_cap pos i)).

(* src: core/rtw_ieee80211.c:986-1001 rtw_rsne_info_parse *)
Definition parse_akm (pos : Z) (i : rsne_info) : res (Z * rsne_info) :=
  need pos 2 i
    (cnt <- get_le16 b pos ;;
     let pos := pos + 2 in
     need pos (4 * cnt) i (parse_cap (pos + 4 * cnt) (set_akm cnt pos i))).

(* src: core/rtw_ieee80211.c:969-984 rtw_rsne_info_parse *)
Definition parse_pcs (pos : Z) (i : rsne_info) : res (Z * rsne_info) :=
  need pos 2 i
    (cnt <- get_le16 b pos ;;
     let pos := pos + 2 in
     need pos (4 * cnt) i (parse_akm (pos + 4 * cnt) (set_pcs cnt pos i))).

(* src: core/rtw_ieee80211.c:939-1040 rtw_rsne_info_parse *)
Definition rtw_rsne_info_parse : res (Z * rsne_info) :=
  let i := rsne0 in
  if end_ <? ie + 4 then rsne_err i
  else
    id <- rd b ie ;;
    if negb (id =? 48) then rsne_err i else
    l <- rd b (ie + 1) ;;
    if negb (l =? ie_len - 2) then rsne_err i else
    ver <- get_le16 b (ie + 2) ;;
    if negb (ver =? 1) then rsne_err i
    else need (ie + 4) 4 i (parse_pcs (ie + 8) (set_gcs (ie + 4) i)).
End Rsne.

(** Results of [rtw_parse_wpa2_ie], for a caller that passes every pointer. *)
Record wpa2_info : Type := mkWpa2 {
  w_group : Z; w_pairwise : Z; w_gmcs : Z; w_akm : Z; w_mfp : Z; w_spp : Z
}.

(** [LE_BITS_TO_2BYTE(cap, off, 2)] *)
Definition cap_bits (b : list Z) (p off : Z) : res Z :=
  v <- get_le16 b p ;; Ok (Z.land (Z.shiftr v off) 3).

(* src: core/rtw_ieee80211.c:1042-1101 rtw_parse_wpa2_ie *)
Definition rtw_parse_wpa2_ie (b : list Z) (rsn_ie rsn_ie_len : Z) : res (Z * option wpa2_info) :=
  '(ret, info) <- rtw_rsne_info_parse b rsn_ie rsn_ie_len ;;
  if negb (ret =? _SUCCESS) then Ok (ret, None)
  else
    g <- (match gcs info with Some p => rtw_get_rsn_cipher_suite b p | None => Ok 0 end) ;;
    p <- (match pcs_list info with
          | Some p => or_suites rsn_ciphers b p (Z.to_nat (pcs_cnt info)) 0
          | None => Ok 0
          end) ;;
    mfp <- (match cap info with Some p => cap_bits b p 6 | None => Ok 0 end) ;;
    spp <- (match cap info with Some p => cap_bits b p 10 | None => Ok 0 end) ;;
    gm <- (match gmcs info with
           | Some p => rtw_get_rsn_cipher_suite b p
           | None => Ok (if match cap info with Some _ => 1 <? mfp | None => false end then BIT 8 else 0)
           end) ;;
    a <- (match akm_list info with
          | Some p => or_suites akm_suites b p (Z.to_nat (akm_cnt info)) 0
          | None => Ok 0
          end) ;;
    Ok (_SUCCESS, Some (mkWpa2 g p gm a mfp spp)).

(** ** Collecting the elements of a beacon *)

(** One turn of the loop of [rtw_get_sec_ie] over the block [b]: [cnt], the two output
    buffers and their lengths. *)
(* src: core/rtw_ieee80211.c:1159-1182 rtw_get_sec_ie *)
Definition sec_ie_turn (b : list Z) (in_len : Z) (st : Z * (option (list Z) * Z) * (option (list Z) * Z))
    : res ((Z * (option (list Z) * Z) * (option (list Z) * Z)) + ((option (list Z) * Z) * (option (list Z) * Z))) :=
  let '(cnt, rsn, wpa) := st in
  if negb (cnt <? in_len) then Ok (inr (rsn, wpa))
  else
    authmode <- rd b cnt ;;
    is_wpa <- (if authmode =? 0xdd then memcmp_eq b (cnt + 2) wpa_oui_type else Ok false) ;;
    n <- rd b (cnt + 1) ;;
    let copy (out : option (list Z)) :=
      match out with
      | None => Ok None
      | Some o => src <- rdn b cnt (n + 2) ;; o' <- wrn o 0 src ;; Ok (Some o')
      end in
    if is_wpa : bool then
      o <- copy (fst wpa) ;; Ok (inl (u32 (cnt + (n + 2)), rsn, (o, u16 (n + 2))))
    else if authmode =? 0x30 then
      o <- copy (fst rsn) ;; Ok (inl (u32 (cnt + (n + 2)), (o, u16 (n + 2)), wpa))
    else Ok (inl (u32 (cnt + (n + 2)), rsn, wpa)).

(** The lengths start from what the caller put there; the result is their sum. *)
(* src: core/rtw_ieee80211.c:1148-1185 rtw_get_sec_ie *)
Definition rtw_get_sec_ie (b : list Z) (in_len : Z) (rsn_ie : option (list Z)) (rsn_len : Z)
    (wpa_ie : option (list Z)) (wpa_len : Z)
    : res (Z * (option (list Z) * Z) * (option (list Z) * Z)) :=
  '(rsn, wpa) <- loop (sec_ie_turn b in_len) (S (Z.to_nat in_len)) (12, (rsn_ie, rsn_len), (wpa_ie, wpa_len)) ;;
  Ok (snd rsn + snd wpa, rsn, wpa).

(* src: core/rtw_ieee80211.c:1121-1137 rtw_get_wapi_ie *)
Definition wapi_ie_turn (b : list Z) (in_len : Z) (st : Z * option (list Z) * Z)
    : res ((Z * option (list Z) * Z) + (option (list Z) * Z)) :=
  let '(cnt, out, len) := st in
  if negb (cnt <? in_len) then Ok (inr (out, len))
  else
    authmode <- rd b cnt ;;
    hit <- (if authmode =? 68 then
              a <- memcmp_eq b (cnt + 6) [0x0; 0x14; 0x72; 0x01] ;;
              if a : bool then Ok true else memcmp_eq b (cnt + 6) [0x0; 0x14; 0x72; 0x02]
            else Ok false) ;;
    n <- rd b (cnt + 1) ;;
    if hit : bool then
      out <- (match out with
              | None => Ok None
              | Some o => src <- rdn b cnt (n + 2) ;; o' <- wrn o 0 src ;; Ok (Some o')
              end) ;;
      Ok (inl (u32 (cnt + (n + 2)), out, u16 (n + 2)))
    else Ok (inl (u32 (cnt + (n + 2)), out, len)).

(** [None] is a NULL [in_ie]; the caller passes [wapi_len]. *)
(* src: core/rtw_ieee80211.c:1104-1145 rtw_get_wapi_ie *)
Definition rtw_get_wapi_ie (in_ie : option (list Z)) (in_len : Z) (wapi_ie : option (list Z))
    : res (option (list Z) * Z) :=
  match in_ie with
  | None => Ok (wapi_ie, 0)
  | Some b =>
      if in_len <=? 0 then Ok (wapi_ie, 0)
      else loop (wapi_ie_turn b in_len) (S (Z.to_nat in_len)) (12, wapi_ie, 0)
  end.

(** ** Specification *)

(** The value of a selector in a table; 0 for an unknown one. *)
Definition suite_of (tbl : suite_table) (s : list Z) : Z :=
  match List.find (fun e => list_eqb (fst e) s) tbl with Some e => snd e | None => 0 end.

Definition ors (tbl : suite_table) (ss : list (list Z)) (acc : Z) : Z :=
  fold_left (fun a s => Z.lor a (suite_of tbl s)) ss acc.

Definition le16 (n : Z) : list Z := [n mod 256; n / 256].

Definition suite_list (ss : list (list Z)) : list Z := le16 (zlen ss) ++ concat ss.

(** What may follow the capabilities of an RSN element. *)
Inductive rsn_tail : Type :=
| NoTail
| Pmkids (ids : list (list Z))
| Gmcs (ids : list (list Z)) (suite : list Z).

Record rsn : Type := mkRsn {
  r_group : list Z; r_pairwise : list (list Z); r_akm : list (list Z);
  r_cap : Z; r_tail : rsn_tail
}.

Definition tail_bytes (t : rsn_tail) : list Z :=
  match t with
  | NoTail => []
  | Pmkids ids => le16 (zlen ids) ++ concat ids
  | Gmcs ids s => le16 (zlen ids) ++ concat ids ++ s
  end.

Definition rsn_body (e : rsn) : list Z :=
  le16 1 ++ r_group e ++ suite_list (r_pairwise e) ++ suite_list (r_akm e) ++
  le16 (r_cap e) ++ tail_bytes (r_tail e).

Definition is_suite (s : list Z) : Prop := length s = 4%nat.

Definition tail_ok (t : rsn_tail) : Prop :=
  match t with
  | NoTail => True
  | Pmkids ids => Forall (fun i => length i = 16%nat) ids
  | Gmcs ids s => Forall (fun i => length i = 16%nat) ids /\ is_suite s
  end.

Definition rsn_ok (e : rsn) : Prop :=
  is_suite (r_group e) /\ Forall is_suite (r_pairwise e) /\ Forall is_suite (r_akm e) /\
  tail_ok (r_tail e).

Definition cap_field (e : rsn) (off : Z) : Z := Z.land (Z.shiftr (r_cap e) off) 3.

(** The group management cipher: the one given, else BIP-CMAC-128 when the
    capabilities ask for management frame protection. *)
Definition rsn_gmcs (e : rsn) : Z :=
  match r_tail e with
  | Gmcs _ s => suite_of rsn_ciphers s
  | _ => if 1 <? cap_field e 6 then BIT 8 else 0
  end.

Definition rsn_meaning (e : rsn) : wpa2_info :=
  mkWpa2 (suite_of rsn_ciphers (r_group e)) (ors rsn_ciphers (r_pairwise e) 0) (rsn_gmcs e)
    (ors akm_suites (r_akm e) 0) (cap_field e 6) (cap_field e 10).

(** A WPA element: OUI, version, group suite, pairwise suites and AKM suites. *)
Definition wpa_body (g : list Z) (ps aks : list (list Z)) : list Z :=
  wpa_oui_type ++ le16 1 ++ g ++ suite_list ps ++ suite_list aks.

(** [n] bytes at [p] lie in the element at [ie]. *)
Definition within (ie ie_len p n : Z) : Prop := ie <= p /\ 0 <= n /\ p + n <= ie + ie_len.

Definition opt_within (ie ie_len : Z) (p : option Z) (n : Z) : Prop :=
  match p with Some p => within ie ie_len p n | None => True end.

Definition rsne_within (ie ie_len : Z) (i : rsne_info) : Prop :=
  opt_within ie ie_len (gcs i) 4 /\
  opt_within ie ie_len (pcs_list i) (4 * pcs_cnt i) /\
  opt_within ie ie_len (akm_list i) (4 * akm_cnt i) /\
  opt_within ie ie_len (cap i) 2 /\
  opt_within ie ie_len (pmkid_list i) (16 * pmkid_cnt i) /\
  opt_within ie ie_len (gmcs i) 4.

(** ** Lemmas: suites and counts *)

Definition table_ok (tbl : suite_table) : Prop := Forall (fun e => is_suite (fst e)) tbl.

Lemma tables_ok : table_ok wpa_ciphers /\ table_ok rsn_ciphers /\ table_ok akm_suites.
Proof. repeat split; repeat constructor. Qed.

Lemma is_prefix_same_length pat s post :
  length pat = length s -> is_prefix pat (s ++ post) = list_eqb pat s.
Proof.
  unfold list_eqb. intros H. destruct (is_prefix pat (s ++ post)) eqn:E; symmetry.
  - apply is_prefix_spec in E as [t Ht]. apply bool_decide_eq_true.
    apply app_inj_1 in Ht as [-> _]; done.
  - apply bool_decide_eq_false. intros ->. rewrite is_prefix_app in E. done.
Qed.

Lemma memcmp_eq_suite pre s post sel :
  is_suite s -> is_suite sel -> memcmp_eq (pre ++ s ++ post) (zlen pre) sel = Ok (list_eqb sel s).
Proof.
  unfold is_suite, memcmp_eq. intros Hs Hsel. rewrite drop_zlen_app, memcmp_l_long.
  - rewrite is_prefix_same_length by congruence. done.
  - rewrite length_app. lia.
Qed.

Lemma suite_at_spec tbl pre s post :
  table_ok tbl -> is_suite s -> suite_at tbl (pre ++ s ++ post) (zlen pre) = Ok (suite_of tbl s).
Proof.
  unfold suite_of. intros Ht Hs. induction Ht as [|[sel v] tbl Hsel Ht IH]; [done|].
  cbn [suite_at List.find fst]. rewrite memcmp_eq_suite by done. cbn [bind].
  destruct (list_eqb sel s); done.
Qed.

Lemma suite_at_in tbl b p :
  table_ok tbl -> 0 <= p -> p + 4 <= zlen b -> exists v, suite_at tbl b p = Ok v.
Proof.
  intros Ht Hp Hl. unfold zlen in Hl.
  pose proof (suite_at_spec tbl (take (Z.to_nat p) b) (take 4 (drop (Z.to_nat p) b))
                (drop 4 (drop (Z.to_nat p) b)) Ht) as H.
  rewrite !take_drop in H. unfold zlen, is_suite in H. rewrite !length_take, length_drop in H.
  rewrite (Nat.min_l (Z.to_nat p)), Z2Nat.id in H by lia. eexists. apply H. lia.
Qed.

Lemma zlen_suites n ss : Forall (fun s : list Z => length s = n) ss -> zlen (concat ss) = Z.of_nat n * zlen ss.
Proof.
  induction 1 as [|s ss Hs H IH]; [unfold zlen; simpl; lia|].
  simpl. rewrite zlen_app, zlen_cons, IH. unfold zlen. lia.
Qed.

Lemma or_suites_spec tbl ss : forall pre post acc,
  table_ok tbl -> Forall is_suite ss ->
  or_suites tbl (pre ++ concat ss ++ post) (zlen pre) (length ss) acc = Ok (ors tbl ss acc).
Proof.
  induction ss as [|s ss IH]; intros pre post acc Ht Hss; [done|].
  apply Forall_cons_1 in Hss as [Hs Hss]. cbn [concat length or_suites].
  rewrite <- app_assoc, suite_at_spec by done. cbn [bind].
  replace (zlen pre + 4) with (zlen (pre ++ s)) by (unfold is_suite in Hs; zlia).
  rewrite app_assoc. rewrite IH by done. done.
Qed.

Lemma or_suites_in tbl b n : forall p acc,
  table_ok tbl -> 0 <= p -> p + 4 * Z.of_nat n <= zlen b ->
  exists v, or_suites tbl b p n acc = Ok v.
Proof.
  induction n as [|n IH]; intros p acc Ht Hp Hl; [eexists; done|].
  cbn [or_suites]. destruct (suite_at_in tbl b p) as [v ->]; [done..|lia|]. cbn [bind].
  apply IH; [done | lia | lia].
Qed.

Lemma get_le16_spec b p x n y : b = x ++ le16 n ++ y -> p = zlen x -> get_le16 b p = Ok n.
Proof.
  intros -> ->. unfold get_le16, le16. cbn [app]. rewrite rd_mid. cbn [bind].
  replace (x ++ n mod 256 :: n / 256 :: y) with ((x ++ [n mod 256]) ++ n / 256 :: y)
    by (rewrite <- app_assoc; done).
  replace (zlen x + 1) with (zlen (x ++ [n mod 256])) by (rewrite zlen_app; done).
  rewrite rd_mid. cbn [bind]. f_equal. pose proof (Z.div_mod n 256). lia.
Qed.

Lemma get_le16_in b p :
  bytes b -> 0 <= p -> p + 2 <= zlen b -> exists v, get_le16 b p = Ok v /\ 0 <= v < 65536.
Proof.
  intros Hb Hp Hl. unfold get_le16.
  destruct (rd_in b p) as [lo Hlo]; [lia|]. destruct (rd_in b (p + 1)) as [hi Hhi]; [lia|].
  rewrite Hlo, Hhi. cbn [bind]. eexists. split; [done|].
  pose proof (rd_byte _ _ _ Hb Hlo). pose proof (rd_byte _ _ _ Hb Hhi). unfold is_byte in *. lia.
Qed.

(** ** Lemmas: the RSN element *)

(** What the parser guarantees of its result when the element lies in the block. *)
Definition parse_post (ie ie_len : Z) (r : res (Z * rsne_info)) : Prop :=
  exists ret i, r = Ok (ret, i) /\ rsne_within ie ie_len i /\
    (ret = _SUCCESS /\ err i = 0 \/ ret = _FAIL /\ err i = 1).

Section Safe.
  Context (b : list Z) (ie ie_len : Z).
  Hypotheses (Hb : bytes b) (Hie : 0 <= ie) (Hlen : ie + ie_len <= zlen b).

Lemma rsne_err_post i : rsne_within ie ie_len i -> parse_post ie ie_len (rsne_err i).
Proof. intros H. exists _FAIL, (set_err i). split; [done|]. split; [exact H | tauto]. Qed.

Lemma rsne_exit_post i :
  rsne_within ie ie_len i -> err i = 0 -> parse_post ie ie_len (rsne_exit i).
Proof. intros H E. exists _SUCCESS, i. split; [done|]. tauto. Qed.

Lemma need_post pos n i k :
  rsne_within ie ie_len i -> err i = 0 ->
  (pos + n <= ie + ie_len -> parse_post ie ie_len k) -> parse_post ie ie_len (need ie ie_len pos n i k).
Proof.
  intros Hi E Hk. unfold need. destruct (Z.ltb_spec (ie + ie_len) (pos + n)); [|auto].
  case_match; [apply rsne_err_post | apply rsne_exit_post]; done.
Qed.

(** The state of the parser in between: nothing outside the element, no error. *)
Definition fine (i : rsne_info) : Prop := rsne_within ie ie_len i /\ err i = 0.

Lemma parse_gmcs_post pos i : ie <= pos -> fine i -> parse_post ie ie_len (parse_gmcs ie ie_len pos i).
Proof.
  intros Hp [Hi E]. apply need_post; [done..|]. intros Hr. apply rsne_exit_post; [|done].
  unfold rsne_within, opt_within, within, set_gmcs in *. cbn. intuition lia.
Qed.

Lemma read_count pos k :
  ie <= pos -> pos + 2 <= ie + ie_len ->
  (forall cnt, 0 <= cnt -> parse_post ie ie_len (k cnt)) ->
  parse_post ie ie_len (cnt <- get_le16 b pos ;; k cnt).
Proof.
  intros Hp Hr Hk. destruct (get_le16_in b pos) as (v & -> & Hv); [done | lia | lia|].
  apply Hk. lia.
Qed.

Lemma parse_pmkid_post pos i : ie <= pos -> fine i -> parse_post ie ie_len (parse_pmkid b ie ie_len pos i).
Proof.
  intros Hp [Hi E]. apply need_post; [done..|]. intros Hr. apply read_count; [lia | lia|].
  intros cnt Hc. case_match; [apply rsne_err_post; done|].
  apply parse_gmcs_post; [lia|]. split; [|done].
  unfold rsne_within, opt_within, within, set_pmkid in *. cbn. intuition lia.
Qed.

Lemma parse_cap_post pos i : ie <= pos -> fine i -> parse_post ie ie_len (parse_cap b ie ie_len pos i).
Proof.
  intros Hp [Hi E]. apply need_post; [done..|]. intros Hr. apply parse_pmkid_post; [lia|].
  split; [|done]. unfold rsne_within, opt_within, within, set_cap in *. cbn. intuition lia.
Qed.

Lemma parse_akm_post pos i : ie <= pos -> fine i -> parse_post ie ie_len (parse_akm b ie ie_len pos i).
Proof.
  intros Hp [Hi E]. apply need_post; [done..|]. intros Hr. apply read_count; [lia | lia|].
  intros cnt Hc. apply need_post; [done..|]. intros Hr2. apply parse_cap_post; [lia|].
  split; [|done]. unfold rsne_within, opt_within, within, set_akm in *. cbn. intuition lia.
Qed.

Lemma parse_pcs_post pos i : ie <= pos -> fine i -> parse_post ie ie_len (parse_pcs b ie ie_len pos i).
Proof.
  intros Hp [Hi E]. apply need_post; [done..|]. intros Hr. apply read_count; [lia | lia|].
  intros cnt Hc. apply need_post; [done..|]. intros Hr2. apply parse_akm_post; [lia|].
  split; [|done]. unfold rsne_within, opt_within, within, set_pcs in *. cbn. intuition lia.
Qed.

Lemma fine0 : fine rsne0.
Proof. split; [|done]. repeat split; cbn; auto. Qed.

Lemma rsne_info_parse_post : parse_post ie ie_len (rtw_rsne_info_parse b ie ie_len).
Proof.
  destruct fine0 as [F E]. unfold rtw_rsne_info_parse.
  destruct (Z.ltb_spec (ie + ie_len) (ie + 4)); [by apply rsne_err_post|].
  destruct (rd_in b ie) as [id ->]; [lia|]. destruct (rd_in b (ie + 1)) as [l ->]; [lia|].
  cbn [bind]. case_match; [by apply rsne_err_post|]. case_match; [by apply rsne_err_post|].
  apply read_count; [lia | lia|]. intros ver _. case_match; [by apply rsne_err_post|].
  apply need_post; [done..|]. intros Hr. apply parse_pcs_post; [lia|]. split; [|done].
  unfold rsne_within, opt_within, within, set_gcs in *. cbn. intuition lia.
Qed.
End Safe.

(** Nor does the extraction of the suites leave the block. *)
Lemma parse_wpa2_never_faults b ie ie_len :
  bytes b -> 0 <= ie -> ie + ie_len <= zlen b -> exists r, rtw_parse_wpa2_ie b ie ie_len = Ok r.
Proof.
  intros Hb Hie Hl. destruct tables_ok as (_ & Hrsn & Hakm).
  destruct (rsne_info_parse_post b ie ie_len Hb Hie Hl) as (ret & i & Hp & Hw & _).
  unfold rtw_parse_wpa2_ie. rewrite Hp. cbn [bind]. case_match; [eexists; done|].
  destruct Hw as (Wg & Wp & Wa & Wc & _ & Wm). unfold opt_within, within in *.
  assert (Hs : forall o, opt_within ie ie_len o 4 ->
    exists v, (match o with Some p => rtw_get_rsn_cipher_suite b p | None => Ok 0 end) = Ok v).
  { intros [p|] Ho; [|eexists; done]. apply suite_at_in; [done|..]; unfold opt_within, within in Ho; lia. }
  assert (Hos : forall tbl o n, table_ok tbl -> opt_within ie ie_len o (4 * n) ->
    exists v, (match o with Some p => or_suites tbl b p (Z.to_nat n) 0 | None => Ok 0 end) = Ok v).
  { intros tbl [p|] n Ht Ho; [|eexists; done]. unfold opt_within, within in Ho. apply or_suites_in; [done | lia | lia]. }
  assert (Hc : forall o off, opt_within ie ie_len o 2 ->
    exists v, (match o with Some p => cap_bits b p off | None => Ok 0 end) = Ok v).
  { intros [p|] off Ho; [|eexists; done]. unfold opt_within, within in Ho. unfold cap_bits.
    destruct (get_le16_in b p) as (v & -> & _); [done | lia | lia | eexists; done]. }
  destruct (Hs (gcs i) Wg) as [? ->]. cbn [bind].
  destruct (Hos rsn_ciphers (pcs_list i) (pcs_cnt i) Hrsn Wp) as [? ->]. cbn [bind].
  destruct (Hc (cap i) 6 Wc) as [? ->]. destruct (Hc (cap i) 10 Wc) as [? ->]. cbn [bind].
  destruct (Hos akm_suites (akm_list i) (akm_cnt i) Hakm Wa) as [? ->].
  destruct (gmcs i) as [p|]; [|eexists; done].
  destruct (Hs (Some p) Wm) as [? ->]. eexists. done.
Qed.

(** Where the parser finds the parts of [rsn_body e] that starts after position [p]. *)
Definition tail_info (t : rsn_tail) (p : Z) (i : rsne_info) : rsne_info :=
  match t with
  | NoTail => i
  | Pmkids ids => set_pmkid (zlen ids) (p + 2) i
  | Gmcs ids s => set_gmcs (p + 2 + 16 * zlen ids) (set_pmkid (zlen ids) (p + 2) i)
  end.

Definition akm_pos (e : rsn) (p : Z) : Z := p + 10 + 4 * zlen (r_pairwise e).
Definition cap_pos (e : rsn) (p : Z) : Z := akm_pos e p + 4 * zlen (r_akm e).

Definition rsn_info (e : rsn) (p : Z) : rsne_info :=
  tail_info (r_tail e) (cap_pos e p + 2)
    (set_cap (cap_pos e p)
       (set_akm (zlen (r_akm e)) (akm_pos e p)
          (set_pcs (zlen (r_pairwise e)) (p + 8) (set_gcs (p + 2) rsne0)))).

Lemma zlen_le16 n : zlen (le16 n) = 2.
Proof. done. Qed.

Lemma zlen_quads ss : Forall is_suite ss -> zlen (concat ss) = 4 * zlen ss.
Proof. intros H. rewrite (zlen_suites 4) by done. lia. Qed.

Lemma zlen_pmkids ss : Forall (fun s : list Z => length s = 16%nat) ss -> zlen (concat ss) = 16 * zlen ss.
Proof. intros H. rewrite (zlen_suites 16) by done. lia. Qed.

Lemma need_ok ie ie_len pos n i k : pos + n <= ie + ie_len -> need ie ie_len pos n i k = k.
Proof. intros. unfold need. case_match; [lia | done]. Qed.

Lemma need_end ie ie_len pos n i k : 0 < n -> pos = ie + ie_len -> need ie ie_len pos n i k = rsne_exit i.
Proof.
  intros. unfold need. destruct (Z.ltb_spec (ie + ie_len) (pos + n)); [|lia].
  replace (ie + ie_len =? pos) with true by lia. done.
Qed.

(** Lengths of the parts of an element. *)
Ltac len_step :=
  rewrite ?zlen_app, ?zlen_le16, ?zlen_quads, ?zlen_pmkids by done;
  rewrite ?zlen_cons; repeat change (zlen (@nil Z)) with 0;
  repeat match goal with |- context [zlen ?l] =>
    lazymatch goal with H : 0 <= zlen l |- _ => fail | _ => pose proof (zlen_nonneg l) end end;
  unfold is_suite, zlen in *; lia.

Lemma parse_tail t x post b ie ie_len i :
  tail_ok t -> b = x ++ tail_bytes t ++ post -> ie + ie_len = zlen x + zlen (tail_bytes t) ->
  parse_pmkid b ie ie_len (zlen x) i = Ok (_SUCCESS, tail_info t (zlen x) i).
Proof.
  destruct t as [|ids|ids s]; intros Ht Hb He; cbn [tail_bytes tail_info tail_ok] in *; unfold parse_pmkid.
  - apply need_end; [lia|]. rewrite He, zlen_nil. lia.
  - assert (ie + ie_len = zlen x + 2 + 16 * zlen ids) by (rewrite He; len_step).
    pose proof (zlen_nonneg ids). rewrite need_ok by lia.
    rewrite (get_le16_spec _ _ x (zlen ids) (concat ids ++ post)) by (subst b; rewrite <- ?app_assoc; done).
    cbn [bind]. case_match; [lia|]. unfold parse_gmcs. apply need_end; lia.
  - destruct Ht as [Hi Hs].
    assert (ie + ie_len = zlen x + 6 + 16 * zlen ids) by (rewrite He; len_step).
    pose proof (zlen_nonneg ids). rewrite need_ok by lia.
    rewrite (get_le16_spec _ _ x (zlen ids) (concat ids ++ s ++ post)) by (subst b; rewrite <- ?app_assoc; done).
    cbn [bind]. case_match; [lia|]. unfold parse_gmcs. rewrite need_ok by lia. done.
Qed.

(** The whole element at [pre]. *)
Lemma rsne_info_parse_spec e pre post :
  rsn_ok e ->
  rtw_rsne_info_parse (pre ++ enc1 (48, rsn_body e) ++ post) (zlen pre) (2 + zlen (rsn_body e)) =
    Ok (_SUCCESS, rsn_info e (zlen pre + 2)).
Proof.
  intros (Hg & Hp & Ha & Ht). set (b := pre ++ _ ++ post).
  set (np := zlen (r_pairwise e)). set (na := zlen (r_akm e)). set (tl := zlen (tail_bytes (r_tail e))).
  assert (Hbody : zlen (rsn_body e) = 12 + 4 * np + 4 * na + tl).
  { unfold rsn_body, suite_list, np, na, tl. len_step. }
  assert (0 <= np /\ 0 <= na /\ 0 <= tl) as (Hnp & Hna & Htl) by (repeat split; apply zlen_nonneg).
  assert (Eb : b = pre ++ [48; zlen (rsn_body e)] ++ rsn_body e ++ post) by done.
  unfold rsn_body, suite_list in Eb. rewrite <- !app_assoc in Eb. fold (rsn_body e) in Eb.
  unfold rtw_rsne_info_parse. case_match; [lia|].
  replace (rd b (zlen pre)) with (Ok (A := Z) 48) by (unfold b, enc1; cbn [fst snd app]; rewrite rd_mid; done).
  replace (rd b (zlen pre + 1)) with (Ok (zlen (rsn_body e)))
    by (pose proof (rd_len pre (48, rsn_body e) [] post) as R; cbn [enc] in R; rewrite app_nil_r in R; symmetry; exact R).
  cbn [bind]. replace (negb (48 =? 48)) with false by done.
  replace (negb (_ =? _)) with false by (symmetry; apply negb_false_iff, Z.eqb_eq; lia).
  erewrite (get_le16_spec b (zlen pre + 2) (pre ++ [48; zlen (rsn_body e)]) 1)
    by first [rewrite Eb, <- !app_assoc; done | len_step].
  cbn [bind Z.eqb negb Pos.eqb]. rewrite need_ok by lia. unfold parse_pcs. rewrite need_ok by lia.
  erewrite (get_le16_spec b (zlen pre + 8) (pre ++ [48; zlen (rsn_body e)] ++ le16 1 ++ r_group e) np)
    by first [rewrite Eb, <- !app_assoc; done | len_step].
  cbn [bind]. rewrite need_ok by lia. unfold parse_akm. rewrite need_ok by lia.
  erewrite (get_le16_spec b (zlen pre + 8 + 2 + 4 * np)
             (pre ++ [48; zlen (rsn_body e)] ++ le16 1 ++ r_group e ++ le16 np ++ concat (r_pairwise e)) na)
    by first [rewrite Eb, <- !app_assoc; done | unfold np; len_step].
  cbn [bind]. rewrite need_ok by lia. unfold parse_cap. rewrite need_ok by lia.
  set (x := pre ++ [48; zlen (rsn_body e)] ++ le16 1 ++ r_group e ++ le16 np ++ concat (r_pairwise e) ++
              le16 na ++ concat (r_akm e) ++ le16 (r_cap e)).
  assert (Hx : zlen x = zlen pre + 2 + 12 + 4 * np + 4 * na) by (unfold x, np, na; len_step).
  replace (zlen pre + 8 + 2 + 4 * np + 2 + 4 * na + 2) with (zlen x) by lia.
  rewrite (parse_tail (r_tail e) x post) by
    (done || (rewrite Eb; unfold x; rewrite <- !app_assoc; done) || (fold tl; lia)).
  unfold rsn_info, cap_pos, akm_pos. fold np na.
  do 2 f_equal. rewrite Hx. f_equal; [lia|]. repeat (f_equal; try lia).
Qed.

Lemma or_suites_at tbl b p x ss y acc :
  table_ok tbl -> Forall is_suite ss -> b = x ++ concat ss ++ y -> p = zlen x ->
  or_suites tbl b p (Z.to_nat (zlen ss)) acc = Ok (ors tbl ss acc).
Proof. intros Ht Hs -> ->. unfold zlen at 2. rewrite Nat2Z.id. apply or_suites_spec; done. Qed.

Lemma suite_at_at tbl b p x s y :
  table_ok tbl -> is_suite s -> b = x ++ s ++ y -> p = zlen x -> suite_at tbl b p = Ok (suite_of tbl s).
Proof. intros Ht Hs -> ->. apply suite_at_spec; done. Qed.

Lemma cap_bits_at b p x n y off :
  b = x ++ le16 n ++ y -> p = zlen x -> cap_bits b p off = Ok (Z.land (Z.shiftr n off) 3).
Proof. intros Hb Hp. unfold cap_bits. rewrite (get_le16_spec _ _ x n y) by done. done. Qed.

Lemma tail_info_keeps t p i :
  gcs (tail_info t p i) = gcs i /\ pcs_list (tail_info t p i) = pcs_list i /\
  pcs_cnt (tail_info t p i) = pcs_cnt i /\ akm_list (tail_info t p i) = akm_list i /\
  akm_cnt (tail_info t p i) = akm_cnt i /\ cap (tail_info t p i) = cap i.
Proof. destruct t; repeat split. Qed.

(** The suites and bits behind the positions of [rsn_info]. *)
Lemma wpa2_values e pre post (b := pre ++ enc1 (48, rsn_body e) ++ post) (p := zlen pre + 2) :
  rsn_ok e ->
  rtw_get_rsn_cipher_suite b (p + 2) = Ok (suite_of rsn_ciphers (r_group e)) /\
  or_suites rsn_ciphers b (p + 8) (Z.to_nat (zlen (r_pairwise e))) 0 = Ok (ors rsn_ciphers (r_pairwise e) 0) /\
  or_suites akm_suites b (akm_pos e p) (Z.to_nat (zlen (r_akm e))) 0 = Ok (ors akm_suites (r_akm e) 0) /\
  (forall off, cap_bits b (cap_pos e p) off = Ok (cap_field e off)) /\
  match r_tail e with
  | Gmcs ids s => rtw_get_rsn_cipher_suite b (cap_pos e p + 4 + 16 * zlen ids) = Ok (suite_of rsn_ciphers s)
  | _ => True
  end.
Proof.
  intros (Hg & Hp & Ha & Ht). destruct tables_ok as (_ & Trsn & Takm).
  assert (Eb : b = pre ++ [48; zlen (rsn_body e)] ++ rsn_body e ++ post) by done.
  set (n := zlen (rsn_body e)) in Eb. unfold rsn_body, suite_list in Eb. rewrite <- !app_assoc in Eb.
  unfold cap_pos, akm_pos, p. repeat split.
  - eapply (suite_at_at _ _ _ (pre ++ [48; n] ++ le16 1));
      [done | done | rewrite Eb, <- !app_assoc; done | len_step].
  - eapply (or_suites_at _ _ _ (pre ++ [48; n] ++ le16 1 ++ r_group e ++ le16 (zlen (r_pairwise e))));
      [done | done | rewrite Eb, <- !app_assoc; done | len_step].
  - eapply (or_suites_at _ _ _ (pre ++ [48; n] ++ le16 1 ++ r_group e ++ le16 (zlen (r_pairwise e)) ++
                                  concat (r_pairwise e) ++ le16 (zlen (r_akm e))));
      [done | done | rewrite Eb, <- !app_assoc; done | len_step].
  - intros off. eapply (cap_bits_at _ _ (pre ++ [48; n] ++ le16 1 ++ r_group e ++ le16 (zlen (r_pairwise e)) ++
                                  concat (r_pairwise e) ++ le16 (zlen (r_akm e)) ++ concat (r_akm e)));
      [rewrite Eb, <- !app_assoc; done | len_step].
  - destruct (r_tail e) as [|ids|ids s] eqn:Et; [done..|]. destruct Ht as [Hi Hs].
    cbn [tail_bytes] in Eb. rewrite <- !app_assoc in Eb.
    eapply (suite_at_at _ _ _ (pre ++ [48; n] ++ le16 1 ++ r_group e ++ le16 (zlen (r_pairwise e)) ++
              concat (r_pairwise e) ++ le16 (zlen (r_akm e)) ++ concat (r_akm e) ++ le16 (r_cap e) ++
              le16 (zlen ids) ++ concat ids));
      [done | done | rewrite Eb, <- !app_assoc; done | len_step].
Qed.

Lemma parse_wpa2_spec e pre post :
  rsn_ok e ->
  rtw_parse_wpa2_ie (pre ++ enc1 (48, rsn_body e) ++ post) (zlen pre) (2 + zlen (rsn_body e)) =
    Ok (_SUCCESS, Some (rsn_meaning e)).
Proof.
  intros He. unfold rtw_parse_wpa2_ie. rewrite rsne_info_parse_spec by done. cbn [bind negb Z.eqb _SUCCESS Pos.eqb].
  destruct (wpa2_values e pre post He) as (Hg & Hp & Ha & Hc & Hm).
  set (b := pre ++ _ ++ post) in *. set (p := zlen pre + 2) in *.
  unfold rsn_info. set (i := set_cap _ _).
  destruct (tail_info_keeps (r_tail e) (cap_pos e p + 2) i) as (-> & -> & -> & -> & -> & ->).
  cbn [gcs pcs_list pcs_cnt akm_list akm_cnt cap set_cap set_akm set_pcs set_gcs i].
  rewrite Hg. cbn [bind]. rewrite Hp. cbn [bind]. rewrite !Hc. cbn [bind].
  unfold rsn_meaning, rsn_gmcs. destruct (r_tail e) as [|ids|ids s]; cbn [tail_info gmcs set_gmcs set_pmkid i set_cap set_akm set_pcs set_gcs rsne0].
  - cbn [bind]. rewrite Ha. done.
  - cbn [bind]. rewrite Ha. done.
  - replace (cap_pos e p + 2 + 2 + 16 * zlen ids) with (cap_pos e p + 4 + 16 * zlen ids) by lia.
    rewrite Hm. cbn [bind]. rewrite Ha. done.
Qed.

(** ** Lemmas: the WPA element *)

Lemma parse_wpa_spec g p ps aks a pre post acc :
  is_suite g -> Forall is_suite (p :: ps) -> Forall is_suite (a :: aks) ->
  zlen (wpa_body g (p :: ps) (a :: aks)) < 256 ->
  rtw_parse_wpa_ie (pre ++ enc1 (0xdd, wpa_body g (p :: ps) (a :: aks)) ++ post) (zlen pre)
    (2 + zlen (wpa_body g (p :: ps) (a :: aks))) true acc =
  Ok (_SUCCESS, mkWpa (Some (suite_of wpa_ciphers g)) (ors wpa_ciphers (p :: ps) acc)
                  (if list_eqb [0x00; 0x50; 0xf2; 1] a then Some 1 else None)).
Proof.
  set (pp := p :: ps). set (aa := a :: aks). intros Hg Hp Ha Hl.
  destruct tables_ok as (Tw & _ & _).
  set (n := zlen (wpa_body g pp aa)). set (np := zlen pp).
  assert (1 <= np) by (unfold np, pp; rewrite zlen_cons; pose proof (zlen_nonneg ps); lia).
  assert (Hna : 1 <= zlen aa) by (unfold aa; rewrite zlen_cons; pose proof (zlen_nonneg aks); lia).
  assert (Hn : n = 14 + 4 * np + 4 * zlen aa).
  { unfold n, wpa_body, suite_list, np, wpa_oui_type. len_step. }
  set (b := pre ++ _ ++ post).
  assert (Eb : b = pre ++ [0xdd; n] ++ wpa_oui_type ++ le16 1 ++ g ++ le16 np ++ concat pp ++ le16 (zlen aa) ++ concat aa ++ post).
  { unfold b, enc1, wpa_body, suite_list. cbn [fst snd]. rewrite <- !app_assoc. cbn [app]. rewrite <- !app_assoc. done. }
  assert (Hc : forall x s y q sel, b = x ++ s ++ y -> q = zlen x -> is_suite s -> is_suite sel ->
                 memcmp_eq b q sel = Ok (list_eqb sel s)).
  { intros x s y q sel -> -> Hs Hsel. apply memcmp_eq_suite; done. }
  unfold rtw_parse_wpa_ie. case_match; [lia|].
  replace (rd b (zlen pre)) with (Ok (A := Z) 0xdd) by (rewrite Eb; cbn [app]; rewrite rd_mid; done).
  replace (rd b (zlen pre + 1)) with (Ok n)
    by (rewrite Eb; replace (zlen pre + 1) with (zlen (pre ++ [0xdd])) by len_step;
        symmetry; replace (pre ++ [0xdd; n] ++ _) with ((pre ++ [0xdd]) ++ n ::
           wpa_oui_type ++ le16 1 ++ g ++ le16 np ++ concat pp ++ le16 (zlen aa) ++ concat aa ++ post)
          by (rewrite <- app_assoc; done); apply rd_mid).
  cbn [bind]. replace (negb (0xdd =? 0xdd)) with false by done.
  rewrite u8_small by (fold n; unfold is_byte; lia).
  replace (negb (_ =? _)) with false by (symmetry; apply negb_false_iff, Z.eqb_eq; lia).
  erewrite (Hc (pre ++ [0xdd; n]) wpa_oui_type) by first [done | rewrite Eb, <- !app_assoc; done | len_step].
  cbn [bind]. replace (list_eqb wpa_oui_type wpa_oui_type) with true by done. cbn [negb].
  destruct (Z.leb_spec 4 (2 + n - 8)); [|lia].
  unfold rtw_get_wpa_cipher_suite.
  erewrite (suite_at_at _ _ _ (pre ++ [0xdd; n] ++ wpa_oui_type ++ le16 1) g)
    by first [done | rewrite Eb, <- !app_assoc; done | unfold wpa_oui_type; len_step].
  cbn [bind]. unfold wpa_pairwise. destruct (Z.leb_spec 2 (2 + n - 8 - 4)); [|lia].
  erewrite (get_le16_spec _ _ (pre ++ [0xdd; n] ++ wpa_oui_type ++ le16 1 ++ g) np)
    by first [rewrite Eb, <- !app_assoc; done | unfold wpa_oui_type; len_step].
  cbn [bind]. replace ((np =? 0) || _) with false by lia.
  unfold np at 2. erewrite (or_suites_at _ _ _ (pre ++ [0xdd; n] ++ wpa_oui_type ++ le16 1 ++ g ++ le16 np) pp)
    by first [done | rewrite Eb, <- !app_assoc; done | unfold wpa_oui_type; len_step].
  cbn [bind group_cipher pairwise_cipher akm]. unfold wpa_akm. cbn [andb].
  destruct (Z.leb_spec 6 (2 + n - 8 - 4 - 2 - 4 * np)); [|lia].
  erewrite (Hc (pre ++ [0xdd; n] ++ wpa_oui_type ++ le16 1 ++ g ++ le16 np ++ concat pp ++ le16 (zlen aa)) a (concat aks ++ post))
    by first [done | apply Forall_cons_1 in Ha as [Ha _]; done | rewrite Eb, <- !app_assoc; unfold aa; cbn [concat]; rewrite <- app_assoc; done | unfold np, wpa_oui_type; len_step].
  cbn [bind]. destruct (list_eqb _ a); done.
Qed.

(** ** Lemmas: the search for the WPA element *)

Definition wpa_head : list Z := wpa_oui_type ++ [1; 0].
Definition is_wpa (e : elem) : bool := hits 0xdd (Some wpa_head) e.

(** Offset and body length of the first WPA element. *)
Fixpoint first_wpa (off : Z) (es : list elem) : option (Z * Z) :=
  match es with
  | [] => None
  | e :: es' => if is_wpa e then Some (off, zlen (snd e)) else first_wpa (off + zlen (enc1 e)) es'
  end.

Lemma first_wpa_skip a e c : forall off,
  Forall (fun x : elem => fst x <> 0xdd) a ->
  first_wpa off (a ++ e :: c) =
    if is_wpa e then Some (off + zlen (enc a), zlen (snd e))
    else first_wpa (off + zlen (enc a) + zlen (enc1 e)) c.
Proof.
  induction a as [|x a IH]; intros off Ha; cbn [app first_wpa].
  - change (zlen (enc [])) with 0. rewrite Z.add_0_r. done.
  - apply Forall_cons_1 in Ha as [Hx Ha]. unfold is_wpa at 1, hits.
    rewrite (proj2 (Z.eqb_neq _ _) Hx). cbn [andb]. rewrite IH by done.
    cbn [enc]. rewrite zlen_app. rewrite !Z.add_assoc. done.
Qed.

Lemma first_wpa_none es : forall off, Forall (fun x : elem => fst x <> 0xdd) es -> first_wpa off es = None.
Proof.
  induction es as [|e es IH]; intros off H; cbn [first_wpa]; [done|]. apply Forall_cons_1 in H as [He H].
  unfold is_wpa, hits. rewrite (proj2 (Z.eqb_neq _ _) He). cbn [andb]. auto.
Qed.

(** The comparison of OUI and version on an element of at least six bytes. *)
Lemma wpa_test pre e c post :
  fst e = 0xdd -> elem_ok e -> zlen wpa_head <= zlen (snd e) ->
  let b := pre ++ enc (e :: c) ++ post in
  (oui <- memcmp_eq b (zlen pre + 2) wpa_oui_type ;;
   if oui : bool then val16 <- get_le16 b (zlen pre + 6) ;; Ok (val16 =? 1) else Ok false) = Ok (is_wpa e).
Proof.
  intros He (_ & _ & Hb) Hl b. change (zlen wpa_head) with 6 in Hl. unfold is_wpa, hits. rewrite He. cbn [Z.eqb Pos.eqb andb].
  unfold memcmp_eq. unfold b at 1. rewrite drop_body.
  assert (Hd : exists s x y t, snd e = s ++ x :: y :: t /\ length s = 4%nat /\ is_byte x /\ is_byte y).
  { destruct (snd e) as [|b0 [|b1 [|b2 [|b3 [|x [|y t]]]]]] eqn:E; rewrite ?E in Hl; try (unfold zlen in Hl; simpl in Hl; lia).
    exists [b0; b1; b2; b3], x, y, t. unfold bytes in Hb. rewrite !Forall_cons_iff in Hb.
    destruct Hb as (_ & _ & _ & _ & Hx & Hy & _). done. }
  destruct Hd as (s & x & y & t & Hs & Hl4 & Hx & Hy). rewrite Hs.
  rewrite memcmp_l_long by (rewrite !length_app; simpl; lia). rewrite <- !app_assoc.
  rewrite is_prefix_same_length by (rewrite Hl4; done). cbn [bind].
  replace (is_prefix wpa_head (s ++ x :: y :: t)) with (list_eqb wpa_oui_type s && ((x =? 1) && (y =? 0))).
  - destruct (list_eqb wpa_oui_type s) eqn:Eo; [|done]. cbn [andb].
    rewrite (get_le16_spec b (zlen pre + 6) (pre ++ fst e :: zlen (snd e) :: s) (y * 256 + x) (t ++ enc c ++ post)).
    + cbn [bind]. f_equal. unfold is_byte in *. lia.
    + unfold b. cbn [enc]. unfold enc1. rewrite Hs at 2. rewrite <- !app_assoc. cbn [app]. rewrite <- !app_assoc.
      unfold le16. replace ((y * 256 + x) mod 256) with x.
      2:{ rewrite Z.add_comm, Z.mod_add, Z.mod_small by (unfold is_byte in *; lia). done. }
      replace ((y * 256 + x) / 256) with y.
      2:{ rewrite Z.add_comm, Z.div_add, Z.div_small by (unfold is_byte in *; lia). done. }
      done.
    + rewrite zlen_app, !zlen_cons. unfold zlen at 3. rewrite Hl4. lia.
  - replace (x :: y :: t) with ([x; y] ++ t) by done. unfold wpa_head. rewrite app_assoc.
    rewrite is_prefix_same_length by (rewrite !length_app, Hl4; done).
    unfold list_eqb. destruct (bool_decide_reflect (wpa_oui_type = s)) as [<-|Hne]; cbn [andb].
    + destruct (Z.eqb_spec x 1), (Z.eqb_spec y 0); subst; cbn [andb]; symmetry;
        rewrite ?bool_decide_eq_true, ?bool_decide_eq_false; try done; intros Heq; apply app_inv_head in Heq; congruence.
    + symmetry. apply bool_decide_eq_false. intros Heq. apply app_inj_1 in Heq; [tauto | rewrite Hl4; done].
Qed.

Definition wpa_fits (es : list elem) : Prop := oui_fits 0xdd (Some wpa_head) es.

Lemma wpa_ie_loop n : forall es base pre post fuel,
  (length es <= n)%nat -> (n < fuel)%nat -> Forall elem_ok es -> wpa_fits es ->
  loop (wpa_ie_turn (pre ++ enc es ++ post) base (zlen pre - base + zlen (enc es))) fuel (zlen pre, zlen (enc es)) =
    Ok (first_wpa (zlen pre) es).
Proof.
  induction n as [n IH] using lt_wf_ind. intros es base pre post fuel Hn Hf Hok Hfit.
  destruct fuel as [|fuel]; [lia|]. rewrite loop_S. unfold wpa_ie_turn at 1. rewrite rtw_get_ie_enc. cbn [bind].
  pose proof (find_ie_spec 0xdd es (zlen pre)) as Hs. destruct (find_ie _ _ _) as [[o l]|].
  2:{ rewrite first_wpa_none by done. done. }
  destruct Hs as (a & e & c & -> & He & -> & -> & Ha). rewrite first_wpa_skip by done.
  unfold wpa_fits, oui_fits in Hfit. rewrite Forall_app, Forall_cons_iff in Hfit, Hok.
  destruct Hfit as (_ & Hfe & Hfc), Hok as (_ & Hoe & Hoc).
  pose proof (wpa_test (pre ++ enc a) e c post He Hoe (Hfe He)) as Ht. cbn zeta in Ht.
  replace (pre ++ enc (a ++ e :: c) ++ post) with ((pre ++ enc a) ++ enc (e :: c) ++ post)
    by (rewrite enc_app, <- !app_assoc; done).
  rewrite <- zlen_app. set (p := zlen (pre ++ enc a)) in *. set (b := (pre ++ enc a) ++ _ ++ post) in *.
  destruct (memcmp_eq b (p + 2) wpa_oui_type) as [oui|] eqn:Em; [|done]. cbn [bind] in Ht |- *. rewrite Ht. cbn [bind].
  destruct (is_wpa e); [done|].
  assert (Hlen : zlen (enc (a ++ e :: c)) = zlen (enc a) + (2 + zlen (snd e)) + zlen (enc c))
    by (rewrite enc_app, zlen_app, zlen_enc_cons; lia).
  assert (Hp : p = zlen pre + zlen (enc a)) by (unfold p; rewrite zlen_app; done).
  replace (zlen pre - base + _ - (p - base) - 2 - zlen (snd e)) with (zlen (enc c)) by lia.
  destruct (Z.leb_spec (zlen (enc c)) 0) as [Hz|Hz].
  - destruct c as [|x c]; [done|]. rewrite zlen_enc_cons in Hz.
    pose proof (zlen_nonneg (snd x)). pose proof (zlen_nonneg (enc c)). lia.
  - unfold b. rewrite enc_shift. rewrite length_app in Hn. simpl in Hn.
    pose proof (IH (length c) ltac:(lia) c base ((pre ++ enc a) ++ enc1 e) post fuel ltac:(done) ltac:(lia) Hoc Hfc) as R.
    rewrite zlen_app, zlen_enc1 in R. fold p in R.
    replace (zlen pre - base + zlen (enc (a ++ e :: c))) with (p + (2 + zlen (snd e)) - base + zlen (enc c)) by lia.
    rewrite R, zlen_enc1. done.
Qed.

Lemma rtw_get_wpa_ie_spec pre es post :
  Forall elem_ok es -> wpa_fits es ->
  rtw_get_wpa_ie (pre ++ enc es ++ post) (zlen pre) (zlen (enc es)) = Ok (first_wpa (zlen pre) es).
Proof.
  intros Hok Hfit. unfold rtw_get_wpa_ie.
  pose proof (wpa_ie_loop (length es) es (zlen pre) pre post (S (Z.to_nat (zlen (enc es))))) as R.
  replace (zlen pre - zlen pre + zlen (enc es)) with (zlen (enc es)) in R by lia.
  apply R; [done | | done | done]. pose proof (enc_fuel es 0). lia.
Qed.

(** ** Lemmas: collecting the security elements *)

Definition is_rsn (e : elem) : bool := fst e =? 0x30.
Definition is_wpa_oui (e : elem) : bool := hits 0xdd (Some wpa_oui_type) e.

(** What an output buffer and its length hold after a pass over [es]: the last element
    taken, or what they held before. *)
Fixpoint collect (f : elem -> bool) (es : list elem) (out : list Z * Z) : list Z * Z :=
  match es with
  | [] => out
  | e :: es' =>
      collect f es' (if f e then (enc1 e ++ drop (length (enc1 e)) (fst out), zlen (enc1 e)) else out)
  end.

Definition sec_fits (n m : Z) (e : elem) : bool :=
  (if is_rsn e then zlen (enc1 e) <=? n else true) && (if is_wpa_oui e then zlen (enc1 e) <=? m else true).

Lemma zlen_overlay (x out : list Z) : zlen x <= zlen out -> zlen (x ++ drop (length x) out) = zlen out.
Proof. intros H. rewrite zlen_app. unfold zlen in *. rewrite length_drop. lia. Qed.

Lemma copy_out pre e es post (out : list Z) :
  (src <- rdn (pre ++ enc (e :: es) ++ post) (zlen pre) (zlen (snd e) + 2) ;;
   o' <- wrn out 0 src ;; Ok (Some o')) =
    if zlen (enc1 e) <=? zlen out then Ok (Some (enc1 e ++ drop (length (enc1 e)) out)) else Fault OobWrite.
Proof.
  rewrite enc_shift, <- app_assoc. replace (zlen (snd e) + 2) with (zlen (enc1 e)) by (rewrite zlen_enc1; lia).
  rewrite rdn_app. cbn [bind]. destruct (Z.leb_spec (zlen (enc1 e)) (zlen out)).
  - rewrite wrn_prefix by done. done.
  - rewrite wrn_oob by lia. done.
Qed.

(** One turn on an element. *)
Lemma sec_ie_turn_spec pre e es in_len rsn rl wpa wl :
  elem_ok e -> oui_fits 0xdd (Some wpa_oui_type) (e :: es) ->
  zlen pre < in_len -> zlen pre + zlen (enc1 e) < 2 ^ 32 ->
  sec_ie_turn (pre ++ enc (e :: es) ++ []) in_len (zlen pre, (Some rsn, rl), (Some wpa, wl)) =
    if sec_fits (zlen rsn) (zlen wpa) e then
      let '(rb, rl') := if is_rsn e then (enc1 e ++ drop (length (enc1 e)) rsn, zlen (enc1 e)) else (rsn, rl) in
      let '(wb, wl') := if is_wpa_oui e then (enc1 e ++ drop (length (enc1 e)) wpa, zlen (enc1 e)) else (wpa, wl) in
      Ok (inl (zlen (pre ++ enc1 e), (Some rb, rl'), (Some wb, wl')))
    else Fault OobWrite.
Proof.
  intros (_ & Hl & _) Hfit Hin H32. unfold sec_ie_turn. pose proof (zlen_nonneg pre). pose proof (zlen_nonneg (snd e)).
  rewrite zlen_enc1 in H32. case_match; [lia|]. rewrite rd_id. cbn [bind].
  assert (Ew : (if fst e =? 0xdd then memcmp_eq (pre ++ enc (e :: es) ++ []) (zlen pre + 2) wpa_oui_type else Ok false) = Ok (is_wpa_oui e)).
  { pose proof (get_ie_ex_hit 0xdd (Some wpa_oui_type) e es pre [] (zlen pre) 0 Hfit) as G.
    rewrite Z.add_0_r, (Z.eqb_sym _ (fst e)) in G. apply G. lia. }
  rewrite Ew, rd_len. cbn [bind fst].
  replace (u32 (zlen pre + (zlen (snd e) + 2))) with (zlen (pre ++ enc1 e))
    by (rewrite u32_small by lia; rewrite zlen_app, zlen_enc1; lia).
  rewrite u16_small by lia. unfold sec_fits.
  destruct (is_wpa_oui e) eqn:W.
  - assert (is_rsn e = false) as ->.
    { unfold is_rsn. unfold is_wpa_oui, hits in W. apply andb_true_iff in W as [W%Z.eqb_eq _]. rewrite W. done. }
    cbn [andb]. rewrite copy_out. destruct (zlen (enc1 e) <=? zlen wpa); [|done].
    cbn [bind]. rewrite zlen_enc1. do 4 f_equal. lia.
  - fold (is_rsn e). destruct (is_rsn e); cbn [andb]; [|done].
    rewrite copy_out, andb_true_r. destruct (zlen (enc1 e) <=? zlen rsn); [|done].
    cbn [bind]. rewrite zlen_enc1. do 4 f_equal. f_equal. lia.
Qed.

Lemma sec_ie_loop es : forall pre rsn rl wpa wl fuel,
  Forall elem_ok es -> oui_fits 0xdd (Some wpa_oui_type) es -> zlen pre + zlen (enc es) < 2 ^ 32 ->
  (length es < fuel)%nat ->
  loop (sec_ie_turn (pre ++ enc es ++ []) (zlen pre + zlen (enc es))) fuel (zlen pre, (Some rsn, rl), (Some wpa, wl)) =
    if forallb (sec_fits (zlen rsn) (zlen wpa)) es then
      Ok ((Some (fst (collect is_rsn es (rsn, rl))), snd (collect is_rsn es (rsn, rl))),
          (Some (fst (collect is_wpa_oui es (wpa, wl))), snd (collect is_wpa_oui es (wpa, wl))))
    else Fault OobWrite.
Proof.
  induction es as [|e es IH]; intros pre rsn rl wpa wl fuel Hok Hfit H32 Hf;
    (destruct fuel as [|fuel]; [simpl in Hf; lia|]); rewrite loop_S.
  - unfold sec_ie_turn. change (zlen (enc [])) with 0. rewrite Z.add_0_r, Z.ltb_irrefl. done.
  - apply Forall_cons_iff in Hok as [He Hok]. pose proof Hfit as Hfit'. apply Forall_cons_iff in Hfit' as [_ Hfit'].
    pose proof (zlen_nonneg (snd e)). pose proof (zlen_nonneg (enc es)). rewrite zlen_enc_cons in H32 |- *.
    rewrite sec_ie_turn_spec by (rewrite ?zlen_enc1; done || lia). cbn [forallb collect fst].
    destruct (sec_fits (zlen rsn) (zlen wpa) e) eqn:Hs; [|done]. cbn [andb].
    destruct (if is_rsn e then _ else _) as [rb rl'] eqn:Er. destruct (if is_wpa_oui e then _ else _) as [wb wl'] eqn:Ew.
    assert (zlen rb = zlen rsn /\ zlen wb = zlen wpa) as [Lr Lw].
    { unfold sec_fits in Hs. destruct (is_rsn e), (is_wpa_oui e); simplify_eq; rewrite ?zlen_overlay; try done; lia. }
    rewrite enc_shift. replace (zlen pre + (2 + zlen (snd e) + zlen (enc es))) with (zlen (pre ++ enc1 e) + zlen (enc es))
      by (rewrite zlen_app, zlen_enc1; lia).
    rewrite IH; [rewrite Lr, Lw; done | done | done | rewrite zlen_app, zlen_enc1; lia | simpl in Hf; lia].
Qed.

(** What is collected is the last element taken, over what the buffer held. *)
Lemma collect_last f a e b out :
  f e = true -> Forall (fun x => f x = false) b ->
  collect f (a ++ e :: b) out =
    (enc1 e ++ drop (length (enc1 e)) (fst (collect f a out)), zlen (enc1 e)).
Proof.
  intros He Hb. revert out. induction a as [|x a IH]; intros out; cbn [app collect].
  - rewrite He. generalize (enc1 e ++ drop (length (enc1 e)) (fst out), zlen (enc1 e)) as o.
    clear He. induction Hb as [|x b Hx Hb IH]; intros o; cbn [collect]; [done|]. rewrite Hx. apply IH.
  - apply IH.
Qed.

(** ** Properties *)

(** C14: On arbitrary bytes the RSN parser ends without leaving the element it is given; it
    sets the error flag exactly when it fails; every pointer it hands out, with the
    count beside it, designates bytes inside the element; and the extraction of the suites
    that follows reads inside the block. *)
Theorem rsne_parse_stays_inside b ie ie_len
    (Hb : bytes b) (Hie : 0 <= ie) (Hlen : ie + ie_len <= zlen b) :
  (exists ret i, rtw_rsne_info_parse b ie ie_len = Ok (ret, i) /\ rsne_within ie ie_len i /\
     (ret = _SUCCESS /\ err i = 0 \/ ret = _FAIL /\ err i = 1)) /\
  exists r, rtw_parse_wpa2_ie b ie ie_len = Ok r.
Proof. split; [apply rsne_info_parse_post | apply parse_wpa2_never_faults]; done. Qed.

(** A pairwise count of three with room for two suites. *)
Definition short_rsne : list Z :=
  [48; 16; 1; 0; 0; 0x0f; 0xac; 4; 3; 0; 0; 0x0f; 0xac; 4; 0; 0x0f; 0xac; 2].

Lemma rsne_parse_stays_inside_witness :
  (exists ret i, rtw_rsne_info_parse short_rsne 0 18 = Ok (ret, i) /\ rsne_within 0 18 i /\
     (ret = _SUCCESS /\ err i = 0 \/ ret = _FAIL /\ err i = 1)) /\
  exists r, rtw_parse_wpa2_ie short_rsne 0 18 = Ok r.
Proof.
  apply (rsne_parse_stays_inside short_rsne 0 18);
    [apply bytes_by_compute; reflexivity | lia | vm_compute; discriminate].
Defined.

(** C13: An RSN element written out from its group cipher, pairwise ciphers, AKM suites,
    capabilities and optional PMKIDs and management cipher is read back as exactly those:
    the union of the suite values, the two capability fields, and the management cipher
    given or the default that the capabilities imply. *)
Theorem rsn_element_roundtrip e pre post (He : rsn_ok e) :
  rtw_parse_wpa2_ie (pre ++ enc1 (48, rsn_body e) ++ post) (zlen pre) (2 + zlen (rsn_body e)) =
    Ok (_SUCCESS, Some (rsn_meaning e)).
Proof. apply parse_wpa2_spec. done. Qed.

(** WPA2-PSK with CCMP and TKIP, management frame protection required, a group management
    suite. *)
Definition rsn_sample : rsn :=
  mkRsn [0; 0x0f; 0xac; 2] [[0; 0x0f; 0xac; 4]; [0; 0x0f; 0xac; 2]] [[0; 0x0f; 0xac; 2]] 0xc0
    (Gmcs [] [0; 0x0f; 0xac; 11]).

Lemma rsn_element_roundtrip_witness :
  rtw_parse_wpa2_ie ([7] ++ enc1 (48, rsn_body rsn_sample) ++ [9]) 1 32 =
    Ok (_SUCCESS, Some (mkWpa2 (BIT 3) (BIT 4 + BIT 3) (BIT 9) (BIT 1) 3 0)).
Proof.
  apply (rsn_element_roundtrip rsn_sample [7] [9]). repeat constructor.
Defined.

(** A WPA element with at least one pairwise and one AKM suite is read back: the group
    cipher, the pairwise ciphers added to what the caller's variable held, and 802.1X when
    it is the first AKM suite. *)
Theorem wpa_element_roundtrip g p ps a aks pre post acc
    (Hg : is_suite g) (Hp : Forall is_suite (p :: ps)) (Ha : Forall is_suite (a :: aks))
    (Hl : zlen (wpa_body g (p :: ps) (a :: aks)) < 256) :
  rtw_parse_wpa_ie (pre ++ enc1 (0xdd, wpa_body g (p :: ps) (a :: aks)) ++ post) (zlen pre)
    (2 + zlen (wpa_body g (p :: ps) (a :: aks))) true acc =
  Ok (_SUCCESS, mkWpa (Some (suite_of wpa_ciphers g)) (ors wpa_ciphers (p :: ps) acc)
                  (if list_eqb [0x00; 0x50; 0xf2; 1] a then Some 1 else None)).
Proof. apply parse_wpa_spec; done. Qed.

Lemma wpa_element_roundtrip_witness :
  rtw_parse_wpa_ie ([1; 2] ++ enc1 (0xdd, wpa_body [0; 0x50; 0xf2; 2] [[0; 0x50; 0xf2; 4]] [[0; 0x50; 0xf2; 1]]) ++ [3])
    2 24 true 0 = Ok (_SUCCESS, mkWpa (Some (BIT 3)) (BIT 4) (Some 1)).
Proof.
  apply (wpa_element_roundtrip [0; 0x50; 0xf2; 2] [0; 0x50; 0xf2; 4] [] [0; 0x50; 0xf2; 1] [] [1; 2] [3] 0);
    [reflexivity | repeat constructor | repeat constructor | vm_compute; reflexivity].
Defined.

(** Among well-formed elements whose vendor elements hold at least an OUI, a type and a
    version, the search for the WPA element returns the first one whose OUI, type and
    version are WPA's, passing over the other vendor elements, or nothing. *)
Theorem get_wpa_ie_finds_first pre es post
    (Hok : Forall elem_ok es) (Hfit : wpa_fits es) :
  exists r, rtw_get_wpa_ie (pre ++ enc es ++ post) (zlen pre) (zlen (enc es)) = Ok r /\
    match r with
    | Some (o, n) =>
        exists a e c, es = a ++ e :: c /\ is_wpa e = true /\ Forall (fun x => is_wpa x = false) a /\
          o = zlen pre + zlen (enc a) /\ n = zlen (snd e)
    | None => Forall (fun x => is_wpa x = false) es
    end.
Proof.
  rewrite rtw_get_wpa_ie_spec by done. eexists. split; [done|]. clear Hok Hfit.
  generalize (zlen pre) as off. induction es as [|e es IH]; intros off; cbn [first_wpa]; [done|].
  destruct (is_wpa e) eqn:He.
  - exists [], e, es. split_and!; try done. change (zlen (enc [])) with 0. lia.
  - specialize (IH (off + zlen (enc1 e))). destruct (first_wpa _ _) as [[o n]|]; [|by constructor].
    destruct IH as (a & d & c & -> & Hd & Ha & -> & ->). exists (e :: a), d, c.
    split_and!; try done; [by constructor|]. cbn [enc]. rewrite zlen_app. lia.
Qed.

(** A WMM element before the WPA element. *)
Definition vendor_sample : list elem :=
  [(0, [65]); (0xdd, [0; 0x50; 0xf2; 2; 1; 1]); (0xdd, [0; 0x50; 0xf2; 1; 1; 0; 9])].

Lemma get_wpa_ie_finds_first_witness :
  exists r, rtw_get_wpa_ie ([] ++ enc vendor_sample ++ []) 0 20 = Ok r /\
    match r with
    | Some (o, n) =>
        exists a e c, vendor_sample = a ++ e :: c /\ is_wpa e = true /\ Forall (fun x => is_wpa x = false) a /\
          o = 0 + zlen (enc a) /\ n = zlen (snd e)
    | None => Forall (fun x => is_wpa x = false) vendor_sample
    end.
Proof.
  apply (get_wpa_ie_finds_first [] vendor_sample []).
  - repeat constructor; vm_compute; try reflexivity; try discriminate.
  - repeat constructor; vm_compute; discriminate.
Defined.

(** Over the elements of a beacon the collection of the security elements returns the
    last RSN and the last WPA element in the caller's buffers with their lengths, if every
    such element fits its buffer; otherwise it writes outside a buffer. An element can
    be 257 bytes long; the caller's buffers hold 255. *)
Theorem sec_ie_collects hdr es rsn rl wpa wl
    (Hh : zlen hdr = 12) (Hok : Forall elem_ok es) (Hfit : oui_fits 0xdd (Some wpa_oui_type) es)
    (H32 : 12 + zlen (enc es) < 2 ^ 32) :
  rtw_get_sec_ie (hdr ++ enc es) (12 + zlen (enc es)) (Some rsn) rl (Some wpa) wl =
    if forallb (sec_fits (zlen rsn) (zlen wpa)) es then
      let '(rb, rl') := collect is_rsn es (rsn, rl) in
      let '(wb, wl') := collect is_wpa_oui es (wpa, wl) in
      Ok (rl' + wl', (Some rb, rl'), (Some wb, wl'))
    else Fault OobWrite.
Proof.
  unfold rtw_get_sec_ie. rewrite <- Hh at 1 2 3. rewrite <- (app_nil_r (hdr ++ _)), <- app_assoc.
  rewrite sec_ie_loop by (done || lia || (unfold zlen; pose proof (length_enc es); lia)).
  destruct (forallb _ es); [|done]. cbn [bind].
  destruct (collect is_rsn es (rsn, rl)) as [rb rl'], (collect is_wpa_oui es (wpa, wl)) as [wb wl']. done.
Qed.

(** An RSN element of the greatest length, for buffers of 255 bytes. *)
Definition long_rsn : list elem := [(0x30, zeros 255)].

Lemma sec_ie_collects_witness :
  rtw_get_sec_ie (zeros 12 ++ enc long_rsn) 269 (Some (zeros 255)) 0 (Some (zeros 255)) 0 = Fault OobWrite /\
  rtw_get_sec_ie (zeros 12 ++ enc vendor_sample) 32 (Some (zeros 255)) 0 (Some (zeros 255)) 0 =
    Ok (9, (Some (zeros 255), 0), (Some (enc1 (0xdd, [0; 0x50; 0xf2; 1; 1; 0; 9]) ++ zeros 246), 9)).
Proof.
  split.
  - apply (sec_ie_collects (zeros 12) long_rsn (zeros 255) 0 (zeros 255) 0);
      [reflexivity | repeat constructor; try (vm_compute; reflexivity || discriminate) | repeat constructor; vm_compute; discriminate | reflexivity].
  - apply (sec_ie_collects (zeros 12) vendor_sample (zeros 255) 0 (zeros 255) 0);
      [reflexivity | repeat constructor; try (vm_compute; reflexivity || discriminate) | repeat constructor; vm_compute; discriminate | reflexivity].
Defined.
