(* ===== verification/Wps.v ===== *)
(** * WPS elements, their attributes and the extended capabilities

    Models [rtw_is_wps_ie], [rtw_get_wps_ie], [rtw_get_wps_ie_from_scan_queue],
    [rtw_get_wps_attr], [rtw_get_wps_attr_content], [rtw_get_owe_ie] and the extended
    capability helpers of [core/rtw_ieee80211.c]. A pointer is an offset into the block,
    NULL is [None]; output parameters are results. *)
From Stdlib Require Import ZArith Lia Bool.
From stdpp Require Import base option list numbers.
From S2P Require Import Prelude Ies Ie.
Local Open Scope Z_scope.

Definition wps_oui : list Z := [0x00; 0x50; 0xf2; 0x04].

(** [RTW_GET_BE16] *)
Definition get_be16 (b : list Z) (p : Z) : res Z :=
  hi <- rd b p ;; lo <- rd b (p + 1) ;; Ok (hi * 256 + lo).

(** ** The elements *)

(** The length is set only on a match. *)
(* src: core/rtw_ieee80211.c:1187-1203 rtw_is_wps_ie *)
Definition rtw_is_wps_ie (b : list Z) (ie_ptr : option Z) : res (option Z) :=
  match ie_ptr with
  | None => Ok None
  | Some p =>
      eid <- rd b p ;;
      hit <- (if eid =? 0xdd then memcmp_eq b (p + 2) wps_oui else Ok false) ;;
      if hit : bool then n <- rd b (p + 1) ;; Ok (Some (n + 2)) else Ok None
  end.

Definition MAX_IE_SZ := 768.

(** The loops of [rtw_get_wps_ie] and [rtw_get_owe_ie] differ in the test [hit]. *)
(* src: core/rtw_ieee80211.c:1259-1281 rtw_get_wps_ie *)
Definition wps_ie_turn (b : list Z) (in_ie in_len : Z) (hit : Z -> Z -> res bool) (cnt : Z)
    : res (Z + option (Z * Z)) :=
  if negb (u32 (cnt + 1 + 4) <? in_len) then Ok (inr None)
  else
    eid <- rd b (in_ie + cnt) ;;
    if MAX_IE_SZ <=? u32 (cnt + 1 + 4) then Ok (inr None) else
    h <- hit eid (in_ie + cnt) ;;
    n <- rd b (in_ie + cnt + 1) ;;
    if h : bool then Ok (inr (Some (in_ie + cnt, n + 2))) else Ok (inl (u32 (cnt + (n + 2)))).

Definition search_copy (b : list Z) (in_ie : option Z) (in_len : Z) (hit : Z -> Z -> res bool)
    (out : option (list Z)) : res (option (Z * Z) * option (list Z)) :=
  match in_ie with
  | None => Ok (None, out)
  | Some p =>
      if in_len <=? 0 then Ok (None, out)
      else
        r <- loop (wps_ie_turn b p in_len hit) (S (Z.to_nat in_len)) 0 ;;
        match r, out with
        | Some (off, n), Some o => src <- rdn b off n ;; o <- wrn o 0 src ;; Ok (r, Some o)
        | _, _ => Ok (r, out)
        end
  end.

(** The element and its whole length; [wps_ie] is NULL or the buffer it is copied to. *)
(* src: core/rtw_ieee80211.c:1238-1281 rtw_get_wps_ie *)
Definition rtw_get_wps_ie (b : list Z) (in_ie : option Z) (in_len : Z) (wps_ie : option (list Z)) :=
  search_copy b in_ie in_len
    (fun eid p => if eid =? 0xdd then memcmp_eq b (p + 2) wps_oui else Ok false) wps_ie.

(* src: core/rtw_ieee80211.c:1385-1428 rtw_get_owe_ie *)
Definition rtw_get_owe_ie (b : list Z) (in_ie : option Z) (in_len : Z) (owe_ie : option (list Z)) :=
  search_copy b in_ie in_len
    (fun eid p => if eid =? 255 then e <- rd b (p + 2) ;; Ok (e =? 32) else Ok false) owe_ie.

(* src: include/wlan_bssdef.h:221-226 enum bss_type *)
Inductive bss_type : Type :=
| BSS_TYPE_UNDEF
| BSS_TYPE_PROB_REQ
| BSS_TYPE_BCN
| BSS_TYPE_PROB_RSP.

(* src: core/rtw_ieee80211.c:1205-1227 rtw_get_wps_ie_from_scan_queue *)
Definition rtw_get_wps_ie_from_scan_queue (b : list Z) (in_ie in_len : Z) (wps_ie : option (list Z))
    (frame_type : bss_type) : res (option (Z * Z) * option (list Z)) :=
  match frame_type with
  | BSS_TYPE_BCN | BSS_TYPE_PROB_RSP => rtw_get_wps_ie b (Some (in_ie + 12)) (s32 (in_len - 12)) wps_ie
  | BSS_TYPE_PROB_REQ => rtw_get_wps_ie b (Some (in_ie + 0)) (s32 (in_len - 0)) wps_ie
  | BSS_TYPE_UNDEF => Ok (None, wps_ie)
  end.

(** ** The attributes of a WPS element *)

(** [attr_len] is a [u16]. *)
(* src: core/rtw_ieee80211.c:1311-1330 rtw_get_wps_attr *)
Definition wps_attr_turn (b : list Z) (wps_ie wps_ielen target : Z) (attr_ptr : Z)
    : res (Z + option (Z * Z)) :=
  if negb (attr_ptr - wps_ie <? wps_ielen) then Ok (inr None)
  else
    attr_id <- get_be16 b attr_ptr ;;
    attr_data_len <- get_be16 b (attr_ptr + 2) ;;
    let attr_len := u16 (attr_data_len + 4) in
    if attr_id =? target then Ok (inr (Some (attr_ptr, attr_len)))
    else Ok (inl (attr_ptr + attr_len)).

Definition wps_attr_search (b : list Z) (wps_ie wps_ielen target : Z) (fuel : nat) : res (option (Z * Z)) :=
  loop (wps_attr_turn b wps_ie wps_ielen target) fuel (wps_ie + 6).

(** The attribute, its length (0 if there is none) and the buffer [buf_attr]. *)
(* src: core/rtw_ieee80211.c:1293-1333 rtw_get_wps_attr *)
Definition rtw_get_wps_attr (b : list Z) (wps_ie wps_ielen target : Z) (buf_attr : option (list Z))
    : res (option Z * Z * option (list Z)) :=
  id <- rd b wps_ie ;;
  oui <- (if id =? 0xdd then memcmp_eq b (wps_ie + 2) wps_oui else Ok false) ;;
  if negb oui then Ok (None, 0, buf_attr)
  else
    r <- wps_attr_search b wps_ie wps_ielen target (S (Z.to_nat wps_ielen)) ;;
    match r with
    | Some (p, n) =>
        match buf_attr with
        | Some o => src <- rdn b p n ;; o <- wrn o 0 src ;; Ok (Some p, n, Some o)
        | None => Ok (Some p, n, None)
        end
    | None => Ok (None, 0, buf_attr)
    end.

(** The content, [*len_content] and the buffer [buf_content]. *)
(* src: core/rtw_ieee80211.c:1346-1372 rtw_get_wps_attr_content *)
Definition rtw_get_wps_attr_content (b : list Z) (wps_ie wps_ielen target : Z)
    (buf_content : option (list Z)) (len_content : option Z)
    : res (option Z * option Z * option (list Z)) :=
  '(attr_ptr, attr_len, _) <- rtw_get_wps_attr b wps_ie wps_ielen target None ;;
  match attr_ptr with
  | Some p =>
      if attr_len =? 0 then Ok (None, option_map (fun _ => 0) len_content, buf_content)
      else
        let n := u32 (attr_len - 4) in
        let has_buf := match buf_content with Some _ => true | None => false end in
        let len_content :=
          option_map (fun l => if has_buf && (n <? l) || negb has_buf then n else l) len_content in
        match buf_content with
        | Some o =>
            src <- rdn b (p + 4) (match len_content with Some l => l | None => 1 end) ;;
            o <- wrn o 0 src ;;
            Ok (Some (p + 4), len_content, Some o)
        | None => Ok (Some (p + 4), len_content, None)
        end
  | None => Ok (None, option_map (fun _ => 0) len_content, buf_content)
  end.

(** ** Extended capabilities *)

Definition WLAN_EID_EXT_CAP := 127.
Definition WLAN_EID_EXT_CAP_MAX_LEN := 10%nat.

(* src: core/rtw_ieee80211.c:1431-1446 rtw_add_ext_cap_info *)
Definition rtw_add_ext_cap_info (data : list Z) (len cap_info : Z) : res (list Z * Z) :=
  let byte_offset := Z.shiftr cap_info 3 in
  let bit_offset := cap_info mod 8 in
  v <- rd data byte_offset ;;
  data <- wr data byte_offset (Z.lor v (BIT bit_offset)) ;;
  Ok (data, if len <? byte_offset + 1 then u8 (byte_offset + 1) else len).

(** The loop that looks for the last byte that is not 0. *)
(* src: core/rtw_ieee80211.c:1457-1462 rtw_remove_ext_cap_info *)
Fixpoint trim_turns (data : list Z) (n : nat) (i max_len : Z) : res Z :=
  match n with
  | O => Ok max_len
  | S n => v <- rd data i ;; trim_turns data n (i + 1) (if v =? 0 then max_len else i + 1)
  end.

(* src: core/rtw_ieee80211.c:1449-1468 rtw_remove_ext_cap_info *)
Definition rtw_remove_ext_cap_info (data : list Z) (cap_info : Z) : res (list Z * Z) :=
  let byte_offset := Z.shiftr cap_info 3 in
  let bit_offset := cap_info mod 8 in
  v <- rd data byte_offset ;;
  data <- wr data byte_offset (Z.land v (Z.lnot (BIT bit_offset))) ;;
  len <- trim_turns data WLAN_EID_EXT_CAP_MAX_LEN 0 0 ;;
  Ok (data, len).

(* src: core/rtw_ieee80211.c:1479-1499 rtw_update_ext_cap_ie *)
Definition rtw_update_ext_cap_ie (backup : bool) (data : list Z) (len : Z) (ies : list Z) (ies_len ies_offset : Z)
    : res (list Z * Z) :=
  if negb (len =? 0) then
    r <- rtw_get_ie ies ies_offset WLAN_EID_EXT_CAP (s32 (ies_len - ies_offset)) ;;
    match r with
    | None =>
        '(ies, _, ie_len) <- rtw_set_ie ies ies_len WLAN_EID_EXT_CAP len data (Some 0) ;;
        Ok (ies, u32 (ies_len + default 0 ie_len))
    | Some _ =>
        '(_, ies, ies_len) <- rtw_ies_update_ie backup ies ies_len ies_offset WLAN_EID_EXT_CAP data len ;;
        Ok (ies, ies_len)
    end
  else
    '(_, ies, ies_len) <- rtw_ies_remove_ie ies ies_len ies_offset WLAN_EID_EXT_CAP None ;;
    Ok (ies, ies_len).

(** [for (i = 0; i < n; i++) data[i] |= b[p + i]] *)
Fixpoint or_turns (data b : list Z) (p i : Z) (n : nat) : res (list Z) :=
  match n with
  | O => Ok data
  | S n =>
      v <- rd data i ;; s <- rd b (p + i) ;;
      data <- wr data i (Z.lor v s) ;;
      or_turns data b p (i + 1) n
  end.

(* src: core/rtw_ieee80211.c:1501-1524 rtw_parse_ext_cap_ie *)
Definition rtw_parse_ext_cap_ie (data : list Z) (len : Z) (ies : list Z) (ies_len ies_offset : Z)
    : res (list Z * Z) :=
  r <- rtw_get_ie ies ies_offset WLAN_EID_EXT_CAP (s32 (ies_len - ies_offset)) ;;
  match r with
  | None => Ok (data, len)
  | Some (p, n) =>
      if len =? 0 then src <- rdn ies (p + 2) n ;; data <- wrn data 0 src ;; Ok (data, n)
      else data <- or_turns data ies (p + 2) 0 (Z.to_nat n) ;; Ok (data, len)
  end.

(** ** Attribute lists *)

Definition attr : Type := Z * list Z.

Definition be16 (n : Z) : list Z := [n / 256; n mod 256].

Definition enc_attr (a : attr) : list Z := be16 (fst a) ++ be16 (zlen (snd a)) ++ snd a.

Fixpoint enc_attrs (xs : list attr) : list Z :=
  match xs with [] => [] | a :: xs' => enc_attr a ++ enc_attrs xs' end.

(** The content fits the 16 bits that hold the length of the whole attribute. *)
Definition attr_ok (a : attr) : Prop := zlen (snd a) + 4 < 65536.

(** A WPS element; the length byte plays no part in the search. *)
Definition wps_hdr (n : Z) : list Z := 0xdd :: n :: wps_oui.

Fixpoint find_attr (off target : Z) (xs : list attr) : option (Z * list Z) :=
  match xs with
  | [] => None
  | a :: xs' => if fst a =? target then Some (off, snd a) else find_attr (off + zlen (enc_attr a)) target xs'
  end.

Lemma zlen_enc_attr a : zlen (enc_attr a) = 4 + zlen (snd a).
Proof. unfold enc_attr. rewrite !zlen_app. unfold be16, zlen. cbn [length]. lia. Qed.

Lemma get_be16_spec b p x n y : b = x ++ be16 n ++ y -> p = zlen x -> get_be16 b p = Ok n.
Proof.
  intros -> ->. unfold get_be16, be16. cbn [app]. rewrite rd_mid. cbn [bind].
  replace (x ++ n / 256 :: n mod 256 :: y) with ((x ++ [n / 256]) ++ n mod 256 :: y)
    by (rewrite <- app_assoc; done).
  replace (zlen x + 1) with (zlen (x ++ [n / 256])) by (rewrite zlen_app; done).
  rewrite rd_mid. cbn [bind]. f_equal. pose proof (Z.div_mod n 256). lia.
Qed.

(** One turn at an attribute of which at least the header is there. *)
Lemma attr_turn_spec pre id n post wps_ie wps_ielen target :
  zlen pre < wps_ie + wps_ielen ->
  wps_attr_turn (pre ++ be16 id ++ be16 n ++ post) wps_ie wps_ielen target (zlen pre) =
    if id =? target then Ok (inr (Some (zlen pre, u16 (n + 4)))) else Ok (inl (zlen pre + u16 (n + 4))).
Proof.
  intros H. unfold wps_attr_turn. case_match; [lia|].
  rewrite (get_be16_spec _ _ pre id (be16 n ++ post)) by done. cbn [bind].
  rewrite (get_be16_spec _ _ (pre ++ be16 id) n post)
    by (rewrite <- ?app_assoc; done || (rewrite zlen_app; done)).
  done.
Qed.

Lemma enc_attr_shift pre a xs post :
  pre ++ enc_attrs (a :: xs) ++ post = (pre ++ enc_attr a) ++ enc_attrs xs ++ post.
Proof. cbn [enc_attrs]. rewrite <- !app_assoc. done. Qed.

Lemma attr_turn_enc pre a xs post wps_ie wps_ielen target :
  attr_ok a -> zlen pre < wps_ie + wps_ielen ->
  wps_attr_turn (pre ++ enc_attrs (a :: xs) ++ post) wps_ie wps_ielen target (zlen pre) =
    if fst a =? target then Ok (inr (Some (zlen pre, 4 + zlen (snd a))))
    else Ok (inl (zlen (pre ++ enc_attr a))).
Proof.
  intros Ha H. cbn [enc_attrs]. unfold enc_attr at 1. rewrite <- !app_assoc.
  rewrite attr_turn_spec by done. unfold attr_ok in Ha. pose proof (zlen_nonneg (snd a)).
  rewrite u16_small by lia. rewrite zlen_app, zlen_enc_attr. rewrite Z.add_comm.
  destruct (fst a =? target); done.
Qed.

(** Over well-formed attributes that end where the element ends. *)
Lemma attr_loop target wps_ie wps_ielen xs : forall pre post fuel,
  Forall attr_ok xs -> wps_ie + wps_ielen = zlen pre + zlen (enc_attrs xs) -> (length xs < fuel)%nat ->
  loop (wps_attr_turn (pre ++ enc_attrs xs ++ post) wps_ie wps_ielen target) fuel (zlen pre) =
    Ok (option_map (fun r => (fst r, 4 + zlen (snd r))) (find_attr (zlen pre) target xs)).
Proof.
  induction xs as [|a xs IH]; intros pre post fuel Hok Hend Hf;
    (destruct fuel as [|fuel]; [simpl in Hf; lia|]); rewrite loop_S.
  - unfold wps_attr_turn. change (zlen (enc_attrs [])) with 0 in Hend. replace (zlen pre - wps_ie <? wps_ielen) with false by lia. done.
  - apply Forall_cons_iff in Hok as [Ha Hok]. cbn [enc_attrs] in Hend. rewrite zlen_app, zlen_enc_attr in Hend.
    pose proof (zlen_nonneg (snd a)). pose proof (zlen_nonneg (enc_attrs xs)).
    rewrite attr_turn_enc by (done || lia). cbn [find_attr]. destruct (fst a =? target); [done|].
    rewrite enc_attr_shift, IH; [rewrite zlen_app; done | done | rewrite zlen_app, zlen_enc_attr; lia | simpl in Hf; lia].
Qed.

(** The places at which the search looks for an attribute's header: the first behind the element's own header, and then, as long as
    the place lies in the element and the identifier is another one, as many bytes further as the 16-bit attribute length says. *)
Inductive attr_reached (b : list Z) (wps_ie wps_ielen target : Z) : Z -> Prop :=
| reached_first : attr_reached b wps_ie wps_ielen target (wps_ie + 6)
| reached_next p id n : attr_reached b wps_ie wps_ielen target p -> p - wps_ie < wps_ielen ->
    get_be16 b p = Ok id -> id <> target -> get_be16 b (p + 2) = Ok n -> attr_reached b wps_ie wps_ielen target (p + u16 (n + 4)).

(** An attribute there that is its own successor. *)
Definition attr_stuck (b : list Z) (wps_ie wps_ielen target : Z) : Prop :=
  exists p id, attr_reached b wps_ie wps_ielen target p /\ p - wps_ie < wps_ielen /\ get_be16 b p = Ok id /\ id <> target /\
    get_be16 b (p + 2) = Ok 0xfffc.

Section Search.
  Context (b : list Z) (wps_ie wps_ielen target : Z) (Hb : bytes b).

Lemma get_be16_range p n : get_be16 b p = Ok n -> 0 <= n < 65536.
Proof.
  unfold get_be16. intros H. res_inv. pose proof (rd_byte _ _ _ Hb Ha). pose proof (rd_byte _ _ _ Hb Ha0). unfold is_byte in *. lia.
Qed.

Lemma get_be16_faults p f : get_be16 b p = Fault f -> f <> FuelOut.
Proof. unfold get_be16, rd. intros H ->. revert H. cases. Qed.

Lemma attr_turn_next p id n : p - wps_ie < wps_ielen -> get_be16 b p = Ok id -> id <> target -> get_be16 b (p + 2) = Ok n ->
  wps_attr_turn b wps_ie wps_ielen target p = Ok (inl (p + u16 (n + 4))).
Proof.
  intros Hp E1 Hid E2. unfold wps_attr_turn. rewrite (proj2 (Z.ltb_lt _ _)) by done. cbn [negb]. rewrite E1, E2. cbn [bind].
  rewrite (proj2 (Z.eqb_neq _ _)) by done. done.
Qed.

Lemma attr_turn_cases p : match wps_attr_turn b wps_ie wps_ielen target p with
  | Ok (inl q) => exists id n, p - wps_ie < wps_ielen /\ get_be16 b p = Ok id /\ id <> target /\ get_be16 b (p + 2) = Ok n /\ q = p + u16 (n + 4)
  | Ok (inr _) => True
  | Fault f => f <> FuelOut
  end.
Proof.
  unfold wps_attr_turn. destruct (Z.ltb_spec (p - wps_ie) wps_ielen) as [Hp|]; cbn [negb]; [|done].
  destruct (get_be16 b p) as [id|f] eqn:E1; cbn [bind]; [|apply (get_be16_faults _ _ E1)].
  destruct (get_be16 b (p + 2)) as [n|f] eqn:E2; cbn [bind]; [|apply (get_be16_faults _ _ E2)].
  destruct (Z.eqb_spec id target); [done|]. exists id, n. done.
Qed.

(** Any other length moves the search on. *)
Lemma attr_len_moves n : 0 <= n < 65536 -> n <> 0xfffc -> 1 <= u16 (n + 4).
Proof.
  intros Hn Hne. unfold u16. change (2 ^ 16) with 65536. destruct (Z.le_gt_cases 65536 (n + 4)).
  - replace (n + 4) with (n + 4 - 65536 + 1 * 65536) by lia. rewrite Z.mod_add, Z.mod_small by lia. lia.
  - rewrite Z.mod_small by lia. lia.
Qed.

Lemma attr_search_decides fuel : forall p, attr_reached b wps_ie wps_ielen target p -> Z.max 0 (wps_ie + wps_ielen - p) < Z.of_nat fuel ->
  loop (wps_attr_turn b wps_ie wps_ielen target) fuel p <> Fault FuelOut \/ attr_stuck b wps_ie wps_ielen target.
Proof.
  induction fuel as [|fuel IH]; intros p Hr Hm; [lia|]. rewrite loop_S. pose proof (attr_turn_cases p) as Ht.
  destruct (wps_attr_turn b wps_ie wps_ielen target p) as [[q|r]|f]; [|left; done | left; congruence].
  destruct Ht as (id & n & Hp & E1 & Hid & E2 & ->). destruct (Z.eq_dec n 0xfffc) as [->|Hn]; [right; exists p, id; done|].
  pose proof (attr_len_moves n (get_be16_range _ _ E2) Hn). apply IH; [apply (reached_next _ _ _ _ p id n); done | lia].
Qed.

(** What is reached is searched. *)
Lemma attr_reached_loop p : attr_reached b wps_ie wps_ielen target p ->
  (forall fuel, loop (wps_attr_turn b wps_ie wps_ielen target) fuel p = Fault FuelOut) ->
  forall fuel, wps_attr_search b wps_ie wps_ielen target fuel = Fault FuelOut.
Proof.
  induction 1 as [|p id n Hr IH Hp E1 Hid E2]; intros H; [exact H|]. apply IH. intros [|fuel]; [done|].
  rewrite loop_S, (attr_turn_next p id n) by done. apply H.
Qed.

Lemma attr_stuck_loops : attr_stuck b wps_ie wps_ielen target -> forall fuel, wps_attr_search b wps_ie wps_ielen target fuel = Fault FuelOut.
Proof.
  intros (p & id & Hr & Hp & E1 & Hid & E2). apply (attr_reached_loop p Hr). induction fuel as [|fuel IH]; [done|].
  rewrite loop_S, (attr_turn_next p id 0xfffc) by done. change (u16 (0xfffc + 4)) with 0. rewrite Z.add_0_r. exact IH.
Qed.
End Search.

(** ** The attribute search and its content *)

Lemma enc_attrs_app a b : enc_attrs (a ++ b) = enc_attrs a ++ enc_attrs b.
Proof. induction a as [|x a IH]; [done|]. cbn [app enc_attrs]. rewrite IH, app_assoc. done. Qed.

Lemma find_attr_spec target xs : forall off,
  match find_attr off target xs with
  | Some (o, d) => exists a c, xs = a ++ (target, d) :: c /\ o = off + zlen (enc_attrs a) /\
                     Forall (fun x => fst x <> target) a
  | None => Forall (fun x => fst x <> target) xs
  end.
Proof.
  induction xs as [|[id d] xs IH]; intros off; cbn [find_attr fst snd]; [done|].
  destruct (Z.eqb_spec id target) as [->|Hn].
  - exists [], xs. split_and!; try done. change (zlen (enc_attrs [])) with 0. lia.
  - specialize (IH (off + zlen (enc_attr (id, d)))). destruct (find_attr _ _ xs) as [[o e]|]; [|by constructor].
    destruct IH as (a & c & -> & -> & Ha). exists ((id, d) :: a), c. split_and!; try done; [|by constructor].
    cbn [enc_attrs]. rewrite zlen_app. lia.
Qed.

Lemma length_enc_attrs xs : (4 * length xs <= length (enc_attrs xs))%nat.
Proof.
  induction xs as [|a xs IH]; [done|]. cbn [enc_attrs length]. rewrite length_app.
  pose proof (zlen_enc_attr a). unfold zlen in *. lia.
Qed.

Lemma get_wps_attr_spec pre n xs post target :
  Forall attr_ok xs ->
  rtw_get_wps_attr (pre ++ wps_hdr n ++ enc_attrs xs ++ post) (zlen pre) (6 + zlen (enc_attrs xs)) target None =
    Ok (match find_attr (zlen pre + 6) target xs with
        | Some (o, d) => (Some o, 4 + zlen d, None)
        | None => (None, 0, None)
        end).
Proof.
  intros Hok. unfold rtw_get_wps_attr. set (b := pre ++ _).
  replace (rd b (zlen pre)) with (Ok (A := Z) 0xdd) by (unfold b, wps_hdr; cbn [app]; rewrite rd_mid; done).
  cbn [bind Z.eqb Pos.eqb]. unfold memcmp_eq.
  replace b with ((pre ++ [0xdd; n]) ++ wps_oui ++ enc_attrs xs ++ post)
    by (unfold b, wps_hdr; rewrite <- app_assoc; done).
  replace (zlen pre + 2) with (zlen (pre ++ [0xdd; n])) by (rewrite zlen_app; done).
  rewrite drop_zlen_app, memcmp_l_long by (rewrite length_app; lia). rewrite is_prefix_app. cbn [bind negb].
  replace ((pre ++ [0xdd; n]) ++ wps_oui ++ enc_attrs xs ++ post) with ((pre ++ wps_hdr n) ++ enc_attrs xs ++ post)
    by (unfold wps_hdr; rewrite <- !app_assoc; done).
  unfold wps_attr_search. replace (zlen pre + 6) with (zlen (pre ++ wps_hdr n)) by (rewrite zlen_app; done).
  rewrite attr_loop; [| done | rewrite zlen_app; change (zlen (wps_hdr n)) with 6; lia |].
  2:{ pose proof (length_enc_attrs xs). unfold zlen. lia. }
  destruct (find_attr _ _ _) as [[o d]|]; done.
Qed.

(** The first bytes of the content. *)
Lemma rdn_content pre a id d c post k :
  0 <= k <= zlen d ->
  rdn (pre ++ enc_attrs (a ++ (id, d) :: c) ++ post) (zlen pre + zlen (enc_attrs a) + 4) k = Ok (take (Z.to_nat k) d).
Proof.
  intros Hk. rewrite enc_attrs_app. cbn [enc_attrs]. unfold enc_attr at 1. cbn [fst snd].
  replace (zlen pre + zlen (enc_attrs a) + 4) with (zlen (pre ++ enc_attrs a ++ be16 id ++ be16 (zlen d)))
    by (rewrite !zlen_app; unfold be16; rewrite !zlen_cons, zlen_nil; lia).
  match goal with |- rdn ?l _ _ = _ =>
    replace l with ((pre ++ enc_attrs a ++ be16 id ++ be16 (zlen d)) ++ d ++ (enc_attrs c ++ post))
      by (rewrite <- !app_assoc; done) end.
  apply rdn_part. done.
Qed.

Lemma get_wps_attr_content_spec pre n xs post target buf cap :
  Forall attr_ok xs -> 0 <= cap <= zlen buf ->
  rtw_get_wps_attr_content (pre ++ wps_hdr n ++ enc_attrs xs ++ post) (zlen pre) (6 + zlen (enc_attrs xs))
    target (Some buf) (Some cap) =
    Ok (match find_attr (zlen pre + 6) target xs with
        | Some (o, d) =>
            let k := Z.min cap (zlen d) in
            (Some (o + 4), Some k, Some (take (Z.to_nat k) d ++ drop (Z.to_nat k) buf))
        | None => (None, Some 0, Some buf)
        end).
Proof.
  intros Hok Hcap. unfold rtw_get_wps_attr_content. rewrite get_wps_attr_spec by done. cbn [bind].
  pose proof (find_attr_spec target xs (zlen pre + 6)) as Hf.
  destruct (find_attr _ _ _) as [[o d]|]; [|done]. destruct Hf as (a & c & -> & -> & _).
  assert (Hd : zlen d + 4 < 65536) by (rewrite Forall_app, Forall_cons_iff in Hok; apply Hok).
  pose proof (zlen_nonneg d). replace (4 + zlen d =? 0) with false by lia.
  rewrite u32_small by lia. cbn [option_map negb]. rewrite orb_false_r. cbn [andb].
  replace (if 4 + zlen d - 4 <? cap then 4 + zlen d - 4 else cap) with (Z.min cap (zlen d)) by (cases).
  set (k := Z.min cap (zlen d)).
  pose proof (rdn_content (pre ++ wps_hdr n) a target d c post k ltac:(lia)) as R.
  rewrite zlen_app in R. change (zlen (wps_hdr n)) with 6 in R. rewrite <- app_assoc in R. rewrite R. cbn [bind].
  assert (Hk : length (take (Z.to_nat k) d) = Z.to_nat k) by (unfold zlen in *; rewrite length_take; lia).
  rewrite wrn_prefix by (unfold zlen in *; lia). cbn [bind]. rewrite Hk. done.
Qed.

(** ** Extended capabilities *)

Definition ext_bit (data : list Z) (k : Z) : bool :=
  Z.testbit (nth (Z.to_nat (Z.shiftr k 3)) data 0) (k mod 8).

(** The length up to the last byte that is not 0. *)
Definition trimmed (data : list Z) (len : Z) : Prop :=
  0 <= len <= zlen data /\ (forall i, len <= i < zlen data -> data !! Z.to_nat i = Some 0) /\
  (0 < len -> exists v, data !! Z.to_nat (len - 1) = Some v /\ v <> 0).

Lemma trim_turns_spec data : forall n i max_len,
  0 <= max_len <= i -> i + Z.of_nat n = zlen data ->
  (forall j, max_len <= j < i -> data !! Z.to_nat j = Some 0) ->
  (0 < max_len -> exists v, data !! Z.to_nat (max_len - 1) = Some v /\ v <> 0) ->
  exists len, trim_turns data n i max_len = Ok len /\ trimmed data len.
Proof.
  induction n as [|n IH]; intros i max_len Hm Hi H0 H1; cbn [trim_turns].
  - exists max_len. split; [done|]. repeat split; [lia | lia | | done]. intros j Hj. apply H0. lia.
  - destruct (rd_in data i) as [v Hv]; [lia|]. rewrite Hv. cbn [bind]. apply rd_Ok in Hv as [_ Hv].
    apply IH; [case_match; lia | lia | |].
    + intros j Hj. destruct (Z.eqb_spec v 0) as [->|].
      * destruct (Z.eq_dec j i) as [->|]; [done | apply H0; lia].
      * lia.
    + destruct (Z.eqb_spec v 0) as [->|]; [done|]. intros _. exists v. rewrite Z.add_simpl_r. done.
Qed.

Lemma shiftr3 k : Z.shiftr k 3 = k / 8.
Proof. rewrite Z.shiftr_div_pow2 by lia. done. Qed.

Lemma testbit_BIT i j : 0 <= i -> 0 <= j -> Z.testbit (BIT j) i = (i =? j).
Proof.
  intros. unfold BIT. rewrite Z.shiftl_1_l, Z.pow2_bits_eqb by lia. apply Z.eqb_sym.
Qed.

(** A change of one byte that changes bit [c mod 8] only. *)
Lemma ext_bit_insert data c v w k :
  0 <= c -> Z.shiftr c 3 < zlen data -> data !! Z.to_nat (Z.shiftr c 3) = Some v -> 0 <= k -> k <> c ->
  (forall i, 0 <= i -> i <> c mod 8 -> Z.testbit w i = Z.testbit v i) ->
  ext_bit (<[Z.to_nat (Z.shiftr c 3) := w]> data) k = ext_bit data k.
Proof.
  intros Hc Hl Hv Hk Hne Hw. unfold ext_bit. rewrite !shiftr3 in *.
  destruct (Z.eq_dec (k / 8) (c / 8)) as [E|E].
  - rewrite E. rewrite !nth_lookup. rewrite list_lookup_insert_eq by (unfold zlen in Hl; pose proof (Z.div_pos c 8); lia).
    rewrite Hv. cbn [from_option id]. apply Hw; [apply Z.mod_pos_bound; lia|].
    intros Em. apply Hne. rewrite (Z.div_mod k 8), (Z.div_mod c 8) by lia. rewrite E, Em. done.
  - rewrite !nth_lookup, list_lookup_insert_ne; [done|].
    pose proof (Z.div_pos c 8). pose proof (Z.div_pos k 8). lia.
Qed.

Lemma ext_byte c : 0 <= c < 80 -> 0 <= Z.shiftr c 3 < 10 /\ 0 <= c mod 8.
Proof.
  intros. rewrite shiftr3. pose proof (Z.div_pos c 8). pose proof (Z.div_lt_upper_bound c 8 10).
  pose proof (Z.mod_pos_bound c 8). lia.
Qed.

Lemma ext_cap_add_spec data len c :
  zlen data = 10 -> 0 <= c < 80 -> 0 <= len ->
  exists d1, rtw_add_ext_cap_info data len c = Ok (d1, Z.max len (c / 8 + 1)) /\ zlen d1 = 10 /\
    forall k, 0 <= k -> ext_bit d1 k = if k =? c then true else ext_bit data k.
Proof.
  intros Hd Hc Hl. destruct (ext_byte c Hc) as [Hs Hm]. rewrite <- Hd in Hs.
  destruct (rd_in data (Z.shiftr c 3) Hs) as [v Hv]. pose proof Hv as [_ Hv']%rd_Ok.
  exists (<[Z.to_nat (Z.shiftr c 3) := Z.lor v (BIT (c mod 8))]> data). split_and!.
  - unfold rtw_add_ext_cap_info. rewrite Hv. cbn [bind]. rewrite wr_in by done. cbn [bind].
    rewrite shiftr3 in *. rewrite u8_small by (unfold is_byte; lia). do 2 f_equal. cases.
  - unfold zlen in *. rewrite length_insert. done.
  - intros k Hk. destruct (Z.eqb_spec k c) as [->|Hne].
    + unfold ext_bit. rewrite nth_lookup, list_lookup_insert_eq by (unfold zlen in *; lia). cbn [from_option id].
      rewrite Z.lor_spec, testbit_BIT, Z.eqb_refl, orb_true_r by lia. done.
    + apply (ext_bit_insert _ _ v); try done; [lia..|]. intros i Hi Hni.
      rewrite Z.lor_spec, testbit_BIT by lia. replace (i =? c mod 8) with false by lia. apply orb_false_r.
Qed.

Lemma ext_cap_remove_spec data c :
  zlen data = 10 -> 0 <= c < 80 ->
  exists d2 l2, rtw_remove_ext_cap_info data c = Ok (d2, l2) /\ trimmed d2 l2 /\
    forall k, 0 <= k -> ext_bit d2 k = if k =? c then false else ext_bit data k.
Proof.
  intros Hd Hc. destruct (ext_byte c Hc) as [Hs Hm]. rewrite <- Hd in Hs.
  destruct (rd_in data (Z.shiftr c 3) Hs) as [v Hv]. pose proof Hv as [_ Hv']%rd_Ok.
  set (x := Z.land v (Z.lnot (BIT (c mod 8)))). set (d2 := <[Z.to_nat (Z.shiftr c 3) := x]> data).
  destruct (trim_turns_spec d2 10 0 0) as (l2 & Ht & Htr);
    [lia | unfold d2, zlen in *; rewrite length_insert; lia | lia | lia |].
  exists d2, l2. split_and!; [| done |].
  - unfold rtw_remove_ext_cap_info. rewrite Hv. cbn [bind]. fold x. rewrite wr_in by done. cbn [bind]. fold d2.
    change WLAN_EID_EXT_CAP_MAX_LEN with 10%nat. rewrite Ht. done.
  - intros k Hk. destruct (Z.eqb_spec k c) as [->|Hne].
    + unfold ext_bit, d2. rewrite nth_lookup, list_lookup_insert_eq by (unfold zlen in *; lia). cbn [from_option id].
      unfold x. rewrite Z.land_spec, Z.lnot_spec, testbit_BIT, Z.eqb_refl, andb_false_r by lia. done.
    + apply (ext_bit_insert _ _ v); try done; [lia..|]. intros i Hi Hni. unfold x.
      rewrite Z.land_spec, Z.lnot_spec, testbit_BIT by lia. replace (i =? c mod 8) with false by lia. apply andb_true_r.
Qed.

Definition or_with (data d : list Z) : list Z := zip_with Z.lor data d ++ drop (length d) data.

Lemma or_turns_spec b x y d : forall done rest pre,
  b = x ++ pre ++ d ++ y -> zlen done = zlen pre ->
  or_turns (done ++ rest) b (zlen x) (zlen done) (length d) =
    if zlen d <=? zlen rest then Ok (done ++ or_with rest d) else Fault OobRead.
Proof.
  induction d as [|s d IH]; intros dn rest pre Hb Hd; cbn [or_turns length].
  - pose proof (zlen_nonneg rest). change (zlen (@nil Z)) with 0. destruct (Z.leb_spec 0 (zlen rest)); [|lia].
    unfold or_with. destruct rest; done.
  - destruct rest as [|r rest].
    + rewrite app_nil_r, rd_oob by lia. cbn [bind]. rewrite zlen_cons. pose proof (zlen_nonneg d).
      change (zlen (@nil Z)) with 0. destruct (Z.leb_spec (1 + zlen d) 0); [lia | done].
    + rewrite rd_mid. cbn [bind].
      replace (rd b (zlen x + zlen dn)) with (Ok s).
      2:{ rewrite Hb, app_assoc, Hd, <- zlen_app. cbn [app]. rewrite rd_mid. done. }
      cbn [bind]. rewrite wr_mid. cbn [bind].
      replace (dn ++ Z.lor r s :: rest) with ((dn ++ [Z.lor r s]) ++ rest) by (rewrite <- app_assoc; done).
      replace (zlen dn + 1) with (zlen (dn ++ [Z.lor r s])) by (rewrite zlen_app; done).
      rewrite (IH _ _ (pre ++ [s])) by (rewrite <- ?app_assoc, ?zlen_app, ?Hd; done).
      rewrite !zlen_cons. replace (1 + zlen d <=? 1 + zlen rest) with (zlen d <=? zlen rest) by lia.
      case_match; [|done]. unfold or_with. cbn [zip_with length drop app]. rewrite <- app_assoc. done.
Qed.

Lemma parse_ext_cap_spec pre a d c post data len :
  Forall (fun x : elem => fst x <> 127) a -> zlen pre + zlen (enc (a ++ (127, d) :: c)) < 2 ^ 31 ->
  rtw_parse_ext_cap_ie data len (pre ++ enc (a ++ (127, d) :: c) ++ post)
    (zlen pre + zlen (enc (a ++ (127, d) :: c))) (zlen pre) =
    if zlen d <=? zlen data
    then Ok (if len =? 0 then (d ++ drop (length d) data, zlen d) else (or_with data d, len))
    else Fault (if len =? 0 then OobWrite else OobRead).
Proof.
  intros Ha H31. unfold rtw_parse_ext_cap_ie. pose proof (zlen_nonneg pre).
  set (es := a ++ (127, d) :: c) in *. pose proof (zlen_nonneg (enc es)).
  replace (s32 (zlen pre + zlen (enc es) - zlen pre)) with (zlen (enc es))
    by (unfold s32; rewrite Z.mod_small; lia).
  unfold WLAN_EID_EXT_CAP. rewrite rtw_get_ie_enc. cbn [bind]. unfold es. rewrite find_ie_at by done. cbn [snd].
  rewrite <- zlen_app. rewrite enc_app, <- app_assoc, (app_assoc pre).
  destruct (len =? 0).
  - pose proof (rdn_body (pre ++ enc a) (127, d) c post) as R. cbn [snd] in R.
    match goal with |- context [rdn ?l ?p ?k] => replace (rdn l p k) with (Ok d) by (symmetry; exact R) end.
    cbn [bind].
    destruct (Z.leb_spec (zlen d) (zlen data)).
    + rewrite wrn_prefix by done. done.
    + rewrite wrn_oob by lia. done.
  - unfold zlen at 2. rewrite Nat2Z.id.
    replace (zlen (pre ++ enc a) + 2) with (zlen ((pre ++ enc a) ++ [127; zlen d])) by (rewrite zlen_app; done).
    change 0 with (zlen (@nil Z)) at 1. change data with ([] ++ data) at 1.
    rewrite (or_turns_spec _ _ (enc c ++ post) d [] data []); [| | done].
    + destruct (zlen d <=? zlen data); done.
    + cbn [enc]. unfold enc1. cbn [fst snd]. rewrite <- !app_assoc. done.
Qed.

(** ** Properties *)

(** C15: When the search for a WPS attribute ends, on arbitrary bytes. It runs forever, however many turns it is given, exactly when it
    reaches a header that begins inside the element (it may straddle the element's end, so that its length field lies behind it), has another
    identifier than the one looked for, and a length field of 0xfffc: the 16-bit attribute length wraps to 0 and the attribute is its own
    successor. The headers reached are those that the length fields before them lead to, with the same wrap, so such bytes in the content of an
    attribute do no harm. In every other case the search ends (it may do so by a read behind the block), within as many turns as the element has bytes
    and one. So a received frame can
    hang the driver. *)
Theorem wps_attr_search_hangs_on_wrap b wps_ie wps_ielen target : bytes b -> 0 <= wps_ielen ->
  ((forall fuel, wps_attr_search b wps_ie wps_ielen target fuel = Fault FuelOut) <->
   exists p id, attr_reached b wps_ie wps_ielen target p /\ p - wps_ie < wps_ielen /\
     get_be16 b p = Ok id /\ id <> target /\ get_be16 b (p + 2) = Ok 0xfffc) /\
  ((exists fuel, wps_attr_search b wps_ie wps_ielen target fuel <> Fault FuelOut) ->
   wps_attr_search b wps_ie wps_ielen target (S (Z.to_nat wps_ielen)) <> Fault FuelOut).
Proof.
  intros Hb Hl. fold (attr_stuck b wps_ie wps_ielen target).
  assert (Hd := attr_search_decides b wps_ie wps_ielen target Hb (S (Z.to_nat wps_ielen)) (wps_ie + 6) (reached_first _ _ _ _) ltac:(lia)).
  fold (wps_attr_search b wps_ie wps_ielen target (S (Z.to_nat wps_ielen))) in Hd.
  split; [split; [|apply attr_stuck_loops]|].
  - intros H. destruct Hd as [Hd|Hd]; [|exact Hd]. destruct (Hd (H _)).
  - intros [fuel H]. destruct Hd as [Hd|Hd]; [exact Hd|]. destruct (H (attr_stuck_loops _ _ _ _ Hd fuel)).
Qed.

(** The second header of an element of 15 bytes has the length; an element of seven bytes with the length behind it; the same bytes in
    an attribute's content. *)
Definition ex_wps_wrap : list Z := wps_hdr 13 ++ enc_attrs [(0x104a, [0x10])] ++ be16 0x1044 ++ be16 0xfffc.
Definition ex_wps_straddle : list Z := wps_hdr 5 ++ [0x10; 0x44; 0xff; 0xfc].
Definition ex_wps_content : list Z := wps_hdr 14 ++ enc_attrs [(0x104a, [0; 0; 0xff; 0xfc]); (0x1041, [])].

Lemma wps_attr_search_hangs_on_wrap_witness :
  (forall fuel, wps_attr_search ex_wps_wrap 0 15 0x1041 fuel = Fault FuelOut) /\
  (forall fuel, wps_attr_search ex_wps_straddle 0 7 0x1041 fuel = Fault FuelOut) /\
  wps_attr_search ex_wps_content 0 18 0x1041 19 = Ok (Some (14, 4)) /\
  ~ exists p id, attr_reached ex_wps_content 0 18 0x1041 p /\ p - 0 < 18 /\ get_be16 ex_wps_content p = Ok id /\ id <> 0x1041 /\
      get_be16 ex_wps_content (p + 2) = Ok 0xfffc.
Proof.
  assert (H3 : wps_attr_search ex_wps_content 0 18 0x1041 19 = Ok (Some (14, 4))) by reflexivity.
  split; [|split; [|split; [exact H3|]]].
  - apply (wps_attr_search_hangs_on_wrap ex_wps_wrap 0 15 0x1041 ltac:(apply bytes_by_compute; reflexivity) ltac:(lia)).
    exists 11, 0x1044. split; [|split; [lia|]; split; [reflexivity|]; split; [discriminate | reflexivity]].
    apply (reached_next _ _ _ _ 6 0x104a 1); [constructor | lia | reflexivity | discriminate | reflexivity].
  - apply (wps_attr_search_hangs_on_wrap ex_wps_straddle 0 7 0x1041 ltac:(apply bytes_by_compute; reflexivity) ltac:(lia)).
    exists 6, 0x1044. split; [constructor | split; [lia|]; split; [reflexivity|]; split; [discriminate | reflexivity]].
  - intros H. apply (wps_attr_search_hangs_on_wrap ex_wps_content 0 18 0x1041 ltac:(apply bytes_by_compute; reflexivity) ltac:(lia)) with (fuel := 19%nat) in H.
    rewrite H3 in H. discriminate.
Defined.

(** Over well-formed attributes the content of the first attribute with the identifier
    is copied to the caller's buffer, cut to the capacity the caller passes, and the number of bytes copied
    is returned; nothing is written behind it. Without such an attribute the length becomes 0
    and the buffer stays as it was. *)
Theorem wps_attr_content_copied pre n xs post target buf cap
    (Hok : Forall attr_ok xs) (Hcap : 0 <= cap <= zlen buf) :
  exists r, rtw_get_wps_attr_content (pre ++ wps_hdr n ++ enc_attrs xs ++ post) (zlen pre)
              (6 + zlen (enc_attrs xs)) target (Some buf) (Some cap) = Ok r /\
    (Forall (fun a => fst a <> target) xs /\ r = (None, Some 0, Some buf) \/
     exists a d c, xs = a ++ (target, d) :: c /\ Forall (fun x => fst x <> target) a /\
       let k := Z.min cap (zlen d) in
       r = (Some (zlen pre + 6 + zlen (enc_attrs a) + 4), Some k,
            Some (take (Z.to_nat k) d ++ drop (Z.to_nat k) buf))).
Proof.
  rewrite get_wps_attr_content_spec by done. eexists. split; [done|].
  pose proof (find_attr_spec target xs (zlen pre + 6)) as Hf.
  destruct (find_attr _ _ _) as [[o d]|]; [right | left; done].
  destruct Hf as (a & c & -> & -> & Ha). exists a, d, c. done.
Qed.

Lemma wps_attr_content_copied_witness :
  exists r, rtw_get_wps_attr_content
              ([] ++ wps_hdr 20 ++ enc_attrs [(0x104a, [0x10]); (0x1041, [1; 2; 3])] ++ []) 0 18 0x1041
              (Some (zeros 4)) (Some 2) = Ok r /\
    (Forall (fun a => fst a <> 0x1041) [(0x104a, [0x10]); (0x1041, [1; 2; 3])] /\ r = (None, Some 0, Some (zeros 4)) \/
     exists a d c, [(0x104a, [0x10]); (0x1041, [1; 2; 3])] = a ++ (0x1041, d) :: c /\ Forall (fun x => fst x <> 0x1041) a /\
       let k := Z.min 2 (zlen d) in
       r = (Some (0 + 6 + zlen (enc_attrs a) + 4), Some k,
            Some (take (Z.to_nat k) d ++ drop (Z.to_nat k) (zeros 4)))).
Proof.
  apply (wps_attr_content_copied [] 20 [(0x104a, [0x10]); (0x1041, [1; 2; 3])] [] 0x1041 (zeros 4) 2).
  - repeat constructor; vm_compute; reflexivity.
  - vm_compute. split; discriminate.
Defined.

(** Adding a capability sets its bit in the ten-byte array, changes no other and makes
    the length cover it; removing it clears the bit, changes no other, and cuts the length
    to the last byte that is not 0. A capability above 79 leaves the array. *)
Theorem ext_cap_add_remove data len c (Hd : zlen data = 10) (Hc : 0 <= c < 80) (Hl : 0 <= len) :
  (exists d1 d2 l2,
     rtw_add_ext_cap_info data len c = Ok (d1, Z.max len (c / 8 + 1)) /\
     (forall k, 0 <= k -> ext_bit d1 k = if k =? c then true else ext_bit data k) /\
     rtw_remove_ext_cap_info d1 c = Ok (d2, l2) /\ trimmed d2 l2 /\
     (forall k, 0 <= k -> ext_bit d2 k = if k =? c then false else ext_bit data k)) /\
  forall c', 80 <= c' -> rtw_add_ext_cap_info data len c' = Fault OobRead.
Proof.
  split.
  2:{ intros c' Hc'. unfold rtw_add_ext_cap_info. rewrite shiftr3, rd_oob; [done|].
      pose proof (Z.div_le_mono 80 c' 8). change (80 / 8) with 10 in *. lia. }
  destruct (ext_cap_add_spec data len c) as (d1 & Ha & Hz & Hb); [done..|].
  destruct (ext_cap_remove_spec d1 c) as (d2 & l2 & Hr & Ht & Hb2); [done..|].
  exists d1, d2, l2. split_and!; [done | done | done | done|].
  intros k Hk. rewrite Hb2, Hb by done. destruct (k =? c); done.
Qed.

Lemma ext_cap_add_remove_witness :
  (exists d1 d2 l2,
     rtw_add_ext_cap_info ([4; 0; 8] ++ zeros 7) 3 62 = Ok (d1, 8) /\
     (forall k, 0 <= k -> ext_bit d1 k = if k =? 62 then true else ext_bit ([4; 0; 8] ++ zeros 7) k) /\
     rtw_remove_ext_cap_info d1 62 = Ok (d2, l2) /\ trimmed d2 l2 /\
     (forall k, 0 <= k -> ext_bit d2 k = if k =? 62 then false else ext_bit ([4; 0; 8] ++ zeros 7) k)) /\
  forall c', 80 <= c' -> rtw_add_ext_cap_info ([4; 0; 8] ++ zeros 7) 3 c' = Fault OobRead.
Proof. apply (ext_cap_add_remove ([4; 0; 8] ++ zeros 7) 3 62); [reflexivity | lia | lia]. Defined.

(** Taking over the extended capabilities of the caller's beacon replaces the stored
    bytes when none are stored and merges them bit by bit otherwise, provided the element
    is no longer than the array of the driver; a longer element is written or read past the end of
    the array, since its length is not checked. *)
Theorem ext_cap_parse_overflow_iff pre a d c post data len
    (Ha : Forall (fun x : elem => fst x <> 127) a) (H31 : zlen pre + zlen (enc (a ++ (127, d) :: c)) < 2 ^ 31) :
  rtw_parse_ext_cap_ie data len (pre ++ enc (a ++ (127, d) :: c) ++ post)
    (zlen pre + zlen (enc (a ++ (127, d) :: c))) (zlen pre) =
    if zlen d <=? zlen data
    then Ok (if len =? 0 then (d ++ drop (length d) data, zlen d) else (or_with data d, len))
    else Fault (if len =? 0 then OobWrite else OobRead).
Proof. apply parse_ext_cap_spec; done. Qed.

Lemma ext_cap_parse_overflow_iff_witness :
  rtw_parse_ext_cap_ie (zeros 10) 0 (zeros 12 ++ enc ([(0, [65])] ++ (127, zeros 11) :: []) ++ []) 28 12 = Fault OobWrite.
Proof. apply (ext_cap_parse_overflow_iff (zeros 12) [(0, [65])] (zeros 11) [] [] (zeros 10) 0); [repeat constructor; discriminate | reflexivity]. Defined.
