(* ===== verification/ElemParse.v ===== *)
(** * Parsing the elements of a management frame; the station's address

    Models [rtw_ieee802_11_parse_elems] with its vendor part, and the address routines
    [key_2char2num], [macstr2num], [rtw_check_invalid_mac_address] and [rtw_macaddr_cfg]
    of [core/rtw_ieee80211.c], built without [CONFIG_RTW_MESH],
    [CONFIG_RTW_TOKEN_BASED_XMIT] and [CONFIG_PLATFORM_INTEL_BYT]. *)
From Stdlib Require Import ZArith Lia Bool.
From stdpp Require Import base option list numbers.
From S2P Require Import Prelude Ies.
Local Open Scope Z_scope.

(** ** The parsed elements *)

(** The members of [struct rtw_ieee802_11_elems]: each is a pointer and a length. *)
(* src: include/ieee80211.h:1801-1855 struct rtw_ieee802_11_elems *)
Inductive slot : Type :=
| ssid | supp_rates | fh_params | ds_params | cf_params | tim | ibss_params | challenge
| erp_info | ext_supp_rates | wpa_ie | rsn_ie | wme | wme_tspec | wps_ie | power_cap
| supp_channels | mdie | ftie | timeout_int | ht_capabilities | ht_operation
| vendor_ht_cap | vht_capabilities | vht_operation | vht_op_mode_notify | rm_en_cap.

#[export] Instance slot_eq_dec : EqDecision slot.
Proof. solve_decision. Defined.

(** [None] is the NULL pointer with length 0 that [_rtw_memset] leaves. *)
Definition elems : Type := slot -> option (Z * Z).
Definition no_elems : elems := fun _ => None.
Definition set_slot (s : slot) (p n : Z) (e : elems) : elems :=
  fun t => if decide (t = s) then Some (p, n) else e t.

(* src: include/ieee80211.h:1872-1872 ParseRes *)
Inductive ParseRes : Type := ParseOK | ParseUnknown | ParseFailed.

Definition OUI_MICROSOFT := 0x0050f2.
Definition OUI_BROADCOM := 0x00904c.

(** [RTW_GET_BE24] *)
Definition get_be24 (b : list Z) (p : Z) : res Z :=
  x <- rd b p ;; y <- rd b (p + 1) ;; z <- rd b (p + 2) ;; Ok (x * 65536 + y * 256 + z).

(** 0, or -1 for an element that is not understood. *)
(* src: core/rtw_ieee80211.c:1526-1628 rtw_ieee802_11_parse_vendor_specific *)
Definition rtw_ieee802_11_parse_vendor_specific (b : list Z) (pos elen : Z) (e : elems) : res (Z * elems) :=
  if elen <? 4 then Ok (-1, e)
  else
    oui <- get_be24 b pos ;;
    if oui =? OUI_MICROSOFT then
      t <- rd b (pos + 3) ;;
      if t =? 1 then Ok (0, set_slot wpa_ie pos elen e)
      else if t =? 2 then
        if elen <? 5 then Ok (-1, e)
        else
          st <- rd b (pos + 4) ;;
          if (st =? 0) || (st =? 1) then Ok (0, set_slot wme pos elen e)
          else if st =? 2 then Ok (0, set_slot wme_tspec pos elen e)
          else Ok (-1, e)
      else if t =? 4 then Ok (0, set_slot wps_ie pos elen e)
      else Ok (-1, e)
    else if oui =? OUI_BROADCOM then
      t <- rd b (pos + 3) ;;
      if t =? 0x33 then Ok (0, set_slot vendor_ht_cap pos elen e) else Ok (-1, e)
    else Ok (-1, e).

(** The cases of the switch that store the element. *)
(* src: core/rtw_ieee80211.c:1665-1784 rtw_ieee802_11_parse_elems *)
Definition slot_of_id (id : Z) : option slot :=
  match id with
  | 0 => Some ssid | 1 => Some supp_rates | 2 => Some fh_params | 3 => Some ds_params
  | 4 => Some cf_params | 5 => Some tim | 6 => Some ibss_params | 16 => Some challenge
  | 42 => Some erp_info | 50 => Some ext_supp_rates | 48 => Some rsn_ie | 33 => Some power_cap
  | 36 => Some supp_channels | 54 => Some mdie | 55 => Some ftie | 56 => Some timeout_int
  | 45 => Some ht_capabilities | 61 => Some ht_operation | 191 => Some vht_capabilities
  | 192 => Some vht_operation | 199 => Some vht_op_mode_notify | 70 => Some rm_en_cap
  | _ => None
  end.

(** The state of the loop: [left] (here [rem]), [pos], [unknown] and [*elems]. *)
(* src: core/rtw_ieee80211.c:1648-1795 rtw_ieee802_11_parse_elems *)
Definition parse_turn (b : list Z) (st : Z * Z * Z * elems) : res ((Z * Z * Z * elems) + (ParseRes * elems)) :=
  let '(rem, pos, unknown, e) := st in
  if negb (2 <=? rem) then
    Ok (inr (if negb (rem =? 0) then ParseFailed
             else if negb (unknown =? 0) then ParseUnknown else ParseOK, e))
  else
    id <- rd b pos ;; elen <- rd b (pos + 1) ;;
    let pos := pos + 2 in
    let rem := rem - 2 in
    if rem <? elen then Ok (inr (ParseFailed, e))
    else
      '(unknown, e) <-
        (if id =? 221 then
           '(r, e) <- rtw_ieee802_11_parse_vendor_specific b pos elen e ;;
           Ok (if negb (r =? 0) then unknown + 1 else unknown, e)
         else match slot_of_id id with
              | Some s => Ok (unknown, set_slot s pos elen e)
              | None => Ok (unknown + 1, e)
              end) ;;
      Ok (inl (rem - elen, pos + elen, unknown, e)).

(* src: core/rtw_ieee80211.c:1638-1797 rtw_ieee802_11_parse_elems *)
Definition rtw_ieee802_11_parse_elems (b : list Z) (start len : Z) : res (ParseRes * elems) :=
  loop (parse_turn b) (S (Z.to_nat len)) (len, start, 0, no_elems).

(** ** Addresses *)

(* src: core/rtw_ieee80211.c:1799-1810 key_char2num *)
Definition key_char2num (ch : Z) : Z :=
  if (48 <=? ch) && (ch <=? 57) then ch - 48
  else if (97 <=? ch) && (ch <=? 102) then ch - 97 + 10
  else if (65 <=? ch) && (ch <=? 70) then ch - 65 + 10
  else 0xff.

(* src: core/rtw_ieee80211.c:1812-1816 str_2char2num *)
Definition str_2char2num (hch lch : Z) : Z := u8 (key_char2num hch * 10 + key_char2num lch).

(* src: core/rtw_ieee80211.c:1818-1822 key_2char2num *)
Definition key_2char2num (hch lch : Z) : Z := u8 (Z.lor (Z.shiftl (key_char2num hch) 4) (key_char2num lch)).

(* src: core/rtw_ieee80211.c:1832-1835 convert_ip_addr *)
Definition convert_ip_addr (hch mch lch : Z) : Z :=
  u8 (key_char2num hch * 100 + key_char2num mch * 10 + key_char2num lch).

(** The loop over [jj] and [kk]. *)
Fixpoint mac_turns (src : list Z) (kk : Z) (n : nat) : res (list Z) :=
  match n with
  | O => Ok []
  | S n =>
      h <- rd src kk ;; l <- rd src (kk + 1) ;;
      rest <- mac_turns src (kk + 3) n ;;
      Ok (key_2char2num h l :: rest)
  end.

(** [dst] has room for six bytes. *)
(* src: core/rtw_ieee80211.c:1824-1830 macstr2num *)
Definition macstr2num (src : list Z) : res (list Z) := mac_turns src 0 6.

(* src: core/rtw_ieee80211.c:1881-1911 rtw_check_invalid_mac_address *)
Definition rtw_check_invalid_mac_address (mac_addr : list Z) (check_local_bit : bool) : res bool :=
  null <- memcmp_eq mac_addr 0 [0; 0; 0; 0; 0; 0] ;;
  if null : bool then Ok true else
  multi <- memcmp_eq mac_addr 0 [0xff; 0xff; 0xff; 0xff; 0xff; 0xff] ;;
  if multi : bool then Ok true else
  a <- rd mac_addr 0 ;;
  if negb (Z.land a 1 =? 0) then Ok true
  else if check_local_bit && negb (Z.land a 2 =? 0) then Ok true
  else Ok false.

(** [rnd] is what [rtw_random32] returns. *)
Definition random_mac (rnd : Z) : list Z :=
  [0x00; 0xe0; 0x4c; u8 (Z.shiftr rnd 8); u8 (Z.shiftr rnd 16); u8 (Z.shiftr rnd 24)].

(* src: core/rtw_ieee80211.c:1919-1972 rtw_macaddr_cfg *)
Definition rtw_macaddr_cfg (rtw_initmac : option (list Z)) (rnd : Z) (out : option (list Z))
    (hw_mac_addr : option (list Z)) : res (option (list Z)) :=
  match out with
  | None => Ok None
  | Some out =>
      mac <- (match rtw_initmac, hw_mac_addr with
              | Some s, _ => mac_turns s 0 6
              | None, Some hw => rdn hw 0 6
              | None, None => Ok [0; 0; 0; 0; 0; 0]
              end) ;;
      bad <- rtw_check_invalid_mac_address mac true ;;
      out <- wrn out 0 (if bad : bool then random_mac rnd else mac) ;;
      Ok (Some out)
  end.

(** ** Specification of the parser *)

Definition vendor_slot (body : list Z) : option slot :=
  if is_prefix [0; 0x50; 0xf2; 1] body then Some wpa_ie
  else if is_prefix [0; 0x50; 0xf2; 2; 0] body || is_prefix [0; 0x50; 0xf2; 2; 1] body then Some wme
  else if is_prefix [0; 0x50; 0xf2; 2; 2] body then Some wme_tspec
  else if is_prefix [0; 0x50; 0xf2; 4] body then Some wps_ie
  else if is_prefix [0; 0x90; 0x4c; 0x33] body then Some vendor_ht_cap
  else None.

Definition slot_of (e : elem) : option slot :=
  if fst e =? 221 then vendor_slot (snd e) else slot_of_id (fst e).

Definition known (e : elem) : bool := match slot_of e with Some _ => true | None => false end.

(** The members after the elements [es] that start at [off]. *)
Fixpoint place (off : Z) (es : list elem) (m : elems) : elems :=
  match es with
  | [] => m
  | e :: es' =>
      place (off + zlen (enc1 e)) es'
        (match slot_of e with Some s => set_slot s (off + 2) (zlen (snd e)) m | None => m end)
  end.

(** What can be left over: nothing, one byte, or an element whose length runs over the end. *)
Definition stub (tail : list Z) : Prop :=
  match tail with [] => True | [_] => True | _ :: n :: t => zlen t < n end.

Definition verdict (es : list elem) (tail : list Z) : ParseRes :=
  match tail with
  | [] => if forallb known es then ParseOK else ParseUnknown
  | _ => ParseFailed
  end.

(** ** Lemmas *)

Lemma rd_at {A} (x : list A) body y i v :
  0 <= i -> body !! Z.to_nat i = Some v -> rd (x ++ body ++ y) (zlen x + i) = Ok v.
Proof.
  intros Hi Hv. apply rd_Ok. pose proof (zlen_nonneg x). split; [lia|].
  unfold zlen. replace (Z.to_nat (Z.of_nat (length x) + i)) with (length x + Z.to_nat i)%nat by lia.
  rewrite lookup_app_r by lia. replace (length x + Z.to_nat i - length x)%nat with (Z.to_nat i) by lia.
  apply lookup_app_l_Some. done.
Qed.

Lemma vendor_spec x body y e :
  bytes body ->
  rtw_ieee802_11_parse_vendor_specific (x ++ body ++ y) (zlen x) (zlen body) e =
    Ok (match vendor_slot body with
        | Some s => (0, set_slot s (zlen x) (zlen body) e)
        | None => (-1, e)
        end).
Proof.
  intros Hb. unfold rtw_ieee802_11_parse_vendor_specific, get_be24, vendor_slot.
  destruct body as [|b0 [|b1 [|b2 [|b3 t]]]];
    try (cbn [is_prefix]; rewrite ?andb_false_r, ?zlen_cons; change (zlen (@nil Z)) with 0;
         match goal with |- context [if ?c then _ else _] => replace c with true by (vm_compute; reflexivity) end; done).
  unfold bytes in Hb. rewrite !Forall_cons_iff in Hb. destruct Hb as (H0 & H1 & H2 & H3 & Ht).
  set (body := b0 :: b1 :: b2 :: b3 :: t).
  assert (Hl : 4 <= zlen body) by (unfold body; rewrite !zlen_cons; pose proof (zlen_nonneg t); lia).
  destruct (Z.ltb_spec (zlen body) 4); [lia|].
  rewrite <- (Z.add_0_r (zlen x)) at 1.
  rewrite (rd_at x body y 0 b0), (rd_at x body y 1 b1), (rd_at x body y 2 b2) by done. cbn [bind].
  rewrite (rd_at x body y 3 b3) by done. cbn [bind].
  assert (Hm : (b0 * 65536 + b1 * 256 + b2 =? OUI_MICROSOFT) = (b0 =? 0) && ((b1 =? 0x50) && (b2 =? 0xf2)))
    by (unfold OUI_MICROSOFT, is_byte in *; lia).
  assert (Hc : (b0 * 65536 + b1 * 256 + b2 =? OUI_BROADCOM) = (b0 =? 0) && ((b1 =? 0x90) && (b2 =? 0x4c)))
    by (unfold OUI_BROADCOM, is_byte in *; lia).
  rewrite Hm, Hc. unfold body. cbn [is_prefix].
  destruct (b0 =? 0); cbn [andb orb]; [|done].
  destruct (Z.eqb_spec b1 0x50) as [->|N1]; cbn [andb orb].
  - destruct (b2 =? 0xf2); cbn [andb orb]; [|done].
    destruct (Z.eqb_spec b3 1) as [->|N3]; cbn [andb orb]; [done|].
    destruct (Z.eqb_spec b3 2) as [->|N3']; cbn [andb orb].
    + destruct t as [|b4 t]; [done|]. cbn [is_prefix]. rewrite !andb_true_r.
      destruct (Z.ltb_spec (zlen (b0 :: 80 :: b2 :: 2 :: b4 :: t)) 5) as [Hs|Hs].
      { rewrite !zlen_cons in Hs. pose proof (zlen_nonneg t). lia. }
      fold body. rewrite (rd_at x body y 4 b4) by done. cbn [bind].
      destruct (b4 =? 0), (b4 =? 1), (b4 =? 2); done.
    + destruct (b3 =? 4); cbn [andb]; done.
  - destruct (b1 =? 0x90), (b2 =? 0x4c), (b3 =? 0x33); done.
Qed.

(** One turn on an element that is there as a whole. *)
Lemma parse_turn_spec pre e es post rem unknown m :
  elem_ok e -> 2 + zlen (snd e) <= rem ->
  parse_turn (pre ++ enc (e :: es) ++ post) (rem, zlen pre, unknown, m) =
    Ok (inl (rem - zlen (enc1 e), zlen (pre ++ enc1 e), if known e then unknown else unknown + 1,
             match slot_of e with Some s => set_slot s (zlen pre + 2) (zlen (snd e)) m | None => m end)).
Proof.
  intros (_ & Hl & Hb) Hr. pose proof (zlen_nonneg (snd e)). unfold parse_turn.
  destruct (Z.leb_spec 2 rem); [|lia]. cbn [negb]. rewrite rd_id, rd_len. cbn [bind].
  destruct (Z.ltb_spec (rem - 2) (zlen (snd e))); [lia|].
  replace (zlen (pre ++ enc1 e)) with (zlen pre + 2 + zlen (snd e)) by (rewrite zlen_app, zlen_enc1; lia).
  rewrite zlen_enc1. replace (rem - (2 + zlen (snd e))) with (rem - 2 - zlen (snd e)) by lia.
  unfold known, slot_of. destruct (fst e =? 221).
  - replace (pre ++ enc (e :: es) ++ post) with ((pre ++ [fst e; zlen (snd e)]) ++ snd e ++ (enc es ++ post))
      by (cbn [enc]; unfold enc1; rewrite <- !app_assoc; done).
    replace (zlen pre + 2) with (zlen (pre ++ [fst e; zlen (snd e)])) by (rewrite zlen_app; done).
    rewrite vendor_spec by done. cbn [bind]. destruct (vendor_slot (snd e)); done.
  - destruct (slot_of_id (fst e)); done.
Qed.

Lemma parse_stub pre tail post unknown m fuel :
  stub tail -> 0 <= unknown ->
  loop (parse_turn (pre ++ tail ++ post)) (S fuel) (zlen tail, zlen pre, unknown, m) =
    Ok (match tail with [] => if unknown =? 0 then ParseOK else ParseUnknown | _ => ParseFailed end, m).
Proof.
  intros Hs Hu. rewrite loop_S. unfold parse_turn. destruct tail as [|id [|n t]].
  - change (2 <=? zlen (@nil Z)) with false. cbn [negb]. destruct (unknown =? 0); done.
  - done.
  - rewrite !zlen_cons. pose proof (zlen_nonneg t). destruct (Z.leb_spec 2 (1 + (1 + zlen t))); [|lia]. cbn [negb app].
    rewrite rd_mid. cbn [bind].
    replace (rd _ (zlen pre + 1)) with (Ok n).
    2:{ replace (pre ++ id :: n :: t ++ post) with ((pre ++ [id]) ++ n :: t ++ post) by (rewrite <- app_assoc; done).
        replace (zlen pre + 1) with (zlen (pre ++ [id])) by (rewrite zlen_app; done). rewrite rd_mid. done. }
    cbn [bind]. unfold stub in Hs. destruct (Z.ltb_spec (1 + (1 + zlen t) - 2) n); [done | lia].
Qed.

Lemma parse_loop es : forall pre tail post unknown m fuel,
  Forall elem_ok es -> stub tail -> 0 <= unknown -> (length es < fuel)%nat ->
  loop (parse_turn (pre ++ enc es ++ tail ++ post)) fuel (zlen (enc es) + zlen tail, zlen pre, unknown, m) =
    Ok (match tail with
        | [] => if forallb known es && (unknown =? 0) then ParseOK else ParseUnknown
        | _ => ParseFailed
        end, place (zlen pre) es m).
Proof.
  induction es as [|e es IH]; intros pre tail post unknown m fuel Hok Hs Hu Hf;
    (destruct fuel as [|fuel]; [simpl in Hf; lia|]).
  - change (zlen (enc [])) with 0. rewrite Z.add_0_l. change (enc [] ++ tail ++ post) with (tail ++ post).
    rewrite parse_stub by done. destruct tail; done.
  - apply Forall_cons_iff in Hok as [He Hok]. rewrite loop_S.
    pose proof (zlen_nonneg (enc es)). pose proof (zlen_nonneg tail). pose proof (zlen_nonneg (snd e)).
    rewrite zlen_enc_cons, parse_turn_spec by (done || lia). rewrite enc_shift.
    replace (2 + zlen (snd e) + zlen (enc es) + zlen tail - zlen (enc1 e)) with (zlen (enc es) + zlen tail)
      by (rewrite zlen_enc1; lia).
    rewrite IH; [| done | done | destruct (known e); lia | simpl in Hf; lia].
    cbn [place forallb]. rewrite zlen_app. destruct tail; [|done].
    destruct (known e) eqn:K; cbn [andb]; [done|]. replace (unknown + 1 =? 0) with false by lia.
    rewrite andb_false_r. done.
Qed.

(** Any bytes are a sequence of elements and a rest. *)
Lemma elements_of n : forall l, (length l <= n)%nat -> bytes l ->
  exists es tail, l = enc es ++ tail /\ Forall elem_ok es /\ stub tail.
Proof.
  induction n as [|n IH]; intros l Hn Hb.
  { destruct l; [|simpl in Hn; lia]. exists [], []. done. }
  destruct l as [|id [|k t]]; [exists [], []; done | exists [], [id]; done|].
  unfold bytes in Hb. rewrite !Forall_cons_iff in Hb. destruct Hb as (Hid & Hk & Ht).
  destruct (Z.ltb_spec (zlen t) k) as [Hlt|Hge]; [exists [], (id :: k :: t); done|].
  unfold is_byte in Hk.
  destruct (IH (drop (Z.to_nat k) t)) as (es & tail & Ht' & Hok & Hs).
  { rewrite length_drop. simpl in Hn. lia. }
  { apply Forall_drop. done. }
  assert (Hz : zlen (take (Z.to_nat k) t) = k) by (unfold zlen in *; rewrite length_take; lia).
  exists ((id, take (Z.to_nat k) t) :: es), tail. split_and!; [| |done].
  - cbn [enc]. unfold enc1. cbn [fst snd]. rewrite Hz, <- app_assoc, <- Ht'. cbn [app]. rewrite take_drop. done.
  - constructor; [|done]. unfold elem_ok. cbn [fst snd]. rewrite Hz. split_and!; [done | lia | apply Forall_take; done].
Qed.

(** A member designates the last element of its kind. *)
Lemma place_spec s es : forall off m,
  match place off es m s with
  | Some (p, n) =>
      (exists a e c, es = a ++ e :: c /\ slot_of e = Some s /\ Forall (fun x => slot_of x <> Some s) c /\
         p = off + zlen (enc a) + 2 /\ n = zlen (snd e)) \/
      (m s = Some (p, n) /\ Forall (fun x => slot_of x <> Some s) es)
  | None => m s = None /\ Forall (fun x => slot_of x <> Some s) es
  end.
Proof.
  induction es as [|e es IH]; intros off m; cbn [place].
  { destruct (m s) as [[p n]|]; [right|]; done. }
  set (m' := match slot_of e with Some _ => _ | None => _ end).
  specialize (IH (off + zlen (enc1 e)) m').
  destruct (decide (slot_of e = Some s)) as [He|He].
  - assert (Hm : m' s = Some (off + 2, zlen (snd e))).
    { unfold m'. rewrite He. unfold set_slot. rewrite decide_True by done. done. }
    destruct (place _ es m' s) as [[p n]|]; [|rewrite Hm in IH; destruct IH; done].
    left. destruct IH as [(a & d & c & -> & Hd & Hc & -> & ->)|[Hp Hc]].
    + exists (e :: a), d, c. split_and!; try done. cbn [enc]. rewrite zlen_app. lia.
    + rewrite Hm in Hp. injection Hp as <- <-. exists [], e, es. split_and!; try done.
      change (zlen (enc [])) with 0. lia.
  - assert (Hm : m' s = m s).
    { unfold m'. destruct (slot_of e) as [t|]; [|done]. unfold set_slot. rewrite decide_False by congruence. done. }
    destruct (place _ es m' s) as [[p n]|].
    + destruct IH as [(a & d & c & -> & Hd & Hc & -> & ->)|[Hp Hc]].
      * left. exists (e :: a), d, c. split_and!; try done. cbn [enc]. rewrite zlen_app. lia.
      * right. rewrite <- Hm. split; [done|]. by constructor.
    + destruct IH as [Hp Hc]. rewrite <- Hm. split; [done|]. by constructor.
Qed.

(** ** The address *)

Lemma key_char2num_range c : 0 <= key_char2num c < 256.
Proof. unfold key_char2num. cases. Qed.

Lemma mac_turns_in src n : forall kk,
  0 <= kk -> kk + 3 * Z.of_nat n <= zlen src + 1 ->
  exists mac, mac_turns src kk n = Ok mac /\ length mac = n /\ bytes mac.
Proof.
  induction n as [|n IH]; intros kk Hk Hn; cbn [mac_turns]; [exists []; split_and!; [done | done | constructor]|].
  destruct (rd_in src kk) as [h Hh]; [lia|]. destruct (rd_in src (kk + 1)) as [l Hl]; [lia|].
  rewrite Hh, Hl. cbn [bind]. destruct (IH (kk + 3)) as (mac & -> & Hm & Hb); [lia | lia|].
  eexists. split; [done|]. cbn [length]. split; [lia|]. constructor; [apply u8_range | done].
Qed.

Lemma mac_turns_short src n : forall kk,
  0 <= kk -> zlen src + 1 < kk + 3 * Z.of_nat (S n) -> mac_turns src kk (S n) = Fault OobRead.
Proof.
  induction n as [|n IH]; intros kk Hk Hn; cbn [mac_turns];
    (destruct (rd_cases src kk) as [[h ->]| ->]; [cbn [bind] | done]).
  - rewrite rd_oob by lia. done.
  - destruct (rd_cases src (kk + 1)) as [[l ->]| ->]; [cbn [bind] | done].
    pose proof (IH (kk + 3)) as R. cbn [mac_turns] in R. rewrite R by lia. done.
Qed.

(** The check on six bytes, as a function of them. *)
Definition bad_mac (mac : list Z) : bool :=
  list_eqb mac [0; 0; 0; 0; 0; 0] || list_eqb mac [0xff; 0xff; 0xff; 0xff; 0xff; 0xff] ||
  match mac with a :: _ => negb (Z.land a 3 =? 0) | [] => false end.

Lemma land3 a : (Z.land a 3 =? 0) = (Z.land a 1 =? 0) && (Z.land a 2 =? 0).
Proof.
  change 3 with (Z.lor 1 2). rewrite Z.land_lor_distr_r.
  destruct (Z.eqb_spec (Z.lor (Z.land a 1) (Z.land a 2)) 0) as [E|E].
  - apply Z.lor_eq_0_iff in E as [-> ->]. done.
  - symmetry. apply andb_false_iff. rewrite !Z.eqb_neq.
    destruct (Z.eq_dec (Z.land a 1) 0) as [H1|]; [|tauto]. right. intros H2. apply E. rewrite H1, H2. done.
Qed.

Lemma check_mac_spec mac :
  length mac = 6%nat -> rtw_check_invalid_mac_address mac true = Ok (bad_mac mac).
Proof.
  intros H. unfold rtw_check_invalid_mac_address, memcmp_eq. change (drop (Z.to_nat 0) mac) with mac.
  assert (Hp : forall pat, length pat = 6%nat -> is_prefix pat mac = list_eqb mac pat).
  { intros pat Hp. unfold list_eqb. destruct (is_prefix pat mac) eqn:E; symmetry.
    - apply is_prefix_spec in E as [t ->]. rewrite length_app in H. destruct t; [|simpl in H; lia].
      rewrite app_nil_r. apply bool_decide_eq_true. done.
    - apply bool_decide_eq_false. intros ->. rewrite <- (app_nil_r pat) in E at 2. rewrite is_prefix_app in E. done. }
  rewrite !memcmp_l_long by (rewrite H; done). rewrite !Hp by done. cbn [bind]. unfold bad_mac.
  destruct (list_eqb mac [0; _; _; _; _; _]); [done|]. destruct (list_eqb mac [0xff; _; _; _; _; _]); [done|].
  destruct mac as [|a mac]; [done|]. change (rd (a :: mac) 0) with (Ok a). cbn [bind orb andb]. rewrite land3.
  destruct (Z.land a 1 =? 0), (Z.land a 2 =? 0); done.
Qed.

(** ** Properties *)

(** C12: On arbitrary bytes the parser ends without leaving them. The bytes are a sequence of
    whole elements and a rest; the parser fails exactly when there is a rest, answers
    that something was unknown exactly when some element is not understood, and every member
    of the result designates the body of the last element of its kind, or is NULL
    when there is none. *)
Theorem parse_elems_designates_last pre l post (Hb : bytes l) :
  exists es tail m,
    l = enc es ++ tail /\ Forall elem_ok es /\ stub tail /\
    rtw_ieee802_11_parse_elems (pre ++ l ++ post) (zlen pre) (zlen l) = Ok (verdict es tail, m) /\
    forall s,
      match m s with
      | Some (p, n) =>
          exists a e c, es = a ++ e :: c /\ slot_of e = Some s /\ Forall (fun x => slot_of x <> Some s) c /\
            p = zlen pre + zlen (enc a) + 2 /\ n = zlen (snd e)
      | None => Forall (fun x => slot_of x <> Some s) es
      end.
Proof.
  destruct (elements_of _ l (le_n _) Hb) as (es & tail & -> & Hok & Hs).
  exists es, tail, (place (zlen pre) es no_elems). split_and!; [done..| |].
  - unfold rtw_ieee802_11_parse_elems. rewrite <- app_assoc, zlen_app, parse_loop; [| done | done | lia |].
    + unfold verdict. destruct tail; [|done]. rewrite andb_true_r. done.
    + unfold zlen. clear. assert (length es <= length (enc es))%nat; [|lia].
      induction es as [|e es IH]; [done|]. cbn [enc]. rewrite length_app. cbn [enc1 length]. lia.
  - intros s. pose proof (place_spec s es (zlen pre) no_elems) as P.
    destruct (place _ es no_elems s) as [[p n]|]; [|apply P]. destruct P as [P|[P _]]; [done | discriminate].
Qed.

(** SSID, an unknown element, a WMM parameter element, another SSID, a truncated element. *)
Definition frame_sample : list Z :=
  [0; 1; 65; 99; 0; 221; 6; 0; 0x50; 0xf2; 2; 1; 1; 0; 2; 66; 67; 48; 9; 1].

Lemma parse_elems_designates_last_witness :
  exists es tail m,
    frame_sample = enc es ++ tail /\ Forall elem_ok es /\ stub tail /\
    rtw_ieee802_11_parse_elems ([] ++ frame_sample ++ [7]) 0 20 = Ok (verdict es tail, m) /\
    forall s,
      match m s with
      | Some (p, n) =>
          exists a e c, es = a ++ e :: c /\ slot_of e = Some s /\ Forall (fun x => slot_of x <> Some s) c /\
            p = zlen (@nil Z) + zlen (enc a) + 2 /\ n = zlen (snd e)
      | None => Forall (fun x => slot_of x <> Some s) es
      end.
Proof. apply (parse_elems_designates_last [] frame_sample [7]). apply bytes_by_compute. reflexivity. Defined.

(** Whatever the module parameter, the efuse and the random number say, the address the
    driver installs is six bytes that pass its own check: not null, not broadcast, not a group
    address, not locally administered. It is the requested one when that passes, and a random one
    under the vendor prefix otherwise. A parameter shorter than 16 characters
    and its terminator is read past its end. *)
Theorem macaddr_cfg_always_valid (initmac hw : option (list Z)) rnd out
    (Hi : forall s, initmac = Some s -> 17 <= zlen s) (Hh : forall h, hw = Some h -> zlen h = 6)
    (Ho : zlen out = 6) :
  (exists mac want,
     rtw_macaddr_cfg initmac rnd (Some out) hw = Ok (Some mac) /\ zlen mac = 6 /\
     rtw_check_invalid_mac_address mac true = Ok false /\
     match initmac, hw with
     | Some s, _ => macstr2num s = Ok want
     | None, Some h => want = h
     | None, None => want = [0; 0; 0; 0; 0; 0]
     end /\
     mac = if bad_mac want then random_mac rnd else want) /\
  forall s, zlen s < 17 -> rtw_macaddr_cfg (Some s) rnd (Some out) hw = Fault OobRead.
Proof.
  split.
  2:{ intros s Hs. unfold rtw_macaddr_cfg. rewrite mac_turns_short by lia. done. }
  assert (Hw : exists want, (match initmac, hw with
              | Some s, _ => mac_turns s 0 6
              | None, Some hw => rdn hw 0 6
              | None, None => Ok [0; 0; 0; 0; 0; 0]
              end) = Ok want /\ length want = 6%nat /\
             match initmac, hw with
             | Some s, _ => macstr2num s = Ok want
             | None, Some h => want = h
             | None, None => want = [0; 0; 0; 0; 0; 0]
             end).
  { destruct initmac as [s|].
    - destruct (mac_turns_in s 6 0) as (mac & Hm & Hlen & _); [lia | specialize (Hi s eq_refl); lia|].
      exists mac. done.
    - destruct hw as [h|]; [|eexists; done]. specialize (Hh h eq_refl). exists h.
      split_and!; [| unfold zlen in Hh; lia | done].
      rewrite <- (app_nil_r h) at 1. apply rdn_prefix. done. }
  destruct Hw as (want & E & Hl & Hm). unfold rtw_macaddr_cfg. rewrite E. cbn [bind].
  rewrite check_mac_spec by done. cbn [bind].
  set (mac := if bad_mac want then random_mac rnd else want).
  assert (Hmac : length mac = 6%nat) by (unfold mac; destruct (bad_mac want); done).
  exists mac, want. rewrite wrn_prefix by (unfold zlen in *; lia). cbn [bind]. split_and!.
  - rewrite drop_ge, app_nil_r by (unfold zlen in Ho; lia). done.
  - unfold zlen. lia.
  - rewrite check_mac_spec by done. f_equal. unfold mac. destruct (bad_mac want) eqn:B; done.
  - done.
  - done.
Qed.

(** "02:11:22:33:44:55" is locally administered. *)
Definition local_mac : list Z := [48; 50; 58; 49; 49; 58; 50; 50; 58; 51; 51; 58; 52; 52; 58; 53; 53; 0].

Lemma macaddr_cfg_always_valid_witness :
  (exists mac want,
     rtw_macaddr_cfg (Some local_mac) 0x01020304 (Some (zeros 6)) None = Ok (Some mac) /\ zlen mac = 6 /\
     rtw_check_invalid_mac_address mac true = Ok false /\ macstr2num local_mac = Ok want /\
     mac = if bad_mac want then random_mac 0x01020304 else want) /\
  forall s, zlen s < 17 -> rtw_macaddr_cfg (Some s) 0x01020304 (Some (zeros 6)) None = Fault OobRead.
Proof.
  apply (macaddr_cfg_always_valid (Some local_mac) None 0x01020304 (zeros 6));
    [intros s [= <-]; vm_compute; discriminate | discriminate | reflexivity].
Defined.
