(* ===== verification/Reorder.v ===== *)
(** * The receive reordering window

    Models the A-MPDU reordering of [core/rtw_recv.c]: [check_indicate_seq],
    [enqueue_reorder_recvframe], [recv_indicatepkts_in_order], [recv_indicatepkt_reorder]
    and [rtw_reordering_ctrl_timeout_handler]. The queue is a list, its lock is held
    across each operation, and the frames handed to [recv_process_mpdu] are collected in
    the order of the calls. *)
From Stdlib Require Import ZArith Lia Bool Sorted.
From stdpp Require Import base option list numbers.
From S2P Require Import Prelude.
Local Open Scope Z_scope.

(** ** State *)

(** The members of a frame the window looks at; [tag] stands for the rest of it. *)
Record frame : Type := mkFrame { qos : bool; seq_num : Z; tag : Z }.

(** The counters of [struct recv_priv] that the window keeps. *)
Record counters : Type := mkCnt {
  rx_drop : Z;
  dbg_rx_drop_count : Z;
  dbg_rx_ampdu_drop_count : Z;
  dbg_rx_ampdu_forced_indicate_count : Z;
  dbg_rx_ampdu_loss_count : Z;
  dbg_rx_ampdu_window_shift_cnt : Z;
}.

(** [rec_abba_rsp_ack] is its two bits; [timer_set] tells whether
    [reordering_ctrl_timer] is running. *)
(* src: include/rtw_recv.h:84-96 struct recv_reorder_ctrl *)
Record recv_reorder_ctrl : Type := mkCtrl {
  enable : bool;
  indicate_seq : Z;
  wsize_b : Z;
  pending : list frame;
  bReorderWaiting : bool;
  ack_or_timeout : bool;
  reorder_wow : bool;
  timer_set : bool;
  cnt : counters;
}.

Definition set_seq s c := mkCtrl (enable c) s (wsize_b c) (pending c) (bReorderWaiting c) (ack_or_timeout c) (reorder_wow c) (timer_set c) (cnt c).
Definition set_pending l c := mkCtrl (enable c) (indicate_seq c) (wsize_b c) l (bReorderWaiting c) (ack_or_timeout c) (reorder_wow c) (timer_set c) (cnt c).
Definition set_waiting w c := mkCtrl (enable c) (indicate_seq c) (wsize_b c) (pending c) w (ack_or_timeout c) (reorder_wow c) (timer_set c) (cnt c).
Definition set_timer t c := mkCtrl (enable c) (indicate_seq c) (wsize_b c) (pending c) (bReorderWaiting c) (ack_or_timeout c) (reorder_wow c) t (cnt c).
Definition clear_acks c := mkCtrl (enable c) (indicate_seq c) (wsize_b c) (pending c) (bReorderWaiting c) false false (timer_set c) (cnt c).
Definition set_cnt n c := mkCtrl (enable c) (indicate_seq c) (wsize_b c) (pending c) (bReorderWaiting c) (ack_or_timeout c) (reorder_wow c) (timer_set c) n.

Definition count_shift n := mkCnt (rx_drop n) (dbg_rx_drop_count n) (dbg_rx_ampdu_drop_count n) (dbg_rx_ampdu_forced_indicate_count n) (dbg_rx_ampdu_loss_count n) (u64 (dbg_rx_ampdu_window_shift_cnt n + 1)).
Definition count_ampdu_drop n := mkCnt (rx_drop n) (dbg_rx_drop_count n) (u64 (dbg_rx_ampdu_drop_count n + 1)) (dbg_rx_ampdu_forced_indicate_count n) (dbg_rx_ampdu_loss_count n) (dbg_rx_ampdu_window_shift_cnt n).
Definition count_forced n := mkCnt (rx_drop n) (dbg_rx_drop_count n) (dbg_rx_ampdu_drop_count n) (u64 (dbg_rx_ampdu_forced_indicate_count n + 1)) (dbg_rx_ampdu_loss_count n) (dbg_rx_ampdu_window_shift_cnt n).
Definition count_failed k n := mkCnt (rx_drop n) (u64 (dbg_rx_drop_count n + k)) (dbg_rx_ampdu_drop_count n) (dbg_rx_ampdu_forced_indicate_count n) (dbg_rx_ampdu_loss_count n) (dbg_rx_ampdu_window_shift_cnt n).

(** ** Operations *)

(* src: include/rtw_recv.h:223-223 SN_LESS *)
Definition SN_LESS (a b : Z) : bool := negb (Z.land (a - b) 0x800 =? 0).
(* src: include/rtw_recv.h:224-224 SN_EQUAL *)
Definition SN_EQUAL (a b : Z) : bool := a =? b.

(* src: core/rtw_recv.c:3441-3494 check_indicate_seq *)
Definition check_indicate_seq (c : recv_reorder_ctrl) (seq : Z) : bool * recv_reorder_ctrl :=
  let wsize := wsize_b c in
  let c := if indicate_seq c =? 0xFFFF then set_seq seq c else c in
  let wend := Z.land (indicate_seq c + wsize - 1) 0xFFF in
  if SN_LESS seq (indicate_seq c) then (false, c)
  else if SN_EQUAL seq (indicate_seq c) then
    (true, set_seq (Z.land (indicate_seq c + 1) 0xFFF) c)
  else if SN_LESS wend seq then
    (true, set_cnt (count_shift (cnt c))
             (set_seq (u16 (if wsize - 1 <=? seq then seq + 1 - wsize else 0xFFF - (wsize - (seq + 1)) + 1)) c))
  else (true, c).

(** [None] when a frame with the same number is queued. *)
(* src: core/rtw_recv.c:3496-3546 enqueue_reorder_recvframe *)
Fixpoint enqueue_reorder_recvframe (l : list frame) (f : frame) : option (list frame) :=
  match l with
  | [] => Some [f]
  | g :: l' =>
      if SN_LESS (seq_num g) (seq_num f) then option_map (cons g) (enqueue_reorder_recvframe l' f)
      else if SN_EQUAL (seq_num g) (seq_num f) then None
      else Some (f :: l)
  end.

(* src: core/rtw_recv.c:3548-3559 recv_indicatepkts_pkt_loss_cnt *)
Definition recv_indicatepkts_pkt_loss_cnt (n : counters) (prev_seq current_seq : Z) : counters :=
  let d := if current_seq <? prev_seq then 4096 + current_seq - prev_seq else current_seq - prev_seq in
  mkCnt (u64 (rx_drop n + d)) (dbg_rx_drop_count n) (dbg_rx_ampdu_drop_count n)
    (dbg_rx_ampdu_forced_indicate_count n) (u64 (dbg_rx_ampdu_loss_count n + d)) (dbg_rx_ampdu_window_shift_cnt n).

(** The loop: the frames handed on, [indicate_seq] and the queue afterwards. *)
(* src: core/rtw_recv.c:3608-3671 recv_indicatepkts_in_order *)
Fixpoint indicate_loop (ind : Z) (l : list frame) : list frame * Z * list frame :=
  match l with
  | [] => ([], ind, [])
  | f :: l' =>
      if negb (SN_LESS ind (seq_num f)) then
        let ind := if SN_EQUAL ind (seq_num f) then Z.land (ind + 1) 0xFFF else ind in
        let '(out, ind, rest) := indicate_loop ind l' in
        (f :: out, ind, rest)
      else ([], ind, l)
  end.

Section Reorder.
  (** Whether [recv_process_mpdu] succeeds on a frame. *)
  Context (recv_process_mpdu : frame -> bool).

(** The result is [bPktInBuf]: a frame is left in the queue. *)
(* src: core/rtw_recv.c:3561-3693 recv_indicatepkts_in_order *)
Definition recv_indicatepkts_in_order (c : recv_reorder_ctrl) (bforced : bool)
    : bool * recv_reorder_ctrl * list frame :=
  let c := if bforced then set_cnt (count_forced (cnt c)) c else c in
  match bforced, pending c with
  | true, [] => (true, c, [])
  | _, _ =>
      let c := match bforced, pending c with
               | true, f :: _ =>
                   set_seq (seq_num f)
                     (set_cnt (recv_indicatepkts_pkt_loss_cnt (cnt c) (indicate_seq c) (seq_num f)) c)
               | _, _ => c
               end in
      let '(out, ind, rest) := indicate_loop (indicate_seq c) (pending c) in
      let failed := zlen (filter (fun f => recv_process_mpdu f = false) out) in
      (match rest with [] => false | _ => true end,
       set_cnt (count_failed failed (cnt c)) (set_pending rest (set_seq ind c)), out)
  end.

Definition _FAIL := 0.
Definition _SUCCESS := 1.
Definition RTW_RX_HANDLED := 2.

(** [None] is a NULL [preorder_ctrl]. *)
(* src: core/rtw_recv.c:3695-3799 recv_indicatepkt_reorder *)
Definition recv_indicatepkt_reorder (oc : option recv_reorder_ctrl) (f : frame)
    : Z * option recv_reorder_ctrl * list frame :=
  match oc with
  | None => (_SUCCESS, None, [])
  | Some c =>
      if negb (qos f) || negb (enable c) then (_SUCCESS, Some c, [])
      else
        let c := clear_acks (if ack_or_timeout c || reorder_wow c then set_seq 0xFFFF c else c) in
        let '(ok, c) := check_indicate_seq c (seq_num f) in
        if negb ok then (_FAIL, Some (set_cnt (count_ampdu_drop (cnt c)) c), [])
        else
          match enqueue_reorder_recvframe (pending c) f with
          | None => (_FAIL, Some c, [])
          | Some l =>
              let '(more, c, out) := recv_indicatepkts_in_order (set_pending l c) false in
              let c := if more : bool then
                         if negb (bReorderWaiting c) then set_timer true (set_waiting true c) else c
                       else set_timer false (set_waiting false c) in
              (RTW_RX_HANDLED, Some c, out)
          end
  end.

(** The timer has run out: it is no longer set when the handler runs. [cannot_run] is
    [RTW_CANNOT_RUN]. *)
(* src: core/rtw_recv.c:3802-3830 rtw_reordering_ctrl_timeout_handler *)
Definition rtw_reordering_ctrl_timeout_handler (cannot_run : bool) (oc : option recv_reorder_ctrl)
    : option recv_reorder_ctrl * list frame :=
  match oc with
  | None => (None, [])
  | Some c =>
      let c := set_timer false c in
      if cannot_run then (Some c, [])
      else
        let '(more, c, out) := recv_indicatepkts_in_order (set_waiting false c) true in
        (Some (if more : bool then set_timer true c else c), out)
  end.
End Reorder.

(** ** Specification: unbounded sequence numbers

    The abstract receiver numbers frames without wrapping. [base] is the number the window
    starts at. A concrete frame stands for the number of its residue class that is
    nearest to [base]. *)

Definition num_at (base : Z) (f : frame) : Z := base - 2048 + (seq_num f - (base - 2048)) mod 4096.

(** Hands on what lies below the window and what continues it. *)
Fixpoint flush (base : Z) (ns : list Z) : list Z * Z * list Z :=
  match ns with
  | [] => ([], base, [])
  | n :: ns' =>
      if n <=? base then
        let '(out, base, rest) := flush (if n =? base then base + 1 else base) ns' in
        (n :: out, base, rest)
      else ([], base, ns)
  end.

Fixpoint insert_num (n : Z) (ns : list Z) : list Z :=
  match ns with
  | [] => [n]
  | m :: ns' => if m <? n then m :: insert_num n ns' else n :: ns
  end.

(** The start of the window after the arrival of [n]. *)
Definition window_start (w base n : Z) : Z := if n =? base then base + 1 else Z.max base (n + 1 - w).

(** [None]: the frame is old or a duplicate. *)
Definition receive (w base : Z) (ns : list Z) (n : Z) : option (list Z * Z * list Z) :=
  if (n <? base) || bool_decide (n ∈ ns) then None
  else Some (flush (window_start w base n) (insert_num n ns)).

Definition time_out (base : Z) (ns : list Z) : list Z * Z * list Z :=
  match ns with [] => ([], base, []) | n :: _ => flush n ns end.

(** The controller is in session, its window starts at [base], and its queue holds frames
    of the window after [base], in order, with a timer running for them. *)
Definition window_ok (base : Z) (c : recv_reorder_ctrl) : Prop :=
  enable c = true /\ ack_or_timeout c = false /\ reorder_wow c = false /\
  1 <= wsize_b c < 256 /\ indicate_seq c = base mod 4096 /\
  Forall (fun f => 0 <= seq_num f < 4096) (pending c) /\
  StronglySorted Z.lt (map (num_at base) (pending c)) /\
  Forall (fun n => base < n < base + wsize_b c) (map (num_at base) (pending c)) /\
  (bReorderWaiting c = true \/ pending c <> [] -> timer_set c = true).

(** ** Lemmas: modular comparison *)

Lemma land_bit11 x : (Z.land x 0x800 =? 0) = (x mod 4096 <? 2048).
Proof.
  assert (H : Z.testbit x 11 = negb (x mod 4096 <? 2048)).
  { apply Bool.eq_true_iff_eq. rewrite negb_true_iff.
    pose proof (Z.testbit_spec' x 11 ltac:(lia)) as S. change (2 ^ 11) with 2048 in S.
    pose proof (Z.div_mod x 4096). pose proof (Z.mod_pos_bound x 4096). pose proof (Z.div_mod x 2048).
    pose proof (Z.mod_pos_bound x 2048). pose proof (Z.div_mod (x / 2048) 2). pose proof (Z.mod_pos_bound (x / 2048) 2).
    destruct (Z.testbit x 11); cbn [Z.b2z] in S; lia. }
  destruct (Z.ltb_spec (x mod 4096) 2048) as [Hlt|Hge]; cbn [negb] in H.
  - apply Z.eqb_eq. apply Z.bits_inj'. intros k Hk. rewrite Z.bits_0, Z.land_spec.
    change 0x800 with (2 ^ 11). rewrite Z.pow2_bits_eqb by lia.
    destruct (Z.eqb_spec 11 k) as [<-|]; [rewrite H; done | apply andb_false_r].
  - apply Z.eqb_neq. intros E. assert (T : Z.testbit (Z.land x 0x800) 11 = true).
    { rewrite Z.land_spec, H. done. }
    rewrite E in T. done.
Qed.

(** Two residues compare like numbers less than half the space apart. *)
Lemma SN_LESS_num a b : -2048 <= a - b < 2048 -> SN_LESS (a mod 4096) (b mod 4096) = (a <? b).
Proof.
  intros H. unfold SN_LESS. rewrite land_bit11, <- Zminus_mod.
  destruct (Z.ltb_spec a b).
  - replace (a - b) with (a - b + 4096 + (-1) * 4096) by lia. rewrite Z.mod_add, Z.mod_small by lia. lia.
  - rewrite Z.mod_small by lia. lia.
Qed.

Lemma SN_EQUAL_num a b : -2048 <= a - b < 2048 -> SN_EQUAL (a mod 4096) (b mod 4096) = (a =? b).
Proof.
  intros H. unfold SN_EQUAL. destruct (Z.eqb_spec a b) as [->|N]; [apply Z.eqb_refl|].
  apply Z.eqb_neq. intros E. pose proof (Z.div_mod a 4096). pose proof (Z.div_mod b 4096).
  assert (a / 4096 - b / 4096 = 0 \/ a / 4096 - b / 4096 <> 0) by lia. lia.
Qed.

Lemma next_num a : Z.land (a mod 4096 + 1) 0xFFF = (a + 1) mod 4096.
Proof.
  change 0xFFF with (Z.ones 12). rewrite Z.land_ones by lia. change (2 ^ 12) with 4096.
  rewrite Zplus_mod_idemp_l. done.
Qed.

Lemma num_at_spec base f :
  0 <= seq_num f < 4096 -> -2048 <= num_at base f - base < 2048 /\ seq_num f = num_at base f mod 4096.
Proof.
  intros H. unfold num_at. pose proof (Z.mod_pos_bound (seq_num f - (base - 2048)) 4096). split; [lia|].
  rewrite Zplus_mod_idemp_r. replace (base - 2048 + (seq_num f - (base - 2048))) with (seq_num f) by lia.
  rewrite Z.mod_small by lia. done.
Qed.

Lemma num_at_unique base f n :
  seq_num f = n mod 4096 -> -2048 <= n - base < 2048 -> num_at base f = n.
Proof.
  intros H Hn. unfold num_at. rewrite H, Zminus_mod_idemp_l.
  rewrite (Z.mod_small (n - (base - 2048))) by lia. lia.
Qed.

(** Moving the reference does not change a number near both. *)
Lemma num_at_move base base' f :
  0 <= seq_num f < 4096 -> -2048 <= num_at base f - base' < 2048 -> num_at base' f = num_at base f.
Proof. intros Hf H. apply num_at_unique; [apply num_at_spec; done | lia]. Qed.

(** ** Lemmas: the abstract receiver *)

Lemma flush_app ns : forall base, match flush base ns with (out, _, rest) => ns = out ++ rest end.
Proof.
  induction ns as [|n ns IH]; intros base; cbn [flush]; [done|].
  destruct (n <=? base); [|done]. specialize (IH (if n =? base then base + 1 else base)).
  destruct (flush _ ns) as [[out b] rest]. cbn [app]. congruence.
Qed.

(** On a sorted queue: what is handed on lies below the new start, what stays above it. *)
Lemma flush_spec ns : forall base,
  StronglySorted Z.lt ns ->
  match flush base ns with
  | (out, base', rest) =>
      base <= base' /\ Forall (fun n => n < base') out /\ Forall (fun n => base' < n) rest /\
      (forall hi, base <= hi + 1 -> Forall (fun n => n <= hi) ns -> base' <= hi + 1)
  end.
Proof.
  induction ns as [|n ns IH]; intros base Hs; cbn [flush]; [done|].
  apply StronglySorted_inv in Hs as [Hs Hn].
  destruct (Z.leb_spec n base) as [Hle|Hgt].
  - specialize (IH (if n =? base then base + 1 else base) Hs). destruct (flush _ ns) as [[out b] rest].
    destruct IH as (Hb & Ho & Hr & Hhi). destruct (Z.eqb_spec n base) as [->|]; (split_and!;
      [lia | constructor; [lia | done] | done |
       intros hi Hh Hall; apply Forall_cons_iff in Hall as [Hn' Hall]; apply Hhi; [lia | done]]).
  - split_and!; [lia | done | | lia]. constructor; [done|].
    eapply List.Forall_impl; [|exact Hn]; cbn; lia.
Qed.

Lemma insert_num_sorted n ns :
  StronglySorted Z.lt ns -> n ∉ ns -> StronglySorted Z.lt (insert_num n ns) /\
  forall P : Z -> Prop, P n -> Forall P ns -> Forall P (insert_num n ns).
Proof.
  induction ns as [|m ns IH]; intros Hs Hn; cbn [insert_num].
  - split; [repeat constructor | intros P H1 H2; constructor; done].
  - apply StronglySorted_inv in Hs as [Hs Hm]. rewrite not_elem_of_cons in Hn. destruct Hn as [Hne Hn].
    destruct (Z.ltb_spec m n) as [Hlt|Hge].
    + destruct (IH Hs Hn) as [Hs' HP]. split.
      * constructor; [done|]. apply HP; done.
      * intros P H1 H2. apply Forall_cons_iff in H2 as [H2 H3]. constructor; [done | apply HP; done].
    + split.
      * constructor; [constructor; done|]. constructor; [lia|]. eapply List.Forall_impl; [|exact Hm]; cbn; lia.
      * intros P H1 H2. constructor; done.
Qed.

(** ** Lemmas: the queue against the abstract one *)

Definition valid (f : frame) : Prop := 0 <= seq_num f < 4096.

Lemma indicate_loop_spec B lo hi l : forall b,
  Forall valid l -> Forall (fun n => lo <= n <= hi) (map (num_at B) l) ->
  lo - 1 <= b <= hi + 1 -> hi - lo < 2047 ->
  match indicate_loop (b mod 4096) l, flush b (map (num_at B) l) with
  | (out, ind, rest), (ns, b', ms) =>
      l = out ++ rest /\ ns = map (num_at B) out /\ ms = map (num_at B) rest /\ ind = b' mod 4096
  end.
Proof.
  induction l as [|f l IH]; intros b Hv Hr Hb Hw; cbn [indicate_loop map flush]; [done|].
  apply Forall_cons_iff in Hv as [Hf Hv]. cbn [map] in Hr. apply Forall_cons_iff in Hr as [Hn Hr].
  destruct (num_at_spec B f Hf) as [_ E]. rewrite E, SN_LESS_num, SN_EQUAL_num by lia.
  set (n := num_at B f) in *. replace (negb (b <? n)) with (n <=? b) by lia.
  destruct (Z.leb_spec n b) as [Hle|Hgt]; [|done].
  rewrite (Z.eqb_sym b n).
  replace (if n =? b then Z.land (b mod 4096 + 1) 0xFFF else b mod 4096)
    with ((if n =? b then b + 1 else b) mod 4096) by (destruct (n =? b); [rewrite next_num|]; done).
  specialize (IH (if n =? b then b + 1 else b) Hv Hr ltac:(destruct (Z.eqb_spec n b); lia) Hw).
  destruct (indicate_loop _ l) as [[out ind] rest], (flush _ (map _ l)) as [[ns b'] ms].
  destruct IH as (-> & -> & -> & ->). done.
Qed.

Lemma enqueue_spec B lo hi f l :
  valid f -> Forall valid l -> lo <= num_at B f <= hi ->
  Forall (fun n => lo <= n <= hi) (map (num_at B) l) -> hi - lo < 2048 ->
  StronglySorted Z.lt (map (num_at B) l) ->
  match enqueue_reorder_recvframe l f with
  | Some l' => (num_at B f ∉ map (num_at B) l) /\ map (num_at B) l' = insert_num (num_at B f) (map (num_at B) l) /\
                 Permutation l' (f :: l)
  | None => num_at B f ∈ map (num_at B) l
  end.
Proof.
  intros Hf Hv Hn Hr Hw. induction l as [|g l IH]; intros Hs; cbn [enqueue_reorder_recvframe map insert_num].
  { split_and!; [apply not_elem_of_nil | done | done]. }
  apply Forall_cons_iff in Hv as [Hg Hv]. cbn [map] in Hr, Hs. apply Forall_cons_iff in Hr as [Hm Hr].
  apply StronglySorted_inv in Hs as [Hs Hlt].
  destruct (num_at_spec B f Hf) as [_ Ef]. destruct (num_at_spec B g Hg) as [_ Eg].
  rewrite Ef, Eg, SN_LESS_num, SN_EQUAL_num by lia.
  set (n := num_at B f) in *. set (m := num_at B g) in *.
  destruct (Z.ltb_spec m n) as [Hmn|Hmn].
  - specialize (IH Hv Hr Hs). destruct (enqueue_reorder_recvframe l f) as [l'|]; cbn [option_map].
    + destruct IH as (Hni & Hl & Hp). cbn [map]. fold m. rewrite Hl. split_and!; [| done | ].
      * rewrite not_elem_of_cons. split; [lia | done].
      * rewrite Hp. constructor.
    + apply elem_of_cons. right. done.
  - destruct (Z.eqb_spec m n) as [->|Hne]; [apply elem_of_cons; left; done|].
    split_and!; [| done | done]. rewrite not_elem_of_cons. split; [done|]. intros Hin.
    rewrite List.Forall_forall in Hlt. apply list_elem_of_In in Hin. specialize (Hlt n Hin). lia.
Qed.

(** Numbers at two references agree on a list whose numbers lie near both. *)
Lemma map_num_move B B' l :
  Forall valid l -> Forall (fun n => -2048 <= n - B' < 2048) (map (num_at B) l) ->
  map (num_at B') l = map (num_at B) l.
Proof.
  induction l as [|f l IH]; intros Hv Hr; [done|]. cbn [map] in *.
  apply Forall_cons_iff in Hv as [Hf Hv]. apply Forall_cons_iff in Hr as [Hn Hr].
  rewrite (num_at_move B B') by done. f_equal. auto.
Qed.

(** The new window start the code computes. *)
Lemma check_indicate_seq_spec base c f n :
  window_ok base c -> seq_num f = n mod 4096 -> -2048 <= n - base < 2048 ->
  exists k, check_indicate_seq c (seq_num f) =
    (if n <? base then (false, c)
     else (true, set_cnt k (set_seq (window_start (wsize_b c) base n mod 4096) c))).
Proof.
  intros (_ & _ & _ & Hw & Hi & _) Hf Hn. unfold check_indicate_seq.
  pose proof (Z.mod_pos_bound base 4096). pose proof (Z.mod_pos_bound n 4096).
  replace (indicate_seq c =? 0xFFFF) with false by lia.
  replace (Z.land (indicate_seq c + wsize_b c - 1) 0xFFF) with ((base + wsize_b c - 1) mod 4096).
  2:{ rewrite Hi. change 0xFFF with (Z.ones 12). rewrite Z.land_ones by lia. change (2 ^ 12) with 4096.
      replace (base mod 4096 + wsize_b c - 1) with (base mod 4096 + (wsize_b c - 1)) by lia.
      rewrite Zplus_mod_idemp_l. f_equal. lia. }
  rewrite Hi, Hf, (SN_LESS_num n base), (SN_EQUAL_num n base), next_num by lia. unfold window_start.
  destruct (Z.ltb_spec n base); [exists (cnt c); done|].
  destruct (Z.eqb_spec n base); [exists (cnt c); destruct c; done|].
  rewrite SN_LESS_num by lia. destruct (Z.ltb_spec (base + wsize_b c - 1) n).
  - exists (count_shift (cnt c)). rewrite Z.max_r by lia. do 2 f_equal. f_equal.
    rewrite u16_small by (destruct (Z.leb_spec (wsize_b c - 1) (n mod 4096)); lia).
    pose proof (Z.div_mod n 4096). destruct (Z.leb_spec (wsize_b c - 1) (n mod 4096)).
    + symmetry. rewrite (Z.div_mod n 4096) at 1 by lia.
      replace (4096 * (n / 4096) + n mod 4096 + 1 - wsize_b c) with (n mod 4096 + 1 - wsize_b c + n / 4096 * 4096) by lia.
      rewrite Z.mod_add, Z.mod_small by lia. done.
    + symmetry. rewrite (Z.div_mod n 4096) at 1 by lia.
      replace (4096 * (n / 4096) + n mod 4096 + 1 - wsize_b c)
        with (0xFFF - (wsize_b c - (n mod 4096 + 1)) + 1 + (n / 4096 - 1) * 4096) by lia.
      rewrite Z.mod_add, Z.mod_small by lia. done.
  - exists (cnt c). rewrite Z.max_l by lia. rewrite <- Hi. destruct c; done.
Qed.

(** ** Lemmas: the operations against the abstract receiver *)

Lemma sorted_app_r (a b : list Z) : StronglySorted Z.lt (a ++ b) -> StronglySorted Z.lt b.
Proof. induction a as [|x a IH]; [done|]. intros H. apply StronglySorted_inv in H as [H _]. auto. Qed.

Lemma sorted_app_l (a b : list Z) : StronglySorted Z.lt (a ++ b) -> StronglySorted Z.lt a.
Proof.
  induction a as [|x a IH]; intros H; [constructor|]. cbn [app] in H. apply StronglySorted_inv in H as [H Hx].
  apply Forall_app in Hx as [Hx _]. constructor; auto.
Qed.

Lemma clear_acks_id c : ack_or_timeout c = false -> reorder_wow c = false -> clear_acks c = c.
Proof. destruct c. cbn. intros -> ->. done. Qed.

(** The queue after the loop, started at [b], is a window at the new base. *)
Lemma loop_window base b w lo hi l :
  Forall valid l -> StronglySorted Z.lt (map (num_at base) l) ->
  Forall (fun n => lo <= n <= hi) (map (num_at base) l) ->
  base <= lo -> base <= b -> lo - 1 <= b <= hi + 1 -> hi - lo < 2047 -> hi < b + w -> 1 <= w < 256 ->
  exists base' out rest,
    flush b (map (num_at base) l) = (map (num_at base) out, base', map (num_at base') rest) /\
    indicate_loop (b mod 4096) l = (out, base' mod 4096, rest) /\ l = out ++ rest /\ b <= base' <= hi + 1 /\
    Forall valid rest /\ StronglySorted Z.lt (map (num_at base') rest) /\
    Forall (fun n => base' < n < base' + w) (map (num_at base') rest) /\
    StronglySorted Z.lt (map (num_at base) out) /\
    Forall (fun n => base <= n < base') (map (num_at base) out).
Proof.
  intros Hv Hs Hr Hlo Hbb Hb Hw Hhi Hws.
  pose proof (indicate_loop_spec base lo hi l b Hv Hr Hb Hw) as Hsim.
  pose proof (flush_spec (map (num_at base) l) b Hs) as Hf.
  destruct (indicate_loop _ l) as [[out ind] rest], (flush b _) as [[ns b'] ms].
  destruct Hsim as (-> & -> & -> & ->). destruct Hf as (Hle & Ho & Hrest & Hup).
  specialize (Hup hi ltac:(lia) ltac:(eapply List.Forall_impl; [|exact Hr]; cbn; lia)).
  rewrite map_app in Hs, Hr. apply Forall_app in Hr as [Hro Hrr]. apply Forall_app in Hv as [_ Hvr].
  assert (Hin : Forall (fun n => b' < n < b' + w) (map (num_at base) rest)).
  { apply List.Forall_forall. intros x Hx. rewrite List.Forall_forall in Hrr, Hrest.
    specialize (Hrr x Hx). specialize (Hrest x Hx). cbn in Hrest. lia. }
  assert (Hmv : map (num_at b') rest = map (num_at base) rest).
  { apply map_num_move; [done|]. eapply List.Forall_impl; [|exact Hin]. cbn. lia. }
  exists b', out, rest. rewrite Hmv. split_and!; try done.
  - eapply sorted_app_r. exact Hs.
  - eapply sorted_app_l. exact Hs.
  - apply List.Forall_forall. intros x Hx. rewrite List.Forall_forall in Hro, Ho.
    specialize (Hro x Hx). specialize (Ho x Hx). cbn in Ho. lia.
Qed.

Section Steps.
  Context (recv_process_mpdu : frame -> bool).

(** What an operation that hands on [out] guarantees. *)
Definition handed_on (base base' : Z) (out : list frame) (c' : recv_reorder_ctrl) : Prop :=
  window_ok base' c' /\ base <= base' <= base + 2048 /\ StronglySorted Z.lt (map (num_at base) out) /\
  Forall (fun n => base <= n < base') (map (num_at base) out).

Lemma reorder_spec base c f :
  window_ok base c -> valid f -> qos f = true ->
  let '(ret, oc', out) := recv_indicatepkt_reorder recv_process_mpdu (Some c) f in
  exists c', oc' = Some c' /\
    match receive (wsize_b c) base (map (num_at base) (pending c)) (num_at base f) with
    | None => ret = _FAIL /\ out = [] /\ pending c' = pending c /\ window_ok base c'
    | Some (ns, base', ms) =>
        ret = RTW_RX_HANDLED /\ ns = map (num_at base) out /\ ms = map (num_at base') (pending c') /\
        Permutation (out ++ pending c') (f :: pending c) /\ handed_on base base' out c'
    end.
Proof.
  intros Hok Hf Hq. pose proof Hok as (He & Ha & Ho & Hw & Hi & Hv & Hs & Hr & Ht).
  destruct (num_at_spec base f Hf) as [Hn Ef]. set (n := num_at base f) in *.
  unfold recv_indicatepkt_reorder. rewrite Hq, He, Ha, Ho. cbn [negb orb].
  rewrite clear_acks_id by done.
  destruct (check_indicate_seq_spec base c f n Hok Ef Hn) as [k ->]. unfold receive.
  destruct (Z.ltb_spec n base) as [Hlt|Hge]; cbn [negb orb].
  { eexists. split; [done|]. split_and!; try done. }
  cbn [pending set_cnt set_seq].
  pose proof (enqueue_spec base base (base + 2047) f (pending c) Hf Hv ltac:(fold n; lia)) as Hq'.
  specialize (Hq' ltac:(eapply List.Forall_impl; [|exact Hr]; cbn; lia) ltac:(lia) Hs). fold n in Hq'.
  destruct (enqueue_reorder_recvframe (pending c) f) as [l|].
  2:{ rewrite bool_decide_eq_true_2 by done. eexists. split; [done|]. split_and!; try done.
      assert (base < n < base + wsize_b c).
      { rewrite List.Forall_forall in Hr. apply Hr. apply list_elem_of_In. done. }
      unfold window_start. replace (n =? base) with false by lia. rewrite Z.max_l by lia. rewrite <- Hi.
      exact Hok. }
  destruct Hq' as (Hni & Hl & Hp). rewrite bool_decide_eq_false_2 by done.
  destruct (insert_num_sorted n _ Hs Hni) as [Hs' HP].
  set (b1 := window_start (wsize_b c) base n). set (w := wsize_b c) in *.
  assert (Hb1 : base <= b1 /\ b1 <= Z.max (base + w - 1) n + 1 /\ n < b1 + w /\ (n = base -> b1 = base + 1))
    by (unfold b1, window_start; destruct (Z.eqb_spec n base); lia).
  assert (Hvl : Forall valid l) by (rewrite Hp; constructor; done).
  destruct (loop_window base b1 w (Z.min n (base + 1)) (Z.max (base + w - 1) n) l) as
    (base' & out & rest & Hfl & Hil & El & Hle & Hvr & Hsr & Hrr & Hso & Hro); try done; try lia.
  { rewrite Hl. done. }
  { rewrite Hl. apply HP; [lia|]. eapply List.Forall_impl; [|exact Hr]. cbn. lia. }
  unfold recv_indicatepkts_in_order. cbn [indicate_seq pending set_pending set_cnt set_seq cnt].
  fold b1. rewrite Hil, <- Hl, Hfl.
  eexists. split; [done|]. split_and!; [done | done | | |].
  - destruct rest; cbn; [done|]. destruct (bReorderWaiting c); done.
  - replace (pending _) with rest by (destruct rest; [done|]; cbn; destruct (bReorderWaiting c); done).
    rewrite <- El. done.
  - unfold handed_on. split_and!; [|lia | lia | done | done].
    unfold window_ok. destruct rest; cbn in *.
    + split_and!; try done; try lia. intros [|]; done.
    + destruct (bReorderWaiting c) eqn:W; cbn; split_and!; try done; try lia. intros _. apply Ht. left. done.
Qed.

Lemma timeout_spec base c :
  window_ok base c ->
  let '(oc', out) := rtw_reordering_ctrl_timeout_handler recv_process_mpdu false (Some c) in
  exists c', oc' = Some c' /\
    match time_out base (map (num_at base) (pending c)) with
    | (ns, base', ms) =>
        ns = map (num_at base) out /\ ms = map (num_at base') (pending c') /\
        out ++ pending c' = pending c /\ handed_on base base' out c' /\
        (pending c <> [] -> out <> [])
    end.
Proof.
  intros (He & Ha & Ho & Hw & Hi & Hv & Hs & Hr & Ht).
  unfold rtw_reordering_ctrl_timeout_handler, recv_indicatepkts_in_order.
  cbn [pending set_waiting set_timer set_cnt]. destruct (pending c) as [|f l] eqn:El.
  { eexists. split; [done|]. cbn. rewrite El. split_and!; try done.
    unfold handed_on, window_ok. cbn. rewrite El. split_and!; try done; try lia; constructor. }
  set (n := num_at base f). cbn [map time_out]. fold n.
  assert (Hn : base < n < base + wsize_b c) by (apply Forall_cons_iff in Hr as [Hr _]; exact Hr).
  destruct (num_at_spec base f) as [_ Ef]; [apply Forall_cons_iff in Hv as [Hv _]; exact Hv|]. fold n in Ef.
  destruct (loop_window base n (wsize_b c) (base + 1) (base + wsize_b c - 1) (f :: l)) as
    (base' & out & rest & Hfl & Hil & Eo & Hle & Hvr & Hsr & Hrr & Hso & Hro); try done; try lia.
  { eapply List.Forall_impl; [|exact Hr]. cbn. lia. }
  cbn [indicate_seq set_seq pending cnt set_cnt set_waiting set_timer]. rewrite El, Ef. rewrite Hil.
  cbn [map] in Hfl. fold n in Hfl. rewrite Hfl.
  assert (Hne : out <> []).
  { intros ->. cbn [flush] in Hfl. rewrite Z.leb_refl in Hfl. destruct (flush _ _) as [[? ?] ?]. done. }
  eexists. split; [done|]. destruct rest; cbn in *; split_and!; try done; unfold handed_on, window_ok; cbn;
    split_and!; try done; try lia; intros [|]; done.
Qed.

(** ** Runs *)

(** The number of the window start after an operation. *)
Definition advance (base : Z) (c' : recv_reorder_ctrl) : Z := base + (indicate_seq c' - base) mod 4096.

Lemma advance_spec base base' c' :
  window_ok base' c' -> base <= base' <= base + 2048 -> advance base c' = base'.
Proof.
  intros (_ & _ & _ & _ & Hi & _) H. unfold advance. rewrite Hi, Zminus_mod_idemp_l, Z.mod_small by lia. lia.
Qed.

(** Frames arrive and the timer runs out in any order; the numbers of the frames handed
    on are collected. *)
Inductive run : Z -> recv_reorder_ctrl -> list Z -> Z -> recv_reorder_ctrl -> Prop :=
| run_nil base c : run base c [] base c
| run_rx base c f ret c1 out ns base' c' :
    valid f -> qos f = true ->
    recv_indicatepkt_reorder recv_process_mpdu (Some c) f = (ret, Some c1, out) ->
    run (advance base c1) c1 ns base' c' ->
    run base c (map (num_at base) out ++ ns) base' c'
| run_timeout base c c1 out ns base' c' :
    timer_set c = true ->
    rtw_reordering_ctrl_timeout_handler recv_process_mpdu false (Some c) = (Some c1, out) ->
    run (advance base c1) c1 ns base' c' ->
    run base c (map (num_at base) out ++ ns) base' c'.

Lemma sorted_app_lt (a b : list Z) m :
  StronglySorted Z.lt a -> Forall (fun n => n < m) a -> StronglySorted Z.lt b -> Forall (fun n => m <= n) b ->
  StronglySorted Z.lt (a ++ b).
Proof.
  intros Ha Hm Hb Hbm. induction Ha as [|x a Ha IH Hx]; [done|]. apply Forall_cons_iff in Hm as [Hxm Hm].
  cbn [app]. constructor; [auto|]. apply Forall_app. split; [done|].
  eapply List.Forall_impl; [|exact Hbm]. cbn. lia.
Qed.

Lemma handed_on_then base base1 out c1 ns base' :
  handed_on base base1 out c1 ->
  base1 <= base' -> StronglySorted Z.lt ns -> Forall (fun n => base1 <= n < base') ns ->
  base <= base' /\ StronglySorted Z.lt (map (num_at base) out ++ ns) /\
  Forall (fun n => base <= n < base') (map (num_at base) out ++ ns).
Proof.
  intros (_ & Hb & Hs & Hr) Hb' Hns Hrn. split_and!; [lia | |].
  - apply (sorted_app_lt _ _ base1); [done | | done |].
    + eapply List.Forall_impl; [|exact Hr]. cbn. lia.
    + eapply List.Forall_impl; [|exact Hrn]. cbn. lia.
  - apply Forall_app. split.
    + eapply List.Forall_impl; [|exact Hr]. cbn. lia.
    + eapply List.Forall_impl; [|exact Hrn]. cbn. lia.
Qed.

Lemma recv_keeps_window base c f ret c1 out :
  window_ok base c -> valid f -> qos f = true ->
  recv_indicatepkt_reorder recv_process_mpdu (Some c) f = (ret, Some c1, out) ->
  exists base1, handed_on base base1 out c1.
Proof.
  intros Hok Hf Hq E. pose proof (reorder_spec base c f Hok Hf Hq) as R. rewrite E in R.
  destruct R as (c' & [= <-] & R). destruct (receive _ _ _ _) as [[[ns base1] ms]|].
  - exists base1. apply R.
  - exists base. destruct R as (_ & -> & _ & H). unfold handed_on. split_and!; [done | lia | lia | constructor | constructor].
Qed.

Lemma timeout_keeps_window base c c1 out :
  window_ok base c ->
  rtw_reordering_ctrl_timeout_handler recv_process_mpdu false (Some c) = (Some c1, out) ->
  exists base1, handed_on base base1 out c1.
Proof.
  intros Hok E. pose proof (timeout_spec base c Hok) as R. rewrite E in R.
  destruct R as (c' & [= <-] & R). destruct (time_out _ _) as [[ns base1] ms]. exists base1. apply R.
Qed.

Lemma run_in_order base c ns base' c' :
  run base c ns base' c' -> window_ok base c ->
  window_ok base' c' /\ base <= base' /\ StronglySorted Z.lt ns /\ Forall (fun n => base <= n < base') ns.
Proof.
  induction 1 as [base c|base c f ret c1 out ns base' c' Hf Hq E Hrun IH|base c c1 out ns base' c' Ht E Hrun IH]; intros Hok.
  - split_and!; [done | lia | constructor | constructor].
  - destruct (recv_keeps_window base c f ret c1 out Hok Hf Hq E) as [base1 H1]. pose proof H1 as (Hw & Hb & _).
    rewrite (advance_spec base base1) in IH by done. destruct (IH Hw) as (Hw' & Hb' & Hs & Hr).
    split; [done|]. eapply handed_on_then; done.
  - destruct (timeout_keeps_window base c c1 out Hok E) as [base1 H1]. pose proof H1 as (Hw & Hb & _).
    rewrite (advance_spec base base1) in IH by done. destruct (IH Hw) as (Hw' & Hb' & Hs & Hr).
    split; [done|]. eapply handed_on_then; done.
Qed.

(** A controller as the association or a new block ack agreement leaves it. *)
Definition fresh (c : recv_reorder_ctrl) : Prop :=
  enable c = true /\ 1 <= wsize_b c < 256 /\ pending c = [] /\
  (indicate_seq c = 0xFFFF \/ ack_or_timeout c = true \/ reorder_wow c = true).

Lemma first_frame c f :
  fresh c -> valid f -> qos f = true ->
  exists c1, recv_indicatepkt_reorder recv_process_mpdu (Some c) f = (RTW_RX_HANDLED, Some c1, [f]) /\
    window_ok (seq_num f + 1) c1.
Proof.
  intros (He & Hw & Hp & Hi) Hf Hq. unfold valid in Hf. unfold recv_indicatepkt_reorder. rewrite Hq, He. cbn [negb orb].
  set (c0 := clear_acks _).
  assert (H0 : indicate_seq c0 = 0xFFFF).
  { unfold c0. destruct Hi as [Hi|[Hi|Hi]]; rewrite ?Hi, ?orb_true_r; cbn; [|done..]. case_match; done. }
  assert (H1 : enable c0 = true /\ wsize_b c0 = wsize_b c /\ pending c0 = [] /\ ack_or_timeout c0 = false /\ reorder_wow c0 = false).
  { unfold c0. destruct (ack_or_timeout c || reorder_wow c); cbn; done. }
  destruct H1 as (He0 & Hw0 & Hp0 & Ha0 & Ho0). clearbody c0.
  assert (E : seq_num f = seq_num f mod 4096) by (rewrite Z.mod_small by lia; done).
  assert (L0 : SN_LESS (seq_num f) (seq_num f) = false) by (unfold SN_LESS; rewrite Z.sub_diag; done).
  assert (N1 : Z.land (seq_num f + 1) 0xFFF = (seq_num f + 1) mod 4096) by (rewrite E at 1; apply next_num).
  assert (L1 : SN_LESS ((seq_num f + 1) mod 4096) (seq_num f) = false) by (rewrite E at 2; rewrite SN_LESS_num; lia).
  assert (Q1 : SN_EQUAL ((seq_num f + 1) mod 4096) (seq_num f) = false) by (rewrite E at 2; rewrite SN_EQUAL_num; lia).
  unfold check_indicate_seq. rewrite H0. cbn [Z.eqb Pos.eqb indicate_seq set_seq].
  rewrite L0. unfold SN_EQUAL at 1. rewrite Z.eqb_refl. cbn [negb pending set_seq]. rewrite Hp0.
  cbn [enqueue_reorder_recvframe]. unfold recv_indicatepkts_in_order. cbn [pending indicate_seq set_pending set_seq indicate_loop].
  rewrite N1, L1, Q1. cbn [negb].
  eexists. split; [done|]. unfold window_ok. cbn.
  split_and!; try done; try (rewrite Hw0; lia); try constructor. intros [|]; done.
Qed.
End Steps.

(** ** Properties *)

(** C5: From a fresh session the first frame is handed on at once, and then, whatever frames
    arrive and whenever the timer runs out, the sequence numbers handed on are strictly
    increasing, without wrapping: nothing is delivered twice or out of order, and everything
    delivered lies below the window. The window invariant (queue sorted, inside
    the window, timer running while frames wait) holds at the end. *)
Theorem reorder_delivers_in_order process c f
    (Hc : fresh c) (Hf : valid f) (Hq : qos f = true) :
  exists c1, recv_indicatepkt_reorder process (Some c) f = (RTW_RX_HANDLED, Some c1, [f]) /\
    forall ns base c', run process (seq_num f + 1) c1 ns base c' ->
      StronglySorted Z.lt (seq_num f :: ns) /\ Forall (fun n => n < base) ns /\ window_ok base c'.
Proof.
  destruct (first_frame process c f Hc Hf Hq) as (c1 & E & Hw). exists c1. split; [done|].
  intros ns base c' Hrun. destruct (run_in_order process _ _ _ _ _ Hrun Hw) as (Hw' & _ & Hs & Hr).
  split_and!; [| | done].
  - constructor; [done|]. eapply List.Forall_impl; [|exact Hr]. cbn. lia.
  - eapply List.Forall_impl; [|exact Hr]. cbn. lia.
Qed.

Definition cnt0 : counters := mkCnt 0 0 0 0 0 0.
(** The state the association leaves: window 64, no frame seen. *)
Definition ctrl0 : recv_reorder_ctrl := mkCtrl true 0xFFFF 64 [] false false false false cnt0.

Lemma reorder_delivers_in_order_witness :
  exists c1, recv_indicatepkt_reorder (fun _ => true) (Some ctrl0) (mkFrame true 4095 7) =
               (RTW_RX_HANDLED, Some c1, [mkFrame true 4095 7]) /\
    forall ns base c', run (fun _ => true) (4095 + 1) c1 ns base c' ->
      StronglySorted Z.lt (4095 :: ns) /\ Forall (fun n => n < base) ns /\ window_ok base c'.
Proof.
  apply (reorder_delivers_in_order (fun _ => true) ctrl0 (mkFrame true 4095 7));
    [repeat split; cbn; auto; lia | split; vm_compute; congruence | reflexivity].
Defined.

(** C6: The window implements the abstract receiver with unbounded numbers. An old or
    duplicate frame is refused and leaves queue and window alone; any other is accepted, the
    frames handed on and kept are the arrived one and the queued ones, none lost, and
    they and the new window start are the abstract ones: the window moves just far enough
    to hold the frame, everything below it is handed on, and so is the unbroken run after it. *)
Theorem reorder_refines_receiver process base c f
    (Hc : window_ok base c) (Hf : valid f) (Hq : qos f = true) :
  let '(ret, oc', out) := recv_indicatepkt_reorder process (Some c) f in
  exists c', oc' = Some c' /\
    match receive (wsize_b c) base (map (num_at base) (pending c)) (num_at base f) with
    | None => ret = _FAIL /\ out = [] /\ pending c' = pending c /\ window_ok base c'
    | Some (ns, base', ms) =>
        ret = RTW_RX_HANDLED /\ ns = map (num_at base) out /\ ms = map (num_at base') (pending c') /\
        Permutation (out ++ pending c') (f :: pending c) /\ window_ok base' c'
    end.
Proof.
  pose proof (reorder_spec process base c f Hc Hf Hq) as R.
  destruct (recv_indicatepkt_reorder process (Some c) f) as [[ret oc'] out].
  destruct R as (c' & -> & R). exists c'. split; [done|].
  destruct (receive _ _ _ _) as [[[ns base'] ms]|]; [|done].
  destruct R as (-> & -> & -> & Hp & Hh & _). split_and!; done.
Qed.

(** Window at 4094 with 4095 and, across the wrap, 1 waiting. *)
Definition ctrl_waiting : recv_reorder_ctrl :=
  mkCtrl true 4094 64 [mkFrame true 4095 1; mkFrame true 1 2] true false false true cnt0.

Lemma ctrl_waiting_ok : window_ok 4094 ctrl_waiting.
Proof.
  unfold window_ok. split_and!; try reflexivity; try (repeat constructor; vm_compute; congruence).
Qed.

Lemma reorder_refines_receiver_witness :
  exists c', Some c' = Some c' /\ RTW_RX_HANDLED = RTW_RX_HANDLED /\
    [4094; 4095] = map (num_at 4094) [mkFrame true 4094 3; mkFrame true 4095 1] /\
    [4097] = map (num_at 4096) (pending c') /\
    Permutation ([mkFrame true 4094 3; mkFrame true 4095 1] ++ pending c')
      (mkFrame true 4094 3 :: pending ctrl_waiting) /\ window_ok 4096 c'.
Proof.
  destruct (reorder_refines_receiver (fun _ => true) 4094 ctrl_waiting (mkFrame true 4094 3))
    as (c' & _ & H & Hrest); [exact ctrl_waiting_ok | split; vm_compute; congruence | reflexivity |].
  exists c'. split; [reflexivity|]. split; [exact H|]. exact Hrest.
Defined.

(** C18: When the timer runs out the window jumps to the first waiting frame: it and the
    unbroken run after it are handed on, in order; nothing else leaves the queue; at least
    one frame is delivered whenever one waits, so no frame waits for ever; and the timer runs again
    while frames are left. *)
Theorem reorder_timeout_releases process base c (Hc : window_ok base c) :
  let '(oc', out) := rtw_reordering_ctrl_timeout_handler process false (Some c) in
  exists c', oc' = Some c' /\
    match time_out base (map (num_at base) (pending c)) with
    | (ns, base', ms) =>
        ns = map (num_at base) out /\ ms = map (num_at base') (pending c') /\
        out ++ pending c' = pending c /\ window_ok base' c' /\
        (pending c <> [] -> out <> []) /\ (pending c' <> [] -> timer_set c' = true)
    end.
Proof.
  pose proof (timeout_spec process base c Hc) as R.
  destruct (rtw_reordering_ctrl_timeout_handler process false (Some c)) as [oc' out].
  destruct R as (c' & -> & R). exists c'. split; [done|]. destruct (time_out _ _) as [[ns base'] ms].
  destruct R as (-> & -> & Hp & (Hw & _) & Hne). split_and!; try done.
  destruct Hw as (_ & _ & _ & _ & _ & _ & _ & _ & Ht). auto.
Qed.

Lemma reorder_timeout_releases_witness :
  exists c', Some c' = Some c' /\
    [4095] = map (num_at 4094) [mkFrame true 4095 1] /\ [4097] = map (num_at 4096) (pending c') /\
    [mkFrame true 4095 1] ++ pending c' = pending ctrl_waiting /\ window_ok 4096 c' /\
    (pending ctrl_waiting <> [] -> [mkFrame true 4095 1] <> []) /\ (pending c' <> [] -> timer_set c' = true).
Proof.
  destruct (reorder_timeout_releases (fun _ => true) 4094 ctrl_waiting ctrl_waiting_ok) as (c' & _ & H).
  exists c'. split; [reflexivity | exact H].
Defined.
