(* ===== verification/Crc32.v ===== *)
(** * The CRC-32 of WEP and TKIP

    Models [crc32_reverseBit], [crc32_init], [getcrc32] and [rtw_calc_crc32] of
    [core/rtw_security.c], with the table as static state that the first use fills. The
    specification works bit by bit. *)
From Stdlib Require Import ZArith Lia Bool Ascii String.
From stdpp Require Import base option list numbers.
From S2P Require Import Prelude.
Local Open Scope Z_scope.

(** ** The table *)

Definition CRC32_POLY := 0x04c11db7.

(* src: core/rtw_security.c:222-226 crc32_reverseBit *)
Definition crc32_reverseBit (data : Z) : Z :=
  (u8 (Z.shiftl data 7 & 0x80)) .| (Z.shiftl data 5 & 0x40) .| (Z.shiftl data 3 & 0x20) .|
  (Z.shiftl data 1 & 0x10) .| (Z.shiftr data 1 & 0x08) .| (Z.shiftr data 3 & 0x04) .|
  (Z.shiftr data 5 & 0x02) .| (Z.shiftr data 7 & 0x01).

(** [for (c = k << 24, j = 8; j > 0; --j)] *)
Fixpoint crc_column (j : nat) (c : Z) : Z :=
  match j with
  | O => c
  | S j => crc_column j (if (c & 0x80000000) =? 0 then u32 (Z.shiftl c 1)
                         else Z.lxor (u32 (Z.shiftl c 1)) CRC32_POLY)
  end.

(** The bytes of a little-endian [u32]. *)
Definition byte_of (c i : Z) : Z := Z.shiftr c (8 * i) & 0xff.

(** Entry [i]: the bytes of [c] in reverse order, each with its bits reversed. *)
(* src: core/rtw_security.c:241-250 crc32_init *)
Definition crc32_entry (i : Z) : Z :=
  let k := crc32_reverseBit (u8 i) in
  let c := crc_column 8 (Z.shiftl k 24) in
  let p1 j := crc32_reverseBit (byte_of c j) in
  p1 3 .| Z.shiftl (p1 2) 8 .| Z.shiftl (p1 1) 16 .| Z.shiftl (p1 0) 24.

(** [bcrc32initialized] and [crc32_table] *)
Record crc_state : Type := mkCrc { bcrc32initialized : bool; crc32_table : list Z }.
Definition crc_state0 : crc_state := mkCrc false (zeros 256).

(* src: core/rtw_security.c:228-255 crc32_init *)
Definition crc32_init (s : crc_state) : crc_state :=
  if bcrc32initialized s then s
  else mkCrc true (map (fun i => crc32_entry (Z.of_nat i)) (seq 0 256)).

(** ** The checksum *)

(** [for (p = buf; len > 0; ++p, --len)] *)
Fixpoint crc_turns (table buf : list Z) (p : Z) (n : nat) (crc : Z) : res Z :=
  match n with
  | O => Ok crc
  | S n =>
      b <- rd buf p ;;
      t <- rd table (Z.lxor crc b & 0xff) ;;
      crc_turns table buf (p + 1) n (Z.lxor t (Z.shiftr crc 8))
  end.

Definition not32 (x : Z) : Z := Z.lxor x 0xffffffff.

(* src: core/rtw_security.c:257-269 getcrc32 *)
Definition getcrc32 (s : crc_state) (buf : list Z) (off len : Z) : res (Z * crc_state) :=
  let s := if bcrc32initialized s then s else crc32_init s in
  crc <- crc_turns (crc32_table s) buf off (Z.to_nat len) 0xffffffff ;;
  Ok (not32 crc, s).

(* src: core/rtw_security.c:2560-2573 rtw_calc_crc32 *)
Definition rtw_calc_crc32 (s : crc_state) (data : list Z) (len : Z) : res (Z * crc_state) :=
  let s := if bcrc32initialized s then s else crc32_init s in
  crc <- crc_turns (crc32_table s) data 0 (Z.to_nat len) 0xffffffff ;;
  Ok (not32 crc, s).

(** ** Specification *)

(** One bit of the division by the reflected polynomial. *)
Definition crc_bit (c : Z) : Z :=
  Z.lxor (Z.shiftr c 1) (if Z.odd c then 0xedb88320 else 0).

Fixpoint crc_bits (n : nat) (c : Z) : Z :=
  match n with O => c | S n => crc_bits n (crc_bit c) end.

(** A message, each byte least significant bit first. *)
Definition crc_bytes (l : list Z) (c : Z) : Z :=
  fold_left (fun c b => crc_bits 8 (Z.lxor c b)) l c.

Definition crc32_of (l : list Z) : Z := not32 (crc_bytes l 0xffffffff).

Definition crc_ok (s : crc_state) : Prop :=
  bcrc32initialized s = false \/ s = crc32_init crc_state0.

(** ** Lemmas: the division is linear *)

Lemma shiftr_lxor_odd x y : Z.odd (Z.lxor x y) = xorb (Z.odd x) (Z.odd y).
Proof. rewrite <- !Z.bit0_odd. apply Z.lxor_spec. Qed.

Lemma crc_bit_lxor x y : crc_bit (Z.lxor x y) = Z.lxor (crc_bit x) (crc_bit y).
Proof.
  unfold crc_bit. rewrite Z.shiftr_lxor, shiftr_lxor_odd.
  apply Z.bits_inj'. intros n Hn. rewrite !Z.lxor_spec.
  destruct (Z.odd x), (Z.odd y); cbn [xorb]; rewrite ?Z.bits_0;
    generalize (Z.testbit (Z.shiftr x 1) n) (Z.testbit (Z.shiftr y 1) n) (Z.testbit 0xedb88320 n);
    intros [] [] []; done.
Qed.

Lemma crc_bits_lxor n : forall x y, crc_bits n (Z.lxor x y) = Z.lxor (crc_bits n x) (crc_bits n y).
Proof. induction n as [|n IH]; intros x y; cbn [crc_bits]; [done|]. rewrite crc_bit_lxor. apply IH. Qed.

(** Bits above the ones consumed are only shifted down. *)
Lemma crc_bits_shiftl n : forall h, crc_bits n (Z.shiftl h (Z.of_nat n)) = h.
Proof.
  induction n as [|n IH]; intros h; [apply Z.shiftl_0_r|]. cbn [crc_bits]. rewrite <- (IH h) at 2. f_equal.
  unfold crc_bit. rewrite Nat2Z.inj_succ, <- Z.add_1_r, <- Z.shiftl_shiftl by lia.
  replace (Z.odd _) with false.
  2:{ rewrite <- Z.bit0_odd, Z.shiftl_spec_low by lia. done. }
  rewrite Z.lxor_0_r, Z.shiftr_shiftl_l by lia. rewrite Z.sub_diag. apply Z.shiftl_0_r.
Qed.

Lemma split_low c k : 0 <= k -> Z.lxor (Z.shiftl (Z.shiftr c k) k) (Z.land c (Z.ones k)) = c.
Proof.
  intros Hk. apply Z.bits_inj'. intros n Hn. rewrite Z.lxor_spec, Z.land_spec.
  destruct (Z.ltb_spec n k).
  - rewrite Z.shiftl_spec_low, Z.ones_spec_low by lia. rewrite andb_true_r. apply xorb_false_l.
  - rewrite Z.shiftl_spec, Z.shiftr_spec, Z.ones_spec_high by lia. rewrite Z.sub_add, andb_false_r. apply xorb_false_r.
Qed.

(** A byte at a time: the low byte goes through the division, the rest is shifted. *)
Lemma crc_bits_byte c : crc_bits 8 c = Z.lxor (crc_bits 8 (c & 0xff)) (Z.shiftr c 8).
Proof.
  rewrite <- (split_low c 8) at 1 by lia. rewrite crc_bits_lxor.
  change 8 with (Z.of_nat 8) at 2. rewrite crc_bits_shiftl. apply Z.lxor_comm.
Qed.

Lemma land_ff_byte x : is_byte (x & 0xff).
Proof. change 0xff with (Z.ones 8). rewrite Z.land_ones by lia. apply Z.mod_pos_bound. lia. Qed.

(** Every entry the code computes is the division of its index. *)
Lemma crc32_entries : forallb (fun i => crc32_entry (Z.of_nat i) =? crc_bits 8 (Z.of_nat i)) (seq 0 256) = true.
Proof. vm_compute. reflexivity. Qed.

Lemma crc32_table_rd s x :
  s = crc32_init crc_state0 -> rd (crc32_table s) (x & 0xff) = Ok (crc_bits 8 (x & 0xff)).
Proof.
  intros ->. pose proof (land_ff_byte x) as Hr. unfold is_byte in Hr. set (i := x & 0xff) in *. clearbody i.
  unfold crc32_init, crc_state0. cbn [bcrc32initialized crc32_table].
  apply rd_Ok. split; [lia|]. pose proof crc32_entries as E. rewrite List.forallb_forall in E.
  rewrite list_lookup_fmap, lookup_seq_lt by lia. cbn [fmap option_fmap option_map].
  specialize (E (Z.to_nat i)). rewrite Z2Nat.id in E by lia. f_equal.
  rewrite Nat.add_0_l, Z2Nat.id by lia. apply Z.eqb_eq, E. apply List.in_seq. lia.
Qed.

Lemma crc_turns_spec s a l b crc :
  s = crc32_init crc_state0 -> bytes l ->
  crc_turns (crc32_table s) (a ++ l ++ b) (zlen a) (length l) crc = Ok (crc_bytes l crc).
Proof.
  intros Hs. revert a crc. induction l as [|x l IH]; intros a crc Hl; cbn [crc_turns length]; [done|].
  apply Forall_cons_1 in Hl as [Hx Hl]. cbn [app]. rewrite rd_mid. cbn [bind].
  rewrite crc32_table_rd by done. cbn [bind].
  replace (a ++ x :: l ++ b) with ((a ++ [x]) ++ l ++ b) by (rewrite <- app_assoc; done).
  replace (zlen a + 1) with (zlen (a ++ [x])) by (rewrite zlen_app; done). rewrite IH by done.
  unfold crc_bytes. cbn [fold_left]. f_equal. f_equal.
  rewrite (crc_bits_byte (Z.lxor crc x)). f_equal. rewrite Z.shiftr_lxor.
  replace (Z.shiftr x 8) with 0; [rewrite Z.lxor_0_r; done|].
  symmetry. apply Z.shiftr_eq_0_iff. unfold is_byte in Hx.
  destruct (Z.eq_dec x 0) as [->|]; [left; done|]. right. split; [lia|]. apply Z.log2_lt_pow2; lia.
Qed.

Lemma crc_state_ready s : crc_ok s -> (if bcrc32initialized s then s else crc32_init s) = crc32_init crc_state0.
Proof.
  intros [H|H].
  - rewrite H. unfold crc32_init. rewrite H. done.
  - rewrite H. done.
Qed.

Lemma getcrc32_spec s a l b :
  crc_ok s -> bytes l ->
  getcrc32 s (a ++ l ++ b) (zlen a) (zlen l) = Ok (crc32_of l, crc32_init crc_state0).
Proof.
  intros Hs Hl. unfold getcrc32. rewrite crc_state_ready by done. unfold zlen at 2. rewrite Nat2Z.id.
  rewrite crc_turns_spec by done. done.
Qed.

(** A length below 0 is an empty message. *)
Lemma getcrc32_negative s buf off len :
  crc_ok s -> len <= 0 -> getcrc32 s buf off len = Ok (crc32_of [], crc32_init crc_state0).
Proof.
  intros Hs Hl. unfold getcrc32. rewrite crc_state_ready by done.
  replace (Z.to_nat len) with O by lia. done.
Qed.

Lemma crc_ok_ready : crc_ok (crc32_init crc_state0).
Proof. right. done. Qed.

Lemma getcrc32_whole s l :
  crc_ok s -> bytes l -> getcrc32 s l 0 (zlen l) = Ok (crc32_of l, crc32_init crc_state0).
Proof.
  intros Hs Hl. pose proof (getcrc32_spec s [] l [] Hs Hl) as H. rewrite app_nil_r in H. exact H.
Qed.

(** ** Lemmas: the division can be undone, so that it separates short differences *)

Definition is_u32 (x : Z) : Prop := 0 <= x < 2 ^ 32.

Lemma u32_testbit_high x n : is_u32 x -> 32 <= n -> Z.testbit x n = false.
Proof. apply (testbit_above 32). Qed.

Lemma is_u32_lxor x y : is_u32 x -> is_u32 y -> is_u32 (Z.lxor x y).
Proof. apply (lxor_below 32). lia. Qed.

Lemma crc_bit_u32 c : is_u32 c -> is_u32 (crc_bit c).
Proof.
  intros Hc. apply is_u32_lxor.
  - unfold is_u32 in *. rewrite Z.shiftr_div_pow2 by lia. split; [apply Z.div_pos; lia|].
    apply Z.div_lt_upper_bound; lia.
  - destruct (Z.odd c); done.
Qed.

Lemma crc_bits_u32 n : forall c, is_u32 c -> is_u32 (crc_bits n c).
Proof. induction n as [|n IH]; intros c Hc; [done|]. apply IH, crc_bit_u32. done. Qed.

(** The top bit of the quotient is the bit that was shifted out. *)
Lemma crc_bit_inj c d : is_u32 c -> is_u32 d -> crc_bit c = crc_bit d -> c = d.
Proof.
  intros Hc Hd E. unfold crc_bit in E.
  assert (Hodd : Z.odd c = Z.odd d).
  { apply (f_equal (fun z => Z.testbit z 31)) in E. cbv beta in E. rewrite !Z.lxor_spec, !Z.shiftr_spec in E by lia.
    rewrite (u32_testbit_high c), (u32_testbit_high d) in E by (done || lia). destruct (Z.odd c), (Z.odd d); done. }
  rewrite Hodd in E. apply (f_equal (fun z => Z.lxor z (if Z.odd d then 0xedb88320 else 0))) in E. cbv beta in E.
  rewrite !Z.lxor_assoc, !Z.lxor_nilpotent, !Z.lxor_0_r in E.
  apply Z.bits_inj'. intros n Hn. destruct (Z.eq_dec n 0) as [->|].
  - rewrite !Z.bit0_odd. done.
  - apply (f_equal (fun z => Z.testbit z (n - 1))) in E. cbv beta in E. rewrite !Z.shiftr_spec in E by lia.
    rewrite !Z.sub_add in E. done.
Qed.

Lemma crc_bits_inj n : forall c d, is_u32 c -> is_u32 d -> crc_bits n c = crc_bits n d -> c = d.
Proof.
  induction n as [|n IH]; intros c d Hc Hd E; [done|]. apply crc_bit_inj; [done | done |].
  apply IH; [apply crc_bit_u32; done | apply crc_bit_u32; done | done].
Qed.

Lemma is_byte_u32 b : is_byte b -> is_u32 b.
Proof. unfold is_byte, is_u32. lia. Qed.

Lemma crc_bytes_app a b c : crc_bytes (a ++ b) c = crc_bytes b (crc_bytes a c).
Proof. apply fold_left_app. Qed.

Lemma crc_bytes_u32 l : forall c, bytes l -> is_u32 c -> is_u32 (crc_bytes l c).
Proof.
  induction l as [|b l IH]; intros c Hl Hc; [done|]. apply Forall_cons_1 in Hl as [Hb Hl].
  apply IH; [done|]. apply crc_bits_u32, is_u32_lxor; [done | apply is_byte_u32; done].
Qed.

Lemma crc_bytes_inj_start l : forall c d,
  bytes l -> is_u32 c -> is_u32 d -> crc_bytes l c = crc_bytes l d -> c = d.
Proof.
  induction l as [|b l IH]; intros c d Hl Hc Hd E; [done|]. apply Forall_cons_1 in Hl as [Hb Hl].
  assert (Hb' : is_u32 b) by (apply is_byte_u32; done).
  apply IH in E; [|done | apply crc_bits_u32, is_u32_lxor; done | apply crc_bits_u32, is_u32_lxor; done].
  apply crc_bits_inj in E; [|apply is_u32_lxor; done | apply is_u32_lxor; done].
  apply lxor_cancel_r in E. done.
Qed.

(** A word, least significant byte first. *)
Fixpoint le_word (l : list Z) : Z :=
  match l with [] => 0 | b :: l => Z.lxor b (Z.shiftl (le_word l) 8) end.

Lemma crc_bits_add n m : forall c, crc_bits (n + m) c = crc_bits m (crc_bits n c).
Proof. induction n as [|n IH]; intros c; [done|]. apply IH. Qed.

(** Several bytes at once: the word goes into the low end of the register. *)
Lemma crc_bytes_word l : forall c, crc_bytes l c = crc_bits (8 * length l) (Z.lxor c (le_word l)).
Proof.
  induction l as [|b l IH]; intros c; [symmetry; apply Z.lxor_0_r|].
  cbn [length]. replace (8 * S (length l))%nat with (8 + 8 * length l)%nat by lia. rewrite crc_bits_add.
  cbn [le_word]. rewrite <- Z.lxor_assoc, crc_bits_lxor. change 8 with (Z.of_nat 8) at 1.
  rewrite crc_bits_shiftl. apply IH.
Qed.

Lemma le_word_bit l : forall n, bytes l -> 0 <= n ->
  Z.testbit (le_word l) n = match l !! Z.to_nat (n / 8) with Some b => Z.testbit b (n mod 8) | None => false end.
Proof.
  induction l as [|b l IH]; intros n Hl Hn; [apply Z.bits_0|].
  apply Forall_cons_1 in Hl as [Hb Hl]. cbn [le_word]. rewrite Z.lxor_spec.
  pose proof (Z.div_mod n 8 ltac:(lia)) as Hdm. pose proof (Z.mod_pos_bound n 8 ltac:(lia)).
  destruct (Z.ltb_spec n 8).
  - rewrite Z.shiftl_spec_low by lia. rewrite xorb_false_r.
    rewrite Z.div_small, Z.mod_small by lia. done.
  - rewrite Z.shiftl_spec, IH by (done || lia).
    rewrite (byte_testbit_above b) by done.
    assert (1 <= n / 8) by (apply Z.div_le_lower_bound; lia).
    replace ((n - 8) / 8) with (n / 8 - 1) by (replace (n - 8) with (n + (-1) * 8) by lia; rewrite Z.div_add by lia; lia).
    replace ((n - 8) mod 8) with (n mod 8) by (replace (n - 8) with (n + (-1) * 8) by lia; rewrite Z.mod_add by lia; done).
    replace (Z.to_nat (n / 8)) with (S (Z.to_nat (n / 8 - 1))) by lia. apply xorb_false_l.
Qed.

Lemma le_word_inj l m : bytes l -> bytes m -> length l = length m -> le_word l = le_word m -> l = m.
Proof.
  revert m. induction l as [|a l IH]; intros [|b m] Hl Hm Hn E; try discriminate; [done|].
  pose proof Hl as Hl'. pose proof Hm as Hm'.
  apply Forall_cons_1 in Hl as [Ha Hl]. apply Forall_cons_1 in Hm as [Hb Hm].
  assert (a = b) as ->.
  { apply Z.bits_inj'. intros n Hn0. destruct (Z.ltb_spec n 8).
    - apply (f_equal (fun z => Z.testbit z n)) in E. cbv beta in E. rewrite !le_word_bit in E by (done || lia).
      rewrite Z.div_small, Z.mod_small in E by lia. exact E.
    - rewrite !byte_testbit_above by done. done. }
  f_equal. apply IH; [done | done | cbn in Hn; lia |].
  cbn [le_word] in E. rewrite (Z.lxor_comm b), (Z.lxor_comm b (Z.shiftl _ _)) in E. apply lxor_cancel_r in E.
  apply (f_equal (fun z => Z.shiftr z 8)) in E. cbv beta in E. rewrite !Z.shiftr_shiftl_l, !Z.shiftl_0_r in E by lia. exact E.
Qed.

Lemma le_word_u32 l : bytes l -> zlen l <= 4 -> is_u32 (le_word l).
Proof.
  intros Hl Hn. apply (below_pow2 32); [lia | |].
  2:{ intros n Hn0. rewrite le_word_bit by (done || lia).
    assert (4 <= n / 8) by (apply Z.div_le_lower_bound; lia).
    rewrite lookup_ge_None_2; [done|]. unfold zlen in Hn. lia. }
  - clear Hn. induction l as [|b l IH]; [done|]. apply Forall_cons_1 in Hl as [Hb Hl]. cbn [le_word].
    apply Z.lxor_nonneg. specialize (IH Hl). rewrite Z.shiftl_nonneg. unfold is_byte in Hb. lia.
Qed.

Lemma not32_inj x y : not32 x = not32 y -> x = y.
Proof. apply lxor_cancel_r. Qed.

Lemma crc_burst_reg a x y b c :
  bytes a -> bytes x -> bytes y -> bytes b -> length x = length y -> zlen x <= 4 -> is_u32 c ->
  crc_bytes (a ++ x ++ b) c = crc_bytes (a ++ y ++ b) c -> x = y.
Proof.
  intros Ha Hx Hy Hb Hn H4 Hc E. rewrite !crc_bytes_app in E.
  assert (HA : is_u32 (crc_bytes a c)) by (apply crc_bytes_u32; done).
  apply crc_bytes_inj_start in E; [|done | apply crc_bytes_u32; auto | apply crc_bytes_u32; auto].
  revert E HA. generalize (crc_bytes a c). intros r E HA. rewrite !crc_bytes_word, Hn in E.
  assert (is_u32 (le_word x)) by (apply le_word_u32; done).
  assert (is_u32 (le_word y)) by (apply le_word_u32; [done | unfold zlen in *; lia]).
  apply crc_bits_inj in E; [|apply is_u32_lxor; done | apply is_u32_lxor; done].
  rewrite (Z.lxor_comm _ (le_word x)), (Z.lxor_comm _ (le_word y)) in E. apply lxor_cancel_r in E.
  apply le_word_inj; done.
Qed.

Lemma ones_u32 : is_u32 0xffffffff.
Proof. unfold is_u32. lia. Qed.

Lemma crc_burst a x y b :
  bytes a -> bytes x -> bytes y -> bytes b -> length x = length y -> zlen x <= 4 ->
  crc32_of (a ++ x ++ b) = crc32_of (a ++ y ++ b) -> x = y.
Proof.
  intros Ha Hx Hy Hb Hn H4 E. unfold crc32_of in E. apply not32_inj in E.
  apply crc_burst_reg in E; (done || apply ones_u32).
Qed.

(** ** Theorems *)

(** C36: the table-driven checksum of a part of a buffer, with the table filled by this call or an earlier one, is the
    bit-by-bit division by the reflected polynomial; [getcrc32] and [rtw_calc_crc32] agree. *)
Theorem crc32_is_polynomial_division s a l b :
  crc_ok s -> bytes l ->
  getcrc32 s (a ++ l ++ b) (zlen a) (zlen l) = Ok (crc32_of l, crc32_init crc_state0) /\
  rtw_calc_crc32 s (l ++ b) (zlen l) = Ok (crc32_of l, crc32_init crc_state0).
Proof.
  intros Hs Hl. split; [apply getcrc32_spec; done|]. pose proof (getcrc32_spec s [] l b Hs Hl) as H.
  unfold getcrc32 in H. unfold rtw_calc_crc32. rewrite crc_state_ready in H |- * by done. exact H.
Qed.

Lemma crc32_is_polynomial_division_witness :
  crc_ok crc_state0 /\ bytes (bytes_of "123456789") /\
  rtw_calc_crc32 crc_state0 (bytes_of "123456789" ++ [0]) 9 = Ok (0xcbf43926, crc32_init crc_state0).
Proof.
  assert (H1 : crc_ok crc_state0) by (left; reflexivity).
  assert (H2 : bytes (bytes_of "123456789")) by (apply bytes_by_compute; vm_compute; reflexivity).
  split; [exact H1|]. split; [exact H2|].
  exact (proj2 (crc32_is_polynomial_division crc_state0 [] (bytes_of "123456789") [0] H1 H2)).
Defined.

(** Two messages that differ only inside four consecutive bytes have different checksums, wherever the change is
    and whatever surrounds it. *)
Theorem crc32_detects_bursts s a x y b r1 r2 :
  crc_ok s -> bytes a -> bytes x -> bytes y -> bytes b -> length x = length y -> zlen x <= 4 -> x <> y ->
  getcrc32 s (a ++ x ++ b) 0 (zlen (a ++ x ++ b)) = Ok r1 ->
  getcrc32 s (a ++ y ++ b) 0 (zlen (a ++ y ++ b)) = Ok r2 ->
  fst r1 <> fst r2.
Proof.
  intros Hs Ha Hx Hy Hb Hn H4 Hne H1 H2 E.
  assert (HB : forall z, bytes z -> bytes (a ++ z ++ b)) by (intros z Hz; unfold bytes; rewrite !Forall_app; done).
  rewrite getcrc32_whole in H1 by auto. rewrite getcrc32_whole in H2 by auto.
  injection H1 as <-. injection H2 as <-. apply Hne. apply (crc_burst a x y b); done.
Qed.

Lemma crc32_detects_bursts_witness :
  fst (0xcbf43926, crc32_init crc_state0) <> fst (0x8c5443f6, crc32_init crc_state0).
Proof.
  apply (crc32_detects_bursts crc_state0 (bytes_of "1234") (bytes_of "5") (bytes_of "6") (bytes_of "6789"));
    try (apply bytes_by_compute; vm_compute; reflexivity); try (vm_compute; reflexivity).
  - left. reflexivity.
  - intros H. vm_compute in H. discriminate.
  - discriminate.
Defined.
