(* ===== verification/Arc4.v ===== *)
(** * RC4

    Models [arcfour_init], [arcfour_byte] and [arcfour_encrypt] of [core/rtw_security.c], and the
    cipher they implement as a reference: a key schedule that takes the key modulo its length, and a
    generator that swaps first and reads afterwards. *)
From Stdlib Require Import ZArith Lia Bool Ascii String.
From stdpp Require Import base option list numbers.
From S2P Require Import Prelude.
Local Open Scope Z_scope.

(** ** The code *)

(* src: core/rtw_security.c:158-162 arc4context *)
Record arc4context : Type := mkArc4 { a4x : Z; a4y : Z; a4state : list Z }.

(** [for (counter = 0; counter < 256; counter++) state[counter] = (u8)counter] *)
Definition identity_state : list Z := map (fun i => u8 (Z.of_nat i)) (seq 0 256).

(** The second loop: [n] turns are left. *)
(* src: core/rtw_security.c:178-187 arcfour_init *)
Fixpoint init_turns (key : list Z) (key_len : Z) (n : nat) (counter keyindex stateindex : Z)
    (state : list Z) : res (list Z) :=
  match n with
  | O => Ok state
  | S n =>
      t <- rd state counter ;;
      k <- rd key keyindex ;;
      let stateindex := (stateindex + k + t) & 0xff in
      u <- rd state stateindex ;;
      state <- wr state stateindex (u8 t) ;;
      state <- wr state counter (u8 u) ;;
      let keyindex := if key_len <=? u32 (keyindex + 1) then 0 else u32 (keyindex + 1) in
      init_turns key key_len n (counter + 1) keyindex stateindex state
  end.

(* src: core/rtw_security.c:165-188 arcfour_init *)
Definition arcfour_init (key : list Z) (key_len : Z) : res arc4context :=
  state <- init_turns key key_len 256 0 0 0 identity_state ;;
  Ok (mkArc4 0 0 state).

(* src: core/rtw_security.c:189-205 arcfour_byte *)
Definition arcfour_byte (c : arc4context) : res (Z * arc4context) :=
  let state := a4state c in
  let x := (a4x c + 1) & 0xff in
  sx <- rd state x ;;
  let y := (sx + a4y c) & 0xff in
  sy <- rd state y ;;
  state <- wr state y (u8 sx) ;;
  state <- wr state x (u8 sy) ;;
  r <- rd state ((sx + sy) & 0xff) ;;
  Ok (r, mkArc4 x y state).

(** The source operand: an offset of the buffer that is written, or another array. *)
Inductive arc4src : Type := Inside (off : Z) | Other (l : list Z).

Definition src_rd (mem : list Z) (src : arc4src) (i : Z) : res Z :=
  match src with Inside off => rd mem (off + i) | Other l => rd l i end.

Fixpoint encrypt_turns (dest : Z) (src : arc4src) (n : nat) (i : Z) (c : arc4context) (mem : list Z)
    : res (list Z * arc4context) :=
  match n with
  | O => Ok (mem, c)
  | S n =>
      b <- src_rd mem src i ;;
      '(k, c) <- arcfour_byte c ;;
      mem <- wr mem (dest + i) (Z.lxor b (u8 k)) ;;
      encrypt_turns dest src n (i + 1) c mem
  end.

(** [len] is a [u32]: a negative [sint] handed in becomes a count near [2^32]. *)
(* src: core/rtw_security.c:208-216 arcfour_encrypt *)
Definition arcfour_encrypt (c : arc4context) (mem : list Z) (dest : Z) (src : arc4src) (len : Z)
    : res (list Z * arc4context) :=
  encrypt_turns dest src (Z.to_nat (u32 len)) 0 c mem.

(** ** The reference cipher *)

Definition at_ (S : list Z) (i : Z) : Z := S !!! Z.to_nat i.

Definition swap (S : list Z) (i j : Z) : list Z :=
  <[Z.to_nat j := at_ S i]> (<[Z.to_nat i := at_ S j]> S).

Definition rc4_mix (key : list Z) (js : Z * list Z) (i : nat) : Z * list Z :=
  let j := (fst js + at_ (snd js) (Z.of_nat i) + key !!! (i mod length key)%nat) mod 256 in
  (j, swap (snd js) j (Z.of_nat i)).

Definition rc4_schedule (key : list Z) : list Z :=
  snd (fold_left (rc4_mix key) (seq 0 256) (0, map Z.of_nat (seq 0 256))).

Definition rc4_step (c : arc4context) : arc4context :=
  let i := (a4x c + 1) mod 256 in
  let j := (a4y c + at_ (a4state c) i) mod 256 in
  mkArc4 i j (swap (a4state c) j i).

(** The byte a state gives out. *)
Definition rc4_out (c : arc4context) : Z :=
  at_ (a4state c) ((at_ (a4state c) (a4x c) + at_ (a4state c) (a4y c)) mod 256).

Fixpoint rc4_after (n : nat) (c : arc4context) : arc4context :=
  match n with O => c | S n => rc4_after n (rc4_step c) end.

Fixpoint rc4_stream (n : nat) (c : arc4context) : list Z :=
  match n with O => [] | S n => rc4_out (rc4_step c) :: rc4_stream n (rc4_step c) end.

Definition rc4_start (key : list Z) : arc4context := mkArc4 0 0 (rc4_schedule key).

Definition xor_bytes (a b : list Z) : list Z := zip_with Z.lxor a b.

(** ** The state is a permutation of the byte values *)

Definition is_perm (S : list Z) : Prop := S ≡ₚ map Z.of_nat (seq 0 256).

Record arc4_wf (c : arc4context) : Prop := {
  wf_x : is_byte (a4x c);
  wf_y : is_byte (a4y c);
  wf_state : is_perm (a4state c) }.

Lemma is_perm_length S : is_perm S -> length S = 256%nat.
Proof. intros H. rewrite (Permutation_length H), length_map, length_seq. done. Qed.

Lemma is_perm_bytes S : is_perm S -> bytes S.
Proof.
  unfold is_perm, bytes. intros H. rewrite H. apply List.Forall_forall. intros x Hx.
  apply List.in_map_iff in Hx as (i & <- & Hi%List.in_seq). unfold is_byte. lia.
Qed.

Lemma at_rd S i : is_perm S -> is_byte i -> rd S i = Ok (at_ S i).
Proof.
  intros HS Hi. unfold is_byte in Hi. apply rd_Ok. split; [lia|]. unfold at_.
  apply list_lookup_lookup_total_lt. rewrite is_perm_length by done. lia.
Qed.

Lemma at_byte S i : is_perm S -> is_byte i -> is_byte (at_ S i).
Proof. intros HS Hi. apply (rd_byte S i); [apply is_perm_bytes; done | apply at_rd; done]. Qed.

Lemma swap_perm S i j : is_perm S -> is_byte i -> is_byte j -> is_perm (swap S i j).
Proof.
  intros HS Hi Hj. unfold is_perm, swap. rewrite Permutation_insert_swap; [done | |];
    apply (proj1 (rd_Ok _ _ _)); apply at_rd; done.
Qed.

Lemma swap_wr S i j : is_perm S -> is_byte i -> is_byte j ->
  (S' <- wr S i (u8 (at_ S j)) ;; wr S' j (u8 (at_ S i))) = Ok (swap S i j).
Proof.
  intros HS Hi Hj. rewrite !u8_small by (apply at_byte; done). unfold is_byte in Hi, Hj.
  pose proof (is_perm_length S HS) as HL.
  rewrite wr_in by (unfold zlen; lia). cbn [bind].
  rewrite wr_in by (unfold zlen; rewrite length_insert; lia). done.
Qed.

Lemma mod_256_byte x : is_byte (x mod 256).
Proof. unfold is_byte. apply Z.mod_pos_bound. lia. Qed.

#[export] Hint Resolve at_byte swap_perm mod_256_byte : cbytes.

(** ** The code is the reference *)

Lemma init_turns_spec key rest n : forall i j st,
  bytes key -> key <> [] -> is_perm st -> (i + n <= 256)%nat ->
  init_turns (key ++ rest) (zlen key) n (Z.of_nat i) (Z.of_nat (i mod length key)) j st =
    Ok (snd (fold_left (rc4_mix key) (seq i n) (j, st))) /\
  is_perm (snd (fold_left (rc4_mix key) (seq i n) (j, st))).
Proof.
  induction n as [|n IH]; intros i j st Hk Hne HS Hi; cbn [init_turns seq fold_left]; [done|].
  assert (Hlk : (0 < length key)%nat) by (destruct key; [done | cbn; lia]).
  assert (Hib : is_byte (Z.of_nat i)) by (unfold is_byte; lia).
  pose proof (Nat.mod_upper_bound i (length key) ltac:(lia)) as Hm.
  rewrite at_rd by done. cbn [bind].
  replace (rd (key ++ rest) (Z.of_nat (i mod length key))) with (Ok (key !!! (i mod length key)%nat)).
  2:{ symmetry. rewrite rd_app_l by (unfold zlen; lia). apply rd_Ok. split; [lia|]. rewrite Nat2Z.id. apply list_lookup_lookup_total_lt. done. }
  cbn [bind]. rewrite land_ff_mod.
  replace (j + key !!! (i mod length key)%nat + at_ st (Z.of_nat i))
    with (j + at_ st (Z.of_nat i) + key !!! (i mod length key)%nat) by lia.
  set (j' := (j + at_ st (Z.of_nat i) + key !!! (i mod length key)%nat) mod 256).
  assert (Hj : is_byte j') by apply mod_256_byte.
  rewrite at_rd by done. cbn [bind].
  pose proof (swap_wr st j' (Z.of_nat i) HS Hj Hib) as Hw.
  destruct (wr st j' (u8 (at_ st (Z.of_nat i)))) as [st1|]; [|discriminate]. cbn [bind] in Hw |- *.
  rewrite Hw. cbn [bind].
  change (rc4_mix key (j, st) i) with (j', swap st j' (Z.of_nat i)).
  replace (Z.of_nat i + 1) with (Z.of_nat (S i)) by lia.
  replace (if zlen key <=? _ then _ else _) with (Z.of_nat (S i mod length key)).
  - apply IH; [done | done | apply swap_perm; done | lia].
  - pose proof (Nat.div_mod_eq i (length key)) as Hdm. set (q := (i / length key)%nat) in *.
    rewrite u32_small by lia. unfold zlen. destruct (Z.leb_spec (Z.of_nat (length key)) (Z.of_nat (i mod length key) + 1)).
    + replace (S i) with (0 + (q + 1) * length key)%nat by nia. rewrite Nat.Div0.mod_add.
      rewrite Nat.mod_small by lia. done.
    + replace (S i) with (S (i mod length key) + q * length key)%nat by nia. rewrite Nat.Div0.mod_add.
      rewrite Nat.mod_small by lia. lia.
Qed.

Lemma identity_state_eq : identity_state = map Z.of_nat (seq 0 256).
Proof. vm_compute. done. Qed.

(** The key may be the front of a longer array. *)
Lemma arcfour_init_front key rest : bytes key -> key <> [] ->
  arcfour_init (key ++ rest) (zlen key) = Ok (rc4_start key) /\ arc4_wf (rc4_start key).
Proof.
  intros Hk Hne. unfold arcfour_init.
  destruct (init_turns_spec key rest 256 0 0 identity_state Hk Hne) as [HE HP].
  - rewrite identity_state_eq. unfold is_perm. done.
  - lia.
  - rewrite Nat.Div0.mod_0_l in HE. change (Z.of_nat 0) with 0 in HE. rewrite HE. cbn [bind].
    rewrite identity_state_eq in HP |- *. unfold rc4_start, rc4_schedule.
    revert HP. generalize (snd (fold_left (rc4_mix key) (seq 0 256) (0, map Z.of_nat (seq 0 256)))).
    intros st HP. split; [done|]. constructor; [done | done | exact HP].
Qed.

Lemma arcfour_init_spec key : bytes key -> key <> [] ->
  arcfour_init key (zlen key) = Ok (rc4_start key) /\ arc4_wf (rc4_start key).
Proof. intros Hk Hne. pose proof (arcfour_init_front key [] Hk Hne) as H. rewrite app_nil_r in H. exact H. Qed.

Lemma rc4_step_wf c : arc4_wf c -> arc4_wf (rc4_step c).
Proof. intros [Hx Hy HS]. split; cbn; auto using mod_256_byte, swap_perm. Qed.

Lemma at_swap_r st i j : is_perm st -> is_byte i -> is_byte j -> at_ (swap st i j) j = at_ st i.
Proof.
  intros HS Hi Hj. unfold is_byte in *. unfold at_ at 1, swap. apply list_lookup_total_insert_eq.
  rewrite length_insert, is_perm_length by done. lia.
Qed.

Lemma at_swap_l st i j : is_perm st -> is_byte i -> is_byte j -> at_ (swap st i j) i = at_ st j.
Proof.
  intros HS Hi Hj. destruct (Z.eq_dec i j) as [->|Hne]; [apply at_swap_r; done|].
  unfold is_byte in *. unfold at_ at 1, swap. rewrite list_lookup_total_insert_ne by lia.
  apply list_lookup_total_insert_eq. rewrite is_perm_length by done. lia.
Qed.

Lemma rc4_out_byte c : arc4_wf c -> is_byte (rc4_out c).
Proof. intros [Hx Hy HS]. apply at_byte; [done | apply mod_256_byte]. Qed.

Lemma arcfour_byte_spec c : arc4_wf c -> arcfour_byte c = Ok (rc4_out (rc4_step c), rc4_step c).
Proof.
  intros Hc. pose proof (rc4_step_wf c Hc) as Hc'. destruct Hc as [Hx Hy HS]. destruct c as [x y st].
  cbn [a4x a4y a4state] in *. unfold arcfour_byte, rc4_out, rc4_step in *. cbn [a4x a4y a4state] in *.
  rewrite !land_ff_mod. set (i := (x + 1) mod 256) in *. assert (Hi : is_byte i) by apply mod_256_byte.
  rewrite at_rd by done. cbn [bind]. rewrite land_ff_mod, (Z.add_comm (at_ st i) y).
  set (j := (y + at_ st i) mod 256) in *. assert (Hj : is_byte j) by apply mod_256_byte.
  rewrite at_rd by done. cbn [bind].
  pose proof (swap_wr st j i HS Hj Hi) as Hw.
  destruct (wr st j (u8 (at_ st i))) as [st1|]; [|discriminate]. cbn [bind] in Hw |- *.
  rewrite Hw. cbn [bind]. rewrite land_ff_mod.
  rewrite at_rd; [|apply Hc' | apply mod_256_byte]. cbn [bind].
  rewrite at_swap_r, at_swap_l by done. rewrite (Z.add_comm (at_ st i) (at_ st j)), Z.add_comm. done.
Qed.

Lemma rc4_after_wf n : forall c, arc4_wf c -> arc4_wf (rc4_after n c).
Proof. induction n as [|n IH]; intros c Hc; [done|]. apply IH, rc4_step_wf. done. Qed.

Lemma rc4_stream_length n : forall c, length (rc4_stream n c) = n.
Proof. induction n as [|n IH]; intros c; cbn; [done|]. rewrite IH. done. Qed.

Lemma rc4_stream_bytes n : forall c, arc4_wf c -> bytes (rc4_stream n c).
Proof.
  induction n as [|n IH]; intros c Hc; constructor.
  - apply rc4_out_byte, rc4_step_wf. done.
  - apply IH, rc4_step_wf. done.
Qed.

Lemma rc4_stream_app n m : forall c, rc4_stream (n + m) c = rc4_stream n c ++ rc4_stream m (rc4_after n c).
Proof. induction n as [|n IH]; intros c; cbn; [done|]. rewrite IH. done. Qed.

Lemma rc4_after_add n m : forall c, rc4_after (n + m) c = rc4_after m (rc4_after n c).
Proof. induction n as [|n IH]; intros c; cbn; [done|]. apply IH. Qed.

Lemma encrypt_turns_inside d l : forall a b i c,
  arc4_wf c -> zlen a = d + i ->
  encrypt_turns d (Inside d) (length l) i c (a ++ l ++ b) =
    Ok (a ++ xor_bytes l (rc4_stream (length l) c) ++ b, rc4_after (length l) c).
Proof.
  induction l as [|x l IH]; intros a b i c Hc Ha; [done|]. cbn [length encrypt_turns src_rd app]. rewrite <- Ha.
  rewrite rd_mid. cbn [bind]. rewrite arcfour_byte_spec by done. cbn [bind].
  pose proof (rc4_step_wf c Hc) as Hc'. rewrite u8_small by (apply rc4_out_byte; done).
  rewrite wr_mid. cbn [bind].
  replace (a ++ Z.lxor x (rc4_out (rc4_step c)) :: l ++ b)
    with ((a ++ [Z.lxor x (rc4_out (rc4_step c))]) ++ l ++ b) by (rewrite <- app_assoc; done).
  rewrite IH by (done || rewrite zlen_app, zlen_cons, zlen_nil; lia). rewrite <- app_assoc. done.
Qed.

Lemma encrypt_turns_other d l : forall a old b s c,
  arc4_wf c -> zlen a = d + zlen s -> length old = length l ->
  encrypt_turns d (Other (s ++ l)) (length l) (zlen s) c (a ++ old ++ b) =
    Ok (a ++ xor_bytes l (rc4_stream (length l) c) ++ b, rc4_after (length l) c).
Proof.
  induction l as [|x l IH]; intros a [|o old] b s c Hc Ha Ho; try discriminate; [done|].
  cbn [length encrypt_turns src_rd app]. rewrite <- Ha.
  rewrite rd_mid. cbn [bind]. rewrite arcfour_byte_spec by done. cbn [bind].
  pose proof (rc4_step_wf c Hc) as Hc'. rewrite u8_small by (apply rc4_out_byte; done).
  rewrite wr_mid. cbn [bind].
  replace (a ++ Z.lxor x (rc4_out (rc4_step c)) :: old ++ b)
    with ((a ++ [Z.lxor x (rc4_out (rc4_step c))]) ++ old ++ b) by (rewrite <- app_assoc; done).
  replace (s ++ x :: l) with ((s ++ [x]) ++ l) by (rewrite <- app_assoc; done).
  replace (zlen s + 1) with (zlen (s ++ [x])) by (rewrite zlen_app; done).
  rewrite IH; [|done | rewrite !zlen_app, zlen_cons, zlen_cons, !zlen_nil; lia | cbn in Ho; lia].
  rewrite <- app_assoc. done.
Qed.

Lemma zlen_u32 l : zlen (A:=Z) l < 2 ^ 32 -> Z.to_nat (u32 (zlen l)) = length l.
Proof. intros H. pose proof (zlen_nonneg l). rewrite u32_small by lia. unfold zlen. apply Nat2Z.id. Qed.

(** In place. *)
Lemma arcfour_encrypt_inside c a l b :
  arc4_wf c -> zlen l < 2 ^ 32 ->
  arcfour_encrypt c (a ++ l ++ b) (zlen a) (Inside (zlen a)) (zlen l) =
    Ok (a ++ xor_bytes l (rc4_stream (length l) c) ++ b, rc4_after (length l) c).
Proof. intros Hc Hl. unfold arcfour_encrypt. rewrite zlen_u32 by done. apply encrypt_turns_inside; [done | lia]. Qed.

(** From another array, over what was in the buffer. *)
Lemma arcfour_encrypt_other c a old b l :
  arc4_wf c -> zlen l < 2 ^ 32 -> length old = length l ->
  arcfour_encrypt c (a ++ old ++ b) (zlen a) (Other l) (zlen l) =
    Ok (a ++ xor_bytes l (rc4_stream (length l) c) ++ b, rc4_after (length l) c).
Proof.
  intros Hc Hl Ho. unfold arcfour_encrypt. rewrite zlen_u32 by done.
  apply (encrypt_turns_other (zlen a) l a old b []); [done | rewrite zlen_nil; lia | done].
Qed.

Lemma encrypt_turns_oob d n : forall i c mem,
  arc4_wf c -> 0 <= d + i -> d + i <= zlen mem < d + i + Z.of_nat n ->
  encrypt_turns d (Inside d) n i c mem = Fault OobRead.
Proof.
  induction n as [|n IH]; intros i c mem Hc Hd Hl; [lia|]. cbn [encrypt_turns src_rd].
  destruct (Z.ltb_spec (d + i) (zlen mem)) as [Hi|Hi].
  - destruct (rd_in mem (d + i)) as [v Hv]; [lia|]. rewrite Hv. cbn [bind].
    rewrite arcfour_byte_spec by done. cbn [bind]. rewrite wr_in by lia. cbn [bind].
    apply IH; [apply rc4_step_wf; done | lia |]. unfold zlen in *. rewrite length_insert. lia.
  - rewrite rd_oob by lia. done.
Qed.

(** A count that reaches beyond the buffer, a negative [sint] among them. *)
Lemma arcfour_encrypt_oob c mem d len :
  arc4_wf c -> 0 <= d <= zlen mem -> zlen mem < d + u32 len ->
  arcfour_encrypt c mem d (Inside d) len = Fault OobRead.
Proof.
  intros Hc Hd Hl. unfold arcfour_encrypt. pose proof (u32_range len).
  apply encrypt_turns_oob; [done | lia | lia].
Qed.

Lemma xor_bytes_twice a : forall b, length a = length b -> xor_bytes (xor_bytes a b) b = a.
Proof.
  induction a as [|x a IH]; intros [|y b] H; try discriminate; [done|]. unfold xor_bytes in *. cbn.
  rewrite Z.lxor_assoc, Z.lxor_nilpotent, Z.lxor_0_r. f_equal. apply IH. cbn in H. lia.
Qed.

Lemma xor_bytes_length a b : length a = length b -> length (xor_bytes a b) = length a.
Proof. intros H. unfold xor_bytes. rewrite length_zip_with. lia. Qed.

Lemma xor_bytes_app a b c d : length a = length c -> xor_bytes (a ++ b) (c ++ d) = xor_bytes a c ++ xor_bytes b d.
Proof. intros H. apply zip_with_app. done. Qed.

Lemma xor_bytes_bytes a : forall b, bytes a -> bytes b -> bytes (xor_bytes a b).
Proof.
  induction a as [|x a IH]; intros [|y b] Ha Hb; try constructor.
  - apply lxor_byte; [inversion Ha; done | inversion Hb; done].
  - apply IH; [inversion Ha; done | inversion Hb; done].
Qed.

(** ** Theorems *)

(** Key schedule and generator are RC4: for any key, encrypting a part of a buffer in place XORs it with the
    reference key stream and leaves the rest of the buffer alone. *)
Theorem arcfour_is_rc4 key a l b :
  bytes key -> key <> [] -> zlen l < 2 ^ 32 ->
  (c <- arcfour_init key (zlen key) ;; arcfour_encrypt c (a ++ l ++ b) (zlen a) (Inside (zlen a)) (zlen l)) =
    Ok (a ++ xor_bytes l (rc4_stream (length l) (rc4_start key)) ++ b, rc4_after (length l) (rc4_start key)).
Proof.
  intros Hk Hne Hl. destruct (arcfour_init_spec key Hk Hne) as [-> Hwf]. cbn [bind].
  apply arcfour_encrypt_inside; done.
Qed.

Lemma arcfour_is_rc4_witness :
  bytes (bytes_of "Key") /\ xor_bytes (bytes_of "Plaintext") (rc4_stream 9 (rc4_start (bytes_of "Key"))) =
    [0xbb; 0xf3; 0x16; 0xe8; 0xd9; 0x40; 0xaf; 0x0a; 0xd3] /\
  (c <- arcfour_init (bytes_of "Key") 3 ;; arcfour_encrypt c (bytes_of "Plaintext") 0 (Inside 0) 9) =
    Ok (xor_bytes (bytes_of "Plaintext") (rc4_stream 9 (rc4_start (bytes_of "Key"))),
        rc4_after 9 (rc4_start (bytes_of "Key"))).
Proof.
  assert (Hk : bytes (bytes_of "Key")) by (apply bytes_by_compute; vm_compute; reflexivity).
  split; [exact Hk|]. split; [vm_compute; reflexivity|].
  pose proof (arcfour_is_rc4 (bytes_of "Key") [] (bytes_of "Plaintext") [] Hk) as H.
  rewrite !app_nil_r in H. apply H; [discriminate | vm_compute; reflexivity].
Defined.

(** C37: the cipher's state stays well-typed: from any key on, after any number of bytes, the 256 entries are a
    permutation of the byte values and both indices are bytes. *)
Theorem arcfour_state_stays_permutation key n :
  bytes key -> key <> [] ->
  exists c, arcfour_init key (zlen key) = Ok c /\ a4state c ≡ₚ map Z.of_nat (seq 0 256) /\
    forall mem d, 0 <= d -> d + Z.of_nat n <= zlen mem -> Z.of_nat n < 2 ^ 32 ->
    exists mem' c', arcfour_encrypt c mem d (Inside d) (Z.of_nat n) = Ok (mem', c') /\
      zlen mem' = zlen mem /\ a4state c' ≡ₚ map Z.of_nat (seq 0 256) /\ is_byte (a4x c') /\ is_byte (a4y c').
Proof.
  intros Hk Hne. destruct (arcfour_init_spec key Hk Hne) as [HE Hwf]. exists (rc4_start key).
  split; [done|]. split; [apply Hwf|]. intros mem d Hd Hl Hn.
  set (a := take (Z.to_nat d) mem). set (l := take n (drop (Z.to_nat d) mem)).
  set (b := drop n (drop (Z.to_nat d) mem)).
  assert (Hm : mem = a ++ l ++ b) by (unfold a, l, b; rewrite !take_drop; done).
  assert (Ha : d = zlen a) by (unfold a; unfold zlen in *; rewrite length_take; lia).
  assert (Hll : length l = n) by (unfold l; unfold zlen in *; rewrite length_take, length_drop; lia).
  exists (a ++ xor_bytes l (rc4_stream n (rc4_start key)) ++ b), (rc4_after n (rc4_start key)).
  destruct (rc4_after_wf n _ Hwf) as [Hx Hy HS].
  rewrite Hm, Ha. clearbody a l b. subst n.
  split; [apply arcfour_encrypt_inside; done|]. split; [|done].
  rewrite !zlen_app. unfold zlen. rewrite xor_bytes_length by (rewrite rc4_stream_length; done). done.
Qed.

Lemma arcfour_state_stays_permutation_witness :
  exists c, arcfour_init [1; 2; 3] 3 = Ok c /\ a4state c ≡ₚ map Z.of_nat (seq 0 256).
Proof.
  destruct (arcfour_state_stays_permutation [1; 2; 3] 4) as (c & H1 & H2 & _).
  - apply bytes_by_compute. reflexivity.
  - discriminate.
  - exists c. split; [exact H1 | exact H2].
Defined.
