(* ===== verification/Sec.v ===== *)
(** * What the ciphers share

    The fields of [struct security_priv], [struct pkt_attrib] and [struct rx_pkt_attrib] that
    [core/rtw_security.c] reads and writes, the counters of software encryption, and the loop over
    the fragments of a frame, which the file repeats for every cipher. *)
From Stdlib Require Import ZArith Lia Bool.
From stdpp Require Import base option list numbers.
From S2P Require Import Prelude.
Local Open Scope Z_scope.

Definition NO_PRIVACY := 0x00.
Definition WEP40 := 0x01.
Definition TKIP := 0x02.
Definition AES := 0x04.
Definition WEP104 := 0x05.
Definition GCMP := 0x07.
Definition CCMP_256 := 0x14.
Definition GCMP_256 := 0x17.

Definition SUCCESS := 1.
Definition FAIL := 0.

(** ** Addresses *)

(** Byte [i] of a six-byte address. *)
Definition addr (a : list Z) (i : nat) : Z := default 0 (a !! i).

(* src: include/wifi.h:458-464 IS_MCAST *)
Definition IS_MCAST (da : list Z) : bool := negb ((addr da 0 & 0x01) =? 0).

(* src: include/ieee80211.h:1411 is_multicast_mac_addr *)
Definition is_multicast_mac_addr (a : list Z) : bool :=
  ((addr a 0 & 0x01) =? 0x01) && negb (addr a 0 =? 0xff).

(* src: include/ieee80211.h:1412-1414 is_broadcast_mac_addr *)
Definition is_broadcast_mac_addr (a : list Z) : bool :=
  forallb (fun i => (addr a i & 0xff) =? 0xff) (seq 0 6).

(** ** Counters *)

(** [.._bc], [.._mc], [.._uc] *)
Record cnt3 : Type := mkCnt { cnt_bc : Z; cnt_mc : Z; cnt_uc : Z }.

(* src: core/rtw_security.c:72-79 WEP_SW_ENC_CNT_INC *)
Definition SW_CNT_INC (c : cnt3) (ra : list Z) : cnt3 :=
  if is_broadcast_mac_addr ra then mkCnt (u64 (cnt_bc c + 1)) (cnt_mc c) (cnt_uc c)
  else if is_multicast_mac_addr ra then mkCnt (cnt_bc c) (u64 (cnt_mc c + 1)) (cnt_uc c)
  else mkCnt (cnt_bc c) (cnt_mc c) (u64 (cnt_uc c + 1)).

(** ** Data *)

(** [struct security_priv]; a [union Keytype] is its 32 bytes. *)
(* src: include/rtw_security.h:136-149 security_priv *)
Record security_priv : Type := mkSec {
  dot11PrivacyAlgrthm : Z;
  dot11PrivacyKeyIndex : Z;
  dot11DefKey : list (list Z);
  dot11DefKeylen : list Z;
  key_mask : Z;
  dot118021XGrpKeyid : Z;
  dot118021XGrpKey : list (list Z);
  binstallGrpkey : bool;
  btkip_countermeasure : bool;
  btkip_countermeasure_time : Z;
  wep_sw_enc_cnt : cnt3; wep_sw_dec_cnt : cnt3;
  tkip_sw_enc_cnt : cnt3; tkip_sw_dec_cnt : cnt3;
  aes_sw_enc_cnt : cnt3; aes_sw_dec_cnt : cnt3;
  gcmp_sw_enc_cnt : cnt3; gcmp_sw_dec_cnt : cnt3 }.

Inductive sw_cnt : Type :=
| WepEnc | WepDec | TkipEnc | TkipDec | AesEnc | AesDec | GcmpEnc | GcmpDec.

#[export] Instance sw_cnt_eq_dec : EqDecision sw_cnt.
Proof. solve_decision. Defined.

(** Which counter is raised, for which receiver. *)
Definition count_sw (w : sw_cnt) (ra : list Z) (s : security_priv) : security_priv :=
  let up v c := if decide (v = w) then SW_CNT_INC c ra else c in
  mkSec (dot11PrivacyAlgrthm s) (dot11PrivacyKeyIndex s) (dot11DefKey s) (dot11DefKeylen s) (key_mask s)
    (dot118021XGrpKeyid s) (dot118021XGrpKey s) (binstallGrpkey s)
    (btkip_countermeasure s) (btkip_countermeasure_time s)
    (up WepEnc (wep_sw_enc_cnt s)) (up WepDec (wep_sw_dec_cnt s))
    (up TkipEnc (tkip_sw_enc_cnt s)) (up TkipDec (tkip_sw_dec_cnt s))
    (up AesEnc (aes_sw_enc_cnt s)) (up AesDec (aes_sw_dec_cnt s))
    (up GcmpEnc (gcmp_sw_enc_cnt s)) (up GcmpDec (gcmp_sw_dec_cnt s)).

(** What a cipher reads of [struct pkt_attrib] and of the transmit buffer. *)
(* src: include/rtw_xmit.h:402-420 pkt_attrib *)
Record pkt_attrib : Type := mkTx {
  t_encrypt : Z; t_hdrlen : Z; t_iv_len : Z; t_icv_len : Z;
  t_nr_frags : Z; t_last_txcmdsz : Z;
  t_ta : list Z; t_ra : list Z;
  t_UncstKey : list Z }.

(* src: include/rtw_recv.h:157-190 rx_pkt_attrib *)
Record rx_pkt_attrib : Type := mkRx {
  r_encrypt : Z; r_hdrlen : Z; r_iv_len : Z; r_key_index : Z;
  r_ta : list Z; r_ra : list Z }.

(** A transmit frame: the bytes at [buf_addr], the address they lie at, [pkt_offset]. *)
Record xmit_frame : Type := mkXmit { x_buf : option (list Z); x_addr : Z; x_pkt_offset : Z }.

Definition TXDESC_SIZE := 40.
Definition PACKET_OFFSET_SZ := 8.

(** [hw_hdr_offset] is a [u8]. *)
(* src: core/rtw_security.c:298-299 rtw_wep_encrypt *)
Definition hw_hdr_offset (x : xmit_frame) : Z := u8 (TXDESC_SIZE + x_pkt_offset x * PACKET_OFFSET_SZ).

(** ** Group frames that arrive before the group key

    Three routines keep a log of them, each in static variables of its own. [now] and [passing]
    are the kernel's clock and the milliseconds since a time. *)

Record gk_log : Type := mkGk { gk_start : Z; no_gkey_bc_cnt : Z; no_gkey_mc_cnt : Z }.

(* src: core/rtw_security.c:878-894 rtw_tkip_decrypt *)
Definition gk_missing (now : Z) (passing : Z -> Z) (ra : list Z) (g : gk_log) : gk_log :=
  let start := if gk_start g =? 0 then now else gk_start g in
  let g := if is_broadcast_mac_addr ra then mkGk start (u32 (no_gkey_bc_cnt g + 1)) (no_gkey_mc_cnt g)
           else mkGk start (no_gkey_bc_cnt g) (u32 (no_gkey_mc_cnt g + 1)) in
  if 1000 <? passing start then mkGk now 0 0 else g.

(** ** The fragments of a frame *)

(* src: include/osdep_service.h:586 RND4 *)
Definition RND4 (x : Z) : Z :=
  Z.shiftl (Z.shiftr x 2 + (if (x & 3) =? 0 then 0 else 1)) 2.

Section Fragments.
  Context {St : Type} (frag : Z -> Z -> St -> res St).
  Context (A frag_len : Z) (at_ : pkt_attrib).

(** The loop every [.._encrypt] runs: [frag pframe length] treats one fragment; [pframe] is an offset
    from the buffer's address [A]. [n] fragments are left, of which this is [cur]. *)
(* src: core/rtw_security.c:314-341 rtw_wep_encrypt *)
Fixpoint each_fragment (n : nat) (cur pframe : Z) (st : St) : res St :=
  match n with
  | O => Ok st
  | S n =>
      if cur + 1 =? t_nr_frags at_ then
        st <- frag pframe (s32 (t_last_txcmdsz at_ - t_hdrlen at_ - t_iv_len at_ - t_icv_len at_)) st ;;
        each_fragment n (cur + 1) pframe st
      else
        st <- frag pframe (s32 (frag_len - t_hdrlen at_ - t_iv_len at_ - t_icv_len at_)) st ;;
        each_fragment n (cur + 1) (RND4 (A + (pframe + frag_len)) - A) st
  end.

Definition fragments (pframe : Z) (st : St) : res St :=
  each_fragment (Z.to_nat (t_nr_frags at_)) 0 pframe st.
End Fragments.

(** ** Lemmas *)

Lemma Forall2_map_r {X Y} (P : X -> Prop) (Q : X -> Y -> Prop) (g : X -> Y) fs :
  Forall P fs -> (forall f, P f -> Q f (g f)) -> Forall2 Q fs (map g fs).
Proof. intros H HQ. induction H as [|f fs Hf H IH]; constructor; auto. Qed.

Lemma RND4_spec x : RND4 x = 4 * ((x + 3) / 4).
Proof.
  unfold RND4. rewrite Z.shiftl_mul_pow2, Z.shiftr_div_pow2 by lia. change 3 with (Z.ones 2) at 1.
  rewrite Z.land_ones by lia. change (2 ^ 2) with 4.
  pose proof (Z.div_mod x 4 ltac:(lia)) as Hx. pose proof (Z.mod_pos_bound x 4 ltac:(lia)) as Hm.
  destruct (Z.eqb_spec (x mod 4) 0) as [E|E].
  - replace (x + 3) with (x / 4 * 4 + 3) by lia. rewrite Z.div_add_l by lia. rewrite (Z.div_small 3) by lia. lia.
  - replace (x + 3) with ((x / 4 + 1) * 4 + (x mod 4 - 1)) by lia. rewrite Z.div_add_l by lia.
    rewrite (Z.div_small (x mod 4 - 1)) by lia. lia.
Qed.

Lemma RND4_bounds x : x <= RND4 x < x + 4.
Proof.
  rewrite RND4_spec. pose proof (Z.div_mod (x + 3) 4 ltac:(lia)). pose proof (Z.mod_pos_bound (x + 3) 4 ltac:(lia)). lia.
Qed.

(** [laid_out A frag_len off fs m]: from offset [off] on, the bytes [m] hold the fragments [fs], every one
    but the last [frag_len] bytes long and followed by the padding that aligns the next. *)
Fixpoint laid_out (A frag_len off : Z) (fs : list (list Z)) (m : list Z) : Prop :=
  match fs with
  | [] => False
  | [f] => exists post, m = f ++ post
  | f :: fs => exists pad rest, m = f ++ pad ++ rest /\ zlen f = frag_len /\
      off + frag_len + zlen pad = RND4 (A + (off + frag_len)) - A /\
      laid_out A frag_len (off + frag_len + zlen pad) fs rest
  end.

Section LaidOut.
  Context (A frag_len : Z) (at_ : pkt_attrib) {E : Type}.
  Context (frag : Z -> Z -> list Z * E -> res (list Z * E)) (e : E).
  Context (good : list Z -> Prop) (g : list Z -> list Z).

  (** What a cipher does to one fragment, wherever it lies; [e] is the state the first turn leaves. *)
  Context (e0 : E).
  Context (frag_spec : forall e1 a f b, e1 = e0 \/ e1 = e -> good f ->
    frag (zlen a) (s32 (zlen f - t_hdrlen at_ - t_iv_len at_ - t_icv_len at_)) (a ++ f ++ b, e1) =
      Ok (a ++ g f ++ b, e)).
  Context (g_zlen : forall f, good f -> zlen (g f) = zlen f).

Lemma each_fragment_laid_out fs : forall a m cur e1,
  e1 = e0 \/ e1 = e -> Forall good fs -> laid_out A frag_len (zlen a) fs m ->
  Z.of_nat (length fs) + cur = t_nr_frags at_ ->
  (forall fs' f, fs = fs' ++ [f] -> zlen f = t_last_txcmdsz at_) ->
  exists m', each_fragment frag A frag_len at_ (length fs) cur (zlen a) (a ++ m, e1) = Ok (a ++ m', e) /\
    laid_out A frag_len (zlen a) (map g fs) m'.
Proof.
  induction fs as [|f fs IH]; intros a m cur e1 He Hg Hm Hn Hl; [done|].
  apply Forall_cons_1 in Hg as [Hf Hg]. cbn [each_fragment length] in *. destruct fs as [|f2 fs].
  - destruct Hm as [post ->]. rewrite (proj2 (Z.eqb_eq _ _)) by (cbn [length] in Hn; lia).
    rewrite <- (Hl [] f eq_refl). rewrite frag_spec by done. cbn [bind each_fragment].
    exists (g f ++ post). split; [done|]. exists post. done.
  - destruct Hm as (pad & rest & -> & Hfl & Hp & Hr).
    replace (cur + 1 =? t_nr_frags at_) with false.
    2:{ symmetry. apply Z.eqb_neq. cbn [length] in Hn. lia. }
    replace (frag_len - t_hdrlen at_) with (zlen f - t_hdrlen at_) by lia. rewrite frag_spec by done. cbn [bind]. rewrite <- Hp.
    pose proof (g_zlen f Hf) as Hgl.
    replace (zlen a + frag_len + zlen pad) with (zlen (a ++ g f ++ pad)) in Hr |- *
      by (rewrite !zlen_app; lia).
    replace (a ++ g f ++ pad ++ rest) with ((a ++ g f ++ pad) ++ rest) by (rewrite <- !app_assoc; done).
    destruct (IH (a ++ g f ++ pad) rest (cur + 1) e) as (m' & -> & Hm');
      [right; done | done | done | cbn [length] in Hn |- *; lia | intros fs' f' E'; apply (Hl (f :: fs')); rewrite E'; done |].
    exists (g f ++ pad ++ m'). split; [rewrite <- !app_assoc; done|].
    exists pad, m'. split; [done|]. split; [lia|]. split; [done|].
    replace (zlen a + frag_len + zlen pad) with (zlen (a ++ g f ++ pad)) by (rewrite !zlen_app; lia). exact Hm'.
Qed.

Lemma fragments_laid_out fs a m :
  Forall good fs -> laid_out A frag_len (zlen a) fs m -> zlen fs = t_nr_frags at_ ->
  (forall fs' f, fs = fs' ++ [f] -> zlen f = t_last_txcmdsz at_) ->
  exists m', fragments frag A frag_len at_ (zlen a) (a ++ m, e0) = Ok (a ++ m', e) /\
    laid_out A frag_len (zlen a) (map g fs) m'.
Proof.
  intros Hg Hm Hn Hl. unfold fragments. rewrite <- Hn. unfold zlen at 1. rewrite Nat2Z.id.
  apply each_fragment_laid_out; [left; done | done | done | unfold zlen in Hn; lia | done].
Qed.
End LaidOut.
