(* ===== verification/Acl.v ===== *)
(** * Access control by MAC address

    [rtw_macaddr_acl_init], [rtw_macaddr_acl_deinit], [rtw_macaddr_acl_clear], [rtw_set_macaddr_acl], [rtw_acl_add_sta] and
    [rtw_acl_remove_sta] of [core/rtw_ap.c] and [rtw_access_ctrl] of [core/rtw_sta_mgt.c]. A list of sixteen nodes
    and a queue of those in use implement a bounded set of addresses. *)
From Stdlib Require Import ZArith Lia Bool.
From stdpp Require Import base option list numbers gmap sets.
From S2P Require Import Prelude Sec.
Local Open Scope Z_scope.

(** ** Data *)

Definition NUM_ACL : nat := 16.
Definition RTW_ACL_PERIOD_NUM := 2.
Definition RTW_ACL_MODE_DISABLED := 0.
Definition RTW_ACL_MODE_ACCEPT_UNLESS_LISTED := 1.
Definition RTW_ACL_MODE_DENY_UNLESS_LISTED := 2.

(* src: include/sta_info.h:89-93 rtw_wlan_acl_node *)
Record rtw_wlan_acl_node : Type := mkNode { n_addr : list Z; n_valid : bool }.

(** [acl_node_q] are the indices of the nodes linked in it. *)
(* src: include/sta_info.h:95-100 wlan_acl_pool *)
Record wlan_acl_pool : Type := mkAcl { acl_mode : Z; acl_num : Z; aclnode : list rtw_wlan_acl_node; acl_node_q : list nat }.

Definition node_at (a : wlan_acl_pool) (i : nat) : rtw_wlan_acl_node := default (mkNode [] false) (aclnode a !! i).

(** ** Operations on a pool *)

(* src: core/rtw_ap.c:2568-2595 rtw_macaddr_acl_init *)
Definition acl_init (a : wlan_acl_pool) : wlan_acl_pool :=
  mkAcl RTW_ACL_MODE_DISABLED 0 (map (fun n => mkNode (n_addr n) false) (aclnode a)) [].

(** One node of the queue given up. *)
Definition acl_drop (i : nat) (a : wlan_acl_pool) : wlan_acl_pool :=
  mkAcl (acl_mode a) (acl_num a - 1) (<[i := mkNode (n_addr (node_at a i)) false]> (aclnode a)) (filter (.≠ i) (acl_node_q a)).

(** The loop that removes: [q] is what is left of the queue. *)
(* src: core/rtw_ap.c:2762-2774 rtw_acl_remove_sta *)
Fixpoint acl_drop_loop (test : list Z -> bool) (q : list nat) (a : wlan_acl_pool) : wlan_acl_pool :=
  match q with
  | [] => a
  | i :: q =>
      let n := node_at a i in
      acl_drop_loop test q (if test (n_addr n) && n_valid n then acl_drop i a else a)
  end.

(* src: core/rtw_ap.c:2597-2634 _rtw_macaddr_acl_deinit *)
Definition acl_clear (a : wlan_acl_pool) : wlan_acl_pool :=
  let a := acl_drop_loop (fun _ => true) (acl_node_q a) a in
  mkAcl RTW_ACL_MODE_DISABLED (acl_num a) (aclnode a) (acl_node_q a).

(* src: core/rtw_ap.c:2646-2662 rtw_set_macaddr_acl *)
Definition acl_set_mode (mode : Z) (a : wlan_acl_pool) : wlan_acl_pool := mkAcl mode (acl_num a) (aclnode a) (acl_node_q a).

(** A valid node of the queue with the address. *)
(* src: core/rtw_sta_mgt.c:1138-1152 _rtw_access_ctrl *)
Definition acl_listed (addr : list Z) (a : wlan_acl_pool) : bool :=
  existsb (fun i => list_eqb (n_addr (node_at a i)) addr && n_valid (node_at a i)) (acl_node_q a).

(** The first node that is not in use, from [i] on. *)
Fixpoint empty_node (l : list rtw_wlan_acl_node) (i : nat) : option nat :=
  match l with
  | [] => None
  | n :: l => if n_valid n then empty_node l (S i) else Some i
  end.

(* src: core/rtw_ap.c:2664-2735 rtw_acl_add_sta *)
Definition acl_add (addr : list Z) (a : wlan_acl_pool) : Z * wlan_acl_pool :=
  if acl_listed addr a then (0, a)
  else if Z.of_nat NUM_ACL <=? acl_num a then (-1, a)
  else
    match empty_node (take NUM_ACL (aclnode a)) 0 with
    | None => (-1, a)
    | Some i => (0, mkAcl (acl_mode a) (acl_num a + 1) (<[i := mkNode addr true]> (aclnode a)) (acl_node_q a ++ [i]))
    end.

(* src: core/rtw_ap.c:2737-2785 rtw_acl_remove_sta *)
Definition acl_remove (addr : list Z) (a : wlan_acl_pool) : wlan_acl_pool :=
  let is_baddr := is_broadcast_mac_addr addr in
  acl_drop_loop (fun x => is_baddr || list_eqb x addr) (acl_node_q a) a.

(** ** The two periods *)

(** A period out of range leaves everything as it is. *)
Definition at_period (period : Z) (f : wlan_acl_pool -> wlan_acl_pool) (l : list wlan_acl_pool) : list wlan_acl_pool :=
  if RTW_ACL_PERIOD_NUM <=? period then l
  else match l !! Z.to_nat period with None => l | Some a => <[Z.to_nat period := f a]> l end.

(* src: core/rtw_ap.c:2568-2595 rtw_macaddr_acl_init *)
Definition rtw_macaddr_acl_init (period : Z) : list wlan_acl_pool -> list wlan_acl_pool := at_period period acl_init.
(* src: core/rtw_ap.c:2641-2644 rtw_macaddr_acl_clear *)
Definition rtw_macaddr_acl_clear (period : Z) : list wlan_acl_pool -> list wlan_acl_pool := at_period period acl_clear.
(* src: core/rtw_ap.c:2646-2662 rtw_set_macaddr_acl *)
Definition rtw_set_macaddr_acl (period mode : Z) : list wlan_acl_pool -> list wlan_acl_pool := at_period period (acl_set_mode mode).
(* src: core/rtw_ap.c:2737-2785 rtw_acl_remove_sta *)
Definition rtw_acl_remove_sta (period : Z) (addr : list Z) : list wlan_acl_pool -> list wlan_acl_pool :=
  at_period period (acl_remove addr).

(* src: core/rtw_ap.c:2664-2735 rtw_acl_add_sta *)
Definition rtw_acl_add_sta (period : Z) (addr : list Z) (l : list wlan_acl_pool) : Z * list wlan_acl_pool :=
  if RTW_ACL_PERIOD_NUM <=? period then (-1, l)
  else
    match l !! Z.to_nat period with
    | None => (-1, l)
    | Some a => let '(r, a) := acl_add addr a in (r, <[Z.to_nat period := a]> l)
    end.

(* src: core/rtw_sta_mgt.c:1115-1161 _rtw_access_ctrl *)
Definition _rtw_access_ctrl (period : Z) (addr : list Z) (l : list wlan_acl_pool) : bool :=
  if RTW_ACL_PERIOD_NUM <=? period then true
  else
    match l !! Z.to_nat period with
    | None => true
    | Some a =>
        if negb (acl_mode a =? RTW_ACL_MODE_ACCEPT_UNLESS_LISTED) && negb (acl_mode a =? RTW_ACL_MODE_DENY_UNLESS_LISTED) then true
        else if acl_mode a =? RTW_ACL_MODE_ACCEPT_UNLESS_LISTED then negb (acl_listed addr a)
        else acl_listed addr a
    end.

(* src: core/rtw_sta_mgt.c:1163-1172 rtw_access_ctrl *)
Definition rtw_access_ctrl (addr : list Z) (l : list wlan_acl_pool) : bool :=
  forallb (fun i => _rtw_access_ctrl (Z.of_nat i) addr l) (seq 0 (Z.to_nat RTW_ACL_PERIOD_NUM)).

(** ** Specification: a bounded set of addresses per period *)

Record acl_spec : Type := mkSpec { sp_mode : Z; sp_set : gset (list Z) }.

Inductive acl_op : Type := OpAdd (x : list Z) | OpRemove (x : list Z) | OpMode (m : Z) | OpClear.

Definition spec_op (op : acl_op) (s : acl_spec) : Z * acl_spec :=
  match op with
  | OpAdd x =>
      if decide (x ∈ sp_set s) then (0, s)
      else if decide (NUM_ACL <= size (sp_set s))%nat then (-1, s)
      else (0, mkSpec (sp_mode s) ({[x]} ∪ sp_set s))
  | OpRemove x => (0, mkSpec (sp_mode s) (if is_broadcast_mac_addr x then ∅ else sp_set s ∖ {[x]}))
  | OpMode m => (0, mkSpec m (sp_set s))
  | OpClear => (0, mkSpec RTW_ACL_MODE_DISABLED ∅)
  end.

Definition spec_admits (x : list Z) (s : acl_spec) : Prop :=
  (sp_mode s = RTW_ACL_MODE_ACCEPT_UNLESS_LISTED -> x ∉ sp_set s) /\
  (sp_mode s = RTW_ACL_MODE_DENY_UNLESS_LISTED -> x ∈ sp_set s).

(** The code's side of an operation, and what it stands for. *)
Definition acl_run_op (op : acl_op) (a : wlan_acl_pool) : Z * wlan_acl_pool :=
  match op with
  | OpAdd x => acl_add x a
  | OpRemove x => (0, acl_remove x a)
  | OpMode m => (0, acl_set_mode m a)
  | OpClear => (0, acl_clear a)
  end.

Definition addr_of (a : wlan_acl_pool) (i : nat) : list Z := n_addr (node_at a i).
Definition acl_abs (a : wlan_acl_pool) : acl_spec := mkSpec (acl_mode a) (list_to_set (map (addr_of a) (acl_node_q a))).

(** A queue without repetition links exactly the valid nodes, which have different addresses. *)
Record acl_ok (a : wlan_acl_pool) : Prop := {
  ok_len : length (aclnode a) = NUM_ACL;
  ok_nodup : NoDup (acl_node_q a);
  ok_valid : forall i, i ∈ acl_node_q a <-> (i < NUM_ACL)%nat /\ n_valid (node_at a i) = true;
  ok_num : acl_num a = zlen (acl_node_q a);
  ok_addrs : NoDup (map (addr_of a) (acl_node_q a)) }.

(** ** Lemmas *)

Lemma in_abs a x : x ∈ sp_set (acl_abs a) <-> exists i, i ∈ acl_node_q a /\ addr_of a i = x.
Proof.
  cbn. rewrite elem_of_list_to_set, list_elem_of_In, in_map_iff. split; intros (i & H1 & H2); exists i.
  - rewrite list_elem_of_In. auto.
  - rewrite <- list_elem_of_In. auto.
Qed.

Lemma listed_spec a x : acl_ok a -> acl_listed x a = bool_decide (x ∈ sp_set (acl_abs a)).
Proof.
  intros H. apply eq_bool_prop_intro. rewrite !Is_true_true, bool_decide_eq_true, in_abs. unfold acl_listed.
  rewrite existsb_exists. split.
  - intros (i & Hi & Hx). apply andb_true_iff in Hx as [Hx _]. apply bool_decide_eq_true in Hx.
    exists i. rewrite list_elem_of_In. auto.
  - intros (i & Hi & Hx). exists i. rewrite <- list_elem_of_In. split; [done|]. apply andb_true_iff.
    split; [apply bool_decide_eq_true; exact Hx | apply (ok_valid a H), Hi].
Qed.

Lemma abs_size a : acl_ok a -> size (sp_set (acl_abs a)) = length (acl_node_q a).
Proof. intros H. cbn. rewrite size_list_to_set by apply H. apply length_map. Qed.

Lemma node_at_insert a m q k i j n : (i < length (aclnode a))%nat ->
  node_at (mkAcl m k (<[i := n]> (aclnode a)) q) j = if decide (j = i) then n else node_at a j.
Proof.
  intros Hi. unfold node_at. cbn [aclnode]. case_decide as E; [subst; rewrite list_lookup_insert_eq by done; done|].
  rewrite list_lookup_insert_ne by done. done.
Qed.

Lemma drop_ok a i : acl_ok a -> i ∈ acl_node_q a ->
  acl_ok (acl_drop i a) /\ acl_mode (acl_drop i a) = acl_mode a /\
  (forall j, j ∈ acl_node_q (acl_drop i a) <-> j ∈ acl_node_q a /\ j <> i) /\
  (forall j, addr_of (acl_drop i a) j = addr_of a j).
Proof.
  intros H Hi. assert (Hlt : (i < length (aclnode a))%nat) by (rewrite (ok_len a H); apply (ok_valid a H), Hi).
  assert (HA : forall j, addr_of (acl_drop i a) j = addr_of a j).
  { intros j. unfold addr_of, acl_drop. rewrite node_at_insert by done. case_decide as E; [subst; done|done]. }
  assert (HQ : forall j, j ∈ acl_node_q (acl_drop i a) <-> j ∈ acl_node_q a /\ j <> i).
  { intros j. cbn [acl_drop acl_node_q]. rewrite list_elem_of_filter. tauto. }
  split; [|done]. split.
  - cbn. rewrite length_insert. apply H.
  - apply NoDup_filter, H.
  - intros j. rewrite HQ, (ok_valid a H). unfold acl_drop. rewrite node_at_insert by done. case_decide as E; cbn; [subst; split; [tauto | intros [_ [=]]]|tauto].
  - cbn [acl_drop acl_num acl_node_q]. rewrite (ok_num a H). rewrite (filter_zlen_in i _ (ok_nodup a H) Hi). lia.
  - rewrite (map_ext _ _ HA). cbn [acl_drop acl_node_q]. eapply sublist_NoDup; [apply H|]. apply (fmap_sublist (addr_of a)), sublist_filter.
Qed.

(** The loop drops, of the nodes in [q], those whose address passes the test. *)
Lemma drop_loop_spec test q : forall a, acl_ok a -> NoDup q -> (forall i, i ∈ q -> i ∈ acl_node_q a) ->
  let a' := acl_drop_loop test q a in
  acl_ok a' /\ acl_mode a' = acl_mode a /\ (forall j, addr_of a' j = addr_of a j) /\
  (forall j, j ∈ acl_node_q a' <-> j ∈ acl_node_q a /\ ~ (j ∈ q /\ test (addr_of a j) = true)).
Proof.
  induction q as [|i q IH]; intros a H Hn Hq; cbn [acl_drop_loop].
  - split; [done|]. split; [done|]. split; [done|]. intros j. rewrite elem_of_nil. tauto.
  - apply list.NoDup_cons in Hn as [Hi Hn]. pose proof (Hq i ltac:(left)) as Hqi.
    rewrite (proj2 (proj1 (ok_valid a H i) Hqi)), andb_true_r. fold (addr_of a i).
    destruct (test (addr_of a i)) eqn:Et.
    + destruct (drop_ok a i H Hqi) as (H' & Hm & HQ & HA).
      destruct (IH (acl_drop i a) H' Hn) as (G1 & G2 & G3 & G4).
      { intros j Hj. apply HQ. split; [apply Hq; right; done | intros ->; done]. }
      split; [done|]. split; [congruence|]. split; [intros j; rewrite G3; apply HA|].
      intros j. rewrite G4, HQ, HA, elem_of_cons. split; [|intuition congruence].
      intros [[H1 H2] H3]. split; [done|]. intros [[->|H4] H5]; [done | tauto].
    + destruct (IH a H Hn) as (G1 & G2 & G3 & G4); [intros j Hj; apply Hq; right; done|].
      split; [done|]. split; [done|]. split; [done|]. intros j. rewrite G4, elem_of_cons.
      split; intros [H1 H2]; (split; [done|]); [intros [[->|H4] H5]; [congruence | tauto] | tauto].
Qed.

Lemma drop_all_spec test a : acl_ok a ->
  let a' := acl_drop_loop test (acl_node_q a) a in
  acl_ok a' /\ acl_mode a' = acl_mode a /\
  (forall x, x ∈ sp_set (acl_abs a') <-> x ∈ sp_set (acl_abs a) /\ test x = false).
Proof.
  intros H a'. destruct (drop_loop_spec test (acl_node_q a) a H (ok_nodup a H) (fun i Hi => Hi)) as (G1 & G2 & G3 & G4).
  fold a' in G1, G2, G3, G4. split; [done|]. split; [done|]. intros x. rewrite !in_abs. split.
  - intros (i & Hi & Hx). rewrite G3 in Hx. apply G4 in Hi as [Hi Ht]. split; [exists i; done|].
    rewrite <- Hx. destruct (test (addr_of a i)); [tauto | done].
  - intros [(i & Hi & Hx) Ht]. exists i. rewrite G3. split; [|done]. apply G4. split; [done|]. rewrite Hx. intros [_ E]. congruence.
Qed.

Lemma empty_node_spec l : forall k,
  match empty_node l k with
  | None => Forall (fun n => n_valid n = true) l
  | Some j => exists i n, j = (k + i)%nat /\ l !! i = Some n /\ n_valid n = false
  end.
Proof.
  induction l as [|n l IH]; intros k; cbn [empty_node]; [apply List.Forall_nil|].
  destruct (n_valid n) eqn:Ev.
  - specialize (IH (S k)). destruct (empty_node l (S k)) as [j|].
    + destruct IH as (i & n' & -> & Hl & Hn). exists (S i), n'. split; [lia|]. done.
    + apply List.Forall_cons; done.
  - exists 0%nat, n. split; [lia|]. done.
Qed.

(** A pool that is not full has an empty node. *)
Lemma room_empty a : acl_ok a -> (length (acl_node_q a) < NUM_ACL)%nat ->
  exists i, empty_node (take NUM_ACL (aclnode a)) 0 = Some i /\ (i < NUM_ACL)%nat /\ n_valid (node_at a i) = false.
Proof.
  intros H Hl. rewrite take_ge by (rewrite (ok_len a H); done). pose proof (empty_node_spec (aclnode a) 0) as E.
  destruct (empty_node (aclnode a) 0) as [j|].
  - destruct E as (i & n & -> & Hi & Hn). exists i. split; [done|]. apply lookup_lt_Some in Hi as Hlt. rewrite (ok_len a H) in Hlt.
    split; [done|]. unfold node_at. rewrite Hi. done.
  - exfalso. assert (Hs : seq 0 NUM_ACL ⊆+ acl_node_q a).
    { apply NoDup_submseteq; [apply NoDup_seq|]. intros i Hi. apply elem_of_seq in Hi. apply (ok_valid a H).
      split; [lia|]. unfold node_at. destruct (lookup_lt_is_Some_2 (aclnode a) i) as [n Hn]; [rewrite (ok_len a H); lia|].
      rewrite Hn. cbn. rewrite List.Forall_forall in E. apply E. apply list_elem_of_In. eapply list_elem_of_lookup_2. exact Hn. }
    apply submseteq_length in Hs. rewrite length_seq in Hs. lia.
Qed.

Lemma add_new a x i : acl_ok a -> (length (acl_node_q a) < NUM_ACL)%nat -> (i < NUM_ACL)%nat ->
  n_valid (node_at a i) = false -> x ∉ sp_set (acl_abs a) ->
  let a' := mkAcl (acl_mode a) (acl_num a + 1) (<[i := mkNode x true]> (aclnode a)) (acl_node_q a ++ [i]) in
  acl_ok a' /\ acl_abs a' = mkSpec (acl_mode a) ({[x]} ∪ sp_set (acl_abs a)).
Proof.
  intros H Hl Hi Hv Hx a'. assert (Hil : (i < length (aclnode a))%nat) by (rewrite (ok_len a H); done).
  assert (Hni : i ∉ acl_node_q a) by (intros Hc; apply (ok_valid a H) in Hc as [_ Hc]; congruence).
  assert (HA : forall j, addr_of a' j = if decide (j = i) then x else addr_of a j).
  { intros j. unfold addr_of, a'. rewrite node_at_insert by done. case_decide; done. }
  assert (HM : map (addr_of a') (acl_node_q a ++ [i]) = map (addr_of a) (acl_node_q a) ++ [x]).
  { rewrite map_app. cbn [map]. f_equal; [|rewrite HA, decide_True; done]. apply map_ext_in. intros j Hj.
    rewrite HA, decide_False; [done|]. intros ->. apply list_elem_of_In in Hj. done. }
  split.
  - split; cbn [a' aclnode acl_node_q acl_num].
    + rewrite length_insert. apply (ok_len a H).
    + apply NoDup_app. split; [apply (ok_nodup a H)|]. split; [|apply NoDup_singleton].
      intros j Hj. rewrite list_elem_of_singleton. intros ->. done.
    + intros j. unfold a'. rewrite node_at_insert, elem_of_app, list_elem_of_singleton, (ok_valid a H) by done.
      case_decide as E; [subst; cbn; tauto | tauto].
    + rewrite zlen_app, (ok_num a H). done.
    + cbn [a'] in HM. rewrite HM. apply NoDup_app. split; [apply (ok_addrs a H)|]. split; [|apply NoDup_singleton].
      intros y Hy. rewrite list_elem_of_singleton. intros ->. apply Hx. cbn. rewrite elem_of_list_to_set. done.
  - unfold acl_abs. cbn [acl_mode acl_node_q a' sp_set]. f_equal. cbn [a'] in HM. rewrite HM.
    rewrite list_to_set_app_L. cbn [list_to_set]. rewrite union_empty_r_L. apply union_comm_L.
Qed.

(** Each operation is the one on sets. *)
Lemma acl_op_refines op a : acl_ok a ->
  acl_ok (snd (acl_run_op op a)) /\
  (fst (acl_run_op op a), acl_abs (snd (acl_run_op op a))) = spec_op op (acl_abs a).
Proof.
  intros H. destruct op as [x|x|m|]; cbn [acl_run_op spec_op].
  - unfold acl_add. rewrite listed_spec by done. case_bool_decide as Hx.
    { cbn. rewrite decide_True by exact Hx. done. }
    rewrite (decide_False (P:=x ∈ _)) by exact Hx. rewrite abs_size by done. rewrite (ok_num a H). unfold zlen.
    destruct (Z.leb_spec (Z.of_nat NUM_ACL) (Z.of_nat (length (acl_node_q a)))) as [Hf|Hf].
    { cbn [fst snd]. rewrite decide_True by lia. done. }
    rewrite decide_False by lia. destruct (room_empty a H ltac:(lia)) as (i & -> & Hi & Hv). cbn [fst snd].
    destruct (add_new a x i H ltac:(lia) Hi Hv Hx) as [Hok Ha]. rewrite (ok_num a H) in Hok, Ha. unfold zlen in *.
    rewrite Ha. done.
  - cbn [fst snd]. destruct (drop_all_spec (fun y => is_broadcast_mac_addr x || list_eqb y x) a H) as (G1 & G2 & G3).
    fold (acl_remove x a) in G1, G2, G3. split; [done|]. f_equal.
    assert (E : sp_set (acl_abs (acl_remove x a)) = if is_broadcast_mac_addr x then ∅ else sp_set (acl_abs a) ∖ {[x]}).
    { apply set_eq. intros y. rewrite G3. destruct (is_broadcast_mac_addr x); cbn [orb].
      - rewrite elem_of_empty. split; [intros [_ [=]] | done].
      - rewrite elem_of_difference, elem_of_singleton. unfold list_eqb. rewrite bool_decide_eq_false. done. }
    unfold acl_abs in *. cbn [sp_mode sp_set] in *. rewrite G2, E. done.
  - cbn [fst snd acl_set_mode]. split; [destruct H; split; done | done].
  - cbn [fst snd]. destruct (drop_all_spec (fun _ => true) a H) as (G1 & G2 & G3). unfold acl_clear.
    set (b := acl_drop_loop _ _ a) in *. split; [destruct G1; split; done|]. f_equal. unfold acl_abs in *. cbn [acl_mode acl_node_q sp_set] in *.
    f_equal. apply set_eq. intros y. rewrite elem_of_empty. split; [|done]. intros Hy. apply G3 in Hy as [_ [=]].
Qed.

Lemma acl_init_ok a : length (aclnode a) = NUM_ACL -> acl_ok (acl_init a) /\ acl_abs (acl_init a) = mkSpec RTW_ACL_MODE_DISABLED ∅.
Proof.
  intros Hl. split; [|done]. split; cbn.
  - rewrite length_map. done.
  - apply NoDup_nil_2.
  - intros i. rewrite elem_of_nil. split; [done|]. intros [_ Hv]. unfold node_at in Hv. cbn in Hv.
    rewrite list_lookup_fmap in Hv. destruct (aclnode a !! i); cbn in Hv; discriminate.
  - done.
  - apply NoDup_nil_2.
Qed.

(** ** The two lists *)

(** An operation on a list: the return code, and the lists after it. *)
Definition acl_call (c : Z * acl_op) (l : list wlan_acl_pool) : Z * list wlan_acl_pool :=
  let '(period, op) := c in
  match op with
  | OpAdd x => rtw_acl_add_sta period x l
  | OpRemove x => (0, rtw_acl_remove_sta period x l)
  | OpMode m => (0, rtw_set_macaddr_acl period m l)
  | OpClear => (0, rtw_macaddr_acl_clear period l)
  end.

Fixpoint acl_calls (cs : list (Z * acl_op)) (l : list wlan_acl_pool) : list Z * list wlan_acl_pool :=
  match cs with
  | [] => ([], l)
  | c :: cs => let '(r, l) := acl_call c l in let '(rs, l) := acl_calls cs l in (r :: rs, l)
  end.

(** The same on sets; a period out of range is refused by an addition and ignored by the others. *)
Definition spec_call (c : Z * acl_op) (s : list acl_spec) : Z * list acl_spec :=
  let '(period, op) := c in
  match s !! Z.to_nat period with
  | None => (match op with OpAdd _ => -1 | _ => 0 end, s)
  | Some t => let '(r, t) := spec_op op t in (r, <[Z.to_nat period := t]> s)
  end.

Fixpoint spec_calls (cs : list (Z * acl_op)) (s : list acl_spec) : list Z * list acl_spec :=
  match cs with
  | [] => ([], s)
  | c :: cs => let '(r, s) := spec_call c s in let '(rs, s) := spec_calls cs s in (r :: rs, s)
  end.

Definition acls_ok (l : list wlan_acl_pool) : Prop := length l = 2%nat /\ Forall acl_ok l.

Lemma insert_abs l k a : <[k := acl_abs a]> (map acl_abs l) = map acl_abs (<[k := a]> l).
Proof. symmetry. apply (list_fmap_insert acl_abs l k a). Qed.

(** Every call is [acl_run_op] on the list it names. *)
Lemma acl_call_eq period op l : 0 <= period -> length l = 2%nat ->
  acl_call (period, op) l =
  match l !! Z.to_nat period with
  | None => (match op with OpAdd _ => -1 | _ => 0 end, l)
  | Some a => (fst (acl_run_op op a), <[Z.to_nat period := snd (acl_run_op op a)]> l)
  end.
Proof.
  intros Hp Hl. assert (HN : RTW_ACL_PERIOD_NUM <= period -> l !! Z.to_nat period = None).
  { intros H. apply lookup_ge_None_2. unfold RTW_ACL_PERIOD_NUM in H. lia. }
  assert (HA : forall f, at_period period f l = match l !! Z.to_nat period with None => l | Some a => <[Z.to_nat period := f a]> l end).
  { intros f. unfold at_period. destruct (Z.leb_spec RTW_ACL_PERIOD_NUM period) as [H|H]; [rewrite HN by done; done | done]. }
  destruct op as [x|x|m|]; cbn [acl_call acl_run_op fst snd].
  - unfold rtw_acl_add_sta. destruct (Z.leb_spec RTW_ACL_PERIOD_NUM period) as [H|H]; [rewrite HN by done; done|].
    destruct (l !! Z.to_nat period) as [a|]; [|done]. destruct (acl_add x a) as [r b]. done.
  - unfold rtw_acl_remove_sta. rewrite HA. destruct (l !! Z.to_nat period); done.
  - unfold rtw_set_macaddr_acl. rewrite HA. destruct (l !! Z.to_nat period); done.
  - unfold rtw_macaddr_acl_clear. rewrite HA. destruct (l !! Z.to_nat period); done.
Qed.

Lemma acl_calls_refine cs : forall l, acls_ok l -> Forall (fun c => 0 <= fst c) cs ->
  acls_ok (snd (acl_calls cs l)) /\
  spec_calls cs (map acl_abs l) = (fst (acl_calls cs l), map acl_abs (snd (acl_calls cs l))).
Proof.
  induction cs as [|[period op] cs IH]; intros l [Hl Ho] Hp; [done|]. apply Forall_cons_1 in Hp as [Hp Hps].
  cbn [acl_calls spec_calls]. rewrite acl_call_eq by done. cbn [spec_call].
  rewrite (list_lookup_fmap acl_abs l (Z.to_nat period) : map acl_abs l !! Z.to_nat period = _).
  destruct (l !! Z.to_nat period) as [a|] eqn:E; cbn [fmap option_fmap option_map].
  - destruct (acl_op_refines op a (Forall_lookup_1 _ _ _ _ Ho E)) as [Hok He].
    rewrite <- He. cbv beta iota. rewrite insert_abs. specialize (IH (<[Z.to_nat period := snd (acl_run_op op a)]> l)).
    destruct (acl_calls cs _) as [rs l'].
    destruct IH as [IH1 IH2]; [split; [rewrite length_insert; done | apply Forall_insert; done] | done|].
    rewrite IH2. done.
  - specialize (IH l (conj Hl Ho) Hps). destruct (acl_calls cs l) as [rs l']. destruct IH as [IH1 IH2]. rewrite IH2. done.
Qed.

Lemma access_spec x l : acls_ok l -> rtw_access_ctrl x l = true <-> Forall (spec_admits x) (map acl_abs l).
Proof.
  intros [Hl Ho]. destruct l as [|a [|b [|]]]; try discriminate. apply Forall_cons_1 in Ho as [Ha Ho]. apply Forall_cons_1 in Ho as [Hb _].
  assert (G : forall c, acl_ok c ->
    (if negb (acl_mode c =? RTW_ACL_MODE_ACCEPT_UNLESS_LISTED) && negb (acl_mode c =? RTW_ACL_MODE_DENY_UNLESS_LISTED) then true
     else if acl_mode c =? RTW_ACL_MODE_ACCEPT_UNLESS_LISTED then negb (acl_listed x c) else acl_listed x c) = true
    <-> spec_admits x (acl_abs c)).
  { intros c Hc. rewrite listed_spec by done. unfold spec_admits. set (S := sp_set (acl_abs c)). cbn [acl_abs sp_mode].
    unfold RTW_ACL_MODE_ACCEPT_UNLESS_LISTED, RTW_ACL_MODE_DENY_UNLESS_LISTED.
    destruct (Z.eqb_spec (acl_mode c) 1) as [->|N1]; cbn [negb andb].
    - rewrite negb_true_iff, bool_decide_eq_false. split; [|tauto]. intros Hx. split; [done | lia].
    - destruct (Z.eqb_spec (acl_mode c) 2) as [->|N2]; cbn [negb andb]; [|split; [lia | done]].
      rewrite bool_decide_eq_true. split; [intros Hx; split; [lia | done] | tauto]. }
  change (rtw_access_ctrl x [a; b]) with (_rtw_access_ctrl 0 x [a; b] && (_rtw_access_ctrl 1 x [a; b] && true)).
  change (map acl_abs [a; b]) with [acl_abs a; acl_abs b]. unfold _rtw_access_ctrl.
  change (lookup (Z.to_nat 0) [a; b]) with (Some a). change (lookup (Z.to_nat 1) [a; b]) with (Some b).
  change (RTW_ACL_PERIOD_NUM <=? 0) with false. change (RTW_ACL_PERIOD_NUM <=? 1) with false. cbv iota.
  rewrite andb_true_r, andb_true_iff, (G a Ha), (G b Hb). rewrite !Forall_cons, Forall_nil. tauto.
Qed.

(** ** Theorems *)

(** C40: the access control lists refine bounded sets: whatever sequence of additions, removals, changes of mode and
    clearings runs from the initial state on the two lists, every return code and every later decision is the one of a
    set per list with sixteen places - an address is added unless it is there or the set is full, the broadcast address
    removes all, clearing also disables - and a station is let in exactly when no list that accepts unless listed has
    it and every list that denies unless listed does. *)
Theorem acl_refines_sets cs l x : length l = 2%nat -> Forall (fun a => length (aclnode a) = NUM_ACL) l ->
  Forall (fun c => 0 <= fst c) cs ->
  let l0 := map acl_init l in let '(rs, l') := acl_calls cs l0 in
  exists s, spec_calls cs (replicate 2 (mkSpec RTW_ACL_MODE_DISABLED ∅)) = (rs, s) /\
    (rtw_access_ctrl x l' = true <-> Forall (spec_admits x) s).
Proof.
  intros Hl Hn Hc l0. assert (H0 : acls_ok l0 /\ map acl_abs l0 = replicate 2 (mkSpec RTW_ACL_MODE_DISABLED ∅)).
  { destruct l as [|a [|b [|]]]; try discriminate. apply Forall_cons_1 in Hn as [Ha Hn]. apply Forall_cons_1 in Hn as [Hb _].
    split; [|done]. split; [done|]. repeat (apply List.Forall_cons; [apply acl_init_ok; done|]). apply List.Forall_nil. }
  destruct H0 as [H0 HA]. destruct (acl_calls_refine cs l0 H0 Hc) as [H1 H2]. rewrite HA in H2.
  destruct (acl_calls cs l0) as [rs l']. cbn [fst snd] in *. exists (map acl_abs l'). split; [done|]. apply access_spec, H1.
Qed.

Definition ex_acl : list wlan_acl_pool := replicate 2 (mkAcl 7 3 (replicate 16 (mkNode (zeros 6) true)) [5%nat]).
Definition ex_mac1 : list Z := [2; 0; 0; 0; 0; 1].
Definition ex_mac2 : list Z := [2; 0; 0; 0; 0; 2].
Definition ex_calls : list (Z * acl_op) :=
  [(1, OpMode RTW_ACL_MODE_DENY_UNLESS_LISTED); (1, OpAdd ex_mac1); (1, OpAdd ex_mac2); (1, OpRemove ex_mac2); (5, OpAdd ex_mac2)].

Lemma acl_refines_sets_witness :
  (let '(rs, l') := acl_calls ex_calls (map acl_init ex_acl) in
   rs = [0; 0; 0; 0; -1] /\ rtw_access_ctrl ex_mac1 l' = true /\ rtw_access_ctrl ex_mac2 l' = false) /\
  let '(rs, l') := acl_calls ex_calls (map acl_init ex_acl) in
  exists s, spec_calls ex_calls (replicate 2 (mkSpec RTW_ACL_MODE_DISABLED ∅)) = (rs, s) /\
    (rtw_access_ctrl ex_mac1 l' = true <-> Forall (spec_admits ex_mac1) s).
Proof.
  split; [vm_compute; repeat split|]. apply (acl_refines_sets ex_calls ex_acl ex_mac1).
  - reflexivity.
  - repeat constructor.
  - repeat constructor; cbn; lia.
Defined.
