(* ===== verification/Wep.v ===== *)
(** * WEP

    Models [rtw_wep_encrypt] and [rtw_wep_decrypt] of [core/rtw_security.c]: per fragment an RC4 key from
    the IV and the default key, the checksum of the payload behind it, both encrypted in place. *)
From Stdlib Require Import ZArith Lia Bool Ascii String.
From stdpp Require Import base option list numbers.
From S2P Require Import Prelude Crc32 Arc4 Sec.
Local Open Scope Z_scope.

(** ** The code *)

(** [*((u32 *\)crc) = cpu_to_le32(v)] *)
Definition le32_bytes (v : Z) : list Z := [byte_of v 0; byte_of v 1; byte_of v 2; byte_of v 3].

(** The tail both ciphers share: checksum, key schedule, payload, checksum encrypted. *)
(* src: core/rtw_security.c:325-329 rtw_wep_encrypt *)
Definition rc4_seal (key : list Z) (key_len payload length : Z) (mem : list Z) (cs : crc_state)
    : res (list Z * crc_state) :=
  '(crc, cs) <- getcrc32 cs mem payload length ;;
  ctx <- arcfour_init key key_len ;;
  '(mem, ctx) <- arcfour_encrypt ctx mem payload (Inside payload) length ;;
  '(mem, _) <- arcfour_encrypt ctx mem (payload + length) (Other (le32_bytes crc)) 4 ;;
  Ok (mem, cs).

(** [wepkey[16]]: the first three bytes of the IV, then the default key. *)
(* src: core/rtw_security.c:315-317 rtw_wep_encrypt *)
Definition wep_key (sec : security_priv) (idx keylength iv : Z) (mem : list Z) : res (list Z) :=
  iv3 <- rdn mem iv 3 ;;
  wepkey <- wrn (zeros 16) 0 iv3 ;;
  skey <- rd (dot11DefKey sec) idx ;;
  k <- rdn skey 0 keylength ;;
  wrn wepkey 3 k.

(* src: core/rtw_security.c:315-327 rtw_wep_encrypt *)
Definition wep_fragment (sec : security_priv) (at_ : pkt_attrib) (keylength pframe length : Z)
    (st : list Z * crc_state) : res (list Z * crc_state) :=
  let (mem, cs) := st in
  wepkey <- wep_key sec (dot11PrivacyKeyIndex sec) keylength (pframe + t_hdrlen at_) mem ;;
  rc4_seal wepkey (u32 (3 + keylength)) (pframe + t_iv_len at_ + t_hdrlen at_) length mem cs.

(* src: core/rtw_security.c:275-349 rtw_wep_encrypt *)
Definition rtw_wep_encrypt (x : xmit_frame) (at_ : pkt_attrib) (frag_len : Z) (sec : security_priv)
    (cs : crc_state) : res (option (list Z) * security_priv * crc_state) :=
  match x_buf x with
  | None => Ok (None, sec, cs)
  | Some mem =>
      if (t_encrypt at_ =? WEP40) || (t_encrypt at_ =? WEP104) then
        keylength <- rd (dot11DefKeylen sec) (dot11PrivacyKeyIndex sec) ;;
        '(mem, cs) <- fragments (wep_fragment sec at_ keylength) (x_addr x) frag_len at_ (hw_hdr_offset x) (mem, cs) ;;
        Ok (Some mem, count_sw WepEnc (t_ra at_) sec, cs)
      else Ok (Some mem, sec, cs)
  end.

(** [mem] holds the bytes from [rx_data] on, of which [len] are the frame. The checksum is
    computed and then not used. *)
(* src: core/rtw_security.c:351-393 rtw_wep_decrypt *)
Definition rtw_wep_decrypt (mem : list Z) (len : Z) (at_ : rx_pkt_attrib) (sec : security_priv)
    (cs : crc_state) : res (list Z * security_priv * crc_state) :=
  if (r_encrypt at_ =? WEP40) || (r_encrypt at_ =? WEP104) then
    keylength <- rd (dot11DefKeylen sec) (r_key_index at_) ;;
    wepkey <- wep_key sec (r_key_index at_) keylength (r_hdrlen at_) mem ;;
    let length := s32 (len - r_hdrlen at_ - r_iv_len at_) in
    let payload := r_iv_len at_ + r_hdrlen at_ in
    ctx <- arcfour_init wepkey (u32 (3 + keylength)) ;;
    '(mem, _) <- arcfour_encrypt ctx mem payload (Inside payload) length ;;
    '(_, cs) <- getcrc32 cs mem payload (length - 4) ;;
    Ok (mem, count_sw WepDec (r_ra at_) sec, cs)
  else Ok (mem, sec, cs).

(** ** Specification *)

(** The integrity check value of a plaintext. *)
Definition icv (pt : list Z) : list Z := le32_bytes (crc32_of pt).

(** A plaintext under an RC4 key. *)
Definition sealed (key pt : list Z) : list Z :=
  xor_bytes (pt ++ icv pt) (rc4_stream (length pt + 4) (rc4_start key)).

(** A fragment in the transmit buffer: header, IV, plaintext, four bytes left free. *)
Definition frag_ok (hdrlen iv_len : Z) (f : list Z) : Prop :=
  bytes f /\ hdrlen + iv_len + 4 <= zlen f < 2 ^ 31.

Definition f_head (hdrlen iv_len : Z) (f : list Z) : list Z := take (Z.to_nat (hdrlen + iv_len)) f.
Definition f_iv (hdrlen : Z) (f : list Z) : list Z := take 3 (drop (Z.to_nat hdrlen) f).
Definition f_text (hdrlen iv_len : Z) (f : list Z) : list Z :=
  take (length f - Z.to_nat (hdrlen + iv_len) - 4) (drop (Z.to_nat (hdrlen + iv_len)) f).

(** The fragment on the air, and as the receiver recovers it. *)
Definition sealed_frag (keyof : list Z -> list Z) (hdrlen iv_len : Z) (f : list Z) : list Z :=
  f_head hdrlen iv_len f ++ sealed (keyof f) (f_text hdrlen iv_len f).
Definition plain_frag (hdrlen iv_len : Z) (f : list Z) : list Z :=
  f_head hdrlen iv_len f ++ f_text hdrlen iv_len f ++ icv (f_text hdrlen iv_len f).

(** ** Lemmas *)

Lemma le32_bytes_bytes v : bytes (le32_bytes v).
Proof. repeat constructor; apply land_ff_byte. Qed.

Lemma icv_bytes pt : bytes (icv pt).
Proof. apply le32_bytes_bytes. Qed.

Lemma rc4_seal_spec key rest a pt old b cs :
  bytes key -> key <> [] -> bytes pt -> zlen pt < 2 ^ 31 -> length old = 4%nat -> crc_ok cs ->
  rc4_seal (key ++ rest) (zlen key) (zlen a) (zlen pt) (a ++ pt ++ old ++ b) cs =
    Ok (a ++ sealed key pt ++ b, crc32_init crc_state0).
Proof.
  intros Hk Hne Hp Hl Ho Hcs. unfold rc4_seal. rewrite getcrc32_spec by done. cbn [bind].
  destruct (arcfour_init_front key rest Hk Hne) as [-> Hwf]. cbn [bind].
  rewrite arcfour_encrypt_inside by (done || lia). cbn [bind].
  set (ct := xor_bytes pt (rc4_stream (length pt) (rc4_start key))).
  assert (Hct : length ct = length pt) by (apply xor_bytes_length; rewrite rc4_stream_length; done).
  replace (a ++ ct ++ old ++ b) with ((a ++ ct) ++ old ++ b) by (rewrite <- app_assoc; done).
  replace (zlen a + zlen pt) with (zlen (a ++ ct)) by (rewrite zlen_app; unfold zlen; lia).
  change 4 with (zlen (le32_bytes (crc32_of pt))).
  rewrite arcfour_encrypt_other; [|apply rc4_after_wf; done | done | rewrite Ho; done]. cbn [bind].
  rewrite <- app_assoc. unfold sealed, ct. change (length (le32_bytes (crc32_of pt))) with 4%nat.
  rewrite rc4_stream_app, xor_bytes_app by (rewrite rc4_stream_length; done).
  rewrite <- (app_assoc (xor_bytes pt _)). done.
Qed.

Lemma sealed_length key pt : length (sealed key pt) = (length pt + 4)%nat.
Proof. unfold sealed. rewrite xor_bytes_length; rewrite ?length_app, ?rc4_stream_length; done. Qed.

Lemma sealed_open key pt :
  xor_bytes (sealed key pt) (rc4_stream (length pt + 4) (rc4_start key)) = pt ++ icv pt.
Proof. apply xor_bytes_twice. rewrite length_app, rc4_stream_length. done. Qed.

(** The parts of a well-formed fragment. *)
Lemma frag_parts hdrlen iv_len f :
  frag_ok hdrlen iv_len f -> 0 <= hdrlen -> 3 <= iv_len ->
  exists h iv r old,
    f = h ++ iv ++ r ++ f_text hdrlen iv_len f ++ old /\ f_head hdrlen iv_len f = h ++ iv ++ r /\
    f_iv hdrlen f = iv /\ zlen h = hdrlen /\ zlen iv = 3 /\ zlen r = iv_len - 3 /\ length old = 4%nat /\
    zlen (f_text hdrlen iv_len f) = zlen f - hdrlen - iv_len - 4 /\
    bytes h /\ bytes iv /\ bytes r /\ bytes (f_text hdrlen iv_len f).
Proof.
  intros [Hb Hl] Hh Hi. unfold zlen in Hl.
  exists (take (Z.to_nat hdrlen) f), (take 3 (drop (Z.to_nat hdrlen) f)),
    (take (Z.to_nat (iv_len - 3)) (drop 3 (drop (Z.to_nat hdrlen) f))),
    (drop (length f - Z.to_nat (hdrlen + iv_len) - 4) (drop (Z.to_nat (hdrlen + iv_len)) f)).
  assert (Hhead : f_head hdrlen iv_len f = take (Z.to_nat hdrlen) f ++ take 3 (drop (Z.to_nat hdrlen) f) ++
    take (Z.to_nat (iv_len - 3)) (drop 3 (drop (Z.to_nat hdrlen) f))).
  { unfold f_head. rewrite take_take_drop. replace (3 + Z.to_nat (iv_len - 3))%nat with (Z.to_nat iv_len) by lia.
    rewrite take_take_drop. f_equal. lia. }
  unfold f_text, f_iv. rewrite Hhead. unfold zlen. rewrite !length_take, !length_drop.
  split.
  { rewrite <- (take_drop (Z.to_nat (hdrlen + iv_len)) f) at 1. fold (f_head hdrlen iv_len f). rewrite Hhead.
    rewrite <- !app_assoc. rewrite take_drop. done. }
  repeat split; try lia; unfold bytes; repeat (apply Forall_take || apply Forall_drop); done.
Qed.

(** Slot [idx] of the default keys holds [key], 5 or 13 bytes as a rule. *)
Record wep_keyed (sec : security_priv) (idx : Z) (key : list Z) : Prop := {
  wk_len : rd (dot11DefKeylen sec) idx = Ok (zlen key);
  wk_fits : zlen key <= 13;
  wk_bytes : bytes key;
  wk_skey : exists rest, rd (dot11DefKey sec) idx = Ok (key ++ rest) }.

Lemma wep_key_spec sec idx key a iv b :
  wep_keyed sec idx key -> zlen iv = 3 ->
  wep_key sec idx (zlen key) (zlen a) (a ++ iv ++ b) =
    Ok ((iv ++ key) ++ zeros (13 - length key)).
Proof.
  intros [H1 H2 H3 [rest H4]] Hi. unfold wep_key. rewrite <- Hi, rdn_app. cbn [bind].
  change (zeros 16) with (zeros 3 ++ zeros 13).
  rewrite wrn_prefix by (rewrite Hi; unfold zlen; cbn; lia). cbn [bind].
  replace (length iv) with (length (zeros 3)) by (unfold zlen in Hi; cbn; lia). rewrite drop_app_length.
  rewrite H4. cbn [bind]. rewrite rdn_prefix by done. cbn [bind].
  replace (zeros 13) with (zeros (length key) ++ zeros (13 - length key)).
  - rewrite Hi at 1. replace 3 with (zlen iv). rewrite wrn_app by (rewrite zlen_zeros; unfold zlen; lia).
    rewrite <- app_assoc. done.
  - unfold zeros. rewrite <- replicate_add. f_equal. unfold zlen in H2. lia.
Qed.

Lemma s32_small z : - 2 ^ 31 <= z < 2 ^ 31 -> s32 z = z.
Proof. intros H. unfold s32. rewrite Z.mod_small by lia. lia. Qed.

Section Attr.
  Context (hdrlen iv_len : Z) (Hh : 0 <= hdrlen) (Hiv : 3 <= iv_len).

(** The arguments of a fragment's lengths. *)
Lemma text_length at_ f :
  t_hdrlen at_ = hdrlen -> t_iv_len at_ = iv_len -> t_icv_len at_ = 4 -> frag_ok hdrlen iv_len f ->
  s32 (zlen f - t_hdrlen at_ - t_iv_len at_ - t_icv_len at_) = zlen (f_text hdrlen iv_len f).
Proof.
  intros -> -> -> Hf. destruct (frag_parts hdrlen iv_len f Hf Hh Hiv) as (h & iv & r & old & P).
  destruct Hf as [_ Hf]. decompose [and] P. rewrite s32_small; lia.
Qed.

Lemma sealed_frag_zlen keyof f : frag_ok hdrlen iv_len f -> zlen (sealed_frag keyof hdrlen iv_len f) = zlen f.
Proof.
  intros Hf. destruct (frag_parts hdrlen iv_len f Hf Hh Hiv) as (h & iv & r & old & E & E2 & _ & H1 & H2 & H3 & H4 & H5 & _).
  unfold sealed_frag. rewrite E2, !zlen_app. unfold zlen at 4. rewrite sealed_length. unfold zlen in *. lia.
Qed.
End Attr.

Definition wep_rc4_key (key : list Z) (hdrlen : Z) (f : list Z) : list Z := f_iv hdrlen f ++ key.

Lemma wep_fragment_spec sec at_ key cs a f b :
  wep_keyed sec (dot11PrivacyKeyIndex sec) key -> crc_ok cs ->
  0 <= t_hdrlen at_ -> 3 <= t_iv_len at_ -> t_icv_len at_ = 4 -> frag_ok (t_hdrlen at_) (t_iv_len at_) f ->
  wep_fragment sec at_ (zlen key) (zlen a) (s32 (zlen f - t_hdrlen at_ - t_iv_len at_ - t_icv_len at_))
      (a ++ f ++ b, cs) =
    Ok (a ++ sealed_frag (wep_rc4_key key (t_hdrlen at_)) (t_hdrlen at_) (t_iv_len at_) f ++ b,
        crc32_init crc_state0).
Proof.
  intros Hk Hcs Hh Hi Hc Hf. rewrite (text_length (t_hdrlen at_) (t_iv_len at_)) by done.
  unfold sealed_frag, wep_rc4_key.
  destruct (frag_parts _ _ f Hf Hh Hi) as (h & iv & r & old & E & -> & -> & H1 & H2 & H3 & H4 & H5 & B1 & B2 & B3 & B4).
  destruct Hf as [_ Hf]. set (pt := f_text (t_hdrlen at_) (t_iv_len at_) f) in *. clearbody pt. subst f.
  unfold wep_fragment. rewrite <- H1 at 1.
  replace (a ++ (h ++ iv ++ r ++ pt ++ old) ++ b) with ((a ++ h) ++ iv ++ (r ++ pt ++ old ++ b))
    by (rewrite <- !app_assoc; done).
  rewrite <- zlen_app, wep_key_spec by done. cbn [bind].
  pose proof (zlen_nonneg key). pose proof (wk_fits _ _ _ Hk). pose proof (wk_bytes _ _ _ Hk).
  rewrite u32_small by lia. rewrite <- H2 at 1. rewrite <- zlen_app.
  replace (zlen a + t_iv_len at_ + t_hdrlen at_) with (zlen (a ++ h ++ iv ++ r)) by (rewrite !zlen_app; lia).
  replace ((a ++ h) ++ iv ++ r ++ pt ++ old ++ b) with ((a ++ h ++ iv ++ r) ++ pt ++ old ++ b)
    by (rewrite <- !app_assoc; done).
  rewrite rc4_seal_spec; [rewrite <- !app_assoc; done | | | done | lia | done | done].
  - unfold bytes. rewrite Forall_app. done.
  - intros E. apply (f_equal zlen) in E. rewrite zlen_app, zlen_nil in E. lia.
Qed.

(** What an RC4 key makes of the bytes on the air. *)
Definition opened (key ct : list Z) : list Z := xor_bytes ct (rc4_stream (length ct) (rc4_start key)).

Lemma opened_sealed key pt : opened key (sealed key pt) = pt ++ icv pt.
Proof. unfold opened. rewrite sealed_length. apply sealed_open. Qed.

Lemma opened_length key ct : length (opened key ct) = length ct.
Proof. apply xor_bytes_length. rewrite rc4_stream_length. done. Qed.

Lemma opened_bytes key ct : bytes key -> key <> [] -> bytes ct -> bytes (opened key ct).
Proof.
  intros Hk Hne Hc. apply xor_bytes_bytes; [done|]. apply rc4_stream_bytes.
  apply (arcfour_init_spec key Hk Hne).
Qed.

(** Both ciphers open a frame in the same way. *)
Lemma rc4_open_spec key rest h ct post cs :
  bytes key -> key <> [] -> zlen ct < 2 ^ 31 -> crc_ok cs -> bytes ct ->
  exists c, arcfour_init (key ++ rest) (zlen key) = Ok c /\
    (exists c', arcfour_encrypt c (h ++ ct ++ post) (zlen h) (Inside (zlen h)) (zlen ct) =
      Ok (h ++ opened key ct ++ post, c')) /\
    getcrc32 cs (h ++ opened key ct ++ post) (zlen h) (zlen ct - 4) =
      Ok (crc32_of (take (length ct - 4) (opened key ct)), crc32_init crc_state0).
Proof.
  intros Hk Hne Hl Hcs Hp. destruct (arcfour_init_front key rest Hk Hne) as [HE Hwf].
  exists (rc4_start key). split; [done|]. split.
  - eexists. rewrite arcfour_encrypt_inside by (done || lia). done.
  - pose proof (opened_bytes key ct Hk Hne Hp) as Hob. pose proof (opened_length key ct) as Hol.
    destruct (Z.leb_spec (zlen ct) 4) as [H4|H4].
    { rewrite getcrc32_negative by (done || lia).
      replace (length ct - 4)%nat with O by (unfold zlen in H4; lia). done. }
    rewrite <- (take_drop (length ct - 4) (opened key ct)) at 1.
    replace (zlen ct - 4) with (zlen (take (length ct - 4) (opened key ct))).
    + rewrite <- (app_assoc (take _ _)). apply getcrc32_spec; [done | apply Forall_take; done].
    + unfold zlen in *. rewrite length_take. lia.
Qed.

(** The frames a transmit buffer holds. *)
Record tx_frames (x : xmit_frame) (at_ : pkt_attrib) (frag_len : Z) (pre m : list Z) (fs : list (list Z)) : Prop := {
  tf_buf : x_buf x = Some (pre ++ m);
  tf_offset : zlen pre = hw_hdr_offset x;
  tf_hdrlen : 0 <= t_hdrlen at_;
  tf_iv_len : 3 <= t_iv_len at_;
  tf_icv_len : t_icv_len at_ = 4;
  tf_layout : laid_out (x_addr x) frag_len (zlen pre) fs m;
  tf_number : zlen fs = t_nr_frags at_;
  tf_last : forall fs' f, fs = fs' ++ [f] -> zlen f = t_last_txcmdsz at_;
  tf_ok : Forall (frag_ok (t_hdrlen at_) (t_iv_len at_)) fs }.

Lemma tx_frames_sealed x at_ frag_len pre m fs frag keyof cs :
  tx_frames x at_ frag_len pre m fs -> crc_ok cs ->
  (forall e1 a f b, crc_ok e1 -> frag_ok (t_hdrlen at_) (t_iv_len at_) f ->
    frag (zlen a) (s32 (zlen f - t_hdrlen at_ - t_iv_len at_ - t_icv_len at_)) (a ++ f ++ b, e1) =
      Ok (a ++ sealed_frag keyof (t_hdrlen at_) (t_iv_len at_) f ++ b, crc32_init crc_state0)) ->
  exists m', fragments frag (x_addr x) frag_len at_ (hw_hdr_offset x) (pre ++ m, cs) =
      Ok (pre ++ m', crc32_init crc_state0) /\
    laid_out (x_addr x) frag_len (zlen pre) (map (sealed_frag keyof (t_hdrlen at_) (t_iv_len at_)) fs) m'.
Proof.
  intros [] Hcs Hf. rewrite <- tf_offset0.
  apply (fragments_laid_out (x_addr x) frag_len at_ frag (crc32_init crc_state0)
           (frag_ok (t_hdrlen at_) (t_iv_len at_))); try done.
  - intros e1 a f b [-> | ->] Hg; apply Hf; (done || apply crc_ok_ready).
  - intros f Hg. apply sealed_frag_zlen; done.
Qed.

Lemma sealed_frag_split keyof hdrlen iv_len f :
  frag_ok hdrlen iv_len f -> 0 <= hdrlen -> 3 <= iv_len ->
  s32 (zlen (sealed_frag keyof hdrlen iv_len f) - hdrlen - iv_len) =
    zlen (sealed (keyof f) (f_text hdrlen iv_len f)).
Proof.
  intros Hf Hh Hi. rewrite sealed_frag_zlen by done.
  destruct (frag_parts _ _ f Hf Hh Hi) as (h & iv & r & old & _ & _ & _ & H1 & H2 & H3 & H4 & H5 & _).
  destruct Hf as [_ Hf]. unfold zlen at 2. rewrite sealed_length. unfold zlen in *. rewrite s32_small; lia.
Qed.

(** ** Theorems *)

(** The receiver [rat], [rsec] turns the frame [f'] into [f]. *)
Definition wep_opens (key : list Z) (hdrlen iv_len : Z) (f f' : list Z) : Prop :=
  zlen f' = zlen f /\
  forall rat rsec rcs post,
    r_encrypt rat = WEP40 \/ r_encrypt rat = WEP104 -> r_hdrlen rat = hdrlen -> r_iv_len rat = iv_len ->
    wep_keyed rsec (r_key_index rat) key -> crc_ok rcs ->
    rtw_wep_decrypt (f' ++ post) (zlen f') rat rsec rcs =
      Ok (plain_frag hdrlen iv_len f ++ post, count_sw WepDec (r_ra rat) rsec, crc32_init crc_state0).

Lemma wep_decrypt_spec rat rsec rcs key h iv r ct post :
  r_encrypt rat = WEP40 \/ r_encrypt rat = WEP104 -> r_hdrlen rat = zlen h -> zlen iv = 3 ->
  r_iv_len rat = zlen iv + zlen r -> zlen (h ++ iv ++ r ++ ct) < 2 ^ 31 ->
  bytes iv -> bytes ct -> wep_keyed rsec (r_key_index rat) key -> crc_ok rcs ->
  rtw_wep_decrypt ((h ++ iv ++ r) ++ ct ++ post) (zlen (h ++ iv ++ r ++ ct)) rat rsec rcs =
    Ok ((h ++ iv ++ r) ++ opened (iv ++ key) ct ++ post, count_sw WepDec (r_ra rat) rsec, crc32_init crc_state0).
Proof.
  intros He Hh Hiv Hil Hl Hbi Hbc Hk Hcs. unfold rtw_wep_decrypt.
  replace (_ || _) with true by (symmetry; apply orb_true_iff; rewrite !Z.eqb_eq; done).
  pose proof (wk_bytes _ _ _ Hk). pose proof (wk_fits _ _ _ Hk). pose proof (zlen_nonneg key).
  rewrite (wk_len _ _ _ Hk). cbn [bind]. rewrite Hh.
  replace ((h ++ iv ++ r) ++ ct ++ post) with (h ++ iv ++ (r ++ ct ++ post)) by (rewrite <- !app_assoc; done).
  rewrite wep_key_spec by done. cbn [bind]. rewrite u32_small by lia.
  replace (3 + zlen key) with (zlen (iv ++ key)) by (rewrite zlen_app; lia).
  replace (s32 _) with (zlen ct).
  2:{ rewrite Hil. rewrite !zlen_app in *. pose proof (zlen_nonneg h). pose proof (zlen_nonneg r).
      pose proof (zlen_nonneg ct). rewrite s32_small; lia. }
  replace (r_iv_len rat + zlen h) with (zlen (h ++ iv ++ r)) by (rewrite !zlen_app; lia).
  replace (h ++ iv ++ r ++ ct ++ post) with ((h ++ iv ++ r) ++ ct ++ post) by (rewrite <- !app_assoc; done).
  destruct (rc4_open_spec (iv ++ key) (zeros (13 - length key)) (h ++ iv ++ r) ct post rcs) as (c & -> & (c' & HE) & HC).
  - unfold bytes. rewrite Forall_app. done.
  - intros E. apply (f_equal zlen) in E. rewrite zlen_app, zlen_nil in E. lia.
  - rewrite !zlen_app in Hl. pose proof (zlen_nonneg h). pose proof (zlen_nonneg r). lia.
  - done.
  - done.
  - cbn [bind]. rewrite HE. cbn [bind]. rewrite HC. done.
Qed.

(** WEP round trip. A frame of any number of fragments, laid out in the transmit buffer with the driver's
    alignment, is encrypted fragment by fragment without leaving the buffer; a receiver with the same default
    key recovers each fragment's header, text and check value. *)
Theorem wep_roundtrip x at_ frag_len pre m fs sec cs key :
  tx_frames x at_ frag_len pre m fs -> t_encrypt at_ = WEP40 \/ t_encrypt at_ = WEP104 ->
  wep_keyed sec (dot11PrivacyKeyIndex sec) key -> crc_ok cs ->
  exists m' fs',
    rtw_wep_encrypt x at_ frag_len sec cs =
      Ok (Some (pre ++ m'), count_sw WepEnc (t_ra at_) sec, crc32_init crc_state0) /\
    laid_out (x_addr x) frag_len (zlen pre) fs' m' /\
    Forall2 (wep_opens key (t_hdrlen at_) (t_iv_len at_)) fs fs'.
Proof.
  intros Hx He Hk Hcs.
  destruct (tx_frames_sealed x at_ frag_len pre m fs (wep_fragment sec at_ (zlen key))
    (wep_rc4_key key (t_hdrlen at_)) cs Hx Hcs) as (m' & HE & HL).
  { intros e1 a f b H1 H2. destruct Hx. apply wep_fragment_spec; done. }
  destruct Hx. exists m', (map (sealed_frag (wep_rc4_key key (t_hdrlen at_)) (t_hdrlen at_) (t_iv_len at_)) fs).
  split; [|split; [exact HL|]].
  - unfold rtw_wep_encrypt. rewrite tf_buf0.
    replace (_ || _) with true by (symmetry; apply orb_true_iff; rewrite !Z.eqb_eq; done).
    rewrite (wk_len _ _ _ Hk). cbn [bind]. rewrite HE. done.
  - apply (Forall2_map_r _ _ _ fs tf_ok0). intros f Hf.
    split; [apply sealed_frag_zlen; done|]. intros rat rsec rcs post Hre Hrh Hri Hrk Hrc.
    unfold sealed_frag, wep_rc4_key, plain_frag.
    destruct (frag_parts _ _ f Hf tf_hdrlen0 tf_iv_len0) as
      (h & iv & r & old & _ & -> & -> & H1 & H2 & H3 & H4 & H5 & B1 & B2 & B3 & B4).
    set (pt := f_text _ _ f) in *. destruct Hf as [_ Hf]. pose proof (zlen_nonneg pt).
    assert (Hs : zlen (sealed (iv ++ key) pt) = zlen pt + 4) by (unfold zlen; rewrite sealed_length; lia).
    rewrite <- app_assoc. replace ((h ++ iv ++ r) ++ sealed (iv ++ key) pt) with (h ++ iv ++ r ++ sealed (iv ++ key) pt)
      by (rewrite <- !app_assoc; done).
    rewrite wep_decrypt_spec with (key := key); try done.
    + rewrite opened_sealed, <- !app_assoc. done.
    + lia.
    + lia.
    + rewrite !zlen_app, Hs. lia.
    + apply xor_bytes_bytes; [unfold bytes; rewrite Forall_app; split; [done | apply icv_bytes]|].
      apply rc4_stream_bytes. apply arcfour_init_spec.
      * unfold bytes. rewrite Forall_app. split; [done | apply (wk_bytes _ _ _ Hk)].
      * intros E. apply (f_equal zlen) in E. rewrite zlen_app, zlen_nil in E. pose proof (zlen_nonneg key). lia.
Qed.

Definition ex_sec : security_priv :=
  let c := mkCnt 0 0 0 in
  mkSec WEP40 0 [bytes_of "abcde" ++ zeros 27; zeros 32; zeros 32; zeros 32; zeros 32; zeros 32]
    [5; 0; 0; 0; 0; 0] 1 0 [zeros 32; zeros 32; zeros 32; zeros 32; zeros 32; zeros 32] false false 0
    c c c c c c c c.
Definition ex_f1 : list Z := [8; 0] ++ [1; 2; 3; 0] ++ [72; 105; 33] ++ zeros 4.
Definition ex_f2 : list Z := [8; 1] ++ [1; 2; 4; 0] ++ [79; 75] ++ zeros 4.
Definition ex_wep_tx : pkt_attrib := mkTx WEP40 2 4 4 2 12 (zeros 6) (zeros 6) (zeros 32).
Definition ex_m : list Z := ex_f1 ++ zeros 3 ++ ex_f2 ++ zeros 5.
Definition ex_x : xmit_frame := mkXmit (Some (zeros 40 ++ ex_m)) 0x1000 0.

Lemma ex_keyed : wep_keyed ex_sec 0 (bytes_of "abcde").
Proof.
  constructor; [reflexivity | vm_compute; discriminate | apply bytes_by_compute; reflexivity |].
  exists (zeros 27). reflexivity.
Qed.

Lemma ex_frames : tx_frames ex_x ex_wep_tx 13 (zeros 40) ex_m [ex_f1; ex_f2].
Proof.
  constructor; [reflexivity | reflexivity | vm_compute; discriminate | vm_compute; discriminate | reflexivity
    | | reflexivity | |].
  - exists (zeros 3), (ex_f2 ++ zeros 5). split; [reflexivity|]. split; [reflexivity|]. split; [reflexivity|].
    exists (zeros 5). reflexivity.
  - intros fs' f E. destruct fs' as [|a [|b [|]]]; try discriminate E. injection E as <- <-. reflexivity.
  - repeat constructor; try (apply bytes_by_compute; reflexivity); vm_compute; (discriminate || reflexivity).
Qed.

Lemma wep_roundtrip_witness :
  exists m' fs', rtw_wep_encrypt ex_x ex_wep_tx 13 ex_sec crc_state0 =
      Ok (Some (zeros 40 ++ m'), count_sw WepEnc (zeros 6) ex_sec, crc32_init crc_state0) /\
    Forall2 (wep_opens (bytes_of "abcde") 2 4) [ex_f1; ex_f2] fs'.
Proof.
  destruct (wep_roundtrip ex_x ex_wep_tx 13 (zeros 40) ex_m [ex_f1; ex_f2] ex_sec crc_state0 (bytes_of "abcde"))
    as (m' & fs' & H1 & _ & H2).
  - exact ex_frames.
  - left. reflexivity.
  - exact ex_keyed.
  - left. reflexivity.
  - exists m', fs'. split; [exact H1 | exact H2].
Defined.

(** The receiver checks neither length nor check value: whatever bytes follow the IV, the frame is accepted,
    unless it ends before the IV does; then the length becomes a count near [2^32] and the cipher runs off the buffer. *)
Theorem wep_decrypt_faults_iff h iv r rest len rat rsec rcs key :
  r_encrypt rat = WEP40 \/ r_encrypt rat = WEP104 -> r_hdrlen rat = zlen h -> zlen iv = 3 ->
  r_iv_len rat = zlen iv + zlen r -> bytes iv -> bytes rest ->
  zlen (h ++ iv ++ r ++ rest) < 2 ^ 31 -> 0 <= len <= zlen (h ++ iv ++ r ++ rest) ->
  wep_keyed rsec (r_key_index rat) key -> crc_ok rcs ->
  rtw_wep_decrypt (h ++ iv ++ r ++ rest) len rat rsec rcs =
    if len <? zlen (h ++ iv ++ r) then Fault OobRead
    else let n := Z.to_nat (len - zlen (h ++ iv ++ r)) in
         Ok ((h ++ iv ++ r) ++ opened (iv ++ key) (take n rest) ++ drop n rest,
             count_sw WepDec (r_ra rat) rsec, crc32_init crc_state0).
Proof.
  intros He Hh Hiv Hil Hbi Hbr Hm Hl Hk Hcs.
  pose proof (wk_bytes _ _ _ Hk). pose proof (wk_fits _ _ _ Hk). pose proof (zlen_nonneg key).
  destruct (Z.ltb_spec len (zlen (h ++ iv ++ r))) as [Hs|Hs].
  - unfold rtw_wep_decrypt. replace (_ || _) with true by (symmetry; apply orb_true_iff; rewrite !Z.eqb_eq; done).
    rewrite (wk_len _ _ _ Hk). cbn [bind]. rewrite Hh, wep_key_spec by done. cbn [bind].
    rewrite u32_small by lia. replace (3 + zlen key) with (zlen (iv ++ key)) by (rewrite zlen_app; lia).
    destruct (arcfour_init_front (iv ++ key) (zeros (13 - length key))) as [-> Hwf].
    + unfold bytes. rewrite Forall_app. done.
    + intros E. apply (f_equal zlen) in E. rewrite zlen_app, zlen_nil in E. lia.
    + cbn [bind]. rewrite !zlen_app in *. pose proof (zlen_nonneg h). pose proof (zlen_nonneg r). pose proof (zlen_nonneg rest).
      rewrite Hil. rewrite arcfour_encrypt_oob; [done | done | rewrite !zlen_app; lia |].
      rewrite !zlen_app, s32_small by lia. unfold u32.
      replace (len - zlen h - (zlen iv + zlen r)) with (len - zlen h - (zlen iv + zlen r) + 2 ^ 32 + (-1) * 2 ^ 32) by lia.
      rewrite Z.mod_add, Z.mod_small by lia. lia.
  - cbn zeta. set (n := Z.to_nat (len - zlen (h ++ iv ++ r))).
    replace (h ++ iv ++ r ++ rest) with ((h ++ iv ++ r) ++ take n rest ++ drop n rest)
      by (rewrite take_drop, <- !app_assoc; done).
    assert (Hn : zlen (h ++ iv ++ r ++ take n rest) = len).
    { unfold n. rewrite !zlen_app in *. unfold zlen in *. rewrite length_take. lia. }
    rewrite <- Hn. rewrite !zlen_app in Hm. rewrite wep_decrypt_spec with (key := key); try done.
    + rewrite !zlen_app. unfold zlen in *. rewrite length_take. lia.
    + apply Forall_take. done.
Qed.

Lemma wep_decrypt_faults_iff_witness :
  rtw_wep_decrypt ([8; 0] ++ [1; 2; 3] ++ [0] ++ [1; 1; 1; 1; 1]) 5 (mkRx WEP40 2 4 0 (zeros 6) (zeros 6)) ex_sec
    crc_state0 = Fault OobRead.
Proof.
  rewrite (wep_decrypt_faults_iff [8; 0] [1; 2; 3] [0] [1; 1; 1; 1; 1] 5 (mkRx WEP40 2 4 0 (zeros 6) (zeros 6)) ex_sec
    crc_state0 (bytes_of "abcde")).
  - reflexivity.
  - left. reflexivity.
  - reflexivity.
  - reflexivity.
  - reflexivity.
  - apply bytes_by_compute. reflexivity.
  - apply bytes_by_compute. reflexivity.
  - vm_compute. reflexivity.
  - vm_compute. split; discriminate.
  - exact ex_keyed.
  - left. reflexivity.
Defined.
