(* ===== verification/Words.v ===== *)
(** * 32-bit words as four bytes

    A word and its bytes, bit by bit: the tools of the Michael code and of AES. *)
From Stdlib Require Import ZArith Lia Bool.
From stdpp Require Import base option list numbers.
From S2P Require Import Prelude.
Local Open Scope Z_scope.

Definition is_word (x : Z) : Prop := 0 <= x < 2 ^ 32.

Definition word_of (b0 b1 b2 b3 : Z) : Z := b0 + b1 * 2 ^ 8 + b2 * 2 ^ 16 + b3 * 2 ^ 24.

(** Byte [k] of a word. *)
Definition wbyte (x k : Z) : Z := x / 2 ^ (8 * k) mod 2 ^ 8.

Lemma word_split x : 0 <= x < 2 ^ 32 ->
  x = wbyte x 0 + wbyte x 1 * 2 ^ 8 + wbyte x 2 * 2 ^ 16 + wbyte x 3 * 2 ^ 24 /\
  is_byte (wbyte x 0) /\ is_byte (wbyte x 1) /\ is_byte (wbyte x 2) /\ is_byte (wbyte x 3).
Proof.
  intros Hx. split.
  - unfold wbyte. change (2 ^ (8 * 0)) with 1. change (2 ^ (8 * 1)) with 256.
    change (2 ^ (8 * 2)) with 65536. change (2 ^ (8 * 3)) with 16777216. change (2 ^ 8) with 256.
    change (2 ^ 16) with 65536. change (2 ^ 24) with 16777216. change (2 ^ 32) with 4294967296 in Hx.
    Z.div_mod_to_equations. lia.
  - unfold wbyte, is_byte. change 256 with (2 ^ 8). repeat split; apply Z.mod_pos_bound; lia.
Qed.


Lemma wbyte_bit x k n : 0 <= k -> 0 <= n < 8 -> Z.testbit (wbyte x k) n = Z.testbit x (8 * k + n).
Proof.
  intros Hk Hn. unfold wbyte. rewrite Z.mod_pow2_bits_low by lia.
  rewrite Z.div_pow2_bits by lia. f_equal. lia.
Qed.

Lemma wbyte_byte x k : is_byte (wbyte x k).
Proof. unfold wbyte, is_byte. change 256 with (2 ^ 8). apply Z.mod_pos_bound. lia. Qed.

(** Bit [n] of four bytes put together. *)
Lemma word_of_bit b0 b1 b2 b3 n :
  is_byte b0 -> is_byte b1 -> is_byte b2 -> is_byte b3 -> 0 <= n ->
  Z.testbit (word_of b0 b1 b2 b3) n =
    if n <? 8 then Z.testbit b0 n else if n <? 16 then Z.testbit b1 (n - 8)
    else if n <? 24 then Z.testbit b2 (n - 16) else if n <? 32 then Z.testbit b3 (n - 24) else false.
Proof.
  intros H0 H1 H2 H3 Hn. unfold word_of.
  assert (B : forall b k, is_byte b -> 8 <= k -> Z.testbit b k = false) by (intros; apply byte_testbit_above; done).
  unfold is_byte in *.
  rewrite <- (lor_shiftl_add _ b1 8), <- (lor_shiftl_add _ b2 16), <- (lor_shiftl_add _ b3 24); try lia.
  - rewrite !Z.lor_spec, !Z.shiftl_spec by done.
    destruct (Z.ltb_spec n 8); [rewrite !(Z.testbit_neg_r _ (n - _)) by lia; rewrite !orb_false_r; done|].
    rewrite (B b0) by lia. cbn [orb].
    destruct (Z.ltb_spec n 16); [rewrite !(Z.testbit_neg_r _ (n - 16)), !(Z.testbit_neg_r _ (n - 24)) by lia; rewrite !orb_false_r; done|].
    rewrite (B b1) by lia. cbn [orb].
    destruct (Z.ltb_spec n 24); [rewrite !(Z.testbit_neg_r _ (n - 24)) by lia; rewrite !orb_false_r; done|].
    rewrite (B b2) by lia. cbn [orb].
    destruct (Z.ltb_spec n 32); [done|]. apply B; lia.
  - rewrite (lor_shiftl_add b0) by lia. rewrite lor_shiftl_add by lia. lia.
  - rewrite (lor_shiftl_add b0) by lia. lia.
Qed.

Lemma u32_is_word x : is_word (u32 x).
Proof. apply u32_range. Qed.

Lemma lxor_is_word x y : is_word x -> is_word y -> is_word (Z.lxor x y).
Proof. apply (lxor_below 32). lia. Qed.

Lemma word_of_is_word a b c d : is_byte a -> is_byte b -> is_byte c -> is_byte d -> is_word (word_of a b c d).
Proof. unfold is_byte, is_word, word_of. lia. Qed.

#[export] Hint Resolve u32_is_word lxor_is_word : cbytes.

(** ** Words, highest byte first *)

Definition W (a b c d : Z) : Z := word_of d c b a.

Lemma W_is_word a b c d : is_byte a -> is_byte b -> is_byte c -> is_byte d -> is_word (W a b c d).
Proof. intros. apply word_of_is_word; done. Qed.

Lemma W_split x : is_word x -> exists a b c d, x = W a b c d /\ is_byte a /\ is_byte b /\ is_byte c /\ is_byte d.
Proof.
  intros Hx. destruct (word_split x Hx) as (E & H0 & H1 & H2 & H3).
  exists (wbyte x 3), (wbyte x 2), (wbyte x 1), (wbyte x 0). done.
Qed.

Section Bytewise.
  Context (op : Z -> Z -> Z) (f : bool -> bool -> bool).
  Context (op_spec : forall x y n, Z.testbit (op x y) n = f (Z.testbit x n) (Z.testbit y n)).
  Context (op_byte : forall x y, is_byte x -> is_byte y -> is_byte (op x y)) (f0 : f false false = false).

Lemma W_bytewise a b c d a' b' c' d' :
  is_byte a -> is_byte b -> is_byte c -> is_byte d -> is_byte a' -> is_byte b' -> is_byte c' -> is_byte d' ->
  op (W a b c d) (W a' b' c' d') = W (op a a') (op b b') (op c c') (op d d').
Proof.
  intros. apply Z.bits_inj'. intros n Hn. unfold W. rewrite op_spec, !word_of_bit by auto.
  repeat match goal with |- context [n <? ?k] => destruct (n <? k); [rewrite op_spec; done|] end. done.
Qed.
End Bytewise.

Lemma W_lxor a b c d a' b' c' d' :
  is_byte a -> is_byte b -> is_byte c -> is_byte d -> is_byte a' -> is_byte b' -> is_byte c' -> is_byte d' ->
  Z.lxor (W a b c d) (W a' b' c' d') = W (Z.lxor a a') (Z.lxor b b') (Z.lxor c c') (Z.lxor d d').
Proof. apply (W_bytewise _ xorb); [apply Z.lxor_spec | apply lxor_byte | done]. Qed.

Lemma W_land a b c d a' b' c' d' :
  is_byte a -> is_byte b -> is_byte c -> is_byte d -> is_byte a' -> is_byte b' -> is_byte c' -> is_byte d' ->
  Z.land (W a b c d) (W a' b' c' d') = W (Z.land a a') (Z.land b b') (Z.land c c') (Z.land d d').
Proof. apply (W_bytewise _ andb); [apply Z.land_spec | intros; apply land_byte; done | done]. Qed.

Lemma land_ff_id x : is_byte x -> Z.land x 0xff = x.
Proof. intros Hx. rewrite land_ff_mod. apply Z.mod_small. done. Qed.

Ltac w_arith :=
  unfold W, word_of, u8, u32, is_byte in *; rewrite ?Z.shiftr_div_pow2, ?Z.shiftl_mul_pow2 by lia;
  change (2 ^ 8) with 256 in *; change (2 ^ 16) with 65536 in *; change (2 ^ 24) with 16777216 in *;
  change (2 ^ 32) with 4294967296 in *; Z.div_mod_to_equations; lia.

Section Shifts.
  Context (a b c d : Z) (Ha : is_byte a) (Hb : is_byte b) (Hc : is_byte c) (Hd : is_byte d).

Lemma W_shr8 : Z.shiftr (W a b c d) 8 = W 0 a b c.
Proof. w_arith. Qed.
Lemma W_shr16 : Z.shiftr (W a b c d) 16 = W 0 0 a b.
Proof. w_arith. Qed.
Lemma W_shr24 : Z.shiftr (W a b c d) 24 = W 0 0 0 a.
Proof. w_arith. Qed.
Lemma W_shl8 : u32 (Z.shiftl (W a b c d) 8) = W b c d 0.
Proof. w_arith. Qed.
Lemma W_low : W a b c d & 0xff = d.
Proof. rewrite land_ff_mod. w_arith. Qed.
Lemma W_u8 : u8 (W a b c d) = d.
Proof. w_arith. Qed.
End Shifts.
