(* ===== verification/Michael.v ===== *)
(** * Michael, the message integrity code of TKIP

    Models [secmicgetuint32] to [rtw_seccalctkipmic] of [core/rtw_security.c]: a byte-wise
    accumulator that mixes in a word at a time. The specification folds the words of the
    padded message. *)
From Stdlib Require Import ZArith Lia Bool Ascii String.
From stdpp Require Import base option list numbers.
From S2P Require Import Prelude Words.
Local Open Scope Z_scope.

(** ** The code *)

(* src: include/rtw_security.h:346 ROL32 *)
Definition ROL32 (A n : Z) : Z :=
  u32 (Z.shiftl A n .| (Z.shiftr A (32 - n) & (Z.shiftl 1 n - 1))).

(* src: include/rtw_security.h:347 ROR32 *)
Definition ROR32 (A n : Z) : Z := ROL32 A (32 - n).

(* src: include/rtw_security.h:349-354 mic_data *)
Record mic_data : Type := mkMic { K0 : Z; K1 : Z; mL : Z; mR : Z; mM : Z; nBytesInM : Z }.

(** [for (i = 0; i < 4; i++) res |= ((u32)( *p++)) << (8 * i)] *)
(* src: core/rtw_security.c:397-405 secmicgetuint32 *)
Definition secmicgetuint32 (buf : list Z) (p : Z) : res Z :=
  b0 <- rd buf p ;; b1 <- rd buf (p + 1) ;; b2 <- rd buf (p + 2) ;; b3 <- rd buf (p + 3) ;;
  Ok (u32 (((b0 .| Z.shiftl b1 8) .| Z.shiftl b2 16) .| Z.shiftl b3 24)).

(* src: core/rtw_security.c:407-415 secmicputuint32 *)
Definition secmicputuint32 (val : Z) : list Z :=
  [u8 (val & 0xff); u8 (Z.shiftr val 8 & 0xff); u8 (Z.shiftr val 16 & 0xff); u8 (Z.shiftr val 24 & 0xff)].

(* src: core/rtw_security.c:417-424 secmicclear *)
Definition secmicclear (m : mic_data) : mic_data := mkMic (K0 m) (K1 m) (K0 m) (K1 m) 0 0.

(* src: core/rtw_security.c:426-433 rtw_secmicsetkey *)
Definition rtw_secmicsetkey (key : list Z) : res mic_data :=
  k0 <- secmicgetuint32 key 0 ;;
  k1 <- secmicgetuint32 key 4 ;;
  Ok (secmicclear (mkMic k0 k1 0 0 0 0)).

(** The two middle bytes swapped with their neighbours. *)
Definition xswap_code (L : Z) : Z :=
  Z.shiftr (L & 0xff00ff00) 8 .| u32 (Z.shiftl (L & 0x00ff00ff) 8).

(* src: core/rtw_security.c:435-455 rtw_secmicappendbyte *)
Definition rtw_secmicappendbyte (m : mic_data) (b : Z) : mic_data :=
  let M := mM m .| u32 (Z.shiftl b (8 * nBytesInM m)) in
  let n := u32 (nBytesInM m + 1) in
  if 4 <=? n then
    let L := Z.lxor (mL m) M in
    let R := Z.lxor (mR m) (ROL32 L 17) in
    let L := u32 (L + R) in
    let R := Z.lxor R (xswap_code L) in
    let L := u32 (L + R) in
    let R := Z.lxor R (ROL32 L 3) in
    let L := u32 (L + R) in
    let R := Z.lxor R (ROR32 L 2) in
    let L := u32 (L + R) in
    mkMic (K0 m) (K1 m) L R 0 0
  else mkMic (K0 m) (K1 m) (mL m) (mR m) M n.

(** [while (nbytes > 0)] *)
Fixpoint append_turns (src : list Z) (n : nat) (p : Z) (m : mic_data) : res mic_data :=
  match n with
  | O => Ok m
  | S n => b <- rd src p ;; append_turns src n (p + 1) (rtw_secmicappendbyte m b)
  end.

(* src: core/rtw_security.c:457-464 rtw_secmicappend *)
Definition rtw_secmicappend (m : mic_data) (src : list Z) (p nbytes : Z) : res mic_data :=
  append_turns src (Z.to_nat (u32 nbytes)) p m.

(** The rest of the padding: [while (pmicdata->nBytesInM != 0)]. *)
Definition pad_turn (m : mic_data) : res (mic_data + mic_data) :=
  Ok (if nBytesInM m =? 0 then inr m else inl (rtw_secmicappendbyte m 0)).

(* src: core/rtw_security.c:466-482 rtw_secgetmic *)
Definition rtw_secgetmic (m : mic_data) : res (list Z * mic_data) :=
  let m := rtw_secmicappendbyte m 0x5a in
  let m := rtw_secmicappendbyte m 0 in
  let m := rtw_secmicappendbyte m 0 in
  let m := rtw_secmicappendbyte m 0 in
  let m := rtw_secmicappendbyte m 0 in
  m <- loop pad_turn 4 m ;;
  Ok (secmicputuint32 (mL m) ++ secmicputuint32 (mR m), secmicclear m).

(** The addresses of the pseudo header, by the ToDS and FromDS bits; both senders and
    receivers of a MIC run these lines. *)
(* src: core/rtw_security.c:493-507 rtw_seccalctkipmic *)
Definition mic_addresses (m : mic_data) (buf : list Z) (h : Z) : res mic_data :=
  h1 <- rd buf (h + 1) ;;
  if negb ((h1 & 1) =? 0) then
    m <- rtw_secmicappend m buf (h + 16) 6 ;;
    if negb ((h1 & 2) =? 0) then rtw_secmicappend m buf (h + 24) 6 else rtw_secmicappend m buf (h + 10) 6
  else
    m <- rtw_secmicappend m buf (h + 4) 6 ;;
    if negb ((h1 & 2) =? 0) then rtw_secmicappend m buf (h + 16) 6 else rtw_secmicappend m buf (h + 10) 6.

(** [header] and [data] are offsets of [buf]. *)
(* src: core/rtw_security.c:485-514 rtw_seccalctkipmic *)
Definition rtw_seccalctkipmic (key buf : list Z) (header data data_len pri : Z) : res (list Z) :=
  m <- rtw_secmicsetkey key ;;
  m <- mic_addresses m buf header ;;
  m <- rtw_secmicappend m [pri; 0; 0; 0] 0 4 ;;
  m <- rtw_secmicappend m buf data data_len ;;
  '(mic, _) <- rtw_secgetmic m ;;
  Ok mic.

(** ** Specification *)

Definition rotl (x n : Z) : Z := (x * 2 ^ n) mod 2 ^ 32 + x / 2 ^ (32 - n).

(** The bytes [b3 b2 b1 b0] become [b2 b3 b0 b1]. *)
Definition xswap (x : Z) : Z :=
  x / 2 ^ 8 mod 2 ^ 8 + x mod 2 ^ 8 * 2 ^ 8 + x / 2 ^ 24 mod 2 ^ 8 * 2 ^ 16 + x / 2 ^ 16 mod 2 ^ 8 * 2 ^ 24.

(** The block function and one word of the message. *)
Definition michael_word (s : Z * Z) (w : Z) : Z * Z :=
  let '(l, r) := s in
  let l := Z.lxor l w in
  let r := Z.lxor r (rotl l 17) in
  let l := u32 (l + r) in
  let r := Z.lxor r (xswap l) in
  let l := u32 (l + r) in
  let r := Z.lxor r (rotl l 3) in
  let l := u32 (l + r) in
  let r := Z.lxor r (rotl l 30) in
  (u32 (l + r), r).

Fixpoint words (l : list Z) : list Z :=
  match l with
  | b0 :: b1 :: b2 :: b3 :: l => word_of b0 b1 b2 b3 :: words l
  | _ => []
  end.

(** 0x5a, then at least four zeros up to a multiple of four bytes. *)
Definition padded (l : list Z) : list Z := l ++ 0x5a :: zeros (4 + (3 - length l mod 4)).

Definition bytes_of_word (x : Z) : list Z :=
  [x mod 2 ^ 8; x / 2 ^ 8 mod 2 ^ 8; x / 2 ^ 16 mod 2 ^ 8; x / 2 ^ 24 mod 2 ^ 8].

Definition michael (key : Z * Z) (l : list Z) : list Z :=
  let '(a, b) := fold_left michael_word (words (padded l)) key in bytes_of_word a ++ bytes_of_word b.

(** ** Lemmas: the words *)

Lemma ROL32_rotl x n : 0 <= x < 2 ^ 32 -> 0 < n < 32 -> ROL32 x n = rotl x n.
Proof.
  intros Hx Hn. unfold ROL32, rotl, u32.
  replace (Z.shiftl 1 n - 1) with (Z.ones n) by (rewrite Z.ones_equiv, Z.shiftl_1_l; lia).
  assert (Hlow : 0 <= x / 2 ^ (32 - n) < 2 ^ n).
  { split; [apply Z.div_pos; [lia | apply Z.pow_pos_nonneg; lia]|].
    apply Z.div_lt_upper_bound; [apply Z.pow_pos_nonneg; lia|]. rewrite <- Z.pow_add_r by lia.
    replace (32 - n + n) with 32 by lia. lia. }
  rewrite Z.land_ones, Z.shiftr_div_pow2, (Z.mod_small (x / _)) by (done || lia).
  rewrite Z.lor_comm, lor_shiftl_add by (done || lia).
  rewrite Z.add_comm, Z.add_mod by lia. rewrite (Z.mod_small (x / _)).
  2:{ assert (2 ^ n <= 2 ^ 32) by (apply Z.pow_le_mono_r; lia). lia. }
  apply Z.mod_small.
  (* the shifted part is a multiple of 2^n below 2^32 *)
  assert (Hm : (x * 2 ^ n) mod 2 ^ 32 = 2 ^ n * (x mod 2 ^ (32 - n))).
  { replace (2 ^ 32) with (2 ^ n * 2 ^ (32 - n)) by (rewrite <- Z.pow_add_r by lia; f_equal; lia).
    rewrite Z.mul_comm, Z.mul_mod_distr_l; [done | | ]; apply Z.pow_nonzero; lia. }
  rewrite Hm. pose proof (Z.mod_pos_bound x (2 ^ (32 - n)) ltac:(apply Z.pow_pos_nonneg; lia)) as Hb.
  assert (2 ^ 32 = 2 ^ n * 2 ^ (32 - n)) as -> by (rewrite <- Z.pow_add_r by lia; f_equal; lia). nia.
Qed.

Lemma rotl_range x n : 0 <= x < 2 ^ 32 -> 0 < n < 32 -> 0 <= rotl x n < 2 ^ 32.
Proof. intros Hx Hn. rewrite <- ROL32_rotl by done. apply u32_range. Qed.

Lemma xswap_word x : xswap x = word_of (wbyte x 1) (wbyte x 0) (wbyte x 3) (wbyte x 2).
Proof. unfold xswap, word_of, wbyte. rewrite Z.mul_0_r, Z.pow_0_r, Z.div_1_r. done. Qed.

(** Closes a goal about one bit, its number a numeral. *)
Ltac eval_bits :=
  cbv -[Z.testbit wbyte Z.land];
  rewrite ?wbyte_bit, ?Z.land_spec by lia; cbv -[Z.testbit wbyte];
  repeat match goal with
  | |- context [Z.testbit (Zpos ?p) ?k] =>
      let v := eval vm_compute in (Z.testbit (Zpos p) k) in change (Z.testbit (Zpos p) k) with v
  end;
  cbv -[Z.testbit];
  repeat match goal with |- context [Z.testbit ?x ?k] => destruct (Z.testbit x k) end; reflexivity.

(** The masks, bit by bit. *)
Lemma xswap_code_eq x : 0 <= x < 2 ^ 32 -> xswap_code x = xswap x.
Proof.
  intros Hx. rewrite xswap_word. apply Z.bits_inj'. intros n Hn.
  rewrite word_of_bit by (done || apply wbyte_byte). unfold xswap_code, u32.
  rewrite Z.lor_spec, Z.shiftr_spec, Z.land_spec by done.
  destruct (Z.ltb_spec n 32) as [H32|H32].
  - rewrite Z.mod_pow2_bits_low by lia. rewrite Z.shiftl_spec by done.
    assert (HN : In n (map Z.of_nat (seq 0 32))).
    { apply List.in_map_iff. exists (Z.to_nat n). split; [lia|]. apply List.in_seq. lia. }
    vm_compute in HN. clear Hn H32. repeat (destruct HN as [<- | HN]; [eval_bits|]). destruct HN.
  - rewrite Z.mod_pow2_bits_high by lia. rewrite (testbit_above 32 x) by lia.
    destruct (Z.ltb_spec n 8), (Z.ltb_spec n 16), (Z.ltb_spec n 24); (lia || done).
Qed.

(** ** Lemmas: the accumulator holds the message *)

Fixpoint le_val (t : list Z) : Z := match t with [] => 0 | b :: t => b + 2 ^ 8 * le_val t end.

(** [m], keyed with [key], has been given the bytes [l] since the last reset. *)
Record mic_rep (key : Z * Z) (l : list Z) (m : mic_data) : Prop := {
  mr_split : exists k w t, l = w ++ t /\ length w = (4 * k)%nat /\ (length t < 4)%nat /\ bytes t /\
    mM m = le_val t /\ nBytesInM m = zlen t /\
    (mL m, mR m) = fold_left michael_word (words w) key;
  mr_key : (K0 m, K1 m) = key;
  mr_state : is_word (mL m) /\ is_word (mR m) }.

Lemma words_app k : forall w v, length w = (4 * k)%nat -> words (w ++ v) = words w ++ words v.
Proof.
  induction k as [|k IH]; intros w v Hw; [destruct w; [done | discriminate]|].
  destruct w as [|a [|b [|c [|d w]]]]; cbn in Hw; try lia. cbn [app words]. f_equal. apply IH. lia.
Qed.

Lemma xswap_is_word x : is_word (xswap x).
Proof. rewrite xswap_word. apply word_of_is_word; apply wbyte_byte. Qed.

Lemma rotl_is_word x n : is_word x -> 0 < n < 32 -> is_word (rotl x n).
Proof. intros. apply rotl_range; done. Qed.

#[export] Hint Resolve xswap_is_word rotl_is_word : cbytes.

(** A full word is one turn of the block function. *)
Lemma append_full m b w :
  (mM m .| u32 (Z.shiftl b (8 * nBytesInM m))) = w -> nBytesInM m = 3 -> is_word w ->
  is_word (mL m) -> is_word (mR m) ->
  rtw_secmicappendbyte m b =
    mkMic (K0 m) (K1 m) (fst (michael_word (mL m, mR m) w)) (snd (michael_word (mL m, mR m) w)) 0 0.
Proof.
  intros HM Hn Hw HL HR. unfold rtw_secmicappendbyte, ROR32. rewrite HM, Hn.
  replace (4 <=? u32 (3 + 1)) with true by done. cbn zeta. unfold michael_word. cbn [fst snd].
  rewrite (ROL32_rotl (Z.lxor (mL m) w)) by (apply lxor_is_word || lia; done).
  rewrite xswap_code_eq by (apply u32_range). rewrite !ROL32_rotl by (apply u32_range || lia). done.
Qed.

Lemma michael_word_is_word l r w :
  is_word l -> is_word r -> is_word w -> is_word (fst (michael_word (l, r) w)) /\ is_word (snd (michael_word (l, r) w)).
Proof.
  intros Hl Hr Hw. unfold michael_word. cbn [fst snd].
  split; [apply u32_is_word|].
  repeat (apply lxor_is_word || apply rotl_is_word || apply xswap_is_word || apply u32_is_word || done || lia).
Qed.

Lemma append_byte_rep key l m b : mic_rep key l m -> is_byte b -> mic_rep key (l ++ [b]) (rtw_secmicappendbyte m b).
Proof.
  intros [(k & w & t & -> & Hw & Ht & Hb & HM & Hn & HLR) HK [HL HR]] Hbb.
  destruct (decide (length t = 3%nat)) as [H3|H3].
  - destruct t as [|t0 [|t1 [|t2 [|]]]]; try discriminate H3.
    pose proof (Forall_cons_1 _ _ _ Hb) as [B0 Hb1]. pose proof (Forall_cons_1 _ _ _ Hb1) as [B1 Hb2].
    pose proof (Forall_cons_1 _ _ _ Hb2) as [B2 _].
    pose proof (word_of_is_word t0 t1 t2 b B0 B1 B2 Hbb) as HW.
    rewrite (append_full m b (word_of t0 t1 t2 b)); [| |rewrite Hn; done | done | done | done].
    + pose proof (michael_word_is_word _ _ _ HL HR HW) as [HL' HR'].
      split; [|done|done]. exists (S k), (w ++ [t0; t1; t2; b]), [].
      split; [rewrite <- app_assoc, app_nil_r; done|]. split; [rewrite length_app; cbn; lia|].
      split; [cbn; lia|]. split; [constructor|]. split; [done|]. split; [done|]. cbn [mL mR].
      rewrite (words_app k) by done. cbn [words]. rewrite fold_left_app.
      rewrite <- HLR. cbn [fold_left]. rewrite <- surjective_pairing. done.
    + rewrite HM, Hn. unfold is_byte in *. change (8 * zlen [t0; t1; t2]) with 24.
      rewrite u32_small by (rewrite Z.shiftl_mul_pow2 by lia; lia). cbn [le_val].
      rewrite lor_shiftl_add by lia. unfold word_of. lia.
  - assert (Hlt : (4 <=? u32 (nBytesInM m + 1)) = false).
    { rewrite Hn. unfold zlen in *. rewrite u32_small by lia. lia. }
    unfold rtw_secmicappendbyte. rewrite Hlt. split; [|done|done].
    exists k, w, (t ++ [b]). cbn [mL mR mM nBytesInM].
    split; [rewrite <- app_assoc; done|]. split; [done|]. split; [rewrite length_app; cbn; lia|].
    split; [unfold bytes; rewrite Forall_app; split; [done | constructor; [done | constructor]]|].
    split; [|split; [rewrite Hn, zlen_app; unfold zlen in *; cbn; rewrite u32_small by lia; lia | exact HLR]].
    rewrite HM, Hn. clear HM Hn Hlt HLR.
    destruct t as [|t0 [|t1 [|t2 [|]]]]; cbn in Ht, H3; try lia;
      unfold bytes in Hb; repeat match goal with H : Forall is_byte (_ :: _) |- _ => apply Forall_cons_1 in H as [? H] end;
      unfold is_byte in *; cbn [le_val app].
    + change (8 * zlen (@nil Z)) with 0. rewrite Z.shiftl_0_r, Z.lor_0_l, u32_small by lia. lia.
    + change (8 * zlen [t0]) with 8. rewrite u32_small by (rewrite Z.shiftl_mul_pow2 by lia; lia).
      rewrite lor_shiftl_add by lia. lia.
    + change (8 * zlen [t0; t1]) with 16. rewrite u32_small by (rewrite Z.shiftl_mul_pow2 by lia; lia).
      rewrite lor_shiftl_add by lia. lia.
Qed.

Lemma append_turns_rep key src n : forall p m l pre post,
  mic_rep key l m -> src = pre ++ post -> zlen pre = p -> (n <= length post)%nat -> bytes (take n post) ->
  exists m', append_turns src n p m = Ok m' /\ mic_rep key (l ++ take n post) m'.
Proof.
  induction n as [|n IH]; intros p m l pre post Hm Hs Hp Hn Hb.
  - exists m. split; [done|]. rewrite app_nil_r. done.
  - destruct post as [|b post]; [cbn in Hn; lia|]. cbn [take] in Hb. apply Forall_cons_1 in Hb as [Hb Hbs].
    cbn [append_turns take]. replace (rd src p) with (Ok b) by (rewrite Hs, <- Hp, rd_mid; done). cbn [bind].
    destruct (IH (p + 1) (rtw_secmicappendbyte m b) (l ++ [b]) (pre ++ [b]) post) as (m' & -> & Hm').
    + apply append_byte_rep; done.
    + rewrite Hs, <- app_assoc. done.
    + rewrite zlen_app, Hp. done.
    + cbn in Hn. lia.
    + done.
    + exists m'. split; [done|]. rewrite <- app_assoc in Hm'. done.
Qed.

(** Appending a part of a buffer. *)
Lemma append_rep key m l pre s post :
  mic_rep key l m -> bytes s -> zlen s < 2 ^ 32 ->
  exists m', rtw_secmicappend m (pre ++ s ++ post) (zlen pre) (zlen s) = Ok m' /\ mic_rep key (l ++ s) m'.
Proof.
  intros Hm Hs Hl. unfold rtw_secmicappend.
  replace (Z.to_nat (u32 (zlen s))) with (length s)
    by (rewrite u32_small by (pose proof (zlen_nonneg s); lia); unfold zlen; lia).
  pose proof (take_app_length s post) as Ht.
  destruct (append_turns_rep key (pre ++ s ++ post) (length s) (zlen pre) m l pre (s ++ post)) as (m' & H1 & H2);
    try done; [rewrite length_app; lia | rewrite Ht; done | rewrite Ht in H2; eauto].
Qed.

Lemma mic_rep_mod key l m : mic_rep key l m -> nBytesInM m = Z.of_nat (length l mod 4).
Proof.
  intros [(k & w & t & -> & Hw & Ht & _ & _ & -> & _) _ _]. rewrite length_app, Hw, Nat.add_comm, Nat.mul_comm.
  rewrite Nat.Div0.mod_add, Nat.mod_small by done. done.
Qed.

Lemma pad_loop key j : forall fuel l m,
  mic_rep key l m -> (j < 4)%nat -> ((length l + j) mod 4 = 0)%nat -> (j < fuel)%nat ->
  exists m', loop pad_turn fuel m = Ok m' /\ mic_rep key (l ++ zeros j) m'.
Proof.
  induction j as [|j IH]; intros fuel l m Hm Hj Hmod Hf; (destruct fuel as [|fuel]; [lia|]);
    rewrite loop_S; unfold pad_turn at 1; rewrite (mic_rep_mod key l m Hm).
  - rewrite Nat.add_0_r in Hmod. rewrite Hmod. exists m. split; [done|]. rewrite app_nil_r. done.
  - assert (Hne : (length l mod 4 <> 0)%nat).
    { intros E. pose proof (Nat.div_mod_eq (length l) 4). pose proof (Nat.div_mod_eq (length l + S j) 4). lia. }
    replace (_ =? 0) with false by (symmetry; apply Z.eqb_neq; lia).
    destruct (IH fuel (l ++ [0]) (rtw_secmicappendbyte m 0)) as (m' & -> & Hm').
    + apply append_byte_rep; [done | unfold is_byte; lia].
    + lia.
    + rewrite length_app. cbn [length]. replace (length l + 1 + j)%nat with (length l + S j)%nat by lia. done.
    + lia.
    + exists m'. split; [done|]. rewrite <- app_assoc in Hm'. exact Hm'.
Qed.

Lemma put_word x : is_word x -> secmicputuint32 x = bytes_of_word x.
Proof.
  intros Hx. unfold secmicputuint32, bytes_of_word. rewrite !land_ff_mod, !Z.shiftr_div_pow2 by lia.
  unfold u8. change 256 with (2 ^ 8). rewrite !Z.mod_mod by lia. done.
Qed.

(** A message of whole words is all in the state. *)
Lemma mic_rep_whole key l m : mic_rep key l m -> (length l mod 4 = 0)%nat ->
  (mL m, mR m) = fold_left michael_word (words l) key.
Proof.
  intros Hm Hl. destruct Hm as [(k & w & t & -> & Hw & Ht & _ & _ & _ & HLR) _ _].
  assert (t = []) as ->; [|rewrite app_nil_r; done].
  rewrite length_app, Hw, Nat.add_comm, Nat.mul_comm, Nat.Div0.mod_add, Nat.mod_small in Hl by done.
  destruct t; [done | discriminate].
Qed.

Lemma getmic_rep key l m : mic_rep key l m -> exists m', rtw_secgetmic m = Ok (michael key l, m').
Proof.
  intros Hm. unfold rtw_secgetmic.
  assert (B0 : is_byte 0) by (unfold is_byte; lia). assert (B5 : is_byte 0x5a) by (unfold is_byte; lia).
  pose proof (append_byte_rep _ _ _ _ (append_byte_rep _ _ _ _ (append_byte_rep _ _ _ _ (append_byte_rep _ _ _ _
    (append_byte_rep _ _ _ _ Hm B5) B0) B0) B0) B0) as H5.
  rewrite <- !app_assoc in H5. cbn [app] in H5. cbn zeta.
  set (m5 := rtw_secmicappendbyte _ 0) in *. clearbody m5.
  pose proof (Nat.mod_upper_bound (length l) 4 ltac:(lia)) as Hub.
  assert (Hmod : ((length (l ++ [0x5a; 0; 0; 0; 0]%Z) + (3 - length l mod 4)) mod 4 = 0)%nat).
  { rewrite length_app. cbn [length]. pose proof (Nat.div_mod_eq (length l) 4) as E.
    replace (length l + 5 + (3 - length l mod 4))%nat with (0 + (length l / 4 + 2) * 4)%nat by lia.
    apply Nat.Div0.mod_add. }
  destruct (pad_loop key (3 - length l mod 4) 4 _ m5 H5) as (m' & -> & Hm'); [lia | done | lia |].
  exists (secmicclear m'). cbn [bind].
  assert (Hp : padded l = (l ++ [0x5a; 0; 0; 0; 0]) ++ zeros (3 - length l mod 4)).
  { unfold padded, zeros. rewrite replicate_add, <- app_assoc. done. }
  rewrite <- Hp in Hm'. pose proof (mic_rep_whole key _ m' Hm') as HW. unfold michael.
  rewrite <- HW.
  - destruct Hm' as [_ _ [HL HR]]. rewrite !put_word by done. done.
  - rewrite Hp, length_app. unfold zeros at 1. rewrite length_replicate. exact Hmod.
Qed.

(** Appending from an offset. *)
Lemma append_at key m l buf p n :
  mic_rep key l m -> bytes buf -> 0 <= p -> 0 <= n < 2 ^ 32 -> p + n <= zlen buf ->
  exists m', rtw_secmicappend m buf p n = Ok m' /\
    mic_rep key (l ++ take (Z.to_nat n) (drop (Z.to_nat p) buf)) m'.
Proof.
  intros Hm Hb Hp Hn Hl. set (s := take (Z.to_nat n) (drop (Z.to_nat p) buf)).
  assert (Hs : zlen s = n) by (unfold s, zlen in *; rewrite length_take, length_drop; lia).
  assert (Ha : zlen (take (Z.to_nat p) buf) = p) by (unfold zlen in *; rewrite length_take; lia).
  assert (E : buf = take (Z.to_nat p) buf ++ s ++ drop (Z.to_nat n) (drop (Z.to_nat p) buf))
    by (unfold s; rewrite !take_drop; done).
  pose proof (append_rep key m l (take (Z.to_nat p) buf) s (drop (Z.to_nat n) (drop (Z.to_nat p) buf)) Hm) as H.
  rewrite <- E, Ha, Hs in H. apply H; [apply Forall_take, Forall_drop; done | lia].
Qed.

Lemma getuint32_word a b0 b1 b2 b3 c :
  is_byte b0 -> is_byte b1 -> is_byte b2 -> is_byte b3 ->
  secmicgetuint32 (a ++ b0 :: b1 :: b2 :: b3 :: c) (zlen a) = Ok (word_of b0 b1 b2 b3).
Proof.
  intros H0 H1 H2 H3. unfold secmicgetuint32.
  replace (rd _ (zlen a)) with (Ok b0) by (rewrite rd_mid; done).
  assert (H : forall k x t, drop k (b0 :: b1 :: b2 :: b3 :: c) = x :: t -> (k <= 4)%nat ->
    rd (a ++ b0 :: b1 :: b2 :: b3 :: c) (zlen a + Z.of_nat k) = Ok x).
  { intros k x t Hk Hk4. apply rd_Ok. pose proof (zlen_nonneg a). split; [lia|].
    rewrite lookup_app_r by (unfold zlen; lia).
    replace (Z.to_nat (zlen a + Z.of_nat k) - length a)%nat with k by (unfold zlen; lia).
    pose proof (lookup_drop (b0 :: b1 :: b2 :: b3 :: c) k 0) as HL. rewrite Hk, Nat.add_0_r in HL.
    rewrite <- HL. done. }
  cbn [bind]. pose proof (H 1%nat b1 _ eq_refl ltac:(lia)) as E1. pose proof (H 2%nat b2 _ eq_refl ltac:(lia)) as E2.
  pose proof (H 3%nat b3 _ eq_refl ltac:(lia)) as E3. cbn [Z.of_nat] in E1, E2, E3.
  change (Z.of_nat 1) with 1 in E1. change (Z.of_nat 2) with 2 in E2. change (Z.of_nat 3) with 3 in E3.
  rewrite E1. cbn [bind]. rewrite E2. cbn [bind]. rewrite E3. cbn [bind]. unfold is_byte in *.
  rewrite (lor_shiftl_add b0) by lia. rewrite (lor_shiftl_add _ b2) by lia. rewrite (lor_shiftl_add _ b3) by lia.
  rewrite u32_small by lia. done.
Qed.

(** The eight key bytes as the two words. *)
Definition mic_key (key : list Z) : Z * Z :=
  match key with
  | a :: b :: c :: d :: e :: f :: g :: h :: _ => (word_of a b c d, word_of e f g h)
  | _ => (0, 0)
  end.

Lemma setkey_rep key : bytes key -> 8 <= zlen key ->
  exists m, rtw_secmicsetkey key = Ok m /\ mic_rep (mic_key key) [] m.
Proof.
  intros Hb Hl. destruct key as [|a [|b [|c [|d [|e [|f [|g [|h key]]]]]]]]; try (unfold zlen in Hl; cbn [length] in Hl; lia).
  unfold bytes in Hb. repeat match goal with H : Forall is_byte (_ :: _) |- _ => apply Forall_cons_1 in H as [? H] end.
  unfold rtw_secmicsetkey. pose proof (getuint32_word [] a b c d (e :: f :: g :: h :: key)) as E1.
  pose proof (getuint32_word [a; b; c; d] e f g h key) as E2. cbn [app] in E1, E2.
  change (zlen (@nil Z)) with 0 in E1. change (zlen [a; b; c; d]) with 4 in E2.
  rewrite E1 by done. cbn [bind]. rewrite E2 by done. cbn [bind]. eexists. split; [done|].
  pose proof (word_of_is_word a b c d). pose proof (word_of_is_word e f g h).
  split; [|done|split; cbn; auto]. exists O, [], []. split; [done|]. split; [done|]. split; [cbn; lia|].
  split; [constructor|]. done.
Qed.

Definition six (buf : list Z) (p : Z) : list Z := take 6 (drop (Z.to_nat p) buf).

(** Destination, source, priority: what the MIC covers of the header at [h]. *)
Definition mic_header (buf : list Z) (h pri : Z) : list Z :=
  let h1 := buf !!! Z.to_nat (h + 1) in
  let tods := negb ((h1 & 1) =? 0) in
  let fromds := negb ((h1 & 2) =? 0) in
  six buf (h + (if tods then 16 else 4)) ++
  six buf (h + (if fromds then (if tods then 24 else 16) else 10)) ++ [pri; 0; 0; 0].

Lemma mic_addresses_rep key m l buf h :
  mic_rep key l m -> bytes buf -> 0 <= h -> h + 30 <= zlen buf ->
  exists m', mic_addresses m buf h = Ok m' /\
    forall pri, mic_rep key (l ++ firstn 12 (mic_header buf h pri)) m'.
Proof.
  intros Hm Hb Hh Hl. unfold mic_addresses, mic_header.
  destruct (rd_in buf (h + 1)) as [h1 Hr]; [lia|]. rewrite Hr. cbn [bind].
  apply rd_Ok in Hr as [_ Hr]. rewrite (list_lookup_total_correct _ _ _ Hr).
  assert (HA : forall m l p, mic_rep key l m -> 0 <= p -> p + 6 <= zlen buf ->
    exists m', rtw_secmicappend m buf p 6 = Ok m' /\ mic_rep key (l ++ six buf p) m').
  { intros m0 l0 p H0 H1 H2. apply (append_at key m0 l0 buf p 6); done. }
  assert (H6 : forall p q t, 0 <= p -> p + 6 <= zlen buf -> 0 <= q -> q + 6 <= zlen buf ->
    firstn 12 (six buf p ++ six buf q ++ t) = six buf p ++ six buf q).
  { intros p q t ? ? ? ?. rewrite app_assoc. apply take_app_length'. rewrite length_app. unfold six, zlen in *.
    rewrite !length_take, !length_drop. lia. }
  destruct (negb ((h1 & 1) =? 0)), (negb ((h1 & 2) =? 0)).
  - destruct (HA m l (h + 16)) as (m1 & -> & H1); [done | lia | lia |]. cbn [bind].
    destruct (HA m1 _ (h + 24) H1) as (m2 & -> & H2); [lia | lia |]. exists m2. split; [done|].
    intros pri. rewrite H6, app_assoc by lia. done.
  - destruct (HA m l (h + 16)) as (m1 & -> & H1); [done | lia | lia |]. cbn [bind].
    destruct (HA m1 _ (h + 10) H1) as (m2 & -> & H2); [lia | lia |]. exists m2. split; [done|].
    intros pri. rewrite H6, app_assoc by lia. done.
  - destruct (HA m l (h + 4)) as (m1 & -> & H1); [done | lia | lia |]. cbn [bind].
    destruct (HA m1 _ (h + 16) H1) as (m2 & -> & H2); [lia | lia |]. exists m2. split; [done|].
    intros pri. rewrite H6, app_assoc by lia. done.
  - destruct (HA m l (h + 4)) as (m1 & -> & H1); [done | lia | lia |]. cbn [bind].
    destruct (HA m1 _ (h + 10) H1) as (m2 & -> & H2); [lia | lia |]. exists m2. split; [done|].
    intros pri. rewrite H6, app_assoc by lia. done.
Qed.

Lemma seccalctkipmic_spec key buf h data n pri :
  bytes key -> 8 <= zlen key -> bytes buf -> is_byte pri ->
  0 <= h -> h + 30 <= zlen buf -> 0 <= data -> 0 <= n < 2 ^ 32 -> data + n <= zlen buf ->
  rtw_seccalctkipmic key buf h data n pri =
    Ok (michael (mic_key key) (mic_header buf h pri ++ take (Z.to_nat n) (drop (Z.to_nat data) buf))).
Proof.
  intros Hk Hk8 Hb Hpri Hh Hhl Hd Hn Hdl. unfold rtw_seccalctkipmic.
  destruct (setkey_rep key Hk Hk8) as (m0 & -> & H0). cbn [bind].
  destruct (mic_addresses_rep _ m0 [] buf h H0 Hb Hh Hhl) as (m1 & -> & H1). cbn [bind]. specialize (H1 pri).
  destruct (append_at _ m1 _ [pri; 0; 0; 0] 0 4 H1) as (m2 & -> & H2).
  - constructor; [done | apply (bytes_by_compute [0; 0; 0]); done].
  - lia.
  - lia.
  - done.
  - cbn [bind]. destruct (append_at _ m2 _ buf data n H2 Hb) as (m3 & -> & H3); [lia | lia | lia |]. cbn [bind].
    destruct (getmic_rep _ _ m3 H3) as (m4 & ->). cbn [bind]. f_equal. f_equal.
    change (take (Z.to_nat 4) (drop (Z.to_nat 0) [pri; 0; 0; 0])) with [pri; 0; 0; 0].
    rewrite app_nil_l. f_equal. unfold mic_header. set (x := six buf _). set (y := six buf _).
    assert (Hx : length (x ++ y) = 12%nat).
    { rewrite length_app. unfold x, y, six, zlen in *. rewrite !length_take, !length_drop.
      destruct (negb _), (negb _); lia. }
    rewrite (app_assoc x y), take_app_length' by done. done.
Qed.

(** ** Theorem *)

(** C35: the byte-wise accumulator computes Michael: on any frame the code [rtw_seccalctkipmic] gives out is the word-wise
    hash of the padded message, that is destination, source, priority and payload, the addresses picked by the
    two direction bits; the padding loop ends. *)
Theorem michael_is_word_hash key buf h data n pri :
  bytes key -> 8 <= zlen key -> bytes buf -> is_byte pri ->
  0 <= h -> h + 30 <= zlen buf -> 0 <= data -> 0 <= n < 2 ^ 32 -> data + n <= zlen buf ->
  rtw_seccalctkipmic key buf h data n pri =
    Ok (michael (mic_key key) (mic_header buf h pri ++ take (Z.to_nat n) (drop (Z.to_nat data) buf))).
Proof. apply seccalctkipmic_spec. Qed.

(** The test vector of the standard: key and message empty. *)
Lemma michael_is_word_hash_witness :
  michael (mic_key (zeros 8)) [] = [0x82; 0x92; 0x5c; 0x1c; 0xa1; 0xd1; 0x30; 0xb8] /\
  rtw_seccalctkipmic (zeros 8) (zeros 32) 0 30 2 5 =
    Ok (michael (mic_key (zeros 8)) (mic_header (zeros 32) 0 5 ++ [0; 0])).
Proof.
  split; [vm_compute; reflexivity|].
  apply (michael_is_word_hash (zeros 8) (zeros 32) 0 30 2 5); try (vm_compute; (reflexivity || discriminate));
    try (apply bytes_by_compute; reflexivity); vm_compute; split; (reflexivity || discriminate).
Defined.
