(* ===== verification/TkipKey.v ===== *)
(** * The key mixing of TKIP

    Models the macros, the S-box and [phase1] and [phase2] of [core/rtw_security.c]. The theorem is the
    claim of the comments there: for a given temporal key no two packets have the same RC4 key. *)
From Stdlib Require Import ZArith Lia Bool.
From stdpp Require Import base option list numbers.
From S2P Require Import Prelude.
Local Open Scope Z_scope.

(** ** The code *)

(* src: core/rtw_security.c:520 RotR1 *)
Definition RotR1 (v : Z) : Z := Z.lxor (Z.shiftr v 1 & 0x7FFF) (Z.shiftl (v & 1) 15).
(* src: core/rtw_security.c:521 Lo8 *)
Definition Lo8 (v : Z) : Z := u8 (v & 0x00FF).
(* src: core/rtw_security.c:522 Hi8 *)
Definition Hi8 (v : Z) : Z := u8 (Z.shiftr v 8 & 0x00FF).
(* src: core/rtw_security.c:523 Lo16 *)
Definition Lo16 (v : Z) : Z := u16 (v & 0xFFFF).
(* src: core/rtw_security.c:524 Hi16 *)
Definition Hi16 (v : Z) : Z := u16 (Z.shiftr v 16 & 0xFFFF).
(* src: core/rtw_security.c:525 Mk16 *)
Definition Mk16 (hi lo : Z) : Z := Z.lxor lo (Z.shiftl (u16 hi) 8).

(** The arrays are long enough for every index: [tk] has 32 bytes, [ta] 6. *)
(* src: core/rtw_security.c:528 TK16 *)
Definition TK16 (tk : list Z) (n : Z) : Z := Mk16 (byte_at tk (2 * n + 1)) (byte_at tk (2 * n)).

(* src: core/rtw_security.c:542-576 Sbox1 *)
Definition Sbox1_0 : list Z :=
  [0xc6a5; 0xf884; 0xee99; 0xf68d; 0xff0d; 0xd6bd; 0xdeb1; 0x9154; 0x6050; 0x0203; 0xcea9; 0x567d;
   0xe719; 0xb562; 0x4de6; 0xec9a; 0x8f45; 0x1f9d; 0x8940; 0xfa87; 0xef15; 0xb2eb; 0x8ec9; 0xfb0b;
   0x41ec; 0xb367; 0x5ffd; 0x45ea; 0x23bf; 0x53f7; 0xe496; 0x9b5b; 0x75c2; 0xe11c; 0x3dae; 0x4c6a;
   0x6c5a; 0x7e41; 0xf502; 0x834f; 0x685c; 0x51f4; 0xd134; 0xf908; 0xe293; 0xab73; 0x6253; 0x2a3f;
   0x080c; 0x9552; 0x4665; 0x9d5e; 0x3028; 0x37a1; 0x0a0f; 0x2fb5; 0x0e09; 0x2436; 0x1b9b; 0xdf3d;
   0xcd26; 0x4e69; 0x7fcd; 0xea9f; 0x121b; 0x1d9e; 0x5874; 0x342e; 0x362d; 0xdcb2; 0xb4ee; 0x5bfb;
   0xa4f6; 0x764d; 0xb761; 0x7dce; 0x527b; 0xdd3e; 0x5e71; 0x1397; 0xa6f5; 0xb968; 0x0000; 0xc12c;
   0x4060; 0xe31f; 0x79c8; 0xb6ed; 0xd4be; 0x8d46; 0x67d9; 0x724b; 0x94de; 0x98d4; 0xb0e8; 0x854a;
   0xbb6b; 0xc52a; 0x4fe5; 0xed16; 0x86c5; 0x9ad7; 0x6655; 0x1194; 0x8acf; 0xe910; 0x0406; 0xfe81;
   0xa0f0; 0x7844; 0x25ba; 0x4be3; 0xa2f3; 0x5dfe; 0x80c0; 0x058a; 0x3fad; 0x21bc; 0x7048; 0xf104;
   0x63df; 0x77c1; 0xaf75; 0x4263; 0x2030; 0xe51a; 0xfd0e; 0xbf6d; 0x814c; 0x1814; 0x2635; 0xc32f;
   0xbee1; 0x35a2; 0x88cc; 0x2e39; 0x9357; 0x55f2; 0xfc82; 0x7a47; 0xc8ac; 0xbae7; 0x322b; 0xe695;
   0xc0a0; 0x1998; 0x9ed1; 0xa37f; 0x4466; 0x547e; 0x3bab; 0x0b83; 0x8cca; 0xc729; 0x6bd3; 0x283c;
   0xa779; 0xbce2; 0x161d; 0xad76; 0xdb3b; 0x6456; 0x744e; 0x141e; 0x92db; 0x0c0a; 0x486c; 0xb8e4;
   0x9f5d; 0xbd6e; 0x43ef; 0xc4a6; 0x39a8; 0x31a4; 0xd337; 0xf28b; 0xd532; 0x8b43; 0x6e59; 0xdab7;
   0x018c; 0xb164; 0x9cd2; 0x49e0; 0xd8b4; 0xacfa; 0xf307; 0xcf25; 0xcaaf; 0xf48e; 0x47e9; 0x1018;
   0x6fd5; 0xf088; 0x4a6f; 0x5c72; 0x3824; 0x57f1; 0x73c7; 0x9751; 0xcb23; 0xa17c; 0xe89c; 0x3e21;
   0x96dd; 0x61dc; 0x0d86; 0x0f85; 0xe090; 0x7c42; 0x71c4; 0xccaa; 0x90d8; 0x0605; 0xf701; 0x1c12;
   0xc2a3; 0x6a5f; 0xaef9; 0x69d0; 0x1791; 0x9958; 0x3a27; 0x27b9; 0xd938; 0xeb13; 0x2bb3; 0x2233;
   0xd2bb; 0xa970; 0x0789; 0x33a7; 0x2db6; 0x3c22; 0x1592; 0xc920; 0x8749; 0xaaff; 0x5078; 0xa57a;
   0x038f; 0x59f8; 0x0980; 0x1a17; 0x65da; 0xd731; 0x84c6; 0xd0b8; 0x82c3; 0x29b0; 0x5a77; 0x1e11;
   0x7bcb; 0xa8fc; 0x6dd6; 0x2c3a].

(* src: core/rtw_security.c:579-613 Sbox1 *)
Definition Sbox1_1 : list Z :=
  [0xa5c6; 0x84f8; 0x99ee; 0x8df6; 0x0dff; 0xbdd6; 0xb1de; 0x5491; 0x5060; 0x0302; 0xa9ce; 0x7d56;
   0x19e7; 0x62b5; 0xe64d; 0x9aec; 0x458f; 0x9d1f; 0x4089; 0x87fa; 0x15ef; 0xebb2; 0xc98e; 0x0bfb;
   0xec41; 0x67b3; 0xfd5f; 0xea45; 0xbf23; 0xf753; 0x96e4; 0x5b9b; 0xc275; 0x1ce1; 0xae3d; 0x6a4c;
   0x5a6c; 0x417e; 0x02f5; 0x4f83; 0x5c68; 0xf451; 0x34d1; 0x08f9; 0x93e2; 0x73ab; 0x5362; 0x3f2a;
   0x0c08; 0x5295; 0x6546; 0x5e9d; 0x2830; 0xa137; 0x0f0a; 0xb52f; 0x090e; 0x3624; 0x9b1b; 0x3ddf;
   0x26cd; 0x694e; 0xcd7f; 0x9fea; 0x1b12; 0x9e1d; 0x7458; 0x2e34; 0x2d36; 0xb2dc; 0xeeb4; 0xfb5b;
   0xf6a4; 0x4d76; 0x61b7; 0xce7d; 0x7b52; 0x3edd; 0x715e; 0x9713; 0xf5a6; 0x68b9; 0x0000; 0x2cc1;
   0x6040; 0x1fe3; 0xc879; 0xedb6; 0xbed4; 0x468d; 0xd967; 0x4b72; 0xde94; 0xd498; 0xe8b0; 0x4a85;
   0x6bbb; 0x2ac5; 0xe54f; 0x16ed; 0xc586; 0xd79a; 0x5566; 0x9411; 0xcf8a; 0x10e9; 0x0604; 0x81fe;
   0xf0a0; 0x4478; 0xba25; 0xe34b; 0xf3a2; 0xfe5d; 0xc080; 0x8a05; 0xad3f; 0xbc21; 0x4870; 0x04f1;
   0xdf63; 0xc177; 0x75af; 0x6342; 0x3020; 0x1ae5; 0x0efd; 0x6dbf; 0x4c81; 0x1418; 0x3526; 0x2fc3;
   0xe1be; 0xa235; 0xcc88; 0x392e; 0x5793; 0xf255; 0x82fc; 0x477a; 0xacc8; 0xe7ba; 0x2b32; 0x95e6;
   0xa0c0; 0x9819; 0xd19e; 0x7fa3; 0x6644; 0x7e54; 0xab3b; 0x830b; 0xca8c; 0x29c7; 0xd36b; 0x3c28;
   0x79a7; 0xe2bc; 0x1d16; 0x76ad; 0x3bdb; 0x5664; 0x4e74; 0x1e14; 0xdb92; 0x0a0c; 0x6c48; 0xe4b8;
   0x5d9f; 0x6ebd; 0xef43; 0xa6c4; 0xa839; 0xa431; 0x37d3; 0x8bf2; 0x32d5; 0x438b; 0x596e; 0xb7da;
   0x8c01; 0x64b1; 0xd29c; 0xe049; 0xb4d8; 0xfaac; 0x07f3; 0x25cf; 0xafca; 0x8ef4; 0xe947; 0x1810;
   0xd56f; 0x88f0; 0x6f4a; 0x725c; 0x2438; 0xf157; 0xc773; 0x5197; 0x23cb; 0x7ca1; 0x9ce8; 0x213e;
   0xdd96; 0xdc61; 0x860d; 0x850f; 0x90e0; 0x427c; 0xc471; 0xaacc; 0xd890; 0x0506; 0x01f7; 0x121c;
   0xa3c2; 0x5f6a; 0xf9ae; 0xd069; 0x9117; 0x5899; 0x273a; 0xb927; 0x38d9; 0x13eb; 0xb32b; 0x3322;
   0xbbd2; 0x70a9; 0x8907; 0xa733; 0xb62d; 0x223c; 0x9215; 0x20c9; 0x4987; 0xffaa; 0x7850; 0x7aa5;
   0x8f03; 0xf859; 0x8009; 0x171a; 0xda65; 0x31d7; 0xc684; 0xb8d0; 0xc382; 0xb029; 0x775a; 0x111e;
   0xcb7b; 0xfca8; 0xd66d; 0x3a2c].

(* src: core/rtw_security.c:531 _S_ *)
Definition S_ (v : Z) : Z := Z.lxor (byte_at Sbox1_0 (Lo8 v)) (byte_at Sbox1_1 (Hi8 v)).

(** [p1k[0..4]] *)
Definition P1K : Type := Z * Z * Z * Z * Z.

(** One turn of the loop of [phase1]. *)
(* src: core/rtw_security.c:644-650 phase1 *)
Definition phase1_turn (tk : list Z) (i : Z) (p : P1K) : P1K :=
  let '(p0, p1, p2, p3, p4) := p in
  let p0 := u16 (p0 + S_ (Z.lxor p4 (TK16 tk ((i & 1) + 0)))) in
  let p1 := u16 (p1 + S_ (Z.lxor p0 (TK16 tk ((i & 1) + 2)))) in
  let p2 := u16 (p2 + S_ (Z.lxor p1 (TK16 tk ((i & 1) + 4)))) in
  let p3 := u16 (p3 + S_ (Z.lxor p2 (TK16 tk ((i & 1) + 6)))) in
  let p4 := u16 (p4 + S_ (Z.lxor p3 (TK16 tk ((i & 1) + 0)))) in
  let p4 := u16 (p4 + u16 i) in
  (p0, p1, p2, p3, p4).

Fixpoint phase1_loop (tk : list Z) (n : nat) (i : Z) (p : P1K) : P1K :=
  match n with O => p | S n => phase1_loop tk n (i + 1) (phase1_turn tk i p) end.

Definition PHASE1_LOOP_CNT : nat := 8.

(* src: core/rtw_security.c:632-653 phase1 *)
Definition phase1 (tk ta : list Z) (iv32 : Z) : P1K :=
  phase1_loop tk PHASE1_LOOP_CNT 0
    (Lo16 iv32, Hi16 iv32, Mk16 (byte_at ta 1) (byte_at ta 0), Mk16 (byte_at ta 3) (byte_at ta 2),
     Mk16 (byte_at ta 5) (byte_at ta 4)).

(** The six words [PPK[0..5]] after the mixing and the final sweep. *)
Definition PPK6 : Type := Z * Z * Z * Z * Z * Z.

(* src: core/rtw_security.c:688-694 phase2 *)
Definition ppk_mix (tk : list Z) (k : PPK6) : PPK6 :=
  let '(k0, k1, k2, k3, k4, k5) := k in
  let k0 := u16 (k0 + S_ (Z.lxor k5 (TK16 tk 0))) in
  let k1 := u16 (k1 + S_ (Z.lxor k0 (TK16 tk 1))) in
  let k2 := u16 (k2 + S_ (Z.lxor k1 (TK16 tk 2))) in
  let k3 := u16 (k3 + S_ (Z.lxor k2 (TK16 tk 3))) in
  let k4 := u16 (k4 + S_ (Z.lxor k3 (TK16 tk 4))) in
  let k5 := u16 (k5 + S_ (Z.lxor k4 (TK16 tk 5))) in
  (k0, k1, k2, k3, k4, k5).

(* src: core/rtw_security.c:696-702 phase2 *)
Definition ppk_sweep (tk : list Z) (k : PPK6) : PPK6 :=
  let '(k0, k1, k2, k3, k4, k5) := k in
  let k0 := u16 (k0 + RotR1 (Z.lxor k5 (TK16 tk 6))) in
  let k1 := u16 (k1 + RotR1 (Z.lxor k0 (TK16 tk 7))) in
  let k2 := u16 (k2 + RotR1 k1) in
  let k3 := u16 (k3 + RotR1 k2) in
  let k4 := u16 (k4 + RotR1 k3) in
  let k5 := u16 (k5 + RotR1 k4) in
  (k0, k1, k2, k3, k4, k5).

(* src: core/rtw_security.c:679-720 phase2 *)
Definition phase2 (tk : list Z) (p1k : P1K) (iv16 : Z) : list Z :=
  let '(p0, p1, p2, p3, p4) := p1k in
  let '(k0, k1, k2, k3, k4, k5) := ppk_sweep tk (ppk_mix tk (p0, p1, p2, p3, p4, u16 (p4 + iv16))) in
  [Hi8 iv16; u8 ((Hi8 iv16 .| 0x20) & 0x7F); Lo8 iv16; Lo8 (Z.shiftr (Z.lxor k5 (TK16 tk 0)) 1);
   Lo8 k0; Hi8 k0; Lo8 k1; Hi8 k1; Lo8 k2; Hi8 k2; Lo8 k3; Hi8 k3; Lo8 k4; Hi8 k4; Lo8 k5; Hi8 k5].

(** The RC4 key of a packet. *)
Definition tkip_key (tk ta : list Z) (iv32 iv16 : Z) : list Z := phase2 tk (phase1 tk ta iv32) iv16.

(** ** Lemmas: every step can be undone *)

Definition is_u16 (x : Z) : Prop := 0 <= x < 65536.

(** Adding the same amount modulo [2^16]. *)
Lemma add16_inj a b c d : is_u16 a -> is_u16 b -> c = d -> u16 (a + c) = u16 (b + d) -> a = b.
Proof.
  unfold is_u16, u16. intros Ha Hb -> E. change (2 ^ 16) with 65536 in E.
  pose proof (Z.div_mod (a + d) 65536 ltac:(lia)). pose proof (Z.div_mod (b + d) 65536 ltac:(lia)). lia.
Qed.

Lemma u16_is_u16 x : is_u16 (u16 x).
Proof. apply u16_range. Qed.

Lemma Lo8_mod v : Lo8 v = v mod 256.
Proof. unfold Lo8, u8. rewrite land_ff_mod. change (2 ^ 8) with 256. apply Z.mod_mod. lia. Qed.

Lemma Hi8_div v : Hi8 v = v / 256 mod 256.
Proof. unfold Hi8, u8. rewrite land_ff_mod, Z.shiftr_div_pow2 by lia. change (2 ^ 8) with 256. apply Z.mod_mod. lia. Qed.

Lemma bytes16_inj x y : is_u16 x -> is_u16 y -> Lo8 x = Lo8 y -> Hi8 x = Hi8 y -> x = y.
Proof.
  unfold is_u16. rewrite !Lo8_mod, !Hi8_div. intros Hx Hy HL HH.
  rewrite !(Z.mod_small (_ / 256)) in HH by (split; [apply Z.div_pos; lia | apply Z.div_lt_upper_bound; lia]).
  pose proof (Z.div_mod x 256 ltac:(lia)). pose proof (Z.div_mod y 256 ltac:(lia)). lia.
Qed.

Lemma words32_inj x y : 0 <= x < 2 ^ 32 -> 0 <= y < 2 ^ 32 -> Lo16 x = Lo16 y -> Hi16 x = Hi16 y -> x = y.
Proof.
  intros Hx Hy HL HH. unfold Lo16, Hi16, u16 in *. change 0xFFFF with (Z.ones 16) in *.
  rewrite !Z.land_ones, !Z.mod_mod in HL, HH by lia. rewrite !Z.shiftr_div_pow2 in HH by lia.
  rewrite !(Z.mod_small (_ / _)) in HH
    by (split; [apply Z.div_pos; lia | apply Z.div_lt_upper_bound; lia]).
  pose proof (Z.div_mod x (2 ^ 16) ltac:(lia)). pose proof (Z.div_mod y (2 ^ 16) ltac:(lia)). lia.
Qed.

Lemma Mk16_sum hi lo : is_byte hi -> is_byte lo -> Mk16 hi lo = lo + hi * 256.
Proof.
  unfold is_byte, Mk16. intros Hh Hl. rewrite u16_small by lia.
  change (hi * 256) with (hi * 2 ^ 8). rewrite <- (lor_shiftl_add lo hi 8) by lia. apply Z.lxor_lor.
  apply Z.bits_inj'. intros n Hn. rewrite Z.land_spec, Z.bits_0. destruct (Z.ltb_spec n 8).
  - rewrite Z.shiftl_spec_low by lia. apply andb_false_r.
  - rewrite (byte_testbit_above lo) by done. done.
Qed.

Lemma Mk16_is_u16 hi lo : is_byte hi -> is_byte lo -> is_u16 (Mk16 hi lo).
Proof. intros Hh Hl. rewrite Mk16_sum by done. unfold is_byte, is_u16 in *. lia. Qed.

Lemma Mk16_inj h l h' l' : is_byte h -> is_byte l -> is_byte h' -> is_byte l' -> Mk16 h l = Mk16 h' l' -> h = h' /\ l = l'.
Proof. intros. rewrite !Mk16_sum in * by done. unfold is_byte in *. lia. Qed.

Definition p1k_ok (p : P1K) : Prop :=
  let '(p0, p1, p2, p3, p4) := p in is_u16 p0 /\ is_u16 p1 /\ is_u16 p2 /\ is_u16 p3 /\ is_u16 p4.
Definition ppk_ok (k : PPK6) : Prop :=
  let '(k0, k1, k2, k3, k4, k5) := k in
  is_u16 k0 /\ is_u16 k1 /\ is_u16 k2 /\ is_u16 k3 /\ is_u16 k4 /\ is_u16 k5.

(** From the last word back to the first, each addition is undone by what is known already. *)
Ltac undo H := apply add16_inj in H; [| done || apply u16_is_u16 | done || apply u16_is_u16 | congruence].

Lemma phase1_turn_inj tk i p q : p1k_ok p -> p1k_ok q -> phase1_turn tk i p = phase1_turn tk i q -> p = q.
Proof.
  destruct p as [[[[p0 p1] p2] p3] p4], q as [[[[q0 q1] q2] q3] q4].
  intros (A0 & A1 & A2 & A3 & A4) (B0 & B1 & B2 & B3 & B4) E. unfold phase1_turn in E.
  injection E as E0 E1 E2 E3 E4.
  undo E4. rewrite E3 in E4. undo E4. rewrite E2 in E3. undo E3. rewrite E1 in E2. undo E2.
  rewrite E0 in E1. undo E1. rewrite E4 in E0. undo E0. congruence.
Qed.

Lemma phase1_turn_ok tk i p : p1k_ok (phase1_turn tk i p).
Proof. destruct p as [[[[p0 p1] p2] p3] p4]. cbn. auto using u16_is_u16. Qed.

Lemma phase1_loop_inj tk n : forall i p q,
  p1k_ok p -> p1k_ok q -> phase1_loop tk n i p = phase1_loop tk n i q -> p = q.
Proof.
  induction n as [|n IH]; intros i p q Hp Hq E; [done|]. apply (phase1_turn_inj tk i p q Hp Hq).
  apply (IH (i + 1)); [apply phase1_turn_ok | apply phase1_turn_ok | done].
Qed.

Lemma ppk_mix_inj tk p q : ppk_ok p -> ppk_ok q -> ppk_mix tk p = ppk_mix tk q -> p = q.
Proof.
  destruct p as [[[[[p0 p1] p2] p3] p4] p5], q as [[[[[q0 q1] q2] q3] q4] q5].
  intros (A0 & A1 & A2 & A3 & A4 & A5) (B0 & B1 & B2 & B3 & B4 & B5) E. unfold ppk_mix in E.
  injection E as E0 E1 E2 E3 E4 E5.
  rewrite E4 in E5. undo E5. rewrite E3 in E4. undo E4. rewrite E2 in E3. undo E3.
  rewrite E1 in E2. undo E2. rewrite E0 in E1. undo E1. rewrite E5 in E0. undo E0. congruence.
Qed.

Lemma ppk_sweep_inj tk p q : ppk_ok p -> ppk_ok q -> ppk_sweep tk p = ppk_sweep tk q -> p = q.
Proof.
  destruct p as [[[[[p0 p1] p2] p3] p4] p5], q as [[[[[q0 q1] q2] q3] q4] q5].
  intros (A0 & A1 & A2 & A3 & A4 & A5) (B0 & B1 & B2 & B3 & B4 & B5) E. unfold ppk_sweep in E.
  injection E as E0 E1 E2 E3 E4 E5.
  rewrite E4 in E5. undo E5. rewrite E3 in E4. undo E4. rewrite E2 in E3. undo E3.
  rewrite E1 in E2. undo E2. rewrite E0 in E1. undo E1. rewrite E5 in E0. undo E0. congruence.
Qed.

Lemma ppk_mix_ok tk p : ppk_ok (ppk_mix tk p).
Proof. destruct p as [[[[[p0 p1] p2] p3] p4] p5]. cbn. auto 10 using u16_is_u16. Qed.

Lemma ppk_sweep_ok tk p : ppk_ok (ppk_sweep tk p).
Proof. destruct p as [[[[[p0 p1] p2] p3] p4] p5]. cbn. auto 10 using u16_is_u16. Qed.

Lemma phase2_inj tk p q v w :
  p1k_ok p -> p1k_ok q -> is_u16 v -> is_u16 w -> phase2 tk p v = phase2 tk q w -> p = q /\ v = w.
Proof.
  destruct p as [[[[p0 p1] p2] p3] p4], q as [[[[q0 q1] q2] q3] q4].
  intros (A0 & A1 & A2 & A3 & A4) (B0 & B1 & B2 & B3 & B4) Hv Hw E. unfold phase2 in E.
  pose proof (ppk_sweep_ok tk (ppk_mix tk (p0, p1, p2, p3, p4, u16 (p4 + v)))) as OP.
  pose proof (ppk_sweep_ok tk (ppk_mix tk (q0, q1, q2, q3, q4, u16 (q4 + w)))) as OQ.
  destruct (ppk_sweep tk (ppk_mix tk (p0, _, _, _, _, _))) as [[[[[x0 x1] x2] x3] x4] x5] eqn:EP.
  destruct (ppk_sweep tk (ppk_mix tk (q0, _, _, _, _, _))) as [[[[[y0 y1] y2] y3] y4] y5] eqn:EQ.
  destruct OP as (?&?&?&?&?&?), OQ as (?&?&?&?&?&?).
  injection E as Ehi _ Elo _ E0 F0 E1 F1 E2 F2 E3 F3 E4 F4 E5 F5.
  apply bytes16_inj in E0, E1, E2, E3, E4, E5; try done. subst.
  apply bytes16_inj in Elo; try done. subst w. split; [|done].
  rewrite <- EQ in EP. apply ppk_sweep_inj in EP; [|apply ppk_mix_ok | apply ppk_mix_ok].
  apply ppk_mix_inj in EP; [congruence | |]; cbn; auto 10 using u16_is_u16.
Qed.

Lemma phase1_ok tk ta iv32 : p1k_ok (phase1 tk ta iv32).
Proof. unfold phase1, PHASE1_LOOP_CNT. cbn [phase1_loop]. apply phase1_turn_ok. Qed.

Lemma phase1_start_ok ta iv32 : bytes ta ->
  p1k_ok (Lo16 iv32, Hi16 iv32, Mk16 (byte_at ta 1) (byte_at ta 0), Mk16 (byte_at ta 3) (byte_at ta 2),
          Mk16 (byte_at ta 5) (byte_at ta 4)).
Proof.
  intros Ht. repeat split; try (apply u16_is_u16); apply Mk16_is_u16; apply byte_at_byte; done.
Qed.

Lemma six_bytes ta : length ta = 6%nat ->
  ta = [byte_at ta 0; byte_at ta 1; byte_at ta 2; byte_at ta 3; byte_at ta 4; byte_at ta 5].
Proof. intros H. destruct ta as [|? [|? [|? [|? [|? [|? [|]]]]]]]; done. Qed.

Lemma phase1_inj tk ta ta' iv iv' :
  bytes ta -> length ta = 6%nat -> bytes ta' -> length ta' = 6%nat ->
  0 <= iv < 2 ^ 32 -> 0 <= iv' < 2 ^ 32 ->
  phase1 tk ta iv = phase1 tk ta' iv' -> ta = ta' /\ iv = iv'.
Proof.
  intros Ht Hl Ht' Hl' Hi Hi' E. unfold phase1 in E.
  apply phase1_loop_inj in E; [|apply phase1_start_ok; done | apply phase1_start_ok; done].
  injection E as E0 E1 E2 E3 E4.
  apply Mk16_inj in E2 as [E2 F2], E3 as [E3 F3], E4 as [E4 F4]; try (apply byte_at_byte; done).
  split; [|apply words32_inj; done]. rewrite (six_bytes ta Hl), (six_bytes ta' Hl'). congruence.
Qed.

Lemma tkip_key_bytes tk ta iv32 iv16 : bytes (tkip_key tk ta iv32 iv16).
Proof.
  unfold tkip_key, phase2. destruct (phase1 tk ta iv32) as [[[[p0 p1] p2] p3] p4].
  destruct (ppk_sweep _ _) as [[[[[k0 k1] k2] k3] k4] k5].
  repeat (constructor; [apply u8_range|]). constructor.
Qed.

Lemma tkip_key_length tk ta iv32 iv16 : length (tkip_key tk ta iv32 iv16) = 16%nat.
Proof.
  unfold tkip_key, phase2. destruct (phase1 tk ta iv32) as [[[[p0 p1] p2] p3] p4].
  destruct (ppk_sweep _ _) as [[[[[k0 k1] k2] k3] k4] k5]. done.
Qed.

(** ** Theorem *)

(** What the comments promise: for a fixed temporal key, two packets have the same RC4 key only when
    transmitter, upper and lower IV are all the same. Neither phase loses anything. *)
Theorem tkip_key_unique tk ta ta' iv32 iv32' iv16 iv16' :
  bytes ta -> length ta = 6%nat -> bytes ta' -> length ta' = 6%nat ->
  0 <= iv32 < 2 ^ 32 -> 0 <= iv32' < 2 ^ 32 -> 0 <= iv16 < 2 ^ 16 -> 0 <= iv16' < 2 ^ 16 ->
  phase2 tk (phase1 tk ta iv32) iv16 = phase2 tk (phase1 tk ta' iv32') iv16' ->
  ta = ta' /\ iv32 = iv32' /\ iv16 = iv16'.
Proof.
  intros Ht Hl Ht' Hl' Hi Hi' Hv Hv' E.
  apply phase2_inj in E as [E ->]; [|apply phase1_ok | apply phase1_ok | done | done].
  apply phase1_inj in E as [-> ->]; done.
Qed.

(** The first test vector of the standard; and two packets of one key that follow each other. *)
Lemma tkip_key_unique_witness :
  let tk := map Z.of_nat (seq 0 16) in
  let ta := [0x10; 0x22; 0x33; 0x44; 0x55; 0x66] in
  tkip_key tk ta 0 0 = [0x00; 0x20; 0x00; 0x33; 0xEA; 0x8D; 0x2F; 0x60; 0xCA; 0x6D; 0x13; 0x74; 0x23; 0x4A; 0x66; 0x0B] /\
  phase2 tk (phase1 tk ta 0) 0 <> phase2 tk (phase1 tk ta 0) 1.
Proof.
  split; [vm_compute; reflexivity|]. intros E.
  apply tkip_key_unique in E as (_ & _ & E); try (apply bytes_by_compute; reflexivity); try reflexivity;
    try (split; (reflexivity || discriminate)). discriminate E.
Defined.
