(* ===== verification/Tkip.v ===== *)
(** * TKIP frames

    Models [rtw_tkip_encrypt] and [rtw_tkip_decrypt] of [core/rtw_security.c], over the key mixing of
    [TkipKey] and the RC4 and checksum routines. *)
From Stdlib Require Import ZArith Lia Bool Ascii String.
From stdpp Require Import base option list numbers.
From S2P Require Import Prelude Crc32 Arc4 Sec Wep TkipKey.
Local Open Scope Z_scope.

(** ** The code *)

(** The packet number in the IV at [iv]: [pnl] and [pnh]. [GET_TKIP_PN] leaves the two top bytes of
    the union unset; [junk] is what they hold. *)
(* src: core/rtw_security.c:797-800 rtw_tkip_encrypt *)
Definition get_tkip_pn (junk : Z) (mem : list Z) (iv : Z) : res (Z * Z) :=
  TSC0 <- rd mem (iv + 2) ;; TSC1 <- rd mem iv ;; TSC2 <- rd mem (iv + 4) ;;
  TSC3 <- rd mem (iv + 5) ;; TSC4 <- rd mem (iv + 6) ;; TSC5 <- rd mem (iv + 7) ;;
  let val := TSC0 + 2 ^ 8 * TSC1 + 2 ^ 16 * TSC2 + 2 ^ 24 * TSC3 + 2 ^ 32 * TSC4 + 2 ^ 40 * TSC5 + 2 ^ 48 * junk in
  Ok (u16 val, u32 (Z.shiftr val 16)).

(* src: core/rtw_security.c:794-819 rtw_tkip_encrypt *)
Definition tkip_fragment (junk : Z) (prwskey : list Z) (at_ : pkt_attrib) (pframe length : Z)
    (st : list Z * crc_state) : res (list Z * crc_state) :=
  let (mem, cs) := st in
  '(pnl, pnh) <- get_tkip_pn junk mem (pframe + t_hdrlen at_) ;;
  let rc4key := phase2 prwskey (phase1 prwskey (t_ta at_) pnh) pnl in
  rc4_seal rc4key 16 (pframe + t_iv_len at_ + t_hdrlen at_) length mem cs.

(* src: core/rtw_security.c:724-838 rtw_tkip_encrypt *)
Definition rtw_tkip_encrypt (junk : Z) (x : xmit_frame) (at_ : pkt_attrib) (frag_len : Z) (sec : security_priv)
    (cs : crc_state) : res (Z * option (list Z) * security_priv * crc_state) :=
  match x_buf x with
  | None => Ok (FAIL, None, sec, cs)
  | Some mem =>
      if t_encrypt at_ =? TKIP then
        prwskey <- (if IS_MCAST (t_ra at_) then rd (dot118021XGrpKey sec) (dot118021XGrpKeyid sec)
                    else Ok (t_UncstKey at_)) ;;
        '(mem, cs) <- fragments (tkip_fragment junk prwskey at_) (x_addr x) frag_len at_ (hw_hdr_offset x) (mem, cs) ;;
        Ok (SUCCESS, Some mem, count_sw TkipEnc (t_ra at_) sec, cs)
      else Ok (SUCCESS, Some mem, sec, cs)
  end.

(** [crc[3] != payload[length - 1] || ... || crc[0] != payload[length - 4]] *)
(* src: core/rtw_security.c:934 rtw_tkip_decrypt *)
Definition icv_differs (mem : list Z) (tail : Z) (crc : list Z) : res bool :=
  b3 <- rd mem (tail - 1) ;;
  if negb (byte_at crc 3 =? b3) then Ok true else
  b2 <- rd mem (tail - 2) ;;
  if negb (byte_at crc 2 =? b2) then Ok true else
  b1 <- rd mem (tail - 3) ;;
  if negb (byte_at crc 1 =? b1) then Ok true else
  b0 <- rd mem (tail - 4) ;;
  Ok (negb (byte_at crc 0 =? b0)).

(** With the key: IV, keys, payload in place, check value. *)
(* src: core/rtw_security.c:915-938 rtw_tkip_decrypt *)
Definition tkip_open (junk : Z) (prwskey : list Z) (mem : list Z) (len : Z) (at_ : rx_pkt_attrib)
    (sec : security_priv) (cs : crc_state) : res (Z * list Z * security_priv * crc_state) :=
  let payload := r_iv_len at_ + r_hdrlen at_ in
  let length := s32 (len - r_hdrlen at_ - r_iv_len at_) in
  '(pnl, pnh) <- get_tkip_pn junk mem (r_hdrlen at_) ;;
  let rc4key := phase2 prwskey (phase1 prwskey (r_ta at_) pnh) pnl in
  ctx <- arcfour_init rc4key 16 ;;
  '(mem, _) <- arcfour_encrypt ctx mem payload (Inside payload) length ;;
  '(crc, cs) <- getcrc32 cs mem payload (length - 4) ;;
  bad <- icv_differs mem (payload + length) (le32_bytes crc) ;;
  Ok (if bad then FAIL else SUCCESS, mem, count_sw TkipDec (r_ra at_) sec, cs).

(** [stainfo] is the transmitter's unicast key, when it is a station known. *)
(* src: core/rtw_security.c:841-947 rtw_tkip_decrypt *)
Definition rtw_tkip_decrypt (junk now : Z) (passing : Z -> Z) (stainfo : option (list Z))
    (mem : list Z) (len : Z) (at_ : rx_pkt_attrib) (sec : security_priv) (cs : crc_state) (g : gk_log)
    : res (Z * list Z * security_priv * crc_state * gk_log) :=
  if r_encrypt at_ =? TKIP then
    match stainfo with
    | None => Ok (FAIL, mem, sec, cs, g)
    | Some unicast =>
        if IS_MCAST (r_ra at_) then
          if binstallGrpkey sec then
            prwskey <- rd (dot118021XGrpKey sec) (r_key_index at_) ;;
            '(r, mem, sec, cs) <- tkip_open junk prwskey mem len at_ sec cs ;;
            Ok (r, mem, sec, cs, mkGk 0 0 0)
          else Ok (FAIL, mem, sec, cs, gk_missing now passing (r_ra at_) g)
        else
          '(r, mem, sec, cs) <- tkip_open junk unicast mem len at_ sec cs ;;
          Ok (r, mem, sec, cs, g)
    end
  else Ok (SUCCESS, mem, sec, cs, g).

(** ** Specification *)

(** The packet number an IV carries: low 16 bits, high 32 bits. *)
Definition pn_low (iv : list Z) : Z := byte_at iv 2 + 2 ^ 8 * byte_at iv 0.
Definition pn_high (iv : list Z) : Z :=
  byte_at iv 4 + 2 ^ 8 * byte_at iv 5 + 2 ^ 16 * byte_at iv 6 + 2 ^ 24 * byte_at iv 7.

Definition packet_key (tk ta iv : list Z) : list Z := tkip_key tk ta (pn_high iv) (pn_low iv).

Definition f_iv8 (hdrlen : Z) (f : list Z) : list Z := take 8 (drop (Z.to_nat hdrlen) f).

(** ** Lemmas *)

(** The junk does not matter. *)
Lemma get_tkip_pn_spec junk a iv b :
  bytes iv -> length iv = 8%nat -> get_tkip_pn junk (a ++ iv ++ b) (zlen a) = Ok (pn_low iv, pn_high iv).
Proof.
  intros Hb Hl. assert (Hz : zlen iv = 8) by (unfold zlen; lia). unfold get_tkip_pn.
  rewrite (rd_part a iv b 2) by lia. cbn [bind]. rewrite <- (Z.add_0_r (zlen a)) at 1.
  rewrite !rd_part by lia. cbn [bind].
  pose proof (byte_at_byte iv 0 Hb). pose proof (byte_at_byte iv 2 Hb). pose proof (byte_at_byte iv 4 Hb).
  pose proof (byte_at_byte iv 5 Hb). pose proof (byte_at_byte iv 6 Hb). pose proof (byte_at_byte iv 7 Hb).
  unfold is_byte in *. unfold pn_low, pn_high, u16, u32. rewrite Z.shiftr_div_pow2 by lia.
  set (t0 := byte_at iv 2) in *. set (t1 := byte_at iv 0) in *. set (t2 := byte_at iv 4) in *.
  set (t3 := byte_at iv 5) in *. set (t4 := byte_at iv 6) in *. set (t5 := byte_at iv 7) in *.
  set (hi := t2 + 2 ^ 8 * t3 + 2 ^ 16 * t4 + 2 ^ 24 * t5).
  replace (t0 + 2 ^ 8 * t1 + 2 ^ 16 * t2 + 2 ^ 24 * t3 + 2 ^ 32 * t4 + 2 ^ 40 * t5 + 2 ^ 48 * junk)
    with (t0 + 2 ^ 8 * t1 + (hi + junk * 2 ^ 32) * 2 ^ 16) by (unfold hi; lia).
  rewrite Z.mod_add, Z.div_add by lia. rewrite (Z.mod_small (t0 + _)), (Z.div_small (t0 + _)) by lia.
  rewrite Z.add_0_l, Z.mod_add by lia. rewrite Z.mod_small by (unfold hi; lia). done.
Qed.

#[local] Opaque phase1 phase2.

Lemma packet_key_eq tk ta iv : phase2 tk (phase1 tk ta (pn_high iv)) (pn_low iv) = packet_key tk ta iv.
Proof. unfold packet_key, tkip_key. reflexivity. Qed.

Lemma packet_key_bytes tk ta iv : bytes (packet_key tk ta iv).
Proof. unfold packet_key. apply tkip_key_bytes. Qed.

Lemma packet_key_zlen tk ta iv : zlen (packet_key tk ta iv) = 16.
Proof. unfold packet_key, zlen. rewrite tkip_key_length. done. Qed.

Lemma packet_key_ne tk ta iv : packet_key tk ta iv <> [].
Proof. intros E. pose proof (packet_key_zlen tk ta iv) as H. rewrite E in H. discriminate H. Qed.

Lemma tkip_parts hdrlen f :
  frag_ok hdrlen 8 f -> 0 <= hdrlen ->
  exists h old, f = h ++ f_iv8 hdrlen f ++ f_text hdrlen 8 f ++ old /\ f_head hdrlen 8 f = h ++ f_iv8 hdrlen f /\
    zlen h = hdrlen /\ length (f_iv8 hdrlen f) = 8%nat /\ bytes (f_iv8 hdrlen f) /\ length old = 4%nat /\
    zlen (f_text hdrlen 8 f) = zlen f - hdrlen - 12 /\ bytes (f_text hdrlen 8 f).
Proof.
  intros Hf Hh. destruct (frag_parts hdrlen 8 f Hf Hh) as
    (h & iv & r & old & E & E2 & E3 & H1 & H2 & H3 & H4 & H5 & B1 & B2 & B3 & B4); [lia|].
  assert (Hiv : f_iv8 hdrlen f = iv ++ r).
  { unfold f_iv8. rewrite E at 1. rewrite <- H1, drop_zlen_app. rewrite (app_assoc iv r).
    apply take_app_length'. rewrite length_app. unfold zlen in *. lia. }
  exists h, old. rewrite Hiv. split; [rewrite <- app_assoc; done|]. split; [done|]. split; [done|].
  split; [rewrite length_app; unfold zlen in *; lia|].
  split; [unfold bytes; rewrite Forall_app; done|]. split; [done|]. split; [lia | done].
Qed.

Definition tkip_keyof (tk ta : list Z) (hdrlen : Z) (f : list Z) : list Z := packet_key tk ta (f_iv8 hdrlen f).

Lemma tkip_fragment_spec junk tk at_ cs a f b :
  crc_ok cs -> 0 <= t_hdrlen at_ -> t_iv_len at_ = 8 -> t_icv_len at_ = 4 -> frag_ok (t_hdrlen at_) (t_iv_len at_) f ->
  tkip_fragment junk tk at_ (zlen a) (s32 (zlen f - t_hdrlen at_ - t_iv_len at_ - t_icv_len at_)) (a ++ f ++ b, cs) =
    Ok (a ++ sealed_frag (tkip_keyof tk (t_ta at_) (t_hdrlen at_)) (t_hdrlen at_) (t_iv_len at_) f ++ b,
        crc32_init crc_state0).
Proof.
  intros Hcs Hh Hi Hc Hf. rewrite (text_length (t_hdrlen at_) (t_iv_len at_)) by (done || lia). rewrite Hi in *.
  unfold sealed_frag, tkip_keyof.
  destruct (tkip_parts _ f Hf Hh) as (h & old & E & -> & H1 & H2 & B2 & H4 & H5 & B4).
  destruct Hf as [_ Hf]. set (pt := f_text (t_hdrlen at_) 8 f) in *. set (iv := f_iv8 (t_hdrlen at_) f) in *.
  clearbody pt iv. subst f. unfold tkip_fragment. rewrite Hi, <- H1.
  replace (a ++ (h ++ iv ++ pt ++ old) ++ b) with ((a ++ h) ++ iv ++ (pt ++ old ++ b))
    by (rewrite <- !app_assoc; done).
  rewrite <- zlen_app, get_tkip_pn_spec by done. cbn [bind].
  rewrite packet_key_eq.
  replace (zlen a + 8 + zlen h) with (zlen (a ++ h ++ iv)) by (rewrite !zlen_app; unfold zlen in *; lia).
  replace ((a ++ h) ++ iv ++ pt ++ old ++ b) with ((a ++ h ++ iv) ++ pt ++ old ++ b)
    by (rewrite <- !app_assoc; done).
  pose proof (rc4_seal_spec (packet_key tk (t_ta at_) iv) [] (a ++ h ++ iv) pt old b cs) as HS.
  rewrite app_nil_r, packet_key_zlen in HS.
  rewrite HS; [rewrite <- !app_assoc; done | apply packet_key_bytes | apply packet_key_ne | done | | done | done].
  unfold zlen in *. rewrite !length_app in *. lia.
Qed.

(** ** Lemmas: the check value *)

Lemma le_word_le32 v : is_u32 v -> le_word (le32_bytes v) = v.
Proof.
  intros Hv. apply Z.bits_inj'. intros n Hn. rewrite le_word_bit by (done || apply le32_bytes_bytes).
  pose proof (Z.div_mod n 8 ltac:(lia)) as Hd. pose proof (Z.mod_pos_bound n 8 ltac:(lia)).
  assert (0 <= n / 8) by (apply Z.div_pos; lia).
  assert (HB : forall i, 0 <= i -> Z.testbit (byte_of v i) (n mod 8) = Z.testbit v (8 * i + n mod 8)).
  { intros i Hi. unfold byte_of. rewrite land_ff_mod. change 256 with (2 ^ 8). rewrite Z.mod_pow2_bits_low by lia.
    rewrite Z.shiftr_spec by lia. f_equal. lia. }
  destruct (Z.ltb_spec (n / 8) 4).
  - assert (Hc : n / 8 = 0 \/ n / 8 = 1 \/ n / 8 = 2 \/ n / 8 = 3) by lia.
    destruct Hc as [E|[E|[E|E]]]; rewrite E in Hd |- *;
      match goal with |- context [le32_bytes v !! Z.to_nat ?k] =>
        change (le32_bytes v !! Z.to_nat k) with (Some (byte_of v k)) end;
      cbv iota beta; rewrite HB by lia; f_equal; lia.
  - rewrite lookup_ge_None_2; [|unfold le32_bytes; cbn [length]; lia].
    symmetry. apply u32_testbit_high; [done | lia].
Qed.

Lemma le32_inj v w : is_u32 v -> is_u32 w -> le32_bytes v = le32_bytes w -> v = w.
Proof. intros Hv Hw E. rewrite <- (le_word_le32 v Hv), <- (le_word_le32 w Hw), E. done. Qed.

Lemma crc32_of_u32 l : bytes l -> is_u32 (crc32_of l).
Proof. intros Hl. apply is_u32_lxor; [apply crc_bytes_u32; [done | apply ones_u32] | apply ones_u32]. Qed.

(** What the division leaves of a text followed by its check value. *)
Definition crc_residue : Z := crc_bits 32 0xffffffff.

Lemma icv_residue d t : bytes d -> bytes t -> length t = 4%nat ->
  t = icv d <-> crc_bytes (d ++ t) 0xffffffff = crc_residue.
Proof.
  intros Hd Ht Hl. rewrite crc_bytes_app, crc_bytes_word, Hl. change (8 * 4)%nat with 32%nat.
  assert (Hc : is_u32 (crc_bytes d 0xffffffff)) by (apply crc_bytes_u32; [done | apply ones_u32]).
  assert (Hw : is_u32 (le_word t)) by (apply le_word_u32; [done | unfold zlen; lia]).
  split.
  - intros ->. unfold icv. rewrite le_word_le32 by (apply crc32_of_u32; done). unfold crc32_of, not32.
    rewrite <- Z.lxor_assoc, Z.lxor_nilpotent, Z.lxor_0_l. done.
  - intros E. apply crc_bits_inj in E; [|apply is_u32_lxor; done | apply ones_u32].
    apply le_word_inj; [done | apply icv_bytes | done |]. unfold icv. rewrite le_word_le32 by (apply crc32_of_u32; done).
    unfold crc32_of, not32. revert E. generalize (crc_bytes d 0xffffffff). intros c E.
    apply (lxor_cancel_r _ _ c). rewrite Z.lxor_comm, E, (Z.lxor_comm c), Z.lxor_assoc, Z.lxor_nilpotent. done.
Qed.

Lemma icv_differs_spec a t b crc :
  length t = 4%nat -> length crc = 4%nat ->
  icv_differs (a ++ t ++ b) (zlen a + 4) crc = Ok (negb (bool_decide (t = crc))).
Proof.
  intros Ht Hc. assert (Hz : zlen t = 4) by (unfold zlen; lia). unfold icv_differs.
  replace (zlen a + 4 - 1) with (zlen a + 3) by lia. replace (zlen a + 4 - 2) with (zlen a + 2) by lia.
  replace (zlen a + 4 - 3) with (zlen a + 1) by lia. replace (zlen a + 4 - 4) with (zlen a + 0) by lia.
  rewrite !rd_part by lia. cbn [bind].
  destruct t as [|t0 [|t1 [|t2 [|t3 [|]]]]]; try discriminate Ht.
  destruct crc as [|c0 [|c1 [|c2 [|c3 [|]]]]]; try discriminate Hc.
  change (byte_at [t0; t1; t2; t3] 3) with t3. change (byte_at [t0; t1; t2; t3] 2) with t2.
  change (byte_at [t0; t1; t2; t3] 1) with t1. change (byte_at [t0; t1; t2; t3] 0) with t0.
  change (byte_at [c0; c1; c2; c3] 3) with c3. change (byte_at [c0; c1; c2; c3] 2) with c2.
  change (byte_at [c0; c1; c2; c3] 1) with c1. change (byte_at [c0; c1; c2; c3] 0) with c0.
  case_bool_decide as E.
  - injection E as -> -> -> ->. rewrite !Z.eqb_refl. done.
  - destruct (Z.eqb_spec c3 t3), (Z.eqb_spec c2 t2), (Z.eqb_spec c1 t1), (Z.eqb_spec c0 t0);
      (done || (exfalso; apply E; congruence)).
Qed.

(** A frame on the air, opened: accepted exactly when the last four bytes check the rest. *)
Lemma tkip_open_spec junk tk h iv ct post len at_ sec cs :
  r_hdrlen at_ = zlen h -> r_iv_len at_ = 8 -> length iv = 8%nat -> bytes iv -> bytes ct ->
  4 <= zlen ct -> len = zlen (h ++ iv ++ ct) -> len < 2 ^ 31 -> crc_ok cs ->
  let x := opened (packet_key tk (r_ta at_) iv) ct in
  tkip_open junk tk ((h ++ iv) ++ ct ++ post) len at_ sec cs =
    Ok (if decide (crc_bytes x 0xffffffff = crc_residue) then SUCCESS else FAIL, (h ++ iv) ++ x ++ post,
        count_sw TkipDec (r_ra at_) sec, crc32_init crc_state0).
Proof.
  intros Hh Hi Hli Hbi Hbc H4 -> Hl Hcs x. unfold tkip_open. rewrite Hh, Hi.
  replace ((h ++ iv) ++ ct ++ post) with (h ++ iv ++ (ct ++ post)) by (rewrite <- !app_assoc; done).
  rewrite get_tkip_pn_spec by done. cbn [bind]. rewrite packet_key_eq.
  replace (h ++ iv ++ ct ++ post) with ((h ++ iv) ++ ct ++ post) by (rewrite <- !app_assoc; done).
  assert (Hz : zlen iv = 8) by (unfold zlen; lia). rewrite !zlen_app in Hl |- *.
  pose proof (zlen_nonneg h).
  replace (s32 _) with (zlen ct) by (rewrite s32_small; lia).
  replace (8 + zlen h) with (zlen (h ++ iv)) by (rewrite zlen_app; lia).
  pose proof (rc4_open_spec (packet_key tk (r_ta at_) iv) [] (h ++ iv) ct post cs (packet_key_bytes _ _ _)
    (packet_key_ne _ _ _)) as HO. rewrite app_nil_r, packet_key_zlen in HO.
  destruct HO as (c & -> & (c' & HE) & HC); [lia | done | done |]. cbn [bind]. rewrite HE. cbn [bind].
  rewrite HC. cbn [bind]. fold x.
  assert (Hx : length x = length ct) by apply opened_length.
  assert (Hbx : bytes x) by (apply opened_bytes; [apply packet_key_bytes | apply packet_key_ne | done]).
  set (d := take (length ct - 4) x). set (t := drop (length ct - 4) x).
  assert (Hdt : x = d ++ t) by (unfold d, t; rewrite take_drop; done).
  assert (Hd : zlen d = zlen ct - 4) by (unfold d; unfold zlen in *; rewrite length_take; lia).
  assert (Ht : length t = 4%nat) by (unfold t; unfold zlen in *; rewrite length_drop; lia).
  assert (HB : bytes d /\ bytes t) by (split; [apply Forall_take | apply Forall_drop]; done).
  rewrite Hdt at 1. replace ((h ++ iv) ++ (d ++ t) ++ post) with (((h ++ iv) ++ d) ++ t ++ post)
    by (rewrite <- !app_assoc; done).
  replace (zlen (h ++ iv) + zlen ct) with (zlen ((h ++ iv) ++ d) + 4) by (rewrite (zlen_app _ d); lia).
  rewrite icv_differs_spec by done. cbn [bind]. fold (icv d).
  replace (if negb (bool_decide (t = icv d)) then FAIL else SUCCESS)
    with (if decide (crc_bytes x 0xffffffff = crc_residue) then SUCCESS else FAIL); [done|].
  pose proof (icv_residue d t (proj1 HB) (proj2 HB) Ht) as HR. rewrite <- Hdt in HR.
  destruct (decide _) as [E|E]; case_bool_decide as F; tauto.
Qed.

Lemma sealed_accepted key pt : bytes pt -> crc_bytes (opened key (sealed key pt)) 0xffffffff = crc_residue.
Proof. intros Hp. rewrite opened_sealed. apply icv_residue; [done | apply icv_bytes | done | done]. Qed.

(** Two ciphertexts that differ inside four bytes do not both pass. *)
Lemma residue_separates key u s s' v :
  bytes key -> key <> [] -> bytes (u ++ s ++ v) -> bytes s' -> length s' = length s -> zlen s <= 4 ->
  crc_bytes (opened key (u ++ s ++ v)) 0xffffffff = crc_bytes (opened key (u ++ s' ++ v)) 0xffffffff -> s = s'.
Proof.
  intros Hkey Hkne Hb Hbs' Hls H4 E. unfold bytes in Hb. rewrite !Forall_app in Hb. destruct Hb as (Bu & Bs & Bv).
  unfold opened in E. replace (length (u ++ s' ++ v)) with (length (u ++ s ++ v)) in E by (rewrite !length_app; lia).
  set (ks := rc4_stream _ _) in E.
  assert (Hks : bytes ks) by (apply rc4_stream_bytes, arcfour_init_spec; done).
  assert (Hkl : length ks = length (u ++ s ++ v)) by apply rc4_stream_length. clearbody ks.
  set (k1 := take (length u) ks) in *. set (k2 := take (length s) (drop (length u) ks)).
  set (k3 := drop (length s) (drop (length u) ks)).
  assert (Ek : ks = k1 ++ k2 ++ k3) by (unfold k1, k2, k3; rewrite !take_drop; done).
  assert (L1 : length k1 = length u) by (unfold k1; rewrite length_take, Hkl, !length_app; lia).
  assert (L2 : length k2 = length s) by (unfold k2; rewrite length_take, length_drop, Hkl, !length_app; lia).
  assert (L3 : length k3 = length v) by (unfold k3; rewrite !length_drop, Hkl, !length_app; lia).
  clearbody k1 k2 k3. subst ks. unfold bytes in Hks. rewrite !Forall_app in Hks. destruct Hks as (K1 & K2 & K3).
  rewrite !xor_bytes_app in E by lia.
  assert (X : bytes (xor_bytes s k2)) by (apply xor_bytes_bytes; done).
  assert (X' : bytes (xor_bytes s' k2)) by (apply xor_bytes_bytes; done).
  apply crc_burst_reg in E;
    [|apply xor_bytes_bytes; done | done | done | apply xor_bytes_bytes; done | rewrite !xor_bytes_length; lia
     | unfold zlen in *; rewrite xor_bytes_length; lia | apply ones_u32].
  apply (f_equal (fun z => xor_bytes z k2)) in E. cbv beta in E. rewrite !xor_bytes_twice in E by lia. exact E.
Qed.

(** ** Theorems *)

(** The receiver whose unicast key for the transmitter is [tk] turns [f'] into [f] and accepts it. *)
Definition tkip_opens (tk ta : list Z) (hdrlen : Z) (f f' : list Z) : Prop :=
  zlen f' = zlen f /\
  forall junk now passing rat rsec rcs g post,
    r_encrypt rat = TKIP -> r_hdrlen rat = hdrlen -> r_iv_len rat = 8 -> r_ta rat = ta ->
    IS_MCAST (r_ra rat) = false -> crc_ok rcs ->
    rtw_tkip_decrypt junk now passing (Some tk) (f' ++ post) (zlen f') rat rsec rcs g =
      Ok (SUCCESS, plain_frag hdrlen 8 f ++ post, count_sw TkipDec (r_ra rat) rsec, crc32_init crc_state0, g).

(** C33: TKIP round trip. Every fragment of a unicast frame is encrypted under the RC4 key of its own packet number,
    whatever the unset bytes of the packet number hold; the receiver recovers it and accepts its check value. *)
Theorem tkip_roundtrip junk x at_ frag_len pre m fs sec cs :
  tx_frames x at_ frag_len pre m fs -> t_encrypt at_ = TKIP -> t_iv_len at_ = 8 ->
  IS_MCAST (t_ra at_) = false -> crc_ok cs ->
  exists m' fs',
    rtw_tkip_encrypt junk x at_ frag_len sec cs =
      Ok (SUCCESS, Some (pre ++ m'), count_sw TkipEnc (t_ra at_) sec, crc32_init crc_state0) /\
    laid_out (x_addr x) frag_len (zlen pre) fs' m' /\
    Forall2 (tkip_opens (t_UncstKey at_) (t_ta at_) (t_hdrlen at_)) fs fs'.
Proof.
  intros Hx He Hi Hmc Hcs.
  destruct (tx_frames_sealed x at_ frag_len pre m fs (tkip_fragment junk (t_UncstKey at_) at_)
    (tkip_keyof (t_UncstKey at_) (t_ta at_) (t_hdrlen at_)) cs Hx Hcs) as (m' & HE & HL).
  { intros e1 a f b H1 H2. destruct Hx. apply tkip_fragment_spec; done. }
  destruct Hx as [Hbuf _ Hh0 Hiv0 _ _ _ _ Hok]. eexists m', _. split; [|split; [exact HL|]].
  - unfold rtw_tkip_encrypt. rewrite Hbuf, He, Hmc. cbn [bind]. rewrite Z.eqb_refl, HE. done.
  - apply (Forall2_map_r _ _ _ fs Hok). intros f Hf.
    split; [apply sealed_frag_zlen; done|]. rewrite Hi in *.
    intros junk' now passing rat rsec rcs g post Hre Hrh Hri Hta Hrm Hrc.
    unfold rtw_tkip_decrypt. rewrite Hre, Hrm, Z.eqb_refl. rewrite sealed_frag_zlen by (done || lia).
    unfold sealed_frag, plain_frag, tkip_keyof.
    destruct (tkip_parts _ f Hf Hh0) as (h & old & _ & -> & H1 & H2 & B2 & H4 & H5 & B4).
    destruct Hf as [_ Hf]. set (pt := f_text _ 8 f) in *. set (iv := f_iv8 _ f) in *.
    set (key := packet_key (t_UncstKey at_) (t_ta at_) iv).
    assert (Hs : length (sealed key pt) = (length pt + 4)%nat) by apply sealed_length.
    rewrite <- app_assoc. rewrite (tkip_open_spec junk' (t_UncstKey at_) h iv (sealed key pt) post).
    + rewrite Hta. fold key. rewrite decide_True by (apply sealed_accepted; done). rewrite opened_sealed.
      cbn [bind]. rewrite <- !app_assoc. done.
    + lia.
    + done.
    + done.
    + done.
    + apply xor_bytes_bytes; [unfold bytes; rewrite Forall_app; split; [done | apply icv_bytes]|].
      apply rc4_stream_bytes, arcfour_init_spec; [apply packet_key_bytes | apply packet_key_ne].
    + unfold zlen. lia.
    + rewrite !zlen_app. unfold zlen in *. lia.
    + lia.
    + done.
Qed.

(** TKIP's receiver rejects a frame that was changed on the air inside any four consecutive bytes behind the IV,
    check value included, whatever key it uses. *)
Theorem tkip_rejects_bursts junk now passing tk h iv u s s' v post rat rsec rcs g :
  r_encrypt rat = TKIP -> r_hdrlen rat = zlen h -> r_iv_len rat = 8 -> IS_MCAST (r_ra rat) = false ->
  length iv = 8%nat -> bytes iv -> bytes (u ++ s ++ v) -> bytes s' -> length s' = length s -> zlen s <= 4 -> s <> s' ->
  4 <= zlen (u ++ s ++ v) -> zlen (h ++ iv ++ u ++ s ++ v) < 2 ^ 31 -> crc_ok rcs ->
  (exists mem st, rtw_tkip_decrypt junk now passing (Some tk) ((h ++ iv) ++ (u ++ s ++ v) ++ post)
     (zlen (h ++ iv ++ u ++ s ++ v)) rat rsec rcs g = Ok (SUCCESS, mem, st, crc32_init crc_state0, g)) ->
  exists mem st, rtw_tkip_decrypt junk now passing (Some tk) ((h ++ iv) ++ (u ++ s' ++ v) ++ post)
     (zlen (h ++ iv ++ u ++ s ++ v)) rat rsec rcs g = Ok (FAIL, mem, st, crc32_init crc_state0, g).
Proof.
  intros He Hh Hi Hm Hli Hbi Hb Hbs' Hls H4 Hne Hl4 Hl Hcs (mem & st & HS).
  assert (Hb2 : bytes (u ++ s' ++ v)) by (unfold bytes in *; rewrite !Forall_app in *; tauto).
  assert (Hlen : zlen (h ++ iv ++ u ++ s ++ v) = zlen (h ++ iv ++ u ++ s' ++ v)) by (unfold zlen; rewrite !length_app; lia).
  assert (Hl5 : 4 <= zlen (u ++ s' ++ v)) by (unfold zlen in *; rewrite !length_app in *; lia).
  unfold rtw_tkip_decrypt in *. rewrite He, Hm, Z.eqb_refl in *.
  pose proof (tkip_open_spec junk tk h iv _ post _ rat rsec rcs Hh Hi Hli Hbi Hb Hl4 eq_refl Hl Hcs) as E1.
  pose proof (tkip_open_spec junk tk h iv _ post _ rat rsec rcs Hh Hi Hli Hbi Hb2 Hl5 Hlen Hl Hcs) as E2.
  cbv zeta in E1, E2. rewrite E1 in HS. rewrite E2. cbn [bind] in HS |- *. clear E1 E2.
  destruct (decide (crc_bytes (opened _ (u ++ s ++ v)) _ = _)) as [E|]; [|discriminate HS].
  do 2 eexists. rewrite decide_False; [reflexivity|]. intros E'. apply Hne. rewrite <- E' in E.
  apply residue_separates in E; [done | apply packet_key_bytes | apply packet_key_ne | done | done | done | done].
Qed.

Definition ex_ta : list Z := [2; 0; 0; 0; 0; 1].
Definition ex_iv : list Z := [0; 32; 1; 32; 0; 0; 0; 0].
Definition ex_tk : list Z := map Z.of_nat (seq 0 16) ++ zeros 16.
Definition ex_frag : list Z := [8; 0] ++ ex_iv ++ [72; 105; 33] ++ zeros 4.
Definition ex_tkip_tx : pkt_attrib := mkTx TKIP 2 8 4 1 17 ex_ta (zeros 6) ex_tk.
Definition ex_tkip_x : xmit_frame := mkXmit (Some (zeros 40 ++ ex_frag ++ [0])) 0 0.
Definition ex_tkip_rx : rx_pkt_attrib := mkRx TKIP 2 8 0 ex_ta (zeros 6).

Lemma ex_tkip_frames : tx_frames ex_tkip_x ex_tkip_tx 2342 (zeros 40) (ex_frag ++ [0]) [ex_frag].
Proof.
  constructor; [reflexivity | reflexivity | vm_compute; discriminate | vm_compute; discriminate | reflexivity
    | exists [0]; reflexivity | reflexivity | |].
  - intros fs' f E. destruct fs' as [|a [|]]; try discriminate E. injection E as <-. reflexivity.
  - repeat constructor; try (apply bytes_by_compute; reflexivity); vm_compute; (discriminate || reflexivity).
Qed.

Lemma tkip_roundtrip_witness :
  exists m' fs', rtw_tkip_encrypt 77 ex_tkip_x ex_tkip_tx 2342 ex_sec crc_state0 =
      Ok (SUCCESS, Some (zeros 40 ++ m'), count_sw TkipEnc (zeros 6) ex_sec, crc32_init crc_state0) /\
    Forall2 (tkip_opens ex_tk ex_ta 2) [ex_frag] fs'.
Proof.
  destruct (tkip_roundtrip 77 ex_tkip_x ex_tkip_tx 2342 (zeros 40) (ex_frag ++ [0]) [ex_frag] ex_sec crc_state0)
    as (m' & fs' & H1 & _ & H2).
  - exact ex_tkip_frames.
  - reflexivity.
  - reflexivity.
  - reflexivity.
  - left. reflexivity.
  - exists m', fs'. split; [exact H1 | exact H2].
Defined.

(** The frame on the air with one byte changed. *)
Lemma tkip_rejects_bursts_witness :
  exists mem st, rtw_tkip_decrypt 0 0 id (Some ex_tk) (([8; 0] ++ ex_iv) ++ ([32; 113] ++ [134] ++ [154; 34; 77; 100]) ++ [])
    17 ex_tkip_rx ex_sec crc_state0 (mkGk 0 0 0) = Ok (FAIL, mem, st, crc32_init crc_state0, mkGk 0 0 0).
Proof.
  apply (tkip_rejects_bursts 0 0 id ex_tk [8; 0] ex_iv [32; 113] [133] [134] [154; 34; 77; 100] [] ex_tkip_rx ex_sec
    crc_state0 (mkGk 0 0 0)); try reflexivity; try (apply bytes_by_compute; reflexivity).
  - vm_compute. discriminate.
  - discriminate.
  - vm_compute. discriminate.
  - left. reflexivity.
  - exists (([8; 0] ++ ex_iv) ++ ([72; 105; 33] ++ icv [72; 105; 33])), (count_sw TkipDec (zeros 6) ex_sec).
    vm_compute. reflexivity.
Defined.
