(* ===== verification/Aes.v ===== *)
(** * AES

    Models [rijndaelKeySetupEnc] of [core/crypto/aes-internal.c] and [core/crypto/aes-internal-enc.c], built with
    the one table [Te0] (AES_SMALL_TABLES). The specification is the cipher of FIPS 197 over lists of bytes; the
    table look-ups are proved to be its steps. *)
From Stdlib Require Import ZArith Lia Bool.
From stdpp Require Import base option list numbers.
From S2P Require Import Prelude Words Arc4.
Local Open Scope Z_scope.

(** ** The code *)

(* src: core/crypto/aes-internal.c:62-127 Te0 *)
Definition Te0 : list Z :=
  [0xc66363a5; 0xf87c7c84; 0xee777799; 0xf67b7b8d; 0xfff2f20d; 0xd66b6bbd; 0xde6f6fb1; 0x91c5c554;
   0x60303050; 0x02010103; 0xce6767a9; 0x562b2b7d; 0xe7fefe19; 0xb5d7d762; 0x4dababe6; 0xec76769a;
   0x8fcaca45; 0x1f82829d; 0x89c9c940; 0xfa7d7d87; 0xeffafa15; 0xb25959eb; 0x8e4747c9; 0xfbf0f00b;
   0x41adadec; 0xb3d4d467; 0x5fa2a2fd; 0x45afafea; 0x239c9cbf; 0x53a4a4f7; 0xe4727296; 0x9bc0c05b;
   0x75b7b7c2; 0xe1fdfd1c; 0x3d9393ae; 0x4c26266a; 0x6c36365a; 0x7e3f3f41; 0xf5f7f702; 0x83cccc4f;
   0x6834345c; 0x51a5a5f4; 0xd1e5e534; 0xf9f1f108; 0xe2717193; 0xabd8d873; 0x62313153; 0x2a15153f;
   0x0804040c; 0x95c7c752; 0x46232365; 0x9dc3c35e; 0x30181828; 0x379696a1; 0x0a05050f; 0x2f9a9ab5;
   0x0e070709; 0x24121236; 0x1b80809b; 0xdfe2e23d; 0xcdebeb26; 0x4e272769; 0x7fb2b2cd; 0xea75759f;
   0x1209091b; 0x1d83839e; 0x582c2c74; 0x341a1a2e; 0x361b1b2d; 0xdc6e6eb2; 0xb45a5aee; 0x5ba0a0fb;
   0xa45252f6; 0x763b3b4d; 0xb7d6d661; 0x7db3b3ce; 0x5229297b; 0xdde3e33e; 0x5e2f2f71; 0x13848497;
   0xa65353f5; 0xb9d1d168; 0x00000000; 0xc1eded2c; 0x40202060; 0xe3fcfc1f; 0x79b1b1c8; 0xb65b5bed;
   0xd46a6abe; 0x8dcbcb46; 0x67bebed9; 0x7239394b; 0x944a4ade; 0x984c4cd4; 0xb05858e8; 0x85cfcf4a;
   0xbbd0d06b; 0xc5efef2a; 0x4faaaae5; 0xedfbfb16; 0x864343c5; 0x9a4d4dd7; 0x66333355; 0x11858594;
   0x8a4545cf; 0xe9f9f910; 0x04020206; 0xfe7f7f81; 0xa05050f0; 0x783c3c44; 0x259f9fba; 0x4ba8a8e3;
   0xa25151f3; 0x5da3a3fe; 0x804040c0; 0x058f8f8a; 0x3f9292ad; 0x219d9dbc; 0x70383848; 0xf1f5f504;
   0x63bcbcdf; 0x77b6b6c1; 0xafdada75; 0x42212163; 0x20101030; 0xe5ffff1a; 0xfdf3f30e; 0xbfd2d26d;
   0x81cdcd4c; 0x180c0c14; 0x26131335; 0xc3ecec2f; 0xbe5f5fe1; 0x359797a2; 0x884444cc; 0x2e171739;
   0x93c4c457; 0x55a7a7f2; 0xfc7e7e82; 0x7a3d3d47; 0xc86464ac; 0xba5d5de7; 0x3219192b; 0xe6737395;
   0xc06060a0; 0x19818198; 0x9e4f4fd1; 0xa3dcdc7f; 0x44222266; 0x542a2a7e; 0x3b9090ab; 0x0b888883;
   0x8c4646ca; 0xc7eeee29; 0x6bb8b8d3; 0x2814143c; 0xa7dede79; 0xbc5e5ee2; 0x160b0b1d; 0xaddbdb76;
   0xdbe0e03b; 0x64323256; 0x743a3a4e; 0x140a0a1e; 0x924949db; 0x0c06060a; 0x4824246c; 0xb85c5ce4;
   0x9fc2c25d; 0xbdd3d36e; 0x43acacef; 0xc46262a6; 0x399191a8; 0x319595a4; 0xd3e4e437; 0xf279798b;
   0xd5e7e732; 0x8bc8c843; 0x6e373759; 0xda6d6db7; 0x018d8d8c; 0xb1d5d564; 0x9c4e4ed2; 0x49a9a9e0;
   0xd86c6cb4; 0xac5656fa; 0xf3f4f407; 0xcfeaea25; 0xca6565af; 0xf47a7a8e; 0x47aeaee9; 0x10080818;
   0x6fbabad5; 0xf0787888; 0x4a25256f; 0x5c2e2e72; 0x381c1c24; 0x57a6a6f1; 0x73b4b4c7; 0x97c6c651;
   0xcbe8e823; 0xa1dddd7c; 0xe874749c; 0x3e1f1f21; 0x964b4bdd; 0x61bdbddc; 0x0d8b8b86; 0x0f8a8a85;
   0xe0707090; 0x7c3e3e42; 0x71b5b5c4; 0xcc6666aa; 0x904848d8; 0x06030305; 0xf7f6f601; 0x1c0e0e12;
   0xc26161a3; 0x6a35355f; 0xae5757f9; 0x69b9b9d0; 0x17868691; 0x99c1c158; 0x3a1d1d27; 0x279e9eb9;
   0xd9e1e138; 0xebf8f813; 0x2b9898b3; 0x22111133; 0xd26969bb; 0xa9d9d970; 0x078e8e89; 0x339494a7;
   0x2d9b9bb6; 0x3c1e1e22; 0x15878792; 0xc9e9e920; 0x87cece49; 0xaa5555ff; 0x50282878; 0xa5dfdf7a;
   0x038c8c8f; 0x59a1a1f8; 0x09898980; 0x1a0d0d17; 0x65bfbfda; 0xd7e6e631; 0x844242c6; 0xd06868b8;
   0x824141c3; 0x299999b0; 0x5a2d2d77; 0x1e0f0f11; 0x7bb0b0cb; 0xa85454fc; 0x6dbbbbd6; 0x2c16163a].

(* src: core/crypto/aes-internal.c:767-770 rcons *)
Definition rcons : list Z := [0x01; 0x02; 0x04; 0x08; 0x10; 0x20; 0x40; 0x80; 0x1B; 0x36].

(** A table look-up; every index is masked to eight bits. *)
Definition Te (i : Z) : Z := Te0 !!! Z.to_nat i.

(* src: core/crypto/aes_i.h:70-73 rotr *)
Definition rotr (val bits : Z) : Z := u32 (Z.shiftr val bits .| Z.shiftl val (32 - bits)).

Definition b3_of (i : Z) : Z := Z.shiftr i 24 & 0xff.
Definition b2_of (i : Z) : Z := Z.shiftr i 16 & 0xff.
Definition b1_of (i : Z) : Z := Z.shiftr i 8 & 0xff.
Definition b0_of (i : Z) : Z := i & 0xff.

(* src: core/crypto/aes_i.h:68 RCON *)
Definition RCON (i : Z) : res Z := c <- rd rcons i ;; Ok (u32 (Z.shiftl c 24)).
(* src: core/crypto/aes_i.h:75 TE0 *)
Definition TE0 (i : Z) : Z := Te (b3_of i).
(* src: core/crypto/aes_i.h:76 TE1 *)
Definition TE1 (i : Z) : Z := rotr (Te (b2_of i)) 8.
(* src: core/crypto/aes_i.h:77 TE2 *)
Definition TE2 (i : Z) : Z := rotr (Te (b1_of i)) 16.
(* src: core/crypto/aes_i.h:78 TE3 *)
Definition TE3 (i : Z) : Z := rotr (Te (b0_of i)) 24.
(* src: core/crypto/aes_i.h:79 TE41 *)
Definition TE41 (i : Z) : Z := u32 (Z.shiftl (Te (b3_of i)) 8) & 0xff000000.
(* src: core/crypto/aes_i.h:80 TE42 *)
Definition TE42 (i : Z) : Z := Te (b2_of i) & 0x00ff0000.
(* src: core/crypto/aes_i.h:81 TE43 *)
Definition TE43 (i : Z) : Z := Te (b1_of i) & 0x0000ff00.
(* src: core/crypto/aes_i.h:82 TE44 *)
Definition TE44 (i : Z) : Z := Z.shiftr (Te (b0_of i)) 8 & 0x000000ff.
(* src: core/crypto/aes_i.h:83 TE421 *)
Definition TE421 (i : Z) : Z := u32 (Z.shiftl (Te (b2_of i)) 8) & 0xff000000.
(* src: core/crypto/aes_i.h:84 TE432 *)
Definition TE432 (i : Z) : Z := Te (b1_of i) & 0x00ff0000.
(* src: core/crypto/aes_i.h:85 TE443 *)
Definition TE443 (i : Z) : Z := Te (b0_of i) & 0x0000ff00.
(* src: core/crypto/aes_i.h:86 TE414 *)
Definition TE414 (i : Z) : Z := Z.shiftr (Te (b3_of i)) 8 & 0x000000ff.
(* src: core/crypto/aes_i.h:87 TE411 *)
Definition TE411 (i : Z) : Z := u32 (Z.shiftl (Te (b3_of i)) 8) & 0xff000000.
(* src: core/crypto/aes_i.h:88 TE422 *)
Definition TE422 (i : Z) : Z := Te (b2_of i) & 0x00ff0000.
(* src: core/crypto/aes_i.h:89 TE433 *)
Definition TE433 (i : Z) : Z := Te (b1_of i) & 0x0000ff00.
(* src: core/crypto/aes_i.h:90 TE444 *)
Definition TE444 (i : Z) : Z := Z.shiftr (Te (b0_of i)) 8 & 0x000000ff.

(* src: core/crypto/aes_i.h:113-114 GETU32 *)
Definition GETU32 (b : list Z) (p : Z) : res Z :=
  b0 <- rd b p ;; b1 <- rd b (p + 1) ;; b2 <- rd b (p + 2) ;; b3 <- rd b (p + 3) ;;
  Ok (Z.lxor (Z.lxor (Z.lxor (Z.shiftl b0 24) (Z.shiftl b1 16)) (Z.shiftl b2 8)) b3).

(* src: core/crypto/aes_i.h:115-117 PUTU32 *)
Definition PUTU32 (st : Z) : list Z :=
  [u8 (Z.shiftr st 24); u8 (Z.shiftr st 16); u8 (Z.shiftr st 8); u8 st].

(** *** The key schedule

    [rk] holds the words written so far: a word that is read before it is written is a fault. *)

Definition rot_sub (temp : Z) : Z := Z.lxor (Z.lxor (Z.lxor (TE421 temp) (TE432 temp)) (TE443 temp)) (TE414 temp).
Definition sub (temp : Z) : Z := Z.lxor (Z.lxor (Z.lxor (TE411 temp) (TE422 temp)) (TE433 temp)) (TE444 temp).

(** The word [t] and the running sums [rk[b] ^ t], [rk[b + 1] ^ rk[b] ^ t], ...: four words. *)
Definition ks_four (rk : list Z) (b t : Z) : res (list Z) :=
  r0 <- rd rk b ;; r1 <- rd rk (b + 1) ;; r2 <- rd rk (b + 2) ;; r3 <- rd rk (b + 3) ;;
  let k0 := Z.lxor r0 t in
  let k1 := Z.lxor r1 k0 in
  let k2 := Z.lxor r2 k1 in
  let k3 := Z.lxor r3 k2 in
  Ok (rk ++ [k0; k1; k2; k3]).

(* src: core/crypto/aes-internal.c:788-795 rijndaelKeySetupEnc *)
Definition ks128_turn (i : Z) (rk : list Z) : res (list Z) :=
  temp <- rd rk (4 * i + 3) ;; rc <- RCON i ;;
  ks_four rk (4 * i) (Z.lxor (rot_sub temp) rc).

(* src: core/crypto/aes-internal.c:803-815 rijndaelKeySetupEnc *)
Definition ks192_turn (i : Z) (rk : list Z) : res (list Z) :=
  temp <- rd rk (6 * i + 5) ;; rc <- RCON i ;;
  rk <- ks_four rk (6 * i) (Z.lxor (rot_sub temp) rc) ;;
  if i =? 7 then Ok rk
  else
    r4 <- rd rk (6 * i + 4) ;; r9 <- rd rk (6 * i + 9) ;; r5 <- rd rk (6 * i + 5) ;;
    let k10 := Z.lxor r4 r9 in
    Ok (rk ++ [k10; Z.lxor r5 k10]).

(* src: core/crypto/aes-internal.c:822-839 rijndaelKeySetupEnc *)
Definition ks256_turn (i : Z) (rk : list Z) : res (list Z) :=
  temp <- rd rk (8 * i + 7) ;; rc <- RCON i ;;
  rk <- ks_four rk (8 * i) (Z.lxor (rot_sub temp) rc) ;;
  if i =? 6 then Ok rk
  else
    temp <- rd rk (8 * i + 11) ;;
    ks_four rk (8 * i + 4) (sub temp).

(** The words and the number of rounds, or -1. *)
(* src: core/crypto/aes-internal.c:777-843 rijndaelKeySetupEnc *)
Definition rijndaelKeySetupEnc (cipherKey : list Z) (keyBits : Z) : res (list Z * Z) :=
  k0 <- GETU32 cipherKey 0 ;; k1 <- GETU32 cipherKey 4 ;; k2 <- GETU32 cipherKey 8 ;; k3 <- GETU32 cipherKey 12 ;;
  let rk := [k0; k1; k2; k3] in
  if keyBits =? 128 then rk <- for_up ks128_turn 10 0 rk ;; Ok (rk, 10)
  else
    k4 <- GETU32 cipherKey 16 ;; k5 <- GETU32 cipherKey 20 ;;
    let rk := rk ++ [k4; k5] in
    if keyBits =? 192 then rk <- for_up ks192_turn 8 0 rk ;; Ok (rk, 12)
    else
      k6 <- GETU32 cipherKey 24 ;; k7 <- GETU32 cipherKey 28 ;;
      let rk := rk ++ [k6; k7] in
      if keyBits =? 256 then rk <- for_up ks256_turn 7 0 rk ;; Ok (rk, 14)
      else Ok (rk, -1).

(** *** The cipher *)

Definition st4 : Type := Z * Z * Z * Z.

(** Four round words from [p] on. *)
Definition rk4 (rk : list Z) (p : Z) : res st4 :=
  k0 <- rd rk p ;; k1 <- rd rk (p + 1) ;; k2 <- rd rk (p + 2) ;; k3 <- rd rk (p + 3) ;; Ok (k0, k1, k2, k3).

Definition te_col (a b c d k : Z) : Z := Z.lxor (Z.lxor (Z.lxor (Z.lxor (TE0 a) (TE1 b)) (TE2 c)) (TE3 d)) k.
Definition te4_col (a b c d k : Z) : Z := Z.lxor (Z.lxor (Z.lxor (Z.lxor (TE41 a) (TE42 b)) (TE43 c)) (TE44 d)) k.

(* src: core/crypto/aes-internal-enc.c:37-41 ROUND *)
Definition ROUND (rk : list Z) (p : Z) (s : st4) : res st4 :=
  let '(s0, s1, s2, s3) := s in
  '(k0, k1, k2, k3) <- rk4 rk p ;;
  Ok (te_col s0 s1 s2 s3 k0, te_col s1 s2 s3 s0 k1, te_col s2 s3 s0 s1 k2, te_col s3 s0 s1 s2 k3).

(** [for (;;)]: the state is [r], the offset of [rk] and [s]. *)
(* src: core/crypto/aes-internal-enc.c:69-75 rijndaelEncrypt *)
Definition enc_turn (rk : list Z) (st : Z * Z * st4) : res ((Z * Z * st4) + (Z * st4)) :=
  let '(r, p, s) := st in
  t <- ROUND rk (p + 4) s ;;
  let p := p + 8 in
  let r := r - 1 in
  if r =? 0 then Ok (inr (p, t))
  else s <- ROUND rk p t ;; Ok (inl (r, p, s)).

(* src: core/crypto/aes-internal-enc.c:21-93 rijndaelEncrypt *)
Definition rijndaelEncrypt (rk : list Z) (Nr : Z) (pt : list Z) : res (list Z) :=
  p0 <- GETU32 pt 0 ;; p1 <- GETU32 pt 4 ;; p2 <- GETU32 pt 8 ;; p3 <- GETU32 pt 12 ;;
  '(k0, k1, k2, k3) <- rk4 rk 0 ;;
  let s : st4 := (Z.lxor p0 k0, Z.lxor p1 k1, Z.lxor p2 k2, Z.lxor p3 k3) in
  '(p, t) <- loop (enc_turn rk) (S (Z.to_nat Nr)) (Z.shiftr Nr 1, 0, s) ;;
  let '(t0, t1, t2, t3) := t in
  '(k0, k1, k2, k3) <- rk4 rk p ;;
  Ok (PUTU32 (te4_col t0 t1 t2 t3 k0) ++ PUTU32 (te4_col t1 t2 t3 t0 k1)
      ++ PUTU32 (te4_col t2 t3 t0 t1 k2) ++ PUTU32 (te4_col t3 t0 t1 t2 k3)).

(** The block behind the [void *]: the round words, and the number of rounds in the last word. *)
Record aes_ctx : Type := mkAes { aes_rk : list Z; aes_nr : Z }.

(** [alloc]: whether the allocation succeeds. *)
(* src: core/crypto/aes-internal-enc.c:96-114 aes_encrypt_init *)
Definition aes_encrypt_init (alloc : bool) (key : list Z) (len : Z) : res (option aes_ctx) :=
  if negb alloc then Ok None
  else
    '(rk, nr) <- rijndaelKeySetupEnc key (len * 8) ;;
    if nr <? 0 then Ok None else Ok (Some (mkAes rk nr)).

(* src: core/crypto/aes-internal-enc.c:117-122 aes_encrypt *)
Definition aes_encrypt (ctx : aes_ctx) (plain : list Z) : res (list Z) :=
  rijndaelEncrypt (aes_rk ctx) (aes_nr ctx) plain.

(** ** Specification *)

(** Bytes as polynomials modulo [x^8 + x^4 + x^3 + x + 1]. *)
Definition xtime (b : Z) : Z := Z.lxor (u8 (2 * b)) (if 128 <=? b then 0x1b else 0).

Fixpoint gmul_bits (n : nat) (a b : Z) : Z :=
  match n with
  | O => 0
  | S n => Z.lxor (if Z.odd b then a else 0) (gmul_bits n (xtime a) (b / 2))
  end.
Definition gmul (a b : Z) : Z := gmul_bits 8 a b.

(** The inverse, and 0 for 0. *)
Definition ginv (b : Z) : Z := Nat.iter 253 (gmul b) b.

Definition rotl8 (x n : Z) : Z := (x * 2 ^ n) mod 256 + x / 2 ^ (8 - n).

Definition sbox (b : Z) : Z :=
  let x := ginv b in
  Z.lxor (Z.lxor (Z.lxor (Z.lxor (Z.lxor x (rotl8 x 1)) (rotl8 x 2)) (rotl8 x 3)) (rotl8 x 4)) 0x63.

(** A state is its sixteen bytes, column by column. *)
Definition sub_bytes (s : list Z) : list Z := map sbox s.

Definition shift_rows (s : list Z) : list Z :=
  map (fun i => s !!! ((i + 4 * (i mod 4)) mod 16)%nat) (seq 0 16).

Definition mix_column (a b c d : Z) : list Z :=
  let row w x y z := Z.lxor (Z.lxor (Z.lxor w x) y) z in
  [row (gmul 2 a) (gmul 3 b) c d; row a (gmul 2 b) (gmul 3 c) d;
   row a b (gmul 2 c) (gmul 3 d); row (gmul 3 a) b c (gmul 2 d)].

Fixpoint mix_columns (s : list Z) : list Z :=
  match s with
  | a :: b :: c :: d :: s => mix_column a b c d ++ mix_columns s
  | _ => []
  end.

(** [k0] the first round key, [ks] the others in order. *)
Fixpoint cipher_rounds (ks : list (list Z)) (s : list Z) : list Z :=
  match ks with
  | [] => s
  | [k] => xor_bytes (shift_rows (sub_bytes s)) k
  | k :: ks => cipher_rounds ks (xor_bytes (mix_columns (shift_rows (sub_bytes s))) k)
  end.

(** Words of the expanded key are lists of four bytes. *)
Definition rot_word (w : list Z) : list Z := drop 1 w ++ take 1 w.
Definition rcon (j : nat) : list Z := [Nat.iter (j - 1) xtime 1; 0; 0; 0].

Definition ks_temp (nk i : nat) (temp : list Z) : list Z :=
  if (i mod nk =? 0)%nat then xor_bytes (map sbox (rot_word temp)) (rcon (i / nk))
  else if (6 <? nk)%nat && (i mod nk =? 4)%nat then map sbox temp else temp.

Definition next_word (nk : nat) (w : list (list Z)) : list Z :=
  let i := length w in xor_bytes (w !!! (i - nk)%nat) (ks_temp nk i (w !!! (i - 1)%nat)).

Fixpoint expand (nk n : nat) (w : list (list Z)) : list (list Z) :=
  match n with O => w | S n => expand nk n (w ++ [next_word nk w]) end.

Fixpoint chunks (k n : nat) (l : list Z) : list (list Z) :=
  match n with O => [] | S n => take k l :: chunks k n (drop k l) end.

(** [nk] words of key, [nk + 6] rounds. *)
Definition key_words (key : list Z) : list (list Z) :=
  let nk := (length key / 4)%nat in
  expand nk (4 * (nk + 7) - nk) (chunks 4 nk key).

Definition round_keys (key : list Z) : list (list Z) :=
  chunks 16 (length key / 4 + 7) (concat (key_words key)).

Definition aes_cipher (key block : list Z) : list Z :=
  match round_keys key with
  | k0 :: ks => cipher_rounds ks (xor_bytes block k0)
  | [] => []
  end.

Definition aes_key (key : list Z) : Prop :=
  bytes key /\ (length key = 16 \/ length key = 24 \/ length key = 32)%nat.

(** ** Lemmas: the table *)

Definition te_word (s : Z) : Z := W (gmul 2 s) s s (gmul 3 s).

Lemma Te_spec x : is_byte x -> Te x = te_word (sbox x).
Proof. intros Hx. apply Z.eqb_eq. apply (all_bytes (fun x => Te x =? te_word (sbox x))); [vm_compute; done | done]. Qed.

Lemma sbox_byte x : is_byte x -> is_byte (sbox x).
Proof. intros Hx. apply is_byteb_spec. apply (all_bytes (fun x => is_byteb (sbox x))); [vm_compute; done | done]. Qed.

Lemma gmul2_byte x : is_byte x -> is_byte (gmul 2 x).
Proof. intros Hx. apply is_byteb_spec. apply (all_bytes (fun x => is_byteb (gmul 2 x))); [vm_compute; done | done]. Qed.

Lemma gmul3_byte x : is_byte x -> is_byte (gmul 3 x).
Proof. intros Hx. apply is_byteb_spec. apply (all_bytes (fun x => is_byteb (gmul 3 x))); [vm_compute; done | done]. Qed.

Lemma byte_0 : is_byte 0.
Proof. unfold is_byte. lia. Qed.
Lemma byte_ff : is_byte 0xff.
Proof. unfold is_byte. lia. Qed.

#[export] Hint Resolve sbox_byte gmul2_byte gmul3_byte byte_0 byte_ff : cbytes.

Section WordSteps.
  Context (a b c d : Z) (Ha : is_byte a) (Hb : is_byte b) (Hc : is_byte c) (Hd : is_byte d).

Lemma b3_W : b3_of (W a b c d) = a.
Proof. unfold b3_of. rewrite W_shr24 by done. apply W_low; auto with cbytes. Qed.
Lemma b2_W : b2_of (W a b c d) = b.
Proof. unfold b2_of. rewrite W_shr16 by done. apply W_low; auto with cbytes. Qed.
Lemma b1_W : b1_of (W a b c d) = c.
Proof. unfold b1_of. rewrite W_shr8 by done. apply W_low; auto with cbytes. Qed.
Lemma b0_W : b0_of (W a b c d) = d.
Proof. apply W_low; done. Qed.

Lemma rotr_split n : 0 <= n <= 32 -> rotr (W a b c d) n = u32 (Z.shiftr (W a b c d) n + W a b c d * 2 ^ (32 - n)).
Proof.
  intros Hn. unfold rotr. f_equal. apply lor_shiftl_add; [lia|]. rewrite Z.shiftr_div_pow2 by lia.
  pose proof (W_is_word a b c d Ha Hb Hc Hd) as [H0 H1].
  split; [apply Z.div_pos; [lia | apply Z.pow_pos_nonneg; lia]|].
  apply Z.div_lt_upper_bound; [apply Z.pow_pos_nonneg; lia|]. rewrite <- Z.pow_add_r by lia.
  replace (n + (32 - n)) with 32 by lia. done.
Qed.

Lemma rotr8_W : rotr (W a b c d) 8 = W d a b c.
Proof. rewrite rotr_split by lia. change (2 ^ (32 - 8)) with 16777216. w_arith. Qed.
Lemma rotr16_W : rotr (W a b c d) 16 = W c d a b.
Proof. rewrite rotr_split by lia. change (2 ^ (32 - 16)) with 65536. w_arith. Qed.
Lemma rotr24_W : rotr (W a b c d) 24 = W b c d a.
Proof. rewrite rotr_split by lia. change (2 ^ (32 - 24)) with 256. w_arith. Qed.

Lemma mask3_W : W a b c d & 0xff000000 = W a 0 0 0.
Proof. change 0xff000000 with (W 0xff 0 0 0). rewrite W_land, land_ff_id, !Z.land_0_r by auto with cbytes. done. Qed.
Lemma mask2_W : W a b c d & 0x00ff0000 = W 0 b 0 0.
Proof. change 0x00ff0000 with (W 0 0xff 0 0). rewrite W_land, land_ff_id, !Z.land_0_r by auto with cbytes. done. Qed.
Lemma mask1_W : W a b c d & 0x0000ff00 = W 0 0 c 0.
Proof. change 0x0000ff00 with (W 0 0 0xff 0). rewrite W_land, land_ff_id, !Z.land_0_r by auto with cbytes. done. Qed.
Lemma mask0_W : W a b c d & 0x000000ff = W 0 0 0 d.
Proof. rewrite W_low by done. unfold W, word_of. lia. Qed.
End WordSteps.

(** ** Lemmas: rounds *)

Ltac aes_bytes := auto 8 with cbytes.

#[local] Opaque sbox gmul.

Section Columns.
  Context (a0 a1 a2 a3 b0 b1 b2 b3 c0 c1 c2 c3 d0 d1 d2 d3 k0 k1 k2 k3 : Z).
  Context (A0 : is_byte a0) (A1 : is_byte a1) (A2 : is_byte a2) (A3 : is_byte a3).
  Context (B0 : is_byte b0) (B1 : is_byte b1) (B2 : is_byte b2) (B3 : is_byte b3).
  Context (C0 : is_byte c0) (C1 : is_byte c1) (C2 : is_byte c2) (C3 : is_byte c3).
  Context (D0 : is_byte d0) (D1 : is_byte d1) (D2 : is_byte d2) (D3 : is_byte d3).
  Context (E0 : is_byte k0) (E1 : is_byte k1) (E2 : is_byte k2) (E3 : is_byte k3).

(** A column of a full round: the four table words are the columns of the MixColumns matrix. *)
Lemma te_col_W :
  te_col (W a0 a1 a2 a3) (W b0 b1 b2 b3) (W c0 c1 c2 c3) (W d0 d1 d2 d3) (W k0 k1 k2 k3) =
  match xor_bytes (mix_column (sbox a0) (sbox b1) (sbox c2) (sbox d3)) [k0; k1; k2; k3] with
  | [w; x; y; z] => W w x y z | _ => 0 end.
Proof.
  unfold te_col, TE0, TE1, TE2, TE3. rewrite b3_W, b2_W, b1_W, b0_W, !Te_spec by done.
  unfold te_word. rewrite rotr8_W, rotr16_W, rotr24_W by aes_bytes.
  rewrite !W_lxor by aes_bytes. unfold xor_bytes, mix_column. cbn [zip_with]. reflexivity.
Qed.

Lemma te4_col_W :
  te4_col (W a0 a1 a2 a3) (W b0 b1 b2 b3) (W c0 c1 c2 c3) (W d0 d1 d2 d3) (W k0 k1 k2 k3) =
  W (Z.lxor (sbox a0) k0) (Z.lxor (sbox b1) k1) (Z.lxor (sbox c2) k2) (Z.lxor (sbox d3) k3).
Proof.
  unfold te4_col, TE41, TE42, TE43, TE44. rewrite b3_W, b2_W, b1_W, b0_W, !Te_spec by done.
  unfold te_word. rewrite W_shl8, W_shr8, mask3_W, mask2_W, mask1_W, mask0_W by aes_bytes.
  rewrite !W_lxor by aes_bytes. rewrite !Z.lxor_0_r, !Z.lxor_0_l. done.
Qed.

Lemma rot_sub_W : rot_sub (W a0 a1 a2 a3) = W (sbox a1) (sbox a2) (sbox a3) (sbox a0).
Proof.
  unfold rot_sub, TE421, TE432, TE443, TE414. rewrite b3_W, b2_W, b1_W, b0_W, !Te_spec by done.
  unfold te_word. rewrite W_shl8, W_shr8, mask3_W, mask2_W, mask1_W, mask0_W by aes_bytes.
  rewrite !W_lxor by aes_bytes. rewrite !Z.lxor_0_r, !Z.lxor_0_l. done.
Qed.

Lemma sub_W : sub (W a0 a1 a2 a3) = W (sbox a0) (sbox a1) (sbox a2) (sbox a3).
Proof.
  unfold sub, TE411, TE422, TE433, TE444. rewrite b3_W, b2_W, b1_W, b0_W, !Te_spec by done.
  unfold te_word. rewrite W_shl8, W_shr8, mask3_W, mask2_W, mask1_W, mask0_W by aes_bytes.
  rewrite !W_lxor by aes_bytes. rewrite !Z.lxor_0_r, !Z.lxor_0_l. done.
Qed.

Lemma PUTU32_W : PUTU32 (W a0 a1 a2 a3) = [a0; a1; a2; a3].
Proof. unfold PUTU32. rewrite W_shr24, W_shr16, W_shr8, !W_u8 by aes_bytes. done. Qed.
End Columns.

Lemma GETU32_W pre a b c d post : is_byte a -> is_byte b -> is_byte c -> is_byte d ->
  GETU32 (pre ++ a :: b :: c :: d :: post) (zlen pre) = Ok (W a b c d).
Proof.
  intros. unfold GETU32. rewrite rd_mid.
  assert (R : forall l (x : Z) m, rd (pre ++ l ++ x :: m) (zlen pre + zlen l) = Ok x).
  { intros l x m. rewrite app_assoc, <- zlen_app. apply rd_mid. }
  assert (R1 : rd (pre ++ a :: b :: c :: d :: post) (zlen pre + 1) = Ok b) by exact (R [a] b (c :: d :: post)).
  assert (R2 : rd (pre ++ a :: b :: c :: d :: post) (zlen pre + 2) = Ok c) by exact (R [a; b] c (d :: post)).
  assert (R3 : rd (pre ++ a :: b :: c :: d :: post) (zlen pre + 3) = Ok d) by exact (R [a; b; c] d post).
  rewrite R1, R2, R3.
  cbn [bind]. f_equal.
  replace (Z.shiftl a 24) with (W a 0 0 0) by (unfold W, word_of; rewrite Z.shiftl_mul_pow2; lia).
  replace (Z.shiftl b 16) with (W 0 b 0 0) by (unfold W, word_of; rewrite Z.shiftl_mul_pow2; lia).
  replace (Z.shiftl c 8) with (W 0 0 c 0) by (unfold W, word_of; rewrite Z.shiftl_mul_pow2; lia).
  replace d with (W 0 0 0 d) at 1 by (unfold W, word_of; lia).
  rewrite !W_lxor by aes_bytes. rewrite !Z.lxor_0_r, !Z.lxor_0_l. reflexivity.
Qed.

Definition blk (s : list Z) : Prop := bytes s /\ length s = 16%nat.

Definition cols (s : list Z) : st4 :=
  match s with
  | [a0; a1; a2; a3; b0; b1; b2; b3; c0; c1; c2; c3; d0; d1; d2; d3] =>
      (W a0 a1 a2 a3, W b0 b1 b2 b3, W c0 c1 c2 c3, W d0 d1 d2 d3)
  | _ => (0, 0, 0, 0)
  end.

Lemma blk_ind (P : list Z -> Prop) :
  (forall a0 a1 a2 a3 b0 b1 b2 b3 c0 c1 c2 c3 d0 d1 d2 d3,
     is_byte a0 -> is_byte a1 -> is_byte a2 -> is_byte a3 -> is_byte b0 -> is_byte b1 -> is_byte b2 -> is_byte b3 ->
     is_byte c0 -> is_byte c1 -> is_byte c2 -> is_byte c3 -> is_byte d0 -> is_byte d1 -> is_byte d2 -> is_byte d3 ->
     P [a0; a1; a2; a3; b0; b1; b2; b3; c0; c1; c2; c3; d0; d1; d2; d3]) ->
  forall s, blk s -> P s.
Proof.
  intros H s [Hb Hl]. do 16 (destruct s as [|? s]; [discriminate Hl|]). destruct s; [|discriminate Hl].
  repeat (apply Forall_cons_1 in Hb as [? Hb]). apply H; done.
Qed.

Definition shift_sub (s : list Z) : list Z := shift_rows (sub_bytes s).

Ltac blk_cases :=
  repeat match goal with H : blk ?s |- _ => revert s H; apply blk_ind; intros end.

Lemma ROUND_spec rk p k s : rk4 rk p = Ok (cols k) -> blk k -> blk s ->
  ROUND rk p (cols s) = Ok (cols (xor_bytes (mix_columns (shift_sub s)) k)).
Proof.
  intros E Hk Hs. unfold ROUND. rewrite E. clear E. blk_cases. cbn [bind cols].
  rewrite !te_col_W by done. reflexivity.
Qed.

Lemma final_spec k s : blk k -> blk s ->
  (let '(t0, t1, t2, t3) := cols s in let '(k0, k1, k2, k3) := cols k in
   PUTU32 (te4_col t0 t1 t2 t3 k0) ++ PUTU32 (te4_col t1 t2 t3 t0 k1)
     ++ PUTU32 (te4_col t2 t3 t0 t1 k2) ++ PUTU32 (te4_col t3 t0 t1 t2 k3)) = xor_bytes (shift_sub s) k.
Proof.
  intros Hk Hs. blk_cases. unfold cols. rewrite !te4_col_W by done. rewrite !PUTU32_W by aes_bytes. reflexivity.
Qed.

Lemma xor_blk s k : blk s -> blk k -> blk (xor_bytes s k).
Proof.
  intros [Hs Ls] [Hk Lk]. split; [apply xor_bytes_bytes; done | rewrite xor_bytes_length; congruence].
Qed.

Lemma shift_sub_blk s : blk s -> blk (shift_sub s).
Proof.
  intros Hs. revert s Hs. apply blk_ind. intros. split; [|reflexivity].
  unfold shift_sub, sub_bytes. cbn.
  unfold bytes. repeat (apply List.Forall_cons; [apply sbox_byte; done|]). apply List.Forall_nil.
Qed.

Lemma mix_blk s : blk s -> blk (mix_columns s).
Proof.
  intros Hs. revert s Hs. apply blk_ind. intros. split; [|reflexivity].
  unfold bytes. cbn [mix_columns mix_column app].
  repeat (apply List.Forall_cons; [repeat apply lxor_byte; aes_bytes|]). apply List.Forall_nil.
Qed.

(** [keys_at rk p ks]: the words of [rk] from [p] on are those of the round keys [ks]. *)
Fixpoint keys_at (rk : list Z) (p : Z) (ks : list (list Z)) : Prop :=
  match ks with
  | [] => True
  | k :: ks => rk4 rk p = Ok (cols k) /\ blk k /\ keys_at rk (p + 4) ks
  end.

(** [r] pairs of rounds: the loop does all but the last round of the specification. *)
Lemma enc_loop rk r : forall fuel p s ks, (r < fuel)%nat -> (1 <= r)%nat -> length ks = (2 * r)%nat ->
  keys_at rk (p + 4) ks -> blk s ->
  exists p' t k, loop (enc_turn rk) fuel (Z.of_nat r, p, cols s) = Ok (p', cols t) /\ blk t /\ blk k /\
    rk4 rk p' = Ok (cols k) /\ cipher_rounds ks s = xor_bytes (shift_sub t) k.
Proof.
  induction r as [|r IH]; intros fuel p s ks Hf Hr Hl Hk Hs; [lia|].
  destruct fuel as [|fuel]; [lia|]. destruct ks as [|k1 [|k2 ks]]; try (cbn in Hl; lia).
  destruct Hk as (E1 & B1 & E2 & B2 & Hk). rewrite loop_S. unfold enc_turn at 1.
  rewrite (ROUND_spec _ _ k1 s) by done. cbn [bind].
  set (t := xor_bytes (mix_columns (shift_sub s)) k1).
  assert (Ht : blk t) by (apply xor_blk; [apply mix_blk, shift_sub_blk|]; done).
  replace (p + 4 + 4) with (p + 8) in * by lia. destruct (Z.eqb_spec (Z.of_nat (S r) - 1) 0) as [E0|E0].
  - destruct ks; [|cbn in Hl; lia]. exists (p + 8), t, k2. done.
  - rewrite (ROUND_spec _ _ k2 t) by done. cbn [bind]. replace (Z.of_nat (S r) - 1) with (Z.of_nat r) by lia.
    destruct (IH fuel (p + 8) (xor_bytes (mix_columns (shift_sub t)) k2) ks) as (p' & t' & k & H); try done; try lia.
    { cbn in Hl. lia. }
    { apply xor_blk; [apply mix_blk, shift_sub_blk|]; done. }
    exists p', t', k. destruct ks; [cbn in Hl; lia | exact H].
Qed.

Lemma rijndaelEncrypt_spec rk r k0 ks s : (1 <= r)%nat -> length ks = (2 * r)%nat -> keys_at rk 0 (k0 :: ks) -> blk s ->
  rijndaelEncrypt rk (2 * Z.of_nat r) s = Ok (cipher_rounds ks (xor_bytes s k0)).
Proof.
  intros Hr Hl (E0 & B0 & Hk) Hs. unfold rijndaelEncrypt. rewrite E0.
  assert (G : GETU32 s 0 = Ok (fst (fst (fst (cols s)))) /\ GETU32 s 4 = Ok (snd (fst (fst (cols s)))) /\
              GETU32 s 8 = Ok (snd (fst (cols s))) /\ GETU32 s 12 = Ok (snd (cols s))).
  { clear E0 Hk. revert s Hs. apply blk_ind. intros. cbn [cols fst snd].
    split; [apply (GETU32_W []); done|]. split; [apply (GETU32_W [a0; a1; a2; a3]); done|].
    split; [apply (GETU32_W [a0; a1; a2; a3; b0; b1; b2; b3]); done|].
    apply (GETU32_W [a0; a1; a2; a3; b0; b1; b2; b3; c0; c1; c2; c3]); done. }
  destruct G as (-> & -> & -> & ->). cbn [bind].
  assert (X : (let '(k0, k1, k2, k3) := cols k0 in let '(p0, p1, p2, p3) := cols s in
               (Z.lxor p0 k0, Z.lxor p1 k1, Z.lxor p2 k2, Z.lxor p3 k3)) = cols (xor_bytes s k0)).
  { clear E0 Hk. blk_cases. cbn [cols]. rewrite !W_lxor by done. reflexivity. }
  destruct (cols k0) as [[[q0 q1] q2] q3]. destruct (cols s) as [[[p0 p1] p2] p3]. cbn [fst snd bind]. rewrite X.
  replace (Z.shiftr (2 * Z.of_nat r) 1) with (Z.of_nat r)
    by (rewrite Z.shiftr_div_pow2 by lia; change (2 ^ 1) with 2; rewrite Z.mul_comm, Z.div_mul; lia).
  destruct (enc_loop rk r (S (Z.to_nat (2 * Z.of_nat r))) 0 (xor_bytes s k0) ks) as (p' & t & k & -> & Bt & Bk & Ek & ->);
    [lia | done | done | done | apply xor_blk; done |].
  cbn [bind]. destruct (cols t) as [[[t0 t1] t2] t3] eqn:Et. rewrite Ek.
  destruct (cols k) as [[[l0 l1] l2] l3] eqn:El. cbn [bind]. f_equal.
  pose proof (final_spec k t Bk Bt) as F. rewrite Et, El in F. exact F.
Qed.

(** ** Lemmas: the key schedule *)

Definition word4 (w : list Z) : Prop := bytes w /\ length w = 4%nat.

Definition be (w : list Z) : Z := match w with [a; b; c; d] => W a b c d | _ => 0 end.

Lemma word4_ind (P : list Z -> Prop) :
  (forall a b c d, is_byte a -> is_byte b -> is_byte c -> is_byte d -> P [a; b; c; d]) -> forall w, word4 w -> P w.
Proof.
  intros H w [Hb Hl]. do 4 (destruct w as [|? w]; [discriminate Hl|]). destruct w; [|discriminate Hl].
  repeat (apply Forall_cons_1 in Hb as [? Hb]). apply H; done.
Qed.

Ltac word4_cases := repeat match goal with H : word4 ?w |- _ => revert w H; apply word4_ind; intros end.

Lemma be_xor u v : word4 u -> word4 v -> be (xor_bytes u v) = Z.lxor (be u) (be v).
Proof. intros. word4_cases. cbn [be]. rewrite W_lxor by done. reflexivity. Qed.

Lemma xor_word4 u v : word4 u -> word4 v -> word4 (xor_bytes u v).
Proof. intros [] []. split; [apply xor_bytes_bytes; done | rewrite xor_bytes_length; congruence]. Qed.

Lemma rot_sub_be w : word4 w -> rot_sub (be w) = be (map sbox (rot_word w)) /\ word4 (map sbox (rot_word w)).
Proof.
  intros. word4_cases. cbn [be]. rewrite rot_sub_W by done. split; [reflexivity|]. split; [|reflexivity].
  cbn. repeat (apply List.Forall_cons; [aes_bytes|]). apply List.Forall_nil.
Qed.

Lemma sub_be w : word4 w -> sub (be w) = be (map sbox w) /\ word4 (map sbox w).
Proof.
  intros. word4_cases. cbn [be]. rewrite sub_W by done. split; [reflexivity|]. split; [|reflexivity].
  cbn. repeat (apply List.Forall_cons; [aes_bytes|]). apply List.Forall_nil.
Qed.

Lemma RCON_spec j : (j < 10)%nat -> RCON (Z.of_nat j) = Ok (be (rcon (S j))) /\ word4 (rcon (S j)).
Proof.
  intros Hj. do 10 (destruct j as [|j]; [split; [vm_compute; done|]; split; [apply bytes_by_compute; vm_compute; done | done]|]).
  lia.
Qed.

Lemma rd_be pre l x m : rd (map be (pre ++ l ++ x :: m)) (zlen pre + zlen l) = Ok (be x).
Proof.
  rewrite app_assoc, map_app. cbn [map]. rewrite <- zlen_app.
  replace (zlen (pre ++ l)) with (zlen (map be (pre ++ l))) by (unfold zlen; rewrite length_map; done). apply rd_mid.
Qed.

(** Four more words [x0 + t], [x1 + x0 + t], ... *)
Definition sums (x0 x1 x2 x3 t : list Z) : list (list Z) :=
  let y0 := xor_bytes x0 t in let y1 := xor_bytes x1 y0 in let y2 := xor_bytes x2 y1 in
  [y0; y1; y2; xor_bytes x3 y2].

Lemma ks_four_spec pre x0 x1 x2 x3 post t p : p = zlen pre ->
  word4 x0 -> word4 x1 -> word4 x2 -> word4 x3 -> word4 t ->
  ks_four (map be (pre ++ x0 :: x1 :: x2 :: x3 :: post)) p (be t) =
    Ok (map be ((pre ++ x0 :: x1 :: x2 :: x3 :: post) ++ sums x0 x1 x2 x3 t)) /\ Forall word4 (sums x0 x1 x2 x3 t).
Proof.
  intros -> H0 H1 H2 H3 Ht. assert (Y0 : word4 (xor_bytes x0 t)) by (apply xor_word4; done).
  assert (Y1 : word4 (xor_bytes x1 (xor_bytes x0 t))) by (apply xor_word4; done).
  assert (Y2 : word4 (xor_bytes x2 (xor_bytes x1 (xor_bytes x0 t)))) by (apply xor_word4; done).
  split; [|unfold sums; cbv zeta; repeat (apply List.Forall_cons; [first [done | apply xor_word4; done]|]); apply List.Forall_nil].
  unfold ks_four. pose proof (rd_be pre [] x0 (x1 :: x2 :: x3 :: post)) as R0. rewrite Z.add_0_r in R0.
  pose proof (rd_be pre [x0] x1 (x2 :: x3 :: post)) as R1. pose proof (rd_be pre [x0; x1] x2 (x3 :: post)) as R2.
  pose proof (rd_be pre [x0; x1; x2] x3 post) as R3. cbn [app] in R0, R1, R2, R3.
  change (zlen [x0]) with 1 in R1. change (zlen [x0; x1]) with 2 in R2. change (zlen [x0; x1; x2]) with 3 in R3.
  rewrite R0, R1, R2, R3. cbn [bind]. rewrite <- !be_xor by done.
  rewrite (map_app be _ (sums x0 x1 x2 x3 t)). reflexivity.
Qed.

(** One step of the specification: only the last [nk] words matter. *)
Lemma expand_win nk n a x b : length b = (nk - 1)%nat -> (1 <= nk)%nat ->
  expand nk (S n) (a ++ x :: b) =
  expand nk n ((a ++ [x]) ++ b ++ [xor_bytes x (ks_temp nk (length a + nk) (List.last (x :: b) []))]).
Proof.
  intros Hb Hn. cbn [expand]. unfold next_word.
  assert (Hl : length (a ++ x :: b) = (length a + nk)%nat) by (rewrite length_app; cbn; lia). rewrite Hl.
  assert (E1 : (a ++ x :: b) !!! (length a + nk - nk)%nat = x).
  { replace (length a + nk - nk)%nat with (length a) by lia. apply list_lookup_total_middle. done. }
  assert (E2 : (a ++ x :: b) !!! (length a + nk - 1)%nat = List.last (x :: b) []).
  { destruct (exists_last (l := x :: b) ltac:(discriminate)) as (z & y & Hz). rewrite Hz, List.last_last.
    rewrite Hz in Hl. rewrite !length_app in Hl. cbn in Hl. rewrite app_assoc.
    apply list_lookup_total_middle. rewrite length_app. lia. }
  rewrite E1, E2, <- !app_assoc. done.
Qed.

(** In the window [x0, ...] only the first step transforms the word before it. *)
Definition plain_after (nk i : nat) : Prop := forall j t, (1 <= j <= 3)%nat -> ks_temp nk (i + j) t = t.

Lemma expand_four nk pre x0 x1 x2 x3 post :
  (length post + 4 = nk)%nat -> (length post = 0 \/ length post = 2 \/ length post = 4)%nat -> plain_after nk (length pre + nk) ->
  expand nk 4 (pre ++ x0 :: x1 :: x2 :: x3 :: post) =
    (pre ++ x0 :: x1 :: x2 :: x3 :: post) ++
    sums x0 x1 x2 x3 (ks_temp nk (length pre + nk) (List.last (x0 :: x1 :: x2 :: x3 :: post) [])).
Proof.
  intros Hn Hp Hj.
  rewrite expand_win by (cbn; lia). set (t := ks_temp nk (length pre + nk) _).
  destruct post as [|p1 [|p2 [|p3 [|p4 [|]]]]]; try (cbn in Hp; lia); cbn [app];
    (rewrite expand_win by (cbn in Hn |- *; lia)); cbn [app List.last];
    (rewrite expand_win by (cbn in Hn |- *; lia)); cbn [app List.last];
    (rewrite expand_win by (cbn in Hn |- *; lia)); cbn [app List.last expand];
    rewrite !length_app; cbn [length];
    replace (length pre + 1 + 1 + 1 + nk)%nat with (length pre + nk + 3)%nat by lia;
    replace (length pre + 1 + 1 + nk)%nat with (length pre + nk + 2)%nat by lia;
    replace (length pre + 1 + nk)%nat with (length pre + nk + 1)%nat by lia;
    rewrite !Hj by lia; rewrite <- !app_assoc; reflexivity.
Qed.

Lemma mod_at nk k j : (0 < nk)%nat -> (j < nk)%nat -> ((nk * k + j) mod nk = j)%nat.
Proof. intros. rewrite Nat.add_comm, Nat.mul_comm, Nat.Div0.mod_add. apply Nat.mod_small. done. Qed.

Lemma ks_temp_first nk k t : (0 < nk)%nat -> ks_temp nk (nk * k) t = xor_bytes (map sbox (rot_word t)) (rcon k).
Proof.
  intros H. unfold ks_temp. pose proof (mod_at nk k 0 H H) as M. rewrite Nat.add_0_r in M. rewrite M. cbn [Nat.eqb].
  rewrite Nat.mul_comm, Nat.div_mul by lia. done.
Qed.

Lemma ks_temp_plain nk k j t : (0 < j < nk)%nat -> (nk <= 6 \/ j <> 4)%nat -> ks_temp nk (nk * k + j) t = t.
Proof.
  intros Hj H. unfold ks_temp. rewrite mod_at by lia. destruct (Nat.eqb_spec j 0); [lia|].
  destruct (Nat.ltb_spec 6 nk), (Nat.eqb_spec j 4); cbn [andb]; (lia || done).
Qed.

Lemma ks_temp_mid k t : ks_temp 8 (8 * k + 4) t = map sbox t.
Proof. unfold ks_temp. rewrite mod_at by lia. done. Qed.

Lemma expand_add nk n m : forall w, expand nk (n + m) w = expand nk m (expand nk n w).
Proof. induction n as [|n IH]; intros w; [done|]. apply IH. Qed.

Lemma expand_length nk n : forall w, length (expand nk n w) = (n + length w)%nat.
Proof. induction n as [|n IH]; intros w; [done|]. cbn [expand]. rewrite IH, length_app. cbn. lia. Qed.

(** The last [k] words of a list. *)
Lemma last_words k (w : list (list Z)) i : length w = (i + k)%nat ->
  exists pre win, w = pre ++ win /\ length pre = i /\ length win = k.
Proof.
  intros H. exists (take i w), (drop i w). rewrite take_drop, length_take, length_drop. split; [done|]. lia.
Qed.

Lemma Forall_word4_inv x l : Forall word4 (x :: l) -> word4 x /\ Forall word4 l.
Proof. apply Forall_cons_1. Qed.

Ltac word4_inv :=
  repeat match goal with H : Forall word4 (_ :: _) |- _ => apply Forall_word4_inv in H as [? H] end.

(** The word the first step of a turn adds. *)
Lemma first_word nk k y : (0 < nk)%nat -> (k < 10)%nat -> word4 y ->
  ks_temp nk (nk * S k) y = xor_bytes (map sbox (rot_word y)) (rcon (S k)) /\
  word4 (ks_temp nk (nk * S k) y) /\
  RCON (Z.of_nat k) = Ok (be (rcon (S k))) /\
  Z.lxor (rot_sub (be y)) (be (rcon (S k))) = be (ks_temp nk (nk * S k) y).
Proof.
  intros Hn Hk Hy. destruct (rot_sub_be y Hy) as [R Wr]. destruct (RCON_spec k Hk) as [C Wc].
  rewrite ks_temp_first by done. rewrite C, R, be_xor by done. repeat split; try done; apply xor_word4; done.
Qed.

Ltac all_word4 :=
  repeat first [apply List.Forall_nil
               | apply List.Forall_cons; [first [assumption | repeat apply xor_word4; assumption]|]].

Lemma ks128_turn_spec k kw : (k < 10)%nat -> length kw = (4 * k + 4)%nat -> Forall word4 kw ->
  ks128_turn (Z.of_nat k) (map be kw) = Ok (map be (expand 4 4 kw)) /\ Forall word4 (expand 4 4 kw).
Proof.
  intros Hk Hl Hw. destruct (last_words 4 kw (4 * k) Hl) as (pre & win & -> & Hp & Hv).
  do 4 (destruct win as [|? win]; [discriminate Hv|]). destruct win; [|discriminate Hv].
  apply Forall_app in Hw as [Hpre Hw]. word4_inv. rename l into x0, l0 into x1, l1 into x2, l2 into x3.
  destruct (first_word 4 k x3) as (_ & Wt & HR & Ht); [lia | done | done |].
  rewrite expand_four; [|done|left; done|intros j t Hj; replace (length pre + 4 + j)%nat with (4 * S k + j)%nat by lia; apply ks_temp_plain; lia].
  replace (length pre + 4)%nat with (4 * S k)%nat by lia. cbn [List.last].
  destruct (ks_four_spec pre x0 x1 x2 x3 [] (ks_temp 4 (4 * S k) x3) (4 * Z.of_nat k)) as [E F]; try done; [unfold zlen; lia|].
  split; [|apply Forall_app; split; [apply Forall_app; split; [done | all_word4] | done]].
  unfold ks128_turn. pose proof (rd_be pre [x0; x1; x2] x3 []) as R. cbn [app] in R.
  replace (zlen pre + zlen [x0; x1; x2]) with (4 * Z.of_nat k + 3) in R by (unfold zlen; cbn; lia).
  rewrite R, HR. cbn [bind]. rewrite Ht. exact E.
Qed.

(** The last two words of a turn for 192 bits. *)
Lemma ks192_two pre x0 x1 x2 x3 x4 x5 y0 y1 y2 y3 k : length pre = (k * 6)%nat ->
  let w := pre ++ [x0; x1; x2; x3; x4; x5; y0; y1; y2; y3] in
  rd (map be w) (6 * Z.of_nat k + 4) = Ok (be x4) /\ rd (map be w) (6 * Z.of_nat k + 9) = Ok (be y3) /\
  rd (map be w) (6 * Z.of_nat k + 5) = Ok (be x5) /\
  expand 6 2 w = w ++ [xor_bytes x4 y3; xor_bytes x5 (xor_bytes x4 y3)].
Proof.
  intros Hp w. pose proof (rd_be pre [x0; x1; x2; x3] x4 [x5; y0; y1; y2; y3]) as R4.
  pose proof (rd_be pre [x0; x1; x2; x3; x4] x5 [y0; y1; y2; y3]) as R5.
  pose proof (rd_be pre [x0; x1; x2; x3; x4; x5; y0; y1; y2] y3 []) as R9. cbn [app] in R4, R5, R9.
  replace (zlen pre + zlen [x0; x1; x2; x3]) with (6 * Z.of_nat k + 4) in R4 by (unfold zlen; cbn; lia).
  replace (zlen pre + zlen [x0; x1; x2; x3; x4]) with (6 * Z.of_nat k + 5) in R5 by (unfold zlen; cbn; lia).
  replace (zlen pre + zlen [x0; x1; x2; x3; x4; x5; y0; y1; y2]) with (6 * Z.of_nat k + 9) in R9 by (unfold zlen; cbn; lia).
  split; [exact R4|]. split; [exact R9|]. split; [exact R5|]. subst w.
  change (pre ++ [x0; x1; x2; x3; x4; x5; y0; y1; y2; y3]) with (pre ++ [x0; x1; x2; x3] ++ [x4; x5; y0; y1; y2; y3]).
  rewrite app_assoc. rewrite expand_win by (cbn; lia). cbn [app List.last]. rewrite expand_win by (cbn; lia). cbn [app List.last expand].
  rewrite !length_app. cbn [length]. replace (length pre + 4 + 6)%nat with (6 * S k + 4)%nat by lia.
  replace (length pre + 4 + 1 + 6)%nat with (6 * S k + 5)%nat by lia. rewrite !ks_temp_plain by lia.
  rewrite <- !app_assoc. reflexivity.
Qed.

Lemma ks192_turn_spec k kw : (k < 8)%nat -> length kw = (6 * k + 6)%nat -> Forall word4 kw ->
  let n := if (k =? 7)%nat then 4%nat else 6%nat in
  ks192_turn (Z.of_nat k) (map be kw) = Ok (map be (expand 6 n kw)) /\ Forall word4 (expand 6 n kw).
Proof.
  intros Hk Hl Hw n. destruct (last_words 6 kw (6 * k) Hl) as (pre & win & -> & Hp & Hv).
  do 6 (destruct win as [|? win]; [discriminate Hv|]). destruct win; [|discriminate Hv].
  apply Forall_app in Hw as [Hpre Hw]. word4_inv.
  rename l into x0, l0 into x1, l1 into x2, l2 into x3, l3 into x4, l4 into x5.
  destruct (first_word 6 k x5) as (_ & Wt & HR & Ht); [lia | lia | done |].
  assert (E4 := expand_four 6 pre x0 x1 x2 x3 [x4; x5] eq_refl ltac:(cbn; lia)).
  rewrite (Nat.mul_comm 6 k) in Hp. replace (length pre + 6)%nat with (6 * S k)%nat in E4 by lia.
  specialize (E4 ltac:(intros j t Hj; apply ks_temp_plain; lia)). cbn [List.last] in E4.
  destruct (ks_four_spec pre x0 x1 x2 x3 [x4; x5] (ks_temp 6 (6 * S k) x5) (6 * Z.of_nat k)) as [E F]; try done; [unfold zlen; lia|].
  assert (W10 : Forall word4 (expand 6 4 (pre ++ [x0; x1; x2; x3; x4; x5]))).
  { rewrite E4. apply Forall_app; split; [apply Forall_app; split; [done | all_word4] | done]. }
  unfold ks192_turn. pose proof (rd_be pre [x0; x1; x2; x3; x4] x5 []) as R. cbn [app] in R.
  replace (zlen pre + zlen [x0; x1; x2; x3; x4]) with (6 * Z.of_nat k + 5) in R by (unfold zlen; cbn; lia).
  rewrite R, HR. cbn [bind]. rewrite Ht, E. cbn [bind]. rewrite <- E4. subst n.
  destruct (Nat.eqb_spec k 7) as [->|Hne]; [split; done|]. rewrite (proj2 (Z.eqb_neq (Z.of_nat k) 7)) by lia.
  rewrite (expand_add 6 4 2). unfold sums in E4, F. cbv zeta in E4, F.
  set (y3 := xor_bytes x3 _) in E4, F. set (y2 := xor_bytes x2 _) in E4, F. set (y1 := xor_bytes x1 _) in E4, F. set (y0 := xor_bytes x0 _) in E4, F.
  word4_inv. rewrite E4, <- app_assoc. cbn [app].
  destruct (ks192_two pre x0 x1 x2 x3 x4 x5 y0 y1 y2 y3 k Hp) as (R4 & R9 & R5 & E6). rewrite R4, R9, R5. cbn [bind]. rewrite E6.
  rewrite <- !be_xor by (try apply xor_word4; done). rewrite (map_app be _ [_; _]). split; [reflexivity|].
  rewrite <- app_assoc. apply Forall_app; split; [done|]. cbn [app]. all_word4.
Qed.

Lemma ks256_turn_spec k kw : (k < 7)%nat -> length kw = (8 * k + 8)%nat -> Forall word4 kw ->
  let n := if (k =? 6)%nat then 4%nat else 8%nat in
  ks256_turn (Z.of_nat k) (map be kw) = Ok (map be (expand 8 n kw)) /\ Forall word4 (expand 8 n kw).
Proof.
  intros Hk Hl Hw n. destruct (last_words 8 kw (8 * k) Hl) as (pre & win & -> & Hp & Hv).
  do 8 (destruct win as [|? win]; [discriminate Hv|]). destruct win; [|discriminate Hv].
  apply Forall_app in Hw as [Hpre Hw]. word4_inv.
  rename l into x0, l0 into x1, l1 into x2, l2 into x3, l3 into x4, l4 into x5, l5 into x6, l6 into x7.
  destruct (first_word 8 k x7) as (_ & Wt & HR & Ht); [lia | lia | done |].
  assert (E4 := expand_four 8 pre x0 x1 x2 x3 [x4; x5; x6; x7] eq_refl ltac:(cbn; lia)).
  rewrite (Nat.mul_comm 8 k) in Hp. replace (length pre + 8)%nat with (8 * S k)%nat in E4 by lia.
  specialize (E4 ltac:(intros j t Hj; apply ks_temp_plain; lia)). cbn [List.last] in E4.
  destruct (ks_four_spec pre x0 x1 x2 x3 [x4; x5; x6; x7] (ks_temp 8 (8 * S k) x7) (8 * Z.of_nat k)) as [E F]; try done; [unfold zlen; lia|].
  unfold ks256_turn. pose proof (rd_be pre [x0; x1; x2; x3; x4; x5; x6] x7 []) as R. cbn [app] in R.
  replace (zlen pre + zlen [x0; x1; x2; x3; x4; x5; x6]) with (8 * Z.of_nat k + 7) in R by (unfold zlen; cbn; lia).
  rewrite R, HR. cbn [bind]. rewrite Ht, E. cbn [bind]. rewrite <- E4. subst n.
  assert (W12 : Forall word4 (expand 8 4 (pre ++ [x0; x1; x2; x3; x4; x5; x6; x7]))).
  { rewrite E4. apply Forall_app; split; [apply Forall_app; split; [done | all_word4] | done]. }
  destruct (Nat.eqb_spec k 6) as [->|Hne]; [split; done|]. rewrite (proj2 (Z.eqb_neq (Z.of_nat k) 6)) by lia.
  rewrite (expand_add 8 4 4). unfold sums in E4, F. cbv zeta in E4, F.
  set (y3 := xor_bytes x3 _) in E4, F. set (y2 := xor_bytes x2 _) in E4, F. set (y1 := xor_bytes x1 _) in E4, F. set (y0 := xor_bytes x0 _) in E4, F.
  word4_inv. rewrite E4, <- app_assoc. cbn [app].
  destruct (sub_be y3 ltac:(done)) as [S3 W3].
  pose proof (rd_be pre [x0; x1; x2; x3; x4; x5; x6; x7; y0; y1; y2] y3 []) as R11. cbn [app] in R11.
  replace (zlen pre + zlen [x0; x1; x2; x3; x4; x5; x6; x7; y0; y1; y2]) with (8 * Z.of_nat k + 11) in R11 by (unfold zlen; cbn; lia).
  rewrite R11. cbn [bind]. rewrite S3.
  change (pre ++ [x0; x1; x2; x3; x4; x5; x6; x7; y0; y1; y2; y3]) with (pre ++ [x0; x1; x2; x3] ++ [x4; x5; x6; x7; y0; y1; y2; y3]).
  rewrite app_assoc. assert (L : length (pre ++ [x0; x1; x2; x3]) = (k * 8 + 4)%nat) by (rewrite length_app; cbn; lia).
  rewrite (expand_four 8 (pre ++ [x0; x1; x2; x3]) x4 x5 x6 x7 [y0; y1; y2; y3]).
  2: done. 2: (cbn; lia).
  2:{ intros j t Hj. rewrite L. replace (k * 8 + 4 + 8 + j)%nat with (8 * S k + (4 + j))%nat by lia. apply ks_temp_plain; lia. }
  rewrite L. replace (k * 8 + 4 + 8)%nat with (8 * S k + 4)%nat by lia. rewrite ks_temp_mid. cbn [List.last].
  destruct (ks_four_spec (pre ++ [x0; x1; x2; x3]) x4 x5 x6 x7 [y0; y1; y2; y3] (map sbox y3) (8 * Z.of_nat k + 4)) as [E' F'];
    try done; [unfold zlen; lia|].
  rewrite E'. split; [done|]. apply Forall_app; split; [|done]. rewrite <- app_assoc. apply Forall_app; split; [done|]. cbn [app]. all_word4.
Qed.

Lemma for_keys nk turn (step : nat -> nat) n w : (1 <= n)%nat -> length w = nk -> Forall word4 w ->
  (forall k kw, (k < n)%nat -> length kw = (nk * k + nk)%nat -> Forall word4 kw ->
     turn (Z.of_nat k) (map be kw) = Ok (map be (expand nk (step k) kw)) /\ Forall word4 (expand nk (step k) kw)) ->
  (forall k, (S k < n)%nat -> step k = nk) ->
  for_up turn n 0 (map be w) = Ok (map be (expand nk (nk * (n - 1) + step (n - 1)%nat) w)) /\
  Forall word4 (expand nk (nk * (n - 1) + step (n - 1)%nat) w).
Proof.
  intros Hn Hl Hw Ht Hs.
  set (tot := fun k => if (k =? n)%nat then (nk * (n - 1) + step (n - 1)%nat)%nat else (nk * k)%nat).
  destruct (for_up_spec turn (fun j rk => exists kw, rk = map be kw /\ Forall word4 kw /\ kw = expand nk (tot (Z.to_nat j)) w) n 0 (map be w))
    as (rk & E & kw & -> & HF & Ekw).
  - intros j rk Hj (kw & -> & HF & Ekw). set (k := Z.to_nat j) in *. assert (Hk : (k < n)%nat) by lia.
    assert (Htot : tot k = (nk * k)%nat) by (unfold tot; destruct (Nat.eqb_spec k n); [lia | done]).
    assert (Hlk : length kw = (nk * k + nk)%nat) by (rewrite Ekw, expand_length, Htot; lia).
    destruct (Ht k kw Hk Hlk HF) as [Et HF']. exists (map be (expand nk (step k) kw)).
    replace j with (Z.of_nat k) by lia. split; [exact Et|]. exists (expand nk (step k) kw). split; [done|]. split; [done|].
    rewrite Ekw, <- expand_add, Htot. f_equal. replace (Z.to_nat (Z.of_nat k + 1)) with (S k) by lia. unfold tot.
    destruct (Nat.eqb_spec (S k) n) as [<-|Hne]; [replace (S k - 1)%nat with k by lia; done|].
    rewrite (Hs k) by lia. lia.
  - exists w. split; [done|]. split; [done|]. unfold tot. change (Z.to_nat 0) with 0%nat.
    destruct (Nat.eqb_spec 0 n); [lia|]. rewrite Nat.mul_0_r. done.
  - replace (tot (Z.to_nat (0 + Z.of_nat n))) with (nk * (n - 1) + step (n - 1)%nat)%nat in Ekw.
    2:{ unfold tot. replace (Z.to_nat (0 + Z.of_nat n)) with n by lia. rewrite Nat.eqb_refl. done. }
    rewrite <- Ekw. split; [exact E | done].
Qed.

Lemma chunk_word4 key j : bytes key -> (4 * j + 4 <= length key)%nat -> word4 (take 4 (drop (4 * j) key)).
Proof. intros Hb Hl. split; [apply Forall_take, Forall_drop; done | rewrite length_take, length_drop; lia]. Qed.

Lemma GETU32_chunk key j : bytes key -> (4 * j + 4 <= length key)%nat ->
  GETU32 key (4 * Z.of_nat j) = Ok (be (take 4 (drop (4 * j) key))).
Proof.
  intros Hb Hl. rewrite <- (take_drop (4 * j) key) at 1. pose proof (chunk_word4 key j Hb Hl) as Hw.
  rewrite <- (take_drop 4 (drop (4 * j) key)) at 1. revert Hw. generalize (take 4 (drop (4 * j) key)). intros c Hc.
  replace (4 * Z.of_nat j) with (zlen (take (4 * j) key)) by (unfold zlen; rewrite length_take; lia).
  revert c Hc. apply word4_ind. intros. apply GETU32_W; done.
Qed.

Lemma chunks_word4 n : forall key, bytes key -> (4 * n <= length key)%nat -> Forall word4 (chunks 4 n key).
Proof.
  induction n as [|n IH]; intros key Hb Hl; [apply List.Forall_nil|]. cbn [chunks].
  apply List.Forall_cons; [apply (chunk_word4 key 0); [done | lia]|].
  apply IH; [apply Forall_drop; done | rewrite length_drop; lia].
Qed.

Lemma chunks_length k n : forall l, length (chunks k n l) = n.
Proof. induction n as [|n IH]; intros l; cbn [chunks length]; [done | rewrite IH; done]. Qed.

Lemma key_setup key : aes_key key ->
  rijndaelKeySetupEnc key (zlen key * 8) = Ok (map be (key_words key), zlen key / 4 + 6) /\
  Forall word4 (key_words key) /\ length (key_words key) = (4 * (length key / 4 + 7))%nat.
Proof.
  intros [Hb Hl].
  assert (L : length (key_words key) = (4 * (length key / 4 + 7))%nat).
  { unfold key_words. rewrite expand_length, chunks_length. lia. }
  rewrite L. unfold key_words, rijndaelKeySetupEnc.
  assert (G : forall j i, (4 * j + 4 <= length key)%nat -> i = 4 * Z.of_nat j -> GETU32 key i = Ok (be (take 4 (drop (4 * j) key))))
    by (intros j i Hj ->; apply GETU32_chunk; done).
  rewrite (G 0%nat 0 ltac:(lia) eq_refl : GETU32 key 0 = Ok (be (take 4 key))),
    (G 1%nat 4 ltac:(lia) eq_refl : GETU32 key 4 = Ok (be (take 4 (drop 4 key)))),
    (G 2%nat 8 ltac:(lia) eq_refl : GETU32 key 8 = Ok (be (take 4 (drop 8 key)))),
    (G 3%nat 12 ltac:(lia) eq_refl : GETU32 key 12 = Ok (be (take 4 (drop 12 key)))). cbn [bind].
  pose proof (chunks_word4 (length key / 4) key Hb) as Hc. unfold zlen.
  destruct Hl as [H|[H|H]]; rewrite H in *.
  - change (Z.of_nat 16 * 8) with 128. cbn [Z.eqb Pos.eqb].
    destruct (for_keys 4 ks128_turn (fun _ => 4%nat) 10 (chunks 4 4 key)) as [E F];
      [lia | apply chunks_length | apply Hc; cbn; lia | intros k kw Hk Hkl HF; apply ks128_turn_spec; assumption | intros; reflexivity |].
    assert (Q : map be (chunks 4 4 key) = [be (take 4 key); be (take 4 (drop 4 key)); be (take 4 (drop 8 key)); be (take 4 (drop 12 key))])
      by (cbn [chunks map]; rewrite !drop_drop; reflexivity).
    rewrite Q in E. split; [|split; [exact F | reflexivity]].
    rewrite E. reflexivity.
  - change (Z.of_nat 24 * 8) with 192. cbn [Z.eqb Pos.eqb].
    rewrite (G 4%nat 16 ltac:(lia) eq_refl : GETU32 key 16 = Ok (be (take 4 (drop 16 key)))),
      (G 5%nat 20 ltac:(lia) eq_refl : GETU32 key 20 = Ok (be (take 4 (drop 20 key)))). cbn [bind app Z.eqb Pos.eqb].
    destruct (for_keys 6 ks192_turn (fun k => if (k =? 7)%nat then 4%nat else 6%nat) 8 (chunks 4 6 key)) as [E F];
      [lia | apply chunks_length | apply Hc; cbn; lia | intros k kw Hk Hkl HF; apply ks192_turn_spec; assumption | intros k Hk; destruct (Nat.eqb_spec k 7); [lia | reflexivity] |].
    assert (Q : map be (chunks 4 6 key) = [be (take 4 key); be (take 4 (drop 4 key)); be (take 4 (drop 8 key)); be (take 4 (drop 12 key)); be (take 4 (drop 16 key)); be (take 4 (drop 20 key))])
      by (cbn [chunks map]; rewrite !drop_drop; reflexivity).
    rewrite Q in E. split; [|split; [exact F | reflexivity]].
    rewrite E. reflexivity.
  - change (Z.of_nat 32 * 8) with 256. cbn [Z.eqb Pos.eqb].
    rewrite (G 4%nat 16 ltac:(lia) eq_refl : GETU32 key 16 = Ok (be (take 4 (drop 16 key)))),
      (G 5%nat 20 ltac:(lia) eq_refl : GETU32 key 20 = Ok (be (take 4 (drop 20 key)))). cbn [bind app Z.eqb Pos.eqb].
    rewrite (G 6%nat 24 ltac:(lia) eq_refl : GETU32 key 24 = Ok (be (take 4 (drop 24 key)))),
      (G 7%nat 28 ltac:(lia) eq_refl : GETU32 key 28 = Ok (be (take 4 (drop 28 key)))). cbn [bind app Z.eqb Pos.eqb].
    destruct (for_keys 8 ks256_turn (fun k => if (k =? 6)%nat then 4%nat else 8%nat) 7 (chunks 4 8 key)) as [E F];
      [lia | apply chunks_length | apply Hc; cbn; lia | intros k kw Hk Hkl HF; apply ks256_turn_spec; assumption | intros k Hk; destruct (Nat.eqb_spec k 6); [lia | reflexivity] |].
    assert (Q : map be (chunks 4 8 key) = [be (take 4 key); be (take 4 (drop 4 key)); be (take 4 (drop 8 key)); be (take 4 (drop 12 key)); be (take 4 (drop 16 key)); be (take 4 (drop 20 key)); be (take 4 (drop 24 key)); be (take 4 (drop 28 key))])
      by (cbn [chunks map]; rewrite !drop_drop; reflexivity).
    rewrite Q in E. split; [|split; [exact F | reflexivity]].
    rewrite E. reflexivity.
Qed.

(** The round keys of the specification are where the cipher looks for them. *)
Lemma keys_at_chunks n : forall pre kw rest, length kw = (4 * n)%nat -> Forall word4 kw ->
  keys_at (map be (pre ++ kw ++ rest)) (zlen pre) (chunks 16 n (concat kw)).
Proof.
  induction n as [|n IH]; intros pre kw rest Hl Hw; [done|].
  destruct kw as [|w0 [|w1 [|w2 [|w3 kw]]]]; try (cbn in Hl; lia). word4_inv.
  assert (L : forall w, word4 w -> length w = 4%nat) by (intros w []; done).
  cbn [chunks concat keys_at].
  replace (w0 ++ w1 ++ w2 ++ w3 ++ concat kw) with ((w0 ++ w1 ++ w2 ++ w3) ++ concat kw) by (rewrite <- !app_assoc; done).
  rewrite take_app_length', drop_app_length' by (rewrite !length_app, !L by done; done).
  split; [|split].
  - unfold rk4. pose proof (rd_be pre [] w0 (w1 :: w2 :: w3 :: kw ++ rest)) as R0. rewrite Z.add_0_r in R0.
    pose proof (rd_be pre [w0] w1 (w2 :: w3 :: kw ++ rest)) as R1. pose proof (rd_be pre [w0; w1] w2 (w3 :: kw ++ rest)) as R2.
    pose proof (rd_be pre [w0; w1; w2] w3 (kw ++ rest)) as R3. cbn [app] in R0, R1, R2, R3 |- *.
    change (zlen [w0]) with 1 in R1. change (zlen [w0; w1]) with 2 in R2. change (zlen [w0; w1; w2]) with 3 in R3.
    rewrite R0, R1, R2, R3. cbn [bind]. clear - H H0 H1 H2. word4_cases. reflexivity.
  - split; [|rewrite !length_app, !L by done; done]. unfold bytes. rewrite !Forall_app.
    repeat split; match goal with H : word4 ?w |- Forall _ ?w => destruct H; done end.
  - replace (zlen pre + 4) with (zlen (pre ++ [w0; w1; w2; w3])) by (rewrite zlen_app; done).
    change ((w0 :: w1 :: w2 :: w3 :: kw) ++ rest) with ([w0; w1; w2; w3] ++ kw ++ rest).
    rewrite app_assoc. apply IH; [cbn in Hl; lia | done].
Qed.

Lemma keys_blk ks : forall rk p, keys_at rk p ks -> Forall blk ks.
Proof. induction ks as [|k ks IH]; intros rk p H; [apply List.Forall_nil|]. destruct H as (_ & B & H). apply List.Forall_cons; eauto. Qed.

Lemma cipher_rounds_blk ks : forall s, Forall blk ks -> blk s -> blk (cipher_rounds ks s).
Proof.
  induction ks as [|k ks IH]; intros s Hk Hs; [done|]. apply Forall_cons_1 in Hk as [Bk Hk]. cbn [cipher_rounds].
  pose proof (shift_sub_blk s Hs) as Ss. destruct ks as [|k2 ks]; [apply xor_blk; done|].
  apply IH; [done|]. apply xor_blk; [apply mix_blk|]; done.
Qed.

(** ** Theorems *)

Lemma aes_round_keys key : aes_key key ->
  exists k0 ks, round_keys key = k0 :: ks /\ length ks = (length key / 4 + 6)%nat /\
    keys_at (map be (key_words key)) 0 (k0 :: ks) /\ blk k0 /\ Forall blk ks.
Proof.
  intros Hk. destruct (key_setup key Hk) as (_ & HF & HL).
  pose proof (keys_at_chunks (length key / 4 + 7) [] (key_words key) [] HL HF) as K.
  rewrite app_nil_r in K. change (zlen []) with 0 in K. cbn [app] in K. fold (round_keys key) in K.
  pose proof (chunks_length 16 (length key / 4 + 7) (concat (key_words key))) as HR. fold (round_keys key) in HR.
  destruct (round_keys key) as [|k0 ks]; [cbn [length] in HR; lia|]. exists k0, ks. split; [done|]. split; [cbn [length] in HR; lia|].
  split; [exact K|]. apply keys_blk in K. apply Forall_cons_1 in K. done.
Qed.

(** With a key of 16, 24 or 32 bytes [aes_encrypt_init] gives a context, and [aes_encrypt] is the cipher. *)
Lemma aes_encrypt_spec key : aes_key key ->
  exists ctx, aes_encrypt_init true key (zlen key) = Ok (Some ctx) /\
    forall s, blk s -> aes_encrypt ctx s = Ok (aes_cipher key s) /\ blk (aes_cipher key s).
Proof.
  intros Hk. destruct (key_setup key Hk) as (E & _ & _). destruct (aes_round_keys key Hk) as (k0 & ks & ER & Hl & K & B0 & Bs).
  exists (mkAes (map be (key_words key)) (zlen key / 4 + 6)). unfold aes_encrypt_init. rewrite E. cbn [negb bind].
  assert (Hd : (length key / 4 = 4 \/ length key / 4 = 6 \/ length key / 4 = 8)%nat)
    by (destruct Hk as [_ [H|[H|H]]]; rewrite H; cbn; auto).
  assert (Hz : zlen key / 4 = Z.of_nat (length key / 4)) by (unfold zlen; rewrite Nat2Z.inj_div; done). rewrite Hz.
  rewrite (proj2 (Z.ltb_ge _ _)) by lia. split; [reflexivity|]. intros s Hs. unfold aes_encrypt, aes_cipher. rewrite ER.
  cbn [aes_rk aes_nr]. set (r := ((length key / 4 + 6) / 2)%nat).
  assert (Hr : (length key / 4 + 6 = 2 * r)%nat) by (subst r; destruct Hd as [-> | [-> | ->]]; reflexivity).
  replace (Z.of_nat (length key / 4) + 6) with (2 * Z.of_nat r) by lia.
  rewrite (rijndaelEncrypt_spec _ r k0 ks s) by (done || lia).
  split; [reflexivity|]. apply cipher_rounds_blk; [done|]. apply xor_blk; done.
Qed.

(** C28: The table-driven AES is the AES of FIPS 197: for every key of 128, 192 or 256 bits the key schedule and the
    rounds over the words of one table of 256 entries, rotated and masked, compute the cipher defined by inversion in
    the field of 256 elements, ShiftRows, MixColumns and AddRoundKey; nothing is read before it is written. *)
Theorem aes_is_fips197 key block : aes_key key -> length block = 16%nat -> bytes block ->
  exists ctx, aes_encrypt_init true key (zlen key) = Ok (Some ctx) /\ aes_encrypt ctx block = Ok (aes_cipher key block).
Proof.
  intros Hk Hl Hb. destruct (aes_encrypt_spec key Hk) as (ctx & E & H). exists ctx. split; [exact E|]. apply H. split; done.
Qed.

(** ** Witnesses *)

(** The example of FIPS 197, appendix C.1. *)
Definition ex_aes_block : list Z := map (fun i => 17 * Z.of_nat i) (seq 0 16).
Definition ex_aes_key (n : nat) : list Z := map Z.of_nat (seq 0 n).

Lemma aes_is_fips197_witness :
  (exists ctx, aes_encrypt_init true (ex_aes_key 16) 16 = Ok (Some ctx) /\
     aes_encrypt ctx ex_aes_block = Ok (aes_cipher (ex_aes_key 16) ex_aes_block)) /\
  aes_cipher (ex_aes_key 16) ex_aes_block =
    [0x69; 0xc4; 0xe0; 0xd8; 0x6a; 0x7b; 0x04; 0x30; 0xd8; 0xcd; 0xb7; 0x80; 0x70; 0xb4; 0xc5; 0x5a].
Proof.
  split; [|vm_compute; reflexivity]. apply (aes_is_fips197 (ex_aes_key 16) ex_aes_block).
  - split; [apply bytes_by_compute; vm_compute; reflexivity | left; reflexivity].
  - reflexivity.
  - apply bytes_by_compute. vm_compute. reflexivity.
Defined.
