(* ===== verification/Modes.v ===== *)
(** * What the modes of operation share

    The interface of the block cipher (class [CipherOk]), blocks of sixteen bytes, the constant-time comparison of
    [core/crypto/rtw_crypto_wrap.c] and the chaining and counter modes as functions on lists. *)
From Stdlib Require Import ZArith Lia Bool.
From stdpp Require Import base option list numbers.
From S2P Require Import Prelude Arc4 Aes.
Local Open Scope Z_scope.

Definition AES_BLOCK_SIZE := 16.

(** A context that [aes_encrypt] runs as the function [E] on blocks. *)
Class CipherOk (ctx : aes_ctx) (E : list Z -> list Z) : Prop := {
  cipher_run s : blk s -> aes_encrypt ctx s = Ok (E s);
  cipher_blk s : blk s -> blk (E s) }.

Lemma aes_context key : aes_key key ->
  exists ctx, aes_encrypt_init true key (zlen key) = Ok (Some ctx) /\ CipherOk ctx (aes_cipher key).
Proof. intros H. destruct (aes_encrypt_spec key H) as (ctx & E & Hs). exists ctx. split; [exact E|]. split; apply Hs. Qed.

(** A key in a longer buffer. *)
Lemma aes_init_front key rest : aes_key key ->
  aes_encrypt_init true (key ++ rest) (zlen key) = aes_encrypt_init true key (zlen key).
Proof.
  intros [_ Hl]. assert (G : forall i, 0 <= i -> i + 4 <= zlen key -> GETU32 (key ++ rest) i = GETU32 key i).
  { intros i Hi H. unfold GETU32. rewrite !rd_app_l by lia. done. }
  unfold aes_encrypt_init, rijndaelKeySetupEnc. cbn [negb]. unfold zlen in *.
  rewrite (G 0), (G 4), (G 8), (G 12) by lia. destruct Hl as [Hl|[Hl|Hl]]; rewrite Hl in *.
  - change (Z.of_nat 16 * 8 =? 128) with true. cbn match. done.
  - change (Z.of_nat 24 * 8 =? 128) with false. change (Z.of_nat 24 * 8 =? 192) with true. cbn match. rewrite (G 16), (G 20) by lia. done.
  - change (Z.of_nat 32 * 8 =? 128) with false. cbn match. rewrite (G 16), (G 20), (G 24), (G 28) by lia. done.
Qed.

(** ** The code *)

(* src: include/osdep_service.h:743-747 RTW_PUT_BE16 *)
Definition PUT_BE16 (v : Z) : list Z := [Z.shiftr (u16 v) 8; u16 v & 0xff].

(** [xor_aes_block], [xor_block]: sixteen bytes at [d] of [dst]. *)
(* src: core/crypto/aes-ccm.c:16-24 xor_aes_block *)
Definition xor_aes_block (dst : list Z) (d : Z) (src : list Z) (s : Z) : res (list Z) :=
  x <- rdn dst d 16 ;; y <- rdn src s 16 ;; wrn dst d (xor_bytes x y).

(* src: core/crypto/rtw_crypto_wrap.c:12-23 os_memcmp_const *)
Fixpoint os_memcmp_const (acc : Z) (a b : list Z) (len : nat) {struct len} : res Z :=
  match len with
  | O => Ok acc
  | S len =>
      match a, b with
      | x :: a, y :: b => os_memcmp_const (acc .| Z.lxor x y) a b len
      | _, _ => Fault OobRead
      end
  end.

(** ** Specification *)

(** Filled up with zeros to a multiple of sixteen bytes. *)
Definition pad16 (l : list Z) : list Z := l ++ zeros ((16 - length l mod 16) mod 16).

Definition blocks (l : list Z) : list (list Z) := chunks 16 (length l / 16) l.

Definition cbc (E : list Z -> list Z) (x : list Z) (bs : list (list Z)) : list Z :=
  fold_left (fun x b => E (xor_bytes x b)) bs x.

(** [n] blocks of key stream: counters [i], [i + 1], ... behind the fourteen bytes [a]. *)
Fixpoint stream (E : list Z -> list Z) (a : list Z) (i : Z) (n : nat) : list Z :=
  match n with O => [] | S n => E (a ++ PUT_BE16 i) ++ stream E a (i + 1) n end.

(** ** Lemmas *)

Lemma aes_encrypt_length ctx pt c : aes_encrypt ctx pt = Ok c -> length c = 16%nat.
Proof.
  unfold aes_encrypt, rijndaelEncrypt. destruct (GETU32 pt 0); cbn [bind]; [|discriminate].
  destruct (GETU32 pt 4); cbn [bind]; [|discriminate]. destruct (GETU32 pt 8); cbn [bind]; [|discriminate].
  destruct (GETU32 pt 12); cbn [bind]; [|discriminate]. destruct (rk4 _ 0) as [[[[]]]|]; cbn [bind]; [|discriminate].
  destruct (loop _ _ _) as [[? [[[]]]]|]; cbn [bind]; [|discriminate].
  destruct (rk4 _ _) as [[[[]]]|]; cbn [bind]; [|discriminate]. intros H. injection H as <-. reflexivity.
Qed.

Lemma PUT_BE16_bytes v : bytes (PUT_BE16 v).
Proof.
  unfold PUT_BE16, bytes. pose proof (u16_range v). repeat apply List.Forall_cons; [| apply land_byte_r; unfold is_byte; lia | apply List.Forall_nil].
  unfold is_byte. rewrite Z.shiftr_div_pow2 by lia. change (2 ^ 8) with 256. split; [apply Z.div_pos; lia|].
  apply Z.div_lt_upper_bound; lia.
Qed.

Lemma memcmp_const_spec n : forall a b acc, (n <= length a)%nat -> (n <= length b)%nat -> 0 <= acc ->
  Forall (fun x => 0 <= x) a -> Forall (fun x => 0 <= x) b ->
  exists r, os_memcmp_const acc a b n = Ok r /\ 0 <= r /\ (r = 0 <-> acc = 0 /\ take n a = take n b).
Proof.
  induction n as [|n IH]; intros a b acc Ha Hb Hacc Pa Pb; [exists acc; split; [done|]; split; [done|]; cbn [take]; intuition|].
  destruct a as [|x a]; [cbn in Ha; lia|]. destruct b as [|y b]; [cbn in Hb; lia|].
  apply Forall_cons_1 in Pa as [Px Pa]. apply Forall_cons_1 in Pb as [Py Pb]. cbn [os_memcmp_const].
  assert (Hx : 0 <= Z.lxor x y) by (apply Z.lxor_nonneg; lia).
  destruct (IH a b (acc .| Z.lxor x y)) as (r & -> & Hr & Hiff); try done; [cbn in Ha; lia | cbn in Hb; lia | apply Z.lor_nonneg; done |].
  exists r. split; [done|]. split; [done|]. rewrite Hiff, Z.lor_eq_0_iff, Z.lxor_eq_0_iff. cbn [take].
  split; [intros [[H1 H2] H3]; split; [done | rewrite H2, H3; done] | intros [H1 H2]; injection H2 as H2 H3; auto].
Qed.

Lemma blk_block s : bytes s -> length s = 16%nat -> blk s.
Proof. split; done. Qed.

Lemma blk_zlen s : blk s -> zlen s = 16.
Proof. intros [_ H]. unfold zlen. rewrite H. done. Qed.

Lemma blocks_cons b l : blk b -> blocks (b ++ l) = b :: blocks l.
Proof.
  intros [_ Hb]. unfold blocks. rewrite length_app, Hb. replace (16 + length l)%nat with (length l + 1 * 16)%nat by lia.
  rewrite Nat.div_add by lia. rewrite Nat.add_1_r. cbn [chunks].
  rewrite take_app_length', drop_app_length' by done. done.
Qed.

Lemma pad16_length l : exists k, length (pad16 l) = (16 * k)%nat /\ (length l <= 16 * k < length l + 16)%nat.
Proof.
  unfold pad16. rewrite length_app. unfold zeros. rewrite length_replicate.
  pose proof (Nat.div_mod_eq (length l) 16). pose proof (Nat.mod_upper_bound (length l) 16 ltac:(lia)).
  destruct (Nat.eq_dec (length l mod 16)%nat 0%nat) as [E|E].
  - exists (length l / 16)%nat. rewrite E. change ((16 - 0) mod 16)%nat with 0%nat. lia.
  - exists (length l / 16 + 1)%nat. rewrite (Nat.mod_small (16 - _)) by lia. lia.
Qed.

Lemma pad16_app b l : (length b mod 16 = 0)%nat -> pad16 (b ++ l) = b ++ pad16 l.
Proof.
  intros H. unfold pad16. rewrite <- app_assoc, length_app. f_equal. f_equal. f_equal. f_equal. f_equal.
  rewrite Nat.Div0.add_mod, H. cbn [Nat.add]. apply Nat.Div0.mod_mod.
Qed.

Lemma pad16_bytes l : bytes l -> bytes (pad16 l).
Proof. intros H. apply Forall_app. split; [done|]. apply Forall_replicate. unfold is_byte. lia. Qed.

Lemma pad16_nil : pad16 [] = [].
Proof. done. Qed.

(** A last block of fewer than sixteen bytes. *)
Lemma pad16_short (l : list Z) : (0 < length l < 16)%nat -> pad16 l = l ++ zeros (16 - length l) /\ length (pad16 l) = 16%nat.
Proof.
  intros H. assert (E : pad16 l = l ++ zeros (16 - length l)) by (unfold pad16; rewrite (Nat.mod_small (length l)) by lia; rewrite Nat.mod_small by lia; done).
  split; [done|]. rewrite E, length_app. unfold zeros. rewrite length_replicate. lia.
Qed.

Lemma pad16_full (l : list Z) : (length l mod 16 = 0)%nat -> pad16 l = l.
Proof. intros H. rewrite <- (app_nil_r l) at 1. rewrite pad16_app, pad16_nil, app_nil_r by done. done. Qed.

(** Whole blocks and what is left. *)
Lemma split_blocks (l : list Z) : exists w t, l = w ++ t /\ length w = (16 * (length l / 16))%nat /\ length t = (length l mod 16)%nat.
Proof.
  exists (take (16 * (length l / 16)) l), (drop (16 * (length l / 16)) l). rewrite take_drop, length_take, length_drop.
  pose proof (Nat.div_mod_eq (length l) 16). split; [done|]. lia.
Qed.

Lemma stream_app E a n m : forall i, stream E a i (n + m) = stream E a i n ++ stream E a (i + Z.of_nat n) m.
Proof.
  induction n as [|n IH]; intros i; [replace (i + Z.of_nat 0) with i by lia; done|].
  cbn [Nat.add stream]. rewrite IH, <- app_assoc. do 3 f_equal. lia.
Qed.

Lemma cbc_app E x a b : cbc E x (a ++ b) = cbc E (cbc E x a) b.
Proof. apply fold_left_app. Qed.

Section Cipher.
  Context (ctx : aes_ctx) (E : list Z -> list Z) `{HE : !CipherOk ctx E}.

Lemma cbc_blk bs : forall x, blk x -> Forall blk bs -> blk (cbc E x bs).
Proof.
  induction bs as [|b bs IH]; intros x Hx Hb; [done|]. apply Forall_cons_1 in Hb as [Hb Hbs].
  apply IH; [|done]. apply (cipher_blk (ctx:=ctx)), xor_blk; done.
Qed.

Lemma stream_length a n : forall i, bytes a -> length a = 14%nat -> bytes (stream E a i n) /\ length (stream E a i n) = (16 * n)%nat.
Proof.
  induction n as [|n IH]; intros i Ba La; [split; [apply List.Forall_nil | done]|]. cbn [stream].
  assert (B : blk (a ++ PUT_BE16 i)) by (split; [apply Forall_app; split; [done | apply PUT_BE16_bytes] | rewrite length_app, La; done]).
  destruct (cipher_blk (ctx:=ctx) _ B) as [B1 L1]. destruct (IH (i + 1) Ba La) as [B2 L2].
  split; [apply Forall_app; split; done | rewrite length_app, L1, L2; lia].
Qed.
End Cipher.

Lemma blocks_blk k : forall l, bytes l -> length l = (16 * k)%nat -> Forall blk (blocks l).
Proof.
  induction k as [|k IH]; intros l Hb Hl.
  { destruct l; [apply List.Forall_nil | discriminate]. }
  rewrite <- (take_drop 16 l). assert (B : blk (take 16 l)).
  { split; [apply Forall_take; done | rewrite length_take; lia]. }
  rewrite blocks_cons by done. apply List.Forall_cons; [done|]. apply IH; [apply Forall_drop; done | rewrite length_drop; lia].
Qed.

Lemma xor_aes_block_mid a s c a' b c' : length s = 16%nat -> length b = 16%nat ->
  xor_aes_block (a ++ s ++ c) (zlen a) (a' ++ b ++ c') (zlen a') = Ok (a ++ xor_bytes s b ++ c).
Proof.
  intros Hs Hb. unfold xor_aes_block.
  replace 16 with (zlen s) at 1 by (unfold zlen; rewrite Hs; done). rewrite rdn_app.
  replace 16 with (zlen b) by (unfold zlen; rewrite Hb; done). rewrite rdn_app. cbn [bind].
  apply wrn_app. unfold zlen. rewrite xor_bytes_length by congruence. done.
Qed.

(** The sixteen bytes at the front of a list of [16 * S k]. *)
Lemma first_block k (w : list Z) : bytes w -> length w = (16 * S k)%nat ->
  exists b w', w = b ++ w' /\ blk b /\ bytes w' /\ length w' = (16 * k)%nat.
Proof.
  intros Hb Hl. exists (take 16 w), (drop 16 w). rewrite take_drop. split; [done|].
  split; [split; [apply Forall_take; done | rewrite length_take; lia]|].
  split; [apply Forall_drop; done | rewrite length_drop; lia].
Qed.

Lemma xor_zeros_r q : xor_bytes q (zeros (length q)) = q.
Proof. induction q as [|x q IH]; [done|]. cbn. rewrite Z.lxor_0_r. f_equal. exact IH. Qed.

Lemma xor_bytes_comm x : forall y, xor_bytes x y = xor_bytes y x.
Proof.
  induction x as [|a x IH]; intros [|b y]; cbn; try reflexivity. rewrite Z.lxor_comm. f_equal. apply IH.
Qed.

Lemma xor_zeros_l q : xor_bytes (zeros (length q)) q = q.
Proof. induction q as [|x q IH]; [done|]. cbn. f_equal. exact IH. Qed.

Lemma xor_bytes_zeros h d n : length h = (length d + n)%nat ->
  xor_bytes h (d ++ zeros n) = xor_bytes (take (length d) h) d ++ drop (length d) h.
Proof.
  intros Hl. rewrite <- (take_drop (length d) h) at 1. rewrite xor_bytes_app by (rewrite length_take; lia). f_equal.
  replace n with (length (drop (length d) h)) by (rewrite length_drop; lia). apply xor_zeros_r.
Qed.

(** A read and a write within one block. *)
Lemma rdn_front (x : list Z) n : 0 <= n <= zlen x -> rdn x 0 n = Ok (take (Z.to_nat n) x).
Proof. intros H. rewrite rdn_in by lia. done. Qed.

Lemma wrn_front (x y : list Z) : (length y <= length x)%nat -> wrn x 0 y = Ok (y ++ drop (length y) x).
Proof. intros H. apply wrn_prefix. unfold zlen. lia. Qed.

(** A full block at offset [i] of a message in memory. *)
Lemma xor_block_at x mem pre w post p : mem = pre ++ w ++ post -> p = zlen pre -> blk x -> length w = 16%nat ->
  xor_aes_block x 0 mem p = Ok (xor_bytes x w).
Proof.
  intros -> -> [_ Hx] Hw. pose proof (xor_aes_block_mid [] x [] pre w post Hx Hw) as H.
  cbn [app] in H. rewrite !app_nil_r in H. exact H.
Qed.

Lemma blocks_app k : forall w l, bytes w -> length w = (16 * k)%nat -> blocks (w ++ l) = blocks w ++ blocks l.
Proof.
  induction k as [|k IH]; intros w l Hb Hl; [destruct w; [done | discriminate]|].
  destruct (first_block k w Hb Hl) as (b & w' & -> & Bb & Hb' & Hl'). rewrite <- app_assoc, (blocks_cons b (w' ++ l)), (blocks_cons b w') by done.
  cbn [app]. f_equal. apply IH; done.
Qed.

Lemma blocks_one b : blk b -> blocks b = [b].
Proof. intros H. rewrite <- (app_nil_r b) at 1. rewrite blocks_cons by done. done. Qed.

(** The last, partial block [t] of a message of [length l / 16] whole ones. *)
Lemma split_pad (l : list Z) : bytes l -> exists w t, l = w ++ t /\ bytes w /\ bytes t /\
  length w = (16 * (length l / 16))%nat /\ length t = (length l mod 16)%nat /\ (length t < 16)%nat /\
  pad16 l = w ++ pad16 t /\ (t <> [] -> blk (pad16 t) /\ pad16 t = t ++ zeros (16 - length t)).
Proof.
  intros Hb. destruct (split_blocks l) as (w & t & Hl & Hw & Ht). exists w, t. split; [done|].
  assert (Hbb : bytes w /\ bytes t) by (apply Forall_app; rewrite <- Hl; done). destruct Hbb as [Hbw Hbt].
  assert (Hlt : (length t < 16)%nat) by (rewrite Ht; apply Nat.mod_upper_bound; lia).
  split; [done|]. split; [done|]. split; [done|]. split; [done|]. split; [done|]. split.
  - rewrite Hl. apply pad16_app. rewrite Hw, Nat.mul_comm. apply Nat.Div0.mod_mul.
  - intros Hne. destruct (pad16_short t) as [Hp Lp]; [destruct t; [done | cbn [length] in *; lia]|].
    split; [split; [apply pad16_bytes|]; done | done].
Qed.

Lemma zlen_div16 (l : list Z) : zlen l / 16 = Z.of_nat (length l / 16) /\ zlen l mod 16 = Z.of_nat (length l mod 16).
Proof. unfold zlen. rewrite Nat2Z.inj_div, Nat2Z.inj_mod. done. Qed.

(** Padding does not change the front of the result. *)
Lemma xor_front l z s : (length l <= length s)%nat -> xor_bytes (l ++ z) s = xor_bytes l s ++ xor_bytes z (drop (length l) s).
Proof.
  revert s. induction l as [|x l IH]; intros s Hs; [rewrite drop_0; done|]. destruct s as [|y s]; [cbn in Hs; lia|].
  cbn. f_equal. apply IH. cbn in Hs. lia.
Qed.

Lemma xor_length_le l s : (length l <= length s)%nat -> length (xor_bytes l s) = length l.
Proof. intros H. unfold xor_bytes. rewrite length_zip_with. lia. Qed.

Lemma xor_bytes_cancel l : forall s, (length l <= length s)%nat -> xor_bytes (xor_bytes l s) s = l.
Proof.
  induction l as [|x l IH]; intros s Hs; [done|]. destruct s as [|y s]; [cbn in Hs; lia|]. cbn.
  rewrite Z.lxor_assoc, Z.lxor_nilpotent, Z.lxor_0_r. f_equal. apply IH. cbn in Hs. lia.
Qed.

(** Equal texts under the same stream. *)
Lemma xor_bytes_inj x y s : (length x <= length s)%nat -> (length y <= length s)%nat -> xor_bytes x s = xor_bytes y s -> x = y.
Proof. intros Hx Hy H. rewrite <- (xor_bytes_cancel x s), <- (xor_bytes_cancel y s), H by done. done. Qed.

Lemma bytes_nonneg l : bytes l -> Forall (fun x => 0 <= x) l.
Proof. intros H. eapply List.Forall_impl; [|exact H]. unfold is_byte. cbn. lia. Qed.

(** One more element of a prefix. *)
Lemma drop_S_exists {A} (l : list A) k : (k < length l)%nat ->
  exists x, drop k l = x :: drop (S k) l /\ take (S k) l = take k l ++ [x].
Proof.
  intros H. destruct (lookup_lt_is_Some_2 l k H) as [x Hx]. exists x.
  split; [apply drop_S; done | apply take_S_r; done].
Qed.

(** The loop over the whole blocks of a chain, for any function of a block. *)
Section Chain.
  Context (f : list Z -> res (list Z)) (F : list Z -> list Z) (HF : forall s, blk s -> f s = Ok (F s) /\ blk (F s)).

Lemma chain_full w : forall k i mem pre post data x, mem = pre ++ w ++ post -> data + 16 * i = zlen pre ->
  bytes w -> length w = (16 * k)%nat -> blk x ->
  for_up (fun i x => x <- xor_aes_block x 0 mem (data + 16 * i) ;; f x) k i x = Ok (cbc F x (blocks w)) /\ blk (cbc F x (blocks w)).
Proof.
  intros k. revert w. induction k as [|k IH]; intros w i mem pre post data x Hm Hd Hb Hl Hx.
  { destruct w; [done | discriminate]. }
  destruct (first_block k w Hb Hl) as (b & w' & -> & Bb & Hb' & Hl'). cbn [for_up].
  rewrite (xor_block_at x mem pre b (w' ++ post)) by (first [done | rewrite Hm, <- app_assoc; done | apply Bb]). cbn [bind].
  destruct (HF _ (xor_blk x b Hx Bb)) as [-> Bx]. cbn [bind]. rewrite blocks_cons by done.
  apply (IH w' (i + 1) mem (pre ++ b) post data); try done; [rewrite Hm, <- !app_assoc; done|].
  rewrite zlen_app, (blk_zlen b) by done. lia.
Qed.
End Chain.
