(* ===== verification/Ccm.v ===== *)
(** * Counter mode with CBC-MAC

    Models [core/crypto/aes-ccm.c]. A pointer is a buffer and an offset; the input and the output lie in different
    buffers, as at every call. The specification is CCM over lists of blocks (RFC 3610, [L = 2]). *)
From Stdlib Require Import ZArith Lia Bool.
From stdpp Require Import base option list numbers.
From S2P Require Import Prelude Arc4 Aes Modes.
Local Open Scope Z_scope.

(** ** The code *)

(** The constant [L] of [aes_ccm_ae] and [aes_ccm_ad]. *)
Definition L := 2.

(** The nonce has [15 - L] bytes. *)
(* src: core/crypto/aes-ccm.c:27-60 aes_ccm_auth_start *)
Definition aes_ccm_auth_start (ctx : aes_ctx) (M : Z) (nonce aad : list Z) (aad_len plain_len : Z) : res (list Z) :=
  n <- rdn nonce 0 (15 - L) ;;
  let b0 := u8 ((u8 ((if aad_len =? 0 then 0 else 0x40) .| Z.shiftl ((M - 2) / 2) 3)) .| (L - 1)) in
  x <- aes_encrypt ctx ([b0] ++ n ++ PUT_BE16 plain_len) ;;
  if aad_len =? 0 then Ok x
  else
    a <- rdn aad 0 aad_len ;;
    let aad_buf := PUT_BE16 aad_len ++ a ++ zeros (Z.to_nat (2 * AES_BLOCK_SIZE - 2 - aad_len)) in
    aad_buf <- xor_aes_block aad_buf 0 x 0 ;;
    b <- rdn aad_buf 0 16 ;;
    x <- aes_encrypt ctx b ;;
    if AES_BLOCK_SIZE - 2 <? aad_len then
      aad_buf <- xor_aes_block aad_buf 16 x 0 ;;
      b <- rdn aad_buf 16 16 ;;
      aes_encrypt ctx b
    else Ok x.

(** [data + AES_BLOCK_SIZE * i] is the block of the turn [i]. *)
(* src: core/crypto/aes-ccm.c:63-80 aes_ccm_auth *)
Definition aes_ccm_auth (ctx : aes_ctx) (mem : list Z) (data len : Z) (x : list Z) : res (list Z) :=
  let last := len mod AES_BLOCK_SIZE in
  x <- for_up (fun i x => x <- xor_aes_block x 0 mem (data + AES_BLOCK_SIZE * i) ;; aes_encrypt ctx x)
         (Z.to_nat (len / AES_BLOCK_SIZE)) 0 x ;;
  if last =? 0 then Ok x
  else
    d <- rdn mem (data + AES_BLOCK_SIZE * (len / AES_BLOCK_SIZE)) last ;;
    h <- rdn x 0 last ;;
    x <- wrn x 0 (xor_bytes h d) ;;
    aes_encrypt ctx x.

(** The counter block without its counter, which every use writes first. *)
(* src: core/crypto/aes-ccm.c:83-88 aes_ccm_encr_start *)
Definition aes_ccm_encr_start (nonce : list Z) : res (list Z) :=
  n <- rdn nonce 0 (15 - L) ;; Ok ([L - 1] ++ n ++ zeros 2).

(* src: core/crypto/aes-ccm.c:98-105 aes_ccm_encr *)
Definition encr_turn (ctx : aes_ctx) (mem : list Z) (inp op : Z) (i : Z) (st : list Z * list Z) : res (list Z * list Z) :=
  let '(out, a) := st in
  a <- wrn a (AES_BLOCK_SIZE - 2) (PUT_BE16 i) ;;
  s <- aes_encrypt ctx a ;;
  out <- wrn out (op + AES_BLOCK_SIZE * (i - 1)) s ;;
  out <- xor_aes_block out (op + AES_BLOCK_SIZE * (i - 1)) mem (inp + AES_BLOCK_SIZE * (i - 1)) ;;
  Ok (out, a).

(* src: core/crypto/aes-ccm.c:91-113 aes_ccm_encr *)
Definition aes_ccm_encr (ctx : aes_ctx) (mem : list Z) (inp len : Z) (out : list Z) (op : Z) (a : list Z)
    : res (list Z * list Z) :=
  let last := len mod AES_BLOCK_SIZE in
  let n := len / AES_BLOCK_SIZE in
  '(out, a) <- for_up (encr_turn ctx mem inp op) (Z.to_nat n) 1 (out, a) ;;
  if last =? 0 then Ok (out, a)
  else
    a <- wrn a (AES_BLOCK_SIZE - 2) (PUT_BE16 (n + 1)) ;;
    s <- aes_encrypt ctx a ;;
    out <- wrn out (op + AES_BLOCK_SIZE * n) s ;;
    o <- rdn out (op + AES_BLOCK_SIZE * n) last ;;
    d <- rdn mem (inp + AES_BLOCK_SIZE * n) last ;;
    out <- wrn out (op + AES_BLOCK_SIZE * n) (xor_bytes o d) ;;
    Ok (out, a).

(** The [M] bytes [x ^ S_0], for the authentication code in either direction. *)
(* src: core/crypto/aes-ccm.c:116-128 aes_ccm_encr_auth *)
Definition aes_ccm_encr_auth (ctx : aes_ctx) (M : Z) (x a : list Z) : res (list Z) :=
  a <- wrn a (AES_BLOCK_SIZE - 2) (PUT_BE16 0) ;;
  tmp <- aes_encrypt ctx a ;;
  h <- rdn x 0 M ;; t <- rdn tmp 0 M ;;
  Ok (xor_bytes h t).

(* src: core/crypto/aes-ccm.c:131-143 aes_ccm_decr_auth *)
Definition aes_ccm_decr_auth (ctx : aes_ctx) (M : Z) (a : list Z) (mem : list Z) (auth : Z) : res (list Z) :=
  a <- wrn a (AES_BLOCK_SIZE - 2) (PUT_BE16 0) ;;
  tmp <- aes_encrypt ctx a ;;
  h <- rdn mem auth M ;; t <- rdn tmp 0 M ;;
  Ok (xor_bytes h t).

(** [crypt] and [auth] are offsets into [out]. [None]: -1. *)
(* src: core/crypto/aes-ccm.c:147-173 aes_ccm_ae *)
Definition aes_ccm_ae (alloc : bool) (key : list Z) (key_len : Z) (nonce : list Z) (M : Z)
    (mem : list Z) (plain plain_len : Z) (aad : list Z) (aad_len : Z) (out : list Z) (crypt auth : Z)
    : res (option (list Z)) :=
  if (30 <? aad_len) || (AES_BLOCK_SIZE <? M) then Ok None
  else
    aes <- aes_encrypt_init alloc key key_len ;;
    match aes with
    | None => Ok None
    | Some aes =>
        x <- aes_ccm_auth_start aes M nonce aad aad_len plain_len ;;
        x <- aes_ccm_auth aes mem plain plain_len x ;;
        a <- aes_ccm_encr_start nonce ;;
        '(out, a) <- aes_ccm_encr aes mem plain plain_len out crypt a ;;
        u <- aes_ccm_encr_auth aes M x a ;;
        out <- wrn out auth u ;;
        Ok (Some out)
    end.

(** The plain text goes to the front of [out], whatever the result. [crypt] and [auth] are offsets into [mem]. *)
(* src: core/crypto/aes-ccm.c:177-211 aes_ccm_ad *)
Definition aes_ccm_ad (alloc : bool) (key : list Z) (key_len : Z) (nonce : list Z) (M : Z)
    (mem : list Z) (crypt crypt_len : Z) (aad : list Z) (aad_len : Z) (auth : Z) (out : list Z)
    : res (bool * list Z) :=
  if (30 <? aad_len) || (AES_BLOCK_SIZE <? M) then Ok (false, out)
  else
    aes <- aes_encrypt_init alloc key key_len ;;
    match aes with
    | None => Ok (false, out)
    | Some aes =>
        a <- aes_ccm_encr_start nonce ;;
        t <- aes_ccm_decr_auth aes M a mem auth ;;
        '(out, _) <- aes_ccm_encr aes mem crypt crypt_len out 0 a ;;
        x <- aes_ccm_auth_start aes M nonce aad aad_len crypt_len ;;
        x <- aes_ccm_auth aes out 0 crypt_len x ;;
        d <- os_memcmp_const 0 x t (Z.to_nat M) ;;
        Ok (d =? 0, out)
    end.

(** ** Specification *)

Section Spec.
  Context (E : list Z -> list Z) (M : Z) (nonce : list Z).

Definition ccm_flags (aad : list Z) : Z := (if zlen aad =? 0 then 0 else 0x40) + 8 * ((M - 2) / 2) + 1.

(** [B_0], then the additional data behind its length. *)
Definition ccm_b0 (aad : list Z) (n : Z) : list Z := [ccm_flags aad] ++ nonce ++ PUT_BE16 n.
Definition ccm_aad_blocks (aad : list Z) : list (list Z) :=
  match aad with [] => [] | _ => blocks (pad16 (PUT_BE16 (zlen aad) ++ aad)) end.

Definition ccm_mac (aad p : list Z) : list Z :=
  cbc E (E (ccm_b0 aad (zlen p))) (ccm_aad_blocks aad ++ blocks (pad16 p)).

(** [A_i] without its counter. *)
Definition ccm_a : list Z := [1] ++ nonce.

Definition ccm_crypt (p : list Z) : list Z := xor_bytes p (stream E ccm_a 1 (length (pad16 p) / 16)).

Definition ccm_tag (aad p : list Z) : list Z :=
  xor_bytes (take (Z.to_nat M) (ccm_mac aad p)) (E (ccm_a ++ PUT_BE16 0)).
End Spec.

(** ** Lemmas *)

Section Run.
  Context (ctx : aes_ctx) (E : list Z -> list Z) `{HE : !CipherOk ctx E}.

Lemma ccm_auth_spec pre l post x : bytes l -> blk x ->
  aes_ccm_auth ctx (pre ++ l ++ post) (zlen pre) (zlen l) x = Ok (cbc E x (blocks (pad16 l))) /\
  blk (cbc E x (blocks (pad16 l))).
Proof.
  intros Hb Hx. destruct (split_pad l Hb) as (w & t & Hl & Hbw & Hbt & Hw & Ht & Hlt & -> & Hp).
  unfold aes_ccm_auth, AES_BLOCK_SIZE. destruct (zlen_div16 l) as [-> ->]. rewrite Nat2Z.id.
  destruct (chain_full (aes_encrypt ctx) E ltac:(intros; split; [apply cipher_run | apply (cipher_blk (ctx:=ctx))]; done)
    w (length l / 16) 0 (pre ++ l ++ post) pre (t ++ post) (zlen pre) x) as [F Bc]; [rewrite Hl, <- !app_assoc; done | lia | done | done | done |].
  rewrite F. clear F. cbn [bind]. rewrite <- Ht.
  rewrite (blocks_app (length l / 16)) by done. rewrite cbc_app.
  set (y := cbc E x (blocks w)) in *. destruct (decide (t = [])) as [->|Hne]; [split; [reflexivity | exact Bc]|].
  destruct (Hp Hne) as [Bp Ep]. rewrite (blocks_one _ Bp). cbn [cbc fold_left].
  rewrite (proj2 (Z.eqb_neq _ _)) by (destruct t; [done | cbn [length]; lia]).
  replace (pre ++ l ++ post) with ((pre ++ w) ++ t ++ post) by (rewrite Hl, <- !app_assoc; done).
  replace (zlen pre + 16 * Z.of_nat (length l / 16)) with (zlen (pre ++ w)) by (rewrite zlen_app; unfold zlen at 2; lia).
  change (Z.of_nat (length t)) with (zlen t). rewrite rdn_app. cbn [bind].
  pose proof (blk_zlen y Bc) as Zy. pose proof Bc as [By Ly].
  assert (Lx : length (xor_bytes (take (length t) y) t) = length t) by (rewrite xor_bytes_length; rewrite length_take; lia).
  rewrite rdn_front by (unfold zlen in *; lia). unfold zlen at 1. rewrite Nat2Z.id. cbn [bind].
  rewrite wrn_front by (rewrite Lx; lia). cbn [bind]. rewrite Lx, <- (xor_bytes_zeros y t (16 - length t)) by lia.
  rewrite <- Ep. pose proof (xor_blk y _ Bc Bp) as Bz. rewrite (cipher_run _ Bz).
  split; [done|]. apply (cipher_blk (ctx:=ctx)). done.
Qed.

(** A nonce of thirteen bytes, a code of eight or sixteen. *)
Definition ccm_args (M : Z) (nonce : list Z) : Prop := (M = 8 \/ M = 16) /\ bytes nonce /\ length nonce = 13%nat.

Lemma b0_flags M aad : M = 8 \/ M = 16 ->
  u8 ((u8 ((if zlen aad =? 0 then 0 else 0x40) .| Z.shiftl ((M - 2) / 2) 3)) .| (L - 1)) = ccm_flags M aad /\
  is_byte (ccm_flags M aad).
Proof. intros [-> | ->]; unfold ccm_flags; destruct (zlen aad =? 0); (split; [vm_compute; reflexivity | apply is_byteb_spec; vm_compute; reflexivity]). Qed.

Lemma b0_blk M nonce aad n : ccm_args M nonce -> blk (ccm_b0 M nonce aad n).
Proof.
  intros (HM & Hb & Hl). split; [|unfold ccm_b0; rewrite !length_app, Hl; done].
  apply List.Forall_cons; [apply b0_flags; done|]. apply Forall_app. split; [done | apply PUT_BE16_bytes].
Qed.

(** The buffer of the additional data: one or two blocks, the second unused up to fourteen bytes. *)
Lemma aad_buf_spec aad : bytes aad -> 0 < zlen aad <= 30 ->
  exists b1 b2, PUT_BE16 (zlen aad) ++ aad ++ zeros (Z.to_nat (2 * AES_BLOCK_SIZE - 2 - zlen aad)) = b1 ++ b2 /\
    blk b1 /\ blk b2 /\ ccm_aad_blocks aad = if AES_BLOCK_SIZE - 2 <? zlen aad then [b1; b2] else [b1].
Proof.
  intros Hb Hl. unfold AES_BLOCK_SIZE. change (2 * 16 - 2) with 30. change (16 - 2) with 14.
  set (l := PUT_BE16 (zlen aad) ++ aad). assert (Hbl : bytes l) by (apply Forall_app; split; [apply PUT_BE16_bytes | done]).
  assert (Hll : length l = (length aad + 2)%nat) by (unfold l; rewrite length_app; cbn; lia).
  assert (Hc : ccm_aad_blocks aad = blocks (pad16 l)) by (destruct aad; [change (zlen []) with 0 in Hl; lia | reflexivity]). rewrite Hc. unfold zlen in *.
  set (q := l ++ zeros (Z.to_nat (30 - Z.of_nat (length aad)))). assert (Lq : length q = 32%nat) by (unfold q, zeros; rewrite length_app, length_replicate; lia).
  assert (Hbq : bytes q) by (apply Forall_app; split; [done | apply Forall_replicate, byte_0]).
  destruct (first_block 1 q Hbq Lq) as (b1 & b2 & Hq & B1 & Hb2 & L2). assert (B2 : blk b2) by (split; done).
  exists b1, b2. split; [rewrite <- Hq; unfold q, l; rewrite <- app_assoc; done|]. split; [done|]. split; [done|].
  destruct (Z.ltb_spec 14 (Z.of_nat (length aad))).
  - replace (pad16 l) with q; [rewrite Hq, blocks_cons, (blocks_one b2) by done; done|]. unfold q, pad16. f_equal. f_equal.
    destruct (Nat.eq_dec (length aad) 30%nat) as [E30|E30]; [rewrite Hll, E30; done|].
    replace (length l) with (length aad - 14 + 1 * 16)%nat by lia. rewrite Nat.Div0.mod_add, (Nat.mod_small (_ - 14)) by lia.
    rewrite Nat.mod_small by lia. lia.
  - replace (pad16 l) with b1; [apply blocks_one; done|].
    assert (T : b1 = take 16 q) by (rewrite Hq, take_app_length' by (symmetry; apply B1); done). rewrite T. unfold q.
    destruct (Nat.eq_dec (length aad) 14%nat) as [E14|E14].
    + rewrite take_app_length' by lia. symmetry. apply pad16_full. rewrite Hll, E14. done.
    + rewrite take_app_ge by lia. rewrite (proj1 (pad16_short l ltac:(lia))). f_equal.
      unfold zeros. rewrite take_replicate. f_equal. lia.
Qed.

Lemma auth_start_spec M nonce aad n : ccm_args M nonce -> bytes aad -> zlen aad <= 30 ->
  aes_ccm_auth_start ctx M nonce aad (zlen aad) n = Ok (cbc E (E (ccm_b0 M nonce aad n)) (ccm_aad_blocks aad)) /\
  blk (cbc E (E (ccm_b0 M nonce aad n)) (ccm_aad_blocks aad)).
Proof.
  intros HA Hb Hl. pose proof (b0_blk M nonce aad n HA) as B0. destruct HA as (HM & Hbn & Hln).
  unfold aes_ccm_auth_start. change (15 - L) with 13.
  rewrite rdn_front by (unfold zlen; lia). rewrite firstn_all2 by lia. cbn [bind].
  rewrite (proj1 (b0_flags M aad HM)). fold (ccm_b0 M nonce aad n). rewrite (cipher_run _ B0). cbn [bind].
  pose proof (cipher_blk (ctx:=ctx) _ B0) as B1. destruct (Z.eqb_spec (zlen aad) 0) as [E0|E0].
  { destruct aad; [|rewrite zlen_cons in E0; pose proof (zlen_nonneg aad); lia]. done. }
  pose proof (zlen_nonneg aad). rewrite rdn_front by lia. unfold zlen at 1. rewrite Nat2Z.id, firstn_all. cbn [bind].
  destruct (aad_buf_spec aad Hb ltac:(lia)) as (b1 & b2 & -> & Bb1 & Bb2 & ->). set (x := E (ccm_b0 M nonce aad n)) in *.
  pose proof (xor_aes_block_mid [] b1 b2 [] x []) as X1. cbn [app] in X1. rewrite app_nil_r in X1. change (zlen []) with 0 in X1.
  rewrite X1 by (apply Bb1 || apply B1). clear X1. cbn [bind].
  pose proof (xor_blk b1 x Bb1 B1) as Bx1. assert (Cx : xor_bytes b1 x = xor_bytes x b1) by (apply xor_bytes_comm).
  rewrite Cx in *. assert (R1 : rdn (xor_bytes x b1 ++ b2) 0 16 = Ok (xor_bytes x b1)) by (apply rdn_prefix, blk_zlen; done).
  rewrite R1. cbn [bind]. rewrite (cipher_run _ Bx1). cbn [bind].
  pose proof (cipher_blk (ctx:=ctx) _ Bx1) as B2. set (x2 := E (xor_bytes x b1)) in *.
  destruct (AES_BLOCK_SIZE - 2 <? zlen aad); [|split; [reflexivity | exact B2]].
  pose proof (xor_aes_block_mid (xor_bytes x b1) b2 [] [] x2 []) as X2. cbn [app] in X2. rewrite !app_nil_r, (blk_zlen _ Bx1) in X2.
  change (zlen []) with 0 in X2. rewrite X2 by (apply Bb2 || apply B2). clear X2. cbn [bind].
  rewrite (xor_bytes_comm b2 x2). pose proof (xor_blk x2 b2 B2 Bb2) as Bx2.
  assert (R2 : rdn (xor_bytes x b1 ++ xor_bytes x2 b2) 16 16 = Ok (xor_bytes x2 b2)).
  { pose proof (rdn_app (xor_bytes x b1) (xor_bytes x2 b2) []) as R. rewrite app_nil_r, !blk_zlen in R by done. exact R. }
  rewrite R2. cbn [bind]. rewrite (cipher_run _ Bx2). split; [reflexivity|]. exact (cipher_blk (ctx:=ctx) _ Bx2).
Qed.

(** The counter block: fourteen bytes that stay, two that are written. *)
Definition ctr_block (a n14 : list Z) : Prop := exists c, a = n14 ++ c /\ length c = 2%nat.

Lemma put_ctr a n14 i : ctr_block a n14 -> bytes n14 -> length n14 = 14%nat ->
  wrn a (AES_BLOCK_SIZE - 2) (PUT_BE16 i) = Ok (n14 ++ PUT_BE16 i) /\ blk (n14 ++ PUT_BE16 i) /\
  ctr_block (n14 ++ PUT_BE16 i) n14.
Proof.
  intros (c & -> & Hc) Hb Hl. split; [|split].
  - pose proof (wrn_app n14 c [] (PUT_BE16 i)) as H. rewrite !app_nil_r in H.
    replace (AES_BLOCK_SIZE - 2) with (zlen n14) by (unfold zlen; rewrite Hl; done). apply H. unfold zlen. rewrite Hc. done.
  - split; [apply Forall_app; split; [done | apply PUT_BE16_bytes] | rewrite length_app, Hl; done].
  - exists (PUT_BE16 i). done.
Qed.

Lemma encr_full k : forall w old i mem ipre ipost opre opost inp op a n14,
  mem = ipre ++ w ++ ipost -> inp + 16 * (i - 1) = zlen ipre -> op + 16 * (i - 1) = zlen opre ->
  bytes w -> length w = (16 * k)%nat -> length old = (16 * k)%nat ->
  ctr_block a n14 -> bytes n14 -> length n14 = 14%nat ->
  exists a', for_up (encr_turn ctx mem inp op) k i (opre ++ old ++ opost, a) =
    Ok (opre ++ xor_bytes w (stream E n14 i k) ++ opost, a') /\ ctr_block a' n14.
Proof.
  induction k as [|k IH]; intros w old i mem ipre ipost opre opost inp op a n14 Hm Hi Ho Hbw Hlw Hold Ha Hbn Hln.
  { destruct w; [|discriminate]. destruct old; [|discriminate]. exists a. done. }
  destruct (first_block k w Hbw Hlw) as (b & w' & -> & Bb & Hbw' & Hlw').
  rewrite <- (take_drop 16 old). set (o1 := take 16 old). set (o2 := drop 16 old).
  assert (Ho1 : length o1 = 16%nat) by (unfold o1; rewrite length_take; lia).
  assert (Ho2 : length o2 = (16 * k)%nat) by (unfold o2; rewrite length_drop; lia).
  destruct (put_ctr a n14 i Ha Hbn Hln) as (W & Ba & Ca). pose proof (cipher_blk (ctx:=ctx) _ Ba) as Bs.
  cbn [for_up]. unfold encr_turn at 1. rewrite W. cbn [bind]. rewrite (cipher_run _ Ba). cbn [bind]. unfold AES_BLOCK_SIZE.
  rewrite Ho, Hi, <- app_assoc. set (s := E (n14 ++ PUT_BE16 i)) in *.
  rewrite wrn_app by (unfold zlen; rewrite Ho1, (proj2 Bs); done). cbn [bind].
  rewrite Hm, <- !app_assoc, (xor_aes_block_mid opre s (o2 ++ opost) ipre b (w' ++ ipost)) by (apply Bs || apply Bb). cbn [bind].
  assert (Bx : blk (xor_bytes s b)) by (apply xor_blk; done).
  replace (opre ++ xor_bytes s b ++ o2 ++ opost) with ((opre ++ xor_bytes s b) ++ o2 ++ opost) by (rewrite <- app_assoc; done).
  destruct (IH w' o2 (i + 1) (ipre ++ b ++ w' ++ ipost) (ipre ++ b) ipost (opre ++ xor_bytes s b) opost inp op (n14 ++ PUT_BE16 i) n14) as (a' & F & Ca');
    try done; [rewrite <- app_assoc; done | rewrite zlen_app, (blk_zlen b) by done; lia | rewrite zlen_app, (blk_zlen _ Bx); lia |].
  exists a'. rewrite F. split; [|done]. cbn [stream]. fold s. rewrite xor_bytes_app by (rewrite (proj2 Bb), (proj2 Bs); done).
  rewrite (xor_bytes_comm s b), <- !app_assoc. done.
Qed.

Lemma ccm_encr_spec ipre l ipost opre old opost a n14 : bytes l -> length old = length (pad16 l) ->
  ctr_block a n14 -> bytes n14 -> length n14 = 14%nat ->
  exists a', aes_ccm_encr ctx (ipre ++ l ++ ipost) (zlen ipre) (zlen l) (opre ++ old ++ opost) (zlen opre) a =
    Ok (opre ++ xor_bytes (pad16 l) (stream E n14 1 (length (pad16 l) / 16)) ++ opost, a') /\ ctr_block a' n14.
Proof.
  intros Hb Ho Ha Hbn Hln. destruct (split_pad l Hb) as (w & t & Hl & Hbw & Hbt & Hw & Ht & Hlt & Ep & Hp).
  unfold aes_ccm_encr, AES_BLOCK_SIZE. destruct (zlen_div16 l) as [-> ->]. rewrite Nat2Z.id.
  set (k := (length l / 16)%nat) in *. rewrite Ep in *. rewrite length_app in Ho |- *.
  rewrite <- (take_drop (16 * k) old). set (o1 := take (16 * k) old). set (o2 := drop (16 * k) old).
  assert (Ho1 : length o1 = (16 * k)%nat) by (unfold o1; rewrite length_take; lia).
  assert (Ho2 : length o2 = length (pad16 t)) by (unfold o2; rewrite length_drop; lia).
  destruct (encr_full k w o1 1 (ipre ++ l ++ ipost) ipre (t ++ ipost) opre (o2 ++ opost) (zlen ipre) (zlen opre) a n14) as (a1 & F & Ca);
    try done; [rewrite Hl, <- !app_assoc; done | lia | lia |].
  rewrite <- (app_assoc o1), F. clear F. cbn [bind]. rewrite <- Ht. destruct (stream_length ctx E n14 k 1 Hbn Hln) as [Bs Ls].
  set (C := xor_bytes w (stream E n14 1 k)) in *. assert (LC : length C = (16 * k)%nat) by (unfold C; rewrite xor_bytes_length; congruence).
  destruct (decide (t = [])) as [->|Hne].
  { exists a1. split; [|done]. cbn [length] in Ho2 |- *. destruct o2; [|discriminate]. rewrite pad16_nil, app_nil_r, Hw. cbn [length app].
    replace ((16 * k + 0) / 16)%nat with k by (rewrite Nat.add_0_r, Nat.mul_comm, Nat.div_mul; lia). done. }
  destruct (Hp Hne) as [Bp Et]. rewrite (proj2 (Z.eqb_neq _ _)) by (destruct t; [done | cbn [length]; lia]).
  destruct (put_ctr a1 n14 (Z.of_nat k + 1) Ca Hbn Hln) as (W & Ba & Ca'). change (AES_BLOCK_SIZE - 2) with (16 - 2) in W.
  rewrite W. cbn [bind]. rewrite (cipher_run _ Ba). cbn [bind].
  pose proof (cipher_blk (ctx:=ctx) _ Ba) as Bl. set (s := E (n14 ++ PUT_BE16 (Z.of_nat k + 1))) in *.
  rewrite (proj2 Bp), Hw. replace ((16 * k + 16) / 16)%nat with (k + 1)%nat by (replace (16 * k + 16)%nat with ((k + 1) * 16)%nat by lia; rewrite Nat.div_mul; lia).
  rewrite stream_app. cbn [stream]. rewrite app_nil_r, xor_bytes_app by congruence. fold C.
  replace (1 + Z.of_nat k) with (Z.of_nat k + 1) by lia. fold s. exists (n14 ++ PUT_BE16 (Z.of_nat k + 1)). split; [|done].
  replace (zlen opre + 16 * Z.of_nat k) with (zlen (opre ++ C)) by (rewrite zlen_app; unfold zlen at 2; lia).
  replace (opre ++ C ++ o2 ++ opost) with ((opre ++ C) ++ o2 ++ opost) by (rewrite <- app_assoc; done).
  rewrite wrn_app by (unfold zlen; rewrite Ho2, (proj2 Bp), (proj2 Bl); done). cbn [bind].
  rewrite rdn_part by (unfold zlen; rewrite (proj2 Bl); lia). cbn [bind]. rewrite Nat2Z.id.
  replace (zlen ipre + 16 * Z.of_nat k) with (zlen (ipre ++ w)) by (rewrite zlen_app; unfold zlen at 2; lia).
  replace (ipre ++ l ++ ipost) with ((ipre ++ w) ++ t ++ ipost) by (rewrite Hl, <- !app_assoc; done).
  change (Z.of_nat (length t)) with (zlen t). rewrite rdn_app. cbn [bind].
  rewrite (xor_bytes_comm (pad16 t) s), Et, xor_bytes_zeros by (rewrite (proj2 Bl); lia).
  rewrite <- (take_drop (length t) s) at 1. rewrite <- (app_assoc (take _ s)), wrn_app.
  - cbn [bind]. rewrite <- !app_assoc. done.
  - unfold zlen. rewrite xor_bytes_length; rewrite length_take; rewrite (proj2 Bl); lia.
Qed.

Lemma xor_bytes_take n x s : xor_bytes (take n x) (take n s) = xor_bytes (take n x) s.
Proof.
  revert x s. induction n as [|n IH]; intros x s; [done|]. destruct x as [|a x], s as [|b s]; try done.
  cbn. f_equal. apply IH.
Qed.

Lemma encr_auth_spec M x a n14 : 0 <= M <= 16 -> blk x -> ctr_block a n14 -> bytes n14 -> length n14 = 14%nat ->
  aes_ccm_encr_auth ctx M x a = Ok (xor_bytes (take (Z.to_nat M) x) (E (n14 ++ PUT_BE16 0))).
Proof.
  intros HM Hx Ha Hb Hl. destruct (put_ctr a n14 0 Ha Hb Hl) as (W & Ba & _). unfold aes_ccm_encr_auth. rewrite W. cbn [bind].
  rewrite (cipher_run _ Ba). cbn [bind]. pose proof (cipher_blk (ctx:=ctx) _ Ba) as Bs.
  rewrite !rdn_front by (rewrite blk_zlen by done; lia). cbn [bind]. rewrite xor_bytes_take. done.
Qed.

Lemma decr_auth_spec M a n14 mem pre u post auth : mem = pre ++ u ++ post -> auth = zlen pre -> zlen u = M ->
  0 <= M <= 16 -> ctr_block a n14 -> bytes n14 -> length n14 = 14%nat ->
  aes_ccm_decr_auth ctx M a mem auth = Ok (xor_bytes u (E (n14 ++ PUT_BE16 0))).
Proof.
  intros -> -> Hu HM Ha Hb Hl. destruct (put_ctr a n14 0 Ha Hb Hl) as (W & Ba & _). unfold aes_ccm_decr_auth. rewrite W. cbn [bind].
  rewrite (cipher_run _ Ba). cbn [bind]. pose proof (cipher_blk (ctx:=ctx) _ Ba) as Bs.
  rewrite <- Hu, rdn_app. cbn [bind]. rewrite rdn_front by (rewrite (blk_zlen _ Bs); lia). cbn [bind].
  f_equal. pose proof (xor_bytes_take (Z.to_nat (zlen u)) u (E (n14 ++ PUT_BE16 0))) as H.
  rewrite (firstn_all2 u) in H by (unfold zlen; lia). exact H.
Qed.

Lemma ccm_a_ok nonce : bytes nonce -> length nonce = 13%nat -> bytes (ccm_a nonce) /\ length (ccm_a nonce) = 14%nat.
Proof. intros Hb Hl. split; [apply List.Forall_cons; [unfold is_byte; lia | done] | unfold ccm_a; rewrite length_app, Hl; done]. Qed.

Lemma encr_start_spec nonce : length nonce = 13%nat ->
  exists a, aes_ccm_encr_start nonce = Ok a /\ ctr_block a (ccm_a nonce).
Proof.
  intros Hl. unfold aes_ccm_encr_start. change (15 - L) with 13. rewrite rdn_front by (unfold zlen; lia).
  rewrite firstn_all2 by lia. cbn [bind]. eexists. split; [done|]. exists (zeros 2). split; [rewrite app_assoc; done | done].
Qed.

(** The key stream covers the text and the padding. *)
Lemma pad16_stream l n14 : bytes n14 -> length n14 = 14%nat ->
  let s := stream E n14 1 (length (pad16 l) / 16) in
  length s = length (pad16 l) /\ (length l <= length s)%nat /\ bytes s.
Proof.
  intros Hb Hl s. destruct (pad16_length l) as (k & Hk & Hr). subst s. rewrite Hk.
  replace (16 * k / 16)%nat with k by (rewrite Nat.mul_comm, Nat.div_mul; lia).
  destruct (stream_length ctx E n14 k 1 Hb Hl) as [Bs Ls]. rewrite Ls. split; [done|]. split; [lia | done].
Qed.

Lemma ccm_crypt_length nonce l : bytes nonce -> length nonce = 13%nat -> length (ccm_crypt E nonce l) = length l.
Proof.
  intros Hb Hl. destruct (ccm_a_ok nonce Hb Hl) as [Ba La]. destruct (pad16_stream l (ccm_a nonce) Ba La) as (_ & H & _).
  apply xor_length_le. exact H.
Qed.

Lemma ccm_crypt_bytes nonce l : bytes nonce -> length nonce = 13%nat -> bytes l -> bytes (ccm_crypt E nonce l).
Proof.
  intros Hb Hl Hbl. destruct (ccm_a_ok nonce Hb Hl) as [Ba La]. destruct (pad16_stream l (ccm_a nonce) Ba La) as (_ & _ & Bs).
  apply xor_bytes_bytes; done.
Qed.

(** The same stream opens what it closed. *)
Lemma ccm_crypt_twice nonce l : bytes nonce -> length nonce = 13%nat -> ccm_crypt E nonce (ccm_crypt E nonce l) = l.
Proof.
  intros Hb Hl. pose proof (ccm_crypt_length nonce l Hb Hl) as Lc. unfold ccm_crypt at 1.
  replace (length (pad16 (ccm_crypt E nonce l))) with (length (pad16 l)) by (unfold pad16, zeros; rewrite !length_app, !length_replicate, Lc; done).
  destruct (ccm_a_ok nonce Hb Hl) as [Ba La]. destruct (pad16_stream l (ccm_a nonce) Ba La) as (_ & H & _).
  apply xor_bytes_cancel. exact H.
Qed.

Lemma ccm_mac_blk M nonce aad p : ccm_args M nonce -> bytes aad -> zlen aad <= 30 -> bytes p -> blk (ccm_mac E M nonce aad p).
Proof.
  intros HA Hb Hl Hp. unfold ccm_mac. rewrite cbc_app. destruct (auth_start_spec M nonce aad (zlen p) HA Hb Hl) as [_ B].
  destruct (ccm_auth_spec [] p [] _ Hp B) as [_ B']. exact B'.
Qed.

Lemma ccm_tag_length M nonce aad p : ccm_args M nonce -> bytes aad -> zlen aad <= 30 -> bytes p -> zlen (ccm_tag E M nonce aad p) = M.
Proof.
  intros HA Hb Hl Hp. pose proof (ccm_mac_blk M nonce aad p HA Hb Hl Hp) as [_ LM]. destruct HA as (HM & Hbn & Hln).
  destruct (ccm_a_ok nonce Hbn Hln) as [Ba La].
  assert (Bs : blk (E (ccm_a nonce ++ PUT_BE16 0))).
  { apply (cipher_blk (ctx:=ctx)). split; [apply Forall_app; split; [done | apply PUT_BE16_bytes] | rewrite length_app, La; done]. }
  unfold ccm_tag, zlen. rewrite xor_length_le; rewrite length_take, LM; [lia | rewrite (proj2 Bs); lia].
Qed.
End Run.

(** [aes_ccm_ae] into a buffer with room for the padded text and for the code. *)
Lemma aes_ccm_ae_spec key nonce M pre p post aad opre room : aes_key key -> ccm_args M nonce ->
  bytes aad -> zlen aad <= 30 -> bytes p ->
  (length (pad16 p) <= length room)%nat -> zlen p + M <= zlen room ->
  exists rest, aes_ccm_ae true key (zlen key) nonce M (pre ++ p ++ post) (zlen pre) (zlen p) aad (zlen aad)
      (opre ++ room) (zlen opre) (zlen opre + zlen p) =
    Ok (Some (opre ++ ccm_crypt (aes_cipher key) nonce p ++ ccm_tag (aes_cipher key) M nonce aad p ++ rest)) /\
    zlen rest = zlen room - zlen p - M.
Proof.
  intros Hk HA Hba Hla Hbp Hroom Htag. pose proof HA as (HM & Hbn & Hln). unfold aes_ccm_ae.
  replace ((30 <? zlen aad) || (AES_BLOCK_SIZE <? M)) with false by (unfold AES_BLOCK_SIZE; destruct HM; subst M; symmetry; apply orb_false_intro; apply Z.ltb_ge; lia).
  destruct (aes_context key Hk) as (ctx & -> & HC). cbn [bind]. set (E := aes_cipher key) in *.
  destruct (auth_start_spec ctx E M nonce aad (zlen p) HA Hba Hla) as [-> B1]. cbn [bind].
  destruct (ccm_auth_spec ctx E pre p post _ Hbp B1) as [-> B2]. cbn [bind]. rewrite <- cbc_app. rewrite <- cbc_app in B2.
  fold (ccm_mac E M nonce aad p) in B2 |- *. destruct (encr_start_spec nonce Hln) as (a & -> & Ca). cbn [bind].
  destruct (ccm_a_ok nonce Hbn Hln) as [Ba La]. rewrite <- (take_drop (length (pad16 p)) room).
  set (old := take (length (pad16 p)) room). set (more := drop (length (pad16 p)) room).
  assert (Ho : length old = length (pad16 p)) by (unfold old; rewrite length_take; lia).
  assert (Hmore : length more = (length room - length (pad16 p))%nat) by (unfold more; rewrite length_drop; done).
  destruct (ccm_encr_spec ctx E pre p post opre old more a (ccm_a nonce) Hbp Ho Ca Ba La) as (a' & -> & Ca'). cbn [bind].
  rewrite (encr_auth_spec ctx E M _ a' (ccm_a nonce)) by (done || (destruct HM; lia)). cbn [bind].
  fold (ccm_tag E M nonce aad p). pose proof (ccm_tag_length ctx E M nonce aad p HA Hba Hla Hbp) as LT.
  destruct (pad16_stream ctx E p (ccm_a nonce) Ba La) as (Ls & Hle & _). set (s := stream E (ccm_a nonce) 1 _) in *.
  unfold pad16 at 1. rewrite xor_front by done. fold s. set (tail := xor_bytes (zeros _) (drop (length p) s)).
  replace (xor_bytes p s) with (ccm_crypt E nonce p) by done. pose proof (ccm_crypt_length ctx E nonce p Hbn Hln) as Lc.
  assert (Lt : (length tail + length p = length (pad16 p))%nat).
  { unfold tail. rewrite xor_length_le; unfold zeros; rewrite length_replicate; unfold pad16 in *; rewrite length_app in *;
      unfold zeros in *; rewrite length_replicate in *; [lia|]. rewrite length_drop, Ls. lia. }
  replace (zlen opre + zlen p) with (zlen (opre ++ ccm_crypt E nonce p)) by (rewrite zlen_app; unfold zlen at 2; rewrite Lc; done).
  replace (opre ++ (ccm_crypt E nonce p ++ tail) ++ more) with ((opre ++ ccm_crypt E nonce p) ++ (tail ++ more)) by (rewrite <- !app_assoc; done).
  assert (Lq : zlen (tail ++ more) = zlen room - zlen p) by (unfold zlen; rewrite length_app; lia).
  rewrite <- (take_drop (Z.to_nat M) (tail ++ more)). set (rest := drop (Z.to_nat M) (tail ++ more)).
  assert (HM0 : 0 <= M) by (destruct HM; lia).
  rewrite wrn_app by (rewrite LT; unfold zlen in *; rewrite length_take; lia). cbn [bind]. exists rest.
  rewrite <- !app_assoc. split; [done|]. unfold rest, zlen in *. rewrite length_drop, (length_app old), Ho, Hmore. lia.
Qed.

(** [aes_ccm_ad]: the opened text and the verdict. *)
Lemma aes_ccm_ad_spec key nonce M pre c u post aad room : aes_key key -> ccm_args M nonce ->
  bytes aad -> zlen aad <= 30 -> bytes c -> bytes u -> zlen u = M -> (length (pad16 c) <= length room)%nat ->
  let p := ccm_crypt (aes_cipher key) nonce c in
  exists rest, aes_ccm_ad true key (zlen key) nonce M (pre ++ c ++ u ++ post) (zlen pre) (zlen c) aad (zlen aad)
      (zlen pre + zlen c) room =
    Ok (bool_decide (u = ccm_tag (aes_cipher key) M nonce aad p), p ++ rest) /\ zlen rest = zlen room - zlen c.
Proof.
  intros Hk HA Hba Hla Hbc Hbu Hu Hroom p. pose proof HA as (HM & Hbn & Hln). unfold aes_ccm_ad.
  replace ((30 <? zlen aad) || (AES_BLOCK_SIZE <? M)) with false
    by (unfold AES_BLOCK_SIZE; destruct HM as [-> | ->]; symmetry; apply orb_false_intro; apply Z.ltb_ge; lia).
  destruct (aes_context key Hk) as (ctx & -> & HC). cbn [bind]. set (E := aes_cipher key) in *.
  destruct (encr_start_spec nonce Hln) as (a & -> & Ca). cbn [bind]. destruct (ccm_a_ok nonce Hbn Hln) as [Ba La].
  assert (HM0 : 0 <= M <= 16) by (destruct HM; lia).
  rewrite (decr_auth_spec ctx E M a (ccm_a nonce) _ (pre ++ c) u post) by first [done | rewrite <- !app_assoc; done | rewrite zlen_app; done].
  cbn [bind]. rewrite <- (take_drop (length (pad16 c)) room).
  set (old := take (length (pad16 c)) room). set (more := drop (length (pad16 c)) room).
  assert (Ho : length old = length (pad16 c)) by (unfold old; rewrite length_take; lia).
  assert (Hmore : length more = (length room - length (pad16 c))%nat) by (unfold more; rewrite length_drop; done).
  destruct (ccm_encr_spec ctx E pre c (u ++ post) [] old more a (ccm_a nonce) Hbc Ho Ca Ba La) as (a' & F & _).
  cbn [app] in F. change (zlen []) with 0 in F. rewrite F. clear F. cbn [bind].
  destruct (pad16_stream ctx E c (ccm_a nonce) Ba La) as (Ls & Hle & _). set (s := stream E (ccm_a nonce) 1 _) in *.
  set (tail := xor_bytes (zeros ((16 - length c mod 16) mod 16)) (drop (length c) s)).
  assert (Ep : xor_bytes (pad16 c) s = p ++ tail) by (unfold pad16; rewrite xor_front; done). rewrite Ep. pose proof (ccm_crypt_length ctx E nonce c Hbn Hln) as Lc. fold p in Lc.
  pose proof (ccm_crypt_bytes ctx E nonce c Hbn Hln Hbc) as Bp. fold p in Bp.
  assert (Lt : (length tail + length c = length (pad16 c))%nat).
  { unfold tail. rewrite xor_length_le; unfold zeros; rewrite length_replicate; unfold pad16 in *; rewrite length_app in *;
      unfold zeros in *; rewrite length_replicate in *; [lia|]. rewrite length_drop, Ls. lia. }
  destruct (auth_start_spec ctx E M nonce aad (zlen c) HA Hba Hla) as [-> B1]. cbn [bind].
  replace (zlen c) with (zlen p) in B1 |- * by (unfold zlen; rewrite Lc; done).
  rewrite <- !app_assoc. destruct (ccm_auth_spec ctx E [] p (tail ++ more) _ Bp B1) as [F B2].
  cbn [app] in F. change (zlen []) with 0 in F. rewrite F. clear F. cbn [bind]. rewrite <- cbc_app in B2 |- *.
  fold (ccm_mac E M nonce aad p) in B2 |- *.
  exists (tail ++ more). split; [|unfold zlen; rewrite !length_app; lia].
  set (x := ccm_mac E M nonce aad p) in *. set (s0 := E (ccm_a nonce ++ PUT_BE16 0)).
  assert (Bs0 : blk s0).
  { apply (cipher_blk (ctx:=ctx)). split; [apply Forall_app; split; [done | apply PUT_BE16_bytes] | rewrite length_app, La; done]. }
  assert (Lu : length u = Z.to_nat M) by (unfold zlen in Hu; lia).
  assert (Lx : length (take (Z.to_nat M) x) = Z.to_nat M) by (rewrite length_take, (proj2 B2); lia).
  assert (Lxu : length (xor_bytes u s0) = Z.to_nat M) by (rewrite xor_length_le; [lia | rewrite (proj2 Bs0); lia]).
  destruct (memcmp_const_spec (Z.to_nat M) x (xor_bytes u s0) 0) as (r & -> & _ & Hr).
  { rewrite (proj2 B2). lia. } { lia. } { lia. } { apply bytes_nonneg, B2. } { apply bytes_nonneg, xor_bytes_bytes; [done | apply Bs0]. }
  cbn [bind]. rewrite (firstn_all2 (xor_bytes u s0)) in Hr by lia. f_equal. f_equal.
  unfold ccm_tag. fold x s0. destruct (Z.eqb_spec r 0) as [E0|E0].
  - symmetry. apply bool_decide_eq_true. apply Hr in E0 as [_ E0]. rewrite E0. symmetry. apply xor_bytes_cancel. rewrite (proj2 Bs0). lia.
  - symmetry. apply bool_decide_eq_false. intros Eu. apply E0, Hr. split; [done|]. rewrite Eu. symmetry. apply xor_bytes_cancel.
    rewrite Lx, (proj2 Bs0). lia.
Qed.

(** ** Theorems *)

(** CCM is correct: with a key of AES, a nonce of thirteen bytes, at most thirty bytes of additional data and a
    code of eight or sixteen bytes, what [aes_ccm_ae] writes - text under the counter stream, then the code computed by
    chaining over the flags, the data and the text - is opened by [aes_ccm_ad] to the same text, and [aes_ccm_ad]
    accepts a message exactly when its code is the one of the text it opens to. *)
Theorem ccm_opens_what_it_seals key nonce M p aad u pre post room :
  aes_key key -> ccm_args M nonce -> bytes aad -> zlen aad <= 30 -> bytes p -> bytes u -> zlen u = M ->
  (length (pad16 p) + 16 <= length room)%nat ->
  let C := ccm_crypt (aes_cipher key) nonce p in
  let T := ccm_tag (aes_cipher key) M nonce aad p in
  (exists rest, aes_ccm_ae true key (zlen key) nonce M p 0 (zlen p) aad (zlen aad) room 0 (zlen p) = Ok (Some (C ++ T ++ rest))) /\
  (exists rest, aes_ccm_ad true key (zlen key) nonce M (pre ++ C ++ u ++ post) (zlen pre) (zlen C) aad (zlen aad)
      (zlen pre + zlen C) room = Ok (bool_decide (u = T), p ++ rest)).
Proof.
  intros Hk HA Hba Hla Hbp Hbu Hu Hroom C T. pose proof HA as (HM & Hbn & Hln).
  destruct (aes_context key Hk) as (ctx & _ & HC). split.
  - destruct (aes_ccm_ae_spec key nonce M [] p [] aad [] room) as (rest & H & _); try done; [lia|..].
    { destruct (pad16_length p) as (k & Hk16 & Hr). unfold zlen. destruct HM; lia. }
    rewrite app_nil_r in H. exists rest. exact H.
  - pose proof (ccm_crypt_length ctx _ nonce p Hbn Hln) as Lc. fold C in Lc.
    pose proof (ccm_crypt_bytes ctx _ nonce p Hbn Hln Hbp) as Bc. fold C in Bc.
    destruct (aes_ccm_ad_spec key nonce M pre C u post aad room) as (rest & H & _); try done.
    { unfold pad16, zeros in *. rewrite !length_app, !length_replicate in *. rewrite Lc. lia. }
    exists rest. rewrite H. subst C. rewrite (ccm_crypt_twice ctx _ nonce p Hbn Hln). done.
Qed.

(** ** Witnesses *)

(** Packet vector 1 of RFC 3610: eight bytes of additional data, 23 of text, a code of eight. *)
Definition ex_ccm_key : list Z := map (fun i => 0xc0 + Z.of_nat i) (seq 0 16).
Definition ex_ccm_nonce : list Z := [0; 0; 0; 3; 2; 1; 0; 0xa0; 0xa1; 0xa2; 0xa3; 0xa4; 0xa5].
Definition ex_ccm_aad : list Z := map Z.of_nat (seq 0 8).
Definition ex_ccm_text : list Z := map Z.of_nat (seq 8 23).
Definition ex_ccm_sealed : list Z :=
  [0x58; 0x8c; 0x97; 0x9a; 0x61; 0xc6; 0x63; 0xd2; 0xf0; 0x66; 0xd0; 0xc2; 0xc0; 0xf9; 0x89; 0x80;
   0x6d; 0x5f; 0x6b; 0x61; 0xda; 0xc3; 0x84].
Definition ex_ccm_code : list Z := [0x17; 0xe8; 0xd1; 0x2c; 0xfd; 0xf9; 0x26; 0xe0].

Lemma ccm_opens_what_it_seals_witness :
  (o <- aes_ccm_ae true ex_ccm_key 16 ex_ccm_nonce 8 ex_ccm_text 0 23 ex_ccm_aad 8 (zeros 64) 0 23 ;; Ok (take 31 <$> o)) =
    Ok (Some (ex_ccm_sealed ++ ex_ccm_code)) /\
  exists rest, aes_ccm_ae true ex_ccm_key 16 ex_ccm_nonce 8 ex_ccm_text 0 23 ex_ccm_aad 8 (zeros 64) 0 23 =
    Ok (Some (ccm_crypt (aes_cipher ex_ccm_key) ex_ccm_nonce ex_ccm_text ++
              ccm_tag (aes_cipher ex_ccm_key) 8 ex_ccm_nonce ex_ccm_aad ex_ccm_text ++ rest)).
Proof.
  split; [vm_compute; reflexivity|].
  apply (ccm_opens_what_it_seals ex_ccm_key ex_ccm_nonce 8 ex_ccm_text ex_ccm_aad ex_ccm_code [] [] (zeros 64)).
  - split; [apply bytes_by_compute; vm_compute; reflexivity | left; reflexivity].
  - split; [left; reflexivity | split; [apply bytes_by_compute; vm_compute; reflexivity | reflexivity]].
  - apply bytes_by_compute. vm_compute. reflexivity.
  - vm_compute. discriminate.
  - apply bytes_by_compute. vm_compute. reflexivity.
  - apply bytes_by_compute. vm_compute. reflexivity.
  - reflexivity.
  - apply Nat.leb_le. vm_compute. reflexivity.
Defined.
