(* ===== verification/Gf128.v ===== *)
(** * The field of 2^128 elements

    Blocks as numbers, and the field in which CMAC doubles and GHASH multiplies: polynomials over GF(2) modulo
    [x^128 + x^7 + x^2 + x + 1]. CMAC reads a block with the coefficient of [x^0] in its last bit, GHASH with the bits
    in the other order. *)
From Stdlib Require Import ZArith Lia Bool.
From stdpp Require Import base option list numbers.
From S2P Require Import Prelude Arc4 Words Aes Modes.
Local Open Scope Z_scope.

(** ** Definitions *)

(** A list of bytes as a number, highest byte first. *)
Definition be_num (l : list Z) : Z := fold_left (fun v b => 256 * v + b) l 0.

(** Multiplication by [x] modulo [x^128 + x^7 + x^2 + x + 1]. *)
Definition mulx (v : Z) : Z := Z.lxor ((2 * v) mod 2 ^ 128) (if 2 ^ 127 <=? v then 0x87 else 0).

(** The sum of [x^i b] over the coefficients [i < n] of [a]. *)
Fixpoint pmul (n : nat) (a b : Z) : Z :=
  match n with O => 0 | S n => Z.lxor (if Z.odd a then b else 0) (pmul n (a / 2) (mulx b)) end.

(** The low [n] bits, in the other order. *)
Fixpoint rev_bits (n : nat) (v : Z) : Z :=
  match n with O => 0 | S n => (if Z.odd v then 2 ^ Z.of_nat n else 0) + rev_bits n (v / 2) end.

(** The [n] bytes of a number. *)
Fixpoint num_bytes (n : nat) (v : Z) : list Z :=
  match n with O => [] | S n => num_bytes n (v / 256) ++ [v mod 256] end.

(** A block as GHASH reads it, and the product of two. *)
Definition poly (s : list Z) : Z := rev_bits 128 (be_num s).
Definition gmul (x y : list Z) : list Z := num_bytes 16 (rev_bits 128 (pmul 128 (poly x) (poly y))).

(** ** Lemmas: numbers *)

Lemma be_fold l : forall v, fold_left (fun v b => 256 * v + b) l v = v * 256 ^ zlen l + be_num l.
Proof.
  unfold be_num. induction l as [|b l IH]; intros v; [change (zlen []) with 0; cbn; lia|].
  cbn [fold_left]. rewrite IH, (IH (256 * 0 + b)), zlen_cons. pose proof (zlen_nonneg l). rewrite Z.pow_add_r by lia. lia.
Qed.

Lemma be_num_cons b l : be_num (b :: l) = b * 256 ^ zlen l + be_num l.
Proof. unfold be_num. cbn [fold_left]. rewrite be_fold. unfold be_num. lia. Qed.

Lemma be_num_snoc l b : be_num (l ++ [b]) = 256 * be_num l + b.
Proof. unfold be_num. rewrite fold_left_app. done. Qed.

Lemma be_num_range l : bytes l -> 0 <= be_num l < 256 ^ zlen l.
Proof.
  induction l as [|b l IH]; intros Hb; [change (zlen []) with 0; cbn; lia|]. apply Forall_cons_1 in Hb as [Hb Hl].
  rewrite be_num_cons, zlen_cons. pose proof (zlen_nonneg l). rewrite Z.pow_add_r by lia. specialize (IH Hl).
  unfold is_byte in Hb. nia.
Qed.

Lemma be_num_app a b : be_num (a ++ b) = be_num a * 256 ^ zlen b + be_num b.
Proof. unfold be_num. rewrite fold_left_app. apply be_fold. Qed.

Lemma num_be l : bytes l -> num_bytes (length l) (be_num l) = l.
Proof.
  induction l as [|b l IH] using rev_ind; intros Hb; [done|]. apply Forall_app in Hb as [Hl Hb]. apply Forall_cons_1 in Hb as [Hb _].
  rewrite length_app, Nat.add_comm. cbn [length Nat.add num_bytes]. rewrite be_num_snoc. unfold is_byte in Hb.
  replace ((256 * be_num l + b) / 256) with (be_num l) by (Z.div_mod_to_equations; lia).
  replace ((256 * be_num l + b) mod 256) with b by (Z.div_mod_to_equations; lia). rewrite IH by done. done.
Qed.

Lemma num_bytes_ok n : forall v, bytes (num_bytes n v) /\ length (num_bytes n v) = n.
Proof.
  induction n as [|n IH]; intros v; [split; [apply List.Forall_nil | done]|]. cbn [num_bytes]. destruct (IH (v / 256)) as [B Ln]. split.
  - apply Forall_app. split; [done|]. apply List.Forall_cons; [|apply List.Forall_nil]. apply Z.mod_pos_bound. lia.
  - rewrite length_app, Ln. cbn. lia.
Qed.

Lemma be_num_inj a b : bytes a -> bytes b -> length a = length b -> be_num a = be_num b -> a = b.
Proof. intros Ha Hb Hl H. rewrite <- (num_be a Ha), <- (num_be b Hb), Hl, H. done. Qed.

Lemma be_num_blk s : blk s -> 0 <= be_num s < 2 ^ 128.
Proof. intros H. pose proof (be_num_range s (proj1 H)) as R. rewrite (blk_zlen s H) in R. exact R. Qed.

Lemma be_num_W a b c d : be_num [a; b; c; d] = W a b c d.
Proof. unfold be_num, W, word_of. cbn [fold_left]. lia. Qed.

(** Two digits. *)
Lemma lxor_digits h h' b b' : is_byte b -> is_byte b' -> Z.lxor (256 * h + b) (256 * h' + b') = 256 * Z.lxor h h' + Z.lxor b b'.
Proof.
  intros Hb Hb'. pose proof (lxor_byte b b' Hb Hb') as Hx. unfold is_byte in *.
  assert (E : forall h b, 0 <= b < 256 -> 256 * h + b = b .| Z.shiftl h 8).
  { intros. rewrite (lor_shiftl_add _ _ 8) by (change (2 ^ 8) with 256; lia). lia. }
  rewrite !E by done. apply Z.bits_inj'. intros n Hn. rewrite Z.lxor_spec, !Z.lor_spec, !Z.shiftl_spec, !Z.lxor_spec by done.
  destruct (Z.ltb_spec n 8).
  - rewrite !(Z.testbit_neg_r _ (n - 8)) by lia. rewrite !orb_false_r. done.
  - rewrite (byte_testbit_above b), (byte_testbit_above b') by done. done.
Qed.

Lemma be_num_xor a : forall b, bytes a -> bytes b -> length a = length b -> be_num (xor_bytes a b) = Z.lxor (be_num a) (be_num b).
Proof.
  induction a as [|x a IH] using rev_ind; intros b Ha Hb Hl; [destruct b; [done | discriminate]|].
  destruct b as [|y b _] using rev_ind; [rewrite length_app in Hl; cbn in Hl; lia|].
  apply Forall_app in Ha as [Ha Hx]. apply Forall_app in Hb as [Hb Hy]. apply Forall_cons_1 in Hx as [Hx _]. apply Forall_cons_1 in Hy as [Hy _].
  rewrite !length_app in Hl. cbn [length] in Hl. rewrite xor_bytes_app by lia.
  change (xor_bytes [x] [y]) with [Z.lxor x y]. rewrite !be_num_snoc, lxor_digits, IH by (done || lia). done.
Qed.

(** ** Lemmas: bits *)

Lemma rev_bits_spec n : forall v, 0 <= rev_bits n v < 2 ^ Z.of_nat n /\
  forall i, 0 <= i < Z.of_nat n -> Z.testbit (rev_bits n v) i = Z.testbit v (Z.of_nat n - 1 - i).
Proof.
  induction n as [|n IH]; intros v; [split; [done | lia]|]. destruct (IH (v / 2)) as [R B].
  cbn [rev_bits]. set (k := Z.of_nat n) in *. replace (Z.of_nat (S n)) with (k + 1) by lia.
  assert (E : (if Z.odd v then 2 ^ k else 0) = (if Z.odd v then 1 else 0) * 2 ^ k) by (destruct (Z.odd v); lia).
  rewrite E, Z.add_comm, <- lor_shiftl_add by lia. split.
  - rewrite lor_shiftl_add by lia. rewrite Z.pow_add_r by lia. destruct (Z.odd v); lia.
  - intros i Hi. rewrite Z.lor_spec, Z.shiftl_spec by lia. destruct (Z.eq_dec i k) as [->|Hne].
    + rewrite Z.sub_diag, (testbit_above k) by lia. replace (k + 1 - 1 - k) with 0 by lia. rewrite (Z.bit0_odd v). destruct (Z.odd v); done.
    + rewrite (Z.testbit_neg_r _ (i - k)), orb_false_r, B by lia. change 2 with (2 ^ 1). rewrite Z.div_pow2_bits by lia. f_equal. lia.
Qed.

(** Numbers below [2^128] with the same bits. *)
Lemma bits_128 a b : 0 <= a < 2 ^ 128 -> 0 <= b < 2 ^ 128 ->
  (forall i, 0 <= i < 128 -> Z.testbit a i = Z.testbit b i) -> a = b.
Proof.
  intros Ha Hb H. apply Z.bits_inj'. intros i Hi. destruct (Z.ltb_spec i 128); [apply H; lia|].
  rewrite !(testbit_above 128) by lia. done.
Qed.

Lemma rev_128 v : 0 <= rev_bits 128 v < 2 ^ 128 /\ forall i, 0 <= i < 128 -> Z.testbit (rev_bits 128 v) i = Z.testbit v (127 - i).
Proof.
  destruct (rev_bits_spec 128 v) as [R B]. split; [exact R|]. intros i Hi. rewrite B by (change (Z.of_nat 128) with 128; lia).
  f_equal.
Qed.

Lemma rev_rev v : 0 <= v < 2 ^ 128 -> rev_bits 128 (rev_bits 128 v) = v.
Proof.
  intros Hv. apply bits_128; [apply rev_128 | done |]. intros i Hi. rewrite (proj2 (rev_128 _)), (proj2 (rev_128 _)) by lia. f_equal. lia.
Qed.

Lemma rev_lxor a b : rev_bits 128 (Z.lxor a b) = Z.lxor (rev_bits 128 a) (rev_bits 128 b).
Proof.
  apply bits_128; [apply rev_128 | apply (lxor_below 128); [lia | apply rev_128 | apply rev_128] |]. intros i Hi.
  rewrite Z.lxor_spec, !(proj2 (rev_128 _)), Z.lxor_spec by lia. done.
Qed.

Lemma mulx_bit v i : 0 <= v < 2 ^ 128 -> 0 <= i < 128 ->
  Z.testbit (mulx v) i = xorb (if i =? 0 then false else Z.testbit v (i - 1)) (Z.testbit v 127 && Z.testbit 0x87 i).
Proof.
  intros Hv Hi. unfold mulx. rewrite Z.lxor_spec, Z.mod_pow2_bits_low by lia. f_equal.
  - destruct (Z.eqb_spec i 0) as [->|Hne]; [apply Z.testbit_even_0|].
    replace i with (Z.succ (i - 1)) by lia. rewrite Z.testbit_even_succ by lia. f_equal. lia.
  - assert (E : Z.testbit v 127 = (2 ^ 127 <=? v)).
    { rewrite Z.testbit_eqb by lia. destruct (Z.leb_spec (2 ^ 127) v) as [H|H].
      - replace (v / 2 ^ 127) with 1; [done|]. apply (Z.div_unique _ _ _ (v - 2 ^ 127)); [left; change (2 ^ 128) with (2 * 2 ^ 127) in Hv; lia | lia].
      - rewrite Z.div_small by lia. done. }
    rewrite E. destruct (2 ^ 127 <=? v); [done|]. rewrite Z.bits_0. done.
Qed.

Lemma mulx_range v : 0 <= v < 2 ^ 128 -> 0 <= mulx v < 2 ^ 128.
Proof.
  intros Hv. unfold mulx. apply (lxor_below 128); [lia | apply Z.mod_pos_bound; lia|].
  destruct (2 ^ 127 <=? v); [|lia]. change (2 ^ 128) with 340282366920938463463374607431768211456. lia.
Qed.

(** Multiplication by [x], on the bits in the other order: to the right, with [0xe1] at the top. *)
Lemma mulx_reversed v : 0 <= v < 2 ^ 128 ->
  rev_bits 128 (Z.lxor (v / 2) (if Z.odd v then 0xe1 * 2 ^ 120 else 0)) = mulx (rev_bits 128 v).
Proof.
  intros Hv. apply bits_128; [apply rev_128 | apply mulx_range, rev_128 |]. intros i Hi.
  rewrite mulx_bit by (lia || apply rev_128). rewrite !(proj2 (rev_128 _)), Z.lxor_spec by lia.
  replace (Z.testbit (v / 2) (127 - i)) with (if i =? 0 then false else Z.testbit (rev_bits 128 v) (i - 1)).
  2: { change 2 with (2 ^ 1) at 1. rewrite Z.div_pow2_bits by lia. destruct (Z.eqb_spec i 0) as [->|Hne].
       - rewrite (testbit_above 128) by lia. done.
       - rewrite (proj2 (rev_128 _)) by lia. f_equal. lia. }
  f_equal. rewrite (proj2 (rev_128 v)) by lia. change (127 - 127) with 0. rewrite Z.bit0_odd. destruct (Z.odd v); [|rewrite Z.bits_0; done]. cbn [andb].
  destruct (Z.ltb_spec i 8) as [H8|H8].
  - assert (i = 0 \/ i = 1 \/ i = 2 \/ i = 3 \/ i = 4 \/ i = 5 \/ i = 6 \/ i = 7) as Hc by lia.
    destruct Hc as [->|[->|[->|[->|[->|[->|[->| ->]]]]]]]; vm_compute; reflexivity.
  - rewrite (byte_testbit_above 0x87) by (unfold is_byte; lia). rewrite Z.mul_pow2_bits by lia. apply Z.testbit_neg_r. lia.
Qed.

(** ** Lemmas: the product *)

Lemma pmul_range n : forall a b, 0 <= b < 2 ^ 128 -> 0 <= pmul n a b < 2 ^ 128.
Proof.
  induction n as [|n IH]; intros a b Hb; [cbn; lia|]. cbn [pmul].
  apply (lxor_below 128); [lia | destruct (Z.odd a); [done | lia] | apply IH, mulx_range, Hb].
Qed.

Lemma poly_range s : 0 <= poly s < 2 ^ 128.
Proof. apply rev_128. Qed.

Lemma poly_xor a b : blk a -> blk b -> poly (xor_bytes a b) = Z.lxor (poly a) (poly b).
Proof. intros [Ba La] [Bb Lb]. unfold poly. rewrite be_num_xor by (done || congruence). apply rev_lxor. Qed.

(** A block is determined by its polynomial. *)
Lemma poly_block s v : blk s -> poly s = v -> s = num_bytes 16 (rev_bits 128 v).
Proof.
  intros Hs <-. unfold poly. rewrite rev_rev by (apply be_num_blk, Hs). rewrite <- (proj2 Hs). symmetry. apply num_be, Hs.
Qed.

Lemma gmul_blk x y : blk (gmul x y).
Proof. unfold gmul, blk. apply num_bytes_ok. Qed.
