(* ===== verification/Omac.v ===== *)
(** * CMAC

    Models [core/crypto/aes-omac1.c]. The data is a vector of areas, which the code walks with one pointer. The
    specification is CMAC (SP 800-38B) of the concatenation, its subkeys as multiplication by [x] of a 128-bit number. *)
From Stdlib Require Import ZArith Lia Bool.
From stdpp Require Import base option list numbers.
From S2P Require Import Prelude Arc4 Aes Modes Gf128.
Local Open Scope Z_scope.

(** ** The code *)

(* src: core/crypto/aes-omac1.c:15-25 gf_mulx *)
Definition gf_mulx (pad : list Z) : res (list Z) :=
  p0 <- rd pad 0 ;;
  let carry := p0 & 0x80 in
  pad <- for_up (fun i pad => x <- rd pad i ;; y <- rd pad (i + 1) ;;
                              wr pad i (u8 (Z.shiftl x 1 .| Z.shiftr y 7)))
           (Z.to_nat (AES_BLOCK_SIZE - 1)) 0 pad ;;
  x <- rd pad (AES_BLOCK_SIZE - 1) ;;
  let x := u8 (Z.shiftl x 1) in
  wr pad (AES_BLOCK_SIZE - 1) (if carry =? 0 then x else Z.lxor x 0x87).

(** Where [pos] points: the area [e], and the offset in it; [end] is the length of the area. *)
Record cursor : Type := mkCur { cur_e : Z; cur_pos : Z }.

(** [*pos++], and on to the next area at the end of one, unless there is none to come. *)
(* src: core/crypto/aes-omac1.c:69-81 omac1_aes_vector *)
Definition next_byte (addr : list (list Z)) (stop : bool) (c : cursor) : res (Z * cursor) :=
  a <- rd addr (cur_e c) ;;
  b <- rd a (cur_pos c) ;;
  let pos := cur_pos c + 1 in
  if (zlen a <=? pos) && negb stop then
    _ <- rd addr (cur_e c + 1) ;; Ok (b, mkCur (cur_e c + 1) 0)
  else Ok (b, mkCur (cur_e c) pos).

(** [n] bytes into [cbc]; [lft] bytes are left before them. *)
(* src: core/crypto/aes-omac1.c:93-106 omac1_aes_vector *)
Definition xor_turns (addr : list (list Z)) (lft : Z) (n : nat) (st : list Z * cursor) : res (list Z * cursor) :=
  for_up (fun i st =>
            let '(cbc, c) := st in
            '(b, c) <- next_byte addr (i + 1 =? lft) c ;;
            x <- rd cbc i ;;
            cbc <- wr cbc i (Z.lxor x b) ;;
            Ok (cbc, c)) n 0 st.

(* src: core/crypto/aes-omac1.c:67-86 omac1_aes_vector *)
Definition omac_turn (ctx : aes_ctx) (addr : list (list Z)) (st : Z * (list Z * cursor))
    : res ((Z * (list Z * cursor)) + (Z * (list Z * cursor))) :=
  let '(lft, st) := st in
  if negb (AES_BLOCK_SIZE <=? lft) then Ok (inr (lft, st))
  else
    '(x, c) <- xor_turns addr lft (Z.to_nat AES_BLOCK_SIZE) st ;;
    x <- (if AES_BLOCK_SIZE <? lft then aes_encrypt ctx x else Ok x) ;;
    Ok (inl (lft - AES_BLOCK_SIZE, (x, c))).

(** [None]: -1. *)
(* src: core/crypto/aes-omac1.c:42-116 omac1_aes_vector *)
Definition omac1_aes_vector (alloc : bool) (key : list Z) (key_len : Z) (addr : list (list Z)) : res (option (list Z)) :=
  ctx <- aes_encrypt_init alloc key key_len ;;
  match ctx with
  | None => Ok None
  | Some ctx =>
      let total_len := zlen (concat addr) in
      _ <- rd addr 0 ;;
      '(lft, st) <- loop (omac_turn ctx addr) (S (length (concat addr))) (total_len, (zeros 16, mkCur 0 0)) ;;
      pad <- aes_encrypt ctx (zeros 16) ;;
      pad <- gf_mulx pad ;;
      '(cbc, pad) <- (if negb (lft =? 0) || (total_len =? 0) then
                        '(cbc, _) <- xor_turns addr lft (Z.to_nat lft) st ;;
                        x <- rd cbc lft ;;
                        cbc <- wr cbc lft (Z.lxor x 0x80) ;;
                        pad <- gf_mulx pad ;;
                        Ok (cbc, pad)
                      else Ok (fst st, pad)) ;;
      mac <- aes_encrypt ctx (xor_bytes pad cbc) ;;
      Ok (Some mac)
  end.

(* src: core/crypto/aes-omac1.c:151-154 omac1_aes_128 *)
Definition omac1_aes_128 (alloc : bool) (key data : list Z) : res (option (list Z)) := omac1_aes_vector alloc key 16 [data].

(* src: core/crypto/aes-omac1.c:169-172 omac1_aes_256 *)
Definition omac1_aes_256 (alloc : bool) (key data : list Z) : res (option (list Z)) := omac1_aes_vector alloc key 32 [data].

(** ** Specification *)

(** [k1] and [k2] are blocks that read as [mulx] and [mulx (mulx _)] of [E 0]. *)
Definition subkeys (E : list Z -> list Z) (k1 k2 : list Z) : Prop :=
  blk k1 /\ blk k2 /\ be_num k1 = mulx (be_num (E (zeros 16))) /\ be_num k2 = mulx (be_num k1).

(** The blocks before the last, and the last. *)
Definition last_block (m : list Z) : list Z :=
  if (length m =? 0)%nat then [] else if (length m mod 16 =? 0)%nat then drop (length m - 16) m else drop (length m - length m mod 16) m.
Definition before_last (m : list Z) : list Z := take (length m - length (last_block m)) m.

Definition cmac (E : list Z -> list Z) (k1 k2 m : list Z) : list Z :=
  let y := cbc E (zeros 16) (blocks (before_last m)) in
  let l := last_block m in
  E (xor_bytes y (if (length l =? 16)%nat then xor_bytes l k1
                  else xor_bytes (l ++ [0x80] ++ zeros (15 - length l)) k2)).

(** ** Lemmas: the subkeys *)

(** Shifting a list of bytes left by one bit. *)
Fixpoint shl1 (l : list Z) : list Z :=
  match l with
  | [] => []
  | x :: l' => (2 * x) mod 256 + (match l' with [] => 0 | y :: _ => y / 128 end) :: shl1 l'
  end.

Lemma shl1_length l : length (shl1 l) = length l.
Proof. induction l as [|x l IH]; [done|]. cbn [shl1 length]. rewrite IH. done. Qed.

Lemma even_mod x : (2 * x) mod 256 = 2 * (x mod 128).
Proof. change 256 with (2 * 128). apply Z.mul_mod_distr_l; lia. Qed.

Lemma shl1_num l : bytes l -> be_num (shl1 l) = (2 * be_num l) mod 256 ^ zlen l /\ bytes (shl1 l).
Proof.
  induction l as [|x l IH]; intros Hb; [split; [done | apply List.Forall_nil]|].
  apply Forall_cons_1 in Hb as [Hx Hl]. destruct (IH Hl) as [IHn IHb]. pose proof (be_num_range l Hl) as R.
  cbn [shl1]. set (h := match l with [] => 0 | y :: _ => y / 128 end). pose proof (zlen_nonneg l) as Hz.
  set (P := 256 ^ zlen l) in *. assert (HP : 0 < P) by (apply Z.pow_pos_nonneg; lia).
  assert (Hh : 2 * be_num l / P = h).
  { destruct l as [|y l']; [subst h P; done|]. subst h. apply Forall_cons_1 in Hl as [Hy Hl'].
    pose proof (be_num_range l' Hl') as R'. rewrite be_num_cons. unfold P. rewrite zlen_cons, Z.pow_add_r by (pose proof (zlen_nonneg l'); lia).
    set (Q := 256 ^ zlen l') in *. change (256 ^ 1) with 256. assert (HQ : 0 < Q) by (apply Z.pow_pos_nonneg; [lia | apply zlen_nonneg]).
    symmetry. apply (Z.div_unique _ _ _ (2 * (y mod 128) * Q + 2 * be_num l')).
    - left. pose proof (Z.mod_pos_bound y 128 ltac:(lia)). nia.
    - pose proof (Z.div_mod y 128 ltac:(lia)). nia. }
  assert (Hh01 : 0 <= h <= 1).
  { rewrite <- Hh. split; [apply Z.div_pos; lia|]. assert (2 * be_num l / P < 2) by (apply Z.div_lt_upper_bound; lia). lia. }
  rewrite even_mod. pose proof (Z.mod_pos_bound x 128 ltac:(lia)) as Hm. split.
  - rewrite be_num_cons, IHn. replace (zlen (shl1 l)) with (zlen l) by (unfold zlen; rewrite shl1_length; done). fold P.
    rewrite be_num_cons, zlen_cons, Z.pow_add_r by lia. change (256 ^ 1) with 256. fold P.
    rewrite <- Hh. apply (Z.mod_unique _ _ (x / 128)).
    + left. pose proof (Z.mod_pos_bound (2 * be_num l) P HP). nia.
    + pose proof (Z.div_mod (2 * be_num l) P ltac:(lia)). pose proof (Z.div_mod x 128 ltac:(lia)). nia.
  - apply List.Forall_cons; [|done]. unfold is_byte. lia.
Qed.

Lemma shift_byte x y : is_byte x -> is_byte y -> u8 (Z.shiftl x 1 .| Z.shiftr y 7) = (2 * x) mod 256 + y / 128.
Proof.
  intros Hx Hy. unfold is_byte in *. assert (Hd : 0 <= y / 128 < 2) by (split; [apply Z.div_pos; lia | apply Z.div_lt_upper_bound; lia]).
  rewrite Z.shiftr_div_pow2, Z.lor_comm by lia. change (2 ^ 7) with 128. rewrite lor_shiftl_add by lia. change (2 ^ 1) with 2.
  unfold u8. change (2 ^ 8) with 256. rewrite even_mod. symmetry. apply (Z.mod_unique _ _ (x / 128)).
  - left. pose proof (Z.mod_pos_bound x 128 ltac:(lia)). lia.
  - pose proof (Z.div_mod x 128 ltac:(lia)). lia.
Qed.

Lemma lxor_low h b c : is_byte b -> is_byte c -> Z.lxor (256 * h + b) c = 256 * h + Z.lxor b c.
Proof.
  intros Hb Hc. replace (256 * h + b) with (b + h * 2 ^ 8) by lia. replace (256 * h + Z.lxor b c) with (Z.lxor b c + h * 2 ^ 8) by lia.
  rewrite <- !lor_shiftl_add by first [lia | apply lxor_byte; done | done].
  apply Z.bits_inj'. intros n Hn. rewrite Z.lxor_spec, !Z.lor_spec, Z.lxor_spec. destruct (Z.ltb_spec n 8).
  - rewrite Z.shiftl_spec_low by done. rewrite !orb_false_r. done.
  - rewrite (byte_testbit_above c), (byte_testbit_above b) by done. rewrite !xorb_false_r. done.
Qed.

Lemma mulx_loop rest : forall pre x, bytes (x :: rest) ->
  exists w b, for_up (fun i pad => x <- rd pad i ;; y <- rd pad (i + 1) ;; wr pad i (u8 (Z.shiftl x 1 .| Z.shiftr y 7)))
      (length rest) (zlen pre) (pre ++ x :: rest) = Ok (pre ++ w ++ [b]) /\
    length w = length rest /\ is_byte b /\ shl1 (x :: rest) = w ++ [(2 * b) mod 256].
Proof.
  induction rest as [|y rest IH]; intros pre x Hb; apply Forall_cons_1 in Hb as [Hx Hb].
  { exists [], x. cbn [shl1]. rewrite Z.add_0_r. done. }
  cbn [length for_up]. rewrite rd_mid. cbn [bind].
  assert (R : rd (pre ++ x :: y :: rest) (zlen pre + 1) = Ok y).
  { replace (pre ++ x :: y :: rest) with ((pre ++ [x]) ++ y :: rest) by (rewrite <- app_assoc; done).
    replace (zlen pre + 1) with (zlen (pre ++ [x])) by (rewrite zlen_app; done). apply rd_mid. }
  rewrite R. cbn [bind]. rewrite wr_mid. cbn [bind].
  rewrite shift_byte by (done || (apply Forall_cons_1 in Hb as [Hy _]; done)).
  set (z := (2 * x) mod 256 + y / 128). destruct (IH (pre ++ [z]) y Hb) as (w & b & F & Lw & Bb & S).
  exists (z :: w), b. replace (zlen pre + 1) with (zlen (pre ++ [z])) by (rewrite zlen_app; done).
  replace (pre ++ z :: y :: rest) with ((pre ++ [z]) ++ y :: rest) by (rewrite <- app_assoc; done).
  rewrite F, <- !app_assoc. split; [done|]. split; [cbn; congruence|]. split; [done|].
  change (shl1 (x :: y :: rest)) with (z :: shl1 (y :: rest)). rewrite S. done.
Qed.

Lemma carry_bit x : is_byte x -> (x & 0x80 =? 0) = negb (128 <=? x).
Proof.
  intros Hx. apply eqb_prop. apply (all_bytes (fun x => eqb (x & 0x80 =? 0) (negb (128 <=? x)))); [vm_compute; reflexivity | done].
Qed.

Lemma gf_mulx_spec pad : blk pad -> exists r, gf_mulx pad = Ok r /\ blk r /\ be_num r = mulx (be_num pad).
Proof.
  intros [Hb Hl]. destruct pad as [|x rest]; [discriminate|]. injection Hl as Hl.
  destruct (mulx_loop rest [] x Hb) as (w & b & F & Lw & Bb & S). cbn [app] in F. change (zlen []) with 0 in F.
  destruct (shl1_num (x :: rest) Hb) as [N NB]. rewrite S in N, NB.
  assert (Z15 : zlen w = 15) by (unfold zlen; lia). assert (Zp : zlen (x :: rest) = 16) by (unfold zlen; cbn [length]; lia).
  unfold gf_mulx. assert (R0 : rd (x :: rest) 0 = Ok x) by reflexivity. rewrite R0. cbn [bind]. cbv zeta.
  replace (Z.to_nat (AES_BLOCK_SIZE - 1)) with (length rest) by (unfold AES_BLOCK_SIZE; lia). rewrite F. cbn [bind].
  change (AES_BLOCK_SIZE - 1) with 15. rewrite <- Z15, rd_mid. cbn [bind]. cbv zeta. rewrite wr_mid.
  apply Forall_app in NB as [NBw NBb]. apply Forall_cons_1 in NBb as [NBb _].
  assert (Eb : u8 (Z.shiftl b 1) = (2 * b) mod 256) by (unfold u8; rewrite Z.shiftl_mul_pow2 by lia; change (2 ^ 1) with 2; rewrite Z.mul_comm; done).
  rewrite Eb. apply Forall_cons_1 in Hb as [Hx Hrest]. rewrite carry_bit by done.
  pose proof (be_num_range rest Hrest) as R. replace (zlen rest) with 15 in R by (unfold zlen; lia).
  assert (Hc : (2 ^ 127 <=? be_num (x :: rest)) = (128 <=? x)).
  { rewrite be_num_cons. replace (zlen rest) with 15 by (unfold zlen; lia). change (256 ^ 15) with (2 ^ 120) in *.
    change (2 ^ 127) with (128 * 2 ^ 120). unfold is_byte in Hx. destruct (Z.leb_spec 128 x); [apply Z.leb_le | apply Z.leb_gt]; nia. }
  rewrite Zp, be_num_snoc in N. change (256 ^ 16) with (2 ^ 128) in N.
  eexists. split; [reflexivity|]. unfold mulx. rewrite Hc, <- N. assert (B87 : is_byte 0x87) by (unfold is_byte; lia).
  destruct (128 <=? x); cbn [negb].
  - split; [split; [apply Forall_app; split; [done|]; apply List.Forall_cons; [apply lxor_byte; done | apply List.Forall_nil] | rewrite length_app; cbn; lia]|].
    rewrite be_num_snoc, lxor_low by done. done.
  - split; [split; [apply Forall_app; split; [done|]; apply List.Forall_cons; [done | apply List.Forall_nil] | rewrite length_app; cbn; lia]|].
    rewrite be_num_snoc, Z.lxor_0_r. done.
Qed.

(** ** Lemmas: walking the areas *)

(** The bytes from the cursor on. *)
Definition at_cur (addr : list (list Z)) (c : cursor) (l : list Z) : Prop :=
  exists pre x y post, addr = pre ++ (x ++ y) :: post /\ cur_e c = zlen pre /\ cur_pos c = zlen x /\
    l = y ++ concat post /\ (l <> [] -> y <> []) /\ Forall (fun a => a <> []) post.

Lemma next_byte_spec addr c b l stop : at_cur addr c (b :: l) -> (stop = true <-> l = []) ->
  exists c', next_byte addr stop c = Ok (b, c') /\ at_cur addr c' l.
Proof.
  intros (pre & x & y & post & -> & He & Hp & Hl & Hne & Hpost) Hs.
  destruct y as [|b' y]; [exfalso; apply (Hne ltac:(discriminate)); done|]. injection Hl as <- Hl.
  unfold next_byte. rewrite He, rd_mid. cbn [bind]. rewrite Hp, rd_mid. cbn [bind].
  assert (Hz : zlen (x ++ b :: y) = zlen x + 1 + zlen y) by (rewrite zlen_app, zlen_cons; lia). rewrite Hz.
  pose proof (zlen_nonneg y). destruct (Z.leb_spec (zlen x + 1 + zlen y) (zlen x + 1)) as [Hle|Hgt]; cbn [andb].
  - assert (y = []) as -> by (destruct y; [done | rewrite zlen_cons in *; pose proof (zlen_nonneg y); lia]). cbn [app] in Hl.
    destruct stop; cbn [negb].
    + eexists. split; [reflexivity|]. exists pre, (x ++ [b]), [], post. rewrite <- app_assoc, app_nil_r, zlen_app.
      assert (l = []) by tauto. split; [done|]. split; [done|]. split; [done|]. split; [done|]. split; [done | exact Hpost].
    + destruct post as [|a post]; [cbn in Hl; assert (false = true) by tauto; discriminate|].
      assert (R : rd (pre ++ (x ++ [b]) :: a :: post) (zlen pre + 1) = Ok a).
      { replace (pre ++ (x ++ [b]) :: a :: post) with ((pre ++ [x ++ [b]]) ++ a :: post) by (rewrite <- app_assoc; done).
        replace (zlen pre + 1) with (zlen (pre ++ [x ++ [b]])) by (rewrite zlen_app; done). apply rd_mid. }
      rewrite R. cbn [bind]. eexists. split; [reflexivity|]. apply Forall_cons_1 in Hpost as [Ha Hpost].
      exists (pre ++ [x ++ [b]]), [], a, post. rewrite <- app_assoc, zlen_app. cbn [cur_e cur_pos app].
      split; [done|]. split; [done|]. split; [done|]. split; [exact Hl|]. split; [intros; done | done].
  - eexists. split; [reflexivity|]. exists pre, (x ++ [b]), y, post. rewrite <- app_assoc, zlen_app. cbn [cur_e cur_pos app].
    split; [done|]. split; [done|]. split; [done|]. split; [done|]. split; [|done].
    intros _ ->. rewrite zlen_nil in Hgt. lia.
Qed.

Lemma xor_bytes_snoc a b x y : length a = length b -> xor_bytes (a ++ [x]) (b ++ [y]) = xor_bytes a b ++ [Z.lxor x y].
Proof. intros H. rewrite xor_bytes_app by done. done. Qed.

Lemma xor_turns_spec addr d : forall l c cbc lft, at_cur addr c (d ++ l) -> lft = zlen (d ++ l) -> (length d <= length cbc)%nat ->
  exists c', xor_turns addr lft (length d) (cbc, c) = Ok (xor_bytes (take (length d) cbc) d ++ drop (length d) cbc, c') /\ at_cur addr c' l.
Proof.
  intros l c cbc lft Hc Hlft Hd. unfold xor_turns.
  match goal with |- context [for_up ?f _ _ _] => destruct (for_up_spec f (fun j st => at_cur addr (snd st) (drop (Z.to_nat j) d ++ l) /\
    fst st = xor_bytes (take (Z.to_nat j) cbc) (take (Z.to_nat j) d) ++ drop (Z.to_nat j) cbc) (length d) 0 (cbc, c)) as ([x c'] & F & Ha & Hx) end.
  - intros j [x c1] Hj [Ha Hx]. cbn [fst snd] in *. set (k := Z.to_nat j) in *. assert (Hk : (k < length d)%nat) by lia.
    destruct (drop_S_exists d k Hk) as (b & Eb & Tb). destruct (drop_S_exists cbc k ltac:(lia)) as (a & Ea & Ta).
    rewrite Eb in Ha. assert (Hstop : (j + 1 =? lft) = true <-> drop (S k) d ++ l = []).
    { rewrite Z.eqb_eq, Hlft, zlen_app. pose proof (length_drop d (S k)) as Ld. unfold zlen. split; intros H.
      - apply nil_length_inv. rewrite length_app. lia.
      - apply (f_equal length) in H. rewrite length_app in H. cbn [length] in H. lia. }
    destruct (next_byte_spec addr c1 b _ (j + 1 =? lft) Ha Hstop) as (c2 & -> & Hc2). cbn [bind].
    assert (Lk : length (xor_bytes (take k cbc) (take k d)) = k) by (rewrite xor_bytes_length; rewrite ?length_take; lia).
    replace j with (zlen (xor_bytes (take k cbc) (take k d))) by (unfold zlen; lia). rewrite Hx, Ea, rd_mid. cbn [bind]. rewrite wr_mid. cbn [bind].
    eexists. split; [reflexivity|]. cbn [fst snd]. replace (Z.to_nat (zlen (xor_bytes (take k cbc) (take k d)) + 1)) with (S k) by (unfold zlen; lia).
    split; [exact Hc2|]. rewrite Ta, Tb, xor_bytes_snoc by (rewrite !length_take; lia). rewrite <- app_assoc. done.
  - split; [exact Hc | done].
  - cbn [fst snd] in *. replace (Z.to_nat (0 + Z.of_nat (length d))) with (length d) in * by lia.
    exists c'. rewrite F. rewrite drop_all in Ha. rewrite (firstn_all d) in Hx. rewrite Hx. done.
Qed.

(** ** Lemmas: the blocks *)

Section Run.
  Context (ctx : aes_ctx) (E : list Z -> list Z) `{HE : !CipherOk ctx E}.

(** The state after the whole blocks [w]: the last of them is added but not yet encrypted when nothing follows. *)
Definition after_blocks (k : nat) (y w t : list Z) : list Z :=
  match t, k with
  | [], S k' => xor_bytes (cbc E y (blocks (take (16 * k') w))) (drop (16 * k') w)
  | _, _ => cbc E y (blocks w)
  end.

Lemma omac_loop addr k : forall w t y c fuel, bytes w -> length w = (16 * k)%nat -> (length t < 16)%nat ->
  at_cur addr c (w ++ t) -> (k < fuel)%nat -> blk y ->
  exists c', loop (omac_turn ctx addr) fuel (zlen (w ++ t), (y, c)) = Ok (zlen t, (after_blocks k y w t, c')) /\
    at_cur addr c' t /\ blk (after_blocks k y w t).
Proof.
  induction k as [|k IH]; intros w t y c fuel Hb Hw Ht Hc Hf Hy; (destruct fuel as [|fuel]; [lia|]); rewrite loop_S; unfold omac_turn at 1, AES_BLOCK_SIZE.
  - destruct w; [|discriminate]. cbn [app] in *. rewrite (proj2 (Z.leb_gt 16 (zlen t))) by (unfold zlen; lia). cbn [negb].
    exists c. assert (Ea : after_blocks 0 y [] t = y) by (destruct t; done). rewrite Ea. done.
  - destruct (first_block k w Hb Hw) as (b & w' & -> & Bb & Hb' & Hw'). assert (Zb : zlen b = 16) by (apply blk_zlen; done).
    pose proof (zlen_nonneg (w' ++ t)) as Hz. assert (Hzz : zlen ((b ++ w') ++ t) = 16 + zlen (w' ++ t)) by (rewrite <- app_assoc, zlen_app, Zb; done).
    rewrite Hzz. rewrite (proj2 (Z.leb_le 16 _)) by lia. cbn [negb].
    rewrite <- app_assoc in Hc. destruct (xor_turns_spec addr b (w' ++ t) c y (16 + zlen (w' ++ t))) as (c1 & F & Hc1);
      [exact Hc | rewrite (zlen_app b), Zb; done | rewrite (proj2 Bb), (proj2 Hy); done |].
    replace (Z.to_nat 16) with (length b) by (rewrite (proj2 Bb); done). rewrite F. clear F. cbn [bind].
    rewrite (firstn_all2 y), (drop_ge y), app_nil_r by (rewrite (proj2 Bb), (proj2 Hy); lia). pose proof (xor_blk y b Hy Bb) as Bx.
    destruct (Z.ltb_spec 16 (16 + zlen (w' ++ t))) as [Hlt|Hge].
    + rewrite (cipher_run _ Bx). cbn [bind]. replace (16 + zlen (w' ++ t) - 16) with (zlen (w' ++ t)) by lia.
      pose proof (cipher_blk (ctx:=ctx) _ Bx) as By.
      destruct (IH w' t (E (xor_bytes y b)) c1 fuel Hb' Hw' Ht Hc1 ltac:(lia) By) as (c' & F & Hc' & B'). exists c'. rewrite F.
      assert (Ea : after_blocks (S k) y (b ++ w') t = after_blocks k (E (xor_bytes y b)) w' t); [|rewrite Ea; done].
      unfold after_blocks. destruct t as [|t0 t]; [|rewrite blocks_cons by done; done].
      destruct k as [|k']; [destruct w'; [change (zlen ([] ++ [])) with 0 in Hlt; lia | discriminate]|].
      replace (16 * S k')%nat with (length b + 16 * k')%nat by (rewrite (proj2 Bb); lia).
      rewrite take_app_add', drop_app_add' by done. rewrite blocks_cons by done. done.
    + assert (w' ++ t = []) as Hnil by (destruct (w' ++ t); [done | rewrite zlen_cons in *; pose proof (zlen_nonneg l); lia]).
      apply app_eq_nil in Hnil as [-> ->]. cbn [bind app]. change (zlen []) with 0. change (16 + 0 - 16) with 0.
      destruct k; [|discriminate]. cbn [app] in Hc1. exists c1. destruct fuel as [|fuel]; [lia|]. rewrite loop_S. unfold omac_turn. cbn [AES_BLOCK_SIZE].
      cbn [Z.leb Z.compare negb]. unfold after_blocks. cbn [Nat.mul take drop blocks]. rewrite app_nil_r. cbn.
      split; [done|]. split; done.
Qed.
End Run.

Lemma zeros16_blk : blk (zeros 16).
Proof. split; [apply bytes_by_compute; reflexivity | reflexivity]. Qed.

(** The areas as they are passed: none is empty, or there is one. *)
Definition areas_ok (addr : list (list Z)) : Prop :=
  Forall bytes addr /\ addr <> [] /\ (Forall (fun a => a <> []) addr \/ length addr = 1%nat).

Lemma start_cur addr : areas_ok addr -> at_cur addr (mkCur 0 0) (concat addr) /\ exists a, rd addr 0 = Ok a.
Proof.
  intros (_ & Hne & H). destruct addr as [|a addr]; [done|]. split; [|exists a; reflexivity].
  exists [], [], a, addr. split; [done|]. split; [done|]. split; [done|]. split; [done|].
  destruct H as [H|H].
  - apply Forall_cons_1 in H as [Ha H]. done.
  - destruct addr; [|discriminate]. split; [|apply List.Forall_nil]. cbn. rewrite app_nil_r. done.
Qed.

(** The last block of a message. *)
Lemma split_last (w t : list Z) k : length w = (16 * k)%nat -> (length t < 16)%nat ->
  (t <> [] -> last_block (w ++ t) = t /\ before_last (w ++ t) = w) /\
  (t = [] -> w <> [] -> last_block w = drop (16 * (k - 1)) w /\ before_last w = take (16 * (k - 1)) w).
Proof.
  intros Hw Ht. split.
  - intros Hne. assert (Hl : (length t <> 0)%nat) by (destruct t; done).
    assert (Hm : (length (w ++ t) mod 16 = length t)%nat).
    { rewrite length_app, Hw, Nat.mul_comm, Nat.add_comm, Nat.Div0.mod_add. apply Nat.mod_small. done. }
    assert (Hlast : last_block (w ++ t) = t).
    { unfold last_block. rewrite Hm. rewrite (proj2 (Nat.eqb_neq (length (w ++ t)) 0)) by (rewrite length_app; lia).
      rewrite (proj2 (Nat.eqb_neq (length t) 0)) by done. apply drop_app_length'. rewrite length_app. lia. }
    split; [done|]. unfold before_last. rewrite Hlast. apply take_app_length'. rewrite length_app. lia.
  - intros -> Hne. destruct k as [|k]; [destruct w; done|].
    assert (Hlast : last_block w = drop (16 * (S k - 1)) w).
    { unfold last_block. rewrite Hw. rewrite (proj2 (Nat.eqb_neq (16 * S k) 0)) by lia.
      replace ((16 * S k) mod 16)%nat with 0%nat by (rewrite Nat.mul_comm, Nat.Div0.mod_mul; done). cbn [Nat.eqb]. f_equal. lia. }
    split; [done|]. unfold before_last. rewrite Hlast, length_drop, Hw. f_equal. lia.
Qed.

Lemma pad_last x t : blk x -> (length t < 16)%nat ->
  exists z, drop (length t) x = z :: drop (S (length t)) x /\
    xor_bytes x (t ++ [0x80] ++ zeros (15 - length t)) =
      xor_bytes (take (length t) x) t ++ Z.lxor z 0x80 :: drop (S (length t)) x.
Proof.
  intros [_ Hx] Ht. destruct (drop_S_exists x (length t) ltac:(lia)) as (z & Ed & _). exists z. split; [exact Ed|].
  rewrite <- (take_drop (length t) x) at 1. rewrite Ed, xor_bytes_app by (rewrite length_take; lia). f_equal. cbn [app].
  change (xor_bytes (z :: ?a) (?b :: ?c)) with (Z.lxor z b :: xor_bytes a c). f_equal.
  replace (15 - length t)%nat with (length (drop (S (length t)) x)) by (rewrite length_drop; lia). apply xor_zeros_r.
Qed.

Lemma xor_bytes_assoc x : forall y z, xor_bytes (xor_bytes x y) z = xor_bytes x (xor_bytes y z).
Proof. induction x as [|a x IH]; intros [|b y] [|c z]; cbn; try reflexivity. rewrite Z.lxor_assoc. f_equal. apply IH. Qed.

Lemma omac_blk key : aes_key key -> blk (aes_cipher key (zeros 16)).
Proof. intros H. destruct (aes_context key H) as (ctx & _ & HE). apply (cipher_blk (ctx:=ctx)), zeros16_blk. Qed.

(** The subkeys as the code computes them. *)
Lemma subkeys_exist L : blk L -> exists k1 k2, gf_mulx L = Ok k1 /\ gf_mulx k1 = Ok k2 /\ blk k1 /\ blk k2 /\
  be_num k1 = mulx (be_num L) /\ be_num k2 = mulx (be_num k1).
Proof.
  intros HL. destruct (gf_mulx_spec L HL) as (k1 & G1 & B1 & N1). destruct (gf_mulx_spec k1 B1) as (k2 & G2 & B2 & N2).
  exists k1, k2. done.
Qed.

Lemma omac_spec key addr : areas_ok addr -> aes_key key ->
  exists k1 k2, subkeys (aes_cipher key) k1 k2 /\
    omac1_aes_vector true key (zlen key) addr = Ok (Some (cmac (aes_cipher key) k1 k2 (concat addr))).
Proof.
  intros Ha Hk. destruct (aes_context key Hk) as (ctx & Hc & HE). set (E := aes_cipher key) in *.
  destruct (subkeys_exist (E (zeros 16)) (cipher_blk (ctx:=ctx) _ zeros16_blk)) as (k1 & k2 & G1 & G2 & B1 & B2 & N1 & N2).
  exists k1, k2. split; [repeat split; try apply B1; try apply B2; done|].
  unfold omac1_aes_vector. rewrite Hc. cbn [bind]. destruct (start_cur addr Ha) as [Hcur (a0 & Ra)]. rewrite Ra. cbn [bind].
  assert (Hb : bytes (concat addr)) by (destruct Ha as [Ha _]; apply Forall_concat; done).
  destruct (split_pad (concat addr) Hb) as (w & t & Hl & Hbw & Hbt & Hw & _ & Ht & _ & _).
  rewrite Hl in *. set (k := (length (w ++ t) / 16)%nat) in *.
  destruct (omac_loop ctx E addr k w t (zeros 16) (mkCur 0 0) (S (length (w ++ t)))) as (c1 & F & Hc1 & By);
    [done | done | done | done | rewrite length_app; lia | apply zeros16_blk |].
  rewrite F. clear F. cbn [bind]. rewrite (cipher_run _ zeros16_blk). cbn [bind]. rewrite G1. cbn [bind].
  destruct (split_last w t k Hw Ht) as [S1 S2].
  destruct (negb (zlen t =? 0) || (zlen (w ++ t) =? 0)) eqn:Hpart.
  - assert (SL : last_block (w ++ t) = t /\ before_last (w ++ t) = w /\ after_blocks E k (zeros 16) w t = cbc E (zeros 16) (blocks w)).
    { destruct t as [|t0 t]; [|destruct (S1 ltac:(discriminate)); done]. apply orb_true_iff in Hpart as [Hp|Hpart]; [discriminate|]. apply Z.eqb_eq in Hpart.
      assert (w = []) as -> by (apply nil_length_inv; rewrite app_nil_r in Hpart; unfold zlen in Hpart; lia).
      destruct k; [done | discriminate]. }
    destruct SL as (Sl & Sb & Ea). rewrite Ea in *. set (y := cbc E (zeros 16) (blocks w)) in *.
    destruct (xor_turns_spec addr t [] c1 y (zlen t)) as (c2 & F & _);
      [rewrite app_nil_r; done | rewrite app_nil_r; done | destruct By; lia |].
    replace (Z.to_nat (zlen t)) with (length t) by (unfold zlen; lia). rewrite F. clear F. cbn [bind].
    destruct (pad_last y t By Ht) as (z & Ed & Ep). rewrite Ed.
    assert (Zt : zlen t = zlen (xor_bytes (take (length t) y) t)).
    { unfold zlen. rewrite xor_bytes_length; rewrite ?length_take; destruct By; lia. }
    rewrite Zt, rd_mid. cbn [bind]. rewrite wr_mid. cbn [bind]. rewrite G2. cbn [bind]. rewrite <- Ep.
    assert (Bp : blk (t ++ [0x80] ++ zeros (15 - length t))).
    { split; [apply Forall_app; split; [done|]; apply Forall_app; split; [apply bytes_by_compute; reflexivity | apply Forall_replicate; unfold is_byte; lia]|].
      rewrite !length_app. unfold zeros. rewrite length_replicate. cbn [length]. lia. }
    rewrite (cipher_run _ (xor_blk _ _ B2 (xor_blk _ _ By Bp))). cbn [bind]. unfold cmac. rewrite Sl, Sb.
    rewrite (proj2 (Nat.eqb_neq (length t) 16)) by lia. fold y. rewrite (xor_bytes_comm k2), xor_bytes_assoc. done.
  - apply orb_false_iff in Hpart as [Et Ew]. apply negb_false_iff in Et. apply Z.eqb_eq in Et. apply Z.eqb_neq in Ew.
    assert (t = []) as -> by (apply nil_length_inv; unfold zlen in Et; lia). rewrite app_nil_r in *.
    assert (Hne : w <> []) by (intros ->; done). specialize (S2 eq_refl Hne) as [Sl Sb]. destruct k as [|k']; [destruct w; done|].
    cbn [bind fst after_blocks] in *. rewrite (cipher_run _ (xor_blk _ _ B1 By)). cbn [bind]. unfold cmac. rewrite Sl, Sb.
    replace (S k' - 1)%nat with k' by lia. assert (Ld : length (drop (16 * k') w) = 16%nat) by (rewrite length_drop; lia).
    rewrite Ld. cbn [Nat.eqb]. rewrite (xor_bytes_comm k1), xor_bytes_assoc. done.
Qed.

(** ** The claim *)

(** The tag is always sixteen bytes. *)
Lemma omac_len alloc key n addr m : omac1_aes_vector alloc key n addr = Ok (Some m) -> length m = 16%nat.
Proof.
  unfold omac1_aes_vector. destruct (aes_encrypt_init alloc key n) as [[ctx|]|]; cbn [bind]; try discriminate.
  destruct (rd addr 0); cbn [bind]; [|discriminate]. destruct (loop _ _ _) as [[lft st]|]; cbn [bind]; [|discriminate].
  destruct (aes_encrypt ctx (zeros 16)) as [p|]; cbn [bind]; [|discriminate]. destruct (gf_mulx p) as [k1|]; cbn [bind]; [|discriminate].
  match goal with |- bind ?b _ = _ -> _ => destruct b as [[cbc pad]|] end; cbn [bind]; [|discriminate].
  destruct (aes_encrypt ctx (xor_bytes pad cbc)) as [mac|] eqn:E; cbn [bind]; [|discriminate]. intros H. injection H as <-.
  exact (aes_encrypt_length _ _ _ E).
Qed.

(** C31: [omac1_aes_vector] computes CMAC (SP 800-38B) of the concatenation of the areas it is given: for every AES key
    of 16, 24 or 32 bytes and every vector of areas (none empty, or a single one), the result is [E] of the chained
    blocks with the last block masked by the subkey [k1] when it is full and padded and masked by [k2] when it is not
    (the empty message included), the subkeys being the doublings of [E 0] in the field of 2^128 elements; no byte is
    read outside the areas, and the areas' boundaries do not matter. *)
Theorem omac_is_cmac key addr : areas_ok addr -> aes_key key ->
  exists k1 k2, subkeys (aes_cipher key) k1 k2 /\
    omac1_aes_vector true key (zlen key) addr = Ok (Some (cmac (aes_cipher key) k1 k2 (concat addr))).
Proof. apply omac_spec. Qed.

(** The third example of RFC 4493, in two areas. *)
Definition rfc4493_key : list Z :=
  [0x2b; 0x7e; 0x15; 0x16; 0x28; 0xae; 0xd2; 0xa6; 0xab; 0xf7; 0x15; 0x88; 0x09; 0xcf; 0x4f; 0x3c].
Definition rfc4493_m : list (list Z) :=
  [[0x6b; 0xc1; 0xbe; 0xe2; 0x2e; 0x40; 0x9f];
   [0x96; 0xe9; 0x3d; 0x7e; 0x11; 0x73; 0x93; 0x17; 0x2a; 0xae; 0x2d; 0x8a; 0x57; 0x1e; 0x03; 0xac; 0x9c;
    0x9e; 0xb7; 0x6f; 0xac; 0x45; 0xaf; 0x8e; 0x51; 0x30; 0xc8; 0x1c; 0x46; 0xa3; 0x5c; 0xe4; 0x11]].

Lemma omac_is_cmac_witness :
  omac1_aes_vector true rfc4493_key 16 rfc4493_m = Ok (Some
    [0xdf; 0xa6; 0x67; 0x47; 0xde; 0x9a; 0xe6; 0x30; 0x30; 0xca; 0x32; 0x61; 0x14; 0x97; 0xc8; 0x27]) /\
  exists k1 k2, subkeys (aes_cipher rfc4493_key) k1 k2 /\
    omac1_aes_vector true rfc4493_key (zlen rfc4493_key) rfc4493_m = Ok (Some (cmac (aes_cipher rfc4493_key) k1 k2 (concat rfc4493_m))).
Proof.
  split; [vm_compute; reflexivity|]. apply (omac_is_cmac rfc4493_key rfc4493_m).
  - split; [apply List.Forall_cons; [|apply List.Forall_cons; [|apply List.Forall_nil]]; apply bytes_by_compute; vm_compute; reflexivity|].
    split; [discriminate|]. left. apply List.Forall_cons; [|apply List.Forall_cons; [|apply List.Forall_nil]]; discriminate.
  - split; [apply bytes_by_compute; vm_compute; reflexivity | left; reflexivity].
Defined.
