(* ===== verification/Gcm.v ===== *)
(** * Galois/counter mode

    Models [core/crypto/aes-gcm.c]. A pointer is a buffer and an offset; the input and the output lie in different
    buffers, as at every call. [size_t] is the one of a 32-bit processor. The specification is GCM (SP 800-38D) with a
    tag of sixteen bytes, its hash as evaluation in the field of [Gf128]. *)
From Stdlib Require Import ZArith Lia Bool.
From stdpp Require Import base option list numbers.
From S2P Require Import Prelude Arc4 Words Aes Modes Gf128.
Local Open Scope Z_scope.

(** ** The code *)

(* src: include/osdep_service.h:765-766 RTW_GET_BE32 *)
Definition GET_BE32 (a : list Z) (p : Z) : res Z :=
  a0 <- rd a p ;; a1 <- rd a (p + 1) ;; a2 <- rd a (p + 2) ;; a3 <- rd a (p + 3) ;;
  Ok (Z.shiftl a0 24 .| Z.shiftl a1 16 .| Z.shiftl a2 8 .| a3).

(* src: include/osdep_service.h:767-773 RTW_PUT_BE32 *)
Definition PUT_BE32 (v : Z) : list Z :=
  [u8 (Z.shiftr (u32 v) 24 & 0xff); u8 (Z.shiftr (u32 v) 16 & 0xff); u8 (Z.shiftr (u32 v) 8 & 0xff); u8 (u32 v & 0xff)].

(* src: include/osdep_service.h:789-799 RTW_PUT_BE64 *)
Definition PUT_BE64 (v : Z) : list Z :=
  [u8 (Z.shiftr (u64 v) 56); u8 (Z.shiftr (u64 v) 48); u8 (Z.shiftr (u64 v) 40); u8 (Z.shiftr (u64 v) 32);
   u8 (Z.shiftr (u64 v) 24); u8 (Z.shiftr (u64 v) 16); u8 (Z.shiftr (u64 v) 8); u8 (u64 v & 0xff)].

(* src: core/crypto/aes-gcm.c:15-21 inc32 *)
Definition inc32 (block : list Z) : res (list Z) :=
  val <- GET_BE32 block (AES_BLOCK_SIZE - 4) ;;
  wrn block (AES_BLOCK_SIZE - 4) (PUT_BE32 (u32 (val + 1))).

(** Four words, that is sixteen bytes. *)
(* src: core/crypto/aes-gcm.c:24-32 xor_block *)
Definition xor_block (dst : list Z) (d : Z) (src : list Z) (s : Z) : res (list Z) :=
  x <- rdn dst d 16 ;; y <- rdn src s 16 ;; wrn dst d (xor_bytes x y).

(** The word at [p], with the last bit of the byte before it. *)
(* src: core/crypto/aes-gcm.c:39-43 shift_right_block *)
Definition shr_word (v : list Z) (p : Z) : res (list Z) :=
  val <- GET_BE32 v p ;;
  c <- rd v (p - 1) ;;
  let val := Z.shiftr val 1 in
  wrn v p (PUT_BE32 (if c & 0x01 =? 0 then val else val .| 0x80000000)).

(* src: core/crypto/aes-gcm.c:35-60 shift_right_block *)
Definition shift_right_block (v : list Z) : res (list Z) :=
  v <- shr_word v 12 ;;
  v <- shr_word v 8 ;;
  v <- shr_word v 4 ;;
  val <- GET_BE32 v 0 ;;
  wrn v 0 (PUT_BE32 (Z.shiftr val 1)).

(* src: core/crypto/aes-gcm.c:74-89 gf_mult *)
Definition gf_turn (x : list Z) (i j : Z) (st : list Z * list Z) : res (list Z * list Z) :=
  let '(z, v) := st in
  xi <- rd x i ;;
  z <- (if xi & BIT (7 - j) =? 0 then Ok z else xor_block z 0 v 0) ;;
  v15 <- rd v 15 ;;
  if v15 & 0x01 =? 0 then
    v <- shift_right_block v ;; Ok (z, v)
  else
    v <- shift_right_block v ;;
    v0 <- rd v 0 ;;
    v <- wr v 0 (Z.lxor v0 0xe1) ;; Ok (z, v).

(* src: core/crypto/aes-gcm.c:64-92 gf_mult *)
Definition gf_mult (x y : list Z) : res (list Z) :=
  v <- rdn y 0 16 ;;
  '(z, _) <- for_up (fun i st => for_up (gf_turn x i) 8 0 st) 16 0 (zeros 16, v) ;;
  Ok z.

(** [x + 16 * i] is [xpos] in the turn [i]. *)
(* src: core/crypto/aes-gcm.c:102-139 ghash *)
Definition ghash (h mem : list Z) (x xlen : Z) (y : list Z) : res (list Z) :=
  let m := xlen / 16 in
  y <- for_up (fun i y => y <- xor_block y 0 mem (x + 16 * i) ;; gf_mult y h) (Z.to_nat m) 0 y ;;
  let xpos := x + 16 * m in
  if xpos <? x + xlen then
    let last := x + xlen - xpos in
    t <- rdn mem xpos last ;;
    let tmp := t ++ zeros (Z.to_nat (16 - last)) in
    y <- xor_block y 0 tmp 0 ;;
    gf_mult y h
  else Ok y.

(* src: core/crypto/aes-gcm.c:156-162 aes_gctr *)
Definition gctr_turn (ctx : aes_ctx) (mem : list Z) (x y : Z) (i : Z) (st : list Z * list Z) : res (list Z * list Z) :=
  let '(out, cb) := st in
  s <- aes_encrypt ctx cb ;;
  out <- wrn out (y + AES_BLOCK_SIZE * i) s ;;
  out <- xor_block out (y + AES_BLOCK_SIZE * i) mem (x + AES_BLOCK_SIZE * i) ;;
  cb <- inc32 cb ;;
  Ok (out, cb).

(* src: core/crypto/aes-gcm.c:142-171 aes_gctr *)
Definition aes_gctr (ctx : aes_ctx) (icb mem : list Z) (x xlen : Z) (out : list Z) (y : Z) : res (list Z) :=
  if xlen =? 0 then Ok out
  else
    let n := xlen / 16 in
    cb <- rdn icb 0 AES_BLOCK_SIZE ;;
    '(out, cb) <- for_up (gctr_turn ctx mem x y) (Z.to_nat n) 0 (out, cb) ;;
    let last := xlen - AES_BLOCK_SIZE * n in
    if last =? 0 then Ok out
    else
      tmp <- aes_encrypt ctx cb ;;
      d <- rdn mem (x + AES_BLOCK_SIZE * n) last ;;
      t <- rdn tmp 0 last ;;
      wrn out (y + AES_BLOCK_SIZE * n) (xor_bytes d t).

(** [None]: NULL. *)
(* src: core/crypto/aes-gcm.c:174-188 aes_gcm_init_hash_subkey *)
Definition aes_gcm_init_hash_subkey (alloc : bool) (key : list Z) (key_len : Z) : res (option (aes_ctx * list Z)) :=
  aes <- aes_encrypt_init alloc key key_len ;;
  match aes with
  | None => Ok None
  | Some aes => H <- aes_encrypt aes (zeros 16) ;; Ok (Some (aes, H))
  end.

(* src: core/crypto/aes-gcm.c:191-211 aes_gcm_prepare_j0 *)
Definition aes_gcm_prepare_j0 (iv : list Z) (iv_len : Z) (H : list Z) : res (list Z) :=
  if iv_len =? 12 then
    a <- rdn iv 0 iv_len ;;
    wr (a ++ zeros (Z.to_nat (AES_BLOCK_SIZE - iv_len))) (AES_BLOCK_SIZE - 1) 0x01
  else
    J0 <- ghash H iv 0 iv_len (zeros 16) ;;
    let len_buf := PUT_BE64 0 ++ PUT_BE64 (u32 (iv_len * 8)) in
    ghash H len_buf 0 16 J0.

(* src: core/crypto/aes-gcm.c:214-225 aes_gcm_gctr *)
Definition aes_gcm_gctr (ctx : aes_ctx) (J0 mem : list Z) (inp len : Z) (out : list Z) (op : Z) : res (list Z) :=
  if len =? 0 then Ok out
  else
    J0inc <- rdn J0 0 AES_BLOCK_SIZE ;;
    J0inc <- inc32 J0inc ;;
    aes_gctr ctx J0inc mem inp len out op.

(* src: core/crypto/aes-gcm.c:228-247 aes_gcm_ghash *)
Definition aes_gcm_ghash (H aad : list Z) (aad_len : Z) (mem : list Z) (crypt crypt_len : Z) : res (list Z) :=
  S <- ghash H aad 0 aad_len (zeros 16) ;;
  S <- ghash H mem crypt crypt_len S ;;
  let len_buf := PUT_BE64 (u32 (aad_len * 8)) ++ PUT_BE64 (u32 (crypt_len * 8)) in
  ghash H len_buf 0 16 S.

(** [crypt] and [tag] are offsets into [out]. [None]: -1. *)
(* src: core/crypto/aes-gcm.c:253-281 aes_gcm_ae *)
Definition aes_gcm_ae (alloc : bool) (key : list Z) (key_len : Z) (iv : list Z) (iv_len : Z)
    (mem : list Z) (plain plain_len : Z) (aad : list Z) (aad_len : Z) (out : list Z) (crypt tag : Z)
    : res (option (list Z)) :=
  a <- aes_gcm_init_hash_subkey alloc key key_len ;;
  match a with
  | None => Ok None
  | Some (aes, H) =>
      J0 <- aes_gcm_prepare_j0 iv iv_len H ;;
      out <- aes_gcm_gctr aes J0 mem plain plain_len out crypt ;;
      S <- aes_gcm_ghash H aad aad_len out crypt plain_len ;;
      out <- aes_gctr aes J0 S 0 16 out tag ;;
      Ok (Some out)
  end.

(** The plain text goes to the front of [out], whatever the result. [crypt] and [tag] are offsets into [mem]. *)
(* src: core/crypto/aes-gcm.c:287-318 aes_gcm_ad *)
Definition aes_gcm_ad (alloc : bool) (key : list Z) (key_len : Z) (iv : list Z) (iv_len : Z)
    (mem : list Z) (crypt crypt_len : Z) (aad : list Z) (aad_len : Z) (tag : Z) (out : list Z)
    : res (bool * list Z) :=
  a <- aes_gcm_init_hash_subkey alloc key key_len ;;
  match a with
  | None => Ok (false, out)
  | Some (aes, H) =>
      J0 <- aes_gcm_prepare_j0 iv iv_len H ;;
      out <- aes_gcm_gctr aes J0 mem crypt crypt_len out 0 ;;
      S <- aes_gcm_ghash H aad aad_len mem crypt crypt_len ;;
      T <- aes_gctr aes J0 S 0 16 (zeros 16) 0 ;;
      t <- rdn mem tag 16 ;;
      d <- os_memcmp_const 0 t T 16 ;;
      Ok (d =? 0, out)
  end.

(* src: core/crypto/aes-gcm.c:321-326 aes_gmac *)
Definition aes_gmac (alloc : bool) (key : list Z) (key_len : Z) (iv : list Z) (iv_len : Z) (aad : list Z) (aad_len : Z)
    : res (option (list Z)) :=
  aes_gcm_ae alloc key key_len iv iv_len [] 0 0 aad aad_len (zeros 16) 0 0.

(** ** Specification *)

(** The last four bytes count modulo [2^32]. *)
Definition next_ctr (cb : list Z) : list Z := take 12 cb ++ num_bytes 4 ((be_num (drop 12 cb) + 1) mod 2 ^ 32).

Fixpoint ctr_stream (E : list Z -> list Z) (cb : list Z) (n : nat) : list Z :=
  match n with O => [] | S n => E cb ++ ctr_stream E (next_ctr cb) n end.

Definition gctr (E : list Z -> list Z) (cb p : list Z) : list Z := xor_bytes p (ctr_stream E cb (length (pad16 p) / 16)).

(** The polynomial with the blocks as coefficients, by Horner's rule. *)
Definition hash (h : list Z) : list Z -> list (list Z) -> list Z := cbc (fun s => gmul s h).

Section Spec.
  Context (E : list Z -> list Z).
Let h := E (zeros 16).

Definition gcm_j0 (iv : list Z) : list Z :=
  if (length iv =? 12)%nat then iv ++ [0; 0; 0; 1]
  else hash h (zeros 16) (blocks (pad16 iv ++ zeros 8 ++ num_bytes 8 (8 * zlen iv))).

Definition gcm_hash (aad c : list Z) : list Z :=
  hash h (zeros 16) (blocks (pad16 aad ++ pad16 c ++ num_bytes 8 (8 * zlen aad) ++ num_bytes 8 (8 * zlen c))).

Definition gcm_crypt (iv p : list Z) : list Z := gctr E (next_ctr (gcm_j0 iv)) p.
Definition gcm_tag (iv aad c : list Z) : list Z := xor_bytes (gcm_hash aad c) (E (gcm_j0 iv)).
End Spec.

(** ** Lemmas: words in memory *)

Definition word4 (q : list Z) : Prop := bytes q /\ length q = 4%nat.

Lemma GET_BE32_at pre q post p : word4 q -> p = zlen pre -> GET_BE32 (pre ++ q ++ post) p = Ok (be_num q).
Proof.
  intros [Hb Hl] ->. destruct q as [|a [|b [|c [|d [|]]]]]; try discriminate. rewrite be_num_W. unfold GET_BE32. cbn [app].
  assert (R : forall l (x : Z) m, rd (pre ++ l ++ x :: m) (zlen pre + zlen l) = Ok x).
  { intros l x m. rewrite app_assoc, <- zlen_app. apply rd_mid. }
  assert (R1 : rd (pre ++ a :: b :: c :: d :: post) (zlen pre + 1) = Ok b) by exact (R [a] b (c :: d :: post)).
  assert (R2 : rd (pre ++ a :: b :: c :: d :: post) (zlen pre + 2) = Ok c) by exact (R [a; b] c (d :: post)).
  assert (R3 : rd (pre ++ a :: b :: c :: d :: post) (zlen pre + 3) = Ok d) by exact (R [a; b; c] d post).
  rewrite rd_mid, R1, R2, R3. cbn [bind]. f_equal. repeat apply Forall_cons_1 in Hb as [? Hb]. unfold is_byte in *.
  rewrite <- Z.lor_assoc, (Z.lor_comm (Z.shiftl c 8)), <- Z.lor_assoc, (Z.lor_comm (Z.shiftl b 16)), Z.lor_comm.
  rewrite (lor_shiftl_add d), (lor_shiftl_add _ b 16), (lor_shiftl_add _ a 24) by lia. unfold W, word_of. lia.
Qed.

Lemma PUT_BE32_num v : is_word v -> PUT_BE32 v = num_bytes 4 v.
Proof.
  intros Hv. unfold PUT_BE32. rewrite (u32_small v) by (unfold is_word in Hv; lia). rewrite !land_ff_mod.
  assert (U : forall x, u8 (x mod 256) = x mod 256) by (intros; apply u8_small, Z.mod_pos_bound; lia).
  rewrite !U, !Z.shiftr_div_pow2 by lia. cbn [num_bytes app]. rewrite !Z.div_div by lia. done.
Qed.

Lemma word_range q : word4 q -> is_word (be_num q).
Proof. intros [Hb Hl]. pose proof (be_num_range q Hb) as R. unfold zlen in R. rewrite Hl in R. exact R. Qed.

Lemma be_num_word v : is_word v -> word4 (num_bytes 4 v) /\ be_num (num_bytes 4 v) = v.
Proof.
  intros Hv. split; [apply num_bytes_ok|]. unfold is_word in Hv. cbn [num_bytes app]. rewrite be_num_W. unfold W, word_of.
  rewrite !Z.div_div by lia. Z.div_mod_to_equations. lia.
Qed.

(** Four words. *)
Lemma blk_words s : blk s <-> exists q0 q1 q2 q3, s = q0 ++ q1 ++ q2 ++ q3 /\ word4 q0 /\ word4 q1 /\ word4 q2 /\ word4 q3.
Proof.
  split.
  - intros [Hb Hl]. exists (take 4 s), (take 4 (drop 4 s)), (take 4 (drop 8 s)), (drop 12 s).
    assert (A : forall k m, (k + 4 <= 16)%nat -> word4 (take 4 (drop k s)) /\ (m = 0%nat -> True)).
    { intros k m Hk. split; [|done]. split; [apply Forall_take, Forall_drop, Hb | rewrite length_take, length_drop; lia]. }
    split; [|split; [apply (A 0%nat 0%nat); lia|]].
    + assert (D : forall k, take 4 (drop k s) ++ drop (k + 4) s = drop k s) by (intros k; rewrite <- drop_drop; apply take_drop).
      rewrite (D 8%nat : _ ++ drop 12 s = _), (D 4%nat : _ ++ drop 8 s = _). symmetry. apply take_drop.
    + split; [apply (A 4%nat 0%nat); lia|]. split; [apply (A 8%nat 0%nat); lia|].
      split; [apply Forall_drop, Hb | rewrite length_drop; lia].
  - intros (q0 & q1 & q2 & q3 & -> & [? ?] & [? ?] & [? ?] & [? ?]). split; [repeat apply Forall_app_2; done | rewrite !length_app; lia].
Qed.

Lemma inc32_spec cb : blk cb -> inc32 cb = Ok (next_ctr cb) /\ blk (next_ctr cb).
Proof.
  intros [Hb Hl]. set (a := take 12 cb). set (q := drop 12 cb).
  assert (La : length a = 12%nat) by (unfold a; rewrite length_take; lia).
  assert (Hq : word4 q) by (split; [apply Forall_drop, Hb | unfold q; rewrite length_drop; lia]).
  assert (Ha : bytes a) by (apply Forall_take, Hb). assert (Za : zlen a = 12) by (unfold zlen; rewrite La; done).
  assert (E : cb = a ++ q ++ []) by (rewrite app_nil_r; symmetry; apply take_drop).
  pose proof (u32_is_word (be_num q + 1)) as Hw. destruct (be_num_word _ Hw) as [[Bw Lw] _].
  unfold next_ctr. fold a q. change ((be_num q + 1) mod 2 ^ 32) with (u32 (be_num q + 1)). split.
  - unfold inc32, AES_BLOCK_SIZE. change (16 - 4) with 12. rewrite E, (GET_BE32_at a q []) by done. cbn [bind].
    rewrite PUT_BE32_num, <- Za, wrn_app by (done || (unfold zlen; rewrite Lw, (proj2 Hq); done)). rewrite app_nil_r. done.
  - split; [apply Forall_app_2; done | rewrite length_app, La, Lw; done].
Qed.

Lemma bit0_mod c : (c & 0x01 =? 0) = (c mod 2 =? 0).
Proof. change 1 with (Z.ones 1). rewrite Z.land_ones by lia. done. Qed.

(** The low bit of a word is the one of its last byte. *)
Lemma low_bit pre q post : word4 q -> exists c, rd (pre ++ q ++ post) (zlen (pre ++ q) - 1) = Ok c /\ c mod 2 = be_num q mod 2.
Proof.
  intros [Hb Hl]. destruct q as [|a [|b [|c [|d [|]]]]]; try discriminate. exists d. split.
  - replace (pre ++ [a; b; c; d] ++ post) with ((pre ++ [a; b; c]) ++ d :: post) by (rewrite <- app_assoc; done).
    replace (zlen (pre ++ [a; b; c; d]) - 1) with (zlen (pre ++ [a; b; c])) by (rewrite !zlen_app; change (zlen [a; b; c; d]) with 4; change (zlen [a; b; c]) with 3; lia). apply rd_mid.
  - rewrite be_num_W. unfold W, word_of. Z.div_mod_to_equations. lia.
Qed.

Lemma shr_word_spec pre q q' post p : word4 q -> word4 q' -> p = zlen (pre ++ q) ->
  shr_word (pre ++ q ++ q' ++ post) p = Ok (pre ++ q ++ num_bytes 4 (be_num q' / 2 + be_num q mod 2 * 2 ^ 31) ++ post) /\
  is_word (be_num q' / 2 + be_num q mod 2 * 2 ^ 31).
Proof.
  intros Hq Hq' ->. pose proof (word_range q' Hq') as R. unfold is_word in *.
  assert (Hd : 0 <= be_num q' / 2 < 2 ^ 31) by (split; [apply Z.div_pos; lia | apply Z.div_lt_upper_bound; lia]).
  pose proof (Z.mod_pos_bound (be_num q) 2 ltac:(lia)) as Hm. set (w := be_num q' / 2 + be_num q mod 2 * 2 ^ 31).
  assert (Hw : is_word w) by (unfold is_word, w; lia). split; [|exact Hw]. unfold shr_word.
  assert (E : pre ++ q ++ q' ++ post = (pre ++ q) ++ q' ++ post) by (rewrite <- app_assoc; done).
  rewrite E, (GET_BE32_at (pre ++ q) q' post) by done. cbn [bind]. rewrite <- E.
  destruct (low_bit pre q (q' ++ post) Hq) as (c & -> & Hc). cbn [bind]. cbv zeta. rewrite bit0_mod, Hc.
  rewrite Z.shiftr_div_pow2 by lia. change (2 ^ 1) with 2.
  assert (V : (if be_num q mod 2 =? 0 then be_num q' / 2 else be_num q' / 2 .| 0x80000000) = w).
  { unfold w. destruct (Z.eqb_spec (be_num q mod 2) 0) as [E0|E0]; [rewrite E0; lia|].
    replace (be_num q mod 2) with 1 by lia. change 0x80000000 with (Z.shiftl 1 31). apply lor_shiftl_add; lia. }
  rewrite V, PUT_BE32_num, E by done. destruct (be_num_word w Hw) as [[_ Lw] _].
  rewrite wrn_app by (unfold zlen; rewrite Lw, (proj2 Hq'); done). rewrite <- app_assoc. done.
Qed.

Lemma shift_right_spec v : blk v -> exists v', shift_right_block v = Ok v' /\ blk v' /\ be_num v' = be_num v / 2.
Proof.
  intros Hv. apply blk_words in Hv as (q0 & q1 & q2 & q3 & -> & H0 & H1 & H2 & H3).
  assert (Z4 : forall q, word4 q -> zlen q = 4) by (intros q [_ Hq]; unfold zlen; rewrite Hq; done).
  destruct (shr_word_spec (q0 ++ q1) q2 q3 [] 12 H2 H3) as [F3 W3]; [rewrite !zlen_app, !Z4 by done; done|].
  destruct (shr_word_spec q0 q1 q2 (num_bytes 4 (be_num q3 / 2 + be_num q2 mod 2 * 2 ^ 31)) 8 H1 H2) as [F2 W2]; [rewrite !zlen_app, !Z4 by done; done|].
  set (v3 := be_num q3 / 2 + _) in *. set (v2 := be_num q2 / 2 + _) in *. destruct (be_num_word v2 W2) as [B2 N2].
  destruct (shr_word_spec [] q0 q1 (num_bytes 4 v2 ++ num_bytes 4 v3) 4 H0 H1) as [F1 W1]; [cbn [app]; rewrite Z4 by done; done|].
  set (v1 := be_num q1 / 2 + _) in *. rewrite app_nil_r, <- !app_assoc in F3. cbn [app] in F1.
  unfold shift_right_block. rewrite F3. clear F3. cbn [bind]. rewrite app_nil_r, F2. clear F2. cbn [bind]. rewrite F1. clear F1. cbn [bind].
  rewrite (GET_BE32_at [] q0 _ 0 H0 eq_refl : GET_BE32 (q0 ++ _) 0 = _). cbn [bind]. rewrite Z.shiftr_div_pow2 by lia. change (2 ^ 1) with 2.
  pose proof (word_range q0 H0) as R0. unfold is_word in R0. set (v0 := be_num q0 / 2).
  assert (W0 : is_word v0) by (unfold is_word, v0; Z.div_mod_to_equations; lia).
  rewrite PUT_BE32_num by done. destruct (be_num_word v0 W0) as [B0 N0]. destruct (be_num_word v1 W1) as [B1 N1]. destruct (be_num_word v3 W3) as [B3 N3].
  pose proof (wrn_app [] q0 (num_bytes 4 v1 ++ num_bytes 4 v2 ++ num_bytes 4 v3) (num_bytes 4 v0)) as F. cbn [app] in F. change (zlen []) with 0 in F.
  rewrite F by (rewrite !Z4 by done; done). eexists. split; [done|]. split.
  - apply blk_words. eexists _, _, _, _. done.
  - rewrite !be_num_app, !zlen_app, !Z4, N0, N1, N2, N3 by done. change (256 ^ (4 + (4 + 4))) with (2 ^ 96).
    change (256 ^ (4 + 4)) with (2 ^ 64). change (256 ^ 4) with (2 ^ 32). unfold v0, v1, v2, v3. clear. Z.div_mod_to_equations. lia.
Qed.

(** ** Lemmas: the product *)

Lemma be_num_bit pre x rest n : bytes (pre ++ x :: rest) -> 0 <= n < 8 ->
  Z.testbit (be_num (pre ++ x :: rest)) (8 * zlen rest + n) = Z.testbit x n.
Proof.
  intros Hb Hn. apply Forall_app in Hb as [_ Hb]. apply Forall_cons_1 in Hb as [Hx Hr].
  pose proof (be_num_range rest Hr) as R. pose proof (zlen_nonneg rest) as Hz. rewrite be_num_app, be_num_cons, zlen_cons.
  change 256 with (2 ^ 8) in *. rewrite <- !Z.pow_mul_r in * by lia. set (k := 8 * zlen rest) in *.
  replace (8 * (1 + zlen rest)) with (8 + k) by lia. rewrite Z.pow_add_r by lia.
  replace (be_num pre * (2 ^ 8 * 2 ^ k) + (x * 2 ^ k + be_num rest)) with (be_num rest + (x + be_num pre * 2 ^ 8) * 2 ^ k) by lia.
  rewrite (Z.add_comm k n), <- (Z.div_pow2_bits _ k) by lia. rewrite Z.div_add by lia. rewrite (Z.div_small (be_num rest)) by lia. rewrite Z.add_0_l.
  rewrite <- lor_shiftl_add by (unfold is_byte in Hx; lia). rewrite Z.lor_spec, Z.shiftl_spec_low, orb_false_r by lia. done.
Qed.

(** The coefficient the code looks at. *)
Lemma coefficient x i j : blk x -> 0 <= i < 16 -> 0 <= j < 8 ->
  exists xi, rd x i = Ok xi /\ (xi & BIT (7 - j) =? 0) = negb (Z.testbit (poly x) (8 * i + j)).
Proof.
  intros [Hb Hl] Hi Hj. destruct (drop_S_exists x (Z.to_nat i) ltac:(lia)) as (xi & Ed & _).
  set (pre := take (Z.to_nat i) x) in *. set (rest := drop (S (Z.to_nat i)) x) in *.
  assert (E : x = pre ++ xi :: rest) by (rewrite <- Ed; symmetry; apply take_drop).
  assert (Zp : zlen pre = i) by (unfold zlen, pre; rewrite length_take; lia).
  assert (Zr : zlen rest = 15 - i) by (unfold zlen, rest; rewrite length_drop; lia).
  exists xi. split; [rewrite E, <- Zp; apply rd_mid|]. unfold poly. rewrite (proj2 (rev_128 _)) by lia.
  replace (127 - (8 * i + j)) with (8 * zlen rest + (7 - j)) by lia. rewrite E, be_num_bit by (rewrite <- ?E; done || lia).
  unfold BIT. rewrite Z.shiftl_1_l. destruct (Z.testbit xi (7 - j)) eqn:T; cbn [negb].
  - apply Z.eqb_neq. intros H. apply (f_equal (fun v => Z.testbit v (7 - j))) in H.
    rewrite Z.land_spec, Z.pow2_bits_true, T, Z.bits_0 in H by lia. discriminate.
  - apply Z.eqb_eq, Z.bits_inj'. intros n Hn. rewrite Z.land_spec, Z.bits_0, Z.pow2_bits_eqb by lia.
    destruct (Z.eqb_spec (7 - j) n) as [<-|]; [rewrite T; done | apply andb_false_r].
Qed.

Lemma odd_poly v : blk v -> exists b, rd v 15 = Ok b /\ (b & 0x01 =? 0) = negb (Z.odd (be_num v)).
Proof.
  intros Hv. destruct (coefficient v 15 7 Hv ltac:(lia) ltac:(lia)) as (b & R & E). exists b. split; [exact R|].
  change (BIT (7 - 7)) with 1 in E. rewrite E. unfold poly. rewrite (proj2 (rev_128 _)) by lia. rewrite Z.bit0_odd. done.
Qed.

Lemma xor_block_whole z v : blk z -> blk v -> xor_block z 0 v 0 = Ok (xor_bytes z v).
Proof.
  intros Hz Hv. pose proof (xor_aes_block_mid [] z [] [] v [] (proj2 Hz) (proj2 Hv)) as H. cbn [app] in H. rewrite !app_nil_r in H. exact H.
Qed.

Lemma gf_turn_spec x i j z v : blk x -> 0 <= i < 16 -> 0 <= j < 8 -> blk z -> blk v ->
  exists z' v', gf_turn x i j (z, v) = Ok (z', v') /\ blk z' /\ blk v' /\ poly v' = mulx (poly v) /\
    poly z' = Z.lxor (poly z) (if Z.testbit (poly x) (8 * i + j) then poly v else 0).
Proof.
  intros Hx Hi Hj Hz Hv. destruct (coefficient x i j Hx Hi Hj) as (xi & R & C). unfold gf_turn. rewrite R. cbn [bind]. rewrite C.
  set (z' := if Z.testbit (poly x) (8 * i + j) then xor_bytes z v else z).
  assert (Hz' : (if negb (Z.testbit (poly x) (8 * i + j)) then Ok z else xor_block z 0 v 0) = Ok z' /\ blk z' /\
    poly z' = Z.lxor (poly z) (if Z.testbit (poly x) (8 * i + j) then poly v else 0)).
  { unfold z'. destruct (Z.testbit (poly x) (8 * i + j)); cbn [negb].
    - split; [apply xor_block_whole; done|]. split; [apply xor_blk; done | apply poly_xor; done].
    - split; [done|]. split; [done|]. rewrite Z.lxor_0_r. done. }
  destruct Hz' as (-> & Bz & Pz). cbn [bind]. destruct (odd_poly v Hv) as (b & -> & O). cbn [bind]. rewrite O.
  destruct (shift_right_spec v Hv) as (w & -> & Bw & Nw). cbn [bind]. pose proof (be_num_blk v Hv) as Rv.
  pose proof (mulx_reversed (be_num v) Rv) as M. destruct (Z.odd (be_num v)); cbn [negb].
  - destruct Bw as [Bw Lw]. destruct w as [|w0 w]; [discriminate|]. apply Forall_cons_1 in Bw as [B0 Bw].
    assert (R0 : rd (w0 :: w) 0 = Ok w0) by done. rewrite R0. cbn [bind]. rewrite (wr_mid [] w0 w _ : wr (w0 :: w) 0 (Z.lxor w0 0xe1) = _). cbn [bind app].
    assert (Bx : is_byte (Z.lxor w0 0xe1)) by (apply lxor_byte; [done | unfold is_byte; lia]).
    eexists z', _. split; [reflexivity|]. split; [done|]. split; [split; [apply List.Forall_cons; done | exact Lw]|]. split; [|done].
    fold (poly v) in M. rewrite <- M, <- Nw. unfold poly. f_equal. injection Lw as Lw.
    assert (Ew : Z.lxor w0 0xe1 :: w = xor_bytes (w0 :: w) (0xe1 :: zeros (length w))).
    { change (xor_bytes (?a :: ?l) (?b :: ?m)) with (Z.lxor a b :: xor_bytes l m). rewrite xor_zeros_r. done. }
    rewrite Ew, Lw, be_num_xor; [f_equal; vm_compute; reflexivity | apply List.Forall_cons; done | apply bytes_by_compute; reflexivity | cbn [length]; rewrite Lw; done].
  - eexists z', w. split; [reflexivity|]. split; [done|]. split; [done|]. split; [|done].
    fold (poly v) in M. rewrite <- M, Z.lxor_0_r, <- Nw. done.
Qed.

Lemma gf_mult_spec x y : blk x -> blk y -> gf_mult x y = Ok (gmul x y).
Proof.
  intros Hx Hy. pose (P := pmul 128 (poly x) (poly y)).
  pose (I := fun t (st : list Z * list Z) => blk (fst st) /\ blk (snd st) /\
    Z.lxor (poly (fst st)) (pmul (Z.to_nat (128 - t)) (poly x / 2 ^ t) (poly (snd st))) = P).
  assert (Step : forall i j st, 0 <= i < 16 -> 0 <= j < 8 -> I (8 * i + j) st -> exists st', gf_turn x i j st = Ok st' /\ I (8 * i + j + 1) st').
  { intros i j [z v] Hi Hj (Bz & Bv & E). cbn [fst snd] in *. destruct (gf_turn_spec x i j z v Hx Hi Hj Bz Bv) as (z' & v' & F & Bz' & Bv' & Pv & Pz).
    exists (z', v'). split; [exact F|]. split; [exact Bz'|]. split; [exact Bv'|]. cbn [fst snd]. rewrite <- E, Pz, Pv. set (t := 8 * i + j) in *.
    replace (Z.to_nat (128 - t)) with (S (Z.to_nat (128 - (t + 1)))) by lia. cbn [pmul].
    rewrite <- Z.bit0_odd, Z.div_pow2_bits, Z.add_0_l by lia. rewrite Z.lxor_assoc. do 3 f_equal.
    rewrite Z.pow_add_r by lia. rewrite <- Z.div_div by lia. done. }
  unfold gf_mult. rewrite rdn_front by (rewrite (blk_zlen y Hy); lia). rewrite firstn_all2 by (rewrite (proj2 Hy); done). cbn [bind].
  destruct (for_up_spec (fun i st => for_up (gf_turn x i) 8 0 st) (fun i st => I (8 * i) st) 16 0 (zeros 16, y)) as ([z v] & -> & Bz & _ & E).
  - intros i st Hi HI. destruct (for_up_spec (gf_turn x i) (fun j st => I (8 * i + j) st) 8 0 st) as (st' & F & HI').
    + intros j s Hj HIj. destruct (Step i j s ltac:(lia) ltac:(lia) HIj) as (s' & F & HI'). exists s'. split; [exact F|].
      replace (8 * i + (j + 1)) with (8 * i + j + 1) by lia. exact HI'.
    + rewrite Z.add_0_r. exact HI.
    + exists st'. split; [exact F|]. replace (8 * (i + 1)) with (8 * i + (0 + Z.of_nat 8)) by lia. exact HI'.
  - split; [split; [apply bytes_by_compute; reflexivity | reflexivity]|]. split; [exact Hy|]. cbn [fst snd].
    change (poly (zeros 16)) with 0. rewrite Z.lxor_0_l. rewrite Z.div_1_r. done.
  - cbn [bind fst snd] in *. f_equal. apply poly_block; [exact Bz|]. change (Z.to_nat (128 - 8 * (0 + Z.of_nat 16))) with 0%nat in E.
    cbn [pmul] in E. rewrite Z.lxor_0_r in E. exact E.
Qed.

(** ** Lemmas: the hash *)

Lemma ghash_spec h pre l post y : blk h -> blk y -> bytes l ->
  ghash h (pre ++ l ++ post) (zlen pre) (zlen l) y = Ok (hash h y (blocks (pad16 l))) /\ blk (hash h y (blocks (pad16 l))).
Proof.
  intros Hh Hy Hb. destruct (split_pad l Hb) as (w & t & Hl & Hbw & Hbt & Hw & Ht & Hlt & -> & Hp).
  assert (HF : forall s, blk s -> gf_mult s h = Ok (gmul s h) /\ blk (gmul s h)) by (intros; split; [apply gf_mult_spec; done | apply gmul_blk]).
  unfold ghash. rewrite (proj1 (zlen_div16 l)), Nat2Z.id. set (k := (length l / 16)%nat) in *.
  destruct (chain_full (fun s => gf_mult s h) (fun s => gmul s h) HF w k 0 (pre ++ l ++ post) pre (t ++ post) (zlen pre) y) as [F By];
    [rewrite Hl, <- !app_assoc; done | lia | done | done | done |].
  change xor_block with xor_aes_block. rewrite F. clear F. cbn [bind]. cbv zeta.
  rewrite (blocks_app k) by done. unfold hash. rewrite cbc_app. set (z := cbc (fun s => gmul s h) y (blocks w)) in *.
  assert (Zl : zlen l = 16 * Z.of_nat k + zlen t) by (rewrite Hl, zlen_app; unfold zlen at 1; lia).
  destruct (decide (t = [])) as [->|Hne].
  { rewrite (proj2 (Z.ltb_ge _ _)) by (rewrite Zl; change (zlen []) with 0; lia). split; [reflexivity | exact By]. }
  destruct (Hp Hne) as [Bp Ep]. rewrite (blocks_one _ Bp). cbn [cbc fold_left].
  assert (0 < zlen t) by (destruct t; [done | rewrite zlen_cons; pose proof (zlen_nonneg t); lia]).
  rewrite (proj2 (Z.ltb_lt _ _)) by lia.
  replace (zlen pre + zlen l - (zlen pre + 16 * Z.of_nat k)) with (zlen t) by lia.
  replace (pre ++ l ++ post) with ((pre ++ w) ++ t ++ post) by (rewrite Hl, <- !app_assoc; done).
  replace (zlen pre + 16 * Z.of_nat k) with (zlen (pre ++ w)) by (rewrite zlen_app; unfold zlen at 2; lia).
  rewrite rdn_app. cbn [bind]. replace (Z.to_nat (16 - zlen t)) with (16 - length t)%nat by (unfold zlen; lia). rewrite <- Ep.
  change xor_aes_block with xor_block. rewrite xor_block_whole by done. cbn [bind]. apply HF. apply xor_blk; done.
Qed.

(** A hash that goes on after whole blocks. *)
Lemma hash_app h y a b : (length a mod 16 = 0)%nat -> bytes a -> hash h (hash h y (blocks a)) (blocks b) = hash h y (blocks (a ++ b)).
Proof.
  intros Ha Hb. unfold hash. rewrite (blocks_app (length a / 16)); [symmetry; apply cbc_app | done |].
  pose proof (Nat.div_mod_eq (length a) 16). lia.
Qed.

Lemma pad16_mod l : (length (pad16 l) mod 16 = 0)%nat.
Proof. destruct (pad16_length l) as (k & -> & _). rewrite Nat.mul_comm. apply Nat.Div0.mod_mul. Qed.

Lemma PUT_BE64_num v : 0 <= v < 2 ^ 64 -> PUT_BE64 v = num_bytes 8 v.
Proof.
  intros Hv. unfold PUT_BE64. assert (U : u64 v = v) by (apply Z.mod_small; done). rewrite !U, land_ff_mod.
  rewrite !Z.shiftr_div_pow2 by lia. unfold u8. rewrite Z.mod_mod by lia. cbn [num_bytes app]. rewrite !Z.div_div by lia. done.
Qed.

(** The lengths the code can count in bits. *)
Definition short (l : list Z) : Prop := zlen l < 2 ^ 29.

Lemma bit_length l : short l -> PUT_BE64 (u32 (zlen l * 8)) = num_bytes 8 (8 * zlen l).
Proof.
  intros H. unfold short in H. pose proof (zlen_nonneg l). rewrite u32_small by lia. rewrite PUT_BE64_num by lia. f_equal. lia.
Qed.

Lemma lengths_block a b : blk (num_bytes 8 a ++ num_bytes 8 b).
Proof.
  destruct (num_bytes_ok 8 a) as [Ba La]. destruct (num_bytes_ok 8 b) as [Bb Lb].
  split; [apply Forall_app_2; done | rewrite length_app, La, Lb; done].
Qed.

Lemma ghash_block h y b : blk h -> blk y -> blk b -> ghash h b 0 16 y = Ok (hash h y (blocks b)) /\ blk (hash h y (blocks b)).
Proof.
  intros Hh Hy Hb. destruct (ghash_spec h [] b [] y Hh Hy (proj1 Hb)) as [F B]. cbn [app] in F. rewrite app_nil_r, (blk_zlen b Hb) in F.
  rewrite pad16_full in F, B by (rewrite (proj2 Hb); done). split; [exact F | exact B].
Qed.

(** ** Lemmas: the counter *)

Section Run.
  Context (ctx : aes_ctx) (E : list Z -> list Z) `{HE : !CipherOk ctx E}.

Lemma ctr_stream_ok n : forall cb, blk cb -> bytes (ctr_stream E cb n) /\ length (ctr_stream E cb n) = (16 * n)%nat /\
  blk (Nat.iter n next_ctr cb).
Proof.
  induction n as [|n IH]; intros cb Hc; [split; [apply List.Forall_nil | done]|].
  destruct (IH (next_ctr cb) (proj2 (inc32_spec cb Hc))) as (B & Ln & Bn). destruct (cipher_blk (ctx:=ctx) cb Hc) as [B1 L1].
  cbn [ctr_stream]. rewrite Nat.iter_succ_r. split; [apply Forall_app_2; done|]. split; [rewrite length_app, L1, Ln; lia | exact Bn].
Qed.

Lemma ctr_stream_snoc n : forall cb, ctr_stream E cb (n + 1) = ctr_stream E cb n ++ E (Nat.iter n next_ctr cb).
Proof.
  induction n as [|n IH]; intros cb; [cbn; rewrite app_nil_r; done|]. cbn [Nat.add ctr_stream]. rewrite IH, Nat.iter_succ_r, <- app_assoc. done.
Qed.

Lemma gctr_full k : forall w old i mem ipre ipost opre opost x y cb,
  mem = ipre ++ w ++ ipost -> x + 16 * i = zlen ipre -> y + 16 * i = zlen opre ->
  bytes w -> length w = (16 * k)%nat -> length old = (16 * k)%nat -> blk cb ->
  for_up (gctr_turn ctx mem x y) k i (opre ++ old ++ opost, cb) =
    Ok (opre ++ xor_bytes w (ctr_stream E cb k) ++ opost, Nat.iter k next_ctr cb).
Proof.
  induction k as [|k IH]; intros w old i mem ipre ipost opre opost x y cb Hm Hi Ho Hbw Hlw Hold Hc.
  { destruct w; [|discriminate]. destruct old; [|discriminate]. done. }
  destruct (first_block k w Hbw Hlw) as (b & w' & -> & Bb & Hbw' & Hlw').
  rewrite <- (take_drop 16 old). set (o1 := take 16 old). set (o2 := drop 16 old).
  assert (Ho1 : length o1 = 16%nat) by (unfold o1; rewrite length_take; lia).
  assert (Ho2 : length o2 = (16 * k)%nat) by (unfold o2; rewrite length_drop; lia).
  pose proof (cipher_blk (ctx:=ctx) _ Hc) as Bs. destruct (inc32_spec cb Hc) as [F Bn].
  cbn [for_up]. unfold gctr_turn at 1, AES_BLOCK_SIZE. rewrite (cipher_run _ Hc). cbn [bind]. rewrite Ho, Hi, <- app_assoc.
  rewrite wrn_app by (unfold zlen; rewrite Ho1, (proj2 Bs); done). cbn [bind].
  rewrite Hm, <- !app_assoc. change xor_block with xor_aes_block.
  rewrite (xor_aes_block_mid opre (E cb) (o2 ++ opost) ipre b (w' ++ ipost)) by (apply Bs || apply Bb). cbn [bind]. rewrite F. clear F. cbn [bind].
  assert (Bx : blk (xor_bytes (E cb) b)) by (apply xor_blk; done).
  replace (opre ++ xor_bytes (E cb) b ++ o2 ++ opost) with ((opre ++ xor_bytes (E cb) b) ++ o2 ++ opost) by (rewrite <- app_assoc; done).
  rewrite (IH w' o2 (i + 1) (ipre ++ b ++ w' ++ ipost) (ipre ++ b) ipost (opre ++ xor_bytes (E cb) b) opost x y (next_ctr cb));
    try done; [| rewrite <- app_assoc; done | rewrite zlen_app, (blk_zlen b) by done; lia | rewrite zlen_app, (blk_zlen _ Bx); lia].
  cbn [ctr_stream]. rewrite Nat.iter_succ_r, xor_bytes_app by (rewrite (proj2 Bb), (proj2 Bs); done).
  rewrite (xor_bytes_comm (E cb) b), <- !app_assoc. done.
Qed.

Lemma xor_take t : forall s, xor_bytes t (take (length t) s) = xor_bytes t s.
Proof. induction t as [|a t IH]; intros [|b s]; try done. cbn. f_equal. apply IH. Qed.

Lemma gctr_spec cb ipre l ipost opre old opost : blk cb -> bytes l -> length old = length l ->
  aes_gctr ctx cb (ipre ++ l ++ ipost) (zlen ipre) (zlen l) (opre ++ old ++ opost) (zlen opre) = Ok (opre ++ gctr E cb l ++ opost).
Proof.
  intros Hc Hb Ho. unfold aes_gctr. destruct (Z.eqb_spec (zlen l) 0) as [E0|E0].
  { destruct l; [|rewrite zlen_cons in E0; pose proof (zlen_nonneg l); lia]. destruct old; [done | discriminate]. }
  destruct (split_pad l Hb) as (w & t & Hl & Hbw & Hbt & Hw & Ht & Hlt & Ep & Hp).
  unfold AES_BLOCK_SIZE. rewrite (proj1 (zlen_div16 l)), Nat2Z.id. set (k := (length l / 16)%nat) in *.
  rewrite rdn_front by (rewrite (blk_zlen cb Hc); lia). rewrite firstn_all2 by (rewrite (proj2 Hc); done). cbn [bind].
  rewrite <- (take_drop (16 * k) old). set (o1 := take (16 * k) old). set (o2 := drop (16 * k) old).
  assert (Ll : length l = (16 * k + length t)%nat) by (rewrite Hl, length_app; lia).
  assert (Ho1 : length o1 = (16 * k)%nat) by (unfold o1; rewrite length_take; lia).
  assert (Ho2 : length o2 = length t) by (unfold o2; rewrite length_drop; lia).
  rewrite <- (app_assoc o1), (gctr_full k w o1 0 _ ipre (t ++ ipost) opre (o2 ++ opost) (zlen ipre) (zlen opre) cb);
    try done; [| rewrite Hl, <- !app_assoc; done | lia | lia]. cbn [bind].
  destruct (ctr_stream_ok k cb Hc) as (Bs & Ls & Bk). replace (zlen l - 16 * Z.of_nat k) with (zlen t) by (unfold zlen; lia).
  unfold gctr. rewrite Ep, length_app, Hw. destruct (Z.eqb_spec (zlen t) 0) as [Et|Et].
  - assert (t = []) as -> by (apply nil_length_inv; unfold zlen in Et; lia). destruct o2; [|discriminate].
    rewrite pad16_nil, app_nil_r in *. cbn [length app]. replace ((16 * k + 0) / 16)%nat with k by (rewrite Nat.add_0_r, Nat.mul_comm, Nat.div_mul; lia).
    rewrite Hl. done.
  - destruct (Hp ltac:(intros ->; done)) as [Bp _]. rewrite (cipher_run _ Bk). cbn [bind].
    pose proof (cipher_blk (ctx:=ctx) _ Bk) as Bl. set (s := E (Nat.iter k next_ctr cb)) in *.
    rewrite (proj2 Bp). replace ((16 * k + 16) / 16)%nat with (k + 1)%nat by (replace (16 * k + 16)%nat with ((k + 1) * 16)%nat by lia; rewrite Nat.div_mul; lia).
    rewrite ctr_stream_snoc. fold s. rewrite Hl, xor_bytes_app by congruence.
    set (C := xor_bytes w (ctr_stream E cb k)) in *. assert (LC : length C = (16 * k)%nat) by (unfold C; rewrite xor_bytes_length; congruence).
    replace (zlen ipre + 16 * Z.of_nat k) with (zlen (ipre ++ w)) by (rewrite zlen_app; unfold zlen at 2; lia).
    replace (ipre ++ (w ++ t) ++ ipost) with ((ipre ++ w) ++ t ++ ipost) by (rewrite <- !app_assoc; done). rewrite rdn_app. cbn [bind].
    rewrite rdn_front by (rewrite (blk_zlen s Bl); unfold zlen; lia). cbn [bind]. replace (Z.to_nat (zlen t)) with (length t) by (unfold zlen; lia).
    rewrite xor_take. replace (zlen opre + 16 * Z.of_nat k) with (zlen (opre ++ C)) by (rewrite zlen_app; unfold zlen at 2; lia).
    replace (opre ++ C ++ o2 ++ opost) with ((opre ++ C) ++ o2 ++ opost) by (rewrite <- app_assoc; done).
    rewrite wrn_app by (unfold zlen; rewrite xor_length_le, Ho2 by (rewrite (proj2 Bl); lia); done). rewrite <- !app_assoc. done.
Qed.
End Run.

(** ** Lemmas: the pieces put together *)

Lemma zeros_blk : blk (zeros 16).
Proof. split; [apply bytes_by_compute; reflexivity | reflexivity]. Qed.

Section Pieces.
  Context (ctx : aes_ctx) (E : list Z -> list Z) `{HE : !CipherOk ctx E}.

Lemma h_blk : blk (E (zeros 16)).
Proof. apply (cipher_blk (ctx:=ctx)), zeros_blk. Qed.

Lemma j0_spec iv : bytes iv -> short iv -> aes_gcm_prepare_j0 iv (zlen iv) (E (zeros 16)) = Ok (gcm_j0 E iv) /\ blk (gcm_j0 E iv).
Proof.
  intros Hb Hs. unfold aes_gcm_prepare_j0, gcm_j0, AES_BLOCK_SIZE. pose proof h_blk as Hh. destruct (Z.eqb_spec (zlen iv) 12) as [El|El].
  - assert (Ll : length iv = 12%nat) by (unfold zlen in El; lia). rewrite Ll. cbn [Nat.eqb].
    rewrite rdn_front by lia. rewrite firstn_all2 by (unfold zlen; lia). cbn [bind]. rewrite El.
    change (zeros (Z.to_nat (16 - 12))) with ([0; 0; 0] ++ 0 :: []). rewrite app_assoc.
    replace (16 - 1) with (zlen (iv ++ [0; 0; 0])) by (rewrite zlen_app, El; done). rewrite wr_mid, <- app_assoc. split; [done|].
    split; [apply Forall_app_2; [done | apply bytes_by_compute; reflexivity] | rewrite length_app, Ll; done].
  - rewrite (proj2 (Nat.eqb_neq (length iv) 12)) by (unfold zlen in El; lia).
    destruct (ghash_spec (E (zeros 16)) [] iv [] (zeros 16) Hh zeros_blk Hb) as [F B]. cbn [app] in F. rewrite app_nil_r in F.
    change (zlen []) with 0 in F. rewrite F. clear F. cbn [bind]. cbv zeta. rewrite bit_length by done.
    change (PUT_BE64 0) with (num_bytes 8 0). destruct (ghash_block _ _ _ Hh B (lengths_block 0 (8 * zlen iv))) as [-> B'].
    rewrite hash_app in B' |- * by (apply pad16_mod || (apply pad16_bytes; done)). split; [done | exact B'].
Qed.

Lemma gcm_hash_blk aad c : blk (gcm_hash E aad c).
Proof.
  unfold gcm_hash, hash. rewrite app_assoc, app_assoc.
  assert (G : forall bs y, blk y -> blk (cbc (fun s => gmul s (E (zeros 16))) y bs)).
  { intros bs. induction bs as [|b bs IH]; intros y Hy; [done|]. apply IH, gmul_blk. }
  apply G, zeros_blk.
Qed.

Lemma gcm_ghash_spec aad more pre c post : bytes aad -> bytes c -> short aad -> short c ->
  aes_gcm_ghash (E (zeros 16)) (aad ++ more) (zlen aad) (pre ++ c ++ post) (zlen pre) (zlen c) = Ok (gcm_hash E aad c).
Proof.
  intros Ha Hc Sa Sc. pose proof h_blk as Hh. unfold aes_gcm_ghash.
  destruct (ghash_spec (E (zeros 16)) [] aad more (zeros 16) Hh zeros_blk Ha) as [F B]. cbn [app] in F.
  change (zlen []) with 0 in F. rewrite F. clear F. cbn [bind].
  destruct (ghash_spec (E (zeros 16)) pre c post _ Hh B Hc) as [-> B']. cbn [bind]. cbv zeta. rewrite !bit_length by done.
  destruct (ghash_block _ _ _ Hh B' (lengths_block (8 * zlen aad) (8 * zlen c))) as [-> _].
  rewrite !hash_app by (apply pad16_mod || (apply pad16_bytes; done)). done.
Qed.

Lemma gcm_gctr_spec cb ipre l ipost opre old opost : blk cb -> bytes l -> length old = length l ->
  aes_gcm_gctr ctx cb (ipre ++ l ++ ipost) (zlen ipre) (zlen l) (opre ++ old ++ opost) (zlen opre) =
    Ok (opre ++ gctr E (next_ctr cb) l ++ opost).
Proof.
  intros Hc Hb Ho. destruct (inc32_spec cb Hc) as [F Bn]. unfold aes_gcm_gctr. destruct (Z.eqb_spec (zlen l) 0) as [E0|E0].
  { destruct l; [|rewrite zlen_cons in E0; pose proof (zlen_nonneg l); lia]. destruct old; [done | discriminate]. }
  unfold AES_BLOCK_SIZE. rewrite rdn_front by (rewrite (blk_zlen cb Hc); lia). rewrite firstn_all2 by (rewrite (proj2 Hc); done).
  cbn [bind]. rewrite F. cbn [bind]. apply (gctr_spec ctx E); done.
Qed.

Lemma gctr_length cb l : blk cb -> length (gctr E cb l) = length l.
Proof.
  intros Hc. destruct (pad16_length l) as (k & Hk & Hr). unfold gctr. rewrite Hk. replace (16 * k / 16)%nat with k by (rewrite Nat.mul_comm, Nat.div_mul; lia).
  destruct (ctr_stream_ok ctx E k cb Hc) as (_ & Ls & _). apply xor_length_le. lia.
Qed.

Lemma gctr_bytes cb l : blk cb -> bytes l -> bytes (gctr E cb l).
Proof. intros Hc Hb. apply xor_bytes_bytes; [exact Hb | apply (ctr_stream_ok ctx E), Hc]. Qed.

Lemma gctr_twice cb l : blk cb -> gctr E cb (gctr E cb l) = l.
Proof.
  intros Hc. pose proof (gctr_length cb l Hc) as Lc. unfold gctr at 1.
  replace (length (pad16 (gctr E cb l))) with (length (pad16 l)) by (unfold pad16, zeros; rewrite !length_app, !length_replicate, Lc; done).
  destruct (pad16_length l) as (k & Hk & Hr). unfold gctr. rewrite Hk. replace (16 * k / 16)%nat with k by (rewrite Nat.mul_comm, Nat.div_mul; lia).
  destruct (ctr_stream_ok ctx E k cb Hc) as (_ & Ls & _). apply xor_bytes_cancel. lia.
Qed.

(** The tag: the hash under the first counter block. *)
Lemma gctr_block cb s : blk s -> gctr E cb s = xor_bytes s (E cb).
Proof.
  intros Hs. unfold gctr. rewrite pad16_full by (rewrite (proj2 Hs); done). rewrite (proj2 Hs). change (16 / 16)%nat with 1%nat.
  cbn [ctr_stream]. rewrite app_nil_r. done.
Qed.

Lemma tag_gctr_spec cb s opre old opost : blk cb -> blk s -> length old = 16%nat ->
  aes_gctr ctx cb s 0 16 (opre ++ old ++ opost) (zlen opre) = Ok (opre ++ xor_bytes s (E cb) ++ opost).
Proof.
  intros Hc Hs Ho. pose proof (gctr_spec ctx E cb [] s [] opre old opost Hc (proj1 Hs) ltac:(rewrite (proj2 Hs); done)) as F.
  cbn [app] in F. rewrite app_nil_r, (blk_zlen s Hs) in F. change (zlen []) with 0 in F. rewrite F, gctr_block by done. done.
Qed.
End Pieces.

Lemma subkey_spec key krest : aes_key key ->
  exists ctx, aes_gcm_init_hash_subkey true (key ++ krest) (zlen key) = Ok (Some (ctx, aes_cipher key (zeros 16))) /\ CipherOk ctx (aes_cipher key).
Proof.
  intros Hk. destruct (aes_context key Hk) as (ctx & F & HC). exists ctx. split; [|exact HC].
  unfold aes_gcm_init_hash_subkey. rewrite aes_init_front, F by done. cbn [bind]. rewrite (cipher_run _ zeros_blk). done.
Qed.

Record gcm_args (key iv aad text : list Z) : Prop := {
  ga_key : aes_key key; ga_iv : bytes iv; ga_ivs : short iv; ga_aad : bytes aad; ga_aads : short aad;
  ga_text : bytes text; ga_texts : short text }.

(** [aes_gcm_ae] with the tag right behind the text; key and additional data may lie in longer buffers. *)
Lemma aes_gcm_ae_spec key krest iv aad more pre p post opre old opost : gcm_args key iv aad p -> zlen old = zlen p + 16 ->
  let E := aes_cipher key in let c := gcm_crypt E iv p in
  aes_gcm_ae true (key ++ krest) (zlen key) iv (zlen iv) (pre ++ p ++ post) (zlen pre) (zlen p) (aad ++ more) (zlen aad)
    (opre ++ old ++ opost) (zlen opre) (zlen opre + zlen p) = Ok (Some (opre ++ c ++ gcm_tag E iv aad c ++ opost)).
Proof.
  intros [Hk Hiv Siv Ha Sa Hp Sp] Ho E c. unfold aes_gcm_ae. destruct (subkey_spec key krest Hk) as (ctx & -> & HC). cbn [bind]. fold E in HC |- *.
  destruct (j0_spec ctx E iv Hiv Siv) as [-> BJ]. cbn [bind]. rewrite <- (take_drop (length p) old).
  set (o1 := take (length p) old). set (o2 := drop (length p) old).
  assert (Ho1 : length o1 = length p) by (unfold o1, zlen in *; rewrite length_take; lia).
  assert (Ho2 : length o2 = 16%nat) by (unfold o2, zlen in *; rewrite length_drop; lia).
  rewrite <- (app_assoc o1), (gcm_gctr_spec ctx E) by done. cbn [bind]. fold (gcm_crypt E iv p). fold c.
  pose proof (inc32_spec _ BJ) as [_ BJ']. pose proof (gctr_length ctx E _ p BJ') as Lc. fold (gcm_crypt E iv p) in Lc. fold c in Lc.
  pose proof (gctr_bytes ctx E _ p BJ' Hp) as Bc. fold (gcm_crypt E iv p) in Bc. fold c in Bc.
  assert (Zc : zlen p = zlen c) by (unfold zlen; rewrite Lc; done). rewrite Zc.
  rewrite (gcm_ghash_spec ctx E) by (done || (unfold short; rewrite <- Zc; done)). cbn [bind]. rewrite <- zlen_app.
  replace (opre ++ c ++ o2 ++ opost) with ((opre ++ c) ++ o2 ++ opost) by (rewrite <- app_assoc; done).
  rewrite (tag_gctr_spec ctx E) by (done || apply gcm_hash_blk). cbn [bind]. rewrite <- app_assoc. done.
Qed.

(** [aes_gcm_ad]: the opened text and the verdict. *)
Lemma aes_gcm_ad_spec key krest iv aad amore pre c u post old more : gcm_args key iv aad c -> blk u -> length old = length c ->
  let E := aes_cipher key in
  aes_gcm_ad true (key ++ krest) (zlen key) iv (zlen iv) (pre ++ c ++ u ++ post) (zlen pre) (zlen c) (aad ++ amore) (zlen aad) (zlen pre + zlen c) (old ++ more) =
    Ok (bool_decide (u = gcm_tag E iv aad c), gcm_crypt E iv c ++ more).
Proof.
  intros [Hk Hiv Siv Ha Sa Hc Sc] Hu Ho E. unfold aes_gcm_ad. destruct (subkey_spec key krest Hk) as (ctx & -> & HC). cbn [bind]. fold E in HC |- *.
  destruct (j0_spec ctx E iv Hiv Siv) as [-> BJ]. cbn [bind].
  pose proof (gcm_gctr_spec ctx E _ pre c (u ++ post) [] old more BJ Hc Ho) as F. cbn [app] in F. change (zlen []) with 0 in F.
  rewrite F. clear F. cbn [bind]. fold (gcm_crypt E iv c). rewrite (gcm_ghash_spec ctx E) by done. cbn [bind].
  pose proof (gcm_hash_blk E aad c) as BS.
  pose proof (tag_gctr_spec ctx E _ _ [] (zeros 16) [] BJ BS eq_refl) as F. cbn [app] in F. rewrite app_nil_r in F. change (zlen []) with 0 in F.
  rewrite F. clear F. cbn [bind]. rewrite app_nil_r. fold (gcm_tag E iv aad c). set (T := gcm_tag E iv aad c).
  assert (BT : blk T) by (apply xor_blk; [exact BS | apply (cipher_blk (ctx:=ctx)), BJ]).
  replace (pre ++ c ++ u ++ post) with ((pre ++ c) ++ u ++ post) by (rewrite <- app_assoc; done). rewrite <- zlen_app.
  rewrite <- (blk_zlen u Hu) at 1. rewrite rdn_app. cbn [bind].
  destruct (memcmp_const_spec 16 u T 0) as (r & -> & _ & Hr); [rewrite (proj2 Hu); lia | rewrite (proj2 BT); lia | lia | apply bytes_nonneg, Hu | apply bytes_nonneg, BT |].
  rewrite !firstn_all2 in Hr by (rewrite ?(proj2 Hu), ?(proj2 BT); lia). cbn [bind]. do 2 f_equal.
  destruct (Z.eqb_spec r 0) as [E0|E0].
  - symmetry. apply bool_decide_eq_true. tauto.
  - symmetry. apply bool_decide_eq_false. intros H. apply E0, Hr. done.
Qed.

(** ** Theorems *)

(** C30: GCM (SP 800-38D) is computed and inverted: for every AES key, every initialisation vector, every additional
    data and every text, [aes_gcm_ae] writes the text under the counter stream that starts after [J_0] and behind it
    the tag, the GHASH polynomial of the padded data, the padded cipher text and their bit lengths - evaluated at
    [E 0] with the product of the field of 2^128 elements - under [E J_0]; nothing else is written. [aes_gcm_ad] opens
    it to the same text and accepts exactly when the sixteen bytes it is given are that tag. *)
Theorem gcm_opens_what_it_seals key iv aad p u pre post opre old opost :
  gcm_args key iv aad p -> blk u -> zlen old = zlen p + 16 ->
  let E := aes_cipher key in let c := gcm_crypt E iv p in let T := gcm_tag E iv aad c in
  aes_gcm_ae true key (zlen key) iv (zlen iv) (pre ++ p ++ post) (zlen pre) (zlen p) aad (zlen aad)
    (opre ++ old ++ opost) (zlen opre) (zlen opre + zlen p) = Ok (Some (opre ++ c ++ T ++ opost)) /\
  exists more, aes_gcm_ad true key (zlen key) iv (zlen iv) (pre ++ c ++ u ++ post) (zlen pre) (zlen c) aad (zlen aad)
    (zlen pre + zlen c) old = Ok (bool_decide (u = T), p ++ more).
Proof.
  intros HA Hu Ho E c T. split; [pose proof (aes_gcm_ae_spec key [] iv aad [] pre p post opre old opost HA Ho) as F; rewrite !app_nil_r in F; exact F|]. destruct HA as [Hk Hiv Siv Ha Sa Hp Sp].
  destruct (aes_context key Hk) as (ctx & _ & HC). fold E in HC. destruct (j0_spec ctx E iv Hiv Siv) as [_ BJ].
  pose proof (proj2 (inc32_spec _ BJ)) as BJ'. pose proof (gctr_length ctx E _ p BJ') as Lc. fold (gcm_crypt E iv p) in Lc. fold c in Lc.
  pose proof (gctr_bytes ctx E _ p BJ' Hp) as Bc. fold (gcm_crypt E iv p) in Bc. fold c in Bc.
  exists (drop (length c) old). rewrite <- (take_drop (length c) old) at 1.
  pose proof (fun H1 H2 H3 => aes_gcm_ad_spec key [] iv aad [] pre c u post (take (length c) old) (drop (length c) old) H1 H2 H3) as F.
  rewrite !app_nil_r in F. rewrite F.
  - fold E T. unfold c, gcm_crypt. rewrite (gctr_twice ctx E _ p BJ'). done.
  - split; try done. unfold short in *. unfold zlen in *. rewrite Lc. done.
  - done.
  - unfold zlen in Ho. rewrite length_take. lia.
Qed.

(** Test case 4 of the GCM specification: 60 bytes of text, 20 of additional data. *)
Definition ex_gcm_key : list Z :=
  [0xfe; 0xff; 0xe9; 0x92; 0x86; 0x65; 0x73; 0x1c; 0x6d; 0x6a; 0x8f; 0x94; 0x67; 0x30; 0x83; 0x08].
Definition ex_gcm_iv : list Z := [0xca; 0xfe; 0xba; 0xbe; 0xfa; 0xce; 0xdb; 0xad; 0xde; 0xca; 0xf8; 0x88].
Definition ex_gcm_aad : list Z :=
  [0xfe; 0xed; 0xfa; 0xce; 0xde; 0xad; 0xbe; 0xef; 0xfe; 0xed; 0xfa; 0xce; 0xde; 0xad; 0xbe; 0xef; 0xab; 0xad; 0xda; 0xd2].
Definition ex_gcm_text : list Z := num_bytes 60
  0xd9313225f88406e5a55909c5aff5269a86a7a9531534f7da2e4c303d8a318a721c3c0c95956809532fcf0e2449a6b525b16aedf5aa0de657ba637b39.
Definition ex_gcm_sealed : list Z := num_bytes 60
  0x42831ec2217774244b7221b784d0d49ce3aa212f2c02a4e035c17e2329aca12e21d514b25466931c7d8f6a5aac84aa051ba30b396a0aac973d58e091.
Definition ex_gcm_tag : list Z := num_bytes 16 0x5bc94fbc3221a5db94fae95ae7121a47.

Lemma gcm_opens_what_it_seals_witness :
  aes_gcm_ae true ex_gcm_key 16 ex_gcm_iv 12 ex_gcm_text 0 60 ex_gcm_aad 20 (zeros 76) 0 60 = Ok (Some (ex_gcm_sealed ++ ex_gcm_tag)) /\
  let E := aes_cipher ex_gcm_key in let c := gcm_crypt E ex_gcm_iv ex_gcm_text in let T := gcm_tag E ex_gcm_iv ex_gcm_aad c in
  aes_gcm_ae true ex_gcm_key (zlen ex_gcm_key) ex_gcm_iv (zlen ex_gcm_iv) ([1; 2] ++ ex_gcm_text ++ [3]) (zlen [1; 2])
    (zlen ex_gcm_text) ex_gcm_aad (zlen ex_gcm_aad) ([] ++ zeros 76 ++ [9]) (zlen (@nil Z)) (zlen (@nil Z) + zlen ex_gcm_text)
    = Ok (Some ([] ++ c ++ T ++ [9])) /\
  exists more, aes_gcm_ad true ex_gcm_key (zlen ex_gcm_key) ex_gcm_iv (zlen ex_gcm_iv) ([1; 2] ++ c ++ ex_gcm_tag ++ [3]) (zlen [1; 2])
    (zlen c) ex_gcm_aad (zlen ex_gcm_aad) (zlen [1; 2] + zlen c) (zeros 76) = Ok (bool_decide (ex_gcm_tag = T), ex_gcm_text ++ more).
Proof.
  split; [vm_compute; reflexivity|].
  apply (gcm_opens_what_it_seals ex_gcm_key ex_gcm_iv ex_gcm_aad ex_gcm_text ex_gcm_tag [1; 2] [3] [] (zeros 76) [9]).
  - constructor; try (apply bytes_by_compute; vm_compute; reflexivity); try (vm_compute; reflexivity).
    split; [apply bytes_by_compute; vm_compute; reflexivity | left; reflexivity].
  - split; [apply bytes_by_compute; vm_compute; reflexivity | reflexivity].
  - reflexivity.
Defined.
