(* ===== verification/Ccmp.v ===== *)
(** * CCMP: CCM over a frame

    Models [core/crypto/ccmp.c] and the CCMP routines of [core/rtw_swcrypto.c]. A frame lies at the front of its
    buffer; [am] is [registrypriv.amsdu_mode]. The memory that [os_malloc] hands out is a parameter: a buffer of the
    size asked for, with any content, or none. The specification says which bits of the header are protected. *)
From Stdlib Require Import ZArith Lia Bool.
From stdpp Require Import base option list numbers.
From S2P Require Import Prelude Arc4 Sec Aes Modes Ccm.
Local Open Scope Z_scope.

Definition RTW_AMSDU_MODE_SPP := 1.

(** ** The code: additional data and nonce *)

(* src: include/osdep_service.h:749 RTW_GET_LE16 *)
Definition GET_LE16 (a : list Z) (p : Z) : res Z :=
  a0 <- rd a p ;; a1 <- rd a (p + 1) ;; Ok (u16 (Z.shiftl a1 8 .| a0)).

(* src: include/osdep_service.h:750-754 RTW_PUT_LE16 *)
Definition PUT_LE16 (v : Z) : list Z := [u16 v & 0xff; Z.shiftr (u16 v) 8].

(** The data behind the frame control word; its length is where [pos] ends. *)
(* src: core/crypto/ccmp.c:46-68 ccmp_aad_nonce *)
Definition put_aad (am : Z) (mem : list Z) (fc : Z) (addr4 qos : bool) : res (list Z * Z) :=
  a <- rdn mem 4 18 ;;
  seq <- GET_LE16 mem 22 ;;
  x <- rdn mem 24 ((if addr4 then 6 else 0) + (if qos then 2 else 0)) ;;
  aad <- wrn (zeros 30) 0 (PUT_LE16 fc) ;;
  aad <- wrn aad 2 a ;;
  aad <- wrn aad 20 (PUT_LE16 (seq & Z.lnot 0xfff0)) ;;
  aad <- wrn aad 22 x ;;
  let pos := 22 + (if addr4 then 6 else 0) in
  if qos then
    b <- rd aad pos ;;
    let b := u8 (b & Z.lnot 0x70) in
    let b := if am =? RTW_AMSDU_MODE_SPP then b else u8 (b & Z.lnot 0x80) in
    aad <- wr aad pos b ;;
    aad <- wr aad (pos + 1) 0 ;;
    Ok (aad, pos + 2)
  else Ok (aad, pos).

(** The header is at the front of [mem], the packet number at [data]. *)
(* src: core/crypto/ccmp.c:17-77 ccmp_aad_nonce *)
Definition ccmp_aad_nonce (am : Z) (mem : list Z) (data : Z) : res (list Z * Z * list Z) :=
  fc <- GET_LE16 mem 0 ;;
  let stype := fc & 0xf0 in
  let addr4 := fc & 0x0300 =? 0x0300 in
  '(fc, qos, n0) <- (if fc & 0x0c =? 0x08 then
                       let fc := fc & Z.lnot 0x0070 in
                       if stype & 0x80 =? 0 then Ok (fc, false, 0)
                       else
                         q <- rd mem (24 + (if addr4 then 6 else 0)) ;;
                         Ok (fc & Z.lnot 0x8000, true, q & 0x0f)
                     else Ok (fc, false, if fc & 0x0c =? 0 then 0x10 else 0)) ;;
  let fc := (fc & Z.lnot (0x0800 .| 0x1000 .| 0x2000)) .| 0x4000 in
  '(aad, aad_len) <- put_aad am mem fc addr4 qos ;;
  a2 <- rdn mem 10 6 ;;
  p7 <- rd mem (data + 7) ;; p6 <- rd mem (data + 6) ;; p5 <- rd mem (data + 5) ;; p4 <- rd mem (data + 4) ;;
  p1 <- rd mem (data + 1) ;; p0 <- rd mem data ;;
  Ok (aad, aad_len, [n0] ++ a2 ++ [p7; p6; p5; p4; p1; p0]).

(** ** The code: frames *)

Section Ccmp.
  Context (os_malloc : Z -> option (list Z)) (aes_alloc : bool) (am : Z).

(** [tk_len] and [M] are the constants of the two versions. [None]: NULL. *)
(* src: core/crypto/ccmp.c:138-176 ccmp_decrypt *)
Definition ccmp_decrypt_with (tk_len M : Z) (tk mem : list Z) (data data_len : Z) : res (option (list Z * Z)) :=
  if data_len <? 8 + M then Ok None
  else
    match os_malloc (u32 (data_len + AES_BLOCK_SIZE)) with
    | None => Ok None
    | Some plain =>
        let mlen := data_len - 8 - M in
        '(aad, aad_len, nonce) <- ccmp_aad_nonce am mem data ;;
        '(ok, plain) <- aes_ccm_ad aes_alloc tk tk_len nonce M mem (data + 8) mlen aad aad_len (data + 8 + mlen) plain ;;
        Ok (if ok then Some (plain, mlen) else None)
    end.

(* src: core/crypto/ccmp.c:138-176 ccmp_decrypt *)
Definition ccmp_decrypt := ccmp_decrypt_with 16 8.
(* src: core/crypto/ccmp.c:289-327 ccmp_256_decrypt *)
Definition ccmp_256_decrypt := ccmp_decrypt_with 32 16.

(** [hdr->frame_control |= host_to_le16(WLAN_FC_ISWEP)] *)
(* src: core/crypto/ccmp.c:209 ccmp_encrypt *)
Definition set_iswep (mem : list Z) : res (list Z) :=
  fc <- GET_LE16 mem 0 ;; wrn mem 0 (PUT_LE16 (fc .| 0x4000)).

(** The front of the new frame and where the text is in the old one. *)
(* src: core/crypto/ccmp.c:206-226 ccmp_encrypt *)
Definition crypt_front (protect : bool) (frame : list Z) (hdrlen : Z) (pn : option (list Z)) (keyid : Z) (crypt : list Z)
    : res (list Z * Z) :=
  let set := fun crypt => if protect then set_iswep crypt else Ok crypt in
  match pn with
  | None =>
      f <- rdn frame 0 (hdrlen + 8) ;;
      crypt <- wrn crypt 0 f ;;
      crypt <- set crypt ;;
      Ok (crypt, hdrlen + 8)
  | Some pn =>
      f <- rdn frame 0 hdrlen ;;
      crypt <- wrn crypt 0 f ;;
      crypt <- set crypt ;;
      p5 <- rd pn 5 ;; p4 <- rd pn 4 ;; p3 <- rd pn 3 ;; p2 <- rd pn 2 ;; p1 <- rd pn 1 ;; p0 <- rd pn 0 ;;
      crypt <- wrn crypt hdrlen [p5; p4; 0x00; u8 (0x20 .| Z.shiftl keyid 6); p3; p2; p1; p0] ;;
      Ok (crypt, hdrlen)
  end.

(* src: core/crypto/ccmp.c:190-244 ccmp_encrypt *)
Definition ccmp_encrypt_with (tk_len M : Z) (tk frame : list Z) (len hdrlen : Z) (pn : option (list Z)) (keyid : Z)
    : res (option (list Z * Z)) :=
  if (len <? hdrlen) || (hdrlen <? 24) then Ok None
  else
    let plen := len - hdrlen in
    match os_malloc (u32 (hdrlen + 8 + plen + M + AES_BLOCK_SIZE)) with
    | None => Ok None
    | Some crypt =>
        '(crypt, pdata) <- crypt_front true frame hdrlen pn keyid crypt ;;
        '(aad, aad_len, nonce) <- ccmp_aad_nonce am crypt hdrlen ;;
        r <- aes_ccm_ae aes_alloc tk tk_len nonce M frame pdata plen aad aad_len crypt (hdrlen + 8) (hdrlen + 8 + plen) ;;
        Ok (crypt ← r; Some (crypt, hdrlen + 8 + plen + M))
    end.

(* src: core/crypto/ccmp.c:190-244 ccmp_encrypt *)
Definition ccmp_encrypt := ccmp_encrypt_with 16 8.
(* src: core/crypto/ccmp.c:330-385 ccmp_256_encrypt *)
Definition ccmp_256_encrypt := ccmp_encrypt_with 32 16.

(** [plen]: the text without packet number and code. *)
(* src: core/rtw_swcrypto.c:30-61 _rtw_ccmp_encrypt *)
Definition _rtw_ccmp_encrypt (key : list Z) (key_len hdrlen : Z) (frame : list Z) (plen : Z) : res (Z * list Z) :=
  enc <- (if key_len =? 16 then ccmp_encrypt key frame (u32 (hdrlen + plen)) hdrlen None 0
          else if key_len =? 32 then ccmp_256_encrypt key frame (u32 (hdrlen + plen)) hdrlen None 0
          else Ok None) ;;
  match enc with
  | None => Ok (FAIL, frame)
  | Some (enc, enc_len) => e <- rdn enc 0 enc_len ;; frame <- wrn frame 0 e ;; Ok (SUCCESS, frame)
  end.

(** [plen]: the whole frame. *)
(* src: core/rtw_swcrypto.c:71-107 _rtw_ccmp_decrypt *)
Definition _rtw_ccmp_decrypt (key : list Z) (key_len hdrlen : Z) (frame : list Z) (plen : Z) : res (Z * list Z) :=
  plain <- (if key_len =? 16 then ccmp_decrypt key frame hdrlen (u32 (plen - hdrlen))
            else if key_len =? 32 then ccmp_256_decrypt key frame hdrlen (u32 (plen - hdrlen))
            else Ok None) ;;
  match plain with
  | None => Ok (FAIL, frame)
  | Some (plain, plain_len) =>
      p <- rdn plain 0 plain_len ;; frame <- wrn frame (hdrlen + 8) p ;; Ok (SUCCESS, frame)
  end.
End Ccmp.

(** ** Specification: which bits of a header are protected *)

Definition is_data (f0 : Z) : bool := f0 & 0x0c =? 0x08.
Definition is_qos (f0 : Z) : bool := is_data f0 && negb (f0 & 0x80 =? 0).
Definition has_a4 (f1 : Z) : bool := f1 & 0x03 =? 0x03.

(** One mask byte for each header byte. Of a data frame three subtype bits, and in every frame retry, power management
    and more data, the duration and the sequence number may change; so may the order bit and all of the QoS field but
    the priority in a QoS frame - with SPP its A-MSDU bit is protected. [keep] are the other bits of the second byte. *)
Definition hdr_mask (am keep : Z) (f0 f1 : Z) : list Z :=
  [if is_data f0 then 0x8f else 0xff; if is_qos f0 then keep & 0x7f else keep; 0; 0] ++ replicate 18 0xff ++ [0x0f; 0] ++
  (if has_a4 f1 then replicate 6 0xff else []) ++ (if is_qos f0 then [if am =? RTW_AMSDU_MODE_SPP then 0x8f else 0x0f; 0] else []).

Definition masked (am keep : Z) (h : list Z) : list Z :=
  match h with f0 :: f1 :: _ => zip_with Z.land (hdr_mask am keep f0 f1) h | _ => [] end.

(** A header: as long as its first two bytes say. *)
Definition hdr_ok (h : list Z) : Prop :=
  bytes h /\ match h with f0 :: f1 :: _ => length h = (24 + (if has_a4 f1 then 6 else 0) + (if is_qos f0 then 2 else 0))%nat | _ => False end.

(** The additional data: the protected bits without the duration, and the bits [set]. CCMP sets the Protected bit. *)
Definition hdr_aad (am keep set : Z) (h : list Z) : list Z :=
  match masked am keep h with m0 :: m1 :: _ :: _ :: m => m0 :: (m1 .| set) :: m | _ => [] end.
Definition ccmp_aad (am : Z) (h : list Z) : list Z := hdr_aad am 0x87 0x40 h.

(** The priority, or the mark of a management frame. *)
Definition nonce_flags (h : list Z) : Z :=
  match h with
  | f0 :: f1 :: _ => if is_data f0 then if is_qos f0 then byte_at h (24 + (if has_a4 f1 then 6 else 0)) & 0x0f else 0
                     else if f0 & 0x0c =? 0 then 0x10 else 0
  | _ => 0
  end.

Definition pn_bytes (iv : list Z) : list Z := [byte_at iv 7; byte_at iv 6; byte_at iv 5; byte_at iv 4; byte_at iv 1; byte_at iv 0].
Definition ccmp_nonce (h iv : list Z) : list Z := [nonce_flags h] ++ take 6 (drop 10 h) ++ pn_bytes iv.

Definition set_protected (h : list Z) : list Z := match h with f0 :: f1 :: h => f0 :: (f1 .| 0x40) :: h | _ => h end.

(** ** Lemmas: the header *)

(** The frame control word against its two bytes, by trying them all. *)
Definition fc_agrees (keep set : Z) (f0 f1 : Z) : bool :=
  let fc := u16 (Z.shiftl f1 8 .| f0) in
  let m := fun fc => (fc & Z.lnot (0x0800 .| 0x1000 .| 0x2000)) .| set in
  let m0 := f0 & (if is_data f0 then 0x8f else 0xff) in
  let m1 := f1 & (if is_qos f0 then keep & 0x7f else keep) in
  eqb (fc & 0x0300 =? 0x0300) (has_a4 f1) && eqb (fc & 0x0c =? 0x08) (is_data f0) && (fc & 0x0c =? f0 & 0x0c) &&
  (if is_data f0 then
     eqb (fc & 0xf0 & 0x80 =? 0) (negb (is_qos f0)) &&
     list_eqb (PUT_LE16 (m (if is_qos f0 then fc & Z.lnot 0x0070 & Z.lnot 0x8000 else fc & Z.lnot 0x0070))) [m0; m1 .| Z.shiftr set 8]
   else list_eqb (PUT_LE16 (m fc)) [m0; m1 .| Z.shiftr set 8]).

Lemma all_pairs (P : Z -> Z -> bool) :
  forallb (fun i => forallb (fun j => P (Z.of_nat i) (Z.of_nat j)) (seq 0 256)) (seq 0 256) = true ->
  forall x y, is_byte x -> is_byte y -> P x y = true.
Proof.
  intros H x y Hx Hy. apply (all_bytes (P x)); [|exact Hy].
  apply (all_bytes (fun x => forallb (fun j => P x (Z.of_nat j)) (seq 0 256))); [exact H | exact Hx].
Qed.

Lemma fc_agrees_gcmp f0 f1 : is_byte f0 -> is_byte f1 -> fc_agrees 0xc7 0 f0 f1 = true.
Proof. apply all_pairs. vm_compute. reflexivity. Qed.

Lemma fc_agrees_ccmp f0 f1 : is_byte f0 -> is_byte f1 -> fc_agrees 0x87 0x4000 f0 f1 = true.
Proof. apply all_pairs. vm_compute. reflexivity. Qed.

(** A header in parts: the duration [d], the addresses, the sequence control, the fourth address, the QoS field. *)
Lemma hdr_split h : hdr_ok h -> exists f0 f1 d a s0 s1 x q, h = [f0; f1] ++ d ++ a ++ [s0; s1] ++ x ++ q /\
  bytes h /\ length d = 2%nat /\ length a = 18%nat /\ length x = (if has_a4 f1 then 6 else 0)%nat /\
  length q = (if is_qos f0 then 2 else 0)%nat.
Proof.
  intros [Hb Hl]. destruct h as [|f0 [|f1 r]]; try done. cbn [length] in Hl. set (n4 := (if has_a4 f1 then 6 else 0)%nat) in *.
  exists f0, f1, (take 2 r), (take 18 (drop 2 r)).
  destruct (drop_S_exists r 20 ltac:(lia)) as (s0 & E0 & _). destruct (drop_S_exists r 21 ltac:(lia)) as (s1 & E1 & _).
  exists s0, s1, (take n4 (drop 22 r)), (drop (22 + n4) r). split.
  - assert (D : forall k n, take n (drop k r) ++ drop (k + n) r = drop k r) by (intros k n; rewrite <- drop_drop; apply take_drop).
    rewrite D, (eq_refl : [s0; s1] ++ drop 22 r = s0 :: s1 :: drop 22 r), <- E1, <- E0.
    rewrite (D 2%nat 18%nat : _ ++ drop 20 r = _), take_drop. done.
  - split; [done|]. rewrite !length_take, !length_drop. lia.
Qed.

Lemma land_all_id x : is_byte x -> 0xff & x = x.
Proof. intros Hx. rewrite Z.land_comm, land_ff_mod. apply Z.mod_small. exact Hx. Qed.

Lemma mask_all n : forall l, bytes l -> length l = n -> zip_with Z.land (replicate n 0xff) l = l.
Proof.
  induction n as [|n IH]; intros [|x l] Hb Hl; try done. apply Forall_cons_1 in Hb as [Hx Hb]. cbn [replicate zip_with].
  rewrite land_all_id, IH by (done || (cbn in Hl; lia)). done.
Qed.

Definition qos_mask (am : Z) : Z := if am =? RTW_AMSDU_MODE_SPP then 0x8f else 0x0f.

(** The masked header in parts. *)
Lemma masked_parts am keep f0 f1 d a s0 s1 x q : bytes a -> bytes x -> length d = 2%nat -> length a = 18%nat ->
  length x = (if has_a4 f1 then 6 else 0)%nat -> length q = (if is_qos f0 then 2 else 0)%nat ->
  masked am keep ([f0; f1] ++ d ++ a ++ [s0; s1] ++ x ++ q) =
    [(if is_data f0 then 0x8f else 0xff) & f0; (if is_qos f0 then keep & 0x7f else keep) & f1; 0; 0] ++ a ++ [0x0f & s0; 0] ++ x ++
    (match q with q0 :: _ => [qos_mask am & q0; 0] | [] => [] end).
Proof.
  intros Ba Bx Ld La Lx Lq. destruct d as [|d0 [|d1 [|]]]; try discriminate. cbn [app masked]. unfold hdr_mask. cbn [app zip_with].
  rewrite !Z.land_0_l. do 4 f_equal. rewrite zip_with_app by (rewrite length_replicate; done). rewrite mask_all by done. f_equal.
  cbn [app zip_with]. rewrite Z.land_0_l. do 2 f_equal.
  rewrite zip_with_app by (destruct (has_a4 f1); cbn [length replicate]; congruence).
  assert (Ex : zip_with Z.land (if has_a4 f1 then replicate 6 0xff else []) x = x).
  { destruct (has_a4 f1); [apply mask_all; done | destruct x; done]. }
  rewrite Ex. f_equal. unfold qos_mask.
  destruct (is_qos f0); destruct q as [|q0 [|q1 [|]]]; done.
Qed.

Lemma seq_bytes s0 s1 : is_byte s0 -> is_byte s1 -> PUT_LE16 (u16 (Z.shiftl s1 8 .| s0) & Z.lnot 0xfff0) = [0x0f & s0; 0].
Proof.
  intros H0 H1. assert (E : list_eqb (PUT_LE16 (u16 (Z.shiftl s1 8 .| s0) & Z.lnot 0xfff0)) [0x0f & s0; 0] = true).
  { revert s0 s1 H0 H1. apply all_pairs. vm_compute. reflexivity. }
  unfold list_eqb in E. apply bool_decide_eq_true in E. exact E.
Qed.

Lemma qos_byte am q : is_byte q ->
  (if am =? RTW_AMSDU_MODE_SPP then u8 (q & Z.lnot 0x70) else u8 (u8 (q & Z.lnot 0x70) & Z.lnot 0x80)) = qos_mask am & q.
Proof.
  intros Hq. unfold qos_mask. destruct (am =? RTW_AMSDU_MODE_SPP); apply Z.eqb_eq.
  - apply (all_bytes (fun q => u8 (q & Z.lnot 0x70) =? 0x8f & q)); [vm_compute; reflexivity | done].
  - apply (all_bytes (fun q => u8 (u8 (q & Z.lnot 0x70) & Z.lnot 0x80) =? 0x0f & q)); [vm_compute; reflexivity | done].
Qed.

(** The sequence control word in its place. *)
Lemma seq_at f0 f1 (d a l : list Z) s0 s1 : length d = 2%nat -> length a = 18%nat ->
  GET_LE16 ([f0; f1] ++ d ++ a ++ [s0; s1] ++ l) 22 = Ok (u16 (Z.shiftl s1 8 .| s0)).
Proof.
  intros Ld La. unfold GET_LE16.
  replace ([f0; f1] ++ d ++ a ++ [s0; s1] ++ l) with (([f0; f1] ++ d ++ a) ++ s0 :: (s1 :: l)) by (rewrite <- !app_assoc; done).
  rewrite rd_off by (unfold zlen; rewrite !length_app, Ld, La; done). cbn [bind].
  replace (([f0; f1] ++ d ++ a) ++ s0 :: (s1 :: l)) with (([f0; f1] ++ d ++ a ++ [s0]) ++ s1 :: l) by (rewrite <- !app_assoc; done).
  rewrite rd_off by (unfold zlen; rewrite !length_app, Ld, La; done). done.
Qed.

Lemma put_aad_spec am f0 f1 (d a x q rest : list Z) s0 s1 fc m0 m1 (addr4 qos : bool) :
  PUT_LE16 fc = [m0; m1] -> is_byte s0 -> is_byte s1 -> bytes q ->
  length d = 2%nat -> length a = 18%nat -> length x = (if addr4 then 6 else 0)%nat -> length q = (if qos then 2 else 0)%nat ->
  exists more, put_aad am ([f0; f1] ++ d ++ a ++ [s0; s1] ++ x ++ q ++ rest) fc addr4 qos =
    Ok ([m0; m1] ++ a ++ [0x0f & s0; 0] ++ x ++ (match q with q0 :: _ => [qos_mask am & q0; 0] | [] => [] end) ++ more,
        22 + zlen x + zlen q).
Proof.
  intros Hfc B0 B1 Bq Ld La Lx Lq. unfold put_aad.
  set (mem := [f0; f1] ++ d ++ a ++ [s0; s1] ++ x ++ q ++ rest).
  assert (Ra : rdn mem 4 18 = Ok a).
  { replace mem with (([f0; f1] ++ d) ++ a ++ ([s0; s1] ++ x ++ q ++ rest)) by (unfold mem; rewrite <- !app_assoc; done).
    apply rdn_off; unfold zlen; rewrite ?length_app, ?La, ?Ld; done. }
  assert (Rx : rdn mem 24 ((if addr4 then 6 else 0) + (if qos then 2 else 0)) = Ok (x ++ q)).
  { replace mem with (([f0; f1] ++ d ++ a ++ [s0; s1]) ++ (x ++ q) ++ rest) by (unfold mem; rewrite <- !app_assoc; done).
    apply rdn_off; unfold zlen; rewrite ?length_app, ?La, ?Ld, ?Lx, ?Lq; destruct addr4, qos; done. }
  rewrite Ra. cbn [bind]. unfold mem at 1. rewrite seq_at by done. cbn [bind]. rewrite Rx. cbn [bind]. rewrite Hfc, seq_bytes by done.
  clear Ra Rx mem.
  set (m := (8 - length x - length q)%nat).
  assert (Z30 : zeros 30 = [] ++ zeros 2 ++ zeros 18 ++ zeros 2 ++ zeros (length (x ++ q)) ++ zeros m).
  { unfold zeros, m. cbn [app]. rewrite <- !replicate_add, length_app, Lx, Lq. destruct addr4, qos; done. }
  rewrite Z30, wrn_off by done. cbn [bind]. rewrite app_nil_l, (wrn_off [m0; m1] (zeros 18) _ a 2) by done. cbn [bind].
  rewrite (app_assoc [m0; m1] a), (wrn_off ([m0; m1] ++ a) (zeros 2)) by (unfold zlen; rewrite ?length_app, ?La; done). cbn [bind].
  rewrite (app_assoc ([m0; m1] ++ a)), (wrn_off (([m0; m1] ++ a) ++ [0x0f & s0; 0]) (zeros (length (x ++ q)))) by
    (unfold zlen, zeros; rewrite ?length_app, ?length_replicate, ?La; done). cbn [bind]. cbv zeta.
  exists (zeros m). destruct qos.
  - destruct q as [|q0 [|q1 [|]]]; try discriminate. apply Forall_cons_1 in Bq as [Bq0 _].
    set (pre := (([m0; m1] ++ a) ++ [0x0f & s0; 0]) ++ x).
    assert (Zp : zlen pre = 22 + zlen x) by (unfold pre, zlen; rewrite !length_app, La; cbn [length]; lia).
    assert (Ep : 22 + (if addr4 then 6 else 0) = zlen pre) by (rewrite Zp; unfold zlen; rewrite Lx; destruct addr4; done).
    replace ((([m0; m1] ++ a) ++ [0x0f & s0; 0]) ++ (x ++ [q0; q1]) ++ zeros m) with (pre ++ q0 :: (q1 :: zeros m)) by (unfold pre; rewrite <- !app_assoc; done).
    rewrite rd_off by done. cbn [bind]. rewrite (qos_byte am q0 Bq0), wr_off by done. cbn [bind].
    replace (pre ++ (qos_mask am & q0) :: q1 :: zeros m) with ((pre ++ [qos_mask am & q0]) ++ q1 :: zeros m) by (rewrite <- app_assoc; done).
    rewrite wr_off by (rewrite zlen_app, Ep; done). cbn [bind]. unfold pre. rewrite <- !app_assoc. cbn [app]. do 2 f_equal.
    rewrite Ep, Zp. unfold zlen. cbn [length]. lia.
  - destruct q; [|discriminate]. rewrite app_nil_r, <- !app_assoc. cbn [app]. do 2 f_equal. unfold zlen. rewrite Lx. destruct addr4; done.
Qed.

Lemma fc_at f0 f1 rest : GET_LE16 ([f0; f1] ++ rest) 0 = Ok (u16 (Z.shiftl f1 8 .| f0)).
Proof.
  unfold GET_LE16. rewrite (rd_off [] f0 (f1 :: rest) 0 eq_refl : rd ([f0; f1] ++ rest) 0 = _). cbn [bind].
  rewrite (rd_off [f0] f1 rest (0 + 1) eq_refl : rd ([f0; f1] ++ rest) (0 + 1) = _). done.
Qed.

Lemma hdr_aad_parts am keep set f0 f1 d a s0 s1 x q : bytes ([f0; f1] ++ d ++ a ++ [s0; s1] ++ x ++ q) -> length d = 2%nat -> length a = 18%nat ->
  length x = (if has_a4 f1 then 6 else 0)%nat -> length q = (if is_qos f0 then 2 else 0)%nat ->
  hdr_aad am keep set ([f0; f1] ++ d ++ a ++ [s0; s1] ++ x ++ q) =
    [f0 & (if is_data f0 then 0x8f else 0xff); (f1 & (if is_qos f0 then keep & 0x7f else keep)) .| set] ++ a ++ [0x0f & s0; 0] ++ x ++
    (match q with q0 :: _ => [qos_mask am & q0; 0] | [] => [] end).
Proof.
  intros Hb Ld La Lx Lq. unfold bytes in Hb. rewrite !Forall_app in Hb. destruct Hb as (_ & _ & Ba & _ & Bx & _).
  unfold hdr_aad. rewrite masked_parts by done. cbn [app]. rewrite (Z.land_comm _ f0), (Z.land_comm _ f1). done.
Qed.

Lemma pn_at (pre iv rest : list Z) : length iv = 8%nat ->
  rd (pre ++ iv ++ rest) (zlen pre + 7) = Ok (byte_at iv 7) /\ rd (pre ++ iv ++ rest) (zlen pre + 6) = Ok (byte_at iv 6) /\
  rd (pre ++ iv ++ rest) (zlen pre + 5) = Ok (byte_at iv 5) /\ rd (pre ++ iv ++ rest) (zlen pre + 4) = Ok (byte_at iv 4) /\
  rd (pre ++ iv ++ rest) (zlen pre + 1) = Ok (byte_at iv 1) /\ rd (pre ++ iv ++ rest) (zlen pre) = Ok (byte_at iv 0).
Proof.
  intros Hl. rewrite <- (Z.add_0_r (zlen pre)) at 6. rewrite !rd_part by (unfold zlen; lia). done.
Qed.

Lemma addr2_at (f0 f1 : Z) (d a l : list Z) : length d = 2%nat -> length a = 18%nat ->
  rdn ([f0; f1] ++ d ++ a ++ l) 10 6 = Ok (take 6 (drop 6 a)) /\ take 6 (drop 10 ([f0; f1] ++ d ++ a ++ l)) = take 6 (drop 6 a).
Proof.
  intros Ld La. assert (E : take 6 (drop 10 ([f0; f1] ++ d ++ a ++ l)) = take 6 (drop 6 a)).
  { destruct d as [|d0 [|d1 [|]]]; try discriminate. cbn [app drop]. rewrite drop_app_le, take_app_le by (rewrite ?length_drop; lia). done. }
  split; [|exact E]. unfold rdn. rewrite (proj2 (Z.leb_le (10 + 6) _)) by (unfold zlen; rewrite !length_app, Ld, La; cbn [length]; lia).
  change (Z.to_nat 6) with 6%nat. change (Z.to_nat 10) with 10%nat. rewrite E. done.
Qed.

(** What the code reads of a header in front of eight bytes of IV: [aad] is the additional data of the masks [keep], [set]. *)
Record hdr_reads (am keep set : Z) (h iv rest : list Z) (f0 f1 : Z) : Prop := {
  hr_two : exists l, h = f0 :: f1 :: l;
  hr_fc : GET_LE16 (h ++ iv ++ rest) 0 = Ok (u16 (Z.shiftl f1 8 .| f0));
  hr_agrees : fc_agrees keep (Z.shiftl set 8) f0 f1 = true;
  hr_qos : is_qos f0 = true -> rd (h ++ iv ++ rest) (24 + (if has_a4 f1 then 6 else 0)) = Ok (byte_at h (24 + (if has_a4 f1 then 6 else 0)));
  hr_a2 : rdn (h ++ iv ++ rest) 10 6 = Ok (take 6 (drop 10 h));
  hr_aad : forall fc, PUT_LE16 fc = [f0 & (if is_data f0 then 0x8f else 0xff); (f1 & (if is_qos f0 then keep & 0x7f else keep)) .| set] ->
    exists more, put_aad am (h ++ iv ++ rest) fc (has_a4 f1) (is_qos f0) = Ok (hdr_aad am keep set h ++ more, zlen (hdr_aad am keep set h)) }.

Lemma hdr_reads_spec am keep set h iv rest : hdr_ok h -> length iv = 8%nat ->
  (forall f0 f1, is_byte f0 -> is_byte f1 -> fc_agrees keep (Z.shiftl set 8) f0 f1 = true) ->
  exists f0 f1, hdr_reads am keep set h iv rest f0 f1.
Proof.
  intros Hh Hiv Hag. destruct (hdr_split h Hh) as (f0 & f1 & d & a & s0 & s1 & x & q & E & Hb & Ld & La & Lx & Lq).
  assert (HB : bytes ([f0; f1] ++ d ++ a ++ [s0; s1] ++ x ++ q)) by (rewrite <- E; exact Hb).
  pose proof (hdr_aad_parts am keep set f0 f1 d a s0 s1 x q HB Ld La Lx Lq) as Ea. rewrite <- E in Ea.
  unfold bytes in HB. rewrite !Forall_app in HB. destruct HB as (Bf & Bd & Ba & Bs & Bx & Bq).
  apply Forall_cons_1 in Bf as [B0 Bf]. apply Forall_cons_1 in Bf as [B1 _]. apply Forall_cons_1 in Bs as [C0 Bs]. apply Forall_cons_1 in Bs as [C1 _].
  assert (Lh : length h = (24 + length x + length q)%nat) by (rewrite E, !length_app, Ld, La; cbn [length]; lia).
  assert (Emem : h ++ iv ++ rest = [f0; f1] ++ d ++ a ++ [s0; s1] ++ x ++ q ++ (iv ++ rest)) by (rewrite E, <- !app_assoc; done).
  exists f0, f1. constructor.
  - rewrite E. eexists. reflexivity.
  - rewrite Emem. apply fc_at.
  - apply Hag; done.
  - intros HQ. rewrite HQ in Lq. rewrite rd_app_l by (unfold zlen; rewrite Lh, Lx, Lq; destruct (has_a4 f1); lia).
    apply rd_Ok. split; [destruct (has_a4 f1); lia|]. unfold byte_at.
    destruct (lookup_lt_is_Some_2 h (Z.to_nat (24 + (if has_a4 f1 then 6 else 0)))) as [v Hv]; [rewrite Lh, Lx, Lq; destruct (has_a4 f1); cbn; lia|].
    rewrite Hv. done.
  - rewrite Emem. rewrite (proj1 (addr2_at f0 f1 d a _ Ld La)). rewrite E, (proj2 (addr2_at f0 f1 d a _ Ld La)). done.
  - intros fc Hp. destruct (put_aad_spec am f0 f1 d a x q (iv ++ rest) s0 s1 fc _ _ (has_a4 f1) (is_qos f0) Hp C0 C1 Bq Ld La Lx Lq) as (more & F).
    exists more. rewrite Emem, F, Ea, <- !app_assoc. do 2 f_equal. unfold zlen. rewrite !length_app, La.
    destruct q as [|q0 [|q1 [|]]]; cbn [length]; try lia; destruct (is_qos f0); discriminate.
Qed.

(** The tests of the frame control word, and the word that is written. *)
Lemma fc_cases keep set f0 f1 (fc := u16 (Z.shiftl f1 8 .| f0)) (m := fun fc => (fc & Z.lnot (0x0800 .| 0x1000 .| 0x2000)) .| Z.shiftl set 8) :
  fc_agrees keep (Z.shiftl set 8) f0 f1 = true -> Z.shiftr (Z.shiftl set 8) 8 = set ->
  (fc & 0x0300 =? 0x0300) = has_a4 f1 /\ (fc & 0x0c =? 0x08) = is_data f0 /\ fc & 0x0c = f0 & 0x0c /\
  (is_data f0 = true -> (fc & 0xf0 & 0x80 =? 0) = negb (is_qos f0)) /\
  PUT_LE16 (m (if is_data f0 then if is_qos f0 then fc & Z.lnot 0x0070 & Z.lnot 0x8000 else fc & Z.lnot 0x0070 else fc)) =
    [f0 & (if is_data f0 then 0x8f else 0xff); (f1 & (if is_qos f0 then keep & 0x7f else keep)) .| set].
Proof.
  intros H Hs. unfold fc_agrees in H. cbv zeta in H. rewrite Hs in H.
  apply andb_true_iff in H as [H HP]. apply andb_true_iff in H as [H Ht]. apply andb_true_iff in H as [H4 Hd].
  apply eqb_prop in H4. apply eqb_prop in Hd. apply Z.eqb_eq in Ht. split; [exact H4|]. split; [exact Hd|]. split; [exact Ht|].
  unfold is_qos in *. destruct (is_data f0); cbn [andb] in *.
  - apply andb_true_iff in HP as [HQ HP]. apply eqb_prop in HQ. unfold list_eqb in HP. apply bool_decide_eq_true in HP.
    split; [intros _; exact HQ | exact HP].
  - unfold list_eqb in HP. apply bool_decide_eq_true in HP. split; [discriminate | exact HP].
Qed.

Lemma ccmp_aad_nonce_spec am h iv rest : hdr_ok h -> length iv = 8%nat ->
  exists more, ccmp_aad_nonce am (h ++ iv ++ rest) (zlen h) = Ok (ccmp_aad am h ++ more, zlen (ccmp_aad am h), ccmp_nonce h iv).
Proof.
  intros Hh Hiv. destruct (hdr_reads_spec am 0x87 0x40 h iv rest Hh Hiv fc_agrees_ccmp) as (f0 & f1 & [(l & E) Hfc Hag Hq Ha2 Haad]).
  destruct (pn_at h iv rest Hiv) as (P7 & P6 & P5 & P4 & P1 & P0).
  destruct (fc_cases 0x87 0x40 f0 f1 Hag eq_refl) as (H4 & Hd & Ht & HQ & HP).
  cbv beta zeta in HP. change (Z.shiftl 0x40 8) with 0x4000 in HP. destruct (Haad _ HP) as (more & F). exists more.
  assert (Hflags : nonce_flags h = if is_data f0 then if is_qos f0 then byte_at h (24 + (if has_a4 f1 then 6 else 0)) & 0x0f else 0
                                    else if f0 & 0x0c =? 0 then 0x10 else 0) by (rewrite E; done).
  unfold ccmp_aad_nonce, ccmp_nonce, pn_bytes. rewrite Hfc. cbn [bind]. cbv zeta. rewrite H4, Hd, Hflags.
  destruct (is_data f0) eqn:HD.
  - rewrite (HQ eq_refl). destruct (is_qos f0) eqn:HQ'; cbn [negb];
      [rewrite Hq by done|]; cbn [bind]; fold (ccmp_aad am h) in F; rewrite F; cbn [bind]; rewrite Ha2, P7, P6, P5, P4, P1, P0; done.
  - assert (HQ' : is_qos f0 = false) by (unfold is_qos; rewrite HD; done). rewrite HQ' in *.
    cbn [bind]. fold (ccmp_aad am h) in F. rewrite F. cbn [bind]. rewrite Ha2, P7, P6, P5, P4, P1, P0, Ht. done.
Qed.

(** ** Lemmas: bytes and lengths *)

Lemma nonce_flags_byte h : bytes h -> is_byte (nonce_flags h).
Proof.
  intros Hb. unfold nonce_flags. destruct h as [|f0 [|f1 l]]; try apply byte_0.
  destruct (is_data f0); [destruct (is_qos f0) | destruct (f0 & 0x0c =? 0)]; try (unfold is_byte; lia).
  apply land_byte_r. unfold is_byte. lia.
Qed.

Lemma pn_bytes_ok iv : bytes iv -> bytes (pn_bytes iv) /\ length (pn_bytes iv) = 6%nat.
Proof. intros Hb. split; [|done]. unfold pn_bytes. repeat (apply List.Forall_cons; [apply byte_at_byte, Hb|]). apply List.Forall_nil. Qed.

Lemma hdr_ok_length h : hdr_ok h -> (24 <= length h <= 32)%nat.
Proof. intros [_ H]. destruct h as [|f0 [|f1 l]]; try done. rewrite H. destruct (has_a4 f1), (is_qos f0); lia. Qed.

Lemma ccmp_nonce_ok h iv : hdr_ok h -> bytes iv -> bytes (ccmp_nonce h iv) /\ length (ccmp_nonce h iv) = 13%nat.
Proof.
  intros Hh Hiv. pose proof (hdr_ok_length h Hh) as Hl. destruct (pn_bytes_ok iv Hiv) as [Bp Lp]. unfold ccmp_nonce. split.
  - apply List.Forall_cons; [apply nonce_flags_byte, Hh|]. apply Forall_app_2; [apply Forall_take, Forall_drop, Hh | exact Bp].
  - rewrite !length_app, Lp, length_take, length_drop. cbn [length]. lia.
Qed.

Lemma hdr_aad_bytes am keep set h : hdr_ok h -> is_byte keep -> is_byte set -> bytes (hdr_aad am keep set h).
Proof.
  intros Hh Hk Hs. destruct (hdr_split h Hh) as (f0 & f1 & d & a & s0 & s1 & x & q & E & Hb & Ld & La & Lx & Lq).
  assert (HB : bytes ([f0; f1] ++ d ++ a ++ [s0; s1] ++ x ++ q)) by (rewrite <- E; exact Hb). rewrite E, hdr_aad_parts by done.
  unfold bytes in HB. rewrite !Forall_app in HB. destruct HB as (Bf & Bd & Ba & Bs & Bx & Bq).
  apply Forall_cons_1 in Bf as [B0 Bf]. apply Forall_cons_1 in Bf as [B1 _]. apply Forall_cons_1 in Bs as [C0 _].
  repeat apply Forall_app_2; try done.
  - apply List.Forall_cons; [apply land_byte; done|].
    apply List.Forall_cons; [|apply List.Forall_nil]. apply lor_byte; [|done]. apply land_byte; done.
  - apply List.Forall_cons; [apply land_byte; unfold is_byte; lia | apply List.Forall_cons; [apply byte_0 | apply List.Forall_nil]].
  - destruct q as [|q0 q]; [apply List.Forall_nil|]. apply Forall_cons_1 in Bq as [Bq0 _].
    apply List.Forall_cons; [|apply List.Forall_cons; [apply byte_0 | apply List.Forall_nil]].
    apply land_byte_r; done.
Qed.

Lemma hdr_aad_zlen am keep set h : hdr_ok h -> zlen (hdr_aad am keep set h) <= 30.
Proof.
  intros Hh. destruct (hdr_split h Hh) as (f0 & f1 & d & a & s0 & s1 & x & q & E & Hb & Ld & La & Lx & Lq).
  assert (HB : bytes ([f0; f1] ++ d ++ a ++ [s0; s1] ++ x ++ q)) by (rewrite <- E; exact Hb).
  rewrite E, hdr_aad_parts by done. unfold zlen. rewrite !length_app, La, Lx. destruct q; cbn [length]; destruct (has_a4 f1); lia.
Qed.

(** The Protected bit of a header is not among the protected bits. *)
Lemma is_a4_protected f1 : is_byte f1 -> has_a4 (f1 .| 0x40) = has_a4 f1 /\ 0x87 & (f1 .| 0x40) = 0x87 & f1 /\ 0x07 & (f1 .| 0x40) = 0x07 & f1.
Proof.
  intros H. assert (E : eqb (has_a4 (f1 .| 0x40)) (has_a4 f1) && (0x87 & (f1 .| 0x40) =? 0x87 & f1) && (0x07 & (f1 .| 0x40) =? 0x07 & f1) = true).
  { apply (all_bytes (fun f1 => eqb (has_a4 (f1 .| 0x40)) (has_a4 f1) && (0x87 & (f1 .| 0x40) =? 0x87 & f1) && (0x07 & (f1 .| 0x40) =? 0x07 & f1)));
      [vm_compute; reflexivity | done]. }
  apply andb_true_iff in E as [E E3]. apply andb_true_iff in E as [E1 E2]. apply eqb_prop in E1. apply Z.eqb_eq in E2, E3. done.
Qed.

Lemma set_protected_ok h : hdr_ok h -> hdr_ok (set_protected h) /\ length (set_protected h) = length h /\
  (forall am, ccmp_aad am (set_protected h) = ccmp_aad am h) /\ (forall iv, ccmp_nonce (set_protected h) iv = ccmp_nonce h iv).
Proof.
  intros [Hb Hl]. destruct h as [|f0 [|f1 r]]; try done. cbn [set_protected]. apply Forall_cons_1 in Hb as [B0 Hb]. apply Forall_cons_1 in Hb as [B1 Hb].
  destruct (is_a4_protected f1 B1) as (E4 & E87 & E07). split; [|split; [done|split]].
  - split; [|rewrite E4; exact Hl]. apply List.Forall_cons; [done|]. apply List.Forall_cons; [apply lor_byte; [done | unfold is_byte; lia] | done].
  - intros am. unfold ccmp_aad, hdr_aad, masked, hdr_mask. rewrite E4. cbn [app zip_with]. change (0x87 & 0x7f) with 0x07.
    destruct (is_qos f0); [rewrite E07 | rewrite E87]; done.
  - intros iv. unfold ccmp_nonce. f_equal. unfold nonce_flags. rewrite E4. destruct (is_data f0); [|done]. destruct (is_qos f0); [|done].
    destruct (has_a4 f1); done.
Qed.

Lemma set_iswep_spec f0 f1 rest : is_byte f0 -> is_byte f1 -> set_iswep (f0 :: f1 :: rest) = Ok (f0 :: (f1 .| 0x40) :: rest).
Proof.
  intros H0 H1. unfold set_iswep. rewrite (fc_at f0 f1 rest : GET_LE16 (f0 :: f1 :: rest) 0 = _). cbn [bind].
  assert (E : PUT_LE16 (u16 (Z.shiftl f1 8 .| f0) .| 0x4000) = [f0; f1 .| 0x40]).
  { assert (E : list_eqb (PUT_LE16 (u16 (Z.shiftl f1 8 .| f0) .| 0x4000)) [f0; f1 .| 0x40] = true).
    { revert f0 f1 H0 H1. apply all_pairs. vm_compute. reflexivity. }
    unfold list_eqb in E. apply bool_decide_eq_true in E. exact E. }
  rewrite E. exact (wrn_off [] [f0; f1] rest [f0; f1 .| 0x40] 0 eq_refl eq_refl).
Qed.

(** ** Lemmas: frames *)

(** CCM reads the front of the key and of the additional data only. *)
Lemma ccm_ae_front key krest nonce M mem p n A more out c u : aes_key key ->
  aes_ccm_ae true (key ++ krest) (zlen key) nonce M mem p n (A ++ more) (zlen A) out c u =
  aes_ccm_ae true key (zlen key) nonce M mem p n A (zlen A) out c u.
Proof.
  intros Hk. unfold aes_ccm_ae. rewrite aes_init_front by done. unfold aes_ccm_auth_start.
  rewrite (rdn_prefix A more (zlen A) eq_refl). pose proof (rdn_prefix A [] (zlen A) eq_refl) as R. rewrite app_nil_r in R. rewrite R. done.
Qed.

Lemma ccm_ad_front key krest nonce M mem p n A more u out : aes_key key ->
  aes_ccm_ad true (key ++ krest) (zlen key) nonce M mem p n (A ++ more) (zlen A) u out =
  aes_ccm_ad true key (zlen key) nonce M mem p n A (zlen A) u out.
Proof.
  intros Hk. unfold aes_ccm_ad. rewrite aes_init_front by done. unfold aes_ccm_auth_start.
  rewrite (rdn_prefix A more (zlen A) eq_refl). pose proof (rdn_prefix A [] (zlen A) eq_refl) as R. rewrite app_nil_r in R. rewrite R. done.
Qed.

(** A buffer of every size that is asked for. *)
Definition mem_ready (os_malloc : Z -> option (list Z)) : Prop := forall n, 0 <= n < 2 ^ 32 -> exists b, os_malloc n = Some b /\ zlen b = n.

(** A key and the length of the code, as the driver pairs them. *)
Definition ccmp_key (key : list Z) (M : Z) : Prop := bytes key /\ ((length key = 16%nat /\ M = 8) \/ (length key = 32%nat /\ M = 16)).

Definition ccmp_text (key h iv p : list Z) : list Z := ccm_crypt (aes_cipher key) (ccmp_nonce h iv) p.
Definition ccmp_mic (am : Z) (key : list Z) (M : Z) (h iv p : list Z) : list Z := ccm_tag (aes_cipher key) M (ccmp_nonce h iv) (ccmp_aad am h) p.

Lemma ccmp_key_aes key M : ccmp_key key M -> aes_key key /\ (M = 8 \/ M = 16).
Proof. intros [Hb [[Hl ->]|[Hl ->]]]; (split; [split; [done|]|]); auto. Qed.

Lemma ccmp_args_ok M h iv : hdr_ok h -> bytes iv -> M = 8 \/ M = 16 -> ccm_args M (ccmp_nonce h iv).
Proof. intros Hh Hiv HM. destruct (ccmp_nonce_ok h iv Hh Hiv). done. Qed.

Lemma crypt_front_spec f0 f1 r iv l (crypt : list Z) : is_byte f0 -> is_byte f1 -> length iv = 8%nat ->
  zlen (f0 :: f1 :: r) + 8 <= zlen crypt ->
  exists room, crypt_front true ((f0 :: f1 :: r) ++ iv ++ l) (zlen (f0 :: f1 :: r)) None 0 crypt =
    Ok (set_protected (f0 :: f1 :: r) ++ iv ++ room, zlen (f0 :: f1 :: r) + 8) /\ zlen room = zlen crypt - zlen (f0 :: f1 :: r) - 8.
Proof.
  intros H0 H1 Hiv Hl. set (h := f0 :: f1 :: r) in *. unfold crypt_front.
  assert (Hz : zlen h + 8 = zlen (h ++ iv)) by (rewrite zlen_app; unfold zlen; rewrite Hiv; lia).
  rewrite app_assoc, (rdn_prefix (h ++ iv) l) by done. cbn [bind]. rewrite wrn_prefix by lia. cbn [bind].
  exists (drop (length (h ++ iv)) crypt). unfold h at 1. cbn [app]. rewrite set_iswep_spec by done. cbn [bind].
  split; [rewrite <- app_assoc; done|]. unfold zlen in *. rewrite length_drop. lia.
Qed.

Section Frames.
  Context (os_malloc : Z -> option (list Z)) (am : Z) (Hmem : mem_ready os_malloc).

Lemma ccmp_encrypt_spec key krest M h iv p room : ccmp_key key M -> hdr_ok h -> bytes iv -> length iv = 8%nat -> bytes p ->
  zlen p < 2 ^ 31 ->
  exists rest, ccmp_encrypt_with os_malloc true am (zlen key) M (key ++ krest) (h ++ iv ++ p ++ room) (zlen h + zlen p) (zlen h) None 0 =
    Ok (Some (set_protected h ++ iv ++ ccmp_text key h iv p ++ ccmp_mic am key M h iv p ++ rest, zlen h + 8 + zlen p + M)).
Proof.
  intros HK Hh Hbiv Hiv Hp Hlp. destruct (ccmp_key_aes key M HK) as [Hk HM]. pose proof (hdr_ok_length h Hh) as Lh. pose proof (zlen_nonneg p).
  unfold ccmp_encrypt_with, AES_BLOCK_SIZE. replace ((zlen h + zlen p <? zlen h) || (zlen h <? 24)) with false
    by (symmetry; apply orb_false_intro; apply Z.ltb_ge; unfold zlen in *; lia).
  replace (zlen h + zlen p - zlen h) with (zlen p) by lia. set (n := zlen h + 8 + zlen p + M + 16).
  assert (Hn : 0 <= n < 2 ^ 32) by (unfold n, zlen in *; destruct HM; lia). rewrite u32_small by lia.
  destruct (Hmem n Hn) as (b & -> & Zb). destruct (set_protected_ok h Hh) as (Hh' & Lh' & EA & EN).
  assert (Hsplit : exists f0 f1 r, h = f0 :: f1 :: r /\ is_byte f0 /\ is_byte f1).
  { destruct Hh as [HB HL]. destruct h as [|f0 [|f1 r]]; try done. exists f0, f1, r. apply Forall_cons_1 in HB as [? HB]. apply Forall_cons_1 in HB as [? _]. done. }
  destruct Hsplit as (f0 & f1 & r & Eh & B0 & B1).
  destruct (crypt_front_spec f0 f1 r iv (p ++ room) b B0 B1 Hiv ltac:(rewrite <- Eh, Zb; unfold n; destruct HM; lia)) as (room' & F & Zr).
  rewrite <- Eh in F, Zr. rewrite F. clear F. cbn [bind].
  destruct (ccmp_aad_nonce_spec am (set_protected h) iv room' Hh' Hiv) as (more & F). pose proof (hdr_aad_zlen am 0x87 0x40 h Hh) as Hl30.
  replace (zlen (set_protected h)) with (zlen h) in F by (unfold zlen; rewrite Lh'; done). rewrite F. clear F. cbn [bind]. rewrite EA in *. rewrite EN.
  rewrite ccm_ae_front by done. pose proof (ccmp_args_ok M h iv Hh Hbiv HM) as HA.
  assert (Ba : bytes (ccmp_aad am h)) by (apply hdr_aad_bytes; done || (unfold is_byte; lia)).
  assert (Hz : zlen h + 8 = zlen (h ++ iv)) by (rewrite zlen_app; unfold zlen; rewrite Hiv; lia).
  assert (Hz' : zlen h + 8 = zlen (set_protected h ++ iv)) by (rewrite zlen_app; unfold zlen; rewrite Hiv, Lh'; lia).
  assert (Zroom : zlen room' = zlen p + M + 16) by (rewrite Zr, Zb; unfold n; lia).
  destruct (aes_ccm_ae_spec key (ccmp_nonce h iv) M (h ++ iv) p room (ccmp_aad am h) (set_protected h ++ iv) room' Hk HA Ba Hl30 Hp) as (rest & F & Zrest).
  - destruct (pad16_length p) as (k & -> & Hr). unfold zlen in Zroom. destruct HM; lia.
  - rewrite Zroom. lia.
  - rewrite <- !app_assoc in F. rewrite <- Hz in F. rewrite <- Hz' in F. rewrite F. exists rest. cbn [bind]. done.
Qed.

Lemma ccmp_decrypt_spec key krest M h iv c u post : ccmp_key key M -> hdr_ok h -> bytes iv -> length iv = 8%nat -> bytes c -> bytes u -> zlen u = M ->
  zlen c < 2 ^ 31 ->
  let p := ccmp_text key h iv c in
  exists rest, ccmp_decrypt_with os_malloc true am (zlen key) M (key ++ krest) (h ++ iv ++ c ++ u ++ post) (zlen h) (8 + zlen c + M) =
    Ok (if bool_decide (u = ccmp_mic am key M h iv p) then Some (p ++ rest, zlen c) else None) /\ zlen p = zlen c.
Proof.
  intros HK Hh Hbiv Hiv Hc Hu Zu Hlc p. destruct (ccmp_key_aes key M HK) as [Hk HM]. pose proof (zlen_nonneg c).
  unfold ccmp_decrypt_with, AES_BLOCK_SIZE. rewrite (proj2 (Z.ltb_ge _ _)) by lia.
  assert (Hn : 0 <= 8 + zlen c + M + 16 < 2 ^ 32) by (destruct HM; lia). rewrite u32_small by lia.
  destruct (Hmem _ Hn) as (b & -> & Zb). replace (8 + zlen c + M - 8 - M) with (zlen c) by lia.
  destruct (ccmp_aad_nonce_spec am h iv (c ++ u ++ post) Hh Hiv) as (more & ->). pose proof (hdr_aad_zlen am 0x87 0x40 h Hh) as Hl30. cbn [bind]. rewrite ccm_ad_front by done.
  assert (Ba : bytes (ccmp_aad am h)) by (apply hdr_aad_bytes; done || (unfold is_byte; lia)).
  assert (Hz : zlen h + 8 = zlen (h ++ iv)) by (rewrite zlen_app; unfold zlen; rewrite Hiv; lia).
  destruct (aes_ccm_ad_spec key (ccmp_nonce h iv) M (h ++ iv) c u post (ccmp_aad am h) b Hk (ccmp_args_ok M h iv Hh Hbiv HM) Ba Hl30 Hc Hu Zu) as (rest & F & Zrest).
  - destruct (pad16_length c) as (k & -> & Hr). clear - Zb HM Hr. unfold zlen in *. destruct HM; lia.
  - rewrite <- !app_assoc in F. rewrite <- Hz in F. fold (ccmp_text key h iv c) in F. fold p in F. fold (ccmp_mic am key M h iv p) in F.
    rewrite F. exists rest. cbn [bind]. split; [destruct (bool_decide _); done|].
    destruct (aes_context key Hk) as (ctx & _ & HC). destruct (ccmp_nonce_ok h iv Hh Hbiv) as [Bn Ln].
    unfold p, ccmp_text, zlen. rewrite (ccm_crypt_length ctx); done.
Qed.
End Frames.

(** ** Lemmas: the masked header *)

Lemma masked_first f0 f1 : is_byte f0 -> is_byte f1 ->
  let m0 := (if is_data f0 then 0x8f else 0xff) & f0 in let m1 := (if is_qos f0 then 0x87 & 0x7f else 0x87) & f1 in
  is_data m0 = is_data f0 /\ is_qos m0 = is_qos f0 /\ m0 & 0x0c = f0 & 0x0c /\ has_a4 m1 = has_a4 f1 /\ m1 = (m1 .| 0x40) & 0xbf.
Proof.
  intros H0 H1. cbv zeta.
  assert (E0 : eqb (is_data ((if is_data f0 then 0x8f else 0xff) & f0)) (is_data f0) && eqb (is_qos ((if is_data f0 then 0x8f else 0xff) & f0)) (is_qos f0) &&
    ((((if is_data f0 then 0x8f else 0xff) & f0) & 0x0c) =? f0 & 0x0c) = true).
  { revert f0 H0. apply all_bytes. vm_compute. reflexivity. }
  apply andb_true_iff in E0 as [E0 E03]. apply andb_true_iff in E0 as [E01 E02]. apply eqb_prop in E01. apply eqb_prop in E02. apply Z.eqb_eq in E03.
  split; [exact E01|]. split; [exact E02|]. split; [exact E03|].
  assert (E1 : forall q : bool, eqb (has_a4 ((if q then 0x87 & 0x7f else 0x87) & f1)) (has_a4 f1) &&
    (((if q then 0x87 & 0x7f else 0x87) & f1) =? ((((if q then 0x87 & 0x7f else 0x87) & f1) .| 0x40) & 0xbf)) = true).
  { intros []; revert f1 H1; apply all_bytes; vm_compute; reflexivity. }
  specialize (E1 (is_qos f0)). apply andb_true_iff in E1 as [E1 E2]. apply eqb_prop in E1. apply Z.eqb_eq in E2. done.
Qed.

(** The nonce can be computed from the protected bits. *)
Lemma nonce_of_masked am h iv : hdr_ok h -> ccmp_nonce (masked am 0x87 h) iv = ccmp_nonce h iv.
Proof.
  intros Hh. destruct (hdr_split h Hh) as (f0 & f1 & d & a & s0 & s1 & x & q & E & Hb & Ld & La & Lx & Lq).
  rewrite E in Hb. unfold bytes in Hb. rewrite !Forall_app in Hb. destruct Hb as (Bf & Bd & Ba & Bs & Bx & Bq).
  apply Forall_cons_1 in Bf as [B0 Bf]. apply Forall_cons_1 in Bf as [B1 _]. destruct (masked_first f0 f1 B0 B1) as (M0 & MQ & MT & M4 & _).
  rewrite E, masked_parts by done. set (m0 := (if is_data f0 then 0x8f else 0xff) & f0) in *. set (m1 := (if is_qos f0 then 0x87 & 0x7f else 0x87) & f1) in *.
  set (qm := match q with q0 :: _ => [qos_mask am & q0; 0] | [] => [] end).
  change ([m0; m1; 0; 0] ++ a ++ [0x0f & s0; 0] ++ x ++ qm) with ([m0; m1] ++ [0; 0] ++ a ++ [0x0f & s0; 0] ++ x ++ qm).
  unfold ccmp_nonce. rewrite (proj2 (addr2_at m0 m1 [0; 0] a _ eq_refl La)), (proj2 (addr2_at f0 f1 d a _ Ld La)). do 2 f_equal.
  unfold nonce_flags. cbn [app]. rewrite M0, MQ, MT, M4. destruct (is_data f0); [|done]. destruct (is_qos f0); [|done].
  destruct q as [|q0 [|q1 [|]]]; try discriminate. subst qm.
  assert (Bt : forall u0 u1 d' v0 v1 (w : list Z) k, length d' = 2%nat ->
    byte_at (u0 :: u1 :: d' ++ a ++ v0 :: v1 :: x ++ k :: w) (24 + (if has_a4 f1 then 6 else 0)) = k).
  { intros u0 u1 d' v0 v1 w k Ld'. unfold byte_at. replace (u0 :: u1 :: d' ++ a ++ v0 :: v1 :: x ++ k :: w) with (([u0; u1] ++ d' ++ a ++ [v0; v1] ++ x) ++ k :: w) by (rewrite <- !app_assoc; done).
    rewrite list_lookup_middle; [done|]. rewrite !length_app, Ld', La, Lx. destruct (has_a4 f1); done. }
  rewrite (Bt f0 f1 d s0 s1 [q1] q0 Ld), (Bt m0 m1 [0; 0] (0x0f & s0) 0 [0] _ eq_refl : byte_at (m0 :: m1 :: 0 :: 0 :: a ++ _) _ = _).
  unfold qos_mask. rewrite Z.land_comm, Z.land_assoc. destruct (am =? RTW_AMSDU_MODE_SPP); (change (0x0f & 0x8f) with 0x0f || change (0x0f & 0x0f) with 0x0f); apply Z.land_comm.
Qed.

(** The additional data determines the protected bits. *)
Lemma masked_of_aad am h : hdr_ok h ->
  exists m0 m1 r, masked am 0x87 h = m0 :: m1 :: 0 :: 0 :: r /\ ccmp_aad am h = m0 :: (m1 .| 0x40) :: r /\ m1 = (m1 .| 0x40) & 0xbf.
Proof.
  intros Hh. destruct (hdr_split h Hh) as (f0 & f1 & d & a & s0 & s1 & x & q & E & Hb & Ld & La & Lx & Lq).
  rewrite E in Hb |- *. assert (Hb' := Hb). unfold bytes in Hb'. rewrite !Forall_app in Hb'. destruct Hb' as (Bf & Bd & Ba & Bs & Bx & Bq).
  apply Forall_cons_1 in Bf as [B0 Bf]. apply Forall_cons_1 in Bf as [B1 _]. destruct (masked_first f0 f1 B0 B1) as (_ & _ & _ & _ & M1).
  unfold ccmp_aad, hdr_aad. rewrite masked_parts by done. cbn [app]. eexists _, _, _. split; [reflexivity|]. split; [reflexivity | exact M1].
Qed.

Lemma masked_iff_aad am h1 h2 : hdr_ok h1 -> hdr_ok h2 -> (masked am 0x87 h1 = masked am 0x87 h2 <-> ccmp_aad am h1 = ccmp_aad am h2).
Proof.
  intros H1 H2. destruct (masked_of_aad am h1 H1) as (a0 & a1 & r & -> & -> & Ha). destruct (masked_of_aad am h2 H2) as (b0 & b1 & s & -> & -> & Hb).
  split; intros E; injection E as -> E1 ->; [rewrite E1; done|]. rewrite Ha, Hb, E1. done.
Qed.

(** ** Lemmas: the driver's routines *)

Section Driver.
  Context (os_malloc : Z -> option (list Z)) (am : Z) (Hmem : mem_ready os_malloc).

(** Which of the two versions runs. *)
Lemma by_key_len {A} key M (f g : A) z : ccmp_key key M ->
  (if zlen key =? 16 then f else if zlen key =? 32 then g else z) = if decide (M = 8) then f else g.
Proof. intros [_ [[Hl ->]|[Hl ->]]]; unfold zlen; rewrite Hl; done. Qed.

Lemma ccmp_mic_zlen key M h iv p : ccmp_key key M -> hdr_ok h -> bytes iv -> bytes p -> zlen (ccmp_mic am key M h iv p) = M.
Proof.
  intros HK Hh Hbiv Hp. destruct (ccmp_key_aes key M HK) as [Hk HM]. destruct (aes_context key Hk) as (ctx & _ & HC).
  apply (ccm_tag_length ctx (aes_cipher key)); [apply ccmp_args_ok; done | apply hdr_aad_bytes; done || (unfold is_byte; lia) | apply hdr_aad_zlen, Hh | done].
Qed.

Lemma ccmp_text_zlen key M h iv p : ccmp_key key M -> hdr_ok h -> bytes iv -> zlen (ccmp_text key h iv p) = zlen p.
Proof.
  intros HK Hh Hbiv. destruct (ccmp_key_aes key M HK) as [Hk _]. destruct (aes_context key Hk) as (ctx & _ & HC). destruct (ccmp_nonce_ok h iv Hh Hbiv).
  unfold zlen, ccmp_text. rewrite (ccm_crypt_length ctx); done.
Qed.

Lemma rtw_ccmp_encrypt_spec key krest M h iv p old post : ccmp_key key M -> hdr_ok h -> bytes iv -> length iv = 8%nat -> bytes p ->
  zlen p < 2 ^ 31 -> zlen old = M ->
  _rtw_ccmp_encrypt os_malloc true am (key ++ krest) (zlen key) (zlen h) (h ++ iv ++ p ++ old ++ post) (zlen p) =
    Ok (SUCCESS, set_protected h ++ iv ++ ccmp_text key h iv p ++ ccmp_mic am key M h iv p ++ post).
Proof.
  intros HK Hh Hbiv Hiv Hp Hlp Ho. pose proof (hdr_ok_length h Hh) as Lh. pose proof (zlen_nonneg p).
  destruct (ccmp_encrypt_spec os_malloc am Hmem key krest M h iv p (old ++ post) HK Hh Hbiv Hiv Hp Hlp) as (rest & F).
  unfold _rtw_ccmp_encrypt. rewrite (by_key_len key M) by done. rewrite u32_small by (unfold zlen in *; lia).
  replace (if decide (M = 8) then _ else _) with (ccmp_encrypt_with os_malloc true am (zlen key) M (key ++ krest) (h ++ iv ++ p ++ old ++ post) (zlen h + zlen p) (zlen h) None 0)
    by (destruct HK as [_ [[Hl ->]|[Hl ->]]]; unfold zlen at 1; rewrite Hl; done).
  rewrite F. clear F. cbn [bind]. destruct (set_protected_ok h Hh) as (_ & Lh' & _).
  pose proof (ccmp_text_zlen key M h iv p HK Hh Hbiv) as Zc. pose proof (ccmp_mic_zlen key M h iv p HK Hh Hbiv Hp) as Zu.
  set (c := ccmp_text key h iv p) in *. set (u := ccmp_mic am key M h iv p) in *. set (new := set_protected h ++ iv ++ c ++ u).
  assert (Zn : zlen new = zlen h + 8 + zlen p + M) by (unfold new; rewrite !zlen_app, Zc, Zu; unfold zlen; rewrite Lh', Hiv; lia).
  replace (set_protected h ++ iv ++ c ++ u ++ rest) with (new ++ rest) by (unfold new; rewrite <- !app_assoc; done).
  rewrite rdn_prefix by done. cbn [bind].
  assert (Lold : length (h ++ iv ++ p ++ old) = length new) by (unfold zlen in *; rewrite !length_app; lia).
  replace (h ++ iv ++ p ++ old ++ post) with ((h ++ iv ++ p ++ old) ++ post) by (rewrite <- !app_assoc; done).
  rewrite (wrn_off [] (h ++ iv ++ p ++ old) post new 0 eq_refl (eq_sym Lold) : wrn (_ ++ post) 0 new = _). cbn [bind]. unfold new. rewrite <- !app_assoc. done.
Qed.

Lemma rtw_ccmp_decrypt_spec key krest M h iv c u post : ccmp_key key M -> hdr_ok h -> bytes iv -> length iv = 8%nat -> bytes c -> bytes u ->
  zlen u = M -> zlen c < 2 ^ 31 ->
  let p := ccmp_text key h iv c in
  _rtw_ccmp_decrypt os_malloc true am (key ++ krest) (zlen key) (zlen h) (h ++ iv ++ c ++ u ++ post) (zlen (h ++ iv ++ c ++ u)) =
    Ok (if bool_decide (u = ccmp_mic am key M h iv p) then (SUCCESS, h ++ iv ++ p ++ u ++ post) else (FAIL, h ++ iv ++ c ++ u ++ post)).
Proof.
  intros HK Hh Hbiv Hiv Hc Hu Zu Hlc p. pose proof (zlen_nonneg c).
  destruct (ccmp_decrypt_spec os_malloc am Hmem key krest M h iv c u post HK Hh Hbiv Hiv Hc Hu Zu Hlc) as (rest & F & Zp). fold p in F, Zp.
  unfold _rtw_ccmp_decrypt. rewrite (by_key_len key M) by done.
  assert (Ziv : zlen iv = 8) by (unfold zlen; rewrite Hiv; done).
  replace (zlen (h ++ iv ++ c ++ u) - zlen h) with (8 + zlen c + M) by (rewrite !zlen_app, Ziv, Zu; lia).
  rewrite u32_small by (destruct HK as [_ [[_ ->]|[_ ->]]]; lia).
  replace (if decide (M = 8) then _ else _) with (ccmp_decrypt_with os_malloc true am (zlen key) M (key ++ krest) (h ++ iv ++ c ++ u ++ post) (zlen h) (8 + zlen c + M))
    by (destruct HK as [_ [[Hl ->]|[Hl ->]]]; unfold zlen at 1; rewrite Hl; done).
  rewrite F. clear F. destruct (bool_decide (u = ccmp_mic am key M h iv p)); cbn [bind]; [|done].
  rewrite rdn_prefix by done. cbn [bind].
  replace (h ++ iv ++ c ++ u ++ post) with ((h ++ iv) ++ c ++ (u ++ post)) by (rewrite <- !app_assoc; done).
  rewrite (wrn_off (h ++ iv) c (u ++ post) p) by (rewrite ?zlen_app, ?Ziv; unfold zlen in *; lia || done). cbn [bind]. rewrite <- !app_assoc. done.
Qed.
End Driver.

(** The stream opens what it closed. *)
Lemma ccmp_text_twice key M h iv p : ccmp_key key M -> hdr_ok h -> bytes iv -> ccmp_text key h iv (ccmp_text key h iv p) = p.
Proof.
  intros HK Hh Hbiv. destruct (ccmp_key_aes key M HK) as [Hk _]. destruct (aes_context key Hk) as (ctx & _ & HC). destruct (ccmp_nonce_ok h iv Hh Hbiv).
  apply (ccm_crypt_twice ctx); done.
Qed.

Lemma ccmp_text_bytes key M h iv p : ccmp_key key M -> hdr_ok h -> bytes iv -> bytes p -> bytes (ccmp_text key h iv p).
Proof.
  intros HK Hh Hbiv Hp. destruct (ccmp_key_aes key M HK) as [Hk _]. destruct (aes_context key Hk) as (ctx & _ & HC). destruct (ccmp_nonce_ok h iv Hh Hbiv).
  apply (ccm_crypt_bytes ctx); done.
Qed.

(** Text and code depend on the protected bits of the header only. *)
Lemma ccmp_same_masked am key M h1 h2 iv p : hdr_ok h1 -> hdr_ok h2 -> masked am 0x87 h1 = masked am 0x87 h2 ->
  ccmp_text key h1 iv p = ccmp_text key h2 iv p /\ ccmp_mic am key M h1 iv p = ccmp_mic am key M h2 iv p.
Proof.
  intros H1 H2 E. assert (En : ccmp_nonce h1 iv = ccmp_nonce h2 iv) by (rewrite <- (nonce_of_masked am h1), <- (nonce_of_masked am h2), E by done; done).
  assert (Ea : ccmp_aad am h1 = ccmp_aad am h2) by (apply masked_iff_aad; done). unfold ccmp_text, ccmp_mic. rewrite En, Ea. done.
Qed.

(** The header on the air has the same protected bits. *)
Lemma masked_set_protected am h : hdr_ok h -> masked am 0x87 (set_protected h) = masked am 0x87 h.
Proof. intros Hh. destruct (set_protected_ok h Hh) as (Hh' & _ & EA & _). apply masked_iff_aad; done. Qed.

(** ** Theorems *)

(** CCMP is a round trip over the air. For a key of 16 bytes with a code of 8 or of 32 with 16, any header, IV and
    text, [_rtw_ccmp_encrypt] turns the frame in place into header with Protected bit, IV, cipher text and code, and
    leaves what lies behind alone. A receiver that gets these under a header that differs at most in unprotected bits
    opens the frame to the same text if the code is the one that was written, and otherwise fails and leaves the frame
    as it was. No byte outside the frame is touched. *)
Theorem ccmp_opens_its_frames os_malloc am key krest krest' M h iv p old post h2 u post2 :
  mem_ready os_malloc -> ccmp_key key M -> hdr_ok h -> bytes iv -> length iv = 8%nat -> bytes p -> zlen p < 2 ^ 31 -> zlen old = M ->
  hdr_ok h2 -> masked am 0x87 h2 = masked am 0x87 h -> bytes u -> zlen u = M ->
  let C := ccmp_text key h iv p in let T := ccmp_mic am key M h iv p in
  _rtw_ccmp_encrypt os_malloc true am (key ++ krest) (zlen key) (zlen h) (h ++ iv ++ p ++ old ++ post) (zlen p) =
    Ok (SUCCESS, set_protected h ++ iv ++ C ++ T ++ post) /\
  _rtw_ccmp_decrypt os_malloc true am (key ++ krest') (zlen key) (zlen h2) (h2 ++ iv ++ C ++ u ++ post2) (zlen (h2 ++ iv ++ C ++ u)) =
    Ok (if bool_decide (u = T) then (SUCCESS, h2 ++ iv ++ p ++ u ++ post2) else (FAIL, h2 ++ iv ++ C ++ u ++ post2)).
Proof.
  intros Hmem HK Hh Hbiv Hiv Hp Hlp Ho Hh2 Em Hu Zu C T. split; [apply rtw_ccmp_encrypt_spec; done|].
  pose proof (ccmp_text_zlen key M h iv p HK Hh Hbiv) as Zc. fold C in Zc.
  rewrite (rtw_ccmp_decrypt_spec os_malloc am Hmem key krest' M) by (done || (apply (ccmp_text_bytes key M); done) || lia).
  destruct (ccmp_same_masked am key M h2 h iv C Hh2 Hh Em) as [Et _].
  assert (Ep : ccmp_text key h2 iv C = p) by (rewrite Et; apply (ccmp_text_twice key M); done). rewrite Ep.
  destruct (ccmp_same_masked am key M h2 h iv p Hh2 Hh Em) as [_ Eu]. rewrite Eu. done.
Qed.

(** C29: What CCMP protects of a header. The additional data and the nonce that [ccmp_aad_nonce] computes of two frames
    are the same exactly when the headers agree on every bit of the mask [hdr_mask] (all but retry, power management,
    more data, the Protected bit, the duration, the sequence number, of data frames three subtype bits, and the order bit
    and most of the QoS field where they are not protected) and the packet numbers agree. *)
Theorem ccmp_protects_masked_bits am h1 iv1 r1 h2 iv2 r2 :
  hdr_ok h1 -> hdr_ok h2 -> bytes iv1 -> bytes iv2 -> length iv1 = 8%nat -> length iv2 = 8%nat ->
  exists A1 m1 N1 A2 m2 N2,
    ccmp_aad_nonce am (h1 ++ iv1 ++ r1) (zlen h1) = Ok (A1 ++ m1, zlen A1, N1) /\
    ccmp_aad_nonce am (h2 ++ iv2 ++ r2) (zlen h2) = Ok (A2 ++ m2, zlen A2, N2) /\
    (A1 = A2 /\ N1 = N2 <-> masked am 0x87 h1 = masked am 0x87 h2 /\ pn_bytes iv1 = pn_bytes iv2).
Proof.
  intros H1 H2 B1 B2 L1 L2. destruct (ccmp_aad_nonce_spec am h1 iv1 r1 H1 L1) as (m1 & F1). destruct (ccmp_aad_nonce_spec am h2 iv2 r2 H2 L2) as (m2 & F2).
  eexists _, m1, _, _, m2, _. split; [exact F1|]. split; [exact F2|]. rewrite (masked_iff_aad am h1 h2 H1 H2). split; intros [EA EN]; (split; [exact EA|]).
  - unfold ccmp_nonce in EN. rewrite !app_assoc in EN. apply app_inj_2 in EN as [_ EN]; [exact EN | done].
  - apply masked_iff_aad in EA; [|done|done]. rewrite <- (nonce_of_masked am h1), <- (nonce_of_masked am h2), EA by done. unfold ccmp_nonce. rewrite EN. done.
Qed.

(** The length of a frame is not checked against its header before it is decrypted: if the frame is up to sixteen
    bytes shorter than the header its first bytes announce, [plen - hdrlen] wraps around, a buffer of the wrapped size
    is allocated - at most fifteen bytes - and the routine leaves its memory instead of failing. *)
Theorem ccmp_short_frame_faults os_malloc am key krest M h iv post plen :
  mem_ready os_malloc -> ccmp_key key M -> hdr_ok h -> bytes iv -> length iv = 8%nat ->
  zlen h - 16 <= plen < zlen h -> zlen post < 2 ^ 31 ->
  exists e, _rtw_ccmp_decrypt os_malloc true am (key ++ krest) (zlen key) (zlen h) (h ++ iv ++ post) plen = Fault e.
Proof.
  intros Hmem HK Hh Hbiv Hiv Hl Hpost. pose proof (hdr_ok_length h Hh) as Lh. destruct (ccmp_key_aes key M HK) as [Hk HM].
  destruct (aes_context key Hk) as (ctx & Hctx & HC). destruct (ccmp_nonce_ok h iv Hh Hbiv) as [Bn Ln].
  set (n := 2 ^ 32 + (plen - zlen h)). assert (Hn : u32 (plen - zlen h) = n).
  { unfold u32, n. symmetry. apply (Z.mod_unique _ _ (-1)); [left; lia | lia]. }
  assert (F : ccmp_decrypt_with os_malloc true am (zlen key) M (key ++ krest) (h ++ iv ++ post) (zlen h) n = Fault OobRead).
  { unfold ccmp_decrypt_with, AES_BLOCK_SIZE. rewrite (proj2 (Z.ltb_ge _ _)) by (unfold n; destruct HM; lia).
    assert (Hw : u32 (n + 16) = plen - zlen h + 16) by (unfold u32, n; symmetry; apply (Z.mod_unique _ _ 1); [left; lia | lia]). rewrite Hw.
    destruct (Hmem (plen - zlen h + 16) ltac:(lia)) as (b & -> & _).
    destruct (ccmp_aad_nonce_spec am h iv post Hh Hiv) as (more & ->). cbn [bind]. rewrite ccm_ad_front by done.
    unfold aes_ccm_ad. pose proof (hdr_aad_zlen am 0x87 0x40 h Hh) as Ha.
    replace ((30 <? zlen (ccmp_aad am h)) || (AES_BLOCK_SIZE <? M)) with false
      by (unfold AES_BLOCK_SIZE; destruct HM; subst M; symmetry; apply orb_false_intro; apply Z.ltb_ge; (exact Ha || lia)).
    rewrite Hctx. cbn [bind]. destruct (encr_start_spec (ccmp_nonce h iv) Ln) as (a & -> & Ca). cbn [bind].
    destruct (ccm_a_ok (ccmp_nonce h iv) Bn Ln) as [Ba La]. unfold aes_ccm_decr_auth.
    destruct (put_ctr a (ccm_a (ccmp_nonce h iv)) 0 Ca Ba La) as (W & Bc & _). rewrite W. cbn [bind]. rewrite (cipher_run _ Bc). cbn [bind].
    rewrite rdn_oob; [done|]. unfold n, zlen in *. rewrite !length_app, Hiv. destruct HM; lia. }
  exists OobRead. unfold _rtw_ccmp_decrypt. rewrite Hn, (by_key_len key M) by done.
  replace (if decide (M = 8) then _ else _) with (ccmp_decrypt_with os_malloc true am (zlen key) M (key ++ krest) (h ++ iv ++ post) (zlen h) n)
    by (destruct HK as [_ [[HL ->]|[HL ->]]]; unfold zlen at 1; rewrite HL; done).
  rewrite F. done.
Qed.

(** ** Witnesses *)

Definition ex_malloc : Z -> option (list Z) := fun n => Some (replicate (Z.to_nat n) 0xa5).
Lemma ex_malloc_ready : mem_ready ex_malloc.
Proof. intros n Hn. eexists. split; [reflexivity|]. unfold zlen. rewrite length_replicate. lia. Qed.

(** A QoS data frame to the access point, as it is sent and as it is repeated. *)
Definition ex_hdr : list Z := [0x88; 0x01; 0x30; 0] ++ seqZ 1 18 ++ [0x20; 0x05] ++ [0x06; 0].
Definition ex_hdr_retry : list Z := [0x88; 0x49; 0x2c; 0] ++ seqZ 1 18 ++ [0x20; 0x05] ++ [0x06; 0].
Definition ex_iv8 : list Z := [7; 0; 0; 0x20; 0; 0; 0; 0].
Definition ex_key32 : list Z := map Z.of_nat (seq 0 32).

Lemma ex_hdr_ok : hdr_ok ex_hdr /\ hdr_ok ex_hdr_retry.
Proof. split; (split; [apply bytes_by_compute; vm_compute; reflexivity | vm_compute; reflexivity]). Qed.

Lemma ccmp_opens_its_frames_witness :
  let C := ccmp_text (take 16 ex_key32) ex_hdr ex_iv8 [72; 105; 33] in let T := ccmp_mic 0 (take 16 ex_key32) 8 ex_hdr ex_iv8 [72; 105; 33] in
  _rtw_ccmp_encrypt ex_malloc true 0 (take 16 ex_key32 ++ drop 16 ex_key32) 16 26 (ex_hdr ++ ex_iv8 ++ [72; 105; 33] ++ zeros 8 ++ [1]) 3 =
    Ok (SUCCESS, set_protected ex_hdr ++ ex_iv8 ++ C ++ T ++ [1]) /\
  _rtw_ccmp_decrypt ex_malloc true 0 (take 16 ex_key32 ++ drop 16 ex_key32) 16 26 (ex_hdr_retry ++ ex_iv8 ++ C ++ zeros 8 ++ [])
    (zlen (ex_hdr_retry ++ ex_iv8 ++ C ++ zeros 8)) =
    Ok (if bool_decide (zeros 8 = T) then (SUCCESS, ex_hdr_retry ++ ex_iv8 ++ [72; 105; 33] ++ zeros 8 ++ [])
        else (FAIL, ex_hdr_retry ++ ex_iv8 ++ C ++ zeros 8 ++ [])).
Proof.
  apply (ccmp_opens_its_frames ex_malloc 0 (take 16 ex_key32) (drop 16 ex_key32) (drop 16 ex_key32) 8 ex_hdr ex_iv8 [72; 105; 33] (zeros 8) [1]
    ex_hdr_retry (zeros 8) []).
  - exact ex_malloc_ready.
  - split; [apply bytes_by_compute; vm_compute; reflexivity | left; split; reflexivity].
  - exact (proj1 ex_hdr_ok).
  - apply bytes_by_compute. reflexivity.
  - reflexivity.
  - apply bytes_by_compute. reflexivity.
  - reflexivity.
  - reflexivity.
  - exact (proj2 ex_hdr_ok).
  - vm_compute. reflexivity.
  - apply bytes_by_compute. reflexivity.
  - reflexivity.
Defined.

Lemma ccmp_protects_masked_bits_witness :
  exists A1 m1 N1 A2 m2 N2,
    ccmp_aad_nonce 0 (ex_hdr ++ ex_iv8 ++ [1]) 26 = Ok (A1 ++ m1, zlen A1, N1) /\
    ccmp_aad_nonce 0 (ex_hdr_retry ++ ex_iv8 ++ [1]) 26 = Ok (A2 ++ m2, zlen A2, N2) /\
    (A1 = A2 /\ N1 = N2 <-> masked 0 0x87 ex_hdr = masked 0 0x87 ex_hdr_retry /\ pn_bytes ex_iv8 = pn_bytes ex_iv8).
Proof.
  apply (ccmp_protects_masked_bits 0 ex_hdr ex_iv8 [1] ex_hdr_retry ex_iv8 [1]);
    first [exact (proj1 ex_hdr_ok) | exact (proj2 ex_hdr_ok) | reflexivity | apply bytes_by_compute; reflexivity].
Defined.

Lemma ccmp_short_frame_faults_witness :
  exists e, _rtw_ccmp_decrypt ex_malloc true 0 (take 16 ex_key32 ++ drop 16 ex_key32) 16 26 (ex_hdr ++ ex_iv8 ++ zeros 20) 24 = Fault e.
Proof.
  apply (ccmp_short_frame_faults ex_malloc 0 (take 16 ex_key32) (drop 16 ex_key32) 8 ex_hdr ex_iv8 (zeros 20) 24).
  - exact ex_malloc_ready.
  - split; [apply bytes_by_compute; vm_compute; reflexivity | left; split; reflexivity].
  - exact (proj1 ex_hdr_ok).
  - apply bytes_by_compute. reflexivity.
  - reflexivity.
  - vm_compute. split; [discriminate | reflexivity].
  - reflexivity.
Defined.
