(* ===== verification/Gcmp.v ===== *)
(** * GCMP: GCM over a frame

    Models [core/crypto/gcmp.c] and the GCMP routines of [core/rtw_swcrypto.c], with the conventions of [Ccmp]. Unlike
    CCMP it protects the Protected bit of the header as it finds it. *)
From Stdlib Require Import ZArith Lia Bool.
From stdpp Require Import base option list numbers.
From S2P Require Import Prelude Arc4 Sec Aes Modes Gf128 Gcm Ccmp.
Local Open Scope Z_scope.

(** ** The code *)

(* src: core/crypto/gcmp.c:16-74 gcmp_aad_nonce *)
Definition gcmp_aad_nonce (am : Z) (mem : list Z) (data : Z) : res (list Z * Z * list Z) :=
  fc <- GET_LE16 mem 0 ;;
  let stype := fc & 0xf0 in
  let addr4 := fc & 0x0300 =? 0x0300 in
  let '(fc, qos) := if fc & 0x0c =? 0x08 then
                      let fc := fc & Z.lnot 0x0070 in
                      if stype & 0x80 =? 0 then (fc, false) else (fc & Z.lnot 0x8000, true)
                    else (fc, false) in
  let fc := fc & Z.lnot (0x0800 .| 0x1000 .| 0x2000) in
  '(aad, aad_len) <- put_aad am mem fc addr4 qos ;;
  a2 <- rdn mem 10 6 ;;
  p7 <- rd mem (data + 7) ;; p6 <- rd mem (data + 6) ;; p5 <- rd mem (data + 5) ;; p4 <- rd mem (data + 4) ;;
  p1 <- rd mem (data + 1) ;; p0 <- rd mem data ;;
  Ok (aad, aad_len, a2 ++ [p7; p6; p5; p4; p1; p0]).

Section Gcmp.
  Context (os_malloc : Z -> option (list Z)) (aes_alloc : bool) (am : Z).

(** [None]: NULL. *)
(* src: core/crypto/gcmp.c:85-122 gcmp_decrypt *)
Definition gcmp_decrypt (tk : list Z) (tk_len : Z) (mem : list Z) (data data_len : Z) : res (option (list Z * Z)) :=
  if data_len <? 8 + 16 then Ok None
  else
    match os_malloc (u32 (data_len + AES_BLOCK_SIZE)) with
    | None => Ok None
    | Some plain =>
        let m := data + 8 in
        let mlen := data_len - 8 - 16 in
        '(aad, aad_len, nonce) <- gcmp_aad_nonce am mem data ;;
        '(ok, plain) <- aes_gcm_ad aes_alloc tk tk_len nonce 12 mem m mlen aad aad_len (m + mlen) plain ;;
        Ok (if ok then Some (plain, mlen) else None)
    end.

(* src: core/crypto/gcmp.c:139-194 gcmp_encrypt *)
Definition gcmp_encrypt (tk : list Z) (tk_len : Z) (frame : list Z) (len hdrlen : Z) (pn : option (list Z)) (keyid : Z)
    : res (option (list Z * Z)) :=
  if (len <? hdrlen) || (hdrlen <? 24) then Ok None
  else
    let plen := len - hdrlen in
    match os_malloc (u32 (hdrlen + 8 + plen + 16 + AES_BLOCK_SIZE)) with
    | None => Ok None
    | Some crypt =>
        '(crypt, pdata) <- crypt_front false frame hdrlen pn keyid crypt ;;
        '(aad, aad_len, nonce) <- gcmp_aad_nonce am crypt hdrlen ;;
        r <- aes_gcm_ae aes_alloc tk tk_len nonce 12 frame pdata plen aad aad_len crypt (hdrlen + 8) (hdrlen + 8 + plen) ;;
        Ok (crypt ← r; Some (crypt, hdrlen + 8 + plen + 16))
    end.

(* src: core/rtw_swcrypto.c:134-155 _rtw_gcmp_encrypt *)
Definition _rtw_gcmp_encrypt (key : list Z) (key_len hdrlen : Z) (frame : list Z) (plen : Z) : res (Z * list Z) :=
  enc <- gcmp_encrypt key key_len frame (u32 (hdrlen + plen)) hdrlen None 0 ;;
  match enc with
  | None => Ok (FAIL, frame)
  | Some (enc, enc_len) => e <- rdn enc 0 enc_len ;; frame <- wrn frame 0 e ;; Ok (SUCCESS, frame)
  end.

(* src: core/rtw_swcrypto.c:165-192 _rtw_gcmp_decrypt *)
Definition _rtw_gcmp_decrypt (key : list Z) (key_len hdrlen : Z) (frame : list Z) (plen : Z) : res (Z * list Z) :=
  plain <- gcmp_decrypt key key_len frame hdrlen (u32 (plen - hdrlen)) ;;
  match plain with
  | None => Ok (FAIL, frame)
  | Some (plain, plain_len) =>
      p <- rdn plain 0 plain_len ;; frame <- wrn frame (hdrlen + 8) p ;; Ok (SUCCESS, frame)
  end.
End Gcmp.

(** ** Specification *)

Definition gcmp_aad (am : Z) (h : list Z) : list Z := hdr_aad am 0xc7 0 h.
Definition gcmp_nonce (h iv : list Z) : list Z := take 6 (drop 10 h) ++ pn_bytes iv.

Definition gcmp_text (key h iv p : list Z) : list Z := gcm_crypt (aes_cipher key) (gcmp_nonce h iv) p.
Definition gcmp_mic (am : Z) (key h iv c : list Z) : list Z := gcm_tag (aes_cipher key) (gcmp_nonce h iv) (gcmp_aad am h) c.

(** ** Lemmas *)

Lemma gcmp_aad_nonce_spec am h iv rest : hdr_ok h -> length iv = 8%nat ->
  exists more, gcmp_aad_nonce am (h ++ iv ++ rest) (zlen h) = Ok (gcmp_aad am h ++ more, zlen (gcmp_aad am h), gcmp_nonce h iv).
Proof.
  intros Hh Hiv. destruct (hdr_reads_spec am 0xc7 0 h iv rest Hh Hiv fc_agrees_gcmp) as (f0 & f1 & [(l & E) Hfc Hag Hq Ha2 Haad]).
  destruct (pn_at h iv rest Hiv) as (P7 & P6 & P5 & P4 & P1 & P0).
  destruct (fc_cases 0xc7 0 f0 f1 Hag eq_refl) as (H4 & Hd & _ & HQ & HP).
  cbv beta zeta in HP. change (Z.shiftl 0 8) with 0 in HP. rewrite Z.lor_0_r in HP. destruct (Haad _ HP) as (more & F). exists more.
  unfold gcmp_aad_nonce, gcmp_nonce, pn_bytes. rewrite Hfc. cbn [bind]. cbv zeta. rewrite H4, Hd. fold (gcmp_aad am h) in F.
  destruct (is_data f0) eqn:HD.
  - rewrite (HQ eq_refl). destruct (is_qos f0); cbn [negb]; rewrite F; cbn [bind]; rewrite Ha2, P7, P6, P5, P4, P1, P0; done.
  - assert (HQ' : is_qos f0 = false) by (unfold is_qos; rewrite HD; done). rewrite HQ' in *.
    rewrite F. cbn [bind]. rewrite Ha2, P7, P6, P5, P4, P1, P0. done.
Qed.

Lemma gcmp_nonce_ok h iv : hdr_ok h -> bytes iv -> bytes (gcmp_nonce h iv) /\ length (gcmp_nonce h iv) = 12%nat.
Proof.
  intros Hh Hiv. pose proof (hdr_ok_length h Hh) as Hl. destruct (pn_bytes_ok iv Hiv) as [Bp Lp]. unfold gcmp_nonce. split.
  - apply Forall_app_2; [apply Forall_take, Forall_drop, Hh | exact Bp].
  - rewrite !length_app, Lp, length_take, length_drop. lia.
Qed.

Lemma gcmp_key_args key h iv p am : aes_key key -> hdr_ok h -> bytes iv -> bytes p -> zlen p < 2 ^ 28 ->
  gcm_args key (gcmp_nonce h iv) (gcmp_aad am h) p /\ zlen (gcmp_nonce h iv) = 12.
Proof.
  intros Hk Hh Hbiv Hp Hlp. destruct (gcmp_nonce_ok h iv Hh Hbiv) as [Bn Ln]. assert (Zn : zlen (gcmp_nonce h iv) = 12) by (unfold zlen; rewrite Ln; done).
  pose proof (hdr_aad_zlen am 0xc7 0 h Hh) as Ha. split; [|exact Zn]. constructor; try done.
  - unfold short. lia.
  - apply hdr_aad_bytes; done || (unfold is_byte; lia).
  - unfold short, gcmp_aad. lia.
  - unfold short. lia.
Qed.

Lemma front_none f0 f1 r iv l (crypt : list Z) : length iv = 8%nat -> zlen (f0 :: f1 :: r) + 8 <= zlen crypt ->
  exists room, crypt_front false ((f0 :: f1 :: r) ++ iv ++ l) (zlen (f0 :: f1 :: r)) None 0 crypt =
    Ok ((f0 :: f1 :: r) ++ iv ++ room, zlen (f0 :: f1 :: r) + 8) /\ zlen room = zlen crypt - zlen (f0 :: f1 :: r) - 8.
Proof.
  intros Hiv Hl. set (h := f0 :: f1 :: r) in *. unfold crypt_front.
  assert (Hz : zlen h + 8 = zlen (h ++ iv)) by (rewrite zlen_app; unfold zlen; rewrite Hiv; lia).
  rewrite app_assoc, (rdn_prefix (h ++ iv) l) by done. cbn [bind]. rewrite wrn_prefix by lia. cbn [bind].
  exists (drop (length (h ++ iv)) crypt). split; [rewrite <- app_assoc; done|]. unfold zlen in *. rewrite length_drop. lia.
Qed.

Section Frames.
  Context (os_malloc : Z -> option (list Z)) (am : Z) (Hmem : mem_ready os_malloc).

Lemma gcmp_text_zlen key h iv p : aes_key key -> hdr_ok h -> bytes iv -> zlen (gcmp_text key h iv p) = zlen p.
Proof.
  intros Hk Hh Hbiv. destruct (aes_context key Hk) as (ctx & _ & HC). destruct (gcmp_nonce_ok h iv Hh Hbiv) as [Bn Ln].
  destruct (j0_spec ctx _ (gcmp_nonce h iv) Bn) as [_ BJ]; [unfold short, zlen; rewrite Ln; done|].
  unfold zlen, gcmp_text, gcm_crypt. rewrite (gctr_length ctx); [done | exact HC | apply inc32_spec, BJ].
Qed.

Lemma gcmp_mic_blk key h iv c : aes_key key -> hdr_ok h -> bytes iv -> blk (gcmp_mic am key h iv c).
Proof.
  intros Hk Hh Hbiv. destruct (aes_context key Hk) as (ctx & _ & HC). destruct (gcmp_nonce_ok h iv Hh Hbiv) as [Bn Ln].
  destruct (j0_spec ctx _ (gcmp_nonce h iv) Bn) as [_ BJ]; [unfold short, zlen; rewrite Ln; done|].
  apply xor_blk; [apply gcm_hash_blk | apply (cipher_blk (ctx:=ctx)), BJ].
Qed.

Lemma rtw_gcmp_encrypt_spec key krest h iv p old post : aes_key key -> hdr_ok h -> bytes iv -> length iv = 8%nat -> bytes p ->
  zlen p < 2 ^ 28 -> zlen old = 16 ->
  let c := gcmp_text key h iv p in
  _rtw_gcmp_encrypt os_malloc true am (key ++ krest) (zlen key) (zlen h) (h ++ iv ++ p ++ old ++ post) (zlen p) =
    Ok (SUCCESS, h ++ iv ++ c ++ gcmp_mic am key h iv c ++ post).
Proof.
  intros Hk Hh Hbiv Hiv Hp Hlp Ho c. pose proof (hdr_ok_length h Hh) as Lh. pose proof (zlen_nonneg p).
  unfold _rtw_gcmp_encrypt, gcmp_encrypt, AES_BLOCK_SIZE. rewrite u32_small by (unfold zlen in *; lia).
  replace ((zlen h + zlen p <? zlen h) || (zlen h <? 24)) with false by (symmetry; apply orb_false_intro; apply Z.ltb_ge; unfold zlen in *; lia).
  replace (zlen h + zlen p - zlen h) with (zlen p) by lia. set (n := zlen h + 8 + zlen p + 16 + 16).
  rewrite u32_small by (unfold n, zlen in *; lia). destruct (Hmem n) as (b & -> & Zb); [unfold n, zlen in *; lia|].
  assert (Hsplit : exists f0 f1 r, h = f0 :: f1 :: r) by (destruct Hh as [_ HL]; destruct h as [|f0 [|f1 r]]; try done; eexists _, _, _; reflexivity).
  destruct Hsplit as (f0 & f1 & r & Eh).
  destruct (front_none f0 f1 r iv (p ++ old ++ post) b Hiv ltac:(rewrite <- Eh, Zb; unfold n; lia)) as (room & F & Zr).
  rewrite <- Eh in F, Zr. rewrite F. clear F. cbn [bind]. destruct (gcmp_aad_nonce_spec am h iv room Hh Hiv) as (more & ->). cbn [bind].
  destruct (gcmp_key_args key h iv p am Hk Hh Hbiv Hp Hlp) as [HA Zn].
  assert (Hz : zlen h + 8 = zlen (h ++ iv)) by (rewrite zlen_app; unfold zlen; rewrite Hiv; lia).
  rewrite <- (take_drop (Z.to_nat (zlen p + 16)) room). set (o := take _ room). set (rest := drop _ room).
  assert (Zo : zlen o = zlen p + 16) by (unfold o, zlen in *; rewrite length_take; unfold n in *; lia).
  pose proof (aes_gcm_ae_spec key krest (gcmp_nonce h iv) (gcmp_aad am h) more (h ++ iv) p (old ++ post) (h ++ iv) o rest HA Zo) as F.
  cbv zeta in F. rewrite <- !app_assoc, <- Hz, Zn in F. rewrite F. clear F. cbn [bind]. fold (gcmp_text key h iv p). fold c.
  fold (gcmp_mic am key h iv c). pose proof (gcmp_text_zlen key h iv p Hk Hh Hbiv) as Zc. fold c in Zc.
  pose proof (blk_zlen _ (gcmp_mic_blk key h iv c Hk Hh Hbiv)) as Zu. set (u := gcmp_mic am key h iv c) in *. set (new := h ++ iv ++ c ++ u).
  assert (Znew : zlen new = zlen h + 8 + zlen p + 16) by (unfold new; rewrite !zlen_app, Zc, Zu; unfold zlen; rewrite Hiv; lia).
  replace (h ++ iv ++ c ++ u ++ rest) with (new ++ rest) by (unfold new; rewrite <- !app_assoc; done).
  cbn [mbind option_bind]. rewrite rdn_prefix by done. cbn [bind].
  assert (Lold : length (h ++ iv ++ p ++ old) = length new) by (unfold zlen in *; rewrite !length_app; lia).
  replace (h ++ iv ++ p ++ old ++ post) with ((h ++ iv ++ p ++ old) ++ post) by (rewrite <- !app_assoc; done).
  rewrite (wrn_off [] (h ++ iv ++ p ++ old) post new 0 eq_refl (eq_sym Lold) : wrn (_ ++ post) 0 new = _). cbn [bind]. unfold new. rewrite <- !app_assoc. done.
Qed.

Lemma rtw_gcmp_decrypt_spec key krest h iv c u post : aes_key key -> hdr_ok h -> bytes iv -> length iv = 8%nat -> bytes c -> blk u ->
  zlen c < 2 ^ 28 ->
  _rtw_gcmp_decrypt os_malloc true am (key ++ krest) (zlen key) (zlen h) (h ++ iv ++ c ++ u ++ post) (zlen (h ++ iv ++ c ++ u)) =
    Ok (if bool_decide (u = gcmp_mic am key h iv c) then (SUCCESS, h ++ iv ++ gcmp_text key h iv c ++ u ++ post)
        else (FAIL, h ++ iv ++ c ++ u ++ post)).
Proof.
  intros Hk Hh Hbiv Hiv Hc Hu Hlc. pose proof (zlen_nonneg c). assert (Ziv : zlen iv = 8) by (unfold zlen; rewrite Hiv; done).
  unfold _rtw_gcmp_decrypt, gcmp_decrypt, AES_BLOCK_SIZE.
  replace (zlen (h ++ iv ++ c ++ u) - zlen h) with (8 + zlen c + 16) by (rewrite !zlen_app, Ziv, (blk_zlen u Hu); lia).
  rewrite u32_small by lia. rewrite (proj2 (Z.ltb_ge _ _)) by lia. rewrite u32_small by lia.
  destruct (Hmem (8 + zlen c + 16 + 16) ltac:(lia)) as (b & -> & Zb). replace (8 + zlen c + 16 - 8 - 16) with (zlen c) by lia.
  destruct (gcmp_aad_nonce_spec am h iv (c ++ u ++ post) Hh Hiv) as (more & ->). cbn [bind].
  destruct (gcmp_key_args key h iv c am Hk Hh Hbiv Hc Hlc) as [HA Zn].
  assert (Hz : zlen h + 8 = zlen (h ++ iv)) by (rewrite zlen_app, Ziv; done).
  rewrite <- (take_drop (length c) b). set (o := take (length c) b). set (rest := drop (length c) b).
  assert (Lo : length o = length c) by (unfold o, zlen in *; rewrite length_take; lia).
  pose proof (aes_gcm_ad_spec key krest (gcmp_nonce h iv) (gcmp_aad am h) more (h ++ iv) c u post o rest HA Hu Lo) as F.
  cbv zeta in F. rewrite <- !app_assoc, <- Hz, Zn in F. rewrite F. clear F. cbn [bind]. fold (gcmp_text key h iv c). fold (gcmp_mic am key h iv c).
  pose proof (gcmp_text_zlen key h iv c Hk Hh Hbiv) as Zp. set (p := gcmp_text key h iv c) in *.
  destruct (bool_decide (u = gcmp_mic am key h iv c)); [|done]. rewrite rdn_prefix by done. cbn [bind].
  replace (h ++ iv ++ c ++ u ++ post) with ((h ++ iv) ++ c ++ (u ++ post)) by (rewrite <- !app_assoc; done).
  rewrite (wrn_off (h ++ iv) c (u ++ post) p) by (rewrite ?zlen_app, ?Ziv; unfold zlen in *; lia || done). cbn [bind]. rewrite <- !app_assoc. done.
Qed.
End Frames.

Lemma a2_of_masked am keep h : hdr_ok h -> take 6 (drop 10 (masked am keep h)) = take 6 (drop 10 h).
Proof.
  intros Hh. destruct (hdr_split h Hh) as (f0 & f1 & d & a & s0 & s1 & x & q & E & Hb & Ld & La & Lx & Lq).
  rewrite E in Hb. unfold bytes in Hb. rewrite !Forall_app in Hb. destruct Hb as (_ & Bd & Ba & _ & Bx & _).
  rewrite E, masked_parts by done. set (m0 := (if is_data f0 then 0x8f else 0xff) & f0). set (m1 := (if is_qos f0 then keep & 0x7f else keep) & f1).
  set (l := match q with q0 :: _ => _ | [] => [] end). change ([m0; m1; 0; 0] ++ a ++ [0x0f & s0; 0] ++ x ++ l) with ([m0; m1] ++ [0; 0] ++ a ++ [0x0f & s0; 0] ++ x ++ l).
  rewrite (proj2 (addr2_at m0 m1 [0; 0] a _ eq_refl La)), (proj2 (addr2_at f0 f1 d a _ Ld La)). done.
Qed.

Lemma gcmp_same_masked am key h1 h2 iv c : hdr_ok h1 -> hdr_ok h2 -> masked am 0xc7 h1 = masked am 0xc7 h2 ->
  gcmp_text key h1 iv c = gcmp_text key h2 iv c /\ gcmp_mic am key h1 iv c = gcmp_mic am key h2 iv c.
Proof.
  intros H1 H2 E. assert (En : gcmp_nonce h1 iv = gcmp_nonce h2 iv).
  { unfold gcmp_nonce. rewrite <- (a2_of_masked am 0xc7 h1), <- (a2_of_masked am 0xc7 h2), E by done. done. }
  unfold gcmp_text, gcmp_mic, gcmp_aad, hdr_aad. rewrite En, E. done.
Qed.

Lemma gcmp_text_ok key h iv p : aes_key key -> hdr_ok h -> bytes iv -> gcmp_text key h iv (gcmp_text key h iv p) = p /\
  (bytes p -> bytes (gcmp_text key h iv p)).
Proof.
  intros Hk Hh Hbiv. destruct (aes_context key Hk) as (ctx & _ & HC). destruct (gcmp_nonce_ok h iv Hh Hbiv) as [Bn Ln].
  destruct (j0_spec ctx _ (gcmp_nonce h iv) Bn) as [_ BJ]; [unfold short, zlen; rewrite Ln; done|].
  pose proof (proj2 (inc32_spec _ BJ)) as BJ'. split; [apply (gctr_twice ctx); done | intros; apply (gctr_bytes ctx); done].
Qed.

(** ** Theorems *)

(** GCMP is a round trip over the air. For every AES key, header, IV and text, [_rtw_gcmp_encrypt] turns the frame
    in place into the same header and IV, cipher text and a tag of sixteen bytes. A receiver that gets these under a
    header that differs at most in unprotected bits - with GCMP the Protected bit is protected - opens the frame to the
    same text if the tag is the one that was written, and otherwise fails and leaves the frame as it was. *)
Theorem gcmp_opens_its_frames os_malloc am key krest krest' h iv p old post h2 u post2 :
  mem_ready os_malloc -> aes_key key -> hdr_ok h -> bytes iv -> length iv = 8%nat -> bytes p -> zlen p < 2 ^ 28 -> zlen old = 16 ->
  hdr_ok h2 -> masked am 0xc7 h2 = masked am 0xc7 h -> blk u ->
  let C := gcmp_text key h iv p in let T := gcmp_mic am key h iv C in
  _rtw_gcmp_encrypt os_malloc true am (key ++ krest) (zlen key) (zlen h) (h ++ iv ++ p ++ old ++ post) (zlen p) =
    Ok (SUCCESS, h ++ iv ++ C ++ T ++ post) /\
  _rtw_gcmp_decrypt os_malloc true am (key ++ krest') (zlen key) (zlen h2) (h2 ++ iv ++ C ++ u ++ post2) (zlen (h2 ++ iv ++ C ++ u)) =
    Ok (if bool_decide (u = T) then (SUCCESS, h2 ++ iv ++ p ++ u ++ post2) else (FAIL, h2 ++ iv ++ C ++ u ++ post2)).
Proof.
  intros Hmem Hk Hh Hbiv Hiv Hp Hlp Ho Hh2 Em Hu C T. split; [apply rtw_gcmp_encrypt_spec; done|].
  pose proof (gcmp_text_zlen key h iv p Hk Hh Hbiv) as Zc. fold C in Zc. destruct (gcmp_text_ok key h iv p Hk Hh Hbiv) as [Ep Bc].
  rewrite (rtw_gcmp_decrypt_spec os_malloc am Hmem) by (done || (apply Bc; done) || lia).
  destruct (gcmp_same_masked am key h2 h iv C Hh2 Hh Em) as [Et Eu]. unfold T. rewrite Et, Eu. unfold C. rewrite Ep. done.
Qed.

Definition ex_ghdr : list Z := set_protected ex_hdr.
Definition ex_ghdr_retry : list Z := set_protected ex_hdr_retry.

Lemma gcmp_opens_its_frames_witness :
  let C := gcmp_text ex_key32 ex_ghdr ex_iv8 [72; 105; 33] in let T := gcmp_mic 1 ex_key32 ex_ghdr ex_iv8 C in
  _rtw_gcmp_encrypt ex_malloc true 1 (ex_key32 ++ []) 32 26 (ex_ghdr ++ ex_iv8 ++ [72; 105; 33] ++ zeros 16 ++ [1]) 3 =
    Ok (SUCCESS, ex_ghdr ++ ex_iv8 ++ C ++ T ++ [1]) /\
  _rtw_gcmp_decrypt ex_malloc true 1 (ex_key32 ++ []) 32 26 (ex_ghdr_retry ++ ex_iv8 ++ C ++ zeros 16 ++ [])
    (zlen (ex_ghdr_retry ++ ex_iv8 ++ C ++ zeros 16)) =
    Ok (if bool_decide (zeros 16 = T) then (SUCCESS, ex_ghdr_retry ++ ex_iv8 ++ [72; 105; 33] ++ zeros 16 ++ [])
        else (FAIL, ex_ghdr_retry ++ ex_iv8 ++ C ++ zeros 16 ++ [])).
Proof.
  apply (gcmp_opens_its_frames ex_malloc 1 ex_key32 [] [] ex_ghdr ex_iv8 [72; 105; 33] (zeros 16) [1] ex_ghdr_retry (zeros 16) []).
  - exact ex_malloc_ready.
  - split; [apply bytes_by_compute; vm_compute; reflexivity | right; right; reflexivity].
  - split; [apply bytes_by_compute; vm_compute; reflexivity | vm_compute; reflexivity].
  - apply bytes_by_compute. reflexivity.
  - reflexivity.
  - apply bytes_by_compute. reflexivity.
  - reflexivity.
  - reflexivity.
  - split; [apply bytes_by_compute; vm_compute; reflexivity | vm_compute; reflexivity].
  - vm_compute. reflexivity.
  - exact zeros_blk.
Defined.
