(* ===== verification/SwCrypt.v ===== *)
(** * Software CCMP and GCMP of received and transmitted frames

    Models [rtw_aes_encrypt], [rtw_aes_decrypt], [rtw_gcmp_encrypt] and [rtw_gcmp_decrypt] of [core/rtw_security.c]: which
    key is used, the loop over the fragments, what happens when a frame does not open. The two pairs are the same text
    around different routines of [core/rtw_swcrypto.c]; a record of operations holds what differs. *)
From Stdlib Require Import ZArith Lia Bool.
From stdpp Require Import base option list numbers.
From S2P Require Import Prelude Arc4 Sec Aes Modes Gf128 Gcm Ccmp Gcmp.
Local Open Scope Z_scope.

(** ** The code *)

Section Code.
  Context (os_malloc : Z -> option (list Z)) (aes_alloc : bool) (am : Z).

(** Key, its length, header length, frame, length. *)
Definition frame_op : Type := list Z -> Z -> Z -> list Z -> Z -> res (Z * list Z).

Record frame_cipher : Type := mkCipher {
  fc_short : Z; fc_long : Z;  (* the values of [encrypt] for keys of 16 and of 32 bytes *)
  fc_encrypt : frame_op; fc_decrypt : frame_op;
  fc_enc_cnt : sw_cnt; fc_dec_cnt : sw_cnt }.

Definition ccmp_ops : frame_cipher :=
  mkCipher AES CCMP_256 (_rtw_ccmp_encrypt os_malloc aes_alloc am) (_rtw_ccmp_decrypt os_malloc aes_alloc am) AesEnc AesDec.
Definition gcmp_ops : frame_cipher :=
  mkCipher GCMP GCMP_256 (_rtw_gcmp_encrypt os_malloc aes_alloc am) (_rtw_gcmp_decrypt os_malloc aes_alloc am) GcmpEnc GcmpDec.

(** One fragment, at [pframe]; the result of the routine is not looked at. *)
(* src: core/rtw_security.c:1641-1644 rtw_aes_encrypt *)
Definition sw_fragment (C : frame_cipher) (prwskey : list Z) (prwskeylen : Z) (at_ : pkt_attrib) (pframe plen : Z) (st : list Z * unit)
    : res (list Z * unit) :=
  let (mem, _) := st in
  f <- rdn mem pframe (zlen mem - pframe) ;;
  '(_, f) <- fc_encrypt C prwskey prwskeylen (t_hdrlen at_) f (u32 plen) ;;
  mem <- wrn mem pframe f ;;
  Ok (mem, tt).

(* src: core/rtw_security.c:1585-1662 rtw_aes_encrypt *)
Definition sw_encrypt (C : frame_cipher) (x : xmit_frame) (at_ : pkt_attrib) (frag_len : Z) (sec : security_priv)
    : res (Z * option (list Z) * security_priv) :=
  match x_buf x with
  | None => Ok (FAIL, None, sec)
  | Some mem =>
      if (t_encrypt at_ =? fc_short C) || (t_encrypt at_ =? fc_long C) then
        prwskey <- (if IS_MCAST (t_ra at_) then rd (dot118021XGrpKey sec) (dot118021XGrpKeyid sec) else Ok (t_UncstKey at_)) ;;
        let prwskeylen := if t_encrypt at_ =? fc_long C then 32 else 16 in
        '(mem, _) <- fragments (sw_fragment C prwskey prwskeylen at_) (x_addr x) frag_len at_ (hw_hdr_offset x) (mem, tt) ;;
        Ok (SUCCESS, Some mem, count_sw (fc_enc_cnt C) (t_ra at_) sec)
      else Ok (SUCCESS, Some mem, sec)
  end.

(** [stainfo] is the transmitter's unicast key, when it is a station known. *)
(* src: core/rtw_security.c:2040-2129 rtw_aes_decrypt *)
Definition sw_decrypt (C : frame_cipher) (now : Z) (passing : Z -> Z) (stainfo : option (list Z))
    (mem : list Z) (len : Z) (at_ : rx_pkt_attrib) (sec : security_priv) (g : gk_log)
    : res (Z * list Z * security_priv * gk_log) :=
  let key_len := if r_encrypt at_ =? fc_long C then 32 else 16 in
  let open := fun prwskey g =>
    '(r, mem) <- fc_decrypt C prwskey key_len (r_hdrlen at_) mem len ;;
    Ok (r, mem, count_sw (fc_dec_cnt C) (r_ra at_) sec, g) in
  if (r_encrypt at_ =? fc_short C) || (r_encrypt at_ =? fc_long C) then
    match stainfo with
    | None => Ok (FAIL, mem, sec, g)
    | Some unicast =>
        if IS_MCAST (r_ra at_) then
          if negb (binstallGrpkey sec) then Ok (FAIL, mem, sec, gk_missing now passing (r_ra at_) g)
          else
            prwskey <- rd (dot118021XGrpKey sec) (r_key_index at_) ;;
            if negb (dot118021XGrpKeyid sec =? r_key_index at_) then Ok (FAIL, mem, sec, mkGk 0 0 0)
            else open prwskey (mkGk 0 0 0)
        else open unicast g
    end
  else Ok (SUCCESS, mem, sec, g).

Definition rtw_aes_encrypt := sw_encrypt ccmp_ops.
Definition rtw_aes_decrypt := sw_decrypt ccmp_ops.
(* src: core/rtw_security.c:2582-2641 rtw_gcmp_encrypt *)
Definition rtw_gcmp_encrypt := sw_encrypt gcmp_ops.
(* src: core/rtw_security.c:2643-2729 rtw_gcmp_decrypt *)
Definition rtw_gcmp_decrypt := sw_decrypt gcmp_ops.
End Code.

(** ** Specification: the four suites *)

Inductive suite : Type := Ccmp128 | Ccmp256 | Gcmp128 | Gcmp256.

Definition encrypt_of (s : suite) : Z := match s with Ccmp128 => AES | Ccmp256 => CCMP_256 | Gcmp128 => GCMP | Gcmp256 => GCMP_256 end.
Definition key_of (s : suite) : nat := match s with Ccmp128 | Gcmp128 => 16 | _ => 32 end.
Definition code_of (s : suite) : Z := match s with Ccmp128 => 8 | _ => 16 end.
Definition is_ccmp (s : suite) : bool := match s with Ccmp128 | Ccmp256 => true | _ => false end.
Definition keep_of (s : suite) : Z := if is_ccmp s then 0x87 else 0xc7.

(** Header, cipher text and code on the air. *)
Definition air_hdr (s : suite) (h : list Z) : list Z := if is_ccmp s then set_protected h else h.
Definition air_text (s : suite) (key h iv p : list Z) : list Z := if is_ccmp s then ccmp_text key h iv p else gcmp_text key h iv p.
Definition air_code (s : suite) (am : Z) (key h iv p : list Z) : list Z :=
  if is_ccmp s then ccmp_mic am key (code_of s) h iv p else gcmp_mic am key h iv (gcmp_text key h iv p).

(** A fragment in the transmit buffer: header, IV, text, room for the code. *)
Definition part_h (hdrlen : Z) (f : list Z) : list Z := take (Z.to_nat hdrlen) f.
Definition part_iv (hdrlen : Z) (f : list Z) : list Z := take 8 (drop (Z.to_nat hdrlen) f).
Definition part_text (hdrlen M : Z) (f : list Z) : list Z :=
  take (length f - Z.to_nat hdrlen - 8 - Z.to_nat M) (drop (Z.to_nat hdrlen + 8) f).

Record frag_good (hdrlen M : Z) (f : list Z) : Prop := {
  fg_bytes : bytes f; fg_hdr : hdr_ok (part_h hdrlen f); fg_hdrlen : 0 <= hdrlen; fg_len : hdrlen + 8 + M <= zlen f < 2 ^ 28 }.

Definition on_air (s : suite) (am : Z) (key : list Z) (hdrlen : Z) (f : list Z) : list Z :=
  let h := part_h hdrlen f in let iv := part_iv hdrlen f in let p := part_text hdrlen (code_of s) f in
  air_hdr s h ++ iv ++ air_text s key h iv p ++ air_code s am key h iv p.

(** ** Lemmas *)

Lemma frag_split hdrlen M f : frag_good hdrlen M f -> 0 <= M ->
  exists old, f = part_h hdrlen f ++ part_iv hdrlen f ++ part_text hdrlen M f ++ old /\ zlen old = M /\
    zlen (part_h hdrlen f) = hdrlen /\ length (part_iv hdrlen f) = 8%nat /\ bytes (part_iv hdrlen f) /\ bytes (part_text hdrlen M f) /\
    zlen (part_text hdrlen M f) = zlen f - hdrlen - 8 - M.
Proof.
  intros [Hb _ H0 Hl] HM. unfold part_h, part_iv, part_text. set (k := Z.to_nat hdrlen). set (n := (length f - k - 8 - Z.to_nat M)%nat).
  assert (Hk : hdrlen = Z.of_nat k) by lia. exists (drop n (drop (k + 8) f)). unfold zlen in *. split.
  - rewrite <- (drop_drop f 8 k), !take_drop. done.
  - rewrite !length_drop, !length_take, !length_drop. split; [unfold n; lia|]. split; [lia|]. split; [lia|].
    split; [apply Forall_take, Forall_drop, Hb|]. split; [apply Forall_take, Forall_drop, Hb | unfold n; lia].
Qed.

Section Suites.
  Context (os_malloc : Z -> option (list Z)) (am : Z) (Hmem : mem_ready os_malloc).

Definition ops_of (s : suite) : frame_cipher := if is_ccmp s then ccmp_ops os_malloc true am else gcmp_ops os_malloc true am.

Lemma ops_values s : ((encrypt_of s =? fc_short (ops_of s)) || (encrypt_of s =? fc_long (ops_of s))) = true /\
  (if encrypt_of s =? fc_long (ops_of s) then 32 else 16) = Z.of_nat (key_of s).
Proof. destruct s; done. Qed.

Lemma suite_key s key : bytes key -> length key = key_of s -> aes_key key /\ (is_ccmp s = true -> ccmp_key key (code_of s)) /\ 0 <= code_of s <= 16.
Proof. intros Hb Hl. destruct s; cbn in *; (split; [split; auto|]; split; [intros; split; auto; try discriminate | lia]). Qed.

Lemma suite_encrypt_spec s key krest h iv p old post : bytes key -> length key = key_of s -> hdr_ok h -> bytes iv -> length iv = 8%nat -> bytes p ->
  zlen p < 2 ^ 28 -> zlen old = code_of s ->
  fc_encrypt (ops_of s) (key ++ krest) (zlen key) (zlen h) (h ++ iv ++ p ++ old ++ post) (zlen p) =
    Ok (SUCCESS, air_hdr s h ++ iv ++ air_text s key h iv p ++ air_code s am key h iv p ++ post).
Proof.
  intros Hb Hl Hh Hbiv Hiv Hp Hlp Ho. destruct (suite_key s key Hb Hl) as (Hk & HK & _).
  unfold ops_of, air_hdr, air_text, air_code. destruct (is_ccmp s) eqn:E; cbn [fc_encrypt ccmp_ops gcmp_ops].
  - apply rtw_ccmp_encrypt_spec; auto. lia.
  - apply rtw_gcmp_encrypt_spec; auto. rewrite Ho. destruct s; done.
Qed.

Lemma suite_decrypt_spec s key krest h iv p h2 u post : bytes key -> length key = key_of s -> hdr_ok h -> bytes iv -> length iv = 8%nat -> bytes p ->
  zlen p < 2 ^ 28 -> hdr_ok h2 -> masked am (keep_of s) h2 = masked am (keep_of s) h -> bytes u -> zlen u = code_of s ->
  fc_decrypt (ops_of s) (key ++ krest) (zlen key) (zlen h2) (h2 ++ iv ++ air_text s key h iv p ++ u ++ post)
    (zlen (h2 ++ iv ++ air_text s key h iv p ++ u)) =
    Ok (if bool_decide (u = air_code s am key h iv p) then (SUCCESS, h2 ++ iv ++ p ++ u ++ post)
        else (FAIL, h2 ++ iv ++ air_text s key h iv p ++ u ++ post)).
Proof.
  intros Hb Hl Hh Hbiv Hiv Hp Hlp Hh2 Em Hu Zu. destruct (suite_key s key Hb Hl) as (Hk & HK & _).
  unfold ops_of, air_text, air_code, keep_of in *. destruct (is_ccmp s) eqn:E; cbn [fc_decrypt ccmp_ops gcmp_ops].
  - pose proof (HK eq_refl) as HK'. pose proof (ccmp_text_zlen key _ h iv p HK' Hh Hbiv) as Zc.
    rewrite (rtw_ccmp_decrypt_spec os_malloc am Hmem key krest (code_of s)) by (done || (apply (ccmp_text_bytes key (code_of s)); done) || lia).
    destruct (ccmp_same_masked am key (code_of s) h2 h iv (ccmp_text key h iv p) Hh2 Hh Em) as [Et _]. rewrite Et, (ccmp_text_twice key (code_of s)) by done.
    destruct (ccmp_same_masked am key (code_of s) h2 h iv p Hh2 Hh Em) as [_ Eu]. rewrite Eu. done.
  - assert (Hub : blk u) by (split; [done|]; destruct s; cbn in *; try discriminate; unfold zlen in Zu; lia).
    pose proof (gcmp_text_zlen key h iv p Hk Hh Hbiv) as Zc. destruct (gcmp_text_ok key h iv p Hk Hh Hbiv) as [Ep Bc].
    rewrite (rtw_gcmp_decrypt_spec os_malloc am Hmem) by (done || (apply Bc; done) || lia).
    destruct (gcmp_same_masked am key h2 h iv (gcmp_text key h iv p) Hh2 Hh Em) as [Et Eu]. rewrite Et, Eu, Ep. done.
Qed.

Lemma air_sizes s key h iv p : bytes key -> length key = key_of s -> hdr_ok h -> bytes iv -> bytes p ->
  hdr_ok (air_hdr s h) /\ length (air_hdr s h) = length h /\ masked am (keep_of s) (air_hdr s h) = masked am (keep_of s) h /\
  zlen (air_text s key h iv p) = zlen p /\ bytes (air_text s key h iv p) /\ zlen (air_code s am key h iv p) = code_of s.
Proof.
  intros Hb Hl Hh Hbiv Hp. destruct (suite_key s key Hb Hl) as (Hk & HK & _). unfold air_hdr, air_text, air_code, keep_of.
  destruct (is_ccmp s) eqn:E.
  - pose proof (HK eq_refl) as HK'. destruct (set_protected_ok h Hh) as (Hh' & Lh' & _). split; [done|]. split; [done|].
    split; [apply masked_set_protected; done|]. split; [apply (ccmp_text_zlen key (code_of s)); done|].
    split; [apply (ccmp_text_bytes key (code_of s)); done | apply ccmp_mic_zlen; done].
  - destruct (gcmp_text_ok key h iv p Hk Hh Hbiv) as [_ Bc]. split; [done|]. split; [done|]. split; [done|]. split; [apply gcmp_text_zlen; done|].
    split; [auto|]. rewrite (blk_zlen _ (gcmp_mic_blk am key h iv _ Hk Hh Hbiv)). destruct s; done.
Qed.

(** One turn of the loop over the fragments. *)
Lemma sw_fragment_spec s key krest at_ a f b st : bytes key -> length key = key_of s -> t_iv_len at_ = 8 -> t_icv_len at_ = code_of s ->
  frag_good (t_hdrlen at_) (code_of s) f ->
  sw_fragment (ops_of s) (key ++ krest) (zlen key) at_ (zlen a) (s32 (zlen f - t_hdrlen at_ - t_iv_len at_ - t_icv_len at_)) (a ++ f ++ b, st) =
    Ok (a ++ on_air s am key (t_hdrlen at_) f ++ b, tt).
Proof.
  intros Hb Hl Hi Hc Hf. destruct (suite_key s key Hb Hl) as (_ & _ & HM).
  destruct (frag_split _ _ f Hf ltac:(lia)) as (old & E & Zo & Zh & Liv & Biv & Bp & Zp). destruct Hf as [_ Hh H0 Hlf].
  unfold sw_fragment, on_air. cbv zeta. set (h := part_h _ f) in *. set (iv := part_iv _ f) in *. set (p := part_text _ _ f) in *.
  rewrite Hi, Hc, <- Zp. pose proof (zlen_nonneg p). assert (Zp28 : zlen p < 2 ^ 28) by lia.
  assert (S32 : s32 (zlen p) = zlen p) by (unfold s32; rewrite Z.mod_small by lia; lia). rewrite S32, u32_small by lia.
  replace (zlen (a ++ f ++ b) - zlen a) with (zlen (f ++ b)) by (rewrite (zlen_app a); lia).
  pose proof (rdn_app a (f ++ b) []) as R. rewrite app_nil_r in R. rewrite R. clear R. cbn [bind]. rewrite E, <- Zh, <- !app_assoc.
  rewrite suite_encrypt_spec by done. cbn [bind]. destruct (air_sizes s key h iv p Hb Hl Hh Biv Bp) as (_ & Lh' & _ & Zc & _ & Zu).
  set (h' := air_hdr s h) in *. set (c := air_text s key h iv p) in *. set (u := air_code s am key h iv p) in *.
  pose proof (wrn_app a (h ++ iv ++ p ++ old ++ b) [] (h' ++ iv ++ c ++ u ++ b)) as W. rewrite !app_nil_r in W.
  rewrite W by (unfold zlen in *; rewrite !length_app; lia). done.
Qed.

Lemma on_air_zlen s key hdrlen f : bytes key -> length key = key_of s -> frag_good hdrlen (code_of s) f -> zlen (on_air s am key hdrlen f) = zlen f.
Proof.
  intros Hb Hl Hf. destruct (suite_key s key Hb Hl) as (_ & _ & HM). destruct (frag_split _ _ f Hf ltac:(lia)) as (old & E & Zo & Zh & Liv & Biv & Bp & Zp).
  destruct Hf as [_ Hh _ _]. unfold on_air. cbv zeta. destruct (air_sizes s key _ (part_iv hdrlen f) (part_text hdrlen (code_of s) f) Hb Hl Hh Biv Bp) as (_ & Lh' & _ & Zc & _ & Zu).
  rewrite !zlen_app, Zc, Zu, Zp. unfold zlen in *. lia.
Qed.
End Suites.

(** ** Theorems *)

(** A transmit frame whose fragments are ready for the suite [s]. *)
Record sw_frames (s : suite) (x : xmit_frame) (at_ : pkt_attrib) (frag_len : Z) (pre m : list Z) (fs : list (list Z)) : Prop := {
  sf_buf : x_buf x = Some (pre ++ m);
  sf_offset : zlen pre = hw_hdr_offset x;
  sf_encrypt : t_encrypt at_ = encrypt_of s;
  sf_iv_len : t_iv_len at_ = 8;
  sf_icv_len : t_icv_len at_ = code_of s;
  sf_layout : laid_out (x_addr x) frag_len (zlen pre) fs m;
  sf_number : zlen fs = t_nr_frags at_;
  sf_last : forall fs' f, fs = fs' ++ [f] -> zlen f = t_last_txcmdsz at_;
  sf_good : Forall (frag_good (t_hdrlen at_) (code_of s)) fs }.

(** The receiver whose unicast key for the transmitter is [key] opens the fragment [f'] to the text of [f], under any
    header with the same protected bits, and no frame with another code. *)
Definition sw_opens (s : suite) (os_malloc : Z -> option (list Z)) (am : Z) (key : list Z) (hdrlen : Z) (f f' : list Z) : Prop :=
  zlen f' = zlen f /\
  forall now passing rat rsec g krest h2 u post,
    r_encrypt rat = encrypt_of s -> r_hdrlen rat = hdrlen -> IS_MCAST (r_ra rat) = false ->
    hdr_ok h2 -> zlen h2 = hdrlen -> masked am (keep_of s) h2 = masked am (keep_of s) (part_h hdrlen f') -> bytes u -> zlen u = code_of s ->
    exists c code, f' = part_h hdrlen f' ++ part_iv hdrlen f ++ c ++ code /\ zlen code = code_of s /\
      sw_decrypt (ops_of os_malloc am s) now passing (Some (key ++ krest)) (h2 ++ part_iv hdrlen f ++ c ++ u ++ post) (zlen f') rat rsec g =
        Ok (if bool_decide (u = code) then (SUCCESS, h2 ++ part_iv hdrlen f ++ part_text hdrlen (code_of s) f ++ u ++ post,
                                            count_sw (fc_dec_cnt (ops_of os_malloc am s)) (r_ra rat) rsec, g)
            else (FAIL, h2 ++ part_iv hdrlen f ++ c ++ u ++ post, count_sw (fc_dec_cnt (ops_of os_malloc am s)) (r_ra rat) rsec, g)).

Lemma on_air_opens s os_malloc am key hdrlen f : mem_ready os_malloc -> bytes key -> length key = key_of s -> frag_good hdrlen (code_of s) f ->
  sw_opens s os_malloc am key hdrlen f (on_air s am key hdrlen f).
Proof.
  intros Hmem Hb Hl Hf. pose proof (on_air_zlen am s key hdrlen f Hb Hl Hf) as Zf. split; [exact Zf|].
  intros now passing rat rsec g krest h2 u post He Hrh Hm Hh2 Zh2 Em Hu Zu. destruct (suite_key s key Hb Hl) as (_ & _ & HM).
  destruct (frag_split _ _ f Hf ltac:(lia)) as (old & E & Zo & Zh & Liv & Biv & Bp & Zp). destruct Hf as [_ Hh H0 Hlf].
  destruct (air_sizes am s key _ (part_iv hdrlen f) (part_text hdrlen (code_of s) f) Hb Hl Hh Biv Bp) as (Hh' & Lh' & Em' & Zc & _ & Zcode).
  set (h := part_h hdrlen f) in *. set (iv := part_iv hdrlen f) in *. set (p := part_text hdrlen (code_of s) f) in *.
  assert (Eh : part_h hdrlen (on_air s am key hdrlen f) = air_hdr s h).
  { unfold part_h at 1, on_air. cbv zeta. fold h iv p. apply take_app_length'. rewrite Lh'. unfold zlen in Zh. lia. }
  rewrite Eh in Em |- *. exists (air_text s key h iv p), (air_code s am key h iv p). split; [reflexivity|]. split; [exact Zcode|].
  destruct (ops_values os_malloc am s) as [Eo Ek]. unfold sw_decrypt. rewrite He, Hm, Eo, Ek. cbv zeta. rewrite Hrh, <- Zh2.
  replace (Z.of_nat (key_of s)) with (zlen key) by (unfold zlen; rewrite Hl; done).
  replace (zlen (on_air s am key (zlen h2) f)) with (zlen (h2 ++ iv ++ air_text s key h iv p ++ u)).
  2: { rewrite Zh2, Zf, !zlen_app, Zc, Zp, Zu. unfold zlen in *. lia. }
  rewrite (suite_decrypt_spec os_malloc am Hmem s key krest h iv p h2 u post) by (done || lia || (rewrite Em; exact Em')).
  destruct (bool_decide _); done.
Qed.

(** C27: Software encryption of frames is undone by software decryption, for CCMP and GCMP with keys of 16 and 32 bytes.
    [rtw_aes_encrypt] (for GCMP [rtw_gcmp_encrypt]) encrypts every fragment of a unicast frame in its place; a receiver
    with the same key recovers each of them with [rtw_aes_decrypt] ([rtw_gcmp_decrypt]), also from a repetition whose
    header differs in unprotected bits, and rejects it when the code is another one. *)
Theorem sw_frames_roundtrip s os_malloc am x at_ frag_len pre m fs sec key krest :
  mem_ready os_malloc -> sw_frames s x at_ frag_len pre m fs -> IS_MCAST (t_ra at_) = false ->
  t_UncstKey at_ = key ++ krest -> bytes key -> length key = key_of s ->
  exists m' fs',
    sw_encrypt (ops_of os_malloc am s) x at_ frag_len sec =
      Ok (SUCCESS, Some (pre ++ m'), count_sw (fc_enc_cnt (ops_of os_malloc am s)) (t_ra at_) sec) /\
    laid_out (x_addr x) frag_len (zlen pre) fs' m' /\
    Forall2 (sw_opens s os_malloc am key (t_hdrlen at_)) fs fs'.
Proof.
  intros Hmem [Hbuf Hoff He Hi Hc HL Hn Hlast Hg] Hm Hk Hb Hl. destruct (ops_values os_malloc am s) as [Eo Ek].
  destruct (fragments_laid_out (x_addr x) frag_len at_ (sw_fragment (ops_of os_malloc am s) (key ++ krest) (zlen key) at_) tt
    (frag_good (t_hdrlen at_) (code_of s)) (on_air s am key (t_hdrlen at_)) tt) with (fs := fs) (a := pre) (m := m) as (m' & F & L'); try done.
  - intros e1 a f b _ Hf. apply (sw_fragment_spec os_malloc am Hmem); done.
  - intros f Hf. apply on_air_zlen; done.
  - exists m', (map (on_air s am key (t_hdrlen at_)) fs). split; [|split; [exact L'|]].
    + unfold sw_encrypt. rewrite Hbuf, He, Hm, Eo, Ek, Hk. cbn [bind]. cbv zeta.
      replace (Z.of_nat (key_of s)) with (zlen key) by (unfold zlen; rewrite Hl; done). rewrite <- Hoff, F. done.
    + apply (Forall2_map_r _ _ _ fs Hg). intros f Hf. apply on_air_opens; done.
Qed.

(** Without memory no routine encrypts. *)
Lemma no_memory_no_encryption s am key hdrlen f n :
  fc_encrypt (ops_of (fun _ => None) am s) key (Z.of_nat (key_of s)) hdrlen f n = Ok (FAIL, f).
Proof.
  destruct s; cbn [ops_of is_ccmp fc_encrypt ccmp_ops gcmp_ops key_of]; unfold _rtw_ccmp_encrypt, _rtw_gcmp_encrypt, ccmp_encrypt, ccmp_256_encrypt,
    ccmp_encrypt_with, gcmp_encrypt; cbn [Z.of_nat Pos.of_succ_nat Z.eqb Pos.eqb]; destruct (_ || _); reflexivity.
Qed.

Lemma fragments_untouched s am key at_ A frag_len mem : 0 <= frag_len -> forall n cur pframe, 0 <= pframe ->
  pframe + Z.of_nat n * (frag_len + 4) <= zlen mem ->
  each_fragment (sw_fragment (ops_of (fun _ => None) am s) key (Z.of_nat (key_of s)) at_) A frag_len at_ n cur pframe (mem, tt) = Ok (mem, tt).
Proof.
  intros Hf. induction n as [|n IH]; intros cur pframe Hp Hl; [done|]. cbn [each_fragment].
  assert (F : forall plen, sw_fragment (ops_of (fun _ => None) am s) key (Z.of_nat (key_of s)) at_ pframe plen (mem, tt) = Ok (mem, tt)).
  { intros plen. unfold sw_fragment. rewrite <- (take_drop (Z.to_nat pframe) mem). set (a := take _ mem). set (b := drop _ mem).
    assert (Za : pframe = zlen a) by (unfold a, zlen in *; rewrite length_take; nia).
    replace (zlen (a ++ b) - pframe) with (zlen b) by (rewrite zlen_app; lia). pose proof (rdn_app a b []) as R. rewrite app_nil_r in R.
    rewrite Za, R. cbn [bind]. rewrite no_memory_no_encryption. cbn [bind]. pose proof (wrn_app a b [] b eq_refl) as W. rewrite !app_nil_r in W.
    rewrite W. done. }
  pose proof (RND4_bounds (A + (pframe + frag_len))). destruct (cur + 1 =? t_nr_frags at_); rewrite F; cbn [bind]; apply IH; nia.
Qed.

(** A failure to encrypt is not reported. When no memory can be had - then no routine encrypts anything - the driver
    still returns [_SUCCESS] for a unicast frame, counts it as encrypted, and leaves its text as it was in the buffer
    that is transmitted. *)
Theorem sw_encrypt_failure_unnoticed s am x at_ frag_len sec mem :
  x_buf x = Some mem -> t_encrypt at_ = encrypt_of s -> IS_MCAST (t_ra at_) = false ->
  0 <= t_nr_frags at_ -> 0 <= frag_len -> 0 <= hw_hdr_offset x ->
  hw_hdr_offset x + t_nr_frags at_ * (frag_len + 4) <= zlen mem ->
  sw_encrypt (ops_of (fun _ => None) am s) x at_ frag_len sec =
    Ok (SUCCESS, Some mem, count_sw (fc_enc_cnt (ops_of (fun _ => None) am s)) (t_ra at_) sec).
Proof.
  intros Hbuf He Hm Hn Hf Ho Hl. destruct (ops_values (fun _ => None) am s) as [Eo Ek]. unfold sw_encrypt. rewrite Hbuf, He, Hm, Eo, Ek.
  cbn [bind]. cbv zeta. unfold fragments. rewrite fragments_untouched by lia. done.
Qed.

(** A group frame is only opened with the group key in use. [rtw_aes_decrypt] and [rtw_gcmp_decrypt] accept a
    multicast frame under their ciphers only from a known station, when a group key is installed and when the key index of
    the frame is the index of the key that is in use; in every other case the frame and the counters stay as they are. *)
Theorem group_frames_need_current_key s os_malloc am now passing stainfo mem len at_ sec g r mem' sec' g' :
  r_encrypt at_ = encrypt_of s -> IS_MCAST (r_ra at_) = true ->
  sw_decrypt (ops_of os_malloc am s) now passing stainfo mem len at_ sec g = Ok (r, mem', sec', g') ->
  (stainfo <> None /\ binstallGrpkey sec = true /\ dot118021XGrpKeyid sec = r_key_index at_ /\
    exists key, rd (dot118021XGrpKey sec) (dot118021XGrpKeyid sec) = Ok key /\
      fc_decrypt (ops_of os_malloc am s) key (Z.of_nat (key_of s)) (r_hdrlen at_) mem len = Ok (r, mem')) \/
  (r = FAIL /\ mem' = mem /\ sec' = sec).
Proof.
  intros He Hm. destruct (ops_values os_malloc am s) as [Eo Ek]. unfold sw_decrypt. rewrite He, Hm, Eo, Ek. cbv zeta.
  destruct stainfo as [unicast|]; [|intros H; res_inv; right; done]. destruct (binstallGrpkey sec) eqn:EB; cbn [negb]; [|intros H; res_inv; right; done].
  destruct (rd (dot118021XGrpKey sec) (r_key_index at_)) as [key|] eqn:ER; cbn [bind]; [|discriminate].
  destruct (Z.eqb_spec (dot118021XGrpKeyid sec) (r_key_index at_)) as [EI|EI]; cbn [negb]; [|intros H; res_inv; right; done].
  destruct (fc_decrypt _ _ _ _ _ _) as [[r0 m0]|] eqn:ED; cbn [bind]; [|discriminate]. intros H. injection H as <- <- _ _.
  left. split; [discriminate|]. split; [done|]. split; [done|]. exists key. rewrite EI. done.
Qed.

(** ** Witnesses *)

Definition ex_sw_frag : list Z := ex_hdr ++ ex_iv8 ++ [72; 105; 33] ++ zeros 8.
Definition ex_sw_tx : pkt_attrib := mkTx AES 26 8 8 1 45 (zeros 6) (zeros 6) ex_key32.
Definition ex_sw_x : xmit_frame := mkXmit (Some (zeros 40 ++ ex_sw_frag ++ [0])) 0 0.
Definition ex_sw_sec : security_priv :=
  let z := mkCnt 0 0 0 in mkSec AES 0 (replicate 6 (zeros 32)) (zeros 6) 0 1 (replicate 6 (zeros 32)) true false 0 z z z z z z z z.

Lemma ex_sw_frames : sw_frames Ccmp128 ex_sw_x ex_sw_tx 2342 (zeros 40) (ex_sw_frag ++ [0]) [ex_sw_frag].
Proof.
  constructor; try reflexivity.
  - exists [0]. reflexivity.
  - intros fs' f E. destruct fs' as [|a [|]]; try discriminate E. injection E as <-. reflexivity.
  - apply List.Forall_cons; [|apply List.Forall_nil]. constructor.
    + apply bytes_by_compute. vm_compute. reflexivity.
    + exact (proj1 ex_hdr_ok).
    + vm_compute. discriminate.
    + vm_compute. split; [discriminate | reflexivity].
Qed.

Lemma sw_frames_roundtrip_witness :
  exists m' fs', sw_encrypt (ops_of ex_malloc 0 Ccmp128) ex_sw_x ex_sw_tx 2342 ex_sw_sec =
      Ok (SUCCESS, Some (zeros 40 ++ m'), count_sw AesEnc (zeros 6) ex_sw_sec) /\
    laid_out 0 2342 40 fs' m' /\ Forall2 (sw_opens Ccmp128 ex_malloc 0 (take 16 ex_key32) 26) [ex_sw_frag] fs'.
Proof.
  apply (sw_frames_roundtrip Ccmp128 ex_malloc 0 ex_sw_x ex_sw_tx 2342 (zeros 40) (ex_sw_frag ++ [0]) [ex_sw_frag] ex_sw_sec
    (take 16 ex_key32) (drop 16 ex_key32)).
  - exact ex_malloc_ready.
  - exact ex_sw_frames.
  - reflexivity.
  - vm_compute. reflexivity.
  - apply bytes_by_compute. vm_compute. reflexivity.
  - reflexivity.
Defined.

Lemma sw_encrypt_failure_unnoticed_witness :
  sw_encrypt (ops_of (fun _ => None) 0 Ccmp128) (mkXmit (Some (zeros 40 ++ ex_sw_frag ++ zeros 10)) 0 0) ex_sw_tx 10 ex_sw_sec =
    Ok (SUCCESS, Some (zeros 40 ++ ex_sw_frag ++ zeros 10), count_sw AesEnc (zeros 6) ex_sw_sec).
Proof.
  apply (sw_encrypt_failure_unnoticed Ccmp128 0 (mkXmit (Some (zeros 40 ++ ex_sw_frag ++ zeros 10)) 0 0) ex_sw_tx 10 ex_sw_sec);
    first [reflexivity | vm_compute; discriminate].
Defined.

(** The frame says key 2, the key in use is 1. *)
Lemma group_frames_need_current_key_witness :
  let at_ := mkRx AES 26 8 2 (zeros 6) (replicate 6 0xff) in
  (Some (zeros 32) <> None /\ true = true /\ 1 = 2 /\
    exists key, rd (dot118021XGrpKey ex_sw_sec) 1 = Ok key /\
      fc_decrypt (ops_of ex_malloc 0 Ccmp128) key 16 26 ex_sw_frag 45 = Ok (FAIL, ex_sw_frag)) \/
  (FAIL = FAIL /\ ex_sw_frag = ex_sw_frag /\ ex_sw_sec = ex_sw_sec).
Proof.
  apply (group_frames_need_current_key Ccmp128 ex_malloc 0 0 id (Some (zeros 32)) ex_sw_frag 45 (mkRx AES 26 8 2 (zeros 6) (replicate 6 0xff))
    ex_sw_sec (mkGk 0 0 0) FAIL ex_sw_frag ex_sw_sec (mkGk 0 0 0)); reflexivity.
Defined.
