(* ===== verification/Bip.v ===== *)
(** * Broadcast management frame protection

    Models [rtw_calculate_bip_mic] and [rtw_bip_verify] of [core/rtw_security.c] and [_bip_ccmp_protect] and
    [_bip_gcmp_protect] of [core/rtw_swcrypto.c]. The message authentication codes below them are an
    interface: a code is given out, or the computation fails. *)
From Stdlib Require Import ZArith Lia Bool Ascii String Sorted.
From stdpp Require Import base option list numbers.
From S2P Require Import Prelude Sec.
Local Open Scope Z_scope.

Definition BIP_CMAC_128 := 0x08.
Definition BIP_GMAC_128 := 0x09.
Definition BIP_CMAC_256 := 0x18.
Definition BIP_GMAC_256 := 0x19.
Definition MME_IE := 76.
Definition WLAN_HDR_A3_LEN := 24.
Definition BIP_AAD_SIZE := 20.
Definition RTW_RX_HANDLED := 2.

(** [omac1_aes_128], [omac1_aes_256] (key, data) and [aes_gmac] (key, nonce, data) of [core/crypto]: sixteen
    bytes, or an error. *)
Class MacPrims : Type := {
  omac1_aes_128 : list Z -> list Z -> option (list Z);
  omac1_aes_256 : list Z -> list Z -> option (list Z);
  aes_gmac : list Z -> list Z -> list Z -> option (list Z) }.

Class MacPrimsOk (P : MacPrims) : Prop := {
  omac_128_len k d m : omac1_aes_128 k d = Some m -> length m = 16%nat;
  omac_256_len k d m : omac1_aes_256 k d = Some m -> length m = 16%nat;
  gmac_len k n d m : aes_gmac k n d = Some m -> length m = 16%nat }.

(* src: core/rtw_security.c:54-68 security_type_bip_to_gmcs *)
Definition security_type_bip_to_gmcs (t : Z) : Z :=
  if t =? BIP_CMAC_128 then BIT 8
  else if t =? BIP_GMAC_128 then BIT 9
  else if t =? BIP_GMAC_256 then BIT 10
  else if t =? BIP_CMAC_256 then BIT 11
  else 0.

Section Bip.
  Context `{P : MacPrims}.

(* src: core/rtw_swcrypto.c:196-217 _bip_ccmp_protect *)
Definition bip_ccmp_protect (key : list Z) (key_len : Z) (data : list Z) : res (option (list Z)) :=
  k <- rdn key 0 (if key_len =? 16 then 16 else if key_len =? 32 then 32 else 0) ;;
  Ok (if key_len =? 16 then omac1_aes_128 k data
      else if key_len =? 32 then omac1_aes_256 k data else None).

(** The nonce: transmitter, then the packet number in front of the MIC, highest byte first. *)
(* src: core/rtw_swcrypto.c:220-248 _bip_gcmp_protect *)
Definition bip_gcmp_protect (mem : list Z) (len : Z) (key : list Z) (key_len : Z) (data : list Z)
    : res (option (list Z)) :=
  let gcmp_ipn := len - 16 - 6 in
  ta <- rdn mem 10 6 ;;
  ipn <- rdn mem gcmp_ipn 6 ;;
  k <- rdn key 0 key_len ;;
  Ok (aes_gmac k (ta ++ rev ipn) data).

(** [None]: [_FAIL]. *)
(* src: core/rtw_security.c:2733-2766 rtw_calculate_bip_mic *)
Definition rtw_calculate_bip_mic (gmcs : Z) (mem : list Z) (len : Z) (key data : list Z) : res (option (list Z)) :=
  if gmcs =? BIP_CMAC_128 then bip_ccmp_protect key 16 data
  else if gmcs =? BIP_CMAC_256 then bip_ccmp_protect key 32 data
  else if gmcs =? BIP_GMAC_128 then bip_gcmp_protect mem len key 16 data
  else if gmcs =? BIP_GMAC_256 then bip_gcmp_protect mem len key 32 data
  else Ok None.

(** [ClearRetry], [ClearPwrMgt], [ClearMData] on the little-endian frame control field. *)
(* src: core/rtw_security.c:2825-2827 rtw_bip_verify *)
Definition clear_bits (fc : list Z) : list Z :=
  match fc with
  | [b0; b1] => [b0; ((b1 & (~~ BIT 3)) & (~~ BIT 4)) & (~~ BIT 5)]
  | _ => fc
  end.

(** A little-endian number. *)
Definition le_num (l : list Z) : Z := fold_right (fun b v => b + 256 * v) 0 l.

(** [mem] are the bytes from [whdr_pos] on. [alloc] is whether [rtw_zmalloc] succeeds. *)
(* src: core/rtw_security.c:2769-2864 rtw_bip_verify *)
Definition rtw_bip_verify (alloc : bool) (gmcs pkt_len : Z) (mem : list Z) (flen : Z) (key : list Z)
    (keyid ipn : Z) : res (Z * Z) :=
  let mic_len := if gmcs =? BIP_CMAC_128 then 8 else 16 in
  if (flen <? WLAN_HDR_A3_LEN) || (flen - WLAN_HDR_A3_LEN <? mic_len) then Ok (RTW_RX_HANDLED, ipn) else
  let mme_offset := if mic_len =? 8 then 18 else 26 in
  let mme := flen - mme_offset in
  id <- rd mem mme ;;
  if negb (id =? MME_IE) then Ok (RTW_RX_HANDLED, ipn) else
  kid <- rdn mem (mme + 2) 2 ;;
  if negb (le_num kid =? keyid) then Ok (FAIL, ipn) else
  pn <- rdn mem (mme + 4) 6 ;;
  let pkt_ipn := le_num pn in
  if pkt_ipn <=? ipn then Ok (FAIL, ipn) else
  let ori_len := u32 (flen - WLAN_HDR_A3_LEN + BIP_AAD_SIZE) in
  if negb alloc then Ok (FAIL, ipn) else
  let aad := zeros (Z.to_nat ori_len) in
  body <- rdn mem WLAN_HDR_A3_LEN (flen - WLAN_HDR_A3_LEN - mic_len) ;;
  aad <- wrn aad BIP_AAD_SIZE body ;;
  fc <- rdn mem 0 2 ;;
  aad <- wrn aad 0 (clear_bits fc) ;;
  addrs <- rdn mem 4 18 ;;
  aad <- wrn aad 2 addrs ;;
  m <- rtw_calculate_bip_mic gmcs mem pkt_len key aad ;;
  match m with
  | None => Ok (FAIL, ipn)
  | Some mic =>
      got <- rdn mem (flen - mic_len) mic_len ;;
      want <- rdn mic 0 mic_len ;;
      if list_eqb want got then Ok (SUCCESS, pkt_ipn) else Ok (FAIL, ipn)
  end.

(** ** Specification *)

(** What a frame's parts say. *)
Definition bip_mic_len (gmcs : Z) : Z := if gmcs =? BIP_CMAC_128 then 8 else 16.
Definition bip_mme (gmcs : Z) (l : list Z) : Z := zlen l - (if gmcs =? BIP_CMAC_128 then 18 else 26).
Definition part (l : list Z) (i n : Z) : list Z := take (Z.to_nat n) (drop (Z.to_nat i) l).
Definition bip_keyid (gmcs : Z) (l : list Z) : Z := le_num (part l (bip_mme gmcs l + 2) 2).
Definition bip_ipn (gmcs : Z) (l : list Z) : Z := le_num (part l (bip_mme gmcs l + 4) 6).

(** What the code authenticates: the header without the bits that change on the way, the body, zeros for the MIC. *)
Definition bip_aad (gmcs : Z) (l : list Z) : list Z :=
  clear_bits (part l 0 2) ++ part l 4 18 ++ part l 24 (zlen l - 24 - bip_mic_len gmcs) ++
  zeros (Z.to_nat (bip_mic_len gmcs)).

(** The code of a frame under a key; [None] when it cannot be computed. *)
Definition bip_code (gmcs : Z) (l key : list Z) : option (list Z) :=
  let nonce := part l 10 6 ++ rev (part l (zlen l - 22) 6) in
  let m := if gmcs =? BIP_CMAC_128 then omac1_aes_128 (part key 0 16) (bip_aad gmcs l)
           else if gmcs =? BIP_CMAC_256 then omac1_aes_256 (part key 0 32) (bip_aad gmcs l)
           else if gmcs =? BIP_GMAC_128 then aes_gmac (part key 0 16) nonce (bip_aad gmcs l)
           else if gmcs =? BIP_GMAC_256 then aes_gmac (part key 0 32) nonce (bip_aad gmcs l)
           else None in
  take (Z.to_nat (bip_mic_len gmcs)) <$> m.

Definition bip_valid (gmcs : Z) (l key : list Z) (keyid ipn : Z) : Prop :=
  24 + bip_mic_len gmcs <= zlen l /\ l !! Z.to_nat (bip_mme gmcs l) = Some MME_IE /\
  bip_keyid gmcs l = keyid /\ ipn < bip_ipn gmcs l /\
  bip_code gmcs l key = Some (part l (zlen l - bip_mic_len gmcs) (bip_mic_len gmcs)).

(** ** Lemmas *)

Lemma rdn_part_front l post i n :
  0 <= i -> 0 <= n -> i + n <= zlen l -> rdn (l ++ post) i n = Ok (part l i n).
Proof.
  intros Hi Hn Hl. pose proof (zlen_nonneg post). rewrite rdn_in by (rewrite ?zlen_app; lia). f_equal. unfold part.
  rewrite drop_app_le by (unfold zlen in *; lia). apply take_app_le. rewrite length_drop. unfold zlen in *. lia.
Qed.

Lemma part_zlen l i n : 0 <= i -> 0 <= n -> i + n <= zlen l -> zlen (part l i n) = n.
Proof. intros. unfold part, zlen in *. rewrite length_take, length_drop. lia. Qed.

Lemma rdn_key k n : 0 <= n <= zlen k -> rdn k 0 n = Ok (part k 0 n).
Proof. intros H. rewrite <- (app_nil_r k) at 1. apply rdn_part_front; lia. Qed.

Lemma clear_bits_length fc : length (clear_bits fc) = length fc.
Proof. destruct fc as [|? [|? [|]]]; done. Qed.

(** The buffer the code fills is the specified one. *)
Lemma aad_built (fc addrs body : list Z) n k :
  zlen fc = 2 -> zlen addrs = 18 -> n = (20 + length body + k)%nat ->
  (aad <- wrn (zeros n) 20 body ;; aad <- wrn aad 0 (clear_bits fc) ;; wrn aad 2 addrs) =
    Ok (clear_bits fc ++ addrs ++ body ++ zeros k).
Proof.
  intros Hf Ha ->. unfold zeros. rewrite !replicate_add. rewrite <- app_assoc.
  fold (zeros 20) (zeros (length body)) (zeros k).
  pose proof (wrn_app (zeros 20) (zeros (length body)) (zeros k) body) as H1. rewrite (zlen_zeros 20) in H1.
  change (Z.of_nat 20) with 20 in H1. rewrite H1 by (rewrite zlen_zeros; done). cbn [bind].
  change (zeros 20) with (zeros 2 ++ zeros 18). rewrite <- (app_assoc (zeros 2)).
  assert (Hc : zlen (clear_bits fc) = 2) by (unfold zlen in *; rewrite clear_bits_length; done).
  pose proof (wrn_app [] (zeros 2) (zeros 18 ++ body ++ zeros k) (clear_bits fc)) as H2.
  rewrite !app_nil_l, zlen_nil in H2. rewrite H2 by (rewrite zlen_zeros; lia). cbn [bind].
  pose proof (wrn_app (clear_bits fc) (zeros 18) (body ++ zeros k) addrs) as H3. rewrite Hc in H3.
  apply H3. rewrite zlen_zeros. lia.
Qed.

Context `{!MacPrimsOk P}.

Lemma calculate_spec gmcs l post key :
  24 + bip_mic_len gmcs <= zlen l -> zlen key = 32 ->
  exists m, rtw_calculate_bip_mic gmcs (l ++ post) (zlen l) key (bip_aad gmcs l) = Ok m /\
    bip_code gmcs l key = (take (Z.to_nat (bip_mic_len gmcs)) <$> m) /\
    (forall mic, m = Some mic -> length mic = 16%nat).
Proof.
  intros Hl Hk. unfold rtw_calculate_bip_mic, bip_code.
  assert (H22 : bip_mic_len gmcs = 16 -> 40 <= zlen l) by lia. unfold bip_mic_len in *.
  destruct (gmcs =? BIP_CMAC_128) eqn:E1.
  { unfold bip_ccmp_protect. rewrite rdn_key by (rewrite Hk; cbn; lia). cbn [bind]. eexists.
    split; [done|]. split; [done|]. apply omac_128_len. }
  specialize (H22 eq_refl).
  destruct (gmcs =? BIP_CMAC_256).
  { unfold bip_ccmp_protect. rewrite rdn_key by (rewrite Hk; cbn; lia). cbn [bind]. eexists.
    split; [done|]. split; [done|]. apply omac_256_len. }
  assert (HG : forall n, n = 16 \/ n = 32 -> forall data,
    bip_gcmp_protect (l ++ post) (zlen l) key n data =
      Ok (aes_gmac (part key 0 n) (part l 10 6 ++ rev (part l (zlen l - 22) 6)) data)).
  { intros n Hn data. unfold bip_gcmp_protect. rewrite rdn_part_front by lia. cbn [bind].
    replace (zlen l - 16 - 6) with (zlen l - 22) by lia. rewrite rdn_part_front by lia. cbn [bind].
    rewrite rdn_key by lia. done. }
  destruct (gmcs =? BIP_GMAC_128); [|destruct (gmcs =? BIP_GMAC_256)].
  - rewrite HG by lia. eexists. split; [done|]. split; [done|]. apply gmac_len.
  - rewrite HG by lia. eexists. split; [done|]. split; [done|]. apply gmac_len.
  - exists None. done.
Qed.

Lemma part_lookup (l : list Z) i : 0 <= i < zlen l -> exists v, rd l i = Ok v /\ l !! Z.to_nat i = Some v.
Proof. intros H. destruct (rd_in l i H) as [v Hv]. exists v. split; [done|]. apply rd_Ok in Hv as [_ Hv]. done. Qed.

(** The last step: code computed and compared. *)
Definition mic_verdict (gmcs : Z) (l key : list Z) (ipn : Z) : Z * Z :=
  if decide (bip_code gmcs l key = Some (part l (zlen l - bip_mic_len gmcs) (bip_mic_len gmcs)))
  then (SUCCESS, bip_ipn gmcs l) else (FAIL, ipn).

Lemma verdict_spec gmcs l post key ipn m :
  24 + bip_mic_len gmcs <= zlen l -> bip_code gmcs l key = (take (Z.to_nat (bip_mic_len gmcs)) <$> m) ->
  (forall mic, m = Some mic -> length mic = 16%nat) ->
  match m with
  | None => Ok (FAIL, ipn)
  | Some mic =>
      got <- rdn (l ++ post) (zlen l - bip_mic_len gmcs) (bip_mic_len gmcs) ;;
      want <- rdn mic 0 (bip_mic_len gmcs) ;;
      if list_eqb want got then Ok (SUCCESS, bip_ipn gmcs l) else Ok (FAIL, ipn)
  end = Ok (mic_verdict gmcs l key ipn).
Proof.
  intros Hl Hc Hm. unfold mic_verdict. rewrite Hc.
  assert (Hml : bip_mic_len gmcs = 8 \/ bip_mic_len gmcs = 16) by (unfold bip_mic_len; case_match; auto).
  destruct m as [mic|]; cbn [fmap option_fmap option_map].
  - pose proof (Hm mic eq_refl) as H16. rewrite rdn_part_front by lia. cbn [bind].
    rewrite rdn_key by (unfold zlen; lia). cbn [bind]. unfold list_eqb. case_bool_decide as E.
    + rewrite decide_True; [done|]. rewrite <- E. done.
    + rewrite decide_False; [done|]. intros [= F]. apply E. rewrite <- F. done.
  - rewrite decide_False by done. done.
Qed.

(** Every step before it. *)
Lemma bip_verify_cases alloc gmcs l post key keyid ipn :
  zlen key = 32 -> zlen l < 2 ^ 31 ->
  rtw_bip_verify alloc gmcs (zlen l) (l ++ post) (zlen l) key keyid ipn =
    Ok (if decide (24 + bip_mic_len gmcs <= zlen l) then
          if decide (l !! Z.to_nat (bip_mme gmcs l) = Some MME_IE) then
            if decide (bip_keyid gmcs l = keyid) then
              if decide (ipn < bip_ipn gmcs l) then
                if alloc then mic_verdict gmcs l key ipn else (FAIL, ipn)
              else (FAIL, ipn)
            else (FAIL, ipn)
          else (RTW_RX_HANDLED, ipn)
        else (RTW_RX_HANDLED, ipn)).
Proof.
  intros Hk Hmax. unfold rtw_bip_verify. fold (bip_mic_len gmcs).
  set (ml := bip_mic_len gmcs). assert (Hml : ml = 8 \/ ml = 16) by (unfold ml, bip_mic_len; case_match; auto).
  assert (Hoff : zlen l - (if ml =? 8 then 18 else 26) = bip_mme gmcs l).
  { unfold ml, bip_mic_len, bip_mme. destruct (gmcs =? BIP_CMAC_128); done. }
  rewrite Hoff. set (mme := bip_mme gmcs l) in *. unfold WLAN_HDR_A3_LEN.
  destruct (decide (24 + ml <= zlen l)) as [E0|E0].
  2:{ replace (_ || _) with true by lia. done. }
  replace (_ || _) with false by lia.
  assert (Hm0 : 0 <= mme /\ mme + 10 <= zlen l) by (destruct Hml as [E|E]; rewrite E in Hoff, E0; cbn in Hoff; lia).
  destruct (part_lookup l mme) as (id & Hid & Hl0); [lia|].
  rewrite rd_app_l, Hid, Hl0 by lia. cbn [bind].
  destruct (Z.eqb_spec id MME_IE) as [->|Hne]; cbn [negb]; [rewrite decide_True by done | rewrite decide_False by congruence; done].
  rewrite rdn_part_front by lia. cbn [bind]. change (le_num (part l (mme + 2) 2)) with (bip_keyid gmcs l).
  destruct (Z.eqb_spec (bip_keyid gmcs l) keyid); cbn [negb]; [rewrite decide_True by done | rewrite decide_False by done; done].
  rewrite rdn_part_front by lia. cbn [bind]. change (le_num (part l (mme + 4) 6)) with (bip_ipn gmcs l).
  destruct (Z.leb_spec (bip_ipn gmcs l) ipn); [rewrite decide_False by lia; done | rewrite decide_True by lia].
  destruct alloc; cbn [negb]; [|done].
  rewrite rdn_part_front by lia. cbn [bind]. unfold BIP_AAD_SIZE. rewrite u32_small by lia.
  assert (HB : zlen (part l 24 (zlen l - 24 - ml)) = zlen l - 24 - ml) by (apply part_zlen; lia).
  pose proof (aad_built (part l 0 2) (part l 4 18) (part l 24 (zlen l - 24 - ml)) (Z.to_nat (zlen l - 24 + 20))
    (Z.to_nat ml)) as HA.
  destruct (wrn (zeros _) 20 _) as [a1|]; cbn [bind] in HA |- *;
    [|discriminate HA; [apply part_zlen; lia | apply part_zlen; lia | unfold zlen in *; lia]].
  rewrite rdn_part_front by lia. cbn [bind].
  destruct (wrn a1 0 _) as [a2|]; cbn [bind] in HA |- *;
    [|discriminate HA; [apply part_zlen; lia | apply part_zlen; lia | unfold zlen in *; lia]].
  rewrite rdn_part_front by lia. cbn [bind].
  rewrite HA; [|apply part_zlen; lia | apply part_zlen; lia | unfold zlen in *; lia]. cbn [bind].
  change (clear_bits (part l 0 2) ++ part l 4 18 ++ part l 24 (zlen l - 24 - ml) ++ zeros (Z.to_nat ml)) with (bip_aad gmcs l).
  destruct (calculate_spec gmcs l post key E0 Hk) as (m & -> & Hc & Hm). cbn [bind].
  apply (verdict_spec gmcs l post key ipn m E0 Hc Hm).
Qed.

Lemma verdict_cases gmcs l key ipn : 
  (bip_code gmcs l key = Some (part l (zlen l - bip_mic_len gmcs) (bip_mic_len gmcs)) /\
    mic_verdict gmcs l key ipn = (SUCCESS, bip_ipn gmcs l)) \/
  (bip_code gmcs l key <> Some (part l (zlen l - bip_mic_len gmcs) (bip_mic_len gmcs)) /\
    mic_verdict gmcs l key ipn = (FAIL, ipn)).
Proof. unfold mic_verdict. destruct (decide _); auto. Qed.

Lemma bip_verify_dichotomy alloc gmcs l post key keyid ipn :
  zlen key = 32 -> zlen l < 2 ^ 31 ->
  (alloc = true /\ bip_valid gmcs l key keyid ipn /\
    rtw_bip_verify alloc gmcs (zlen l) (l ++ post) (zlen l) key keyid ipn = Ok (SUCCESS, bip_ipn gmcs l)) \/
  (~ (alloc = true /\ bip_valid gmcs l key keyid ipn) /\
    exists r, r <> SUCCESS /\ rtw_bip_verify alloc gmcs (zlen l) (l ++ post) (zlen l) key keyid ipn = Ok (r, ipn)).
Proof.
  intros Hk Hmax. rewrite bip_verify_cases by done. unfold bip_valid.
  destruct (decide (24 + _ <= _)); [|right; split; [tauto | exists RTW_RX_HANDLED; done]].
  destruct (decide (l !! _ = _)); [|right; split; [tauto | exists RTW_RX_HANDLED; done]].
  destruct (decide (bip_keyid gmcs l = keyid)); [|right; split; [tauto | exists FAIL; done]].
  destruct (decide (ipn < bip_ipn gmcs l)); [|right; split; [tauto | exists FAIL; done]].
  destruct alloc; [|right; split; [intros [[=] _] | exists FAIL; done]].
  destruct (verdict_cases gmcs l key ipn) as [[H ->]|[H ->]]; [left; done|].
  right. split; [tauto | exists FAIL; done].
Qed.

(** The receiver over a sequence of frames; [alloc i] is whether memory is there for the [i]th. It gives out the
    packet numbers of the frames it accepts. *)
Fixpoint bip_run (alloc : nat -> bool) (gmcs : Z) (key : list Z) (keyid : Z) (fs : list (list Z)) (ipn : Z)
    : res (list Z * Z) :=
  match fs with
  | [] => Ok ([], ipn)
  | l :: fs =>
      '(r, ipn') <- rtw_bip_verify (alloc (length fs)) gmcs (zlen l) l (zlen l) key keyid ipn ;;
      '(acc, last) <- bip_run alloc gmcs key keyid fs ipn' ;;
      Ok (if r =? SUCCESS then bip_ipn gmcs l :: acc else acc, last)
  end.

(** ** Theorems *)

(** A broadcast management frame of any content and length is judged without leaving it; it is accepted exactly
    when it is long enough for header, element and code, carries a MIC element with the installed key's number, a
    packet number above the last one accepted, and the code of its masked header and body; only then the last
    number moves, to the frame's. *)
Theorem bip_accepts_iff alloc gmcs l post key keyid ipn :
  zlen key = 32 -> zlen l < 2 ^ 31 ->
  exists r ipn', rtw_bip_verify alloc gmcs (zlen l) (l ++ post) (zlen l) key keyid ipn = Ok (r, ipn') /\
    (r = SUCCESS <-> alloc = true /\ bip_valid gmcs l key keyid ipn) /\
    (ipn' = if r =? SUCCESS then bip_ipn gmcs l else ipn).
Proof.
  intros Hk Hmax. destruct (bip_verify_dichotomy alloc gmcs l post key keyid ipn Hk Hmax)
    as [(Ha & Hv & ->)|(Hn & r & Hr & ->)].
  - exists SUCCESS, (bip_ipn gmcs l). done.
  - exists r, ipn. split; [done|]. rewrite (proj2 (Z.eqb_neq _ _) Hr). tauto.
Qed.

(** C34: replay protection: whatever frames arrive in whatever order, the packet numbers of those accepted increase
    strictly, so no frame is accepted twice. *)
Theorem bip_never_replays alloc gmcs key keyid fs : forall ipn,
  zlen key = 32 -> Forall (fun l => zlen l < 2 ^ 31) fs ->
  exists acc last, bip_run alloc gmcs key keyid fs ipn = Ok (acc, last) /\ StronglySorted Z.lt (ipn :: acc).
Proof.
  induction fs as [|l fs IH]; intros ipn Hk Hf.
  - exists [], ipn. split; [done|]. repeat constructor.
  - apply Forall_cons_1 in Hf as [Hl Hf]. cbn [bip_run]. pose proof (bip_verify_dichotomy (alloc (length fs)) gmcs l [] key
      keyid ipn Hk Hl) as HD. rewrite app_nil_r in HD.
    destruct HD as [(_ & (_ & _ & _ & Hlt & _) & ->)|(_ & r & Hr & ->)]; cbn [bind].
    + destruct (IH (bip_ipn gmcs l) Hk Hf) as (acc & last & -> & HS). cbn [bind]. rewrite Z.eqb_refl.
      do 2 eexists. split; [done|]. constructor; [done|]. constructor; [done|].
      apply StronglySorted_inv in HS as [_ HS]. eapply List.Forall_impl; [|exact HS]. cbn. lia.
    + destruct (IH ipn Hk Hf) as (acc & last & -> & HS). cbn [bind]. rewrite (proj2 (Z.eqb_neq _ _) Hr).
      do 2 eexists. done.
Qed.
End Bip.

(** A toy code for the witnesses: the sum of the data. *)
Definition toy_mac (d : list Z) : option (list Z) := Some (u8 (fold_right Z.add 0 d) :: zeros 15).
#[export] Instance toy_prims : MacPrims := {|
  omac1_aes_128 := fun _ d => toy_mac d; omac1_aes_256 := fun _ d => toy_mac d; aes_gmac := fun _ _ d => toy_mac d |}.
#[export] Instance toy_prims_ok : MacPrimsOk toy_prims.
Proof. constructor; intros; (match goal with H : _ = Some _ |- _ => injection H as <- end); done. Qed.

(** A deauthentication frame: packet number 7, key 4. *)
Definition ex_deauth : list Z :=
  [0xc0; 8] ++ zeros 22 ++ [3; 0] ++ [76; 16; 4; 0; 7; 0; 0; 0; 0; 0] ++ [42; 0; 0; 0; 0; 0; 0; 0].

Lemma bip_accepts_iff_witness :
  exists r ipn', rtw_bip_verify true BIP_CMAC_128 44 (ex_deauth ++ [1]) 44 (zeros 32) 4 6 = Ok (r, ipn') /\
    (r = SUCCESS <-> true = true /\ bip_valid BIP_CMAC_128 ex_deauth (zeros 32) 4 6) /\
    (ipn' = if r =? SUCCESS then bip_ipn BIP_CMAC_128 ex_deauth else 6).
Proof. apply (bip_accepts_iff true BIP_CMAC_128 ex_deauth [1] (zeros 32) 4 6); reflexivity. Defined.

Lemma bip_never_replays_witness :
  bip_run (fun _ => true) BIP_CMAC_128 (zeros 32) 4 [ex_deauth; ex_deauth] 6 = Ok ([7], 7) /\
  exists acc last, bip_run (fun _ => true) BIP_CMAC_128 (zeros 32) 4 [ex_deauth; ex_deauth] 6 = Ok (acc, last) /\
    StronglySorted Z.lt (6 :: acc).
Proof.
  split; [vm_compute; reflexivity|].
  apply (bip_never_replays (fun _ => true) BIP_CMAC_128 (zeros 32) 4 [ex_deauth; ex_deauth] 6);
    [reflexivity | repeat constructor].
Defined.
