(* ===== verification/BipAes.v ===== *)
(** * Broadcast management frames over AES

    Ties [Bip] to the codes of [core/crypto]: the interface [MacPrims] is implemented by the models of
    [omac1_aes_128], [omac1_aes_256] ([Omac]) and [aes_gmac] ([Gcm]), and the verification of a frame becomes a
    statement about AES-CMAC and AES-GMAC. *)
From Stdlib Require Import ZArith Lia Bool.
From stdpp Require Import base option list numbers.
From S2P Require Import Prelude Sec Arc4 Aes Modes Gf128 Omac Gcm Bip.
Local Open Scope Z_scope.

(** The code, or no code: an error return, or a fault (which [aes_code_ok] excludes). *)
Definition run_mac (r : res (option (list Z))) : option (list Z) := match r with Ok m => m | Fault _ => None end.

(** [alloc] is whether the allocation of the key schedule succeeds. *)
#[export] Instance aes_prims (alloc : bool) : MacPrims := {|
  Bip.omac1_aes_128 k d := run_mac (Omac.omac1_aes_128 alloc k d);
  Bip.omac1_aes_256 k d := run_mac (Omac.omac1_aes_256 alloc k d);
  Bip.aes_gmac k n d := run_mac (Gcm.aes_gmac alloc k (zlen k) n (zlen n) d (zlen d)) |}.

(** ** Specification *)

(** [mic] is the code that the standard prescribes for [data]. *)
Definition bip_standard (gmcs : Z) (key nonce data mic : list Z) : Prop :=
  if (gmcs =? BIP_CMAC_128) || (gmcs =? BIP_CMAC_256) then
    let E := aes_cipher (part key 0 (if gmcs =? BIP_CMAC_128 then 16 else 32)) in
    exists k1 k2, subkeys E k1 k2 /\ mic = cmac E k1 k2 data
  else
    let E := aes_cipher (part key 0 (if gmcs =? BIP_GMAC_128 then 16 else 32)) in mic = gcm_tag E nonce data [].

Definition bip_suite (gmcs : Z) : Prop :=
  gmcs = BIP_CMAC_128 \/ gmcs = BIP_CMAC_256 \/ gmcs = BIP_GMAC_128 \/ gmcs = BIP_GMAC_256.

(** Transmitter and packet number. *)
Definition bip_nonce (l : list Z) : list Z := part l 10 6 ++ rev (part l (zlen l - 22) 6).

(** ** Lemmas *)

Lemma part_bytes l i n : bytes l -> bytes (part l i n).
Proof. intros H. unfold part. apply Forall_take, Forall_drop, H. Qed.

Lemma part_key key n : bytes key -> zlen key = 32 -> n = 16 \/ n = 32 -> aes_key (part key 0 n) /\ zlen (part key 0 n) = n.
Proof.
  intros Hb Hl Hn. assert (HL : zlen (part key 0 n) = n) by (apply part_zlen; lia). split; [|exact HL].
  split; [apply part_bytes, Hb|]. unfold zlen in HL. lia.
Qed.

Lemma clear_bits_bytes fc : bytes fc -> bytes (clear_bits fc).
Proof.
  intros H. destruct fc as [|a [|b [|]]]; try done. apply Forall_cons_1 in H as [Ha H].
  apply Forall_cons_1 in H as [Hb _]. cbn [clear_bits]. apply List.Forall_cons; [exact Ha|].
  apply List.Forall_cons; [|apply List.Forall_nil]. do 3 apply land_byte. exact Hb.
Qed.

Lemma bip_aad_bytes gmcs l : bytes l -> bytes (bip_aad gmcs l).
Proof.
  intros H. unfold bip_aad. repeat apply Forall_app_2;
    [apply clear_bits_bytes, part_bytes, H | apply part_bytes, H | apply part_bytes, H | apply Forall_replicate; unfold is_byte; lia].
Qed.

Lemma bip_aad_zlen gmcs l : 24 + bip_mic_len gmcs <= zlen l -> zlen (bip_aad gmcs l) = zlen l - 4.
Proof.
  intros H. assert (Hm : bip_mic_len gmcs = 8 \/ bip_mic_len gmcs = 16) by (unfold bip_mic_len; case_match; auto).
  unfold bip_aad. rewrite (zlen_app (clear_bits _)), (zlen_app (part _ _ _)), (zlen_app (part _ _ _)), zlen_zeros.
  replace (zlen (clear_bits (part l 0 2))) with 2.
  - rewrite !part_zlen by lia. lia.
  - symmetry. pose proof (part_zlen l 0 2 ltac:(lia) ltac:(lia) ltac:(lia)) as F. unfold zlen in *.
    rewrite clear_bits_length. exact F.
Qed.

Lemma cmac_prim key d : bytes d -> aes_key key ->
  exists k1 k2, subkeys (aes_cipher key) k1 k2 /\
    omac1_aes_vector true key (zlen key) [d] = Ok (Some (cmac (aes_cipher key) k1 k2 d)).
Proof.
  intros Hd Hk. destruct (omac_spec key [d]) as (k1 & k2 & HS & F).
  - split; [apply List.Forall_cons; [exact Hd | apply List.Forall_nil]|]. split; [discriminate | right; done].
  - exact Hk.
  - exists k1, k2. split; [exact HS|]. rewrite F. cbn [concat]. rewrite app_nil_r. done.
Qed.

Lemma gmac_prim key n d : aes_key key -> bytes n -> length n = 12%nat -> bytes d -> short d ->
  Gcm.aes_gmac true key (zlen key) n (zlen n) d (zlen d) = Ok (Some (gcm_tag (aes_cipher key) n d [])).
Proof.
  intros Hk Hn Ln Hd Sd. unfold Gcm.aes_gmac.
  pose proof (aes_gcm_ae_spec key [] n d [] [] [] [] [] (zeros 16) []) as F. cbv zeta in F. rewrite !app_nil_r in F. cbn [app] in F.
  change (gcm_crypt (aes_cipher key) n []) with (@nil Z) in F. rewrite !zlen_nil in F. apply F; [|done]. split; try done; try apply List.Forall_nil. unfold short, zlen. rewrite Ln. done.
Qed.

Lemma subkeys_unique E j1 j2 k1 k2 : subkeys E j1 j2 -> subkeys E k1 k2 -> j1 = k1 /\ j2 = k2.
Proof.
  intros (A1 & A2 & A3 & A4) (B1 & B2 & B3 & B4). assert (j1 = k1) as ->.
  - apply be_num_inj; [apply A1 | apply B1 | destruct A1, B1; congruence | congruence].
  - split; [done|]. apply be_num_inj; [apply A2 | apply B2 | destruct A2, B2; congruence | congruence].
Qed.

(** For every suite the interface gives the code of the standard. *)
Lemma bip_code_standard gmcs l key : bip_suite gmcs -> bytes l -> bytes key -> zlen key = 32 ->
  24 + bip_mic_len gmcs <= zlen l -> zlen l < 2 ^ 29 ->
  exists mic, bip_standard gmcs key (bip_nonce l) (bip_aad gmcs l) mic /\
    bip_code (P:=aes_prims true) gmcs l key = Some (take (Z.to_nat (bip_mic_len gmcs)) mic) /\
    (forall mic', bip_standard gmcs key (bip_nonce l) (bip_aad gmcs l) mic' -> mic' = mic).
Proof.
  intros Hs Hl Hk Lk Ll Ml. pose proof (bip_aad_bytes gmcs l Hl) as Ba. pose proof (bip_aad_zlen gmcs l Ll) as La.
  assert (HC : forall n, n = 16 \/ n = 32 -> exists k1 k2, subkeys (aes_cipher (part key 0 n)) k1 k2 /\
    omac1_aes_vector true (part key 0 n) n [bip_aad gmcs l] = Ok (Some (cmac (aes_cipher (part key 0 n)) k1 k2 (bip_aad gmcs l)))).
  { intros n Hn. destruct (part_key key n Hk Lk Hn) as [Ak Zk]. pose proof (cmac_prim _ _ Ba Ak) as F. rewrite Zk in F. exact F. }
  assert (HG : 40 <= zlen l -> forall n, n = 16 \/ n = 32 ->
    Gcm.aes_gmac true (part key 0 n) (zlen (part key 0 n)) (bip_nonce l) (zlen (bip_nonce l)) (bip_aad gmcs l) (zlen (bip_aad gmcs l)) =
    Ok (Some (gcm_tag (aes_cipher (part key 0 n)) (bip_nonce l) (bip_aad gmcs l) []))).
  { intros H40 n Hn. destruct (part_key key n Hk Lk Hn) as [Ak Zk]. apply gmac_prim; try done.
    - apply Forall_app_2; [apply part_bytes, Hl | apply Forall_rev, part_bytes, Hl].
    - unfold bip_nonce. rewrite length_app, length_rev. pose proof (part_zlen l 10 6). pose proof (part_zlen l (zlen l - 22) 6).
      unfold zlen in *. lia.
    - unfold short. lia. }
  assert (ZK : forall n, n = 16 \/ n = 32 -> zlen (part key 0 n) = n) by (intros n Hn; apply part_key; done).
  unfold bip_code, bip_standard, bip_mic_len, Bip.omac1_aes_128, Bip.omac1_aes_256, Bip.aes_gmac, aes_prims, Omac.omac1_aes_128,
    Omac.omac1_aes_256. fold (bip_nonce l).
  destruct Hs as [->|[->|[->| ->]]]; cbn [Z.eqb Pos.eqb orb BIP_CMAC_128 BIP_CMAC_256 BIP_GMAC_128 BIP_GMAC_256].
  - destruct (HC 16) as (k1 & k2 & HS & ->); [auto|]. eexists. split; [exists k1, k2; done|]. split; [done|].
    intros mic' (j1 & j2 & HS' & ->). f_equal; apply (subkeys_unique _ _ _ _ _ HS' HS).
  - destruct (HC 32) as (k1 & k2 & HS & ->); [auto|]. eexists. split; [exists k1, k2; done|]. split; [done|].
    intros mic' (j1 & j2 & HS' & ->). f_equal; apply (subkeys_unique _ _ _ _ _ HS' HS).
  - rewrite HG by (auto; unfold bip_mic_len in Ll; cbn in Ll; lia). eexists. split; [reflexivity|]. done.
  - rewrite HG by (auto; unfold bip_mic_len in Ll; cbn in Ll; lia). eexists. split; [reflexivity|]. done.
Qed.

Lemma gctr_keeps ctx icb mem x out y out' : aes_gctr ctx icb mem x 16 out y = Ok out' -> length out' = length out.
Proof.
  unfold aes_gctr. cbn [Z.eqb]. change (Z.to_nat (16 / 16)) with 1%nat. destruct (rdn icb 0 AES_BLOCK_SIZE) as [cb|]; cbn [bind]; [|discriminate].
  cbn [for_up]. unfold gctr_turn at 1. destruct (aes_encrypt ctx cb) as [s|]; cbn [bind]; [|discriminate].
  destruct (wrn out _ s) as [o1|] eqn:E1; cbn [bind]; [|discriminate]. unfold xor_block.
  destruct (rdn o1 _ 16) as [a|]; cbn [bind]; [|discriminate]. destruct (rdn mem _ 16) as [b|]; cbn [bind]; [|discriminate].
  destruct (wrn o1 _ (xor_bytes a b)) as [o2|] eqn:E2; cbn [bind]; [|discriminate].
  destruct (inc32 cb) as [cb'|]; cbn [bind]; [|discriminate]. change (16 - AES_BLOCK_SIZE * (16 / 16) =? 0) with true. cbn match.
  intros H. injection H as <-. apply wrn_zlen in E1, E2. unfold zlen in *. lia.
Qed.

Lemma gmac_len alloc key n d m : Gcm.aes_gmac alloc key (zlen key) n (zlen n) d (zlen d) = Ok (Some m) -> length m = 16%nat.
Proof.
  unfold Gcm.aes_gmac, aes_gcm_ae. destruct (aes_gcm_init_hash_subkey alloc key (zlen key)) as [[[ctx H]|]|]; cbn [bind]; try discriminate.
  destruct (aes_gcm_prepare_j0 n (zlen n) H) as [J|]; cbn [bind]; [|discriminate]. unfold aes_gcm_gctr. cbn [Z.eqb bind].
  destruct (aes_gcm_ghash H d (zlen d) (zeros 16) 0 0) as [S|]; cbn [bind]; [|discriminate].
  destruct (aes_gctr ctx J S 0 16 (zeros 16) 0) as [o|] eqn:E; cbn [bind]; [|discriminate].
  intros G. injection G as <-. rewrite (gctr_keeps _ _ _ _ _ _ _ E). done.
Qed.

(** ** Theorems *)

(** What a frame must be to be accepted, in the terms of the standards. *)
Definition bip_genuine (gmcs : Z) (l key : list Z) (keyid ipn : Z) : Prop :=
  24 + bip_mic_len gmcs <= zlen l /\ l !! Z.to_nat (bip_mme gmcs l) = Some MME_IE /\
  bip_keyid gmcs l = keyid /\ ipn < bip_ipn gmcs l /\
  exists mic, bip_standard gmcs key (bip_nonce l) (bip_aad gmcs l) mic /\
    part l (zlen l - bip_mic_len gmcs) (bip_mic_len gmcs) = take (Z.to_nat (bip_mic_len gmcs)) mic.

Lemma bip_valid_genuine gmcs l key keyid ipn :
  bip_suite gmcs -> bytes l -> bytes key -> zlen key = 32 -> zlen l < 2 ^ 29 ->
  bip_valid (P:=aes_prims true) gmcs l key keyid ipn <-> bip_genuine gmcs l key keyid ipn.
Proof.
  intros Hs Hl Hk Lk Ml. unfold bip_valid, bip_genuine.
  split; intros (Ll & H1 & H2 & H3 & H4); (repeat split; [done..|]);
    destruct (bip_code_standard gmcs l key Hs Hl Hk Lk Ll Ml) as (mic & HS & F & U).
  - exists mic. split; [exact HS|]. rewrite F in H4. congruence.
  - destruct H4 as (mic' & HS' & E). rewrite (U mic' HS') in E. rewrite F, E. done.
Qed.

#[export] Instance aes_prims_ok alloc : MacPrimsOk (aes_prims alloc).
Proof.
  assert (G : forall k n d m, run_mac (omac1_aes_vector alloc k n [d]) = Some m -> length m = 16%nat).
  { intros k n d m H. destruct (omac1_aes_vector alloc k n [d]) as [[x|]|] eqn:E; cbn in H; try discriminate.
    injection H as <-. exact (omac_len _ _ _ _ _ E). }
  constructor; [intros k d m; apply G | intros k d m; apply G|].
  intros k n d m. cbn [Bip.aes_gmac aes_prims]. unfold run_mac.
  destruct (Gcm.aes_gmac _ _ _ _ _ _ _) as [[x|]|] eqn:E; intros H; try discriminate. injection H as <-.
  exact (gmac_len _ _ _ _ _ E).
Qed.

(** C32: the verification of a broadcast management frame, down to AES: over the models of the driver's own CMAC and
    GMAC routines, a frame of any content and length is judged without leaving it, and it is accepted exactly when it
    is long enough, carries a MIC element with the installed key's number and a packet number above the last one, and
    ends in the code the standard prescribes for the suite - the first eight or all sixteen bytes of AES-CMAC under
    the 16- or 32-byte key, or AES-GMAC with transmitter and packet number as nonce - of its header without the bits
    that change on the way, its body and zeros for the code; only then the last number moves, to the frame's. *)
Theorem bip_checks_aes_codes gmcs l post key keyid ipn :
  bip_suite gmcs -> bytes l -> bytes key -> zlen key = 32 -> zlen l < 2 ^ 29 ->
  exists r ipn', rtw_bip_verify (P:=aes_prims true) true gmcs (zlen l) (l ++ post) (zlen l) key keyid ipn = Ok (r, ipn') /\
    (r = SUCCESS <-> bip_genuine gmcs l key keyid ipn) /\ (ipn' = if r =? SUCCESS then bip_ipn gmcs l else ipn).
Proof.
  intros Hs Hl Hk Lk Ml. pose proof (bip_valid_genuine gmcs l key keyid ipn Hs Hl Hk Lk Ml) as HV.
  destruct (bip_verify_dichotomy (P:=aes_prims true) true gmcs l post key keyid ipn Lk ltac:(lia)) as [(_ & Hv & ->)|(Hn & r & Hr & ->)].
  - exists SUCCESS, (bip_ipn gmcs l). tauto.
  - exists r, ipn. split; [done|]. rewrite (proj2 (Z.eqb_neq _ _) Hr). tauto.
Qed.

(** A deauthentication frame under AES-128-CMAC: packet number 7, key 4. *)
Definition ex_cmac_key : list Z := map Z.of_nat (seq 0 32).
Definition ex_cmac_body : list Z := [0xc0; 8] ++ zeros 22 ++ [3; 0] ++ [76; 16; 4; 0; 7; 0; 0; 0; 0; 0].
Definition ex_cmac_frame : list Z := ex_cmac_body ++ [91; 39; 36; 184; 228; 163; 124; 241].

Lemma bip_checks_aes_codes_witness :
  rtw_bip_verify (P:=aes_prims true) true BIP_CMAC_128 44 (ex_cmac_frame ++ [1]) 44 ex_cmac_key 4 6 = Ok (SUCCESS, 7) /\
  exists r ipn', rtw_bip_verify (P:=aes_prims true) true BIP_CMAC_128 (zlen ex_cmac_frame) (ex_cmac_frame ++ [1])
      (zlen ex_cmac_frame) ex_cmac_key 4 6 = Ok (r, ipn') /\
    (r = SUCCESS <-> bip_genuine BIP_CMAC_128 ex_cmac_frame ex_cmac_key 4 6) /\
    (ipn' = if r =? SUCCESS then bip_ipn BIP_CMAC_128 ex_cmac_frame else 6).
Proof.
  split; [vm_compute; reflexivity|]. apply (bip_checks_aes_codes BIP_CMAC_128 ex_cmac_frame [1] ex_cmac_key 4 6).
  - left. reflexivity.
  - apply bytes_by_compute. vm_compute. reflexivity.
  - apply bytes_by_compute. vm_compute. reflexivity.
  - reflexivity.
  - reflexivity.
Defined.
