(* ===== verification/RecvFrame.v ===== *)
(** * Received frames

    [union recv_frame] and the four routines of [include/rtw_recv.h] that move its ends, the
    LLC parser and the change from an 802.11 to an Ethernet header of [core/rtw_recv.c].
    A frame is a window into a buffer; the routines are [drop], [take] and [++] on the window
    and refuse to leave the buffer. *)
From Stdlib Require Import ZArith Lia Bool.
From stdpp Require Import base option list numbers.
From S2P Require Import Prelude Sec.
Local Open Scope Z_scope.

(** ** Data *)

(** The fields of [struct rx_pkt_attrib] the receive path works with; [a_sec] holds those the ciphers
    read ([encrypt], [hdrlen], [iv_len], [key_index], [ta], [ra]). *)
(* src: include/rtw_recv.h:152-188 rx_pkt_attrib *)
Record rx_attrib : Type := mkRa {
  a_sec : rx_pkt_attrib;
  a_icv_len : Z; a_to_fr_ds : Z; a_amsdu : Z; a_qos : Z; a_priority : Z;
  a_seq_num : Z; a_frag_num : Z; a_mfrag : Z; a_privacy : Z; a_bdecrypted : Z;
  a_dst : list Z; a_src : list Z; a_bssid : list Z;
  a_ack_policy : Z; a_pw_save : Z; a_mdata : Z; a_order : Z }.

Definition a_encrypt (a : rx_attrib) : Z := r_encrypt (a_sec a).
Definition a_hdrlen (a : rx_attrib) : Z := r_hdrlen (a_sec a).
Definition a_iv_len (a : rx_attrib) : Z := r_iv_len (a_sec a).
Definition a_key_index (a : rx_attrib) : Z := r_key_index (a_sec a).
Definition a_ta (a : rx_attrib) : list Z := r_ta (a_sec a).
Definition a_ra (a : rx_attrib) : list Z := r_ra (a_sec a).

(** The pool allocates [rf_slot]; [rf_mem] are the bytes from [rx_head] to [rx_end], [rx_data] and
    [rx_tail] offsets into them. *)
(* src: include/rtw_recv.h:662-683 recv_frame_hdr *)
Record recv_frame : Type := mkRf {
  rf_slot : nat;
  rf_mem : list Z; rx_data : Z; rx_tail : Z; rf_len : Z;
  attrib : rx_attrib; keytrack : Z }.

Definition rx_end (f : recv_frame) : Z := zlen (rf_mem f).

Definition with_ends (f : recv_frame) (d t n : Z) : recv_frame :=
  mkRf (rf_slot f) (rf_mem f) d t n (attrib f) (keytrack f).
Definition with_mem (f : recv_frame) (m : list Z) : recv_frame :=
  mkRf (rf_slot f) m (rx_data f) (rx_tail f) (rf_len f) (attrib f) (keytrack f).
Definition with_attrib (f : recv_frame) (a : rx_attrib) : recv_frame :=
  mkRf (rf_slot f) (rf_mem f) (rx_data f) (rx_tail f) (rf_len f) a (keytrack f).
Definition with_keytrack (f : recv_frame) (k : Z) : recv_frame :=
  mkRf (rf_slot f) (rf_mem f) (rx_data f) (rx_tail f) (rf_len f) (attrib f) k.

(** ** Moving the ends

    Each returns the pointer, or NULL with the frame as it was. *)

(* src: include/rtw_recv.h:786-810 recvframe_push *)
Definition recvframe_push (f : recv_frame) (sz : Z) : option Z * recv_frame :=
  let d := rx_data f - sz in
  if d <? 0 then (None, f) else (Some d, with_ends f d (rx_tail f) (u32 (rf_len f + sz))).

(* src: include/rtw_recv.h:813-835 recvframe_pull *)
Definition recvframe_pull (f : recv_frame) (sz : Z) : option Z * recv_frame :=
  let d := rx_data f + sz in
  if rx_tail f <? d then (None, f) else (Some d, with_ends f d (rx_tail f) (u32 (rf_len f - sz))).

(* src: include/rtw_recv.h:837-859 recvframe_put *)
Definition recvframe_put (f : recv_frame) (sz : Z) : option Z * recv_frame :=
  let t := rx_tail f + sz in
  if rx_end f <? t then (None, f) else (Some t, with_ends f (rx_data f) t (u32 (rf_len f + sz))).

(* src: include/rtw_recv.h:861-882 recvframe_pull_tail *)
Definition recvframe_pull_tail (f : recv_frame) (sz : Z) : option Z * recv_frame :=
  let t := rx_tail f - sz in
  if t <? rx_data f then (None, f) else (Some t, with_ends f (rx_data f) t (u32 (rf_len f - sz))).

(** ** The LLC header *)

Definition SNAP_SIZE := 6.
Definition ETH_ALEN := 6.
Definition ETH_HLEN := 14.
Definition ETH_P_AARP := 0x80F3.
Definition ETH_P_IPX := 0x8137.

(* src: core/rtw_recv.c:42 rtw_bridge_tunnel_header *)
Definition rtw_bridge_tunnel_header : list Z := [0xaa; 0xaa; 0x03; 0x00; 0x00; 0xf8].
(* src: core/rtw_recv.c:43 rtw_rfc1042_header *)
Definition rtw_rfc1042_header : list Z := [0xaa; 0xaa; 0x03; 0x00; 0x00; 0x00].

(* src: include/osdep_service.h:742 RTW_GET_BE16 *)
Definition RTW_GET_BE16 (b : list Z) (p : Z) : res Z :=
  b0 <- rd b p ;; b1 <- rd b (p + 1) ;; Ok (u16 (Z.shiftl b0 8 .| b1)).

(* src: include/rtw_recv.h:712-716 rtw_rx_llc_hdl *)
Inductive rtw_rx_llc_hdl : Type := RTW_RX_LLC_KEEP | RTW_RX_LLC_REMOVE.

#[export] Instance llc_eq_dec : EqDecision rtw_rx_llc_hdl.
Proof. solve_decision. Defined.

(* src: core/rtw_recv.c:2578-2598 rtw_recv_llc_parse *)
Definition rtw_recv_llc_parse (b : list Z) (msdu msdu_len : Z) : res rtw_rx_llc_hdl :=
  if msdu_len <? 8 then Ok RTW_RX_LLC_KEEP
  else
    eth_type <- RTW_GET_BE16 b (msdu + SNAP_SIZE) ;;
    rfc1042 <- memeq b msdu rtw_rfc1042_header ;;
    bridge <- memeq b msdu rtw_bridge_tunnel_header ;;
    Ok (if (rfc1042 && negb (eth_type =? ETH_P_AARP) && negb (eth_type =? ETH_P_IPX)) || bridge
        then RTW_RX_LLC_REMOVE else RTW_RX_LLC_KEEP).

Definition llc_size (h : rtw_rx_llc_hdl) : Z := match h with RTW_RX_LLC_KEEP => 0 | _ => SNAP_SIZE end.

Definition be16_bytes (n : Z) : list Z := [Z.shiftr (u16 n) 8; u16 n & 0xff].

(** [htons] and the copy of two bytes: a big-endian field. *)
(* src: core/rtw_recv.c:2601-2633 wlanhdr_to_ethhdr *)
Definition wlanhdr_to_ethhdr (f : recv_frame) (llc_hdl : rtw_rx_llc_hdl) : res (Z * recv_frame) :=
  let a := attrib f in
  let f := if a_encrypt a =? 0 then f else snd (recvframe_pull_tail f (a_icv_len a)) in
  let rmv_len := a_hdrlen a + a_iv_len a + llc_size llc_hdl in
  let len := u16 (rf_len f - rmv_len) in
  let '(p, f) := recvframe_pull f
    (rmv_len - ETH_HLEN + match llc_hdl with RTW_RX_LLC_KEEP => 0 | _ => 2 end) in
  match p with
  | None => Ok (FAIL, f)
  | Some ptr =>
      m <- wrn (rf_mem f) ptr (a_dst a) ;;
      m <- wrn m (ptr + ETH_ALEN) (a_src a) ;;
      m <- (match llc_hdl with
            | RTW_RX_LLC_KEEP => wrn m (ptr + 12) (be16_bytes len)
            | _ => Ok m
            end) ;;
      Ok (SUCCESS, with_mem f m)
  end.

(** ** Lemmas: a frame as a list between two lists *)

Record framed (f : recv_frame) (a v b : list Z) : Prop := mkFramed {
  fr_mem : rf_mem f = a ++ v ++ b;
  fr_data : rx_data f = zlen a;
  fr_tail : rx_tail f = zlen a + zlen v;
  fr_len : rf_len f = zlen v;
  fr_small : zlen (a ++ v ++ b) < 2 ^ 31 }.

(** Everything but the window. *)
Definition same_meta (f g : recv_frame) : Prop :=
  rf_slot g = rf_slot f /\ attrib g = attrib f /\ keytrack g = keytrack f.

Lemma zlen_take_drop (v : list Z) n :
  0 <= n <= zlen v -> zlen (take (Z.to_nat n) v) = n /\ zlen (drop (Z.to_nat n) v) = zlen v - n.
Proof. intros. unfold zlen in *. rewrite length_take, length_drop. lia. Qed.

Ltac framed_tac :=
  constructor; cbn [rf_mem rx_data rx_tail rf_len with_ends];
  rewrite ?app_assoc in *; rewrite <- ?app_assoc in *; rewrite ?zlen_app in *; try done; try lia;
  rewrite ?u32_small; lia.

Lemma pull_spec f a x v b : framed f a (x ++ v) b ->
  exists g, recvframe_pull f (zlen x) = (Some (zlen a + zlen x), g) /\ framed g (a ++ x) v b /\ same_meta f g.
Proof.
  intros [Hm Hd Ht Hl Hs]. pose proof (zlen_nonneg a). pose proof (zlen_nonneg v). pose proof (zlen_nonneg b).
  pose proof (zlen_nonneg x). unfold recvframe_pull. rewrite Hd, Ht, zlen_app.
  rewrite (proj2 (Z.ltb_ge _ _)) by lia. eexists. split; [done|]. split; [|done]. framed_tac.
Qed.

Lemma pull_tail_spec f a x v b : framed f a (v ++ x) b ->
  exists g, recvframe_pull_tail f (zlen x) = (Some (zlen a + zlen v), g) /\ framed g a v (x ++ b) /\ same_meta f g.
Proof.
  intros [Hm Hd Ht Hl Hs]. pose proof (zlen_nonneg a). pose proof (zlen_nonneg v). pose proof (zlen_nonneg b).
  pose proof (zlen_nonneg x). unfold recvframe_pull_tail. rewrite Hd, Ht, zlen_app.
  rewrite (proj2 (Z.ltb_ge _ _)) by lia. eexists. split; [f_equal; f_equal; lia|]. split; [|done]. framed_tac.
Qed.

Lemma put_spec f a x v b : framed f a v (x ++ b) ->
  exists g, recvframe_put f (zlen x) = (Some (zlen a + zlen v + zlen x), g) /\ framed g a (v ++ x) b /\ same_meta f g.
Proof.
  intros [Hm Hd Ht Hl Hs]. pose proof (zlen_nonneg a). pose proof (zlen_nonneg v). pose proof (zlen_nonneg b).
  pose proof (zlen_nonneg x). unfold recvframe_put, rx_end. rewrite Ht, Hm, !zlen_app.
  rewrite (proj2 (Z.ltb_ge _ _)) by lia. eexists. split; [done|]. split; [|done]. framed_tac.
Qed.

Lemma push_spec f a x v b : framed f (a ++ x) v b ->
  exists g, recvframe_push f (zlen x) = (Some (zlen a), g) /\ framed g a (x ++ v) b /\ same_meta f g.
Proof.
  intros [Hm Hd Ht Hl Hs]. pose proof (zlen_nonneg a). pose proof (zlen_nonneg v). pose proof (zlen_nonneg b).
  pose proof (zlen_nonneg x). unfold recvframe_push. rewrite Hd, zlen_app.
  rewrite (proj2 (Z.ltb_ge _ _)) by lia. eexists. split; [f_equal; f_equal; lia|]. split; [|done]. framed_tac.
Qed.

(** The four moves of a frame's ends are list operations on its window, for every size: pull and
    pull_tail drop bytes at the front or the back, push and put give back the bytes that lie before or
    behind it; each refuses, and leaves the frame alone, exactly when it would pass the other end or the buffer's. *)
Theorem frame_moves f a v b sz : framed f a v b -> 0 <= sz ->
  let n := Z.to_nat sz in let k := (length a - n)%nat in let j := (length v - n)%nat in
  (if sz <=? zlen v
   then framed (snd (recvframe_pull f sz)) (a ++ take n v) (drop n v) b
     /\ framed (snd (recvframe_pull_tail f sz)) a (take j v) (drop j v ++ b)
   else recvframe_pull f sz = (None, f) /\ recvframe_pull_tail f sz = (None, f))
  /\ (if sz <=? zlen a then framed (snd (recvframe_push f sz)) (take k a) (drop k a ++ v) b
      else recvframe_push f sz = (None, f))
  /\ (if sz <=? zlen b then framed (snd (recvframe_put f sz)) a (v ++ take n b) (drop n b)
      else recvframe_put f sz = (None, f)).
Proof.
  intros Hf Hsz n k j. pose proof Hf as [Hm Hd Ht Hl Hs]. split; [|split].
  - destruct (Z.leb_spec sz (zlen v)) as [Hle|Hgt].
    + split.
      * rewrite <- (take_drop n v) in Hf at 1. apply pull_spec in Hf as (g & E & Hg & _).
        replace (zlen (take n v)) with sz in E by (unfold zlen in *; rewrite length_take; lia).
        rewrite E. done.
      * rewrite <- (take_drop j v) in Hf at 1. apply pull_tail_spec in Hf as (g & E & Hg & _).
        replace (zlen (drop j v)) with sz in E by (unfold zlen in *; rewrite length_drop; lia).
        rewrite E. done.
    + unfold recvframe_pull, recvframe_pull_tail. rewrite Hd, Ht.
      rewrite !(proj2 (Z.ltb_lt _ _)) by lia. done.
  - destruct (Z.leb_spec sz (zlen a)) as [Hle|Hgt].
    + rewrite <- (take_drop k a) in Hf at 1. apply push_spec in Hf as (g & E & Hg & _).
      replace (zlen (drop k a)) with sz in E by (unfold zlen in *; rewrite length_drop; lia).
      rewrite E. done.
    + unfold recvframe_push. rewrite Hd, (proj2 (Z.ltb_lt _ _)) by lia. done.
  - destruct (Z.leb_spec sz (zlen b)) as [Hle|Hgt].
    + rewrite <- (take_drop n b) in Hf at 1. apply put_spec in Hf as (g & E & Hg & _).
      replace (zlen (take n b)) with sz in E by (unfold zlen in *; rewrite length_take; lia).
      rewrite E. done.
    + unfold recvframe_put, rx_end. rewrite Ht, Hm, !zlen_app, (proj2 (Z.ltb_lt _ _)) by lia. done.
Qed.

(** ** Lemmas: from an 802.11 to an Ethernet header *)

Lemma be16_value b0 b1 : is_byte b0 -> is_byte b1 -> u16 (Z.shiftl b0 8 .| b1) = b0 * 256 + b1.
Proof.
  unfold is_byte. intros. rewrite Z.lor_comm, lor_shiftl_add by lia. rewrite u16_small by lia. lia.
Qed.

Lemma get_be16_at a b0 b1 c : is_byte b0 -> is_byte b1 ->
  RTW_GET_BE16 (a ++ b0 :: b1 :: c) (zlen a) = Ok (b0 * 256 + b1).
Proof.
  intros. unfold RTW_GET_BE16. rewrite rd_mid. cbn [bind].
  replace (a ++ b0 :: b1 :: c) with ((a ++ [b0]) ++ b1 :: c) by (rewrite <- app_assoc; done).
  replace (zlen a + 1) with (zlen (a ++ [b0])) by (rewrite zlen_app; done). rewrite rd_mid. cbn [bind].
  rewrite be16_value by done. done.
Qed.

Lemma get_be16_bytes a n c : 0 <= n < 65536 -> RTW_GET_BE16 (a ++ be16_bytes n ++ c) (zlen a) = Ok n.
Proof.
  intros Hn. unfold be16_bytes. rewrite u16_small, land_ff_mod, Z.shiftr_div_pow2 by lia.
  change (2 ^ 8) with 256. pose proof (Z.div_mod n 256 ltac:(lia)). pose proof (Z.mod_pos_bound n 256 ltac:(lia)).
  cbn [app]. rewrite get_be16_at; unfold is_byte; [f_equal; lia | lia | lia].
Qed.

Lemma zlen_be16 n : zlen (be16_bytes n) = 2.
Proof. done. Qed.

Lemma memeq_part a s c pat : zlen pat <= zlen s ->
  memeq (a ++ s ++ c) (zlen a) pat = Ok (list_eqb (take (length pat) s) pat).
Proof.
  intros H. unfold memeq. pose proof (zlen_nonneg pat). rewrite rdn_part by lia. cbn [bind].
  replace (Z.to_nat (zlen pat)) with (length pat) by zlia. done.
Qed.

(** Does an MSDU start with an LLC header that the driver strips? *)
Definition snap_stripped (m : list Z) : bool :=
  (8 <=? zlen m) &&
  ((list_eqb (take 6 m) rtw_rfc1042_header
      && negb (list_eqb (take 2 (drop 6 m)) [0x80; 0xf3]) && negb (list_eqb (take 2 (drop 6 m)) [0x81; 0x37]))
   || list_eqb (take 6 m) rtw_bridge_tunnel_header).

(** The Ethernet frame of an MSDU: the EtherType of the LLC header, or the length (802.3). *)
Definition ether_frame (dst src m : list Z) : list Z :=
  if snap_stripped m then dst ++ src ++ drop 6 m else dst ++ src ++ be16_bytes (zlen m) ++ m.

Definition llc_of (m : list Z) : rtw_rx_llc_hdl := if snap_stripped m then RTW_RX_LLC_REMOVE else RTW_RX_LLC_KEEP.

Lemma be16_eqb x y a b : is_byte x -> is_byte y -> is_byte a -> is_byte b ->
  (x * 256 + y =? a * 256 + b) = list_eqb [x; y] [a; b].
Proof.
  unfold is_byte, list_eqb. intros. apply eq_bool_prop_intro. rewrite !Is_true_true, bool_decide_eq_true.
  split; [intros ?%Z.eqb_eq; repeat f_equal; lia | intros [= -> ->]; apply Z.eqb_refl].
Qed.

Lemma llc_parse_spec a m c : bytes m ->
  rtw_recv_llc_parse (a ++ m ++ c) (zlen a) (zlen m) = Ok (llc_of m).
Proof.
  intros Hb. unfold rtw_recv_llc_parse, llc_of, snap_stripped.
  destruct (Z.ltb_spec (zlen m) 8); [rewrite (proj2 (Z.leb_gt _ _)) by done; done|].
  rewrite (proj2 (Z.leb_le _ _)) by done.
  rewrite !memeq_part by (change (zlen rtw_rfc1042_header) with 6; change (zlen rtw_bridge_tunnel_header) with 6; lia).
  destruct (drop 6 m) as [|t0 [|t1 rest]] eqn:E;
    [exfalso; apply (f_equal (@length Z)) in E; rewrite length_drop in E; cbn in E; zlia ..|].
  assert (Hm : m = take 6 m ++ t0 :: t1 :: rest) by (rewrite <- E, take_drop; done).
  assert (H6 : zlen (take 6 m) = 6) by (unfold zlen in *; rewrite length_take; lia).
  assert (Ht : Forall is_byte (t0 :: t1 :: rest)) by (rewrite <- E; apply Forall_drop; done).
  apply Forall_cons_1 in Ht as [H0 [H1 _]%Forall_cons_1].
  assert (Hg : RTW_GET_BE16 (a ++ m ++ c) (zlen a + SNAP_SIZE) = Ok (t0 * 256 + t1)).
  { rewrite Hm, <- app_assoc, app_assoc. replace (zlen a + SNAP_SIZE) with (zlen (a ++ take 6 m)) by (rewrite zlen_app, H6; done).
    cbn [app]. apply get_be16_at; done. }
  rewrite Hg. cbn [bind take andb]. change (length rtw_rfc1042_header) with 6%nat.
  change (length rtw_bridge_tunnel_header) with 6%nat.
  change ETH_P_AARP with (0x80 * 256 + 0xf3). change ETH_P_IPX with (0x81 * 256 + 0x37).
  rewrite !be16_eqb by (done || (unfold is_byte; lia)). done.
Qed.

(** The header written over what lies before the payload. *)
Lemma write_addresses (a x1 x2 c dst src : list Z) : zlen x1 = 6 -> zlen x2 = 6 -> zlen dst = 6 -> zlen src = 6 ->
  bind (wrn (a ++ x1 ++ x2 ++ c) (zlen a) dst) (fun m => wrn m (zlen a + ETH_ALEN) src)
  = Ok (a ++ dst ++ src ++ c).
Proof.
  intros H1 H2 Hd Hs. rewrite wrn_app by lia. cbn [bind].
  replace (zlen a + ETH_ALEN) with (zlen (a ++ dst)) by (rewrite zlen_app, Hd; done).
  rewrite (app_assoc a dst), wrn_app by lia. rewrite <- app_assoc. done.
Qed.

(** A list seen from its end. *)
Lemma split_tail (l : list Z) n : 0 <= n <= zlen l ->
  exists x y, l = x ++ y /\ zlen y = n /\ zlen x = zlen l - n.
Proof.
  intros H. exists (take (length l - Z.to_nat n) l), (drop (length l - Z.to_nat n) l).
  rewrite take_drop. unfold zlen in *. rewrite length_take, length_drop. split; [done|lia].
Qed.

Lemma split_front (l : list Z) n : 0 <= n <= zlen l ->
  exists x y, l = x ++ y /\ zlen x = n /\ zlen y = zlen l - n.
Proof.
  intros H. exists (take (Z.to_nat n) l), (drop (Z.to_nat n) l). rewrite take_drop.
  pose proof (zlen_take_drop l n H) as [??]. done.
Qed.

(** A protected frame as the decryptor leaves it: header, IV, MSDU, ICV. *)
Record mpdu (f : recv_frame) (a h iv m icv b : list Z) : Prop := mkMpdu {
  mp_framed : framed f a (h ++ iv ++ m ++ icv) b;
  mp_hdr : a_hdrlen (attrib f) = zlen h;
  mp_iv : a_iv_len (attrib f) = zlen iv;
  mp_icv : if a_encrypt (attrib f) =? 0 then icv = [] else a_icv_len (attrib f) = zlen icv }.

Lemma strip_icv f a h iv m icv b : mpdu f a h iv m icv b ->
  exists g, (if a_encrypt (attrib f) =? 0 then f else snd (recvframe_pull_tail f (a_icv_len (attrib f)))) = g
    /\ framed g a (h ++ iv ++ m) (icv ++ b) /\ same_meta f g.
Proof.
  intros [Hf _ _ Hc]. destruct (_ =? 0).
  - subst icv. rewrite app_nil_r in Hf. eexists. split; [done|]. split; [exact Hf | done].
  - rewrite Hc. replace (h ++ iv ++ m ++ icv) with ((h ++ iv ++ m) ++ icv) in Hf by (rewrite <- !app_assoc; done).
    apply pull_tail_spec in Hf as (g & E & Hg & Hs). rewrite E. eauto.
Qed.

Lemma pull_by f a w v b sz : framed f a (w ++ v) b -> sz = zlen w ->
  exists g, recvframe_pull f sz = (Some (zlen (a ++ w)), g) /\ framed g (a ++ w) v b /\ same_meta f g.
Proof. intros Hf ->. rewrite zlen_app. apply pull_spec. done. Qed.

Lemma framed_rewrite f a v b v' : framed f a v b -> zlen v' = zlen v -> framed (with_mem f (a ++ v' ++ b)) a v' b.
Proof.
  intros [Hm Hd Ht Hl Hs] Hv. constructor; cbn [rf_mem rx_data rx_tail rf_len with_mem]; try done; try lia.
  rewrite !zlen_app in *. lia.
Qed.

(** The two addresses over the last twelve bytes before [c]. *)
Lemma addresses_written g a x1 x2 c b dst src :
  framed g a (x1 ++ x2 ++ c) b -> zlen x1 = 6 -> zlen x2 = 6 -> zlen dst = 6 -> zlen src = 6 ->
  exists m1, wrn (rf_mem g) (zlen a) dst = Ok m1 /\ wrn m1 (zlen a + ETH_ALEN) src = Ok (a ++ (dst ++ src ++ c) ++ b).
Proof.
  intros Hg H1 H2 Hd Hs. rewrite (fr_mem _ _ _ _ Hg), <- !app_assoc.
  pose proof (write_addresses a x1 x2 (c ++ b) dst src H1 H2 Hd Hs) as H.
  destruct (wrn _ (zlen a) dst) as [m1|]; [|discriminate]. exists m1. done.
Qed.

(** What [wlanhdr_to_ethhdr] does once the ICV is gone. *)
Lemma ethhdr_remove g a w x s t b dst src n :
  framed g a (w ++ x ++ s ++ t) b -> zlen x = 6 -> zlen s = 6 -> zlen dst = 6 -> zlen src = 6 -> n = zlen w ->
  exists g' m1, recvframe_pull g n = (Some (zlen (a ++ w)), g') /\ wrn (rf_mem g') (zlen (a ++ w)) dst = Ok m1
    /\ wrn m1 (zlen (a ++ w) + ETH_ALEN) src = Ok ((a ++ w) ++ (dst ++ src ++ t) ++ b)
    /\ framed (with_mem g' ((a ++ w) ++ (dst ++ src ++ t) ++ b)) (a ++ w) (dst ++ src ++ t) b.
Proof.
  intros Hg Hx Hs Hd Hsr ->. destruct (pull_by _ _ _ _ _ _ Hg eq_refl) as (g' & E & Hg' & _).
  destruct (addresses_written _ _ _ _ _ _ dst src Hg' Hx Hs Hd Hsr) as (m1 & E1 & E2).
  exists g', m1. split; [done|]. split; [done|]. split; [done|].
  eapply framed_rewrite; [exact Hg'|]. rewrite !zlen_app. lia.
Qed.

Lemma wlanhdr_to_ethhdr_spec f a h iv m icv b :
  mpdu f a h iv m icv b -> 14 <= zlen h -> bytes m -> zlen m < 65536 ->
  zlen (a_dst (attrib f)) = 6 -> zlen (a_src (attrib f)) = 6 ->
  exists g a', rtw_recv_llc_parse (rf_mem f) (zlen a + zlen h + zlen iv) (zlen m) = Ok (llc_of m)
    /\ wlanhdr_to_ethhdr f (llc_of m) = Ok (SUCCESS, g)
    /\ framed g a' (ether_frame (a_dst (attrib f)) (a_src (attrib f)) m) (icv ++ b).
Proof.
  intros Hmp Hh Hm Hml Hd Hs. pose proof Hmp as [Hf Hhdr Hiv _]. pose proof (zlen_nonneg m). pose proof (zlen_nonneg iv).
  destruct (strip_icv _ _ _ _ _ _ _ Hmp) as (g & E & Hg & Hslot & Hat & Hkt).
  assert (Hlen : rf_len g - (zlen h + zlen iv) = zlen m) by (rewrite (fr_len _ _ _ _ Hg), !zlen_app; lia).
  assert (Hparse : rtw_recv_llc_parse (rf_mem f) (zlen a + zlen h + zlen iv) (zlen m) = Ok (llc_of m)).
  { rewrite (fr_mem _ _ _ _ Hf). replace (zlen a + zlen h + zlen iv) with (zlen (a ++ h ++ iv)) by (rewrite !zlen_app; lia).
    replace (a ++ (h ++ iv ++ m ++ icv) ++ b) with ((a ++ h ++ iv) ++ m ++ icv ++ b) by (rewrite <- !app_assoc; done).
    apply llc_parse_spec. done. }
  unfold wlanhdr_to_ethhdr, ether_frame, llc_of in *. rewrite E, Hhdr, Hiv.
  destruct (snap_stripped m) eqn:Es; cbn [llc_size].
  - assert (H8 : 8 <= zlen m) by (unfold snap_stripped in Es; lia).
    destruct (split_front m 6) as (s & t & -> & Hs6 & Ht); [lia|].
    rewrite (drop_app_length' s t 6) by zlia.
    destruct (split_tail (h ++ iv) 6) as (w & x & Ew & Hx & Hw); [rewrite zlen_app; lia|]. rewrite zlen_app in Hw.
    replace (h ++ iv ++ s ++ t) with (w ++ x ++ s ++ t) in Hg by (rewrite (app_assoc h), Ew, <- !app_assoc; done).
    destruct (ethhdr_remove _ _ _ _ _ _ _ _ _ (zlen h + zlen iv + SNAP_SIZE - ETH_HLEN + 2) Hg Hx Hs6 Hd Hs)
      as (g' & m1 & -> & -> & E2 & Hg'); [unfold SNAP_SIZE, ETH_HLEN; lia|].
    cbn [bind]. rewrite E2. cbn [bind]. eauto 6.
  - rewrite !Z.add_0_r, Hlen, u16_small by lia.
    destruct (split_tail (h ++ iv) 14) as (w & x & Ew & Hx & Hw); [rewrite zlen_app; lia|]. rewrite zlen_app in Hw.
    destruct (split_front x 6) as (x1 & x' & -> & H1 & Hx'); [lia|].
    destruct (split_front x' 6) as (x2 & x3 & -> & H2 & H3); [lia|].
    replace (h ++ iv ++ m) with (w ++ x1 ++ x2 ++ x3 ++ m) in Hg by (rewrite (app_assoc h), Ew, <- !app_assoc; done).
    destruct (ethhdr_remove _ _ _ _ _ _ _ _ _ (zlen h + zlen iv - ETH_HLEN) Hg H1 H2 Hd Hs)
      as (g' & m1 & -> & -> & E2 & Hg'); [unfold ETH_HLEN; lia|].
    cbn [bind]. rewrite E2. cbn [bind]. replace (zlen (a ++ w) + 12) with (zlen ((a ++ w) ++ a_dst (attrib f) ++ a_src (attrib f))) by (rewrite (zlen_app (a ++ w)), (zlen_app (a_dst (attrib f))); lia).
    set (dst := a_dst (attrib f)) in *. set (src := a_src (attrib f)) in *.
    replace ((a ++ w) ++ (dst ++ src ++ x3 ++ m) ++ icv ++ b) with (((a ++ w) ++ dst ++ src) ++ x3 ++ m ++ icv ++ b)
      by (rewrite <- !app_assoc; done).
    rewrite wrn_app by (rewrite zlen_be16; lia). cbn [bind].
    eexists _, (a ++ w). split; [done|]. split; [done|].
    replace (((a ++ w) ++ dst ++ src) ++ be16_bytes (zlen m) ++ m ++ icv ++ b)
      with ((a ++ w) ++ (dst ++ src ++ be16_bytes (zlen m) ++ m) ++ icv ++ b) by (rewrite <- !app_assoc; done).
    eapply (framed_rewrite _ _ (dst ++ src ++ x3 ++ m)) in Hg'; [exact Hg'|]. rewrite !zlen_app, zlen_be16. lia.
Qed.

(** From an 802.11 to an Ethernet header: with the LLC header the parser found, the frame that is handed up
    is destination, source and the MSDU from its EtherType on, or, where the LLC header stays, destination,
    source, the MSDU's length and the whole MSDU; header, IV and ICV are gone and nothing outside the frame is touched. *)
Theorem mpdu_becomes_ethernet f a h iv m icv b :
  mpdu f a h iv m icv b -> 14 <= zlen h -> bytes m -> zlen m < 65536 ->
  zlen (a_dst (attrib f)) = 6 -> zlen (a_src (attrib f)) = 6 ->
  exists g a', rtw_recv_llc_parse (rf_mem f) (zlen a + zlen h + zlen iv) (zlen m) = Ok (llc_of m)
    /\ wlanhdr_to_ethhdr f (llc_of m) = Ok (SUCCESS, g)
    /\ framed g a' (ether_frame (a_dst (attrib f)) (a_src (attrib f)) m) (icv ++ b).
Proof. apply wlanhdr_to_ethhdr_spec. Qed.

(** ** Examples *)

Definition ex_dst : list Z := [2; 0; 0; 0; 0; 7].
Definition ex_src : list Z := [2; 0; 0; 0; 0; 9].
Definition ex_snap : list Z := [0xaa; 0xaa; 3; 0; 0; 0; 8; 0; 1; 2].
Definition ex_attr : rx_attrib :=
  mkRa (mkRx AES 24 8 0 ex_src ex_dst) 8 2 0 0 0 5 0 0 1 1 ex_dst ex_src ex_src 0 0 0 0.
Definition ex_frame : recv_frame :=
  mkRf 0 (zeros 4 ++ (zeros 24 ++ zeros 8 ++ ex_snap ++ zeros 8) ++ zeros 3) 4 54 50 ex_attr 0.

Lemma ex_frame_framed : framed ex_frame (zeros 4) (zeros 24 ++ zeros 8 ++ ex_snap ++ zeros 8) (zeros 3).
Proof. constructor; vm_compute; reflexivity. Qed.

Lemma frame_moves_witness :
  framed (snd (recvframe_pull ex_frame 24)) (zeros 4 ++ zeros 24) (zeros 8 ++ ex_snap ++ zeros 8) (zeros 3)
  /\ recvframe_put ex_frame 4 = (None, ex_frame).
Proof.
  pose proof (frame_moves ex_frame _ _ _ 24 ex_frame_framed ltac:(lia)) as [[H _] _].
  pose proof (frame_moves ex_frame _ _ _ 4 ex_frame_framed ltac:(lia)) as [_ [_ H']].
  split; [exact H | exact H'].
Defined.

Lemma mpdu_becomes_ethernet_witness :
  rtw_recv_llc_parse (rf_mem ex_frame) 36 10 = Ok RTW_RX_LLC_REMOVE
  /\ exists g a', wlanhdr_to_ethhdr ex_frame RTW_RX_LLC_REMOVE = Ok (SUCCESS, g)
       /\ framed g a' (ex_dst ++ ex_src ++ [8; 0; 1; 2]) (zeros 8 ++ zeros 3).
Proof.
  destruct (mpdu_becomes_ethernet ex_frame (zeros 4) (zeros 24) (zeros 8) ex_snap (zeros 8) (zeros 3))
    as (g & a' & H1 & H2 & H3); try reflexivity; try (vm_compute; discriminate).
  - constructor; [exact ex_frame_framed | reflexivity ..].
  - apply bytes_by_compute. reflexivity.
  - split; [exact H1 | exists g, a'; split; [exact H2 | exact H3]].
Defined.
