(* ===== verification/RecvPn.v ===== *)
(** * Duplicates and packet numbers of received frames

    [recv_decache], [recv_ucast_pn_decache] and [recv_bcast_pn_decache] of [core/rtw_recv.c] and the part of
    [validate_recv_data_frame] that runs them; [rtw_iv_to_pn] and [rtw_pn_to_iv] of
    [core/rtw_security.c] and the other reading of a packet number, [CCMPH_2_PN]. *)
From Stdlib Require Import ZArith Lia Bool Btauto.
From stdpp Require Import base option list numbers.
From S2P Require Import Prelude Sec TkipKey Tkip Bip RecvFrame.
Local Open Scope Z_scope.

(** ** Packet numbers and initialisation vectors *)

(** [_AES_], [_GCMP_], [_CCMP_256_], [_GCMP_256_] *)
Definition ccmp_like (alg : Z) : bool :=
  (alg =? AES) || (alg =? GCMP) || (alg =? CCMP_256) || (alg =? GCMP_256).

Definition pn_alg (alg : Z) : bool := (alg =? TKIP) || ccmp_like alg.

(** [pn] is the caller's array of eight bytes, of which six are set; with no [key_id] to set
    the byte that holds it is not read. *)
(* src: core/rtw_security.c:2871-2899 rtw_iv_to_pn *)
Definition rtw_iv_to_pn (b : list Z) (iv : Z) (pn : list Z) (want_key : bool) (enc_algo : Z)
    : res (Z * list Z * option Z) :=
  if negb (pn_alg enc_algo) then Ok (FAIL, pn, None) else
  '(p0, p1) <- (if enc_algo =? TKIP then
                  p0 <- rd b (iv + 2) ;; p1 <- rd b iv ;; Ok (p0, p1)
                else p0 <- rd b iv ;; p1 <- rd b (iv + 1) ;; Ok (p0, p1)) ;;
  p2 <- rd b (iv + 4) ;; p3 <- rd b (iv + 5) ;; p4 <- rd b (iv + 6) ;; p5 <- rd b (iv + 7) ;;
  key <- (if want_key then k <- rd b (iv + 3) ;; Ok (Some (Z.shiftr k 6)) else Ok None) ;;
  Ok (SUCCESS, [p0; p1; p2; p3; p4; p5] ++ drop 6 pn, key).

(* src: core/rtw_security.c:2901-2929 rtw_pn_to_iv *)
Definition rtw_pn_to_iv (pn : list Z) (iv : list Z) (key_id enc_algo : Z) : res (Z * list Z) :=
  if negb (pn_alg enc_algo) then Ok (FAIL, iv) else
  p0 <- rd pn 0 ;; p1 <- rd pn 1 ;; p2 <- rd pn 2 ;; p3 <- rd pn 3 ;; p4 <- rd pn 4 ;; p5 <- rd pn 5 ;;
  let front := if enc_algo =? TKIP then [p1; u8 ((p1 .| 0x20) & 0x7F); p0] else [p0; p1; 0] in
  Ok (SUCCESS, front ++ [u8 (BIT 5 .| Z.shiftl (key_id & 0x3) 6); p2; p3; p4; p5] ++ drop 8 iv).

(* src: include/osdep_service.h:801-804 RTW_GET_LE64 *)
Definition RTW_GET_LE64 (b : list Z) (p : Z) : res Z :=
  b7 <- rd b (p + 7) ;; b6 <- rd b (p + 6) ;; b5 <- rd b (p + 5) ;; b4 <- rd b (p + 4) ;;
  b3 <- rd b (p + 3) ;; b2 <- rd b (p + 2) ;; b1 <- rd b (p + 1) ;; b0 <- rd b p ;;
  Ok (Z.shiftl b7 56 .| Z.shiftl b6 48 .| Z.shiftl b5 40 .| Z.shiftl b4 32
      .| Z.shiftl b3 24 .| Z.shiftl b2 16 .| Z.shiftl b1 8 .| b0).

(** The packet number in the first eight bytes of a CCMP or GCMP header, read as a 64-bit word. *)
(* src: include/rtw_security.h:50-51 CCMPH_2_PN *)
Definition CCMPH_2_PN (ch : Z) : Z := (ch & 0x000000000000ffff) .| Z.shiftr (ch & 0xffffffff00000000) 16.

(* src: core/rtw_recv.c:826 PN_LESS_CHK *)
Definition PN_LESS_CHK (a b : Z) : bool := negb ((u64 (a - b) & 0x800000000000) =? 0).
(* src: core/rtw_recv.c:827 VALID_PN_CHK *)
Definition VALID_PN_CHK (new old : Z) : bool := (old =? 0) || PN_LESS_CHK old new.

(** ** The state of a station and of the group keys *)

(* src: include/rtw_recv.h:98-101 stainfo_rxcache *)
Record stainfo_rxcache : Type := mkCache { tid_rxseq : list Z; rx_iv : list (list Z); last_tid : Z }.

(* src: include/rtw_recv.h:577-591 sta_recv_priv *)
Record sta_recv_priv : Type := mkStaRecv {
  rxcache : stainfo_rxcache;
  bmc_tid_rxseq : list Z; nonqos_rxseq : Z; nonqos_bmc_rxseq : Z;
  duplicate_cnt : Z }.

(** As [rtw_alloc_stainfo] leaves it. *)
(* src: core/rtw_sta_mgt.c:571-577 rtw_alloc_stainfo *)
Definition init_sta_recv : sta_recv_priv :=
  mkStaRecv (mkCache (replicate 16 0xffff) (replicate 16 (zeros 8)) 0) (replicate 16 0xffff) 0xffff 0xffff 0.

(** ** The checks *)

(* src: core/rtw_recv.c:829-862 recv_ucast_pn_decache *)
Definition recv_ucast_pn_decache (f : recv_frame) (c : stainfo_rxcache) : res (Z * stainfo_rxcache) :=
  let a := attrib f in
  let tid := a_priority a in
  if 15 <? tid then Ok (FAIL, c)
  else if pn_alg (a_encrypt a) then
    let p := rx_data f + a_hdrlen a in
    '(_, pn, _) <- rtw_iv_to_pn (rf_mem f) p (zeros 8) false (a_encrypt a) ;;
    pkt_pn <- RTW_GET_LE64 pn 0 ;;
    iv <- rd (rx_iv c) tid ;;
    '(_, pn, _) <- rtw_iv_to_pn iv 0 pn false (a_encrypt a) ;;
    curr_pn <- RTW_GET_LE64 pn 0 ;;
    if negb (VALID_PN_CHK pkt_pn curr_pn) then Ok (SUCCESS, c) (* return _FAIL is commented out *)
    else
      iv <- rdn (rf_mem f) p 8 ;;
      ivs <- wr (rx_iv c) tid iv ;;
      Ok (SUCCESS, mkCache (tid_rxseq c) ivs tid)
  else Ok (SUCCESS, c).

(** [iv_seq]: the last packet number of each group key, eight bytes. *)
(* src: core/rtw_recv.c:865-891 recv_bcast_pn_decache *)
Definition recv_bcast_pn_decache (is_sta : bool) (f : recv_frame) (iv_seq : list (list Z))
    : res (Z * list (list Z)) :=
  let a := attrib f in
  if pn_alg (a_encrypt a) && is_sta then
    '(_, pn, key) <- rtw_iv_to_pn (rf_mem f) (rx_data f + a_hdrlen a) (zeros 8) true (a_encrypt a) ;;
    let key_id := default 0 key in
    pkt_pn <- RTW_GET_LE64 pn 0 ;;
    cur <- rd iv_seq key_id ;;
    curr_pn <- RTW_GET_LE64 cur 0 ;;
    if negb (VALID_PN_CHK pkt_pn curr_pn) then Ok (FAIL, iv_seq)
    else
      s <- wr iv_seq key_id pn ;;
      Ok (SUCCESS, s)
  else Ok (SUCCESS, iv_seq).

(** Which of a station's counters a frame is compared with. *)
Inductive rxseq : Type := SeqBmcTid | SeqTid | SeqNonqosBmc | SeqNonqos.

(* src: core/rtw_recv.c:906-926 recv_decache *)
Definition prxseq (a : rx_attrib) : rxseq :=
  if negb (a_qos a =? 0) then if IS_MCAST (a_ra a) then SeqBmcTid else SeqTid
  else if IS_MCAST (a_ra a) then SeqNonqosBmc else SeqNonqos.

Definition get_rxseq (w : rxseq) (tid : Z) (s : sta_recv_priv) : res Z :=
  match w with
  | SeqBmcTid => rd (bmc_tid_rxseq s) tid
  | SeqTid => rd (tid_rxseq (rxcache s)) tid
  | SeqNonqosBmc => Ok (nonqos_bmc_rxseq s)
  | SeqNonqos => Ok (nonqos_rxseq s)
  end.

Definition set_rxseq (w : rxseq) (tid v : Z) (s : sta_recv_priv) : sta_recv_priv :=
  let c := rxcache s in
  let up l := <[Z.to_nat tid := v]> l in
  match w with
  | SeqBmcTid => mkStaRecv c (up (bmc_tid_rxseq s)) (nonqos_rxseq s) (nonqos_bmc_rxseq s) (duplicate_cnt s)
  | SeqTid => mkStaRecv (mkCache (up (tid_rxseq c)) (rx_iv c) (last_tid c)) (bmc_tid_rxseq s)
                (nonqos_rxseq s) (nonqos_bmc_rxseq s) (duplicate_cnt s)
  | SeqNonqosBmc => mkStaRecv c (bmc_tid_rxseq s) (nonqos_rxseq s) v (duplicate_cnt s)
  | SeqNonqos => mkStaRecv c (bmc_tid_rxseq s) v (nonqos_bmc_rxseq s) (duplicate_cnt s)
  end.

(** Sequence and fragment number as one word. *)
Definition seq_ctrl (a : rx_attrib) : Z :=
  u16 (Z.shiftl (a_seq_num a & 0xffff) 4 .| (a_frag_num a & 0xf)).

(* src: core/rtw_recv.c:893-946 recv_decache *)
Definition recv_decache (f : recv_frame) (s : sta_recv_priv) : res (Z * sta_recv_priv) :=
  let a := attrib f in
  let tid := a_priority a in
  if 15 <? tid then Ok (FAIL, s)
  else
    old <- get_rxseq (prxseq a) tid s ;;
    if seq_ctrl a =? old then
      Ok (FAIL, mkStaRecv (rxcache s) (bmc_tid_rxseq s) (nonqos_rxseq s) (nonqos_bmc_rxseq s)
                  (u32 (duplicate_cnt s + 1)))
    else Ok (SUCCESS, set_rxseq (prxseq a) tid (seq_ctrl a) s).

(** The checks in the order a data frame meets them, before anything of it is decrypted. *)
(* src: core/rtw_recv.c:2256-2284 validate_recv_data_frame *)
Definition data_frame_decache (is_sta : bool) (f : recv_frame) (s : sta_recv_priv) (iv_seq : list (list Z))
    : res (Z * sta_recv_priv * list (list Z)) :=
  '(ret, s) <- recv_decache f s ;;
  if ret =? FAIL then Ok (FAIL, s, iv_seq)
  else if negb (IS_MCAST (a_ra (attrib f))) then
    '(ret, c) <- recv_ucast_pn_decache f (rxcache s) ;;
    Ok (ret, mkStaRecv c (bmc_tid_rxseq s) (nonqos_rxseq s) (nonqos_bmc_rxseq s) (duplicate_cnt s), iv_seq)
  else
    '(ret, iv_seq) <- recv_bcast_pn_decache is_sta f iv_seq ;;
    Ok (ret, s, iv_seq).

(** ** Lemmas: numbers in memory *)

Lemma le_num_cons b l : le_num (b :: l) = b + 256 * le_num l.
Proof. done. Qed.

Lemma le_num_range l : bytes l -> 0 <= le_num l < 2 ^ (8 * zlen l).
Proof.
  induction l as [|b l IH]; intros Hb; [done|]. apply Forall_cons_1 in Hb as [Hb Hl]. specialize (IH Hl).
  rewrite le_num_cons, zlen_cons. unfold is_byte in Hb. pose proof (zlen_nonneg l).
  replace (8 * (1 + zlen l)) with (8 + 8 * zlen l) by lia. rewrite Z.pow_add_r by lia. lia.
Qed.

Lemma lor_byte_shift b x : is_byte b -> b .| Z.shiftl x 8 = b + 256 * x.
Proof. intros. rewrite lor_shiftl_add by (done || lia). lia. Qed.

Lemma get_le64_spec l : bytes l -> length l = 8%nat -> RTW_GET_LE64 l 0 = Ok (le_num l).
Proof.
  intros Hb Hl. do 8 (destruct l as [|? l]; [discriminate Hl|]). destruct l; [|discriminate Hl].
  repeat (apply Forall_cons_1 in Hb as [? Hb]).
  unfold RTW_GET_LE64. cbv [rd bind lookup list_lookup Z.ltb Z.compare Z.add Z.to_nat Pos.to_nat Pos.iter_op Nat.add].
  f_equal. rewrite !le_num_cons. change (le_num []) with 0.
  rewrite <- !lor_byte_shift by done. change (Z.shiftl 0 8) with 0. rewrite Z.lor_0_r.
  rewrite !Z.shiftl_lor, !Z.shiftl_shiftl by lia.
  repeat match goal with |- context [Z.add 8 ?k] => let v := eval vm_compute in (8 + k) in change (8 + k) with v end.
  apply Z.bits_inj'. intros n Hn. rewrite !Z.lor_spec. btauto.
Qed.

(** ** Lemmas: packet numbers *)

(** The six bytes of the packet number, lowest first. *)
Definition pn_of (alg : Z) (iv : list Z) : list Z :=
  (if alg =? TKIP then [byte_at iv 2; byte_at iv 0] else [byte_at iv 0; byte_at iv 1])
  ++ [byte_at iv 4; byte_at iv 5; byte_at iv 6; byte_at iv 7].

Lemma iv_to_pn_spec a iv b pn w alg : pn_alg alg = true -> zlen iv = 8 ->
  rtw_iv_to_pn (a ++ iv ++ b) (zlen a) pn w alg
  = Ok (SUCCESS, pn_of alg iv ++ drop 6 pn, if w then Some (Z.shiftr (byte_at iv 3) 6) else None).
Proof.
  intros Ha Hl. unfold rtw_iv_to_pn, pn_of. rewrite Ha. cbn [negb].
  assert (H0 : rd (a ++ iv ++ b) (zlen a) = Ok (byte_at iv 0)) by (rewrite <- (Z.add_0_r (zlen a)); apply rd_part; lia).
  rewrite H0, !rd_part by lia. cbn [bind]. destruct (alg =? TKIP); cbn [bind]; destruct w; done.
Qed.

Lemma pn_of_bytes alg iv : bytes iv -> bytes (pn_of alg iv).
Proof.
  intros Hb. unfold pn_of, bytes. apply Forall_app. split; [destruct (_ =? _)|];
    repeat (apply List.Forall_cons; [apply byte_at_byte; done|]); apply List.Forall_nil.
Qed.

Lemma pn_of_length alg iv : length (pn_of alg iv) = 6%nat.
Proof. unfold pn_of. rewrite length_app. destruct (_ =? _); done. Qed.

Lemma le_num_app l m : le_num (l ++ m) = le_num l + 2 ^ (8 * zlen l) * le_num m.
Proof.
  induction l as [|b l IH]; cbn [app]; [change (2 ^ (8 * zlen [])) with 1; change (le_num []) with 0; lia|].
  rewrite !le_num_cons, IH, zlen_cons. pose proof (zlen_nonneg l).
  replace (8 * (1 + zlen l)) with (8 + 8 * zlen l) by lia. rewrite Z.pow_add_r by lia. lia.
Qed.

Lemma le_num_pad l n : le_num (l ++ zeros n) = le_num l.
Proof.
  rewrite le_num_app. assert (H : le_num (zeros n) = 0) by (induction n as [|n IH]; [done | change (zeros (S n)) with (0 :: zeros n); rewrite le_num_cons, IH; lia]).
  lia.
Qed.

Lemma pn_range alg iv : bytes iv -> 0 <= le_num (pn_of alg iv) < 2 ^ 48.
Proof.
  intros Hb. pose proof (le_num_range _ (pn_of_bytes alg iv Hb)) as H.
  replace (zlen (pn_of alg iv)) with 6 in H by (unfold zlen; rewrite pn_of_length; done). done.
Qed.

Lemma ccmph_spec h : 0 <= h < 2 ^ 64 -> CCMPH_2_PN h = h mod 2 ^ 16 + 2 ^ 16 * (h / 2 ^ 32).
Proof.
  intros Hh. unfold CCMPH_2_PN. change 0x000000000000ffff with (Z.ones 16). rewrite Z.land_ones by lia.
  replace (Z.shiftr (h & 0xffffffff00000000) 16) with (Z.shiftl (h / 2 ^ 32) 16).
  - rewrite lor_shiftl_add; [lia | lia | apply Z.mod_pos_bound; lia].
  - rewrite <- Z.shiftr_div_pow2 by lia. apply Z.bits_inj'. intros n Hn.
    rewrite Z.shiftr_spec, Z.land_spec, Z.shiftl_spec by lia.
    change 0xffffffff00000000 with (Z.shiftl (Z.ones 32) 32). rewrite Z.shiftl_spec by lia.
    destruct (Z.ltb_spec n 16) as [Hlt|Hge].
    + rewrite (Z.testbit_neg_r _ (n - 16)), (Z.testbit_neg_r _ (n + 16 - 32)) by lia. btauto.
    + rewrite Z.shiftr_spec by lia. replace (n - 16 + 32) with (n + 16) by lia.
      destruct (Z.ltb_spec (n + 16 - 32) 32); [rewrite Z.ones_spec_low by lia; btauto|].
      rewrite (testbit_above 64 h (n + 16)) by lia. done.
Qed.

(** [CCMPH_2_PN] reads the same number. *)
Lemma ccmph_pn alg iv : ccmp_like alg = true -> bytes iv -> zlen iv = 8 ->
  CCMPH_2_PN (le_num iv) = le_num (pn_of alg iv).
Proof.
  intros Ha Hb Hl. unfold pn_of. replace (alg =? TKIP) with false by (unfold ccmp_like in Ha; unfold TKIP, AES, GCMP, CCMP_256, GCMP_256 in *; lia).
  pose proof (le_num_range iv Hb) as Hr. rewrite Hl in Hr.
  rewrite ccmph_spec by done. apply zlen_length with (n := 8%nat) in Hl.
  do 8 (destruct iv as [|? iv]; [discriminate Hl|]). destruct iv; [|discriminate Hl].
  repeat (apply Forall_cons_1 in Hb as [? Hb]). unfold byte_at. cbn [app].
  match goal with |- ?L mod _ + _ = _ => set (h := L) in * end.
  assert (E : h = (z + 256 * z0) + 2 ^ 16 * (z1 + 256 * z2) + 2 ^ 32 * (z3 + 256 * z4 + 65536 * (z5 + 256 * z6)))
    by (unfold h; rewrite !le_num_cons; change (le_num []) with 0; lia).
  unfold is_byte in *. replace (h mod 2 ^ 16) with (z + 256 * z0).
  - replace (h / 2 ^ 32) with (z3 + 256 * z4 + 65536 * (z5 + 256 * z6)).
    + unfold le_num. cbn [fold_right].
      cbv [lookup list_lookup Z.to_nat Pos.to_nat Pos.iter_op Nat.add default from_option id]. lia.
    + apply Z.div_unique with (r := z + 256 * z0 + 2 ^ 16 * (z1 + 256 * z2)); lia.
  - apply Z.mod_unique with (q := z1 + 256 * z2 + 2 ^ 16 * (z3 + 256 * z4 + 65536 * (z5 + 256 * z6))); lia.
Qed.

(** Half of the 48-bit number space lies ahead of a packet number. *)
Lemma pn_less_spec old new : 0 <= old < 2 ^ 48 -> 0 <= new < 2 ^ 48 ->
  PN_LESS_CHK old new = true <-> 0 < (new - old) mod 2 ^ 48 <= 2 ^ 47.
Proof.
  intros Ho Hn. unfold PN_LESS_CHK. change 0x800000000000 with (Z.shiftl 1 47).
  assert (E : (u64 (old - new) & Z.shiftl 1 47 =? 0) = negb (Z.testbit (old - new) 47)).
  { unfold u64. rewrite <- Z.land_ones by lia. apply eq_bool_prop_intro. rewrite !Is_true_true, Z.eqb_eq, negb_true_iff.
    split.
    - intros H. apply (f_equal (fun x => Z.testbit x 47)) in H. cbv beta in H.
      rewrite !Z.land_spec, Z.shiftl_spec, Z.ones_spec_low, Z.bits_0 in H by lia. change (Z.testbit 1 (47 - 47)) with true in H.
      rewrite !andb_true_r in H. done.
    - intros H. apply Z.bits_inj'. intros n Hn'. rewrite !Z.land_spec, Z.bits_0, Z.shiftl_spec by lia.
      destruct (Z.eq_dec n 47) as [->|]; [rewrite H; done|].
      replace (Z.testbit 1 (n - 47)) with false; [btauto|]. symmetry.
      destruct (Z.ltb_spec n 47); [apply Z.testbit_neg_r; lia | apply (testbit_above 1); lia]. }
  rewrite E, negb_involutive, Z.testbit_true by lia.
  destruct (Z_lt_le_dec new old) as [Hlt|Hge].
  - replace ((new - old) mod 2 ^ 48) with (new - old + 2 ^ 48) by (apply Z.mod_unique with (q := -1); lia).
    destruct (Z_lt_le_dec (old - new) (2 ^ 47)).
    + rewrite (Z.div_small (old - new)) by lia. change (0 mod 2) with 0. lia.
    + replace ((old - new) / 2 ^ 47) with 1 by (apply Z.div_unique with (r := old - new - 2 ^ 47); lia).
      change (1 mod 2) with 1. lia.
  - rewrite (Z.mod_small (new - old)) by lia. destruct (Z.eq_dec new old) as [->|].
    + rewrite Z.sub_diag. change (0 / 2 ^ 47) with 0. change (0 mod 2) with 0. lia.
    + destruct (Z_le_gt_dec (new - old) (2 ^ 47)).
      * replace ((old - new) / 2 ^ 47) with (-1) by (apply Z.div_unique with (r := old - new + 2 ^ 47); lia).
        change (-1 mod 2) with 1. lia.
      * replace ((old - new) / 2 ^ 47) with (-2) by (apply Z.div_unique with (r := old - new + 2 * 2 ^ 47); lia).
        change (-2 mod 2) with 0. lia.
Qed.

(** ** Theorems: packet numbers *)

Lemma shiftr6_byte x : is_byte x -> 0 <= Z.shiftr x 6 < 4.
Proof.
  unfold is_byte. intros. rewrite Z.shiftr_div_pow2 by lia.
  split; [apply Z.div_pos; lia | apply Z.div_lt_upper_bound; lia].
Qed.

(** A packet number put into an IV is found there again, with the key's id, by [rtw_iv_to_pn], for
    TKIP's byte order and for that of CCMP and GCMP; and for the latter the defragmenter's own reading, a mask
    and a shift on the 64-bit word, gives the same number. *)
Theorem pn_iv_roundtrip pn rest iv0 key alg :
  pn_alg alg = true -> bytes pn -> zlen pn = 6 -> zlen iv0 = 8 -> 0 <= key < 4 ->
  exists iv, rtw_pn_to_iv (pn ++ rest) iv0 key alg = Ok (SUCCESS, iv) /\ zlen iv = 8
    /\ rtw_iv_to_pn iv 0 (zeros 8) true alg = Ok (SUCCESS, pn ++ [0; 0], Some key)
    /\ (ccmp_like alg = true -> (h <- RTW_GET_LE64 iv 0 ;; Ok (CCMPH_2_PN h)) = Ok (le_num pn)).
Proof.
  intros Ha Hb Hl H0 Hk. apply zlen_length with (n := 6%nat) in Hl.
  do 6 (destruct pn as [|? pn]; [discriminate Hl|]). destruct pn; [|discriminate Hl].
  repeat (apply Forall_cons_1 in Hb as [? Hb]).
  assert (Hd : drop 8 iv0 = []) by (apply drop_ge; zlia).
  set (iv := (if alg =? TKIP then [z0; u8 ((z0 .| 0x20) & 0x7F); z] else [z; z0; 0])
             ++ [u8 (BIT 5 .| Z.shiftl (key & 0x3) 6); z1; z2; z3; z4]).
  assert (Hiv : bytes iv).
  { unfold iv, bytes. apply Forall_app. split; [destruct (_ =? _)|];
      repeat (apply List.Forall_cons; [solve [assumption | apply u8_range | unfold is_byte; lia]|]); apply List.Forall_nil. }
  assert (Hil : zlen iv = 8) by (unfold iv; rewrite zlen_app; destruct (_ =? _); done).
  assert (Hpn : pn_of alg iv = [z; z0; z1; z2; z3; z4]) by (unfold pn_of, iv; destruct (alg =? TKIP); reflexivity).
  assert (Hkey : Z.shiftr (byte_at iv 3) 6 = key).
  { replace (byte_at iv 3) with (u8 (BIT 5 .| Z.shiftl (key & 0x3) 6)) by (unfold iv; destruct (alg =? TKIP); reflexivity).
    assert (key = 0 \/ key = 1 \/ key = 2 \/ key = 3) as [->|[->|[->| ->]]] by lia; reflexivity. }
  exists iv. split; [|split; [done|split]].
  - unfold rtw_pn_to_iv. rewrite Ha, Hd. unfold iv. destruct (alg =? TKIP); reflexivity.
  - pose proof (iv_to_pn_spec [] iv [] (zeros 8) true alg Ha Hil) as E. rewrite Hpn, Hkey, app_nil_r in E. exact E.
  - intros Hc. rewrite get_le64_spec; [|done | apply zlen_length; done]. cbn [bind].
    rewrite (ccmph_pn alg) by done. rewrite Hpn. done.
Qed.

(** The frame carries [iv] behind its header. *)
Definition iv_at (f : recv_frame) (iv : list Z) : Prop :=
  exists a b, rf_mem f = a ++ iv ++ b /\ zlen a = rx_data f + a_hdrlen (attrib f) /\ zlen iv = 8 /\ bytes iv.

(** Four packet numbers of 48 bits. *)
Definition iv_seq_ok (s : list (list Z)) : Prop :=
  zlen s = 4 /\ Forall (fun e => bytes e /\ length e = 8%nat /\ le_num e < 2 ^ 48) s.

Definition frame_pn (f : recv_frame) (iv : list Z) : Z := le_num (pn_of (a_encrypt (attrib f)) iv).
Definition frame_key (iv : list Z) : Z := Z.shiftr (byte_at iv 3) 6.
Definition group_pn (s : list (list Z)) (key : Z) : Z := le_num (default [] (s !! Z.to_nat key)).

(** [new] is at most half the number space ahead of [old]. *)
Definition pn_ahead (old new : Z) : bool := (0 <? (new - old) mod 2 ^ 48) && ((new - old) mod 2 ^ 48 <=? 2 ^ 47).

Lemma valid_pn_spec old new : 0 <= old < 2 ^ 48 -> 0 <= new < 2 ^ 48 ->
  VALID_PN_CHK new old = (old =? 0) || pn_ahead old new.
Proof.
  intros Ho Hn. unfold VALID_PN_CHK. f_equal. apply eq_bool_prop_intro. rewrite !Is_true_true, pn_less_spec by done.
  unfold pn_ahead. lia.
Qed.

(** The comment's rule is the check's as long as the numbers are not too far apart. *)
Lemma valid_pn_comment old new : 0 <= old < 2 ^ 48 -> 0 <= new < 2 ^ 48 -> old <> 0 ->
  VALID_PN_CHK new old = (old <? new) <-> - 2 ^ 47 < new - old <= 2 ^ 47.
Proof.
  intros Ho Hn Hz. rewrite valid_pn_spec, (proj2 (Z.eqb_neq _ _) Hz) by done. cbn [orb]. unfold pn_ahead.
  assert (Hm : (new - old) mod 2 ^ 48 = if new <? old then new - old + 2 ^ 48 else new - old).
  { case_match; [symmetry; apply (Z.mod_unique_pos _ _ (-1)) | apply Z.mod_small]; lia. }
  rewrite Hm. case_match; lia.
Qed.

(** A legal number by the comment that the check refuses, and the other way round. *)
Example valid_pn_differs :
  VALID_PN_CHK (2 ^ 47 + 2) 1 = false /\ VALID_PN_CHK 0 (2 ^ 48 - 1) = true.
Proof. vm_compute. split; reflexivity. Qed.

Lemma bcast_spec f iv s : iv_at f iv -> pn_alg (a_encrypt (attrib f)) = true -> iv_seq_ok s ->
  let old := group_pn s (frame_key iv) in
  recv_bcast_pn_decache true f s =
    Ok (if (old =? 0) || pn_ahead old (frame_pn f iv)
        then (SUCCESS, <[Z.to_nat (frame_key iv) := pn_of (a_encrypt (attrib f)) iv ++ [0; 0]]> s)
        else (FAIL, s)).
Proof.
  intros (a & b & Hm & Hz & Hl & Hb) Ha [Hs HF] old.
  pose proof (shiftr6_byte _ (byte_at_byte iv 3 Hb)) as Hk.
  unfold recv_bcast_pn_decache. rewrite Ha. cbn [andb]. rewrite Hm, <- Hz, iv_to_pn_spec by done.
  cbn [bind default from_option id]. change (drop 6 (zeros 8)) with (zeros 2).
  rewrite get_le64_spec; [|apply Forall_app; split; [apply pn_of_bytes; done | apply bytes_by_compute; reflexivity]
                          | rewrite length_app, pn_of_length; done].
  cbn [bind]. rewrite le_num_pad. fold (frame_pn f iv).
  destruct (rd_in s (Z.shiftr (byte_at iv 3) 6)) as [e He]; [lia|]. rewrite He. cbn [bind].
  apply rd_Ok in He as [_ He]. pose proof He as Hin. rewrite Forall_lookup in HF.
  destruct (HF _ _ He) as (He1 & He2 & He3). rewrite get_le64_spec by done. cbn [bind].
  assert (Eo : le_num e = old) by (unfold old, group_pn, frame_key; rewrite Hin; done). rewrite Eo in *.
  assert (Hr : 0 <= old) by (rewrite <- Eo; apply le_num_range; done).
  rewrite valid_pn_spec; [|lia | apply pn_range; done].
  destruct (_ || _); cbn [negb]; [|done]. rewrite wr_in by lia. done.
Qed.

Lemma bcast_keeps_ok f iv s : iv_at f iv -> pn_alg (a_encrypt (attrib f)) = true -> iv_seq_ok s ->
  iv_seq_ok (<[Z.to_nat (frame_key iv) := pn_of (a_encrypt (attrib f)) iv ++ [0; 0]]> s).
Proof.
  intros (a & b & Hm & Hz & Hl & Hb) Ha [Hs HF]. split; [unfold zlen in *; rewrite length_insert; done|].
  apply Forall_insert; [done|]. change [0; 0] with (zeros 2). split; [|split].
  - apply Forall_app. split; [apply pn_of_bytes; done | apply bytes_by_compute; reflexivity].
  - rewrite length_app, pn_of_length. done.
  - rewrite le_num_pad. apply pn_range. done.
Qed.

(** C25: Replay protection of group frames at a station: of two frames under one group key, whose cipher has packet
    numbers, when the first was accepted with a number other than zero, the second is accepted exactly when its
    number is among the 2^47 that follow the first's, counted modulo 2^48, and its number is then the one kept; it is
    refused when it is the first's or any other. This is not the rule of the comment above [VALID_PN_CHK], "PN > old
    PN": the two agree exactly as long as the new number is at most 2^47 above the old one and less than 2^47 below
    it. A number further above is refused, one further below is accepted. The check knows nothing but the number: it
    comes before decryption. *)
Theorem group_pn_window f g iv jv s s1 :
  iv_at f iv -> iv_at g jv -> pn_alg (a_encrypt (attrib f)) = true -> pn_alg (a_encrypt (attrib g)) = true ->
  iv_seq_ok s -> frame_key jv = frame_key iv ->
  recv_bcast_pn_decache true f s = Ok (SUCCESS, s1) -> frame_pn f iv <> 0 ->
  iv_seq_ok s1
  /\ (pn_ahead (frame_pn f iv) (frame_pn g jv) = false -> recv_bcast_pn_decache true g s1 = Ok (FAIL, s1))
  /\ (pn_ahead (frame_pn f iv) (frame_pn g jv) = true ->
      exists s2, recv_bcast_pn_decache true g s1 = Ok (SUCCESS, s2) /\ group_pn s2 (frame_key iv) = frame_pn g jv)
  /\ (VALID_PN_CHK (frame_pn g jv) (frame_pn f iv) = (frame_pn f iv <? frame_pn g jv) <->
      - 2 ^ 47 < frame_pn g jv - frame_pn f iv <= 2 ^ 47).
Proof.
  intros Hf Hg Hfa Hga Hs Hk Hacc Hnz. rewrite (bcast_spec f iv) in Hacc by done.
  destruct (_ || _) in Hacc; [|discriminate]. injection Hacc as <-.
  pose proof (bcast_keeps_ok f iv s Hf Hfa Hs) as Hok. set (s1 := <[_ := _]> s) in *.
  assert (Hold : group_pn s1 (frame_key jv) = frame_pn f iv).
  { destruct Hf as (a & b & _ & _ & _ & Hb). pose proof (shiftr6_byte _ (byte_at_byte iv 3 Hb)). destruct Hs as [Hs _].
    unfold group_pn, s1. rewrite Hk, list_lookup_insert_eq by (unfold zlen, frame_key in *; lia). cbn [default from_option id].
    change [0; 0] with (zeros 2). rewrite le_num_pad. done. }
  split; [done|]. rewrite (bcast_spec g jv s1) by done. rewrite Hold.
  replace (frame_pn f iv =? 0) with false by lia. cbn [orb]. split; [intros ->; done|].
  split; [|apply valid_pn_comment; [apply pn_range; destruct Hf as (? & ? & _ & _ & _ & Hb); exact Hb | apply pn_range; destruct Hg as (? & ? & _ & _ & _ & Hb); exact Hb | done]].
  intros ->. eexists. split; [done|]. rewrite <- Hk.
  destruct Hg as (a & b & _ & _ & _ & Hb). pose proof (shiftr6_byte _ (byte_at_byte jv 3 Hb)). destruct Hok as [Hs1 _].
  unfold group_pn. rewrite list_lookup_insert_eq by (unfold zlen, frame_key in *; lia). cbn [default from_option id].
  change [0; 0] with (zeros 2). rewrite le_num_pad. done.
Qed.

Lemma ucast_pn_spec f iv c e :
  iv_at f iv -> 0 <= a_priority (attrib f) <= 15 -> pn_alg (a_encrypt (attrib f)) = true ->
  zlen (rx_iv c) = 16 -> rx_iv c !! Z.to_nat (a_priority (attrib f)) = Some e -> zlen e = 8 -> bytes e ->
  let old := le_num (pn_of (a_encrypt (attrib f)) e) in
  recv_ucast_pn_decache f c =
    Ok (SUCCESS, if (old =? 0) || pn_ahead old (frame_pn f iv)
                 then mkCache (tid_rxseq c) (<[Z.to_nat (a_priority (attrib f)) := iv]> (rx_iv c)) (a_priority (attrib f))
                 else c).
Proof.
  intros (a & b & Hm & Hz & Hl & Hb) Ht Ha Hc He Hel Heb old. unfold recv_ucast_pn_decache.
  rewrite (proj2 (Z.ltb_ge _ _)), Ha by lia. rewrite Hm, <- Hz, iv_to_pn_spec by done. cbn [bind].
  change (drop 6 (zeros 8)) with (zeros 2).
  assert (Hp : forall l, bytes l -> RTW_GET_LE64 (pn_of (a_encrypt (attrib f)) l ++ zeros 2) 0
                                    = Ok (le_num (pn_of (a_encrypt (attrib f)) l))).
  { intros l Hlb. rewrite get_le64_spec, le_num_pad; [done | apply Forall_app; split;
      [apply pn_of_bytes; done | apply bytes_by_compute; reflexivity] | rewrite length_app, pn_of_length; done]. }
  rewrite Hp by done. cbn [bind]. replace (rd (rx_iv c) _) with (Ok e) by (symmetry; apply rd_Ok; split; [lia|done]).
  cbn [bind]. replace (rtw_iv_to_pn e 0) with (rtw_iv_to_pn ([] ++ e ++ []) (zlen (@nil Z))) by (rewrite app_nil_r; done).
  rewrite iv_to_pn_spec by done. cbn [bind]. rewrite drop_app_length' by (rewrite pn_of_length; done). rewrite Hp by done.
  cbn [bind]. fold (frame_pn f iv) old. rewrite valid_pn_spec by (apply pn_range; done).
  destruct (_ || _); cbn [negb]; [|done]. rewrite <- Hl at 1. rewrite rdn_app. cbn [bind]. rewrite wr_in by lia. done.
Qed.

(** For unicast frames the same number check refuses nothing: with a traffic identifier in range every frame
    passes, replayed or not, and only the remembered IV depends on the comparison. *)
Theorem ucast_pn_never_refuses f iv c e :
  iv_at f iv -> 0 <= a_priority (attrib f) <= 15 -> pn_alg (a_encrypt (attrib f)) = true ->
  zlen (rx_iv c) = 16 -> rx_iv c !! Z.to_nat (a_priority (attrib f)) = Some e -> zlen e = 8 -> bytes e ->
  let old := le_num (pn_of (a_encrypt (attrib f)) e) in
  recv_ucast_pn_decache f c =
    Ok (SUCCESS, if (old =? 0) || pn_ahead old (frame_pn f iv)
                 then mkCache (tid_rxseq c) (<[Z.to_nat (a_priority (attrib f)) := iv]> (rx_iv c)) (a_priority (attrib f))
                 else c).
Proof. apply ucast_pn_spec. Qed.

(** ** Theorems: duplicates *)

#[export] Instance rxseq_eq_dec : EqDecision rxseq.
Proof. solve_decision. Defined.

Definition sta_ok (s : sta_recv_priv) : Prop := zlen (tid_rxseq (rxcache s)) = 16 /\ zlen (bmc_tid_rxseq s) = 16.

(** A counter per traffic identifier, or one for all. *)
Definition per_tid (w : rxseq) : bool := match w with SeqBmcTid | SeqTid => true | _ => false end.
Definition same_counter (w w' : rxseq) (t t' : Z) : Prop := w = w' /\ (per_tid w = true -> t = t').

Lemma get_rxseq_in w t s : sta_ok s -> 0 <= t <= 15 -> exists v, get_rxseq w t s = Ok v.
Proof. intros [H1 H2] Ht. destruct w; cbn; eauto; apply rd_in; lia. Qed.

Lemma rd_insert (l : list Z) t t' v : 0 <= t < zlen l -> 0 <= t' ->
  rd (<[Z.to_nat t := v]> l) t' = if decide (t = t') then Ok v else rd l t'.
Proof.
  intros Ht Ht'. unfold rd. rewrite (proj2 (Z.ltb_ge _ _)) by lia. case_decide as E.
  - subst. rewrite list_lookup_insert_eq by zlia. done.
  - rewrite list_lookup_insert_ne by lia. done.
Qed.

Lemma set_rxseq_spec w w' t t' v s : sta_ok s -> 0 <= t <= 15 -> 0 <= t' <= 15 ->
  (same_counter w w' t t' -> get_rxseq w' t' (set_rxseq w t v s) = Ok v)
  /\ (~ same_counter w w' t t' -> get_rxseq w' t' (set_rxseq w t v s) = get_rxseq w' t' s)
  /\ sta_ok (set_rxseq w t v s).
Proof.
  intros [H1 H2] Ht Ht'. unfold same_counter, sta_ok. split; [|split].
  - intros [<- He]. destruct w; cbn in *; try done; rewrite rd_insert by lia; rewrite decide_True by auto; done.
  - intros Hne. destruct w, w'; cbn in *; try done; try (destruct Hne; split; [done | intros [=]]; fail);
      rewrite rd_insert by lia; rewrite decide_False; try done; intros ->; apply Hne; done.
  - destruct w; cbn; unfold zlen in *; rewrite ?length_insert; done.
Qed.

(** A frame is refused exactly when its sequence and fragment number are those last seen in its class
    (quality of service or not, group or not) and traffic identifier; otherwise they are remembered, no other counter
    changes, and the frame that comes again is refused. *)
Theorem decache_refuses_repeats f s old :
  sta_ok s -> 0 <= a_priority (attrib f) <= 15 ->
  get_rxseq (prxseq (attrib f)) (a_priority (attrib f)) s = Ok old ->
  exists s', recv_decache f s = Ok (if seq_ctrl (attrib f) =? old then FAIL else SUCCESS, s')
    /\ get_rxseq (prxseq (attrib f)) (a_priority (attrib f)) s' = Ok (seq_ctrl (attrib f))
    /\ (forall w t, 0 <= t <= 15 -> ~ same_counter (prxseq (attrib f)) w (a_priority (attrib f)) t ->
          get_rxseq w t s' = get_rxseq w t s)
    /\ exists s'', recv_decache f s' = Ok (FAIL, s'').
Proof.
  intros Hs Ht Ho. unfold recv_decache. rewrite (proj2 (Z.ltb_ge _ _)), Ho by lia. cbn [bind].
  destruct (Z.eqb_spec (seq_ctrl (attrib f)) old) as [->|Hne].
  - eexists. split; [done|].
    match goal with |- context [mkStaRecv ?a ?b ?c ?d ?n] => set (s1 := mkStaRecv a b c d n) end.
    assert (Hg : forall w t, get_rxseq w t s1 = get_rxseq w t s) by (intros []; done).
    rewrite !Hg, Ho. cbn [bind]. rewrite Z.eqb_refl. eauto.
  - pose proof (set_rxseq_spec (prxseq (attrib f)) (prxseq (attrib f)) _ _ (seq_ctrl (attrib f)) s Hs Ht Ht) as (E & _ & _).
    specialize (E (conj eq_refl (fun _ => eq_refl))). eexists. split; [done|]. split; [done|]. split.
    + intros w t Htt Hn. apply (set_rxseq_spec _ w _ t (seq_ctrl (attrib f)) s Hs Ht Htt). done.
    + rewrite E. cbn [bind]. rewrite Z.eqb_refl. eauto.
Qed.

(** ** Examples *)

Definition ex_pn_frame (encrypt : Z) (iv : list Z) : recv_frame :=
  mkRf 0 (zeros 24 ++ iv ++ zeros 20) 0 52 52 (mkRa (mkRx encrypt 24 8 0 ex_src [0xff; 0xff; 0xff; 0xff; 0xff; 0xff]) 8 2 0 0 0 5 0 0 1 1 ex_dst ex_src ex_src 0 0 0 0) 0.

Definition ex_iv5 : list Z := [5; 0; 0; 0x60; 0; 0; 0; 0].
Definition ex_iv7 : list Z := [7; 0; 0; 0x60; 0; 0; 0; 0].

Lemma ex_pn_iv e iv : bytes iv -> zlen iv = 8 -> iv_at (ex_pn_frame e iv) iv.
Proof. intros. exists (zeros 24), (zeros 20). done. Qed.

Lemma ex_iv_seq_ok : iv_seq_ok (replicate 4 (zeros 8)).
Proof. split; [done|]. repeat constructor; unfold is_byte; lia. Qed.

Lemma pn_iv_roundtrip_witness :
  exists iv, rtw_pn_to_iv [1; 2; 3; 4; 5; 6; 0; 0] (zeros 8) 2 AES = Ok (SUCCESS, iv) /\ zlen iv = 8
    /\ rtw_iv_to_pn iv 0 (zeros 8) true AES = Ok (SUCCESS, [1; 2; 3; 4; 5; 6; 0; 0], Some 2).
Proof.
  destruct (pn_iv_roundtrip [1; 2; 3; 4; 5; 6] [0; 0] (zeros 8) 2 AES) as (iv & H1 & H2 & H3 & _);
    [reflexivity | apply bytes_by_compute; reflexivity | reflexivity | reflexivity | lia |].
  exists iv. split; [exact H1 | split; [exact H2 | exact H3]].
Defined.

Lemma group_pn_window_witness :
  exists s1 s2, recv_bcast_pn_decache true (ex_pn_frame AES ex_iv5) (replicate 4 (zeros 8)) = Ok (SUCCESS, s1)
    /\ recv_bcast_pn_decache true (ex_pn_frame AES ex_iv5) s1 = Ok (FAIL, s1)
    /\ recv_bcast_pn_decache true (ex_pn_frame AES ex_iv7) s1 = Ok (SUCCESS, s2).
Proof.
  assert (B5 : bytes ex_iv5) by (apply bytes_by_compute; reflexivity).
  assert (B7 : bytes ex_iv7) by (apply bytes_by_compute; reflexivity).
  assert (N5 : frame_pn (ex_pn_frame AES ex_iv5) ex_iv5 <> 0) by (vm_compute; discriminate).
  eexists. destruct (group_pn_window (ex_pn_frame AES ex_iv5) (ex_pn_frame AES ex_iv7) ex_iv5 ex_iv7 (replicate 4 (zeros 8)) _
    (ex_pn_iv _ _ B5 eq_refl) (ex_pn_iv _ _ B7 eq_refl) eq_refl eq_refl ex_iv_seq_ok eq_refl eq_refl N5) as (_ & _ & H7 & _).
  destruct (group_pn_window (ex_pn_frame AES ex_iv5) (ex_pn_frame AES ex_iv5) ex_iv5 ex_iv5 (replicate 4 (zeros 8)) _
    (ex_pn_iv _ _ B5 eq_refl) (ex_pn_iv _ _ B5 eq_refl) eq_refl eq_refl ex_iv_seq_ok eq_refl eq_refl N5) as (_ & H5 & _ & _).
  destruct (H7 eq_refl) as (s2 & E7 & _).
  exists s2. split; [reflexivity|]. split; [exact (H5 eq_refl) | exact E7].
Defined.

Lemma ucast_pn_never_refuses_witness :
  recv_ucast_pn_decache (ex_pn_frame AES ex_iv5) (mkCache (replicate 16 0) (replicate 16 ex_iv7) 0)
  = Ok (SUCCESS, mkCache (replicate 16 0) (replicate 16 ex_iv7) 0).
Proof.
  assert (B5 : bytes ex_iv5) by (apply bytes_by_compute; reflexivity).
  assert (B7 : bytes ex_iv7) by (apply bytes_by_compute; reflexivity).
  exact (ucast_pn_never_refuses (ex_pn_frame AES ex_iv5) ex_iv5 (mkCache (replicate 16 0) (replicate 16 ex_iv7) 0) ex_iv7
           (ex_pn_iv _ _ B5 eq_refl) ltac:(split; discriminate) eq_refl eq_refl eq_refl eq_refl B7).
Defined.

Lemma decache_refuses_repeats_witness :
  exists s', recv_decache (ex_pn_frame AES ex_iv5) init_sta_recv = Ok (SUCCESS, s')
    /\ exists s'', recv_decache (ex_pn_frame AES ex_iv5) s' = Ok (FAIL, s'').
Proof.
  destruct (decache_refuses_repeats (ex_pn_frame AES ex_iv5) init_sta_recv 0xffff) as (s' & H1 & _ & _ & H2);
    [split; reflexivity | split; discriminate | reflexivity |].
  exists s'. split; [exact H1 | exact H2].
Defined.
