(* ===== verification/Defrag.v ===== *)
(** * Reassembly of fragments

    [rtw_alloc_recvframe], [rtw_free_recvframe], [recvframe_defrag], [recvframe_chk_defrag] and
    [recvframe_chkmic] of [core/rtw_recv.c]: the pool of frames, the queue of a
    station's fragments, their checks and their joining, and the Michael check of the result. *)
From Stdlib Require Import ZArith Lia Bool.
From stdpp Require Import base option list numbers.
From S2P Require Import Prelude Sec Michael TkipKey Tkip Bip RecvFrame RecvPn.
Local Open Scope Z_scope.

(** ** The pool *)

Definition NR_RECVFRAME := 256.

(** [free_recv_queue] as the slots of its frames, and [free_recvframe_cnt]. *)
(* src: include/rtw_recv.h:408-416 recv_priv *)
Record recv_pool : Type := mkPool { free_q : list nat; free_cnt : Z }.

(* src: core/rtw_recv.c:213-240 _rtw_alloc_recvframe *)
Definition rtw_alloc_recvframe (p : recv_pool) : option nat * recv_pool :=
  match free_q p with
  | [] => (None, p)
  | s :: q => (Some s, mkPool q (u32 (free_cnt p - 1)))
  end.

(** The frame is unlinked from the list it is on, the free queue too, and put at that queue's end. *)
(* src: core/rtw_recv.c:266-303 rtw_free_recvframe *)
Definition rtw_free_recvframe (s : nat) (p : recv_pool) : recv_pool :=
  mkPool (filter (.≠ s) (free_q p) ++ [s]) (u32 (free_cnt p + 1)).

(* src: core/rtw_recv.c:362-385 rtw_free_recvframe_queue *)
Definition rtw_free_recvframe_queue (q : list recv_frame) (p : recv_pool) : recv_pool :=
  foldl (fun p f => rtw_free_recvframe (rf_slot f) p) p q.

(** ** Joining the fragments *)

Definition with_icv_len (f : recv_frame) (n : Z) : recv_frame :=
  let a := attrib f in
  with_attrib f (mkRa (a_sec a) n (a_to_fr_ds a) (a_amsdu a) (a_qos a) (a_priority a) (a_seq_num a)
                   (a_frag_num a) (a_mfrag a) (a_privacy a) (a_bdecrypted a) (a_dst a) (a_src a) (a_bssid a)
                   (a_ack_policy a) (a_pw_save a) (a_mdata a) (a_order a)).

(** The packet number of a fragment protected by CCMP or GCMP. *)
Definition frag_pn (f : recv_frame) : res Z :=
  h <- RTW_GET_LE64 (rf_mem f) (rx_data f + a_hdrlen (attrib f)) ;; Ok (CCMPH_2_PN h).

(** The body of the loop: fragment [nf] behind what [pf] holds; [None] drops everything. *)
(* src: core/rtw_recv.c:2751-2817 recvframe_defrag *)
Definition defrag_turn (pf : recv_frame) (cur_pn curfragnum : Z) (nf : recv_frame)
    : res (option (recv_frame * Z * Z)) :=
  let na := attrib nf in
  chk <- (if ccmp_like (a_encrypt na) then
            pkt_pn <- frag_pn nf ;;
            Ok (if pkt_pn =? u64 (cur_pn + 1) then Some pkt_pn else None)
          else Ok (Some cur_pn)) ;;
  match chk with
  | None => Ok None
  | Some cur_pn =>
      if negb (keytrack pf =? keytrack nf) then Ok None
      else if negb (curfragnum =? a_frag_num na) then Ok None
      else
        let wlanhdr_offset := u8 (a_hdrlen na + a_iv_len na) in
        let nf := snd (recvframe_pull nf wlanhdr_offset) in
        if rx_end pf - rx_tail pf <? rf_len nf then Ok None
        else
          let pf := snd (recvframe_pull_tail pf (a_icv_len (attrib pf))) in
          src <- rdn (rf_mem nf) (rx_data nf) (rf_len nf) ;;
          m <- wrn (rf_mem pf) (rx_tail pf) src ;;
          let pf := snd (recvframe_put (with_mem pf m) (rf_len nf)) in
          Ok (Some (with_icv_len pf (a_icv_len na), cur_pn, u8 (curfragnum + 1)))
  end.

(** [while (rtw_end_of_queue_search(phead, plist) == _FALSE)] *)
Fixpoint defrag_turns (pf : recv_frame) (cur_pn curfragnum : Z) (q : list recv_frame) : res (option recv_frame) :=
  match q with
  | [] => Ok (Some pf)
  | nf :: q =>
      r <- defrag_turn pf cur_pn curfragnum nf ;;
      match r with
      | None => Ok None
      | Some (pf, cur_pn, curfragnum) => defrag_turns pf cur_pn curfragnum q
      end
  end.

(** The queue is empty afterwards; the first frame is the result, or joins the others in the pool. With an
    empty queue the head of the list is taken for a frame. *)
(* src: core/rtw_recv.c:2698-2826 recvframe_defrag *)
Definition recvframe_defrag (q : list recv_frame) (p : recv_pool) : res (option recv_frame * recv_pool) :=
  match q with
  | [] => Fault BadPtr
  | pf :: rest =>
      cur_pn <- (if ccmp_like (a_encrypt (attrib pf)) then frag_pn pf else Ok 0) ;;
      r <- (if negb (0 =? a_frag_num (attrib pf)) then Ok None else defrag_turns pf cur_pn 1 rest) ;;
      match r with
      | None => Ok (None, rtw_free_recvframe_queue rest (rtw_free_recvframe (rf_slot pf) p))
      | Some g => Ok (Some g, rtw_free_recvframe_queue rest p)
      end
  end.

(** ** The Michael check *)

(** What it needs to know: the station's receive MIC key ([None]: no such station), the group
    MIC keys, [binstallGrpkey], the id of the group key in use ([pmlmeinfo->key_index]). *)
Record mic_env : Type := mkMicEnv {
  me_sta : option (list Z);
  me_grp : list (list Z);
  me_installed : bool;
  me_key_index : Z }.

(** What else a check does: [rtw_handle_tkip_mic_err] is called, for the group or not; [bcheck_grpkey] is set. *)
Inductive mic_event : Type := MicErr (group : bool) | GrpKeyChecked.

(** The result, the frame, the event. *)
(* src: core/rtw_recv.c:493-598 recvframe_chkmic *)
Definition recvframe_chkmic (e : mic_env) (f : recv_frame) : res (Z * recv_frame * option mic_event) :=
  let a := attrib f in
  if negb (a_encrypt a =? TKIP) then Ok (SUCCESS, f, None)
  else match me_sta e with
  | None => Ok (SUCCESS, snd (recvframe_pull_tail f 8), None)
  | Some stakey =>
      let mcast := IS_MCAST (a_ra a) in
      if mcast && negb (me_installed e) then Ok (FAIL, f, None)
      else
        mickey <- (if mcast then rd (me_grp e) (a_key_index a) else Ok stakey) ;;
        if rf_len f <=? a_hdrlen a then Ok (FAIL, f, None)
        else
          let datalen := u32 (rf_len f - a_hdrlen a - a_iv_len a - a_icv_len a - 8) in
          let payload := rx_data f + a_hdrlen a + a_iv_len a in
          if (rx_tail f - rx_data f <? datalen) || (rx_end f - rx_data f <? datalen) then Ok (FAIL, f, None)
          else
            miccode <- rtw_seccalctkipmic mickey (rf_mem f) (rx_data f) payload datalen (a_priority a) ;;
            pframemic <- rdn (rf_mem f) (payload + datalen) 8 ;;
            let f' := snd (recvframe_pull_tail f 8) in
            if list_eqb miccode pframemic then Ok (SUCCESS, f', if mcast then Some GrpKeyChecked else None)
            else
              let brpt_micerror := negb (mcast && negb (a_key_index a =? me_key_index e)) in
              Ok (FAIL, f', if negb (a_bdecrypted a =? 0) && brpt_micerror then Some (MicErr mcast) else None)
  end.

(** ** Queueing *)

(** The station a fragment belongs to, by transmitter; frames other than data from a stranger go to the
    entry for broadcast. *)
(* src: core/rtw_recv.c:2852-2864 recvframe_chk_defrag *)
Definition defrag_sta {A} (f : recv_frame) (sta bcmc : option A) : res (option A) :=
  match sta with
  | Some s => Ok (Some s)
  | None => fc <- rd (rf_mem f) (rx_data f) ;; Ok (if (fc & 0x0c) =? 0x08 then None else bcmc)
  end.

(** A station: the number of its key, and its queue of fragments. *)
Record defrag_state : Type := mkDs { ds_keytrack : Z; ds_q : list recv_frame }.

(** The frame to go on with, the station and the pool. *)
(* src: core/rtw_recv.c:2866-2929 recvframe_chk_defrag *)
Definition chk_defrag_queue (f : recv_frame) (psta : option defrag_state) (p : recv_pool)
    : res (option recv_frame * option defrag_state * recv_pool) :=
  let ismfrag := a_mfrag (attrib f) in
  let fragnum := a_frag_num (attrib f) in
  let whole := (ismfrag =? 0) && (fragnum =? 0) in
  if negb whole && IS_MCAST (a_ra (attrib f)) then Ok (None, psta, rtw_free_recvframe (rf_slot f) p)
  else
    let f := match psta with Some s => if whole then f else with_keytrack f (ds_keytrack s) | None => f end in
    if ismfrag =? 1 then
      match psta with
      | Some s =>
          let '(q, p) := if fragnum =? 0 then ([], rtw_free_recvframe_queue (ds_q s) p) else (ds_q s, p) in
          Ok (None, Some (mkDs (ds_keytrack s) (q ++ [f])), p)
      | None => Ok (None, None, rtw_free_recvframe (rf_slot f) p)
      end
    else if (ismfrag =? 0) && negb (fragnum =? 0) then
      match psta with
      | Some s =>
          '(r, p) <- recvframe_defrag (ds_q s ++ [f]) p ;;
          Ok (r, Some (mkDs (ds_keytrack s) []), p)
      | None => Ok (None, None, rtw_free_recvframe (rf_slot f) p)
      end
    else Ok (if whole then Some f else None, psta, p).

(* src: core/rtw_recv.c:2829-2943 recvframe_chk_defrag *)
Definition recvframe_chk_defrag (e : mic_env) (f : recv_frame) (sta bcmc : option defrag_state) (p : recv_pool)
    : res (option recv_frame * option defrag_state * recv_pool * option mic_event) :=
  psta <- defrag_sta f sta bcmc ;;
  '(r, psta, p) <- chk_defrag_queue f psta p ;;
  match r with
  | Some g =>
      if a_privacy (attrib g) =? 0 then Ok (Some g, psta, p, None)
      else
        '(ret, g, ev) <- recvframe_chkmic e g ;;
        if ret =? FAIL then Ok (None, psta, rtw_free_recvframe (rf_slot g) p, ev)
        else Ok (Some g, psta, p, ev)
  | None => Ok (None, psta, p, None)
  end.

(** ** Lemmas: the pool *)

Definition pool_ok (p : recv_pool) : Prop := NoDup (free_q p) /\ free_cnt p = zlen (free_q p) /\ free_cnt p < 2 ^ 31.

Definition slots (q : list recv_frame) : list nat := map rf_slot q.

Lemma free_new s p : s ∉ free_q p -> free_cnt p = zlen (free_q p) -> free_cnt p < 2 ^ 32 - 1 ->
  rtw_free_recvframe s p = mkPool (free_q p ++ [s]) (free_cnt p + 1).
Proof.
  intros Hs Hc Hl. unfold rtw_free_recvframe. rewrite filter_notin by done.
  pose proof (zlen_nonneg (free_q p)). rewrite u32_small by lia. done.
Qed.

Lemma free_queue_spec q : forall p, NoDup (slots q ++ free_q p) -> free_cnt p = zlen (free_q p) ->
  free_cnt p + zlen q < 2 ^ 32 ->
  rtw_free_recvframe_queue q p = mkPool (free_q p ++ slots q) (free_cnt p + zlen q).
Proof.
  induction q as [|f q IH]; intros p Hn Hc Hl.
  { unfold rtw_free_recvframe_queue. cbn. rewrite app_nil_r, Z.add_0_r. destruct p; done. }
  change (slots (f :: q)) with (rf_slot f :: slots q) in *. rewrite zlen_cons in *.
  change (rtw_free_recvframe_queue (f :: q) p) with (rtw_free_recvframe_queue q (rtw_free_recvframe (rf_slot f) p)).
  cbn [app] in Hn. apply list.NoDup_cons in Hn as [Hf Hn]. apply not_elem_of_app in Hf as [Hf1 Hf2].
  pose proof (zlen_nonneg q). rewrite free_new by (done || lia). rewrite IH; cbn [free_q free_cnt].
  - rewrite <- app_assoc. cbn [app]. f_equal. lia.
  - rewrite app_assoc. apply list.NoDup_app. split; [done|]. split; [|apply list.NoDup_singleton].
    intros x Hx ->%list_elem_of_singleton. apply elem_of_app in Hx as [?|?]; done.
  - rewrite zlen_app, Hc. done.
  - lia.
Qed.

Lemma defrag_turn_slot pf c n nf g c' n' : defrag_turn pf c n nf = Ok (Some (g, c', n')) -> rf_slot g = rf_slot pf.
Proof.
  unfold defrag_turn. intros H. res_inv. destruct a as [pn|]; [|discriminate]. repeat (case_match; [discriminate|]).
  res_inv. unfold recvframe_put, recvframe_pull_tail in *. repeat case_match; reflexivity.
Qed.

Lemma defrag_turns_slot q : forall pf c n g, defrag_turns pf c n q = Ok (Some g) -> rf_slot g = rf_slot pf.
Proof.
  induction q as [|nf q IH]; intros pf c n g H; cbn [defrag_turns] in H; [by injection H as <-|].
  res_inv. destruct a as [[[pf' c'] n']|]; [|discriminate]. apply defrag_turn_slot in Ha. apply IH in H. congruence.
Qed.

Lemma chkmic_slot e f ret g ev : recvframe_chkmic e f = Ok (ret, g, ev) -> rf_slot g = rf_slot f.
Proof.
  assert (Hp : forall n, rf_slot (snd (recvframe_pull_tail f n)) = rf_slot f)
    by (intros n; unfold recvframe_pull_tail; case_match; done).
  unfold recvframe_chkmic. intros H. repeat (case_match; res_inv; try done); auto.
Qed.

(** Everything a frame, a station's queue and the pool hold. *)
Definition owned (r : option recv_frame) (ds : option defrag_state) (p : recv_pool) : list nat :=
  match r with Some g => [rf_slot g] | None => [] end
  ++ slots (match ds with Some s => ds_q s | None => [] end) ++ free_q p.

Definition pool_counts (p : recv_pool) : Prop := free_cnt p = zlen (free_q p).

(** [p'] holds what [p] held and [l] besides. *)
Definition pool_gains (l : list nat) (p p' : recv_pool) : Prop :=
  free_q p' ≡ₚ l ++ free_q p /\ pool_counts p'.

Lemma free_one_gains s p : NoDup (s :: free_q p) -> pool_counts p -> zlen (free_q p) < 2 ^ 32 - 1 ->
  pool_gains [s] p (rtw_free_recvframe s p).
Proof.
  intros [Hs _]%list.NoDup_cons Hc Hl. unfold pool_gains, pool_counts in *. rewrite free_new by (done || lia). cbn [free_q free_cnt].
  split; [rewrite Permutation_app_comm; done | rewrite zlen_app, Hc; done].
Qed.

Lemma free_queue_gains q p : NoDup (slots q ++ free_q p) -> pool_counts p -> zlen (slots q ++ free_q p) < 2 ^ 32 ->
  pool_gains (slots q) p (rtw_free_recvframe_queue q p).
Proof.
  intros Hn Hc Hl. unfold pool_gains, pool_counts in *. rewrite zlen_app in Hl.
  assert (Hz : zlen (slots q) = zlen q) by (unfold zlen, slots; rewrite length_map; done).
  rewrite free_queue_spec by (done || lia). cbn [free_q free_cnt].
  split; [apply Permutation_app_comm | rewrite zlen_app, Hc; lia].
Qed.

Lemma defrag_gains q p r p' : recvframe_defrag q p = Ok (r, p') ->
  NoDup (slots q ++ free_q p) -> pool_counts p -> zlen (slots q ++ free_q p) < 2 ^ 32 - 1 ->
  owned r None p' ≡ₚ slots q ++ free_q p /\ pool_counts p'.
Proof.
  intros H Hn Hc Hl. destruct q as [|pf q]; [discriminate|]. unfold recvframe_defrag in H. res_inv.
  change (slots (pf :: q)) with (rf_slot pf :: slots q) in *. cbn [app] in *. rewrite zlen_cons in Hl.
  apply list.NoDup_cons in Hn as [Hs Hn]. pose proof Hn as (Hq & _ & Hp)%list.NoDup_app.
  destruct a0 as [g|]; res_inv; unfold owned; cbn [app slots map].
  - apply free_queue_gains in Hn as [HP HC]; [|done | lia]. rewrite HP. split; [|done].
    replace (rf_slot g) with (rf_slot pf); [done|]. destruct (0 =? _); [|discriminate].
    symmetry. eapply defrag_turns_slot. exact Ha0.
  - apply not_elem_of_app in Hs as [Hs1 Hs2]. rewrite zlen_app in Hl. pose proof (zlen_nonneg (slots q)).
    destruct (free_one_gains (rf_slot pf) p) as [HP HC]; [apply list.NoDup_cons; done | done | lia|].
    destruct (free_queue_gains q (rtw_free_recvframe (rf_slot pf) p)) as [HP' HC'].
    + rewrite HP. cbn [app]. rewrite <- Permutation_middle. apply list.NoDup_cons. split; [|done].
      apply not_elem_of_app. done.
    + done.
    + unfold zlen in *. rewrite length_app, (Permutation_length HP). cbn [app length]. lia.
    + rewrite HP', HP. cbn [app]. rewrite <- Permutation_middle. done.
Qed.

Lemma slots_app q f : slots (q ++ [f]) = slots q ++ [rf_slot f].
Proof. unfold slots. rewrite map_app. done. Qed.

Definition is_flag (x : Z) : Prop := x = 0 \/ x = 1.

(** A fragment goes into its station's queue, a first one over what lay there. *)
Lemma enqueue_gains f s p first q p' :
  (if first : bool then ([], rtw_free_recvframe_queue (ds_q s) p) else (ds_q s, p)) = (q, p') ->
  NoDup (rf_slot f :: slots (ds_q s) ++ free_q p) -> pool_counts p -> zlen (slots (ds_q s) ++ free_q p) < 2 ^ 32 - 2 ->
  owned None (Some (mkDs (ds_keytrack s) (q ++ [f]))) p' ≡ₚ rf_slot f :: slots (ds_q s) ++ free_q p /\ pool_counts p'.
Proof.
  intros E [_ Hn]%list.NoDup_cons Hc Hl. unfold owned. cbn [ds_q app]. rewrite slots_app.
  destruct first; injection E as <- <-; cbn [slots map app].
  - destruct (free_queue_gains (ds_q s) p) as [HP HC]; [done | done | lia|]. rewrite HP. done.
  - split; [|done]. rewrite <- app_assoc. cbn [app]. rewrite Permutation_middle. done.
Qed.

Lemma chk_queue_gains f psta p r psta' p' : chk_defrag_queue f psta p = Ok (r, psta', p') ->
  NoDup (owned (Some f) psta p) -> pool_counts p -> zlen (owned (Some f) psta p) < 2 ^ 32 - 2 ->
  is_flag (a_mfrag (attrib f)) ->
  owned r psta' p' ≡ₚ owned (Some f) psta p /\ pool_counts p'.
Proof.
  intros H Hn Hc Hl Hfl. unfold chk_defrag_queue in H. unfold owned in Hn, Hl. cbn [app] in Hn, Hl. rewrite zlen_cons in Hl.
  assert (Hfree : owned None psta (rtw_free_recvframe (rf_slot f) p) ≡ₚ owned (Some f) psta p
                  /\ pool_counts (rtw_free_recvframe (rf_slot f) p)).
  { apply list.NoDup_cons in Hn as [[Hs1 Hs2]%not_elem_of_app (_ & _ & Hp)%list.NoDup_app]. rewrite zlen_app in Hl.
    destruct (free_one_gains (rf_slot f) p) as [HP HC];
      [apply list.NoDup_cons; done | done | match type of Hl with context [zlen ?q] => pose proof (zlen_nonneg q) end; lia|].
    split; [|done]. unfold owned. cbn [app]. rewrite HP. cbn [app]. rewrite <- Permutation_middle. done. }
  destruct (negb _ && _) in H; [res_inv; done|].
  set (f' := match psta with Some s => _ | None => f end) in H.
  assert (Hf' : rf_slot f' = rf_slot f) by (unfold f'; destruct psta; [destruct (_ && _)|]; done).
  destruct (a_mfrag (attrib f) =? 1) eqn:E1.
  - destruct psta as [s|]; [|res_inv; done].
    destruct (if a_frag_num (attrib f) =? 0 then _ else _) as [q p1] eqn:E. res_inv.
    unfold owned at 2. rewrite <- Hf' in Hn |- *. apply (enqueue_gains f' s p (a_frag_num (attrib f) =? 0)); try done. lia.
  - destruct ((a_mfrag (attrib f) =? 0) && negb (a_frag_num (attrib f) =? 0)) eqn:E2.
    + destruct psta as [s|]; [|res_inv; done]. res_inv. destruct a as [g p1]. res_inv.
      apply defrag_gains in Ha as [HP HC]; [| |done|].
      * split; [|done]. unfold owned in *. cbn [ds_q slots map app] in *. rewrite HP, slots_app, Hf', <- app_assoc. cbn [app].
        rewrite <- Permutation_middle. done.
      * rewrite slots_app, Hf', <- app_assoc. cbn [app]. rewrite <- Permutation_middle. done.
      * rewrite slots_app, !zlen_app in *. change (zlen [rf_slot f']) with 1. lia.
    + unfold is_flag in Hfl. replace (a_mfrag (attrib f) =? 0) with true in * by lia. cbn [andb] in *.
      replace (a_frag_num (attrib f) =? 0) with true in * by (destruct (a_frag_num (attrib f) =? 0); done). res_inv.
      unfold owned. rewrite Hf'. done.
Qed.

Lemma chk_defrag_owns e f sta bcmc psta p r psta' p' ev :
  recvframe_chk_defrag e f sta bcmc p = Ok (r, psta', p', ev) ->
  defrag_sta f sta bcmc = Ok psta ->
  NoDup (owned (Some f) psta p) -> pool_counts p -> zlen (owned (Some f) psta p) <= NR_RECVFRAME ->
  is_flag (a_mfrag (attrib f)) ->
  owned r psta' p' ≡ₚ owned (Some f) psta p /\ NoDup (owned r psta' p') /\ pool_counts p'.
Proof.
  intros H Hsta Hn Hc Hl Hfl. unfold recvframe_chk_defrag in H. rewrite Hsta in H. unfold NR_RECVFRAME in Hl. cbn [bind] in H.
  res_inv. destruct a as [[r1 psta1] p1]. apply chk_queue_gains in Ha as [HP HC]; [|done | done | lia | done].
  assert (Hn1 : NoDup (owned r1 psta1 p1)) by (rewrite HP; done).
  assert (Hl1 : zlen (owned r1 psta1 p1) <= 256) by (unfold zlen in *; rewrite (Permutation_length HP); done).
  cut (owned r psta' p' ≡ₚ owned r1 psta1 p1 /\ pool_counts p').
  { intros [HP' HC']. split; [rewrite HP'; done|]. split; [rewrite HP'; done | done]. }
  destruct r1 as [g|]; [|res_inv; done]. destruct (a_privacy (attrib g) =? 0); [res_inv; done|].
  res_inv. destruct a as [[ret g'] ev']. pose proof (chkmic_slot _ _ _ _ _ Ha) as Hg. destruct (ret =? FAIL); res_inv.
  - unfold owned in Hn1, Hl1. cbn [app] in Hn1, Hl1. rewrite zlen_cons, zlen_app in Hl1.
    apply list.NoDup_cons in Hn1 as [[Hs1 Hs2]%not_elem_of_app (_ & _ & Hp)%list.NoDup_app].
    destruct (free_one_gains (rf_slot g') p1) as [HQ HC'];
      [rewrite Hg; apply list.NoDup_cons; done | done
      | match type of Hl1 with context [zlen (slots ?q)] => pose proof (zlen_nonneg (slots q)) end; lia|].
    split; [|done]. unfold owned. cbn [app]. rewrite HQ, Hg. cbn [app]. rewrite <- Permutation_middle. done.
  - unfold owned. rewrite Hg. done.
Qed.

(** C20: No frame is lost and none is freed twice: whatever [recvframe_chk_defrag] does with a frame - hand it on,
    queue it, join it to earlier fragments, drop it with them - the frame in hand, the station's queue and the pool hold
    afterwards together what they held before, each frame once, and the pool's counter is its length. *)
Theorem chk_defrag_keeps_frames e f sta bcmc psta p r psta' p' ev :
  recvframe_chk_defrag e f sta bcmc p = Ok (r, psta', p', ev) ->
  defrag_sta f sta bcmc = Ok psta ->
  NoDup (owned (Some f) psta p) -> pool_counts p -> zlen (owned (Some f) psta p) <= NR_RECVFRAME ->
  is_flag (a_mfrag (attrib f)) ->
  owned r psta' p' ≡ₚ owned (Some f) psta p /\ NoDup (owned r psta' p') /\ pool_counts p'.
Proof. apply chk_defrag_owns. Qed.

(** ** Lemmas: joining *)

(** A fragment of which [h], [iv] are the header and the IV and [x] is the rest. *)
Record fragment (f : recv_frame) (a h iv x b : list Z) : Prop := mkFragment {
  fg_framed : framed f a (h ++ iv ++ x) b;
  fg_hdr : a_hdrlen (attrib f) = zlen h;
  fg_iv : a_iv_len (attrib f) = zlen iv;
  fg_small : zlen h + zlen iv < 256 }.

Lemma framed_write f a v y z x : framed f a v (y ++ z) -> zlen y = zlen x ->
  exists m, wrn (rf_mem f) (rx_tail f) x = Ok m /\ framed (with_mem f m) a v (x ++ z).
Proof.
  intros [Hm Hd Ht Hl Hs] Hy. rewrite Hm, Ht. exists ((a ++ v) ++ x ++ z). split.
  - rewrite <- zlen_app, (app_assoc a v). apply wrn_app. done.
  - constructor; cbn [rf_mem rx_data rx_tail rf_len with_mem]; try done; [rewrite <- app_assoc; done|].
    rewrite !zlen_app in *. lia.
Qed.

(** The checks before the copy. *)
Definition pn_follows (cur : Z) (nf : recv_frame) (iv : list Z) (cur' : Z) : Prop :=
  if ccmp_like (a_encrypt (attrib nf)) then frame_pn nf iv = cur + 1 /\ cur' = cur + 1 /\ bytes iv /\ zlen iv = 8
  else cur' = cur.

Lemma frag_pn_spec f a h iv x b : fragment f a h iv x b -> ccmp_like (a_encrypt (attrib f)) = true ->
  bytes iv -> zlen iv = 8 -> frag_pn f = Ok (frame_pn f iv).
Proof.
  intros [Hf Hh Hi _] Hc Hb Hl. unfold frag_pn. rewrite Hh, (fr_mem _ _ _ _ Hf), (fr_data _ _ _ _ Hf).
  assert (E : RTW_GET_LE64 (a ++ (h ++ iv ++ x) ++ b) (zlen a + zlen h) = RTW_GET_LE64 iv 0).
  { replace (a ++ (h ++ iv ++ x) ++ b) with ((a ++ h) ++ iv ++ x ++ b) by (rewrite <- !app_assoc; done).
    rewrite <- zlen_app. unfold RTW_GET_LE64.
    assert (R : forall k, 0 <= k < 8 -> rd ((a ++ h) ++ iv ++ x ++ b) (zlen (a ++ h) + k) = rd iv (0 + k)).
    { intros k Hk. rewrite rd_part by lia. pose proof (rd_part [] iv [] k) as E. rewrite app_nil_r in E. symmetry. apply E. lia. }
    rewrite !R by lia. replace (rd _ (zlen (a ++ h))) with (rd iv 0); [done|].
    rewrite <- (Z.add_0_r (zlen (a ++ h))), R by lia. done. }
  rewrite E, get_le64_spec; [|done | apply zlen_length; done]. cbn [bind]. unfold frame_pn.
  rewrite (ccmph_pn (a_encrypt (attrib f))) by done. done.
Qed.

Lemma defrag_turn_joins pf cur n nf a0 w icv b0 a h iv x b cur' :
  framed pf a0 (w ++ icv) b0 -> a_icv_len (attrib pf) = zlen icv ->
  fragment nf a h iv x b -> 0 <= cur -> pn_follows cur nf iv cur' ->
  keytrack nf = keytrack pf -> a_frag_num (attrib nf) = n -> zlen x <= zlen b0 ->
  exists g z, defrag_turn pf cur n nf = Ok (Some (g, cur', u8 (n + 1)))
    /\ framed g a0 (w ++ x) z /\ zlen z = zlen b0 + zlen icv - zlen x
    /\ keytrack g = keytrack pf /\ attrib g = attrib (with_icv_len pf (a_icv_len (attrib nf))).
Proof.
  intros Hpf Hic Hnf Hcur Hpn Hk Hn Hroom. unfold defrag_turn.
  assert (E : (if ccmp_like (a_encrypt (attrib nf)) then
            pkt_pn <- frag_pn nf ;; Ok (if pkt_pn =? u64 (cur + 1) then Some pkt_pn else None)
          else Ok (Some cur)) = Ok (Some cur')).
  { unfold pn_follows in Hpn. destruct (ccmp_like _) eqn:Ec; [|subst; done]. destruct Hpn as (Hp & -> & Hb & Hl).
    rewrite (frag_pn_spec _ _ _ _ _ _ Hnf) by done. cbn [bind]. rewrite Hp.
    pose proof (pn_range (a_encrypt (attrib nf)) iv Hb) as Hr. unfold frame_pn in Hp. rewrite Hp in Hr.
    unfold u64. rewrite Z.mod_small by lia. rewrite Z.eqb_refl. done. }
  rewrite E. cbn [bind]. clear E. rewrite Hk, Hn, !Z.eqb_refl. cbn [negb].
  destruct Hnf as [Hf Hh Hi Hsm]. rewrite Hh, Hi. pose proof (zlen_nonneg h). pose proof (zlen_nonneg iv).
  rewrite u8_small by (unfold is_byte; lia). rewrite (app_assoc h iv x) in Hf.
  destruct (pull_by _ _ _ _ _ (zlen h + zlen iv) Hf) as (nf' & -> & Hnf' & _); [rewrite zlen_app; lia|]. cbn [snd].
  unfold rx_end. rewrite (fr_len _ _ _ _ Hnf'), (fr_tail _ _ _ _ Hpf), (fr_mem _ _ _ _ Hpf), !zlen_app.
  rewrite (proj2 (Z.ltb_ge _ _)) by lia. rewrite Hic.
  destruct (pull_tail_spec _ _ _ _ _ Hpf) as (pf1 & -> & Hpf1 & Hmeta1). cbn [snd].
  rewrite (fr_mem _ _ _ _ Hnf'), (fr_data _ _ _ _ Hnf'), rdn_app. cbn [bind].
  pose proof (zlen_nonneg x). pose proof (zlen_nonneg icv).
  destruct (split_front (icv ++ b0) (zlen x)) as (y & z & Eyz & Hy & Hz); [rewrite zlen_app; lia|].
  rewrite Eyz in Hpf1. destruct (framed_write _ _ _ _ _ x Hpf1 Hy) as (m & -> & Hw). cbn [bind].
  destruct (put_spec _ _ _ _ _ Hw) as (g & -> & Hg & Hmeta2). cbn [snd].
  exists (with_icv_len g (a_icv_len (attrib nf))), z. split; [done|]. rewrite zlen_app in Hz.
  destruct Hmeta1 as (_ & Ha1 & Hk1), Hmeta2 as (_ & Ha2 & Hk2).
  split; [destruct Hg; constructor; done|]. split; [lia|]. split; [cbn; rewrite Hk2, <- Hk1; done|].
  unfold with_icv_len. cbn [attrib with_attrib]. rewrite Ha2. cbn [attrib with_mem]. rewrite Ha1. done.
Qed.

(** A fragment split into what the receiver keeps and the ICV. *)
Record frag_view : Type := mkFv { fv_h : list Z; fv_iv : list Z; fv_body : list Z; fv_icv : list Z }.

(** Fragments numbered from [n], one key, consecutive packet numbers from [cur], [room] bytes behind the first
    frame, the last [k] of which are an ICV that will be overwritten. *)
Inductive run (kt : Z) : Z -> Z -> Z -> Z -> list recv_frame -> list frag_view -> Prop :=
| run_nil n cur room k : run kt n cur room k [] []
| run_cons n cur cur' room k f a b v fs vs :
    fragment f a (fv_h v) (fv_iv v) (fv_body v ++ fv_icv v) b ->
    a_icv_len (attrib f) = zlen (fv_icv v) ->
    pn_follows cur f (fv_iv v) cur' -> keytrack f = kt -> a_frag_num (attrib f) = n -> n < 16 ->
    zlen (fv_body v) + zlen (fv_icv v) <= room ->
    run kt (n + 1) cur' (room + k - zlen (fv_body v) - zlen (fv_icv v)) (zlen (fv_icv v)) fs vs ->
    run kt n cur room k (f :: fs) (v :: vs).

Definition last_icv (icv : list Z) (vs : list frag_view) : list Z := List.last (map fv_icv vs) icv.

Lemma last_shift {A} (l : list A) : forall d x, List.last (x :: l) d = List.last l x.
Proof. induction l as [|y l IH]; intros d x; [done|]. change (List.last (x :: y :: l) d) with (List.last (y :: l) d). rewrite !IH. done. Qed.

Lemma run_pn_nonneg cur f iv cur' : 0 <= cur -> pn_follows cur f iv cur' -> 0 <= cur'.
Proof. unfold pn_follows. intros. destruct (ccmp_like _); [destruct H0 as (_ & -> & _); lia | lia]. Qed.

Lemma defrag_turns_join kt n cur room k fs vs : run kt n cur room k fs vs -> 0 <= cur -> 0 <= n ->
  forall pf a0 w icv b0, framed pf a0 (w ++ icv) b0 -> a_icv_len (attrib pf) = zlen icv -> keytrack pf = kt ->
    room = zlen b0 -> k = zlen icv ->
  exists g z, defrag_turns pf cur n fs = Ok (Some g)
    /\ framed g a0 (w ++ concat (map fv_body vs) ++ last_icv icv vs) z
    /\ attrib g = attrib (with_icv_len pf (zlen (last_icv icv vs))).
Proof.
  induction 1 as [n cur room k | n cur cur' room k f a b v fs vs Hf Hic Hpn Hk Hn H16 Hroom Hrun IH];
    intros Hcur Hn0 pf a0 w icv b0 Hpf Hpic Hkt Hb0 Hk0.
  - cbn [defrag_turns map concat app]. unfold last_icv. cbn. exists pf, b0. split; [done|]. split; [done|].
    rewrite <- Hpic. destruct (attrib pf); done.
  - cbn [defrag_turns]. pose proof (run_pn_nonneg _ _ _ _ Hcur Hpn).
    destruct (defrag_turn_joins pf cur n f a0 w icv b0 a (fv_h v) (fv_iv v) (fv_body v ++ fv_icv v) b cur')
      as (g & z & -> & Hg & Hz & Hkg & Hag); try done; [congruence | rewrite zlen_app; lia|]. cbn [bind].
    rewrite u8_small by (unfold is_byte; lia). rewrite app_assoc in Hg. rewrite zlen_app in Hz.
    destruct (IH ltac:(done) ltac:(lia) g a0 (w ++ fv_body v) (fv_icv v) z) as (g' & z' & E & Hg' & Hag'); try done.
    + rewrite Hag. cbn. done.
    + congruence.
    + lia.
    + exists g', z'. split; [done|]. cbn [map concat]. rewrite <- !app_assoc in Hg'. rewrite <- !app_assoc.
      replace (last_icv icv (v :: vs)) with (last_icv (fv_icv v) vs); [|symmetry; unfold last_icv; cbn [map]; apply last_shift].
      split; [done|]. rewrite Hag'. unfold with_icv_len. cbn [attrib with_attrib]. rewrite Hag.
      unfold with_icv_len. cbn [attrib with_attrib]. done.
Qed.

(** ** Theorems: joining *)

Lemma recvframe_defrag_spec f0 fs a0 v0 b0 vs p :
  fragment f0 a0 (fv_h v0) (fv_iv v0) (fv_body v0 ++ fv_icv v0) b0 ->
  a_icv_len (attrib f0) = zlen (fv_icv v0) -> a_frag_num (attrib f0) = 0 ->
  bytes (fv_iv v0) -> (ccmp_like (a_encrypt (attrib f0)) = true -> zlen (fv_iv v0) = 8) ->
  run (keytrack f0) 1 (if ccmp_like (a_encrypt (attrib f0)) then frame_pn f0 (fv_iv v0) else 0)
    (zlen b0) (zlen (fv_icv v0)) fs vs ->
  exists g z, recvframe_defrag (f0 :: fs) p = Ok (Some g, rtw_free_recvframe_queue fs p)
    /\ framed g a0 (fv_h v0 ++ fv_iv v0 ++ (fv_body v0 ++ concat (map fv_body vs)) ++ last_icv (fv_icv v0) vs) z
    /\ rf_slot g = rf_slot f0
    /\ attrib g = attrib (with_icv_len f0 (zlen (last_icv (fv_icv v0) vs))).
Proof.
  intros Hf Hic Hn Hb Hl Hrun. unfold recvframe_defrag.
  assert (E : (if ccmp_like (a_encrypt (attrib f0)) then frag_pn f0 else Ok 0)
              = Ok (if ccmp_like (a_encrypt (attrib f0)) then frame_pn f0 (fv_iv v0) else 0)).
  { destruct (ccmp_like _) eqn:Ec; [|done]. apply (frag_pn_spec _ _ _ _ _ _ Hf); auto. }
  rewrite E. cbn [bind]. rewrite Hn. cbn [Z.eqb negb]. pose proof (fg_framed _ _ _ _ _ _ Hf) as Hfr.
  rewrite !app_assoc in Hfr.
  assert (H0 : 0 <= if ccmp_like (a_encrypt (attrib f0)) then frame_pn f0 (fv_iv v0) else 0).
  { destruct (ccmp_like _); [|lia]. pose proof (pn_range (a_encrypt (attrib f0)) _ Hb). unfold frame_pn. lia. }
  destruct (defrag_turns_join _ _ _ _ _ _ _ Hrun H0 ltac:(lia)
              f0 a0 _ _ b0 Hfr Hic eq_refl eq_refl eq_refl) as (g & z & Et & Hg & Ha).
  rewrite Et. cbn [bind]. exists g, z. split; [done|]. rewrite <- !app_assoc in Hg. rewrite <- !app_assoc.
  split; [exact Hg|]. split; [apply defrag_turns_slot in Et; done | done].
Qed.

(** Reassembly: fragments numbered from 0, of one key, with consecutive packet numbers where CCMP or GCMP protects
    them and with room behind the first one, become one frame: header and IV of the first, all bodies in order
    and the last ICV; IVs and ICVs between them are gone, and all other frames are back in the pool. *)
Theorem defrag_joins f0 fs a0 v0 b0 vs p :
  fragment f0 a0 (fv_h v0) (fv_iv v0) (fv_body v0 ++ fv_icv v0) b0 ->
  a_icv_len (attrib f0) = zlen (fv_icv v0) -> a_frag_num (attrib f0) = 0 ->
  bytes (fv_iv v0) -> (ccmp_like (a_encrypt (attrib f0)) = true -> zlen (fv_iv v0) = 8) ->
  run (keytrack f0) 1 (if ccmp_like (a_encrypt (attrib f0)) then frame_pn f0 (fv_iv v0) else 0)
    (zlen b0) (zlen (fv_icv v0)) fs vs ->
  exists g z, recvframe_defrag (f0 :: fs) p = Ok (Some g, rtw_free_recvframe_queue fs p)
    /\ framed g a0 (fv_h v0 ++ fv_iv v0 ++ (fv_body v0 ++ concat (map fv_body vs)) ++ last_icv (fv_icv v0) vs) z
    /\ rf_slot g = rf_slot f0
    /\ attrib g = attrib (with_icv_len f0 (zlen (last_icv (fv_icv v0) vs))).
Proof. apply recvframe_defrag_spec. Qed.

Lemma defrag_turn_checks pf cur n nf g cur' n' : defrag_turn pf cur n nf = Ok (Some (g, cur', n')) ->
  keytrack nf = keytrack pf /\ keytrack g = keytrack pf /\ a_frag_num (attrib nf) = n /\ n' = u8 (n + 1)
  /\ (ccmp_like (a_encrypt (attrib nf)) = true -> frag_pn nf = Ok cur' /\ cur' = u64 (cur + 1)).
Proof.
  unfold defrag_turn. intros H. apply bind_Ok in H as (chk & Hchk & H). destruct chk as [pn|]; [|discriminate].
  destruct (Z.eqb_spec (keytrack pf) (keytrack nf)); [|discriminate].
  destruct (Z.eqb_spec n (a_frag_num (attrib nf))); [|discriminate]. cbn [negb] in H.
  destruct (_ <? _) in H; [discriminate|]. res_inv. split; [done|]. split.
  { unfold recvframe_put, recvframe_pull_tail. repeat case_match; done. }
  split; [done|]. split; [done|]. intros Hc. rewrite Hc in Hchk.
  apply bind_Ok in Hchk as (pkt & Hp & Hchk). injection Hchk as Hchk. destruct (Z.eqb_spec pkt (u64 (cur + 1))); [|discriminate].
  injection Hchk as <-. done.
Qed.

Lemma defrag_turns_check q : forall pf cur n g i f,
  defrag_turns pf cur n q = Ok (Some g) -> 0 <= n -> n + zlen q <= 255 ->
  q !! i = Some f -> a_frag_num (attrib f) = n + Z.of_nat i /\ keytrack f = keytrack pf
    /\ (Forall (fun f => ccmp_like (a_encrypt (attrib f)) = true) q -> 0 <= cur -> cur + zlen q < 2 ^ 64 ->
        frag_pn f = Ok (cur + 1 + Z.of_nat i)).
Proof.
  induction q as [|nf q IH]; intros pf cur n g i f H Hn Hl Hi; [done|]. cbn [defrag_turns] in H. res_inv.
  destruct a as [[[pf' cur'] n']|]; [|discriminate]. apply defrag_turn_checks in Ha as (K1 & K2 & N1 & -> & P).
  rewrite zlen_cons in *. pose proof (zlen_nonneg q). rewrite u8_small in H by (unfold is_byte; lia).
  destruct i as [|i]; cbn in Hi.
  - injection Hi as ->. split; [lia|]. split; [done|]. intros [Hc _]%Forall_cons_1 Hcur Hsm.
    destruct (P Hc) as [-> ->]. unfold u64. rewrite Z.mod_small by lia. f_equal. lia.
  - destruct (IH pf' cur' (n + 1) g i f H ltac:(lia) ltac:(lia) Hi) as (A & B & C). split; [lia|]. split; [congruence|].
    intros [Hc Hq]%Forall_cons_1 Hcur Hsm. destruct (P Hc) as [_ Hcur']. unfold u64 in Hcur'. rewrite Z.mod_small in Hcur' by lia.
    rewrite C by (done || lia). f_equal. lia.
Qed.

(** C21: What a reassembled frame is made of: its fragments are numbered 0, 1, 2, ..., all arrived under one key, and if
    all were protected by CCMP or GCMP their packet numbers are consecutive. *)
Theorem defrag_checks f0 fs p g p' i f :
  recvframe_defrag (f0 :: fs) p = Ok (Some g, p') -> zlen fs < 255 -> fs !! i = Some f ->
  a_frag_num (attrib f0) = 0 /\ a_frag_num (attrib f) = Z.of_nat (S i) /\ keytrack f = keytrack f0
  /\ (forall pn, Forall (fun f => ccmp_like (a_encrypt (attrib f)) = true) (f0 :: fs) ->
        frag_pn f0 = Ok pn -> 0 <= pn < 2 ^ 48 -> frag_pn f = Ok (pn + Z.of_nat (S i))).
Proof.
  intros H Hl Hi. unfold recvframe_defrag in H. res_inv. destruct a0 as [g'|]; [|discriminate]. clear H.
  destruct (Z.eqb_spec 0 (a_frag_num (attrib f0))) as [E|]; [|discriminate]. cbn [negb] in Ha0.
  destruct (defrag_turns_check _ _ _ _ _ _ _ Ha0 ltac:(lia) ltac:(lia) Hi) as (A & B & C).
  split; [done|]. split; [lia|]. split; [done|]. intros pn [Hc0 Hc]%Forall_cons_1 Hpn Hr.
  rewrite Hc0, Hpn in Ha. injection Ha as <-. rewrite C by (done || lia). f_equal. lia.
Qed.

(** ** Theorem: the Michael check *)

Lemma mic_header_view a v b pri : 30 <= zlen v -> mic_header (a ++ v ++ b) (zlen a) pri = mic_header v 0 pri.
Proof.
  intros Hv. unfold mic_header.
  assert (E : forall k, 0 <= k -> k + 6 <= zlen v -> six (a ++ v ++ b) (zlen a + k) = six v (0 + k)).
  { intros k Hk Hkv. unfold six. rewrite !Z.add_0_l. replace (Z.to_nat (zlen a + k)) with (length a + Z.to_nat k)%nat by zlia.
    rewrite <- drop_drop, drop_app_length, drop_app_le, take_app_le by (rewrite ?length_drop; zlia). done. }
  assert (E1 : (a ++ v ++ b) !!! Z.to_nat (zlen a + 1) = v !!! Z.to_nat (0 + 1)).
  { replace (Z.to_nat (zlen a + 1)) with (length a + 1)%nat by zlia. change (Z.to_nat (0 + 1)) with 1%nat.
    rewrite !list_lookup_total_alt, lookup_app_r by lia.
    replace (length a + 1 - length a)%nat with 1%nat by lia. rewrite lookup_app_l by zlia. done. }
  rewrite E1, !E by (repeat case_match; lia). done.
Qed.

(** What the Michael check compares with: the station's key, or the group key the frame names. *)
Definition mic_key_of (e : mic_env) (a : rx_attrib) : option (list Z) :=
  match me_sta e with
  | None => None
  | Some k => if IS_MCAST (a_ra a) then (if me_installed e then me_grp e !! Z.to_nat (a_key_index a) else None) else Some k
  end.

Lemma recvframe_chkmic_spec e f a h iv data mic icv b key :
  framed f a (h ++ iv ++ data ++ mic ++ icv) b -> bytes (rf_mem f) ->
  a_encrypt (attrib f) = TKIP -> a_hdrlen (attrib f) = zlen h -> a_iv_len (attrib f) = zlen iv ->
  a_icv_len (attrib f) = zlen icv -> zlen mic = 8 -> 24 <= zlen h ->
  is_byte (a_priority (attrib f)) -> 0 <= a_key_index (attrib f) ->
  mic_key_of e (attrib f) = Some key -> bytes key -> 8 <= zlen key ->
  exists g ev, recvframe_chkmic e f =
      Ok (if decide (mic = michael (mic_key key)
                             (mic_header (h ++ iv ++ data ++ mic ++ icv) 0 (a_priority (attrib f)) ++ data))
          then SUCCESS else FAIL, g, ev)
    /\ framed g a (h ++ iv ++ data ++ take (length icv) (mic ++ icv)) (drop (length icv) (mic ++ icv) ++ b)
    /\ attrib g = attrib f.
Proof.
  intros Hf Hb He Hh Hi Hc Hm Hh24 Hpri Hki Hkey Hkb Hkl.
  pose proof (zlen_nonneg iv). pose proof (zlen_nonneg data). pose proof (zlen_nonneg icv).
  pose proof (zlen_nonneg a). pose proof (zlen_nonneg b).
  assert (Hlen : rf_len f = zlen h + zlen iv + zlen data + 8 + zlen icv)
    by (rewrite (fr_len _ _ _ _ Hf), !zlen_app; lia).
  pose proof (fr_small _ _ _ _ Hf) as Hsmall. rewrite !zlen_app in Hsmall.
  assert (Hd : u32 (rf_len f - zlen h - zlen iv - zlen icv - 8) = zlen data) by (rewrite u32_small; lia).
  unfold recvframe_chkmic, mic_key_of in *. rewrite He, Z.eqb_refl. cbn [negb].
  destruct (me_sta e) as [k|]; [|discriminate].
  assert (Hsel : (if IS_MCAST (a_ra (attrib f)) then rd (me_grp e) (a_key_index (attrib f)) else Ok k) = Ok key
                 /\ IS_MCAST (a_ra (attrib f)) && negb (me_installed e) = false).
  { destruct (IS_MCAST _); [destruct (me_installed e); [|discriminate] | injection Hkey as ->; done].
    split; [apply rd_Ok; done | done]. }
  destruct Hsel as [Hsel ->]. rewrite Hsel. cbn [bind]. rewrite Hh, Hi, Hc, Hd.
  rewrite (proj2 (Z.leb_gt _ _)) by lia. unfold rx_end.
  rewrite (fr_tail _ _ _ _ Hf), (fr_data _ _ _ _ Hf), (fr_mem _ _ _ _ Hf), !zlen_app.
  replace (_ || _) with false by (symmetry; apply orb_false_iff; rewrite !Z.ltb_ge; lia).
  rewrite (fr_mem _ _ _ _ Hf) in Hb.
  rewrite seccalctkipmic_spec; rewrite ?zlen_app; try done; try lia. cbn [bind].
  assert (Hview : a ++ (h ++ iv ++ data ++ mic ++ icv) ++ b = (a ++ h ++ iv) ++ data ++ mic ++ icv ++ b)
    by (rewrite <- !app_assoc; done).
  replace (zlen a + zlen h + zlen iv) with (zlen (a ++ h ++ iv)) by (rewrite !zlen_app; lia).
  rewrite mic_header_view by (rewrite !zlen_app; lia). rewrite Hview, drop_zlen_app, take_app_length' by zlia.
  rewrite (app_assoc (a ++ h ++ iv)). rewrite <- zlen_app, <- Hm, rdn_app. cbn [bind].
  set (code := michael _ _). unfold list_eqb.
  destruct (split_tail (mic ++ icv) 8) as (x & y & Exy & Hy & Hx); [rewrite zlen_app; lia|].
  rewrite Exy in Hf. replace (h ++ iv ++ data ++ x ++ y) with ((h ++ iv ++ data ++ x) ++ y) in Hf by (rewrite <- !app_assoc; done).
  destruct (pull_tail_spec _ _ _ _ _ Hf) as (g & E & Hg & _ & Hat & _). rewrite Hy in E. rewrite Hm, E. cbn [snd].
  rewrite Exy, take_app_length', drop_app_length' by (rewrite zlen_app in Hx; zlia).
  exists g. case_decide as D.
  - rewrite bool_decide_true by done. eauto.
  - rewrite bool_decide_false by congruence. eauto.
Qed.

(** The Michael check: a TKIP frame - header, IV, data, eight bytes of code, ICV - passes exactly when the eight
    bytes are the Michael code, under the key that the receiver picks, of destination, source, priority and data;
    pass or not, the frame then ends eight bytes earlier. Without a key for the frame's group it is refused as it is. *)
Theorem chkmic_accepts_iff e f a h iv data mic icv b key :
  framed f a (h ++ iv ++ data ++ mic ++ icv) b -> bytes (rf_mem f) ->
  a_encrypt (attrib f) = TKIP -> a_hdrlen (attrib f) = zlen h -> a_iv_len (attrib f) = zlen iv ->
  a_icv_len (attrib f) = zlen icv -> zlen mic = 8 -> 24 <= zlen h ->
  is_byte (a_priority (attrib f)) -> 0 <= a_key_index (attrib f) ->
  mic_key_of e (attrib f) = Some key -> bytes key -> 8 <= zlen key ->
  exists g ev, recvframe_chkmic e f =
      Ok (if decide (mic = michael (mic_key key)
                             (mic_header (h ++ iv ++ data ++ mic ++ icv) 0 (a_priority (attrib f)) ++ data))
          then SUCCESS else FAIL, g, ev)
    /\ framed g a (h ++ iv ++ data ++ take (length icv) (mic ++ icv)) (drop (length icv) (mic ++ icv) ++ b)
    /\ attrib g = attrib f.
Proof. apply recvframe_chkmic_spec. Qed.

(** ** What follows

    [recv_func_posthandle] goes on with the joined frame and keeps the one it started with. *)

(** When the reordering window turns the frame away, the one started with is freed. *)
(* src: core/rtw_recv.c:4302-4305 recv_func_posthandle *)
Definition posthandle_reorder (reorder : recv_frame -> Z) (orig_prframe prframe : recv_frame) (p : recv_pool)
    : Z * recv_pool :=
  let ret := reorder prframe in
  if ret =? FAIL then (ret, rtw_free_recvframe (rf_slot orig_prframe) p) else (ret, p).

(** C22: After a reassembly that error path frees the wrong frame: the last fragment, which is back in the pool, a second
    time, so that the counter of free frames is one above their number; and the joined frame is lost, on no
    queue and not in the pool. *)
Theorem reorder_failure_frees_wrong_frame reorder e f s p g psta' p' ev p'' :
  a_mfrag (attrib f) = 0 -> a_frag_num (attrib f) <> 0 ->
  recvframe_chk_defrag e f (Some s) None p = Ok (Some g, psta', p', ev) -> rf_slot g <> rf_slot f ->
  NoDup (owned (Some f) (Some s) p) -> pool_counts p -> zlen (owned (Some f) (Some s) p) <= NR_RECVFRAME ->
  posthandle_reorder reorder f g p' = (FAIL, p'') ->
  free_cnt p'' = zlen (free_q p'') + 1 /\ rf_slot g ∉ owned None psta' p''.
Proof.
  intros Hm Hn H Hne Hnd Hc Hl Hr.
  assert (Hq : exists k, psta' = Some (mkDs k [])).
  { unfold recvframe_chk_defrag in H. cbn [defrag_sta bind] in H. unfold chk_defrag_queue in H. rewrite Hm in H.
    replace (a_frag_num (attrib f) =? 0) with false in H by lia. cbn [Z.eqb andb negb] in H.
    destruct (IS_MCAST _); [discriminate|]. rewrite bind_assoc in H. cbn [bind] in H. apply bind_Ok in H as ([r1 p1] & _ & H).
    cbn [bind] in H. exists (ds_keytrack s). destruct r1 as [g1|]; [|discriminate]. destruct (_ =? 0); [congruence|].
    apply bind_Ok in H as ([[ret g'] ev'] & _ & H). destruct (ret =? FAIL); congruence. }
  destruct Hq as [k ->].
  destruct (chk_defrag_owns _ _ _ _ (Some s) _ _ _ _ _ H eq_refl Hnd Hc Hl) as (HP & Hnd' & Hc'); [left; done|].
  unfold posthandle_reorder in Hr. destruct (_ =? FAIL) eqn:Ef; [|injection Hr as Hr _; unfold FAIL in *; lia].
  injection Hr as _ <-. unfold owned in *. cbn [ds_q slots map app] in *.
  assert (Hin : rf_slot f ∈ free_q p').
  { assert (Hf : rf_slot f ∈ rf_slot g :: free_q p') by (rewrite HP; left). apply elem_of_cons in Hf as [Hf|Hf]; [congruence|done]. }
  apply list.NoDup_cons in Hnd' as [Hg Hnd']. pose proof (Permutation_length HP) as HL. unfold rtw_free_recvframe. cbn [free_q free_cnt].
  unfold pool_counts, NR_RECVFRAME in *. split.
  - rewrite zlen_app, filter_zlen_in, Hc' by done. change (zlen [rf_slot f]) with 1.
    unfold zlen in *. cbn [length] in HL, Hl. rewrite u32_small by lia. lia.
  - intros [Hx|Hx]%elem_of_app; [apply list_elem_of_filter in Hx as [_ Hx]; done | apply list_elem_of_singleton in Hx; done].
Qed.

(** ** Examples *)

Definition ex_fattr (encrypt iv_len icv_len seq frag more privacy : Z) : rx_attrib :=
  mkRa (mkRx encrypt 24 iv_len 0 ex_src ex_dst) icv_len 2 0 0 0 seq frag more privacy 1 ex_dst ex_src ex_src 0 0 0 0.
Definition ex_frag_frame (slot : nat) (a : rx_attrib) (v room : list Z) : recv_frame :=
  mkRf slot (zeros 4 ++ v ++ room) 4 (4 + zlen v) (zlen v) a 0.

Definition ex_pn5 : list Z := [5; 0; 0; 0x20; 0; 0; 0; 0].
Definition ex_pn6 : list Z := [6; 0; 0; 0x20; 0; 0; 0; 0].
Definition ex_v0 : frag_view := mkFv (zeros 24) ex_pn5 [1; 2] (zeros 8).
Definition ex_v1 : frag_view := mkFv (zeros 24) ex_pn6 [3; 4; 5] (zeros 8).
Definition ex_f0 : recv_frame :=
  ex_frag_frame 3 (ex_fattr AES 8 8 9 0 1 1) (zeros 24 ++ ex_pn5 ++ [1; 2] ++ zeros 8) (zeros 60).
Definition ex_f1 : recv_frame :=
  ex_frag_frame 4 (ex_fattr AES 8 8 9 1 0 1) (zeros 24 ++ ex_pn6 ++ [3; 4; 5] ++ zeros 8) [].
Definition ex_pool : recv_pool := mkPool [7%nat; 8%nat] 2.
Definition ex_sta : defrag_state := mkDs 0 [ex_f0].
Definition ex_mic_env : mic_env := mkMicEnv (Some (zeros 8)) [] false 0.

Lemma ex_run : run 0 1 5 60 8 [ex_f1] [ex_v1].
Proof.
  apply (run_cons 0 1 5 6 60 8 ex_f1 (zeros 4) [] ex_v1 [] []); try (vm_compute; (reflexivity || discriminate)); [| |constructor].
  - constructor; try (vm_compute; reflexivity). constructor; vm_compute; reflexivity.
  - split; [vm_compute; reflexivity|]. split; [done|]. split; [apply bytes_by_compute; reflexivity | done].
Qed.

Lemma defrag_joins_witness :
  exists g z, recvframe_defrag [ex_f0; ex_f1] ex_pool = Ok (Some g, rtw_free_recvframe_queue [ex_f1] ex_pool)
    /\ framed g (zeros 4) (zeros 24 ++ ex_pn5 ++ [1; 2; 3; 4; 5] ++ zeros 8) z.
Proof.
  destruct (defrag_joins ex_f0 [ex_f1] (zeros 4) ex_v0 (zeros 60) [ex_v1] ex_pool) as (g & z & H1 & H2 & _);
    [| reflexivity | reflexivity | apply bytes_by_compute; reflexivity | reflexivity | exact ex_run | exists g, z; split; [exact H1 | exact H2]].
  constructor; try reflexivity. constructor; vm_compute; reflexivity.
Defined.

Lemma defrag_checks_witness :
  exists g p', recvframe_defrag [ex_f0; ex_f1] ex_pool = Ok (Some g, p')
    /\ a_frag_num (attrib ex_f1) = 1 /\ frag_pn ex_f1 = Ok 6.
Proof.
  eexists _, _. split; [vm_compute; reflexivity|].
  destruct (defrag_checks ex_f0 [ex_f1] ex_pool _ _ 0 ex_f1 eq_refl eq_refl eq_refl) as (_ & H1 & _ & H2).
  split; [exact H1|]. apply (H2 5); [|reflexivity | split; [discriminate | reflexivity]].
  constructor; [reflexivity|]. constructor; [reflexivity | constructor].
Defined.

Lemma ex_nodup (l : list nat) : bool_decide (NoDup l) = true -> NoDup l.
Proof. apply bool_decide_eq_true. Qed.

Lemma chk_defrag_keeps_frames_witness :
  exists g psta' p' ev, recvframe_chk_defrag ex_mic_env ex_f1 (Some ex_sta) None ex_pool = Ok (Some g, psta', p', ev)
    /\ owned (Some g) psta' p' ≡ₚ [4%nat; 3%nat; 7%nat; 8%nat] /\ pool_counts p'.
Proof.
  eexists _, _, _, _. split; [vm_compute; reflexivity|].
  destruct (chk_defrag_keeps_frames ex_mic_env ex_f1 (Some ex_sta) None (Some ex_sta) ex_pool _ _ _ _ eq_refl eq_refl) as (H1 & _ & H2);
    [apply ex_nodup; reflexivity | reflexivity | discriminate | left; reflexivity | split; [exact H1 | exact H2]].
Defined.

Lemma reorder_failure_frees_wrong_frame_witness :
  exists g psta' p' ev p'', recvframe_chk_defrag ex_mic_env ex_f1 (Some ex_sta) None ex_pool = Ok (Some g, psta', p', ev)
    /\ posthandle_reorder (fun _ => FAIL) ex_f1 g p' = (FAIL, p'') /\ free_cnt p'' = zlen (free_q p'') + 1.
Proof.
  eexists _, _, _, _, _. split; [vm_compute; reflexivity|]. split; [vm_compute; reflexivity|].
  eapply (reorder_failure_frees_wrong_frame (fun _ => FAIL) ex_mic_env ex_f1 ex_sta ex_pool);
    [reflexivity | discriminate | vm_compute; reflexivity | discriminate | apply ex_nodup; reflexivity | reflexivity
    | discriminate | reflexivity].
Defined.

Definition ex_mic_code : list Z := Eval vm_compute in michael (mic_key (zeros 8)) (zeros 12 ++ [0; 0; 0; 0] ++ [1; 2]).
Definition ex_mic_frame : recv_frame :=
  ex_frag_frame 5 (ex_fattr TKIP 8 4 9 0 0 1) (zeros 24 ++ ex_pn5 ++ [1; 2] ++ ex_mic_code ++ zeros 4) [].

Lemma chkmic_accepts_iff_witness :
  exists g ev, recvframe_chkmic ex_mic_env ex_mic_frame = Ok (SUCCESS, g, ev)
    /\ framed g (zeros 4) (zeros 24 ++ ex_pn5 ++ [1; 2] ++ take 4 ex_mic_code) (drop 4 ex_mic_code ++ zeros 4).
Proof.
  destruct (chkmic_accepts_iff ex_mic_env ex_mic_frame (zeros 4) (zeros 24) ex_pn5 [1; 2] ex_mic_code (zeros 4) [] (zeros 8))
    as (g & ev & H1 & H2 & _).
  - constructor; vm_compute; reflexivity.
  - apply bytes_by_compute. vm_compute. reflexivity.
  - reflexivity.
  - reflexivity.
  - reflexivity.
  - reflexivity.
  - reflexivity.
  - vm_compute. discriminate.
  - split; [discriminate | reflexivity].
  - discriminate.
  - reflexivity.
  - apply bytes_by_compute. reflexivity.
  - vm_compute. discriminate.
  - exists g, ev. rewrite decide_True in H1 by (vm_compute; reflexivity). split; [exact H1 | exact H2].
Defined.

(** A second fragment in the clear, of another sequence number, is joined to the protected first one. *)
Definition ex_plain : recv_frame :=
  ex_frag_frame 4 (ex_fattr NO_PRIVACY 0 0 10 1 0 0) (zeros 24 ++ [3; 4; 5]) [].

Lemma plain_fragment_joins :
  exists g p', recvframe_defrag [ex_f0; ex_plain] ex_pool = Ok (Some g, p')
    /\ take 37 (drop 4 (rf_mem g)) = zeros 24 ++ ex_pn5 ++ [1; 2; 3; 4; 5].
Proof. eexists _, _. split; [vm_compute; reflexivity | reflexivity]. Qed.
