(* ===== verification/RecvMpdu.v ===== *)
(** * From a received frame to packets for the network stack

    [validate_amsdu_content], [amsdu_to_msdu] and [recv_process_mpdu] of [core/rtw_recv.c] and
    [rtw_os_alloc_msdu_pkt] of [os_dep/linux/recv_linux.c], for a station. The last theorem runs them behind
    the reassembly and the Michael check. *)
From Stdlib Require Import ZArith Lia Bool.
From stdpp Require Import base option list numbers.
From S2P Require Import Prelude Sec Michael Bip RecvFrame RecvPn Defrag.
Local Open Scope Z_scope.

Definition MAX_SUBFRAME_COUNT := 64.
Definition RTW_AMSDU_MODE_NON_SPP := 0.

(** ** The content of an A-MSDU *)

(** [protected_]: [registrypriv.amsdu_mode] is [RTW_AMSDU_MODE_NON_SPP] and there is a privacy algorithm. *)
(* src: core/rtw_recv.c:3122-3153 validate_amsdu_content *)
Definition validate_amsdu_content (amsdu_mode privacy_alg : Z) (at_ : rx_attrib) (da sa : list Z) : Z :=
  if (amsdu_mode =? RTW_AMSDU_MODE_NON_SPP) && negb (privacy_alg =? NO_PRIVACY) then
    let ret := SUCCESS in
    let ret := if a_to_fr_ds at_ =? 2 then if negb (list_eqb da (a_ra at_)) then FAIL else ret else ret in
    let ret := if a_to_fr_ds at_ =? 1 then if negb (list_eqb sa (a_ta at_)) then FAIL else ret else ret in
    if list_eqb da (take 6 rtw_rfc1042_header) then FAIL else ret
  else SUCCESS.

(** The packet: a copy of the MSDU, or a clone of the frame's buffer in which the addresses are written in front of
    it, where the subframe's own header lies; the bytes are the same. *)
(* src: os_dep/linux/recv_linux.c:339-382 rtw_os_alloc_msdu_pkt *)
Definition rtw_os_alloc_msdu_pkt (da sa msdu : list Z) (llc_hdl : rtw_rx_llc_hdl) : list Z :=
  match llc_hdl with
  | RTW_RX_LLC_REMOVE => da ++ sa ++ drop (Z.to_nat SNAP_SIZE) msdu
  | RTW_RX_LLC_KEEP => da ++ sa ++ be16_bytes (zlen msdu) ++ msdu
  end.

Section Station.
  (** The registry's mode, the network's algorithm, and whether the kernel has memory for the n-th packet. *)
  Context (amsdu_mode privacy_alg : Z) (skb_alloc : nat -> bool).

(** The loop's variables and the packets so far. *)
Record amsdu_st : Type := mkAm { am_len : Z; am_pdata : Z; am_pkts : list (list Z) }.

(** The step to the next subframe. *)
(* src: core/rtw_recv.c:3280-3304 amsdu_to_msdu *)
Definition amsdu_next (s : amsdu_st) (n : Z) (pkts : list (list Z)) : amsdu_st + list (list Z) :=
  let pdata := am_pdata s + ETH_HLEN in
  let a_len := am_len s - ETH_HLEN in
  if MAX_SUBFRAME_COUNT <=? zlen pkts then inr pkts
  else
    let pdata := pdata + n in
    let a_len := a_len - n in
    if negb (a_len =? 0) then
      let padding_len := 4 - ((n + ETH_HLEN) & 3) in
      let padding_len := if padding_len =? 4 then 0 else padding_len in
      if a_len <? padding_len then inr pkts
      else inl (mkAm (a_len - padding_len) (pdata + padding_len) pkts)
    else inl (mkAm a_len pdata pkts).

(* src: core/rtw_recv.c:3189-3278 amsdu_to_msdu *)
Definition amsdu_step (mem : list Z) (at_ : rx_attrib) (s : amsdu_st) : res (amsdu_st + list (list Z)) :=
  if negb (ETH_HLEN <? am_len s) then Ok (inr (am_pkts s))
  else
    nSubframe_Length <- RTW_GET_BE16 mem (am_pdata s + 12) ;;
    if am_len s <? ETH_HLEN + nSubframe_Length then Ok (inr (am_pkts s))
    else
      da <- rdn mem (am_pdata s) 6 ;;
      sa <- rdn mem (am_pdata s + ETH_ALEN) 6 ;;
      if validate_amsdu_content amsdu_mode privacy_alg at_ da sa =? FAIL then Ok (inr (am_pkts s))
      else
        llc_hdl <- rtw_recv_llc_parse mem (am_pdata s + ETH_HLEN) nSubframe_Length ;;
        if negb (skb_alloc (length (am_pkts s))) then Ok (inr (am_pkts s))
        else
          msdu <- rdn mem (am_pdata s + ETH_HLEN) nSubframe_Length ;;
          Ok (amsdu_next s nSubframe_Length (am_pkts s ++ [rtw_os_alloc_msdu_pkt da sa msdu llc_hdl])).

(** The packets handed up; the frame is freed in every case. *)
(* src: core/rtw_recv.c:3155-3187 amsdu_to_msdu *)
Definition amsdu_to_msdu (f : recv_frame) : res (list (list Z)) :=
  let a := attrib f in
  let f := snd (recvframe_pull f (a_hdrlen a)) in
  let f := if 0 <? a_iv_len a then snd (recvframe_pull f (a_iv_len a)) else f in
  let f := if negb (a_encrypt a =? 0) then snd (recvframe_pull_tail f (a_icv_len a)) else f in
  loop (amsdu_step (rf_mem f) a) (S (Z.to_nat (rf_len f))) (mkAm (rf_len f) (rx_data f) []).

(** [cannot_run]: the driver was stopped or the device removed. This is the routine of an adapter that is no access point; an access
    point first asks [rtw_ap_rx_msdu_act_check] about forwarding, and [RecvPath] does not run this routine on one. *)
(* src: core/rtw_recv.c:3321-3438 recv_process_mpdu *)
Definition recv_process_mpdu (cannot_run : bool) (f : recv_frame) : res (list (list Z)) :=
  let a := attrib f in
  if negb (a_amsdu a =? 0) then amsdu_to_msdu f
  else
    let msdu := rx_data f + a_hdrlen a + a_iv_len a in
    let msdu_len := u16 (rf_len f - a_hdrlen a - a_iv_len a - (if a_encrypt a =? 0 then 0 else a_icv_len a)) in
    llc_hdl <- rtw_recv_llc_parse (rf_mem f) msdu msdu_len ;;
    '(ret, f) <- wlanhdr_to_ethhdr f llc_hdl ;;
    if negb (ret =? SUCCESS) then Ok []
    else if cannot_run then Ok []
    else pkt <- rdn (rf_mem f) (rx_data f) (rf_len f) ;; Ok [pkt].
End Station.

(** ** Lemmas: subframes *)

Record sub : Type := mkSub { s_da : list Z; s_sa : list Z; s_msdu : list Z }.

Definition sub_ok (s : sub) : Prop :=
  zlen (s_da s) = 6 /\ zlen (s_sa s) = 6 /\ bytes (s_msdu s) /\ zlen (s_msdu s) < 65536.

Definition sub_bytes (s : sub) : list Z := s_da s ++ s_sa s ++ be16_bytes (zlen (s_msdu s)) ++ s_msdu s.
Definition sub_packet (s : sub) : list Z := ether_frame (s_da s) (s_sa s) (s_msdu s).

(** Subframes as a sender lays them out: each but the last filled up to a multiple of four bytes. *)
Inductive amsdu_bytes : list sub -> list Z -> Prop :=
| amsdu_last s t : sub_ok s -> s_msdu s <> [] -> zlen t <= 3 -> amsdu_bytes [s] (sub_bytes s ++ t)
| amsdu_more s pad subs v : sub_ok s -> zlen pad <= 3 -> (zlen (sub_bytes s) + zlen pad) mod 4 = 0 ->
    amsdu_bytes subs v -> amsdu_bytes (s :: subs) (sub_bytes s ++ pad ++ v).

Lemma os_pkt_ether da sa m : rtw_os_alloc_msdu_pkt da sa m (llc_of m) = ether_frame da sa m.
Proof. unfold rtw_os_alloc_msdu_pkt, ether_frame, llc_of. destruct (snap_stripped m); done. Qed.

Lemma zlen_sub s : sub_ok s -> zlen (sub_bytes s) = 14 + zlen (s_msdu s).
Proof. intros (H1 & H2 & _). unfold sub_bytes. rewrite !zlen_app, zlen_be16. lia. Qed.

Lemma land3_mod x : Z.land x (4 - 1) = x mod 4.
Proof. change (4 - 1) with (Z.ones 2). apply Z.land_ones. lia. Qed.

(** The padding the receiver skips. *)
Definition pad4 (n : Z) : Z := (- n) mod 4.

Lemma pad4_code n : (if 4 - (n & 3) =? 4 then 0 else 4 - (n & 3)) = pad4 n.
Proof.
  change 3 with (4 - 1). rewrite land3_mod. unfold pad4. pose proof (Z.mod_pos_bound n 4 ltac:(lia)).
  destruct (Z.eq_dec (n mod 4) 0) as [E|E].
  - rewrite E. cbn [Z.sub Z.add Z.opp Z.pos_sub Z.eqb]. rewrite Z.mod_opp_l_z by lia. done.
  - rewrite Z.mod_opp_l_nz by lia. destruct (Z.eqb_spec (4 - n mod 4) 4); lia.
Qed.

Section StationLemmas.
  Context (amsdu_mode privacy_alg : Z) (skb_alloc : nat -> bool).
  Context (at_ : rx_attrib).

Definition sub_valid (s : sub) : Prop :=
  validate_amsdu_content amsdu_mode privacy_alg at_ (s_da s) (s_sa s) = SUCCESS.

Lemma step_sub a s w b pkts :
  sub_ok s -> sub_valid s -> skb_alloc (length pkts) = true -> 14 < zlen (sub_bytes s ++ w) ->
  amsdu_step amsdu_mode privacy_alg skb_alloc (a ++ sub_bytes s ++ w ++ b) at_
    (mkAm (zlen (sub_bytes s ++ w)) (zlen a) pkts)
  = Ok (amsdu_next (mkAm (zlen (sub_bytes s ++ w)) (zlen a) pkts) (zlen (s_msdu s)) (pkts ++ [sub_packet s])).
Proof.
  intros Hok Hv Ha Hlen. pose proof (zlen_sub s Hok) as Hz. destruct Hok as (H1 & H2 & H3 & H4). pose proof (zlen_nonneg w).
  unfold amsdu_step. cbn [am_len am_pdata am_pkts]. rewrite (proj2 (Z.ltb_lt _ _)) by done. cbn [negb].
  set (mem := a ++ sub_bytes s ++ w ++ b).
  assert (E0 : mem = a ++ s_da s ++ (s_sa s ++ be16_bytes (zlen (s_msdu s)) ++ s_msdu s ++ w ++ b))
    by (unfold mem, sub_bytes; rewrite <- !app_assoc; done).
  assert (E1 : mem = (a ++ s_da s) ++ s_sa s ++ (be16_bytes (zlen (s_msdu s)) ++ s_msdu s ++ w ++ b))
    by (rewrite E0, <- !app_assoc; done).
  assert (E2 : mem = (a ++ s_da s ++ s_sa s) ++ be16_bytes (zlen (s_msdu s)) ++ s_msdu s ++ w ++ b)
    by (rewrite E0, <- !app_assoc; done).
  assert (E3 : mem = (a ++ s_da s ++ s_sa s ++ be16_bytes (zlen (s_msdu s))) ++ s_msdu s ++ w ++ b)
    by (rewrite E0, <- !app_assoc; done).
  replace (zlen a + 12) with (zlen (a ++ s_da s ++ s_sa s)) by (rewrite !zlen_app; lia).
  pose proof (zlen_nonneg (s_msdu s)). rewrite E2 at 1. rewrite get_be16_bytes by lia. cbn [bind].
  rewrite zlen_app, Hz. rewrite (proj2 (Z.ltb_ge _ _)) by (unfold ETH_HLEN; lia).
  assert (R1 : rdn mem (zlen a) 6 = Ok (s_da s)) by (rewrite E0, <- H1; apply rdn_app).
  assert (R2 : rdn mem (zlen a + ETH_ALEN) 6 = Ok (s_sa s)).
  { unfold ETH_ALEN. rewrite <- H1, <- zlen_app, H1, <- H2. rewrite E1. apply rdn_app. }
  assert (E4 : zlen a + ETH_HLEN = zlen (a ++ s_da s ++ s_sa s ++ be16_bytes (zlen (s_msdu s))))
    by (rewrite !zlen_app, zlen_be16; unfold ETH_HLEN; lia).
  rewrite R1. cbn [bind]. rewrite R2. cbn [bind]. rewrite Hv. cbn [Z.eqb SUCCESS FAIL].
  rewrite E4, E3, llc_parse_spec by done. cbn [bind]. rewrite Ha. cbn [negb]. rewrite rdn_app. cbn [bind].
  rewrite os_pkt_ether. done.
Qed.

Lemma next_full s n pkts : 64 <= zlen pkts -> amsdu_next s n pkts = inr pkts.
Proof. intros H. unfold amsdu_next. rewrite (proj2 (Z.leb_le _ _)) by done. done. Qed.

Lemma next_room l p pkts0 n pkts : zlen pkts < 64 ->
  amsdu_next (mkAm l p pkts0) n pkts =
    let a_len := l - (14 + n) in
    if a_len =? 0 then inl (mkAm 0 (p + (14 + n)) pkts)
    else if a_len <? pad4 (14 + n) then inr pkts
    else inl (mkAm (a_len - pad4 (14 + n)) (p + (14 + n) + pad4 (14 + n)) pkts).
Proof.
  intros H. unfold amsdu_next. rewrite (proj2 (Z.leb_gt _ _)) by done. cbn [am_len am_pdata].
  unfold ETH_HLEN. rewrite (Z.add_comm n 14), pad4_code.
  replace (l - 14 - n) with (l - (14 + n)) by lia. replace (p + 14 + n) with (p + (14 + n)) by lia.
  cbv zeta. destruct (Z.eqb_spec (l - (14 + n)) 0) as [->|]; done.
Qed.

Lemma amsdu_bytes_long subs v : amsdu_bytes subs v -> 14 < zlen v.
Proof.
  induction 1 as [s t Hok Hne Ht | s pad subs v Hok Hp Hm Hv IH].
  - rewrite zlen_app, zlen_sub by done. pose proof (zlen_nonneg t).
    destruct (s_msdu s); [done|]. rewrite zlen_cons. pose proof (zlen_nonneg l). lia.
  - rewrite !zlen_app, zlen_sub by done. pose proof (zlen_nonneg pad). pose proof (zlen_nonneg (s_msdu s)). lia.
Qed.

Lemma pad4_exact n k : 0 <= k <= 3 -> (n + k) mod 4 = 0 -> pad4 n = k.
Proof.
  intros Hk H. unfold pad4. symmetry. apply Z.mod_unique with (q := - ((n + k) / 4)); [lia|].
  pose proof (Z.div_mod (n + k) 4 ltac:(lia)). lia.
Qed.

Lemma amsdu_loop subs v : amsdu_bytes subs v -> Forall sub_valid subs -> (forall n, skb_alloc n = true) ->
  forall a b pkts fuel, zlen pkts < 64 -> zlen v < Z.of_nat fuel ->
  loop (amsdu_step amsdu_mode privacy_alg skb_alloc (a ++ v ++ b) at_) fuel (mkAm (zlen v) (zlen a) pkts)
  = Ok (pkts ++ map sub_packet (take (64 - length pkts) subs)).
Proof.
  induction 1 as [s t Hok Hne Ht | s pad subs v Hok Hp Hm Hv IH]; intros HF Ha a b pkts fuel Hl Hfuel;
    apply Forall_cons_1 in HF as [Hval HF].
  - assert (H14 : 14 < zlen (sub_bytes s ++ t)) by (apply (amsdu_bytes_long [s]); constructor; done).
    destruct fuel as [|fuel]; [lia|]. rewrite loop_S. rewrite <- app_assoc, step_sub by done.
    destruct (64 - length pkts)%nat as [|k] eqn:Ek; [zlia|]. cbn [take map]. rewrite take_nil. cbn [map].
    destruct (Z.eq_dec (zlen (pkts ++ [sub_packet s])) 64) as [E64|N64]; [rewrite next_full by lia; done|].
    rewrite next_room by (rewrite zlen_app in *; change (zlen [sub_packet s]) with 1 in *; lia). cbv zeta.
    rewrite zlen_app, zlen_sub in * by done. destruct fuel as [|fuel]; [lia|].
    replace (14 + zlen (s_msdu s) + zlen t - (14 + zlen (s_msdu s))) with (zlen t) by lia.
    pose proof (Z.mod_pos_bound (- (14 + zlen (s_msdu s))) 4 ltac:(lia)) as Hpad. fold (pad4 (14 + zlen (s_msdu s))) in Hpad.
    destruct (zlen t =? 0); [reflexivity|]. destruct (zlen t <? _); [done|]. rewrite loop_S.
    unfold amsdu_step at 1. cbn [am_len]. rewrite (proj2 (Z.ltb_ge _ _)) by (unfold ETH_HLEN; lia). done.
  - pose proof (amsdu_bytes_long _ _ Hv) as H14. pose proof (zlen_sub s Hok) as Hz. pose proof (zlen_nonneg pad).
    pose proof (zlen_nonneg (s_msdu s)).
    destruct fuel as [|fuel]; [rewrite !zlen_app in Hfuel; lia|]. rewrite loop_S. rewrite <- app_assoc, step_sub; [|done..|rewrite !zlen_app; lia].
    destruct (64 - length pkts)%nat as [|k] eqn:Ek; [zlia|]. cbn [take map].
    destruct (Z.eq_dec (zlen (pkts ++ [sub_packet s])) 64) as [E64|N64].
    { rewrite next_full by lia. assert (k = 0%nat) as -> by (rewrite zlen_app in E64; zlia). done. }
    rewrite next_room by (rewrite zlen_app in *; change (zlen [sub_packet s]) with 1 in *; lia). cbv zeta.
    rewrite <- Hz, (pad4_exact _ (zlen pad)) by lia. rewrite !zlen_app.
    rewrite (proj2 (Z.eqb_neq _ _)), (proj2 (Z.ltb_ge _ _)) by lia.
    replace (zlen (sub_bytes s) + (zlen pad + zlen v) - zlen (sub_bytes s) - zlen pad) with (zlen v) by lia.
    replace (zlen a + zlen (sub_bytes s) + zlen pad) with (zlen (a ++ sub_bytes s ++ pad)) by (rewrite !zlen_app; lia).
    replace (a ++ sub_bytes s ++ (pad ++ v) ++ b) with ((a ++ sub_bytes s ++ pad) ++ v ++ b) by (rewrite <- !app_assoc; done).
    rewrite !zlen_app in *. change (zlen [sub_packet s]) with 1 in *.
    replace (zlen a + (zlen (sub_bytes s) + zlen pad)) with (zlen (a ++ sub_bytes s ++ pad)) by (rewrite !zlen_app; lia).
    rewrite IH; [|done|done|rewrite zlen_app; change (zlen [sub_packet s]) with 1; lia|lia].
    rewrite <- app_assoc. cbn [app]. rewrite length_app. cbn [length].
    replace (64 - (length pkts + 1))%nat with k by lia. done.
Qed.
End StationLemmas.

(** ** Lemmas: the start of the loop *)

Section Start.
  Context (amsdu_mode privacy_alg : Z) (skb_alloc : nat -> bool).

Definition amsdu_run (mem : list Z) (at_ : rx_attrib) (v pre : list Z) : res (list (list Z)) :=
  loop (amsdu_step amsdu_mode privacy_alg skb_alloc mem at_) (S (Z.to_nat (zlen v))) (mkAm (zlen v) (zlen pre) []).

Lemma amsdu_start f a h iv v icv b : mpdu f a h iv v icv b ->
  amsdu_to_msdu amsdu_mode privacy_alg skb_alloc f
  = amsdu_run (((a ++ h) ++ iv) ++ v ++ icv ++ b) (attrib f) v ((a ++ h) ++ iv).
Proof.
  intros [Hf Hh Hi Hc]. unfold amsdu_to_msdu. rewrite Hh, Hi. pose proof (zlen_nonneg iv).
  destruct (pull_spec _ _ _ _ _ Hf) as (g1 & E1 & Hg1 & _ & A1 & _). rewrite E1. cbn [snd].
  assert (H2 : exists g2, (if 0 <? zlen iv then snd (recvframe_pull g1 (zlen iv)) else g1) = g2
                 /\ framed g2 ((a ++ h) ++ iv) (v ++ icv) b).
  { destruct (Z.ltb_spec 0 (zlen iv)) as [Hp|Hp].
    - destruct (pull_spec _ _ _ _ _ Hg1) as (g2 & E2 & Hg2 & _). rewrite E2. eauto.
    - destruct iv; [|rewrite zlen_cons in Hp; pose proof (zlen_nonneg iv); lia]. rewrite app_nil_r. eauto. }
  destruct H2 as (g2 & -> & Hg2).
  assert (H3 : exists g3, (if negb (a_encrypt (attrib f) =? 0) then snd (recvframe_pull_tail g2 (a_icv_len (attrib f))) else g2) = g3
                 /\ framed g3 ((a ++ h) ++ iv) v (icv ++ b)).
  { destruct (_ =? 0); cbn [negb].
    - subst icv. rewrite app_nil_r in Hg2. eauto.
    - rewrite Hc. destruct (pull_tail_spec _ _ _ _ _ Hg2) as (g3 & E3 & Hg3 & _). rewrite E3. eauto. }
  destruct H3 as (g3 & -> & Hg3). rewrite (fr_mem _ _ _ _ Hg3), (fr_len _ _ _ _ Hg3), (fr_data _ _ _ _ Hg3). done.
Qed.

(** On any content the parser stays in the frame. *)
Lemma llc_parse_in mem p n : 0 <= p -> 0 <= n -> p + n <= zlen mem ->
  exists r, rtw_recv_llc_parse mem p n = Ok r /\ (r = RTW_RX_LLC_REMOVE -> 8 <= n).
Proof.
  intros Hp Hn Hl. unfold rtw_recv_llc_parse. destruct (Z.ltb_spec n 8) as [Hs|Hs]; [eexists; split; done|].
  unfold RTW_GET_BE16, SNAP_SIZE. destruct (rd_in mem (p + 6)) as [x ->]; [lia|]. destruct (rd_in mem (p + 6 + 1)) as [y ->]; [lia|].
  cbn [bind]. destruct (memeq_in mem p rtw_rfc1042_header) as [r1 ->]; [lia | change (zlen rtw_rfc1042_header) with 6; lia|].
  destruct (memeq_in mem p rtw_bridge_tunnel_header) as [r2 ->]; [lia | change (zlen rtw_bridge_tunnel_header) with 6; lia|]. cbn [bind]. eauto.
Qed.

Definition total (pkts : list (list Z)) : Z := fold_right (fun p n => zlen p + n) 0 pkts.

Lemma total_app pkts p : total (pkts ++ [p]) = total pkts + zlen p.
Proof. induction pkts as [|q pkts IH]; cbn; [lia|]. unfold total in *. cbn. rewrite IH. lia. Qed.

Definition packets_ok (n : Z) (r : res (list (list Z))) : Prop :=
  exists pkts, r = Ok pkts /\ zlen pkts <= 64 /\ total pkts <= n.

(** The loop's invariant, for a window that ends at [e] and held [n] bytes. *)
Definition am_inv (e n : Z) (s : amsdu_st) : Prop :=
  0 <= am_len s /\ 0 <= am_pdata s /\ am_pdata s + am_len s = e /\ zlen (am_pkts s) < 64
  /\ total (am_pkts s) + am_len s <= n.

Lemma next_inv s n m p : am_inv (am_pdata s + am_len s) m s -> 0 <= n -> 14 + n <= am_len s -> zlen p <= 14 + n ->
  match amsdu_next s n (am_pkts s ++ [p]) with
  | inl s' => am_inv (am_pdata s + am_len s) m s' /\ 0 <= am_len s' < am_len s
  | inr r => packets_ok m (Ok r)
  end.
Proof.
  intros (I1 & I2 & _ & I4 & I5) Hn Hl Hp. destruct s as [l pd pkts]. cbn [am_len am_pdata am_pkts] in *.
  assert (Hok : packets_ok m (Ok (pkts ++ [p]))).
  { exists (pkts ++ [p]). rewrite total_app, zlen_app. change (zlen [p]) with 1. split; [done | lia]. }
  destruct (Z_le_gt_dec 64 (zlen (pkts ++ [p]))) as [H64|H64]; [rewrite next_full by done; done|].
  rewrite next_room by lia. cbv zeta. pose proof (Z.mod_pos_bound (- (14 + n)) 4 ltac:(lia)) as Hpad. fold (pad4 (14 + n)) in Hpad.
  unfold am_inv. destruct (Z.eqb_spec (l - (14 + n)) 0) as [E|E]; [|destruct (Z.ltb_spec (l - (14 + n)) (pad4 (14 + n))); [done|]];
    cbn [am_len am_pdata am_pkts]; rewrite total_app; lia.
Qed.

Lemma step_inv mem at_ e n s : am_inv e n s -> e <= zlen mem ->
  match amsdu_step amsdu_mode privacy_alg skb_alloc mem at_ s with
  | Ok (inl s') => am_inv e n s' /\ 0 <= am_len s' < am_len s
  | Ok (inr r) => packets_ok n (Ok r)
  | Fault ft => packets_ok n (Fault ft)
  end.
Proof.
  intros Hi Hm. pose proof Hi as (I1 & I2 & I3 & I4 & I5). unfold amsdu_step.
  assert (Hok : packets_ok n (Ok (am_pkts s))) by (exists (am_pkts s); split; [done | lia]).
  unfold ETH_HLEN. destruct (Z.ltb_spec 14 (am_len s)) as [Hl|Hl]; cbn [negb]; [|done].
  unfold RTW_GET_BE16. destruct (rd_in mem (am_pdata s + 12)) as [x ->]; [lia|].
  destruct (rd_in mem (am_pdata s + 12 + 1)) as [y ->]; [lia|]. cbn [bind]. set (k := u16 _).
  pose proof (u16_range (Z.shiftl x 8 .| y)) as Hk. fold k in Hk.
  destruct (Z.ltb_spec (am_len s) (14 + k)) as [Hs|Hs]; [done|]. unfold ETH_ALEN. rewrite !(rdn_in mem _ 6) by lia. cbn [bind].
  destruct (_ =? FAIL); [done|]. destruct (llc_parse_in mem (am_pdata s + 14) k) as (r & -> & Hr); [lia..|]. cbn [bind].
  destruct (skb_alloc _); cbn [negb]; [|done]. rewrite (rdn_in mem (am_pdata s + 14) k) by lia. cbn [bind].
  rewrite <- I3. apply next_inv; [rewrite I3; done | lia | lia |].
  unfold rtw_os_alloc_msdu_pkt, SNAP_SIZE, zlen in *.
  destruct r; rewrite !length_app, ?length_drop, !length_take, !length_drop; [cbn [length be16_bytes]; lia|].
  specialize (Hr eq_refl). lia.
Qed.
End Start.

(** ** Theorems: A-MSDUs *)

Lemma amsdu_to_msdu_spec amsdu_mode privacy_alg skb_alloc f a h iv v icv b subs :
  mpdu f a h iv v icv b -> amsdu_bytes subs v ->
  Forall (sub_valid amsdu_mode privacy_alg (attrib f)) subs -> (forall n, skb_alloc n = true) ->
  amsdu_to_msdu amsdu_mode privacy_alg skb_alloc f = Ok (map sub_packet (take 64 subs)).
Proof.
  intros Hf Hv HF Ha. rewrite (amsdu_start _ _ _ _ _ _ _ _ _ _ Hf). unfold amsdu_run.
  rewrite (amsdu_loop _ _ _ _ _ _ Hv) by (done || zlia). done.
Qed.

(** C23: Round trip: the subframes of an A-MSDU, laid out one after the other with padding to four bytes, come out as one
    Ethernet packet each, in order, header, IV and ICV of the frame gone; at most the first 64, and all of them
    when there are no more. *)
Theorem amsdu_roundtrip amsdu_mode privacy_alg skb_alloc f a h iv v icv b subs :
  mpdu f a h iv v icv b -> amsdu_bytes subs v ->
  Forall (sub_valid amsdu_mode privacy_alg (attrib f)) subs -> (forall n, skb_alloc n = true) ->
  amsdu_to_msdu amsdu_mode privacy_alg skb_alloc f = Ok (map sub_packet (take 64 subs)).
Proof. apply amsdu_to_msdu_spec. Qed.

(** C24: On any content the A-MSDU loop ends, reads inside the frame only, and makes at most 64 packets, together no longer
    than the frame; whichever allocations fail. *)
Theorem amsdu_stays_in_frame amsdu_mode privacy_alg skb_alloc f a h iv v icv b :
  mpdu f a h iv v icv b ->
  packets_ok (zlen v) (amsdu_to_msdu amsdu_mode privacy_alg skb_alloc f).
Proof.
  intros Hf. rewrite (amsdu_start _ _ _ _ _ _ _ _ _ _ Hf). unfold amsdu_run. pose proof (zlen_nonneg v).
  pose proof (zlen_nonneg ((a ++ h) ++ iv)). pose proof (zlen_nonneg (icv ++ b)).
  apply (loop_spec _ (am_inv (zlen ((a ++ h) ++ iv) + zlen v) (zlen v)) (packets_ok (zlen v)) am_len).
  - intros s Hs. apply step_inv; [done|]. rewrite (zlen_app ((a ++ h) ++ iv)), (zlen_app v). lia.
  - unfold am_inv. cbn [am_len am_pdata am_pkts]. change (zlen (@nil (list Z))) with 0. change (total []) with 0. lia.
  - cbn [am_len]. lia.
  - cbn [am_len]. lia.
Qed.

(** An MSDU dressed up as an A-MSDU is dropped whole: in a protected network, where the registry asks for the
    check, a frame whose content starts with the bytes AA:AA:03:00:00:00 of an LLC header, as every MSDU that is
    reinterpreted this way does, hands up nothing; nor does one that starts with another receiver's or sender's address. *)
Theorem amsdu_first_subframe_checked privacy_alg skb_alloc f a h iv da sa r icv b :
  mpdu f a h iv (da ++ sa ++ r) icv b -> zlen da = 6 -> zlen sa = 6 -> privacy_alg <> NO_PRIVACY ->
  da = rtw_rfc1042_header
  \/ a_to_fr_ds (attrib f) = 2 /\ da <> a_ra (attrib f) \/ a_to_fr_ds (attrib f) = 1 /\ sa <> a_ta (attrib f) ->
  amsdu_to_msdu RTW_AMSDU_MODE_NON_SPP privacy_alg skb_alloc f = Ok [].
Proof.
  intros Hf Hd Hs Hp Hbad. rewrite (amsdu_start _ _ _ _ _ _ _ _ _ _ Hf). unfold amsdu_run. rewrite loop_S.
  unfold amsdu_step. cbn [am_len am_pdata am_pkts]. unfold ETH_HLEN, ETH_ALEN. set (pre := (a ++ h) ++ iv). pose proof (zlen_nonneg pre).
  pose proof (zlen_nonneg (icv ++ b)). destruct (Z.ltb_spec 14 (zlen (da ++ sa ++ r))) as [Hl|Hl]; cbn [negb]; [|done].
  assert (Hz : zlen (pre ++ (da ++ sa ++ r) ++ icv ++ b) = zlen pre + zlen (da ++ sa ++ r) + zlen (icv ++ b)) by (rewrite !zlen_app; lia).
  unfold RTW_GET_BE16. destruct (rd_in (pre ++ (da ++ sa ++ r) ++ icv ++ b) (zlen pre + 12)) as [x ->]; [lia|].
  destruct (rd_in (pre ++ (da ++ sa ++ r) ++ icv ++ b) (zlen pre + 12 + 1)) as [y ->]; [lia|]. cbn [bind].
  destruct (_ <? _); [done|].
  replace (pre ++ (da ++ sa ++ r) ++ icv ++ b) with (pre ++ da ++ (sa ++ r ++ icv ++ b)) by (rewrite <- !app_assoc; done).
  rewrite <- Hd at 1. rewrite rdn_app. cbn [bind].
  replace (pre ++ da ++ (sa ++ r ++ icv ++ b)) with ((pre ++ da) ++ sa ++ (r ++ icv ++ b)) by (rewrite <- !app_assoc; done).
  replace (zlen pre + 6) with (zlen (pre ++ da)) by (rewrite zlen_app; lia). rewrite <- Hs, rdn_app. cbn [bind].
  assert (E : validate_amsdu_content RTW_AMSDU_MODE_NON_SPP privacy_alg (attrib f) da sa = FAIL).
  { unfold validate_amsdu_content. rewrite Z.eqb_refl. rewrite (proj2 (Z.eqb_neq _ _)) by done. cbn [andb negb].
    change (take 6 rtw_rfc1042_header) with rtw_rfc1042_header. unfold list_eqb. destruct Hbad as [->|[[-> Hne]|[-> Hne]]].
    - rewrite (bool_decide_true (_ = rtw_rfc1042_header)) by done. done.
    - rewrite (bool_decide_false (da = a_ra _)) by done. destruct (bool_decide _); done.
    - rewrite (bool_decide_false (sa = a_ta _)) by done. destruct (bool_decide _); done. }
  rewrite E. done.
Qed.

(** ** Theorem: reassembly, Michael check and delivery together *)

Lemma wrn_bytes b i src b' : bytes b -> bytes src -> wrn b i src = Ok b' -> bytes b'.
Proof.
  unfold wrn, bytes. intros Hb Hs H. case_match; [|discriminate]. injection H as <-.
  repeat apply Forall_app_2; [apply Forall_take | done | apply Forall_drop]; done.
Qed.

Lemma moves_mem f n : rf_mem (snd (recvframe_pull f n)) = rf_mem f /\ rf_mem (snd (recvframe_pull_tail f n)) = rf_mem f
  /\ rf_mem (snd (recvframe_put f n)) = rf_mem f.
Proof. unfold recvframe_pull, recvframe_pull_tail, recvframe_put. repeat case_match; done. Qed.

Lemma defrag_turns_bytes q : forall pf c n g, bytes (rf_mem pf) -> Forall (fun f => bytes (rf_mem f)) q ->
  defrag_turns pf c n q = Ok (Some g) -> bytes (rf_mem g).
Proof.
  induction q as [|nf q IH]; intros pf c n g Hb HF H; cbn [defrag_turns] in H; [by injection H as <-|].
  apply Forall_cons_1 in HF as [Hnf HF]. apply bind_Ok in H as ([[[pf' c'] n']|] & Ht & H); [|discriminate].
  apply IH in H; [done | | done]. unfold defrag_turn in Ht. apply bind_Ok in Ht as ([pn|] & _ & Ht); [|discriminate].
  repeat (case_match; [discriminate|]). apply bind_Ok in Ht as (src & Hsrc & Ht). apply bind_Ok in Ht as (m & Hm & Ht).
  injection Ht as <- _ _. unfold with_icv_len, with_attrib. cbn [rf_mem]. rewrite (proj2 (proj2 (moves_mem _ _))). cbn [rf_mem with_mem].
  rewrite (proj1 (proj2 (moves_mem _ _))) in Hm. rewrite (proj1 (moves_mem _ _)) in Hsrc.
  eapply wrn_bytes; [| |exact Hm]; [done | eapply rdn_bytes; done].
Qed.

(** The last fragment meets its station's queue. *)
Lemma last_fragment_queue e f s p g p' :
  a_mfrag (attrib f) = 0 -> a_frag_num (attrib f) <> 0 -> IS_MCAST (a_ra (attrib f)) = false ->
  recvframe_defrag (ds_q s ++ [with_keytrack f (ds_keytrack s)]) p = Ok (Some g, p') ->
  recvframe_chk_defrag e f (Some s) None p =
    if a_privacy (attrib g) =? 0 then Ok (Some g, Some (mkDs (ds_keytrack s) []), p', None)
    else
      '(ret, g, ev) <- recvframe_chkmic e g ;;
      if ret =? FAIL then Ok (None, Some (mkDs (ds_keytrack s) []), rtw_free_recvframe (rf_slot g) p', ev)
      else Ok (Some g, Some (mkDs (ds_keytrack s) []), p', ev).
Proof.
  intros Hm Hn Hmc Hd. unfold recvframe_chk_defrag. cbn [defrag_sta bind]. unfold chk_defrag_queue. rewrite Hm, Hmc.
  rewrite (proj2 (Z.eqb_neq _ _) Hn). cbn [Z.eqb andb negb]. rewrite Hd. done.
Qed.

Lemma process_mpdu_delivers mode alg alloc f a h iv m icv b :
  mpdu f a h iv m icv b -> a_amsdu (attrib f) = 0 -> 14 <= zlen h -> bytes m -> zlen m < 65536 ->
  zlen (a_dst (attrib f)) = 6 -> zlen (a_src (attrib f)) = 6 ->
  recv_process_mpdu mode alg alloc false f = Ok [ether_frame (a_dst (attrib f)) (a_src (attrib f)) m].
Proof.
  intros Hmp Ha Hh Hb Hl Hd Hs. pose proof Hmp as [Hf Hhdr Hiv Hicv]. pose proof (zlen_nonneg m).
  assert (E : u16 (rf_len f - zlen h - zlen iv - (if a_encrypt (attrib f) =? 0 then 0 else a_icv_len (attrib f))) = zlen m).
  { rewrite (fr_len _ _ _ _ Hf), !zlen_app. destruct (_ =? 0); [subst icv; change (zlen []) with 0 | rewrite Hicv];
      rewrite u16_small by lia; lia. }
  destruct (wlanhdr_to_ethhdr_spec f a h iv m icv b) as (g & a' & E1 & E2 & Hg); try done.
  unfold recv_process_mpdu. rewrite Ha, Hhdr, Hiv, E, (fr_data _ _ _ _ Hf). cbn [Z.eqb negb]. rewrite E1. cbn [bind].
  rewrite E2. cbn [bind]. rewrite Z.eqb_refl. cbn [negb].
  rewrite (fr_mem _ _ _ _ Hg), (fr_data _ _ _ _ Hg), (fr_len _ _ _ _ Hg), rdn_app. done.
Qed.

(** C19: The whole way of a fragmented TKIP frame: when the last fragment of a run arrives and the bodies together are
    an MSDU and its Michael code, the station's queue is joined, the code accepted, and exactly one packet is handed up:
    destination, source and the MSDU behind its LLC header. *)
Theorem tkip_fragments_delivered mode alg alloc e f s p f0 fs a0 v0 b0 vs m mic key :
  ds_q s ++ [with_keytrack f (ds_keytrack s)] = f0 :: fs ->
  a_mfrag (attrib f) = 0 -> a_frag_num (attrib f) <> 0 -> IS_MCAST (a_ra (attrib f)) = false ->
  fragment f0 a0 (fv_h v0) (fv_iv v0) (fv_body v0 ++ fv_icv v0) b0 -> a_icv_len (attrib f0) = zlen (fv_icv v0) ->
  a_frag_num (attrib f0) = 0 -> a_encrypt (attrib f0) = TKIP -> a_privacy (attrib f0) <> 0 -> a_amsdu (attrib f0) = 0 ->
  run (keytrack f0) 1 0 (zlen b0) (zlen (fv_icv v0)) fs vs -> Forall (fun g => bytes (rf_mem g)) (f0 :: fs) ->
  fv_body v0 ++ concat (map fv_body vs) = m ++ mic -> zlen mic = 8 -> zlen m < 65536 ->
  mic = michael (mic_key key)
          (mic_header (fv_h v0 ++ fv_iv v0 ++ m ++ mic ++ last_icv (fv_icv v0) vs) 0 (a_priority (attrib f0)) ++ m) ->
  24 <= zlen (fv_h v0) -> is_byte (a_priority (attrib f0)) -> 0 <= a_key_index (attrib f0) ->
  mic_key_of e (attrib f0) = Some key -> bytes key -> 8 <= zlen key ->
  zlen (a_dst (attrib f0)) = 6 -> zlen (a_src (attrib f0)) = 6 ->
  exists g psta' p' ev, recvframe_chk_defrag e f (Some s) None p = Ok (Some g, psta', p', ev)
    /\ recv_process_mpdu mode alg alloc false g = Ok [ether_frame (a_dst (attrib f0)) (a_src (attrib f0)) m].
Proof.
  intros Hq Hm0 Hn Hmc Hf Hic Hn0 He Hpr Ham Hrun HF Hbody Hmic Hml Hcode Hh Hpri Hki Hkey Hkb Hkl Hd Hs.
  pose proof Hf as [Hfr Hh0 Hi0 _]. pose proof HF as [Hb0 HFs]%Forall_cons_1.
  assert (Hbv : bytes ((fv_h v0 ++ fv_iv v0 ++ fv_body v0 ++ fv_icv v0))).
  { rewrite (fr_mem _ _ _ _ Hfr) in Hb0. unfold bytes in Hb0. apply Forall_app in Hb0 as [_ Hb0]. apply Forall_app in Hb0 as [Hb0 _]. done. }
  assert (Hbiv : bytes (fv_iv v0)).
  { unfold bytes in Hbv. apply Forall_app in Hbv as [_ Hbv]. apply Forall_app in Hbv as [Hbv _]. done. }
  destruct (recvframe_defrag_spec f0 fs a0 v0 b0 vs p) as (g & z & Ej & Hg & _ & Hat); try (rewrite He); try done.
  assert (Hgb : bytes (rf_mem g)).
  { unfold recvframe_defrag in Ej. rewrite He, Hn0 in Ej. cbn [bind] in Ej. change (ccmp_like TKIP) with false in Ej.
    change (negb (0 =? 0)) with false in Ej. cbn [bind] in Ej. apply bind_Ok in Ej as ([g1|] & Et & Ej); [|discriminate].
    injection Ej as ->. eapply defrag_turns_bytes; [| |exact Et]; done. }
  rewrite <- Hq in Ej. rewrite Hbody, <- !app_assoc in Hg. set (icv := last_icv (fv_icv v0) vs) in *.
  unfold with_icv_len in Hat. cbn [attrib with_attrib] in Hat.
  destruct (recvframe_chkmic_spec e g a0 (fv_h v0) (fv_iv v0) m mic icv z key) as (g2 & ev & Em & Hg2 & Hat2);
    try (rewrite Hat; done); try done.
  rewrite decide_True in Em by (rewrite Hat; exact Hcode).
  rewrite (last_fragment_queue _ _ _ _ _ _ Hm0 Hn Hmc Ej), Em.
  replace (a_privacy (attrib g) =? 0) with false by (rewrite Hat; symmetry; apply Z.eqb_neq; done). cbn [bind Z.eqb SUCCESS FAIL].
  exists g2. do 3 eexists. split; [reflexivity|].
  assert (Ha2 : attrib g2 = _) by (rewrite Hat2; exact Hat).
  replace (a_dst (attrib f0)) with (a_dst (attrib g2)) in * by (rewrite Ha2; done).
  replace (a_src (attrib f0)) with (a_src (attrib g2)) in * by (rewrite Ha2; done).
  eapply (process_mpdu_delivers _ _ _ g2 a0 (fv_h v0) (fv_iv v0) m); [|rewrite Ha2; exact Ham | lia | | done | done | done].
  - constructor; [exact Hg2 | rewrite Ha2; exact Hh0 | rewrite Ha2; exact Hi0 |]. rewrite Ha2.
    change (a_encrypt _) with (a_encrypt (attrib f0)). rewrite He. cbn [Z.eqb TKIP a_icv_len].
    unfold zlen. rewrite length_take, length_app. lia.
  - rewrite (fr_mem _ _ _ _ Hg) in Hgb. unfold bytes in Hgb. apply Forall_app in Hgb as [_ Hgb].
    apply Forall_app in Hgb as [Hgb _]. apply Forall_app in Hgb as [_ Hgb]. apply Forall_app in Hgb as [_ Hgb].
    apply Forall_app in Hgb as [Hgb _]. done.
Qed.

(** ** Examples *)

Definition ex_sub (m : list Z) : sub := mkSub ex_dst ex_src m.
Definition ex_subs : list sub := [ex_sub ex_snap; ex_sub [1; 2; 3]].
Definition ex_amsdu : list Z := sub_bytes (ex_sub ex_snap) ++ [] ++ (sub_bytes (ex_sub [1; 2; 3]) ++ []).
Definition ex_amsdu_frame : recv_frame :=
  ex_frag_frame 6 (ex_fattr AES 8 8 9 0 0 1) (zeros 24 ++ ex_pn5 ++ ex_amsdu ++ zeros 8) [].

Lemma ex_amsdu_bytes : amsdu_bytes ex_subs ex_amsdu.
Proof.
  apply amsdu_more; [| vm_compute; discriminate | reflexivity |].
  - split; [reflexivity|]. split; [reflexivity|]. split; [apply bytes_by_compute; reflexivity | reflexivity].
  - apply amsdu_last; [| discriminate | vm_compute; discriminate].
    split; [reflexivity|]. split; [reflexivity|]. split; [apply bytes_by_compute; reflexivity | reflexivity].
Qed.

Lemma ex_amsdu_mpdu : mpdu ex_amsdu_frame (zeros 4) (zeros 24) ex_pn5 ex_amsdu (zeros 8) [].
Proof. constructor; [constructor; vm_compute; reflexivity | reflexivity ..]. Qed.

Lemma amsdu_roundtrip_witness :
  amsdu_to_msdu RTW_AMSDU_MODE_NON_SPP AES (fun _ => true) ex_amsdu_frame
  = Ok [ex_dst ++ ex_src ++ [8; 0; 1; 2]; ex_dst ++ ex_src ++ [0; 3; 1; 2; 3]].
Proof.
  apply (amsdu_roundtrip RTW_AMSDU_MODE_NON_SPP AES (fun _ => true) ex_amsdu_frame (zeros 4) (zeros 24) ex_pn5 ex_amsdu
           (zeros 8) [] ex_subs ex_amsdu_mpdu ex_amsdu_bytes); [|done].
  repeat constructor.
Defined.

Lemma amsdu_stays_in_frame_witness :
  packets_ok (zlen ex_amsdu) (amsdu_to_msdu RTW_AMSDU_MODE_NON_SPP AES (fun n => Nat.eqb n 0) ex_amsdu_frame).
Proof.
  exact (amsdu_stays_in_frame RTW_AMSDU_MODE_NON_SPP AES (fun n => Nat.eqb n 0) ex_amsdu_frame (zeros 4) (zeros 24) ex_pn5
           ex_amsdu (zeros 8) [] ex_amsdu_mpdu).
Defined.

(** An IP packet, read as an A-MSDU. *)
Definition ex_spoof : recv_frame :=
  ex_frag_frame 6 (ex_fattr AES 8 8 9 0 0 1) (zeros 24 ++ ex_pn5 ++ (rtw_rfc1042_header ++ [8; 0; 0x45; 0; 0; 20] ++ zeros 16) ++ zeros 8) [].

Lemma amsdu_first_subframe_checked_witness :
  amsdu_to_msdu RTW_AMSDU_MODE_NON_SPP AES (fun _ => true) ex_spoof = Ok [].
Proof.
  apply (amsdu_first_subframe_checked AES (fun _ => true) ex_spoof (zeros 4) (zeros 24) ex_pn5 rtw_rfc1042_header
           [8; 0; 0x45; 0; 0; 20] (zeros 16) (zeros 8) []); [| reflexivity | reflexivity | discriminate | left; reflexivity].
  constructor; [constructor; vm_compute; reflexivity | reflexivity ..].
Defined.

Definition ex_whole_mic : list Z := Eval vm_compute in michael (mic_key (zeros 8)) (zeros 12 ++ [0; 0; 0; 0] ++ ex_snap).
Definition ex_t0 : frag_view := mkFv (zeros 24) ex_pn5 (take 8 ex_snap) (zeros 4).
Definition ex_t1 : frag_view := mkFv (zeros 24) ex_pn6 (drop 8 ex_snap ++ ex_whole_mic) (zeros 4).
Definition ex_tf0 : recv_frame :=
  ex_frag_frame 3 (ex_fattr TKIP 8 4 9 0 1 1) (zeros 24 ++ ex_pn5 ++ take 8 ex_snap ++ zeros 4) (zeros 60).
Definition ex_tf1 : recv_frame :=
  ex_frag_frame 4 (ex_fattr TKIP 8 4 9 1 0 1) (zeros 24 ++ ex_pn6 ++ (drop 8 ex_snap ++ ex_whole_mic) ++ zeros 4) [].

Lemma ex_trun : run 0 1 0 60 4 [ex_tf1] [ex_t1].
Proof.
  apply (run_cons 0 1 0 0 60 4 ex_tf1 (zeros 4) [] ex_t1 [] []); try (vm_compute; (reflexivity || discriminate)); [|constructor].
  constructor; try (vm_compute; reflexivity). constructor; vm_compute; reflexivity.
Qed.

Lemma tkip_fragments_delivered_witness :
  exists g psta' p' ev, recvframe_chk_defrag ex_mic_env ex_tf1 (Some (mkDs 0 [ex_tf0])) None ex_pool = Ok (Some g, psta', p', ev)
    /\ recv_process_mpdu 0 TKIP (fun _ => true) false g = Ok [ex_dst ++ ex_src ++ [8; 0; 1; 2]].
Proof.
  apply (tkip_fragments_delivered 0 TKIP (fun _ => true) ex_mic_env ex_tf1 (mkDs 0 [ex_tf0]) ex_pool ex_tf0 [ex_tf1]
           (zeros 4) ex_t0 (zeros 60) [ex_t1] ex_snap ex_whole_mic (zeros 8)).
  - reflexivity.
  - reflexivity.
  - discriminate.
  - reflexivity.
  - constructor; try (vm_compute; reflexivity). constructor; vm_compute; reflexivity.
  - reflexivity.
  - reflexivity.
  - reflexivity.
  - discriminate.
  - reflexivity.
  - exact ex_trun.
  - constructor; [|constructor; [|constructor]]; apply bytes_by_compute; vm_compute; reflexivity.
  - reflexivity.
  - reflexivity.
  - reflexivity.
  - vm_compute. reflexivity.
  - vm_compute. discriminate.
  - split; [discriminate | reflexivity].
  - discriminate.
  - reflexivity.
  - apply bytes_by_compute. reflexivity.
  - vm_compute. discriminate.
  - reflexivity.
  - reflexivity.
Defined.
