(* ===== verification/TkipCm.v ===== *)
(** * TKIP countermeasures

    [rtw_handle_tkip_mic_err] of [os_dep/linux/recv_linux.c], [rtw_handle_tkip_countermeasure] of
    [core/rtw_security.c], [rtw_reset_securitypriv] of [os_dep/linux/mlme_linux.c] and the switch of the wireless
    extensions as steps on three fields of [struct security_priv]: two Michael failures within a minute close the
    network for a minute. [systime] is the [unsigned long] of a 32-bit processor. *)
From Stdlib Require Import ZArith Lia Bool.
From stdpp Require Import base option list numbers.
From S2P Require Import Prelude Sec.
Local Open Scope Z_scope.

(** The kernel's clock: ticks per second, and ticks as milliseconds. *)
Class Jiffies : Type := { HZ : Z; jiffies_to_msecs : Z -> Z }.

Class JiffiesOk (J : Jiffies) : Prop := {
  hz_range : 0 < HZ <= 1000;
  msecs_spec d : 0 <= d < 2 ^ 32 -> d * 1000 / HZ < 2 ^ 31 -> jiffies_to_msecs d = d * 1000 / HZ }.

Section Countermeasures.
  Context `{J : Jiffies}.

(* src: include/rtw_security.h:221-224 security_priv *)
Record cm_state : Type := mkCm { last_mic_err_time : Z; cm_on : bool; cm_time : Z }.

(* src: os_dep/osdep_service.c:1827-1830 _rtw_get_passing_time_ms *)
Definition passing_time_ms (now start : Z) : Z := s32 (jiffies_to_msecs (u32 (now - start))).

(** What the handler tells user space is left out. *)
(* src: os_dep/linux/recv_linux.c:573-587 rtw_handle_tkip_mic_err *)
Definition rtw_handle_tkip_mic_err (now : Z) (s : cm_state) : cm_state :=
  if last_mic_err_time s =? 0 then mkCm now (cm_on s) (cm_time s)
  else if u32 (now - last_mic_err_time s) <? 60 * HZ then mkCm 0 true now
  else mkCm now (cm_on s) (cm_time s).

(** Asked before every association. *)
(* src: core/rtw_security.c:2472-2492 rtw_handle_tkip_countermeasure *)
Definition rtw_handle_tkip_countermeasure (now : Z) (s : cm_state) : Z * cm_state :=
  if cm_on s then
    let passing_ms := u32 (passing_time_ms now (cm_time s)) in
    if 60 * 1000 <? passing_ms then (SUCCESS, mkCm (last_mic_err_time s) false 0) else (FAIL, s)
  else (SUCCESS, s).

(** On the way out of a network: all of [security_priv] is cleared and some fields put back,
    or, without 802.1X, these three are left alone. [backupTKIPcountermeasure_time] is a [u32]. *)
(* src: os_dep/linux/mlme_linux.c:98-165 rtw_reset_securitypriv *)
Definition rtw_reset_securitypriv (is_8021x : bool) (s : cm_state) : cm_state :=
  if is_8021x then mkCm 0 (cm_on s) (u32 (cm_time s)) else s.

(* src: os_dep/linux/ioctl_linux.c:2983-2991 rtw_wx_set_auth *)
Definition wx_tkip_countermeasures (value : bool) (s : cm_state) : cm_state :=
  mkCm (last_mic_err_time s) value (cm_time s).

(** ** Steps *)

Inductive cm_event : Type :=
| EvMicErr (now : Z)
| EvConnect (now : Z)
| EvReset (is_8021x : bool).

(** The answer to a connection request. *)
Definition cm_step (s : cm_state) (e : cm_event) : cm_state * option Z :=
  match e with
  | EvMicErr now => (rtw_handle_tkip_mic_err now s, None)
  | EvConnect now => let '(r, s) := rtw_handle_tkip_countermeasure now s in (s, Some r)
  | EvReset x => (rtw_reset_securitypriv x s, None)
  end.

Fixpoint cm_run (s : cm_state) (es : list cm_event) : cm_state * list Z :=
  match es with
  | [] => (s, [])
  | e :: es =>
      let '(s, r) := cm_step s e in
      let '(s, rs) := cm_run s es in
      (s, match r with Some r => r :: rs | None => rs end)
  end.

(** ** Theorems *)

(** Events in the order of their times, from [lo] to [hi]; a time is the number of ticks, of which the clock shows 32 bits. *)
Inductive timed (hi : Z) : Z -> list cm_event -> Prop :=
| timed_nil lo : timed hi lo []
| timed_mic lo t es : lo <= t <= hi -> timed hi t es -> timed hi lo (EvMicErr (u32 t) :: es)
| timed_connect lo t es : lo <= t <= hi -> timed hi t es -> timed hi lo (EvConnect (u32 t) :: es)
| timed_reset lo x es : timed hi lo es -> timed hi lo (EvReset x :: es).

(** The network is closed since [c], between [t0] and [lo]. *)
Definition closed_since (t0 lo : Z) (s : cm_state) : Prop :=
  cm_on s = true /\ exists c, cm_time s = u32 c /\ t0 <= c <= lo.

Lemma u32_diff a b : 0 <= a - b < 2 ^ 32 -> u32 (u32 a - u32 b) = a - b.
Proof. intros H. unfold u32. rewrite <- Zminus_mod. apply Z.mod_small. lia. Qed.

Lemma passing_spec `{!JiffiesOk J} a b : 0 <= a - b < 2 ^ 32 -> (a - b) * 1000 / HZ < 2 ^ 31 ->
  u32 (passing_time_ms (u32 a) (u32 b)) = (a - b) * 1000 / HZ.
Proof.
  intros H Hms. destruct JiffiesOk0 as [hz ms]. unfold passing_time_ms. rewrite u32_diff, ms by done.
  assert (0 <= (a - b) * 1000 / HZ) by (apply Z.div_pos; lia).
  replace (s32 ((a - b) * 1000 / HZ)) with ((a - b) * 1000 / HZ) by (unfold s32; rewrite Z.mod_small; lia).
  apply u32_small. lia.
Qed.

Lemma within_minute `{!JiffiesOk J} d : 0 <= d <= 60 * HZ -> 0 <= d * 1000 / HZ <= 60000.
Proof.
  intros H. destruct JiffiesOk0 as [hz _]. split; [apply Z.div_pos; lia|].
  apply Z.div_le_upper_bound; lia.
Qed.

Lemma closed_step `{!JiffiesOk J} t0 lo e es s :
  closed_since t0 lo s -> timed (t0 + 60 * HZ) lo (e :: es) -> lo <= t0 + 60 * HZ ->
  exists lo', timed (t0 + 60 * HZ) lo' es /\ lo' <= t0 + 60 * HZ /\ closed_since t0 lo' (fst (cm_step s e))
    /\ (snd (cm_step s e) = None \/ snd (cm_step s e) = Some FAIL).
Proof.
  intros (Hon & c & Hc & Hlo) Ht Hhi. inversion Ht as [|? t ? Hr Ht'|? t ? Hr Ht'|? x ? Ht']; subst.
  - exists t. split; [done|]. split; [lia|]. split; [|left; done]. unfold closed_since. cbn [cm_step fst]. unfold rtw_handle_tkip_mic_err.
    destruct (_ =? 0); [|destruct (_ <? _)]; cbn [cm_on cm_time]; (split; [done|]); eexists; (split; [done || exact Hc|]); lia.
  - exists t. split; [done|]. split; [lia|]. cbn [cm_step]. unfold rtw_handle_tkip_countermeasure. rewrite Hon, Hc.
    pose proof (hz_range (J := J)). pose proof (within_minute (t - c) ltac:(lia)).
    rewrite passing_spec by lia. rewrite (proj2 (Z.ltb_ge _ _)) by lia. cbn [fst snd].
    split; [|right; done]. split; [done|]. exists c. split; [done | lia].
  - exists lo. split; [done|]. split; [done|]. split; [|left; done]. unfold closed_since. cbn [cm_step fst]. unfold rtw_reset_securitypriv.
    destruct x; cbn [cm_on cm_time]; (split; [done|]); exists c; (split; [|lia]); rewrite Hc; [|done].
    unfold u32. rewrite Z.mod_mod by lia. done.
Qed.

Lemma closed_run `{!JiffiesOk J} t0 es : forall lo s,
  closed_since t0 lo s -> timed (t0 + 60 * HZ) lo es -> lo <= t0 + 60 * HZ ->
  Forall (.= FAIL) (snd (cm_run s es)) /\ closed_since t0 (t0 + 60 * HZ) (fst (cm_run s es)).
Proof.
  induction es as [|e es IH]; intros lo s Hc Ht Hhi; cbn [cm_run].
  - split; [constructor|]. destruct Hc as (Hon & c & Hc & Hcl). split; [done|]. exists c. split; [done | lia].
  - destruct (closed_step _ _ _ _ _ Hc Ht Hhi) as (lo' & Ht' & Hhi' & Hc' & Hr).
    destruct (cm_step s e) as [s1 r]. cbn [fst snd] in *. specialize (IH lo' s1 Hc' Ht' Hhi').
    destruct (cm_run s1 es) as [s2 rs]. cbn [fst snd] in *. destruct IH as [HF Hx]. split; [|done].
    destruct Hr as [->| ->]; [done | constructor; done].
Qed.

(** C26: Two Michael failures less than a minute apart close the network: whatever further failures and disconnections
    follow, every request to connect within a minute of the second is refused; and a request that comes more than a
    minute after the last closing is granted and opens the network. *)
Theorem countermeasures_close_for_a_minute `{!JiffiesOk J} s t1 t2 es :
  last_mic_err_time s = u32 t1 -> u32 t1 <> 0 -> 0 <= t2 - t1 < 60 * HZ -> timed (t2 + 60 * HZ) t2 es ->
  let '(s', rs) := cm_run (rtw_handle_tkip_mic_err (u32 t2) s) es in
  Forall (.= FAIL) rs /\
  exists c, t2 <= c <= t2 + 60 * HZ /\ cm_time s' = u32 c /\
    forall t, 0 <= t - c < 2 ^ 32 -> 60000 < (t - c) * 1000 / HZ < 2 ^ 31 ->
      rtw_handle_tkip_countermeasure (u32 t) s' = (SUCCESS, mkCm (last_mic_err_time s') false 0).
Proof.
  intros Hl Hn Hd Ht.
  assert (Hc : closed_since t2 t2 (rtw_handle_tkip_mic_err (u32 t2) s)).
  { unfold rtw_handle_tkip_mic_err. rewrite Hl, (proj2 (Z.eqb_neq _ _) Hn).
    pose proof (hz_range (J := J)). rewrite u32_diff by lia. rewrite (proj2 (Z.ltb_lt _ _)) by lia.
    split; [done|]. exists t2. split; [done | lia]. }
  pose proof (hz_range (J := J)).
  destruct (closed_run t2 es t2 _ Hc Ht ltac:(lia)) as [HF (Hon & c & Hct & Hcl)].
  destruct (cm_run _ es) as [s' rs]. cbn [fst snd] in *. split; [done|]. exists c. split; [done|]. split; [done|].
  intros t Hr Hms. unfold rtw_handle_tkip_countermeasure. rewrite Hon, Hct, passing_spec by lia.
  rewrite (proj2 (Z.ltb_lt _ _)) by lia. done.
Qed.

(** User space that closes the network itself is not heard: the switch sets no time, so the first request, with a
    clock of more than a minute, counts from tick 0 and opens it again. *)
Theorem wx_countermeasures_forgotten `{!JiffiesOk J} s t :
  cm_time s = 0 -> 0 <= t < 2 ^ 32 -> 60000 < t * 1000 / HZ < 2 ^ 31 ->
  fst (rtw_handle_tkip_countermeasure t (wx_tkip_countermeasures true s)) = SUCCESS.
Proof.
  intros Hc Ht Hms. unfold rtw_handle_tkip_countermeasure, wx_tkip_countermeasures. cbn [cm_on cm_time]. rewrite Hc.
  pose proof (passing_spec t 0) as E. rewrite Z.sub_0_r in E. rewrite (u32_small t), (u32_small 0) in E by lia.
  rewrite E by lia. rewrite (proj2 (Z.ltb_lt _ _)) by lia. done.
Qed.

End Countermeasures.

(** ** Examples: a clock of 100 ticks a second *)

Definition ex_jiffies : Jiffies := {| HZ := 100; jiffies_to_msecs := fun d => d * 1000 / 100 |}.

Lemma ex_jiffies_ok : @JiffiesOk ex_jiffies.
Proof. split; [cbn; lia | done]. Qed.

Lemma countermeasures_close_for_a_minute_witness :
  Forall (.= FAIL) (snd (@cm_run ex_jiffies (@rtw_handle_tkip_mic_err ex_jiffies 500 (mkCm 100 false 0))
    [EvReset true; EvConnect 6000; EvConnect 6500])).
Proof.
  pose proof (@countermeasures_close_for_a_minute ex_jiffies ex_jiffies_ok (mkCm 100 false 0) 100 500
    [EvReset true; EvConnect 6000; EvConnect 6500] eq_refl ltac:(discriminate) ltac:(split; [discriminate | reflexivity])) as H.
  assert (Ht : timed (500 + 60 * @HZ ex_jiffies) 500 [EvReset true; EvConnect 6000; EvConnect 6500]).
  { constructor. apply (timed_connect _ 500 6000); [cbn; lia|]. apply (timed_connect _ 6000 6500); [cbn; lia|]. constructor. }
  specialize (H Ht). destruct (cm_run _ _) as [s' rs]. exact (proj1 H).
Defined.

Lemma wx_countermeasures_forgotten_witness :
  fst (@rtw_handle_tkip_countermeasure ex_jiffies 90000 (wx_tkip_countermeasures true (mkCm 0 false 0))) = SUCCESS.
Proof.
  apply (@wx_countermeasures_forgotten ex_jiffies ex_jiffies_ok); [reflexivity | lia | cbn; split; reflexivity].
Defined.
