(* ===== verification/StaTable.v ===== *)
(** * The station table

    Models [core/rtw_sta_mgt.c]: the pool of station records, the hash table over their addresses, the allocation,
    search and release of stations with the frames they hold, and the allocation of association ids. A station is
    named by its index in the array [pstainfo_buf]. *)
From Stdlib Require Import ZArith Lia Bool.
From stdpp Require Import base option list numbers gmap sets.
From S2P Require Import Prelude Sec RecvFrame RecvPn Reorder Defrag.
Local Open Scope Z_scope.

(** ** Data *)

Definition NUM_STA : nat := 32.
Definition WIFI_ASOC_STATE := 0x00000001.
Definition bc_addr : list Z := replicate 6 0xff.

(** What the receive path keeps of a station. The frames waiting in its sixteen reordering windows are named by their
    slots (the [tag] of [Reorder]). [on_auth_list]: [auth_list] is linked. *)
(* src: include/sta_info.h:267-309 sta_info *)
Record sta_info : Type := mkSta {
  mac_addr : list Z; sta_state : Z; flags : Z; aid : Z;
  ieee8021x_blocked : Z; dot118021XPrivacy : Z; dot118021x_UncstKey : list Z;
  sta_recvpriv : sta_recv_priv; sta_defrag : defrag_state;
  recvreorder_ctrl : list recv_reorder_ctrl; on_auth_list : bool }.

(** [sta_hash]: the stations of each bucket, in order. [sta_aid]: who has the id [i + 1]. *)
(* src: include/sta_info.h:666-708 sta_priv *)
Record sta_priv : Type := mkStaPriv {
  pstainfo_buf : list sta_info; sta_hash : list (list nat); free_sta_queue : list nat; asoc_sta_count : Z;
  auth_list_cnt : Z; sta_aid : list (option nat); started_aid : Z; rr_aid : bool; max_num_sta : Z }.

Definition max_aid (P : sta_priv) : Z := zlen (sta_aid P).

(** ** The code *)

(* src: include/sta_info.h:737-752 wifi_mac_hash *)
Definition wifi_mac_hash (mac : list Z) : Z :=
  let x := addr mac 0 in
  let x := Z.lxor (u32 (Z.shiftl x 2)) (addr mac 1) in
  let x := Z.lxor (u32 (Z.shiftl x 2)) (addr mac 2) in
  let x := Z.lxor (u32 (Z.shiftl x 2)) (addr mac 3) in
  let x := Z.lxor (u32 (Z.shiftl x 2)) (addr mac 4) in
  let x := Z.lxor (u32 (Z.shiftl x 2)) (addr mac 5) in
  let x := Z.lxor x (Z.shiftr x 8) in
  x & (Z.of_nat NUM_STA - 1).

(** A reordering window as it is set up; the counters of [recv_priv] are kept per window. *)
(* src: core/rtw_sta_mgt.c:588-605 rtw_alloc_stainfo *)
Definition fresh_ctrl : recv_reorder_ctrl := mkCtrl false 0xffff 64 [] false false false false (Reorder.mkCnt 0 0 0 0 0 0).

(** Everything is cleared, then the numbers are set to the value no frame has. *)
(* src: core/rtw_sta_mgt.c:194-226 _rtw_init_stainfo *)
Definition fresh_sta (hwaddr : list Z) : sta_info :=
  mkSta hwaddr 0 0 0 0 0 (zeros 32) init_sta_recv (mkDs 0 []) (replicate 16 fresh_ctrl) false.

Definition empty_sta : sta_info := fresh_sta (zeros 6).

(** All allocations have succeeded. [started] is 1; [aids] is what the HAL allows. *)
(* src: core/rtw_sta_mgt.c:259-309 _rtw_init_sta_priv *)
Definition init_sta_priv (aids : nat) : sta_priv :=
  mkStaPriv (replicate NUM_STA empty_sta) (replicate NUM_STA []) (seq 0 NUM_STA) 0 0 (replicate aids None) 1 false (Z.of_nat NUM_STA).

Definition sta_at (P : sta_priv) (s : nat) : sta_info := default empty_sta (pstainfo_buf P !! s).

Definition with_table (P : sta_priv) (b : list sta_info) (h : list (list nat)) (q : list nat) (n : Z) : sta_priv :=
  mkStaPriv b h q n (auth_list_cnt P) (sta_aid P) (started_aid P) (rr_aid P) (max_num_sta P).

Definition set_sta (P : sta_priv) (s : nat) (x : sta_info) : sta_priv :=
  with_table P (<[s := x]> (pstainfo_buf P)) (sta_hash P) (free_sta_queue P) (asoc_sta_count P).

(** [None]: NULL; in the branch of a hash out of range the record is lost. *)
(* src: core/rtw_sta_mgt.c:517-641 rtw_alloc_stainfo *)
Definition rtw_alloc_stainfo (P : sta_priv) (hwaddr : list Z) : option nat * sta_priv :=
  match free_sta_queue P with
  | [] => (None, P)
  | s :: q =>
      let b := <[s := fresh_sta hwaddr]> (pstainfo_buf P) in
      let index := wifi_mac_hash hwaddr in
      if Z.of_nat NUM_STA <=? index then (None, with_table P b (sta_hash P) q (asoc_sta_count P))
      else (Some s, with_table P b (alter (fun l => l ++ [s]) (Z.to_nat index) (sta_hash P)) q (asoc_sta_count P + 1))
  end.

(** The first station of a bucket with the address. *)
(* src: core/rtw_sta_mgt.c:981-995 rtw_get_stainfo *)
Fixpoint bucket_search (P : sta_priv) (a : list Z) (l : list nat) : option nat :=
  match l with
  | [] => None
  | s :: l => if list_eqb (mac_addr (sta_at P s)) a then Some s else bucket_search P a l
  end.

(** A group address stands for the broadcast station. *)
(* src: core/rtw_sta_mgt.c:953-1000 rtw_get_stainfo *)
Definition rtw_get_stainfo (P : sta_priv) (hwaddr : option (list Z)) : option nat :=
  match hwaddr with
  | None => None
  | Some h =>
      let a := if IS_MCAST h then bc_addr else h in
      bucket_search P a (default [] (sta_hash P !! Z.to_nat (wifi_mac_hash a)))
  end.

(* src: core/rtw_sta_mgt.c:1002-1035 rtw_init_bcmc_stainfo *)
Definition rtw_init_bcmc_stainfo (P : sta_priv) : sta_priv := snd (rtw_alloc_stainfo P bc_addr).
(* src: core/rtw_sta_mgt.c:1037-1045 rtw_get_bcmc_stainfo *)
Definition rtw_get_bcmc_stainfo (P : sta_priv) : option nat := rtw_get_stainfo P (Some bc_addr).

(** The slots of the frames a station holds: those of its windows, then its fragments. *)
Definition held (x : sta_info) : list nat :=
  concat (map (fun c => map (fun f => Z.to_nat (tag f)) (pending c)) (recvreorder_ctrl x)) ++ slots (ds_q (sta_defrag x)).

Definition unlink (s : nat) (h : list (list nat)) : list (list nat) := map (filter (.≠ s)) h.

(** The timers stopped, the windows and the fragment queue emptied, every frame given back. *)
(* src: core/rtw_sta_mgt.c:777-819 rtw_free_stainfo *)
Definition drop_frames (x : sta_info) (pool : recv_pool) : sta_info * recv_pool :=
  (mkSta (mac_addr x) (sta_state x) (flags x) (aid x) (ieee8021x_blocked x) (dot118021XPrivacy x) (dot118021x_UncstKey x)
     (sta_recvpriv x) (mkDs (ds_keytrack (sta_defrag x)) [])
     (map (fun c => mkCtrl (enable c) (indicate_seq c) (wsize_b c) [] (bReorderWaiting c) false (reorder_wow c) false (cnt c))
          (recvreorder_ctrl x)) (on_auth_list x),
   foldl (fun p s => rtw_free_recvframe s p) pool (held x)).

(** The id is given back by an access point only. *)
(* src: core/rtw_sta_mgt.c:861-871 rtw_free_stainfo *)
Definition release_aid (is_ap : bool) (P : sta_priv) (s : nat) (x : sta_info) : list (option nat) * sta_info :=
  let i := Z.to_nat (aid x - 1) in
  if is_ap && (0 <? aid x) && bool_decide (sta_aid P !! i = Some (Some s)) then
    (<[i := None]> (sta_aid P),
     mkSta (mac_addr x) (sta_state x) (flags x) 0 (ieee8021x_blocked x) (dot118021XPrivacy x) (dot118021x_UncstKey x)
       (sta_recvpriv x) (sta_defrag x) (recvreorder_ctrl x) (on_auth_list x))
  else (sta_aid P, x).

(** [is_ap]: [pmlmeinfo->state == _HW_STATE_AP_]. *)
(* src: core/rtw_sta_mgt.c:645-898 rtw_free_stainfo *)
Definition rtw_free_stainfo (is_ap : bool) (psta : option nat) (P : sta_priv) (pool : recv_pool) : sta_priv * recv_pool :=
  match psta with
  | None => (P, pool)
  | Some s =>
      let x := sta_at P s in
      let h := unlink s (sta_hash P) in
      let n := asoc_sta_count P - 1 in
      let x := mkSta (mac_addr x) (sta_state x & ~~ WIFI_ASOC_STATE) (flags x) (aid x) (ieee8021x_blocked x)
                 (dot118021XPrivacy x) (dot118021x_UncstKey x) (sta_recvpriv x) (sta_defrag x) (recvreorder_ctrl x) (on_auth_list x) in
      let '(x, pool) := drop_frames x pool in
      let authn := if on_auth_list x then u8 (auth_list_cnt P - 1) else auth_list_cnt P in
      let x := mkSta (mac_addr x) (sta_state x) (flags x) (aid x) (ieee8021x_blocked x) (dot118021XPrivacy x)
                 (dot118021x_UncstKey x) (sta_recvpriv x) (sta_defrag x) (recvreorder_ctrl x) false in
      let '(aids, x) := release_aid is_ap P s x in
      (mkStaPriv (<[s := x]> (pstainfo_buf P)) h (free_sta_queue P ++ [s]) n authn aids (started_aid P) (rr_aid P) (max_num_sta P), pool)
  end.

(** Every station but the broadcast one is unlinked and noted down, then freed; with one station left, nothing is done. *)
(* src: core/rtw_sta_mgt.c:901-950 rtw_free_all_stainfo *)
Definition rtw_free_all_stainfo (is_ap : bool) (P : sta_priv) (pool : recv_pool) : sta_priv * recv_pool :=
  let pbcmc := rtw_get_bcmc_stainfo P in
  if asoc_sta_count P =? 1 then (P, pool)
  else
    let free_sta_list := filter (fun s => Some s ≠ pbcmc) (concat (sta_hash P)) in
    let P := with_table P (pstainfo_buf P) (map (filter (fun s => Some s = pbcmc)) (sta_hash P)) (free_sta_queue P) (asoc_sta_count P) in
    foldl (fun st s => rtw_free_stainfo is_ap (Some s) (fst st) (snd st)) (P, pool) free_sta_list.

(** ** Association ids *)

(** The search from [i] on, [n] turns left: where it stops, with the number of ids found in use. *)
(* src: core/rtw_sta_mgt.c:1053-1059 rtw_aid_alloc *)
Fixpoint aid_search (P : sta_priv) (n : nat) (i used_cnt : Z) : Z * Z :=
  match n with
  | O => (i, used_cnt)
  | S n =>
      let aid := (i + started_aid P - 1) mod max_aid P + 1 in
      match sta_aid P !! Z.to_nat (aid - 1) with
      | Some None => (i, used_cnt)
      | _ => if max_num_sta P <=? used_cnt + 1 then (i, used_cnt + 1) else aid_search P n (i + 1) (used_cnt + 1)
      end
  end.

(* src: core/rtw_sta_mgt.c:1048-1073 rtw_aid_alloc *)
Definition rtw_aid_alloc (P : sta_priv) (s : nat) : Z * sta_priv :=
  let '(i, used_cnt) := aid_search P (Z.to_nat (max_aid P)) 0 0 in
  let a := if (max_aid P <=? i) || (max_num_sta P <=? used_cnt) then 0 else (i + started_aid P - 1) mod max_aid P + 1 in
  let x := sta_at P s in
  let b := <[s := mkSta (mac_addr x) (sta_state x) (flags x) a (ieee8021x_blocked x) (dot118021XPrivacy x)
                    (dot118021x_UncstKey x) (sta_recvpriv x) (sta_defrag x) (recvreorder_ctrl x) (on_auth_list x)]> (pstainfo_buf P) in
  (a, mkStaPriv b (sta_hash P) (free_sta_queue P) (asoc_sta_count P) (auth_list_cnt P)
        (if a =? 0 then sta_aid P else <[Z.to_nat (a - 1) := Some s]> (sta_aid P))
        (if (a =? 0) || negb (rr_aid P) then started_aid P else a mod max_aid P + 1) (rr_aid P) (max_num_sta P)).

(** ** Specification *)

Definition mac_of (P : sta_priv) (s : nat) : list Z := mac_addr (sta_at P s).
Definition linked (P : sta_priv) : list nat := concat (sta_hash P).

(** Every record is free or in the bucket of its address; addresses do not repeat; the counter counts. *)
Record table_ok (P : sta_priv) : Prop := {
  t_buf : length (pstainfo_buf P) = NUM_STA;
  t_hash : length (sta_hash P) = NUM_STA;
  t_slots : linked P ++ free_sta_queue P ≡ₚ seq 0 NUM_STA;
  t_bucket : forall i l s, sta_hash P !! i = Some l -> s ∈ l -> wifi_mac_hash (mac_of P s) = Z.of_nat i;
  t_count : asoc_sta_count P = zlen (linked P);
  t_uniq : NoDup (map (mac_of P) (linked P)) }.

(** The addresses known. *)
Definition sta_set (P : sta_priv) : gset (list Z) := list_to_set (map (mac_of P) (linked P)).

(** ** Lemmas: lists of buckets *)

Lemma hash_range mac : 0 <= wifi_mac_hash mac < Z.of_nat NUM_STA.
Proof.
  unfold wifi_mac_hash. cbv zeta. match goal with |- 0 <= Z.land ?x _ < _ => generalize x end. intros x.
  change (Z.of_nat NUM_STA - 1) with (Z.ones 5). rewrite Z.land_ones by lia. change (Z.of_nat NUM_STA) with (2 ^ 5).
  apply Z.mod_pos_bound. lia.
Qed.

Lemma in_concat (h : list (list nat)) s : s ∈ concat h <-> exists i l, h !! i = Some l /\ s ∈ l.
Proof.
  rewrite list_elem_of_In, List.in_concat. split.
  - intros (l & Hl & Hs). apply list_elem_of_In, list_elem_of_lookup in Hl as [i Hi]. exists i, l. rewrite list_elem_of_In. done.
  - intros (i & l & Hi & Hs). exists l. split; [apply list_elem_of_In; eapply list_elem_of_lookup_2; exact Hi|].
    apply list_elem_of_In. done.
Qed.

Lemma concat_filter (Q : nat -> Prop) `{!forall x, Decision (Q x)} (h : list (list nat)) :
  concat (map (filter Q) h) = filter Q (concat h).
Proof. induction h as [|l h IH]; [done|]. cbn [map concat]. rewrite IH, filter_app. done. Qed.

(** A slot added at the end of a bucket. *)
Lemma concat_alter (h : list (list nat)) i s : (i < length h)%nat ->
  concat (alter (fun l => l ++ [s]) i h) ≡ₚ concat h ++ [s].
Proof.
  revert i. induction h as [|l h IH]; intros [|i] Hi; cbn in Hi; [lia | lia | |].
  - cbn. rewrite <- !app_assoc. apply Permutation_app_head, Permutation_app_comm.
  - change (alter (fun l => l ++ [s]) (S i) (l :: h)) with (l :: alter (fun l => l ++ [s]) i h). cbn [concat].
    rewrite IH by lia. rewrite app_assoc. done.
Qed.

(** ** Lemmas: the table *)

Lemma linked_nodup P : table_ok P -> NoDup (linked P) /\ NoDup (free_sta_queue P) /\ (forall s, s ∈ linked P -> s ∉ free_sta_queue P).
Proof.
  intros H. assert (N : NoDup (linked P ++ free_sta_queue P)) by (rewrite (t_slots P H); apply NoDup_seq).
  apply NoDup_app in N as (N1 & N2 & N3). auto.
Qed.

Lemma slot_range P s : table_ok P -> s ∈ linked P \/ s ∈ free_sta_queue P -> (s < NUM_STA)%nat.
Proof.
  intros H Hs. assert (Hin : s ∈ seq 0 NUM_STA) by (rewrite <- (t_slots P H), elem_of_app; exact Hs).
  apply elem_of_seq in Hin. lia.
Qed.

Lemma bucket_search_spec P a l : match bucket_search P a l with
  | Some s => s ∈ l /\ mac_of P s = a
  | None => forall s, s ∈ l -> mac_of P s <> a end.
Proof.
  induction l as [|s l IH]; cbn [bucket_search]; [intros s Hs; apply elem_of_nil in Hs; done|]. unfold list_eqb.
  case_bool_decide as E; [split; [left | exact E]|]. destruct (bucket_search P a l) as [t|].
  - destruct IH as [H1 H2]. split; [right; done | done].
  - intros t Ht. apply elem_of_cons in Ht as [->|Ht]; [exact E | apply IH; exact Ht].
Qed.

(** Which address a search is for. *)
Definition key_addr (h : list Z) : list Z := if IS_MCAST h then bc_addr else h.

Lemma same_mac P s t : table_ok P -> s ∈ linked P -> t ∈ linked P -> mac_of P s = mac_of P t -> s = t.
Proof.
  intros H Hs Ht E. apply list_elem_of_lookup in Hs as [i Hi], Ht as [j Hj].
  assert (i = j) as ->; [|congruence]. eapply (NoDup_lookup (map (mac_of P) (linked P)) i j (mac_of P s)); [apply (t_uniq P H)| |].
  - rewrite (list_lookup_fmap (mac_of P) (linked P) i : map (mac_of P) (linked P) !! i = _), Hi. done.
  - rewrite (list_lookup_fmap (mac_of P) (linked P) j : map (mac_of P) (linked P) !! j = _), Hj, E. done.
Qed.

(** The search finds the station that has the address, wherever it is. *)
Lemma get_spec P h s : table_ok P ->
  rtw_get_stainfo P (Some h) = Some s <-> s ∈ linked P /\ mac_of P s = key_addr h.
Proof.
  intros H. unfold rtw_get_stainfo. fold (key_addr h). set (a := key_addr h). pose proof (hash_range a) as Hr.
  destruct (lookup_lt_is_Some_2 (sta_hash P) (Z.to_nat (wifi_mac_hash a))) as [l Hl]; [rewrite (t_hash P H); lia|].
  rewrite Hl. change (default [] (Some l)) with l. pose proof (bucket_search_spec P a l) as Hb. split.
  - intros E. rewrite E in Hb. destruct Hb as [Hs Hm]. split; [|done].
    apply in_concat. exists (Z.to_nat (wifi_mac_hash a)), l. done.
  - intros [Hs Hm].
    assert (Hsl : s ∈ l).
    { apply in_concat in Hs as (i & l' & Hi & Hs'). pose proof (t_bucket P H i l' s Hi Hs') as Hh. rewrite Hm in Hh.
      rewrite Hh, Nat2Z.id in Hl. congruence. }
    destruct (bucket_search P a l) as [t|]; [|destruct (Hb s Hsl Hm)]. destruct Hb as [Ht Htm].
    rewrite (same_mac P t s H); [done | | done | congruence]. apply in_concat. eauto.
Qed.

Lemma in_sta_set P a : a ∈ sta_set P <-> exists s, s ∈ linked P /\ mac_of P s = a.
Proof.
  unfold sta_set. rewrite elem_of_list_to_set, list_elem_of_In, in_map_iff.
  split; intros (s & H1 & H2); exists s; [rewrite list_elem_of_In | rewrite <- list_elem_of_In]; auto.
Qed.

Lemma get_known P h : table_ok P -> is_Some (rtw_get_stainfo P (Some h)) <-> key_addr h ∈ sta_set P.
Proof.
  intros H. rewrite in_sta_set. split.
  - intros [s Hs]. exists s. apply get_spec in Hs; done.
  - intros (s & Hs). exists s. apply get_spec; done.
Qed.

Lemma sta_set_size P : table_ok P -> size (sta_set P) = length (linked P).
Proof. intros H. unfold sta_set. rewrite size_list_to_set by apply (t_uniq P H). apply length_map. Qed.

Lemma slots_count P : table_ok P -> (length (linked P) + length (free_sta_queue P) = NUM_STA)%nat.
Proof. intros H. pose proof (Permutation_length (t_slots P H)) as E. rewrite length_app, length_seq in E. done. Qed.

(** ** Lemmas: allocation *)

Lemma sta_at_insert P b h q n s x t : (s < length (pstainfo_buf P))%nat -> b = <[s := x]> (pstainfo_buf P) ->
  sta_at (with_table P b h q n) t = if decide (t = s) then x else sta_at P t.
Proof.
  intros Hs ->. unfold sta_at. cbn [with_table pstainfo_buf]. case_decide as E.
  - subst. rewrite list_lookup_insert_eq by done. done.
  - rewrite list_lookup_insert_ne by done. done.
Qed.

Lemma map_same {B} (f g : nat -> B) l : (forall s, s ∈ l -> f s = g s) -> map f l = map g l.
Proof. intros H. apply map_ext_in. intros s Hs. apply H, list_elem_of_In, Hs. Qed.

(** What allocation does with an address that is not in the table. *)
Lemma alloc_spec P a s q : table_ok P -> free_sta_queue P = s :: q -> a ∉ sta_set P ->
  exists P', rtw_alloc_stainfo P a = (Some s, P') /\ table_ok P' /\ (s ∉ linked P) /\
    (forall t, sta_at P' t = if decide (t = s) then fresh_sta a else sta_at P t) /\
    linked P' ≡ₚ linked P ++ [s] /\ free_sta_queue P' = q /\ sta_set P' = {[a]} ∪ sta_set P.
Proof.
  intros H Hq Ha. unfold rtw_alloc_stainfo. rewrite Hq. pose proof (hash_range a) as Hr.
  replace (Z.of_nat NUM_STA <=? wifi_mac_hash a) with false by lia.
  set (P' := with_table _ _ _ _ _). exists P'. split; [done|].
  assert (Hns : s ∉ linked P) by (intros Hs; apply (proj2 (proj2 (linked_nodup P H)) s Hs); rewrite Hq; left).
  assert (Hsl : (s < length (pstainfo_buf P))%nat) by (rewrite (t_buf P H); apply (slot_range P s H); right; rewrite Hq; left).
  assert (HA : forall t, sta_at P' t = if decide (t = s) then fresh_sta a else sta_at P t) by (intros t; apply sta_at_insert; done).
  assert (HL : linked P' ≡ₚ linked P ++ [s]) by (unfold linked, P'; cbn [sta_hash with_table]; apply concat_alter; rewrite (t_hash P H); lia).
  assert (HM : map (mac_of P') (linked P') ≡ₚ map (mac_of P) (linked P) ++ [a]).
  { rewrite HL, map_app. apply Permutation_app; [|cbn [map]; unfold mac_of; rewrite HA, decide_True; done].
    erewrite map_same; [reflexivity|]. intros t Ht. unfold mac_of. rewrite HA, decide_False; [done|]. intros ->. done. }
  assert (HS : forall x, x ∈ map (mac_of P) (linked P) <-> x ∈ sta_set P) by (intros x; unfold sta_set; rewrite elem_of_list_to_set; done).
  split; [|split; [done|split; [done|split; [done|split; [done|]]]]].
  - split; cbn [P' with_table pstainfo_buf sta_hash free_sta_queue asoc_sta_count].
    + rewrite length_insert. apply (t_buf P H).
    + rewrite length_alter. apply (t_hash P H).
    + fold P'. rewrite HL. rewrite <- (t_slots P H), Hq. rewrite <- app_assoc. done.
    + intros i l t Hi Ht. unfold mac_of. rewrite HA.
      rewrite list_lookup_alter in Hi. case_decide as E.
      * subst i. destruct (sta_hash P !! Z.to_nat (wifi_mac_hash a)) as [l0|] eqn:El; cbn in Hi; [|discriminate]. injection Hi as <-.
        apply elem_of_app in Ht as [Ht|Ht].
        -- rewrite decide_False; [|intros ->; apply Hns, in_concat; eauto]. exact (t_bucket P H _ _ _ El Ht).
        -- apply list_elem_of_singleton in Ht as ->. rewrite decide_True by done. cbn [mac_addr fresh_sta]. lia.
      * rewrite decide_False; [apply (t_bucket P H _ _ _ Hi Ht)|]. intros ->. apply Hns, in_concat. eauto.
    + rewrite (t_count P H). fold P'. pose proof (Permutation_length HL) as HL'. rewrite length_app in HL'. cbn [length] in HL'. unfold zlen. lia.
    + fold P'. rewrite HM. apply NoDup_app. split; [apply (t_uniq P H)|]. split; [|apply NoDup_singleton].
      intros x Hx. rewrite list_elem_of_singleton. intros ->. apply Ha, HS, Hx.
  - apply set_eq. intros x. rewrite elem_of_union, elem_of_singleton, <- HS. unfold sta_set. rewrite elem_of_list_to_set, HM.
    rewrite elem_of_app, list_elem_of_singleton. tauto.
Qed.

(** ** Lemmas: release

    While all stations are being released some are neither linked nor free. *)

Record table_mid (P : sta_priv) (L : list nat) : Prop := {
  m_buf : length (pstainfo_buf P) = NUM_STA;
  m_hash : length (sta_hash P) = NUM_STA;
  m_slots : linked P ++ L ++ free_sta_queue P ≡ₚ seq 0 NUM_STA;
  m_bucket : forall i l s, sta_hash P !! i = Some l -> s ∈ l -> wifi_mac_hash (mac_of P s) = Z.of_nat i;
  m_count : asoc_sta_count P = zlen (linked P) + zlen L;
  m_uniq : NoDup (map (mac_of P) (linked P)) }.

Lemma mid_ok P : table_mid P [] <-> table_ok P.
Proof. split; intros [H1 H2 H3 H4 H5 H6]; split; try done; rewrite ?zlen_nil in *; lia. Qed.

Definition detach (Q : nat -> Prop) `{!forall s, Decision (Q s)} (P : sta_priv) : sta_priv :=
  with_table P (pstainfo_buf P) (map (filter Q) (sta_hash P)) (free_sta_queue P) (asoc_sta_count P).

Lemma filter_split (Q : nat -> Prop) `{!forall s, Decision (Q s)} (l : list nat) :
  filter Q l ++ filter (fun s => ~ Q s) l ≡ₚ l.
Proof.
  induction l as [|x l IH]; [done|]. rewrite !filter_cons. destruct (decide (Q x)) as [Hx|Hx].
  - rewrite decide_False by tauto. cbn. rewrite IH. done.
  - rewrite decide_True by done. rewrite <- Permutation_middle, IH. done.
Qed.

Lemma detach_mid (Q : nat -> Prop) `{!forall s, Decision (Q s)} P : table_ok P ->
  table_mid (detach Q P) (filter (fun s => ~ Q s) (linked P)) /\ linked (detach Q P) = filter Q (linked P).
Proof.
  intros HT. assert (HL : linked (detach Q P) = filter Q (linked P)) by (unfold linked; apply (concat_filter Q)).
  split; [|done]. split; cbn [detach with_table pstainfo_buf sta_hash free_sta_queue asoc_sta_count].
  - apply (t_buf P HT).
  - rewrite length_map. apply (t_hash P HT).
  - rewrite HL, app_assoc, (filter_split Q), (t_slots P HT). done.
  - intros i l s Hi Hs. rewrite (list_lookup_fmap (filter Q) (sta_hash P) i : map (filter Q) (sta_hash P) !! i = _) in Hi.
    destruct (sta_hash P !! i) as [l0|] eqn:E; [|discriminate]. cbn in Hi. injection Hi as <-.
    apply list_elem_of_filter in Hs as [_ Hs]. apply (t_bucket P HT _ _ _ E Hs).
  - rewrite HL, (t_count P HT). pose proof (Permutation_length (filter_split Q (linked P))) as E. rewrite length_app in E. unfold zlen. lia.
  - rewrite HL. eapply sublist_NoDup; [apply (t_uniq P HT)|]. apply (fmap_sublist (mac_of P)), sublist_filter.
Qed.

Lemma unlink_notin s h : s ∉ concat h -> unlink s h = h.
Proof.
  induction h as [|l h IH]; intros Hs; [done|]. cbn [concat] in Hs. rewrite elem_of_app in Hs. cbn [unlink map].
  rewrite filter_notin by tauto. f_equal. apply IH. tauto.
Qed.

Lemma unlink_twice s h : unlink s (unlink s h) = unlink s h.
Proof. apply unlink_notin. unfold unlink. rewrite (concat_filter (.≠ s)), list_elem_of_filter. tauto. Qed.

(** What a released record keeps, and that it holds no frame. *)
Lemma drop_frames_spec x pool : let '(y, pool') := drop_frames x pool in
  mac_addr y = mac_addr x /\ held y = [] /\ aid y = aid x /\ pool' = foldl (fun p s => rtw_free_recvframe s p) pool (held x).
Proof.
  unfold drop_frames. split; [done|]. split; [|done]. unfold held. cbn [recvreorder_ctrl sta_defrag ds_q slots map].
  rewrite app_nil_r. induction (recvreorder_ctrl x) as [|c cs IH]; [done|]. cbn [map concat pending app]. exact IH.
Qed.

Lemma release_aid_spec ap P s x : let '(aids, y) := release_aid ap P s x in
  mac_addr y = mac_addr x /\ held y = held x /\ length aids = length (sta_aid P) /\
  (forall i t, aids !! i = Some (Some t) -> sta_aid P !! i = Some (Some t)).
Proof.
  unfold release_aid. destruct (ap && _ && _); [|done]. split; [done|]. split; [done|]. split; [apply length_insert|].
  intros i t Hi. destruct (decide (i = Z.to_nat (aid x - 1))) as [->|Hne].
  - destruct (decide (Z.to_nat (aid x - 1) < length (sta_aid P)))%nat as [Hl|Hl].
    + rewrite list_lookup_insert_eq in Hi by done. discriminate.
    + rewrite list_insert_ge in Hi by lia. done.
  - rewrite list_lookup_insert_ne in Hi by done. done.
Qed.

(** A station that is not linked. *)
Lemma free_mid ap s L P pool : table_mid P (s :: L) ->
  let '(P', pool') := rtw_free_stainfo ap (Some s) P pool in
  table_mid P' L /\ linked P' = linked P /\ free_sta_queue P' = free_sta_queue P ++ [s] /\
  (forall t, t <> s -> sta_at P' t = sta_at P t) /\ mac_of P' s = mac_of P s /\ held (sta_at P' s) = [] /\
  pool' = foldl (fun p s => rtw_free_recvframe s p) pool (held (sta_at P s)).
Proof.
  intros H. unfold rtw_free_stainfo. set (x := sta_at P s). set (x1 := mkSta (mac_addr x) _ _ _ _ _ _ _ _ _ _).
  pose proof (drop_frames_spec x1 pool) as HD. destruct (drop_frames x1 pool) as [x2 pool']. destruct HD as (D1 & D2 & _ & D4).
  set (x3 := mkSta (mac_addr x2) _ _ _ _ _ _ _ _ _ _). pose proof (release_aid_spec ap P s x3) as HR.
  destruct (release_aid ap P s x3) as [aids x4]. destruct HR as (R1 & R2 & R3 & _).
  assert (Hnd : NoDup (linked P ++ (s :: L) ++ free_sta_queue P)) by (rewrite (m_slots P _ H); apply NoDup_seq).
  assert (Hns : s ∉ linked P).
  { intros Hs. apply NoDup_app in Hnd as (_ & Hn & _). apply (Hn s Hs). left. }
  assert (Hlt : (s < length (pstainfo_buf P))%nat).
  { rewrite (m_buf P _ H). assert (Hin : s ∈ seq 0 NUM_STA) by (rewrite <- (m_slots P _ H), !elem_of_app; right; left; left). apply elem_of_seq in Hin. lia. }
  rewrite unlink_notin by exact Hns. set (P' := mkStaPriv _ _ _ _ _ _ _ _ _).
  assert (HA : forall t, sta_at P' t = if decide (t = s) then x4 else sta_at P t).
  { intros t. unfold sta_at, P'. cbn [pstainfo_buf]. case_decide as E; [subst; rewrite list_lookup_insert_eq by done; done|].
    rewrite list_lookup_insert_ne by done. done. }
  assert (HM : forall t, mac_of P' t = mac_of P t).
  { intros t. unfold mac_of. rewrite HA. case_decide as E; [subst t|done]. rewrite R1. cbn. rewrite D1. done. }
  split; [|split; [done|split; [done|split; [|split; [apply HM|split]]]]].
  - split; cbn [P' pstainfo_buf sta_hash free_sta_queue asoc_sta_count].
    + rewrite length_insert. apply (m_buf P _ H).
    + apply (m_hash P _ H).
    + change (linked P') with (linked P). rewrite <- (m_slots P _ H). apply Permutation_app_head. rewrite app_assoc, Permutation_app_comm. done.
    + intros i l t Hi Ht. rewrite HM. apply (m_bucket P _ H _ _ _ Hi Ht).
    + change (linked P') with (linked P). rewrite (m_count P _ H), zlen_cons. lia.
    + change (linked P') with (linked P). rewrite (map_same (mac_of P') (mac_of P)) by (intros t _; apply HM). apply (m_uniq P _ H).
  - intros t Ht. rewrite HA, decide_False; done.
  - rewrite HA, decide_True by done. rewrite R2. exact D2.
  - rewrite D4. done.
Qed.

Lemma filter_only s (l : list nat) : NoDup l -> s ∈ l -> filter (fun t => ~ t ≠ s) l = [s].
Proof.
  assert (G : forall m : list nat, s ∉ m -> filter (fun t => ~ t ≠ s) m = []).
  { induction m as [|x k IH]; intros H; [done|]. apply not_elem_of_cons in H as [Hx Hk]. rewrite filter_cons, decide_False by (intros Hc; apply Hc; congruence). auto. }
  induction l as [|x k IH]; intros Hn Hs; [apply elem_of_nil in Hs; done|]. apply list.NoDup_cons in Hn as [Hx Hn].
  rewrite filter_cons. apply elem_of_cons in Hs as [<-|Hs]; [rewrite decide_True by tauto; rewrite G by done; done|].
  rewrite decide_False; [apply IH; done|]. intros Hc. apply Hc. intros ->. done.
Qed.

Lemma free_spec ap s P pool : table_ok P -> s ∈ linked P ->
  let '(P', pool') := rtw_free_stainfo ap (Some s) P pool in
  table_ok P' /\ linked P' = filter (.≠ s) (linked P) /\ free_sta_queue P' = free_sta_queue P ++ [s] /\
  (forall t, t <> s -> sta_at P' t = sta_at P t) /\ mac_of P' s = mac_of P s /\ held (sta_at P' s) = [] /\
  pool' = foldl (fun p s => rtw_free_recvframe s p) pool (held (sta_at P s)).
Proof.
  intros H Hs. destruct (detach_mid (.≠ s) P H) as [HD HL].
  assert (E : rtw_free_stainfo ap (Some s) P pool = rtw_free_stainfo ap (Some s) (detach (.≠ s) P) pool).
  { unfold rtw_free_stainfo. cbn [detach with_table sta_hash]. fold (unlink s (sta_hash P)). rewrite unlink_twice. done. }
  assert (EF : filter (fun t => ~ t ≠ s) (linked P) = [s]).
  { apply filter_only; [apply (linked_nodup P H) | exact Hs]. }
  rewrite EF in HD. rewrite E. pose proof (free_mid ap s [] (detach (.≠ s) P) pool HD) as HF.
  destruct (rtw_free_stainfo ap (Some s) (detach (.≠ s) P) pool) as [P' pool']. destruct HF as (F1 & F2 & F3 & F4 & F5 & F6 & F7).
  split; [apply mid_ok, F1|]. split; [rewrite F2; exact HL|]. split; [exact F3|]. split; [exact F4|]. split; [exact F5|]. split; [exact F6 | exact F7].
Qed.

(** The release of all stations in limbo. *)
Lemma free_list_mid ap L : forall P pool, table_mid P L ->
  let '(P', pool') := foldl (fun st s => rtw_free_stainfo ap (Some s) (fst st) (snd st)) (P, pool) L in
  table_ok P' /\ linked P' = linked P /\ (forall t, t ∉ L -> sta_at P' t = sta_at P t) /\ (forall t, mac_of P' t = mac_of P t) /\
  (forall t, t ∈ L -> held (sta_at P' t) = []) /\
  pool' = foldl (fun p s => rtw_free_recvframe s p) pool (concat (map (fun s => held (sta_at P s)) L)).
Proof.
  induction L as [|s L IH]; intros P pool H.
  - cbn. split; [apply mid_ok, H|]. split; [done|]. split; [done|]. split; [done|]. split; [intros t Ht; apply elem_of_nil in Ht; done | done].
  - cbn [foldl map concat fst snd]. pose proof (free_mid ap s L P pool H) as HF.
    destruct (rtw_free_stainfo ap (Some s) P pool) as [P1 pool1]. destruct HF as (F1 & F2 & F3 & F4 & F5 & F6 & F7).
    assert (Hs : s ∉ L).
    { assert (Hn : NoDup (linked P ++ (s :: L) ++ free_sta_queue P)) by (rewrite (m_slots P _ H); apply NoDup_seq).
      apply NoDup_app in Hn as (_ & _ & Hn). apply NoDup_app in Hn as (Hn & _). apply list.NoDup_cons in Hn as [Hn _]. exact Hn. }
    assert (HM : forall t, mac_of P1 t = mac_of P t).
    { intros t. destruct (decide (t = s)) as [->|Hne]; [exact F5 | unfold mac_of; rewrite F4; done]. }
    specialize (IH P1 pool1 F1). destruct (foldl _ (P1, pool1) L) as [P2 pool2]. destruct IH as (G1 & G2 & G3 & G4 & G5 & G6).
    split; [exact G1|]. split; [congruence|]. split; [|split; [intros t; rewrite G4; apply HM|split]].
    + intros t Ht. apply not_elem_of_cons in Ht as [Hts Ht]. rewrite G3 by done. apply F4. done.
    + intros t Ht. destruct (decide (t ∈ L)) as [Hin|Hin]; [apply G5, Hin|]. apply elem_of_cons in Ht as [->|Ht]; [|done].
      rewrite G3 by done. exact F6.
    + rewrite G6, foldl_app, <- F7. rewrite (map_same (fun t => held (sta_at P1 t)) (fun t => held (sta_at P t))); [done|].
      intros t Ht. rewrite F4; [done|]. intros ->. done.
Qed.

Lemma free_all_spec ap P pool : table_ok P ->
  let '(P', pool') := rtw_free_all_stainfo ap P pool in
  if decide (length (linked P) = 1%nat) then P' = P /\ pool' = pool
  else
    let gone := filter (fun s => ~ Some s = rtw_get_bcmc_stainfo P) (linked P) in
    table_ok P' /\ linked P' = filter (fun s => Some s = rtw_get_bcmc_stainfo P) (linked P) /\
    (forall t, t ∉ gone -> sta_at P' t = sta_at P t) /\ (forall t, mac_of P' t = mac_of P t) /\
    (forall t, t ∈ gone -> held (sta_at P' t) = []) /\
    pool' = foldl (fun p s => rtw_free_recvframe s p) pool (concat (map (fun s => held (sta_at P s)) gone)).
Proof.
  intros H. unfold rtw_free_all_stainfo. pose proof (t_count P H) as Hc. unfold zlen in Hc.
  destruct (decide (length (linked P) = 1%nat)) as [E|E].
  { replace (asoc_sta_count P =? 1) with true by lia. done. }
  replace (asoc_sta_count P =? 1) with false by lia. clear Hc.
  destruct (detach_mid (fun s => Some s = rtw_get_bcmc_stainfo P) P H) as [HD HL]. fold (linked P).
  change (with_table P (pstainfo_buf P) (map (filter (fun s => Some s = rtw_get_bcmc_stainfo P)) (sta_hash P)) (free_sta_queue P) (asoc_sta_count P))
    with (detach (fun s => Some s = rtw_get_bcmc_stainfo P) P).
  pose proof (free_list_mid ap _ _ pool HD) as HF.
  change (filter (fun s => Some s ≠ rtw_get_bcmc_stainfo P) (linked P)) with (filter (fun s => ~ Some s = rtw_get_bcmc_stainfo P) (linked P)).
  destruct (foldl _ (detach _ _, pool) _) as [P' pool']. destruct HF as (F1 & F2 & F3 & F4 & F5 & F6).
  split; [exact F1|]. split; [rewrite F2; exact HL|]. split; [exact F3|]. split; [exact F4|]. split; [exact F5 | exact F6].
Qed.

(** ** Lemmas: the set of addresses *)

Lemma sta_set_free P P' s : table_ok P -> s ∈ linked P -> linked P' = filter (.≠ s) (linked P) ->
  (forall t, mac_of P' t = mac_of P t) -> sta_set P' = sta_set P ∖ {[mac_of P s]}.
Proof.
  intros H Hs HL HM. apply set_eq. intros x. rewrite elem_of_difference, elem_of_singleton, !in_sta_set, HL. split.
  - intros (t & Ht & Hx). apply list_elem_of_filter in Ht as [Hne Ht]. rewrite HM in Hx. split; [eauto|].
    intros E. apply Hne, (same_mac P t s H Ht Hs). congruence.
  - intros [(t & Ht & Hx) Hne]. exists t. rewrite HM. split; [|done]. apply list_elem_of_filter. split; [|done]. intros ->. done.
Qed.

Lemma mcast_bc : IS_MCAST bc_addr = true.
Proof. reflexivity. Qed.

Lemma sta_set_free_all P P' : table_ok P -> linked P' = filter (fun s => Some s = rtw_get_bcmc_stainfo P) (linked P) ->
  (forall t, mac_of P' t = mac_of P t) -> sta_set P' = sta_set P ∩ {[bc_addr]}.
Proof.
  intros H HL HM. apply set_eq. intros x. rewrite elem_of_intersection, elem_of_singleton, !in_sta_set, HL. split.
  - intros (t & Ht & Hx). apply list_elem_of_filter in Ht as [Hb Ht]. rewrite HM in Hx. split; [eauto|].
    symmetry in Hb. apply get_spec in Hb as [_ Hb]; [|done]. unfold key_addr in Hb. rewrite mcast_bc in Hb. congruence.
  - intros [(t & Ht & Hx) ->]. exists t. rewrite HM. split; [|done]. apply list_elem_of_filter. split; [|done].
    symmetry. apply get_spec; [done|]. split; [done|]. unfold key_addr. rewrite mcast_bc. done.
Qed.

(** ** The driver's use of the table

    An address is looked up before a station is allocated for it; what is released was found by its address. *)

Inductive sta_op : Type := TAlloc (a : list Z) | TFree (a : list Z) | TFreeAll.

Definition sta_run_op (ap : bool) (op : sta_op) (st : sta_priv * recv_pool) : sta_priv * recv_pool :=
  let '(P, pool) := st in
  match op with
  | TAlloc a => match rtw_get_stainfo P (Some a) with Some _ => (P, pool) | None => (snd (rtw_alloc_stainfo P a), pool) end
  | TFree a => rtw_free_stainfo ap (rtw_get_stainfo P (Some a)) P pool
  | TFreeAll => rtw_free_all_stainfo ap P pool
  end.

(** On sets: at most 32 addresses; the broadcast address stays when the others go, and so does a last one. *)
Definition sta_spec_op (op : sta_op) (S : gset (list Z)) : gset (list Z) :=
  match op with
  | TAlloc a => if decide (a ∈ S) then S else if decide (size S = NUM_STA) then S else {[a]} ∪ S
  | TFree a => S ∖ {[a]}
  | TFreeAll => if decide (size S = 1%nat) then S else S ∩ {[bc_addr]}
  end.

(** A station's address: of one station, or the broadcast address. *)
Definition sta_addr (a : list Z) : Prop := IS_MCAST a = false \/ a = bc_addr.
Definition op_ok (op : sta_op) : Prop := match op with TAlloc a | TFree a => sta_addr a | TFreeAll => True end.

Lemma key_sta_addr a : sta_addr a -> key_addr a = a.
Proof. intros [H|H]; unfold key_addr; [rewrite H; done | subst; rewrite mcast_bc; done]. Qed.

Lemma init_ok n : table_ok (init_sta_priv n) /\ sta_set (init_sta_priv n) = ∅.
Proof.
  assert (HL : linked (init_sta_priv n) = []) by done. split; [|unfold sta_set; rewrite HL; done].
  split; [done | done | done | | done | rewrite HL; apply NoDup_nil_2].
  intros i l s Hi Hs. apply lookup_replicate in Hi as [-> _]. apply elem_of_nil in Hs. done.
Qed.

Lemma sta_op_refines ap op P pool : table_ok P -> op_ok op ->
  let '(P', pool') := sta_run_op ap op (P, pool) in table_ok P' /\ sta_set P' = sta_spec_op op (sta_set P).
Proof.
  intros H Ho. destruct op as [a|a|]; cbn [sta_run_op sta_spec_op].
  - cbn in Ho. pose proof (get_known P a H) as HK. rewrite key_sta_addr in HK by done.
    destruct (rtw_get_stainfo P (Some a)) as [s|]; [rewrite decide_True by (apply HK; eauto); done|].
    assert (Ha : a ∉ sta_set P) by (intros Hc; apply HK in Hc as [? [=]]). rewrite decide_False by done. rewrite sta_set_size by done.
    pose proof (slots_count P H) as Hn. destruct (free_sta_queue P) as [|s q] eqn:Eq.
    + cbn in Hn. rewrite decide_True by lia. unfold rtw_alloc_stainfo. rewrite Eq. done.
    + cbn in Hn. rewrite decide_False by lia. destruct (alloc_spec P a s q H Eq Ha) as (P' & -> & H' & _ & _ & _ & _ & HS). done.
  - cbn in Ho. destruct (rtw_get_stainfo P (Some a)) as [s|] eqn:E.
    + apply get_spec in E as [Hs Hm]; [|done]. rewrite key_sta_addr in Hm by done. pose proof (free_spec ap s P pool H Hs) as HF.
      destruct (rtw_free_stainfo ap (Some s) P pool) as [P' pool']. destruct HF as (F1 & F2 & F3 & F4 & F5 & _).
      split; [done|]. rewrite <- Hm. apply sta_set_free; try done. intros t. destruct (decide (t = s)) as [->|Hne]; [done | unfold mac_of; rewrite F4; done].
    + cbn. split; [done|]. symmetry. apply difference_disjoint_L. intros x Hx Hxa%elem_of_singleton. subst x.
      rewrite <- (key_sta_addr a Ho) in Hx. apply get_known in Hx as [s Hs]; [congruence | done].
  - pose proof (free_all_spec ap P pool H) as HF. destruct (rtw_free_all_stainfo ap P pool) as [P' pool'].
    rewrite sta_set_size by done. destruct (decide (length (linked P) = 1%nat)); [destruct HF as [-> ->]; done|].
    destruct HF as (F1 & F2 & _ & F4 & _). split; [done|]. apply sta_set_free_all; done.
Qed.

Lemma sta_ops_refine ap ops : forall P pool S, table_ok P -> sta_set P = S -> Forall op_ok ops ->
  let P' := fst (foldl (fun st op => sta_run_op ap op st) (P, pool) ops) in
  table_ok P' /\ sta_set P' = foldl (fun S op => sta_spec_op op S) S ops.
Proof.
  induction ops as [|op ops IH]; intros P pool S H HS Ho; [done|]. apply Forall_cons_1 in Ho as [Ho Hos].
  cbn [foldl]. pose proof (sta_op_refines ap op P pool H Ho) as HR. destruct (sta_run_op ap op (P, pool)) as [P1 pool1].
  destruct HR as [H1 HS1]. apply (IH P1 pool1); [done | congruence | done].
Qed.

(** ** Lemmas: where the frames are *)

Definition held_by (P : sta_priv) (l : list nat) : list nat := concat (map (fun s => held (sta_at P s)) l).

Lemma held_by_perm P l l' : l ≡ₚ l' -> held_by P l ≡ₚ held_by P l'.
Proof.
  unfold held_by. induction 1 as [|x l l' _ IH|x y l|l1 l2 l3 _ IH1 _ IH2]; cbn [map concat]; [done | rewrite IH; done | | rewrite IH1; done].
  rewrite !app_assoc. apply Permutation_app_tail, Permutation_app_comm.
Qed.

Lemma held_by_app P l l' : held_by P (l ++ l') = held_by P l ++ held_by P l'.
Proof. unfold held_by. rewrite map_app, concat_app. done. Qed.

Lemma held_by_same P P' l : (forall s, s ∈ l -> sta_at P' s = sta_at P s) -> held_by P' l = held_by P l.
Proof. intros H. unfold held_by. f_equal. apply map_same. intros s Hs. rewrite H; done. Qed.

Lemma free_slots_gains l : forall p, NoDup (l ++ free_q p) -> pool_counts p -> zlen (l ++ free_q p) < 2 ^ 32 ->
  pool_gains l p (foldl (fun p s => rtw_free_recvframe s p) p l).
Proof.
  induction l as [|s l IH]; intros p Hn Hc Hl; [split; [done | exact Hc]|]. cbn [app foldl] in *. rewrite zlen_cons, zlen_app in Hl.
  pose proof (zlen_nonneg l). apply list.NoDup_cons in Hn as [Hs Hn]. pose proof Hn as (_ & _ & Hp)%NoDup_app. rewrite elem_of_app in Hs.
  destruct (free_one_gains s p) as [G1 G2]; [apply list.NoDup_cons; tauto | done | lia|].
  destruct (IH (rtw_free_recvframe s p)) as [K1 K2].
  - rewrite G1. change ([s] ++ free_q p) with (s :: free_q p). rewrite <- Permutation_middle. apply list.NoDup_cons. rewrite elem_of_app. done.
  - exact G2.
  - unfold zlen. rewrite G1. rewrite length_app. cbn [length app]. unfold zlen in Hl, Hc. rewrite ?length_app in *. cbn [length]. unfold zlen in *. lia.
  - split; [|exact K2]. rewrite K1, G1. change ([s] ++ free_q p) with (s :: free_q p). rewrite <- Permutation_middle. done.
Qed.

(** One operation, or something else that happens to a station: frames from the pool join the ones it holds, or go back. *)
Inductive sta_step (ap : bool) : sta_priv * recv_pool -> sta_priv * recv_pool -> Prop :=
| step_op op P pool : op_ok op -> sta_step ap (P, pool) (sta_run_op ap op (P, pool))
| step_frames s x P pool pool' : s ∈ linked P -> mac_addr x = mac_of P s ->
    held x ++ free_q pool' ≡ₚ held (sta_at P s) ++ free_q pool -> pool_counts pool' ->
    sta_step ap (P, pool) (set_sta P s x, pool').

(** The frames [F] are in the pool or with one of the stations of the table; records not in use hold none. *)
Definition frames_at (F : list nat) (st : sta_priv * recv_pool) : Prop :=
  let '(P, pool) := st in
  table_ok P /\ held_by P (linked P) ++ free_q pool ≡ₚ F /\ pool_counts pool /\
  (forall s, (s < NUM_STA)%nat -> s ∉ linked P -> held (sta_at P s) = []).

(** Stations leave, and take nothing with them. *)
Lemma frames_leave F P pool P' pool' gone rest : NoDup F -> zlen F < 2 ^ 32 -> frames_at F (P, pool) -> table_ok P' ->
  linked P ≡ₚ gone ++ rest -> linked P' = rest -> (forall t, t ∉ gone -> sta_at P' t = sta_at P t) ->
  (forall t, t ∈ gone -> held (sta_at P' t) = []) ->
  pool' = foldl (fun p s => rtw_free_recvframe s p) pool (held_by P gone) -> frames_at F (P', pool').
Proof.
  intros HF Hz (H & HP & Hc & Hu) H' HL HL' Hsame Hgone ->.
  assert (HP2 : held_by P rest ++ held_by P gone ++ free_q pool ≡ₚ F).
  { rewrite <- HP, (held_by_perm P _ _ HL), held_by_app, app_assoc. apply Permutation_app_tail, Permutation_app_comm. }
  assert (Hn : NoDup (held_by P rest ++ held_by P gone ++ free_q pool)) by (rewrite HP2; done).
  apply NoDup_app in Hn as (_ & _ & Hn).
  destruct (free_slots_gains (held_by P gone) pool) as [G1 G2]; [done | done | |].
  { pose proof (Permutation_length HP2) as E. rewrite length_app in E. unfold zlen in *. lia. }
  assert (Hdis : forall t, t ∈ rest -> t ∉ gone).
  { pose proof (linked_nodup P H) as [Hl _]. rewrite HL in Hl. apply NoDup_app in Hl as (_ & Hl & _). intros t Ht Hg. apply (Hl t Hg Ht). }
  split; [done|]. split; [|split; [done|]].
  - rewrite HL', (held_by_same P P') by (intros t Ht; apply Hsame, Hdis, Ht). rewrite G1. exact HP2.
  - intros s Hs Hns. destruct (decide (s ∈ gone)) as [Hg|Hg]; [apply Hgone, Hg|]. rewrite Hsame by done. apply Hu; [done|].
    rewrite HL, elem_of_app. rewrite HL' in Hns. tauto.
Qed.

Lemma held_fresh a : held (fresh_sta a) = [].
Proof. reflexivity. Qed.

Lemma frames_op F ap op st : NoDup F -> zlen F < 2 ^ 32 -> op_ok op -> frames_at F st -> frames_at F (sta_run_op ap op st).
Proof.
  intros HF Hz Ho HI. destruct st as [P pool]. pose proof HI as (H & HP & Hc & Hu). destruct op as [a|a|]; cbn [sta_run_op].
  - cbn in Ho. destruct (rtw_get_stainfo P (Some a)) as [s|] eqn:Eg; [exact HI|].
    assert (Ha : a ∉ sta_set P) by (rewrite <- (key_sta_addr a Ho); intros Hx; apply get_known in Hx as [? ?]; [congruence | done]).
    destruct (free_sta_queue P) as [|s q] eqn:Eq; [unfold rtw_alloc_stainfo; rewrite Eq; exact HI|].
    destruct (alloc_spec P a s q H Eq Ha) as (P' & -> & H' & Hns & HA & HL & _ & _). cbn [snd].
    split; [done|]. split; [|split; [done|]].
    + rewrite (held_by_perm P' _ _ HL), held_by_app, (held_by_same P P').
      * unfold held_by at 2. cbn [map concat]. rewrite HA, decide_True, held_fresh, app_nil_r by done. exact HP.
      * intros t Ht. rewrite HA, decide_False; [done|]. intros ->. done.
    + intros t Ht Hnt. rewrite HA. case_decide; [apply held_fresh|]. apply Hu; [done|]. intros Hc'. apply Hnt. rewrite HL, elem_of_app. tauto.
  - cbn in Ho. destruct (rtw_get_stainfo P (Some a)) as [s|] eqn:E; [|exact HI]. apply get_spec in E as [Hs _]; [|done].
    pose proof (free_spec ap s P pool H Hs) as HS. destruct (rtw_free_stainfo ap (Some s) P pool) as [P' pool'].
    destruct HS as (F1 & F2 & _ & F4 & _ & F6 & F7).
    apply (frames_leave F P pool P' pool' [s] (filter (.≠ s) (linked P))); try done.
    + rewrite Permutation_app_comm. rewrite <- (filter_only s (linked P)) by (done || apply (linked_nodup P H)).
      symmetry. apply (filter_split (.≠ s)).
    + intros t Ht. apply F4. intros ->. apply Ht. left.
    + intros t Ht. apply list_elem_of_singleton in Ht as ->. exact F6.
    + unfold held_by. cbn [map concat]. rewrite app_nil_r. exact F7.
  - pose proof (free_all_spec ap P pool H) as HS. destruct (rtw_free_all_stainfo ap P pool) as [P' pool'].
    destruct (decide (length (linked P) = 1%nat)); [destruct HS as [-> ->]; exact HI|]. destruct HS as (F1 & F2 & F3 & _ & F5 & F6).
    eapply (frames_leave F P pool P' pool'); [done | done | done | done | | exact F2 | exact F3 | exact F5 | exact F6].
    rewrite Permutation_app_comm. symmetry. apply filter_split.
Qed.

Lemma set_sta_at P s x t : (s < length (pstainfo_buf P))%nat -> sta_at (set_sta P s x) t = if decide (t = s) then x else sta_at P t.
Proof. intros H. apply sta_at_insert; done. Qed.

Lemma set_sta_ok P s x : table_ok P -> s ∈ linked P -> mac_addr x = mac_of P s -> table_ok (set_sta P s x).
Proof.
  intros H Hs Hx. assert (Hlt : (s < length (pstainfo_buf P))%nat) by (rewrite (t_buf P H); apply (slot_range P s H); auto).
  assert (HM : forall t, mac_of (set_sta P s x) t = mac_of P t).
  { intros t. unfold mac_of. rewrite set_sta_at by done. case_decide as E; [subst; exact Hx | done]. }
  split; cbn [set_sta with_table pstainfo_buf sta_hash free_sta_queue asoc_sta_count].
  - rewrite length_insert. apply (t_buf P H).
  - apply (t_hash P H).
  - apply (t_slots P H).
  - intros i l t Hi Ht. fold (set_sta P s x). rewrite HM. apply (t_bucket P H _ _ _ Hi Ht).
  - apply (t_count P H).
  - fold (set_sta P s x). change (linked (set_sta P s x)) with (linked P). rewrite (map_same _ (mac_of P)) by (intros t _; apply HM). apply (t_uniq P H).
Qed.

Lemma frames_step F ap st st' : NoDup F -> zlen F < 2 ^ 32 -> sta_step ap st st' -> frames_at F st -> frames_at F st'.
Proof.
  intros HF Hz Hst HI. destruct Hst as [op P pool Ho | s x P pool pool' Hs Hx HP' Hc']; [apply frames_op; done|].
  destruct HI as (H & HP & Hc & Hu). assert (Hlt : (s < length (pstainfo_buf P))%nat) by (rewrite (t_buf P H); apply (slot_range P s H); auto).
  split; [apply set_sta_ok; done|]. split; [|split; [done|]].
  - change (linked (set_sta P s x)) with (linked P).
    assert (HL : linked P ≡ₚ filter (.≠ s) (linked P) ++ [s]).
    { rewrite <- (filter_only s (linked P)) by (done || apply (linked_nodup P H)). symmetry. apply (filter_split (.≠ s)). }
    rewrite (held_by_perm P _ _ HL), held_by_app in HP. rewrite (held_by_perm (set_sta P s x) _ _ HL), held_by_app, (held_by_same P).
    + unfold held_by at 2. cbn [map concat]. rewrite app_nil_r, set_sta_at, decide_True by done. rewrite <- app_assoc, HP'.
      rewrite <- HP, <- app_assoc. unfold held_by at 3. cbn [map concat]. rewrite app_nil_r. done.
    + intros t Ht. apply list_elem_of_filter in Ht as [Hne _]. rewrite set_sta_at, decide_False by done. done.
  - intros t Ht Hnt. rewrite set_sta_at by done. case_decide as E; [subst; done | apply Hu; done].
Qed.

(** ** Lemmas: association ids *)

(** Where the search for an id stops: all places before are taken, and it is at a free place, at the limit or at the end. *)
Lemma aid_search_spec P n : forall i used, 0 <= i -> i + Z.of_nat n = max_aid P -> 0 < max_num_sta P -> 0 <= used < max_num_sta P ->
  let '(j, u) := aid_search P n i used in
  i <= j <= max_aid P /\
  (u < max_num_sta P -> j < max_aid P -> sta_aid P !! Z.to_nat ((j + started_aid P - 1) mod max_aid P) = Some None).
Proof.
  induction n as [|n IH]; intros i used Hi Hn Hm Hu; cbn [aid_search]; [split; [lia | lia]|].
  rewrite Z.add_simpl_r. destruct (sta_aid P !! Z.to_nat ((i + started_aid P - 1) mod max_aid P)) as [[t|]|] eqn:E.
  - destruct (Z.leb_spec (max_num_sta P) (used + 1)); [split; lia|].
    specialize (IH (i + 1) (used + 1)). destruct (aid_search P n (i + 1) (used + 1)) as [j u]. destruct IH as [I1 I2]; [lia..|]. split; [lia | exact I2].
  - split; [lia|]. intros _ _. exact E.
  - destruct (Z.leb_spec (max_num_sta P) (used + 1)); [split; lia|].
    specialize (IH (i + 1) (used + 1)). destruct (aid_search P n (i + 1) (used + 1)) as [j u]. destruct IH as [I1 I2]; [lia..|]. split; [lia | exact I2].
Qed.

(** The places found in use are counted one by one. *)
Lemma aid_search_count P n : forall i used, 0 <= i -> let '(j, u) := aid_search P n i used in
  u < max_num_sta P -> u - used = j - i.
Proof.
  induction n as [|n IH]; intros i used Hi; cbn [aid_search]; [lia|].
  destruct (sta_aid P !! _) as [[t|]|]; [|lia|].
  - destruct (Z.leb_spec (max_num_sta P) (used + 1)); [lia|]. specialize (IH (i + 1) (used + 1) ltac:(lia)).
    destruct (aid_search P n (i + 1) (used + 1)) as [j u]. lia.
  - destruct (Z.leb_spec (max_num_sta P) (used + 1)); [lia|]. specialize (IH (i + 1) (used + 1) ltac:(lia)).
    destruct (aid_search P n (i + 1) (used + 1)) as [j u]. lia.
Qed.

Definition aids_ok (P : sta_priv) : Prop := 0 < max_num_sta P /\ 1 <= started_aid P <= max_aid P.

Lemma mod_place P i : aids_ok P -> 0 <= i < max_aid P -> started_aid P = 1 -> (i + started_aid P - 1) mod max_aid P = i.
Proof. intros _ Hi ->. rewrite Z.add_simpl_r. apply Z.mod_small. lia. Qed.

(** An id given out was free, and is in range; 0 is given out otherwise. *)
Lemma aid_alloc_spec P s : aids_ok P ->
  let '(a, P') := rtw_aid_alloc P s in
  (a = 0 /\ sta_aid P' = sta_aid P /\ started_aid P' = started_aid P \/
   1 <= a <= max_aid P /\ sta_aid P !! Z.to_nat (a - 1) = Some None /\ sta_aid P' = <[Z.to_nat (a - 1) := Some s]> (sta_aid P) /\
   started_aid P' = (if rr_aid P then a mod max_aid P + 1 else started_aid P) /\ (started_aid P = 1 -> a <= max_num_sta P)) /\
  rr_aid P' = rr_aid P /\ max_num_sta P' = max_num_sta P /\ aids_ok P'.
Proof.
  intros [Hm Hst]. unfold rtw_aid_alloc. pose proof (aid_search_spec P (Z.to_nat (max_aid P)) 0 0) as HS.
  pose proof (aid_search_count P (Z.to_nat (max_aid P)) 0 0 ltac:(lia)) as HC.
  destruct (aid_search P _ 0 0) as [j u]. destruct HS as [H1 H2]; [lia..|]. set (m := (j + started_aid P - 1) mod max_aid P) in *.
  assert (Hmr : 0 <= m < max_aid P) by (apply Z.mod_pos_bound; lia).
  destruct (Z.leb_spec (max_aid P) j) as [Hj|Hj]; cbn [orb].
  { cbn [Z.eqb]. split; [left; done|]. done. }
  destruct (Z.leb_spec (max_num_sta P) u) as [Hu|Hu].
  { cbn [Z.eqb]. split; [left; done|]. done. }
  replace (m + 1 =? 0) with false by lia. rewrite Z.add_simpl_r. cbn [orb].
  split; [right|split; [done|split; [done|split; [exact Hm|]]]].
  - split; [lia|]. split; [apply H2; lia|]. split; [done|]. split; [destruct (rr_aid P); done|].
    intros E. unfold m. rewrite (mod_place P j (conj Hm Hst)) by (done || lia). lia.
  - unfold max_aid. cbn [sta_aid started_aid]. unfold zlen. rewrite length_insert. fold (zlen (sta_aid P)). fold (max_aid P).
    destruct (rr_aid P); cbn [negb]; [|lia]. pose proof (Z.mod_pos_bound (m + 1) (max_aid P)). lia.
Qed.

(** A search that starts at a free id gives that one out, however many are in use. *)
Lemma aid_alloc_start P s : aids_ok P -> sta_aid P !! Z.to_nat (started_aid P - 1) = Some None ->
  fst (rtw_aid_alloc P s) = started_aid P.
Proof.
  intros [Hm Hst] Hf. unfold rtw_aid_alloc. destruct (Z.to_nat (max_aid P)) as [|n] eqn:En; [lia|].
  cbn [aid_search]. rewrite Z.add_simpl_r. change (0 + started_aid P - 1) with (started_aid P - 1).
  rewrite Z.mod_small by lia. rewrite Hf. replace (max_aid P <=? 0) with false by lia. replace (max_num_sta P <=? 0) with false by lia.
  cbn [orb fst]. change (0 + started_aid P - 1) with (started_aid P - 1). rewrite Z.mod_small by lia. lia.
Qed.

(** Stations that associate one after the other. *)
Fixpoint aid_run (P : sta_priv) (l : list nat) : list Z * sta_priv :=
  match l with
  | [] => ([], P)
  | s :: l => let '(a, P) := rtw_aid_alloc P s in let '(r, P) := aid_run P l in (a :: r, P)
  end.

Lemma aid_run_round l : forall P k, aids_ok P -> rr_aid P = true -> started_aid P = Z.of_nat k + 1 ->
  Z.of_nat k + zlen l <= max_aid P -> (forall i, (k <= i)%nat -> (i < length (sta_aid P))%nat -> sta_aid P !! i = Some None) ->
  fst (aid_run P l) = map (fun i => Z.of_nat i + 1) (seq k (length l)).
Proof.
  induction l as [|s l IH]; intros P k Ho Hr Hst Hl Hf; [done|]. cbn [aid_run length seq map]. rewrite zlen_cons in Hl. pose proof (zlen_nonneg l).
  assert (E : fst (rtw_aid_alloc P s) = started_aid P).
  { apply aid_alloc_start; [done|]. rewrite Hst, Z.add_simpl_r, Nat2Z.id. apply Hf; unfold max_aid, zlen in *; lia. }
  pose proof (aid_alloc_spec P s Ho) as HA. destruct (rtw_aid_alloc P s) as [a P']. cbn [fst] in E. subst a.
  destruct HA as (HA & Hr' & _ & Ho'). destruct HA as [[E _]|(_ & _ & Hs & Hst' & _)]; [destruct Ho; lia|]. rewrite Hr in Hst'.
  destruct l as [|s2 l]; [cbn; rewrite Hst; done|]. rewrite zlen_cons in Hl. pose proof (zlen_nonneg l).
  specialize (IH P' (S k) Ho' ltac:(congruence)). destruct (aid_run P' (s2 :: l)) as [r P'']. cbn [fst] in IH |- *.
  rewrite IH; [rewrite Hst; done | | |].
  - rewrite Hst', Hst, Z.mod_small by lia. lia.
  - unfold max_aid in *. unfold zlen in *. rewrite Hs, length_insert. cbn [length] in *. lia.
  - intros i Hi Hlt. rewrite Hs, length_insert in Hlt. rewrite Hs, list_lookup_insert_ne by lia. apply Hf; lia.
Qed.

(** ** Theorems *)

(** C38: the table is a set of at most 32 addresses: whatever sequence of allocations (for an address not found),
    releases (of what is found) and releases of all runs from the initial state, a station is found by the search in the
    bucket of its hash exactly when its address is in the set; every record is free or in one bucket; and two addresses
    never share a record. *)
Theorem sta_table_refines_set ap ops n pool a b s : Forall op_ok ops -> sta_addr a -> sta_addr b ->
  let P := fst (foldl (fun st op => sta_run_op ap op st) (init_sta_priv n, pool) ops) in
  table_ok P /\
  (is_Some (rtw_get_stainfo P (Some a)) <-> a ∈ foldl (fun S op => sta_spec_op op S) ∅ ops) /\
  (rtw_get_stainfo P (Some a) = Some s -> rtw_get_stainfo P (Some b) = Some s -> a = b).
Proof.
  intros Ho Ha Hb P. destruct (init_ok n) as [H0 HS0].
  destruct (sta_ops_refine ap ops (init_sta_priv n) pool ∅ H0 HS0 Ho) as [H HS]. fold P in H, HS.
  split; [exact H|]. rewrite (get_known P a H), (key_sta_addr a Ha), HS. split; [done|].
  intros Ga Gb. apply get_spec in Ga as [_ Ga], Gb as [_ Gb]; try done. rewrite key_sta_addr in Ga, Gb by done. congruence.
Qed.

(** C39: no frame is lost or shared: through any sequence of operations on the table, and of frames moving between the
    pool and the stations in it, each frame stays in the pool or with exactly one station; a record that is not in use
    holds none, so that a released station leaves no fragment or waiting frame behind and a record that is
    allocated again loses none when it is cleared. *)
Theorem stations_keep_frames ap n pool P' pool' : NoDup (free_q pool) -> pool_counts pool -> zlen (free_q pool) <= NR_RECVFRAME ->
  rtc (sta_step ap) (init_sta_priv n, pool) (P', pool') ->
  held_by P' (linked P') ++ free_q pool' ≡ₚ free_q pool /\ NoDup (held_by P' (linked P') ++ free_q pool') /\
  (forall s, (s < NUM_STA)%nat -> s ∉ linked P' -> held (sta_at P' s) = []).
Proof.
  intros Hn Hc Hz Hr. unfold NR_RECVFRAME in Hz.
  assert (H0 : frames_at (free_q pool) (init_sta_priv n, pool)).
  { split; [apply init_ok|]. split; [done|]. split; [done|]. intros s Hs _. unfold sta_at.
    cbn [init_sta_priv pstainfo_buf]. rewrite lookup_replicate_2 by exact Hs. reflexivity. }
  assert (HF : frames_at (free_q pool) (P', pool')).
  { remember (init_sta_priv n, pool) as st0 eqn:E0. remember (P', pool') as st1 eqn:E1. clear E0.
    induction Hr as [st|st st2 st3 Hst Hr IH]; [exact H0|]. apply IH; [exact E1|]. eapply frames_step; [exact Hn | lia | exact Hst | exact H0]. }
  destruct HF as (_ & HP & _ & Hu). split; [exact HP|]. split; [rewrite HP; exact Hn | exact Hu].
Qed.

(** An association id that is given out is between 1 and the largest, was nobody's, and from then on is the station's
    alone; with a fixed start of the search (no round robin) it is also at most the number of stations allowed, so that
    never more than that number of ids are in use. *)
Theorem aids_are_free_and_limited P s : aids_ok P ->
  let '(a, P') := rtw_aid_alloc P s in
  a = 0 /\ sta_aid P' = sta_aid P \/
  1 <= a <= max_aid P /\ sta_aid P !! Z.to_nat (a - 1) = Some None /\ sta_aid P' = <[Z.to_nat (a - 1) := Some s]> (sta_aid P) /\
  (started_aid P = 1 -> a <= max_num_sta P).
Proof.
  intros Ho. pose proof (aid_alloc_spec P s Ho) as HA. destruct (rtw_aid_alloc P s) as [a P'].
  destruct HA as [[(H1 & H2 & _)|(H1 & H2 & H3 & _ & H4)] _]; [left; done | right; done].
Qed.

(** With round robin the limit on the number of stations is not enforced: stations that associate one after the other
    from an empty table all get ids 1, 2, 3, ... up to the largest, whatever the limit is. *)
Theorem round_robin_ignores_limit P l : aids_ok P -> rr_aid P = true -> started_aid P = 1 ->
  sta_aid P = replicate (Z.to_nat (max_aid P)) None -> zlen l <= max_aid P ->
  fst (aid_run P l) = map (fun i => Z.of_nat i + 1) (seq 0 (length l)).
Proof.
  intros Ho Hr Hst He Hl. apply (aid_run_round l P 0 Ho Hr); [lia | lia|].
  intros i _ Hi. rewrite He in Hi |- *. rewrite length_replicate in Hi. apply lookup_replicate_2. exact Hi.
Qed.

(** ** Examples *)

Definition ex_sta1 : list Z := [2; 0; 0; 0; 0; 1].
Definition ex_sta2 : list Z := [2; 0; 0; 0; 0; 33].
Definition ex_ops : list sta_op := [TAlloc bc_addr; TAlloc ex_sta1; TAlloc ex_sta2; TAlloc ex_sta1; TFree ex_sta1; TAlloc ex_sta1].
Definition ex_free_pool : recv_pool := mkPool (seq 0 8) 8.

(** Two stations in one bucket. *)
Lemma sta_table_refines_set_witness :
  (wifi_mac_hash ex_sta1 = wifi_mac_hash ex_sta2 /\
   rtw_get_stainfo (fst (foldl (fun st op => sta_run_op false op st) (init_sta_priv 4, ex_free_pool) ex_ops)) (Some ex_sta2) = Some 2%nat) /\
  let P := fst (foldl (fun st op => sta_run_op false op st) (init_sta_priv 4, ex_free_pool) ex_ops) in
  table_ok P /\ (is_Some (rtw_get_stainfo P (Some ex_sta2)) <-> ex_sta2 ∈ foldl (fun S op => sta_spec_op op S) ∅ ex_ops) /\
  (rtw_get_stainfo P (Some ex_sta2) = Some 2%nat -> rtw_get_stainfo P (Some ex_sta1) = Some 2%nat -> ex_sta2 = ex_sta1).
Proof.
  split; [split; vm_compute; reflexivity|]. apply (sta_table_refines_set false ex_ops 4 ex_free_pool ex_sta2 ex_sta1 2).
  - repeat apply List.Forall_cons; try apply List.Forall_nil; cbn; first [right; reflexivity | left; reflexivity].
  - left. reflexivity.
  - left. reflexivity.
Defined.

(** A station takes a fragment from the pool and is released. *)
Definition ex_held_frame : recv_frame :=
  mkRf 0 [] 0 0 0 (mkRa (mkRx 0 24 0 0 ex_sta1 ex_sta2) 0 2 0 0 0 5 0 1 0 0 ex_sta2 ex_sta1 ex_sta1 0 0 0 0) 0.
Definition ex_held_sta : sta_info :=
  mkSta ex_sta1 1 0 0 0 0 (zeros 32) init_sta_recv (mkDs 0 [ex_held_frame]) (replicate 16 fresh_ctrl) false.
Definition ex_alloced : sta_priv := fst (sta_run_op false (TAlloc ex_sta1) (init_sta_priv 4, ex_free_pool)).
Definition ex_holding : sta_priv := set_sta ex_alloced 0 ex_held_sta.
Definition ex_left : sta_priv * recv_pool := sta_run_op false (TFree ex_sta1) (ex_holding, mkPool (seq 1 7) 7).

Lemma stations_keep_frames_witness :
  (held_by ex_holding (linked ex_holding) = [0%nat] /\ free_q (snd ex_left) = [1; 2; 3; 4; 5; 6; 7; 0]%nat) /\
  held_by (fst ex_left) (linked (fst ex_left)) ++ free_q (snd ex_left) ≡ₚ free_q ex_free_pool /\
  NoDup (held_by (fst ex_left) (linked (fst ex_left)) ++ free_q (snd ex_left)) /\
  (forall s, (s < NUM_STA)%nat -> s ∉ linked (fst ex_left) -> held (sta_at (fst ex_left) s) = []).
Proof.
  split; [split; vm_compute; reflexivity|]. apply (stations_keep_frames false 4 ex_free_pool).
  - apply NoDup_seq.
  - reflexivity.
  - vm_compute. discriminate.
  - apply (rtc_l _ _ (ex_alloced, ex_free_pool)).
    { apply (step_op false (TAlloc ex_sta1)). left. reflexivity. }
    apply (rtc_l _ _ (ex_holding, mkPool (seq 1 7) 7)).
    { apply step_frames; [vm_compute; left | reflexivity | vm_compute; reflexivity | reflexivity]. }
    apply (rtc_l _ _ ex_left); [|apply rtc_refl].
    apply (step_op false (TFree ex_sta1)). left. reflexivity.
Defined.

Definition ex_round : sta_priv := mkStaPriv (replicate NUM_STA empty_sta) (replicate NUM_STA []) (seq 0 NUM_STA) 0 0 (replicate 4 None) 1 true 2.

Lemma aids_are_free_and_limited_witness :
  fst (rtw_aid_alloc (init_sta_priv 4) 3) = 1 /\
  let '(a, P') := rtw_aid_alloc (init_sta_priv 4) 3 in
  a = 0 /\ sta_aid P' = sta_aid (init_sta_priv 4) \/
  1 <= a <= max_aid (init_sta_priv 4) /\ sta_aid (init_sta_priv 4) !! Z.to_nat (a - 1) = Some None /\
  sta_aid P' = <[Z.to_nat (a - 1) := Some 3%nat]> (sta_aid (init_sta_priv 4)) /\
  (started_aid (init_sta_priv 4) = 1 -> a <= max_num_sta (init_sta_priv 4)).
Proof. split; [reflexivity|]. apply (aids_are_free_and_limited (init_sta_priv 4) 3). split; [reflexivity | split; vm_compute; discriminate]. Defined.

(** Two stations allowed, four associated. *)
Lemma round_robin_ignores_limit_witness :
  max_num_sta ex_round = 2 /\ fst (aid_run ex_round [5; 6; 7; 8]%nat) = [1; 2; 3; 4].
Proof.
  split; [reflexivity|]. apply (round_robin_ignores_limit ex_round [5; 6; 7; 8]%nat).
  - split; [reflexivity | split; vm_compute; discriminate].
  - reflexivity.
  - reflexivity.
  - reflexivity.
  - vm_compute. discriminate.
Defined.
