(* ===== verification/RecvValid.v ===== *)
(** * Validation of received data frames

    [validate_recv_frame] (data frames) and [validate_recv_data_frame] of [core/rtw_recv.c] with the header checks of a
    station, of an access point ([core/rtw_ap.c]), of an ad hoc network and of the manufacturing mode: the fields of the
    header, the addresses, the transmitter, duplicates and packet numbers, the cipher, and the rule that drops plain
    frames in a protected network. *)
From Stdlib Require Import ZArith Lia Bool.
From stdpp Require Import base option list numbers.
From S2P Require Import Prelude Sec Ccmp RecvFrame RecvPn StaTable.
Local Open Scope Z_scope.

(** ** The header *)

(* src: include/wifi.h:34-37 WLAN_HDR_A3_LEN *)
Definition WLAN_HDR_A3_LEN := 24.
Definition WLAN_HDR_A3_QOS_LEN := 26.
Definition LLC_HEADER_SIZE := 6.
Definition EAPOL_TYPE := 0x888e.

Definition WIFI_MGT_TYPE := 0.
Definition WIFI_CTRL_TYPE := 4.
Definition WIFI_DATA_TYPE := 8.

(** A bit of the frame control field, as 0 or 1. *)
Definition get_flag (fc n : Z) : Z := if (fc & BIT n) =? 0 then 0 else 1.

(* src: include/wifi.h:288 GetToDs *)
Definition GetToDs (fc : Z) : Z := get_flag fc 8.
(* src: include/wifi.h:300 GetFrDs *)
Definition GetFrDs (fc : Z) : Z := get_flag fc 9.
(* src: include/wifi.h:307 get_tofr_ds *)
Definition get_tofr_ds (fc : Z) : Z := Z.shiftl (GetFrDs fc) 1 .| GetToDs fc.
(* src: include/wifi.h:315 GetMFrag *)
Definition GetMFrag (fc : Z) : Z := get_flag fc 10.
(* src: include/wifi.h:339 GetPwrMgt *)
Definition GetPwrMgt (fc : Z) : Z := get_flag fc 12.
(* src: include/wifi.h:351 GetMData *)
Definition GetMData (fc : Z) : Z := get_flag fc 13.
(* src: include/wifi.h:363 GetPrivacy *)
Definition GetPrivacy (fc : Z) : Z := get_flag fc 14.
(* src: include/wifi.h:371 GetOrder *)
Definition GetOrder (fc : Z) : Z := get_flag fc 15.
(* src: include/wifi.h:373 GetFrameType *)
Definition GetFrameType (fc : Z) : Z := fc & (BIT 3 .| BIT 2).
(* src: include/wifi.h:381 get_frame_sub_type *)
Definition get_frame_sub_type (fc : Z) : Z := fc & 0xfc.
(* src: include/wifi.h:391 GetSequence *)
Definition GetSequence (sc : Z) : Z := Z.shiftr sc 4.
(* src: include/wifi.h:393 GetFragNum *)
Definition GetFragNum (sc : Z) : Z := sc & 0x0f.
(* src: include/wifi.h:423 GetPriority *)
Definition GetPriority (qc : Z) : Z := qc & 0xf.
(* src: include/wifi.h:425 GetAckpolicy *)
Definition GetAckpolicy (qc : Z) : Z := Z.shiftr qc 5 & 0x3.
(* src: include/wifi.h:426 GetAMsdu *)
Definition GetAMsdu (qc : Z) : Z := Z.shiftr qc 7 & 0x1.

Section Addresses.
  Context (f : recv_frame).

Definition addr_at (o : Z) : res (list Z) := rdn (rf_mem f) (rx_data f + o) ETH_ALEN.
(* src: include/wifi.h:442 GetAddr1Ptr *)
Definition GetAddr1Ptr : res (list Z) := addr_at 4.
(* src: include/wifi.h:444 get_addr2_ptr *)
Definition get_addr2_ptr : res (list Z) := addr_at 10.
(* src: include/wifi.h:446 GetAddr3Ptr *)
Definition GetAddr3Ptr : res (list Z) := addr_at 16.
(* src: include/wifi.h:448 GetAddr4Ptr *)
Definition GetAddr4Ptr : res (list Z) := addr_at 24.
End Addresses.

(** ** Setting attributes *)

Definition with_sec (a : rx_attrib) (s : rx_pkt_attrib) : rx_attrib :=
  mkRa s (a_icv_len a) (a_to_fr_ds a) (a_amsdu a) (a_qos a) (a_priority a) (a_seq_num a) (a_frag_num a) (a_mfrag a) (a_privacy a)
    (a_bdecrypted a) (a_dst a) (a_src a) (a_bssid a) (a_ack_policy a) (a_pw_save a) (a_mdata a) (a_order a).
Definition with_ra_ta (ra ta : list Z) (a : rx_attrib) : rx_attrib :=
  with_sec a (mkRx (a_encrypt a) (a_hdrlen a) (a_iv_len a) (a_key_index a) ta ra).
Definition with_dsb (dst src bssid : list Z) (a : rx_attrib) : rx_attrib :=
  mkRa (a_sec a) (a_icv_len a) (a_to_fr_ds a) (a_amsdu a) (a_qos a) (a_priority a) (a_seq_num a) (a_frag_num a) (a_mfrag a)
    (a_privacy a) (a_bdecrypted a) dst src bssid (a_ack_policy a) (a_pw_save a) (a_mdata a) (a_order a).
Definition with_amsdu (v : Z) (a : rx_attrib) : rx_attrib :=
  mkRa (a_sec a) (a_icv_len a) (a_to_fr_ds a) v (a_qos a) (a_priority a) (a_seq_num a) (a_frag_num a) (a_mfrag a)
    (a_privacy a) (a_bdecrypted a) (a_dst a) (a_src a) (a_bssid a) (a_ack_policy a) (a_pw_save a) (a_mdata a) (a_order a).
Definition with_qc (priority ack hdrlen : Z) (a : rx_attrib) : rx_attrib :=
  mkRa (mkRx (a_encrypt a) hdrlen (a_iv_len a) (a_key_index a) (a_ta a) (a_ra a)) (a_icv_len a) (a_to_fr_ds a) (a_amsdu a) (a_qos a)
    priority (a_seq_num a) (a_frag_num a) (a_mfrag a) (a_privacy a) (a_bdecrypted a) (a_dst a) (a_src a) (a_bssid a)
    ack (a_pw_save a) (a_mdata a) (a_order a).
Definition with_crypt (encrypt iv_len icv_len : Z) (a : rx_attrib) : rx_attrib :=
  mkRa (mkRx encrypt (a_hdrlen a) iv_len (a_key_index a) (a_ta a) (a_ra a)) icv_len (a_to_fr_ds a) (a_amsdu a) (a_qos a)
    (a_priority a) (a_seq_num a) (a_frag_num a) (a_mfrag a) (a_privacy a) (a_bdecrypted a) (a_dst a) (a_src a) (a_bssid a)
    (a_ack_policy a) (a_pw_save a) (a_mdata a) (a_order a).

(** The fields taken from the frame and sequence control fields; [qos] for data frames. *)
(* src: core/rtw_recv.c:2459-2469 validate_recv_frame *)
Definition with_header (fc sc : Z) (a : rx_attrib) : rx_attrib :=
  mkRa (a_sec a) (a_icv_len a) (get_tofr_ds fc) (a_amsdu a) (a_qos a) (a_priority a) (GetSequence sc) (GetFragNum sc) (GetMFrag fc)
    (GetPrivacy fc) (a_bdecrypted a) (a_dst a) (a_src a) (a_bssid a) (a_ack_policy a) (GetPwrMgt fc) (GetMData fc) (GetOrder fc).
Definition with_qos (v : Z) (a : rx_attrib) : rx_attrib :=
  mkRa (a_sec a) (a_icv_len a) (a_to_fr_ds a) (a_amsdu a) v (a_priority a) (a_seq_num a) (a_frag_num a) (a_mfrag a)
    (a_privacy a) (a_bdecrypted a) (a_dst a) (a_src a) (a_bssid a) (a_ack_policy a) (a_pw_save a) (a_mdata a) (a_order a).

(** ** What the checks know and do *)

(* src: include/rtw_mlme.h:33-49 WIFI_ASOC_STATE *)
Definition WIFI_UNDER_LINKING := 0x80.
Definition WIFI_SLEEP_STATE := 0x4.
Definition WIFI_STATION_STATE := 0x8.
Definition WIFI_AP_STATE := 0x10.
Definition WIFI_ADHOC_STATE := 0x20.
Definition WIFI_ADHOC_MASTER_STATE := 0x40.
Definition WIFI_MP_STATE := 0x10000.
Definition WLAN_STA_AMSDU_DISABLE := BIT 17.
Definition RTW_RX_HANDLED := 2.

Definition dot11AuthAlgrthm_8021X := 2.

(** What a station has said about power save, outside the table's records. *)
(* src: include/sta_info.h:438-447 sta_info *)
Record sta_ps : Type := mkPs {
  qos_option : Z; qos_info : Z; uapsd_bk : Z; uapsd_vi : Z; uapsd_vo : Z; uapsd_be : Z; sleepq_ac_len : Z }.

(** The adapter: its mode, addresses and security settings, the clock, the radar detector. *)
Record rx_env : Type := mkEnv {
  fw_state : Z; mybssid : list Z; myhwaddr : list Z;
  dot11AuthAlgrthm : Z; PrivacyAlgrthm : Z; dot118021XGrpPrivacy : Z;
  now : Z; passing_ms : Z -> Z; radar_detected : bool; psp : nat -> sta_ps }.

(** [check_fwstate] *)
Definition in_state (E : rx_env) (s : Z) : bool := negb (fw_state E & s =? 0).

(** What the checks start elsewhere: management frames, the transmit queues of a station, counting. *)
Inductive rx_event : Type :=
| Deauth (a : list Z) | StopXmit (s : nat) | WakeupXmit (s : nat) | DeliverTriggered (s : nat)
| QosNull (s : nat) (priority : Z) | CountRx (s : nat).

(** The two static times of the last deauthentication, and the events so far. *)
Record rx_side : Type := mkSide { deauth_time : Z; ap_deauth_time : Z; rx_events : list rx_event }.

Definition emit (e : rx_event) (w : rx_side) : rx_side := mkSide (deauth_time w) (ap_deauth_time w) (rx_events w ++ [e]).

(** At most one deauthentication every ten seconds. *)
Definition may_deauth (E : rx_env) (t : Z) : bool := (10000 <? passing_ms E t) || (t =? 0).

(** ** Whose frame it is

    Each returns the verdict, the attributes, the transmitter and what else was done. *)

Section Headers.
  Context (E : rx_env) (P : sta_priv).

Definition hdr_result : Type := Z * rx_attrib * option nat * rx_side.

(* src: core/rtw_recv.c:1305-1435 rtw_sta_rx_data_validate_hdr *)
Definition rtw_sta_rx_data_validate_hdr (f : recv_frame) (fc : Z) (w : rx_side) : res hdr_result :=
  let a := attrib f in
  a1 <- GetAddr1Ptr f ;;
  let is_ra_bmc := IS_MCAST a1 in
  a2 <- get_addr2_ptr f ;;
  if a_to_fr_ds a =? 0 then
    a3 <- GetAddr3Ptr f ;;
    let a := with_dsb a1 a2 a3 (with_ra_ta a1 a2 a) in
    if negb (list_eqb (a_bssid a) (a_src a)) then Ok (FAIL, a, None, w)
    else
      let sta := rtw_get_stainfo P (Some a2) in
      Ok (match sta with Some _ => SUCCESS | None => FAIL end, a, sta, w)
  else if fw_state E & (WIFI_ASOC_STATE .| WIFI_UNDER_LINKING) =? 0 then
    let w := if negb is_ra_bmc && may_deauth E (deauth_time w)
             then emit (Deauth a2) (mkSide (now E) (ap_deauth_time w) (rx_events w)) else w in
    Ok (FAIL, a, None, w)
  else
    let a := with_ra_ta a1 a2 a in
    oa <- (if a_to_fr_ds a =? 2 then a3 <- GetAddr3Ptr f ;; Ok (Some (with_dsb a1 a3 a2 a))
           else if a_to_fr_ds a =? 3 then a3 <- GetAddr3Ptr f ;; a4 <- GetAddr4Ptr f ;; Ok (Some (with_dsb a3 a4 a2 a))
           else Ok None) ;;
    match oa with
    | None => Ok (RTW_RX_HANDLED, a, None, w)
    | Some a =>
        if (a_amsdu a =? 0) && list_eqb (myhwaddr E) (a_src a) then Ok (FAIL, a, None, w)
        else
          match rtw_get_stainfo P (Some (a_ta a)) with
          | None => Ok (FAIL, a, None, if negb is_ra_bmc && negb (radar_detected E) then emit (Deauth (a_ta a)) w else w)
          | Some s =>
              if negb (get_frame_sub_type fc & BIT 6 =? 0) then Ok (RTW_RX_HANDLED, a, Some s, emit (CountRx s) w)
              else Ok (SUCCESS, a, Some s, w)
          end
    end.

(** A station that falls asleep or wakes up. *)
(* src: core/rtw_recv.c:948-974 process_pwrbit_data *)
Definition process_pwrbit_data (fc : Z) (s : nat) (w : rx_side) : rx_side :=
  let sleeping := negb (sta_state (sta_at P s) & WIFI_SLEEP_STATE =? 0) in
  if GetPwrMgt fc =? 1 then if sleeping then w else emit (StopXmit s) w
  else if sleeping then emit (WakeupXmit s) w else w.

(** [pattrib->priority] is the one the frame's buffer was left with: it is set later. *)
(* src: core/rtw_recv.c:976-1033 process_wmmps_data *)
Definition process_wmmps_data (a : rx_attrib) (s : nat) (w : rx_side) : rx_side :=
  let p := psp E s in
  if qos_option p =? 0 then w
  else if qos_info p & 0xf =? 0 then w
  else if negb (sta_state (sta_at P s) & WIFI_SLEEP_STATE =? 0) then
    let wmmps_ac :=
      (if (a_priority a =? 1) || (a_priority a =? 2) then uapsd_bk p
       else if (a_priority a =? 4) || (a_priority a =? 5) then uapsd_vi p
       else if (a_priority a =? 6) || (a_priority a =? 7) then uapsd_vo p
       else uapsd_be p) & BIT 1 in
    if wmmps_ac =? 0 then w
    else if 0 <? sleepq_ac_len p then emit (DeliverTriggered s) w else emit (QosNull s (a_priority a)) w
  else w.

Definition WIFI_QOS_DATA_TYPE := BIT 7 .| WIFI_DATA_TYPE.

(* src: core/rtw_ap.c:6043-6112 rtw_ap_rx_data_validate_hdr *)
Definition rtw_ap_rx_data_validate_hdr (f : recv_frame) (fc : Z) (w : rx_side) : res hdr_result :=
  let a := attrib f in
  if fw_state E & WIFI_ASOC_STATE =? 0 then Ok (FAIL, a, None, w)
  else if negb ((a_to_fr_ds a =? 1) || (a_to_fr_ds a =? 3)) then Ok (RTW_RX_HANDLED, a, None, w)
  else
    a1 <- GetAddr1Ptr f ;;
    if (a_to_fr_ds a =? 1) && IS_MCAST a1 then Ok (FAIL, a, None, w)
    else
      let is_ra_bmc := (a_to_fr_ds a =? 3) && IS_MCAST a1 in
      a2 <- get_addr2_ptr f ;;
      a3 <- GetAddr3Ptr f ;;
      a <- (if a_to_fr_ds a =? 1 then Ok (with_dsb a3 a2 a1 (with_ra_ta a1 a2 a))
            else a4 <- GetAddr4Ptr f ;; Ok (with_dsb a3 a4 (if is_ra_bmc then a_bssid a else a1) (with_ra_ta a1 a2 a))) ;;
      match rtw_get_stainfo P (Some (a_ta a)) with
      | None => Ok (RTW_RX_HANDLED, a, None, if negb is_ra_bmc && negb (radar_detected E) then emit (Deauth (a_ta a)) w else w)
      | Some s =>
          let w := process_pwrbit_data fc s w in
          let w := if get_frame_sub_type fc & WIFI_QOS_DATA_TYPE =? WIFI_QOS_DATA_TYPE then process_wmmps_data a s w else w in
          if negb (get_frame_sub_type fc & BIT 6 =? 0) then Ok (RTW_RX_HANDLED, a, Some s, emit (CountRx s) w)
          else Ok (SUCCESS, a, Some s, w)
      end.

(** The addresses of the manufacturing mode. *)
(* src: core/rtw_recv.c:1490-1494 sta2sta_data_frame *)
Definition mp_addresses (f : recv_frame) : res rx_attrib :=
  a1 <- GetAddr1Ptr f ;; a2 <- get_addr2_ptr f ;; a3 <- GetAddr3Ptr f ;;
  Ok (with_dsb a1 a2 a3 (with_ra_ta a1 a2 (attrib f))).

(** Sent by oneself; for somebody else; of another network. *)
(* src: core/rtw_recv.c:1477-1493 sta2sta_data_frame *)
Definition adhoc_refuses (a : rx_attrib) : bool :=
  list_eqb (myhwaddr E) (a_src a)
  || (negb (list_eqb (myhwaddr E) (a_dst a)) && negb (IS_MCAST (a_dst a)))
  || (list_eqb (a_bssid a) (zeros 6) || list_eqb (mybssid E) (zeros 6) || negb (list_eqb (a_bssid a) (mybssid E))).

(** A verdict other than failure still becomes one when nobody is found; in no known mode the search goes on although
    the verdict is failure. *)
(* src: core/rtw_recv.c:1456-1520 sta2sta_data_frame *)
Definition sta2sta_data_frame (f : recv_frame) : res (Z * rx_attrib * option nat) :=
  let a := attrib f in
  let found ret a sta_addr :=
    let psta := rtw_get_stainfo P (Some sta_addr) in
    (match psta with None => FAIL | _ => ret end, a, psta) in
  if in_state E WIFI_ADHOC_STATE || in_state E WIFI_ADHOC_MASTER_STATE then
    if adhoc_refuses a then Ok (FAIL, a, None) else Ok (found SUCCESS a (a_ta a))
  else if in_state E WIFI_MP_STATE then
    a <- mp_addresses f ;; Ok (found SUCCESS a (mybssid E))
  else Ok (found FAIL a (a_ta a)).

(* src: core/rtw_recv.c:1522-1584 ap2sta_data_frame *)
Definition ap2sta_data_frame (f : recv_frame) (w : rx_side) : res hdr_result :=
  let a := attrib f in
  let bmcast := IS_MCAST (a_dst a) in
  if in_state E WIFI_MP_STATE && in_state E WIFI_ASOC_STATE then
    a <- mp_addresses f ;;
    let psta := rtw_get_stainfo P (Some (a_bssid a)) in
    Ok (match psta with Some _ => SUCCESS | None => FAIL end, a, psta, w)
  else
    if list_eqb (myhwaddr E) (a_dst a) && negb bmcast then
      let psta := rtw_get_stainfo P (Some (a_ta a)) in
      let w := match psta with
               | None => if may_deauth E (ap_deauth_time w)
                         then emit (Deauth (a_bssid a)) (mkSide (deauth_time w) (now E) (rx_events w)) else w
               | Some _ => w
               end in
      Ok (FAIL, a, psta, w)
    else Ok (FAIL, a, None, w).

(* src: core/rtw_recv.c:1586-1637 sta2ap_data_frame *)
Definition sta2ap_data_frame (f : recv_frame) (w : rx_side) : res hdr_result :=
  let a := attrib f in
  if in_state E WIFI_MP_STATE && in_state E WIFI_ASOC_STATE then
    a <- mp_addresses f ;;
    let psta := rtw_get_stainfo P (Some (a_bssid a)) in
    Ok (match psta with Some _ => SUCCESS | None => FAIL end, a, psta, w)
  else if negb (list_eqb (a_ra a) (myhwaddr E)) then Ok (RTW_RX_HANDLED, a, None, w)
  else Ok (RTW_RX_HANDLED, a, None, emit (Deauth (a_src a)) w).

(** The modes without a routine of their own. *)
(* src: core/rtw_recv.c:2173-2205 validate_recv_data_frame *)
Definition other_validate_hdr (f : recv_frame) (w : rx_side) : res hdr_result :=
  let a := attrib f in
  if a_to_fr_ds a =? 0 then
    a1 <- GetAddr1Ptr f ;; a2 <- get_addr2_ptr f ;; a3 <- GetAddr3Ptr f ;;
    '(ret, a, psta) <- sta2sta_data_frame (with_attrib f (with_dsb a1 a2 a3 (with_ra_ta a1 a2 a))) ;;
    Ok (ret, a, psta, w)
  else if a_to_fr_ds a =? 1 then
    a1 <- GetAddr1Ptr f ;; a2 <- get_addr2_ptr f ;; a3 <- GetAddr3Ptr f ;;
    sta2ap_data_frame (with_attrib f (with_dsb a3 a2 a1 (with_ra_ta a1 a2 a))) w
  else if a_to_fr_ds a =? 2 then
    a1 <- GetAddr1Ptr f ;; a2 <- get_addr2_ptr f ;; a3 <- GetAddr3Ptr f ;;
    ap2sta_data_frame (with_attrib f (with_dsb a1 a3 a2 (with_ra_ta a1 a2 a))) w
  else Ok (FAIL, a, None, w).

(* src: core/rtw_recv.c:2153-2205 validate_recv_data_frame *)
Definition validate_hdr (f : recv_frame) (fc : Z) (w : rx_side) : res hdr_result :=
  if in_state E WIFI_AP_STATE then rtw_ap_rx_data_validate_hdr f fc w
  else if in_state E WIFI_STATION_STATE then rtw_sta_rx_data_validate_hdr f fc w
  else other_validate_hdr f w.
End Headers.

(** ** The cipher *)

(** An authentication algorithm that is none of the known ones leaves [encry_algo] as it is. *)
(* src: include/rtw_security.h:276-294 GET_ENCRY_ALGO *)
Definition GET_ENCRY_ALGO (E : rx_env) (psta : sta_info) (encry_algo : Z) (bmcst : bool) : Z :=
  if dot11AuthAlgrthm E =? dot11AuthAlgrthm_8021X then u8 (if bmcst then dot118021XGrpPrivacy E else dot118021XPrivacy psta)
  else if (0 <=? dot11AuthAlgrthm E) && (dot11AuthAlgrthm E <=? 4) then u8 (PrivacyAlgrthm E)
  else encry_algo.

Definition SMS4 := 0x06.

(** The lengths of IV and check value. *)
(* src: include/rtw_security.h:298-333 SET_ICE_IV_LEN *)
Definition SET_ICE_IV_LEN (encrypt : Z) : Z * Z :=
  if (encrypt =? WEP40) || (encrypt =? WEP104) then (4, 4)
  else if encrypt =? TKIP then (8, 4)
  else if encrypt =? AES then (8, 8)
  else if (encrypt =? GCMP) || (encrypt =? GCMP_256) then (8, 16)
  else if encrypt =? CCMP_256 then (8, 16)
  else if encrypt =? SMS4 then (18, 16)
  else (0, 0).

(* src: core/rtw_recv.c:2285-2300 validate_recv_data_frame *)
Definition set_cipher (E : rx_env) (psta : sta_info) (a : rx_attrib) : rx_attrib :=
  if negb (a_privacy a =? 0) then
    let encrypt := GET_ENCRY_ALGO E psta (a_encrypt a) (IS_MCAST (a_ra a)) in
    let '(iv_len, icv_len) := SET_ICE_IV_LEN encrypt in
    with_crypt encrypt iv_len icv_len a
  else with_crypt 0 0 0 a.

(** ** Plain frames in a protected network *)

(** The bytes where the type of the packet is expected. *)
Definition ether_type_at (f : recv_frame) (a : rx_attrib) : res Z :=
  RTW_GET_BE16 (rf_mem f) (rx_data f + a_hdrlen a + a_iv_len a + LLC_HEADER_SIZE).

(** Whether the frame may stay. *)
(* src: core/rtw_recv.c:2302-2362 validate_recv_data_frame *)
Definition plaintext_check (E : rx_env) (psta : sta_info) (f : recv_frame) (a : rx_attrib) : res bool :=
  if PrivacyAlgrthm E =? NO_PRIVACY then Ok true
  else if IS_MCAST (a_ra a) then Ok (negb (a_privacy a =? 0))
  else
    ether_type <- ether_type_at f a ;;
    if dot11AuthAlgrthm E =? dot11AuthAlgrthm_8021X then
      if (a_privacy a =? 0) && negb (ether_type =? EAPOL_TYPE) then Ok false
      else if (a_privacy a =? 0) && negb (a_amsdu a =? 0) then Ok false
      else if (ether_type =? EAPOL_TYPE) && in_state E WIFI_AP_STATE && (dot118021XPrivacy psta =? NO_PRIVACY)
              && negb (list_eqb (myhwaddr E) (a_dst a)) then Ok false
      else Ok true
    else Ok (negb (a_privacy a =? 0)).

(** ** Data frames *)

Definition a4_shift (a : rx_attrib) : Z := if a_to_fr_ds a =? 3 then ETH_ALEN else 0.

(** The QoS control field. *)
Definition qc_at (f : recv_frame) : res Z := GET_LE16 (rf_mem f) (rx_data f + WLAN_HDR_A3_LEN + a4_shift (attrib f)).

(* src: core/rtw_recv.c:2147-2151 validate_recv_data_frame *)
Definition set_amsdu (f : recv_frame) : res rx_attrib :=
  let a := attrib f in
  if negb (a_qos a =? 0) then qc <- qc_at f ;; Ok (with_amsdu (GetAMsdu qc) a) else Ok (with_amsdu 0 a).

(** Priority, acknowledgement policy, length of the header. [is_any_non_be_pkts] is set by QoS frames. *)
(* src: core/rtw_recv.c:2238-2256 validate_recv_data_frame *)
Definition parse_qc (f : recv_frame) (non_be : bool) : res (rx_attrib * bool) :=
  let a := attrib f in
  let order := if negb (a_order a =? 0) then 4 else 0 in
  if a_qos a =? 1 then
    qc <- qc_at f ;;
    let priority := GetPriority qc in
    Ok (with_qc priority (GetAckpolicy qc) (WLAN_HDR_A3_QOS_LEN + a4_shift a + order) a,
        negb (priority =? 0) && negb (priority =? 3))
  else Ok (with_qc 0 0 (WLAN_HDR_A3_LEN + a4_shift a + order) a, non_be).

(** What changes: the stations' counters, the packet numbers of the group keys, the flag above, the rest. *)
Record rx_valid : Type := mkValid { v_stas : sta_priv; v_iv_seq : list (list Z); v_non_be : bool; v_side : rx_side }.

Definition with_recvpriv (x : sta_info) (r : sta_recv_priv) : sta_info :=
  mkSta (mac_addr x) (sta_state x) (flags x) (aid x) (ieee8021x_blocked x) (dot118021XPrivacy x) (dot118021x_UncstKey x)
    r (sta_defrag x) (recvreorder_ctrl x) (on_auth_list x).

(** [psta] and [preorder_ctrl] of the frame: a station, one of its windows. *)
Record rx_link : Type := mkLink { l_psta : option nat; l_tid : option Z }.

(* src: core/rtw_recv.c:2133-2379 validate_recv_data_frame *)
Definition validate_recv_data_frame (E : rx_env) (f : recv_frame) (fc : Z) (v : rx_valid)
    : res (Z * recv_frame * rx_link * rx_valid) :=
  let P := v_stas v in
  a <- set_amsdu f ;;
  let f := with_attrib f a in
  '(ret, a, psta, w) <- validate_hdr E P f fc (v_side v) ;;
  let f := with_attrib f a in
  let v := mkValid P (v_iv_seq v) (v_non_be v) w in
  let stop ret := Ok (ret, f, mkLink None None, v) in
  if ret =? FAIL then stop FAIL
  else if ret =? RTW_RX_HANDLED then stop RTW_RX_HANDLED
  else
    match psta with
    | None => stop FAIL
    | Some s =>
        let x := sta_at P s in
        if negb (flags x & WLAN_STA_AMSDU_DISABLE =? 0) && negb (a_amsdu a =? 0) then stop FAIL
        else
          '(a, non_be) <- parse_qc f (v_non_be v) ;;
          let f := with_attrib f a in
          '(ret, r, iv_seq) <- data_frame_decache (in_state E WIFI_STATION_STATE) f (sta_recvpriv x) (v_iv_seq v) ;;
          let v := mkValid (set_sta P s (with_recvpriv x r)) iv_seq non_be w in
          let tid := if negb (IS_MCAST (a_ra a)) && negb (a_qos a =? 0) then Some (a_priority a) else None in
          if ret =? FAIL then Ok (FAIL, f, mkLink (Some s) tid, v)
          else
            let a := set_cipher E x a in
            let f := with_attrib f a in
            pass <- plaintext_check E x f a ;;
            Ok (if pass : bool then SUCCESS else FAIL, f, mkLink (Some s) tid, v)
    end.

(** ** Frames *)

(** The last result counts frames dropped. Management and control frames, which are never handed on, go to handlers of
    their own, outside this file: [Elsewhere]. *)
(* src: core/rtw_recv.c:2393-2575 validate_recv_frame *)
Definition validate_recv_frame (E : rx_env) (f : recv_frame) (v : rx_valid) (drops : Z) : res (Z * recv_frame * rx_link * rx_valid * Z) :=
  b0 <- rd (rf_mem f) (rx_data f) ;;
  if negb (b0 & 0x3 =? 0) then Ok (FAIL, f, mkLink None None, v, drops)
  else
    fc <- GET_LE16 (rf_mem f) (rx_data f) ;;
    sc <- GET_LE16 (rf_mem f) (rx_data f + 22) ;;
    let f := with_attrib f (with_header fc sc (attrib f)) in
    if (GetFrameType fc =? WIFI_MGT_TYPE) || (GetFrameType fc =? WIFI_CTRL_TYPE) then
      Fault Elsewhere
    else if GetFrameType fc =? WIFI_DATA_TYPE then
      let qos := if negb (get_frame_sub_type fc & BIT 7 =? 0) then 1 else 0 in
      '(ret, f, l, v) <- validate_recv_data_frame E (with_attrib f (with_qos qos (attrib f))) fc v ;;
      Ok (ret, f, l, v, if ret =? FAIL then u64 (drops + 1) else drops)
    else Ok (FAIL, f, mkLink None None, v, drops).

(** ** Lemmas: what the frame says *)

(** [n] bytes of the frame's buffer from the frame's offset [o] on. *)
Definition part_at (f : recv_frame) (o n : Z) : list Z := take (Z.to_nat n) (drop (Z.to_nat (rx_data f + o)) (rf_mem f)).
Definition A1 (f : recv_frame) : list Z := part_at f 4 6.
Definition A2 (f : recv_frame) : list Z := part_at f 10 6.
Definition A3 (f : recv_frame) : list Z := part_at f 16 6.
Definition byte_of (f : recv_frame) (o : Z) : Z := default 0 (rf_mem f !! Z.to_nat (rx_data f + o)).
Definition le16_of (f : recv_frame) (o : Z) : Z := u16 (Z.shiftl (byte_of f (o + 1)) 8 .| byte_of f o).
Definition be16_of (f : recv_frame) (o : Z) : Z := u16 (Z.shiftl (byte_of f o) 8 .| byte_of f (o + 1)).

(** The buffer reaches [n] bytes behind the start of the frame. *)
Definition room (f : recv_frame) (n : Z) : Prop := 0 <= rx_data f /\ rx_data f + n <= zlen (rf_mem f).

Lemma read_part f n o k : room f n -> 0 <= o -> 0 <= k -> o + k <= n ->
  rdn (rf_mem f) (rx_data f + o) k = Ok (part_at f o k).
Proof. intros [? ?] ? ? ?. apply rdn_in; lia. Qed.

Lemma read_byte f n o : room f n -> 0 <= o < n -> rd (rf_mem f) (rx_data f + o) = Ok (byte_of f o).
Proof.
  intros [? ?] ?. destruct (rd_in (rf_mem f) (rx_data f + o)) as [v Hv]; [lia|]. rewrite Hv.
  apply rd_Ok in Hv as [_ Hv]. unfold byte_of. rewrite Hv. done.
Qed.

Lemma read_le16 f n o : room f n -> 0 <= o -> o + 2 <= n -> GET_LE16 (rf_mem f) (rx_data f + o) = Ok (le16_of f o).
Proof.
  intros H ? ?. unfold GET_LE16. rewrite (read_byte f n o), <- Z.add_assoc, (read_byte f n (o + 1)) by (done || lia). done.
Qed.

Lemma read_be16 f n o : room f n -> 0 <= o -> o + 2 <= n -> RTW_GET_BE16 (rf_mem f) (rx_data f + o) = Ok (be16_of f o).
Proof.
  intros H ? ?. unfold RTW_GET_BE16. rewrite (read_byte f n o), <- Z.add_assoc, (read_byte f n (o + 1)) by (done || lia). done.
Qed.

(** ** Specification: the frames of an access point at a station *)

(** The QoS control field of a frame with three addresses. *)
Definition qc_of (f : recv_frame) : Z := le16_of f 24.
Definition amsdu_of (f : recv_frame) : Z := if a_qos (attrib f) =? 0 then 0 else GetAMsdu (qc_of f).

(** The attributes of a frame whose header was read. *)
Definition attrib_of (f : recv_frame) : rx_attrib :=
  let a := with_dsb (A1 f) (A3 f) (A2 f) (with_ra_ta (A1 f) (A2 f) (with_amsdu (amsdu_of f) (attrib f))) in
  let order := if a_order a =? 0 then 0 else 4 in
  if a_qos a =? 0 then with_qc 0 0 (24 + order) a else with_qc (GetPriority (qc_of f)) (GetAckpolicy (qc_of f)) (26 + order) a.

(** The eight bytes behind the header. *)
Definition iv_of (f : recv_frame) : list Z := part_at f (a_hdrlen (attrib_of f)) 8.

(** The frame is not the last one again. *)
Definition fresh_seq (f : recv_frame) (r : sta_recv_priv) : Prop :=
  get_rxseq (prxseq (attrib_of f)) (a_priority (attrib_of f)) r <> Ok (seq_ctrl (attrib f)).

(** A group frame whose attributes name a cipher with packet numbers (from the receive descriptor; the station's cipher is
    set later) has a new one: none is kept for its key yet, or it is ahead of the one kept as [PN_LESS_CHK] counts, among the
    2^47 numbers that follow modulo 2^48, not just any greater one ([RecvPn.valid_pn_comment]). *)
Definition fresh_pn (f : recv_frame) (iv_seq : list (list Z)) : Prop :=
  IS_MCAST (A1 f) = true -> pn_alg (a_encrypt (attrib f)) = true ->
  let old := group_pn iv_seq (frame_key (iv_of f)) in
  old = 0 \/ pn_ahead old (frame_pn f (iv_of f)) = true.

(** Protected, or a single unicast EAPOL packet under 802.1X, unless the network has no privacy. *)
Definition admitted (E : rx_env) (f : recv_frame) : Prop :=
  PrivacyAlgrthm E = NO_PRIVACY \/ a_privacy (attrib f) <> 0 \/
  (IS_MCAST (A1 f) = false /\ dot11AuthAlgrthm E = dot11AuthAlgrthm_8021X /\ amsdu_of f = 0 /\
   be16_of f (a_hdrlen (attrib_of f) + 6) = EAPOL_TYPE).

Definition station_accepts (E : rx_env) (f : recv_frame) (fc : Z) (v : rx_valid) (s : nat) : Prop :=
  rtw_get_stainfo (v_stas v) (Some (A2 f)) = Some s /\
  (amsdu_of f = 0 -> A3 f <> myhwaddr E) /\
  get_frame_sub_type fc & BIT 6 = 0 /\
  (amsdu_of f <> 0 -> flags (sta_at (v_stas v) s) & WLAN_STA_AMSDU_DISABLE = 0) /\
  fresh_seq f (sta_recvpriv (sta_at (v_stas v) s)) /\ fresh_pn f (v_iv_seq v) /\ admitted E f.

(** ** Lemmas: the checks in turn *)

Lemma with_attrib_twice f a b : with_attrib (with_attrib f a) b = with_attrib f b.
Proof. done. Qed.

Lemma flag_cases fc n : get_flag fc n = 0 \/ get_flag fc n = 1.
Proof. unfold get_flag. case_match; auto. Qed.

Section Station.
  Context (E : rx_env) (P : sta_priv) (f : recv_frame) (fc : Z).
  Context (Hsta : in_state E WIFI_STATION_STATE = true) (Hap : in_state E WIFI_AP_STATE = false).
  Context (Hlink : fw_state E & (WIFI_ASOC_STATE .| WIFI_UNDER_LINKING) <> 0).
  Context (Hds : a_to_fr_ds (attrib f) = 2) (Hq : a_qos (attrib f) = 0 \/ a_qos (attrib f) = 1).
  Context (Hroom : room f 64) (Hb : bytes (rf_mem f)).

Let fa : recv_frame := with_attrib f (with_amsdu (amsdu_of f) (attrib f)).

Lemma set_amsdu_spec : set_amsdu f = Ok (with_amsdu (amsdu_of f) (attrib f)).
Proof.
  unfold set_amsdu, amsdu_of, qc_at, a4_shift, WLAN_HDR_A3_LEN, qc_of. rewrite Hds. destruct (a_qos (attrib f) =? 0); [done|].
  cbn [negb Z.eqb Pos.eqb]. rewrite Z.add_0_r, (read_le16 f 64) by (done || lia). done.
Qed.

(** The header check of a station. *)
Lemma sta_hdr_spec w : exists ret oa sta w', validate_hdr E P fa fc w = Ok (ret, oa, sta, w') /\
  (ret = SUCCESS <-> (exists s, rtw_get_stainfo P (Some (A2 f)) = Some s) /\ (amsdu_of f = 0 -> A3 f <> myhwaddr E) /\
     get_frame_sub_type fc & BIT 6 = 0) /\
  (ret = SUCCESS -> sta = rtw_get_stainfo P (Some (A2 f)) /\
     oa = with_dsb (A1 f) (A3 f) (A2 f) (with_ra_ta (A1 f) (A2 f) (with_amsdu (amsdu_of f) (attrib f)))) /\
  (ret = FAIL \/ ret = RTW_RX_HANDLED \/ ret = SUCCESS).
Proof.
  unfold validate_hdr. rewrite Hap, Hsta. unfold rtw_sta_rx_data_validate_hdr, GetAddr1Ptr, get_addr2_ptr, GetAddr3Ptr, addr_at.
  change (rf_mem fa) with (rf_mem f). change (rx_data fa) with (rx_data f). unfold ETH_ALEN.
  rewrite !(read_part f 64) by (done || lia). cbn [bind]. fold (A1 f) (A2 f) (A3 f).
  change (a_to_fr_ds (attrib fa)) with (a_to_fr_ds (attrib f)). rewrite Hds. cbn [Z.eqb].
  replace (fw_state E & _ =? 0) with false by (symmetry; apply Z.eqb_neq; exact Hlink).
  change (a_to_fr_ds (with_ra_ta (A1 f) (A2 f) (attrib fa))) with (a_to_fr_ds (attrib f)). rewrite Hds.
  cbn [Z.eqb Pos.eqb bind]. set (a := with_dsb _ _ _ _). change (a_amsdu a) with (amsdu_of f). change (a_src a) with (A3 f).
  change (a_ta a) with (A2 f). unfold list_eqb, SUCCESS, FAIL, RTW_RX_HANDLED.
  destruct ((amsdu_of f =? 0) && bool_decide (myhwaddr E = A3 f)) eqn:Em.
  { eexists _, _, _, _. split; [done|]. split; [|split; [lia | auto]].
    apply andb_true_iff in Em as [E1%Z.eqb_eq E2%bool_decide_eq_true]. split; [lia|]. intros (_ & H & _). exfalso. apply H; congruence. }
  assert (Hm : amsdu_of f = 0 -> A3 f <> myhwaddr E).
  { intros H0 H3. rewrite H0 in Em. cbn in Em. apply bool_decide_eq_false in Em. congruence. }
  destruct (rtw_get_stainfo P (Some (A2 f))) as [s|] eqn:Es.
  - destruct (get_frame_sub_type fc & BIT 6 =? 0) eqn:Eb; cbn [negb]; eexists _, _, _, _; (split; [done|]).
    + split; [|split; auto]. apply Z.eqb_eq in Eb. split; [intros _; eauto | done].
    + split; [|split; [lia | auto]]. apply Z.eqb_neq in Eb. split; [lia | intros (_ & _ & H); congruence].
  - eexists _, _, _, _. split; [done|]. split; [|split; [lia | auto]]. split; [lia | intros ([s Hs] & _); congruence].
Qed.

Let fh : recv_frame :=
  with_attrib f (with_dsb (A1 f) (A3 f) (A2 f) (with_ra_ta (A1 f) (A2 f) (with_amsdu (amsdu_of f) (attrib f)))).

Lemma parse_qc_spec nb : exists nb', parse_qc fh nb = Ok (attrib_of f, nb').
Proof.
  unfold parse_qc, attrib_of, qc_at, a4_shift, WLAN_HDR_A3_LEN, WLAN_HDR_A3_QOS_LEN. set (a := with_dsb _ _ _ _). change (attrib fh) with a.
  change (a_qos a) with (a_qos (attrib f)). change (a_to_fr_ds a) with (a_to_fr_ds (attrib f)). rewrite Hds. cbn [Z.eqb Pos.eqb].
  rewrite !Z.add_0_r. change (rf_mem fh) with (rf_mem f). change (rx_data fh) with (rx_data f).
  destruct Hq as [-> | ->]; cbn [Z.eqb Pos.eqb]; [destruct (a_order a =? 0); eauto|].
  rewrite (read_le16 f 64) by (done || lia). cbn [bind]. destruct (a_order a =? 0); eauto.
Qed.

Lemma hdrlen_range : 24 <= a_hdrlen (attrib_of f) <= 30.
Proof. unfold attrib_of. destruct (a_qos _ =? 0); cbn; destruct (a_order _ =? 0); lia. Qed.

Lemma priority_range : 0 <= a_priority (attrib_of f) <= 15.
Proof.
  unfold attrib_of. destruct (a_qos _ =? 0); cbn; [lia|]. unfold GetPriority.
  assert (Em : qc_of f & 0xf = qc_of f mod 2 ^ 4) by (apply (Z.land_ones _ 4); lia). rewrite Em.
  pose proof (Z.mod_pos_bound (qc_of f) (2 ^ 4) ltac:(lia)). lia.
Qed.

Let g : recv_frame := with_attrib f (attrib_of f).

Lemma iv_here : iv_at g (iv_of f).
Proof.
  pose proof hdrlen_range as Hl. destruct Hroom as [H0 H1]. set (k := Z.to_nat (rx_data f + a_hdrlen (attrib_of f))).
  exists (take k (rf_mem f)), (drop 8 (drop k (rf_mem f))). unfold iv_of, part_at. fold k. change (Z.to_nat 8) with 8%nat.
  change (rf_mem g) with (rf_mem f). change (rx_data g) with (rx_data f). change (attrib g) with (attrib_of f).
  rewrite !take_drop. split; [done|]. unfold zlen in *. rewrite !length_take, length_drop. split; [lia|]. split; [lia|].
  apply Forall_take, Forall_drop. exact Hb.
Qed.

(** Sixteen remembered IVs of eight bytes, sixteen sequence numbers of each kind. *)
Definition recvpriv_ok (r : sta_recv_priv) : Prop :=
  sta_ok r /\ zlen (rx_iv (rxcache r)) = 16 /\ Forall (fun e => zlen e = 8 /\ bytes e) (rx_iv (rxcache r)).

Lemma decache_verdict r iv_seq : recvpriv_ok r -> iv_seq_ok iv_seq -> exists ret r' s',
  data_frame_decache true g r iv_seq = Ok (ret, r', s') /\ (ret = FAIL \/ ret = SUCCESS) /\
  (ret = SUCCESS <-> fresh_seq f r /\ fresh_pn f iv_seq).
Proof.
  intros (Hr & Hz & Hi) Hs. pose proof priority_range as Hp. unfold data_frame_decache, FAIL, SUCCESS.
  destruct (get_rxseq_in (prxseq (attrib g)) (a_priority (attrib g)) r Hr Hp) as [old Ho].
  destruct (decache_refuses_repeats g r old Hr Hp Ho) as (r1 & Er & _ & _ & _). rewrite Er. cbn [bind].
  assert (Hold : fresh_seq f r <-> seq_ctrl (attrib g) <> old).
  { unfold fresh_seq. change (attrib g) with (attrib_of f) in *. rewrite Ho.
    assert (Ec : seq_ctrl (attrib_of f) = seq_ctrl (attrib f)) by (unfold attrib_of, seq_ctrl; destruct (a_qos _ =? 0); done).
    rewrite Ec. split; [intros H Eo; apply H; congruence | intros H [= Eo]; congruence]. }
  unfold FAIL, SUCCESS in *. destruct (Z.eqb_spec (seq_ctrl (attrib g)) old) as [Eq|Ne]; cbn [Z.eqb].
  { eexists _, _, _. split; [done|]. split; [auto|]. split; [lia | intros [H _]; apply Hold in H; done]. }
  assert (Ei : rx_iv (rxcache r1) = rx_iv (rxcache r)).
  { unfold recv_decache in Er. rewrite (proj2 (Z.ltb_ge _ _)), Ho in Er by (change (attrib g) with (attrib_of f); lia). cbn [bind] in Er.
    rewrite (proj2 (Z.eqb_neq _ _)) in Er by done. injection Er as <-. destruct (prxseq _); done. }
  change (a_ra (attrib g)) with (a_ra (attrib_of f)). assert (Era : a_ra (attrib_of f) = A1 f) by (unfold attrib_of; destruct (a_qos _ =? 0); done).
  assert (Een : a_encrypt (attrib_of f) = a_encrypt (attrib f)) by (unfold attrib_of; destruct (a_qos _ =? 0); done). rewrite Era.
  destruct (IS_MCAST (A1 f)) eqn:Em; cbn [negb].
  - destruct (pn_alg (a_encrypt (attrib f))) eqn:Ea.
    + rewrite (bcast_spec g (iv_of f) iv_seq iv_here) by (done || (cbn; rewrite Een; done)).
      assert (Ef : fresh_pn f iv_seq <-> (group_pn iv_seq (frame_key (iv_of f)) =? 0) || pn_ahead (group_pn iv_seq (frame_key (iv_of f))) (frame_pn g (iv_of f)) = true).
      { unfold fresh_pn, frame_pn. change (attrib g) with (attrib_of f). rewrite Een, orb_true_iff, Z.eqb_eq. naive_solver. }
      destruct (_ || _); cbn [bind]; eexists _, _, _; (split; [done|]); (split; [auto|]); split; naive_solver.
    + unfold recv_bcast_pn_decache. change (attrib g) with (attrib_of f). rewrite Een, Ea. cbn [andb bind]. eexists _, _, _.
      split; [done|]. split; [auto|]. split; [|done]. intros _. split; [apply Hold; done|]. unfold fresh_pn. congruence.
  - assert (Hf : fresh_pn f iv_seq) by (unfold fresh_pn; congruence).
    assert (Hu : exists c, recv_ucast_pn_decache g (rxcache r1) = Ok (SUCCESS, c)).
    { destruct (pn_alg (a_encrypt (attrib f))) eqn:Ea.
      - destruct (lookup_lt_is_Some_2 (rx_iv (rxcache r1)) (Z.to_nat (a_priority (attrib g)))) as [e He].
        { rewrite Ei. change (attrib g) with (attrib_of f). unfold zlen in Hz. lia. }
        rewrite Forall_lookup in Hi. rewrite Ei in He. destruct (Hi _ _ He) as [He1 He2].
        eexists. apply (ucast_pn_spec g (iv_of f) (rxcache r1) e); try (done || rewrite ?Ei; done).
        + apply iv_here.
        + cbn. rewrite Een. done.
      - unfold recv_ucast_pn_decache. change (attrib g) with (attrib_of f). rewrite (proj2 (Z.ltb_ge _ _)), Een, Ea by lia. eauto. }
    destruct Hu as [c Hu]. rewrite Hu. cbn [bind]. eexists _, _, _. split; [done|]. split; [auto|].
    split; [intros _; split; [apply Hold; done | done] | done].
Qed.

Lemma plain_verdict x : exists pass, plaintext_check E x (with_attrib f (set_cipher E x (attrib_of f))) (set_cipher E x (attrib_of f)) = Ok pass /\
  (pass = true <-> admitted E f).
Proof.
  unfold plaintext_check, admitted. rewrite Hap. set (a := set_cipher E x (attrib_of f)).
  assert (Ha : a_ra a = A1 f /\ a_privacy a = a_privacy (attrib f) /\ a_amsdu a = amsdu_of f /\ a_hdrlen a = a_hdrlen (attrib_of f) /\
    0 <= a_iv_len a <= 18 /\ (a_privacy a = 0 -> a_iv_len a = 0)).
  { unfold a, set_cipher. unfold attrib_of. destruct (a_qos _ =? 0); cbn; unfold SET_ICE_IV_LEN;
      repeat case_match; simplify_eq; cbn; repeat split; try lia. }
  destruct Ha as (Hra & Hpr & Ham & Hhl & Hil & Hi0). rewrite Hra, Hpr, Ham in *. pose proof hdrlen_range as Hl.
  destruct (Z.eqb_spec (PrivacyAlgrthm E) NO_PRIVACY) as [E0|E0]; [eexists; split; [done|]; naive_solver|].
  destruct (IS_MCAST (A1 f)) eqn:Em.
  { eexists. split; [done|]. rewrite negb_true_iff, Z.eqb_neq. split; [auto | intros [?|[?|(? & _)]]; done]. }
  unfold ether_type_at, LLC_HEADER_SIZE. cbn [rf_mem rx_data with_attrib]. rewrite <- !Z.add_assoc.
  rewrite (read_be16 f 64) by (done || lia). cbn [bind]. rewrite Hhl. unfold EAPOL_TYPE, dot11AuthAlgrthm_8021X.
  rewrite andb_false_r. cbn [andb]. destruct (Z.eqb_spec (a_privacy (attrib f)) 0) as [Ep|Ep].
  - rewrite (Hi0 Ep), Z.add_0_l. destruct (Z.eqb_spec (dot11AuthAlgrthm E) 2) as [E1|E1]; cbn [negb andb].
    + destruct (Z.eqb_spec (be16_of f (a_hdrlen (attrib_of f) + 6)) 0x888e) as [E2|E2]; cbn [negb andb].
      * destruct (Z.eqb_spec (amsdu_of f) 0); cbn [negb]; eexists; (split; [done|]); naive_solver.
      * eexists; (split; [done|]); naive_solver.
    + eexists; (split; [done|]); naive_solver.
  - cbn [andb negb]. destruct (dot11AuthAlgrthm E =? 2); eexists; (split; [done|]); naive_solver.
Qed.
End Station.

(** ** Lemmas: what the checks leave alone *)

#[local] Opaque rtw_get_stainfo.

(** What is asked of the header checks whatever the mode: the fields of the frame and sequence control fields stay,
    and the transmitter they name was looked up. *)
Record hdr_kept (P : sta_priv) (psta : option nat) (a b : rx_attrib) : Prop := {
  kp_privacy : a_privacy a = a_privacy b;
  kp_frag : a_frag_num a = a_frag_num b;
  kp_mfrag : a_mfrag a = a_mfrag b;
  kp_found : psta = None \/ exists ad, psta = rtw_get_stainfo P ad }.

Ltac kept := split; first [done | left; reflexivity | right; eexists; reflexivity | right; eexists; symmetry; eassumption].

Lemma mp_addresses_keeps f a : mp_addresses f = Ok a ->
  a_privacy a = a_privacy (attrib f) /\ a_frag_num a = a_frag_num (attrib f) /\ a_mfrag a = a_mfrag (attrib f).
Proof. unfold mp_addresses. intros H. res_inv. done. Qed.

Lemma sta2sta_keeps E P f ret a psta : sta2sta_data_frame E P f = Ok (ret, a, psta) -> hdr_kept P psta a (attrib f).
Proof.
  unfold sta2sta_data_frame. intros H. destruct (_ || _) in H; [|destruct (in_state E WIFI_MP_STATE) in H].
  - destruct (adhoc_refuses E (attrib f)); injection H as _ <- <-; kept.
  - res_inv. destruct (mp_addresses_keeps f _ Ha) as (? & ? & ?). kept.
  - injection H as _ <- <-. kept.
Qed.

Lemma sta2ap_keeps E P f w ret a psta w' : sta2ap_data_frame E P f w = Ok (ret, a, psta, w') -> hdr_kept P psta a (attrib f).
Proof.
  unfold sta2ap_data_frame. intros H. destruct (_ && _) in H.
  - res_inv. destruct (mp_addresses_keeps f _ Ha) as (? & ? & ?). kept.
  - destruct (negb _) in H; injection H as _ <- <- _; kept.
Qed.

Lemma ap2sta_keeps E P f w ret a psta w' : ap2sta_data_frame E P f w = Ok (ret, a, psta, w') -> hdr_kept P psta a (attrib f).
Proof.
  unfold ap2sta_data_frame. intros H. destruct (_ && _) in H.
  - res_inv. destruct (mp_addresses_keeps f _ Ha) as (? & ? & ?). kept.
  - destruct (_ && _) in H; injection H as _ <- <- _; kept.
Qed.

Lemma other_keeps E P f w ret a psta w' : other_validate_hdr E P f w = Ok (ret, a, psta, w') -> hdr_kept P psta a (attrib f).
Proof.
  unfold other_validate_hdr. intros H. destruct (_ =? 0) in H; [|destruct (_ =? 1) in H; [|destruct (_ =? 2) in H; [|injection H as _ <- <- _; kept]]].
  - res_inv. destruct a3 as [[r b] q]. injection H as _ <- <- _. apply sta2sta_keeps in Ha2 as []. split; done.
  - res_inv. apply sta2ap_keeps in H as []. split; done.
  - res_inv. apply ap2sta_keeps in H as []. split; done.
Qed.

Lemma sta_keeps E P f fc w ret a psta w' :
  rtw_sta_rx_data_validate_hdr E P f fc w = Ok (ret, a, psta, w') -> hdr_kept P psta a (attrib f).
Proof.
  unfold rtw_sta_rx_data_validate_hdr. intros H. res_inv. repeat case_match; res_inv; repeat case_match; res_inv; repeat case_match; res_inv; kept.
Qed.

Lemma ap_keeps E P f fc w ret a psta w' :
  rtw_ap_rx_data_validate_hdr E P f fc w = Ok (ret, a, psta, w') -> hdr_kept P psta a (attrib f).
Proof.
  unfold rtw_ap_rx_data_validate_hdr. generalize process_pwrbit_data process_wmmps_data. intros pw wm H.
  destruct (_ =? 0) in H; [res_inv; kept|]. destruct (negb (_ || _)) in H; [res_inv; kept|]. res_inv.
  destruct (_ && _) in H; [res_inv; kept|]. res_inv.
  assert (Hp : hdr_kept P (rtw_get_stainfo P (Some (a_ta a3))) a3 (attrib f)) by (clear H; destruct (_ =? 1) in Ha2; res_inv; kept).
  destruct (rtw_get_stainfo P (Some (a_ta a3))); [destruct (negb (_ & BIT 6 =? 0)) in H|]; injection H as _ <- <- _; exact Hp.
Qed.

Lemma validate_hdr_keeps E P f fc w ret a psta w' : validate_hdr E P f fc w = Ok (ret, a, psta, w') -> hdr_kept P psta a (attrib f).
Proof. unfold validate_hdr. intros H. repeat case_match; eauto using ap_keeps, sta_keeps, other_keeps. Qed.

(** A frame that passes went through the last check, with the fields of its header; only the packet numbers of a station
    change. *)
Record data_passed (E : rx_env) (v : rx_valid) (f f' : recv_frame) (v' : rx_valid) (ret : Z) : Prop := {
  dp_slot : rf_slot f' = rf_slot f;
  dp_stas : v_stas v' = v_stas v \/ exists t ad r, rtw_get_stainfo (v_stas v) ad = Some t /\
    v_stas v' = set_sta (v_stas v) t (with_recvpriv (sta_at (v_stas v) t) r);
  dp_privacy : ret = SUCCESS -> a_privacy (attrib f') = a_privacy (attrib f);
  dp_frag : ret = SUCCESS -> a_frag_num (attrib f') = a_frag_num (attrib f);
  dp_mfrag : ret = SUCCESS -> a_mfrag (attrib f') = a_mfrag (attrib f);
  dp_check : ret = SUCCESS -> exists x, plaintext_check E x f' (attrib f') = Ok true }.

Lemma parse_qc_keeps f nb c nb' : parse_qc f nb = Ok (c, nb') ->
  a_privacy c = a_privacy (attrib f) /\ a_frag_num c = a_frag_num (attrib f) /\ a_mfrag c = a_mfrag (attrib f).
Proof. unfold parse_qc. intros H. destruct (_ =? 1) in H; res_inv; done. Qed.

Lemma set_cipher_keeps E x c : a_privacy (set_cipher E x c) = a_privacy c /\ a_frag_num (set_cipher E x c) = a_frag_num c /\
  a_mfrag (set_cipher E x c) = a_mfrag c.
Proof. unfold set_cipher. destruct (negb _); [|done]. destruct (SET_ICE_IV_LEN _). done. Qed.

Lemma data_frame_checked E f fc v ret f' l v' : validate_recv_data_frame E f fc v = Ok (ret, f', l, v') ->
  data_passed E v f f' v' ret /\ (l_psta l = None \/ exists ad, l_psta l = rtw_get_stainfo (v_stas v) ad).
Proof.
  unfold validate_recv_data_frame. intros H. res_inv. destruct a0 as [[[ret0 b] psta] w]. apply validate_hdr_keeps in Ha0 as [K1 K2 K3 K4].
  assert (Hp : a_privacy a = a_privacy (attrib f) /\ a_frag_num a = a_frag_num (attrib f) /\ a_mfrag a = a_mfrag (attrib f)).
  { clear H K1 K2 K3 K4. unfold set_amsdu in Ha. destruct (negb _) in Ha; res_inv; done. }
  destruct Hp as (P1 & P2 & P3). cbn [attrib with_attrib] in K1, K2, K3. rewrite P1 in K1. rewrite P2 in K2. rewrite P3 in K3.
  destruct (ret0 =? FAIL); [injection H as <- <- <- <-; split; [split; try done; left; done | left; done]|].
  destruct (ret0 =? RTW_RX_HANDLED); [injection H as <- <- <- <-; split; [split; try done; left; done | left; done]|].
  destruct psta as [t|]; [|injection H as <- <- <- <-; split; [split; try done; left; done | left; done]].
  destruct (_ && _) in H; [injection H as <- <- <- <-; split; [split; try done; left; done | left; done]|].
  destruct K4 as [|[ad Hl]]; [discriminate|]. res_inv. destruct a0 as [c nb]. apply parse_qc_keeps in Ha0 as (C1 & C2 & C3).
  cbn [attrib with_attrib] in C1, C2, C3. rewrite K1 in C1. rewrite K2 in C2. rewrite K3 in C3. res_inv. destruct a0 as [[ret2 r] iv].
  assert (Hs : exists t0 ad0 r0, rtw_get_stainfo (v_stas v) ad0 = Some t0 /\
    set_sta (v_stas v) t (with_recvpriv (sta_at (v_stas v) t) r) = set_sta (v_stas v) t0 (with_recvpriv (sta_at (v_stas v) t0) r0)).
  { exists t, ad, r. split; [symmetry; exact Hl | done]. }
  destruct (ret2 =? FAIL); [injection H as <- <- <- <-; split; [split; try done; right; done | right; exists ad; done]|].
  res_inv. destruct (set_cipher_keeps E (sta_at (v_stas v) t) c) as (D1 & D2 & D3). split; [|right; exists ad; done].
  split; cbn [rf_slot with_attrib attrib v_stas]; try congruence; [right; exact Hs|]. intros Hr. destruct a0; [|discriminate]. eauto.
Qed.

#[local] Transparent rtw_get_stainfo.

(** ** Theorems *)

(** A data frame from the access point at a station that is linked, in a buffer that reaches 64 bytes from its start. *)
Record from_ap (E : rx_env) (f : recv_frame) : Prop := {
  fap_sta : in_state E WIFI_STATION_STATE = true;
  fap_ap : in_state E WIFI_AP_STATE = false;
  fap_linked : fw_state E & (WIFI_ASOC_STATE .| WIFI_UNDER_LINKING) <> 0;
  fap_ds : a_to_fr_ds (attrib f) = 2;
  fap_qos : a_qos (attrib f) = 0 \/ a_qos (attrib f) = 1;
  fap_room : room f 64;
  fap_bytes : bytes (rf_mem f) }.

(** The checks of a station in one statement: verdict, frame, link, and the station's record, of which only the receive counters change. *)
Lemma data_verdict_spec E f fc v :
  from_ap E f -> iv_seq_ok (v_iv_seq v) -> (forall s, recvpriv_ok (sta_recvpriv (sta_at (v_stas v) s))) ->
  exists ret f' l v', validate_recv_data_frame E f fc v = Ok (ret, f', l, v') /\
    (ret = SUCCESS <-> exists s, station_accepts E f fc v s) /\
    (ret = SUCCESS -> exists s r, rtw_get_stainfo (v_stas v) (Some (A2 f)) = Some s /\
       f' = with_attrib f (set_cipher E (sta_at (v_stas v) s) (attrib_of f)) /\
       l = mkLink (Some s) (if negb (IS_MCAST (a_ra (attrib_of f))) && negb (a_qos (attrib_of f) =? 0) then Some (a_priority (attrib_of f)) else None) /\
       v_stas v' = set_sta (v_stas v) s (with_recvpriv (sta_at (v_stas v) s) r)).
Proof.
  intros [Hsta Hap Hlink Hds Hq Hroom Hb] Hiv Hr. unfold validate_recv_data_frame. rewrite set_amsdu_spec by done. cbn [bind].
  destruct (sta_hdr_spec E (v_stas v) f fc Hsta Hap Hlink Hds Hroom (v_side v)) as (ret & a & sta & w' & -> & Hiff & Hok & Hret).
  cbn [bind]. unfold station_accepts, FAIL, RTW_RX_HANDLED, SUCCESS in *.
  destruct (Z.eq_dec ret 1) as [->|Hne].
  2: { destruct (Z.eqb_spec ret 0); [|destruct (Z.eqb_spec ret 2); [|lia]]; eexists _, _, _, _; (split; [done|]);
         (split; [|lia]); (split; [lia|]); intros (s & H1 & H2 & H3 & _); destruct Hne; apply Hiff; eauto. }
  destruct (Hok eq_refl) as [-> ->]. destruct (proj1 Hiff eq_refl) as ([s Hs] & Hsa & Hnull). rewrite Hs. cbn [Z.eqb Pos.eqb].
  cbn [v_stas]. set (x := sta_at (v_stas v) s). change (a_amsdu _) with (amsdu_of f) at 1.
  assert (Hone : forall Q : nat -> Prop, (exists s', Some s = Some s' /\ Q s') <-> Q s) by (intros Q; split; [intros (s' & [= ->] & H); done | eauto]).
  destruct (negb (flags x & WLAN_STA_AMSDU_DISABLE =? 0) && negb (amsdu_of f =? 0)) eqn:Ed.
  { eexists _, _, _, _. split; [done|]. split; [|lia]. split; [lia|]. rewrite Hone. fold x. intros (_ & _ & H & _). lia. }
  destruct (parse_qc_spec f Hds Hq Hroom (v_non_be v)) as [nb Eq]. rewrite Hsta, !with_attrib_twice. cbn [v_non_be]. rewrite Eq. cbn [bind v_iv_seq].
  destruct (decache_verdict f Hq Hroom Hb (sta_recvpriv x) (v_iv_seq v) (Hr s) Hiv) as (ret & r & s' & Ed' & Hrt & Hfresh).
  rewrite !with_attrib_twice, Ed'. cbn [bind]. unfold FAIL, SUCCESS in *.
  destruct (Z.eqb_spec ret 0) as [->|Hn0].
  { eexists _, _, _, _. split; [done|]. split; [|lia]. split; [lia|]. rewrite Hone. fold x. intros (_ & _ & _ & H1 & H2 & _).
    destruct Hfresh as [_ Hfresh]. specialize (Hfresh (conj H1 H2)). lia. }
  destruct (plain_verdict E f Hap Hq Hroom x) as (pass & Ep & Hpass). rewrite Ep. cbn [bind].
  eexists _, _, _, _. split; [done|]. split.
  - rewrite Hone. fold x. destruct Hfresh as [Hfresh _]. destruct (Hfresh ltac:(lia)) as [F1 F2]. destruct pass.
    + split; [intros _|done]. split; [done|]. split; [done|]. split; [lia|]. split; [done|]. split; [done | apply Hpass; done].
    + split; [lia|]. intros (_ & _ & _ & _ & _ & H). apply Hpass in H. done.
  - intros _. exists s, r. done.
Qed.

(** C8: At an adapter that is a station and no access point, linked or linking, the checks of a data frame with three addresses
    from the distribution system (FromDS only), in a buffer of bytes that reaches 64 bytes from the frame's start, always come to
    a verdict (the kept counters and packet numbers having their form). It is success exactly when: a station record exists for the transmitter; the source address is not the
    adapter's own, unless the frame is an A-MSDU; the subtype is not one without data; the frame is no A-MSDU if the record
    forbids them; sequence and fragment number differ from those kept for frames of its kind; if the frame is a group frame
    and its attributes name a cipher with packet numbers (TKIP, CCMP, GCMP), none is kept for the key yet (zero), or the
    frame's is among the 2^47 numbers that follow the kept one modulo 2^48, which is PN_LESS_CHK and not the
    comment's "PN > old PN"; and the network has no privacy, or the frame's Protected bit is set, or it is a unicast
    frame under 802.1X, no A-MSDU, whose bytes 6 and 7 behind the header are EAPOL's type. Then the frame is linked to that
    record and its attributes are those the header and the record's cipher give. *)
Theorem station_verdict E f fc v :
  from_ap E f -> iv_seq_ok (v_iv_seq v) -> (forall s, recvpriv_ok (sta_recvpriv (sta_at (v_stas v) s))) ->
  exists ret f' l v', validate_recv_data_frame E f fc v = Ok (ret, f', l, v') /\
    (ret = SUCCESS <-> exists s, station_accepts E f fc v s) /\
    (ret = SUCCESS -> exists s, l_psta l = Some s /\ rtw_get_stainfo (v_stas v) (Some (A2 f)) = Some s /\
       f' = with_attrib f (set_cipher E (sta_at (v_stas v) s) (attrib_of f))).
Proof.
  intros Hf Hiv Hr. destruct (data_verdict_spec E f fc v Hf Hiv Hr) as (ret & f' & l & v' & E1 & E2 & E3). exists ret, f', l, v'. split; [done|].
  split; [done|]. intros H. destruct (E3 H) as (s & r & H1 & H2 & H3 & _). exists s. rewrite H3. done.
Qed.

(** The version bits of a little-endian word are its first byte's. *)
Lemma version_bits m p x fc : rd m p = Ok x -> x & 3 = 0 -> GET_LE16 m p = Ok fc -> fc & 3 = 0.
Proof.
  intros Hx H3 H. unfold GET_LE16 in H. rewrite Hx in H. cbn [bind] in H. res_inv. unfold u16.
  rewrite <- (Z.land_ones _ 16) by lia. rewrite <- Z.land_assoc. change (Z.ones 16 & 3) with 3.
  rewrite Z.land_lor_distr_l, H3, Z.lor_0_r. apply Z.bits_inj_0. intros n. rewrite Z.land_spec.
  destruct (Z.ltb_spec n 0) as [Hn|Hn]; [rewrite Z.testbit_neg_r by lia; done|].
  destruct (Z.ltb_spec n 8); [rewrite Z.shiftl_spec_low by lia; done|]. change 3 with (Z.ones 2).
  rewrite Z.ones_spec_high by lia. apply andb_false_r.
Qed.

(** C9: In a network with privacy, whatever the adapter's mode, a frame that passes the checks has version 0 (the two low
    bits of its first word), is a data frame, and either its Protected bit is set or it is a unicast frame under 802.1X
    that is no A-MSDU and carries EAPOL's type. *)
Theorem plain_frames_dropped E f v drops f' l v' drops' :
  validate_recv_frame E f v drops = Ok (SUCCESS, f', l, v', drops') -> PrivacyAlgrthm E <> NO_PRIVACY ->
  exists fc, GET_LE16 (rf_mem f) (rx_data f) = Ok fc /\ fc & 3 = 0 /\ GetFrameType fc = WIFI_DATA_TYPE /\
    (GetPrivacy fc = 1 \/
     (IS_MCAST (a_ra (attrib f')) = false /\ dot11AuthAlgrthm E = dot11AuthAlgrthm_8021X /\ a_amsdu (attrib f') = 0 /\
      ether_type_at f' (attrib f') = Ok EAPOL_TYPE)).
Proof.
  unfold validate_recv_frame. intros H Hpriv. res_inv. case_match eqn:Ever; [discriminate|]. apply negb_false_iff, Z.eqb_eq in Ever.
  res_inv. exists a0. split; [done|]. split; [apply (version_bits _ _ _ _ Ha Ever Ha0)|]. case_match; [discriminate|]. case_match eqn:Et; [|discriminate]. apply Z.eqb_eq in Et. split; [done|]. res_inv.
  destruct a2 as [[[ret g] l2] v2]. injection H as -> -> -> -> _. apply data_frame_checked in Ha2 as [[_ _ Hp _ _ Hx] _].
  specialize (Hp eq_refl). destruct (Hx eq_refl) as [x Hx'].
  clear Hx. rename Hx' into Hx.
  change (a_privacy (attrib f') = GetPrivacy a0) in Hp. destruct (flag_cases a0 14) as [E0|E0]; [right | left; done].
  unfold plaintext_check in Hx. rewrite Hp in Hx. unfold GetPrivacy in Hx. rewrite E0 in Hx.
  rewrite (proj2 (Z.eqb_neq _ _)) in Hx by done. cbn [Z.eqb negb andb] in Hx. case_match eqn:Em; [discriminate|]. split; [done|]. res_inv.
  case_match eqn:Ea; [|discriminate]. apply Z.eqb_eq in Ea. split; [done|]. case_match eqn:E2; [discriminate|].
  case_match eqn:E3; [discriminate|]. split; [lia|]. rewrite Ha2. f_equal. unfold EAPOL_TYPE in *. lia.
Qed.

(** ** Examples *)

Definition ex_ap : list Z := [2; 0; 0; 0; 0; 0x10].
Definition ex_me : list Z := [2; 0; 0; 0; 0; 0x20].
Definition ex_far : list Z := [2; 0; 0; 0; 0; 0x30].
Definition ex_stas : sta_priv := snd (rtw_alloc_stainfo (snd (rtw_alloc_stainfo (init_sta_priv 4) bc_addr)) ex_ap).
Definition ex_wpa_env : rx_env :=
  mkEnv (WIFI_STATION_STATE .| WIFI_ASOC_STATE) ex_ap ex_me dot11AuthAlgrthm_8021X AES AES 0 (fun _ => 0) false
    (fun _ => mkPs 0 0 0 0 0 0 0).
Definition ex_valid : rx_valid := mkValid ex_stas (replicate 4 (zeros 8)) false (mkSide 0 0 []).

(** A QoS data frame from the access point: flags, QoS control, body. *)
Definition ex_data (slot : nat) (flags_ : Z) (qc body : list Z) : recv_frame :=
  let b := [0x88; flags_; 0; 0] ++ ex_me ++ ex_ap ++ ex_far ++ [0x50; 0] ++ qc ++ body in
  mkRf slot (zeros 6 ++ b ++ zeros 64) 6 (6 + zlen b) (zlen b) (mkRa (mkRx 0 0 0 0 (zeros 6) (zeros 6)) 0 0 0 0 0 0 0 0 0 0 (zeros 6) (zeros 6) (zeros 6) 0 0 0 0) 0.

Definition ex_snap (ty : list Z) : list Z := [0xaa; 0xaa; 3; 0; 0; 0] ++ ty ++ [1; 2; 3; 4].
Definition ex_protected : recv_frame := ex_data 0 0x42 [3; 0] (zeros 8 ++ ex_snap [8; 0] ++ zeros 8).
Definition ex_plain_eapol : recv_frame := ex_data 0 0x02 [0; 0] (ex_snap [0x88; 0x8e]).
Definition ex_plain_ip : recv_frame := ex_data 0 0x02 [0; 0] (ex_snap [8; 0]).

Definition ex_validate (f : recv_frame) : res (Z * recv_frame * rx_link * rx_valid * Z) :=
  validate_recv_frame ex_wpa_env f ex_valid 0.
Definition verdict_of (r : res (Z * recv_frame * rx_link * rx_valid * Z)) : option Z :=
  match r with Ok (ret, _, _, _, _) => Some ret | _ => None end.

Example plain_packets : map (fun f => verdict_of (ex_validate f)) [ex_protected; ex_plain_eapol; ex_plain_ip] = [Some 1; Some 1; Some 0].
Proof. vm_compute. reflexivity. Qed.

(** Header and QoS bit as [validate_recv_frame] has read them. *)
Definition ex_read : recv_frame := with_attrib ex_protected (with_qos 1 (with_header 0x4288 0x50 (attrib ex_protected))).

Lemma recvpriv_ok_all P : Forall (fun x => recvpriv_ok (sta_recvpriv x)) (pstainfo_buf P) -> forall s, recvpriv_ok (sta_recvpriv (sta_at P s)).
Proof.
  intros H s. unfold sta_at. destruct (pstainfo_buf P !! s) as [x|] eqn:Ex.
  - rewrite Forall_lookup in H. exact (H _ _ Ex).
  - split; [split; reflexivity|]. split; [reflexivity|]. apply Forall_replicate. split; [reflexivity | apply bytes_by_compute; reflexivity].
Qed.

Lemma station_verdict_witness :
  exists ret f' l v', validate_recv_data_frame ex_wpa_env ex_read 0x4288 ex_valid = Ok (ret, f', l, v') /\ ret = SUCCESS /\
    (ret = SUCCESS <-> exists s, station_accepts ex_wpa_env ex_read 0x4288 ex_valid s).
Proof.
  destruct (station_verdict ex_wpa_env ex_read 0x4288 ex_valid) as (ret & f' & l & v' & H & Hiff & _).
  - split; try reflexivity; try discriminate; [right; reflexivity | split; vm_compute; discriminate | apply bytes_by_compute; reflexivity].
  - exact ex_iv_seq_ok.
  - apply recvpriv_ok_all. cbn. repeat constructor; (apply Forall_replicate || idtac); unfold is_byte; lia.
  - exists ret, f', l, v'. split; [exact H|]. split; [|exact Hiff]. vm_compute in H. injection H as <- _ _ _. reflexivity.
Defined.

Lemma plain_frames_dropped_witness :
  verdict_of (ex_validate ex_plain_ip) = Some FAIL /\
  exists f' l v' d, ex_validate ex_plain_eapol = Ok (SUCCESS, f', l, v', d) /\
  exists fc, GET_LE16 (rf_mem ex_plain_eapol) (rx_data ex_plain_eapol) = Ok fc /\ fc & 3 = 0 /\ GetFrameType fc = WIFI_DATA_TYPE /\
    (GetPrivacy fc = 1 \/
     (IS_MCAST (a_ra (attrib f')) = false /\ dot11AuthAlgrthm ex_wpa_env = dot11AuthAlgrthm_8021X /\ a_amsdu (attrib f') = 0 /\
      ether_type_at f' (attrib f') = Ok EAPOL_TYPE)).
Proof.
  split; [vm_compute; reflexivity|]. eexists _, _, _, _. split; [vm_compute; reflexivity|].
  eapply (plain_frames_dropped ex_wpa_env ex_plain_eapol ex_valid 0); [vm_compute; reflexivity | discriminate].
Defined.
