(* ===== verification/RecvPath.v ===== *)
(** * The receive path

    [decryptor], [portctrl], [recv_func_posthandle], [recv_func_prehandle], [recv_func] and [rtw_recv_entry] of
    [core/rtw_recv.c]: a frame is validated ([RecvValid]), waits for the pairwise key or is decrypted ([Wep], [Tkip],
    [SwCrypt]), reassembled ([Defrag]), held at the controlled port, put in order ([Reorder]) and handed up ([RecvMpdu]).
    Two ways lead out of the model, to [Fault Elsewhere]: management and control frames, and the forwarding of an access
    point. *)
From Stdlib Require Import ZArith Lia Bool.
From stdpp Require Import base option list numbers gmap.
From S2P Require Import Prelude Sec Crc32 Wep Tkip SwCrypt RecvFrame RecvPn Defrag RecvMpdu StaTable RecvValid Ccmp.
From S2P Require Reorder.
Local Open Scope Z_scope.

(** ** The state *)

(** What stays fixed while frames come in: beside the adapter of [RecvValid], the registry and security settings, the
    Michael keys, memory, and [RTW_CANNOT_RUN]. [junk] is an uninitialised local of the TKIP routine. *)
Record path_env : Type := mkPath {
  pe : rx_env;
  pe_junk : Z; pe_malloc : Z -> option (list Z); pe_aes_alloc : bool; pe_amsdu_mode : Z;
  busetkipkey : bool; sw_decrypt_reg : bool; auth_wpapsk : bool;
  rxmickey : nat -> list Z; grp_rxmickey : list (list Z); group_key_index : Z;
  skb_alloc : nat -> bool; cannot_run : bool; mpdu_ok : Reorder.frame -> bool }.

(** [links] are the fields [psta] and [preorder_ctrl] of the frames, by slot; [waiting] the frames that were put in a
    reordering window, by slot; [pending_q] is [uc_swdec_pending_queue]; [packets] went to the network stack. *)
Record rx_state : Type := mkState {
  s_valid : rx_valid; s_sec : security_priv; s_crc : crc_state;
  gk_tkip : gk_log; gk_aes : gk_log; gk_gcmp : gk_log; hw_decrypted : bool;
  s_pool : recv_pool; links : gmap nat rx_link; waiting : gmap nat recv_frame; pending_q : list recv_frame;
  s_drops : Z; mic_events : list mic_event; rx_pkts : Z; packets : list (list Z) }.

Definition with_valid (v : rx_valid) (s : rx_state) : rx_state :=
  mkState v (s_sec s) (s_crc s) (gk_tkip s) (gk_aes s) (gk_gcmp s) (hw_decrypted s) (s_pool s) (links s) (waiting s) (pending_q s)
    (s_drops s) (mic_events s) (rx_pkts s) (packets s).
Definition with_pool (p : recv_pool) (s : rx_state) : rx_state :=
  mkState (s_valid s) (s_sec s) (s_crc s) (gk_tkip s) (gk_aes s) (gk_gcmp s) (hw_decrypted s) p (links s) (waiting s) (pending_q s)
    (s_drops s) (mic_events s) (rx_pkts s) (packets s).
Definition with_hw (b : bool) (s : rx_state) : rx_state :=
  mkState (s_valid s) (s_sec s) (s_crc s) (gk_tkip s) (gk_aes s) (gk_gcmp s) b (s_pool s) (links s) (waiting s) (pending_q s)
    (s_drops s) (mic_events s) (rx_pkts s) (packets s).
Definition with_link (slot : nat) (l : rx_link) (s : rx_state) : rx_state :=
  mkState (s_valid s) (s_sec s) (s_crc s) (gk_tkip s) (gk_aes s) (gk_gcmp s) (hw_decrypted s) (s_pool s) (<[slot := l]> (links s))
    (waiting s) (pending_q s) (s_drops s) (mic_events s) (rx_pkts s) (packets s).
Definition with_waiting (m : gmap nat recv_frame) (s : rx_state) : rx_state :=
  mkState (s_valid s) (s_sec s) (s_crc s) (gk_tkip s) (gk_aes s) (gk_gcmp s) (hw_decrypted s) (s_pool s) (links s) m (pending_q s)
    (s_drops s) (mic_events s) (rx_pkts s) (packets s).
Definition with_pending (q : list recv_frame) (s : rx_state) : rx_state :=
  mkState (s_valid s) (s_sec s) (s_crc s) (gk_tkip s) (gk_aes s) (gk_gcmp s) (hw_decrypted s) (s_pool s) (links s) (waiting s) q
    (s_drops s) (mic_events s) (rx_pkts s) (packets s).
Definition with_drops (n : Z) (s : rx_state) : rx_state :=
  mkState (s_valid s) (s_sec s) (s_crc s) (gk_tkip s) (gk_aes s) (gk_gcmp s) (hw_decrypted s) (s_pool s) (links s) (waiting s)
    (pending_q s) n (mic_events s) (rx_pkts s) (packets s).
Definition with_mic (e : list mic_event) (s : rx_state) : rx_state :=
  mkState (s_valid s) (s_sec s) (s_crc s) (gk_tkip s) (gk_aes s) (gk_gcmp s) (hw_decrypted s) (s_pool s) (links s) (waiting s)
    (pending_q s) (s_drops s) e (rx_pkts s) (packets s).
Definition with_rx_pkts (n : Z) (s : rx_state) : rx_state :=
  mkState (s_valid s) (s_sec s) (s_crc s) (gk_tkip s) (gk_aes s) (gk_gcmp s) (hw_decrypted s) (s_pool s) (links s) (waiting s)
    (pending_q s) (s_drops s) (mic_events s) n (packets s).
Definition with_packets (l : list (list Z)) (s : rx_state) : rx_state :=
  mkState (s_valid s) (s_sec s) (s_crc s) (gk_tkip s) (gk_aes s) (gk_gcmp s) (hw_decrypted s) (s_pool s) (links s) (waiting s)
    (pending_q s) (s_drops s) (mic_events s) (rx_pkts s) l.
Definition with_cipher (sec : security_priv) (cs : crc_state) (t a g : gk_log) (s : rx_state) : rx_state :=
  mkState (s_valid s) sec cs t a g (hw_decrypted s) (s_pool s) (links s) (waiting s)
    (pending_q s) (s_drops s) (mic_events s) (rx_pkts s) (packets s).

Definition stas (s : rx_state) : sta_priv := v_stas (s_valid s).
Definition with_stas (P : sta_priv) (s : rx_state) : rx_state :=
  with_valid (mkValid P (v_iv_seq (s_valid s)) (v_non_be (s_valid s)) (v_side (s_valid s))) s.
Definition free_frame (slot : nat) (s : rx_state) : rx_state := with_pool (rtw_free_recvframe slot (s_pool s)) s.
Definition link_of (slot : nat) (s : rx_state) : rx_link := default (mkLink None None) (links s !! slot).

Section Path.
  Context (E : path_env).

(** ** Decryption *)

Definition WEP_KEYS := 4.

(** The key index in the IV; the correction that follows it can not take place. *)
(* src: core/rtw_recv.c:615-639 decryptor *)
Definition set_key_index (f : recv_frame) (sec : security_priv) : res rx_attrib :=
  let a := attrib f in
  if 0 <? a_encrypt a then
    iv3 <- rd (rf_mem f) (rx_data f + a_hdrlen a + 3) ;;
    let key_index := Z.shiftr iv3 6 & 0x3 in
    let key_index :=
      if WEP_KEYS <? key_index then
        if (a_encrypt a =? WEP40) || (a_encrypt a =? WEP104) then dot11PrivacyKeyIndex sec else dot118021XGrpKeyid sec
      else key_index in
    Ok (with_sec a (mkRx (a_encrypt a) (a_hdrlen a) (a_iv_len a) key_index (a_ta a) (a_ra a)))
  else Ok a.

Definition with_decrypted (a : rx_attrib) : rx_attrib :=
  mkRa (a_sec a) (a_icv_len a) (a_to_fr_ds a) (a_amsdu a) (a_qos a) (a_priority a) (a_seq_num a) (a_frag_num a) (a_mfrag a)
    (a_privacy a) 1 (a_dst a) (a_src a) (a_bssid a) (a_ack_policy a) (a_pw_save a) (a_mdata a) (a_order a).

(** The software ciphers work on the bytes from [rx_data] on; the result of the WEP routine is not looked at. *)
(* src: core/rtw_recv.c:664-690 decryptor *)
Definition run_cipher (f : recv_frame) (s : rx_state) : res (Z * list Z * rx_state) :=
  let a := attrib f in
  let enc := a_encrypt a in
  let mem := drop (Z.to_nat (rx_data f)) (rf_mem f) in
  let key := option_map (fun t => dot118021x_UncstKey (sta_at (stas s) t)) (rtw_get_stainfo (stas s) (Some (a_ta a))) in
  if (enc =? WEP40) || (enc =? WEP104) then
    '(mem, sec, cs) <- rtw_wep_decrypt mem (rf_len f) (a_sec a) (s_sec s) (s_crc s) ;;
    Ok (SUCCESS, mem, with_cipher sec cs (gk_tkip s) (gk_aes s) (gk_gcmp s) s)
  else if enc =? TKIP then
    '(r, mem, sec, cs, g) <- rtw_tkip_decrypt (pe_junk E) (now (pe E)) (passing_ms (pe E)) key mem (rf_len f) (a_sec a) (s_sec s) (s_crc s) (gk_tkip s) ;;
    Ok (r, mem, with_cipher sec cs g (gk_aes s) (gk_gcmp s) s)
  else if (enc =? AES) || (enc =? CCMP_256) then
    '(r, mem, sec, g) <- rtw_aes_decrypt (pe_malloc E) (pe_aes_alloc E) (pe_amsdu_mode E) (now (pe E)) (passing_ms (pe E)) key mem (rf_len f) (a_sec a) (s_sec s) (gk_aes s) ;;
    Ok (r, mem, with_cipher sec (s_crc s) (gk_tkip s) g (gk_gcmp s) s)
  else if (enc =? GCMP) || (enc =? GCMP_256) then
    '(r, mem, sec, g) <- rtw_gcmp_decrypt (pe_malloc E) (pe_aes_alloc E) (pe_amsdu_mode E) (now (pe E)) (passing_ms (pe E)) key mem (rf_len f) (a_sec a) (s_sec s) (gk_gcmp s) ;;
    Ok (r, mem, with_cipher sec (s_crc s) (gk_tkip s) (gk_aes s) g s)
  else Ok (SUCCESS, mem, s).

(** [None]: the frame was freed. *)
(* src: core/rtw_recv.c:604-749 decryptor *)
Definition decryptor (f : recv_frame) (s : rx_state) : res (option recv_frame * rx_state) :=
  a <- set_key_index f (s_sec s) ;;
  let f := with_attrib f a in
  '(r, f, s) <-
    (if negb (a_encrypt a =? 0) && (a_bdecrypted a =? 0) then
       fc <- GET_LE16 (rf_mem f) (rx_data f) ;;
       let s := if GetFrameType fc =? WIFI_DATA_TYPE then with_hw false s else s in
       '(r, mem, s) <- run_cipher f s ;;
       Ok (r, with_mem f (take (Z.to_nat (rx_data f)) (rf_mem f) ++ mem), s)
     else if (a_bdecrypted a =? 1) && (0 <? a_encrypt a) && (busetkipkey E || negb (a_encrypt a =? TKIP)) then Ok (SUCCESS, f, with_hw true s)
     else Ok (SUCCESS, f, s)) ;;
  if r =? FAIL then Ok (None, free_frame (rf_slot f) s)
  else Ok (Some (with_attrib f (with_decrypted a)), s).

(** ** The controlled port *)

(* src: core/rtw_recv.c:752-818 portctrl *)
Definition portctrl (f : recv_frame) (s : rx_state) : res (option recv_frame * rx_state) :=
  let psta := rtw_get_stainfo (stas s) (Some (a_ta (attrib f))) in
  if dot11AuthAlgrthm (pe E) =? dot11AuthAlgrthm_8021X then
    match psta with
    | Some t =>
        if negb (ieee8021x_blocked (sta_at (stas s) t) =? 0) then
          ether_type <- ether_type_at f (attrib f) ;;
          if ether_type =? EAPOL_TYPE then Ok (Some f, s) else Ok (None, free_frame (rf_slot f) s)
        else Ok (Some f, s)
    | None => Ok (Some f, s)
    end
  else Ok (Some f, s).

(** ** Reassembly *)

Definition with_defrag (x : sta_info) (d : defrag_state) : sta_info :=
  mkSta (mac_addr x) (sta_state x) (flags x) (aid x) (ieee8021x_blocked x) (dot118021XPrivacy x) (dot118021x_UncstKey x)
    (sta_recvpriv x) d (recvreorder_ctrl x) (on_auth_list x).

(** [recvframe_chk_defrag] on the station table: the queue used is that of the transmitter, or, for frames other than data from a
    stranger, of the broadcast station. *)
(* src: core/rtw_recv.c:2845-2866 recvframe_chk_defrag *)
Definition path_defrag (f : recv_frame) (s : rx_state) : res (option recv_frame * rx_state) :=
  let P := stas s in
  let sta := rtw_get_stainfo P (Some (a_ta (attrib f))) in
  let bcmc := rtw_get_bcmc_stainfo P in
  let ds := option_map (fun t => sta_defrag (sta_at P t)) in
  let e := mkMicEnv (option_map (rxmickey E) sta) (grp_rxmickey E) (binstallGrpkey (s_sec s)) (group_key_index E) in
  '(r, d, p, ev) <- recvframe_chk_defrag e f (ds sta) (ds bcmc) (s_pool s) ;;
  let s := with_mic (mic_events s ++ match ev with Some e => [e] | None => [] end) (with_pool p s) in
  let t := match sta with Some t => Some t | None => bcmc end in
  Ok (r, match t, d with Some t, Some d => with_stas (set_sta P t (with_defrag (sta_at P t) d)) s | _, _ => s end).

(** ** Handing up *)

(** The result of [recv_process_mpdu] beside the packets of [RecvMpdu]: failure when the frame is too short for its header. *)
(* src: core/rtw_recv.c:3382-3401 recv_process_mpdu *)
Definition mpdu_result (f : recv_frame) : res Z :=
  let a := attrib f in
  if negb (a_amsdu a =? 0) then Ok SUCCESS
  else
    let msdu_len := u16 (rf_len f - a_hdrlen a - a_iv_len a - (if a_encrypt a =? 0 then 0 else a_icv_len a)) in
    llc_hdl <- rtw_recv_llc_parse (rf_mem f) (rx_data f + a_hdrlen a + a_iv_len a) msdu_len ;;
    '(ret, _) <- wlanhdr_to_ethhdr f llc_hdl ;;
    Ok (if ret =? SUCCESS then SUCCESS else FAIL).

(** The packets go up; the frame is freed in every case. An access point first decides whether it forwards them
    ([rtw_ap_rx_msdu_act_check], for an MPDU and for every subframe), which is not modelled: [Elsewhere]. *)
Definition hand_up (f : recv_frame) (s : rx_state) : res (Z * rx_state) :=
  if in_state (pe E) WIFI_AP_STATE then Fault Elsewhere else
  ret <- mpdu_result f ;;
  ps <- recv_process_mpdu (pe_amsdu_mode E) (PrivacyAlgrthm (pe E)) (skb_alloc E) (cannot_run E) f ;;
  Ok (ret, free_frame (rf_slot f) (with_packets (packets s ++ ps) s)).

(** The frames a window releases, in order. *)
Fixpoint hand_up_all (l : list Reorder.frame) (s : rx_state) : res rx_state :=
  match l with
  | [] => Ok s
  | x :: l =>
      match waiting s !! Z.to_nat (Reorder.tag x) with
      | None => Fault BadPtr
      | Some f => '(_, s) <- hand_up f s ;; hand_up_all l s
      end
  end.

Definition with_ctrl (x : sta_info) (tid : nat) (c : Reorder.recv_reorder_ctrl) : sta_info :=
  mkSta (mac_addr x) (sta_state x) (flags x) (aid x) (ieee8021x_blocked x) (dot118021XPrivacy x) (dot118021x_UncstKey x)
    (sta_recvpriv x) (sta_defrag x) (<[tid := c]> (recvreorder_ctrl x)) (on_auth_list x).

(** A frame as its window sees it. *)
Definition in_window (f : recv_frame) : Reorder.frame :=
  Reorder.mkFrame (negb (a_qos (attrib f) =? 0)) (a_seq_num (attrib f)) (Z.of_nat (rf_slot f)).

(** [recv_indicatepkt_reorder] on the window the frame points to: what it answers, and the frames it lets go. *)
Definition path_reorder (f : recv_frame) (s : rx_state) : Z * list Reorder.frame * rx_state :=
  let l := link_of (rf_slot f) s in
  match l_psta l, l_tid l with
  | Some t, Some tid =>
      let x := sta_at (stas s) t in
      match recvreorder_ctrl x !! Z.to_nat tid with
      | Some c =>
          let '(ret, c', out) := Reorder.recv_indicatepkt_reorder (mpdu_ok E) (Some c) (in_window f) in
          (ret, out, match c' with Some c' => with_stas (set_sta (stas s) t (with_ctrl x (Z.to_nat tid) c')) s | None => s end)
      | None => (SUCCESS, [], s)
      end
  | _, _ => (SUCCESS, [], s)
  end.

(** ** The order of things *)

(** [count_rx_stats] for the station of a frame. *)
Definition count_frame (slot : nat) (s : rx_state) : rx_state :=
  match l_psta (link_of slot s) with
  | Some t => with_valid (mkValid (stas s) (v_iv_seq (s_valid s)) (v_non_be (s_valid s)) (emit (CountRx t) (v_side (s_valid s)))) s
  | None => s
  end.

(** The window a frame points to ([preorder_ctrl]), changed in place. *)
Definition with_window (slot : nat) (g : Reorder.recv_reorder_ctrl -> Reorder.recv_reorder_ctrl) (s : rx_state) : rx_state :=
  let l := link_of slot s in
  match l_psta l, l_tid l with
  | Some t, Some tid =>
      let x := sta_at (stas s) t in
      match recvreorder_ctrl x !! Z.to_nat tid with
      | Some c => with_stas (set_sta (stas s) t (with_ctrl x (Z.to_nat tid) (g c))) s
      | None => s
      end
  | _, _ => s
  end.

(* src: core/rtw_recv.c:3833-3847 recv_set_iseq_before_mpdu_process *)
Definition recv_set_iseq_before_mpdu_process (slot : nat) (seq_num : Z) (s : rx_state) : rx_state :=
  with_window slot (Reorder.set_seq seq_num) s.

(* src: core/rtw_recv.c:3849-3863 recv_set_iseq_after_mpdu_process *)
Definition recv_set_iseq_after_mpdu_process (slot : nat) (s : rx_state) : rx_state :=
  with_window slot (fun c => Reorder.set_seq ((Reorder.indicate_seq c + 1) mod 4096) c) s.

(** The end of [recv_func_posthandle], with the frame that came in and the one that reassembly made of it. The number the
    window is set to is that of the frame that came in; the frame's link outlives its being freed. *)
(* src: core/rtw_recv.c:4292-4321 recv_func_posthandle *)
Definition post_reorder (orig f : recv_frame) (s : rx_state) : res (Z * rx_state) :=
  let s := count_frame (rf_slot f) s in
  let '(ret, out, s) := path_reorder f s in
  if ret =? FAIL then Ok (FAIL, with_drops (u64 (s_drops s + 1)) (free_frame (rf_slot orig) s))
  else if ret =? RTW_RX_HANDLED then
    s <- hand_up_all out (with_waiting (<[rf_slot f := f]> (waiting s)) s) ;; Ok (RTW_RX_HANDLED, s)
  else
    let s := recv_set_iseq_before_mpdu_process (rf_slot f) (a_seq_num (attrib orig)) s in
    '(ret, s) <- hand_up f s ;;
    let s := recv_set_iseq_after_mpdu_process (rf_slot f) s in
    Ok (ret, if ret =? FAIL then with_drops (u64 (s_drops s + 1)) s else s).

(** What follows reassembly. *)
(* src: core/rtw_recv.c:4277-4321 recv_func_posthandle *)
Definition post_defrag (orig f : recv_frame) (s : rx_state) : res (Z * rx_state) :=
  '(r, s) <- portctrl f s ;;
  match r with
  | None => Ok (FAIL, with_drops (u64 (s_drops s + 1)) s)
  | Some g => post_reorder orig g s
  end.

(** A frame that reassembly keeps or drops leaves the result at success. *)
(* src: core/rtw_recv.c:4216-4322 recv_func_posthandle *)
Definition recv_func_posthandle (f : recv_frame) (s : rx_state) : res (Z * rx_state) :=
  let drop_frame ret s := Ok (ret, with_drops (u64 (s_drops s + 1)) s) in
  '(r, s) <- decryptor f s ;;
  match r with
  | None => drop_frame FAIL s
  | Some orig =>
      '(r, s) <- path_defrag orig s ;;
      match r with
      | None => drop_frame SUCCESS s
      | Some g => post_defrag orig g s
      end
  end.

(** The frame as validation leaves it, with the fields it set. *)
(* src: core/rtw_recv.c:4179-4213 recv_func_prehandle *)
Definition recv_func_prehandle (f : recv_frame) (s : rx_state) : res (Z * recv_frame * rx_state) :=
  '(ret, f, l, v, d) <- validate_recv_frame (pe E) f (s_valid s) (s_drops s) ;;
  let s := with_drops d (with_link (rf_slot f) l (with_valid v s)) in
  Ok (ret, f, if negb (ret =? SUCCESS) then free_frame (rf_slot f) s else s).

(** [uc_swdec_pending_queue] is emptied once the pairwise key is there. *)
(* src: core/rtw_recv.c:4365-4370 recv_func *)
Fixpoint drain_pending (n : nat) (s : rx_state) : res rx_state :=
  match n, pending_q s with
  | S n, f :: q => '(_, s) <- recv_func_posthandle f (with_pending q s) ;; drain_pending n s
  | _, _ => Ok s
  end.

Definition WIFI_MONITOR_STATE := 0x80000000.

(** Whether a frame waits for the pairwise key. *)
(* src: core/rtw_recv.c:4383-4387 recv_func *)
Definition must_wait (f : recv_frame) : bool :=
  in_state (pe E) WIFI_STATION_STATE && negb (IS_MCAST (a_ra (attrib f))) && (0 <? a_encrypt (attrib f))
  && ((a_bdecrypted (attrib f) =? 0) || sw_decrypt_reg E) && auth_wpapsk E && negb (busetkipkey E).

(** A monitor interface gets the frame in a form of its own, which is left out; the frame is freed. *)
(* src: core/rtw_recv.c:4324-4405 recv_func *)
Definition recv_func (f : recv_frame) (s : rx_state) : res (Z * rx_state) :=
  if in_state (pe E) WIFI_MONITOR_STATE then Ok (SUCCESS, free_frame (rf_slot f) s)
  else
    s <- (if in_state (pe E) WIFI_STATION_STATE && busetkipkey E then drain_pending (length (pending_q s)) s else Ok s) ;;
    '(ret, f, s) <- recv_func_prehandle f s ;;
    if negb (ret =? SUCCESS) then Ok (ret, s)
    else if must_wait f then
      let q := pending_q s ++ [f] in
      if free_cnt (s_pool s) <? NR_RECVFRAME / 4 then
        match q with
        | g :: q => recv_func_posthandle g (with_pending q s)
        | [] => Ok (SUCCESS, s)
        end
      else Ok (SUCCESS, with_pending q s)
    else recv_func_posthandle f s.

(* src: core/rtw_recv.c:4408-4442 rtw_recv_entry *)
Definition rtw_recv_entry (f : recv_frame) (s : rx_state) : res (Z * rx_state) :=
  '(ret, s) <- recv_func f s ;;
  Ok (ret, if ret =? FAIL then s else with_rx_pkts (u64 (rx_pkts s + 1)) s).
End Path.

(** ** Lemmas: the controlled port *)

(** The bytes at which the port looks. *)
Definition eapol_body (m : list Z) : bool := list_eqb (take 2 (drop 6 m)) [0x88; 0x8e].

Lemma be16_at_body a b m : bytes m -> 8 <= zlen m ->
  exists x y, take 2 (drop 6 m) = [x; y] /\ is_byte x /\ is_byte y /\ RTW_GET_BE16 (a ++ m ++ b) (zlen a + 6) = Ok (x * 256 + y).
Proof.
  intros Hb Hl. destruct (drop 6 m) as [|x [|y rest]] eqn:Ed.
  - apply (f_equal length) in Ed. rewrite length_drop in Ed. cbn in Ed. unfold zlen in Hl. lia.
  - apply (f_equal length) in Ed. rewrite length_drop in Ed. cbn in Ed. unfold zlen in Hl. lia.
  - exists x, y. assert (Hr : Forall is_byte (x :: y :: rest)) by (rewrite <- Ed; apply Forall_drop, Hb).
    apply Forall_cons_1 in Hr as [Hx [Hy _]%Forall_cons_1]. split; [reflexivity|]. split; [done|]. split; [done|].
    assert (Hm : m = take 6 m ++ x :: y :: rest) by (rewrite <- Ed, take_drop; done).
    assert (H6 : zlen (take 6 m) = 6) by (unfold zlen in *; rewrite length_take; lia).
    replace (a ++ m ++ b) with ((a ++ take 6 m) ++ [x; y] ++ (rest ++ b)) by (rewrite Hm at 2; rewrite <- !app_assoc; done).
    replace (zlen a + 6) with (zlen (a ++ take 6 m)) by (rewrite zlen_app; lia).
    apply (get_be16_at (a ++ take 6 m) x y (rest ++ b)); done.
Qed.

(** An MPDU from a blocked station passes exactly when these bytes are EAPOL's. *)
Lemma portctrl_blocked E f s t a h iv m icv b : mpdu f a h iv m icv b -> bytes m -> 8 <= zlen m ->
  dot11AuthAlgrthm (pe E) = dot11AuthAlgrthm_8021X -> rtw_get_stainfo (stas s) (Some (a_ta (attrib f))) = Some t ->
  ieee8021x_blocked (sta_at (stas s) t) <> 0 ->
  portctrl E f s = Ok (if eapol_body m then (Some f, s) else (None, free_frame (rf_slot f) s)).
Proof.
  intros [Hf Hh Hi _] Hb Hl Ha Ht Hbl. unfold portctrl. rewrite Ha, Ht, Z.eqb_refl, (proj2 (Z.eqb_neq _ _) Hbl). cbn [negb].
  unfold ether_type_at, LLC_HEADER_SIZE. rewrite Hh, Hi, (fr_data _ _ _ _ Hf), (fr_mem _ _ _ _ Hf).
  destruct (be16_at_body (a ++ h ++ iv) (icv ++ b) m Hb Hl) as (x & y & Et & Hx & Hy & Hg).
  replace (a ++ (h ++ iv ++ m ++ icv) ++ b) with ((a ++ h ++ iv) ++ m ++ icv ++ b) by (rewrite <- !app_assoc; done).
  replace (zlen a + zlen h + zlen iv) with (zlen (a ++ h ++ iv)) by (rewrite !zlen_app; lia). rewrite Hg. cbn [bind].
  unfold EAPOL_TYPE. change 0x888e with (0x88 * 256 + 0x8e). rewrite (be16_eqb x y 0x88 0x8e) by (done || (unfold is_byte; lia)).
  unfold eapol_body. rewrite Et. destruct (list_eqb _ _); done.
Qed.

(** The frame has no window, or the window is switched off: no block-ack session for its traffic identifier. *)
Definition window_off (slot : nat) (s : rx_state) : Prop :=
  match l_psta (link_of slot s), l_tid (link_of slot s) with
  | Some t, Some tid => forall c, recvreorder_ctrl (sta_at (stas s) t) !! Z.to_nat tid = Some c -> Reorder.enable c = false
  | _, _ => True
  end.

Lemma path_reorder_off E f s : window_off (rf_slot f) s ->
  exists s', path_reorder E f s = (SUCCESS, [], s') /\ packets s' = packets s /\ s_pool s' = s_pool s.
Proof.
  unfold window_off, path_reorder. intros Hw. destruct (l_psta _) as [t|]; [|eauto]. destruct (l_tid _) as [tid|]; [|eauto].
  destruct (recvreorder_ctrl _ !! Z.to_nat tid) as [c|]; [|eauto]. unfold Reorder.recv_indicatepkt_reorder.
  rewrite (Hw c eq_refl). cbn [negb]. rewrite orb_true_r. eauto.
Qed.

Lemma with_window_keeps slot g s : packets (with_window slot g s) = packets s /\ s_pool (with_window slot g s) = s_pool s.
Proof. unfold with_window. repeat case_match; done. Qed.

(** Such a frame goes up at once. *)
Lemma post_reorder_now E orig f s ps : in_state (pe E) WIFI_AP_STATE = false -> window_off (rf_slot f) s -> mpdu_result f = Ok SUCCESS ->
  recv_process_mpdu (pe_amsdu_mode E) (PrivacyAlgrthm (pe E)) (skb_alloc E) (cannot_run E) f = Ok ps ->
  exists s', post_reorder E orig f s = Ok (SUCCESS, s') /\ packets s' = packets s ++ ps /\ s_pool s' = rtw_free_recvframe (rf_slot f) (s_pool s).
Proof.
  intros Ha Hw Hr Hp. unfold post_reorder. set (c := count_frame (rf_slot f) s).
  assert (Hc : window_off (rf_slot f) c /\ packets c = packets s /\ s_pool c = s_pool s)
    by (unfold c, count_frame; destruct (l_psta _); done).
  destruct Hc as (Hc1 & Hc2 & Hc3). destruct (path_reorder_off E f c Hc1) as (s1 & -> & K1 & K2).
  change (SUCCESS =? FAIL) with false. change (SUCCESS =? RTW_RX_HANDLED) with false. cbv iota zeta. unfold hand_up. rewrite Ha, Hr.
  cbn [bind]. rewrite Hp. cbn [bind]. change (SUCCESS =? FAIL) with false. cbv iota. eexists. split; [reflexivity|].
  unfold recv_set_iseq_after_mpdu_process, recv_set_iseq_before_mpdu_process. rewrite !(proj1 (with_window_keeps _ _ _)), !(proj2 (with_window_keeps _ _ _)).
  cbn [packets s_pool free_frame with_pool with_packets]. rewrite (proj2 (with_window_keeps _ _ _)), K1, K2, Hc2, Hc3. done.
Qed.

Lemma mpdu_result_ok f a h iv m icv b : mpdu f a h iv m icv b -> 14 <= zlen h -> bytes m -> zlen m < 65536 ->
  zlen (a_dst (attrib f)) = 6 -> zlen (a_src (attrib f)) = 6 -> mpdu_result f = Ok SUCCESS.
Proof.
  intros Hm Hh Hb Hl Hd Hs. unfold mpdu_result. destruct (negb _); [done|]. pose proof Hm as [Hf Hhdr Hiv Hicv]. pose proof (zlen_nonneg m).
  assert (El : u16 (rf_len f - zlen h - zlen iv - (if a_encrypt (attrib f) =? 0 then 0 else a_icv_len (attrib f))) = zlen m).
  { rewrite (fr_len _ _ _ _ Hf), !zlen_app. destruct (_ =? 0); [subst icv; change (zlen []) with 0 | rewrite Hicv];
      rewrite u16_small by lia; lia. }
  destruct (wlanhdr_to_ethhdr_spec f a h iv m icv b) as (g & a' & E1 & E2 & _); try done.
  rewrite Hhdr, Hiv, El, (fr_data _ _ _ _ Hf), E1. cbn [bind]. rewrite E2. done.
Qed.

(** ** Theorems: the controlled port *)

(** A decrypted and reassembled frame of a station that 802.1X has not let in yet: parts of the frame, the station. *)
Record at_blocked_port (E : path_env) (f : recv_frame) (s : rx_state) (a h iv m icv b : list Z) : Prop := {
  bp_mpdu : mpdu f a h iv m icv b;
  bp_hdr : 14 <= zlen h;
  bp_bytes : bytes m;
  bp_len : 8 <= zlen m < 65536;
  bp_dst : zlen (a_dst (attrib f)) = 6;
  bp_src : zlen (a_src (attrib f)) = 6;
  bp_auth : dot11AuthAlgrthm (pe E) = dot11AuthAlgrthm_8021X;
  bp_sta : exists t, rtw_get_stainfo (stas s) (Some (a_ta (attrib f))) = Some t /\ ieee8021x_blocked (sta_at (stas s) t) <> 0 }.

(** Behind the port nothing holds the frame up: no reordering window is at work for it, the adapter is no access point, the stack
    can run. *)
Record straight_up (E : path_env) (f : recv_frame) (s : rx_state) : Prop := {
  su_window : window_off (rf_slot f) s;
  su_mode : in_state (pe E) WIFI_AP_STATE = false;
  su_run : cannot_run E = false }.

(** C10: Let a decrypted and reassembled frame (header, IV, at least eight bytes of content, check value) come from a
    station that 802.1X still blocks. When bytes 6 and 7 of the content are not EAPOL's type, it is refused, in any mode and
    whatever its window: its buffer is freed, nothing goes up, and no station's record (so no window) changes. When they are,
    the frame is no A-MSDU, no reordering window is at work for it (it has none, as group frames and frames without QoS,
    or there is no block-ack session for its traffic identifier), the adapter is no access point and the stack can run, it
    goes up as one packet and its buffer is freed; with an LLC header, that packet has EAPOL's type. *)
Theorem blocked_port_passes_eapol E orig f s a h iv m icv b : at_blocked_port E f s a h iv m icv b ->
  (eapol_body m = false ->
   exists s', post_defrag E orig f s = Ok (FAIL, s') /\ packets s' = packets s /\ stas s' = stas s /\
     s_pool s' = rtw_free_recvframe (rf_slot f) (s_pool s)) /\
  (eapol_body m = true -> a_amsdu (attrib f) = 0 -> straight_up E f s ->
   let p := ether_frame (a_dst (attrib f)) (a_src (attrib f)) m in
   exists s', post_defrag E orig f s = Ok (SUCCESS, s') /\ packets s' = packets s ++ [p] /\
     s_pool s' = rtw_free_recvframe (rf_slot f) (s_pool s) /\
     (take 6 m = rtw_rfc1042_header -> take 2 (drop 12 p) = [0x88; 0x8e])).
Proof.
  intros [Hm Hh Hb [Hl Hl2] Hd Hs Ha (t & Ht & Hbl)]. unfold post_defrag. rewrite (portctrl_blocked E f s t a h iv m icv b) by done.
  split; [intros ->; eexists; done|]. intros Ee Hn [Hk Hap Hr]. rewrite Ee. cbn [bind]. set (p := ether_frame _ _ m).
  destruct (post_reorder_now E orig f s [p]) as (s' & E1 & E2 & E3); [done | done | apply (mpdu_result_ok f a h iv m icv b); done | |].
  { rewrite Hr. apply (process_mpdu_delivers _ _ _ f a h iv m icv b); done. }
  exists s'. split; [done|]. split; [done|]. split; [done|]. intros H6. unfold eapol_body, list_eqb in Ee. apply bool_decide_eq_true in Ee.
  unfold p, ether_frame. replace (snap_stripped m) with true.
  2: { unfold snap_stripped. rewrite H6, Ee. rewrite (proj2 (Z.leb_le _ _)) by lia. reflexivity. }
  rewrite app_assoc, drop_app_length' by (unfold zlen in *; rewrite length_app; lia). exact Ee.
Qed.

(** C11: The port looks at the same two bytes of an A-MSDU, where they are the first of the source address of the first
    subframe. When the A-MSDU is well formed and that address begins 88:8e, all subframes go up (the first 64), whatever they carry, although the station is
    blocked: as long as each passes the driver's check of a subframe's addresses, memory for the packets is there, no block-ack
    session is at work for the frame's traffic identifier, the adapter is no access point and the stack can run. *)
Theorem blocked_port_open_to_amsdus E orig f s a h iv m icv b x subs : at_blocked_port E f s a h iv m icv b -> straight_up E f s -> a_amsdu (attrib f) <> 0 ->
  amsdu_bytes (x :: subs) m -> take 2 (s_sa x) = [0x88; 0x8e] ->
  Forall (sub_valid (pe_amsdu_mode E) (PrivacyAlgrthm (pe E)) (attrib f)) (x :: subs) -> (forall n, skb_alloc E n = true) ->
  exists s', post_defrag E orig f s = Ok (SUCCESS, s') /\ packets s' = packets s ++ map sub_packet (take 64 (x :: subs)).
Proof.
  intros [Hm Hh Hb [Hl Hl2] Hd Hs Ha (t & Ht & Hbl)] [Hk Hap Hr] Hn Hsub Hsa Hv Hal. unfold post_defrag.
  rewrite (portctrl_blocked E f s t a h iv m icv b) by done.
  assert (Hm2 : exists rest, m = s_da x ++ s_sa x ++ rest /\ length (s_da x) = 6%nat /\ length (s_sa x) = 6%nat).
  { assert (Hx : sub_ok x) by (inversion Hsub; done). destruct Hx as (H1 & H2 & _).
    inversion Hsub; subst; unfold sub_bytes; rewrite <- ?app_assoc; eexists; (split; [reflexivity|]); unfold zlen in *; lia. }
  destruct Hm2 as (rest & Em & L1 & L2).
  assert (Ee : eapol_body m = true).
  { unfold eapol_body. rewrite Em, drop_app_length', take_app_le, Hsa by lia. reflexivity. }
  rewrite Ee. cbn [bind].
  destruct (post_reorder_now E orig f s (map sub_packet (take 64 (x :: subs)))) as (s' & E1 & E2 & _).
  - done.
  - done.
  - apply (mpdu_result_ok f a h iv m icv b); done.
  - unfold recv_process_mpdu. rewrite (proj2 (Z.eqb_neq _ _) Hn). cbn [negb].
    apply (amsdu_to_msdu_spec _ _ _ f a h iv m icv b (x :: subs)); done.
  - exists s'. done.
Qed.

(** ** Lemmas: where the frames are

    Every frame is in flight, waits for the key, is held by a station, or is free. *)

Definition stored (s : rx_state) : list nat := held_by (stas s) (linked (stas s)) ++ slots (pending_q s) ++ free_q (s_pool s).

(** A frame of its own: no fragment with a number above 0. *)
Definition unnumbered (g : recv_frame) : Prop := a_frag_num (attrib g) = 0 /\ is_flag (a_mfrag (attrib g)).

(** [L] are the frames in flight, [F] all of them. *)
Record frames_ok (L F : list nat) (s : rx_state) : Prop := {
  fo_table : table_ok (stas s);
  fo_perm : L ++ stored s ≡ₚ F;
  fo_pool : pool_counts (s_pool s);
  fo_unlinked : forall t, (t < NUM_STA)%nat -> t ∉ linked (stas s) -> held (sta_at (stas s) t) = [];
  fo_waiting : forall t c w, t ∈ linked (stas s) -> c ∈ recvreorder_ctrl (sta_at (stas s) t) -> w ∈ Reorder.pending c ->
    exists g, waiting s !! Z.to_nat (Reorder.tag w) = Some g /\ rf_slot g = Z.to_nat (Reorder.tag w);
  fo_links : forall k t, l_psta (link_of k s) = Some t -> t ∈ linked (stas s);
  fo_pending : Forall unnumbered (pending_q s) }.

(** A step that leaves stations, queue, links and windows alone. *)
Lemma frames_same L L' F s s' : frames_ok L F s -> stas s' = stas s -> pending_q s' = pending_q s -> waiting s' = waiting s ->
  links s' = links s -> pool_counts (s_pool s') -> L' ++ free_q (s_pool s') ≡ₚ L ++ free_q (s_pool s) -> frames_ok L' F s'.
Proof.
  intros [H1 H2 H3 H4 H5 H6 H7] E1 E2 E3 E4 Hc HP. unfold stored, link_of in *.
  split; unfold stored, link_of; rewrite ?E1, ?E2, ?E3, ?E4; try done.
  rewrite <- H2. rewrite !(Permutation_app_comm L), !(Permutation_app_comm L'), <- !app_assoc. do 2 apply Permutation_app_head.
  rewrite !(Permutation_app_comm (free_q _)). exact HP.
Qed.

Lemma frames_room L F s : frames_ok L F s -> NoDup F -> zlen F <= NR_RECVFRAME ->
  NoDup (L ++ free_q (s_pool s)) /\ zlen (L ++ free_q (s_pool s)) <= NR_RECVFRAME.
Proof.
  intros [_ H _ _ _ _ _] Hn Hz. assert (HP : (L ++ free_q (s_pool s)) ++ held_by (stas s) (linked (stas s)) ++ slots (pending_q s) ≡ₚ F).
  { rewrite <- H. unfold stored. rewrite <- app_assoc. apply Permutation_app_head. rewrite (app_assoc (held_by _ _)). apply Permutation_app_comm. }
  rewrite <- HP in Hn. apply NoDup_app in Hn as (Hn & _). split; [done|]. pose proof (Permutation_length HP) as E.
  rewrite length_app in E. unfold zlen in *. lia.
Qed.

Lemma frames_freed x L F s : frames_ok (x :: L) F s -> NoDup F -> zlen F <= NR_RECVFRAME -> frames_ok L F (free_frame x s).
Proof.
  intros H Hn Hz. destruct (frames_room _ _ _ H Hn Hz) as [Hr Hl]. cbn [app] in Hr. rewrite <- app_comm_cons in Hl. rewrite zlen_cons, zlen_app in Hl.
  apply list.NoDup_cons in Hr as [Hx Hr]. rewrite elem_of_app in Hx. apply NoDup_app in Hr as (_ & _ & Hr). pose proof (zlen_nonneg L).
  destruct (free_one_gains x (s_pool s)) as [G1 G2]; [apply list.NoDup_cons; tauto | apply (fo_pool _ _ _ H) | unfold NR_RECVFRAME in *; lia|].
  apply (frames_same (x :: L) L F s); try done. cbn [free_frame with_pool s_pool]. rewrite G1. cbn [app]. rewrite <- Permutation_middle. done.
Qed.

(** A station that gets other frames. *)
Lemma held_set P t x : table_ok P -> t ∈ linked P ->
  held_by (set_sta P t x) (linked P) ++ held (sta_at P t) ≡ₚ held_by P (linked P) ++ held x.
Proof.
  intros H Ht. assert (Hlt : (t < length (pstainfo_buf P))%nat) by (rewrite (t_buf P H); apply (slot_range P t H); auto).
  assert (HL : linked P ≡ₚ filter (.≠ t) (linked P) ++ [t]).
  { rewrite <- (filter_only t (linked P)) by (done || apply (linked_nodup P H)). symmetry. apply (filter_split (.≠ t)). }
  rewrite (held_by_perm P _ _ HL), (held_by_perm (set_sta P t x) _ _ HL), !held_by_app, (held_by_same P).
  - unfold held_by at 2 4. cbn [map concat]. rewrite !app_nil_r, set_sta_at, decide_True by done.
    rewrite <- !app_assoc. apply Permutation_app_head, Permutation_app_comm.
  - intros u Hu. apply list_elem_of_filter in Hu as [Hne _]. rewrite set_sta_at, decide_False by done. done.
Qed.

Lemma frames_change L L' F s s' t x : frames_ok L F s -> t ∈ linked (stas s) -> stas s' = set_sta (stas s) t x ->
  mac_addr x = mac_of (stas s) t -> pending_q s' = pending_q s -> links s' = links s -> pool_counts (s_pool s') ->
  L' ++ held x ++ free_q (s_pool s') ≡ₚ L ++ held (sta_at (stas s) t) ++ free_q (s_pool s) ->
  (forall k g, waiting s !! k = Some g -> rf_slot g = k -> exists g', waiting s' !! k = Some g' /\ rf_slot g' = k) ->
  (forall c w, c ∈ recvreorder_ctrl x -> w ∈ Reorder.pending c -> exists g, waiting s' !! Z.to_nat (Reorder.tag w) = Some g /\ rf_slot g = Z.to_nat (Reorder.tag w)) ->
  frames_ok L' F s'.
Proof.
  intros [H1 H2 H3 H4 H5 H6 H7] Ht Es Hm Ep El Hc HP Hw Hx.
  assert (Hlt : (t < length (pstainfo_buf (stas s)))%nat) by (rewrite (t_buf _ H1); apply (slot_range _ t H1); auto).
  split; unfold stored, link_of in *; rewrite ?Es, ?Ep, ?El; change (linked (set_sta (stas s) t x)) with (linked (stas s)); try done.
  - apply set_sta_ok; done.
  - apply (Permutation_app_inv_r (held (sta_at (stas s) t))).
    pose proof (held_set (stas s) t x H1 Ht) as HS. rewrite <- H2.
    set (A := held_by (set_sta (stas s) t x) (linked (stas s))) in *. set (B := held_by (stas s) (linked (stas s))) in *.
    set (D := held (sta_at (stas s) t)) in *. set (Q := slots (pending_q s)).
    transitivity ((A ++ D) ++ Q ++ (L' ++ free_q (s_pool s'))); [solve_Permutation|]. rewrite HS.
    transitivity (B ++ Q ++ (L' ++ held x ++ free_q (s_pool s'))); [solve_Permutation|]. rewrite HP. solve_Permutation.
  - intros u Hu Hnu. rewrite set_sta_at by done. case_decide; [subst; done | auto].
  - intros u c w Hu Hcu Hwu. rewrite set_sta_at in Hcu by done. case_decide; [subst; eauto|].
    destruct (H5 u c w Hu Hcu Hwu) as (g & G1 & G2). apply (Hw _ g); done.
Qed.

(** ** Lemmas: each step keeps the frames *)

Section Keeps.
  Context (E : path_env) (F : list nat) (Hn : NoDup F) (Hz : zlen F <= NR_RECVFRAME).

Lemma hand_up_frames f s ret s' L : hand_up E f s = Ok (ret, s') -> frames_ok (rf_slot f :: L) F s ->
  frames_ok L F s' /\ stas s' = stas s /\ waiting s' = waiting s.
Proof.
  unfold hand_up. intros H Hf. destruct (in_state _ _) in H; [discriminate|]. res_inv. split; [|done]. apply frames_freed; try done.
  apply (frames_same (rf_slot f :: L) _ F s); try done. apply (fo_pool _ _ _ Hf).
Qed.

Lemma hand_up_all_frames l : forall s s', hand_up_all E l s = Ok s' ->
  frames_ok (map (fun w => Z.to_nat (Reorder.tag w)) l) F s ->
  (forall w, w ∈ l -> exists g, waiting s !! Z.to_nat (Reorder.tag w) = Some g /\ rf_slot g = Z.to_nat (Reorder.tag w)) ->
  frames_ok [] F s'.
Proof.
  induction l as [|w l IH]; intros s s' H Hf Hw; cbn [hand_up_all map] in *; [congruence|].
  destruct (Hw w) as (g & Hg & Hs); [left|]. rewrite Hg in H. res_inv. destruct a as [r s1].
  rewrite <- Hs in Hf. destruct (hand_up_frames g s r s1 _ Ha Hf) as (Hf1 & _ & Ew).
  apply (IH s1 s' H Hf1). intros w' Hw'. rewrite Ew. apply Hw. right. exact Hw'.
Qed.

Lemma run_cipher_frames f s r mem s' : run_cipher E f s = Ok (r, mem, s') ->
  stas s' = stas s /\ pending_q s' = pending_q s /\ waiting s' = waiting s /\ links s' = links s /\ s_pool s' = s_pool s.
Proof. unfold run_cipher. intros H. repeat (case_match; res_inv; try done). Qed.

(** The frame that decryption goes on with is the one that came, of the same kind. *)
Lemma decryptor_frames f s r s' L : decryptor E f s = Ok (r, s') -> frames_ok (rf_slot f :: L) F s ->
  match r with
  | Some g => frames_ok (rf_slot g :: L) F s' /\ rf_slot g = rf_slot f /\ a_frag_num (attrib g) = a_frag_num (attrib f) /\ a_mfrag (attrib g) = a_mfrag (attrib f)
  | None => frames_ok L F s'
  end.
Proof.
  unfold decryptor. intros H Hf. res_inv. destruct a0 as [[ret g] s1].
  assert (Hk : a_frag_num a = a_frag_num (attrib f) /\ a_mfrag a = a_mfrag (attrib f)).
  { clear H Ha0. unfold set_key_index in Ha. destruct (0 <? _) in Ha; res_inv; done. }
  assert (Hg : rf_slot g = rf_slot f /\ stas s1 = stas s /\ pending_q s1 = pending_q s /\ waiting s1 = waiting s /\ links s1 = links s /\ s_pool s1 = s_pool s).
  { clear H. destruct (_ && _) in Ha0; [|destruct (_ && _) in Ha0; injection Ha0 as _ <- <-; done]. res_inv. destruct a1 as [[ret1 mem] s2].
    assert (Hs : stas (if GetFrameType a0 =? WIFI_DATA_TYPE then with_hw false s else s) = stas s) by (case_match; done).
    apply run_cipher_frames in Ha2 as (E1 & E2 & E3 & E4 & E5). injection Ha0 as _ <- <-. split; [done|].
    rewrite E1, E2, E3, E4, E5. case_match; done. }
  destruct Hg as (Eg & E1 & E2 & E3 & E4 & E5).
  assert (H1 : frames_ok (rf_slot f :: L) F s1).
  { apply (frames_same (rf_slot f :: L) _ F s); try done; [rewrite E5; apply (fo_pool _ _ _ Hf) | rewrite E5; done]. }
  case_match; res_inv; [apply frames_freed; [rewrite Eg; exact H1 | done | done]|].
  cbn [rf_slot with_attrib attrib with_decrypted a_frag_num a_mfrag]. rewrite Eg. done.
Qed.

Lemma portctrl_frames f s r s' L : portctrl E f s = Ok (r, s') -> frames_ok (rf_slot f :: L) F s ->
  match r with Some g => g = f /\ s' = s | None => frames_ok L F s' end.
Proof. unfold portctrl. intros H Hf. repeat (case_match; res_inv; try done); apply frames_freed; done. Qed.
End Keeps.

Lemma chk_defrag_facts e f sta bcmc p r d p' ev : recvframe_chk_defrag e f sta bcmc p = Ok (r, d, p', ev) ->
  exists psta, defrag_sta f sta bcmc = Ok psta /\ (psta = None <-> d = None) /\ (psta = sta \/ sta = None /\ psta = bcmc) /\
  (a_frag_num (attrib f) = 0 -> forall g, r = Some g -> rf_slot g = rf_slot f).
Proof.
  unfold recvframe_chk_defrag. intros H. res_inv. destruct a0 as [[r1 d1] p1]. exists a. split; [done|].
  assert (Hd : d = d1 /\ (r = None \/ exists g1, r1 = Some g1 /\ forall g, r = Some g -> rf_slot g = rf_slot g1)).
  { destruct r1 as [g1|]; [|res_inv; auto]. destruct (_ =? 0) in H; [res_inv; split; [done|]; right; exists g1; split; [done | congruence]|].
    res_inv. destruct a0 as [[ret g2] ev2]. apply chkmic_slot in Ha1. destruct (ret =? FAIL); res_inv; [auto|].
    split; [done|]. right. exists g1. split; [done|]. intros g [= <-]. done. }
  destruct Hd as [-> Hr]. split; [|split].
  - clear H Hr Ha. unfold chk_defrag_queue in Ha0. destruct a as [x|]; repeat (case_match; res_inv; try done).
  - unfold defrag_sta in Ha. destruct sta as [x|]; [res_inv; auto|]. res_inv. destruct (_ =? 0x08); auto.
  - intros Hfr g Hg. destruct Hr as [->|(g1 & -> & Hr)]; [discriminate|]. rewrite (Hr g Hg). clear Hr H.
      unfold chk_defrag_queue in Ha0. rewrite Hfr, andb_false_r in Ha0. destruct (negb _ && _) in Ha0; [discriminate|].
      destruct (a_mfrag (attrib f) =? 1) in Ha0; [repeat (case_match; res_inv; try done)|].
      cbn [Z.eqb andb negb] in Ha0. destruct (_ && _) in Ha0; [|discriminate]. injection Ha0 as <- _ _. destruct a; done.
Qed.

Section Reassembly.
  Context (E : path_env) (F : list nat) (Hn : NoDup F) (Hz : zlen F <= NR_RECVFRAME).

Lemma owned_sub L s t : frames_ok L F s -> t ∈ linked (stas s) ->
  exists R, (L ++ slots (ds_q (sta_defrag (sta_at (stas s) t))) ++ free_q (s_pool s)) ++ R ≡ₚ F.
Proof.
  intros H Ht. pose proof (fo_perm _ _ _ H) as HP. unfold stored in HP. apply elem_of_Permutation in Ht as [k Hk].
  rewrite (held_by_perm _ _ _ Hk) in HP. change (t :: k) with ([t] ++ k) in HP. rewrite held_by_app in HP. unfold held_by at 1 in HP.
  cbn [map concat] in HP. rewrite app_nil_r in HP. unfold held at 1 in HP.
  set (W := concat _) in HP. exists (W ++ held_by (stas s) k ++ slots (pending_q s)). rewrite <- HP. solve_Permutation.
Qed.

Lemma path_defrag_frames f s r s' : path_defrag E f s = Ok (r, s') -> frames_ok [rf_slot f] F s -> is_flag (a_mfrag (attrib f)) ->
  match r with
  | Some g => frames_ok [rf_slot g] F s' /\ (a_frag_num (attrib f) = 0 -> rf_slot g = rf_slot f)
  | None => frames_ok [] F s'
  end.
Proof.
  unfold path_defrag. intros H Hf Hfl. res_inv. destruct a as [[[r1 d] p] ev]. injection H as <- <-.
  pose proof Ha as Hc. apply chk_defrag_facts in Hc as (psta & Hps & Hnone & Hwho & Hslot).
  set (P := stas s) in *. set (sta := rtw_get_stainfo P (Some (a_ta (attrib f)))) in *. set (bcmc := rtw_get_bcmc_stainfo P) in *.
  set (s1 := with_mic _ _). set (t := match sta with Some u => Some u | None => bcmc end).
  assert (Hin : forall u, t = Some u -> u ∈ linked P).
  { intros u Hu. unfold t in Hu. destruct sta as [v|] eqn:Es; [injection Hu as <-|].
    - unfold sta in Es. apply get_spec in Es as [? _]; [done | apply (fo_table _ _ _ Hf)].
    - unfold bcmc, rtw_get_bcmc_stainfo in Hu. apply get_spec in Hu as [? _]; [done | apply (fo_table _ _ _ Hf)]. }
  assert (Hown : forall ds, psta = ds -> zlen (owned (Some f) ds (s_pool s)) <= NR_RECVFRAME /\ NoDup (owned (Some f) ds (s_pool s)) ->
     owned r1 d p ≡ₚ owned (Some f) ds (s_pool s) /\ pool_counts p).
  { intros ds <- [L1 L2]. destruct (chk_defrag_owns _ _ _ _ psta _ _ _ _ _ Ha Hps L2 (fo_pool _ _ _ Hf) L1 Hfl) as (O1 & _ & O3). done. }
  cut (match r1 with Some g => frames_ok [rf_slot g] F (match t, d with Some t, Some d => with_stas (set_sta P t (with_defrag (sta_at P t) d)) s1 | _, _ => s1 end)
       | None => frames_ok [] F (match t, d with Some t, Some d => with_stas (set_sta P t (with_defrag (sta_at P t) d)) s1 | _, _ => s1 end) end).
  { destruct r1 as [g|]; [|done]. intros HF. split; [done|]. intros Hz0. apply Hslot; done. }
  set (L' := match r1 with Some g => [rf_slot g] | None => [] end).
  cut (frames_ok L' F (match t, d with Some t, Some d => with_stas (set_sta P t (with_defrag (sta_at P t) d)) s1 | _, _ => s1 end)).
  { unfold L'. destruct r1; done. }
  destruct psta as [ds|].
  - assert (Ht : exists u, t = Some u /\ ds = sta_defrag (sta_at P u)).
    { unfold t. destruct Hwho as [Hw|[Hw0 Hw]]; [destruct sta as [u|]; [|discriminate] | destruct sta; [discriminate|]; destruct bcmc as [u|]; [|discriminate]];
        exists u; (split; [done|]); cbn in Hw; congruence. }
    destruct Ht as (u & Et & ->). pose proof (Hin u Et) as Hu. rewrite Et.
    destruct (owned_sub _ s u Hf Hu) as [R HR]. fold P in HR.
    assert (HL : zlen (owned (Some f) (Some (sta_defrag (sta_at P u))) (s_pool s)) <= NR_RECVFRAME /\ NoDup (owned (Some f) (Some (sta_defrag (sta_at P u))) (s_pool s))).
    { unfold owned. pose proof Hn as Hn'. rewrite <- HR in Hn'. apply NoDup_app in Hn' as (Hn' & _). split; [|exact Hn'].
      pose proof (Permutation_length HR) as El. rewrite length_app in El. unfold zlen in *. cbn [app length] in *. lia. }
    destruct (Hown _ eq_refl HL) as [HO Hpc]. unfold owned in HO. fold L' in HO.
    destruct d as [d|].
    + eapply (frames_change _ L' F s _ u (with_defrag (sta_at P u) d) Hf Hu); try reflexivity; try exact Hpc.
      * unfold held. cbn [recvreorder_ctrl sta_defrag with_defrag]. fold P. cbn [s_pool with_stas with_valid with_mic with_pool s1] in *.
        set (W := concat _). transitivity (W ++ (L' ++ slots (ds_q d) ++ free_q p)); [solve_Permutation|]. rewrite HO. solve_Permutation.
      * intros k g Hk Hg. exists g. done.
      * intros c w Hcu Hw. apply (fo_waiting _ _ _ Hf u c w Hu Hcu Hw).
    + discriminate (proj2 Hnone eq_refl).
  - rewrite (proj1 Hnone eq_refl). assert (Em : match t with Some _ => s1 | None => s1 end = s1) by (destruct t; done). rewrite Em.
    destruct (frames_room _ _ _ Hf Hn Hz) as [R1 R2]. destruct (Hown None eq_refl) as [HO Hpc]; [split; [exact R2 | exact R1]|].
    rewrite (proj1 Hnone eq_refl) in HO. unfold owned in HO. fold L' in HO. cbn [slots map app] in HO.
    apply (frames_same [rf_slot f] L' F s s1); try done.
Qed.
End Reassembly.

(** ** Lemmas: a window keeps its frames *)

Lemma enqueue_perm l w : forall l', Reorder.enqueue_reorder_recvframe l w = Some l' -> l' ≡ₚ w :: l.
Proof.
  induction l as [|g l IH]; intros l' H; cbn [Reorder.enqueue_reorder_recvframe] in H; [injection H as <-; done|].
  destruct (Reorder.SN_LESS _ _) in H.
  - destruct (Reorder.enqueue_reorder_recvframe l w) as [l0|] eqn:E; [|discriminate]. injection H as <-.
    rewrite (IH l0 eq_refl). apply Permutation_swap.
  - destruct (Reorder.SN_EQUAL _ _) in H; [discriminate|]. injection H as <-. done.
Qed.

Lemma indicate_app l : forall ind out ind' rest, Reorder.indicate_loop ind l = (out, ind', rest) -> l = out ++ rest.
Proof.
  induction l as [|g l IH]; intros ind out ind' rest H; cbn [Reorder.indicate_loop] in H; [injection H as <- _ <-; done|].
  destruct (negb _) in H; [|injection H as <- _ <-; done].
  destruct (Reorder.indicate_loop _ l) as [[o i] r] eqn:Eo. injection H as <- _ <-. cbn [app]. f_equal. eapply IH. exact Eo.
Qed.

Lemma in_order_perm ok c more c' out : Reorder.recv_indicatepkts_in_order ok c false = (more, c', out) ->
  Reorder.pending c = out ++ Reorder.pending c'.
Proof.
  unfold Reorder.recv_indicatepkts_in_order. intros H.
  assert (H' : let '(o, ind, rest) := Reorder.indicate_loop (Reorder.indicate_seq c) (Reorder.pending c) in o = out /\ rest = Reorder.pending c').
  { destruct (Reorder.pending c) eqn:Ep; rewrite ?Ep in H; destruct (Reorder.indicate_loop _ _) as [[o ind] rest]; injection H as _ <- <-; done. }
  destruct (Reorder.indicate_loop _ _) as [[o ind] rest] eqn:Ei. destruct H' as [-> ->]. eapply indicate_app. exact Ei.
Qed.

(** What the window does with a frame. *)
Lemma reorder_keeps ok c w ret c' out : Reorder.recv_indicatepkt_reorder ok (Some c) w = (ret, c', out) ->
  exists c1, c' = Some c1 /\
    ((ret = FAIL \/ ret = SUCCESS) /\ out = [] /\ Reorder.pending c1 = Reorder.pending c \/
     ret = RTW_RX_HANDLED /\ out ++ Reorder.pending c1 ≡ₚ w :: Reorder.pending c).
Proof.
  unfold Reorder.recv_indicatepkt_reorder. intros H. destruct (_ || _) in H; [injection H as <- <- <-; eexists; split; [done|]; left; auto|].
  set (c0 := Reorder.clear_acks _) in H.
  assert (Hc0 : Reorder.pending c0 = Reorder.pending c) by (unfold c0; destruct (_ || _); done).
  destruct (Reorder.check_indicate_seq c0 (Reorder.seq_num w)) as [b c2] eqn:Ec.
  assert (Hc2 : Reorder.pending c2 = Reorder.pending c).
  { rewrite <- Hc0. clear H. unfold Reorder.check_indicate_seq in Ec. destruct (_ =? 0xFFFF) in Ec;
      repeat (destruct (Reorder.SN_LESS _ _) in Ec || destruct (Reorder.SN_EQUAL _ _) in Ec); injection Ec as _ <-; done. }
  destruct b; cbn [negb] in H; [|injection H as <- <- <-; eexists; split; [done|]; left; auto].
  destruct (Reorder.enqueue_reorder_recvframe (Reorder.pending c2) w) as [l|] eqn:El; [|injection H as <- <- <-; eexists; split; [done|]; left; auto].
  apply enqueue_perm in El. destruct (Reorder.recv_indicatepkts_in_order ok (Reorder.set_pending l c2) false) as [[more c3] o] eqn:Ei.
  apply in_order_perm in Ei. cbn [Reorder.pending Reorder.set_pending] in Ei. injection H as <- <- <-. eexists. split; [done|]. right. split; [done|].
  rewrite <- Hc2, <- El, Ei. apply Permutation_app_head.
  destruct more; [destruct (negb _)|]; done.
Qed.

(** One window of a station replaced. *)
Lemma concat_insert {A} (l : list (list A)) i old new : l !! i = Some old ->
  concat (<[i := new]> l) ++ old ≡ₚ concat l ++ new.
Proof.
  revert i. induction l as [|x l IH]; intros [|i] H; try discriminate; cbn [lookup list_lookup] in H.
  - injection H as ->. cbn [insert list_insert concat]. solve_Permutation.
  - cbn [insert list_insert concat]. rewrite <- !app_assoc. apply Permutation_app_head, IH, H.
Qed.

Definition window_slots (c : Reorder.recv_reorder_ctrl) : list nat := map (fun w => Z.to_nat (Reorder.tag w)) (Reorder.pending c).

Lemma held_ctrl x tid c c' : recvreorder_ctrl x !! tid = Some c ->
  held (with_ctrl x tid c') ++ window_slots c ≡ₚ held x ++ window_slots c'.
Proof.
  intros H. unfold held, with_ctrl, window_slots. cbn [recvreorder_ctrl sta_defrag]. set (g := fun w => Z.to_nat (Reorder.tag w)).
  set (h := fun d => map g (Reorder.pending d)). pose proof (concat_insert (map h (recvreorder_ctrl x)) tid (h c) (h c')) as HC.
  rewrite list_lookup_fmap, H in HC. specialize (HC eq_refl). rewrite <- (list_fmap_insert h) in HC. fold (h c) (h c').
  change (map h (<[tid:=c']> (recvreorder_ctrl x))) with (h <$> <[tid:=c']> (recvreorder_ctrl x)).
  transitivity ((concat (h <$> <[tid:=c']> (recvreorder_ctrl x)) ++ h c) ++ slots (ds_q (sta_defrag x))); [solve_Permutation|].
  rewrite HC. solve_Permutation.
Qed.

Section Windows.
  Context (E : path_env) (F : list nat) (Hn : NoDup F) (Hz : zlen F <= NR_RECVFRAME).

(** The windows of a station, one of them changed and one more frame known. *)
Lemma path_reorder_frames f s ret out s' : path_reorder E f s = (ret, out, s') -> frames_ok [rf_slot f] F s ->
  (ret = FAIL \/ ret = SUCCESS) /\ frames_ok [rf_slot f] F s' \/
  ret = RTW_RX_HANDLED /\ let s2 := with_waiting (<[rf_slot f := f]> (waiting s')) s' in
    frames_ok (map (fun w => Z.to_nat (Reorder.tag w)) out) F s2 /\
    (forall w, w ∈ out -> exists g, waiting s2 !! Z.to_nat (Reorder.tag w) = Some g /\ rf_slot g = Z.to_nat (Reorder.tag w)).
Proof.
  unfold path_reorder. intros H Hf. destruct (l_psta (link_of (rf_slot f) s)) as [t|] eqn:El; [|injection H as <- <- <-; left; auto].
  destruct (l_tid (link_of (rf_slot f) s)) as [tid|]; [|injection H as <- <- <-; left; auto].
  destruct (recvreorder_ctrl (sta_at (stas s) t) !! Z.to_nat tid) as [c|] eqn:Ec; [|injection H as <- <- <-; left; auto].
  pose proof (fo_links _ _ _ Hf _ _ El) as Ht. set (x := sta_at (stas s) t) in *.
  destruct (Reorder.recv_indicatepkt_reorder _ _ _) as [[r c'] o] eqn:Er. apply reorder_keeps in Er as (c1 & -> & Hr). injection H as <- <- <-.
  pose proof (held_ctrl x (Z.to_nat tid) c c1 Ec) as HH.
  assert (Hold : forall w, w ∈ Reorder.pending c -> exists g, waiting s !! Z.to_nat (Reorder.tag w) = Some g /\ rf_slot g = Z.to_nat (Reorder.tag w)).
  { intros w Hw. apply (fo_waiting _ _ _ Hf t c w Ht); [|done]. apply list_elem_of_lookup_2 in Ec. exact Ec. }
  assert (Hothers : forall d, d ∈ recvreorder_ctrl (with_ctrl x (Z.to_nat tid) c1) -> d = c1 \/ d ∈ recvreorder_ctrl x).
  { intros d Hd. cbn [recvreorder_ctrl with_ctrl] in Hd. apply list_elem_of_lookup in Hd as [i Hi]. apply list_lookup_insert_Some in Hi as [(_ & -> & _)|[_ Hi]]; [auto|].
    right. apply list_elem_of_lookup_2 in Hi. exact Hi. }
  destruct Hr as [(Hr & -> & Hp)|(-> & Hp)]; [left | right]; (split; [done|]).
  - apply (frames_change [rf_slot f] _ F s _ t (with_ctrl x (Z.to_nat tid) c1)); try done.
    + apply (fo_pool _ _ _ Hf).
    + apply Permutation_app_head, Permutation_app_tail. fold x. apply (Permutation_app_inv_r (window_slots c)). rewrite HH. unfold window_slots. rewrite Hp. done.
    + intros k g Hk Hg. exists g. done.
    + intros d w Hd Hw. destruct (Hothers d Hd) as [->|Hd']; [rewrite Hp in Hw; apply Hold, Hw | apply (fo_waiting _ _ _ Hf t d w Ht Hd' Hw)].
  - cbv zeta. set (s2 := with_waiting _ _). set (slot := fun w : Reorder.frame => Z.to_nat (Reorder.tag w)).
    assert (Hs : slot (in_window f) = rf_slot f) by (unfold slot, in_window; cbn [Reorder.tag]; lia).
    assert (Hw2 : forall k g, waiting s !! k = Some g -> rf_slot g = k -> exists g', waiting s2 !! k = Some g' /\ rf_slot g' = k).
    { intros k g Hk Hg. cbn [s2 waiting with_waiting with_stas with_valid]. destruct (decide (k = rf_slot f)) as [->|Hne].
      - exists f. rewrite lookup_insert. case_decide; done.
      - exists g. rewrite lookup_insert_ne by done. done. }
    assert (Hnew : forall w, w ∈ o ++ Reorder.pending c1 -> exists g, waiting s2 !! slot w = Some g /\ rf_slot g = slot w).
    { intros w Hw. rewrite Hp in Hw. apply elem_of_cons in Hw as [->|Hw].
      - exists f. rewrite Hs. cbn [s2 waiting with_waiting]. rewrite lookup_insert. case_decide; done.
      - destruct (Hold w Hw) as (g & G1 & G2). apply (Hw2 _ g); done. }
    split; [|intros w Hw; apply Hnew, elem_of_app; auto].
    apply (frames_change [rf_slot f] _ F s _ t (with_ctrl x (Z.to_nat tid) c1)); try done.
    + apply (fo_pool _ _ _ Hf).
    + rewrite !app_assoc. apply Permutation_app_tail. fold x. apply (Permutation_app_inv_r (window_slots c)). rewrite <- !app_assoc, HH.
      apply (Permutation_map slot) in Hp. rewrite map_app in Hp. cbn [map] in Hp. rewrite Hs in Hp.
      change (map slot (Reorder.pending c1)) with (window_slots c1) in Hp. change (map slot (Reorder.pending c)) with (window_slots c) in Hp.
      transitivity ((map slot o ++ window_slots c1) ++ held x); [solve_Permutation|]. rewrite Hp. solve_Permutation.
    + intros d w Hd Hw. destruct (Hothers d Hd) as [->|Hd']; [apply Hnew, elem_of_app; auto|].
      destruct (fo_waiting _ _ _ Hf t d w Ht Hd' Hw) as (g & G1 & G2). apply (Hw2 _ g); done.
Qed.

(** A window changed in place, its frames apart. *)
Lemma with_window_frames L k g s : (forall c, Reorder.pending (g c) = Reorder.pending c) -> frames_ok L F s -> frames_ok L F (with_window k g s).
Proof.
  unfold with_window. intros Hg Hf. destruct (l_psta (link_of k s)) as [t|] eqn:El; [|done]. destruct (l_tid _) as [tid|]; [|done].
  destruct (recvreorder_ctrl (sta_at (stas s) t) !! Z.to_nat tid) as [c|] eqn:Ec; [|done]. pose proof (fo_links _ _ _ Hf _ _ El) as Ht.
  pose proof (held_ctrl _ (Z.to_nat tid) c (g c) Ec) as HH. unfold window_slots in HH. rewrite Hg in HH. apply Permutation_app_inv_r in HH.
  apply (frames_change L L F s _ t (with_ctrl (sta_at (stas s) t) (Z.to_nat tid) (g c))); try done.
  - apply (fo_pool _ _ _ Hf).
  - rewrite HH. done.
  - intros j h Hj Hh. exists h. done.
  - intros d w Hd Hw. cbn [recvreorder_ctrl with_ctrl] in Hd. apply list_elem_of_lookup in Hd as [i Hi].
    apply list_lookup_insert_Some in Hi as [(_ & <- & _)|[_ Hi]].
    + rewrite Hg in Hw. apply list_elem_of_lookup_2 in Ec. apply (fo_waiting _ _ _ Hf t c w Ht Ec Hw).
    + apply list_elem_of_lookup_2 in Hi. apply (fo_waiting _ _ _ Hf t d w Ht Hi Hw).
Qed.

Lemma dropped L s d : frames_ok L F s -> frames_ok L F (with_drops d s).
Proof. intros H. apply (frames_same L L F s); try done. apply (fo_pool _ _ _ H). Qed.

Lemma post_reorder_frames orig f s ret s' : rf_slot orig = rf_slot f -> post_reorder E orig f s = Ok (ret, s') -> frames_ok [rf_slot f] F s -> frames_ok [] F s'.
Proof.
  unfold post_reorder. intros -> H Hf.
  assert (Hc : frames_ok [rf_slot f] F (count_frame (rf_slot f) s)).
  { unfold count_frame. destruct (l_psta _); [|exact Hf]. apply (frames_same [rf_slot f] _ F s); try done. apply (fo_pool _ _ _ Hf). }
  destruct (path_reorder E f _) as [[r out] s1] eqn:Er. apply path_reorder_frames in Er as [[Hr H1]|[-> [H1 H2]]]; [| |exact Hc].
  - destruct (r =? FAIL) eqn:Ef; [injection H as _ <-; apply dropped, frames_freed; done|].
    assert (Hn2 : (r =? RTW_RX_HANDLED) = false) by (destruct Hr as [-> | ->]; [discriminate | done]). rewrite Hn2 in H. res_inv. destruct a as [ret2 s2].
    destruct (hand_up_frames E F Hn Hz f _ ret2 s2 [] Ha) as [H3 _]; [apply with_window_frames; done|]. injection H as _ <-.
    destruct (ret2 =? FAIL); [apply dropped|]; apply with_window_frames; done.
  - change (RTW_RX_HANDLED =? FAIL) with false in H. rewrite Z.eqb_refl in H. cbv iota in H. res_inv.
    apply (hand_up_all_frames E F Hn Hz out _ _ Ha H1 H2).
Qed.

Lemma post_defrag_frames orig f s ret s' : rf_slot orig = rf_slot f -> post_defrag E orig f s = Ok (ret, s') -> frames_ok [rf_slot f] F s -> frames_ok [] F s'.
Proof.
  unfold post_defrag. intros Ho H Hf. res_inv. destruct a as [[g|] s1]; apply (portctrl_frames E F Hn Hz f s _ s1 []) in Ha; try exact Hf.
  - destruct Ha as [-> ->]. apply (post_reorder_frames orig f s ret s'); done.
  - injection H as _ <-. apply dropped. exact Ha.
Qed.

Lemma posthandle_frames f s ret s' : recv_func_posthandle E f s = Ok (ret, s') -> frames_ok [rf_slot f] F s -> unnumbered f -> frames_ok [] F s'.
Proof.
  unfold recv_func_posthandle. intros H Hf [Hu Hm]. res_inv. destruct a as [r s1]. apply (decryptor_frames E F Hn Hz f s r s1 []) in Ha; [|exact Hf].
  destruct r as [g|]; [|injection H as _ <-; apply dropped; exact Ha]. destruct Ha as (H1 & Hs & Hfr & Hmf). res_inv. destruct a as [r2 s2].
  apply (path_defrag_frames E F Hn Hz) in Ha; [|exact H1 | rewrite Hmf; exact Hm]. destruct r2 as [g2|]; [|injection H as _ <-; apply dropped; exact Ha].
  destruct Ha as [H2 Hs2]. rewrite Hfr in Hs2. specialize (Hs2 Hu). apply (post_defrag_frames g g2 s2 ret s'); [symmetry; exact Hs2 | done | done].
Qed.

(** The queue of frames that wait for the key. *)
Lemma frames_push f s : frames_ok [rf_slot f] F s -> unnumbered f -> frames_ok [] F (with_pending (pending_q s ++ [f]) s).
Proof.
  intros [H1 H2 H3 H4 H5 H6 H7] Hu. split; try done.
  - rewrite <- H2. unfold stored. cbn [pending_q with_pending stas with_valid s_valid s_pool app].
    change (stas (with_pending (pending_q s ++ [f]) s)) with (stas s). unfold slots. rewrite map_app. cbn [map]. solve_Permutation.
  - cbn [pending_q with_pending]. apply Forall_app. split; [done|]. apply List.Forall_cons; [done | apply List.Forall_nil].
Qed.

Lemma frames_pop f q s : frames_ok [] F s -> pending_q s = f :: q -> frames_ok [rf_slot f] F (with_pending q s) /\ unnumbered f.
Proof.
  intros [H1 H2 H3 H4 H5 H6 H7] E0. rewrite E0 in H7. apply Forall_cons_1 in H7 as [Hu Hq]. split; [|done]. split; try done.
  rewrite <- H2. unfold stored. rewrite E0. cbn [pending_q with_pending s_pool app]. change (stas (with_pending q s)) with (stas s).
  unfold slots. cbn [map]. solve_Permutation.
Qed.

Lemma drain_frames n : forall s s', drain_pending E n s = Ok s' -> frames_ok [] F s -> frames_ok [] F s'.
Proof.
  induction n as [|n IH]; intros s s' H Hf; cbn [drain_pending] in H; [injection H as <-; done|].
  destruct (pending_q s) as [|f q] eqn:Eq; [injection H as <-; done|]. res_inv. destruct a as [r s1].
  destruct (frames_pop f q s Hf Eq) as [H1 Hu]. apply (posthandle_frames f _ r s1) in Ha; [|done|done]. apply (IH s1 s' H Ha).
Qed.
End Windows.

(** ** Theorem: where the frames are *)

Section Entry.
  Context (E : path_env) (F : list nat) (Hn : NoDup F) (Hz : zlen F <= NR_RECVFRAME).

(** The frame is no later fragment of an MSDU. *)
Definition first_fragment (f : recv_frame) : Prop := forall sc, GET_LE16 (rf_mem f) (rx_data f + 22) = Ok sc -> GetFragNum sc = 0.

Lemma frame_checked f v d ret f' l v' d' : validate_recv_frame (pe E) f v d = Ok (ret, f', l, v', d') -> first_fragment f ->
  rf_slot f' = rf_slot f /\ (ret = SUCCESS -> unnumbered f') /\
  (v_stas v' = v_stas v \/ exists t ad r, rtw_get_stainfo (v_stas v) ad = Some t /\
     v_stas v' = set_sta (v_stas v) t (with_recvpriv (sta_at (v_stas v) t) r)) /\
  (l_psta l = None \/ exists ad, l_psta l = rtw_get_stainfo (v_stas v) ad).
Proof.
  unfold validate_recv_frame. intros H Hf. res_inv. destruct (negb _) in H; [injection H as <- <- <- <- _; split; [done|]; split; [discriminate | split; left; done]|].
  res_inv. destruct (_ || _) in H; [|destruct (_ =? WIFI_DATA_TYPE) in H].
  - discriminate.
  - res_inv. destruct a2 as [[[r g] l2] v2]. injection H as <- <- <- <- _. apply data_frame_checked in Ha2 as [[D1 D2 D3 D4 D5 _] Hl].
    split; [exact D1|]. split; [|auto]. intros Hr. split; [rewrite (D4 Hr); apply (Hf _ Ha1)|]. rewrite (D5 Hr).
    cbn [attrib with_attrib a_mfrag with_qos with_header]. destruct (flag_cases a0 10) as [E0|E0]; unfold GetMFrag, is_flag; rewrite E0; auto.
  - injection H as <- <- <- <- _. split; [done|]. split; [discriminate | split; left; done].
Qed.

Lemma prehandle_frames f s ret f' s' : recv_func_prehandle E f s = Ok (ret, f', s') -> frames_ok [rf_slot f] F s -> first_fragment f ->
  if ret =? SUCCESS then frames_ok [rf_slot f'] F s' /\ unnumbered f' else frames_ok [] F s'.
Proof.
  unfold recv_func_prehandle. intros H Hf H1. res_inv. destruct a as [[[[r g] l] v] d]. injection H as <- <- <-.
  apply frame_checked in Ha as (Hs & Hu & Hv & Hl); [|exact H1]. fold (stas s) in Hv, Hl. pose proof (fo_table _ _ _ Hf) as HT.
  set (s1 := with_drops _ _).
  assert (Hlinked : forall ad t, rtw_get_stainfo (stas s) ad = Some t -> t ∈ linked (stas s)).
  { intros [h|] t Ht; [|discriminate]. apply get_spec in Ht as [? _]; done. }
  assert (Hv1 : frames_ok [rf_slot f] F (with_valid v s)).
  { destruct Hv as [Ev|(t & ad & x & Ht & Ev)].
    - apply (frames_same [rf_slot f] _ F s); try done. apply (fo_pool _ _ _ Hf).
    - apply Hlinked in Ht. apply (frames_change [rf_slot f] _ F s _ t (with_recvpriv (sta_at (stas s) t) x) Hf Ht); try done; [apply (fo_pool _ _ _ Hf)| eauto |].
      intros c w Hc Hw. apply (fo_waiting _ _ _ Hf t c w Ht Hc Hw). }
  assert (Hlk : linked (stas s1) = linked (stas s)).
  { change (stas s1) with (v_stas v). destruct Hv as [Ev|(t & ad & x & _ & Ev)]; rewrite Ev; done. }
  assert (Hs1 : frames_ok [rf_slot g] F s1).
  { rewrite Hs. destruct Hv1 as [G1 G2 G3 G4 G5 G6 G7]. split; try done. intros k t Hk. rewrite Hlk. unfold link_of in Hk.
    cbn [s1 links with_drops with_link with_valid] in Hk. rewrite lookup_insert in Hk. case_decide.
    - change (l_psta l = Some t) in Hk. destruct Hl as [Hl|[ad Hl]]; rewrite Hl in Hk; [discriminate | eapply Hlinked; exact Hk].
    - apply (fo_links _ _ _ Hf k t Hk). }
  destruct (r =? SUCCESS) eqn:Er; cbn [negb]; [split; [exact Hs1 | apply Hu; lia]|]. rewrite Hs. rewrite Hs in Hs1. apply frames_freed; done.
Qed.

(** A frame that is set aside while others are worked on. *)
Lemma frames_aside x s : frames_ok [x] F s -> exists F', F ≡ₚ x :: F' /\ frames_ok [] F' s /\
  forall s', frames_ok [] F' s' -> frames_ok [x] F s'.
Proof.
  intros H. exists (stored s). split; [symmetry; apply (fo_perm _ _ _ H)|]. split; [destruct H; split; done|].
  intros s' [G1 G2 G3 G4 G5 G6 G7]. split; try done. cbn [app] in G2 |- *. rewrite G2. apply (fo_perm _ _ _ H).
Qed.

Lemma drained f s s' : drain_pending E (length (pending_q s)) s = Ok s' -> frames_ok [rf_slot f] F s -> frames_ok [rf_slot f] F s'.
Proof.
  intros H Hf. destruct (frames_aside _ _ Hf) as (F' & HP & H0 & Hback). apply Hback. pose proof Hn as Hn'. rewrite HP in Hn'.
  apply list.NoDup_cons in Hn' as [_ Hn']. apply (drain_frames E F' Hn') in H; try done.
  apply Permutation_length in HP. cbn [length] in HP. unfold zlen in *. lia.
Qed.

Lemma recv_func_frames f s ret s' : recv_func E f s = Ok (ret, s') -> frames_ok [rf_slot f] F s -> first_fragment f ->
  frames_ok [] F s'.
Proof.
  unfold recv_func. intros H Hf H1. destruct (in_state (pe E) WIFI_MONITOR_STATE); [injection H as _ <-; apply frames_freed; done|]. res_inv.
  assert (H2 : frames_ok [rf_slot f] F a).
  { clear H. destruct (_ && _) in Ha; [apply (drained f s a); done | injection Ha as <-; done]. }
  res_inv. destruct a0 as [[r g] s1]. apply prehandle_frames in Ha0; [|exact H2 | exact H1].
  destruct (r =? SUCCESS); cbn [negb] in H; [|injection H as _ <-; exact Ha0]. destruct Ha0 as [H3 Hu].
  destruct (must_wait E g); [|apply (posthandle_frames E F Hn Hz g s1 ret s'); done].
  pose proof (frames_push F g s1 H3 Hu) as H4. destruct (_ <? _) in H; [|injection H as _ <-; exact H4].
  destruct (pending_q s1 ++ [g]) as [|h q] eqn:Eq; [destruct (pending_q s1); discriminate|].
  destruct (frames_pop F h q _ H4) as [H5 Hv]; [reflexivity|]. apply (posthandle_frames E F Hn Hz h _ ret s' H); done.
Qed.

End Entry.

(** ** Examples *)

(** The access point of [ex_stas], behind a blocked port, its key still zero. *)
Definition ex_blocked_sta : sta_info :=
  let x := sta_at ex_stas 1 in
  mkSta (mac_addr x) (sta_state x) (flags x) (aid x) 1 AES (zeros 32) (sta_recvpriv x) (sta_defrag x) (recvreorder_ctrl x) (on_auth_list x).
Definition ex_blocked_stas : sta_priv := set_sta ex_stas 1 ex_blocked_sta.
Definition ex_path (auth_psk busetkip : bool) : path_env :=
  mkPath ex_wpa_env 0 (fun n => Some (replicate (Z.to_nat n) 0)) true RTW_AMSDU_MODE_NON_SPP busetkip false auth_psk
    (fun _ => zeros 8) [] 0 (fun _ => true) false (fun _ => true).
Definition ex_state (q : list nat) : rx_state :=
  mkState (mkValid ex_blocked_stas (replicate 4 (zeros 8)) false (mkSide 0 0 [])) ex_sw_sec crc_state0
    (mkGk 0 0 0) (mkGk 0 0 0) (mkGk 0 0 0) false (mkPool q (zlen q)) ∅ ∅ [] 0 [] 0 [].

(** An IP packet in an A-MSDU of one subframe whose source address begins 88:8e, sealed under the zero key. *)
Definition ex_evil : sub := mkSub ex_me [0x88; 0x8e; 0; 0; 0; 1] (RecvValid.ex_snap [8; 0]).
Definition ex_sealed (qc : list Z) (body : list Z) : list Z :=
  let h := [0x88; 0x42; 0; 0] ++ ex_me ++ ex_ap ++ ex_far ++ [0x50; 0] ++ qc in
  let b := h ++ [1; 0; 0; 0x20; 0; 0; 0; 0] ++ body ++ zeros 8 in
  match _rtw_ccmp_encrypt (fun n => Some (replicate (Z.to_nat n) 0)) true RTW_AMSDU_MODE_NON_SPP (zeros 16) 16 26 b (zlen body) with Ok (_, b) => b | Fault _ => [] end.
Definition ex_air (slot : nat) (qc body : list Z) : recv_frame :=
  let b := ex_sealed qc body in
  mkRf slot (zeros 6 ++ b ++ zeros 64) 6 (6 + zlen b) (zlen b)
    (mkRa (mkRx 0 0 0 0 (zeros 6) (zeros 6)) 0 0 0 0 0 0 0 0 0 0 (zeros 6) (zeros 6) (zeros 6) 0 0 0 0) 0.
Definition ex_run (psk kip : bool) (f : recv_frame) : res (Z * rx_state) :=
  rtw_recv_entry (ex_path psk kip) f (ex_state (seq 1 255)).
Definition packets_of (r : res (Z * rx_state)) : option (list (list Z) * Z * nat * Z) :=
  match r with Ok (ret, s) => Some (packets s, ret, length (pending_q s), free_cnt (s_pool s)) | Fault _ => None end.

(** The packet goes up although the port is blocked; the same packet by itself does not, EAPOL does, and with WPA-PSK a frame
    waits for the key. *)
Example blocked_packets :
  map packets_of [ex_run false false (ex_air 0 [0x80; 0] (sub_bytes ex_evil)); ex_run false false (ex_air 0 [0; 0] (RecvValid.ex_snap [8; 0]));
                  ex_run false false (ex_air 0 [0; 0] (RecvValid.ex_snap [0x88; 0x8e])); ex_run true false (ex_air 0 [0; 0] (RecvValid.ex_snap [8; 0]))]
  = [Some ([ex_me ++ [0x88; 0x8e; 0; 0; 0; 1] ++ [8; 0; 1; 2; 3; 4]], SUCCESS, 0%nat, 256); Some ([], FAIL, 0%nat, 256);
     Some ([ex_me ++ ex_far ++ [0x88; 0x8e; 1; 2; 3; 4]], SUCCESS, 0%nat, 256); Some ([], SUCCESS, 1%nat, 255)].
Proof. vm_compute. reflexivity. Qed.

(** A window that is switched off follows the frames: after number 5 it stands at 6. *)
Example window_follows :
  match ex_run false false (ex_air 0 [0; 0] (RecvValid.ex_snap [0x88; 0x8e])) with
  | Ok (_, s) => option_map Reorder.indicate_seq (recvreorder_ctrl (sta_at (stas s) 1) !! 0%nat)
  | Fault _ => None
  end = Some 6.
Proof. vm_compute. reflexivity. Qed.

Lemma no_frames P : Forall (fun x => held x = []) (pstainfo_buf P) -> forall t, held (sta_at P t) = [].
Proof.
  intros H t. unfold sta_at. destruct (pstainfo_buf P !! t) as [x|] eqn:E; [|reflexivity]. rewrite Forall_lookup in H. exact (H _ _ E).
Qed.

Lemma ex_table_ok : table_ok ex_blocked_stas.
Proof.
  pose proof (sta_op_refines false (TAlloc bc_addr) (init_sta_priv 4) (mkPool [] 0) (proj1 (init_ok 4))) as H1.
  destruct (sta_run_op _ _ _) as [P1 p1] eqn:E1. destruct H1 as [H1 _]; [vm_compute; intuition congruence|].
  pose proof (sta_op_refines false (TAlloc ex_ap) P1 p1 H1) as H2. destruct (sta_run_op _ _ (P1, p1)) as [P2 p2] eqn:E2.
  destruct H2 as [H2 _]; [vm_compute; intuition congruence|].
  assert (E : P2 = ex_stas).
  { vm_compute in E1. injection E1 as <- <-. vm_compute in E2. injection E2 as <- <-. vm_compute. reflexivity. }
  subst P2. unfold ex_blocked_stas. apply set_sta_ok; [done | | vm_compute; reflexivity].
  apply list_elem_of_In. vm_compute. auto.
Qed.

Lemma ex_frames_ok : frames_ok [0%nat] (seq 0 256) (ex_state (seq 1 255)).
Proof.
  assert (H0 : forall t, held (sta_at ex_blocked_stas t) = []).
  { apply no_frames. assert (H : forallb (fun x => bool_decide (held x = [])) (pstainfo_buf ex_blocked_stas) = true) by (vm_compute; reflexivity).
    apply Forall_forall. intros x Hx. rewrite forallb_forall in H. apply list_elem_of_In in Hx. specialize (H x Hx).
    apply bool_decide_eq_true in H. exact H. }
  split; [exact ex_table_ok | vm_compute; reflexivity | vm_compute; reflexivity | intros; apply H0 | | | apply List.Forall_nil].
  - intros t c w _ Hc Hw. exfalso. specialize (H0 t). unfold held in H0. apply app_eq_nil in H0 as [H0 _].
    apply list_elem_of_lookup in Hc as [i Hi]. change (stas (ex_state (seq 1 255))) with ex_blocked_stas in Hi.
    assert (Hm : map (fun f => Z.to_nat (Reorder.tag f)) (Reorder.pending c) = []).
    { apply concat_nil_Forall in H0. rewrite Forall_map, Forall_lookup in H0. exact (H0 i c Hi). }
    destruct (Reorder.pending c); [apply elem_of_nil in Hw; done | discriminate].
  - intros k t Hk. unfold link_of in Hk. cbn [links ex_state] in Hk. rewrite lookup_empty in Hk. discriminate.
Qed.

Lemma ex_first : first_fragment (ex_air 0 [0x80; 0] (sub_bytes ex_evil)).
Proof.
  assert (H0 : GET_LE16 (rf_mem (ex_air 0 [0x80; 0] (sub_bytes ex_evil))) (rx_data (ex_air 0 [0x80; 0] (sub_bytes ex_evil)) + 22) = Ok 0x50)
    by (vm_compute; reflexivity).
  intros sc H. rewrite H0 in H. injection H as <-. reflexivity.
Qed.


(** A QoS frame from that station, its IV and check value still in place, and its window, which is switched off. *)
Definition ex_mpdu_frame (amsdu : Z) (m : list Z) : recv_frame :=
  ex_frag_frame 0 (mkRa (mkRx AES 26 8 0 ex_ap ex_me) 8 2 amsdu 1 0 9 0 0 1 1 ex_me ex_far ex_ap 0 0 0 0) (zeros 26 ++ Defrag.ex_pn5 ++ m ++ zeros 8) [].

Definition ex_port_state : rx_state := with_link 0 (mkLink (Some 1%nat) (Some 0)) (ex_state (seq 1 255)).

Lemma ex_at_port amsdu m : bytes m -> 8 <= zlen m < 65536 ->
  at_blocked_port (ex_path false false) (ex_mpdu_frame amsdu m) ex_port_state (zeros 4) (zeros 26) Defrag.ex_pn5 m (zeros 8) [].
Proof.
  intros Hb Hl. split; try done; [|exists 1%nat; split; vm_compute; [reflexivity | discriminate]].
  constructor; [constructor | reflexivity ..]; try reflexivity; rewrite !zlen_app; unfold zlen in *; cbn [length zeros replicate]; cbn; lia.
Qed.

Lemma ex_straight_up amsdu m : straight_up (ex_path false false) (ex_mpdu_frame amsdu m) ex_port_state.
Proof. split; [|reflexivity | reflexivity]. vm_compute. intros c H. injection H as <-. reflexivity. Qed.

Lemma blocked_port_passes_eapol_witness :
  let f ty := ex_mpdu_frame 0 (RecvValid.ex_snap ty) in
  (exists s', post_defrag (ex_path false false) (f [8; 0]) (f [8; 0]) ex_port_state = Ok (FAIL, s') /\ packets s' = []) /\
  (exists s', post_defrag (ex_path false false) (f [0x88; 0x8e]) (f [0x88; 0x8e]) ex_port_state = Ok (SUCCESS, s') /\
     packets s' = [ex_me ++ ex_far ++ [0x88; 0x8e; 1; 2; 3; 4]]).
Proof.
  intros f. assert (Hb : forall ty, bytes (RecvValid.ex_snap ty) -> zlen (RecvValid.ex_snap ty) = 12 -> at_blocked_port (ex_path false false) (f ty) ex_port_state
    (zeros 4) (zeros 26) Defrag.ex_pn5 (RecvValid.ex_snap ty) (zeros 8) []) by (intros ty H1 H2; apply ex_at_port; [exact H1 | rewrite H2; lia]).
  split.
  - destruct (blocked_port_passes_eapol (ex_path false false) (f [8; 0]) (f [8; 0]) ex_port_state _ _ _ _ _ _
      (Hb [8; 0] ltac:(apply bytes_by_compute; reflexivity) eq_refl)) as [H _].
    destruct (H eq_refl) as (s' & H1 & H2 & _). exists s'. split; [exact H1 | exact H2].
  - destruct (blocked_port_passes_eapol (ex_path false false) (f [0x88; 0x8e]) (f [0x88; 0x8e]) ex_port_state _ _ _ _ _ _
      (Hb [0x88; 0x8e] ltac:(apply bytes_by_compute; reflexivity) eq_refl)) as [_ H].
    destruct (H eq_refl eq_refl (ex_straight_up _ _)) as (s' & H1 & H2 & _). exists s'. split; [exact H1|]. rewrite H2. vm_compute. reflexivity.
Defined.

Lemma blocked_port_open_to_amsdus_witness :
  exists s', post_defrag (ex_path false false) (ex_mpdu_frame 1 (sub_bytes ex_evil)) (ex_mpdu_frame 1 (sub_bytes ex_evil)) ex_port_state = Ok (SUCCESS, s') /\
    packets s' = [ex_me ++ [0x88; 0x8e; 0; 0; 0; 1] ++ [8; 0; 1; 2; 3; 4]].
Proof.
  destruct (blocked_port_open_to_amsdus (ex_path false false) (ex_mpdu_frame 1 (sub_bytes ex_evil)) (ex_mpdu_frame 1 (sub_bytes ex_evil)) ex_port_state (zeros 4) (zeros 26)
              Defrag.ex_pn5 (sub_bytes ex_evil) (zeros 8) [] ex_evil []) as (s' & H1 & H2).
  - apply ex_at_port; [apply bytes_by_compute; vm_compute; reflexivity | vm_compute; split; [discriminate | reflexivity]].
  - apply ex_straight_up.
  - discriminate.
  - rewrite <- (app_nil_r (sub_bytes ex_evil)). apply amsdu_last; [| discriminate | vm_compute; discriminate].
    split; [reflexivity|]. split; [reflexivity|]. split; [apply bytes_by_compute; reflexivity | vm_compute; reflexivity].
  - reflexivity.
  - apply List.Forall_cons; [reflexivity | apply List.Forall_nil].
  - reflexivity.
  - exists s'. split; [exact H1|]. rewrite H2. vm_compute. reflexivity.
Defined.
