(* ===== verification/TxFrame.v ===== *)
(** * Data frames to send

    From [core/rtw_xmit.c]: the packet numbers and the cipher of a frame ([update_attrib_sec_info]), its priority, its header
    ([rtw_make_wlanhdr]) and [rtw_xmitframe_coalesce], which cuts a packet into fragments in the transmit buffer, adds the Michael
    code and encrypts. What the lines fill in for the hardware (rates, protection, descriptors) is left out. *)
From Stdlib Require Import ZArith Lia Bool.
From stdpp Require Import base option list numbers gmap.
From S2P Require Import Prelude Sec Crc32 Wep Michael Tkip Ccmp SwCrypt Bip RecvFrame RecvPn StaTable RecvValid.
Local Open Scope Z_scope.

(** ** Data *)

(* src: include/ieee80211.h:512-526 eap_type *)
Inductive eap_type : Type :=
| EAP_PACKET | NON_EAPOL | EAPOL_START | EAPOL_LOGOFF | EAPOL_KEY | EAPOL_ENCAP_ASF_ALERT | EAPOL_PACKET
| EAPOL_WPA_GROUP_KEY_1_2 | EAPOL_WPA_GROUP_KEY_2_2 | EAPOL_1_4 | EAPOL_2_4 | EAPOL_3_4 | EAPOL_4_4.

(** What a station's record holds for sending: sequence numbers, where block acknowledgement starts, the packet number, the
    Michael key, the time of the last plain EAPOL key frame. *)
(* src: include/sta_info.h:264-300 sta_info *)
Record sta_xmit : Type := mkStaXmit {
  txseq_tid : list Z; BA_starting_seqctrl : list Z; dot11txpn : Z; dot11tkiptxmickey : list Z;
  resp_nonenc_eapol_key_starttime : Z }.

Definition no_xmit : sta_xmit := mkStaXmit (replicate 16 0) (replicate 16 0) 0 (zeros 32) 0.

(** The attributes of a frame; [x_sec] are those that the ciphers read too. *)
(* src: include/rtw_xmit.h:394-491 pkt_attrib *)
Record tx_attrib : Type := mkTa {
  x_sec : pkt_attrib;
  x_subtype : Z; x_bswenc : bool; x_ether_type : Z; x_seqnum : Z; x_pkt_hdrlen : Z; x_pktlen : Z;
  x_iv : list Z; x_icv : list Z; x_priority : Z; x_ack_policy : Z; x_dst : list Z; x_src : list Z; x_key_idx : Z; x_qos_en : bool;
  x_ampdu_en : bool; x_amsdu : bool; x_mdata : bool; x_eosp : Z; x_psta : option nat; x_mickey : list Z }.

Definition with_xsec (a : tx_attrib) (s : pkt_attrib) : tx_attrib :=
  mkTa s (x_subtype a) (x_bswenc a) (x_ether_type a) (x_seqnum a) (x_pkt_hdrlen a) (x_pktlen a) (x_iv a) (x_icv a) (x_priority a)
    (x_ack_policy a) (x_dst a) (x_src a) (x_key_idx a) (x_qos_en a) (x_ampdu_en a) (x_amsdu a) (x_mdata a) (x_eosp a) (x_psta a) (x_mickey a).
Definition x_encrypt (a : tx_attrib) : Z := t_encrypt (x_sec a).
Definition x_hdrlen (a : tx_attrib) : Z := t_hdrlen (x_sec a).
Definition x_iv_len (a : tx_attrib) : Z := t_iv_len (x_sec a).
Definition x_icv_len (a : tx_attrib) : Z := t_icv_len (x_sec a).
Definition x_ra (a : tx_attrib) : list Z := t_ra (x_sec a).
Definition x_ta (a : tx_attrib) : list Z := t_ta (x_sec a).

Definition with_keys (key mickey : list Z) (a : tx_attrib) : tx_attrib :=
  let s := x_sec a in
  mkTa (mkTx (t_encrypt s) (t_hdrlen s) (t_iv_len s) (t_icv_len s) (t_nr_frags s) (t_last_txcmdsz s) (t_ta s) (t_ra s) key)
    (x_subtype a) (x_bswenc a) (x_ether_type a) (x_seqnum a) (x_pkt_hdrlen a) (x_pktlen a) (x_iv a) (x_icv a) (x_priority a)
    (x_ack_policy a) (x_dst a) (x_src a) (x_key_idx a) (x_qos_en a) (x_ampdu_en a) (x_amsdu a) (x_mdata a) (x_eosp a) (x_psta a) mickey.
Definition with_encrypt (encrypt iv_len icv_len : Z) (a : tx_attrib) : tx_attrib :=
  let s := x_sec a in with_xsec a (mkTx encrypt (t_hdrlen s) iv_len icv_len (t_nr_frags s) (t_last_txcmdsz s) (t_ta s) (t_ra s) (t_UncstKey s)).
Definition with_frags (nr last : Z) (a : tx_attrib) : tx_attrib :=
  let s := x_sec a in with_xsec a (mkTx (t_encrypt s) (t_hdrlen s) (t_iv_len s) (t_icv_len s) nr last (t_ta s) (t_ra s) (t_UncstKey s)).
Definition with_iv (iv : list Z) (key_idx : Z) (bswenc : bool) (a : tx_attrib) : tx_attrib :=
  mkTa (x_sec a) (x_subtype a) bswenc (x_ether_type a) (x_seqnum a) (x_pkt_hdrlen a) (x_pktlen a) iv (x_icv a) (x_priority a)
    (x_ack_policy a) (x_dst a) (x_src a) key_idx (x_qos_en a) (x_ampdu_en a) (x_amsdu a) (x_mdata a) (x_eosp a) (x_psta a) (x_mickey a).
Definition with_seq (seq : Z) (ampdu : bool) (a : tx_attrib) : tx_attrib :=
  mkTa (x_sec a) (x_subtype a) (x_bswenc a) (x_ether_type a) seq (x_pkt_hdrlen a) (x_pktlen a) (x_iv a) (x_icv a) (x_priority a)
    (x_ack_policy a) (x_dst a) (x_src a) (x_key_idx a) (x_qos_en a) ampdu (x_amsdu a) (x_mdata a) (x_eosp a) (x_psta a) (x_mickey a).

(** The adapter and its settings. [qos_option] is that of the network joined, [bmc_conflict] whether the key table of the chip
    can not tell pairwise from group keys. [t_junk] is an uninitialised local of the TKIP routine; the last three belong to the AES code. *)
Record tx_env : Type := mkTxEnv {
  te : rx_env; pqos_option : bool; frag_len : Z; sw_encrypt_reg : bool; t_hw_decrypted : bool; bmc_conflict : bool;
  t_busetkipkey : bool; grp_txmickey : list (list Z);
  t_junk : Z; t_malloc : Z -> option (list Z); t_aes_alloc : bool; t_amsdu_mode : Z }.

(** ** Packet numbers *)

Definition TSC (pn i : Z) : Z := Z.shiftr pn (8 * i) & 0xff.

(* src: include/rtw_xmit.h:145-152 WEP_IV *)
Definition WEP_IV (pn keyidx : Z) : list Z * Z :=
  let pn := if pn =? 0xffffff then 0 else u64 (pn + 1) in
  ([TSC pn 0; TSC pn 1; TSC pn 2; Z.shiftl (keyidx & 0x3) 6], pn).

(* src: include/rtw_xmit.h:155-166 TKIP_IV *)
Definition TKIP_IV (pn keyidx : Z) : list Z * Z :=
  let pn := if pn =? 0xffffffffffff then 0 else u64 (pn + 1) in
  ([TSC pn 1; (TSC pn 1 .| 0x20) & 0x7f; TSC pn 0; BIT 5 .| Z.shiftl (keyidx & 0x3) 6; TSC pn 2; TSC pn 3; TSC pn 4; TSC pn 5], pn).

(* src: include/rtw_xmit.h:168-181 AES_IV *)
Definition AES_IV (pn keyidx : Z) : list Z * Z :=
  let pn := if pn =? 0xffffffffffff then 0 else u64 (pn + 1) in
  ([TSC pn 0; TSC pn 1; 0; BIT 5 .| Z.shiftl (keyidx & 0x3) 6; TSC pn 2; TSC pn 3; TSC pn 4; TSC pn 5], pn).

(** ** The cipher *)

(** The first bytes of an array replaced. *)
Definition put_front (new old : list Z) : list Z := new ++ drop (length new) old.

Section Transmit.
  Context (T : tx_env).

Let E : rx_env := te T.

(** [psta->ieee8021x_blocked], or a key frame that must be sent as the one it answers came. *)
(* src: core/rtw_xmit.c:1242-1244 update_attrib_sec_info *)
Definition sends_plain (x : sta_info) (m : sta_xmit) (eapol_type : eap_type) : bool :=
  (ieee8021x_blocked x =? 1)
  || (match eapol_type with EAPOL_2_4 | EAPOL_4_4 => true | _ => false end
      && (passing_ms E (resp_nonenc_eapol_key_starttime m) <=? 100)).

(* src: core/rtw_xmit.c:1266-1283 update_attrib_sec_info *)
Definition key_index (sec : security_priv) (bmcast : bool) (encrypt ether_type old : Z) : Z * Z :=
  (if (encrypt =? WEP40) || (encrypt =? WEP104) then if ether_type =? EAPOL_TYPE then NO_PRIVACY else encrypt else encrypt,
   if (dot11AuthAlgrthm E =? 0) || (dot11AuthAlgrthm E =? 1) || (dot11AuthAlgrthm E =? 3) then u8 (dot11PrivacyKeyIndex sec)
   else if dot11AuthAlgrthm E =? dot11AuthAlgrthm_8021X then if bmcast then u8 (dot118021XGrpKeyid sec) else 0
   else 0).

(** IV and lengths; [None] when the TKIP keys are not set. *)
(* src: core/rtw_xmit.c:1301-1372 update_attrib_sec_info *)
Definition set_iv (bmcast : bool) (m : sta_xmit) (a : tx_attrib) : option (tx_attrib * Z * list Z) :=
  let enc := x_encrypt a in
  let k := if bmcast then x_key_idx a else 0 in
  let put '(iv, pn) n c := Some (with_encrypt enc n c (with_iv (put_front iv (x_iv a)) (x_key_idx a) (x_bswenc a) a), pn, x_mickey a) in
  if (enc =? WEP40) || (enc =? WEP104) then put (WEP_IV (dot11txpn m) (x_key_idx a)) 4 4
  else if enc =? TKIP then
    if negb (t_busetkipkey T) then None
    else
      let '(iv, pn) := TKIP_IV (dot11txpn m) k in
      Some (with_encrypt enc 8 4 (with_iv (put_front iv (x_iv a)) (x_key_idx a) (x_bswenc a) a), pn,
            put_front (take 16 (dot11tkiptxmickey m)) (x_mickey a))
  else if enc =? AES then put (AES_IV (dot11txpn m) k) 8 8
  else if (enc =? GCMP) || (enc =? GCMP_256) || (enc =? CCMP_256) then put (AES_IV (dot11txpn m) k) 8 16
  else Some (with_encrypt enc 0 0 a, dot11txpn m, x_mickey a).

(** The verdict, the attributes, the packet number. A frame refused keeps what was set before. *)
(* src: core/rtw_xmit.c:1221-1407 update_attrib_sec_info *)
Definition update_attrib_sec_info (sec : security_priv) (x : sta_info) (m : sta_xmit) (eapol_type : eap_type) (a : tx_attrib)
    : Z * tx_attrib * Z :=
  let bmcast := IS_MCAST (x_ra a) in
  let a := with_keys (put_front (zeros 16) (t_UncstKey (x_sec a))) (put_front (zeros 16) (x_mickey a)) a in
  let plain := sends_plain x m eapol_type in
  let a := if plain then with_encrypt 0 (x_iv_len a) (x_icv_len a) a
           else
             let '(enc, k) := key_index sec bmcast (GET_ENCRY_ALGO E x (x_encrypt a) bmcast) (x_ether_type a) (x_key_idx a) in
             with_iv (x_iv a) k (x_bswenc a) (with_encrypt enc (x_iv_len a) (x_icv_len a) a) in
  if plain && negb (x_ether_type a =? EAPOL_TYPE) && negb (in_state E WIFI_MP_STATE) then (FAIL, a, dot11txpn m)
  else
    match set_iv bmcast m a with
    | None => (FAIL, with_encrypt TKIP 8 4 a, dot11txpn m)
    | Some (a, pn, mickey) =>
        let enc := x_encrypt a in
        let key := if 0 <? enc then put_front (take (if (enc & 0x10) =? 0 then 16 else 32) (dot118021x_UncstKey x)) (t_UncstKey (x_sec a))
                   else t_UncstKey (x_sec a) in
        let sw := negb (enc =? 0) && (sw_encrypt_reg T || negb (t_hw_decrypted T)) in
        let sw := if negb (enc =? 0) && bmcast && bmc_conflict T then true else sw in
        let sw := if negb (enc =? 0) && match eapol_type with EAPOL_4_4 => true | _ => false end then true else sw in
        (SUCCESS, with_iv (x_iv a) (x_key_idx a) sw (with_keys key mickey a), pn)
    end.

(** ** Priorities *)

(** [mode] is [CONFIG_RTW_UP_MAPPING_RULE], 0 in the build as it stands. *)
(* src: core/rtw_xmit.c:1441-1477 tos_to_up *)
Definition tos_to_up (mode tos : Z) : Z :=
  if mode =? 0 then Z.shiftr tos 5
  else
    let dscp := Z.shiftr tos 2 in
    if dscp =? 0 then 0
    else if (1 <=? dscp) && (dscp <=? 9) then 1
    else if (10 <=? dscp) && (dscp <=? 16) then 2
    else if (17 <=? dscp) && (dscp <=? 23) then 3
    else if (24 <=? dscp) && (dscp <=? 31) then 4
    else if (33 <=? dscp) && (dscp <=? 40) then 5
    else if ((41 <=? dscp) && (dscp <=? 47)) || (dscp =? 32) then 6
    else if (48 <=? dscp) && (dscp <=? 63) then 7
    else 0.

(* src: core/rtw_xmit.c:1409-1438 qos_acm *)
Definition qos_acm (acm_mask priority : Z) : Z :=
  if (priority =? 0) || (priority =? 3) then if (acm_mask & BIT 1) =? 0 then priority else 1
  else if (priority =? 1) || (priority =? 2) then priority
  else if (priority =? 4) || (priority =? 5) then if (acm_mask & BIT 2) =? 0 then priority else 0
  else if (priority =? 6) || (priority =? 7) then if (acm_mask & BIT 3) =? 0 then priority else 5
  else priority.
End Transmit.

(** The priority from the IP header, where the frame has one; [junk] is what the stack held when the packet is shorter. *)
(* src: core/rtw_xmit.c:1479-1519 set_qos *)
Definition set_qos (mode junk : Z) (pkt : list Z) (a : tx_attrib) : tx_attrib :=
  let up := if x_ether_type a =? 0x0800 then tos_to_up mode (default junk (pkt !! 15%nat)) else 0 in
  let s := x_sec a in
  mkTa (mkTx (t_encrypt s) WLAN_HDR_A3_QOS_LEN (t_iv_len s) (t_icv_len s) (t_nr_frags s) (t_last_txcmdsz s) (t_ta s) (t_ra s) (t_UncstKey s))
    WIFI_QOS_DATA_TYPE (x_bswenc a) (x_ether_type a) (x_seqnum a) (x_pkt_hdrlen a) (x_pktlen a) (x_iv a) (x_icv a) up
    (x_ack_policy a) (x_dst a) (x_src a) (x_key_idx a) (x_qos_en a) (x_ampdu_en a) (x_amsdu a) (x_mdata a) (x_eosp a) (x_psta a) (x_mickey a).

(** ** The header *)

Definition WLANHDR_OFFSET := 64.
Definition TO_DS := BIT 8.
Definition FROM_DS := BIT 9.
Definition MORE_FRAG := BIT 10.
Definition MORE_DATA := BIT 13.
Definition PRIVACY := BIT 14.

Definition xmit_at (X : gmap nat sta_xmit) (s : nat) : sta_xmit := default no_xmit (X !! s).

Section Frame.
  Context (T : tx_env) (P : sta_priv).

Let E : rx_env := te T.

(** ToDS and FromDS, the three addresses, whether there is a QoS field; [None]: the adapter is in no mode that sends. *)
(* src: core/rtw_xmit.c:2143-2222 rtw_make_wlanhdr *)
Definition wlan_addrs (a : tx_attrib) : option (Z * list Z * list Z * list Z * bool) :=
  if in_state E WIFI_STATION_STATE then Some (TO_DS, mybssid E, x_ta a, x_dst a, pqos_option T)
  else if in_state E WIFI_AP_STATE then Some (FROM_DS, x_dst a, mybssid E, x_src a, x_qos_en a)
  else if in_state E WIFI_ADHOC_STATE || in_state E WIFI_ADHOC_MASTER_STATE then Some (0, x_dst a, x_ta a, mybssid E, x_qos_en a)
  else None.

(** [SET_BITS_TO_LE_2BYTE] *)
Definition set_bits (w off n v : Z) : Z := (w & ~~ (Z.shiftl (Z.ones n) off)) .| Z.shiftl (v & Z.ones n) off.

(* src: core/rtw_xmit.c:2230-2241 rtw_make_wlanhdr *)
Definition qos_control (a : tx_attrib) (qc : Z) : Z :=
  let qc := if x_priority a =? 0 then qc else set_bits qc 0 4 (x_priority a) in
  let qc := set_bits qc 4 1 (x_eosp a) in
  let qc := set_bits qc 5 2 (x_ack_policy a) in
  if x_amsdu a then set_bits qc 7 1 1 else qc.

Definition SN_LESS (a b : Z) : bool := negb ((a - b) & 0x800 =? 0).

(** Whether the frame may be aggregated, and the next number from which it may. *)
(* src: core/rtw_xmit.c:2290-2312 rtw_make_wlanhdr *)
Definition ampdu_window (seq : Z) (prio : Z) (ba : list Z) : res (bool * list Z) :=
  let tid := prio & 0x0f in
  tx_seq <- rd ba tid ;;
  if SN_LESS seq tx_seq then Ok (false, ba)
  else if seq =? tx_seq then ba <- wr ba tid ((tx_seq + 1) & 0xfff) ;; Ok (true, ba)
  else ba <- wr ba tid ((seq + 1) & 0xfff) ;; Ok (true, ba).

(** The next sequence number of the receiver's traffic class; [None]: the receiver is not the station the frame was prepared for, or
    not associated. *)
(* src: core/rtw_xmit.c:2257-2314 rtw_make_wlanhdr *)
Definition next_seq (a : tx_attrib) (X : gmap nat sta_xmit) : res (option (tx_attrib * gmap nat sta_xmit)) :=
  let psta := rtw_get_stainfo P (Some (x_ra a)) in
  match psta with
  | Some s =>
      if negb (bool_decide (x_psta a = psta)) then Ok None
      else if sta_state (sta_at P s) & WIFI_ASOC_STATE =? 0 then Ok None
      else
        let m := xmit_at X s in
        n <- rd (txseq_tid m) (x_priority a) ;;
        let seq := (n + 1) & 0xFFF in
        tids <- wr (txseq_tid m) (x_priority a) seq ;;
        '(ampdu, ba) <- (if x_ampdu_en a then ampdu_window seq (x_priority a) (BA_starting_seqctrl m)
                         else Ok (false, BA_starting_seqctrl m)) ;;
        Ok (Some (with_seq seq ampdu a,
                  <[s := mkStaXmit tids ba (dot11txpn m) (dot11tkiptxmickey m) (resp_nonenc_eapol_key_starttime m)]> X))
  | None => Ok None
  end.

(** [hdr] is an offset of the buffer [mem]. *)
(* src: core/rtw_xmit.c:2103-2328 rtw_make_wlanhdr *)
Definition rtw_make_wlanhdr (mem : list Z) (hdr : Z) (a : tx_attrib) (X : gmap nat sta_xmit)
    : res (Z * list Z * tx_attrib * gmap nat sta_xmit) :=
  mem <- wrn mem hdr (zeros (Z.to_nat WLANHDR_OFFSET)) ;;
  let fctrl := x_subtype a in
  if fctrl & WIFI_DATA_TYPE =? 0 then mem <- wrn mem hdr (PUT_LE16 fctrl) ;; Ok (SUCCESS, mem, a, X)
  else
    match wlan_addrs a with
    | None => mem <- wrn mem hdr (PUT_LE16 fctrl) ;; Ok (FAIL, mem, a, X)
    | Some (ds, a1, a2, a3, qos_option) =>
        let fctrl := fctrl .| ds in
        let fctrl := if x_mdata a then fctrl .| MORE_DATA else fctrl in
        let fctrl := if x_encrypt a =? 0 then fctrl else fctrl .| PRIVACY in
        mem <- wrn mem hdr (PUT_LE16 fctrl) ;;
        mem <- wrn mem (hdr + 4) a1 ;; mem <- wrn mem (hdr + 10) a2 ;; mem <- wrn mem (hdr + 16) a3 ;;
        mem <- (if qos_option : bool then
                  qc <- GET_LE16 mem (hdr + x_hdrlen a - 2) ;; wrn mem (hdr + x_hdrlen a - 2) (PUT_LE16 (qos_control a qc))
                else Ok mem) ;;
        r <- next_seq a X ;;
        match r with
        | None => Ok (FAIL, mem, a, X)
        | Some (a, X) =>
            sc <- GET_LE16 mem (hdr + 22) ;;
            mem <- wrn mem (hdr + 22) (PUT_LE16 ((sc & 0x000f) .| (0xfff0 & Z.shiftl (x_seqnum a) 4))) ;;
            Ok (SUCCESS, mem, a, X)
        end
    end.

(** ** Fragments *)

(** The rest of a packet; [_rtw_pktfile_read] takes what there is. *)
(* src: os_dep/linux/xmit_linux.c:37-53 _rtw_pktfile_read *)
Definition rtw_pktfile_read (rest : list Z) (rlen : Z) : list Z * list Z :=
  let len := if zlen rest <? u32 rlen then zlen rest else u32 rlen in
  (take (Z.to_nat len) rest, drop (Z.to_nat len) rest).

(* src: core/rtw_xmit.c:3522-3546 rtw_put_snap *)
Definition rtw_put_snap (h_proto : Z) : list Z :=
  [0xaa; 0xaa; 0x03] ++ (if (h_proto =? 0x8137) || (h_proto =? 0x80f3) then [0x00; 0x00; 0xf8] else [0x00; 0x00; 0x00]) ++ be16_bytes h_proto.

(** Where the loop is: the rest of the packet, the buffer, the number of the fragment, where its header lies. *)
Record co_state : Type := mkCo { co_rest : list Z; co_mem : list Z; co_inx : Z; co_start : Z }.

(** One fragment; it ends with the buffer, the number of fragments and the size of the last one. [A] is the buffer's address, [hw]
    the room for the descriptor. *)
(* src: core/rtw_xmit.c:3047-3151 rtw_xmitframe_coalesce *)
Definition coalesce_step (A hw : Z) (a : tx_attrib) (c : co_state) : res (co_state + list Z * Z * Z) :=
  let bmcst := IS_MCAST (x_ra a) in
  let start := co_start c in
  fc <- GET_LE16 (co_mem c) start ;;
  mem <- wrn (co_mem c) start (PUT_LE16 (fc .| MORE_FRAG)) ;;
  let pframe := start + x_hdrlen a in
  let mpdu_len := frag_len T - 4 - x_hdrlen a in
  '(mem, pframe, mpdu_len) <-
    (if x_iv_len a =? 0 then Ok (mem, pframe, mpdu_len)
     else iv <- rdn (x_iv a) 0 (x_iv_len a) ;; mem <- wrn mem pframe iv ;; Ok (mem, pframe + x_iv_len a, mpdu_len - x_iv_len a)) ;;
  let llc := if co_inx c =? 0 then rtw_put_snap (x_ether_type a) else [] in
  mem <- wrn mem pframe llc ;;
  let pframe := pframe + zlen llc in
  let mpdu_len := mpdu_len - zlen llc in
  let icv := (0 <? x_icv_len a) && x_bswenc a in
  let mpdu_len := if icv then mpdu_len - x_icv_len a else mpdu_len in
  let '(data, rest) := rtw_pktfile_read (co_rest c) (if bmcst then x_pktlen a else mpdu_len) in
  mem <- wrn mem pframe data ;;
  let pframe := pframe + zlen data in
  '(mem, pframe) <- (if icv then v <- rdn (x_icv a) 0 (x_icv_len a) ;; mem <- wrn mem pframe v ;; Ok (mem, pframe + x_icv_len a)
                     else Ok (mem, pframe)) ;;
  let inx := co_inx c + 1 in
  if bmcst || match rest with [] => true | _ => false end then
    fc <- GET_LE16 mem start ;;
    mem <- wrn mem start (PUT_LE16 (fc & ~~ MORE_FRAG)) ;;
    let nr := u8 inx in
    Ok (inr (mem, nr, u32 (x_hdrlen a + x_iv_len a + (if nr =? 1 then zlen llc else 0) + (if x_bswenc a then x_icv_len a else 0) + zlen data)))
  else
    let start := RND4 (A + pframe) - A + hw in
    h <- rdn mem hw (x_hdrlen a) ;;
    mem <- wrn mem start h ;;
    Ok (inl (mkCo rest mem inx start)).

(** What follows of the packet once the Ethernet header is read. *)
Definition payload_of (pkt : list Z) (a : tx_attrib) : list Z := snd (rtw_pktfile_read pkt (x_pkt_hdrlen a)).

(** ** The Michael code *)

(** The text of the fragments. [pay] is where the last one ended; [n] are left, of which this is [cur]. *)
(* src: core/rtw_xmit.c:2025-2041 xmitframe_addmic *)
Fixpoint mic_fragments (A : Z) (a : tx_attrib) (mem : list Z) (n : nat) (cur pay : Z) (m : mic_data) : res (mic_data * Z) :=
  match n with
  | O => Ok (m, pay)
  | S n =>
      let icv := if x_bswenc a then x_icv_len a else 0 in
      let pay := RND4 (A + pay) - A + x_hdrlen a + x_iv_len a in
      if cur + 1 =? t_nr_frags (x_sec a) then
        let len := t_last_txcmdsz (x_sec a) - x_hdrlen a - x_iv_len a - icv in
        m <- rtw_secmicappend m mem pay len ;; mic_fragments A a mem n (cur + 1) (pay + len) m
      else
        let len := frag_len T - x_hdrlen a - x_iv_len a - icv in
        m <- rtw_secmicappend m mem pay len ;; mic_fragments A a mem n (cur + 1) (pay + len + x_icv_len a) m
  end.

(* src: core/rtw_xmit.c:1932-2055 xmitframe_addmic *)
Definition xmitframe_addmic (sec : security_priv) (x : xmit_frame) (mem : list Z) (a : tx_attrib) : res (Z * list Z * tx_attrib) :=
  if x_encrypt a =? TKIP then
    key <- (if IS_MCAST (x_ra a) then rd (grp_txmickey T) (dot118021XGrpKeyid sec) else Ok (x_mickey a)) ;;
    if list_eqb (take 16 key) (zeros 16) then Ok (FAIL, mem, a)
    else
      let pframe := hw_hdr_offset x in
      m <- rtw_secmicsetkey key ;;
      m <- mic_addresses m mem pframe ;;
      m <- rtw_secmicappend m [if x_qos_en a then u8 (x_priority a) else 0; 0; 0; 0] 0 4 ;;
      '(m, pay) <- mic_fragments (x_addr x) a mem (Z.to_nat (t_nr_frags (x_sec a))) 0 pframe m ;;
      '(mic, _) <- rtw_secgetmic m ;;
      mem <- wrn mem pay mic ;;
      Ok (SUCCESS, mem, with_frags (t_nr_frags (x_sec a)) (u32 (t_last_txcmdsz (x_sec a) + 8)) a)
  else Ok (SUCCESS, mem, a).

(** ** Encryption *)

(* src: core/rtw_xmit.c:2059-2101 xmitframe_swencrypt *)
Definition xmitframe_swencrypt (x : xmit_frame) (a : tx_attrib) (sec : security_priv) (cs : crc_state)
    : res (option (list Z) * security_priv * crc_state) :=
  let enc := x_encrypt a in
  if negb (x_bswenc a) then Ok (x_buf x, sec, cs)
  else if (enc =? WEP40) || (enc =? WEP104) then rtw_wep_encrypt x (x_sec a) (frag_len T) sec cs
  else if enc =? TKIP then
    '(_, mem, sec, cs) <- rtw_tkip_encrypt (t_junk T) x (x_sec a) (frag_len T) sec cs ;; Ok (mem, sec, cs)
  else if (enc =? AES) || (enc =? CCMP_256) then
    '(_, mem, sec) <- rtw_aes_encrypt (t_malloc T) (t_aes_alloc T) (t_amsdu_mode T) x (x_sec a) (frag_len T) sec ;; Ok (mem, sec, cs)
  else if (enc =? GCMP) || (enc =? GCMP_256) then
    '(_, mem, sec) <- rtw_gcmp_encrypt (t_malloc T) (t_aes_alloc T) (t_amsdu_mode T) x (x_sec a) (frag_len T) sec ;; Ok (mem, sec, cs)
  else Ok (x_buf x, sec, cs).

(** ** The whole frame *)

Record co_result : Type := mkCoResult {
  cr_ret : Z; cr_buf : option (list Z); cr_attrib : tx_attrib; cr_xmit : gmap nat sta_xmit; cr_sec : security_priv; cr_crc : crc_state }.

(** The buffer of [x] is filled; [pkt] is the Ethernet packet. *)
(* src: core/rtw_xmit.c:2966-3168 rtw_xmitframe_coalesce *)
Definition rtw_xmitframe_coalesce (pkt : list Z) (x : xmit_frame) (a : tx_attrib) (X : gmap nat sta_xmit) (sec : security_priv) (cs : crc_state)
    : res co_result :=
  match x_buf x with
  | None => Ok (mkCoResult FAIL None a X sec cs)
  | Some mem =>
      let hw := hw_hdr_offset x in
      '(r, mem, a, X) <- rtw_make_wlanhdr mem hw a X ;;
      if r =? FAIL then Ok (mkCoResult FAIL (Some mem) a X sec cs)
      else
        let rest := payload_of pkt a in
        '(mem, nr, last) <- loop (coalesce_step (x_addr x) hw a) (length rest + 2) (mkCo rest mem 0 hw) ;;
        let a := with_frags nr last a in
        '(r, mem, a) <- xmitframe_addmic sec x mem a ;;
        if r =? FAIL then Ok (mkCoResult FAIL (Some mem) a X sec cs)
        else
          '(buf, sec, cs) <- xmitframe_swencrypt (mkXmit (Some mem) (x_addr x) (x_pkt_offset x)) a sec cs ;;
          Ok (mkCoResult SUCCESS buf a X sec cs)
  end.

(* src: core/rtw_xmit.c:2686-2700 rtw_calculate_wlan_pkt_size_by_attribue *)
Definition rtw_calculate_wlan_pkt_size_by_attribue (a : tx_attrib) : Z :=
  u32 (x_hdrlen a + x_iv_len a + SNAP_SIZE + 2 + x_pktlen a + (if x_encrypt a =? TKIP then 8 else 0)
       + (if x_bswenc a then x_icv_len a else 0)).
End Frame.

(** ** Lemmas: writing inside a part of the buffer *)

Lemma wrn_inside {A} (pre m post : list A) o s : 0 <= o -> o + zlen s <= zlen m ->
  wrn (pre ++ m ++ post) (zlen pre + o) s = (m <- wrn m o s ;; Ok (pre ++ m ++ post)).
Proof.
  intros Ho Hs. pose proof (zlen_nonneg s).
  assert (Hm : m = take (Z.to_nat o) m ++ take (length s) (drop (Z.to_nat o) m) ++ drop (length s) (drop (Z.to_nat o) m)) by (rewrite !take_drop; done).
  set (m0 := take (Z.to_nat o) m) in *. set (m1 := take (length s) _) in *. set (m2 := drop (length s) _) in *.
  assert (H0 : zlen m0 = o) by (unfold m0, zlen in *; rewrite length_take; lia).
  assert (H1 : length m1 = length s) by (unfold m1, zlen in *; rewrite length_take, length_drop; lia).
  rewrite Hm. rewrite (wrn_off m0 m1 m2 s o) by done. cbn [bind]. rewrite <- !app_assoc, (app_assoc pre), (app_assoc pre).
  apply wrn_off; [rewrite zlen_app; lia | done].
Qed.

Lemma rd_inside {A} (pre m post : list A) o : 0 <= o < zlen m -> rd (pre ++ m ++ post) (zlen pre + o) = rd m o.
Proof. intros Ho. rewrite rd_app_r by lia. replace (zlen pre + o - zlen pre) with o by lia. apply rd_app_l. done. Qed.

Lemma get_le16_inside pre m post o : 0 <= o -> o + 2 <= zlen m -> GET_LE16 (pre ++ m ++ post) (zlen pre + o) = GET_LE16 m o.
Proof. intros H1 H2. unfold GET_LE16. rewrite <- Z.add_assoc, !rd_inside by lia. done. Qed.

Lemma le16_pair v : 0 <= v < 65536 -> exists x y, PUT_LE16 v = [x; y] /\ is_byte x /\ is_byte y /\ u16 (Z.shiftl y 8 .| x) = v.
Proof.
  intros Hv. unfold PUT_LE16. rewrite u16_small by done. eexists _, _. split; [reflexivity|]. rewrite land_ff_mod, Z.shiftr_div_pow2 by lia.
  change (2 ^ 8) with 256. pose proof (Z.mod_pos_bound v 256 ltac:(lia)). pose proof (Z.div_mod v 256 ltac:(lia)). unfold is_byte. split; [lia|]. split; [lia|].
  rewrite Z.lor_comm, lor_shiftl_add by lia. change (2 ^ 8) with 256. rewrite u16_small by lia. lia.
Qed.

Lemma get_put_le16 a v b : 0 <= v < 65536 -> GET_LE16 (a ++ PUT_LE16 v ++ b) (zlen a) = Ok v.
Proof.
  intros Hv. destruct (le16_pair v Hv) as (x & y & -> & _ & _ & E). rewrite <- (Z.add_0_r (zlen a)), get_le16_inside by (unfold zlen; cbn; lia).
  unfold GET_LE16. change (rd [x; y] 0) with (Ok x). change (rd [x; y] (0 + 1)) with (Ok y). cbn [bind]. rewrite E. done.
Qed.

Lemma put_le16_bytes v : bytes (PUT_LE16 v).
Proof.
  unfold PUT_LE16, bytes. pose proof (u16_range v). apply List.Forall_cons; [apply land_byte_r; unfold is_byte; lia|].
  apply List.Forall_cons; [|apply List.Forall_nil]. unfold is_byte. rewrite Z.shiftr_div_pow2 by lia. change (2 ^ 8) with 256.
  split; [apply Z.div_pos; lia | apply Z.div_lt_upper_bound; lia].
Qed.

(** ** Specification: the header *)

(** Frame control, duration 0, three addresses, sequence control, QoS control. *)
Definition hdr_fc (a : tx_attrib) (ds : Z) : Z :=
  let fc := x_subtype a .| ds in
  let fc := if x_mdata a then fc .| MORE_DATA else fc in
  if x_encrypt a =? 0 then fc else fc .| PRIVACY.
Definition wlan_hdr (a : tx_attrib) (ds : Z) (a1 a2 a3 : list Z) (seq : Z) : list Z :=
  PUT_LE16 (hdr_fc a ds) ++ [0; 0] ++ a1 ++ a2 ++ a3 ++ PUT_LE16 (0xfff0 & Z.shiftl seq 4)
  ++ (if x_hdrlen a =? 26 then PUT_LE16 (qos_control a 0) else []).

(** A frame that can be sent: the addresses of the mode, a data frame with or without QoS. *)
Record tx_ready (T : tx_env) (a : tx_attrib) (ds : Z) (a1 a2 a3 : list Z) : Prop := {
  tr_addrs : wlan_addrs T a = Some (ds, a1, a2, a3, x_hdrlen a =? 26);
  tr_a1 : zlen a1 = 6; tr_a2 : zlen a2 = 6; tr_a3 : zlen a3 = 6;
  tr_type : x_subtype a = 0x08 /\ x_hdrlen a = 24 \/ x_subtype a = 0x88 /\ x_hdrlen a = 26 }.

Lemma six_elements {A} (l : list A) : zlen l = 6 -> exists x0 x1 x2 x3 x4 x5, l = [x0; x1; x2; x3; x4; x5].
Proof. intros H. apply (zlen_length l 6) in H. destruct l as [|x0 [|x1 [|x2 [|x3 [|x4 [|x5 [|]]]]]]]; try discriminate. eauto 7. Qed.

Lemma u16_parts (v : Z) : exists x y, PUT_LE16 v = [x; y].
Proof. unfold PUT_LE16. eauto. Qed.

(** A write into a part whose elements are known. *)
Ltac write_inside :=
  rewrite wrn_inside by (unfold zlen; cbn; lia);
  match goal with |- context [wrn ?m ?o ?s] => let r := eval vm_compute in (wrn m o s) in change (wrn m o s) with r end; cbn [bind].

Ltac read_inside :=
  rewrite get_le16_inside by (unfold zlen; cbn; lia);
  match goal with |- context [GET_LE16 ?m ?o] => let r := eval vm_compute in (GET_LE16 m o) in change (GET_LE16 m o) with r end; cbn [bind].

(** The header is written where the buffer was, and nothing else. *)
Lemma make_wlanhdr_spec T P pre old post a X ds a1 a2 a3 a' X' : tx_ready T a ds a1 a2 a3 -> zlen old = 64 ->
  next_seq P a X = Ok (Some (a', X')) ->
  rtw_make_wlanhdr T P (pre ++ old ++ post) (zlen pre) a X =
    Ok (SUCCESS, pre ++ (wlan_hdr a ds a1 a2 a3 (x_seqnum a') ++ zeros (Z.to_nat (64 - x_hdrlen a))) ++ post, a', X').
Proof.
  intros [Ha H1 H2 H3 Ht] Ho Hn. unfold rtw_make_wlanhdr. change (Z.to_nat WLANHDR_OFFSET) with 64%nat.
  rewrite wrn_app by (rewrite zlen_zeros; exact Ho). cbn [bind].
  assert (Hd : (x_subtype a & WIFI_DATA_TYPE =? 0) = false) by (destruct Ht as [[-> _]|[-> _]]; reflexivity). rewrite Hd, Ha. fold (hdr_fc a ds).
  unfold wlan_hdr. destruct (u16_parts (hdr_fc a ds)) as (f0 & f1 & ->).
  apply six_elements in H1 as (?&?&?&?&?&?&->), H2 as (?&?&?&?&?&?&->), H3 as (?&?&?&?&?&?&->).
  let z := eval vm_compute in (zeros 64) in change (zeros 64) with z. rewrite <- (Z.add_0_r (zlen pre)) at 1.
  do 4 write_inside.
  destruct Ht as [[_ ->]|[_ ->]]; cbn [Z.eqb Pos.eqb]; [|replace (zlen pre + 26 - 2) with (zlen pre + 24) by lia; read_inside;
    destruct (u16_parts (qos_control a 0)) as (q0 & q1 & ->); write_inside]; cbn [bind]; rewrite Hn; cbn [bind]; read_inside;
    change (0 & 15) with 0; rewrite Z.lor_0_l; destruct (u16_parts (65520 & Z.shiftl (x_seqnum a') 4)) as (s0 & s1 & ->); write_inside; done.
Qed.

(** ** Lemmas: one fragment *)

Lemma wrn_next {A} (done old post s : list A) p : p = zlen done -> zlen old = zlen s -> wrn (done ++ old ++ post) p s = Ok ((done ++ s) ++ post).
Proof. intros -> H. rewrite wrn_app by exact H. rewrite <- app_assoc. done. Qed.

Lemma fc_more fc : 0 <= fc < 65536 -> 0 <= fc .| MORE_FRAG < 65536.
Proof. intros H. apply (lor_below 16); [lia | exact H | cbv; split; congruence]. Qed.

Lemma fc_more_clear fc : 0 <= fc < 65536 -> Z.testbit fc 10 = false -> (fc .| MORE_FRAG) & ~~ MORE_FRAG = fc.
Proof.
  intros H Hb. apply Z.bits_inj'. intros n Hn. rewrite Z.land_spec, Z.lnot_spec, Z.lor_spec by done. unfold MORE_FRAG, BIT.
  rewrite Z.shiftl_spec by done. destruct (Z.eq_dec n 10) as [->|Hne]; [rewrite Hb; reflexivity|].
  replace (Z.testbit 1 (n - 10)) with false; [rewrite orb_false_r, andb_true_r; done|].
  symmetry. change 1 with (2 ^ 0). rewrite Z.pow2_bits_eqb by lia. lia.
Qed.

Lemma nil_of_zlen {A} (l : list A) n : zlen l = n -> n = 0 -> l = [].
Proof. intros E ->. destruct l; [done|]. rewrite zlen_cons in E. pose proof (zlen_nonneg l). lia. Qed.

Section Cut.
  Context (T : tx_env) (A hw : Z) (a : tx_attrib).

(** The check value's place is kept only for software encryption. *)
Definition room_icv : list Z := if (0 <? x_icv_len a) && x_bswenc a then take (Z.to_nat (x_icv_len a)) (x_icv a) else [].
Definition room_iv : list Z := take (Z.to_nat (x_iv_len a)) (x_iv a).
Definition llc_of_first (inx : Z) : list Z := if inx =? 0 then rtw_put_snap (x_ether_type a) else [].

(** How much of the packet the fragment can take. *)
Definition frag_room (inx : Z) : Z :=
  if IS_MCAST (x_ra a) then x_pktlen a else frag_len T - 4 - x_hdrlen a - zlen room_iv - zlen (llc_of_first inx) - zlen room_icv.

Definition frag_body (inx : Z) (data : list Z) : list Z := room_iv ++ llc_of_first inx ++ data ++ room_icv.

(** The attributes fit their arrays. *)
Record attrib_sizes : Prop := {
  as_iv : 0 <= x_iv_len a <= zlen (x_iv a);
  as_icv : 0 <= x_icv_len a <= zlen (x_icv a) }.

Lemma zlen_put_snap h : zlen (rtw_put_snap h) = 8.
Proof. unfold rtw_put_snap. destruct (_ || _); reflexivity. Qed.

(** One turn of the loop: the header gets the bit, behind it come IV, LLC header in the first fragment, data and room; then either it is the last
    one, and the bit goes, or the next header is copied from the first. *)
Lemma coalesce_step_spec rest inx pre fc ht w post data rest' : attrib_sizes -> 0 <= fc < 65536 -> 2 + zlen ht = x_hdrlen a ->
  rtw_pktfile_read rest (frag_room inx) = (data, rest') -> zlen w = zlen (frag_body inx data) ->
  let mem b := pre ++ PUT_LE16 (if b : bool then fc .| MORE_FRAG else (fc .| MORE_FRAG) & ~~ MORE_FRAG) ++ ht ++ frag_body inx data ++ post in
  coalesce_step T A hw a (mkCo rest (pre ++ PUT_LE16 fc ++ ht ++ w ++ post) inx (zlen pre)) =
    if IS_MCAST (x_ra a) || match rest' with [] => true | _ => false end then
      Ok (inr (mem false, u8 (inx + 1),
               u32 (x_hdrlen a + zlen room_iv + (if u8 (inx + 1) =? 1 then zlen (llc_of_first inx) else 0)
                    + (if x_bswenc a then x_icv_len a else 0) + zlen data)))
    else
      let start := RND4 (A + (zlen pre + x_hdrlen a + zlen (frag_body inx data))) - A + hw in
      h <- rdn (mem true) hw (x_hdrlen a) ;; m <- wrn (mem true) start h ;; Ok (inl (mkCo rest' m (inx + 1) start)).
Proof.
  intros [Hiv Hicv] Hfc Hh Hr Hw mem. unfold coalesce_step. cbn [co_mem co_start co_inx co_rest].
  rewrite get_put_le16 by done. cbn [bind]. rewrite wrn_app by reflexivity. cbn [bind].
  assert (Zi : zlen room_iv = x_iv_len a) by (unfold room_iv, zlen in *; rewrite length_take; lia).
  unfold frag_body in Hw, mem. set (llc := llc_of_first inx) in *. rewrite !zlen_app in Hw.
  destruct (split_front w (zlen room_iv)) as (w1 & w' & -> & L1 & _); [pose proof (zlen_nonneg llc); pose proof (zlen_nonneg data); pose proof (zlen_nonneg room_icv); pose proof (zlen_nonneg room_iv); lia|].
  rewrite zlen_app in Hw.
  destruct (split_front w' (zlen llc)) as (w2 & w'' & -> & L2 & _); [pose proof (zlen_nonneg llc); pose proof (zlen_nonneg data); pose proof (zlen_nonneg room_icv); lia|].
  rewrite zlen_app in Hw.
  destruct (split_front w'' (zlen data)) as (w3 & w4 & -> & L3 & _); [pose proof (zlen_nonneg data); pose proof (zlen_nonneg room_icv); lia|].
  rewrite zlen_app in Hw. rewrite <- !app_assoc. set (PF := PUT_LE16 (fc .| MORE_FRAG)) in *. fold (llc_of_first inx). fold llc.
  assert (Zp : zlen PF = 2) by reflexivity. set (D0 := pre ++ PF ++ ht).
  assert (Z0 : zlen pre + x_hdrlen a = zlen D0) by (unfold D0; rewrite !zlen_app; lia).
  replace (pre ++ PF ++ ht ++ w1 ++ w2 ++ w3 ++ w4 ++ post) with (D0 ++ w1 ++ w2 ++ w3 ++ w4 ++ post) by (unfold D0; rewrite <- !app_assoc; done).
  rewrite Z0. set (iv_stage := if x_iv_len a =? 0 then _ else _).
  assert (E1 : iv_stage = Ok ((D0 ++ room_iv) ++ w2 ++ w3 ++ w4 ++ post, zlen (D0 ++ room_iv), frag_len T - 4 - x_hdrlen a - zlen room_iv)).
  { unfold iv_stage. destruct (Z.eqb_spec (x_iv_len a) 0) as [E0|E0].
    - rewrite zlen_app. apply (nil_of_zlen _ (zlen room_iv)) in L1 as ->; [|lia]. assert (Er : room_iv = []) by (apply (nil_of_zlen _ 0); lia).
      rewrite Er, app_nil_r, zlen_nil, Z.add_0_r, Z.sub_0_r. done.
    - rewrite rdn_in by lia. cbn [bind]. change (drop (Z.to_nat 0) (x_iv a)) with (x_iv a). fold room_iv. rewrite wrn_next by (reflexivity || exact L1). cbn [bind].
      rewrite (zlen_app D0), <- Zi. done. }
  rewrite E1. cbn [bind]. set (D1 := D0 ++ room_iv).
  rewrite wrn_next by (reflexivity || exact L2). cbn [bind]. set (D2 := D1 ++ llc).
  assert (Zic : zlen room_icv = if (0 <? x_icv_len a) && x_bswenc a then x_icv_len a else 0).
  { unfold room_icv. destruct (_ && _); [|done]. unfold zlen in *. rewrite length_take. lia. }
  set (n := if IS_MCAST (x_ra a) then _ else _).
  assert (En : n = frag_room inx) by (unfold n, frag_room; fold llc; rewrite Zic; destruct (IS_MCAST (x_ra a)); [done|]; destruct (_ && _); lia).
  rewrite En, Hr. rewrite <- zlen_app. fold D2. rewrite wrn_next by (reflexivity || exact L3). cbn [bind]. rewrite <- zlen_app. set (D3 := D2 ++ data).
  set (icv_stage := if (0 <? x_icv_len a) && x_bswenc a then _ else _).
  assert (E2 : icv_stage = Ok ((D3 ++ room_icv) ++ post, zlen (D3 ++ room_icv))).
  { unfold icv_stage. rewrite (zlen_app D3), Zic. assert (L4 : zlen w4 = zlen room_icv) by lia. destruct (_ && _) eqn:Ec.
    - rewrite rdn_in by lia. cbn [bind]. assert (Er : room_icv = take (Z.to_nat (x_icv_len a)) (drop (Z.to_nat 0) (x_icv a))) by (unfold room_icv; rewrite Ec; done).
      rewrite <- Er, wrn_next by (reflexivity || exact L4). done.
    - assert (Er : room_icv = []) by (apply (nil_of_zlen _ 0); lia). rewrite Zic in L4. apply (nil_of_zlen _ 0) in L4 as ->; [|done]. rewrite Er, app_nil_r. do 2 f_equal. lia. }
  rewrite E2. cbn [bind].
  assert (Em : (D3 ++ room_icv) ++ post = mem true) by (unfold mem, D3, D2, D1, D0; rewrite <- !app_assoc; done). rewrite Em, <- Zi.
  destruct (_ || _).
  - unfold mem. rewrite get_put_le16 by (apply fc_more; done). cbn [bind]. rewrite wrn_app by reflexivity. cbn [bind]. done.
  - assert (El : zlen (D3 ++ room_icv) = zlen D0 + zlen (frag_body inx data)).
    { unfold D3, D2, D1, frag_body. fold llc. rewrite !zlen_app. lia. }
    rewrite El. done.
Qed.

(** ** Specification: a packet in pieces *)

(** How a packet is cut: every piece but the last fills its fragment; group frames are not cut. *)
Inductive cut : Z -> list Z -> list (list Z) -> Prop :=
| cut_last inx rest : zlen rest <= frag_room inx -> cut inx rest [rest]
| cut_more inx d r ds : IS_MCAST (x_ra a) = false -> r <> [] -> zlen d = frag_room inx -> cut (inx + 1) r ds -> cut inx (d ++ r) (d :: ds).

(** The fragments: the header of the frame, with the bit in all but the last, and the body. *)
Definition one_frag (more : bool) (fc : Z) (ht : list Z) (inx : Z) (d : list Z) : list Z :=
  PUT_LE16 (if more then fc .| MORE_FRAG else fc) ++ ht ++ frag_body inx d.

Fixpoint frags_of (fc : Z) (ht : list Z) (inx : Z) (ds : list (list Z)) : list (list Z) :=
  match ds with
  | [] => []
  | [d] => [one_frag false fc ht inx d]
  | d :: ds => one_frag true fc ht inx d :: frags_of fc ht (inx + 1) ds
  end.

(** From offset [off] on the bytes [m] hold the fragments; between two of them lies room for a descriptor, behind a multiple of four. *)
Fixpoint co_laid (off : Z) (fs : list (list Z)) (m : list Z) : Prop :=
  match fs with
  | [] => False
  | [f] => exists post, m = f ++ post
  | f :: fs => exists gap rest, m = f ++ gap ++ rest /\ off + zlen f + zlen gap = RND4 (A + (off + zlen f)) - A + hw /\
      co_laid (off + zlen f + zlen gap) fs rest
  end.

(** Room that is enough. *)
Fixpoint co_space (inx : Z) (ds : list (list Z)) : Z :=
  match ds with
  | [] => 0
  | [d] => x_hdrlen a + zlen (frag_body inx d)
  | d :: ds => x_hdrlen a + zlen (frag_body inx d) + hw + 4 + co_space (inx + 1) ds
  end.

Definition last_size (inx : Z) (d : list Z) : Z :=
  u32 (x_hdrlen a + zlen room_iv + (if u8 (inx + 1) =? 1 then zlen (llc_of_first inx) else 0) + (if x_bswenc a then x_icv_len a else 0) + zlen d).

Lemma cut_concat inx rest ds : cut inx rest ds -> concat ds = rest.
Proof. induction 1 as [inx rest H|inx d r ds Hm Hr Hd Hc IH]; cbn [concat]; [apply app_nil_r | congruence]. Qed.

Lemma cut_nonempty inx rest ds : cut inx rest ds -> ds <> [].
Proof. destruct 1; discriminate. Qed.

Lemma cut_space inx rest ds : cut inx rest ds -> 0 <= hw -> 0 <= x_hdrlen a -> x_hdrlen a <= co_space inx ds.
Proof.
  induction 1 as [inx rest H|inx d r ds Hm Hr Hd Hc IH]; intros H1 H2; cbn [co_space]; [pose proof (zlen_nonneg (frag_body inx rest)); lia|].
  specialize (IH H1 H2). pose proof (zlen_nonneg (frag_body inx d)). destruct ds; cbn [co_space] in *; lia.
Qed.

Lemma read_all rest n : zlen rest <= n -> n < 2 ^ 32 -> rtw_pktfile_read rest n = (rest, []).
Proof.
  intros H Hn. pose proof (zlen_nonneg rest). unfold rtw_pktfile_read. rewrite u32_small by lia.
  destruct (Z.ltb_spec (zlen rest) n); rewrite take_ge, drop_ge by (unfold zlen in *; lia); done.
Qed.

Lemma read_some d r n : zlen d = n -> r <> [] -> n < 2 ^ 32 -> rtw_pktfile_read (d ++ r) n = (d, r).
Proof.
  intros Hd Hr Hn. pose proof (zlen_nonneg d). unfold rtw_pktfile_read. rewrite u32_small by lia. rewrite zlen_app.
  destruct (Z.ltb_spec (zlen d + zlen r) n); [pose proof (zlen_nonneg r); lia|].
  rewrite take_app_length', drop_app_length' by (unfold zlen in *; lia). done.
Qed.

Lemma cut_loop fc ht inx rest ds : cut inx rest ds -> attrib_sizes -> 0 <= fc < 65536 -> Z.testbit fc 10 = false -> 2 + zlen ht = x_hdrlen a ->
  0 <= hw -> (forall i, frag_room i < 2 ^ 32) -> forall pre fc' w fuel, 0 <= fc' < 65536 -> fc' .| MORE_FRAG = fc .| MORE_FRAG ->
  (forall r, rdn (pre ++ (PUT_LE16 (fc .| MORE_FRAG) ++ ht) ++ r) hw (x_hdrlen a) = Ok (PUT_LE16 (fc .| MORE_FRAG) ++ ht)) ->
  co_space inx ds <= x_hdrlen a + zlen w -> (length ds <= fuel)%nat ->
  exists m', loop (coalesce_step T A hw a) fuel (mkCo rest (pre ++ PUT_LE16 fc' ++ ht ++ w) inx (zlen pre)) =
      Ok (pre ++ m', u8 (inx + zlen ds), last_size (inx + zlen ds - 1) (List.last ds [])) /\
    co_laid (zlen pre) (frags_of fc ht inx ds) m'.
Proof.
  intros Hc Hsz Hfc Hb Hh Hhw H32. induction Hc as [inx rest H|inx d r ds Hm Hr Hd Hc IH]; intros pre fc' w fuel Hf' Eor Hcopy Hsp Hfu.
  - destruct fuel as [|fuel]; [cbn in Hfu; lia|]. cbn [loop co_space] in *.
    destruct (split_front w (zlen (frag_body inx rest))) as (w1 & post & -> & L1 & _); [pose proof (zlen_nonneg (frag_body inx rest)); lia|].
    rewrite (coalesce_step_spec rest inx pre fc' ht w1 post rest []) by (done || (apply read_all; auto)). rewrite orb_true_r.
    rewrite Eor, fc_more_clear by done. change (zlen [rest]) with 1. replace (inx + 1 - 1) with inx by lia.
    exists (PUT_LE16 fc ++ ht ++ frag_body inx rest ++ post). split; [done|]. exists post. unfold one_frag. rewrite <- !app_assoc. done.
  - destruct fuel as [|fuel]; [cbn in Hfu; lia|]. cbn [loop].
    pose proof (cut_space _ _ _ Hc Hhw ltac:(pose proof (zlen_nonneg ht); lia)) as Hs2. pose proof (cut_nonempty _ _ _ Hc) as Hne.
    assert (Hsp' : x_hdrlen a + zlen (frag_body inx d) + hw + 4 + co_space (inx + 1) ds <= x_hdrlen a + zlen w) by (destruct ds; done).
    clear Hsp. rename Hsp' into Hsp. set (B := frag_body inx d) in *. set (HM := PUT_LE16 (fc .| MORE_FRAG) ++ ht) in *.
    pose proof (zlen_nonneg B) as ZB. pose proof (zlen_nonneg ht) as ZT. assert (ZH : zlen HM = x_hdrlen a) by (unfold HM; rewrite zlen_app; change (zlen (PUT_LE16 _)) with 2; lia).
    destruct (split_front w (zlen B)) as (w1 & post & -> & L1 & L1'); [lia|]. rewrite zlen_app in Hsp.
    rewrite (coalesce_step_spec (d ++ r) inx pre fc' ht w1 post d r) by (done || (apply read_some; auto)). rewrite Hm. fold B.
    destruct r as [|r0 r]; [done|]. cbn [orb]. set (st := RND4 _ - A + hw). rewrite Eor.
    assert (Em : pre ++ PUT_LE16 (fc .| MORE_FRAG) ++ ht ++ B ++ post = pre ++ HM ++ B ++ post) by (unfold HM; rewrite <- !app_assoc; done).
    rewrite Em, Hcopy. cbn [bind]. pose proof (RND4_bounds (A + (zlen pre + x_hdrlen a + zlen B))) as HR.
    destruct (split_front post (st - (zlen pre + x_hdrlen a + zlen B))) as (gap & post' & -> & L2 & L2'); [unfold st; lia|].
    destruct (split_front post' (x_hdrlen a)) as (hold & w2 & -> & L3 & L3'); [unfold st in *; lia|].
    rewrite !zlen_app in *. set (pre' := pre ++ HM ++ B ++ gap).
    assert (Zst : st = zlen pre') by (unfold pre'; rewrite !zlen_app; lia).
    replace (pre ++ HM ++ B ++ gap ++ hold ++ w2) with (pre' ++ hold ++ w2) by (unfold pre'; rewrite <- !app_assoc; done).
    rewrite wrn_off by (done || (unfold zlen in *; lia)). cbn [bind]. rewrite Zst.
    replace (pre' ++ HM ++ w2) with (pre' ++ PUT_LE16 (fc .| MORE_FRAG) ++ ht ++ w2) by (unfold HM; rewrite <- !app_assoc; done).
    destruct (IH pre' (fc .| MORE_FRAG) w2 fuel) as (m' & -> & Hl).
    + apply fc_more. done.
    + rewrite <- Z.lor_assoc, Z.lor_diag. done.
    + intros r'. unfold pre'. replace ((pre ++ HM ++ B ++ gap) ++ HM ++ r') with (pre ++ HM ++ (B ++ gap ++ HM ++ r')) by (rewrite <- !app_assoc; done). apply Hcopy.
    + unfold st in *. lia.
    + cbn [length] in Hfu. lia.
    + exists (HM ++ B ++ gap ++ m'). split.
      * unfold pre'. rewrite <- !app_assoc, zlen_cons. replace (inx + 1 + zlen ds) with (inx + (1 + zlen ds)) by lia. destruct ds; [done|]. done.
      * destruct ds as [|d2 ds]; [done|]. change (frags_of fc ht inx (d :: d2 :: ds)) with (one_frag true fc ht inx d :: frags_of fc ht (inx + 1) (d2 :: ds)).
        assert (Ef : one_frag true fc ht inx d = HM ++ B) by (unfold one_frag, HM; rewrite <- !app_assoc; done). rewrite Ef.
        assert (Ez : zlen pre + zlen (HM ++ B) = zlen pre + x_hdrlen a + zlen B) by (rewrite zlen_app; lia).
        destruct (frags_of fc ht (inx + 1) (d2 :: ds)) as [|f1 fs] eqn:Ef1; [done|]. exists gap, m'. rewrite Ez. split; [rewrite <- !app_assoc; done|].
        split; [fold st; lia|]. replace (zlen pre + x_hdrlen a + zlen B + zlen gap) with (zlen pre') by lia. exact Hl.
Qed.

(** There is exactly one way to cut, as long as a fragment holds more than its headers. *)
Lemma cut_exists : IS_MCAST (x_ra a) = false -> (forall i, 0 < frag_room i) -> forall n inx rest, (length rest <= n)%nat ->
  exists ds, cut inx rest ds /\ (length ds <= length rest + 1)%nat.
Proof.
  intros Hm Hroom. induction n as [|n IH]; intros inx rest Hn.
  - exists [rest]. split; [|cbn; lia]. apply cut_last. specialize (Hroom inx). unfold zlen. lia.
  - destruct (Z.leb_spec (zlen rest) (frag_room inx)) as [Hle|Hgt]; [exists [rest]; split; [apply cut_last; done | cbn; lia]|].
    specialize (Hroom inx). destruct (split_front rest (frag_room inx)) as (d & r & -> & L1 & L2); [lia|].
    rewrite length_app in Hn. unfold zlen in L1, L2. rewrite length_app in L2.
    destruct (IH (inx + 1) r) as (ds & Hc & Hl); [lia|]. exists (d :: ds). split; [|rewrite length_app; cbn [length]; lia].
    apply cut_more; [done | | unfold zlen; lia | done]. destruct r; [|done]. cbn in L2. unfold zlen in Hgt. rewrite length_app in Hgt. cbn in Hgt. lia.
Qed.

Lemma cut_unique inx rest ds : cut inx rest ds -> forall ds', cut inx rest ds' -> ds' = ds.
Proof.
  induction 1 as [inx rest H|inx d r ds Hm Hr Hd Hc IH]; intros ds' H'.
  - inversion H' as [|? d r ds2 ? Hr Hd]; subst; [done|]. rewrite zlen_app in H. destruct r; [done|]. rewrite zlen_cons in H. pose proof (zlen_nonneg r). lia.
  - inversion H' as [? ? H2 E1 E2|? d' r' ds2 ? Hr' Hd' Hc' E1 E2]; subst.
    + rewrite zlen_app in H2. destruct r; [done|]. rewrite zlen_cons in H2. pose proof (zlen_nonneg r). lia.
    + apply app_inj_1 in E2 as [-> ->]; [|unfold zlen in *; lia]. f_equal. apply IH. done.
Qed.
End Cut.

(** ** Lemmas: the whole frame *)

Lemma cut_seq T seq ampdu a inx rest ds : cut T a inx rest ds -> cut T (with_seq seq ampdu a) inx rest ds.
Proof. induction 1 as [inx rest H|inx d r ds Hm Hr Hd Hc IH]; [apply cut_last; exact H | apply cut_more; [exact Hm | exact Hr | exact Hd | exact IH]]. Qed.

Lemma next_seq_inv P a X a' X' : next_seq P a X = Ok (Some (a', X')) -> exists seq ampdu, a' = with_seq seq ampdu a /\ 0 <= seq < 4096.
Proof.
  unfold next_seq. intros H. destruct (rtw_get_stainfo P (Some (x_ra a))) as [s|]; [|discriminate].
  destruct (negb _) in H; [discriminate|]. destruct (_ =? 0) in H; [discriminate|]. res_inv. destruct a2 as [amp ba]. injection H as <- _.
  eexists _, _. split; [reflexivity|]. change 0xFFF with (Z.ones 12). rewrite Z.land_ones by lia. apply Z.mod_pos_bound. lia.
Qed.

Lemma hdr_fc_ok T a ds a1 a2 a3 : tx_ready T a ds a1 a2 a3 ->
  0 <= hdr_fc a ds < 65536 /\ Z.testbit (hdr_fc a ds) 10 = false /\ (ds = TO_DS \/ ds = FROM_DS \/ ds = 0).
Proof.
  intros [Ha _ _ _ Ht]. assert (Hd : ds = TO_DS \/ ds = FROM_DS \/ ds = 0).
  { unfold wlan_addrs in Ha. destruct (in_state _ _) in Ha; [injection Ha as <- _ _ _ _; auto|].
    destruct (in_state _ _) in Ha; [injection Ha as <- _ _ _ _; auto|]. destruct (_ || _) in Ha; [injection Ha as <- _ _ _ _; auto | discriminate]. }
  split; [|split; [|exact Hd]]; unfold hdr_fc; destruct Ht as [[-> _]|[-> _]], Hd as [-> |[-> | ->]], (x_mdata a), (x_encrypt a =? 0); vm_compute; try split; congruence.
Qed.

(** What follows the frame control field. *)
Definition hdr_rest (a : tx_attrib) (a1 a2 a3 : list Z) (seq : Z) : list Z :=
  [0; 0] ++ a1 ++ a2 ++ a3 ++ PUT_LE16 (0xfff0 & Z.shiftl seq 4) ++ (if x_hdrlen a =? 26 then PUT_LE16 (qos_control a 0) else []).

Lemma hdr_rest_zlen T a ds a1 a2 a3 seq : tx_ready T a ds a1 a2 a3 -> 2 + zlen (hdr_rest a a1 a2 a3 seq) = x_hdrlen a.
Proof.
  intros [_ H1 H2 H3 Ht]. unfold hdr_rest. rewrite !zlen_app, H1, H2, H3. change (zlen (PUT_LE16 _)) with 2.
  destruct Ht as [[_ ->]|[_ ->]]; reflexivity.
Qed.

(** A packet, its buffer and attributes, when everything is in place. *)
Record tx_frame_ok (T : tx_env) (P : sta_priv) (pkt : list Z) (x : xmit_frame) (a : tx_attrib) (X : gmap nat sta_xmit)
    (pre m : list Z) (ds : Z) (a1 a2 a3 : list Z) (a' : tx_attrib) (X' : gmap nat sta_xmit) : Prop := {
  tf_buffer : x_buf x = Some (pre ++ m);
  tf_hw : zlen pre = hw_hdr_offset x;
  tf_room : 64 <= zlen m;
  tf_ready : tx_ready T a ds a1 a2 a3;
  tf_seq : next_seq P a X = Ok (Some (a', X'));
  tf_sizes : attrib_sizes a;
  tf_iv_small : x_iv_len a <= 18; tf_icv_small : x_icv_len a <= 16;
  tf_frag_len : 256 <= frag_len T <= 2346;
  tf_pktlen : x_pktlen a = zlen (payload_of pkt a); tf_small : x_pktlen a < 2 ^ 32 }.

Section Whole.
  Context (T : tx_env) (P : sta_priv) (pkt : list Z) (x : xmit_frame) (a : tx_attrib) (X : gmap nat sta_xmit).
  Context (pre m : list Z) (ds : Z) (a1 a2 a3 : list Z) (a' : tx_attrib) (X' : gmap nat sta_xmit).
  Context (Hok : tx_frame_ok T P pkt x a X pre m ds a1 a2 a3 a' X').

Lemma rooms : (forall i, frag_room T a i < 2 ^ 32) /\ (IS_MCAST (x_ra a) = false -> forall i, 0 < frag_room T a i).
Proof.
  destruct Hok as [_ _ _ [_ _ _ _ Ht] _ [Hiv Hicv] H1 H2 H3 H4 H5].
  assert (Zi : zlen (room_iv a) = x_iv_len a) by (unfold room_iv, zlen in *; rewrite length_take; lia).
  assert (Zc : 0 <= zlen (room_icv a) <= x_icv_len a).
  { unfold room_icv. destruct (_ && _); [unfold zlen in *; rewrite length_take; lia | unfold zlen; cbn [length]; lia]. }
  assert (Zl : forall i, 0 <= zlen (llc_of_first a i) <= 8) by (intros i; unfold llc_of_first; destruct (i =? 0); [rewrite zlen_put_snap; lia | unfold zlen; cbn [length]; lia]).
  assert (Hh : 24 <= x_hdrlen a <= 26) by (destruct Ht as [[_ ->]|[_ ->]]; lia).
  split; [intros i | intros Hm i]; specialize (Zl i); unfold frag_room; [destruct (IS_MCAST _) | rewrite Hm]; lia.
Qed.

(** The header and the loop. *)
Lemma coalesce_layout pieces : cut T a 0 (payload_of pkt a) pieces -> (length pieces <= length (payload_of pkt a) + 1)%nat ->
  co_space (hw_hdr_offset x) a 0 pieces <= zlen m ->
  exists m1 m',
    rtw_make_wlanhdr T P (pre ++ m) (hw_hdr_offset x) a X = Ok (SUCCESS, m1, a', X') /\
    loop (coalesce_step T (x_addr x) (hw_hdr_offset x) a') (length (payload_of pkt a) + 2) (mkCo (payload_of pkt a) m1 0 (hw_hdr_offset x)) =
      Ok (pre ++ m', u8 (zlen pieces), last_size a (zlen pieces - 1) (List.last pieces [])) /\
    co_laid (x_addr x) (hw_hdr_offset x) (zlen pre) (frags_of a (hdr_fc a ds) (hdr_rest a a1 a2 a3 (x_seqnum a')) 0 pieces) m'.
Proof.
  intros Hc Hl Hsp. destruct rooms as [H32 _]. destruct Hok as [_ Hhw Hroom Hready Hseq Hsz _ _ _ _ _].
  destruct (split_front m 64) as (old & post & -> & L1 & _); [lia|]. rewrite zlen_app in Hsp.
  rewrite <- Hhw, (make_wlanhdr_spec T P pre old post a X ds a1 a2 a3 a' X') by done.
  destruct (next_seq_inv _ _ _ _ _ Hseq) as (seq & amp & -> & _). set (a' := with_seq seq amp a) in *.
  destruct (hdr_fc_ok T a ds a1 a2 a3 Hready) as (Hfc & Hb & _). pose proof (hdr_rest_zlen T a ds a1 a2 a3 seq Hready) as Zr.
  set (fc := hdr_fc a ds) in *. set (ht := hdr_rest a a1 a2 a3 seq) in *.
  set (m1 := pre ++ _). exists m1.
  assert (Em : m1 = pre ++ PUT_LE16 fc ++ ht ++ (zeros (Z.to_nat (64 - x_hdrlen a)) ++ post)).
  { unfold m1, wlan_hdr. change (x_seqnum a') with seq. fold fc. unfold ht, hdr_rest. rewrite <- !app_assoc. done. }
  pose proof (zlen_nonneg ht). pose proof (zlen_nonneg pre).
  destruct (cut_loop T (x_addr x) (zlen pre) a' fc ht 0 (payload_of pkt a) pieces) with (pre := pre) (fc' := fc)
    (w := zeros (Z.to_nat (64 - x_hdrlen a)) ++ post) (fuel := (length (payload_of pkt a) + 2)%nat) as (m' & E & L); try done.
  - apply cut_seq. exact Hc.
  - destruct Hsz as [S1 S2]. split; [exact S1 | exact S2].
  - intros r. apply rdn_off; [done|]. rewrite zlen_app. change (zlen (PUT_LE16 _)) with 2. change (x_hdrlen a') with (x_hdrlen a). lia.
  - change (x_hdrlen a') with (x_hdrlen a). change (co_space (zlen pre) a' 0 pieces) with (co_space (zlen pre) a 0 pieces). rewrite Hhw, zlen_app, zlen_zeros.
    destruct Hready as [_ _ _ _ Ht]. destruct Ht as [[_ E]|[_ E]]; rewrite E; lia.
  - lia.
  - exists m'. split; [done|]. rewrite Em. split; [exact E | exact L].
Qed.
End Whole.

(** C2: when no software encryption is asked for and the cipher is not TKIP, [rtw_xmitframe_coalesce] succeeds on every unicast packet the buffer
    has room for. The packet behind its Ethernet header is cut into pieces that, put together, are that packet; all but the last fill their
    fragments. In the buffer, behind the room for the descriptor, the fragments follow each other, each with the header of the frame, the IV and
    its piece, the first also with the LLC header; the more-fragments bit is set in all but the last. Bytes before the descriptor's end stay. *)
Theorem packet_cut_in_order T P pkt x a X pre m ds a1 a2 a3 a' X' sec cs : tx_frame_ok T P pkt x a X pre m ds a1 a2 a3 a' X' ->
  IS_MCAST (x_ra a) = false -> x_encrypt a <> TKIP -> x_bswenc a = false ->
  (forall pieces, cut T a 0 (payload_of pkt a) pieces -> co_space (hw_hdr_offset x) a 0 pieces <= zlen m) ->
  exists pieces m',
    cut T a 0 (payload_of pkt a) pieces /\ concat pieces = payload_of pkt a /\
    rtw_xmitframe_coalesce T P pkt x a X sec cs =
      Ok (mkCoResult SUCCESS (Some (pre ++ m')) (with_frags (u8 (zlen pieces)) (last_size a (zlen pieces - 1) (List.last pieces [])) a') X' sec cs) /\
    co_laid (x_addr x) (hw_hdr_offset x) (zlen pre) (frags_of a (hdr_fc a ds) (hdr_rest a a1 a2 a3 (x_seqnum a')) 0 pieces) m'.
Proof.
  intros Hok Hm Ht Hs Hroom. destruct (rooms _ _ _ _ _ _ _ _ _ _ _ _ _ _ Hok) as [_ Hr].
  destruct (cut_exists T a Hm (Hr Hm) (length (payload_of pkt a)) 0 (payload_of pkt a)) as (pieces & Hc & Hl); [lia|].
  destruct (coalesce_layout _ _ _ _ _ _ _ _ _ _ _ _ _ _ Hok pieces Hc Hl (Hroom _ Hc)) as (m1 & m' & E1 & E2 & L).
  exists pieces, m'. split; [exact Hc|]. split; [exact (cut_concat _ _ _ _ _ Hc)|]. split; [|exact L].
  destruct (next_seq_inv _ _ _ _ _ (tf_seq _ _ _ _ _ _ _ _ _ _ _ _ _ _ Hok)) as (seq & amp & -> & _).
  unfold rtw_xmitframe_coalesce. rewrite (tf_buffer _ _ _ _ _ _ _ _ _ _ _ _ _ _ Hok), E1. cbn [bind].
  change (payload_of pkt (with_seq seq amp a)) with (payload_of pkt a). change (SUCCESS =? FAIL) with false. cbn iota. rewrite E2. cbn [bind].
  unfold xmitframe_addmic. change (x_encrypt (with_frags _ _ _)) with (x_encrypt a). apply Z.eqb_neq in Ht. rewrite Ht. cbn [bind].
  change (SUCCESS =? FAIL) with false. cbn iota. unfold xmitframe_swencrypt. change (x_bswenc (with_frags _ _ _)) with (x_bswenc a). rewrite Hs. reflexivity.
Qed.

(** ** Lemmas: packet numbers *)

Lemma TSC_div pn i : 0 <= i -> TSC pn i = pn / 256 ^ i mod 256.
Proof. intros Hi. unfold TSC. rewrite land_ff_mod, Z.shiftr_div_pow2 by lia. rewrite Z.pow_mul_r by lia. done. Qed.

Lemma TSC_byte pn i : 0 <= i -> is_byte (TSC pn i).
Proof. intros Hi. rewrite TSC_div by done. apply Z.mod_pos_bound. lia. Qed.

Lemma TSC_num pn : 0 <= pn < 2 ^ 48 -> le_num [TSC pn 0; TSC pn 1; TSC pn 2; TSC pn 3; TSC pn 4; TSC pn 5] = pn.
Proof.
  intros H. rewrite !TSC_div, !le_num_cons by lia. change (le_num []) with 0.
  change (256 ^ 0) with 1. change (256 ^ 1) with 256. change (256 ^ 2) with (256 * 256). change (256 ^ 3) with (256 * 256 * 256).
  change (256 ^ 4) with (256 * 256 * 256 * 256). change (256 ^ 5) with (256 * 256 * 256 * 256 * 256). rewrite <- !Z.div_div, Z.div_1_r by lia.
  change (2 ^ 48) with (256 * 256 * 256 * 256 * 256 * 256) in H. Z.div_mod_to_equations. lia.
Qed.

(** The two forms of an IV of eight bytes. *)
Lemma iv_number tkip pn k : 0 <= pn < 2 ^ 48 - 1 -> let '(iv, pn') := if tkip : bool then TKIP_IV pn k else AES_IV pn k in
  pn' = pn + 1 /\ length iv = 8%nat /\ le_num (pn_of (if tkip then TKIP else AES) iv) = pn + 1 /\ byte_at iv 3 = BIT 5 .| Z.shiftl (k & 3) 6.
Proof.
  intros H. assert (E : (if pn =? 0xffffffffffff then 0 else u64 (pn + 1)) = pn + 1).
  { rewrite (proj2 (Z.eqb_neq _ _)) by lia. apply Z.mod_small. lia. }
  destruct tkip; unfold TKIP_IV, AES_IV; cbv zeta; rewrite E; (split; [done|]); (split; [done|]); (split; [|done]); apply TSC_num; lia.
Qed.

Lemma front_of_iv iv old : zlen old = 18 -> length iv = 8%nat -> put_front iv old = [] ++ iv ++ drop 8 old /\ zlen (put_front iv old) = 18.
Proof. intros Ho Hi. unfold put_front. rewrite Hi. split; [done|]. rewrite zlen_app. unfold zlen in *. rewrite length_drop. lia. Qed.

Lemma key_byte k : Z.shiftr (BIT 5 .| Z.shiftl (k & 3) 6) 6 = k & 3.
Proof.
  change 3 with (Z.ones 2). rewrite Z.land_ones by lia. pose proof (Z.mod_pos_bound k (2 ^ 2) ltac:(lia)) as H. change (2 ^ 2) with 4 in *.
  assert (E : k mod 4 = 0 \/ k mod 4 = 1 \/ k mod 4 = 2 \/ k mod 4 = 3) by lia. destruct E as [-> |[-> |[-> | ->]]]; reflexivity.
Qed.

(** What [set_iv] leaves in the attributes for a cipher with packet numbers. *)
Lemma set_iv_numbered T bm m a a' pn' mk : set_iv T bm m a = Some (a', pn', mk) -> pn_alg (x_encrypt a) = true -> 0 <= dot11txpn m < 2 ^ 48 - 1 ->
  zlen (x_iv a) = 18 ->
  pn' = dot11txpn m + 1 /\ x_iv_len a' = 8 /\ x_encrypt a' = x_encrypt a /\ x_key_idx a' = x_key_idx a /\ zlen (x_iv a') = 18 /\
  exists num, rtw_iv_to_pn (x_iv a') 0 (zeros 8) true (x_encrypt a) =
                Ok (SUCCESS, num ++ [0; 0], Some ((if bm then x_key_idx a else 0) & 3)) /\ le_num num = pn'.
Proof.
  unfold set_iv. intros H Hp Hr Hl. set (k := if bm then _ else _) in *.
  assert (Hw : (x_encrypt a =? WEP40) || (x_encrypt a =? WEP104) = false).
  { apply orb_false_iff. unfold pn_alg, ccmp_like in Hp. split; apply Z.eqb_neq; intros E; rewrite E in Hp; discriminate. }
  assert (Hpn : forall iv, length iv = 8%nat -> rtw_iv_to_pn (put_front iv (x_iv a)) 0 (zeros 8) true (x_encrypt a)
    = Ok (SUCCESS, pn_of (x_encrypt a) iv ++ [0; 0], Some (Z.shiftr (byte_at iv 3) 6))).
  { intros iv Hi. destruct (front_of_iv iv _ Hl Hi) as [-> _]. change 0 with (zlen (@nil Z)) at 1. apply iv_to_pn_spec; [exact Hp | unfold zlen; lia]. }
  rewrite Hw in H. destruct (Z.eqb_spec (x_encrypt a) TKIP) as [Et|Et].
  - destruct (negb _) in H; [discriminate|]. pose proof (iv_number true (dot11txpn m) k Hr) as Hn. cbn iota in Hn.
    destruct (TKIP_IV (dot11txpn m) k) as [iv pn]. destruct Hn as (-> & Hi & Hnum & Hk). injection H as <- <- _.
    split; [done|]. split; [done|]. split; [done|]. split; [done|]. split; [exact (proj2 (front_of_iv iv _ Hl Hi))|].
    exists (pn_of TKIP iv). split; [|exact Hnum]. cbn [x_iv with_encrypt with_xsec with_iv]. rewrite Hpn, Hk, key_byte, Et by done. done.
  - pose proof (iv_number false (dot11txpn m) k Hr) as Hn. cbn iota in Hn. destruct (AES_IV (dot11txpn m) k) as [iv pn]. destruct Hn as (-> & Hi & Hnum & Hk).
    assert (Hf : forall c, with_encrypt (x_encrypt a) 8 c (with_iv (put_front iv (x_iv a)) (x_key_idx a) (x_bswenc a) a) = a' -> dot11txpn m + 1 = pn' ->
      pn' = dot11txpn m + 1 /\ x_iv_len a' = 8 /\ x_encrypt a' = x_encrypt a /\ x_key_idx a' = x_key_idx a /\ zlen (x_iv a') = 18 /\
      exists num, rtw_iv_to_pn (x_iv a') 0 (zeros 8) true (x_encrypt a) = Ok (SUCCESS, num ++ [0; 0], Some (k & 3)) /\ le_num num = pn').
    { intros c <- <-. split; [done|]. split; [done|]. split; [done|]. split; [done|]. split; [exact (proj2 (front_of_iv iv _ Hl Hi))|].
      exists (pn_of AES iv). split; [|exact Hnum]. cbn [x_iv with_encrypt with_xsec with_iv]. rewrite Hpn, Hk, key_byte by done.
      unfold pn_of. apply Z.eqb_neq in Et. rewrite Et. done. }
    destruct (x_encrypt a =? AES) eqn:Ea; [injection H as H1 H2 _; eapply Hf; eassumption|].
    destruct (_ || _) eqn:Eg in H; [injection H as H1 H2 _; eapply Hf; eassumption|].
    exfalso. unfold pn_alg, ccmp_like in Hp. apply Z.eqb_neq in Et. rewrite Et, Ea in Hp. apply orb_false_iff in Eg as [Eg E3]. apply orb_false_iff in Eg as [E1 E2].
    rewrite E1, E2, E3 in Hp. discriminate.
Qed.

(** What the verdict depends on. *)
Lemma sec_info_inv T sec x m et a a' pn' : update_attrib_sec_info T sec x m et a = (SUCCESS, a', pn') ->
  exists a0 a1 mk,
    set_iv T (IS_MCAST (x_ra a)) m a0 = Some (a1, pn', mk) /\ x_encrypt a' = x_encrypt a1 /\ x_iv a' = x_iv a1 /\ x_iv_len a' = x_iv_len a1 /\
    x_key_idx a' = x_key_idx a1 /\ x_iv a0 = x_iv a /\
    (if sends_plain T x m et then x_encrypt a0 = 0 /\ (x_ether_type a = EAPOL_TYPE \/ in_state (te T) WIFI_MP_STATE = true)
     else (x_encrypt a0, x_key_idx a0) =
            key_index T sec (IS_MCAST (x_ra a)) (GET_ENCRY_ALGO (te T) x (x_encrypt a) (IS_MCAST (x_ra a))) (x_ether_type a) (x_key_idx a)).
Proof.
  unfold update_attrib_sec_info. cbv zeta. set (ak := with_keys _ _ _). change (x_encrypt ak) with (x_encrypt a). change (x_ether_type ak) with (x_ether_type a).
  change (x_key_idx ak) with (x_key_idx a). destruct (sends_plain T x m et).
  - set (a0 := with_encrypt 0 _ _ ak). change (x_ether_type a0) with (x_ether_type a). intros H. cbn [andb] in H.
    destruct (negb (x_ether_type a =? EAPOL_TYPE) && _) eqn:Eg in H; [discriminate|].
    destruct (set_iv _ _ _ _) as [[[a1 pn] mk]|] eqn:Es; [|discriminate]. injection H as <- <-. exists a0, a1, mk.
    split; [exact Es|]. do 4 (split; [reflexivity|]). split; [reflexivity|]. split; [reflexivity|].
    apply andb_false_iff in Eg as [Eg|Eg]; apply negb_false_iff in Eg; [left; apply Z.eqb_eq; done | right; done].
  - destruct (key_index _ _ _ _ _ _) as [enc k]. set (a0 := with_iv _ _ _ _). intros H. cbn [andb] in H.
    destruct (set_iv _ _ _ _) as [[[a1 pn] mk]|] eqn:Es; [|discriminate]. injection H as <- <-. exists a0, a1, mk.
    split; [exact Es|]. do 4 (split; [reflexivity|]). split; reflexivity.
Qed.

Lemma set_iv_encrypt T bm m a a' pn' mk : set_iv T bm m a = Some (a', pn', mk) -> x_encrypt a' = x_encrypt a.
Proof.
  unfold set_iv. destruct (_ || _); [destruct (WEP_IV _ _); intros H; injection H as <- _ _; done|].
  destruct (_ =? TKIP); [destruct (negb _); [discriminate|]; destruct (TKIP_IV _ _); intros H; injection H as <- _ _; done|].
  destruct (_ =? AES); [destruct (AES_IV _ _); intros H; injection H as <- _ _; done|].
  destruct (_ || _); [destruct (AES_IV _ _)|]; intros H; injection H as <- _ _; done.
Qed.

(** C3: a frame that [update_attrib_sec_info] lets through for a cipher with packet numbers (TKIP, CCMP, GCMP) gets the next number of its
    station, as long as there is one: the station's counter is one more than before, and [rtw_iv_to_pn], with which the receiver reads the IV, finds
    that number in it, and the index of the group key for a group frame. *)
Theorem sealed_frames_numbered T sec x m et a a' pn' : update_attrib_sec_info T sec x m et a = (SUCCESS, a', pn') ->
  pn_alg (x_encrypt a') = true -> 0 <= dot11txpn m < 2 ^ 48 - 1 -> zlen (x_iv a) = 18 ->
  pn' = dot11txpn m + 1 /\ x_iv_len a' = 8 /\
  exists num, rtw_iv_to_pn (x_iv a') 0 (zeros 8) true (x_encrypt a') =
                Ok (SUCCESS, num ++ [0; 0], Some ((if IS_MCAST (x_ra a) then x_key_idx a' else 0) & 3)) /\ le_num num = pn'.
Proof.
  intros H Hp Hr Hl. destruct (sec_info_inv _ _ _ _ _ _ _ _ H) as (a0 & a1 & mk & Hs & E1 & E2 & E3 & E4 & E5 & _).
  rewrite E1, (set_iv_encrypt _ _ _ _ _ _ _ Hs) in Hp |- *. rewrite <- E5 in Hl.
  destruct (set_iv_numbered _ _ _ _ _ _ _ Hs Hp Hr Hl) as (-> & E6 & _ & E7 & _ & num & Hn & Hnum).
  rewrite E2, E3, E4, E7. split; [done|]. split; [done|]. exists num. done.
Qed.

(** C4: to a station with a cipher no plain frame is sent but EAPOL (manufacturing mode apart): when a frame passes without
    a cipher, it is EAPOL; and to a station whose port is blocked nothing else passes, whatever its cipher. *)
Theorem no_plain_frames_sent T sec x m et a a' pn' : update_attrib_sec_info T sec x m et a = (SUCCESS, a', pn') ->
  in_state (te T) WIFI_MP_STATE = false ->
  (x_encrypt a' = 0 -> GET_ENCRY_ALGO (te T) x (x_encrypt a) (IS_MCAST (x_ra a)) <> 0 -> x_ether_type a = EAPOL_TYPE) /\
  (ieee8021x_blocked x = 1 -> x_ether_type a = EAPOL_TYPE /\ x_encrypt a' = 0).
Proof.
  intros H Hmp. destruct (sec_info_inv _ _ _ _ _ _ _ _ H) as (a0 & a1 & mk & Hs & E1 & _ & _ & _ & _ & Hx).
  rewrite E1, (set_iv_encrypt _ _ _ _ _ _ _ Hs). split.
  - intros E0 Hc. destruct (sends_plain _ _ _ _); [destruct Hx as [_ [?|?]]; [done | congruence]|].
    unfold key_index in Hx. injection Hx as Hx _. rewrite E0 in Hx. destruct (_ || _) in Hx; [|congruence].
    destruct (Z.eqb_spec (x_ether_type a) EAPOL_TYPE) as [He|He]; [exact He | congruence].
  - intros Hb. unfold sends_plain in Hx. rewrite Hb in Hx. cbn [Z.eqb Pos.eqb orb] in Hx. destruct Hx as [? [?|?]]; [done | congruence].
Qed.

(** ** Examples *)

(** An access point [ex_me] with the associated station [ex_ap], fragments of 256 bytes, and a packet of 514 bytes sealed by the chip. *)
Definition ex_tx_env : tx_env :=
  mkTxEnv (mkEnv WIFI_AP_STATE ex_me ex_me dot11AuthAlgrthm_8021X AES AES 0 (fun _ => 0) false (fun _ => mkPs 0 0 0 0 0 0 0))
    false 256 false true false false [] 0 (fun n => Some (replicate (Z.to_nat n) 0)) true 0.
Definition ex_tx_stas : sta_priv :=
  let x := sta_at ex_stas 1 in
  set_sta ex_stas 1 (mkSta (mac_addr x) WIFI_ASOC_STATE (flags x) 1 0 AES (zeros 32) (sta_recvpriv x) (sta_defrag x) (recvreorder_ctrl x) (on_auth_list x)).
Definition ex_tx_pkt : list Z := ex_ap ++ ex_far ++ [8; 0] ++ map (fun i => Z.of_nat i mod 256) (seq 0 500).
Definition ex_tx_attrib (sw : bool) : tx_attrib :=
  mkTa (mkTx AES 26 8 8 0 0 ex_me ex_ap (replicate 32 7)) 0x88 sw 0x0800 0 14 500 ([1; 0; 0; 0x20] ++ zeros 14) (zeros 16) 3 0 ex_ap ex_far 0
    true false false false 0 (Some 1%nat) (zeros 16).
Definition ex_tx_frame : xmit_frame := mkXmit (Some (zeros 2048)) 0x1000 0.

Definition ex_tx_next : tx_attrib * gmap nat sta_xmit :=
  match next_seq ex_tx_stas (ex_tx_attrib false) ∅ with Ok (Some r) => r | _ => (ex_tx_attrib false, ∅) end.

Lemma ex_tx_frame_ok : tx_frame_ok ex_tx_env ex_tx_stas ex_tx_pkt ex_tx_frame (ex_tx_attrib false) ∅ (zeros 40) (zeros 2008)
  FROM_DS ex_ap ex_me ex_far (fst ex_tx_next) (snd ex_tx_next).
Proof.
  split; try (vm_compute; reflexivity); try (vm_compute; discriminate).
  - split; try reflexivity. right. split; reflexivity.
  - split; vm_compute; split; discriminate.
  - vm_compute. split; discriminate.
Qed.

Definition ex_tx_pieces : list (list Z) :=
  let l := payload_of ex_tx_pkt (ex_tx_attrib false) in [take 210 l; take 218 (drop 210 l); drop 428 l].

Lemma ex_tx_cut : cut ex_tx_env (ex_tx_attrib false) 0 (payload_of ex_tx_pkt (ex_tx_attrib false)) ex_tx_pieces.
Proof.
  unfold ex_tx_pieces. set (l := payload_of _ _).
  replace l with (take 210 l ++ (take 218 (drop 210 l) ++ drop 428 l)) at 1 by (vm_compute; reflexivity).
  apply cut_more; [reflexivity | vm_compute; discriminate | vm_compute; reflexivity|].
  apply cut_more; [reflexivity | vm_compute; discriminate | vm_compute; reflexivity|]. apply cut_last. vm_compute. discriminate.
Qed.

Lemma packet_cut_in_order_witness : exists pieces m',
  concat pieces = drop 14 ex_tx_pkt /\ length pieces = 3%nat /\
  rtw_xmitframe_coalesce ex_tx_env ex_tx_stas ex_tx_pkt ex_tx_frame (ex_tx_attrib false) ∅ ex_sw_sec crc_state0 =
    Ok (mkCoResult SUCCESS (Some (zeros 40 ++ m'))
          (with_frags (u8 (zlen pieces)) (last_size (ex_tx_attrib false) (zlen pieces - 1) (List.last pieces [])) (fst ex_tx_next)) (snd ex_tx_next)
          ex_sw_sec crc_state0).
Proof.
  destruct (packet_cut_in_order ex_tx_env ex_tx_stas ex_tx_pkt ex_tx_frame (ex_tx_attrib false) ∅ (zeros 40) (zeros 2008)
    FROM_DS ex_ap ex_me ex_far (fst ex_tx_next) (snd ex_tx_next) ex_sw_sec crc_state0 ex_tx_frame_ok) as (pieces & m' & Hc & Hp & E & _).
  - reflexivity.
  - discriminate.
  - reflexivity.
  - intros pieces Hc. rewrite (cut_unique _ _ _ _ _ ex_tx_cut _ Hc). vm_compute. discriminate.
  - exists pieces, m'. split; [rewrite Hp; vm_compute; reflexivity|]. split; [|exact E].
    rewrite (cut_unique _ _ _ _ _ ex_tx_cut _ Hc). reflexivity.
Defined.

(** The station's counter stands at 2^40; its port is open or blocked. *)
Definition ex_tx_counter : sta_xmit := mkStaXmit (replicate 16 0) (replicate 16 0) (2 ^ 40) (zeros 32) 0.
Definition ex_tx_sta (blocked : Z) : sta_info :=
  let x := sta_at ex_tx_stas 1 in
  mkSta (mac_addr x) WIFI_ASOC_STATE (flags x) 1 blocked AES (replicate 32 7) (sta_recvpriv x) (sta_defrag x) (recvreorder_ctrl x) (on_auth_list x).
Definition ex_tx_eapol : tx_attrib :=
  mkTa (mkTx AES 24 0 0 0 0 ex_me ex_ap (zeros 32)) 0x08 false EAPOL_TYPE 0 14 100 (zeros 18) (zeros 16) 0 0 ex_ap ex_me 0
    false false false false 0 (Some 1%nat) (zeros 16).

Lemma sealed_frames_numbered_witness : exists a' pn' num,
  update_attrib_sec_info ex_tx_env ex_sw_sec (ex_tx_sta 0) ex_tx_counter NON_EAPOL (ex_tx_attrib false) = (SUCCESS, a', pn') /\
  rtw_iv_to_pn (x_iv a') 0 (zeros 8) true (x_encrypt a') = Ok (SUCCESS, num ++ [0; 0], Some 0) /\ le_num num = 2 ^ 40 + 1.
Proof.
  destruct (update_attrib_sec_info ex_tx_env ex_sw_sec (ex_tx_sta 0) ex_tx_counter NON_EAPOL (ex_tx_attrib false)) as [[r a'] pn'] eqn:E.
  assert (Er : r = SUCCESS) by (change r with (fst (fst (r, a', pn'))); rewrite <- E; vm_compute; reflexivity). subst r.
  assert (Ea : x_encrypt a' = AES) by (change a' with (snd (fst (SUCCESS, a', pn'))); rewrite <- E; vm_compute; reflexivity).
  destruct (sealed_frames_numbered _ _ _ _ _ _ _ _ E) as (Hpn & _ & num & Hn & Hv).
  - rewrite Ea. reflexivity.
  - vm_compute. split; [discriminate | reflexivity].
  - reflexivity.
  - exists a', pn', num. split; [reflexivity|]. split; [exact Hn|]. rewrite Hv, Hpn. reflexivity.
Defined.

Lemma no_plain_frames_sent_witness :
  fst (fst (update_attrib_sec_info ex_tx_env ex_sw_sec (ex_tx_sta 1) ex_tx_counter NON_EAPOL (ex_tx_attrib false))) = FAIL /\
  exists a' pn', update_attrib_sec_info ex_tx_env ex_sw_sec (ex_tx_sta 1) ex_tx_counter EAPOL_2_4 ex_tx_eapol = (SUCCESS, a', pn') /\
    x_encrypt a' = 0 /\ x_ether_type ex_tx_eapol = EAPOL_TYPE.
Proof.
  split; [vm_compute; reflexivity|].
  destruct (update_attrib_sec_info ex_tx_env ex_sw_sec (ex_tx_sta 1) ex_tx_counter EAPOL_2_4 ex_tx_eapol) as [[r a'] pn'] eqn:E.
  assert (Er : r = SUCCESS) by (change r with (fst (fst (r, a', pn'))); rewrite <- E; vm_compute; reflexivity). subst r.
  destruct (no_plain_frames_sent _ _ _ _ _ _ _ _ E) as [_ Hb]; [reflexivity|]. destruct Hb as [He Hz]; [reflexivity|].
  exists a', pn'. split; [reflexivity|]. split; [exact Hz | exact He].
Defined.

(** Software encryption of a packet of two fragments: the ciphers look for the second at [frag_len] from the first, where no room for a descriptor
    is counted, and write over the header of the second fragment. The chip's own encryption finds the headers intact. *)
Definition ex_second_header (sw : bool) : list Z :=
  match rtw_xmitframe_coalesce ex_tx_env ex_tx_stas (take 314 ex_tx_pkt) ex_tx_frame (ex_tx_attrib sw) ∅ ex_sw_sec crc_state0 with
  | Ok r => match cr_buf r with Some b => take 24 (drop 332 b) | None => [] end
  | Fault _ => []
  end.

Example software_fragments_broken :
  let h := [0x88; 0x42; 0; 0] ++ ex_ap ++ ex_me ++ ex_far ++ [0x10; 0] in map (fun sw => list_eqb (ex_second_header sw) h) [false; true] = [true; false].
Proof. vm_compute. reflexivity. Qed.
