(* ===== verification/Trip.v ===== *)
(** * From one driver to the other

    A frame that [rtw_xmitframe_coalesce] ([TxFrame]) prepares on an access point and [rtw_recv_entry] ([RecvPath]) takes on a station
    with the same key: the packet that comes out is the packet that went in. *)
From Stdlib Require Import ZArith Lia Bool.
From stdpp Require Import base option list numbers gmap.
From S2P Require Import Prelude Arc4 Sec Crc32 Aes Modes Ccm Ccmp Gcmp SwCrypt RecvFrame RecvPn Defrag RecvMpdu StaTable RecvValid RecvPath TxFrame.
From S2P Require Reorder.
Local Open Scope Z_scope.

(** ** The frames of an access point *)

(** Protected data frames with FromDS, with or without QoS, with or without more data; not fragmented. *)
Definition ap_hdr (qos mdata : bool) (a1 a2 a3 : list Z) (sc qc : Z) : list Z :=
  [if qos then 0x88 else 0x08; if mdata then 0x62 else 0x42; 0; 0] ++ a1 ++ a2 ++ a3 ++ PUT_LE16 sc ++ (if qos then PUT_LE16 qc else []).
Definition ap_word (qos mdata : bool) : Z := (if qos then 0x88 else 0x08) + 256 * (if mdata then 0x62 else 0x42).

(** Sealed for a suite: header, IV, text, code. *)
Definition ap_frame (su : suite) (am : Z) (key h iv m : list Z) : list Z := h ++ iv ++ air_text su key h iv m ++ air_code su am key h iv m.

(** ** Lemmas: the header *)

Section Header.
  Context (qos mdata : bool) (a1 a2 a3 : list Z) (sc qc : Z).
  Context (H1 : zlen a1 = 6) (H2 : zlen a2 = 6) (H3 : zlen a3 = 6).

Let h : list Z := ap_hdr qos mdata a1 a2 a3 sc qc.

Lemma ap_hdr_zlen : zlen h = if qos then 26 else 24.
Proof. unfold h, ap_hdr. rewrite !zlen_app, H1, H2, H3. destruct qos; reflexivity. Qed.

Lemma ap_hdr_ok : bytes a1 -> bytes a2 -> bytes a3 -> hdr_ok h.
Proof.
  intros B1 B2 B3. pose proof ap_hdr_zlen as Hz. split.
  - unfold h, ap_hdr, bytes. rewrite !Forall_app. split; [destruct qos, mdata; apply bytes_by_compute; reflexivity|].
    do 3 (split; [done|]). split; [apply put_le16_bytes|]. destruct qos; [apply put_le16_bytes | apply List.Forall_nil].
  - unfold h, ap_hdr, zlen in *. destruct qos, mdata; cbn [app] in *; apply Nat2Z.inj; rewrite Hz; reflexivity.
Qed.

(** Encryption would set the Protected bit, which is set. *)
Lemma ap_hdr_air su : air_hdr su h = h.
Proof. unfold air_hdr. destruct (is_ccmp su); [|done]. unfold h, ap_hdr. destruct qos, mdata; reflexivity. Qed.
End Header.

(** ** Lemmas: reading a frame *)

Lemma part_off f a p q r b : framed f a (p ++ q ++ r) b -> part_at f (zlen p) (zlen q) = q.
Proof.
  intros [Hm Hd _ _ _]. unfold part_at. rewrite Hm, Hd. replace (a ++ (p ++ q ++ r) ++ b) with ((a ++ p) ++ q ++ (r ++ b)) by (rewrite <- !app_assoc; done).
  rewrite drop_app_length' by (unfold zlen; rewrite length_app; lia). apply take_app_length'. unfold zlen. lia.
Qed.

Lemma byte_off f a p x r b : framed f a (p ++ x :: r) b -> byte_of f (zlen p) = x.
Proof.
  intros [Hm Hd _ _ _]. unfold byte_of. rewrite Hm, Hd. replace (a ++ (p ++ x :: r) ++ b) with ((a ++ p) ++ x :: (r ++ b)) by (rewrite <- !app_assoc; done).
  replace (Z.to_nat (zlen a + zlen p)) with (length (a ++ p)) by (unfold zlen; rewrite length_app; lia). rewrite list_lookup_middle; done.
Qed.

Lemma le16_off f a p v r b : 0 <= v < 65536 -> framed f a (p ++ PUT_LE16 v ++ r) b -> le16_of f (zlen p) = v.
Proof.
  intros Hv Hf. destruct (le16_pair v Hv) as (x & y & E & _ & _ & Ev). rewrite E in Hf. cbn [app] in Hf. unfold le16_of.
  rewrite (byte_off f a p x (y :: r) b Hf). replace (zlen p + 1) with (zlen (p ++ [x])) by (rewrite zlen_app; reflexivity).
  rewrite (byte_off f a (p ++ [x]) y r b); [exact Ev | rewrite <- app_assoc; exact Hf].
Qed.

Lemma get_le16_off f a p v r b : 0 <= v < 65536 -> framed f a (p ++ PUT_LE16 v ++ r) b -> GET_LE16 (rf_mem f) (rx_data f + zlen p) = Ok v.
Proof.
  intros Hv [Hm Hd _ _ _]. rewrite Hm, Hd. replace (a ++ (p ++ PUT_LE16 v ++ r) ++ b) with ((a ++ p) ++ PUT_LE16 v ++ (r ++ b)) by (rewrite <- !app_assoc; done).
  rewrite <- zlen_app. apply get_put_le16. done.
Qed.

(** ** Lemmas: one station's record *)

Lemma bucket_search_same P P' a l : (forall s, mac_of P' s = mac_of P s) -> bucket_search P' a l = bucket_search P a l.
Proof. intros H. induction l as [|s l IH]; [done|]. cbn [bucket_search]. fold (mac_of P' s) (mac_of P s). rewrite H, IH. done. Qed.

Lemma get_set_sta P s x q : (s < length (pstainfo_buf P))%nat -> mac_addr x = mac_of P s -> rtw_get_stainfo (set_sta P s x) q = rtw_get_stainfo P q.
Proof.
  intros Hs Hx. destruct q as [h|]; [|done]. unfold rtw_get_stainfo. change (sta_hash (set_sta P s x)) with (sta_hash P).
  apply bucket_search_same. intros t. unfold mac_of. rewrite set_sta_at by done. case_decide as E; [subst; exact Hx | done].
Qed.

(** ** Receiving *)

(** A station that is linked and has exchanged keys with the peer [a2], its record [t]: what of the state a frame with the traffic
    identifier [tid] meets. *)
Record peer_ready (E : path_env) (s : rx_state) (t : nat) (su : suite) (key a2 : list Z) (tid : Z) : Prop := {
  pr_sta : in_state (pe E) WIFI_STATION_STATE = true;
  pr_ap : in_state (pe E) WIFI_AP_STATE = false;
  pr_mon : in_state (pe E) WIFI_MONITOR_STATE = false;
  pr_linked : fw_state (pe E) & (WIFI_ASOC_STATE .| WIFI_UNDER_LINKING) <> 0;
  pr_8021x : dot11AuthAlgrthm (pe E) = dot11AuthAlgrthm_8021X;
  pr_keyset : busetkipkey E = true;
  pr_pending : pending_q s = [];
  pr_mem : mem_ready (pe_malloc E);
  pr_alloc : pe_aes_alloc E = true;
  pr_run : cannot_run E = false;
  pr_table : table_ok (stas s);
  pr_get : rtw_get_stainfo (stas s) (Some a2) = Some t;
  pr_cipher : dot118021XPrivacy (sta_at (stas s) t) = encrypt_of su;
  pr_key : exists krest, dot118021x_UncstKey (sta_at (stas s) t) = key ++ krest;
  pr_key_ok : bytes key /\ length key = key_of su;
  pr_open : ieee8021x_blocked (sta_at (stas s) t) = 0;
  pr_window : forall c, recvreorder_ctrl (sta_at (stas s) t) !! Z.to_nat tid = Some c -> Reorder.enable c = false;
  pr_ivs : iv_seq_ok (v_iv_seq (s_valid s));
  pr_recv : forall u, recvpriv_ok (sta_recvpriv (sta_at (stas s) u)) }.

(** A frame on its way from the peer: its attributes are those of the buffer it was taken into; behind it the buffer has room. *)
Record sent_to (E : path_env) (f : recv_frame) (pre : list Z) (qos mdata : bool) (a1 a2 a3 : list Z) (sc qc : Z) (rest b : list Z) : Prop := {
  st_framed : framed f pre (ap_hdr qos mdata a1 a2 a3 sc qc ++ rest) b;
  st_bytes : bytes (rf_mem f);
  st_room : 64 <= zlen (rest ++ b);
  st_a1 : zlen a1 = 6; st_a2 : zlen a2 = 6; st_a3 : zlen a3 = 6;
  st_unicast : IS_MCAST a1 = false;
  st_other : a3 <> myhwaddr (pe E);
  st_sc : 0 <= sc < 65536; st_whole : sc & 0x0f = 0;
  st_qc : 0 <= qc < 65536; st_single : GetAMsdu qc = 0;
  st_sealed : a_bdecrypted (attrib f) = 0 }.

(** The frame once its header's fixed part is read. *)
Definition header_read (qos mdata : bool) (sc : Z) (f : recv_frame) : recv_frame :=
  with_attrib f (with_qos (if qos then 1 else 0) (with_header (ap_word qos mdata) sc (attrib f))).

Section Receive.
  Context (E : path_env) (f : recv_frame) (pre : list Z) (qos mdata : bool) (a1 a2 a3 : list Z) (sc qc : Z) (rest b : list Z).
  Context (Hf : sent_to E f pre qos mdata a1 a2 a3 sc qc rest b).

Let h : list Z := ap_hdr qos mdata a1 a2 a3 sc qc.
Let f0 : recv_frame := header_read qos mdata sc f.
Let front : list Z := [if qos then 0x88 else 0x08; if mdata then 0x62 else 0x42; 0; 0].

Lemma framed_again g : rf_mem g = rf_mem f -> rx_data g = rx_data f -> rx_tail g = rx_tail f -> rf_len g = rf_len f -> framed g pre (h ++ rest) b.
Proof. intros E1 E2 E3 E4. destruct (st_framed _ _ _ _ _ _ _ _ _ _ _ _ Hf) as [F1 F2 F3 F4 F5]. split; rewrite ?E1, ?E2, ?E3, ?E4; done. Qed.

Lemma f0_framed : framed f0 pre (h ++ rest) b.
Proof. apply framed_again; reflexivity. Qed.

Lemma h_cut : h ++ rest = front ++ a1 ++ (a2 ++ a3 ++ PUT_LE16 sc ++ (if qos then PUT_LE16 qc else []) ++ rest).
Proof. unfold h, ap_hdr, front. rewrite <- !app_assoc. done. Qed.

Lemma read_addresses : A1 f0 = a1 /\ A2 f0 = a2 /\ A3 f0 = a3.
Proof.
  pose proof f0_framed as F. destruct Hf as [_ _ _ Z1 Z2 Z3 _ _ _ _ _ _ _]. rewrite h_cut in F. split; [|split].
  - unfold A1. change 4 with (zlen front). rewrite <- Z1. exact (part_off _ _ front a1 _ _ F).
  - unfold A2. rewrite app_assoc in F. replace 10 with (zlen (front ++ a1)) by (rewrite zlen_app, Z1; reflexivity). rewrite <- Z2. exact (part_off _ _ _ a2 _ _ F).
  - unfold A3. rewrite app_assoc, (app_assoc _ a2) in F. replace 16 with (zlen ((front ++ a1) ++ a2)) by (rewrite !zlen_app, Z1, Z2; reflexivity).
    rewrite <- Z3. exact (part_off _ _ _ a3 _ _ F).
Qed.

Lemma read_words : GET_LE16 (rf_mem f) (rx_data f + 22) = Ok sc /\ (qos = true -> qc_of f0 = qc).
Proof.
  pose proof f0_framed as F. destruct Hf as [_ _ _ Z1 Z2 Z3 _ _ Hsc _ Hqc _ _]. rewrite h_cut in F. rewrite app_assoc, (app_assoc _ a2), (app_assoc _ a3) in F. split.
  - replace 22 with (zlen (((front ++ a1) ++ a2) ++ a3)) by (rewrite !zlen_app, Z1, Z2, Z3; reflexivity).
    change (rf_mem f) with (rf_mem f0). change (rx_data f) with (rx_data f0). exact (get_le16_off f0 pre _ sc _ _ Hsc F).
  - intros Hq. unfold qc_of. rewrite Hq in F. rewrite (app_assoc _ (PUT_LE16 sc)) in F.
    replace 24 with (zlen ((((front ++ a1) ++ a2) ++ a3) ++ PUT_LE16 sc)) by (rewrite !zlen_app, Z1, Z2, Z3; reflexivity).
    exact (le16_off f0 pre _ qc _ _ Hqc F).
Qed.

Lemma amsdu_none : amsdu_of f0 = 0.
Proof.
  unfold amsdu_of. unfold f0, header_read. cbn [attrib with_attrib with_qos a_qos].
  assert (Eq : qos = true \/ qos = false) by (destruct qos; auto). destruct Eq as [Eq|Eq]; rewrite Eq; [|reflexivity]. cbn [Z.eqb].
  pose proof (proj2 read_words Eq) as Hq. unfold f0, header_read in Hq. rewrite Eq in Hq. rewrite Hq. apply (st_single _ _ _ _ _ _ _ _ _ _ _ _ Hf).
Qed.

(** The first word. *)
Lemma read_front : rd (rf_mem f) (rx_data f) = Ok (if qos then 0x88 else 0x08) /\ GET_LE16 (rf_mem f) (rx_data f) = Ok (ap_word qos mdata).
Proof.
  pose proof (st_framed _ _ _ _ _ _ _ _ _ _ _ _ Hf) as F. fold h in F. rewrite h_cut in F. split.
  - destruct F as [Hm Hd _ _ _]. rewrite Hm, Hd. unfold front. cbn [app]. apply rd_mid.
  - assert (Ew : front = [] ++ PUT_LE16 (ap_word qos mdata) ++ [0; 0]) by (clear; unfold front; destruct qos, mdata; reflexivity).
    rewrite Ew, <- !app_assoc in F. rewrite <- (Z.add_0_r (rx_data f)). change 0 with (zlen (@nil Z)).
    apply (get_le16_off f pre [] (ap_word qos mdata) ([0; 0] ++ a1 ++ a2 ++ a3 ++ PUT_LE16 sc ++ (if qos then PUT_LE16 qc else []) ++ rest) b);
      [clear; destruct qos, mdata; vm_compute; split; congruence | exact F].
Qed.

(** The attributes once the cipher is known. *)
Definition got (x : sta_info) : rx_attrib := set_cipher (pe E) x (attrib_of f0).

Lemma got_values x su : dot11AuthAlgrthm (pe E) = dot11AuthAlgrthm_8021X -> dot118021XPrivacy x = encrypt_of su ->
  let a := got x in
  a_encrypt a = encrypt_of su /\ a_hdrlen a = zlen h /\ a_iv_len a = 8 /\ a_icv_len a = code_of su /\ a_ra a = a1 /\ a_ta a = a2 /\
  a_dst a = a1 /\ a_src a = a3 /\ a_amsdu a = 0 /\ a_mfrag a = 0 /\ a_frag_num a = 0 /\ a_privacy a = 1 /\ a_bdecrypted a = 0.
Proof.
  intros Ha Hx. destruct read_addresses as (R1 & R2 & R3). pose proof amsdu_none as Ham.
  pose proof (ap_hdr_zlen qos mdata a1 a2 a3 sc qc (st_a1 _ _ _ _ _ _ _ _ _ _ _ _ Hf) (st_a2 _ _ _ _ _ _ _ _ _ _ _ _ Hf) (st_a3 _ _ _ _ _ _ _ _ _ _ _ _ Hf)) as Zh.
  fold h in Zh. pose proof (st_whole _ _ _ _ _ _ _ _ _ _ _ _ Hf) as Hw. pose proof (st_unicast _ _ _ _ _ _ _ _ _ _ _ _ Hf) as Hu.
  pose proof (st_sealed _ _ _ _ _ _ _ _ _ _ _ _ Hf) as Hb.
  assert (Eb : attrib_of f0 = (if qos then with_qc (GetPriority (qc_of f0)) (GetAckpolicy (qc_of f0)) 26 else with_qc 0 0 24)
    (with_dsb a1 a3 a2 (with_ra_ta a1 a2 (with_amsdu 0 (attrib f0))))).
  { unfold attrib_of. rewrite R1, R2, R3, Ham. clear. unfold f0, header_read. destruct qos, mdata; reflexivity. }
  unfold got. rewrite Eb. clear Eb. generalize (GetPriority (qc_of f0)) (GetAckpolicy (qc_of f0)). intros p q. unfold set_cipher.
  assert (Ep : a_privacy (attrib f0) = 1 /\ a_mfrag (attrib f0) = 0 /\ a_frag_num (attrib f0) = 0 /\ a_bdecrypted (attrib f0) = 0).
  { unfold f0, header_read. cbn [attrib with_attrib with_qos with_header a_privacy a_mfrag a_frag_num a_bdecrypted]. rewrite Hb.
    unfold GetFragNum. rewrite Hw. clear. destruct qos, mdata; repeat split; reflexivity. }
  destruct Ep as (P1 & P2 & P3 & P4). set (at0 := attrib f0) in *.
  set (at1 := (if qos then _ else _) _).
  assert (V : a_privacy at1 = 1 /\ a_ra at1 = a1 /\ a_ta at1 = a2 /\ a_dst at1 = a1 /\ a_src at1 = a3 /\ a_amsdu at1 = 0 /\ a_mfrag at1 = 0 /\
    a_frag_num at1 = 0 /\ a_bdecrypted at1 = 0 /\ a_hdrlen at1 = zlen h).
  { unfold at1. rewrite Zh. destruct qos; repeat split; done. }
  destruct V as (V1 & V2 & V3 & V4 & V5 & V6 & V7 & V8 & V9 & V10). rewrite V1. cbn [Z.eqb negb]. unfold GET_ENCRY_ALGO.
  rewrite Ha, Z.eqb_refl, V2, Hu, Hx.
  assert (Es : u8 (encrypt_of su) = encrypt_of su /\ SET_ICE_IV_LEN (encrypt_of su) = (8, code_of su)) by (destruct su; split; reflexivity).
  destruct Es as [-> ->]. repeat split; done.
Qed.

Lemma f0_from_ap s t su key tid : peer_ready E s t su key a2 tid -> from_ap (pe E) f0.
Proof.
  intros Hp. pose proof f0_framed as F. split; try apply Hp.
  - unfold f0, header_read. clear. destruct qos, mdata; reflexivity.
  - unfold f0, header_read. clear. destruct qos; [right | left]; reflexivity.
  - destruct F as [Hm Hd _ _ _]. unfold room. rewrite Hm, Hd, <- app_assoc, (zlen_app pre), (zlen_app h). pose proof (st_room _ _ _ _ _ _ _ _ _ _ _ _ Hf).
    pose proof (zlen_nonneg pre). pose proof (zlen_nonneg h). lia.
  - exact (st_bytes _ _ _ _ _ _ _ _ _ _ _ _ Hf).
Qed.

Lemma link_tid : let p := if negb (IS_MCAST (a_ra (attrib_of f0))) && negb (a_qos (attrib_of f0) =? 0) then Some (a_priority (attrib_of f0)) else None in
  p = None \/ p = Some (GetPriority qc).
Proof.
  pose proof (proj2 read_words) as Hq. destruct (negb (IS_MCAST _)); cbn [andb]; [|auto]. unfold attrib_of. cbn [a_qos with_dsb with_ra_ta with_amsdu].
  unfold f0, header_read in *. cbn [attrib with_attrib with_qos a_qos] in *. assert (Eq : qos = true \/ qos = false) by (destruct qos; auto).
  destruct Eq as [Eq|Eq]; rewrite Eq in *; cbn [Z.eqb]; [right | left; reflexivity]. rewrite (Hq eq_refl). reflexivity.
Qed.

(** The checks pass. *)
Lemma sealed_frame_validated s t su key tid d : peer_ready E s t su key a2 tid -> fresh_seq f0 (sta_recvpriv (sta_at (stas s) t)) ->
  exists l v' r, validate_recv_frame (pe E) f (s_valid s) d = Ok (SUCCESS, with_attrib f (got (sta_at (stas s) t)), l, v', d) /\
    l_psta l = Some t /\ (l_tid l = None \/ l_tid l = Some (GetPriority qc)) /\ v_stas v' = set_sta (stas s) t (with_recvpriv (sta_at (stas s) t) r).
Proof.
  intros Hp Hfresh. destruct read_addresses as (R1 & R2 & R3). pose proof amsdu_none as Ham. destruct read_front as [B0 W0].
  assert (Hacc : station_accepts (pe E) f0 (ap_word qos mdata) (s_valid s) t).
  { split; [rewrite R2; apply Hp|]. split; [intros _; rewrite R3; apply Hf|]. split; [clear; destruct qos, mdata; reflexivity|].
    split; [rewrite Ham; done|]. split; [exact Hfresh|]. split.
    - intros Hm. rewrite R1, (st_unicast _ _ _ _ _ _ _ _ _ _ _ _ Hf) in Hm. done.
    - right. left. unfold f0, header_read. clear. destruct qos, mdata; discriminate. }
  destruct (data_verdict_spec (pe E) f0 (ap_word qos mdata) (s_valid s)) as (ret & f' & l & v' & Ev & Hiff & Hok);
    [apply (f0_from_ap s t su key tid Hp) | apply Hp | apply Hp|].
  assert (Er : ret = SUCCESS) by (apply Hiff; exists t; exact Hacc). destruct (Hok Er) as (t' & r & Ht & -> & -> & Ev'). subst ret.
  assert (t' = t) as -> by (rewrite R2 in Ht; pose proof (pr_get _ _ _ _ _ _ _ Hp) as Hg; unfold stas in Hg; congruence).
  exists (mkLink (Some t) (if negb (IS_MCAST (a_ra (attrib_of f0))) && negb (a_qos (attrib_of f0) =? 0) then Some (a_priority (attrib_of f0)) else None)), v', r.
  split; [|split; [reflexivity | split; [apply link_tid | exact Ev']]]. unfold validate_recv_frame. rewrite B0. cbn [bind].
  assert (E3 : negb ((if qos then 0x88 else 0x08) & 0x3 =? 0) = false) by (clear; destruct qos; reflexivity). rewrite E3, W0. cbn [bind].
  rewrite (proj1 read_words). cbn [bind]. cbv zeta.
  assert (Et : (GetFrameType (ap_word qos mdata) =? WIFI_MGT_TYPE) || (GetFrameType (ap_word qos mdata) =? WIFI_CTRL_TYPE) = false /\
    (GetFrameType (ap_word qos mdata) =? WIFI_DATA_TYPE) = true /\
    (if negb (get_frame_sub_type (ap_word qos mdata) & BIT 7 =? 0) then 1 else 0) = (if qos then 1 else 0)) by (clear; destruct qos, mdata; repeat split; reflexivity).
  destruct Et as (-> & -> & ->). rewrite with_attrib_twice. cbn [attrib with_attrib]. fold (header_read qos mdata sc f). fold f0. rewrite Ev. cbn [bind].
  change (SUCCESS =? FAIL) with false. cbv iota.
  assert (Ef : forall A, with_attrib f0 A = with_attrib f A) by (intros A; apply with_attrib_twice). rewrite Ef. unfold got, stas. reflexivity.
Qed.
End Receive.

(** ** Lemmas: the code is bytes *)

Lemma ccmp_mic_bytes am key M h iv p : ccmp_key key M -> hdr_ok h -> bytes iv -> bytes p -> bytes (ccmp_mic am key M h iv p).
Proof.
  intros HK Hh Hbiv Hp. destruct (ccmp_key_aes key M HK) as [Hk HM]. destruct (aes_context key Hk) as (ctx & _ & HC).
  pose proof (ccmp_args_ok M h iv Hh Hbiv HM) as HA. destruct (ccmp_nonce_ok h iv Hh Hbiv) as [Bn Ln]. destruct (ccm_a_ok (ccmp_nonce h iv) Bn Ln) as [Ba La].
  unfold ccmp_mic, ccm_tag. apply xor_bytes_bytes.
  - apply Forall_take. refine (proj1 (ccm_mac_blk ctx (aes_cipher key) M (ccmp_nonce h iv) (ccmp_aad am h) p HA _ _ Hp));
      [apply hdr_aad_bytes; done || (unfold is_byte; lia) | apply hdr_aad_zlen, Hh].
  - refine (proj1 (cipher_blk (ctx := ctx) _ _)). split; [apply Forall_app; split; [done | apply PUT_BE16_bytes] | rewrite length_app, La; done].
Qed.

Lemma air_code_bytes su am key h iv p : bytes key -> length key = key_of su -> hdr_ok h -> bytes iv -> bytes p -> bytes (air_code su am key h iv p).
Proof.
  intros Hb Hl Hh Hbiv Hp. destruct (suite_key su key Hb Hl) as (Hk & HK & _). unfold air_code. destruct (is_ccmp su).
  - apply ccmp_mic_bytes; auto.
  - exact (proj1 (gcmp_mic_blk am key h iv _ Hk Hh Hbiv)).
Qed.

(** Opening one's own seal. *)
Lemma sw_decrypt_own su os_malloc am now passing key krest h iv m post at_ sec g : mem_ready os_malloc -> bytes key -> length key = key_of su ->
  hdr_ok h -> bytes iv -> length iv = 8%nat -> bytes m -> zlen m < 2 ^ 28 -> bytes (air_code su am key h iv m) ->
  r_encrypt at_ = encrypt_of su -> r_hdrlen at_ = zlen h -> IS_MCAST (r_ra at_) = false ->
  sw_decrypt (ops_of os_malloc am su) now passing (Some (key ++ krest)) (ap_frame su am key h iv m ++ post) (zlen (ap_frame su am key h iv m)) at_ sec g =
    Ok (SUCCESS, h ++ iv ++ m ++ air_code su am key h iv m ++ post, count_sw (fc_dec_cnt (ops_of os_malloc am su)) (r_ra at_) sec, g).
Proof.
  intros Hmem Hb Hl Hh Hbiv Hiv Hm Hlm Hcode He Hrh Hmc. destruct (ops_values os_malloc am su) as [Eo Ek].
  destruct (air_sizes am su key h iv m Hb Hl Hh Hbiv Hm) as (_ & _ & _ & _ & _ & Zu).
  unfold sw_decrypt. rewrite He, Hmc, Eo, Ek, Hrh. cbv zeta. replace (Z.of_nat (key_of su)) with (zlen key) by (unfold zlen; rewrite Hl; done).
  unfold ap_frame. rewrite <- !app_assoc. rewrite (suite_decrypt_spec os_malloc am Hmem su key krest h iv m h) by done.
  rewrite bool_decide_eq_true_2 by done. done.
Qed.

Section Deliver.
  Context (E : path_env) (su : suite) (key : list Z) (f : recv_frame) (pre h iv m b : list Z) (t : nat).

Let am : Z := pe_amsdu_mode E.
Let code : list Z := air_code su am key h iv m.

(** A frame that passed the checks: sealed, its attributes set, from the station [t]. *)
Record sealed (s : rx_state) : Prop := {
  se_framed : framed f pre (ap_frame su am key h iv m) b;
  se_bytes : bytes (rf_mem f); se_hdr : hdr_ok h; se_iv : bytes iv /\ length iv = 8%nat; se_text : bytes m /\ zlen m < 65536;
  se_encrypt : a_encrypt (attrib f) = encrypt_of su; se_hdrlen : a_hdrlen (attrib f) = zlen h;
  se_iv_len : a_iv_len (attrib f) = 8; se_icv_len : a_icv_len (attrib f) = code_of su;
  se_unicast : IS_MCAST (a_ra (attrib f)) = false; se_dst : zlen (a_dst (attrib f)) = 6; se_src : zlen (a_src (attrib f)) = 6;
  se_single : a_amsdu (attrib f) = 0; se_mfrag : a_mfrag (attrib f) = 0; se_frag : a_frag_num (attrib f) = 0;
  se_closed : a_bdecrypted (attrib f) = 0;
  se_sta : rtw_get_stainfo (stas s) (Some (a_ta (attrib f))) = Some t;
  se_off : window_off (rf_slot f) s;
  se_mode : in_state (pe E) WIFI_AP_STATE = false;
  se_key : exists krest, dot118021x_UncstKey (sta_at (stas s) t) = key ++ krest;
  se_key_ok : bytes key /\ length key = key_of su;
  se_slot : (t < length (pstainfo_buf (stas s)))%nat;
  se_open : ieee8021x_blocked (sta_at (stas s) t) = 0;
  se_mem : mem_ready (pe_malloc E); se_alloc : pe_aes_alloc E = true; se_run : cannot_run E = false }.

Context (s : rx_state) (H : sealed s).

Lemma code_here : bytes code.
Proof.
  pose proof (se_bytes _ H) as Hb. rewrite (fr_mem _ _ _ _ (se_framed _ H)) in Hb. unfold bytes, ap_frame in Hb. rewrite !Forall_app in Hb. apply Hb.
Qed.

(** What decryption leaves as it was. *)
Definition same_but_cipher (s' : rx_state) : Prop :=
  s_valid s' = s_valid s /\ s_pool s' = s_pool s /\ links s' = links s /\ packets s' = packets s /\ waiting s' = waiting s.

Lemma run_cipher_opens g s1 : rf_mem g = rf_mem f -> rx_data g = rx_data f -> rf_len g = rf_len f -> stas s1 = stas s -> same_but_cipher s1 ->
  a_encrypt (attrib g) = a_encrypt (attrib f) -> a_hdrlen (attrib g) = a_hdrlen (attrib f) -> a_ra (attrib g) = a_ra (attrib f) ->
  a_ta (attrib g) = a_ta (attrib f) ->
  exists s', run_cipher E g s1 = Ok (SUCCESS, h ++ iv ++ m ++ code ++ b, s') /\ same_but_cipher s'.
Proof.
  intros Em Ed El Es Hs Ee Eh Er Et. pose proof code_here as Hc. destruct H as [Hf _ Hh [Biv Liv] [Bm Lm] He Hhl _ _ Hu _ _ _ _ _ _ Hsta _ _ [krest Hk] [Bk Lk] _ _ Hmem Hal _].
  unfold run_cipher. cbv zeta. rewrite Em, Ed, El, Es, Et, Hsta. cbn [option_map]. rewrite Hk, (fr_mem _ _ _ _ Hf), (fr_data _ _ _ _ Hf), (fr_len _ _ _ _ Hf), drop_zlen_app, Hal.
  pose proof (sw_decrypt_own su (pe_malloc E) am (now (pe E)) (passing_ms (pe E)) key krest h iv m b (a_sec (attrib g)) (s_sec s1)) as Hown.
  assert (Hown' : forall gl, _) by (intros gl; apply (Hown gl); try done; [lia | rewrite <- He, <- Ee; done | rewrite <- Hhl, <- Eh; done | rewrite <- Hu, <- Er; done]).
  clear Hown. rewrite Ee, He. fold am. unfold ops_of in Hown'.
  destruct su; cbn [encrypt_of is_ccmp] in *; cbn [Z.eqb Pos.eqb orb]; unfold rtw_aes_decrypt, rtw_gcmp_decrypt; rewrite Hown'; cbn [bind];
    (eexists; split; [reflexivity | exact Hs]).
Qed.

(** The opened frame. *)
Definition opened (g : recv_frame) : Prop :=
  mpdu g pre h iv m code b /\ rf_slot g = rf_slot f /\ a_amsdu (attrib g) = 0 /\ a_mfrag (attrib g) = 0 /\ a_frag_num (attrib g) = 0 /\
  a_encrypt (attrib g) = encrypt_of su /\ a_dst (attrib g) = a_dst (attrib f) /\ a_src (attrib g) = a_src (attrib f) /\
  a_ta (attrib g) = a_ta (attrib f) /\ a_ra (attrib g) = a_ra (attrib f).

Lemma decryptor_opens : exists g s', decryptor E f s = Ok (Some g, s') /\ opened g /\ same_but_cipher s'.
Proof.
  pose proof (se_framed _ H) as Hf. destruct (se_key_ok _ H) as [Bk Lk]. destruct (se_iv _ H) as [Biv Liv]. destruct (se_text _ H) as [Bm Lm].
  destruct (air_sizes am su key h iv m Bk Lk (se_hdr _ H) Biv Bm) as (_ & _ & _ & Zc & _ & Zu). fold code in Zu.
  unfold decryptor, set_key_index. rewrite (se_encrypt _ H), (se_hdrlen _ H), (se_iv_len _ H).
  assert (E0 : (0 <? encrypt_of su) = true) by (destruct su; reflexivity). rewrite E0.
  destruct (rd_in (rf_mem f) (rx_data f + zlen h + 3)) as [iv3 Hiv3].
  { destruct Hf as [-> -> _ _ _]. unfold ap_frame. rewrite <- !app_assoc, !zlen_app. pose proof (zlen_nonneg pre). pose proof (zlen_nonneg h). pose proof (zlen_nonneg b).
    pose proof (zlen_nonneg m). assert (zlen iv = 8) by (unfold zlen; lia). pose proof (zlen_nonneg (air_code su am key h iv m)). fold am. lia. }
  rewrite Hiv3. cbn [bind]. cbv zeta. set (k := if WEP_KEYS <? _ then _ else _). clearbody k. cbn [attrib with_attrib with_sec a_sec a_encrypt r_encrypt a_bdecrypted].
  rewrite (se_closed _ H). assert (E1 : negb (encrypt_of su =? 0) && (0 =? 0) = true) by (destruct su; reflexivity). rewrite E1. cbn [rf_mem with_attrib rx_data rf_slot].
  destruct (rd_in (rf_mem f) (rx_data f)) as [c0 Hc0]; [destruct Hf as [-> -> _ _ _]; pose proof (zlen_nonneg pre); pose proof (zlen_nonneg b); pose proof (hdr_ok_length h (se_hdr _ H));
    unfold ap_frame; rewrite <- !app_assoc, !zlen_app; pose proof (zlen_nonneg (iv ++ b)); unfold zlen in *; lia|].
  destruct (rd_in (rf_mem f) (rx_data f + 1)) as [c1 Hc1]; [destruct Hf as [-> -> _ _ _]; pose proof (zlen_nonneg pre); pose proof (zlen_nonneg b); pose proof (hdr_ok_length h (se_hdr _ H));
    unfold ap_frame; rewrite <- !app_assoc, !zlen_app; pose proof (zlen_nonneg (iv ++ b)); unfold zlen in *; lia|].
  unfold GET_LE16. rewrite Hc0, Hc1. cbn [bind].
  set (s1 := if _ =? WIFI_DATA_TYPE then _ else _).
  assert (Hs1 : same_but_cipher s1 /\ stas s1 = stas s) by (unfold s1, same_but_cipher; destruct (_ =? WIFI_DATA_TYPE); done).
  set (g := with_attrib f _).
  destruct (run_cipher_opens g s1) as (s2 & -> & Hs2); try reflexivity; try apply Hs1; [exact (eq_sym (se_encrypt _ H)) | exact (eq_sym (se_hdrlen _ H))|].
  cbn [bind]. change (SUCCESS =? FAIL) with false. cbv iota. eexists _, s2. split; [reflexivity|]. split; [|exact Hs2].
  split; [|repeat split; try apply H].
  destruct Hf as [Em Ed Et El Es]. split.
  - split; cbn [rf_mem with_attrib with_mem rx_data rx_tail rf_len].
    + rewrite Em, Ed. replace (Z.to_nat (zlen pre)) with (length pre) by (unfold zlen; lia). rewrite take_app_length, <- !app_assoc. done.
    + exact Ed.
    + unfold g. cbn [rx_tail with_attrib]. rewrite Et. f_equal. unfold ap_frame. fold am. rewrite !zlen_app, Zc. done.
    + unfold g. cbn [rf_len with_attrib]. rewrite El. unfold ap_frame. fold am. rewrite !zlen_app, Zc. done.
    + revert Es. unfold ap_frame. fold am. rewrite !zlen_app, Zc. fold code. lia.
  - reflexivity.
  - cbn. unfold zlen. rewrite Liv. reflexivity.
  - cbn. assert (En : (encrypt_of su =? 0) = false) by (destruct su; reflexivity). rewrite En. rewrite Zu. exact (se_icv_len _ H).
Qed.

(** A whole frame passes reassembly, the open port and a window that is switched off. *)
Lemma path_defrag_whole g s1 : opened g -> same_but_cipher s1 -> exists s2, path_defrag E g s1 = Ok (Some g, s2) /\
  stas s2 = set_sta (stas s) t (with_defrag (sta_at (stas s) t) (sta_defrag (sta_at (stas s) t))) /\
  s_pool s2 = s_pool s /\ packets s2 = packets s /\ links s2 = links s.
Proof.
  intros (_ & _ & _ & Hmf & Hfn & He & _ & _ & Hta & _) (Hv & Hp & Hl & Hk & _). unfold path_defrag. cbv zeta.
  assert (Es : stas s1 = stas s) by (unfold stas; rewrite Hv; done). rewrite Es, Hta, (se_sta _ H). cbn [option_map].
  unfold recvframe_chk_defrag. cbn [defrag_sta bind]. unfold chk_defrag_queue. rewrite Hmf, Hfn. cbn [Z.eqb andb negb bind].
  set (e := mkMicEnv _ _ _ _). assert (Ec : recvframe_chkmic e g = Ok (SUCCESS, g, None)).
  { unfold recvframe_chkmic. rewrite He. assert (En : negb (encrypt_of su =? TKIP) = true) by (destruct su; reflexivity). rewrite En. done. }
  rewrite Ec. cbn [bind]. change (SUCCESS =? FAIL) with false. cbv iota.
  destruct (a_privacy (attrib g) =? 0); cbn [bind]; (eexists; split; [reflexivity|]; split; [reflexivity|]; split; [exact Hp|]; split; [exact Hk | exact Hl]).
Qed.

(** Reassembly leaves the windows alone. *)
Lemma window_still_off s2 : stas s2 = set_sta (stas s) t (with_defrag (sta_at (stas s) t) (sta_defrag (sta_at (stas s) t))) -> links s2 = links s ->
  window_off (rf_slot f) s2.
Proof.
  intros Es El. pose proof (se_off _ H) as Hw. unfold window_off, link_of in *. rewrite El. destruct (l_psta _) as [u|]; [|done]. destruct (l_tid _); [|done].
  rewrite Es, set_sta_at by apply (se_slot _ H). case_decide as Eu; [subst; exact Hw | exact Hw].
Qed.

Lemma posthandle_delivers : exists s', recv_func_posthandle E f s = Ok (SUCCESS, s') /\
  packets s' = packets s ++ [ether_frame (a_dst (attrib f)) (a_src (attrib f)) m] /\ s_pool s' = rtw_free_recvframe (rf_slot f) (s_pool s).
Proof.
  destruct decryptor_opens as (g & s1 & E1 & Hg & Hs1). destruct (path_defrag_whole g s1 Hg Hs1) as (s2 & E2 & S2 & P2 & K2 & L2).
  destruct Hg as (Hm & Hslot & Ha & _ & _ & He & Hd & Hsr & Hta & _). destruct (se_text _ H) as [Bm Lm].
  unfold recv_func_posthandle. rewrite E1. cbn [bind]. rewrite E2. cbn [bind].
  pose proof (se_slot _ H) as Ht. assert (Hget : rtw_get_stainfo (stas s2) (Some (a_ta (attrib g))) = Some t).
  { rewrite S2, Hta, get_set_sta by done. apply (se_sta _ H). }
  assert (Hx : sta_at (stas s2) t = with_defrag (sta_at (stas s) t) (sta_defrag (sta_at (stas s) t))) by (rewrite S2, set_sta_at, decide_True by done; done).
  unfold post_defrag, portctrl. rewrite Hget, Hx. cbn [ieee8021x_blocked with_defrag]. rewrite (se_open _ H). cbn [Z.eqb negb].
  assert (Ep : forall c : bool, (if c then Ok (Some g, s2) else Ok (Some g, s2)) = Ok (Some g, s2)) by (intros []; done). rewrite Ep. cbn [bind].
  pose proof (hdr_ok_length h (se_hdr _ H)) as Hh. assert (Hh' : 14 <= zlen h) by (unfold zlen; lia).
  destruct (post_reorder_now E g g s2 [ether_frame (a_dst (attrib f)) (a_src (attrib f)) m]) as (s' & -> & K & P).
  - apply (se_mode _ H).
  - rewrite Hslot. apply window_still_off; done.
  - apply (mpdu_result_ok g pre h iv m code b); done || (rewrite ?Hd, ?Hsr; apply H).
  - rewrite (se_run _ H), <- Hd, <- Hsr. apply (process_mpdu_delivers _ _ _ g pre h iv m code b); done || (rewrite ?Hd, ?Hsr; apply H).
  - exists s'. rewrite K, P, K2, P2, Hslot. done.
Qed.
End Deliver.

(** The whole receive path on a sealed frame of the peer. *)
Lemma sealed_frame_delivered E s t su key f pre qos mdata a1 a2 a3 sc qc iv m b :
  let h := ap_hdr qos mdata a1 a2 a3 sc qc in
  peer_ready E s t su key a2 (GetPriority qc) ->
  sent_to E f pre qos mdata a1 a2 a3 sc qc (iv ++ air_text su key h iv m ++ air_code su (pe_amsdu_mode E) key h iv m) b ->
  fresh_seq (header_read qos mdata sc f) (sta_recvpriv (sta_at (stas s) t)) -> bytes a1 -> bytes a2 -> bytes a3 ->
  bytes iv -> length iv = 8%nat -> bytes m -> zlen m < 65536 ->
  exists s', rtw_recv_entry E f s = Ok (SUCCESS, s') /\ packets s' = packets s ++ [ether_frame a1 a3 m] /\
    s_pool s' = rtw_free_recvframe (rf_slot f) (s_pool s).
Proof.
  intros h Hp Hf Hfresh B1 B2 B3 Biv Liv Bm Lm. unfold rtw_recv_entry, recv_func. rewrite (pr_mon _ _ _ _ _ _ _ Hp), (pr_sta _ _ _ _ _ _ _ Hp), (pr_keyset _ _ _ _ _ _ _ Hp), (pr_pending _ _ _ _ _ _ _ Hp).
  cbn [andb length drain_pending bind]. unfold recv_func_prehandle.
  destruct (sealed_frame_validated E f pre qos mdata a1 a2 a3 sc qc _ b Hf s t su key _ (s_drops s) Hp Hfresh) as (l & v' & r & -> & Hl & Htid & Hv). cbn [bind].
  change (negb (SUCCESS =? SUCCESS)) with false. cbv iota. set (x := sta_at (stas s) t) in *. set (A := got _ _ _ _ _ x).
  pose proof (got_values E f pre qos mdata a1 a2 a3 sc qc _ b Hf x su (pr_8021x _ _ _ _ _ _ _ Hp) (pr_cipher _ _ _ _ _ _ _ Hp)) as V. cbv zeta in V. fold A in V.
  destruct V as (V1 & V2 & V3 & V4 & V5 & V6 & V7 & V8 & V9 & V10 & V11 & V12 & V13).
  unfold must_wait. rewrite (pr_keyset _ _ _ _ _ _ _ Hp), andb_false_r. set (s1 := with_drops _ _). change (rf_slot (with_attrib f A)) with (rf_slot f) in *.
  pose proof (pr_table _ _ _ _ _ _ _ Hp) as HT. pose proof (proj1 (get_spec _ _ _ HT) (pr_get _ _ _ _ _ _ _ Hp)) as [Hlt _].
  assert (Hs : (t < length (pstainfo_buf (stas s)))%nat) by (rewrite (t_buf _ HT); apply (slot_range _ t HT); auto).
  assert (S1 : stas s1 = set_sta (stas s) t (with_recvpriv x r)) by exact Hv.
  assert (X1 : sta_at (stas s1) t = with_recvpriv x r) by (rewrite S1, set_sta_at, decide_True by done; done).
  assert (Hse : sealed E su key (with_attrib f A) pre h iv m b t s1).
  { split; try (rewrite ?X1; apply Hp); try done.
    - destruct Hf as [[F1 F2 F3 F4 F5] _ _ _ _ _ _ _ _ _ _ _ _]. split; done.
    - apply Hf.
    - apply ap_hdr_ok; try done; apply Hf.
    - cbn. rewrite V5. apply Hf.
    - cbn. rewrite V7. apply Hf.
    - cbn. rewrite V8. apply Hf.
    - cbn [attrib with_attrib]. rewrite V6, S1, get_set_sta by done. apply Hp.
    - unfold window_off, link_of. cbn [rf_slot with_attrib s1 links with_drops with_link with_valid]. rewrite lookup_insert_eq. cbn [default from_option id].
      rewrite Hl. destruct Htid as [-> | ->]; [done|]. rewrite X1. apply Hp.
    - rewrite S1. cbn [pstainfo_buf set_sta with_table]. rewrite length_insert. done. }
  destruct (posthandle_delivers E su key (with_attrib f A) pre h iv m b t s1 Hse) as (s2 & -> & K & P). cbn [bind].
  change (SUCCESS =? FAIL) with false. cbv iota. eexists. split; [reflexivity|].
  change (packets (with_rx_pkts (u64 (rx_pkts s2 + 1)) s2)) with (packets s2). change (s_pool (with_rx_pkts (u64 (rx_pkts s2 + 1)) s2)) with (s_pool s2).
  rewrite K, P. cbn [attrib with_attrib rf_slot]. rewrite V7, V8. done.
Qed.

(** ** Lemmas: the fields of a header *)

Lemma set_bits_above w off n v i : 0 <= off -> 0 <= n -> off + n <= i -> Z.testbit w i = false -> Z.testbit (set_bits w off n v) i = false.
Proof.
  intros H1 H2 H3 Hw. unfold set_bits. rewrite Z.lor_spec, Z.land_spec, Hw, Z.shiftl_spec, Z.land_spec, Z.testbit_ones_nonneg by lia.
  rewrite (proj2 (Z.ltb_ge _ _)) by lia. rewrite andb_false_r. done.
Qed.

Lemma set_bits_nonneg w off n v : 0 <= w -> 0 <= n -> 0 <= set_bits w off n v.
Proof.
  intros Hw Hn. unfold set_bits. apply Z.lor_nonneg. split; [apply Z.land_nonneg; auto|]. apply Z.shiftl_nonneg, Z.land_nonneg. right.
  rewrite Z.ones_equiv. pose proof (Z.pow_pos_nonneg 2 n). lia.
Qed.

(** Without an A-MSDU the bits from the seventh on stay clear. *)
Lemma qos_control_ok a : x_amsdu a = false -> 0 <= qos_control a 0 < 2 ^ 7.
Proof.
  intros Ha. unfold qos_control. rewrite Ha. set (q := if x_priority a =? 0 then 0 else set_bits 0 0 4 (x_priority a)).
  assert (Hq : 0 <= q /\ forall i, 7 <= i -> Z.testbit q i = false).
  { unfold q. destruct (_ =? 0); [split; [lia | intros; apply Z.bits_0]|]. split; [apply set_bits_nonneg; lia | intros; apply set_bits_above; try lia; apply Z.bits_0]. }
  destruct Hq as [Hq Hb]. apply below_pow2; [lia | do 2 (apply set_bits_nonneg; [|lia]); done|].
  intros i Hi. do 2 (apply set_bits_above; try lia). auto.
Qed.

Lemma seq_field_ok seq : 0 <= seq -> 0 <= 0xfff0 & Z.shiftl seq 4 < 65536 /\ (0xfff0 & Z.shiftl seq 4) & 0x0f = 0.
Proof.
  intros Hs. split.
  - change 65536 with (2 ^ 16). apply below_pow2; [lia | apply Z.land_nonneg; left; lia|]. intros n Hn. rewrite Z.land_spec.
    replace (Z.testbit 0xfff0 n) with false; [done|]. symmetry. apply (testbit_above 16); lia.
  - rewrite <- Z.land_assoc, (Z.land_comm _ 0x0f), Z.land_assoc. reflexivity.
Qed.

(** ** Sending *)

(** A packet that an access point seals by software for a station: as in [tx_frame_ok], the addresses those of an access point, key
    and lengths those of the suite, the packet short enough for one fragment. *)
Record ap_sends (T : tx_env) (P : sta_priv) (pkt : list Z) (x : xmit_frame) (a : tx_attrib) (X : gmap nat sta_xmit)
    (pre m : list Z) (a' : tx_attrib) (X' : gmap nat sta_xmit) (su : suite) (key : list Z) : Prop := {
  as_frame : tx_frame_ok T P pkt x a X pre m FROM_DS (x_dst a) (mybssid (te T)) (x_src a) a' X';
  as_pkt : pkt = x_dst a ++ x_src a ++ be16_bytes (x_ether_type a) ++ payload_of pkt a;
  as_type : 0 <= x_ether_type a < 65536;
  as_bytes : bytes pkt /\ bytes (x_iv a) /\ bytes (x_icv a) /\ bytes (mybssid (te T));
  as_unicast : IS_MCAST (x_dst a) = false; as_ra : x_ra a = x_dst a;
  as_cipher : x_encrypt a = encrypt_of su; as_iv_len : x_iv_len a = 8; as_icv_len : x_icv_len a = code_of su; as_sw : x_bswenc a = true;
  as_key : exists krest, t_UncstKey (x_sec a) = key ++ krest;
  as_key_ok : bytes key /\ length key = key_of su;
  as_amsdu : x_amsdu a = false;
  as_mem : mem_ready (t_malloc T); as_alloc : t_aes_alloc T = true;
  as_fits : zlen (payload_of pkt a) <= frag_room T a 0;
  as_room : x_hdrlen a + zlen (frag_body a 0 (payload_of pkt a)) <= zlen m }.

(** LLC header and payload, sealed. *)
Definition ap_text (pkt : list Z) (a : tx_attrib) : list Z := rtw_put_snap (x_ether_type a) ++ payload_of pkt a.
Definition ap_sent_hdr (T : tx_env) (a : tx_attrib) (seq : Z) : list Z :=
  ap_hdr (x_hdrlen a =? 26) (x_mdata a) (x_dst a) (mybssid (te T)) (x_src a) (0xfff0 & Z.shiftl seq 4) (qos_control a 0).
Definition ap_air (T : tx_env) (pkt : list Z) (a : tx_attrib) (seq : Z) (su : suite) (key : list Z) : list Z :=
  ap_frame su (t_amsdu_mode T) key (ap_sent_hdr T a seq) (take 8 (x_iv a)) (ap_text pkt a).

Section Send.
  Context (T : tx_env) (P : sta_priv) (pkt : list Z) (x : xmit_frame) (a : tx_attrib) (X : gmap nat sta_xmit).
  Context (pre m : list Z) (a' : tx_attrib) (X' : gmap nat sta_xmit) (su : suite) (key : list Z).
  Context (H : ap_sends T P pkt x a X pre m a' X' su key).

Let h : list Z := ap_sent_hdr T a (x_seqnum a').
Let payload : list Z := payload_of pkt a.

Lemma sent_addresses : zlen (x_dst a) = 6 /\ zlen (mybssid (te T)) = 6 /\ zlen (x_src a) = 6 /\
  bytes (x_dst a) /\ bytes (mybssid (te T)) /\ bytes (x_src a) /\ bytes payload.
Proof.
  destruct (tf_ready _ _ _ _ _ _ _ _ _ _ _ _ _ _ (as_frame _ _ _ _ _ _ _ _ _ _ _ _ H)) as [_ Z1 Z2 Z3 _].
  destruct (as_bytes _ _ _ _ _ _ _ _ _ _ _ _ H) as (Hb & _ & _ & Hm). pose proof (as_pkt _ _ _ _ _ _ _ _ _ _ _ _ H) as Hp. rewrite Hp in Hb.
  unfold bytes in Hb. rewrite !Forall_app in Hb. destruct Hb as (B1 & B2 & _ & B3). do 3 (split; [done|]). do 3 (split; [done|]). exact B3.
Qed.

(** The header as the receiver sees it. *)
Lemma sent_hdr : PUT_LE16 (hdr_fc a FROM_DS) ++ hdr_rest a (x_dst a) (mybssid (te T)) (x_src a) (x_seqnum a') = h.
Proof.
  destruct (tf_ready _ _ _ _ _ _ _ _ _ _ _ _ _ _ (as_frame _ _ _ _ _ _ _ _ _ _ _ _ H)) as [_ _ _ _ Ht].
  unfold h, ap_sent_hdr, ap_hdr, hdr_rest, hdr_fc. rewrite (as_cipher _ _ _ _ _ _ _ _ _ _ _ _ H).
  assert (En : (encrypt_of su =? 0) = false) by (destruct su; reflexivity). rewrite En.
  destruct Ht as [[-> ->]|[-> ->]], (x_mdata a); cbn [Z.eqb Pos.eqb]; reflexivity.
Qed.

Lemma sent_parts : zlen h = x_hdrlen a /\ hdr_ok h /\ bytes (take 8 (x_iv a)) /\ length (take 8 (x_iv a)) = 8%nat /\
  room_iv a = take 8 (x_iv a) /\ bytes (room_icv a) /\ zlen (room_icv a) = code_of su /\ bytes (ap_text pkt a) /\ zlen (ap_text pkt a) = 8 + zlen payload /\
  zlen payload < 2346.
Proof.
  pose proof (as_frame _ _ _ _ _ _ _ _ _ _ _ _ H) as Hf. destruct sent_addresses as (Z1 & Z2 & Z3 & B1 & B2 & B3 & B4).
  destruct (as_bytes _ _ _ _ _ _ _ _ _ _ _ _ H) as (_ & Bi & Bc & _). destruct (tf_sizes _ _ _ _ _ _ _ _ _ _ _ _ _ _ Hf) as [S1 S2].
  rewrite (as_iv_len _ _ _ _ _ _ _ _ _ _ _ _ H) in S1. rewrite (as_icv_len _ _ _ _ _ _ _ _ _ _ _ _ H) in S2.
  assert (Zh : zlen h = x_hdrlen a).
  { rewrite <- sent_hdr, zlen_app. change (zlen (PUT_LE16 _)) with 2. apply (hdr_rest_zlen T a FROM_DS), (tf_ready _ _ _ _ _ _ _ _ _ _ _ _ _ _ Hf). }
  assert (L8 : length (take 8 (x_iv a)) = 8%nat) by (unfold zlen in S1; rewrite length_take; lia).
  assert (Eiv : room_iv a = take 8 (x_iv a)) by (unfold room_iv; rewrite (as_iv_len _ _ _ _ _ _ _ _ _ _ _ _ H); done).
  assert (Ec : room_icv a = take (Z.to_nat (code_of su)) (x_icv a)).
  { unfold room_icv. rewrite (as_icv_len _ _ _ _ _ _ _ _ _ _ _ _ H), (as_sw _ _ _ _ _ _ _ _ _ _ _ _ H). destruct su; reflexivity. }
  assert (Zc : zlen (room_icv a) = code_of su) by (rewrite Ec; unfold zlen in *; rewrite length_take; lia).
  pose proof (as_fits _ _ _ _ _ _ _ _ _ _ _ _ H) as Hfit. pose proof (tf_frag_len _ _ _ _ _ _ _ _ _ _ _ _ _ _ Hf) as Hfl.
  assert (Hp : zlen payload < 2346).
  { unfold frag_room in Hfit. rewrite (as_ra _ _ _ _ _ _ _ _ _ _ _ _ H), (as_unicast _ _ _ _ _ _ _ _ _ _ _ _ H) in Hfit. fold payload in Hfit.
    pose proof (zlen_nonneg (room_iv a)). pose proof (zlen_nonneg (room_icv a)). pose proof (zlen_nonneg (llc_of_first a 0)). pose proof (zlen_nonneg h). lia. }
  assert (Bs : bytes (rtw_put_snap (x_ether_type a))).
  { unfold rtw_put_snap, be16_bytes, bytes. apply Forall_app. split; [apply bytes_by_compute; reflexivity|]. apply Forall_app.
    split; [destruct (_ || _); apply bytes_by_compute; reflexivity|]. pose proof (u16_range (x_ether_type a)).
    apply List.Forall_cons; [|apply List.Forall_cons; [apply land_byte_r; unfold is_byte; lia | apply List.Forall_nil]].
    unfold is_byte. rewrite Z.shiftr_div_pow2 by lia. change (2 ^ 8) with 256. split; [apply Z.div_pos; lia | apply Z.div_lt_upper_bound; lia]. }
  split; [exact Zh|]. split; [apply ap_hdr_ok; done|]. split; [apply Forall_take; exact Bi|]. split; [exact L8|]. split; [exact Eiv|].
  split; [rewrite Ec; apply Forall_take; exact Bc|]. split; [exact Zc|]. split; [unfold ap_text, bytes; apply Forall_app; split; done|].
  split; [unfold ap_text; rewrite zlen_app, zlen_put_snap; done | exact Hp].
Qed.

(** The fragment in the buffer, before it is encrypted. *)
Definition plain_frag : list Z := h ++ take 8 (x_iv a) ++ ap_text pkt a ++ room_icv a.

Lemma plain_frag_good : frag_good (x_hdrlen a) (code_of su) plain_frag /\ on_air su (t_amsdu_mode T) key (x_hdrlen a) plain_frag = ap_air T pkt a (x_seqnum a') su key /\
  zlen plain_frag = x_hdrlen a + 8 + (8 + zlen payload) + code_of su.
Proof.
  destruct sent_parts as (Zh & Hh & Bi & Li & _ & Bc & Zc & Bt & Zt & Hp). pose proof (zlen_nonneg payload).
  assert (Zf : zlen plain_frag = x_hdrlen a + 8 + (8 + zlen payload) + code_of su).
  { unfold plain_frag. rewrite !zlen_app, Zh, Zt, Zc. unfold zlen at 1. rewrite Li. lia. }
  pose proof (hdr_ok_length h Hh) as Hlh. assert (Nh : Z.to_nat (x_hdrlen a) = length h) by (unfold zlen in Zh; lia).
  assert (Eh : part_h (x_hdrlen a) plain_frag = h) by (unfold part_h, plain_frag; rewrite Nh; apply take_app_length).
  assert (Hc : 0 <= code_of su <= 16) by (destruct su; cbn; lia).
  split; [|split; [|exact Zf]].
  - split; [unfold plain_frag, bytes; rewrite !Forall_app; destruct Hh as [Bh _]; done | rewrite Eh; exact Hh | unfold zlen in Zh; lia|]. rewrite Zf. unfold zlen in *. lia.
  - unfold on_air. cbv zeta. rewrite Eh. unfold part_iv, part_text, plain_frag. rewrite Nh.
    replace (length h + 8)%nat with (length (h ++ take 8 (x_iv a))) by (rewrite length_app, Li; done).
    rewrite drop_app_length, (app_assoc h), drop_app_length, take_app_length' by (rewrite Li; done).
    replace (length ((h ++ take 8 (x_iv a)) ++ ap_text pkt a ++ room_icv a) - length h - 8 - Z.to_nat (code_of su))%nat with (length (ap_text pkt a)).
    2: { rewrite !length_app, Li. unfold zlen in Zc. lia. }
    rewrite take_app_length. unfold ap_air, ap_frame. fold h. unfold h at 1, ap_sent_hdr. rewrite ap_hdr_air. done.
Qed.

(** What the sealed frame is made of stays what it was. *)
Lemma sw_seals A mem post off frag_len at_ sec : zlen pre = hw_hdr_offset (mkXmit mem A off) -> mem = Some (pre ++ plain_frag ++ post) ->
  t_encrypt at_ = encrypt_of su -> t_hdrlen at_ = x_hdrlen a -> t_iv_len at_ = 8 -> t_icv_len at_ = code_of su -> t_nr_frags at_ = 1 ->
  t_last_txcmdsz at_ = zlen plain_frag -> IS_MCAST (t_ra at_) = false -> (exists krest, t_UncstKey at_ = key ++ krest) ->
  exists sec', sw_encrypt (ops_of (t_malloc T) (t_amsdu_mode T) su) (mkXmit mem A off) at_ frag_len sec =
    Ok (SUCCESS, Some (pre ++ ap_air T pkt a (x_seqnum a') su key ++ post), sec').
Proof.
  intros Ho -> He Hh Hi Hc Hn Hl Hm [krest Hk]. destruct plain_frag_good as (Hg & Eon & _). destruct (as_key_ok _ _ _ _ _ _ _ _ _ _ _ _ H) as [Bk Lk].
  pose proof (as_mem _ _ _ _ _ _ _ _ _ _ _ _ H) as Hmem. destruct (ops_values (t_malloc T) (t_amsdu_mode T) su) as [Eo Ek].
  unfold sw_encrypt. cbn [x_buf x_addr]. rewrite He, Hm, Eo, Ek, Hk. cbn [bind]. cbv zeta. rewrite <- Ho.
  unfold fragments. rewrite Hn. change (Z.to_nat 1) with 1%nat. cbn [each_fragment]. rewrite Hn. cbn [Z.add Z.eqb Pos.eqb]. rewrite Hl.
  replace (Z.of_nat (key_of su)) with (zlen key) by (unfold zlen; rewrite Lk; done).
  rewrite (sw_fragment_spec (t_malloc T) (t_amsdu_mode T) Hmem su key krest at_ pre plain_frag post tt) by (done || (rewrite Hh; exact Hg)).
  cbn [bind]. rewrite Hh, Eon. eexists. reflexivity.
Qed.

Lemma sent_once sec cs : exists post r, rtw_xmitframe_coalesce T P pkt x a X sec cs = Ok r /\ cr_ret r = SUCCESS /\ cr_xmit r = X' /\
  cr_buf r = Some (pre ++ ap_air T pkt a (x_seqnum a') su key ++ post) /\
  t_nr_frags (x_sec (cr_attrib r)) = 1 /\ t_last_txcmdsz (x_sec (cr_attrib r)) = zlen (ap_air T pkt a (x_seqnum a') su key).
Proof.
  pose proof (as_frame _ _ _ _ _ _ _ _ _ _ _ _ H) as Hf. destruct sent_parts as (Zh & _ & _ & Li & Eiv & _ & Zc & _ & Zt & Hp).
  assert (Hcut : cut T a 0 (payload_of pkt a) [payload_of pkt a]) by (apply cut_last; apply (as_fits _ _ _ _ _ _ _ _ _ _ _ _ H)).
  destruct (coalesce_layout T P pkt x a X pre m FROM_DS (x_dst a) (mybssid (te T)) (x_src a) a' X' Hf _ Hcut) as (m1 & m2 & E1 & E2 & L).
  { cbn [length]. lia. }
  { cbn [co_space]. apply (as_room _ _ _ _ _ _ _ _ _ _ _ _ H). }
  cbn [frags_of co_laid] in L. destruct L as [post ->]. fold payload in E1, E2 |- *.
  assert (Eone : one_frag a false (hdr_fc a FROM_DS) (hdr_rest a (x_dst a) (mybssid (te T)) (x_src a) (x_seqnum a')) 0 payload = plain_frag).
  { unfold one_frag. rewrite app_assoc, sent_hdr. unfold plain_frag, frag_body. rewrite Eiv. change (llc_of_first a 0) with (rtw_put_snap (x_ether_type a)).
    unfold ap_text. fold payload. rewrite <- !app_assoc. done. }
  rewrite Eone in E2.
  destruct plain_frag_good as (Hg & Eon & Zf). destruct (as_key_ok _ _ _ _ _ _ _ _ _ _ _ _ H) as [Bk Lk].
  assert (Zair : zlen (ap_air T pkt a (x_seqnum a') su key) = zlen plain_frag) by (rewrite <- Eon; apply on_air_zlen; done).
  assert (El : last_size a (zlen [payload] - 1) (List.last [payload] []) = zlen plain_frag).
  { unfold last_size. cbn [List.last]. change (u8 (zlen [payload] - 1 + 1) =? 1) with true. cbv iota. change (zlen (llc_of_first a (zlen [payload] - 1))) with (zlen (rtw_put_snap (x_ether_type a))).
    rewrite zlen_put_snap, (as_sw _ _ _ _ _ _ _ _ _ _ _ _ H), (as_icv_len _ _ _ _ _ _ _ _ _ _ _ _ H), Eiv, Zf. unfold zlen at 1. rewrite Li.
    pose proof (zlen_nonneg payload). 
    destruct (tf_ready _ _ _ _ _ _ _ _ _ _ _ _ _ _ Hf) as [_ _ _ _ Ht]. assert (0 <= code_of su <= 16) by (destruct su; cbn; lia). rewrite u32_small; destruct Ht as [[_ ->]|[_ ->]]; lia. }
  change (u8 (zlen [payload])) with 1 in E2. rewrite El in E2.
  destruct (next_seq_inv _ _ _ _ _ (tf_seq _ _ _ _ _ _ _ _ _ _ _ _ _ _ Hf)) as (seq & amp & Ea' & _).
  set (at2 := with_frags 1 (zlen plain_frag) a').
  assert (V : x_encrypt at2 = encrypt_of su /\ x_hdrlen at2 = x_hdrlen a /\ x_iv_len at2 = 8 /\ x_icv_len at2 = code_of su /\ x_ra at2 = x_dst a /\
    x_bswenc at2 = true /\ (exists krest, t_UncstKey (x_sec at2) = key ++ krest) /\ x_pkt_hdrlen a' = x_pkt_hdrlen a).
  { unfold at2. rewrite Ea'. split; [exact (as_cipher _ _ _ _ _ _ _ _ _ _ _ _ H)|]. split; [done|]. split; [exact (as_iv_len _ _ _ _ _ _ _ _ _ _ _ _ H)|].
    split; [exact (as_icv_len _ _ _ _ _ _ _ _ _ _ _ _ H)|]. split; [exact (as_ra _ _ _ _ _ _ _ _ _ _ _ _ H)|]. split; [exact (as_sw _ _ _ _ _ _ _ _ _ _ _ _ H)|].
    split; [exact (as_key _ _ _ _ _ _ _ _ _ _ _ _ H) | done]. }
  destruct V as (V1 & V2 & V3 & V4 & V5 & V6 & V7 & V8).
  destruct (sw_seals (x_addr x) (Some (pre ++ plain_frag ++ post)) post (x_pkt_offset x) (frag_len T) (x_sec at2) sec) as [sec' Es]; try done.
  { apply (tf_hw _ _ _ _ _ _ _ _ _ _ _ _ _ _ Hf). }
  { unfold x_ra in V5. rewrite V5. apply (as_unicast _ _ _ _ _ _ _ _ _ _ _ _ H). }
  exists post, (mkCoResult SUCCESS (Some (pre ++ ap_air T pkt a (x_seqnum a') su key ++ post)) at2 X' sec' cs).
  split; [|split; [done|]; split; [done|]; split; [done|]; split; [done | rewrite Zair; done]].
  unfold rtw_xmitframe_coalesce. rewrite (tf_buffer _ _ _ _ _ _ _ _ _ _ _ _ _ _ Hf), E1. cbn [bind]. change (SUCCESS =? FAIL) with false. cbv iota.
  unfold payload_of at 1 2. rewrite V8. fold (payload_of pkt a). fold payload. rewrite E2. cbn [bind]. fold at2. unfold xmitframe_addmic. rewrite V1.
  assert (En : (encrypt_of su =? TKIP) = false) by (destruct su; reflexivity). rewrite En. cbn [bind]. change (SUCCESS =? FAIL) with false. cbv iota.
  unfold xmitframe_swencrypt. rewrite V1, V6. cbn [negb]. rewrite (as_alloc _ _ _ _ _ _ _ _ _ _ _ _ H). unfold ops_of in Es.
  destruct su; cbn [is_ccmp encrypt_of] in *; cbn [Z.eqb Pos.eqb orb]; unfold rtw_aes_encrypt, rtw_gcmp_encrypt; rewrite Es; done.
Qed.
End Send.

(** The LLC header that the sender puts on is the one the receiver takes off. *)
Lemma put_snap_stripped dst src ty m : 0 <= ty < 65536 -> ether_frame dst src (rtw_put_snap ty ++ m) = dst ++ src ++ be16_bytes ty ++ m.
Proof.
  intros Ht. unfold ether_frame. replace (snap_stripped (rtw_put_snap ty ++ m)) with true.
  - unfold rtw_put_snap. destruct (_ || _); reflexivity.
  - symmetry. unfold snap_stripped. pose proof (zlen_nonneg m). rewrite zlen_app, zlen_put_snap, (proj2 (Z.leb_le _ _)) by lia. unfold rtw_put_snap.
    destruct ((ty =? 0x8137) || (ty =? 0x80f3)) eqn:Et; [reflexivity|]. apply orb_false_iff in Et as [E1 E2]. cbn [app andb].
    change (take 6 _) with rtw_rfc1042_header at 1. change (take 2 _) with (be16_bytes ty). change (list_eqb rtw_rfc1042_header rtw_rfc1042_header) with true.
    assert (Hx : is_byte (Z.shiftr (u16 ty) 8)) by (unfold is_byte; rewrite u16_small, Z.shiftr_div_pow2 by lia; change (2 ^ 8) with 256; Z.div_mod_to_equations; lia).
    assert (Hy : is_byte (u16 ty & 0xff)) by (apply land_byte_r; unfold is_byte; lia).
    assert (Ev : Z.shiftr (u16 ty) 8 * 256 + (u16 ty & 0xff) = ty) by (rewrite u16_small, land_ff_mod, Z.shiftr_div_pow2 by lia; change (2 ^ 8) with 256; Z.div_mod_to_equations; lia).
    unfold be16_bytes. rewrite <- !be16_eqb by (done || (unfold is_byte; lia)). rewrite Ev. change (0x80 * 256 + 0xf3) with 0x80f3. change (0x81 * 256 + 0x37) with 0x8137.
    rewrite E1, E2. reflexivity.
Qed.

(** ** Theorem *)

(** C1: the packet that goes in comes out. An access point seals a packet by software for a station (CCMP or GCMP, keys of 16 or 32 bytes, no
    A-MSDU, one fragment): [rtw_xmitframe_coalesce] leaves one frame in the buffer, as long as the attributes say. Now let a station receive that
    frame in whatever buffer of bytes, with at least 64 bytes behind the frame, its descriptor saying that the hardware did not decrypt it. The station
    is linked or linking, no access point and no monitor; it runs 802.1X with the pairwise key installed; it has a record of this access point, with the
    same cipher and key, an open port and receive counters of the right form; no frame waits for the key; no block-ack session is at work for the frame's
    traffic identifier (that reordering window is switched off: with one the frame is queued, let go in order or refused, see [Reorder]); the stack can run
    and memory is there; the A-MSDU mode (SPP or not) is the access point's; the packet's source is not the station's own address. Then [rtw_recv_entry] takes the frame, unless its sequence and
    fragment number are the ones kept for frames of its kind: it hands up exactly the packet, byte for byte, and gives the buffer back. *)
Theorem sent_packet_arrives T P pkt x a X pre m a' X' su key sec cs E s t :
  ap_sends T P pkt x a X pre m a' X' su key -> peer_ready E s t su key (mybssid (te T)) (GetPriority (qos_control a 0)) -> pe_amsdu_mode E = t_amsdu_mode T -> x_src a <> myhwaddr (pe E) ->
  exists air post r,
    rtw_xmitframe_coalesce T P pkt x a X sec cs = Ok r /\ cr_ret r = SUCCESS /\ cr_buf r = Some (pre ++ air ++ post) /\
    t_nr_frags (x_sec (cr_attrib r)) = 1 /\ t_last_txcmdsz (x_sec (cr_attrib r)) = zlen air /\
    zlen air = x_hdrlen a + 16 + zlen (payload_of pkt a) + code_of su /\
    forall f front back, framed f front air back -> bytes front -> bytes back -> 64 <= zlen back -> a_bdecrypted (attrib f) = 0 ->
      fresh_seq (header_read (x_hdrlen a =? 26) (x_mdata a) (0xfff0 & Z.shiftl (x_seqnum a') 4) f) (sta_recvpriv (sta_at (stas s) t)) ->
      exists s', rtw_recv_entry E f s = Ok (SUCCESS, s') /\ packets s' = packets s ++ [pkt] /\ s_pool s' = rtw_free_recvframe (rf_slot f) (s_pool s).
Proof.
  intros H Hp Ham Hsrc. destruct (sent_once T P pkt x a X pre m a' X' su key H sec cs) as (post & r & E1 & E2 & _ & E3 & E4 & E5).
  exists (ap_air T pkt a (x_seqnum a') su key), post, r. do 5 (split; [done|]).
  destruct (plain_frag_good T P pkt x a X pre m a' X' su key H) as (Hg & Eon & Zf). destruct (as_key_ok _ _ _ _ _ _ _ _ _ _ _ _ H) as [Bk Lk].
  split; [rewrite <- Eon, on_air_zlen by done; lia|]. intros f front back Hf Hb1 Hb2 Hback Hd Hfresh.
  destruct (sent_addresses T P pkt x a X pre m a' X' su key H) as (Z1 & Z2 & Z3 & B1 & B2 & B3 & _).
  destruct (sent_parts T P pkt x a X pre m a' X' su key H) as (_ & Hh & Bi & Li & _ & _ & _ & Bt & Zt & Hpl).
  destruct (next_seq_inv _ _ _ _ _ (tf_seq _ _ _ _ _ _ _ _ _ _ _ _ _ _ (as_frame _ _ _ _ _ _ _ _ _ _ _ _ H))) as (seq & amp & Ea & Hseq).
  assert (Hs : 0 <= x_seqnum a') by (rewrite Ea; cbn; lia). destruct (seq_field_ok (x_seqnum a') Hs) as [S1 S2].
  pose proof (qos_control_ok a (as_amsdu _ _ _ _ _ _ _ _ _ _ _ _ H)) as Hq.
  destruct (sealed_frame_delivered E s t su key f front (x_hdrlen a =? 26) (x_mdata a) (x_dst a) (mybssid (te T)) (x_src a)
    (0xfff0 & Z.shiftl (x_seqnum a') 4) (qos_control a 0) (take 8 (x_iv a)) (ap_text pkt a) back) as (s' & R1 & R2 & R3); try done.
  - split; try done.
    + rewrite Ham. exact Hf.
    + rewrite (fr_mem _ _ _ _ Hf). apply Forall_app. split; [done|]. apply Forall_app. split; [|done]. unfold ap_air, ap_frame, bytes.
      destruct (air_sizes (t_amsdu_mode T) su key _ _ _ Bk Lk Hh Bi Bt) as (_ & _ & _ & _ & Ba & _). pose proof (proj1 Hh) as Bh.
      rewrite !Forall_app. do 3 (split; [done|]). apply air_code_bytes; done.
    + rewrite !zlen_app. pose proof (zlen_nonneg (take 8 (x_iv a))). match goal with |- context [zlen (air_text ?p ?q ?u ?v ?w)] => pose proof (zlen_nonneg (air_text p q u v w)) end.
      match goal with |- context [zlen (air_code ?p ?q ?u ?v ?w ?z)] => pose proof (zlen_nonneg (air_code p q u v w z)) end. lia.
    + apply (as_unicast _ _ _ _ _ _ _ _ _ _ _ _ H).
    + lia.
    + unfold GetAMsdu. rewrite Z.shiftr_div_pow2, Z.div_small by lia. reflexivity.
  - lia.
  - exists s'. split; [done|]. split; [|done]. rewrite R2. unfold ap_text. rewrite put_snap_stripped by apply (as_type _ _ _ _ _ _ _ _ _ _ _ _ H).
    rewrite <- (as_pkt _ _ _ _ _ _ _ _ _ _ _ _ H). done.
Qed.

(** ** Examples *)

(** The access point [ex_ap] sends the station [ex_me] a packet of [ex_far], sealed by CCMP with the key 7, 7, ... *)
Definition ex_trip_env : tx_env :=
  mkTxEnv (mkEnv WIFI_AP_STATE ex_ap ex_ap dot11AuthAlgrthm_8021X AES AES 0 (fun _ => 0) false (fun _ => mkPs 0 0 0 0 0 0 0))
    false 2346 true false false false [] 0 ex_malloc true 0.
Definition ex_trip_stas : sta_priv :=
  let P := snd (rtw_alloc_stainfo (snd (rtw_alloc_stainfo (init_sta_priv 4) bc_addr)) ex_me) in
  let x := sta_at P 1 in
  set_sta P 1 (mkSta (mac_addr x) WIFI_ASOC_STATE (flags x) 1 0 AES (replicate 32 7) (sta_recvpriv x) (sta_defrag x) (recvreorder_ctrl x) (on_auth_list x)).
Definition ex_trip_pkt : list Z := ex_me ++ ex_far ++ [8; 0] ++ [1; 2; 3; 4; 5].
Definition ex_trip_attrib : tx_attrib :=
  mkTa (mkTx AES 26 8 8 0 0 ex_ap ex_me (replicate 32 7)) 0x88 true 0x0800 0 14 5 ([1; 0; 0; 0x20] ++ zeros 14) (zeros 16) 3 0 ex_me ex_far 0
    true false false false 0 (Some 1%nat) (zeros 16).
Definition ex_trip_next : tx_attrib * gmap nat sta_xmit :=
  match next_seq ex_trip_stas ex_trip_attrib ∅ with Ok (Some r) => r | _ => (ex_trip_attrib, ∅) end.
Definition ex_trip_key : list Z := replicate 16 7.

Lemma ex_trip_frame : tx_frame_ok ex_trip_env ex_trip_stas ex_trip_pkt (mkXmit (Some (zeros 300)) 0x1000 0) ex_trip_attrib ∅ (zeros 40) (zeros 260)
  FROM_DS (x_dst ex_trip_attrib) (mybssid (te ex_trip_env)) (x_src ex_trip_attrib) (fst ex_trip_next) (snd ex_trip_next).
Proof.
  split; try (vm_compute; reflexivity); try (vm_compute; discriminate).
  - split; try reflexivity. right. split; reflexivity.
  - split; vm_compute; split; discriminate.
  - vm_compute. split; discriminate.
Qed.

Lemma ex_trip_sends : ap_sends ex_trip_env ex_trip_stas ex_trip_pkt (mkXmit (Some (zeros 300)) 0x1000 0) ex_trip_attrib ∅ (zeros 40) (zeros 260)
  (fst ex_trip_next) (snd ex_trip_next) Ccmp128 ex_trip_key.
Proof.
  split; [exact ex_trip_frame | vm_compute; reflexivity | vm_compute; split; [discriminate | reflexivity] | | vm_compute; reflexivity | reflexivity | reflexivity | reflexivity | reflexivity | reflexivity | | |
    reflexivity | exact ex_malloc_ready | reflexivity | vm_compute; discriminate | vm_compute; discriminate].
  - split; [|split; [|split]]; apply bytes_by_compute; vm_compute; reflexivity.
  - exists (replicate 16 7). reflexivity.
  - split; [apply bytes_by_compute; reflexivity | reflexivity].
Qed.

(** The station: as in [RecvPath], with the key in place and the port open. *)
Definition ex_open_stas : sta_priv :=
  let x := sta_at ex_stas 1 in
  set_sta ex_stas 1 (mkSta (mac_addr x) (sta_state x) (flags x) (aid x) 0 AES (replicate 32 7) (sta_recvpriv x) (sta_defrag x) (recvreorder_ctrl x) (on_auth_list x)).
Definition ex_open_env : path_env :=
  mkPath ex_wpa_env 0 ex_malloc true 0 true false true (fun _ => zeros 8) [] 0 (fun _ => true) false (fun _ => true).
Definition ex_open_state : rx_state :=
  mkState (mkValid ex_open_stas (replicate 4 (zeros 8)) false (mkSide 0 0 [])) ex_sw_sec crc_state0
    (mkGk 0 0 0) (mkGk 0 0 0) (mkGk 0 0 0) false (mkPool (seq 1 255) 255) ∅ ∅ [] 0 [] 0 [].

Lemma ex_open_table : table_ok ex_open_stas.
Proof.
  replace ex_open_stas with (set_sta ex_blocked_stas 1 (sta_at ex_open_stas 1)) by (vm_compute; reflexivity).
  apply set_sta_ok; [exact ex_table_ok | apply list_elem_of_In; vm_compute; auto | vm_compute; reflexivity].
Qed.

Lemma ex_peer : peer_ready ex_open_env ex_open_state 1 Ccmp128 ex_trip_key (mybssid (te ex_trip_env)) (GetPriority (qos_control ex_trip_attrib 0)).
Proof.
  split; [reflexivity | reflexivity | reflexivity | vm_compute; discriminate | reflexivity | reflexivity | reflexivity | exact ex_malloc_ready | reflexivity | reflexivity |
    exact ex_open_table | vm_compute; reflexivity | vm_compute; reflexivity | | | vm_compute; reflexivity | | exact ex_iv_seq_ok | ].
  - exists (replicate 16 7). vm_compute. reflexivity.
  - split; [apply bytes_by_compute; reflexivity | reflexivity].
  - vm_compute. intros c Hc. injection Hc as <-. reflexivity.
  - apply recvpriv_ok_all. cbn. repeat constructor; (apply Forall_replicate || idtac); unfold is_byte; lia.
Qed.

(** The counters of a station from which nothing came yet differ from every sequence number. *)
Lemma ex_fresh w tid v : get_rxseq w tid init_sta_recv = Ok v -> v = 0xffff.
Proof.
  destruct w; cbn [get_rxseq init_sta_recv bmc_tid_rxseq rxcache tid_rxseq nonqos_bmc_rxseq nonqos_rxseq]; intros H;
    try (apply rd_Ok in H as [_ H]; apply lookup_replicate in H as [H _]; exact H); injection H as <-; reflexivity.
Qed.

Lemma sent_packet_arrives_witness : exists r f s',
  rtw_xmitframe_coalesce ex_trip_env ex_trip_stas ex_trip_pkt (mkXmit (Some (zeros 300)) 0x1000 0) ex_trip_attrib ∅ ex_sw_sec crc_state0 = Ok r /\
  t_last_txcmdsz (x_sec (cr_attrib r)) = rf_len f /\
  rtw_recv_entry ex_open_env f ex_open_state = Ok (SUCCESS, s') /\ packets s' = [ex_trip_pkt].
Proof.
  destruct (sent_packet_arrives ex_trip_env ex_trip_stas ex_trip_pkt (mkXmit (Some (zeros 300)) 0x1000 0) ex_trip_attrib ∅ (zeros 40) (zeros 260)
    (fst ex_trip_next) (snd ex_trip_next) Ccmp128 ex_trip_key ex_sw_sec crc_state0 ex_open_env ex_open_state 1 ex_trip_sends ex_peer eq_refl)
    as (air & post & r & E1 & _ & _ & _ & E5 & Z & Hrx); [discriminate|].
  set (f := mkRf 0 (zeros 6 ++ air ++ zeros 64) 6 (6 + zlen air) (zlen air) (mkRa (mkRx 0 0 0 0 (zeros 6) (zeros 6)) 0 0 0 0 0 0 0 0 0 0 (zeros 6) (zeros 6) (zeros 6) 0 0 0 0) 0).
  destruct (Hrx f (zeros 6) (zeros 64)) as (s' & R1 & R2 & _).
  - split; try reflexivity. rewrite !zlen_app, Z. vm_compute. reflexivity.
  - apply bytes_by_compute. reflexivity.
  - apply bytes_by_compute. reflexivity.
  - vm_compute. discriminate.
  - reflexivity.
  - intros Hf. apply ex_fresh in Hf. vm_compute in Hf. discriminate.
  - exists r, f, s'. split; [exact E1|]. split; [exact E5|]. split; [exact R1 | exact R2].
Defined.
